(* ===== verification/_CoqProject ===== *)
-Q . S2P
Prelude.v
Arrays.v
Checksum.v
AlinkFrame.v
AlinkCheck.v
AlinkRecv.v
Linked.v
AlinkBuild.v
AlinkOrder.v
AlinkUpload.v
SysportTask.v
SysportTimer.v
Layout.v
CFloat.v
FloatError.v
Lapjv.v
LapjvPath.v
Association.v
Kalman.v
Tracker.v
TrackerSteps.v
TrackerFilm.v
Yolo.v
YoloBox.v
YoloRun.v
Bytetrack.v
BytetrackSort.v
BytetrackNms.v
CString.v
AlgInterface.v
AlinkWorld.v
AlinkSystem.v
AlinkTrack.v
AlinkTarget.v
NetconProtocol.v
PtzProtocol.v
EthLinkPtz.v
PtzControl.v
Guide.v
TargetList.v
AiMain.v
AiVision.v
Vision.v
AlgApp.v
Alink.v
RadarNetwork.v
C2Network.v
AiReport.v
EthLinkServer.v
Sockets.v
TcpServer.v
TcpClient.v
UdpSocket.v
Discovery.v
RadarSession.v
EthLink.v
System.v
Tools.v
Storage.v
PtzApp.v
AlgStart.v
