(* ===== verification/Prelude.v ===== *)
(** * AGX PTZ controller: a verification development

    The program runs on a Jetson AGX between sensors (radars, a drone detector called the
    tracer), a command station (C2) and a camera head that pans, tilts and zooms (PTZ).  It
    finds its peers by UDP broadcast, takes target tracks over TCP, chooses a target, turns
    the head to it and reports to C2.  This development models that program from the bytes
    on its sockets to the commands for the head, and proves the parts and their composition.

    ** The parts and their files

    The alink protocol ([src/srv/alink]): frames with a magic byte, a header checksum and a
    CRC.
    - [Checksum]: the CRC ([check/checksum.c]) against a bit-serial definition.
    - [AlinkFrame]: the frame as data and as bytes, the specification of everything that
      builds or reads frames.
    - [AlinkCheck]: the checks of a received packet ([check/alink_check.c]).
    - [AlinkRecv]: the receiving state machine ([analysis/alink_recv.c]), which finds frames
      in a stream that is cut anywhere.
    - [AlinkBuild]: the lines that write a header in front of a payload, which three
      components share.
    - [AlinkOrder]: the dispatch of commands and their replies ([analysis/alink_order.c]).
    - [AlinkUpload]: the packages that are sent to subscribers ([upload]).
    - [AlinkWorld], [AlinkSystem], [AlinkTrack], [AlinkTarget]: what the command handlers
      share, and the handlers of the three groups of commands ([command]).
    - [Alink]: the module that ties them together ([alink.c], [analysis/alink_socket.c]).

    The network ([src/srv/eth_link], [src/app]):
    - [NetconProtocol]: the messages of the discovery protocol ([eth_protocol]).
    - [Sockets], [TcpServer], [TcpClient], [UdpSocket]: the system calls as an interface with
      laws, and the three socket modules as machines with one turn per pass of their loops
      ([socket]).
    - [EthLinkServer], [Discovery]: radars that are found and their servers, and the threads
      that look for them, their start and their end ([eth_link_server.c]).
    - [EthLink]: the other side, on which C2 finds the AGX ([eth_link.c]).
    - [RadarNetwork], [C2Network], [RadarSession]: what the connections do with their bytes
      ([src/app/radars_network], [src/app/c2_network]), and a radar's session from the
      socket to the command.

    The head and the algorithms:
    - [PtzProtocol], [EthLinkPtz], [PtzControl]: messages of the head, the link that sends
      and dispatches them, the commands ([src/srv/eth_link/ptz_protocol],
      [src/srv/eth_link/eth_link_ptz.c]).
    - [SysportTask], [AlgInterface]: message-queue threads, and the one through which
      packages reach the algorithms ([src/common/sysport/task],
      [src/srv/algs/alg_interface.c]); [SysportTimer]: timers and the time
      ([src/common/sysport/timer], [src/common/sysport/time]).
    - [TargetList]: the targets that wait ([src/app/alg_app/alg_app.cpp]).
    - [Guide], [AiMain]: the choice of a target and the guidance of the head
      ([src/srv/algs/ai_alg]).
    - [AiVision]: the variants of the guidance that use the picture; [AiReport]: the report of
      the boxes in a picture to C2 (both [ai_main.cpp]).
    - [AlgApp]: the thread that does it ([src/app/alg_app], [src/app/ptz]); [AlgStart]: its start
      and its end.
    - [PtzApp]: the thread that reads the video stream of the head ([src/app/ptz]).
    - [System]: the path from the socket of a radar through all of these to the head.

    The vision library ([src/srv/algs/yolov8_infer]), which follows objects from picture to
    picture:
    - [Lapjv], [LapjvPath]: the algorithm of Jonker and Volgenant for the assignment of rows to
      columns ([lapjv.cpp]).
    - [Association]: the assignment with a limit of the costs, where rows and columns may stay
      alone ([linear_assignment], [lapjv] in [utils.cpp]).
    - [Kalman]: the filter of a track ([kalmanFilter.cpp]).
    - [Tracker]: tracks and the turn of the tracker on a picture ([BYTETracker.cpp],
      [STrack.cpp], [utils.cpp]); [TrackerSteps]: what its steps do; [TrackerFilm]: its
      behaviour over the pictures of a film.
    - [Vision]: the guidance of [AiVision] with this tracker.
    - [Yolo]: the class around the neural network, from the picture to the network's input and
      from its output to boxes ([yolov8.cpp]); [YoloBox], [YoloRun]: what rounding does to the
      frame of a picture and to the boxes, and that the buffers of the object fit its engine.
    - [Bytetrack], [BytetrackSort], [BytetrackNms]: boxes from anchors, their sort and their
      suppression, in the demonstration ([bytetrack.cpp]).

    Shared: this file (integers, memory, lists, automation), [Arrays] (arrays and counted
    loops), [Linked] (intrusive lists in a heap), [Layout] (C structures), [CFloat] (IEEE
    numbers), [FloatError] (their values as reals and their rounding errors), [CString] (string functions), [Tools] ([src/common/tools]) and [Storage]
    ([src/common/storage]).

    A part's state is a record, its operations are functions of the same names as in the
    source, and where the source calls through a pointer (callbacks, command handlers,
    message-queue functions) the record holds a Rocq function.  What a call through a
    pointer may change is a type parameter, usually [S], [W] or [X], and a file that puts
    parts together instantiates it with the state of the next part.  [None] is undefined
    behaviour or an endless wait (an access outside an object, a freed block, a missing
    [NULL] check); error codes are values.  Threads are machines whose steps interleave.

    ** What is proved

    - Frames: the checks accept exactly the encodings of frames, the receiver finds in a
      stream exactly the frames it contains however it is cut, builders and parsers are
      inverse to each other, the CRC equals its reference and detects every burst up to
      sixteen bits.
    - Commands: which handlers [alink_init] registers, that each frame runs the handler of
      its command once and in order, what every handler changes and replies, and for which
      payload lengths it stays inside its memory.
    - Subscribers: under any sequence of connections, ends and ticks each tick sends one
      encoded heartbeat to every subscriber.
    - Discovery: on every branch what an answer or a request does to the lists of servers
      and clients, that ports and radars stay distinct, and that no reachable state fails;
      what is sent to a radar that answers; that stopping comes to its end under every fair
      schedule, and the race in which it does not.
    - Sockets: over all interleavings, the order of the callbacks, the descriptors that are
      open, and when a thread ends.
    - The head: what each command puts on the wire, that every message is dispatched to its
      handler, how long the messages must be.
    - Targets: the list refines a bounded queue in all interleavings and with all failures,
      the chosen track is the most dangerous one, and from the bytes on the socket of a radar
      to the command for the head nothing is lost and everything is freed.
    - Assignment: the algorithm of the shortest paths terminates and, for exact costs, finds an
      assignment of least cost; with the limit the pairs and the rest are an optimal partial
      matching.
    - Tracks: over any film the lists of the tracker stay disjoint and free of duplicates, a
      track that is seen again keeps its number, and one that finds no box ends.
    - Pictures: which track is followed and when, on which track the head locks and where, and
      that the boxes of a picture reach every subscriber as one frame.
    - The network: the scaled picture and its frame fill the input exactly in spite of rounding,
      mapping boxes back inverts it up to a stated error, every box lies in the picture, and
      the exact condition under which buffers suffice.
    - Boxes from anchors: the sort terminates inside the vector and sorts, and the boxes that
      are left are the greedy choice among those above the threshold.
    - The stream: in which interleavings with its thread a request to end is obeyed.

    Where the code falls short of what it means to do, the theorem states what it does
    ([iff] statements for memory safety) and its comment names the difference.

    ** Bounds and fuel

    Integers are in [Z] with the wrap-around of their width written out.  Walks over linked
    lists take the size of the heap as fuel, which no list in the heap exceeds
    ([Linked.is_list_size]); loops over bytes take the length; the search for a port tries
    all of its hundred ports; the collection of a package takes one step per byte that is
    missing, since each read brings at least one; the rounds of the assignment of rows are
    bounded by the sums that decrease in them ([Lapjv], [LapjvPath]).  In each case a lemma
    shows that the fuel is not used up.  The theorems on the tracker ask for fewer than 65536
    tracks and boxes in a picture, which keeps the sizes of its matrices inside [int].

    ** Parameters

    [malloc] (whether it works, and which free address it gives), locks, the message queue,
    sockets and the clock are parameters of the operations, with their documented behaviour
    as the laws of a class where a theorem needs it ([Sockets.KernelLaws],
    [TargetList.Malloc], [Guide.SortsBy]).  So are the functions of [math.h], the products and
    solutions of equations of Eigen ([Kalman.eigen], whose results have the documented shapes
    by [Kalman.Shapes]), the files ([Storage.FilesLaws]), the answers of the video stream,
    the inference engine ([Yolo.ICudaEngine] with [Yolo.EngineLaws]) and the allocators of CUDA, the
    operations of OpenCV on pictures and rectangles ([Bytetrack.Rects]), and in [Vision] and
    [AiReport] the boxes that the network finds in a picture.  Witnesses instantiate them.

    ** Not modelled

    Logging; [printf]; TensorRT, CUDA and OpenCV themselves; the destructor of the class
    around the network and the drawing of boxes; the main function of the demonstration
    program of the vision library and its scaling of pictures; decoding the video stream
    (OpenCV); [gating_distance] of the filter, which nothing calls; the walks over directories
    and other parts of the tools that are calls of the C library; older copies of code that
    nothing includes or starts ([yolov8.hpp], [fusion_ai_alg_thread0]); the start-up in
    [main.c]; the SDK and the demo of the
    head's manufacturer under [src/doc]. *)

From stdpp Require Export base list gmap.
From Stdlib Require Export ZArith Lia.

Declare Scope c_scope.
Delimit Scope c_scope with c.
Global Open Scope Z_scope.

(** ** Machine integers

    A C unsigned integer of width [w] is a [Z] in [0 .. 2^w); every assignment
    to a variable of that type goes through the wrap-around written here. *)

Definition u8 (x : Z) : Z := x mod 256.
Definition u16 (x : Z) : Z := x mod 65536.
Definition u32 (x : Z) : Z := x mod 4294967296.
Definition u64 (x : Z) : Z := x mod 18446744073709551616.

(** Conversion to [int32_t] (two's complement). *)
Definition i32 (x : Z) : Z := (x + 2147483648) mod 4294967296 - 2147483648.

Definition is_byte (b : Z) : Prop := 0 <= b < 256.
Abbreviation bytes_ok := (Forall is_byte).

Global Instance is_byte_dec b : Decision (is_byte b).
Proof. unfold is_byte. apply _. Defined.

(** Length of a buffer as a C integer. *)
Definition Zlen {A} (l : list A) : Z := Z.of_nat (length l).

Arguments u8 : simpl never.
Arguments u16 : simpl never.
Arguments u32 : simpl never.
Arguments u64 : simpl never.
Arguments i32 : simpl never.
Arguments Zlen : simpl never.

(** ** Bytes in memory

    An object of the C program is the list of its bytes; a pointer into it is
    an offset.  An access outside the object is undefined behaviour in C and
    is [None] here, so that memory safety is the statement [is_Some]. *)

Definition ld8 (m : list Z) (p : Z) : option Z :=
  if bool_decide (0 <= p) then m !! Z.to_nat p else None.

Definition ld_bytes (m : list Z) (p n : Z) : option (list Z) :=
  if bool_decide (0 <= p /\ 0 <= n /\ p + n <= Zlen m)
  then Some (take (Z.to_nat n) (drop (Z.to_nat p) m)) else None.

Definition st_bytes (m : list Z) (p : Z) (bs : list Z) : option (list Z) :=
  if bool_decide (0 <= p /\ p + Zlen bs <= Zlen m)
  then Some (take (Z.to_nat p) m ++ bs ++ drop (Z.to_nat p + length bs) m)
  else None.

Definition st8 (m : list Z) (p v : Z) : option (list Z) := st_bytes m p [u8 v].

(** A C loop that walks [n] consecutive bytes from [p], threading [a]. *)
Fixpoint fold_bytes {A} (f : A -> Z -> A) (n : nat) (m : list Z) (p : Z) (a : A)
  : option A :=
  match n with
  | O => Some a
  | S n' => b ← ld8 m p; fold_bytes f n' m (p + 1) (f a b)
  end.

(** Little-endian representation of an [n]-byte integer. *)
Fixpoint le_bytes (n : nat) (v : Z) : list Z :=
  match n with
  | O => []
  | S n' => v mod 256 :: le_bytes n' (v / 256)
  end.

Fixpoint le_val (bs : list Z) : Z :=
  match bs with
  | [] => 0
  | b :: bs' => b + 256 * le_val bs'
  end.

Definition ld_le (n : nat) (m : list Z) (p : Z) : option Z :=
  le_val <$> ld_bytes m p (Z.of_nat n).

Definition st_le (n : nat) (m : list Z) (p v : Z) : option (list Z) :=
  st_bytes m p (le_bytes n v).

Definition zsum (bs : list Z) : Z := foldr Z.add 0 bs.

(** Notations of the development: [m ⟨ p ⟩] reads a byte, [m ⟨ p, n ⟩] a range. *)
Notation "m '⟨' p '⟩'" := (ld8 m p) (at level 1, format "m ⟨ p ⟩") : c_scope.
Notation "m '⟨' p ',,' n '⟩'" := (ld_bytes m p n)
  (at level 1, format "m ⟨ p ,,  n ⟩") : c_scope.

(** ** Blocks and pointers

    Where a claim depends on which object a pointer refers to, the store is a
    finite map of blocks and a pointer is a block with an offset. *)

Abbreviation memory := (gmap nat (list Z)).

Record ptr := Ptr { pblk : nat; poff : Z }.

Global Instance ptr_eq_dec : EqDecision ptr.
Proof. solve_decision. Defined.

Definition ptr_add (p : ptr) (k : Z) : ptr := Ptr (pblk p) (poff p + k).

(** Runs a reader of one object at a pointer. *)
Definition at_ptr {A} (mem : memory) (p : ptr) (f : list Z -> Z -> option A) : option A :=
  m ← mem !! pblk p; f m (poff p).

(** ** Automation *)

Create HintDb bytes discriminated.
Create Rewrite HintDb mem.

(** [lia] with the wrap-arounds unfolded and Euclidean division explained. *)
Ltac wrap_lia :=
  unfold Zlen, is_byte, u8, u16, u32, u64, i32 in *;
  Z.div_mod_to_equations; lia.

(** Splits the [bool_decide]s of the memory accessors. *)
Ltac mem_case :=
  repeat match goal with
  | |- context [bool_decide ?P] =>
      first [ rewrite (bool_decide_eq_true_2 P) by (unfold Zlen in *; lia)
            | rewrite (bool_decide_eq_false_2 P) by (unfold Zlen in *; lia) ]
  end.

(** Inverts the binds of the option monad in the hypotheses. *)
Ltac inv_bind :=
  repeat match goal with
  | H : (_ ≫= _) = Some _ |- _ => apply bind_Some in H; destruct H as (? & ? & ?)
  | H : (_ <$> _) = Some _ |- _ => apply fmap_Some in H; destruct H as (? & ? & ?)
  | H : Some _ = Some _ |- _ => injection H; clear H; intros
  end; try subst.

(** Splits [Forall P] on an explicit list into one hypothesis per element. *)
Ltac forall_inv H :=
  repeat (apply Forall_cons in H; let Hx := fresh "Hx" in destruct H as [Hx H]);
  try clear H.

(** Proves a decidable proposition about closed terms by evaluation. *)
Ltac by_eval := refine (bool_decide_unpack _ _); vm_compute; exact I.

(** ** Lists *)

Lemma Zlen_nil {A} : Zlen (@nil A) = 0.
Proof. reflexivity. Qed.

Lemma Zlen_cons {A} (x : A) l : Zlen (x :: l) = 1 + Zlen l.
Proof. unfold Zlen. simpl. lia. Qed.

Lemma Zlen_app {A} (l k : list A) : Zlen (l ++ k) = Zlen l + Zlen k.
Proof. unfold Zlen. rewrite length_app. lia. Qed.

Lemma Zlen_snoc {A} (l : list A) x : Zlen (l ++ [x]) = Zlen l + 1.
Proof. unfold Zlen. rewrite length_app. simpl. lia. Qed.

Lemma Zlen_nonneg {A} (l : list A) : 0 <= Zlen l.
Proof. unfold Zlen. lia. Qed.

Lemma Zlen_to_nat {A} (l : list A) : Z.to_nat (Zlen l) = length l.
Proof. unfold Zlen. lia. Qed.

Lemma le_bytes_length n v : length (le_bytes n v) = n.
Proof. revert v. induction n; intros; simpl; congruence. Qed.

Lemma Zlen_le_bytes n v : Zlen (le_bytes n v) = Z.of_nat n.
Proof. unfold Zlen. by rewrite le_bytes_length. Qed.

Lemma le_bytes_ok n v : bytes_ok (le_bytes n v).
Proof.
  revert v. induction n; intros; simpl; constructor; auto.
  apply Z.mod_pos_bound. lia.
Qed.

Lemma le_val_le_bytes n v : le_val (le_bytes n v) = v mod 256 ^ Z.of_nat n.
Proof.
  revert v. induction n as [|n IH]; intros v.
  - simpl. by rewrite Z.mod_1_r.
  - cbn [le_bytes le_val]. rewrite IH, Nat2Z.inj_succ, Z.pow_succ_r by lia.
    rewrite Z.rem_mul_r by lia. reflexivity.
Qed.

Lemma le_val_small n v : 0 <= v < 256 ^ Z.of_nat n -> le_val (le_bytes n v) = v.
Proof. intros. rewrite le_val_le_bytes. by apply Z.mod_small. Qed.

Lemma le_val_range bs : bytes_ok bs -> 0 <= le_val bs < 256 ^ Zlen bs.
Proof.
  unfold Zlen.
  induction 1 as [|b bs Hb H IH]; cbn [le_val length]; [lia|].
  rewrite Nat2Z.inj_succ, Z.pow_succ_r by lia. unfold is_byte in Hb. lia.
Qed.

Lemma le_bytes_le_val bs : bytes_ok bs -> le_bytes (length bs) (le_val bs) = bs.
Proof.
  induction 1 as [|b bs Hb H IH]; [done|].
  cbn [le_val le_bytes length]. unfold is_byte in Hb.
  replace ((b + 256 * le_val bs) mod 256) with b by wrap_lia.
  replace ((b + 256 * le_val bs) / 256) with (le_val bs) by wrap_lia.
  by rewrite IH.
Qed.

Lemma bytes_ok_app l k : bytes_ok (l ++ k) <-> bytes_ok l /\ bytes_ok k.
Proof. apply Forall_app. Qed.

Lemma bytes_ok_take n l : bytes_ok l -> bytes_ok (take n l).
Proof. apply Forall_take. Qed.

Lemma bytes_ok_drop n l : bytes_ok l -> bytes_ok (drop n l).
Proof. apply Forall_drop. Qed.

Lemma u8_byte x : is_byte (u8 x).
Proof. unfold is_byte, u8. apply Z.mod_pos_bound. lia. Qed.

Lemma u8_id x : is_byte x -> u8 x = x.
Proof. unfold is_byte, u8. intros. by apply Z.mod_small. Qed.

Lemma u16_id x : 0 <= x < 65536 -> u16 x = x.
Proof. unfold u16. apply Z.mod_small. Qed.

Lemma u32_id x : 0 <= x < 4294967296 -> u32 x = x.
Proof. unfold u32. apply Z.mod_small. Qed.

Lemma zsum_app l k : zsum (l ++ k) = zsum l + zsum k.
Proof. unfold zsum. induction l as [|x l IH]; cbn [app foldr]; lia. Qed.

Lemma zsum_snoc l x : zsum (l ++ [x]) = zsum l + x.
Proof. rewrite zsum_app. unfold zsum at 2. cbn [foldr]. lia. Qed.

Lemma zsum_bound l : bytes_ok l -> 0 <= zsum l <= 255 * Zlen l.
Proof.
  unfold zsum. induction 1 as [|b l Hb _ IH]; cbn [foldr].
  - by unfold Zlen.
  - rewrite Zlen_cons. unfold is_byte in Hb. lia.
Qed.

Lemma foldl_u8_sum bs a :
  foldl (λ s b, u8 (s + b)) (u8 a) bs = u8 (a + zsum bs).
Proof.
  unfold zsum. revert a. induction bs as [|b bs IH]; intros a; cbn [foldl foldr].
  - by rewrite Z.add_0_r.
  - replace (u8 (u8 a + b)) with (u8 (a + b)) by (unfold u8; by rewrite Z.add_mod_idemp_l).
    rewrite IH. f_equal. lia.
Qed.

Lemma foldl_add_sum bs a : foldl Z.add a bs = a + zsum bs.
Proof.
  unfold zsum. revert a.
  induction bs as [|b bs IH]; intros a; cbn [foldl foldr]; [|rewrite IH]; lia.
Qed.

(** ** Memory accessors *)

Lemma ld8_app a b k : 0 <= k -> ld8 (a ++ b) (Zlen a + k) = ld8 b k.
Proof.
  intros. unfold ld8, Zlen. mem_case.
  rewrite lookup_app_r by lia. f_equal. lia.
Qed.

Lemma ld8_app_l a b k : k < Zlen a -> ld8 (a ++ b) k = ld8 a k.
Proof.
  intros. unfold ld8. case_bool_decide; [|done].
  apply lookup_app_l. unfold Zlen in *. lia.
Qed.

Lemma ld8_middle a x b : ld8 (a ++ x :: b) (Zlen a) = Some x.
Proof.
  rewrite <-(Z.add_0_r (Zlen a)), ld8_app by lia. reflexivity.
Qed.

Lemma ld8_cons x l k : 0 < k -> ld8 (x :: l) k = ld8 l (k - 1).
Proof.
  intros. unfold ld8. mem_case.
  replace (Z.to_nat k) with (S (Z.to_nat (k - 1))) by lia. reflexivity.
Qed.

Lemma ld8_Some m p : is_Some (ld8 m p) <-> 0 <= p < Zlen m.
Proof.
  unfold ld8, Zlen. case_bool_decide.
  - rewrite lookup_lt_is_Some. lia.
  - split; [intros [? ?]; done|lia].
Qed.

Lemma ld8_range m p v : ld8 m p = Some v -> 0 <= p < Zlen m.
Proof. intros H. apply ld8_Some. eauto. Qed.

Lemma ld8_byte m p v : bytes_ok m -> ld8 m p = Some v -> is_byte v.
Proof.
  unfold ld8. case_bool_decide; [|done]. intros Hm H'.
  eapply Forall_lookup_1; eauto.
Qed.

Lemma ld_bytes_Some m p n :
  is_Some (ld_bytes m p n) <-> 0 <= p /\ 0 <= n /\ p + n <= Zlen m.
Proof.
  unfold ld_bytes. case_bool_decide as E; split; intros H; try done; eauto.
Qed.

Lemma ld_bytes_len m p n bs : ld_bytes m p n = Some bs -> Zlen bs = n.
Proof.
  unfold ld_bytes. case_bool_decide as E; [|done]. intros [= <-].
  unfold Zlen in *. rewrite length_take, length_drop. lia.
Qed.

Lemma ld_bytes_split m p n bs :
  ld_bytes m p n = Some bs ->
  exists a b, m = a ++ bs ++ b /\ Zlen a = p /\ Zlen bs = n.
Proof.
  intros H. pose proof (ld_bytes_len _ _ _ _ H) as Hl. revert H.
  unfold ld_bytes. case_bool_decide as E; [|done]. intros [= <-].
  exists (take (Z.to_nat p) m), (drop (Z.to_nat n) (drop (Z.to_nat p) m)).
  rewrite !take_drop. split; [done|]. split; [|done].
  unfold Zlen in *. rewrite length_take. lia.
Qed.

Lemma ld_bytes_app a bs b p n :
  Zlen a = p -> Zlen bs = n -> ld_bytes (a ++ bs ++ b) p n = Some bs.
Proof.
  intros <- <-. unfold ld_bytes.
  rewrite !Zlen_app. pose proof (Zlen_nonneg b).
  rewrite bool_decide_eq_true_2 by (unfold Zlen; lia).
  rewrite !Zlen_to_nat, drop_app_length, take_app_length. done.
Qed.

Lemma ld_bytes_prefix bs b n : Zlen bs = n -> ld_bytes (bs ++ b) 0 n = Some bs.
Proof. by apply (ld_bytes_app []). Qed.

Lemma ld_bytes_shift a m p n :
  0 <= p -> ld_bytes (a ++ m) (Zlen a + p) n = ld_bytes m p n.
Proof.
  intros. unfold ld_bytes. rewrite Zlen_app. pose proof (Zlen_nonneg a).
  case_bool_decide as E1; case_bool_decide as E2; try lia; [|done].
  do 2 f_equal. rewrite drop_app_ge by (unfold Zlen; lia).
  f_equal. unfold Zlen. lia.
Qed.

Lemma ld_bytes_all m : ld_bytes m 0 (Zlen m) = Some m.
Proof.
  pose proof (ld_bytes_app [] m [] 0 (Zlen m) eq_refl eq_refl) as H.
  by rewrite app_nil_r in H.
Qed.

Lemma ld_bytes_ok m p n bs : bytes_ok m -> ld_bytes m p n = Some bs -> bytes_ok bs.
Proof.
  intros Hm H. apply ld_bytes_split in H as (a & b & -> & _).
  by apply bytes_ok_app in Hm as [_ [? _]%bytes_ok_app].
Qed.

Lemma ld8_ld_bytes m p n bs k :
  ld_bytes m p n = Some bs -> 0 <= k < n -> ld8 m (p + k) = ld8 bs k.
Proof.
  intros (a & b & -> & <- & <-)%ld_bytes_split Hk.
  rewrite ld8_app by lia. apply ld8_app_l. lia.
Qed.

Lemma st_bytes_app a bs b bs' p :
  Zlen a = p -> Zlen bs = Zlen bs' -> st_bytes (a ++ bs ++ b) p bs' = Some (a ++ bs' ++ b).
Proof.
  intros <- Hl. unfold st_bytes. rewrite !Zlen_app.
  pose proof (Zlen_nonneg b).
  rewrite bool_decide_eq_true_2 by (unfold Zlen in *; lia).
  rewrite Zlen_to_nat, take_app_length. do 3 f_equal.
  rewrite <-drop_drop, drop_app_length.
  apply drop_app_length'. unfold Zlen in Hl. lia.
Qed.

Lemma st_bytes_prefix c b bs :
  Zlen c = Zlen bs -> st_bytes (c ++ b) 0 bs = Some (bs ++ b).
Proof. by apply (st_bytes_app []). Qed.

(** A store at the end of the part of a buffer that is already written. *)
Lemma st_bytes_extend a m p bs :
  Zlen a = p -> Zlen bs <= Zlen m ->
  st_bytes (a ++ m) p bs = Some ((a ++ bs) ++ drop (length bs) m).
Proof.
  intros Ha Hl. rewrite <-(take_drop (length bs) m) at 1.
  rewrite (st_bytes_app a (take (length bs) m)), <-app_assoc; [done|done|].
  unfold Zlen in *. rewrite length_take. lia.
Qed.

Lemma st_bytes_Some m p bs :
  is_Some (st_bytes m p bs) <-> 0 <= p /\ p + Zlen bs <= Zlen m.
Proof.
  unfold st_bytes. case_bool_decide as E; split; intros H; try done; eauto.
Qed.

Lemma st_bytes_split m p bs m' :
  st_bytes m p bs = Some m' ->
  exists a c b, m = a ++ c ++ b /\ m' = a ++ bs ++ b /\ Zlen a = p /\ Zlen c = Zlen bs.
Proof.
  unfold st_bytes. case_bool_decide as E; [|done]. intros [= <-].
  destruct (proj2 (ld_bytes_Some m p (Zlen bs))) as [c Hc].
  { pose proof (Zlen_nonneg bs). lia. }
  apply ld_bytes_split in Hc as (a & b & -> & <- & Hl).
  exists a, c, b. repeat split; [|done].
  rewrite Zlen_to_nat, take_app_length. do 2 f_equal.
  rewrite <-drop_drop, drop_app_length.
  apply drop_app_length'. unfold Zlen in Hl. lia.
Qed.

Lemma st_bytes_len m p bs m' : st_bytes m p bs = Some m' -> Zlen m' = Zlen m.
Proof.
  intros (a & c & b & -> & -> & _ & ?)%st_bytes_split. rewrite !Zlen_app. lia.
Qed.

Lemma st_bytes_ok m p bs m' :
  bytes_ok m -> bytes_ok bs -> st_bytes m p bs = Some m' -> bytes_ok m'.
Proof.
  intros Hm Hb (a & c & b & -> & -> & _)%st_bytes_split.
  rewrite !bytes_ok_app in *. tauto.
Qed.

Lemma fold_bytes_foldl {A} (f : A -> Z -> A) m p n bs a :
  ld_bytes m p n = Some bs -> fold_bytes f (Z.to_nat n) m p a = Some (foldl f a bs).
Proof.
  intros (x & y & -> & <- & <-)%ld_bytes_split.
  rewrite Zlen_to_nat. revert x a.
  induction bs as [|b bs IH]; intros x a; [done|].
  cbn [fold_bytes length foldl]. rewrite <-app_comm_cons, ld8_middle. simpl.
  specialize (IH (x ++ [b]) (f a b)).
  rewrite <-app_assoc, Zlen_app in IH. exact IH.
Qed.

Lemma fold_bytes_oob {A} (f : A -> Z -> A) m p n a :
  0 < n -> ~ (0 <= p /\ p + n <= Zlen m) -> fold_bytes f (Z.to_nat n) m p a = None.
Proof.
  intros Hn. rewrite <-(Z2Nat.id n) at 1 by lia.
  remember (Z.to_nat n) as k eqn:Ek. assert (Hk : (0 < k)%nat) by lia.
  clear Ek Hn n. revert p a.
  induction k as [|k IH]; intros p a Hp; [lia|].
  cbn [fold_bytes]. destruct (ld8 m p) as [b|] eqn:E; [|done]. simpl.
  apply ld8_range in E. destruct k; [lia|]. apply IH; lia.
Qed.

#[export] Hint Resolve u8_byte le_bytes_ok bytes_ok_take bytes_ok_drop : bytes.
#[export] Hint Rewrite @Zlen_nil @Zlen_cons @Zlen_app Zlen_le_bytes : mem.

(** Normalises buffer lengths and calls [lia]. *)
Ltac len_lia := autorewrite with mem in *; unfold is_byte in *; lia.
