(* ===== verification/Arrays.v ===== *)
(** * Arrays and counted loops

    An array of a C program as the list of its elements, read and written at an integer index
    ([None] out of bounds); loops [for (i = a; i < b; i++)], with and without a [return] in
    their body, and the rules that prove their invariants. *)

From S2P Require Import Prelude.
From stdpp Require Import list_numbers.
Local Open Scope list_scope.
Local Open Scope Z_scope.

Definition aget {A} (l : list A) (i : Z) : option A :=
  if 0 <=? i then l !! Z.to_nat i else None.

Definition aset {A} (l : list A) (i : Z) (v : A) : option (list A) :=
  if (0 <=? i) && (i <? Zlen l) then Some (<[Z.to_nat i := v]> l) else None.

(** The same, total: what an access in bounds gives. *)
Definition nthZ {A} `{!Inhabited A} (l : list A) (i : Z) : A := nth (Z.to_nat i) l inhabitant.
Definition updZ {A} (l : list A) (i : Z) (v : A) : list A := <[Z.to_nat i := v]> l.

Notation "l ⟦ i ⟧" := (nthZ l i) (at level 1, left associativity, format "l ⟦ i ⟧") : c_scope.
Open Scope c_scope.

Arguments aget : simpl never.
Arguments aset : simpl never.
Arguments nthZ : simpl never.
Arguments updZ : simpl never.

Section arrays.
Context {A : Type} `{!Inhabited A}.
Implicit Types l : list A.

Lemma aget_nthZ l i : 0 <= i < Zlen l -> aget l i = Some (nthZ l i).
Proof.
  intros [H0 H1]. unfold aget, nthZ. destruct (Z.leb_spec 0 i); [|lia].
  unfold Zlen in H1. destruct (lookup_lt_is_Some_2 l (Z.to_nat i)) as [a Ha]; [lia|].
  rewrite Ha. f_equal. symmetry. by apply nth_lookup_Some.
Qed.

Lemma aget_Some l i x : aget l i = Some x <-> 0 <= i /\ l !! Z.to_nat i = Some x.
Proof. unfold aget. destruct (Z.leb_spec 0 i); split; [auto|tauto|done|lia]. Qed.

Lemma aget_is_Some l i : is_Some (aget l i) <-> 0 <= i < Zlen l.
Proof.
  unfold aget, Zlen. destruct (Z.leb_spec 0 i).
  - rewrite lookup_lt_is_Some. lia.
  - split; [by intros [? ?]|lia].
Qed.

Lemma aset_updZ l i v : 0 <= i < Zlen l -> aset l i v = Some (updZ l i v).
Proof.
  intros H. unfold aset. destruct (Z.leb_spec 0 i); [|lia]. by destruct (Z.ltb_spec i (Zlen l)); [|lia].
Qed.

Lemma Zlen_updZ l i v : Zlen (updZ l i v) = Zlen l.
Proof. unfold Zlen, updZ. by rewrite length_insert. Qed.

Lemma nthZ_lookup l i : 0 <= i < Zlen l -> l !! Z.to_nat i = Some (nthZ l i).
Proof. intros H. rewrite <-(aget_nthZ l i H). unfold aget. by destruct (Z.leb_spec 0 i); [|lia]. Qed.

Lemma nthZ_updZ_eq l i v : 0 <= i < Zlen l -> nthZ (updZ l i v) i = v.
Proof.
  intros H. unfold nthZ, updZ. apply nth_lookup_Some. apply list_lookup_insert_eq.
  unfold Zlen in H. lia.
Qed.

Lemma nthZ_updZ_ne l i j v : 0 <= i -> 0 <= j -> i <> j -> nthZ (updZ l i v) j = nthZ l j.
Proof.
  intros H0 H1 Hn. unfold nthZ, updZ. rewrite !nth_lookup.
  by rewrite list_lookup_insert_ne by lia.
Qed.

Lemma nthZ_updZ l i j v : 0 <= i < Zlen l -> 0 <= j ->
  nthZ (updZ l i v) j = if j =? i then v else nthZ l j.
Proof.
  intros Hi Hj. destruct (Z.eqb_spec j i) as [->|]; [by apply nthZ_updZ_eq|].
  apply nthZ_updZ_ne; lia.
Qed.

Lemma nthZ_elem l i : 0 <= i < Zlen l -> nthZ l i ∈ l.
Proof. intros H. eapply list_elem_of_lookup_2. by apply nthZ_lookup. Qed.

Lemma elem_nthZ l a : a ∈ l -> exists i, 0 <= i < Zlen l /\ nthZ l i = a.
Proof.
  intros (i & Hi)%list_elem_of_lookup_1. exists (Z.of_nat i). split.
  - apply lookup_lt_Some in Hi. unfold Zlen. lia.
  - unfold nthZ. rewrite Nat2Z.id. by apply nth_lookup_Some.
Qed.

Lemma NoDup_nthZ l i j : NoDup l -> 0 <= i < Zlen l -> 0 <= j < Zlen l ->
  nthZ l i = nthZ l j -> i = j.
Proof.
  intros Hl Hi Hj E.
  assert (Z.to_nat i = Z.to_nat j); [|lia]. eapply NoDup_lookup; [done| |].
  - by apply nthZ_lookup.
  - rewrite E. by apply nthZ_lookup.
Qed.

Lemma list_nthZ l : l = nthZ l <$> seqZ 0 (Zlen l).
Proof.
  apply list_eq. intros i. rewrite list_lookup_fmap.
  destruct (decide (i < length l)%nat) as [Hi|Hi].
  - rewrite lookup_seqZ_lt by (unfold Zlen; lia). cbn [fmap option_fmap option_map].
    rewrite <-(nthZ_lookup l) by (unfold Zlen; lia). f_equal. lia.
  - rewrite lookup_ge_None_2 by lia. rewrite lookup_ge_None_2; [done|].
    rewrite length_seqZ. unfold Zlen. lia.
Qed.

End arrays.

(** Evaluates the accesses whose index is in bounds by arithmetic. *)
Ltac arr_lia := rewrite ?Zlen_updZ in *; lia.
Ltac arr :=
  cbn [mbind option_bind];
  repeat (match goal with
          | |- context [aget ?l ?i] => rewrite (aget_nthZ l i) by arr_lia
          | |- context [aset ?l ?i ?v] => rewrite (aset_updZ l i v) by arr_lia
          end; cbn [mbind option_bind]).

(** ** Loops *)

Fixpoint for_each {I A} (ks : list I) (f : I -> A -> option A) (a : A) : option A :=
  match ks with
  | [] => Some a
  | i :: ks => a ← f i a; for_each ks f a
  end.

(** The body may return: [inl] is the result, [inr] goes on. *)
Fixpoint for_return {I A R} (ks : list I) (f : I -> A -> option (R + A)) (a : A) : option (R + A) :=
  match ks with
  | [] => Some (inr a)
  | i :: ks => ra ← f i a; match ra with inl r => Some (inl r) | inr a => for_return ks f a end
  end.

(** [for (i = lo; i < hi; i++)] *)
Definition range (lo hi : Z) : list Z := seqZ lo (hi - lo).

Lemma range_nil lo hi : hi <= lo -> range lo hi = [].
Proof. intros. apply seqZ_nil. lia. Qed.

Lemma range_cons lo hi : lo < hi -> range lo hi = lo :: range (lo + 1) hi.
Proof. intros. unfold range. rewrite seqZ_cons by lia. f_equal; f_equal; lia. Qed.

Lemma range_snoc lo hi : lo <= hi -> range lo (hi + 1) = range lo hi ++ [hi].
Proof.
  intros H. unfold range. replace (hi + 1 - lo) with (hi - lo + 1) by lia. rewrite seqZ_app by lia.
  by replace (lo + (hi - lo)) with hi by lia.
Qed.

Lemma range_app lo mid hi : lo <= mid <= hi -> range lo hi = range lo mid ++ range mid hi.
Proof.
  intros H. unfold range. replace (hi - lo) with ((mid - lo) + (hi - mid)) by lia.
  rewrite seqZ_app by lia. by replace (lo + (mid - lo)) with mid by lia.
Qed.

Lemma elem_range lo hi i : i ∈ range lo hi <-> lo <= i < hi.
Proof. unfold range. rewrite elem_of_seqZ. lia. Qed.

Lemma NoDup_range lo hi : NoDup (range lo hi).
Proof. apply NoDup_seqZ. Qed.

Lemma length_range lo hi : length (range lo hi) = Z.to_nat (hi - lo).
Proof. apply length_seqZ. Qed.

(** The rules: an invariant that every pass keeps holds at the end. *)
Lemma for_range_inv {A} (P : Z -> A -> Prop) f lo hi a : lo <= hi -> P lo a ->
  (forall i a, lo <= i < hi -> P i a -> exists a', f i a = Some a' /\ P (i + 1) a') ->
  exists a', for_each (range lo hi) f a = Some a' /\ P hi a'.
Proof.
  intros Hle. remember (Z.to_nat (hi - lo)) as n eqn:En. revert lo a Hle En.
  induction n as [|n IH]; intros lo a Hle En HP Hf.
  - replace hi with lo by lia. rewrite range_nil by lia. by exists a.
  - rewrite range_cons by lia. cbn [for_each]. destruct (Hf lo a) as (a1 & E1 & H1); [lia|done|].
    rewrite E1. cbn [mbind option_bind]. apply IH; [lia|lia|done|]. intros. apply Hf; [lia|done].
Qed.

Lemma for_return_inv {A R} (P : Z -> A -> Prop) (Q : R -> Prop) f lo hi a : lo <= hi -> P lo a ->
  (forall i a, lo <= i < hi -> P i a -> exists ra, f i a = Some ra /\
     match ra with inl r => Q r | inr a' => P (i + 1) a' end) ->
  exists ra, for_return (range lo hi) f a = Some ra /\ match ra with inl r => Q r | inr a' => P hi a' end.
Proof.
  intros Hle. remember (Z.to_nat (hi - lo)) as n eqn:En. revert lo a Hle En.
  induction n as [|n IH]; intros lo a Hle En HP Hf.
  - replace hi with lo by lia. rewrite range_nil by lia. by exists (inr a).
  - rewrite range_cons by lia. cbn [for_return]. destruct (Hf lo a) as (ra & E1 & H1); [lia|done|].
    rewrite E1. cbn [mbind option_bind]. destruct ra as [r|a1]; [by exists (inl r)|].
    apply IH; [lia|lia|done|]. intros. apply Hf; [lia|done].
Qed.
