(* ===== verification/Checksum.v ===== *)
(** * X.25 checksum ([src/srv/alink/check/checksum.c])

    The CRC of the alink and of the network-discovery protocols: the byte-wise
    update of the source, its loop over a buffer, a bit-serial reference
    definition and the error-detection facts that the frame formats rely on. *)

From Stdlib Require Import Btauto.
From S2P Require Import Prelude.
Local Open Scope c_scope.

(** ** The code *)

Definition X25_INIT_CRC : Z := 65535.

(** [crc_accumulate]: [tmp] is a [uint8_t], [*crcAccum] a [uint16_t]; the
    shifts are computed at [int] width and truncated by the assignments. *)
Definition crc_accumulate (data crcAccum : Z) : Z :=
  let tmp := u8 (Z.lxor data (u8 (Z.land crcAccum 255))) in
  let tmp := u8 (Z.lxor tmp (Z.shiftl tmp 4)) in
  u16 (Z.lxor (Z.lxor (Z.lxor (Z.shiftr crcAccum 8) (Z.shiftl tmp 8))
                      (Z.shiftl tmp 3))
              (Z.shiftr tmp 4)).

Definition alink_crc_init : Z := X25_INIT_CRC.

(** [crc_calculate pBuffer length]: [length] is a [uint16_t] parameter, so the
    argument is truncated before [while (length--)] counts it down. *)
Definition crc_calculate (m : list Z) (pBuffer length : Z) : option Z :=
  fold_bytes (λ crc b, crc_accumulate b crc) (Z.to_nat (u16 length)) m pBuffer
    alink_crc_init.

Definition crc_accumulate_buffer (crcAccum : Z) (m : list Z) (pBuffer length : Z)
  : option Z :=
  fold_bytes (λ crc b, crc_accumulate b crc) (Z.to_nat (u16 length)) m pBuffer
    crcAccum.

(** ** Reference definitions *)

(** The CRC of a byte string, from a given register. *)
Definition crc_from (crc : Z) (bs : list Z) : Z :=
  foldl (λ crc b, crc_accumulate b crc) crc bs.

Definition crc_bytes (bs : list Z) : Z := crc_from X25_INIT_CRC bs.

(** One bit of the reflected CRC-16 with polynomial 0x1021 (0x8408 reversed). *)
Definition crc_bit_step (r : Z) : Z :=
  if Z.odd r then Z.lxor (Z.shiftr r 1) 33800 else Z.shiftr r 1.

Definition crc_serial_byte (data crc : Z) : Z :=
  Nat.iter 8 crc_bit_step (Z.lxor crc data).

Definition crc_serial (bs : list Z) : Z :=
  foldl (λ crc b, crc_serial_byte b crc) X25_INIT_CRC bs.

(** ** The byte update as a table lookup *)

Definition is_word (x : Z) : Prop := 0 <= x < 65536.

(** The contribution of the folded byte [t]; [crc_accumulate] is
    [crc >> 8] xor this. *)
Definition crc_table (t : Z) : Z := crc_accumulate t 0.

Definition all_bytes : list Z := seqZ 0 256.

Lemma all_bytes_spec b : is_byte b -> b ∈ all_bytes.
Proof. intros. unfold all_bytes. apply elem_of_seqZ. unfold is_byte in *. lia. Qed.

(** A decidable statement about every byte is proved by evaluation. *)
Lemma byte_forall (P : Z -> bool) :
  forallb P all_bytes = true -> forall b, is_byte b -> P b = true.
Proof.
  intros H b Hb. eapply forallb_forall; [exact H|].
  apply list_elem_of_In, all_bytes_spec, Hb.
Qed.

Lemma word_split crc : is_word crc ->
  crc = Z.lxor (Z.land crc 255) (Z.shiftl (Z.shiftr crc 8) 8).
Proof.
  intros H. apply Z.bits_inj'. intros n Hn.
  rewrite Z.lxor_spec, Z.land_spec, Z.shiftl_spec by lia.
  change 255 with (Z.ones 8). rewrite Z.testbit_ones_nonneg by lia.
  destruct (Z.ltb_spec n 8).
  - rewrite (Z.testbit_neg_r _ (n - 8)) by lia. by rewrite andb_true_r, xorb_false_r.
  - rewrite Z.shiftr_spec, andb_false_r by lia.
    by replace (n - 8 + 8) with n by lia; rewrite xorb_false_l.
Qed.

Lemma lxor_bound k a b :
  0 <= k -> 0 <= a < 2 ^ k -> 0 <= b < 2 ^ k -> 0 <= Z.lxor a b < 2 ^ k.
Proof.
  intros Hk Ha Hb. assert (0 <= Z.lxor a b) by (apply Z.lxor_nonneg; lia).
  split; [done|]. destruct (decide (Z.lxor a b = 0)) as [->|Hne]; [lia|].
  apply Z.log2_lt_pow2; [lia|].
  eapply Z.le_lt_trans; [apply Z.log2_lxor; lia|].
  assert (forall x, 0 <= x < 2 ^ k -> k <> 0 -> Z.log2 x < k) as Hlog.
  { intros x Hx Hk0. destruct (decide (x = 0)) as [->|]; [simpl; lia|].
    apply Z.log2_lt_pow2; lia. }
  destruct (decide (k = 0)) as [->|Hk0].
  - assert (a = 0) as -> by lia. assert (b = 0) as -> by lia. done.
  - apply Z.max_lub_lt; auto.
Qed.

Lemma lxor_byte a b : is_byte a -> is_byte b -> is_byte (Z.lxor a b).
Proof. apply (lxor_bound 8). lia. Qed.

Lemma lxor_word a b : is_word a -> is_word b -> is_word (Z.lxor a b).
Proof. apply (lxor_bound 16). lia. Qed.

Lemma crc_table_word t : is_byte t -> is_word (crc_table t).
Proof. intros _. unfold crc_table, crc_accumulate, u16, is_word. apply Z.mod_pos_bound. lia. Qed.

Lemma crc_accumulate_word d c : is_word (crc_accumulate d c).
Proof. unfold crc_accumulate, u16, is_word. apply Z.mod_pos_bound. lia. Qed.

Lemma shiftr8_byte c : is_word c -> is_byte (Z.shiftr c 8).
Proof. unfold is_word, is_byte. rewrite Z.shiftr_div_pow2 by lia. intros. wrap_lia. Qed.

Lemma land255_byte c : is_byte (Z.land c 255).
Proof.
  change 255 with (Z.ones 8). rewrite Z.land_ones by lia.
  apply Z.mod_pos_bound. lia.
Qed.

Lemma land_lxor_distr a b c :
  Z.land (Z.lxor a b) c = Z.lxor (Z.land a c) (Z.land b c).
Proof.
  apply Z.bits_inj'. intros n Hn. rewrite Z.land_spec, !Z.lxor_spec, !Z.land_spec.
  by destruct (Z.testbit a n), (Z.testbit b n), (Z.testbit c n).
Qed.

(** The update in closed form. *)
Lemma crc_accumulate_table data crc :
  is_byte data -> is_word crc ->
  crc_accumulate data crc
  = Z.lxor (Z.shiftr crc 8) (crc_table (Z.lxor data (Z.land crc 255))).
Proof.
  intros Hd Hc. pose proof (land255_byte crc) as Hl.
  pose proof (lxor_byte _ _ Hd Hl) as Ht.
  unfold crc_table, crc_accumulate.
  rewrite Z.land_0_l, (u8_id (Z.land crc 255)) by done.
  change (u8 0) with 0. rewrite Z.lxor_0_r, !(u8_id (Z.lxor data _)) by done.
  set (tmp := u8 (Z.lxor _ (Z.shiftl _ 4))).
  change (Z.shiftr 0 8) with 0. rewrite Z.lxor_0_l, !Z.lxor_assoc.
  unfold u16. change 65536 with (2 ^ 16).
  rewrite <-!Z.land_ones, land_lxor_distr by lia. f_equal.
  rewrite Z.land_ones by lia. apply Z.mod_small.
  pose proof (shiftr8_byte _ Hc) as Hs. unfold is_byte in Hs. lia.
Qed.

(** ** Equivalence with the bit-serial definition *)

Lemma odd_lxor a b : Z.odd (Z.lxor a b) = xorb (Z.odd a) (Z.odd b).
Proof. by rewrite <-!Z.bit0_odd, Z.lxor_spec. Qed.

Lemma shiftr_lxor a b n : 0 <= n ->
  Z.shiftr (Z.lxor a b) n = Z.lxor (Z.shiftr a n) (Z.shiftr b n).
Proof.
  intros. apply Z.bits_inj'. intros k Hk.
  by rewrite Z.lxor_spec, !Z.shiftr_spec, Z.lxor_spec by lia.
Qed.

(** The step is linear; on multiples of [2^(k+1)] it is a plain shift. *)
Lemma crc_bit_step_lxor a b :
  crc_bit_step (Z.lxor a b) = Z.lxor (crc_bit_step a) (crc_bit_step b).
Proof.
  unfold crc_bit_step. rewrite odd_lxor, shiftr_lxor by lia.
  apply Z.bits_inj'. intros k Hk.
  destruct (Z.odd a), (Z.odd b); cbn [xorb]; rewrite !Z.lxor_spec; btauto.
Qed.

Lemma crc_iter_lxor n a b :
  Nat.iter n crc_bit_step (Z.lxor a b)
  = Z.lxor (Nat.iter n crc_bit_step a) (Nat.iter n crc_bit_step b).
Proof. induction n as [|n IH]; simpl; [done|]. by rewrite IH, crc_bit_step_lxor. Qed.

Lemma crc_iter_shift n h :
  Nat.iter n crc_bit_step (Z.shiftl h (Z.of_nat n)) = h.
Proof.
  revert h. induction n as [|n IH]; intros h; [apply Z.shiftl_0_r|].
  rewrite <-(IH h) at 2. rewrite Nat.iter_succ_r. f_equal.
  unfold crc_bit_step. rewrite <-Z.bit0_odd, Z.shiftl_spec, Z.testbit_neg_r by lia.
  rewrite Z.shiftr_shiftl_l by lia. f_equal. lia.
Qed.

Lemma crc_table_serial t :
  is_byte t -> Nat.iter 8 crc_bit_step t = crc_table t.
Proof.
  intros Ht.
  apply Z.eqb_eq.
  apply (byte_forall (λ t, Nat.iter 8 crc_bit_step t =? crc_table t)); [|done].
  vm_compute. reflexivity.
Qed.

Lemma crc_accumulate_serial data crc :
  is_byte data -> is_word crc -> crc_accumulate data crc = crc_serial_byte data crc.
Proof.
  intros Hd Hc. rewrite crc_accumulate_table by done. unfold crc_serial_byte.
  rewrite (word_split crc Hc) at 3.
  rewrite (Z.lxor_comm (Z.land crc 255)), Z.lxor_assoc, crc_iter_lxor.
  rewrite (crc_iter_shift 8), (Z.lxor_comm _ data), crc_table_serial; [done|].
  apply lxor_byte; [done|apply land255_byte].
Qed.

Lemma crc_from_word bs c : is_word c -> is_word (crc_from c bs).
Proof.
  revert c. induction bs as [|b bs IH]; intros c Hc; [done|].
  apply IH, crc_accumulate_word.
Qed.

Lemma init_word : is_word X25_INIT_CRC.
Proof. unfold is_word, X25_INIT_CRC. lia. Qed.

Lemma crc_bytes_word bs : is_word (crc_bytes bs).
Proof. apply crc_from_word, init_word. Qed.

Lemma crc_from_app c l k : crc_from c (l ++ k) = crc_from (crc_from c l) k.
Proof. apply foldl_app. Qed.

(** The source loop reads exactly [length mod 65536] bytes. *)
Lemma crc_calculate_spec m p n bs :
  ld_bytes m p (u16 n) = Some bs -> crc_calculate m p n = Some (crc_bytes bs).
Proof. apply (fold_bytes_foldl (λ crc b, crc_accumulate b crc)). Qed.

(** ** Injectivity: the update determines register and data *)

Lemma lxor_cancel_l a b c : Z.lxor a b = Z.lxor a c -> b = c.
Proof.
  intros H. rewrite <-(Z.lxor_0_l b), <-(Z.lxor_0_l c), <-(Z.lxor_nilpotent a).
  by rewrite !Z.lxor_assoc, H.
Qed.

Lemma shiftr8_16 c : is_word c -> Z.shiftr (Z.shiftr c 8) 8 = 0.
Proof.
  intros Hc. apply shiftr8_byte in Hc. unfold is_byte in Hc.
  rewrite Z.shiftr_div_pow2 by lia. apply Z.div_small. lia.
Qed.

(** The high half of a table entry determines the index. *)
Definition table_inverse (h : Z) : Z :=
  let tmp := Z.lxor h (Z.shiftr h 5) in Z.lxor tmp (u8 (Z.shiftl tmp 4)).

Lemma crc_table_inverse t :
  is_byte t -> table_inverse (Z.shiftr (crc_table t) 8) = t.
Proof.
  intros Ht. apply Z.eqb_eq.
  apply (byte_forall (λ t, table_inverse (Z.shiftr (crc_table t) 8) =? t)); [|done].
  vm_compute. reflexivity.
Qed.

Lemma crc_accumulate_inj d1 d2 c1 c2 :
  is_byte d1 -> is_byte d2 -> is_word c1 -> is_word c2 ->
  crc_accumulate d1 c1 = crc_accumulate d2 c2 ->
  Z.shiftr c1 8 = Z.shiftr c2 8
  /\ Z.lxor d1 (Z.land c1 255) = Z.lxor d2 (Z.land c2 255).
Proof.
  intros H1 H2 Hc1 Hc2 E. rewrite !crc_accumulate_table in E by done.
  set (t1 := Z.lxor d1 _) in *. set (t2 := Z.lxor d2 _) in *.
  assert (is_byte t1 /\ is_byte t2) as [B1 B2]
    by (split; apply lxor_byte; auto using land255_byte).
  assert (t1 = t2) as Et.
  { apply (f_equal (λ x, table_inverse (Z.shiftr x 8))) in E.
    rewrite !shiftr_lxor, !shiftr8_16, !Z.lxor_0_l in E by (done || lia).
    by rewrite !crc_table_inverse in E. }
  split; [|done]. rewrite Et, !(Z.lxor_comm (Z.shiftr _ _)) in E.
  by apply lxor_cancel_l in E.
Qed.

Lemma word_ext c1 c2 : is_word c1 -> is_word c2 ->
  Z.shiftr c1 8 = Z.shiftr c2 8 -> Z.land c1 255 = Z.land c2 255 -> c1 = c2.
Proof. intros H1 H2 E1 E2. rewrite (word_split c1), (word_split c2) by done. congruence. Qed.

Lemma crc_accumulate_state_inj d c1 c2 :
  is_byte d -> is_word c1 -> is_word c2 ->
  crc_accumulate d c1 = crc_accumulate d c2 -> c1 = c2.
Proof.
  intros Hd H1 H2 E. destruct (crc_accumulate_inj d d c1 c2) as [Eh El]; auto.
  apply lxor_cancel_l in El. by apply word_ext.
Qed.

Lemma crc_from_inj bs c1 c2 :
  bytes_ok bs -> is_word c1 -> is_word c2 ->
  crc_from c1 bs = crc_from c2 bs -> c1 = c2.
Proof.
  intros Hb. revert c1 c2. induction Hb as [|b bs Hb _ IH]; intros c1 c2 H1 H2 E; [done|].
  eapply crc_accumulate_state_inj; eauto. apply IH; auto using crc_accumulate_word.
Qed.

(** Two consecutive bytes are determined by the register they lead to. *)
Lemma crc_pair_inj a1 a2 b1 b2 c :
  bytes_ok [a1; a2; b1; b2] -> is_word c ->
  crc_from c [a1; a2] = crc_from c [b1; b2] -> a1 = b1 /\ a2 = b2.
Proof.
  intros H Hc E. rewrite !Forall_cons in H. destruct H as (A1 & A2 & B1 & B2 & _).
  unfold crc_from in E. cbn [foldl] in E.
  apply crc_accumulate_inj in E as [Eh El]; auto using crc_accumulate_word.
  assert (a1 = b1) as ->.
  { rewrite !crc_accumulate_table, !shiftr_lxor, !shiftr8_16, !Z.lxor_0_l in Eh by (done || lia).
    apply (f_equal table_inverse) in Eh.
    rewrite !crc_table_inverse in Eh by (apply lxor_byte; auto using land255_byte).
    rewrite !(Z.lxor_comm _ (Z.land c 255)) in Eh. by apply lxor_cancel_l in Eh. }
  split; [done|].
  rewrite !(Z.lxor_comm _ (Z.land _ 255)) in El. by apply lxor_cancel_l in El.
Qed.

Lemma crc_serial_bytes bs : bytes_ok bs -> crc_bytes bs = crc_serial bs.
Proof.
  unfold crc_bytes, crc_from, crc_serial. generalize init_word.
  generalize X25_INIT_CRC. intros c Hc Hb. revert c Hc.
  induction Hb as [|b bs Hb _ IH]; intros c Hc; [done|]. cbn [foldl].
  rewrite <-crc_accumulate_serial by done. apply IH, crc_accumulate_word.
Qed.

(** Feeding the register its own two bytes, low first, clears it. *)
Lemma crc_self_clears c : is_word c -> crc_from c (le_bytes 2 c) = 0.
Proof.
  intros Hc.
  assert (le_bytes 2 c = [Z.land c 255; Z.shiftr c 8]) as ->.
  { cbn [le_bytes]. change 255 with (Z.ones 8). rewrite Z.land_ones by lia.
    rewrite Z.shiftr_div_pow2 by lia. change (2 ^ 8) with 256.
    do 2 f_equal. unfold is_word in Hc. wrap_lia. }
  unfold crc_from. cbn [foldl].
  rewrite (crc_accumulate_table (Z.land c 255)) by auto using land255_byte.
  rewrite Z.lxor_nilpotent. change (crc_table 0) with 0. rewrite Z.lxor_0_r.
  pose proof (shiftr8_byte c Hc) as Hs.
  assert (is_word (Z.shiftr c 8)) by (unfold is_word, is_byte in *; lia).
  rewrite crc_accumulate_table, shiftr8_16 by done.
  assert (Z.land (Z.shiftr c 8) 255 = Z.shiftr c 8) as ->.
  { change 255 with (Z.ones 8). rewrite Z.land_ones by lia. by apply Z.mod_small. }
  by rewrite Z.lxor_nilpotent.
Qed.

(** ** Properties *)

Lemma crc_calculate_range m p bs :
  Zlen bs < 65536 -> ld_bytes m p (Zlen bs) = Some bs ->
  crc_calculate m p (Zlen bs) = Some (crc_bytes bs).
Proof.
  intros Hl H. apply crc_calculate_spec.
  rewrite u16_id; [done|]. pose proof (Zlen_nonneg bs). lia.
Qed.

(** C35: on every range of fewer than 65536 bytes that lies inside its object,
    the table-free byte-wise loop of [crc_calculate] computes the bit-serial
    CRC-16 with reflected polynomial 0x8408 and initial value 0xffff. *)
Theorem crc_calculate_refines_serial m p bs :
  bytes_ok bs -> Zlen bs < 65536 -> ld_bytes m p (Zlen bs) = Some bs ->
  crc_calculate m p (Zlen bs) = Some (crc_serial bs).
Proof.
  intros Hb Hl H. rewrite <-crc_serial_bytes by done. by apply crc_calculate_range.
Qed.

Lemma crc_calculate_refines_serial_witness :
  crc_calculate [7; 49; 50; 51; 9] 1 3 = Some (crc_serial [49; 50; 51]).
Proof.
  apply (crc_calculate_refines_serial [7; 49; 50; 51; 9] 1 [49; 50; 51]).
  - repeat constructor; unfold is_byte; lia.
  - reflexivity.
  - reflexivity.
Defined.

(** C36: every corruption confined to two consecutive bytes of a message
    changes the value computed by [crc_calculate] (all bursts of at most 16
    bits that are byte-aligned, hence every single-bit and single-byte error). *)
Theorem crc_detects_burst pre x1 x2 y1 y2 post :
  bytes_ok (pre ++ [x1; x2] ++ post) -> bytes_ok [y1; y2] ->
  Zlen (pre ++ [x1; x2] ++ post) < 65536 -> (x1, x2) <> (y1, y2) ->
  let l1 := pre ++ [x1; x2] ++ post in
  let l2 := pre ++ [y1; y2] ++ post in
  crc_calculate l1 0 (Zlen l1) <> crc_calculate l2 0 (Zlen l2).
Proof.
  intros H Hy Hl Hne l1 l2. apply bytes_ok_app in H as [Hpre H].
  pose proof H as [Hx Hpost]%bytes_ok_app.
  assert (Zlen l2 = Zlen l1) as El by (unfold l1, l2, Zlen; by rewrite !length_app).
  assert (bytes_ok (x1 :: x2 :: [y1; y2])) as H4 by (rewrite !Forall_cons in *; tauto).
  rewrite (crc_calculate_range l1 0 l1), (crc_calculate_range l2 0 l2)
    by (apply ld_bytes_all || (rewrite ?El; done)).
  intros [= E]. unfold crc_bytes, l1, l2 in E. rewrite !crc_from_app in E.
  pose proof (crc_from_word pre _ init_word) as Hw.
  apply crc_from_inj in E; [|done|by apply crc_from_word..].
  apply crc_pair_inj in E as [-> ->]; done.
Qed.

Lemma crc_detects_burst_witness :
  crc_calculate [1; 2; 3; 4; 5] 0 5 <> crc_calculate [1; 2; 131; 4; 5] 0 5.
Proof.
  apply (crc_detects_burst [1; 2] 3 4 131 4 [5]).
  - repeat constructor; unfold is_byte; lia.
  - repeat constructor; unfold is_byte; lia.
  - reflexivity.
  - discriminate.
Defined.

(** A message followed by its own checksum, low byte first, always has
    checksum 0 under [crc_calculate]; in particular never the constant
    [X25_VALIDATE_CRC] = 0xf0b8 that [checksum.h] declares for validation. *)
Lemma crc_residue_zero bs :
  bytes_ok bs -> Zlen bs + 2 < 65536 ->
  exists crc, crc_calculate bs 0 (Zlen bs) = Some crc
    /\ crc_calculate (bs ++ le_bytes 2 crc) 0 (Zlen bs + 2) = Some 0.
Proof.
  intros Hb Hl. exists (crc_bytes bs). split.
  { apply crc_calculate_range; [lia|apply ld_bytes_all]. }
  replace (Zlen bs + 2) with (Zlen (bs ++ le_bytes 2 (crc_bytes bs))) in *
    by (rewrite Zlen_app, Zlen_le_bytes; lia).
  rewrite crc_calculate_range by (done || apply ld_bytes_all).
  unfold crc_bytes at 1. rewrite crc_from_app. f_equal.
  apply crc_self_clears, crc_bytes_word.
Qed.

Lemma crc_residue_zero_witness :
  exists crc, crc_calculate [49; 50] 0 2 = Some crc
    /\ crc_calculate ([49; 50] ++ le_bytes 2 crc) 0 4 = Some 0.
Proof.
  apply (crc_residue_zero [49; 50]).
  - repeat constructor; unfold is_byte; lia.
  - reflexivity.
Defined.

Global Opaque crc_accumulate.
