(* ===== verification/AlinkFrame.v ===== *)
(** * The alink frame format ([src/srv/alink/alink_defines.h],
    [src/srv/alink/check/alink_check.h])

    The packed header of a message, the layout constants, and the abstract
    frame with its byte representation: the specification that the checker, the
    receiver, the uploader and the discovery protocol are proved against. *)

From S2P Require Import Prelude Checksum.

(** ** Layout of [alink_msg_head_t] *)

Record alink_msg_head := {
  magic : Z; len_lo : Z; len_hi : Z; seq : Z; destid : Z; sourceid : Z;
  msgid : Z; ans : Z; checksum : Z
}.

Definition alink_msg_head_bytes (h : alink_msg_head) : list Z :=
  [magic h; len_lo h; len_hi h; seq h; destid h; sourceid h; msgid h; ans h; checksum h].

Definition off_magic : Z := 0.
Definition off_len_lo : Z := 1.
Definition off_len_hi : Z := 2.
Definition off_seq : Z := 3.
Definition off_destid : Z := 4.
Definition off_sourceid : Z := 5.
Definition off_msgid : Z := 6.
Definition off_ans : Z := 7.
Definition off_checksum : Z := 8.
Definition sizeof_alink_msg_head : Z := 9.

Definition ALINK_MSG_MAGIC_VALUE : Z := 253.
Definition ALINK_NO_PAYLOAD_SIZE : Z := 11.
Definition ALINK_HEADER_CHECKSUM_LEN : Z := 8.

(** ** Abstract frames *)

Record alink_frame := Frame {
  fr_seq : Z; fr_dest : Z; fr_src : Z; fr_id : Z; fr_ans : Z;
  fr_payload : list Z
}.

Global Instance alink_frame_eq_dec : EqDecision alink_frame.
Proof. solve_decision. Defined.

Definition frame_ok (f : alink_frame) : Prop :=
  bytes_ok [fr_seq f; fr_dest f; fr_src f; fr_id f; fr_ans f]
  /\ bytes_ok (fr_payload f) /\ Zlen (fr_payload f) < 65536.

Global Instance frame_ok_dec f : Decision (frame_ok f).
Proof. unfold frame_ok. apply _. Defined.

(** The eight header bytes covered by the header checksum. *)
Definition head8 (f : alink_frame) : list Z :=
  [ALINK_MSG_MAGIC_VALUE; Zlen (fr_payload f) mod 256; Zlen (fr_payload f) / 256;
   fr_seq f; fr_dest f; fr_src f; fr_id f; fr_ans f].

Definition head9 (f : alink_frame) : list Z := head8 f ++ [u8 (zsum (head8 f))].

(** Everything the CRC covers, magic byte included at the head. *)
Definition frame_body (f : alink_frame) : list Z := head9 f ++ fr_payload f.

Definition frame_crc (f : alink_frame) : Z := crc_bytes (tail (frame_body f)).

Definition encode (f : alink_frame) : list Z :=
  frame_body f ++ le_bytes 2 (frame_crc f).

(** ** Facts about encoded frames *)

Lemma Zlen_head9 f : Zlen (head9 f) = 9.
Proof. reflexivity. Qed.

Lemma Zlen_frame_body f : Zlen (frame_body f) = 9 + Zlen (fr_payload f).
Proof. unfold frame_body. by rewrite Zlen_app, Zlen_head9. Qed.

Lemma Zlen_encode f : Zlen (encode f) = 11 + Zlen (fr_payload f).
Proof. unfold encode. rewrite Zlen_app, Zlen_frame_body, Zlen_le_bytes. lia. Qed.

Lemma head8_ok f : frame_ok f -> bytes_ok (head8 f).
Proof.
  intros (H & _ & Hl). pose proof (Zlen_nonneg (fr_payload f)).
  rewrite !Forall_cons in H. unfold head8, ALINK_MSG_MAGIC_VALUE.
  repeat constructor; try tauto; unfold is_byte; wrap_lia.
Qed.

Lemma frame_body_ok f : frame_ok f -> bytes_ok (frame_body f).
Proof.
  intros H. pose proof (head8_ok f H). destruct H as (_ & H & _).
  unfold frame_body, head9. rewrite !bytes_ok_app.
  repeat split; auto. constructor; auto with bytes.
Qed.

Lemma encode_ok f : frame_ok f -> bytes_ok (encode f).
Proof.
  intros. unfold encode. apply bytes_ok_app.
  auto using frame_body_ok with bytes.
Qed.

(** The two length bytes, reassembled as the source does. *)
Lemma lor_shift8 hi lo :
  is_byte hi -> is_byte lo -> Z.lor (Z.shiftl hi 8) lo = 256 * hi + lo.
Proof.
  unfold is_byte. intros Hh Hl.
  assert (Z.land (Z.shiftl hi 8) lo = 0) as E0.
  { apply Z.bits_inj'. intros n Hn. rewrite Z.land_spec, Z.shiftl_spec, Z.bits_0 by lia.
    destruct (Z.ltb_spec n 8) as [|Hn8]; [by rewrite Z.testbit_neg_r by lia|].
    destruct (decide (lo = 0)) as [->|]; [by rewrite Z.bits_0, andb_false_r|].
    rewrite (Z.bits_above_log2 lo n), andb_false_r; [done|lia|].
    apply Z.log2_lt_pow2; [lia|]. pose proof (Z.pow_le_mono_r 2 8 n). lia. }
  rewrite <-Z.lxor_lor, <-Z.add_nocarry_lxor by done.
  rewrite Z.shiftl_mul_pow2 by lia. lia.
Qed.
