(* ===== verification/AlinkCheck.v ===== *)
(** * Frame checks ([src/srv/alink/check/alink_check.c])

    The functions read a packet at offset [p] of a memory object [m].  The
    [printf] diagnostics are not modelled: they have no effect on the result. *)

From S2P Require Import Prelude Checksum AlinkFrame.
Local Open Scope c_scope.

(** ** The code *)

Definition alink_get_header_size : Z := u8 sizeof_alink_msg_head.

Definition alink_get_payload_size (m : list Z) (psHeader : Z) : option Z :=
  len_hi ← m⟨psHeader + off_len_hi⟩;
  let wSize := u16 len_hi in
  let wSize := u16 (Z.shiftl wSize 8) in
  len_lo ← m⟨psHeader + off_len_lo⟩;
  Some (u16 (Z.lor wSize len_lo)).

Definition alink_get_package_size (m : list Z) (psHeader : Z) : option Z :=
  wSize ← alink_get_payload_size m psHeader;
  Some (u32 (wSize + ALINK_NO_PAYLOAD_SIZE)).

Definition alink_get_header_checksum (m : list Z) (psHeader : Z) : option Z :=
  fold_bytes (λ checksum b, u8 (checksum + b))
    (Z.to_nat ALINK_HEADER_CHECKSUM_LEN) m psHeader 0.

Definition alink_get_package_crc (m : list Z) (pbyPkg wPkgSize : Z) : option Z :=
  let wPkgSize := u16 wPkgSize in
  crc_calculate m (pbyPkg + 1) (wPkgSize - 3).

Definition alink_check_magic (x : Z) : bool := ALINK_MSG_MAGIC_VALUE =? u8 x.

Definition alink_check_header_checksum (m : list Z) (psHeader : Z) : option bool :=
  checksum ← alink_get_header_checksum m psHeader;
  stored ← m⟨psHeader + off_checksum⟩;
  Some (stored =? checksum).

Definition alink_check_crc (m : list Z) (pbyPkg wLen : Z) : option bool :=
  wPgkLen ← alink_get_package_size m pbyPkg;
  if wPgkLen =? wLen then
    wCrcCalc ← crc_calculate m (pbyPkg + 1) (wPgkLen - 3);
    let pbyCrcIndex := pbyPkg + wPgkLen - 2 in
    b1 ← m⟨pbyCrcIndex + 1⟩;
    let wCrcRecv := u16 b1 in
    let wCrcRecv := u16 (Z.shiftl wCrcRecv 8) in
    b0 ← m⟨pbyCrcIndex + 0⟩;
    let wCrcRecv := u16 (Z.lor wCrcRecv b0) in
    Some (wCrcRecv =? wCrcCalc)
  else Some false.

Definition alink_check_package (m : list Z) (pbyPkg wLen : Z) : option bool :=
  let wLen := u16 wLen in
  b ← m⟨pbyPkg + 0⟩;
  if negb (alink_check_magic b) then Some false else
  if wLen <? ALINK_NO_PAYLOAD_SIZE then Some false else
  bRet ← alink_check_header_checksum m pbyPkg;
  if negb bRet then Some false else
  alink_check_crc m pbyPkg wLen.

(** ** The accessors on a readable header *)

Section header.
Context (m : list Z) (h : Z).
Hypothesis Hm : bytes_ok m.

Lemma two_bytes hi lo :
  is_byte hi -> is_byte lo ->
  u16 (Z.lor (u16 (Z.shiftl (u16 hi) 8)) lo) = 256 * hi + lo.
Proof.
  intros Hh Hl. unfold is_byte in *.
  rewrite (u16_id hi) by lia.
  rewrite (u16_id (Z.shiftl hi 8)) by (rewrite Z.shiftl_mul_pow2; lia).
  rewrite lor_shift8 by done. apply u16_id. lia.
Qed.

Lemma payload_size_spec lo hi :
  m⟨h + 1⟩ = Some lo -> m⟨h + 2⟩ = Some hi ->
  alink_get_payload_size m h = Some (256 * hi + lo).
Proof.
  intros Hlo Hhi. unfold alink_get_payload_size, off_len_hi, off_len_lo.
  rewrite Hhi. simpl. rewrite Hlo. simpl.
  rewrite two_bytes; [done|by eapply ld8_byte..].
Qed.

Lemma package_size_spec lo hi :
  m⟨h + 1⟩ = Some lo -> m⟨h + 2⟩ = Some hi ->
  alink_get_package_size m h = Some (256 * hi + lo + 11).
Proof.
  intros Hlo Hhi. unfold alink_get_package_size.
  rewrite (payload_size_spec lo hi) by done. simpl.
  apply ld8_byte in Hlo, Hhi; [|done..]. unfold is_byte, ALINK_NO_PAYLOAD_SIZE in *.
  by rewrite u32_id by lia.
Qed.

Lemma header_checksum_spec bs :
  ld_bytes m h 8 = Some bs -> alink_get_header_checksum m h = Some (u8 (zsum bs)).
Proof.
  intros H. unfold alink_get_header_checksum.
  rewrite (fold_bytes_foldl _ _ _ _ _ _ H).
  change 0 with (u8 0) at 1. by rewrite foldl_u8_sum.
Qed.
End header.

(** ** Locality: a check depends only on the packet it is given *)

Section locality.
Context (m pkg : list Z) (p n : Z).
Hypothesis Hpkg : ld_bytes m p n = Some pkg.

Lemma local_ld8 k : 0 <= k < n -> m⟨p + k⟩ = pkg⟨0 + k⟩.
Proof. intros. by apply (ld8_ld_bytes m p n). Qed.

Lemma local_ld_bytes k l : 0 <= k -> 0 <= l -> k + l <= n ->
  ld_bytes m (p + k) l = ld_bytes pkg k l.
Proof.
  pose proof Hpkg as (a & b & -> & <- & <-)%ld_bytes_split. intros.
  rewrite ld_bytes_shift by lia. unfold ld_bytes.
  rewrite Zlen_app. pose proof (Zlen_nonneg b). mem_case.
  rewrite drop_app_le by (unfold Zlen in *; lia).
  rewrite take_app_le; [done|]. rewrite length_drop. unfold Zlen in *. lia.
Qed.

Lemma local_package_size :
  11 <= n -> alink_get_package_size m p = alink_get_package_size pkg 0.
Proof.
  intros. unfold alink_get_package_size, alink_get_payload_size, off_len_hi, off_len_lo.
  by rewrite !local_ld8 by lia.
Qed.

Lemma local_header_checksum :
  11 <= n -> alink_check_header_checksum m p = alink_check_header_checksum pkg 0.
Proof.
  intros Hn. unfold alink_check_header_checksum, off_checksum.
  rewrite local_ld8 by lia.
  destruct (proj2 (ld_bytes_Some pkg 0 8)) as [bs Hbs].
  { rewrite (ld_bytes_len _ _ _ _ Hpkg). lia. }
  rewrite (header_checksum_spec pkg 0 bs), (header_checksum_spec m p bs); [done| |done].
  rewrite <-(Z.add_0_r p), local_ld_bytes by lia. done.
Qed.

Lemma local_check_crc :
  11 <= n -> n - 3 < 65536 ->
  alink_check_crc m p n = alink_check_crc pkg 0 n.
Proof.
  intros Hn Hn'. unfold alink_check_crc. rewrite local_package_size by done.
  destruct (alink_get_package_size pkg 0) as [sz|]; [|done]. simpl.
  destruct (Z.eqb_spec sz n) as [->|]; [|done].
  destruct (proj2 (ld_bytes_Some pkg 1 (n - 3))) as [bs Hbs].
  { rewrite (ld_bytes_len _ _ _ _ Hpkg). lia. }
  change (0 + 1) with 1.
  rewrite (crc_calculate_spec m (p + 1) (n - 3) bs), (crc_calculate_spec pkg 1 (n - 3) bs).
  - replace (p + n - 2 + 1) with (p + (n - 1)) by lia.
    replace (p + n - 2 + 0) with (p + (n - 2)) by lia.
    replace (0 + n - 2 + 1) with (0 + (n - 1)) by lia.
    replace (0 + n - 2 + 0) with (0 + (n - 2)) by lia.
    by rewrite !local_ld8 by lia.
  - by rewrite u16_id by lia.
  - by rewrite u16_id, local_ld_bytes by lia.
Qed.
End locality.

(** ** The checks on a packet given by its parts *)

Lemma pkg_shape (pkg : list Z) : 11 <= Zlen pkg ->
  exists x0 x1 x2 x3 x4 x5 x6 x7 x8 body c0 c1,
    pkg = [x0; x1; x2; x3; x4; x5; x6; x7; x8] ++ body ++ [c0; c1].
Proof.
  intros H. do 9 (destruct pkg as [|? pkg]; [unfold Zlen in H; simpl in H; lia|]).
  assert (2 <= Zlen pkg) as H2 by (rewrite !Zlen_cons in H; lia). clear H.
  destruct pkg as [|c1 pkg _] using rev_ind; [unfold Zlen in H2; simpl in H2; lia|].
  destruct pkg as [|c0 body _] using rev_ind; [unfold Zlen in H2; simpl in H2; lia|].
  do 9 eexists. exists body, c0, c1. by rewrite <-app_assoc.
Qed.

Section shape.
Context (x0 x1 x2 x3 x4 x5 x6 x7 x8 : Z) (body : list Z) (c0 c1 : Z).
Let h8 := [x0; x1; x2; x3; x4; x5; x6; x7].
Let pkg := [x0; x1; x2; x3; x4; x5; x6; x7; x8] ++ body ++ [c0; c1].
Hypothesis Hok : bytes_ok pkg.

Lemma shape_len : Zlen pkg = Zlen body + 11.
Proof. unfold pkg, Zlen. rewrite !length_app. simpl length. lia. Qed.

Lemma shape_head rest :
  alink_check_header_checksum ([x0; x1; x2; x3; x4; x5; x6; x7; x8] ++ rest) 0
  = Some (x8 =? u8 (zsum h8)).
Proof.
  unfold alink_check_header_checksum.
  rewrite (header_checksum_spec _ 0 h8); [done|].
  apply (ld_bytes_app [] h8 (x8 :: rest)); reflexivity.
Qed.

Lemma shape_size rest : bytes_ok [x0; x1; x2; x3; x4; x5; x6; x7; x8] -> bytes_ok rest ->
  alink_get_package_size ([x0; x1; x2; x3; x4; x5; x6; x7; x8] ++ rest) 0
  = Some (256 * x2 + x1 + 11).
Proof.
  intros H1 H2. apply package_size_spec; [|done|done].
  apply bytes_ok_app. done.
Qed.

Lemma shape_crc :
  Zlen body + 8 < 65536 ->
  alink_check_crc pkg 0 (Zlen pkg)
  = Some ((256 * x2 + x1 =? Zlen body)
          && (256 * c1 + c0
              =? crc_bytes ([x1; x2; x3; x4; x5; x6; x7; x8] ++ body))).
Proof.
  intros Hl. pose proof Hok as [H9 [Hb Hc]%bytes_ok_app]%bytes_ok_app.
  pose proof shape_len as El. pose proof (Zlen_nonneg body) as Hpos.
  assert (alink_get_package_size pkg 0 = Some (256 * x2 + x1 + 11)) as Es
    by (apply shape_size; [done|by apply bytes_ok_app]).
  unfold alink_check_crc. rewrite Es, El. cbn [mbind option_bind].
  destruct (Z.eqb_spec (256 * x2 + x1 + 11) (Zlen body + 11)) as [E|E];
    destruct (Z.eqb_spec (256 * x2 + x1) (Zlen body)) as [E'|E']; try lia; [|done].
  rewrite E. change (0 + 1) with 1.
  rewrite (crc_calculate_spec pkg 1 _ ([x1; x2; x3; x4; x5; x6; x7; x8] ++ body)).
  2:{ rewrite u16_id by lia. unfold pkg.
      change ([x0; x1; x2; x3; x4; x5; x6; x7; x8] ++ body ++ [c0; c1])
        with ([x0] ++ [x1; x2; x3; x4; x5; x6; x7; x8] ++ body ++ [c0; c1]).
      rewrite (app_assoc [x1; _; _; _; _; _; _; _]).
      apply ld_bytes_app; [done|]. unfold Zlen. rewrite length_app. simpl length. lia. }
  assert (pkg = (([x0; x1; x2; x3; x4; x5; x6; x7; x8] ++ body) ++ [c0; c1])) as Ep
    by (unfold pkg; by rewrite <-app_assoc).
  rewrite Ep. replace (0 + (Zlen body + 11) - 2)
    with (Zlen ([x0; x1; x2; x3; x4; x5; x6; x7; x8] ++ body))
    by (unfold Zlen; rewrite length_app; simpl length; lia).
  rewrite !ld8_app by lia. rewrite !Forall_cons in Hc.
  change ([c0; c1]⟨1⟩) with (Some c1). change ([c0; c1]⟨0⟩) with (Some c0).
  cbn [mbind option_bind]. by rewrite two_bytes by tauto.
Qed.
End shape.

(** ** Completeness and soundness against the frame format *)

Lemma encode_shape f :
  encode f = [ALINK_MSG_MAGIC_VALUE; Zlen (fr_payload f) mod 256;
              Zlen (fr_payload f) / 256; fr_seq f; fr_dest f; fr_src f; fr_id f;
              fr_ans f; u8 (zsum (head8 f))]
             ++ fr_payload f ++ [frame_crc f mod 256; frame_crc f / 256].
Proof.
  unfold encode, frame_body, head9. rewrite <-!app_assoc. cbn [le_bytes].
  replace (frame_crc f / 256 mod 256) with (frame_crc f / 256); [done|].
  pose proof (crc_bytes_word (tail (frame_body f))) as Hw.
  fold (frame_crc f) in Hw. unfold is_word in Hw. wrap_lia.
Qed.

Lemma frame_crc_parts f : 256 * (frame_crc f / 256) + frame_crc f mod 256 = frame_crc f.
Proof. pose proof (Z.div_mod (frame_crc f) 256). lia. Qed.

(** A received packet is a frame exactly when its parts satisfy the checks. *)
Lemma shape_is_frame x1 x2 x3 x4 x5 x6 x7 x8 body c0 c1 :
  bytes_ok ([ALINK_MSG_MAGIC_VALUE; x1; x2; x3; x4; x5; x6; x7; x8] ++ body ++ [c0; c1]) ->
  x8 = u8 (zsum [ALINK_MSG_MAGIC_VALUE; x1; x2; x3; x4; x5; x6; x7]) ->
  256 * x2 + x1 = Zlen body ->
  256 * c1 + c0 = crc_bytes ([x1; x2; x3; x4; x5; x6; x7; x8] ++ body) ->
  let f := Frame x3 x4 x5 x6 x7 body in
  frame_ok f
  /\ [ALINK_MSG_MAGIC_VALUE; x1; x2; x3; x4; x5; x6; x7; x8] ++ body ++ [c0; c1] = encode f.
Proof.
  intros Hok E8 El Ec f. pose proof Hok as [H9 [Hb Hc]%bytes_ok_app]%bytes_ok_app.
  forall_inv H9. forall_inv Hc. unfold is_byte in *.
  assert (Zlen body mod 256 = x1) as E1 by (rewrite <-El; wrap_lia).
  assert (Zlen body / 256 = x2) as E2 by (rewrite <-El; wrap_lia).
  split.
  - unfold frame_ok, f; simpl. split; [|split; [done|lia]].
    repeat constructor; unfold is_byte; lia.
  - assert (frame_body f = [ALINK_MSG_MAGIC_VALUE; x1; x2; x3; x4; x5; x6; x7; x8] ++ body)
      as Eb.
    { unfold frame_body, head9, head8, f. cbn [fr_payload fr_seq fr_dest fr_src fr_id fr_ans].
      by rewrite E1, E2, <-E8. }
    assert (frame_crc f = 256 * c1 + c0) as Ef.
    { unfold frame_crc. rewrite Eb. by rewrite Ec. }
    unfold encode. rewrite Eb, Ef, <-app_assoc. cbn [le_bytes]. do 2 f_equal.
    f_equal; [wrap_lia|]. f_equal. wrap_lia.
Qed.

Lemma shape_encode_iff x1 x2 x3 x4 x5 x6 x7 x8 body c0 c1 :
  let pkg := [ALINK_MSG_MAGIC_VALUE; x1; x2; x3; x4; x5; x6; x7; x8] ++ body ++ [c0; c1] in
  bytes_ok pkg ->
  x8 = u8 (zsum [ALINK_MSG_MAGIC_VALUE; x1; x2; x3; x4; x5; x6; x7])
  /\ 256 * x2 + x1 = Zlen body
  /\ 256 * c1 + c0 = crc_bytes ([x1; x2; x3; x4; x5; x6; x7; x8] ++ body)
  <-> exists f, frame_ok f /\ pkg = encode f.
Proof.
  intros pkg Hok. split.
  - intros (E8 & Es & Ec). eexists. by apply shape_is_frame.
  - intros (f & Hf & E). destruct Hf as (_ & _ & Hf). unfold pkg in E. rewrite encode_shape in E.
    injection E as -> -> -> -> -> -> -> -> E.
    apply app_inj_2 in E as [-> [= -> ->]]; [|done].
    split; [done|]. pose proof (Zlen_nonneg (fr_payload f)).
    split; [wrap_lia|]. rewrite frame_crc_parts. done.
Qed.

Section encoded.
Context (f : alink_frame).
Hypothesis Hf : frame_ok f.

Lemma encode_header_ok rest :
  alink_check_header_checksum (head9 f ++ rest) 0 = Some true.
Proof.
  etransitivity; [apply (shape_head _ _ _ _ _ _ _ _ _ rest)|]. by rewrite Z.eqb_refl.
Qed.

Lemma encode_package_size rest :
  bytes_ok rest ->
  alink_get_package_size (head9 f ++ rest) 0 = Some (Zlen (encode f)).
Proof.
  intros Hr. pose proof (encode_ok f Hf) as Hok. rewrite encode_shape in Hok.
  apply bytes_ok_app in Hok as [H9 _].
  etransitivity; [apply (shape_size _ _ _ _ _ _ _ _ _ rest); done|].
  rewrite Zlen_encode. f_equal. destruct Hf as (_ & _ & ?).
  pose proof (Zlen_nonneg (fr_payload f)). wrap_lia.
Qed.

Lemma encode_check_crc :
  Zlen (fr_payload f) + 8 < 65536 ->
  alink_check_crc (encode f) 0 (Zlen (encode f)) = Some true.
Proof.
  intros Hl. pose proof (encode_ok f Hf) as Hok. rewrite encode_shape in Hok |- *.
  rewrite shape_crc by done.
  pose proof (Zlen_nonneg (fr_payload f)).
  rewrite (proj2 (Z.eqb_eq _ (Zlen (fr_payload f)))) by wrap_lia.
  rewrite frame_crc_parts, Z.eqb_refl. done.
Qed.
End encoded.

(** The checker on a whole packet, as a decision of the frame format. *)
Lemma check_package_spec pkg :
  bytes_ok pkg -> 1 <= Zlen pkg < 65536 ->
  exists r, alink_check_package pkg 0 (Zlen pkg) = Some r
    /\ (r = true <-> exists f, frame_ok f /\ pkg = encode f).
Proof.
  intros Hok Hn. unfold alink_check_package. rewrite u16_id by lia.
  destruct (proj2 (ld8_Some pkg 0)) as [b Hb]; [lia|]. rewrite Z.add_0_r, Hb.
  pose proof (ld8_byte _ _ _ Hok Hb) as Hbyte. cbn [mbind option_bind].
  unfold alink_check_magic. rewrite u8_id by done.
  assert (forall f, pkg = encode f -> b = ALINK_MSG_MAGIC_VALUE /\ 11 <= Zlen pkg) as Hshape.
  { intros f ->. rewrite Zlen_encode. pose proof (Zlen_nonneg (fr_payload f)).
    split; [|lia]. change (Some ALINK_MSG_MAGIC_VALUE = Some b) in Hb. congruence. }
  destruct (Z.eqb_spec ALINK_MSG_MAGIC_VALUE b) as [Eb|Eb]; cbn [negb].
  2:{ exists false. split; [done|]. split; [done|]. intros (f & _ & E).
      apply Hshape in E. lia. }
  destruct (Z.ltb_spec (Zlen pkg) ALINK_NO_PAYLOAD_SIZE) as [El|El].
  { exists false. split; [done|]. split; [done|]. intros (f & _ & E).
    apply Hshape in E. unfold ALINK_NO_PAYLOAD_SIZE in El. lia. }
  destruct (pkg_shape pkg El) as (x0&x1&x2&x3&x4&x5&x6&x7&x8&body&c0&c1&Ep).
  assert (x0 = ALINK_MSG_MAGIC_VALUE) as -> by (rewrite Ep in Hb; change (Some x0 = Some b) in Hb; congruence).
  assert (alink_check_header_checksum pkg 0 = _) as -> by (rewrite Ep; apply shape_head).
  cbn [mbind option_bind].
  assert (Zlen pkg = Zlen body + 11) as Elen by (rewrite Ep; apply shape_len).
  rewrite Ep in Hok. pose proof (shape_encode_iff x1 x2 x3 x4 x5 x6 x7 x8 body c0 c1 Hok) as Hiff.
  cbv zeta in Hiff. rewrite <-Ep in Hok, Hiff.
  destruct (Z.eqb_spec x8 (u8 (zsum [ALINK_MSG_MAGIC_VALUE; x1; x2; x3; x4; x5; x6; x7])));
    cbn [negb].
  2:{ exists false. split; [done|]. split; [done|]. rewrite <-Hiff. tauto. }
  assert (alink_check_crc pkg 0 (Zlen pkg) = _) as ->
    by (rewrite Ep in Hok |- *; apply shape_crc; [done|lia]).
  eexists. split; [done|]. rewrite andb_true_iff, !Z.eqb_eq, <-Hiff. tauto.
Qed.

Lemma check_package_local m p n pkg :
  ld_bytes m p n = Some pkg -> 1 <= n < 65536 ->
  alink_check_package m p n = alink_check_package pkg 0 n.
Proof.
  intros H Hn. unfold alink_check_package. rewrite u16_id by lia.
  rewrite (local_ld8 m pkg p n H 0) by lia.
  destruct (pkg⟨0 + 0⟩); [cbn [mbind option_bind]|done]. destruct (alink_check_magic _); [|done].
  destruct (Z.ltb_spec n ALINK_NO_PAYLOAD_SIZE) as [|El]; [done|].
  unfold ALINK_NO_PAYLOAD_SIZE in El. cbn [negb].
  rewrite (local_header_checksum m pkg p n) by done.
  destruct (alink_check_header_checksum pkg 0) as [[]|]; [|done..]. cbn [mbind option_bind negb].
  apply local_check_crc; [done|lia..].
Qed.

(** ** Memory safety on arbitrary bytes *)

Lemma ld8_is_Some m p : 0 <= p < Zlen m -> exists v, m⟨p⟩ = Some v.
Proof. intros H. by apply ld8_Some in H as [v Hv]; eauto. Qed.

Lemma package_size_total m p :
  0 <= p -> p + 3 <= Zlen m -> is_Some (alink_get_package_size m p).
Proof.
  intros Hp H. unfold alink_get_package_size, alink_get_payload_size, off_len_hi, off_len_lo.
  destruct (ld8_is_Some m (p + 2)) as [hi ->]; [lia|]. cbn [mbind option_bind].
  destruct (ld8_is_Some m (p + 1)) as [lo ->]; [lia|]. eauto.
Qed.

Lemma header_checksum_total m p :
  0 <= p -> p + 9 <= Zlen m -> is_Some (alink_check_header_checksum m p).
Proof.
  intros Hp H. unfold alink_check_header_checksum, off_checksum.
  destruct (proj2 (ld_bytes_Some m p 8)) as [bs Hbs]; [lia|].
  rewrite (header_checksum_spec m p bs Hbs). cbn [mbind option_bind].
  destruct (ld8_is_Some m (p + 8)) as [v ->]; [lia|]. eauto.
Qed.

Lemma check_crc_total m p n :
  0 <= p -> 11 <= n -> p + n <= Zlen m -> is_Some (alink_check_crc m p n).
Proof.
  intros Hp Hn H. unfold alink_check_crc.
  destruct (package_size_total m p) as [sz ->]; [lia..|]. cbn [mbind option_bind].
  destruct (Z.eqb_spec sz n) as [->|]; [|eauto].
  assert (0 <= u16 (n - 3) <= n - 3) by wrap_lia.
  destruct (proj2 (ld_bytes_Some m (p + 1) (u16 (n - 3)))) as [bs Hbs]; [lia|].
  rewrite (crc_calculate_spec _ _ _ _ Hbs). cbn [mbind option_bind].
  destruct (ld8_is_Some m (p + n - 2 + 1)) as [v1 ->]; [lia|]. cbn [mbind option_bind].
  destruct (ld8_is_Some m (p + n - 2 + 0)) as [v0 ->]; [lia|]. eauto.
Qed.

(** ** Properties *)

(** C5: on any readable packet of 1 to 65535 bytes [alink_check_package] stays
    inside the packet, returns, and accepts exactly the encodings of frames:
    magic byte, header checksum, length field and CRC all have to agree. *)
Theorem alink_check_package_iff m p n pkg :
  bytes_ok m -> ld_bytes m p n = Some pkg -> 1 <= n < 65536 ->
  exists r, alink_check_package m p n = Some r
    /\ (r = true <-> exists f, frame_ok f /\ pkg = encode f).
Proof.
  intros Hm H Hn. rewrite (check_package_local m p n pkg) by done.
  pose proof (ld_bytes_len _ _ _ _ H) as <-.
  apply check_package_spec; [by eapply ld_bytes_ok|done].
Qed.

Lemma alink_check_package_iff_witness :
  let f := Frame 7 8 6 210 0 [1; 2; 3] in
  exists r, alink_check_package (encode f) 0 14 = Some r
    /\ (r = true <-> exists g, frame_ok g /\ encode f = encode g).
Proof.
  apply (alink_check_package_iff _ 0 14).
  - apply encode_ok. by_eval.
  - vm_compute. reflexivity.
  - lia.
Defined.

(** For packets whose CRC range does not fit the [uint16_t] length of
    [crc_calculate] (payloads of 65528 to 65535 bytes), [alink_check_crc]
    covers no payload byte: two packets with the same header and the same two
    last bytes get the same verdict. *)
Lemma alink_check_crc_long_uncovered m1 m2 n :
  bytes_ok m1 -> bytes_ok m2 -> Zlen m1 = n -> Zlen m2 = n ->
  65539 <= n <= 65546 ->
  take 9 m1 = take 9 m2 -> drop (Z.to_nat (n - 2)) m1 = drop (Z.to_nat (n - 2)) m2 ->
  alink_check_crc m1 0 n = alink_check_crc m2 0 n.
Proof.
  intros H1 H2 L1 L2 Hn E9 Ec.
  assert (forall k, 0 <= k < 9 -> m1⟨k⟩ = m2⟨k⟩) as Hh.
  { intros k Hk. unfold ld8. mem_case.
    rewrite <-(lookup_take_lt m1 9), <-(lookup_take_lt m2 9) by lia. by rewrite E9. }
  assert (forall k, n - 2 <= k -> m1⟨k⟩ = m2⟨k⟩) as Ht.
  { intros k Hk. unfold ld8. rewrite !bool_decide_eq_true_2 by lia.
    replace (Z.to_nat k) with (Z.to_nat (n - 2) + Z.to_nat (k - (n - 2)))%nat by lia.
    by rewrite <-!lookup_drop, Ec. }
  unfold alink_check_crc, alink_get_package_size, alink_get_payload_size,
    off_len_lo, off_len_hi.
  rewrite !(Hh (0 + _)) by lia.
  destruct (m2⟨0 + 2⟩) as [hi|]; [|done]. cbn [mbind option_bind].
  destruct (m2⟨0 + 1⟩) as [lo|]; [|done]. cbn [mbind option_bind].
  destruct (Z.eqb_spec (u32 (u16 (Z.lor (u16 (Z.shiftl (u16 hi) 8)) lo) + ALINK_NO_PAYLOAD_SIZE)) n)
    as [->|]; [|done].
  assert (u16 (n - 3) = n - 65539) as Eu by wrap_lia.
  assert (crc_calculate m1 (0 + 1) (n - 3) = crc_calculate m2 (0 + 1) (n - 3)) as ->.
  { destruct (proj2 (ld_bytes_Some m1 1 (u16 (n - 3)))) as [bs Hbs]; [lia|].
    change (0 + 1) with 1. rewrite !(crc_calculate_spec _ _ _ bs); [done| |done].
    rewrite <-Hbs. unfold ld_bytes. mem_case. f_equal.
    rewrite !take_drop_commute. f_equal.
    assert (forall (l : list Z) j, (j <= 9)%nat -> take j l = take j (take 9 l)) as Ht9
      by (intros; rewrite take_take; f_equal; lia).
    rewrite (Ht9 m1), (Ht9 m2) by lia. by rewrite E9. }
  by rewrite !(Ht (0 + n - 2 + _)) by lia.
Qed.

Definition long_packet (b : Z) : list Z :=
  [253; 248; 255; 0; 8; 3; 18; 0; u8 (253 + 248 + 255 + 8 + 3 + 18)]
  ++ replicate 65528 b ++ [255; 255].

Lemma alink_check_crc_long_uncovered_witness :
  alink_check_crc (long_packet 0) 0 65539 = alink_check_crc (long_packet 1) 0 65539.
Proof.
  apply alink_check_crc_long_uncovered.
  - by_eval.
  - by_eval.
  - vm_compute. reflexivity.
  - vm_compute. reflexivity.
  - lia.
  - vm_compute. reflexivity.
  - vm_compute. reflexivity.
Defined.
