(* ===== verification/AlinkRecv.v ===== *)
(** * Receiving state machine ([src/srv/alink/analysis/alink_recv.c])

    The receiver keeps a pointer to the start of the message it is collecting;
    it never copies bytes.  Its three states are the functions stored in
    [pu_state].  The world [W] is whatever the callback of the order component
    changes; a callback is a function stored in the record, as in the source. *)

From S2P Require Import Prelude Checksum AlinkFrame AlinkCheck.
Local Open Scope c_scope.

(** ** Data ([alink_defines.h]) *)

Record alink_order_import := {
  oi_ePortId : Z; oi_pbyMsg : ptr; oi_handle : nat; oi_pe_send : nat
}.

Record alink_recv_import := {
  ri_ePortId : Z; ri_pbyData : ptr; ri_uLength : Z; ri_handle : nat; ri_pe_send : nat
}.

Inductive pu_state := st_check_magic | st_check_head | st_check_crc.

Global Instance pu_state_eq_dec : EqDecision pu_state.
Proof. solve_decision. Defined.

Section recv.
Context {W : Type}.

Record alink_recv_cbk := {
  psHandle : nat;
  pe_cbk : option (nat -> memory -> alink_order_import -> W -> option W)
}.

Record alink_recv := {
  wPkgSize : Z; wCount : Z; rv_wBufferSize : Z; sRecvCbk : alink_recv_cbk;
  pbyBuffer : ptr; state : pu_state
}.

Definition set_state (s : pu_state) (r : alink_recv) : alink_recv :=
  Build_alink_recv (wPkgSize r) (wCount r) (rv_wBufferSize r) (sRecvCbk r) (pbyBuffer r) s.
Definition set_wCount (c : Z) (r : alink_recv) : alink_recv :=
  Build_alink_recv (wPkgSize r) c (rv_wBufferSize r) (sRecvCbk r) (pbyBuffer r) (state r).
Definition set_wPkgSize (n : Z) (r : alink_recv) : alink_recv :=
  Build_alink_recv n (wCount r) (rv_wBufferSize r) (sRecvCbk r) (pbyBuffer r) (state r).
Definition set_pbyBuffer (p : ptr) (r : alink_recv) : alink_recv :=
  Build_alink_recv (wPkgSize r) (wCount r) (rv_wBufferSize r) (sRecvCbk r) p (state r).

(** ** The code *)

(** The scan for the magic byte: [None] inside is "not found in the input". *)
Fixpoint find_magic (n : nat) (m : list Z) (pbyData uIndex : Z) : option (option Z) :=
  match n with
  | O => Some None
  | S n' =>
      b ← m⟨pbyData + uIndex⟩;
      if alink_check_magic b then Some (Some uIndex)
      else find_magic n' m pbyData (uIndex + 1)
  end.

Definition alink_recv_state_check_magic (mem : memory) (psRecv : alink_recv)
    (psImport : alink_recv_import) (w : W) : option (Z * alink_recv * W) :=
  found ← at_ptr mem (ri_pbyData psImport)
            (λ m p, find_magic (Z.to_nat (ri_uLength psImport)) m p 0);
  match found with
  | Some uIndex =>
      let psRecv := set_pbyBuffer (ptr_add (ri_pbyData psImport) uIndex) psRecv in
      let psRecv := set_wCount 1 psRecv in
      let psRecv := set_state st_check_head psRecv in
      Some (u32 (uIndex + 1), psRecv, w)
  | None => Some (ri_uLength psImport, psRecv, w)
  end.

Definition alink_recv_state_check_head (mem : memory) (psRecv : alink_recv)
    (psImport : alink_recv_import) (w : W) : option (Z * alink_recv * W) :=
  if ri_uLength psImport <? u64 (sizeof_alink_msg_head - wCount psRecv) then
    Some (ri_uLength psImport,
          set_wCount (u32 (wCount psRecv + ri_uLength psImport)) psRecv, w)
  else
    let uIndex := u32 (sizeof_alink_msg_head - wCount psRecv) in
    let psRecv := set_wCount (u32 (wCount psRecv + uIndex)) psRecv in
    ok ← at_ptr mem (pbyBuffer psRecv) alink_check_header_checksum;
    if ok : bool then
      size ← at_ptr mem (pbyBuffer psRecv) alink_get_package_size;
      Some (uIndex, set_state st_check_crc (set_wPkgSize size psRecv), w)
    else Some (uIndex, set_state st_check_magic psRecv, w).

Definition alink_recv_state_check_crc (mem : memory) (psRecv : alink_recv)
    (psImport : alink_recv_import) (w : W) : option (Z * alink_recv * W) :=
  let uLen := ri_uLength psImport in
  if u32 (wCount psRecv + uLen) <? wPkgSize psRecv then
    Some (uLen, set_wCount (u32 (wCount psRecv + uLen)) psRecv, w)
  else
    let uIndex := u32 (wPkgSize psRecv - wCount psRecv) in
    let psRecv := set_wCount (u32 (wCount psRecv + uIndex)) psRecv in
    ok ← at_ptr mem (pbyBuffer psRecv) (λ m p, alink_check_crc m p (wCount psRecv));
    w' ← (if ok : bool then
            match pe_cbk (sRecvCbk psRecv) with
            | Some cbk =>
                let sOrderImport :=
                  {| oi_ePortId := ri_ePortId psImport; oi_pbyMsg := pbyBuffer psRecv;
                     oi_handle := ri_handle psImport; oi_pe_send := ri_pe_send psImport |} in
                cbk (psHandle (sRecvCbk psRecv)) mem sOrderImport w
            | None => Some w
            end
          else Some w);
    Some (uIndex, set_state st_check_magic psRecv, w').

Definition pu_state_call (mem : memory) (psRecv : alink_recv)
    (psImport : alink_recv_import) (w : W) : option (Z * alink_recv * W) :=
  match state psRecv with
  | st_check_magic => alink_recv_state_check_magic mem psRecv psImport w
  | st_check_head => alink_recv_state_check_head mem psRecv psImport w
  | st_check_crc => alink_recv_state_check_crc mem psRecv psImport w
  end.

Definition alink_recv_init (psRecv : alink_recv) (pbyBuffer : ptr) (wBufferSize : Z)
  : alink_recv :=
  {| wPkgSize := wPkgSize psRecv; wCount := wCount psRecv;
     rv_wBufferSize := u16 wBufferSize;
     sRecvCbk := {| psHandle := 0; pe_cbk := None |};
     pbyBuffer := pbyBuffer; state := st_check_magic |}.

Definition import_advance (psImport : alink_recv_import) (uIndex : Z) : alink_recv_import :=
  {| ri_ePortId := ri_ePortId psImport;
     ri_pbyData := ptr_add (ri_pbyData psImport) uIndex;
     ri_uLength := u32 (ri_uLength psImport - uIndex);
     ri_handle := ri_handle psImport; ri_pe_send := ri_pe_send psImport |}.

(** The loop of [alink_recv_task]; [fuel] bounds the iterations. *)
Fixpoint alink_recv_loop (fuel : nat) (mem : memory) (psRecv : alink_recv)
    (sImport : alink_recv_import) (w : W) : option (alink_recv * W) :=
  if ri_uLength sImport =? 0 then Some (psRecv, w) else
  match fuel with
  | O => None
  | S fuel' =>
      '(uIndex, psRecv, w) ← pu_state_call mem psRecv sImport w;
      alink_recv_loop fuel' mem psRecv (import_advance sImport uIndex) w
  end.

Definition alink_recv_task (mem : memory) (psRecv : alink_recv)
    (psImport : alink_recv_import) (w : W) : option (alink_recv * W) :=
  alink_recv_loop (Z.to_nat (ri_uLength psImport)) mem psRecv psImport w.

Definition alink_recv_register_cbk (psRecv : alink_recv) (handle : nat)
    (cbk : option (nat -> memory -> alink_order_import -> W -> option W)) : alink_recv :=
  Build_alink_recv (wPkgSize psRecv) (wCount psRecv) (rv_wBufferSize psRecv)
    {| psHandle := handle; pe_cbk := cbk |} (pbyBuffer psRecv) (state psRecv).
End recv.

Arguments alink_recv_cbk : clear implicits.
Arguments alink_recv : clear implicits.

(** Length of the first package announced in a buffer, and index of its head. *)
Definition alink_package_valid_length (m : list Z) (psRecvdat recvlen : Z) : option Z :=
  found ← find_magic (Z.to_nat recvlen) m psRecvdat 0;
  match found with
  | Some uIndex => alink_get_package_size m (psRecvdat + uIndex)
  | None => Some 0
  end.

Definition alink_get_package_head_index (m : list Z) (psRecvdat recvlen : Z) : option Z :=
  found ← find_magic (Z.to_nat recvlen) m psRecvdat 0;
  match found with
  | Some uIndex => Some uIndex
  | None => Some recvlen
  end.

(** ** Progress of one step *)

Definition with_data (imp : alink_recv_import) (p : ptr) (n : Z) : alink_recv_import :=
  {| ri_ePortId := ri_ePortId imp; ri_pbyData := p; ri_uLength := n;
     ri_handle := ri_handle imp; ri_pe_send := ri_pe_send imp |}.

(** Well-formedness of the receiver between two calls of a state function. *)
Definition recv_wf {W} (r : alink_recv W) : Prop :=
  match state r with
  | st_check_magic => True
  | st_check_head => 1 <= wCount r <= 8
  | st_check_crc => 9 <= wCount r < wPkgSize r /\ 11 <= wPkgSize r <= 65546
  end.

(** Inputs below this length cannot overflow the 32-bit counters. *)
Definition RECV_MAX : Z := 4294000000.

Lemma find_magic_shift n m p j :
  find_magic n m p (j + 1) = option_map (option_map (Z.add 1)) (find_magic n m (p + 1) j).
Proof.
  revert j. induction n as [|n IH]; intros j; [done|]. cbn [find_magic].
  replace (p + (j + 1)) with (p + 1 + j) by lia.
  destruct (m⟨p + 1 + j⟩) as [b|]; [|done]. cbn [mbind option_bind].
  destruct (alink_check_magic b); [|apply IH]. cbn. do 2 f_equal. lia.
Qed.

Lemma find_magic_range n m p j i :
  find_magic n m p j = Some (Some i) -> j <= i < j + Z.of_nat n.
Proof.
  revert j. induction n as [|n IH]; intros j H; [done|]. cbn [find_magic] in H.
  inv_bind. destruct (alink_check_magic _); [inv_bind; lia|].
  apply IH in H0. lia.
Qed.

Lemma package_size_range m p sz :
  alink_get_package_size m p = Some sz -> 11 <= sz <= 65546.
Proof.
  unfold alink_get_package_size, alink_get_payload_size. intros H. inv_bind.
  unfold ALINK_NO_PAYLOAD_SIZE. wrap_lia.
Qed.

Lemma at_ptr_Some {A} mem p (f : list Z -> Z -> option A) a :
  at_ptr mem p f = Some a -> exists m, mem !! pblk p = Some m /\ f m (poff p) = Some a.
Proof. unfold at_ptr. intros H. by apply bind_Some in H. Qed.

Section machine.
Context {W : Type} (mem : memory) (imp : alink_recv_import).
Implicit Types (r : alink_recv W) (p : ptr) (w : W).

Local Abbreviation call r p n w := (pu_state_call mem r (with_data imp p n) w).

(** Every state function consumes at least one byte and at most its input. *)
Lemma call_progress r p n w u r' w' :
  recv_wf r -> 0 < n < RECV_MAX -> call r p n w = Some (u, r', w') ->
  1 <= u <= n /\ recv_wf r'.
Proof.
  unfold recv_wf at 1, RECV_MAX, pu_state_call. intros Hr Hn H.
  destruct (state r) eqn:Es.
  - unfold alink_recv_state_check_magic in H. cbn [with_data ri_uLength ri_pbyData] in H.
    apply bind_Some in H as (found & (m & _ & Hf)%at_ptr_Some & H).
    destruct found as [i|]; inv_bind.
    + apply find_magic_range in Hf. rewrite u32_id by lia. unfold recv_wf. simpl. lia.
    + unfold recv_wf. rewrite Es. lia.
  - unfold alink_recv_state_check_head, sizeof_alink_msg_head in H.
    cbn [with_data ri_uLength] in H.
    replace (u64 (9 - wCount r)) with (9 - wCount r) in H by wrap_lia.
    rewrite (u32_id (9 - wCount r)) in H by lia.
    destruct (Z.ltb_spec n (9 - wCount r)); inv_bind.
    + unfold recv_wf. simpl. rewrite Es, u32_id by lia. lia.
    + rename x into ok. destruct ok; inv_bind; [|unfold recv_wf; simpl; lia].
      match goal with Hs : at_ptr _ _ alink_get_package_size = Some _ |- _ =>
        apply at_ptr_Some in Hs as (? & _ & Hs); apply package_size_range in Hs end.
      unfold recv_wf. simpl. rewrite u32_id by lia. lia.
  - unfold alink_recv_state_check_crc in H. cbn [with_data ri_uLength] in H.
    rewrite (u32_id (wCount r + n)) in H by lia.
    rewrite (u32_id (wPkgSize r - wCount r)) in H by lia.
    destruct (Z.ltb_spec (wCount r + n) (wPkgSize r)); inv_bind.
    + unfold recv_wf. simpl. rewrite Es. lia.
    + unfold recv_wf. simpl. lia.
Qed.

(** A step on [n] bytes either is the step on one byte, or is the step on one
    byte followed by the step on the rest. *)
Lemma call_peel r p n w :
  recv_wf r -> 1 < n < RECV_MAX ->
  call r p n w = call r p 1 w
  \/ exists r1, call r p 1 w = Some (1, r1, w)
     /\ call r p n w
        = '(u, r', w') ← call r1 (ptr_add p 1) (n - 1) w; Some (u + 1, r', w').
Proof.
  unfold recv_wf, RECV_MAX, pu_state_call. intros Hr Hn.
  destruct (state r) eqn:Es.
  - unfold alink_recv_state_check_magic, at_ptr. cbn [with_data ri_uLength ri_pbyData].
    replace (Z.to_nat n) with (S (Z.to_nat (n - 1))) by lia.
    change (Z.to_nat 1) with 1%nat.
    destruct (mem !! pblk p) as [m|] eqn:Em; [|by left]. cbn [mbind option_bind find_magic].
    destruct (m⟨poff p + 0⟩) as [b|]; [|by left]. cbn [mbind option_bind].
    destruct (alink_check_magic b); [by left|]. right. exists r. split; [done|].
    rewrite Es. cbn [with_data ri_uLength ri_pbyData ptr_add pblk poff].
    rewrite Em. change (0 + 1) with 1. rewrite (find_magic_shift _ _ _ 0).
    destruct (find_magic _ m (poff p + 1) 0) as [[i|]|] eqn:Ef; cbn; rewrite Ef; [|cbn|done].
    + apply find_magic_range in Ef. cbn.
      unfold ptr_add. cbn. rewrite !u32_id by lia. repeat (f_equal; try lia).
    + do 3 f_equal. lia.
  - unfold alink_recv_state_check_head, sizeof_alink_msg_head.
    cbn [with_data ri_uLength].
    replace (u64 (9 - wCount r)) with (9 - wCount r) by wrap_lia.
    rewrite (u32_id (9 - wCount r)) by lia.
    destruct (Z.ltb_spec 1 (9 - wCount r)) as [H1|H1].
    2:{ left. destruct (Z.ltb_spec n (9 - wCount r)); [lia|done]. }
    right. eexists. split; [done|]. cbn [set_wCount state]. rewrite Es.
    cbn [set_wCount wCount]. rewrite (u32_id (wCount r + 1)) by lia.
    replace (u64 (9 - (wCount r + 1))) with (8 - wCount r) by wrap_lia.
    rewrite (u32_id (9 - (wCount r + 1))) by lia.
    destruct (Z.ltb_spec n (9 - wCount r)), (Z.ltb_spec (n - 1) (8 - wCount r)); try lia; cbn.
    + unfold set_wCount; simpl. repeat (f_equal; try lia).
    + replace (wCount r + 1 + (9 - (wCount r + 1))) with (wCount r + (9 - wCount r)) by lia.
      destruct (at_ptr mem (pbyBuffer r) alink_check_header_checksum) as [[]|]; [|cbn|done].
      * cbn. destruct (at_ptr mem (pbyBuffer r) alink_get_package_size); [|done]. cbn.
        repeat (f_equal; try lia).
      * repeat (f_equal; try lia).
  - unfold alink_recv_state_check_crc. cbn [with_data ri_uLength].
    rewrite (u32_id (wCount r + n)), (u32_id (wCount r + 1)) by lia.
    rewrite (u32_id (wPkgSize r - wCount r)) by lia.
    destruct (Z.ltb_spec (wCount r + 1) (wPkgSize r)) as [H1|H1].
    2:{ left. destruct (Z.ltb_spec (wCount r + n) (wPkgSize r)); [lia|done]. }
    right. eexists. split; [done|]. cbn [set_wCount state]. rewrite Es.
    cbn [set_wCount wCount wPkgSize].
    rewrite (u32_id (wCount r + 1 + (n - 1))) by lia.
    replace (wCount r + 1 + (n - 1)) with (wCount r + n) by lia.
    rewrite (u32_id (wPkgSize r - (wCount r + 1))) by lia.
    destruct (Z.ltb_spec (wCount r + n) (wPkgSize r)); cbn.
    + do 3 f_equal. lia.
    + replace (wCount r + 1 + (wPkgSize r - (wCount r + 1)))
        with (wCount r + (wPkgSize r - wCount r)) by lia.
      match goal with |- context [mbind _ (at_ptr ?a ?b ?c)] =>
        destruct (at_ptr a b c) as [ok|]; [cbn|done] end.
      match goal with |- mbind _ ?o = _ => destruct o; [cbn|done] end.
      repeat (f_equal; try lia).
Qed.

(** ** The receiver as a byte automaton *)

(** One byte of input. *)
Definition feed (r : alink_recv W) (p : ptr) (w : W) : option (alink_recv W * W) :=
  '(_, r', w') ← pu_state_call mem r (with_data imp p 1) w; Some (r', w').

(** [n] bytes from [p], one at a time. *)
Fixpoint feeds (n : nat) (r : alink_recv W) (p : ptr) (w : W)
  : option (alink_recv W * W) :=
  match n with
  | O => Some (r, w)
  | S n' => '(r', w') ← feed r p w; feeds n' r' (ptr_add p 1) w'
  end.

Local Abbreviation run n r p w := (alink_recv_task mem r (with_data imp p n) w).

Lemma advance_data p n u :
  0 <= u <= n -> n < RECV_MAX ->
  import_advance (with_data imp p n) u = with_data imp (ptr_add p u) (n - u).
Proof.
  unfold RECV_MAX. intros. unfold import_advance, with_data. cbn.
  by rewrite u32_id by lia.
Qed.

Lemma loop_fuel fuel r p n w :
  recv_wf r -> 0 <= n < RECV_MAX -> (Z.to_nat n <= fuel)%nat ->
  alink_recv_loop fuel mem r (with_data imp p n) w = run n r p w.
Proof.
  remember (Z.to_nat n) as k eqn:Ek. revert n r p w fuel Ek.
  induction (lt_wf k) as [k _ IH]. intros n r p w fuel -> Hr Hn Hf.
  unfold alink_recv_task. cbn [with_data ri_uLength].
  destruct (decide (n = 0)) as [->|Hnz]; [by destruct fuel|].
  destruct fuel as [|fuel]; [lia|].
  replace (Z.to_nat n) with (S (Z.to_nat (n - 1))) by lia. cbn [alink_recv_loop with_data ri_uLength].
  destruct (n =? 0); [done|].
  destruct (pu_state_call mem r (with_data imp p n) w) as [[[u r'] w']|] eqn:Ec; [|done].
  cbn. apply call_progress in Ec as [Hu Hr']; [|done|lia].
  rewrite advance_data by lia.
  rewrite (IH (Z.to_nat (n - u))) by (done || lia).
  symmetry. apply (IH (Z.to_nat (n - u))); done || lia.
Qed.

Lemma run_unfold r p n w :
  recv_wf r -> 0 < n < RECV_MAX ->
  run n r p w = '(u, r', w') ← pu_state_call mem r (with_data imp p n) w;
                run (n - u) r' (ptr_add p u) w'.
Proof.
  intros Hr Hn. unfold alink_recv_task at 1. cbn [with_data ri_uLength].
  replace (Z.to_nat n) with (S (Z.to_nat (n - 1))) by lia.
  cbn [alink_recv_loop with_data ri_uLength].
  destruct (Z.eqb_spec n 0); [lia|].
  destruct (pu_state_call mem r (with_data imp p n) w) as [[[u r'] w']|] eqn:Ec; [|done].
  cbn. apply call_progress in Ec as [Hu Hr']; [|done|lia].
  rewrite advance_data by lia. apply loop_fuel; [done|lia..].
Qed.

Lemma run_0 r p w : run 0 r p w = Some (r, w).
Proof. done. Qed.

Lemma ptr_add_add p a b : ptr_add (ptr_add p a) b = ptr_add p (a + b).
Proof. unfold ptr_add. cbn. f_equal. lia. Qed.

Lemma run_peel r p n w :
  recv_wf r -> 0 < n < RECV_MAX ->
  run n r p w = '(r', w') ← feed r p w; run (n - 1) r' (ptr_add p 1) w'.
Proof.
  intros Hr Hn. rewrite run_unfold by done. unfold feed.
  destruct (decide (n = 1)) as [->|].
  - destruct (pu_state_call mem r (with_data imp p 1) w) as [[[u r'] w']|] eqn:Ec; [|done].
    apply call_progress in Ec as [Hu Hr']; [|done|lia]. cbn.
    by replace u with 1 by lia.
  - destruct (call_peel r p n w) as [E|(r1 & E1 & E2)]; [done|lia|..].
    + rewrite E.
      destruct (pu_state_call mem r (with_data imp p 1) w) as [[[u r'] w']|] eqn:Ec; [|done].
      apply call_progress in Ec as [Hu Hr']; [|done|unfold RECV_MAX; lia]. cbn.
      by replace u with 1 by lia.
    + rewrite E1, E2. cbn. pose proof E1 as [_ Hr1]%call_progress; [|done|unfold RECV_MAX; lia].
      rewrite (run_unfold r1) by (done || lia).
      destruct (pu_state_call mem r1 (with_data imp (ptr_add p 1) (n - 1)) w)
        as [[[u r'] w']|]; [|done].
      cbn. rewrite ptr_add_add. replace (n - (u + 1)) with (n - 1 - u) by lia.
      by replace (u + 1) with (1 + u) by lia.
Qed.

Lemma feed_wf r p w r' w' : recv_wf r -> feed r p w = Some (r', w') -> recv_wf r'.
Proof.
  intros Hr H. unfold feed in H. apply bind_Some in H as ([[u r1] w1] & Ec & H). inv_bind.
  apply call_progress in Ec as [_ ?]; [done|done|unfold RECV_MAX; lia].
Qed.

Lemma run_feeds r p n w :
  recv_wf r -> 0 <= n < RECV_MAX -> run n r p w = feeds (Z.to_nat n) r p w.
Proof.
  intros Hr Hn. rewrite <-(Z2Nat.id n) at 1 by lia.
  assert (Z.of_nat (Z.to_nat n) < RECV_MAX) as Hk by lia.
  generalize dependent (Z.to_nat n). clear n Hn. intros k.
  revert r p w Hr. induction k as [|k IH]; intros r p w Hr Hk; [done|].
  rewrite run_peel by (done || lia). cbn [feeds].
  destruct (feed r p w) as [[r' w']|] eqn:Ef; [|done]. cbn.
  rewrite <-IH; [|by eapply feed_wf|lia].
  by replace (Z.of_nat (S k) - 1) with (Z.of_nat k) by lia.
Qed.

Lemma feeds_app a b r p w :
  feeds (a + b) r p w
  = '(r', w') ← feeds a r p w; feeds b r' (ptr_add p (Z.of_nat a)) w'.
Proof.
  revert r p w. induction a as [|a IH]; intros r p w.
  - cbn. f_equal. unfold ptr_add. destruct p. cbn. f_equal. lia.
  - cbn [Nat.add feeds]. destruct (feed r p w) as [[r' w']|]; [|done]. cbn.
    rewrite IH. destruct (feeds a r' (ptr_add p 1) w') as [[r2 w2]|]; [|done]. cbn.
    rewrite ptr_add_add. do 2 f_equal. lia.
Qed.

Lemma run_wf r p n w r' w' :
  recv_wf r -> 0 <= n < RECV_MAX -> run n r p w = Some (r', w') -> recv_wf r'.
Proof.
  intros Hr Hn. rewrite run_feeds by done. generalize (Z.to_nat n). intros k.
  revert r p w Hr. induction k as [|k IH]; intros r p w Hr H; cbn in H; [by inv_bind|].
  apply bind_Some in H as ([r1 w1] & Hf & H).
  eapply IH; [|exact H]. by eapply feed_wf.
Qed.

Lemma run_split r p a b w :
  recv_wf r -> 0 <= a -> 0 <= b -> a + b < RECV_MAX ->
  run (a + b) r p w = '(r', w') ← run a r p w; run b r' (ptr_add p a) w'.
Proof.
  intros Hr Ha Hb Hab. rewrite (run_feeds r p (a + b)), (run_feeds r p a) by (done || lia).
  rewrite Z2Nat.inj_add, feeds_app by lia. rewrite Z2Nat.id by lia.
  destruct (feeds (Z.to_nat a) r p w) as [[r' w']|] eqn:Ef; [|done]. cbn.
  rewrite run_feeds; [done| |lia].
  rewrite <-run_feeds in Ef by (done || lia). eapply run_wf; [..|exact Ef]; done || lia.
Qed.

(** ** Frames and noise in one block *)

(** The callback the receiver makes for a message at [p]. *)
Definition deliver (r : alink_recv W) (p : ptr) (w : W) : option W :=
  match pe_cbk (sRecvCbk r) with
  | Some cbk =>
      cbk (psHandle (sRecvCbk r)) mem
        {| oi_ePortId := ri_ePortId imp; oi_pbyMsg := p;
           oi_handle := ri_handle imp; oi_pe_send := ri_pe_send imp |} w
  | None => Some w
  end.

Definition idle (r : alink_recv W) : Prop := state r = st_check_magic.

Lemma idle_wf r : idle r -> recv_wf r.
Proof. unfold idle, recv_wf. by intros ->. Qed.

Definition no_magic (l : list Z) : Prop := Forall (λ b, is_byte b /\ b <> 253) l.

Lemma find_magic_noise a l b j :
  no_magic l -> 0 <= j -> Zlen a = j -> find_magic (length l) (a ++ l ++ b) 0 j = Some None.
Proof.
  intros Hl. revert a j. induction Hl as [|x l [Hx Hne] _ IH]; intros a j Hj Ha; [done|].
  cbn [find_magic length]. rewrite <-Ha. cbn [app]. rewrite ld8_middle. cbn [mbind option_bind].
  unfold alink_check_magic, ALINK_MSG_MAGIC_VALUE. rewrite u8_id by done.
  destruct (Z.eqb_spec 253 x); [lia|].
  specialize (IH (a ++ [x]) (Zlen (a ++ [x]))).
  rewrite Zlen_snoc, <-app_assoc in IH. apply IH; lia.
Qed.

Lemma find_magic_base n (m : list Z) (p j : Z) :
  0 <= p -> find_magic n m p j = option_map (option_map (λ i, i - p)) (find_magic n m 0 (p + j)).
Proof.
  intros Hp. revert j. induction n as [|n IH]; intros j; [done|]. cbn [find_magic].
  rewrite Z.add_0_l. destruct (m⟨p + j⟩) as [x|]; [|done]. cbn [mbind option_bind].
  destruct (alink_check_magic x); [unfold option_map; do 2 f_equal; lia|].
  rewrite IH. by rewrite Z.add_assoc.
Qed.

Section block.
Context (blk : nat) (m : list Z).
Hypothesis Hblk : mem !! blk = Some m.

Local Abbreviation here a := (Ptr blk (Zlen a)).

Lemma run_noise r w (a l b : list Z) :
  m = a ++ l ++ b -> no_magic l -> Zlen l < RECV_MAX -> idle r ->
  run (Zlen l) r (here a) w = Some (r, w).
Proof.
  intros Em Hl Hmax Hr. destruct (decide (Zlen l = 0)) as [->|Hz]; [done|].
  pose proof (Zlen_nonneg l). rewrite run_unfold by (auto using idle_wf || lia).
  unfold pu_state_call, alink_recv_state_check_magic, at_ptr. rewrite Hr.
  cbn [with_data ri_uLength ri_pbyData pblk poff]. rewrite Hblk. cbn [mbind option_bind].
  rewrite find_magic_base by apply Zlen_nonneg.
  rewrite Zlen_to_nat, Z.add_0_r, Em, find_magic_noise by (done || apply Zlen_nonneg).
  cbn. by rewrite Z.sub_diag.
Qed.

(** What the checks read at the start of a frame. *)
Lemma frame_reads (a b : list Z) f (n : Z) :
  m = a ++ encode f ++ b -> frame_ok f -> Zlen (fr_payload f) + 8 < 65536 ->
  n = Zlen (encode f) ->
  m⟨Zlen a⟩ = Some 253
  /\ alink_check_header_checksum m (Zlen a) = Some true
  /\ alink_get_package_size m (Zlen a) = Some n
  /\ alink_check_crc m (Zlen a) n = Some true.
Proof.
  intros Em Hf Hl ->. pose proof (Zlen_nonneg (fr_payload f)) as Hp.
  pose proof (Zlen_encode f) as El. set (n := Zlen (encode f)) in *.
  assert (ld_bytes m (Zlen a) n = Some (encode f)) as Hpkg
    by (rewrite Em; by apply ld_bytes_app).
  assert (encode f = head9 f ++ (fr_payload f ++ le_bytes 2 (frame_crc f))) as Eh
    by (unfold encode, frame_body; by rewrite app_assoc).
  assert (alink_check_header_checksum m (Zlen a) = Some true) as Hh.
  { rewrite (local_header_checksum m _ _ _ Hpkg) by lia. rewrite Eh.
    by apply encode_header_ok. }
  assert (alink_get_package_size m (Zlen a) = Some n) as Hs.
  { rewrite (local_package_size m _ _ _ Hpkg) by lia. rewrite Eh.
    apply encode_package_size; [done|]. apply bytes_ok_app.
    split; [apply Hf|apply le_bytes_ok]. }
  assert (alink_check_crc m (Zlen a) n = Some true) as Hc.
  { rewrite (local_check_crc m _ _ _ Hpkg) by lia. by apply encode_check_crc. }
  split; [rewrite Em, encode_shape; apply ld8_middle|done].
Qed.

Lemma run_frame r w (a b : list Z) f :
  m = a ++ encode f ++ b -> frame_ok f -> Zlen (fr_payload f) + 8 < 65536 -> idle r ->
  exists r', idle r' /\ sRecvCbk r' = sRecvCbk r
    /\ run (Zlen (encode f)) r (here a) w
       = w' ← deliver r (here a) w; Some (r', w').
Proof.
  intros Em Hf Hl Hr. pose proof (Zlen_nonneg (fr_payload f)) as Hp.
  pose proof (Zlen_encode f) as El. set (n := Zlen (encode f)) in *.
  destruct (frame_reads a b f n Em Hf Hl eq_refl) as (H0 & Hh & Hs & Hc).
  eexists (set_state st_check_magic (set_wCount n (set_wPkgSize n
            (set_pbyBuffer (here a) r)))).
  split; [done|]. split; [done|].
  (* magic byte *)
  rewrite run_unfold by (auto using idle_wf || unfold RECV_MAX; lia).
  unfold pu_state_call at 1, alink_recv_state_check_magic, at_ptr. rewrite Hr.
  cbn [with_data ri_uLength ri_pbyData pblk poff]. rewrite Hblk.
  replace (Z.to_nat n) with (S (Z.to_nat (n - 1))) by lia.
  cbn [mbind option_bind find_magic]. rewrite Z.add_0_r, H0. cbn [mbind option_bind].
  assert (alink_check_magic 253 = true) as -> by reflexivity. cbn [mbind option_bind].
  (* header *)
  assert (ptr_add (here a) 0 = here a) as -> by (unfold ptr_add; cbn; f_equal; lia).
  change (u32 (0 + 1)) with 1. rewrite run_unfold by (unfold RECV_MAX; done || lia).
  unfold pu_state_call at 1, alink_recv_state_check_head, at_ptr.
  cbn [set_state set_wCount set_pbyBuffer state with_data ri_uLength wCount
       pbyBuffer ptr_add pblk poff mbind option_bind].
  rewrite Hblk. unfold sizeof_alink_msg_head.
  change (u64 (9 - 1)) with 8. destruct (Z.ltb_spec (n - 1) 8); [lia|].
  cbn [mbind option_bind]. rewrite Hh. cbn [mbind option_bind]. rewrite Hs.
  cbn [mbind option_bind].
  change (u32 (9 - 1)) with 8. change (u32 (1 + 8)) with 9.
  (* body and CRC *)
  rewrite ptr_add_add. rewrite run_unfold by (unfold recv_wf, RECV_MAX; cbn; lia).
  unfold pu_state_call at 1, alink_recv_state_check_crc, at_ptr.
  cbn [set_state set_wCount set_pbyBuffer set_wPkgSize state with_data ri_uLength wCount
       wPkgSize pbyBuffer ptr_add pblk poff mbind option_bind].
  rewrite !u32_id by lia. destruct (Z.ltb_spec (9 + (n - 1 - 8)) n); [lia|].
  rewrite Hblk. cbn [mbind option_bind]. replace (9 + (n - 9)) with n by lia. rewrite Hc.
  cbn [mbind option_bind sRecvCbk with_data ri_ePortId ri_handle ri_pe_send
       set_wCount set_state set_wPkgSize set_pbyBuffer pbyBuffer].
  unfold deliver.
  destruct (pe_cbk (sRecvCbk r)) as [cbk|]; [destruct (cbk _ _ _ w) as [w'|]; [|done]|];
    cbn [mbind option_bind]; replace (n - 1 - 8 - (n - 9)) with 0 by lia; done.
Qed.

(** A stream: frames, each preceded by bytes that are not the magic byte. *)
Definition stream (items : list (list Z * alink_frame)) : list Z :=
  concat (map (λ x, x.1 ++ encode x.2) items).

Definition item_ok (x : list Z * alink_frame) : Prop :=
  no_magic x.1 /\ frame_ok x.2 /\ Zlen (fr_payload x.2) + 8 < 65536.

(** The callbacks for a stream that starts at [pos], in order. *)
Fixpoint deliver_all (r : alink_recv W) (pos : Z) (items : list (list Z * alink_frame))
    (w : W) : option W :=
  match items with
  | [] => Some w
  | (noise, f) :: items' =>
      w' ← deliver r (Ptr blk (pos + Zlen noise)) w;
      deliver_all r (pos + Zlen noise + Zlen (encode f)) items' w'
  end.

Lemma deliver_cbk r r' p w : sRecvCbk r' = sRecvCbk r -> deliver r' p w = deliver r p w.
Proof. unfold deliver. by intros ->. Qed.

Lemma deliver_all_cbk r r' pos items w :
  sRecvCbk r' = sRecvCbk r -> deliver_all r' pos items w = deliver_all r pos items w.
Proof.
  intros E. revert pos w. induction items as [|[nz f] items IH]; intros pos w; [done|].
  cbn. rewrite (deliver_cbk r r') by done. destruct (deliver r _ w); [apply IH|done].
Qed.

Lemma run_stream r w (a b : list Z) items :
  m = a ++ stream items ++ b -> Forall item_ok items ->
  Zlen (stream items) < RECV_MAX -> idle r ->
  run (Zlen (stream items)) r (here a) w = None
    /\ deliver_all r (Zlen a) items w = None
  \/ exists r' w', idle r' /\ sRecvCbk r' = sRecvCbk r
    /\ run (Zlen (stream items)) r (here a) w = Some (r', w')
    /\ deliver_all r (Zlen a) items w = Some w'.
Proof.
  intros Em Hi. revert r w a Em. induction Hi as [|[nz f] items (Hnz & Hf & Hl) _ IH];
    intros r w a Em Hmax Hr; [right; by exists r, w|].
  unfold stream in *. cbn [map concat fst snd] in *.
  fold (stream items) in *. rewrite <-!app_assoc in Em. rewrite !Zlen_app in Hmax |- *.
  pose proof (Zlen_nonneg nz). pose proof (Zlen_nonneg (encode f)).
  pose proof (Zlen_nonneg (stream items)).
  rewrite <-Z.add_assoc, run_split by (auto using idle_wf || lia).
  rewrite (run_noise r w a nz _ Em) by (done || lia). cbn [mbind option_bind deliver_all].
  rewrite run_split by (auto using idle_wf || lia).
  assert (ptr_add (here a) (Zlen nz) = here (a ++ nz)) as ->
    by (unfold ptr_add; cbn; by rewrite Zlen_app).
  rewrite app_assoc in Em.
  destruct (run_frame r w (a ++ nz) _ f Em Hf Hl Hr) as (r1 & Hr1 & Ecb & ->).
  rewrite Zlen_app. destruct (deliver r _ w) as [w1|]; [|by left]. cbn [mbind option_bind].
  assert (ptr_add (Ptr blk (Zlen a + Zlen nz)) (Zlen (encode f))
          = here ((a ++ nz) ++ encode f)) as ->
    by (unfold ptr_add; cbn; by rewrite !Zlen_app).
  rewrite app_assoc in Em. specialize (IH r1 w1 _ Em).
  rewrite (deliver_all_cbk r r1), !Zlen_app in IH by done. rewrite !Zlen_app.
  destruct IH as [?|(r2 & w2 & ? & E2 & ? & ?)]; [lia|done|by left|].
  right. exists r2, w2. rewrite E2. done.
Qed.

(** ** Safety on arbitrary input *)

(** The message being collected ends just before [pos] in this block. *)
Definition recv_ready (pos : Z) (r : alink_recv W) : Prop :=
  recv_wf r
  /\ (state r <> st_check_magic ->
      pbyBuffer r = Ptr blk (pos - wCount r) /\ 0 <= pos - wCount r).

Definition cbk_total (c : alink_recv_cbk W) : Prop :=
  forall i w, match pe_cbk c with Some cbk => is_Some (cbk (psHandle c) mem i w) | None => True end.

Lemma feed_safe pos r w :
  0 <= pos < Zlen m -> recv_ready pos r -> cbk_total (sRecvCbk r) ->
  exists r' w', feed r (Ptr blk pos) w = Some (r', w')
    /\ recv_ready (pos + 1) r' /\ sRecvCbk r' = sRecvCbk r.
Proof.
  intros Hpos [Hwf Hptr] Hc. unfold feed, pu_state_call. unfold recv_wf in Hwf.
  destruct (state r) eqn:Es.
  - unfold alink_recv_state_check_magic, at_ptr.
    cbn [with_data ri_uLength ri_pbyData pblk poff]. rewrite Hblk.
    change (Z.to_nat 1) with 1%nat. cbn [mbind option_bind find_magic].
    destruct (ld8_is_Some m (pos + 0)) as [v ->]; [lia|]. cbn [mbind option_bind].
    destruct (alink_check_magic v); cbn [mbind option_bind]; do 2 eexists;
      (split; [done|]); unfold recv_ready, recv_wf.
    + split; [|done]. cbn. split; [lia|]. intros _. unfold ptr_add; cbn.
      split; [f_equal; lia|lia].
    + rewrite Es. done.
  - destruct Hptr as [Ep Hp]; [done|].
    unfold alink_recv_state_check_head, sizeof_alink_msg_head, at_ptr.
    cbn [with_data ri_uLength]. replace (u64 (9 - wCount r)) with (9 - wCount r) by wrap_lia.
    rewrite (u32_id (9 - wCount r)), (u32_id (wCount r + 1)) by lia.
    destruct (Z.ltb_spec 1 (9 - wCount r)).
    + cbn [mbind option_bind]. do 2 eexists. split; [done|].
      unfold recv_ready, recv_wf. cbn. rewrite Es, Ep. repeat split; try lia. f_equal. lia.
    + replace (wCount r + (9 - wCount r)) with 9 by lia. cbn [set_wCount pbyBuffer].
      rewrite Ep. cbn [pblk poff]. rewrite Hblk. change (u32 9) with 9. cbn [mbind option_bind].
      destruct (header_checksum_total m (pos - wCount r)) as [[] ->]; [lia..| |];
        cbn [mbind option_bind]; [|by do 2 eexists].
      destruct (package_size_total m (pos - wCount r)) as [sz Hsz]; [lia..|].
      rewrite Hsz. apply package_size_range in Hsz. cbn [mbind option_bind].
      do 2 eexists. split; [done|]. unfold recv_ready, recv_wf. cbn. rewrite Ep.
      repeat split; try lia. f_equal. lia.
  - destruct Hptr as [Ep Hp]; [done|].
    unfold alink_recv_state_check_crc, at_ptr. cbn [with_data ri_uLength].
    rewrite (u32_id (wCount r + 1)), (u32_id (wPkgSize r - wCount r)) by lia.
    destruct (Z.ltb_spec (wCount r + 1) (wPkgSize r)).
    + cbn [mbind option_bind]. do 2 eexists. split; [done|].
      unfold recv_ready, recv_wf. cbn. rewrite Es, Ep. repeat split; try lia. f_equal. lia.
    + cbn [set_wCount pbyBuffer wCount sRecvCbk]. rewrite Ep. cbn [pblk poff].
      rewrite Hblk. cbn [mbind option_bind].
      rewrite u32_id by lia.
      destruct (check_crc_total m (pos - wCount r) (wCount r + (wPkgSize r - wCount r)))
        as [ok ->]; [lia..|]. cbn [mbind option_bind].
      unfold cbk_total in Hc. destruct ok.
      * destruct (pe_cbk (sRecvCbk r)) as [cbk|]; [|by do 2 eexists].
        edestruct Hc as [w1 E]. erewrite E. by do 2 eexists.
      * by do 2 eexists.
Qed.

Lemma run_safe n pos r w :
  0 <= pos -> 0 <= n < RECV_MAX -> pos + n <= Zlen m ->
  recv_ready pos r -> cbk_total (sRecvCbk r) ->
  exists r' w', run n r (Ptr blk pos) w = Some (r', w')
    /\ recv_ready (pos + n) r' /\ sRecvCbk r' = sRecvCbk r.
Proof.
  intros Hpos Hn Hend Hr Hc. rewrite run_feeds by (done || apply Hr).
  rewrite <-(Z2Nat.id n) in Hend |- * by lia. rewrite Nat2Z.id. clear Hn.
  generalize dependent (Z.to_nat n). clear n. intros k.
  revert pos r w Hpos Hr Hc. induction k as [|k IH]; intros pos r w Hpos Hr Hc Hend.
  - exists r, w. rewrite Z.add_0_r. done.
  - destruct (feed_safe pos r w) as (r1 & w1 & E & Hr1 & Ec); [lia|done..|].
    cbn [feeds]. rewrite E. cbn [mbind option_bind]. rewrite <-Ec in Hc.
    destruct (IH (pos + 1) r1 w1) as (r2 & w2 & E2 & Hr2 & Ec2); [lia|done..|lia|].
    exists r2, w2. unfold ptr_add at 1. cbn [pblk poff].
    replace (pos + Z.of_nat (S k)) with (pos + 1 + Z.of_nat k) by lia.
    by rewrite Ec2.
Qed.
End block.
End machine.

(** ** Properties *)

(** C17: chunking. Giving the receiver [a + b] contiguous bytes in one call of
    [alink_recv_task] has the same effect (state, callbacks and their order, faults)
    as giving it the first [a] bytes and then the next [b], for every split point and
    every receiver state that the machine can be in. *)
Theorem alink_recv_task_chunks {W} (mem : memory) (imp : alink_recv_import)
    (r : alink_recv W) p a b w :
  recv_wf r -> 0 <= a -> 0 <= b -> a + b < RECV_MAX ->
  alink_recv_task mem r (with_data imp p (a + b)) w
  = '(r', w') ← alink_recv_task mem r (with_data imp p a) w;
    alink_recv_task mem r' (with_data imp (ptr_add p a) b) w'.
Proof. intros. by apply run_split. Qed.

(** C4: every package of a stream of frames and noise is delivered. From the state
    [alink_recv_init] leaves, a buffer that holds frames built as [encode] builds them,
    each preceded by any bytes other than the magic byte, makes the callback fire once
    per frame, with the frame's address, in the order of the stream, and leaves the
    receiver idle with its callback. *)
Theorem alink_recv_task_stream {W} (mem : memory) (imp : alink_recv_import)
    (r : alink_recv W) blk m items w :
  mem !! blk = Some m -> m = stream items ->
  Forall item_ok items -> Zlen m < RECV_MAX -> state r = st_check_magic ->
  (alink_recv_task mem r (with_data imp (Ptr blk 0) (Zlen m)) w = None
    /\ deliver_all mem imp blk r 0 items w = None)
  \/ exists r' w', state r' = st_check_magic /\ sRecvCbk r' = sRecvCbk r
    /\ alink_recv_task mem r (with_data imp (Ptr blk 0) (Zlen m)) w = Some (r', w')
    /\ deliver_all mem imp blk r 0 items w = Some w'.
Proof.
  intros Hb -> Hi Hl Hr.
  apply (run_stream mem imp blk _ Hb r w [] []); try done. by rewrite app_nil_r.
Qed.

(** C18: safety and termination on arbitrary input. Whatever bytes a buffer holds, the
    task consumes them all: it reads only inside the buffer, ends, and leaves the receiver
    ready for the bytes that follow, provided the callback itself does not fault. *)
Theorem alink_recv_task_safe {W} (mem : memory) (imp : alink_recv_import)
    (r : alink_recv W) blk m pos n w :
  mem !! blk = Some m -> 0 <= pos -> 0 <= n < RECV_MAX -> pos + n <= Zlen m ->
  recv_ready blk pos r -> cbk_total mem (sRecvCbk r) ->
  exists r' w', alink_recv_task mem r (with_data imp (Ptr blk pos) n) w = Some (r', w')
    /\ recv_ready blk (pos + n) r' /\ sRecvCbk r' = sRecvCbk r.
Proof. intros. by eapply run_safe. Qed.

(** ** Witnesses *)

(** A receiver whose callback records the address of each message. *)
Definition log_cbk : nat -> memory -> alink_order_import -> list ptr -> option (list ptr) :=
  λ _ _ i w, Some (w ++ [oi_pbyMsg i]).
Definition log_recv : alink_recv (list ptr) :=
  alink_recv_register_cbk
    (alink_recv_init
       {| wPkgSize := 0; wCount := 0; rv_wBufferSize := 0;
          sRecvCbk := {| psHandle := 0; pe_cbk := None |};
          pbyBuffer := Ptr 0 0; state := st_check_magic |} (Ptr 0 0) 2048) 0 (Some log_cbk).
Definition log_import : alink_recv_import :=
  {| ri_ePortId := 1; ri_pbyData := Ptr 7 0; ri_uLength := 0; ri_handle := 0; ri_pe_send := 0 |}.
Definition log_items : list (list Z * alink_frame) :=
  [([1; 2], Frame 5 255 7 208 0 [10; 253; 30]); ([], Frame 6 255 7 209 1 [])].

Lemma alink_recv_task_chunks_witness :
  alink_recv_task {[ 7%nat := stream log_items ]} log_recv
    (with_data log_import (Ptr 7 0) (5 + 22)) []
  = '(r', w') ← alink_recv_task {[ 7%nat := stream log_items ]} log_recv
                  (with_data log_import (Ptr 7 0) 5) [];
    alink_recv_task {[ 7%nat := stream log_items ]} r'
      (with_data log_import (ptr_add (Ptr 7 0) 5) 22) w'.
Proof. apply alink_recv_task_chunks; [exact I|unfold RECV_MAX; lia..]. Defined.

Lemma log_items_ok : Forall item_ok log_items.
Proof. repeat constructor; by_eval. Qed.

Lemma alink_recv_task_stream_witness :
  (exists r' w', alink_recv_task {[ 7%nat := stream log_items ]} log_recv
      (with_data log_import (Ptr 7 0) (Zlen (stream log_items))) [] = Some (r', w')
    /\ w' = [Ptr 7 2; Ptr 7 16]).
Proof.
  assert (Zlen (stream log_items) < RECV_MAX) as Hl by by_eval.
  destruct (alink_recv_task_stream {[ 7%nat := stream log_items ]} log_import log_recv 7
              (stream log_items) log_items [] (lookup_singleton_eq _ _) eq_refl
              log_items_ok Hl eq_refl) as [[_ H]|(r' & w' & _ & _ & H & H')].
  - discriminate H.
  - exists r', w'. split; [exact H|]. by injection H'.
Defined.

Lemma alink_recv_task_safe_witness :
  (exists r' w', alink_recv_task {[ 7%nat := [1; 253; 2; 253; 0; 3] ]} log_recv
      (with_data log_import (Ptr 7 0) 6) [] = Some (r', w')
    /\ recv_ready 7 6 r').
Proof.
  assert (cbk_total {[ 7%nat := [1; 253; 2; 253; 0; 3] ]} (sRecvCbk log_recv)) as Hc
    by (intros i w; exact (mk_is_Some _ _ eq_refl)).
  destruct (alink_recv_task_safe {[ 7%nat := [1; 253; 2; 253; 0; 3] ]} log_import log_recv 7
              [1; 253; 2; 253; 0; 3] 0 6 []) as (r' & w' & H & H' & _);
    [apply lookup_singleton_eq|lia|unfold RECV_MAX; lia|by_eval|by split|exact Hc|].
  by exists r', w'.
Defined.
