(* ===== verification/Linked.v ===== *)
(** * Intrusive linked lists

    The commands, packages, receivers and devices of the program are kept in lists that
    are threaded through a [psNext] field of the nodes themselves, and the nodes are
    static objects of other modules.  A node is an address in a finite map; [NULL] is
    [None].  The loops are written with fuel, and a list held by a heap is never longer
    than the heap, so [size h] is enough. *)

From S2P Require Import Prelude.

(** What a node type promises: a link field that can be read back. *)
Class Linked (A : Type) := {
  ln_next : A -> option nat;
  ln_set_next : option nat -> A -> A;
  ln_next_set p a : ln_next (ln_set_next p a) = p
}.

Section linked.
Context {A : Type} `{Linked A}.
Implicit Types (h : gmap nat A) (p q : option nat) (l : list nat).

(** ** The loops *)

(** [for( ; now != node; now = now->psNext ) if( NULL == now->psNext ) { now->psNext =
    node; break; }] *)
Fixpoint list_append_walk (fuel : nat) h (now node : nat) : option (gmap nat A) :=
  if decide (now = node) then Some h else
  match fuel with
  | O => None
  | S fuel' =>
      n ← h !! now;
      match ln_next n with
      | None => Some (<[now := ln_set_next (Some node) n]> h)
      | Some next => list_append_walk fuel' h next node
      end
  end.

(** The first node of the list that satisfies [f]. *)
Fixpoint list_find_node (fuel : nat) h (f : A -> bool) p : option (option nat) :=
  match p with
  | None => Some None
  | Some a =>
      match fuel with
      | O => None
      | S fuel' =>
          n ← h !! a;
          if f n then Some (Some a) else list_find_node fuel' h f (ln_next n)
      end
  end.

(** The loop that looks for [node] with the node before it at hand. *)
Inductive unlink_result :=
  | unlink_absent
  | unlink_head
  | unlink_done (h : gmap nat A).

Fixpoint list_unlink_walk (fuel : nat) h (last now : option nat) (node : nat)
  : option unlink_result :=
  match now with
  | None => Some unlink_absent
  | Some a =>
      match fuel with
      | O => None
      | S fuel' =>
          n ← h !! a;
          if decide (a = node) then
            match last with
            | Some z => nz ← h !! z; Some (unlink_done (<[z := ln_set_next (ln_next n) nz]> h))
            | None => Some unlink_head
            end
          else list_unlink_walk fuel' h (Some a) (ln_next n) node
      end
  end.

(** The loop of the two removals in [eth_link.c] and [eth_link_server.c], as written:
    [psLast] stays at the head of the list. *)
Fixpoint list_unlink_head_walk (fuel : nat) h (psLast : nat) (psIndex : option nat) (psList : nat)
  : option (gmap nat A) :=
  match psIndex with
  | None => Some h
  | Some i =>
      match fuel with
      | O => None
      | S fuel' =>
          n ← h !! i;
          if decide (psList = i) then
            z ← h !! psLast; Some (<[psLast := ln_set_next (ln_next n) z]> h)
          else list_unlink_head_walk fuel' h psLast (ln_next n) psList
      end
  end.

(** ** Lists in a heap *)

Fixpoint lseg h p l q : Prop :=
  match l with
  | [] => p = q
  | a :: l' => p = Some a /\ exists n, h !! a = Some n /\ lseg h (ln_next n) l' q
  end.

Definition is_list h p l : Prop := lseg h p l None.

Lemma lseg_det h p l l' : is_list h p l -> is_list h p l' -> l = l'.
Proof.
  unfold is_list. revert p l'.
  induction l as [|a l IH]; intros p [|b l']; cbn [lseg]; intros E E'; try done.
  - destruct E' as [E' _]. congruence.
  - destruct E as [E _]. congruence.
  - destruct E as (-> & n & Hn & E), E' as ([= <-] & n' & Hn' & E').
    rewrite Hn in Hn'. injection Hn' as <-. f_equal. eauto.
Qed.

Lemma lseg_app h p l1 l2 q :
  lseg h p (l1 ++ l2) q <-> exists r, lseg h p l1 r /\ lseg h r l2 q.
Proof.
  revert p. induction l1 as [|a l1 IH]; intros p; cbn [lseg app].
  - split; [by exists p|by intros (r & -> & ?)].
  - setoid_rewrite IH. split.
    + intros (-> & n & Hn & r & E1 & E2). exists r. split; [|done]. by split; [|exists n].
    + intros (r & (-> & n & Hn & E1) & E2). split; [done|]. exists n. split; [done|].
      by exists r.
Qed.

Lemma is_list_NoDup h p l : is_list h p l -> NoDup l.
Proof.
  unfold is_list. revert p. induction l as [|a l IH]; intros p E; [constructor|].
  pose proof E as E0. cbn [lseg] in E. destruct E as (-> & n & Hn & E).
  constructor; [|by eapply IH]. intros Ha.
  apply list_elem_of_split in Ha as (l1 & l2 & ->).
  pose proof E as (r & _ & Er)%lseg_app.
  assert (r = Some a) as -> by (cbn in Er; tauto).
  pose proof (lseg_det _ _ _ _ E0 Er) as Eq. injection Eq as Eq.
  apply (f_equal length) in Eq. rewrite length_app in Eq. cbn in Eq. lia.
Qed.

Lemma lseg_dom h p l q a : lseg h p l q -> a ∈ l -> is_Some (h !! a).
Proof.
  revert p. induction l as [|b l IH]; intros p E Ha; [by apply not_elem_of_nil in Ha|].
  destruct E as (-> & n & Hn & E). apply elem_of_cons in Ha as [->|Ha]; eauto.
Qed.

Lemma is_list_size h p l : is_list h p l -> (length l <= size h)%nat.
Proof.
  intros E. rewrite <-(size_dom (D := gset nat)), <-(size_list_to_set (C := gset nat) l).
  - apply subseteq_size. intros a Ha%elem_of_list_to_set.
    apply elem_of_dom. by eapply lseg_dom.
  - by eapply is_list_NoDup.
Qed.

(** Changing a node outside a segment keeps the segment. *)
Lemma lseg_insert_ne h p l q a n :
  a ∉ l -> lseg (<[a := n]> h) p l q <-> lseg h p l q.
Proof.
  revert p. induction l as [|b l IH]; intros p Ha; [done|]. cbn [lseg].
  apply not_elem_of_cons in Ha as [Hb Ha].
  rewrite lookup_insert_ne by done. by setoid_rewrite IH.
Qed.

(** Only the nodes of the list and their links matter. *)
Lemma lseg_ext h h' p l q :
  (forall a, a ∈ l -> ln_next <$> (h !! a) = ln_next <$> (h' !! a)) ->
  lseg h p l q -> lseg h' p l q.
Proof.
  revert p. induction l as [|b l IH]; intros p Heq E; [done|].
  destruct E as (-> & n & Hn & E). cbn [lseg]. split; [done|].
  assert (b ∈ b :: l) as Hb by set_solver. apply Heq in Hb. rewrite Hn in Hb.
  destruct (h' !! b) as [n'|]; [|discriminate Hb].
  exists n'. split; [done|]. injection Hb as <-.
  apply IH; [|done]. intros a Ha. apply Heq. set_solver.
Qed.

(** ** The walk that appends *)

Lemma append_walk_spec fuel h p l a node n0 :
  is_list h (Some a) l -> (length l <= fuel)%nat -> p = Some a ->
  h !! node = Some n0 -> (node ∉ l -> ln_next n0 = None) ->
  exists h', list_append_walk fuel h a node = Some h'
    /\ (node ∈ l -> h' = h)
    /\ (node ∉ l -> is_list h' p (l ++ [node])
         /\ exists z nz, last l = Some z /\ h !! z = Some nz
              /\ h' = <[z := ln_set_next (Some node) nz]> h).
Proof.
  intros El Hf -> Hn Hnull. revert fuel a El Hf Hnull.
  induction l as [|b l IH]; intros fuel a El Hf Hnull; [discriminate El|].
  destruct fuel as [|fuel]; [cbn in Hf; lia|].
  pose proof (is_list_NoDup _ _ _ El) as [Hb _]%NoDup_cons.
  pose proof El as El0. destruct El as ([= <-] & na & Hna & El).
  cbn [list_append_walk]. destruct (decide (a = node)) as [->|Hne].
  { exists h. split; [done|]. split; [done|]. intros []. set_solver. }
  rewrite Hna. cbn [mbind option_bind]. destruct (ln_next na) as [c|] eqn:Ec.
  - assert (l <> []) as Hl by (destruct l; [discriminate El|done]).
    destruct (IH fuel c El) as (h' & Hw & Hin & Hout); [cbn in Hf; lia|set_solver|].
    exists h'. split; [done|]. split; [set_solver|]. intros Hnl.
    destruct Hout as (E & z & nz & Hz & Hhz & Eh); [set_solver|].
    assert (z <> a) as Hza.
    { intros ->. apply last_Some_elem_of in Hz. done. }
    split.
    + cbn [app]. split; [done|]. exists na. split; [subst h'; by rewrite lookup_insert_ne|].
      by rewrite Ec.
    + exists z, nz. split; [|done]. destruct l; [done|]. done.
  - destruct l as [|? ?]; [|destruct El as [El _]; discriminate El]. eexists. split; [done|].
    split; [set_solver|]. intros _. split.
    + cbn [app]. split; [done|]. eexists. rewrite lookup_insert_eq. split; [done|].
      rewrite ln_next_set. split; [done|]. exists n0.
      rewrite lookup_insert_ne by done. split; [done|]. apply Hnull. set_solver.
    + exists a, na. done.
Qed.

(** A fresh node hung on the last node of a list. *)
Lemma is_list_snoc h p l z nz a n :
  is_list h p (l ++ [z]) -> h !! z = Some nz -> h !! a = None -> ln_next n = None ->
  is_list (<[a := n]> (<[z := ln_set_next (Some a) nz]> h)) p ((l ++ [z]) ++ [a]).
Proof.
  intros El Hz Ha Hn. pose proof (is_list_NoDup _ _ _ El) as (_ & Hd & _)%NoDup_app.
  assert (a ∉ l ++ [z]) as Hal.
  { intros H'. destruct (lseg_dom _ _ _ _ _ El H'). congruence. }
  assert (a ∉ l /\ a <> z) as [Hl Hne] by set_solver.
  assert (z ∉ l) as Hzl by (intros H'; apply (Hd _ H'); by left).
  unfold is_list in *. apply lseg_app in El as (r & E1 & E2). destruct E2 as (-> & _).
  rewrite <-app_assoc. apply lseg_app. exists (Some z). split.
  - by rewrite !lseg_insert_ne.
  - cbn [app lseg]. split; [done|]. eexists. rewrite lookup_insert_ne, lookup_insert_eq by done.
    split; [done|]. rewrite ln_next_set. split; [done|]. exists n.
    by rewrite lookup_insert_eq.
Qed.

(** ** The walk that unlinks *)

Lemma unlink_walk_absent fuel h last p l node :
  is_list h p l -> (length l <= fuel)%nat -> node ∉ l ->
  list_unlink_walk fuel h last p node = Some unlink_absent.
Proof.
  intros El. revert fuel last p El. induction l as [|a l IH]; intros fuel last p El Hf Hn.
  - cbn in El. subst p. by destruct fuel.
  - destruct El as (-> & n & Ha & El). destruct fuel as [|fuel]; [cbn in Hf; lia|].
    apply not_elem_of_cons in Hn as [Hne Hn].
    cbn [list_unlink_walk]. rewrite Ha. cbn [mbind option_bind]. rewrite decide_False by done.
    apply IH; [done|cbn in Hf; lia|done].
Qed.

Lemma unlink_walk_step fuel h z p l1 node l2 :
  is_list h p (l1 ++ node :: l2) -> (length (l1 ++ node :: l2) <= fuel)%nat ->
  node ∉ l1 ->
  exists y ny r n, last (z :: l1) = Some y /\ h !! node = Some n
    /\ ln_next n = r /\ (is_Some (h !! z) -> h !! y = Some ny
    /\ list_unlink_walk fuel h (Some z) p node
       = Some (unlink_done (<[y := ln_set_next r ny]> h))).
Proof.
  revert fuel z p. induction l1 as [|a l1 IH]; intros fuel z p El Hf Hn; cbn [app] in *.
  - destruct El as (-> & n & Ha & El). destruct fuel as [|fuel]; [cbn in Hf; lia|].
    destruct (h !! z) as [nz|] eqn:Ez.
    + exists z, nz, (ln_next n), n. repeat split; try done.
      cbn [list_unlink_walk]. rewrite Ha. cbn [mbind option_bind].
      rewrite decide_True, Ez by done. done.
    + exists z, n, (ln_next n), n. repeat split; try done; by intros [? ?].
  - destruct El as (-> & n & Ha & El). destruct fuel as [|fuel]; [cbn in Hf; lia|].
    apply not_elem_of_cons in Hn as [Hne Hn].
    destruct (IH fuel a (ln_next n) El) as (y & ny & r & n' & Hl & Hd & Hr & Hw);
      [cbn in Hf; lia|done|].
    exists y, ny, r, n'. split; [done|]. split; [done|]. split; [done|]. intros _.
    destruct Hw as [Hy Hw]; [by eexists|]. split; [done|].
    cbn [list_unlink_walk]. rewrite Ha. cbn [mbind option_bind].
    rewrite decide_False by done. exact Hw.
Qed.

Lemma is_list_unlink h p l1 y ny node n l2 :
  is_list h p (l1 ++ y :: node :: l2) -> h !! y = Some ny -> h !! node = Some n ->
  is_list (<[y := ln_set_next (ln_next n) ny]> h) p (l1 ++ y :: l2).
Proof.
  intros El Hy Hn. pose proof (is_list_NoDup _ _ _ El) as Hd.
  unfold is_list in *. apply lseg_app in El as (r & E1 & E2). apply lseg_app. exists r.
  apply NoDup_app in Hd as (_ & Hl1 & Hd). split.
  - apply lseg_insert_ne; [|done]. intros Hy1. apply (Hl1 _ Hy1). set_solver.
  - apply NoDup_cons in Hd as [Hyl Hd].
    destruct E2 as (-> & ny' & Hy' & E2). rewrite Hy in Hy'. injection Hy' as <-.
    cbn [lseg]. split; [done|]. eexists. rewrite lookup_insert_eq. split; [done|].
    rewrite ln_next_set. destruct E2 as (_ & n' & Hn' & E2).
    rewrite Hn in Hn'. injection Hn' as <-. apply lseg_insert_ne; [set_solver|done].
Qed.

Lemma NoDup_middle_unique (x : nat) l1 l2 l1' l2' :
  NoDup (l1 ++ x :: l2) -> l1 ++ x :: l2 = l1' ++ x :: l2' -> l1 = l1' /\ l2 = l2'.
Proof.
  revert l1'. induction l1 as [|a l1 IH]; intros l1' Hd E; cbn in Hd;
    apply NoDup_cons in Hd as [Ha Hd]; destruct l1' as [|a' l1']; injection E.
  - done.
  - intros -> ->. destruct Ha. set_solver.
  - intros <- ->. destruct Ha. set_solver.
  - intros E' ->. apply IH in E' as [-> ->]; done.
Qed.

Lemma unlink_walk_inner fuel h p x l1 node l2 :
  is_list h p (x :: l1 ++ node :: l2) -> (length (x :: l1 ++ node :: l2) <= fuel)%nat ->
  exists h', list_unlink_walk fuel h None p node = Some (unlink_done h')
    /\ is_list h' p (x :: l1 ++ l2).
Proof.
  intros El Hf. pose proof (is_list_NoDup _ _ _ El) as [Hx Hd]%NoDup_cons.
  pose proof El as (-> & nx & Hnx & Er).
  destruct fuel as [|fuel]; [cbn in Hf; lia|]. cbn [list_unlink_walk].
  rewrite Hnx. cbn [mbind option_bind]. rewrite decide_False by set_solver.
  destruct (unlink_walk_step fuel h x (ln_next nx) l1 node l2 Er) as
    (y & ny & r & n & Hy & Hn & <- & Hw); [cbn in Hf; lia| |].
  { apply NoDup_app in Hd as (_ & Hd & _). intros Hi. apply (Hd _ Hi). by left. }
  destruct Hw as [Hyn ->]; [by eexists|]. eexists. split; [done|].
  apply last_Some in Hy as [l0 E0].
  rewrite !app_comm_cons, E0, <-app_assoc in El |- *. cbn [app] in *.
  by apply is_list_unlink with (node := node).
Qed.

(** Unlinking changes the link of one node only, which is on the list. *)
Lemma unlink_walk_frame fuel h last p l node h' :
  is_list h p l -> list_unlink_walk fuel h last p node = Some (unlink_done h') ->
  exists y ny q, h !! y = Some ny /\ h' = <[y := ln_set_next q ny]> h /\ (last = Some y \/ y ∈ l).
Proof.
  intros El. revert fuel last p El.
  induction l as [|a l IH]; intros fuel last p El E.
  - cbn in El. subst p. by destruct fuel.
  - destruct El as (-> & n & Ha & El). destruct fuel as [|fuel]; [discriminate E|].
    cbn [list_unlink_walk] in E. rewrite Ha in E. cbn [mbind option_bind] in E.
    destruct (decide (a = node)).
    + destruct last as [z|]; [|discriminate E]. destruct (h !! z) as [nz|] eqn:Ez; [|discriminate E].
      injection E as <-. exists z, nz, (ln_next n). auto.
    + destruct (IH _ _ _ El E) as (y & ny & q & Hy & -> & Hin). exists y, ny, q.
      split; [done|]. split; [done|]. right. destruct Hin as [[= <-]|Hin]; [by left|by right].
Qed.

(** ** The walk that forgets its predecessor *)

Lemma unlink_head_absent fuel h z p l node :
  is_list h p l -> (length l <= fuel)%nat -> node ∉ l ->
  list_unlink_head_walk fuel h z p node = Some h.
Proof.
  intros El. revert fuel p El. induction l as [|a l IH]; intros fuel p El Hf Hn.
  - cbn in El. subst p. by destruct fuel.
  - destruct El as (-> & n & Ha & El). destruct fuel as [|fuel]; [cbn in Hf; lia|].
    apply not_elem_of_cons in Hn as [Hne Hn].
    cbn [list_unlink_head_walk]. rewrite Ha. cbn [mbind option_bind].
    rewrite decide_False by done. apply IH; [done|cbn in Hf; lia|done].
Qed.

Lemma unlink_head_found fuel h z nz p l1 node n l2 :
  is_list h p (l1 ++ node :: l2) -> (length (l1 ++ node :: l2) <= fuel)%nat -> node ∉ l1 ->
  h !! z = Some nz -> h !! node = Some n ->
  list_unlink_head_walk fuel h z p node = Some (<[z := ln_set_next (ln_next n) nz]> h).
Proof.
  intros El. revert fuel p El. induction l1 as [|a l1 IH]; intros fuel p El Hf Hn Hz Hnode;
    cbn [app] in *; destruct El as (-> & m & Ha & El);
    (destruct fuel as [|fuel]; [cbn in Hf; lia|]); cbn [list_unlink_head_walk]; rewrite Ha;
    cbn [mbind option_bind].
  - rewrite decide_True by done. rewrite Hnode in Ha. injection Ha as <-. by rewrite Hz.
  - apply not_elem_of_cons in Hn as [Hne Hn]. rewrite decide_False by done.
    apply IH; [done|cbn in Hf; lia|done..].
Qed.

(** Freeing a node that is not on the list. *)
Lemma is_list_delete h p l a : a ∉ l -> is_list h p l -> is_list (delete a h) p l.
Proof.
  intros Ha Hl. unfold is_list in *. apply (lseg_ext h); [|done]. intros b Hb.
  rewrite lookup_delete_ne; [done|]. by intros ->.
Qed.

(** ** The search *)

Lemma find_node_spec fuel h f p l :
  is_list h p l -> (length l <= fuel)%nat ->
  list_find_node fuel h f p
  = Some (head (filter (λ a, from_option f false (h !! a) = true) l)).
Proof.
  intros El. revert fuel p El. induction l as [|a l IH]; intros fuel p El Hf.
  - cbn in El. subst p. by destruct fuel.
  - destruct El as (-> & n & Hn & El). destruct fuel as [|fuel]; [cbn in Hf; lia|].
    cbn [list_find_node]. rewrite Hn. cbn [mbind option_bind].
    destruct (f n) eqn:Ef.
    + rewrite filter_cons_True by (by rewrite Hn). done.
    + rewrite filter_cons_False by (rewrite Hn; cbn; by rewrite Ef). apply IH; [done|cbn in Hf; lia].
Qed.
End linked.
