(* ===== verification/AlinkBuild.v ===== *)
(** * Building a frame in a send buffer

    The order component, the upload component and the discovery protocol all write a
    header in front of a payload that is already in place, then the header checksum and
    the CRC.  The lines they share are here, with the theorem that what they leave in the
    buffer is the encoding of a frame. *)

From S2P Require Import Prelude Checksum AlinkFrame AlinkCheck.
Local Open Scope c_scope.

(** ** Single-byte stores *)

Lemma st8_at m k v : 0 <= k < Zlen m -> st8 m k v = Some (<[Z.to_nat k := u8 v]> m).
Proof.
  intros Hk. unfold st8, st_bytes. change (Zlen [u8 v]) with 1. mem_case.
  rewrite insert_take_drop by (unfold Zlen in Hk; lia).
  cbn [length app]. by rewrite Nat.add_1_r.
Qed.

Lemma st8_middle a x b v k : Zlen a = k -> st8 (a ++ x :: b) k v = Some (a ++ u8 v :: b).
Proof. intros Ha. unfold st8. by apply (st_bytes_app a [x] b [u8 v]). Qed.

(** Evaluates integer literals under [Z.to_nat]. *)
Ltac eval_to_nat :=
  repeat match goal with
  | |- context [Z.to_nat 0] => change (Z.to_nat 0) with 0%nat
  | |- context [Z.to_nat (Z.pos ?p)] =>
      is_ground p; let k := eval vm_compute in (Z.to_nat (Z.pos p)) in
      change (Z.to_nat (Z.pos p)) with k
  end.

(** Replays a byte store on a list with an explicit prefix. *)
Ltac st8_step :=
  rewrite st8_at by (unfold Zlen; rewrite ?length_insert; cbn [length app]; lia);
  eval_to_nat; cbn [insert list_insert app mbind option_bind].

(** [0xFF & (x >> k)] *)
Lemma mask_byte x : u8 (Z.land 255 x) = u8 x.
Proof.
  unfold u8. rewrite Z.land_comm. change 255 with (Z.ones 8).
  rewrite Z.land_ones by lia. change (2 ^ 8) with 256. by rewrite Z.mod_mod.
Qed.

Lemma mask_lo x : u8 (Z.land 255 (Z.shiftr x 0)) = x mod 256.
Proof. by rewrite mask_byte, Z.shiftr_0_r. Qed.

Lemma mask_hi x : 0 <= x < 65536 -> u8 (Z.land 255 (Z.shiftr x 8)) = x / 256.
Proof.
  intros. rewrite mask_byte, Z.shiftr_div_pow2 by lia. change (2 ^ 8) with 256. wrap_lia.
Qed.

(** ** Checksum and CRC at the end of a build *)

Definition alink_seal (m : list Z) (psHeader wCount : Z) : option (list Z) :=
  checksum ← alink_get_header_checksum m psHeader;
  m ← st8 m (psHeader + off_checksum) checksum;
  wCrcCalc ← alink_get_package_crc m psHeader wCount;
  m ← st8 m (psHeader + (wCount - 2)) (Z.land 255 (Z.shiftr wCrcCalc 0));
  st8 m (psHeader + (wCount - 1)) (Z.land 255 (Z.shiftr wCrcCalc 8)).

Lemma crc_bytes_range bs : 0 <= crc_bytes bs < 65536.
Proof. apply crc_bytes_word. Qed.

Lemma seal_spec f x8 y0 y1 rest :
  frame_ok f -> Zlen (fr_payload f) + 11 < 65536 ->
  alink_seal (head8 f ++ x8 :: fr_payload f ++ y0 :: y1 :: rest) 0
    (Zlen (fr_payload f) + 11)
  = Some (encode f ++ rest).
Proof.
  intros Hf Hl. pose proof (Zlen_nonneg (fr_payload f)) as H0.
  unfold alink_seal, off_checksum.
  rewrite (header_checksum_spec _ 0 (head8 f)) by (apply (ld_bytes_app []); reflexivity).
  cbn [mbind option_bind]. rewrite (st8_middle (head8 f)) by reflexivity.
  cbn [mbind option_bind]. rewrite u8_id by apply u8_byte.
  change (head8 f ++ u8 (zsum (head8 f)) :: ?l) with (head9 f ++ l).
  unfold alink_get_package_crc. rewrite u16_id by lia.
  rewrite (crc_calculate_spec _ _ _ (tail (frame_body f))).
  - cbn [mbind option_bind]. fold (frame_crc f).
    pose proof (crc_bytes_range (tail (frame_body f))) as Hc. fold (frame_crc f) in Hc.
    replace (head9 f ++ fr_payload f ++ y0 :: y1 :: rest)
      with (frame_body f ++ y0 :: y1 :: rest) by (unfold frame_body; by rewrite <-app_assoc).
    rewrite st8_middle by (rewrite Zlen_frame_body; lia). cbn [mbind option_bind].
    rewrite mask_lo, cons_middle, app_assoc.
    rewrite st8_middle by (rewrite Zlen_snoc, Zlen_frame_body; lia).
    rewrite mask_hi by done. unfold encode. rewrite <-!app_assoc. cbn [le_bytes app].
    by rewrite (Z.mod_small (frame_crc f / 256)) by wrap_lia.
  - rewrite u16_id by lia.
    change (head9 f ++ fr_payload f ++ y0 :: y1 :: rest)
      with ([253] ++ tail (frame_body f) ++ y0 :: y1 :: rest).
    apply ld_bytes_app; [reflexivity|].
    pose proof (Zlen_frame_body f) as Hb. change (frame_body f) with (253 :: tail (frame_body f)) in Hb.
    rewrite Zlen_cons in Hb. lia.
Qed.
