(* ===== verification/AlinkOrder.v ===== *)
(** * Command dispatch ([src/srv/alink/analysis/alink_order.c])

    An order component is a reply buffer, a mutex and the list of commands registered
    with it.  The world that a command's task may change is the parameter [S]; a task is
    a function stored in its list node, as in the source. *)

From S2P Require Import Prelude Checksum AlinkFrame AlinkCheck AlinkRecv AlinkBuild Linked.
Local Open Scope c_scope.

(** ** Data ([alink_defines.h]) *)

Record alink_payload := {
  pl_ePortId : Z; pl_eRemoteId : Z; pl_wLength : Z; pl_pbyData : ptr
}.

(** The reply buffer is the buffer of the order component; [rs_off] is where
    [pbyBuffer] points into it. *)
Record alink_resp := {
  rs_wCount : Z; rs_wSize : Z; rs_pbyBuffer : list Z; rs_off : Z;
  rs_psArg : alink_order_import
}.

Definition resp_set_buffer (b : list Z) (r : alink_resp) : alink_resp :=
  {| rs_wCount := rs_wCount r; rs_wSize := rs_wSize r; rs_pbyBuffer := b;
     rs_off := rs_off r; rs_psArg := rs_psArg r |}.

Definition resp_set_wCount (n : Z) (r : alink_resp) : alink_resp :=
  {| rs_wCount := u32 n; rs_wSize := rs_wSize r; rs_pbyBuffer := rs_pbyBuffer r;
     rs_off := rs_off r; rs_psArg := rs_psArg r |}.

Section order.
Context {S : Type}.

Definition cmd_task : Type :=
  memory -> alink_payload -> alink_resp -> S -> option (alink_resp * S).

Record alink_cmd_list := {
  byCmd : Z; wPayloadLen : Z; pv_cmd_task : option cmd_task;
  cl_psNext : option nat; cmd_type : Z
}.

Definition cmd_set_next (p : option nat) (c : alink_cmd_list) : alink_cmd_list :=
  {| byCmd := byCmd c; wPayloadLen := wPayloadLen c; pv_cmd_task := pv_cmd_task c;
     cl_psNext := p; cmd_type := cmd_type c |}.

#[export] Instance cmd_linked : Linked alink_cmd_list :=
  {| ln_next := cl_psNext; ln_set_next := cmd_set_next; ln_next_set _ _ := eq_refl |}.

Record alink_order := {
  or_wBufferSize : Z; or_mutex : bool; or_pbyBuffer : list Z; psCmdList : option nat
}.

Definition order_set_mutex (b : bool) (o : alink_order) : alink_order :=
  {| or_wBufferSize := or_wBufferSize o; or_mutex := b; or_pbyBuffer := or_pbyBuffer o;
     psCmdList := psCmdList o |}.
Definition order_set_buffer (b : list Z) (o : alink_order) : alink_order :=
  {| or_wBufferSize := or_wBufferSize o; or_mutex := or_mutex o; or_pbyBuffer := b;
     psCmdList := psCmdList o |}.
Definition order_set_list (p : option nat) (o : alink_order) : alink_order :=
  {| or_wBufferSize := or_wBufferSize o; or_mutex := or_mutex o;
     or_pbyBuffer := or_pbyBuffer o; psCmdList := p |}.

(** A non-recursive mutex: locking it twice never returns, which is [None]. *)
Definition order_lock (o : alink_order) : option alink_order :=
  if or_mutex o then None else Some (order_set_mutex true o).
Definition order_unlock (o : alink_order) : alink_order := order_set_mutex false o.

(** ** The code *)

(** [pbyBuffer] has the contents that the static buffer has; [mutex_ret] is the result
    of [pthread_mutex_init]. *)
Definition alink_order_init (psOrder : alink_order) (pbyBuffer : list Z)
    (wBufferSize mutex_ret : Z) : alink_order * Z :=
  if mutex_ret =? 0 then
    ({| or_wBufferSize := u16 wBufferSize; or_mutex := false; or_pbyBuffer := pbyBuffer;
        psCmdList := None |}, 0)
  else (psOrder, -1).

(** The dispatch loop. *)
Fixpoint alink_order_loop (fuel : nat) (mem : memory) (cmds : gmap nat alink_cmd_list)
    (psCmdList : option nat) (psImport : alink_order_import) (sResp : alink_resp) (s : S)
  : option (alink_resp * S) :=
  match psCmdList with
  | None => Some (sResp, s)
  | Some a =>
      match fuel with
      | O => None
      | Datatypes.S fuel' =>
          c ← cmds !! a;
          let header k := at_ptr mem (oi_pbyMsg psImport) (λ m p, m⟨p + k⟩) in
          msgid ← header off_msgid;
          if byCmd c =? msgid then
            match pv_cmd_task c with
            | None => Some (sResp, s)
            | Some task =>
                sourceid ← header off_sourceid;
                len_hi ← header off_len_hi;
                len_lo ← header off_len_lo;
                let sPayload :=
                  {| pl_ePortId := oi_ePortId psImport; pl_eRemoteId := sourceid;
                     pl_pbyData := ptr_add (oi_pbyMsg psImport) sizeof_alink_msg_head;
                     pl_wLength := u32 (Z.lor (Z.shiftl len_hi 8) len_lo) |} in
                if wPayloadLen c <=? pl_wLength sPayload then task mem sPayload sResp s
                else Some (sResp, s)
            end
          else alink_order_loop fuel' mem cmds (cl_psNext c) psImport sResp s
      end
  end.

Definition alink_order_task (psOrder : alink_order) (mem : memory)
    (cmds : gmap nat alink_cmd_list) (psImport : alink_order_import) (s : S)
  : option (alink_order * S) :=
  psOrder ← order_lock psOrder;
  buf ← st8 (or_pbyBuffer psOrder) (sizeof_alink_msg_head + 0) 255;
  let sResp :=
    {| rs_pbyBuffer := buf; rs_off := sizeof_alink_msg_head;
       rs_wSize := u32 (or_wBufferSize psOrder - ALINK_NO_PAYLOAD_SIZE);
       rs_wCount := 1; rs_psArg := psImport |} in
  '(sResp, s) ← alink_order_loop (size cmds) mem cmds (psCmdList psOrder) psImport sResp s;
  Some (order_unlock (order_set_buffer (rs_pbyBuffer sResp) psOrder), s).

Definition alink_order_register_cmd (psOrder : alink_order)
    (cmds : gmap nat alink_cmd_list) (psCmd : nat)
  : option (alink_order * gmap nat alink_cmd_list) :=
  psOrder ← order_lock psOrder;
  match psCmdList psOrder with
  | None => Some (order_unlock (order_set_list (Some psCmd) psOrder), cmds)
  | Some psCmdListNow =>
      cmds ← list_append_walk (size cmds) cmds psCmdListNow psCmd;
      Some (order_unlock psOrder, cmds)
  end.
End order.

Arguments cmd_task : clear implicits.
Arguments alink_cmd_list : clear implicits.

(** [alink_order_send]: [pe_send] gives the effect of the function pointers on the
    world [T] of the sender; the pointer [0] is [NULL]. *)
Definition alink_order_send {T} (pe_send : nat -> nat -> list Z -> T -> option (Z * T))
    (mem : memory) (psResp : alink_resp) (t : T) : option (alink_resp * Z * T) :=
  let psImport := rs_psArg psResp in
  let header k := at_ptr mem (oi_pbyMsg psImport) (λ m p, m⟨p + k⟩) in
  ans ← header off_ans;
  if negb (ans =? 0) && negb (oi_pe_send psImport =? 0)%nat then
    let h := rs_off psResp - sizeof_alink_msg_head in
    let b := rs_pbyBuffer psResp in
    b ← st8 b (h + off_magic) ALINK_MSG_MAGIC_VALUE;
    b ← st8 b (h + off_len_lo) (Z.land 255 (Z.shiftr (rs_wCount psResp) 0));
    b ← st8 b (h + off_len_hi) (Z.land 255 (Z.shiftr (rs_wCount psResp) 8));
    seq ← header off_seq; b ← st8 b (h + off_seq) seq;
    sourceid ← header off_sourceid; b ← st8 b (h + off_destid) sourceid;
    destid ← header off_destid; b ← st8 b (h + off_sourceid) destid;
    msgid ← header off_msgid; b ← st8 b (h + off_msgid) msgid;
    b ← st8 b (h + off_ans) 0;
    let wCount := u16 (rs_wCount psResp + ALINK_NO_PAYLOAD_SIZE) in
    b ← alink_seal b h wCount;
    pbySend ← ld_bytes b h wCount;
    '(eRet, t) ← pe_send (oi_pe_send psImport) (oi_handle psImport) pbySend t;
    Some (resp_set_buffer b psResp, eRet, t)
  else Some (psResp, 0, t).

(** ** The first command of a list that has a message id *)

Definition first_cmd {S} (cmds : gmap nat (alink_cmd_list S)) (l : list nat) (msgid : Z)
  : option (alink_cmd_list S) :=
  a ← head (filter (λ a, from_option (λ c, byCmd c =? msgid) false (cmds !! a) = true) l);
  cmds !! a.

(** What a message [f] at [pbyMsg] makes a command do. *)
Definition run_cmd {S} (mem : memory) (c : option (alink_cmd_list S))
    (psImport : alink_order_import) (f : alink_frame) (sResp : alink_resp) (s : S)
  : option (alink_resp * S) :=
  match c with
  | Some c =>
      match pv_cmd_task c with
      | Some task =>
          if wPayloadLen c <=? Zlen (fr_payload f) then
            task mem {| pl_ePortId := oi_ePortId psImport; pl_eRemoteId := fr_src f;
                        pl_wLength := Zlen (fr_payload f);
                        pl_pbyData := ptr_add (oi_pbyMsg psImport) 9 |} sResp s
          else Some (sResp, s)
      | None => Some (sResp, s)
      end
  | None => Some (sResp, s)
  end.

(** ** Frames in memory *)

Definition frame_at (mem : memory) (p : ptr) (f : alink_frame) : Prop :=
  frame_ok f /\ at_ptr mem p (λ m o, m⟨o,, Zlen (encode f)⟩) = Some (encode f).

Lemma frame_at_ld8 mem p f k :
  frame_at mem p f -> 0 <= k < Zlen (encode f) ->
  at_ptr mem p (λ m o, m⟨o + k⟩) = (encode f)⟨k⟩.
Proof.
  intros [_ H] Hk. apply at_ptr_Some in H as (m & Hm & H).
  unfold at_ptr. rewrite Hm. cbn [mbind option_bind]. by apply (ld8_ld_bytes _ _ _ _ _ H).
Qed.

Lemma frame_at_payload mem p f :
  frame_at mem p f ->
  at_ptr mem (ptr_add p 9) (λ m o, m⟨o,, Zlen (fr_payload f)⟩) = Some (fr_payload f).
Proof.
  intros [_ H]. apply at_ptr_Some in H as (m & Hm & H).
  unfold at_ptr, ptr_add. cbn [pblk poff]. rewrite Hm. cbn [mbind option_bind].
  apply ld_bytes_split in H as (a & b & -> & <- & _).
  unfold encode, frame_body. rewrite <-!app_assoc. rewrite (app_assoc a).
  apply ld_bytes_app; [|done]. by rewrite Zlen_app, Zlen_head9.
Qed.

(** Reads the header fields of a frame in memory. *)
Ltac header_read H :=
  rewrite !(frame_at_ld8 _ _ _ _ H) by (rewrite Zlen_encode; unfold Zlen; cbn; lia);
  rewrite encode_shape; cbn [mbind option_bind].

Section dispatch.
Context {S : Type} (mem : memory) (cmds : gmap nat (alink_cmd_list S)).
Context (imp : alink_order_import) (f : alink_frame).
Hypothesis Hf : frame_at mem (oi_pbyMsg imp) f.

Lemma header_at k x :
  0 <= k < 9 -> (encode f)⟨k⟩ = Some x ->
  at_ptr mem (oi_pbyMsg imp) (λ m p, m⟨p + k⟩) = Some x.
Proof.
  intros Hk Hx. rewrite (frame_at_ld8 _ _ _ _ Hf); [done|].
  rewrite Zlen_encode. pose proof (Zlen_nonneg (fr_payload f)). lia.
Qed.

Lemma header_length :
  u32 (Z.lor (Z.shiftl (Zlen (fr_payload f) / 256) 8) (Zlen (fr_payload f) mod 256))
  = Zlen (fr_payload f).
Proof.
  destruct Hf as [(_ & _ & Hl) _]. pose proof (Zlen_nonneg (fr_payload f)).
  rewrite lor_shift8 by wrap_lia. wrap_lia.
Qed.

Lemma order_loop_spec fuel p l sResp s :
  is_list cmds p l -> (length l <= fuel)%nat ->
  alink_order_loop fuel mem cmds p imp sResp s
  = run_cmd mem (first_cmd cmds l (fr_id f)) imp f sResp s.
Proof.
  intros El. revert fuel p El. induction l as [|a l IH]; intros fuel p El Hl.
  { cbn in El. subst p. by destruct fuel. }
  destruct El as (-> & c & Hc & El). destruct fuel as [|fuel]; [cbn in Hl; lia|].
  cbn [alink_order_loop]. rewrite Hc. cbn [mbind option_bind].
  rewrite (header_at off_msgid (fr_id f)) by (done || by rewrite encode_shape).
  cbn [mbind option_bind]. unfold first_cmd. destruct (byCmd c =? fr_id f) eqn:Ec.
  - rewrite filter_cons_True by by rewrite Hc. cbn [head mbind option_bind]. rewrite Hc.
    unfold run_cmd. destruct (pv_cmd_task c) as [task|]; [|done].
    rewrite (header_at off_sourceid (fr_src f)), (header_at off_len_hi (Zlen (fr_payload f) / 256)),
      (header_at off_len_lo (Zlen (fr_payload f) mod 256))
      by (done || by rewrite encode_shape).
    cbn [mbind option_bind pl_wLength]. by rewrite header_length.
  - rewrite filter_cons_False by (rewrite Hc; cbn; by rewrite Ec).
    apply IH; [done|cbn in Hl; lia].
Qed.
End dispatch.

(** ** Properties *)

(** What the order component holds: an unlocked mutex, room for a reply, its list. *)
Definition order_ok {S} (o : alink_order) (cmds : gmap nat (alink_cmd_list S))
    (l : list nat) : Prop :=
  or_mutex o = false /\ 10 <= Zlen (or_pbyBuffer o) /\ is_list cmds (psCmdList o) l.

Lemma order_task_spec {S} (o : alink_order) mem
    (cmds : gmap nat (alink_cmd_list S)) l imp f (s : S) :
  order_ok o cmds l -> frame_at mem (oi_pbyMsg imp) f ->
  alink_order_task o mem cmds imp s
  = '(sResp, s') ← run_cmd mem (first_cmd cmds l (fr_id f)) imp f
      {| rs_wCount := 1; rs_wSize := u32 (or_wBufferSize o - 11);
         rs_pbyBuffer := <[9%nat := 255]> (or_pbyBuffer o); rs_off := 9; rs_psArg := imp |} s;
    Some (order_set_buffer (rs_pbyBuffer sResp) o, s').
Proof.
  intros (Hm & Hb & Hl) Hf. unfold alink_order_task, order_lock. rewrite Hm.
  cbn [mbind option_bind order_set_mutex or_pbyBuffer or_wBufferSize psCmdList].
  rewrite st8_at by (unfold sizeof_alink_msg_head; lia). cbn [mbind option_bind].
  rewrite (order_loop_spec mem cmds imp f Hf _ _ l) by (done || by eapply is_list_size).
  change (Z.to_nat (sizeof_alink_msg_head + 0)) with 9%nat. change (u8 255) with 255.
  unfold sizeof_alink_msg_head, ALINK_NO_PAYLOAD_SIZE.
  destruct (run_cmd _ _ _ _ _ _) as [[r' s']|]; [|done]. cbn.
  unfold order_unlock, order_set_buffer, order_set_mutex. cbn. by rewrite <-Hm.
Qed.

(** Dispatch. For a frame in memory, the order task runs the task of the first
    registered command with the frame's message id, and only if the payload is at least as
    long as the command asks for, on exactly the frame's source, length and payload
    address; the byte [0xFF] is the default reply; the list and the mutex (released) are
    unchanged on every path. *)
Lemma alink_order_task_dispatch {S} (o : alink_order) mem
    (cmds : gmap nat (alink_cmd_list S)) l imp f (s : S) :
  order_ok o cmds l -> frame_at mem (oi_pbyMsg imp) f ->
  alink_order_task o mem cmds imp s
  = '(sResp, s') ← run_cmd mem (first_cmd cmds l (fr_id f)) imp f
      {| rs_wCount := 1; rs_wSize := u32 (or_wBufferSize o - 11);
         rs_pbyBuffer := <[9%nat := 255]> (or_pbyBuffer o); rs_off := 9; rs_psArg := imp |} s;
    Some (order_set_buffer (rs_pbyBuffer sResp) o, s').
Proof. exact (order_task_spec o mem cmds l imp f s). Qed.

(** Registration. Registering a node that is not yet in the list appends it, whatever
    the length of the list; registering one that is in the list changes nothing. The list
    stays a list and no other component's nodes are touched. *)
Lemma alink_order_register_cmd_spec {S} (o : alink_order)
    (cmds : gmap nat (alink_cmd_list S)) l node c :
  order_ok o cmds l -> cmds !! node = Some c -> (node ∉ l -> cl_psNext c = None) ->
  exists o' cmds', alink_order_register_cmd o cmds node = Some (o', cmds')
    /\ order_ok o' cmds' (if decide (node ∈ l) then l else l ++ [node])
    /\ (forall a, a ∉ l -> cmds' !! a = cmds !! a).
Proof.
  intros (Hm & Hb & Hl) Hc Hnull. unfold alink_order_register_cmd, order_lock, order_ok.
  rewrite Hm. cbn [mbind option_bind order_set_mutex psCmdList].
  destruct (psCmdList o) as [a|] eqn:Ep.
  - pose proof (is_list_size _ _ _ Hl) as Hs.
    destruct (append_walk_spec (size cmds) cmds (Some a) l a node c Hl Hs eq_refl Hc Hnull)
      as (h' & -> & Hin & Hout). cbn [mbind option_bind]. do 2 eexists. split; [done|].
    cbn. rewrite Ep. destruct (decide (node ∈ l)) as [Hi|Hi].
    + by rewrite Hin.
    + destruct (Hout Hi) as (El & z & nz & Hz & Hhz & ->). split; [done|].
      intros b Hbl. rewrite lookup_insert_ne; [done|]. intros ->.
      apply last_Some_elem_of in Hz. done.
  - destruct l as [|b l]; [|destruct Hl as [? _]; done].
    rewrite decide_False by apply not_elem_of_nil.
    do 2 eexists. split; [done|]. split; [|done]. split; [done|]. split; [done|].
    cbn [order_set_list psCmdList order_unlock order_set_mutex app]. split; [done|].
    exists c. split; [done|]. apply Hnull, not_elem_of_nil.
Qed.

(** Replies. A reply to a frame that asks for an answer is itself a frame: same
    sequence number and message id, source and destination swapped, no answer requested,
    the handler's payload; it is sent once, on the port the request came from. *)
Lemma alink_order_send_reply {T} pe_send mem imp f (payload : list Z) x y0 y1 rest size
    (t : T) :
  frame_at mem (oi_pbyMsg imp) f -> fr_ans f <> 0 -> oi_pe_send imp <> 0%nat ->
  Zlen x = 9 -> bytes_ok payload -> Zlen payload + 11 < 65536 ->
  let reply := Frame (fr_seq f) (fr_src f) (fr_dest f) (fr_id f) 0 payload in
  let resp b := {| rs_wCount := Zlen payload; rs_wSize := size; rs_pbyBuffer := b;
                   rs_off := 9; rs_psArg := imp |} in
  alink_order_send pe_send mem (resp (x ++ payload ++ y0 :: y1 :: rest)) t
  = '(eRet, t') ← pe_send (oi_pe_send imp) (oi_handle imp) (encode reply) t;
    Some (resp (encode reply ++ rest), eRet, t').
Proof.
  intros Hf Hans Hsend Hx Hp Hl reply resp. pose proof (Zlen_nonneg payload) as H0.
  unfold alink_order_send. cbn [resp rs_psArg rs_off rs_pbyBuffer rs_wCount].
  rewrite (header_at mem imp f Hf off_ans (fr_ans f)) by (done || by rewrite encode_shape).
  cbn [mbind option_bind]. rewrite (proj2 (Z.eqb_neq _ _) Hans).
  rewrite (proj2 (Nat.eqb_neq _ _) Hsend). cbn [negb andb].
  rewrite (header_at mem imp f Hf off_seq (fr_seq f)),
    (header_at mem imp f Hf off_sourceid (fr_src f)),
    (header_at mem imp f Hf off_destid (fr_dest f)),
    (header_at mem imp f Hf off_msgid (fr_id f)) by (done || by rewrite encode_shape).
  change (9 - sizeof_alink_msg_head) with 0. cbn [mbind option_bind].
  assert (frame_ok reply) as Hr.
  { destruct Hf as [(Hb & _) _]. forall_inv Hb. split; [|split; [done|cbn; lia]].
    unfold is_byte in *. repeat constructor; cbn; lia. }
  do 9 (destruct x as [|? x]; [unfold Zlen in Hx; cbn in Hx; lia|]).
  destruct x as [|? x]; [|unfold Zlen in Hx; cbn in Hx; lia].
  rewrite u16_id by (unfold ALINK_NO_PAYLOAD_SIZE; lia).
  pose proof (seal_spec reply z7 y0 y1 rest Hr Hl) as Hseal. cbn [fr_payload reply] in Hseal.
  unfold off_magic, off_len_lo, off_len_hi, off_seq, off_destid, off_sourceid, off_msgid,
    off_ans. rewrite !Z.add_0_l. cbn [app].
  do 8 st8_step. rewrite mask_lo, mask_hi by lia.
  pose proof Hr as (Hb & _ & _). cbn [reply fr_seq fr_dest fr_src fr_id fr_ans] in Hb.
  forall_inv Hb. rewrite !u8_id by done. unfold ALINK_NO_PAYLOAD_SIZE.
  etransitivity; [refine (f_equal (λ x, x ≫= _) Hseal)|]. cbn [mbind option_bind].
  rewrite ld_bytes_prefix by (rewrite Zlen_encode; cbn; lia).
  done.
Qed.

(** ** Witnesses *)

(** Two commands with the same id: the first one logs the payload length it is given. *)
Definition demo_task (tag : Z) : cmd_task (list (Z * Z)) :=
  λ _ pl r s, Some (resp_set_wCount 4 r, s ++ [(tag, pl_wLength pl)]).
Definition demo_cmds : gmap nat (alink_cmd_list (list (Z * Z))) :=
  <[10%nat := {| byCmd := 18; wPayloadLen := 1; pv_cmd_task := Some (demo_task 1);
                 cl_psNext := Some 20%nat; cmd_type := 1 |}]>
  {[20%nat := {| byCmd := 19; wPayloadLen := 1; pv_cmd_task := Some (demo_task 2);
                 cl_psNext := None; cmd_type := 1 |}]}.
Definition demo_order : alink_order :=
  {| or_wBufferSize := 16; or_mutex := false; or_pbyBuffer := replicate 16 0;
     psCmdList := Some 10%nat |}.
Definition demo_frame : alink_frame := Frame 5 8 3 19 1 [7; 7; 7].
Definition demo_mem : memory := {[ 2%nat := 99 :: encode demo_frame ]}.
Definition demo_import : alink_order_import :=
  {| oi_ePortId := 1; oi_pbyMsg := Ptr 2 1; oi_handle := 6; oi_pe_send := 9 |}.

Lemma demo_order_ok : order_ok demo_order demo_cmds [10%nat; 20%nat].
Proof.
  split; [done|]. split; [by_eval|]. split; [done|].
  eexists. split; [reflexivity|]. split; [done|]. eexists. split; [reflexivity|done].
Qed.

Lemma demo_frame_at : frame_at demo_mem (oi_pbyMsg demo_import) demo_frame.
Proof. split; [by_eval|vm_compute; reflexivity]. Qed.

Lemma alink_order_task_dispatch_witness :
  (exists o', alink_order_task demo_order demo_mem demo_cmds demo_import []
             = Some (o', [(2, 3)])).
Proof.
  eexists.
  rewrite (alink_order_task_dispatch demo_order demo_mem demo_cmds [10%nat; 20%nat]
             demo_import demo_frame [] demo_order_ok demo_frame_at).
  vm_compute. reflexivity.
Defined.

Lemma alink_order_register_cmd_spec_witness :
  (exists o' cmds', alink_order_register_cmd demo_order
      (<[30%nat := {| byCmd := 20; wPayloadLen := 1; pv_cmd_task := None;
                      cl_psNext := None; cmd_type := 1 |}]> demo_cmds) 30
    = Some (o', cmds') /\ order_ok o' cmds' [10%nat; 20%nat; 30%nat]).
Proof.
  destruct (alink_order_register_cmd_spec demo_order
    (<[30%nat := {| byCmd := 20; wPayloadLen := 1; pv_cmd_task := None;
                    cl_psNext := None; cmd_type := 1 |}]> demo_cmds)
    [10%nat; 20%nat] 30
    {| byCmd := 20; wPayloadLen := 1; pv_cmd_task := None; cl_psNext := None;
       cmd_type := 1 |}) as (o' & cmds' & E & Ho & _).
  - split; [done|]. split; [by_eval|]. split; [done|].
    eexists. split; [reflexivity|]. split; [done|]. eexists. split; [reflexivity|done].
  - reflexivity.
  - done.
  - by exists o', cmds'.
Defined.

Lemma alink_order_send_reply_witness :
  (exists r t', alink_order_send (λ _ h bs t, Some (0, t ++ [(h, bs)])) demo_mem
     {| rs_wCount := 2; rs_wSize := 5; rs_pbyBuffer := replicate 9 0 ++ [4; 5] ++ [0; 0];
        rs_off := 9; rs_psArg := demo_import |} [] = Some (r, 0, t')
     /\ t' = [(6%nat, encode (Frame 5 3 8 19 0 [4; 5]))]).
Proof.
  do 2 eexists. split; [|reflexivity].
  etransitivity.
  - apply (alink_order_send_reply (λ _ h bs t, Some (0, t ++ [(h, bs)])) demo_mem demo_import
             demo_frame [4; 5] (replicate 9 0) 0 0 [] 5 []);
      [exact demo_frame_at|done|done|done|by_eval|by_eval].
  - reflexivity.
Defined.
