(* ===== verification/AlinkUpload.v ===== *)
(** * Uploading packages ([src/srv/alink/upload])

    A package type is a node with a message id, a function that writes the payload and
    the list of receivers it is sent to; the upload component keeps the list of package
    types, the send buffer, the device id and the request counter. *)

From S2P Require Import Prelude Checksum AlinkFrame AlinkCheck AlinkBuild Linked.
Local Open Scope c_scope.

(** ** Data ([alink_defines.h]) *)

(** A [void *] argument: [NULL] or the bytes of the object. *)
Abbreviation void_ptr := (option (list Z)).

(** [pw_package_task buffer off wSize psImport] writes from [off] on. *)
Definition package_task : Type :=
  list Z -> Z -> Z -> void_ptr -> option (Z * list Z).

Section upload.
Context {T : Type}.

Definition send_fun : Type := nat -> list Z -> T -> option (Z * T).

Record alink_send_list := {
  byRemoteId : Z; sl_handle : nat; sl_pe_send : option send_fun; sl_psNext : option nat
}.

Definition send_set_next (p : option nat) (n : alink_send_list) : alink_send_list :=
  {| byRemoteId := byRemoteId n; sl_handle := sl_handle n; sl_pe_send := sl_pe_send n;
     sl_psNext := p |}.

#[export] Instance send_linked : Linked alink_send_list :=
  {| ln_next := sl_psNext; ln_set_next := send_set_next; ln_next_set _ _ := eq_refl |}.

Record alink_package_list := {
  byMsgId : Z; byAns : Z; pw_package_task : option package_task;
  psSendList : option nat; pk_psNext : option nat
}.

Definition package_set_next (p : option nat) (n : alink_package_list) : alink_package_list :=
  {| byMsgId := byMsgId n; byAns := byAns n; pw_package_task := pw_package_task n;
     psSendList := psSendList n; pk_psNext := p |}.
Definition package_set_sends (p : option nat) (n : alink_package_list) : alink_package_list :=
  {| byMsgId := byMsgId n; byAns := byAns n; pw_package_task := pw_package_task n;
     psSendList := p; pk_psNext := pk_psNext n |}.

#[export] Instance package_linked : Linked alink_package_list :=
  {| ln_next := pk_psNext; ln_set_next := package_set_next; ln_next_set _ _ := eq_refl |}.

Record alink_upload := {
  byDevId : Z; byReq : Z; up_wBufferSize : Z; up_mutex : bool; up_pbyBuffer : list Z;
  psPackageList : option nat
}.

Definition upload_set_mutex (b : bool) (u : alink_upload) : alink_upload :=
  {| byDevId := byDevId u; byReq := byReq u; up_wBufferSize := up_wBufferSize u;
     up_mutex := b; up_pbyBuffer := up_pbyBuffer u; psPackageList := psPackageList u |}.
Definition upload_set_buffer (b : list Z) (u : alink_upload) : alink_upload :=
  {| byDevId := byDevId u; byReq := byReq u; up_wBufferSize := up_wBufferSize u;
     up_mutex := up_mutex u; up_pbyBuffer := b; psPackageList := psPackageList u |}.
Definition upload_set_byReq (x : Z) (u : alink_upload) : alink_upload :=
  {| byDevId := byDevId u; byReq := u8 x; up_wBufferSize := up_wBufferSize u;
     up_mutex := up_mutex u; up_pbyBuffer := up_pbyBuffer u;
     psPackageList := psPackageList u |}.
Definition upload_set_list (p : option nat) (u : alink_upload) : alink_upload :=
  {| byDevId := byDevId u; byReq := byReq u; up_wBufferSize := up_wBufferSize u;
     up_mutex := up_mutex u; up_pbyBuffer := up_pbyBuffer u; psPackageList := p |}.
Definition upload_set_byDevId (x : Z) (u : alink_upload) : alink_upload :=
  {| byDevId := u8 x; byReq := byReq u; up_wBufferSize := up_wBufferSize u;
     up_mutex := up_mutex u; up_pbyBuffer := up_pbyBuffer u;
     psPackageList := psPackageList u |}.

Definition upload_lock (u : alink_upload) : option alink_upload :=
  if up_mutex u then None else Some (upload_set_mutex true u).
Definition upload_unlock (u : alink_upload) : alink_upload := upload_set_mutex false u.

(** ** The code: [alink_package.c] *)

Definition alink_package_init (psPackage : alink_package_list) (MsgId Ans : Z)
    (task : option package_task) : alink_package_list :=
  {| byMsgId := u8 MsgId; byAns := u8 Ans; pw_package_task := task;
     psSendList := psSendList psPackage; pk_psNext := None |}.

Definition alink_package_connect_send (psPackage : alink_package_list)
    (sends : gmap nat alink_send_list) (psSend : nat)
  : option (alink_package_list * gmap nat alink_send_list * Z) :=
  match psSendList psPackage with
  | None => Some (package_set_sends (Some psSend) psPackage, sends, 0)
  | Some psSendListNow =>
      sends ← list_append_walk (size sends) sends psSendListNow psSend;
      Some (psPackage, sends, 0)
  end.

Definition alink_package_disconnect_send (psPackage : alink_package_list)
    (sends : gmap nat alink_send_list) (psSend : nat)
  : option (alink_package_list * gmap nat alink_send_list * Z) :=
  r ← list_unlink_walk (size sends) sends None (psSendList psPackage) psSend;
  match r with
  | unlink_done sends => Some (psPackage, sends, 0)
  | unlink_head => Some (package_set_sends None psPackage, sends, 0)
  | unlink_absent => Some (psPackage, sends, 0)
  end.

(** ** The code: [alink_upload.c] *)

Definition alink_upload_init (psUpload : alink_upload) (DevId : Z) (pbyBuffer : list Z)
    (wBufferSize mutex_ret : Z) : alink_upload * Z :=
  if mutex_ret =? 0 then
    ({| byReq := 0; byDevId := u8 DevId; up_pbyBuffer := pbyBuffer;
        up_wBufferSize := u16 wBufferSize; up_mutex := false;
        psPackageList := psPackageList psUpload |}, 0)
  else (psUpload, -1).

(** The loop over the receivers: each one gets the same buffer with its own
    destination, header checksum and CRC. *)
Fixpoint upload_send_loop (fuel : nat) (sends : gmap nat alink_send_list)
    (psSendList : option nat) (pbyBuffer : list Z) (wPayloadLen eRet : Z) (t : T)
  : option (list Z * Z * T) :=
  match psSendList with
  | None => Some (pbyBuffer, eRet, t)
  | Some a =>
      match fuel with
      | O => None
      | S fuel' =>
          n ← sends !! a;
          match sl_pe_send n with
          | None => upload_send_loop fuel' sends (sl_psNext n) pbyBuffer wPayloadLen eRet t
          | Some pe_send =>
              b ← st8 pbyBuffer off_destid (byRemoteId n);
              let wCount := u16 (wPayloadLen + ALINK_NO_PAYLOAD_SIZE) in
              b ← alink_seal b 0 wCount;
              bs ← ld_bytes b 0 wCount;
              '(eRet, t) ← pe_send (sl_handle n) bs t;
              upload_send_loop fuel' sends (sl_psNext n) b wPayloadLen eRet t
          end
      end
  end.

Definition alink_upload_send_package (psUpload : alink_upload)
    (sends : gmap nat alink_send_list) (psPackage : alink_package_list)
    (psImport : void_ptr) (t : T) : option (alink_upload * Z * T) :=
  match psSendList psPackage, pw_package_task psPackage with
  | Some _, Some task =>
      psUpload ← upload_lock psUpload;
      '(wPayloadLen, b) ← task (up_pbyBuffer psUpload) sizeof_alink_msg_head
         (u16 (up_wBufferSize psUpload - ALINK_NO_PAYLOAD_SIZE)) psImport;
      b ← st8 b off_magic ALINK_MSG_MAGIC_VALUE;
      b ← st8 b off_len_lo (Z.land (Z.shiftr wPayloadLen 0) 255);
      b ← st8 b off_len_hi (Z.land (Z.shiftr wPayloadLen 8) 255);
      b ← st8 b off_sourceid (byDevId psUpload);
      b ← st8 b off_seq (byReq psUpload);
      let psUpload := upload_set_byReq (byReq psUpload + 1) psUpload in
      b ← st8 b off_msgid (byMsgId psPackage);
      b ← st8 b off_ans (byAns psPackage);
      '(b, eRet, t) ← upload_send_loop (size sends) sends (psSendList psPackage) b
                        wPayloadLen 0 t;
      Some (upload_unlock (upload_set_buffer b psUpload), eRet, t)
  | _, _ => Some (psUpload, 0, t)
  end.

Definition alink_upload_register_package (psUpload : alink_upload)
    (packages : gmap nat alink_package_list) (psPackage : nat)
  : option (alink_upload * gmap nat alink_package_list * Z) :=
  psUpload ← upload_lock psUpload;
  match psPackageList psUpload with
  | None => Some (upload_unlock (upload_set_list (Some psPackage) psUpload), packages, 0)
  | Some psPackageListNow =>
      packages ← list_append_walk (size packages) packages psPackageListNow psPackage;
      Some (upload_unlock psUpload, packages, 0)
  end.

(** The two functions that look a package type up and change its receivers. *)
Definition upload_on_package
    (op : alink_package_list -> gmap nat alink_send_list -> nat ->
          option (alink_package_list * gmap nat alink_send_list * Z))
    (psUpload : alink_upload) (packages : gmap nat alink_package_list)
    (sends : gmap nat alink_send_list) (MsgId : Z) (psSend : nat)
  : option (alink_upload * gmap nat alink_package_list * gmap nat alink_send_list * Z) :=
  psUpload ← upload_lock psUpload;
  found ← list_find_node (size packages) packages (λ p, byMsgId p =? MsgId)
            (psPackageList psUpload);
  match found with
  | Some a =>
      p ← packages !! a;
      '(p, sends, eRet) ← op p sends psSend;
      Some (upload_unlock psUpload, <[a := p]> packages, sends, eRet)
  | None => Some (upload_unlock psUpload, packages, sends, -1)
  end.

Definition alink_upload_connect_send := upload_on_package alink_package_connect_send.
Definition alink_upload_disconnect_send := upload_on_package alink_package_disconnect_send.
End upload.

Arguments send_fun : clear implicits.
Arguments alink_send_list : clear implicits.

(** ** What a package task promises *)

(** A task that writes [enc old psImport] at the address it is given and returns its
    length; [old] is what the buffer held there, since a task may leave gaps. *)
Class PackageTask (task : package_task) (enc : list Z -> void_ptr -> option (list Z)) : Prop :=
  package_task_writes b off size imp payload :
    bytes_ok b -> enc (drop (Z.to_nat off) b) imp = Some payload -> 0 <= off -> off + Zlen payload <= Zlen b ->
    Zlen payload <= size ->
    bytes_ok payload /\ Zlen payload < 65536
    /\ (b' ← st_bytes b off payload; Some (Zlen payload, b')) = task b off size imp.

(** ** The receivers of a package *)

(** [pe_send] is called once for each receiver that has one, in list order, with the
    frame addressed to it. *)
Fixpoint send_all {T} (sends : gmap nat (alink_send_list T)) (l : list nat)
    (frame : Z -> alink_frame) (eRet : Z) (t : T) : option (Z * T) :=
  match l with
  | [] => Some (eRet, t)
  | a :: l' =>
      n ← sends !! a;
      match sl_pe_send n with
      | None => send_all sends l' frame eRet t
      | Some pe_send =>
          '(eRet, t) ← pe_send (sl_handle n) (encode (frame (byRemoteId n))) t;
          send_all sends l' frame eRet t
      end
  end.

Section send.
Context {T : Type} (sends : gmap nat (alink_send_list T)).
Context (req dev id answer : Z) (payload rest : list Z).
Hypothesis Hb : bytes_ok [req; dev; id; answer].
Hypothesis Hp : bytes_ok payload.
Hypothesis Hlen : Zlen payload + 11 < 65536.
Hypothesis Hrest : bytes_ok rest.

Local Abbreviation frame d := (Frame req d dev id answer payload).

(** The buffer between two sends: some destination, checksum and CRC. *)
Definition upload_shape (b : list Z) : Prop :=
  bytes_ok b /\ exists d x y0 y1, b = head8 (frame d) ++ x :: payload ++ y0 :: y1 :: rest.

Definition receivers_ok (l : list nat) : Prop :=
  Forall (λ a, exists n, sends !! a = Some n /\ is_byte (byRemoteId n)) l.

Lemma upload_frame_ok d : is_byte d -> frame_ok (frame d).
Proof.
  intros Hd. pose proof Hb as Hb'. forall_inv Hb'. split; [|split; [done|cbn; lia]].
  unfold is_byte in *. repeat constructor; cbn; lia.
Qed.

Lemma encode_upload_shape d : is_byte d -> upload_shape (encode (frame d) ++ rest).
Proof.
  intros Hd. split; [apply bytes_ok_app; auto using encode_ok, upload_frame_ok|].
  rewrite encode_shape. rewrite <-!app_assoc. exists d. do 3 eexists.
  unfold head8. cbn [app fr_payload fr_seq fr_dest fr_src fr_id fr_ans]. reflexivity.
Qed.

Lemma seal_dest b d :
  is_byte d -> upload_shape b ->
  (b ← st8 b off_destid d; alink_seal b 0 (u16 (Zlen payload + 11)))
  = Some (encode (frame d) ++ rest).
Proof.
  intros Hd (_ & d0 & x & y0 & y1 & ->). pose proof (Zlen_nonneg payload). unfold off_destid.
  unfold head8 at 1. cbn [app]. st8_step. rewrite u8_id, u16_id by (done || lia).
  exact (seal_spec (frame d) x y0 y1 rest (upload_frame_ok d Hd) Hlen).
Qed.

Lemma send_loop_spec fuel p l b eRet t :
  is_list sends p l -> (length l <= fuel)%nat -> receivers_ok l -> upload_shape b ->
  match send_all sends l (λ d, frame d) eRet t with
  | None => upload_send_loop fuel sends p b (Zlen payload) eRet t = None
  | Some (e, t') => exists b', upload_shape b'
      /\ upload_send_loop fuel sends p b (Zlen payload) eRet t = Some (b', e, t')
  end.
Proof.
  intros El. revert fuel p b eRet t El.
  induction l as [|a l IH]; intros fuel p b eRet t El Hf Hr Hs.
  - cbn in El. subst p. exists b. by destruct fuel.
  - destruct El as (-> & n & Hn & El). destruct fuel as [|fuel]; [cbn in Hf; lia|].
    apply Forall_cons in Hr as [(n' & Hn' & Hd) Hr]. rewrite Hn in Hn'. injection Hn' as <-.
    cbn [send_all upload_send_loop]. rewrite Hn. cbn [mbind option_bind].
    destruct (sl_pe_send n) as [pe_send|]; [|apply IH; try done; cbn in Hf; lia].
    pose proof (seal_dest b (byRemoteId n) Hd Hs) as Hseal.
    unfold ALINK_NO_PAYLOAD_SIZE.
    destruct (st8 b off_destid (byRemoteId n)) as [b1|]; [|done]. cbn [mbind option_bind] in *.
    rewrite Hseal. cbn [mbind option_bind].
    pose proof (Zlen_nonneg payload). rewrite u16_id by lia.
    rewrite ld_bytes_prefix by (rewrite Zlen_encode; cbn; lia).
    cbn [mbind option_bind].
    destruct (pe_send (sl_handle n) _ t) as [[e t1]|]; [|done]. cbn [mbind option_bind].
    apply IH; try done; [cbn in Hf; lia|by apply encode_upload_shape].
Qed.
End send.

(** ** Properties *)

Definition upload_ok (u : alink_upload) : Prop :=
  up_mutex u = false /\ bytes_ok (up_pbyBuffer u) /\ bytes_ok [byDevId u; byReq u]
  /\ Zlen (up_pbyBuffer u) = up_wBufferSize u /\ 11 <= up_wBufferSize u < 65536.

Lemma upload_shape_len req dev id answer payload rest b :
  upload_shape req dev id answer payload rest b -> Zlen b = Zlen payload + Zlen rest + 11.
Proof.
  intros (_ & d & x & y0 & y1 & ->). unfold Zlen, head8. cbn [app length fr_payload].
  rewrite length_app. cbn [length]. lia.
Qed.

(** The header stores of [alink_upload_send_package]. *)
Lemma upload_header (b0 payload : list Z) dev req id answer b1 :
  bytes_ok [req; dev; id; answer] -> Zlen payload + 11 <= Zlen b0 -> Zlen b0 < 65536 ->
  bytes_ok b0 -> bytes_ok payload -> st_bytes b0 9 payload = Some b1 ->
  exists rest b, bytes_ok rest /\ upload_shape req dev id answer payload rest b /\ Zlen b = Zlen b0
  /\ (b ← st8 b1 off_magic ALINK_MSG_MAGIC_VALUE;
      b ← st8 b off_len_lo (Z.land (Z.shiftr (Zlen payload) 0) 255);
      b ← st8 b off_len_hi (Z.land (Z.shiftr (Zlen payload) 8) 255);
      b ← st8 b off_sourceid dev;
      b ← st8 b off_seq req;
      b ← st8 b off_msgid id;
      st8 b off_ans answer) = Some b.
Proof.
  intros Hb Hl H64 Hok Hpk Hst. pose proof (Zlen_nonneg payload) as H0.
  apply st_bytes_split in Hst as (a & c & r & -> & -> & Ha & Hc).
  rewrite !Zlen_app in Hl, H64 |- *.
  do 9 (destruct a as [|? a]; [unfold Zlen in Ha; cbn in Ha; lia|]).
  destruct a as [|? a]; [|unfold Zlen in Ha; cbn in Ha; lia].
  destruct r as [|y0 [|y1 rest]]; [unfold Zlen in *; cbn in *; lia..|].
  rewrite !bytes_ok_app in Hok. destruct Hok as (Ha' & _ & Hr').
  pose proof Hr' as [_ [_ Hrest]%Forall_cons]%Forall_cons.
  exists rest. eexists. split; [done|]. split; [|split].
  3:{ unfold off_magic, off_len_lo, off_len_hi, off_seq, off_sourceid, off_msgid, off_ans.
      cbn [app]. do 7 st8_step. reflexivity. }
  - forall_inv Hb. rewrite !(Z.land_comm _ 255), mask_lo, mask_hi, !u8_id by (done || lia).
    split; [|by exists z3, z7, y0, y1].
    assert (is_byte z3 /\ is_byte z7) as [? ?] by (forall_inv Ha'; done).
    unfold ALINK_MSG_MAGIC_VALUE.
    repeat apply Forall_cons_2; try done; [unfold is_byte; wrap_lia..|].
    by apply bytes_ok_app.
  - unfold Zlen in *. cbn [length] in *. rewrite !length_app in *. cbn [length] in *. lia.
Qed.

(** Sending a package, in terms of [send_all]. *)
Lemma upload_send_frames {T} (u : alink_upload) sends pkg l task enc
    imp payload (t : T) `{!PackageTask task enc} :
  upload_ok u -> bytes_ok [byMsgId pkg; byAns pkg] ->
  pw_package_task pkg = Some task -> enc (drop 9 (up_pbyBuffer u)) imp = Some payload ->
  Zlen payload + 11 <= up_wBufferSize u ->
  is_list sends (psSendList pkg) l -> l <> [] -> receivers_ok sends l ->
  match send_all sends l (λ d, Frame (byReq u) d (byDevId u) (byMsgId pkg) (byAns pkg) payload)
          0 t with
  | None => alink_upload_send_package u sends pkg imp t = None
  | Some (e, t') => exists u', alink_upload_send_package u sends pkg imp t = Some (u', e, t')
      /\ upload_ok u' /\ byReq u' = u8 (byReq u + 1) /\ byDevId u' = byDevId u
      /\ psPackageList u' = psPackageList u /\ up_wBufferSize u' = up_wBufferSize u
  end.
Proof.
  intros (Hmu & Hok & Hids & Hsz & Hmin) Hpk Ht He Hfit Hl Hne Hr.
  pose proof (Zlen_nonneg payload) as H0.
  destruct (package_task_writes (up_pbyBuffer u) 9 (u16 (up_wBufferSize u - 11)) imp payload Hok He)
    as (Hp & _ & Htask); [lia|lia|rewrite u16_id; lia|].
  assert (bytes_ok [byReq u; byDevId u; byMsgId pkg; byAns pkg]) as Hb4.
  { forall_inv Hids. forall_inv Hpk. by repeat apply Forall_cons_2. }
  destruct (proj2 (st_bytes_Some (up_pbyBuffer u) 9 payload)) as [b1 Hb1]; [lia|].
  destruct (upload_header (up_pbyBuffer u) payload (byDevId u) (byReq u) (byMsgId pkg)
              (byAns pkg) b1 Hb4) as (rest & b & Hrs & Hs & Hlb & Hhdr); [lia|lia|done..|].
  pose proof (send_loop_spec sends (byReq u) (byDevId u) (byMsgId pkg) (byAns pkg) payload rest
                Hb4 Hp ltac:(lia) Hrs (size sends) (psSendList pkg) l b 0 t Hl
                (is_list_size _ _ _ Hl) Hr Hs) as Hloop.
  destruct l as [|a l]; [done|]. pose proof Hl as [Ep _].
  unfold alink_upload_send_package, upload_lock. rewrite Hmu, Ht, Ep in *.
  cbn [mbind option_bind upload_set_mutex up_pbyBuffer up_wBufferSize byDevId byReq].
  unfold sizeof_alink_msg_head, ALINK_NO_PAYLOAD_SIZE. rewrite <-Htask, Hb1.
  repeat apply bind_Some in Hhdr as (? & ? & Hhdr).
  repeat (cbn [mbind option_bind]; match goal with H : st8 _ _ _ = Some _ |- _ => rewrite H end).
  cbn [mbind option_bind].
  destruct (send_all _ _ _ _ _) as [[e t']|]; [|by rewrite Hloop].
  destruct Hloop as (b' & Hs' & ->). cbn [mbind option_bind]. eexists. split; [done|].
  apply upload_shape_len in Hs as Hl1. apply upload_shape_len in Hs' as Hl2.
  unfold upload_ok, upload_unlock, upload_set_mutex, upload_set_buffer, upload_set_byReq. cbn.
  forall_inv Hids. destruct Hs' as [? _].
  repeat split; try done; try lia. repeat apply Forall_cons_2; auto with bytes.
Qed.

(** C20: every receiver gets the frame. Sending a package makes each receiver's send
    function run once, in list order, on the encoding of the frame made of the request
    counter, the receiver's id, the device id, the package's id and the payload its task
    writes; the counter advances modulo 256, the mutex is released and the buffer keeps
    its size; the result is that of the last send, and a failing send stops nothing. *)
Theorem alink_upload_send_package_frames {T} (u : alink_upload) sends pkg l task enc
    imp payload (t : T) `{!PackageTask task enc} :
  upload_ok u -> bytes_ok [byMsgId pkg; byAns pkg] ->
  pw_package_task pkg = Some task -> enc (drop 9 (up_pbyBuffer u)) imp = Some payload ->
  Zlen payload + 11 <= up_wBufferSize u ->
  is_list sends (psSendList pkg) l -> l <> [] -> receivers_ok sends l ->
  match send_all sends l (λ d, Frame (byReq u) d (byDevId u) (byMsgId pkg) (byAns pkg) payload)
          0 t with
  | None => alink_upload_send_package u sends pkg imp t = None
  | Some (e, t') => exists u', alink_upload_send_package u sends pkg imp t = Some (u', e, t')
      /\ upload_ok u' /\ byReq u' = u8 (byReq u + 1) /\ byDevId u' = byDevId u
      /\ psPackageList u' = psPackageList u /\ up_wBufferSize u' = up_wBufferSize u
  end.
Proof. by apply upload_send_frames. Qed.

(** The package type that an id selects, and its receivers. *)
Definition first_package (packages : gmap nat alink_package_list) (pl : list nat) (MsgId : Z)
  : option nat :=
  head (filter (λ a, from_option (λ p, byMsgId p =? MsgId) false (packages !! a) = true) pl).

Lemma first_package_lookup packages pl MsgId a :
  first_package packages pl MsgId = Some a ->
  exists p, packages !! a = Some p /\ byMsgId p = MsgId.
Proof.
  unfold first_package. intros H. apply head_Some_elem_of, list_elem_of_filter in H as [H _].
  destruct (packages !! a) as [p|]; [|done]. exists p. split; [done|].
  by apply Z.eqb_eq.
Qed.

Lemma on_package_spec {T} op (u : alink_upload) packages pl (sends : gmap nat (alink_send_list T))
    MsgId node :
  up_mutex u = false -> is_list packages (psPackageList u) pl ->
  upload_on_package op u packages sends MsgId node
  = match first_package packages pl MsgId with
    | None => Some (u, packages, sends, -1)
    | Some a =>
        p ← packages !! a;
        '(p, sends, eRet) ← op p sends node;
        Some (u, <[a := p]> packages, sends, eRet)
    end.
Proof.
  intros Hm Hl. unfold upload_on_package, upload_lock. rewrite Hm.
  cbn [mbind option_bind upload_set_mutex psPackageList].
  rewrite (find_node_spec _ _ _ _ pl Hl) by by eapply is_list_size.
  cbn [mbind option_bind]. fold (first_package packages pl MsgId).
  assert (upload_unlock (upload_set_mutex true u) = u) as E by (destruct u; cbn in *; by subst).
  change {| byDevId := byDevId u; byReq := byReq u; up_wBufferSize := up_wBufferSize u;
            up_mutex := true; up_pbyBuffer := up_pbyBuffer u;
            psPackageList := psPackageList u |} with (upload_set_mutex true u).
  rewrite E. by destruct (first_package packages pl MsgId).
Qed.

(** Connecting a receiver. For a known message id the receiver is appended to the
    receivers of the first package type with that id, once (a second connect changes
    nothing); for an unknown id the result is -1 and nothing changes. *)
Lemma alink_upload_connect_send_spec {T} (u : alink_upload) packages pl
    (sends : gmap nat (alink_send_list T)) MsgId node n :
  up_mutex u = false -> is_list packages (psPackageList u) pl ->
  sends !! node = Some n ->
  match first_package packages pl MsgId with
  | None => alink_upload_connect_send u packages sends MsgId node
            = Some (u, packages, sends, -1)
  | Some a => forall p l,
      packages !! a = Some p -> is_list sends (psSendList p) l ->
      (node ∉ l -> sl_psNext n = None) ->
      exists p' sends', alink_upload_connect_send u packages sends MsgId node
        = Some (u, <[a := p']> packages, sends', 0)
      /\ is_list sends' (psSendList p') (if decide (node ∈ l) then l else l ++ [node])
      /\ (forall b, b ∉ l -> sends' !! b = sends !! b)
  end.
Proof.
  intros Hm Hl Hn. unfold alink_upload_connect_send. rewrite (on_package_spec _ _ _ pl) by done.
  destruct (first_package packages pl MsgId) as [a|] eqn:Ea; [|done].
  intros p l Hp Hls Hnull. rewrite Hp. cbn [mbind option_bind].
  unfold alink_package_connect_send. destruct (psSendList p) as [b|] eqn:Eb.
  - destruct (append_walk_spec (size sends) sends (Some b) l b node n Hls
                (is_list_size _ _ _ Hls) eq_refl Hn Hnull) as (h' & -> & Hin & Hout).
    cbn [mbind option_bind]. exists p, h'. split; [done|]. rewrite Eb.
    destruct (decide (node ∈ l)) as [Hi|Hi]; [by rewrite Hin|].
    destruct (Hout Hi) as (El & z & nz & Hz & Hhz & ->). split; [done|].
    intros c Hc. rewrite lookup_insert_ne; [done|]. intros ->.
    by apply last_Some_elem_of in Hz.
  - destruct l as [|c l]; [|destruct Hls as [? _]; done].
    rewrite decide_False by apply not_elem_of_nil. cbn [mbind option_bind].
    do 2 eexists. split; [done|]. split; [|done]. cbn. split; [done|].
    exists n. split; [done|]. apply Hnull, not_elem_of_nil.
Qed.

(** Disconnecting a receiver. A receiver that is not the first of its list is unlinked
    and all others stay; disconnecting the first one empties the whole list, so that every
    receiver connected after it stops receiving the package; disconnecting an unknown
    receiver changes nothing. *)
Lemma alink_upload_disconnect_send_spec {T} (u : alink_upload) packages pl
    (sends : gmap nat (alink_send_list T)) MsgId node a p l :
  up_mutex u = false -> is_list packages (psPackageList u) pl ->
  first_package packages pl MsgId = Some a -> packages !! a = Some p ->
  is_list sends (psSendList p) l ->
  exists p' sends', alink_upload_disconnect_send u packages sends MsgId node
      = Some (u, <[a := p']> packages, sends', 0)
    /\ (node ∉ l -> p' = p /\ sends' = sends)
    /\ (forall l2, l = node :: l2 -> psSendList p' = None)
    /\ (forall x l1 l2, l = x :: l1 ++ node :: l2 -> is_list sends' (psSendList p') (x :: l1 ++ l2)).
Proof.
  intros Hm Hl Ha Hp Hls. unfold alink_upload_disconnect_send.
  rewrite (on_package_spec _ _ _ pl) by done. rewrite Ha, Hp. cbn [mbind option_bind].
  unfold alink_package_disconnect_send. pose proof (is_list_size _ _ _ Hls) as Hsz.
  destruct (decide (node ∈ l)) as [(l1 & l2 & ->)%list_elem_of_split|Hn].
  2:{ rewrite (unlink_walk_absent _ _ _ _ l) by done. cbn [mbind option_bind].
      exists p, sends. split; [done|]. split; [done|]. split.
      - intros l2 ->. by destruct Hn; left.
      - intros x l1 l2 ->. destruct Hn. set_solver. }
  destruct l1 as [|x l1].
  - pose proof Hls as [Ep (n & Hn & _)]. rewrite Ep.
    destruct (size sends) as [|k]; [cbn in Hsz; lia|].
    cbn [list_unlink_walk]. rewrite Hn. cbn [mbind option_bind].
    rewrite decide_True by done. cbn [mbind option_bind].
    exists (package_set_sends None p), sends. split; [done|].
    split; [intros []; by left|]. split; [done|]. intros x l1 l3 [= -> E].
    apply is_list_NoDup, NoDup_cons in Hls as [[] _]. rewrite E. set_solver.
  - destruct (unlink_walk_inner (size sends) sends _ x l1 node l2 Hls Hsz) as (h' & -> & Hl').
    apply is_list_NoDup, NoDup_cons in Hls as [Hx Hd]. cbn [mbind option_bind].
    exists p, h'. split; [done|]. split; [intros []; set_solver|].
    split; [intros l3 [= -> _]; destruct Hx; set_solver|].
    intros x' l1' l2' [= <- E]. by apply NoDup_middle_unique in E as [<- <-].
Qed.

(** ** Witnesses *)

Definition const_task : package_task :=
  λ b off _ _, b' ← st_bytes b off [1; 2]; Some (2, b').

#[export] Instance const_task_spec : PackageTask const_task (λ _ _, Some [1; 2]).
Proof. intros b off size imp payload _ [= <-] _ _ _. split; [by_eval|]. by split. Qed.

Definition trace : Type := list (nat * list Z).
Definition log_send : send_fun trace := λ h bs t, Some (Zlen bs, t ++ [(h, bs)]).
Definition demo_sends : gmap nat (alink_send_list trace) :=
  <[5%nat := {| byRemoteId := 6; sl_handle := 50; sl_pe_send := Some log_send;
                sl_psNext := Some 6%nat |}]>
  (<[6%nat := {| byRemoteId := 4; sl_handle := 60; sl_pe_send := Some log_send;
                 sl_psNext := None |}]>
  {[7%nat := {| byRemoteId := 9; sl_handle := 70; sl_pe_send := Some log_send;
                sl_psNext := None |}]}).
Definition demo_package : alink_package_list :=
  {| byMsgId := 208; byAns := 0; pw_package_task := Some const_task;
     psSendList := Some 5%nat; pk_psNext := None |}.
Definition demo_packages : gmap nat alink_package_list := {[ 1%nat := demo_package ]}.
Definition demo_upload : alink_upload :=
  {| byDevId := 8; byReq := 255; up_wBufferSize := 32; up_mutex := false;
     up_pbyBuffer := replicate 32 0; psPackageList := Some 1%nat |}.

Lemma demo_sends_list : is_list demo_sends (Some 5%nat) [5%nat; 6%nat].
Proof. split; [done|]. eexists. split; [reflexivity|]. split; [done|]. by eexists. Qed.

Lemma demo_packages_list : is_list demo_packages (psPackageList demo_upload) [1%nat].
Proof. split; [done|]. by eexists. Qed.

Lemma demo_receivers_ok : receivers_ok demo_sends [5%nat; 6%nat].
Proof. repeat constructor; eexists; (split; [reflexivity|by_eval]). Qed.

Lemma alink_upload_send_package_frames_witness :
  (exists u' t', alink_upload_send_package demo_upload demo_sends demo_package None []
      = Some (u', 13, t') /\ byReq u' = 0
   /\ t' = [(50%nat, encode (Frame 255 6 8 208 0 [1; 2]));
            (60%nat, encode (Frame 255 4 8 208 0 [1; 2]))]).
Proof.
  assert (upload_ok demo_upload) as Hu by (repeat split; by_eval).
  pose proof (alink_upload_send_package_frames demo_upload demo_sends demo_package
    [5%nat; 6%nat] const_task (λ _ _, Some [1; 2]) None [1; 2] [] Hu ltac:(by_eval)
    eq_refl eq_refl ltac:(by_eval) demo_sends_list ltac:(discriminate) demo_receivers_ok) as H.
  destruct H as (u' & E & _ & Hr & _). do 2 eexists. split; [exact E|]. split; [exact Hr|].
  reflexivity.
Defined.

Lemma alink_upload_connect_send_spec_witness :
  (exists p' sends', alink_upload_connect_send demo_upload demo_packages demo_sends 208 7
      = Some (demo_upload, <[1%nat := p']> demo_packages, sends', 0)
   /\ is_list sends' (psSendList p') [5%nat; 6%nat; 7%nat]).
Proof.
  pose proof (alink_upload_connect_send_spec demo_upload demo_packages [1%nat] demo_sends 208 7
    {| byRemoteId := 9; sl_handle := 70; sl_pe_send := Some log_send; sl_psNext := None |}
    eq_refl demo_packages_list eq_refl) as H.
  destruct (H demo_package [5%nat; 6%nat] eq_refl demo_sends_list (λ _, eq_refl))
    as (p' & s' & E & Hl & _).
  by exists p', s'.
Defined.

(** The first of two receivers leaves: the second one is lost with it. *)
Lemma alink_upload_disconnect_send_spec_witness :
  (exists p' sends', alink_upload_disconnect_send demo_upload demo_packages demo_sends 208 5
      = Some (demo_upload, <[1%nat := p']> demo_packages, sends', 0)
   /\ psSendList p' = None).
Proof.
  destruct (alink_upload_disconnect_send_spec demo_upload demo_packages [1%nat] demo_sends 208 5
    1 demo_package [5%nat; 6%nat] eq_refl demo_packages_list eq_refl eq_refl demo_sends_list)
    as (p' & s' & E & _ & Hh & _).
  exists p', s'. split; [exact E|]. by eapply Hh.
Defined.
