(* ===== verification/SysportTask.v ===== *)
(** * Tasks ([src/common/sysport/task/sysport_task.c]) and the door to the algorithms
    ([src/srv/algs/alg_interface.c])

    A task is a thread that takes messages from a POSIX message queue of ten entries and
    runs the function each message carries; a message without a function ends the thread.
    The queue holds pointers to blocks that the sender allocates and the thread frees, so
    the model also counts the live blocks.  [malloc] and the message queue are outside the
    program: whether a call succeeds is a parameter of each operation. *)

From S2P Require Import Prelude.

Definition SYSPORT_TASK_MSG_SIZE : nat := 10.

Section task.
Context {W : Type}.

(** [pv_func( pvArg, pvInfo, uSize )] *)
Definition task_fun : Type := nat -> list Z -> Z -> W -> option W.

Record sysport_task_func_t := { pv_func : option task_fun; uSize : Z; acInfo : list Z }.

Record sysport_task_module := {
  strName : list Z; tm_pvArg : nat; mq : list sysport_task_func_t
}.

Definition module_set_mq (q : list sysport_task_func_t) (m : sysport_task_module)
  : sysport_task_module :=
  {| strName := strName m; tm_pvArg := tm_pvArg m; mq := q |}.

(** The task as the system sees it: [None] once the thread has freed its module. *)
Record task_state := {
  ts_module : option sysport_task_module; ts_live : Z; ts_world : W
}.

Definition task_set (m : option sysport_task_module) (live : Z) (s : task_state) : task_state :=
  {| ts_module := m; ts_live := live; ts_world := ts_world s |}.
Definition task_set_world (w : W) (s : task_state) : task_state :=
  {| ts_module := ts_module s; ts_live := ts_live s; ts_world := w |}.

(** ** The code *)

Definition sysport_task_create (name : list Z) (pvArg : nat) (w : W) (live : Z)
    (malloc_ok mq_ok pthread_ok : bool) : option task_state :=
  if negb malloc_ok then None else
  if negb mq_ok then None else
  if negb pthread_ok then None else
  Some {| ts_module := Some {| strName := name; tm_pvArg := pvArg; mq := [] |};
          ts_live := live + 1; ts_world := w |}.

(** The block a sender fills: [None] is [NULL]. *)
Definition sysport_task_malloc (s : task_state) (uSize : Z) (malloc_ok : bool)
  : task_state * option sysport_task_func_t :=
  if malloc_ok then
    (task_set (ts_module s) (ts_live s + 1) s,
     Some {| pv_func := None; uSize := u32 uSize; acInfo := replicate (Z.to_nat (u32 uSize)) 0 |})
  else (s, None).

(** [mq_send] waits while the queue is full: that is [None]. *)
Definition sysport_task_func (s : task_state) (f : option task_fun)
    (msg : sysport_task_func_t) (mq_ok : bool) : option (Z * task_state) :=
  m ← ts_module s;
  let msg := {| pv_func := f; uSize := uSize msg; acInfo := acInfo msg |} in
  if negb mq_ok then Some (-1, task_set (Some m) (ts_live s - 1) s)
  else if decide (SYSPORT_TASK_MSG_SIZE <= length (mq m))%nat then None
  else Some (0, task_set (Some (module_set_mq (mq m ++ [msg]) m)) (ts_live s) s).

Definition sysport_task_delete (s : task_state) (malloc_ok mq_ok : bool)
  : option (Z * task_state) :=
  match sysport_task_malloc s 0 malloc_ok with
  | (s, Some pvInfo) => sysport_task_func s None pvInfo mq_ok
  | (s, None) => Some (-1, s)
  end.

(** One turn of the thread's loop; [None] when it waits for a message. *)
Definition sysport_task_pthread (s : task_state) : option task_state :=
  m ← ts_module s;
  match mq m with
  | [] => None
  | psFunc :: q =>
      match pv_func psFunc with
      | None => Some (task_set None (ts_live s - 1) s)
      | Some f =>
          w ← f (tm_pvArg m) (acInfo psFunc) (uSize psFunc) (ts_world s);
          Some (task_set_world w (task_set (Some (module_set_mq q m)) (ts_live s - 1) s))
      end
  end.

(** ** Runs *)

(** What the rest of the program and the scheduler do to a task. *)
Inductive task_event :=
  | ev_post (f : task_fun) (info : list Z) (malloc_ok mq_ok : bool)
  | ev_delete (malloc_ok mq_ok : bool)
  | ev_turn.

(** A client's way to post: allocate, fill, send. *)
Definition task_post (s : task_state) (f : task_fun) (info : list Z) (malloc_ok mq_ok : bool)
  : option (Z * task_state) :=
  match sysport_task_malloc s (Zlen info) malloc_ok with
  | (s, Some msg) =>
      sysport_task_func s (Some f)
        {| pv_func := pv_func msg; uSize := uSize msg; acInfo := info |} mq_ok
  | (s, None) => Some (-1, s)
  end.

Definition task_step (e : task_event) (s : task_state) : option task_state :=
  match e with
  | ev_post f info a b => snd <$> task_post s f info a b
  | ev_delete a b => snd <$> sysport_task_delete s a b
  | ev_turn => sysport_task_pthread s
  end.

Fixpoint task_run (evs : list task_event) (s : task_state) : option task_state :=
  match evs with
  | [] => Some s
  | e :: evs' => s' ← task_step e s; task_run evs' s'
  end.

(** The messages that entered the queue, in order. *)
Definition event_msg (e : task_event) : list sysport_task_func_t :=
  match e with
  | ev_post f info true true => [{| pv_func := Some f; uSize := u32 (Zlen info); acInfo := info |}]
  | ev_delete true true => [{| pv_func := None; uSize := 0; acInfo := [] |}]
  | _ => []
  end.

Definition accepted (evs : list task_event) : list sysport_task_func_t :=
  concat (map event_msg evs).

(** The effect of the functions of [msgs], in order. *)
Fixpoint run_msgs (arg : nat) (msgs : list sysport_task_func_t) (w : W) : option W :=
  match msgs with
  | [] => Some w
  | msg :: msgs' =>
      match pv_func msg with
      | Some f => w' ← f arg (acInfo msg) (uSize msg) w; run_msgs arg msgs' w'
      | None => Some w
      end
  end.

(** ** The invariant *)

(** After [sent], the thread has run [ran] and the queue holds the rest in order. *)
Definition task_inv (live0 : Z) (arg : nat) (w0 : W) (sent : list sysport_task_func_t)
    (s : task_state) : Prop :=
  exists ran, Forall (λ m, is_Some (pv_func m)) ran /\ run_msgs arg ran w0 = Some (ts_world s)
  /\ match ts_module s with
     | Some m => tm_pvArg m = arg /\ sent = ran ++ mq m
         /\ (length (mq m) <= SYSPORT_TASK_MSG_SIZE)%nat
         /\ ts_live s = live0 + 1 + Zlen (mq m)
     | None => exists stop lost, pv_func stop = None /\ sent = ran ++ stop :: lost
         /\ ts_live s = live0 + 1 + Zlen lost
     end.

Lemma run_msgs_snoc arg msgs msg f w w1 :
  Forall (λ m, is_Some (pv_func m)) msgs -> run_msgs arg msgs w = Some w1 ->
  pv_func msg = Some f ->
  run_msgs arg (msgs ++ [msg]) w = f arg (acInfo msg) (uSize msg) w1.
Proof.
  intros Hs. revert w. induction Hs as [|m msgs [g Hg] _ IH]; intros w Hr Hf.
  - injection Hr as ->. cbn. rewrite Hf. by destruct (f _ _ _ _).
  - cbn in Hr |- *. rewrite Hg in Hr |- *. destruct (g _ _ _ w) as [w2|]; [|done]. by apply IH.
Qed.

(** A message that enters the queue, and a send that fails. *)
Lemma inv_send live0 arg w0 sent s f msg b e s' :
  task_inv live0 arg w0 sent s ->
  sysport_task_func (task_set (ts_module s) (ts_live s + 1) s) f msg b = Some (e, s') ->
  task_inv live0 arg w0
    (sent ++ if b then [{| pv_func := f; uSize := uSize msg; acInfo := acInfo msg |}] else []) s'.
Proof.
  intros (ran & Hran & Hw & Hm). unfold sysport_task_func. cbn [task_set ts_module].
  destruct (ts_module s) as [m|]; [|done]. destruct Hm as (Ha & -> & Hq & Hl).
  cbn [mbind option_bind]. destruct b; cbn [negb].
  - destruct (decide _) as [|Hn]; [done|]. intros [= <- <-]. exists ran. split; [done|].
    split; [done|]. cbn. split; [done|]. rewrite app_assoc. split; [done|].
    rewrite length_app, Zlen_snoc. cbn [length]. lia.
  - intros [= <- <-]. exists ran. rewrite app_nil_r. split; [done|]. split; [done|]. cbn.
    repeat split; try done. lia.
Qed.

Lemma inv_turn live0 arg w0 sent s s' :
  task_inv live0 arg w0 sent s -> sysport_task_pthread s = Some s' ->
  task_inv live0 arg w0 sent s'.
Proof.
  intros (ran & Hran & Hw & Hm). unfold sysport_task_pthread.
  destruct (ts_module s) as [m|]; [|done]. destruct Hm as (Ha & Hs & Hq & Hl).
  cbn [mbind option_bind]. destruct (mq m) as [|msg q] eqn:Eq; [done|].
  rewrite Zlen_cons in Hl. destruct (pv_func msg) as [f|] eqn:Ef.
  - intros H. inv_bind. rename x into w1. exists (ran ++ [msg]). split; [|split].
    + apply Forall_app. split; [done|]. constructor; [by eexists|constructor].
    + cbn. rewrite (run_msgs_snoc _ _ _ f _ (ts_world s)); done.
    + cbn. rewrite <-app_assoc. repeat split; try done; cbn in Hq; lia.
  - intros [= <-]. exists ran. split; [done|]. split; [done|]. cbn.
    exists msg, q. repeat split; try done. lia.
Qed.

Lemma inv_step live0 arg w0 sent s e s' :
  task_inv live0 arg w0 sent s -> task_step e s = Some s' ->
  task_inv live0 arg w0 (sent ++ event_msg e) s'.
Proof.
  intros Hi. destruct e as [f info a b|a b|]; cbn [task_step event_msg]; intros H.
  - inv_bind. destruct x as [r s1]. unfold task_post, sysport_task_malloc in H.
    destruct a; cbn -[sysport_task_func task_set u32] in H.
    + apply (inv_send _ _ _ _ _ _ _ _ _ _ Hi) in H. cbn in H. by destruct b.
    + injection H as <- <-. by rewrite app_nil_r.
  - inv_bind. destruct x as [r s1]. unfold sysport_task_delete, sysport_task_malloc in H.
    destruct a; cbn -[sysport_task_func task_set u32] in H.
    + apply (inv_send _ _ _ _ _ _ _ _ _ _ Hi) in H. cbn in H. by destruct b.
    + injection H as <- <-. by rewrite app_nil_r.
  - rewrite app_nil_r. by eapply inv_turn.
Qed.

Lemma inv_run live0 arg w0 evs sent s s' :
  task_inv live0 arg w0 sent s -> task_run evs s = Some s' ->
  task_inv live0 arg w0 (sent ++ accepted evs) s'.
Proof.
  revert sent s. induction evs as [|e evs IH]; intros sent s Hi H; cbn in H.
  - injection H as <-. unfold accepted. cbn. by rewrite app_nil_r.
  - apply bind_Some in H as (s1 & H1 & H). unfold accepted. cbn [map concat].
    rewrite app_assoc. eapply IH; [by eapply inv_step|done].
Qed.
End task.

Arguments task_state : clear implicits.
Arguments task_event : clear implicits.
Arguments sysport_task_func_t : clear implicits.

(** ** Properties *)


(** Progress. A thread whose queue is not empty always completes its turn, provided
    the function of the message does not fault, and a sender is held up exactly when ten
    messages are waiting; so a blocked sender is released by one turn of the thread. *)
Lemma sysport_task_progress {W} (s : task_state W) m f info :
  ts_module s = Some m -> (length (mq m) <= SYSPORT_TASK_MSG_SIZE)%nat ->
  (forall msg g w, msg ∈ mq m -> pv_func msg = Some g ->
     is_Some (g (tm_pvArg m) (acInfo msg) (uSize msg) w)) ->
  (task_post s f info true true = None <-> length (mq m) = SYSPORT_TASK_MSG_SIZE)
  /\ (mq m <> [] -> exists s', sysport_task_pthread s = Some s'
        /\ ((forall msg, head (mq m) = Some msg -> is_Some (pv_func msg)) ->
            is_Some (task_post s' f info true true))).
Proof.
  intros Hs Hq Hf. split.
  - unfold task_post, sysport_task_malloc, sysport_task_func. cbn [task_set ts_module].
    rewrite Hs. cbn. destruct (decide _); split; try done; unfold SYSPORT_TASK_MSG_SIZE in *; lia.
  - intros Hne. unfold sysport_task_pthread. rewrite Hs. cbn [mbind option_bind].
    destruct (mq m) as [|msg q]; [done|]. destruct (pv_func msg) as [g|] eqn:Eg.
    + destruct (Hf msg g (ts_world s) ltac:(by left) Eg) as [w ->]. eexists. split; [done|].
      intros _. unfold task_post, sysport_task_malloc, sysport_task_func. cbn.
      unfold SYSPORT_TASK_MSG_SIZE in *. cbn in Hq.
      destruct (decide _) as [Hd|_]; [change (10 <= length q)%nat in Hd; lia|]. by eexists.
    + eexists. split; [done|]. intros H. destruct (H msg eq_refl) as [? H']. by rewrite Eg in H'.
Qed.

(** ** Witnesses *)

Definition log_fun : task_fun := λ arg info n w, Some (w ++ [(arg, info)]).
Definition demo_events : list (task_event (list (nat * list Z))) :=
  [ev_post log_fun [1] true true; ev_post log_fun [2; 3] true false; ev_turn;
   ev_post log_fun [4] true true; ev_delete true true; ev_post log_fun [5] true true;
   ev_turn; ev_turn].


Lemma sysport_task_progress_witness :
  (exists s', sysport_task_pthread
     {| ts_module := Some {| strName := []; tm_pvArg := 3;
          mq := replicate 10 {| pv_func := Some log_fun; uSize := 0; acInfo := [] |} |};
        ts_live := 11; ts_world := [] |} = Some s'
   /\ is_Some (task_post s' log_fun [9] true true)).
Proof.
  destruct (sysport_task_progress
    {| ts_module := Some {| strName := []; tm_pvArg := 3;
          mq := replicate 10 {| pv_func := Some log_fun; uSize := 0; acInfo := [] |} |};
        ts_live := 11; ts_world := [] |}
    {| strName := []; tm_pvArg := 3;
       mq := replicate 10 {| pv_func := Some log_fun; uSize := 0; acInfo := [] |} |}
    log_fun [9]) as [_ H]; [done|by cbn; unfold SYSPORT_TASK_MSG_SIZE; lia| |].
  - intros msg g w Hm Hg. cbn [mq] in Hm. apply elem_of_replicate in Hm as [-> _].
    injection Hg as <-. by eexists.
  - destruct H as (s' & Hs' & H); [done|]. exists s'. split; [done|].
    apply H. intros msg [= <-]. by eexists.
Defined.
