(* ===== verification/SysportTimer.v ===== *)
(** * Timers and time ([src/common/sysport/timer], [src/common/sysport/time])

    A timer calls a function every so many milliseconds, a number of times or for ever.  The
    kernel's timers are a table; an expiration starts a thread, which waits until it runs. *)

From S2P Require Import Prelude.
Local Open Scope list_scope.
Local Open Scope Z_scope.

(** ** The code: time *)

(** The argument and the result are [struct timespec]. *)
Definition sysport_time_count (tv_sec tv_nsec : Z) : Z * (Z * Z) :=
  (u64 (1000 * tv_sec + Z.quot tv_nsec 1000000), (tv_sec, tv_nsec)).

(** The fields of [struct tm]; [localtime] may have no answer, which is not looked at. *)
Record sysport_time := {
  tm_year : Z; tm_mon : Z; tm_mday : Z; tm_hour : Z; tm_min : Z; tm_sec : Z
}.
Definition sysport_time_get (currentTime : Z) (localtime : Z -> option sysport_time)
  : option (Z * sysport_time) :=
  localTime ← localtime currentTime;
  Some (u64 currentTime, {| tm_year := tm_year localTime; tm_mon := tm_mon localTime;
          tm_mday := tm_mday localTime; tm_hour := tm_hour localTime;
          tm_min := tm_min localTime; tm_sec := tm_sec localTime |}).

(** The milliseconds of a clock that does not go back do not go back. *)
Lemma sysport_time_count_mono s n s' n' :
  0 <= n < 1000000000 -> 0 <= n' < 1000000000 -> 0 <= s < 2 ^ 50 -> 0 <= s' < 2 ^ 50 ->
  s * 1000000000 + n <= s' * 1000000000 + n' ->
  fst (sysport_time_count s n) <= fst (sysport_time_count s' n').
Proof.
  intros Hn Hn' Hs Hs' Hle. cbn [sysport_time_count fst]. rewrite !Z.quot_div_nonneg by lia.
  change (2 ^ 50) with 1125899906842624 in *. unfold u64.
  assert (0 <= n / 1000000 < 1000) by (split; [apply Z.div_pos|apply Z.div_lt_upper_bound]; lia).
  assert (0 <= n' / 1000000 < 1000) by (split; [apply Z.div_pos|apply Z.div_lt_upper_bound]; lia).
  rewrite !Z.mod_small by lia.
  destruct (decide (s = s')) as [->|]; [|lia]. assert (n / 1000000 <= n' / 1000000) by (apply Z.div_le_mono; lia). lia.
Qed.

(** ** The code: timers *)

(** [it_value] and [it_interval]: seconds and nanoseconds. *)
Definition timer_interval (uTimeMs : Z) : Z * Z :=
  (u32 uTimeMs / 1000, u32 (1000000 * (u32 uTimeMs mod 1000))).

Section timers.
Context {W : Type}.

Record sysport_timer_module := {
  timerid : Z; tm_strName : list Z; uRunTime : Z; tm_pvArg : nat;
  pv_func : option (nat -> W -> W)
}.

(** The blocks, the kernel's timers with the pointer they notify and their interval, the
    notifications that have not run yet, and what the functions work on. *)
Record timers := {
  tm_mods : gmap nat sysport_timer_module; tm_kernel : gmap Z (nat * (Z * Z));
  tm_pending : list nat; tm_world : W
}.

Definition set_kernel (k : gmap Z (nat * (Z * Z))) (s : timers) : timers :=
  {| tm_mods := tm_mods s; tm_kernel := k; tm_pending := tm_pending s; tm_world := tm_world s |}.
Definition set_mods (m : gmap nat sysport_timer_module) (s : timers) : timers :=
  {| tm_mods := m; tm_kernel := tm_kernel s; tm_pending := tm_pending s; tm_world := tm_world s |}.

(** [addr], [id] and [started] are the answers of [skyfend_malloc], [timer_create] and
    [timer_settime].  When the last fails the kernel's timer stays. *)
Definition sysport_timer_create (strName : list Z) (uTimeMs run : Z) (pvArg : nat)
    (func : option (nat -> W -> W)) (addr : option nat) (id : option Z) (started : bool)
    (s : timers) : option nat * timers :=
  match addr with
  | None => (None, s)
  | Some a =>
      match id with
      | None => (None, s)
      | Some t =>
          if started then
            let m := {| timerid := t; tm_strName := strName; uRunTime := u32 run;
                        tm_pvArg := pvArg; pv_func := func |} in
            (Some a, set_mods (<[a := m]> (tm_mods s))
                       (set_kernel (<[t := (a, timer_interval uTimeMs)]> (tm_kernel s)) s))
          else (None, set_kernel (<[t := (a, (0, 0))]> (tm_kernel s)) s)
      end
  end.

(** [timer_delete] knows the timers of the table only. *)
Definition timer_delete (t : Z) (s : timers) : Z * timers :=
  match tm_kernel s !! t with
  | Some _ => (0, set_kernel (delete t (tm_kernel s)) s)
  | None => (-1, s)
  end.

(** A notification; [None] is the use of a freed block. *)
Definition sysport_timer_thread (psModule : nat) (s : timers) : option timers :=
  m ← tm_mods s !! psModule;
  match pv_func m with
  | None => Some s
  | Some f =>
      let s := {| tm_mods := tm_mods s; tm_kernel := tm_kernel s; tm_pending := tm_pending s;
                  tm_world := f (tm_pvArg m) (tm_world s) |} in
      if uRunTime m =? 0 then Some s else
      let left := u32 (uRunTime m - 1) in
      let store run := set_mods (<[psModule :=
        {| timerid := timerid m; tm_strName := tm_strName m; uRunTime := run;
           tm_pvArg := tm_pvArg m; pv_func := pv_func m |}]> (tm_mods s)) in
      if left =? 0 then
        let '(r, s) := timer_delete (timerid m) s in
        if r <? 0 then Some (store 1 s) else Some (set_mods (delete psModule (tm_mods s)) s)
      else Some (store left s)
  end.

Definition sysport_timer_delete (psModule : nat) (s : timers) : option (Z * timers) :=
  m ← tm_mods s !! psModule;
  let '(r, s) := timer_delete (timerid m) s in
  if r <? 0 then Some (-1, s) else Some (0, set_mods (delete psModule (tm_mods s)) s).

(** ** The kernel *)

(** The interval of the timer is over: a timer with interval 0 does not run. *)
Definition expire (t : Z) (s : timers) : timers :=
  match tm_kernel s !! t with
  | Some (p, interval) =>
      if decide (interval = (0, 0)) then s
      else {| tm_mods := tm_mods s; tm_kernel := tm_kernel s; tm_pending := tm_pending s ++ [p];
              tm_world := tm_world s |}
  | None => s
  end.

(** The first notification that waits runs. *)
Definition notify (s : timers) : option timers :=
  match tm_pending s with
  | [] => Some s
  | p :: ps => sysport_timer_thread p {| tm_mods := tm_mods s; tm_kernel := tm_kernel s;
                                         tm_pending := ps; tm_world := tm_world s |}
  end.

(** Intervals whose notifications run before the next one is over. *)
Definition rounds (k : nat) (t : Z) (s : timers) : option timers :=
  Nat.iter k (λ s, s ← s; notify (expire t s)) (Some s).

(** ** What they do *)

Lemma timer_interval_spec ms : 0 <= ms < 2 ^ 32 ->
  let '(sec, nsec) := timer_interval ms in
  sec * 1000000000 + nsec = ms * 1000000 /\ 0 <= nsec < 1000000000
  /\ (timer_interval ms = (0, 0) <-> ms = 0).
Proof.
  intros H. unfold timer_interval. rewrite (u32_id ms) by lia.
  pose proof (Z.mod_pos_bound ms 1000 ltac:(lia)). pose proof (Z.div_mod ms 1000 ltac:(lia)).
  rewrite u32_id by lia. split; [lia|]. split; [lia|]. split; [intros [=]; lia|by intros ->].
Qed.

(** The state after some calls: the timer still runs, or it is gone with its block. *)
Definition timer_at (s0 s : timers) (a : nat) (m : sysport_timer_module) (f : nat -> W -> W)
    (calls : nat) (gone : bool) (left : Z) : Prop :=
  tm_pending s = [] /\ tm_world s = Nat.iter calls (f (tm_pvArg m)) (tm_world s0)
  /\ if gone then tm_mods s = delete a (tm_mods s0) /\ tm_kernel s = delete (timerid m) (tm_kernel s0)
     else tm_kernel s = tm_kernel s0
          /\ tm_mods s = <[a := {| timerid := timerid m; tm_strName := tm_strName m; uRunTime := left;
                                   tm_pvArg := tm_pvArg m; pv_func := Some f |}]> (tm_mods s0).

Section life.
Context (s0 : timers) (a : nat) (m : sysport_timer_module) (f : nat -> W -> W) (interval : Z * Z).
Hypothesis Hm : tm_mods s0 !! a = Some m.
Hypothesis Hf : pv_func m = Some f.
Hypothesis Hk : tm_kernel s0 !! timerid m = Some (a, interval).
Hypothesis Hi : interval <> (0, 0).

(** A call that is not the last of them. *)
Lemma round_call k n s : timer_at s0 s a m f k false n -> 0 <= n < 2 ^ 32 -> n <> 1 ->
  exists s', notify (expire (timerid m) s) = Some s'
    /\ timer_at s0 s' a m f (S k) false (if n =? 0 then 0 else n - 1).
Proof using Hf Hi Hk Hm.
  intros (Hp & Hw & Hke & Hmo) Hn Hn1. unfold expire. rewrite Hke, Hk, decide_False by done.
  unfold notify. cbn [tm_pending]. rewrite Hp. cbn [app]. unfold sysport_timer_thread. cbn [tm_mods].
  rewrite Hmo, lookup_insert_eq. cbn [mbind option_bind pv_func uRunTime tm_pvArg tm_mods tm_kernel tm_world tm_pending].
  destruct (Z.eqb_spec n 0) as [->|Hn0].
  - eexists. split; [done|]. split; [done|]. cbn. by rewrite Hw.
  - rewrite u32_id by lia. destruct (Z.eqb_spec (n - 1) 0); [lia|]. eexists. split; [done|].
    split; [done|]. cbn. rewrite Hw, insert_insert_eq. by split.
Qed.

(** The last call deletes the timer and frees its block. *)
Lemma round_last k s : timer_at s0 s a m f k false 1 ->
  exists s', notify (expire (timerid m) s) = Some s' /\ timer_at s0 s' a m f (S k) true 0.
Proof using Hf Hi Hk Hm.
  intros (Hp & Hw & Hke & Hmo). unfold expire. rewrite Hke, Hk, decide_False by done.
  unfold notify. cbn [tm_pending]. rewrite Hp. cbn [app]. unfold sysport_timer_thread. cbn [tm_mods].
  rewrite Hmo, lookup_insert_eq. cbn [mbind option_bind pv_func uRunTime tm_pvArg tm_mods tm_kernel tm_world tm_pending timerid].
  change (u32 (1 - 1)) with 0. cbn [Z.eqb]. unfold timer_delete. cbn [tm_kernel]. rewrite Hk. cbn [Z.ltb Z.compare].
  eexists. split; [done|]. split; [done|]. cbn. rewrite Hw, delete_insert_eq. by split.
Qed.

Lemma round_gone k s : timer_at s0 s a m f k true 0 -> notify (expire (timerid m) s) = Some s.
Proof using.
  intros (Hp & _ & _ & Hke). unfold expire. rewrite Hke, lookup_delete_eq. unfold notify. by rewrite Hp.
Qed.

Lemma rounds_S k t s : rounds (S k) t s = (s ← rounds k t s; notify (expire t s)).
Proof using. done. Qed.

(** All calls of a life: [n] of them when that is what was asked for, as many as there are
    intervals when it was 0. *)
Lemma timer_life k : tm_pending s0 = [] -> 0 <= uRunTime m < 2 ^ 32 ->
  let n := uRunTime m in let kz := Z.of_nat k in
  exists s', rounds k (timerid m) s0 = Some s'
    /\ (if n =? 0 then timer_at s0 s' a m f k false 0
        else if kz <? n then timer_at s0 s' a m f k false (n - kz)
             else timer_at s0 s' a m f (Z.to_nat n) true 0).
Proof using Hf Hi Hk Hm.
  intros Hp Hn n kz. unfold kz. clear kz. induction k as [|k (s & E & IH)].
  { exists s0. split; [done|]. assert (Ha : timer_at s0 s0 a m f 0 false n).
    { split; [done|]. split; [done|]. split; [done|]. rewrite insert_id; [done|]. rewrite Hm, <-Hf. by destruct m. }
    destruct (Z.eqb_spec n 0) as [E|]; [by rewrite E in Ha|].
    destruct (Z.ltb_spec (Z.of_nat 0) n); [|unfold n in *; lia]. by rewrite Z.sub_0_r. }
  rewrite rounds_S, E. cbn [mbind option_bind].
  destruct (Z.eqb_spec n 0) as [En|En].
  { by apply (round_call k 0 s). }
  destruct (Z.ltb_spec (Z.of_nat k) n) as [Hlt|Hge].
  - destruct (decide (n - Z.of_nat k = 1)) as [E1|E1].
    + rewrite E1 in IH. destruct (round_last k s IH) as (s' & Es & Hs). exists s'. split; [done|].
      destruct (Z.ltb_spec (Z.of_nat (S k)) n); [lia|]. by replace (Z.to_nat n) with (S k) by lia.
    + destruct (round_call k _ s IH ltac:(unfold n in *; lia) E1) as (s' & Es & Hs). exists s'. split; [done|].
      destruct (Z.ltb_spec (Z.of_nat (S k)) n); [|lia]. destruct (Z.eqb_spec (n - Z.of_nat k) 0); [lia|].
      by replace (n - Z.of_nat (S k)) with (n - Z.of_nat k - 1) by lia.
  - exists s. rewrite (round_gone (Z.to_nat n) s) by done. split; [done|].
    by destruct (Z.ltb_spec (Z.of_nat (S k)) n); [lia|].
Qed.

(** When the notification of the last call is late and the next interval is over, the next
    notification uses the block after it was freed. *)
Lemma late_notification : tm_pending s0 = [] -> uRunTime m = 1 ->
  (s ← notify (expire (timerid m) (expire (timerid m) s0)); notify s) = None.
Proof using Hf Hi Hk Hm.
  intros Hp Hr. unfold expire at 2. rewrite Hk, decide_False by done.
  unfold expire. cbn [tm_kernel]. rewrite Hk, decide_False by done.
  unfold notify at 2. cbn [tm_pending]. rewrite Hp. cbn [app]. unfold sysport_timer_thread at 1. cbn [tm_mods].
  rewrite Hm. cbn [mbind option_bind]. rewrite Hf, Hr. cbn [Z.eqb].
  change (u32 (1 - 1)) with 0. cbn [Z.eqb]. unfold timer_delete. cbn [tm_kernel]. rewrite Hk.
  cbn [Z.ltb Z.compare]. unfold notify. cbn. unfold sysport_timer_thread. cbn. by rewrite lookup_delete_eq.
Qed.
End life.
End timers.

Arguments sysport_timer_module : clear implicits.
Arguments timers : clear implicits.

(** The contract: a timer that is created for [run] calls makes one at the end of each
    interval until it has made them all, and then everything is as it was before it was
    created; with [run = 0] it never ends. *)
Lemma timer_runs {W} (s s1 : timers W) name ms run arg f a t p k :
  tm_mods s !! a = None -> tm_kernel s !! t = None -> tm_pending s = [] ->
  0 < ms < 2 ^ 32 -> 0 <= run < 2 ^ 32 ->
  sysport_timer_create name ms run arg (Some f) (Some a) (Some t) true s = (p, s1) ->
  p = Some a /\ exists s', rounds k t s1 = Some s'
    /\ tm_world s' = Nat.iter (if run =? 0 then k else Nat.min k (Z.to_nat run)) (f arg) (tm_world s)
    /\ (tm_mods s' = tm_mods s /\ tm_kernel s' = tm_kernel s <-> 0 < run <= Z.of_nat k).
Proof.
  intros Ha Ht Hp Hms Hrun [= <- <-]. split; [done|]. rewrite u32_id by lia.
  set (m := {| timerid := t; tm_strName := name; uRunTime := run; tm_pvArg := arg; pv_func := Some f |}).
  set (s1 := set_mods _ _).
  destruct (timer_interval_spec ms ltac:(lia)) as (_ & _ & Hz).
  destruct (timer_life s1 a m f (timer_interval ms)) with (k := k) as (s' & Es & Hs).
  { apply lookup_insert_eq. } { done. } { apply lookup_insert_eq. } { rewrite Hz. lia. } { done. } { done. }
  exists s'. split; [done|]. cbn [uRunTime m] in Hs.
  assert (Hin : forall x, <[a := x]> (tm_mods s1) <> tm_mods s).
  { intros x E. apply (f_equal (λ h, h !! a)) in E. by rewrite lookup_insert_eq, Ha in E. }
  destruct (Z.eqb_spec run 0) as [->|Hr].
  { destruct Hs as (_ & Hw & _ & Hmo). split; [done|]. rewrite Hmo. split; [by intros [?%Hin _]|lia]. }
  destruct (Z.ltb_spec (Z.of_nat k) run).
  - destruct Hs as (_ & Hw & _ & Hmo). rewrite Nat.min_l by lia. split; [done|]. rewrite Hmo.
    split; [by intros [?%Hin _]|lia].
  - destruct Hs as (_ & Hw & Hmo & Hke). rewrite Nat.min_r by lia. split; [done|]. split; [lia|]. intros _.
    rewrite Hmo, Hke. cbn. rewrite delete_insert_id, delete_insert_id by done. done.
Qed.
