(* ===== verification/Layout.v ===== *)
(** * Layout of C structures

    The program exchanges structures by copying their bytes.  A packed structure is the
    list of its fields with their sizes, in declaration order; the x86-64 / AArch64 ABI
    rounds a structure that is not packed up to its alignment. *)

From stdpp Require Export strings.
From S2P Require Import Prelude.

Abbreviation struct := (list (string * Z)).

Definition sizeof (s : struct) : Z := zsum (snd <$> s).

(** Offset of a field; a name that the structure has not is at its end. *)
Fixpoint offsetof (s : struct) (name : string) : Z :=
  match s with
  | [] => 0
  | (f, n) :: s' => if decide (f = name) then 0 else n + offsetof s' name
  end.

Definition round_up (n align : Z) : Z := (n + align - 1) / align * align.

(** [memcpy( &dst[doff], &src[soff], n )] between two objects. *)
Definition memcpy (dst : list Z) (doff : Z) (src : list Z) (soff n : Z) : option (list Z) :=
  bs ← ld_bytes src soff n; st_bytes dst doff bs.

(** [memset( &dst[off], v, n )] *)
Definition memset (dst : list Z) (off v n : Z) : option (list Z) :=
  st_bytes dst off (replicate (Z.to_nat n) (u8 v)).

Lemma memcpy_Some dst doff src soff n :
  is_Some (memcpy dst doff src soff n)
  <-> 0 <= n /\ 0 <= soff /\ soff + n <= Zlen src /\ 0 <= doff /\ doff + n <= Zlen dst.
Proof.
  unfold memcpy. split.
  - intros [x (bs & Hb & Hs)%bind_Some].
    pose proof (ld_bytes_len _ _ _ _ Hb) as Hl.
    assert (is_Some (ld_bytes src soff n)) as H1%ld_bytes_Some by by eexists.
    assert (is_Some (st_bytes dst doff bs)) as H2%st_bytes_Some by by eexists. lia.
  - intros H. destruct (proj2 (ld_bytes_Some src soff n)) as [bs Hb]; [lia|].
    pose proof (ld_bytes_len _ _ _ _ Hb) as Hl. rewrite Hb. cbn [mbind option_bind].
    apply st_bytes_Some. lia.
Qed.

Lemma memcpy_app a old b x bs y doff soff n :
  Zlen a = doff -> Zlen x = soff -> Zlen bs = n -> Zlen old = n ->
  memcpy (a ++ old ++ b) doff (x ++ bs ++ y) soff n = Some (a ++ bs ++ b).
Proof.
  intros. unfold memcpy. rewrite (ld_bytes_app x bs y) by done. cbn [mbind option_bind].
  apply st_bytes_app; congruence.
Qed.

(** Copying a whole object. *)
Lemma memcpy_whole a old b src doff n :
  Zlen a = doff -> Zlen src = n -> Zlen old = n ->
  memcpy (a ++ old ++ b) doff src 0 n = Some (a ++ src ++ b).
Proof.
  intros. pose proof (memcpy_app a old b [] src [] doff 0 n) as E.
  cbn [app] in E. rewrite app_nil_r in E. by apply E.
Qed.
