(* ===== verification/CFloat.v ===== *)
(** * Floating-point numbers

    [double] and [float] as the standard library's specification of IEEE 754: the format
    binary64 is precision 53 with exponents below 1024, binary32 is 24 and 128.  Literals
    are quotients of integers, which division rounds to the nearest number as a compiler
    does. *)

From Stdlib Require Export SpecFloat.
From S2P Require Import Prelude.
Local Open Scope list_scope.
Local Open Scope Z_scope.

Abbreviation double := spec_float (only parsing).

Definition d_of_Z (n : Z) : double := binary_normalize 53 1024 n 0 false.
Definition dadd : double -> double -> double := SFadd 53 1024.
Definition dsub : double -> double -> double := SFsub 53 1024.
Definition dmul : double -> double -> double := SFmul 53 1024.
Definition ddiv : double -> double -> double := SFdiv 53 1024.
Definition dsqrt : double -> double := SFsqrt 53 1024.
Definition dneg : double -> double := SFopp.
Definition dlt : double -> double -> bool := SFltb.
Definition dle : double -> double -> bool := SFleb.

(** The literal [n/d]. *)
Definition d_lit (n d : Z) : double := ddiv (d_of_Z n) (d_of_Z d).

Definition d_pi : double := d_lit 884279719003555 281474976710656.

(** The value after a conversion to [float], as a [double] again. *)
Definition d_round32 (x : double) : double :=
  match x with
  | S754_finite s m e =>
      match binary_round 24 128 s m e with
      | S754_finite s m e => binary_round 53 1024 s m e
      | y => y
      end
  | y => y
  end.

(** The conversion to an integer type with the values from [lo] below [hi]: the fraction is
    cut off, and out of range it is undefined. *)
Definition d_to_int (lo hi : Z) (x : double) : option Z :=
  match x with
  | S754_zero _ => Some 0
  | S754_finite s m e =>
      let n := if 0 <=? e then Z.shiftl (Zpos m) e else Z.shiftr (Zpos m) (- e) in
      let n := if s then - n else n in
      if (lo <=? n) && (n <? hi) then Some n else None
  | _ => None
  end.
Definition d_to_u32 : double -> option Z := d_to_int 0 (2 ^ 32).
Definition d_to_i32 : double -> option Z := d_to_int (- 2 ^ 31) (2 ^ 31).
Definition d_to_i8 : double -> option Z := d_to_int (- 2 ^ 7) (2 ^ 7).

(** [std::round]: the next integer, away from zero in the middle. *)
Definition d_round (x : double) : double :=
  match x with
  | S754_finite s m e =>
      if 0 <=? e then x
      else
        let n := Z.shiftr (Zpos m + 2 ^ (- e - 1)) (- e) in
        binary_normalize 53 1024 (if s then - n else n) 0 s
  | y => y
  end.

(** Arithmetic of [float]s; a sum or product of two of them that is rounded to a [double]
    first is the same. *)
Definition f_of_Z (n : Z) : double := d_round32 (d_of_Z n).
Definition fadd (x y : double) : double := d_round32 (dadd x y).
Definition fsub (x y : double) : double := d_round32 (dsub x y).
Definition fmul (x y : double) : double := d_round32 (dmul x y).
Definition fdiv (x y : double) : double := d_round32 (ddiv x y).

(** The eight bytes in memory. *)
Definition d_bits (x : double) : Z :=
  match x with
  | S754_zero s => if s then Z.shiftl 1 63 else 0
  | S754_infinity s => (if s then Z.shiftl 1 63 else 0) + Z.shiftl 2047 52
  | S754_nan => Z.shiftl 4095 51
  | S754_finite s m e =>
      (if s then Z.shiftl 1 63 else 0)
      + (if Zpos m <? 2 ^ 52 then Zpos m else Z.shiftl (e + 1075) 52 + (Zpos m - 2 ^ 52))
  end.
Definition d_bytes (x : double) : list Z := le_bytes 8 (d_bits x).

#[export] Instance double_eq_dec : EqDecision double.
Proof. solve_decision. Defined.
