(* ===== verification/FloatError.v ===== *)
(** * The error of a rounding

    The value of a floating-point number as a real number, and how far the results of the
    operations of [CFloat] are from the exact ones: the arithmetic rounds to the nearest
    number, so that an operation on [float]s has a relative error of at most [2^-23], and none
    at all when the exact result is a number. *)

From Stdlib Require Import Reals Lra.
From S2P Require Import Prelude CFloat.
Local Open Scope R_scope.

(** ** Powers of two *)

Definition pw (e : Z) : R := powerRZ 2 e.

Lemma pw_pos e : 0 < pw e.
Proof. apply powerRZ_lt. lra. Qed.
Lemma pw_add a b : pw (a + b) = pw a * pw b.
Proof. apply powerRZ_add. lra. Qed.
Lemma pw_0 : pw 0 = 1.
Proof. done. Qed.
Lemma pw_1 : pw 1 = 2.
Proof. unfold pw. by rewrite powerRZ_1. Qed.
Lemma pw_opp e : pw (- e) * pw e = 1.
Proof. by rewrite <-pw_add, Z.add_opp_diag_l. Qed.
Lemma pw_m1 : pw (-1) = / 2.
Proof. pose proof (pw_opp 1) as H. rewrite pw_1 in H. change (- (1))%Z with (-1)%Z in H. lra. Qed.
Lemma pw_Z n : (0 <= n)%Z -> pw n = IZR (2 ^ n).
Proof. intros H. rewrite <-(Z2Nat.id n H). unfold pw. by rewrite <-pow_powerRZ, pow_IZR. Qed.
Lemma pw_le a b : (a <= b)%Z -> pw a <= pw b.
Proof.
  intros H. replace b with (a + (b - a))%Z by lia. rewrite pw_add, (pw_Z (b - a)) by lia.
  pose proof (pw_pos a). assert (1 <= IZR (2 ^ (b - a))) by (apply IZR_le; lia). nra.
Qed.
Lemma pw_lt_inv a b : pw a < pw b -> (a < b)%Z.
Proof. intros H. destruct (Z.lt_ge_cases a b) as [|Hb]; [done|]. pose proof (pw_le b a Hb). lra. Qed.

Lemma abs_le a b : Rabs a <= b <-> - b <= a <= b.
Proof. unfold Rabs. destruct (Rcase_abs a); lra. Qed.

(** ** Values *)

Definition cond_opp (s : bool) (x : R) : R := if s then - x else x.

Definition v (x : double) : R :=
  match x with S754_finite s m e => cond_opp s (IZR (Zpos m) * pw e) | _ => 0 end.

(** Infinities and what is not a number have no value. *)
Definition has_value (x : double) : Prop :=
  match x with S754_zero _ | S754_finite _ _ _ => True | _ => False end.

(** ** Rounding *)

Lemma digits2_log2 m : Zpos (digits2_pos m) = (Z.log2 (Zpos m) + 1)%Z.
Proof.
  assert (H : forall p, Z.log2 (Zpos p) = (Zpos (digits2_pos p) - 1)%Z).
  { induction p as [p IH|p IH|]; cbn [digits2_pos]; [| |done]; rewrite Pos2Z.inj_succ.
    - rewrite Pos2Z.inj_xI, Z.log2_succ_double, IH by lia. lia.
    - rewrite Pos2Z.inj_xO, Z.log2_double, IH by lia. lia. }
  rewrite H. lia.
Qed.

Lemma digits2_bounds m :
  pw (Zpos (digits2_pos m) - 1) <= IZR (Zpos m) < pw (Zpos (digits2_pos m)).
Proof.
  pose proof (Z.log2_spec (Zpos m) eq_refl). pose proof (Z.log2_nonneg (Zpos m)).
  rewrite digits2_log2, !pw_Z by lia. replace (Z.log2 (Zpos m) + 1 - 1)%Z with (Z.log2 (Zpos m)) by lia.
  split; [apply IZR_le|apply IZR_lt]; rewrite ?Z.add_1_r; lia.
Qed.

(** Where [x] lies between the mantissa of a record and the next one. *)
Definition inb (r : shr_record) (x : R) : Prop :=
  let m := IZR (shr_m r) in
  match shr_r r, shr_s r with
  | false, false => x = m
  | false, true => m < x < m + / 2
  | true, false => x = m + / 2
  | true, true => m + / 2 < x < m + 1
  end.

Lemma shr_1_inb r x : (0 <= shr_m r)%Z -> inb r x ->
  (0 <= shr_m (shr_1 r))%Z /\ inb (shr_1 r) (x * / 2).
Proof.
  destruct r as [m b s]. cbn [shr_m]. intros Hm. unfold inb. cbn [shr_m shr_r shr_s].
  assert (Hbit : exists n c, m = (2 * n + Z.b2z c)%Z /\ (0 <= n)%Z
    /\ shr_1 {| shr_m := m; shr_r := b; shr_s := s |} = {| shr_m := n; shr_r := c; shr_s := b || s |}).
  { destruct m as [|[p|p|]|]; [exists 0%Z, false|exists (Zpos p), true|exists (Zpos p), false|exists 0%Z, true|lia];
      (split; [cbn [Z.b2z]; lia|split; [lia|done]]). }
  destruct Hbit as (n & c & -> & Hn & ->). cbn [shr_m shr_r shr_s].
  rewrite plus_IZR, mult_IZR. intros H. split; [done|].
  destruct b, s, c; cbn [orb Z.b2z] in *; lra.
Qed.

Lemma iter_pos_iter {A} (f : A -> A) n x : iter_pos f n x = Pos.iter f x n.
Proof. revert x. induction n as [n IH|n IH|]; intros x; cbn; rewrite ?IH; [|done|done].
  by rewrite <-!Pos.iter_swap. Qed.

Lemma shr_inb r e n x : (0 <= shr_m r)%Z -> (0 <= n)%Z -> inb r x ->
  (0 <= shr_m (shr r e n).1)%Z /\ inb (shr r e n).1 (x * pw (- n)) /\ (shr r e n).2 = (e + n)%Z.
Proof.
  intros Hm Hn H. destruct n as [|n|]; [| |lia].
  - cbn [shr fst snd]. change (- 0)%Z with 0%Z. rewrite pw_0, Rmult_1_r, Z.add_0_r. auto.
  - cbn [shr fst snd]. rewrite iter_pos_iter. enough (H1 : (0 <= shr_m (Pos.iter shr_1 r n))%Z /\ inb (Pos.iter shr_1 r n) (x * pw (- Z.pos n))) by tauto.
    induction n as [|n IH] using Pos.peano_ind.
    + cbn [Pos.iter]. change (- (1))%Z with (-1)%Z. rewrite pw_m1. by apply shr_1_inb.
    + rewrite Pos.iter_succ. destruct IH as [IH1 IH2]; [lia|]. destruct (shr_1_inb _ _ IH1 IH2) as [H1 H2].
      split; [done|]. replace (x * pw (- Z.pos (Pos.succ n))) with (x * pw (- Z.pos n) * / 2); [done|].
      replace (- Z.pos (Pos.succ n))%Z with (- Z.pos n + - 1)%Z by lia. rewrite pw_add, pw_m1. lra.
Qed.

Lemma nearest_inb r x : inb r x ->
  Rabs (IZR (round_nearest_even (shr_m r) (loc_of_shr_record r)) - x) <= / 2.
Proof.
  destruct r as [m [] []]; unfold inb; cbn [shr_m shr_r shr_s loc_of_shr_record round_nearest_even]; intros H;
    [|destruct (Z.even m)| |]; rewrite ?plus_IZR; apply abs_le; lra.
Qed.

(** A result has [prec] digits, unless it is very small. *)
Definition canonical (prec : Z) (x : double) : Prop :=
  match x with S754_finite _ m e => Zpos (digits2_pos m) = prec | _ => True end.

Lemma digits2_unique m n : (2 ^ (n - 1) <= Zpos m < 2 ^ n)%Z -> (0 < n)%Z -> Zpos (digits2_pos m) = n.
Proof.
  intros H Hn. rewrite digits2_log2. enough (Z.log2 (Zpos m) = n - 1)%Z by lia.
  apply Z.log2_unique; [lia|]. replace (Z.succ (n - 1)) with n by lia. done.
Qed.

Lemma iter_xO m p : Zpos (Pos.iter xO m p) = (Zpos m * 2 ^ Zpos p)%Z.
Proof.
  induction p as [|p IH] using Pos.peano_ind; [cbn; lia|].
  rewrite Pos.iter_succ, Pos2Z.inj_xO, IH, Pos2Z.inj_succ, Z.pow_succ_r by lia. lia.
Qed.

Lemma inb_bounds mx lx x : inb (shr_record_of_loc (Zpos mx) lx) x ->
  pw (Zpos (digits2_pos mx) - 1) <= x < pw (Zpos (digits2_pos mx)).
Proof.
  intros Hx. pose proof (digits2_bounds mx) as [H1 H2].
  assert (Hm : IZR (Zpos mx) <= x < IZR (Zpos mx) + 1).
  { destruct lx as [|[]]; unfold inb in Hx; cbn in Hx; lra. }
  rewrite (pw_Z (Zpos (digits2_pos mx))) in H2 |- * by lia. apply lt_IZR in H2.
  assert (IZR (Zpos mx + 1) <= IZR (2 ^ Zpos (digits2_pos mx))) by (apply IZR_le; lia).
  rewrite plus_IZR in *. lra.
Qed.

Section round.
Context (prec emax : Z).
Hypothesis (Hprec : (1 < prec)%Z).

(** The second shift, which only a carry makes necessary. *)
Lemma round_carry m1 E : (2 ^ (prec - 1) <= m1 <= 2 ^ prec)%Z -> (3 - emax - prec <= E)%Z ->
  exists m e, (shr_fexp prec emax m1 E loc_Exact) = ({| shr_m := Zpos m; shr_r := false; shr_s := false |}, e)
    /\ IZR (Zpos m) * pw e = IZR m1 * pw E /\ Zpos (digits2_pos m) = prec /\ (e <= E + 1)%Z.
Proof using Hprec.
  intros Hm HE. assert (E2 : (2 ^ prec = 2 * 2 ^ (prec - 1))%Z).
  { rewrite <-Z.pow_succ_r by lia. f_equal. lia. }
  assert (0 < 2 ^ (prec - 1))%Z by (apply Z.pow_pos_nonneg; lia).
  destruct m1 as [|m1|]; [lia| |lia]. unfold shr_fexp, fexp, emin, shr_record_of_loc. cbn [Zdigits2].
  destruct (decide (Zpos m1 = 2 ^ prec)%Z) as [Em|Em].
  - assert (Ed : Zpos (digits2_pos m1) = (prec + 1)%Z).
    { apply digits2_unique; [|lia]. rewrite Z.pow_add_r by lia. replace (prec + 1 - 1)%Z with prec by lia. lia. }
    rewrite Ed. replace (Z.max (prec + 1 + E - prec) (3 - emax - prec) - E)%Z with 1%Z by lia.
    destruct (2 ^ (prec - 1))%Z as [|p|] eqn:Ep; [lia| |lia].
    assert (m1 = p~0)%positive as -> by lia. cbn [shr iter_pos shr_1 orb]. exists p, (E + 1)%Z.
    split; [done|]. split; [|split; [|lia]].
    + rewrite Pos2Z.inj_xO, mult_IZR, pw_add, pw_1. lra.
    + cbn [digits2_pos] in Ed. lia.
  - assert (Ed : Zpos (digits2_pos m1) = prec) by (apply digits2_unique; lia).
    rewrite Ed. replace (Z.max (prec + E - prec) (3 - emax - prec) - E)%Z with 0%Z by lia.
    cbn [shr]. exists m1, E. auto with lia.
Qed.

Lemma round_nearest s mx ex lx x : inb (shr_record_of_loc (Zpos mx) lx) x ->
  let d := Zpos (digits2_pos mx) in
  (prec <= d)%Z -> (3 - emax <= d + ex)%Z -> (d + ex < emax)%Z ->
  exists m e, binary_round_aux prec emax s (Zpos mx) ex lx = S754_finite s m e
    /\ Zpos (digits2_pos m) = prec
    /\ exists k, IZR (Zpos m) * pw e = IZR k * pw (d + ex - prec)
       /\ Rabs (IZR k - x * pw (prec - d)) <= / 2.
Proof using Hprec.
  intros Hx d Hd Hlo Hhi.
  assert (Hx2 : pw (prec - 1) <= x * pw (prec - d) < pw prec).
  { destruct (inb_bounds _ _ _ Hx) as [H1 H2]. fold d in H1, H2. pose proof (pw_pos (prec - d)).
    replace (prec - 1)%Z with (d - 1 + (prec - d))%Z by lia.
    replace (pw prec) with (pw d * pw (prec - d)) by (rewrite <-pw_add; f_equal; lia). rewrite pw_add. nra. }
  unfold binary_round_aux, shr_fexp at 1, fexp, emin. cbn [Zdigits2]. fold d.
  replace (Z.max (d + ex - prec) (3 - emax - prec) - ex)%Z with (d - prec)%Z by lia.
  destruct (shr_inb (shr_record_of_loc (Zpos mx) lx) ex (d - prec) x) as (H1 & H2 & H3); [|lia|done|].
  { by destruct lx as [|[]]. }
  destruct (shr (shr_record_of_loc (Zpos mx) lx) ex (d - prec)) as [r E] eqn:Es. cbn [fst snd] in H1, H2, H3.
  subst E. replace (- (d - prec))%Z with (prec - d)%Z in H2 by lia.
  pose proof (nearest_inb _ _ H2) as Hk. set (k := round_nearest_even (shr_m r) (loc_of_shr_record r)) in *.
  assert (Hkr : (2 ^ (prec - 1) <= k <= 2 ^ prec)%Z).
  { rewrite (pw_Z (prec - 1)), (pw_Z prec) in Hx2 by lia. apply abs_le in Hk. split.
    - enough (2 ^ (prec - 1) < k + 1)%Z by lia. apply lt_IZR. rewrite plus_IZR. lra.
    - enough (k < 2 ^ prec + 1)%Z by lia. apply lt_IZR. rewrite plus_IZR. lra. }
  destruct (round_carry k (ex + (d - prec)) Hkr) as (m & e & -> & Hv & Hdm & He); [lia|].
  cbn [shr_m]. rewrite (proj2 (Z.leb_le _ _)) by lia. exists m, e. split; [done|]. split; [done|].
  exists k. split; [|done]. rewrite Hv. do 2 f_equal. lia.
Qed.

(** A number with sign [s] at the value that is next to [X], or at [X] when that is one. *)
Definition near (s : bool) (X : R) (x : double) : Prop :=
  exists m e, x = S754_finite s m e /\ Zpos (digits2_pos m) = prec
    /\ Rabs (IZR (Zpos m) * pw e - X) <= X * pw (- prec)
    /\ forall n e0, X = IZR n * pw e0 -> (0 < n < 2 ^ prec)%Z -> IZR (Zpos m) * pw e = X.

Definition in_range (X : R) : Prop := pw (3 - emax) <= X < pw (emax - 1).

Lemma aux_near s mx ex lx x : inb (shr_record_of_loc (Zpos mx) lx) x ->
  (prec <= Zpos (digits2_pos mx))%Z -> in_range (x * pw ex) ->
  near s (x * pw ex) (binary_round_aux prec emax s (Zpos mx) ex lx).
Proof using Hprec.
  intros Hx Hd [Hlo Hhi]. set (d := Zpos (digits2_pos mx)) in *. pose proof (pw_pos ex) as Hp.
  assert (HX : pw (d + ex - 1) <= x * pw ex < pw (d + ex)).
  { destruct (inb_bounds _ _ _ Hx) as [H1 H2]. replace (d + ex - 1)%Z with (d - 1 + ex)%Z by lia.
    rewrite !pw_add. fold d in H1, H2. nra. }
  assert (Hr : (3 - emax <= d + ex)%Z /\ (d + ex < emax)%Z).
  { split; [apply Z.lt_le_incl|enough (d + ex - 1 < emax - 1)%Z by lia]; apply pw_lt_inv; lra. }
  destruct (round_nearest s mx ex lx x Hx Hd) as (m & e & -> & Hm & k & Hk & He); [apply Hr..|].
  fold d in Hk, He. exists m, e. split; [done|]. split; [done|]. rewrite Hk.
  set (E := (d + ex - prec)%Z) in *. pose proof (pw_pos E) as HE.
  assert (Hxk : x * pw ex = (x * pw (prec - d)) * pw E).
  { rewrite Rmult_assoc, <-pw_add. do 2 f_equal. unfold E. lia. }
  set (y := x * pw (prec - d)) in *. apply abs_le in He. split.
  - assert (Hu : pw E * / 2 <= x * pw ex * pw (- prec)).
    { replace (pw E * / 2) with (pw (d + ex - 1) * pw (- prec)).
      - apply Rmult_le_compat_r; [left; apply pw_pos|lra].
      - rewrite <-pw_m1, <-!pw_add. f_equal. unfold E. lia. }
    apply abs_le. rewrite Hxk in Hu |- *. nra.
  - intros n e0 En Hn. assert (HEe : (E <= e0)%Z).
    { enough (d + ex - 1 < prec + e0)%Z by (unfold E; lia). apply pw_lt_inv. rewrite pw_add, (pw_Z prec) by lia.
      assert (IZR n < IZR (2 ^ prec)) by (apply IZR_lt; lia). pose proof (pw_pos e0). nra. }
    assert (Hy : y = IZR (n * 2 ^ (e0 - E))).
    { apply (Rmult_eq_reg_r (pw E)); [|lra]. rewrite <-Hxk, En, mult_IZR, <-pw_Z by lia.
      rewrite Rmult_assoc, <-pw_add. do 2 f_equal. lia. }
    rewrite Hxk. f_equal. rewrite Hy in He |- *. f_equal.
    assert (k < n * 2 ^ (e0 - E) + 1)%Z by (apply lt_IZR; rewrite plus_IZR; lra).
    assert (n * 2 ^ (e0 - E) < k + 1)%Z by (apply lt_IZR; rewrite plus_IZR; lra). lia.
Qed.

Lemma round_near s m e : in_range (IZR (Zpos m) * pw e) ->
  near s (IZR (Zpos m) * pw e) (binary_round prec emax s m e).
Proof using Hprec.
  intros H. pose proof (digits2_bounds m) as [H1 H2]. set (d := Zpos (digits2_pos m)) in *.
  assert (Hlo : (3 - emax <= d + e)%Z).
  { apply Z.lt_le_incl, pw_lt_inv. rewrite pw_add. pose proof (pw_pos e). destruct H. nra. }
  unfold binary_round. fold d.
  assert (Ef : fexp prec emax (d + e) = (d + e - prec)%Z) by (unfold fexp, emin; lia).
  rewrite Ef. unfold shl_align. replace (d + e - prec - e)%Z with (d - prec)%Z by lia.
  destruct (d - prec)%Z as [|p|p] eqn:Ed; [by apply aux_near; [|fold d; lia|]..|].
  assert (Em : Zpos (Pos.iter xO m p) = (Zpos m * 2 ^ Zpos p)%Z).
  { apply iter_xO. }
  replace (IZR (Zpos m) * pw e) with (IZR (Zpos (Pos.iter xO m p)) * pw (d + e - prec)) in *.
  2: { rewrite Em, mult_IZR, <-pw_Z, Rmult_assoc, <-pw_add by lia. do 2 f_equal. lia. }
  apply aux_near; [done| |done]. apply Z.eq_le_incl. symmetry. apply digits2_unique; [|lia].
  rewrite Em. pose proof (Z.log2_spec (Zpos m) eq_refl) as Hl. pose proof (digits2_log2 m) as Hd. fold d in Hd.
  replace prec with (d + Zpos p)%Z at 2 by lia. replace (prec - 1)%Z with (Z.log2 (Zpos m) + Zpos p)%Z by lia.
  rewrite Hd, Z.pow_add_r, (Z.pow_add_r 2 (Z.log2 (Zpos m) + 1)) by lia. rewrite <-Z.add_1_r in Hl. nia.
Qed.
End round.
Arguments near prec s X x : simpl never.
Arguments in_range emax X : simpl never.

(** ** Operations *)

(** The number with sign [s] and absolute value [X]. *)
Definition is_val (s : bool) (X : R) (x : double) : Prop :=
  exists m e, x = S754_finite s m e /\ Zpos (digits2_pos m) = 53%Z /\ X = IZR (Zpos m) * pw e.

(** [X] is the exact result of an operation of [float]s, [x] the rounded one. *)
Definition fnear (s : bool) (X : R) (x : double) : Prop :=
  exists Y, is_val s Y x /\ Rabs (Y - X) <= X * pw (-23)
    /\ forall n e, X = IZR n * pw e -> (0 < n < 2 ^ 24)%Z -> Y = X.

Definition mid (X : R) : Prop := pw (-100) <= X <= pw 100.

Lemma is_val_pos s X x : is_val s X x -> 0 < X.
Proof.
  intros (m & e & _ & _ & ->). pose proof (pw_pos e). pose proof (IZR_lt 0 (Zpos m) eq_refl). nra.
Qed.

Lemma is_val_v X x : is_val false X x -> v x = X.
Proof. by intros (m & e & -> & _ & ->). Qed.

Lemma pw_ulp : 0 < pw (-53) <= / 1000000000 /\ 0 < pw (-24) /\ pw (-24) + 2 * pw (-53) <= pw (-23)
  /\ pw (-23) <= / 8000000.
Proof.
  assert (H : forall n, (0 <= n)%Z -> pw (- n) * IZR (2 ^ n) = 1).
  { intros n Hn. rewrite <-pw_Z by done. apply pw_opp. }
  pose proof (H 53%Z ltac:(done)) as H1. pose proof (H 24%Z ltac:(done)) as H2. pose proof (H 23%Z ltac:(done)) as H3.
  change (- (53))%Z with (-53)%Z in H1. change (- (24))%Z with (-24)%Z in H2. change (- (23))%Z with (-23)%Z in H3.
  change (2 ^ 53)%Z with 9007199254740992%Z in H1. change (2 ^ 24)%Z with 16777216%Z in H2.
  change (2 ^ 23)%Z with 8388608%Z in H3. lra.
Qed.

Lemma mid_wide X Y : mid X -> X * / 2 <= Y <= X * 2 -> in_range 128 Y /\ in_range 1024 Y.
Proof.
  intros [H1 H2] [H3 H4]. unfold in_range.
  pose proof (pw_le (3 - 1024) (3 - 128) ltac:(lia)). pose proof (pw_le (128 - 1) (1024 - 1) ltac:(lia)).
  pose proof (pw_le (3 - 128) (-101) ltac:(lia)). pose proof (pw_le 102 (128 - 1) ltac:(lia)).
  change (-101)%Z with (-100 + -1)%Z in *. change 102%Z with (100 + 1 + 1)%Z in *.
  rewrite !pw_add, pw_m1, !pw_1 in *. pose proof (pw_pos 100). pose proof (pw_pos (-100)). lra.
Qed.

(** A [double] that is next to [X] becomes a [float] that is. *)
Lemma round32_near s X x : mid X -> near 53 s X x -> fnear s X (d_round32 x).
Proof.
  intros HX (m & e & -> & Hm & He & Hex). cbn [d_round32].
  pose proof pw_ulp as (Hu1 & Hu2 & Hu3 & Hu4). apply abs_le in He.
  assert (HX0 : 0 < X) by (destruct HX as [H _]; pose proof (pw_pos (-100)); lra).
  set (V := IZR (Zpos m) * pw e) in *.
  assert (HV : X * / 2 <= V <= X * 2) by (change (- (53))%Z with (-53)%Z in He; nra).
  destruct (round_near 24 128 ltac:(done) s m e) as (m2 & e2 & -> & Hm2 & He2 & Hex2).
  { by apply (mid_wide X). }
  fold V in He2, Hex2. apply abs_le in He2. set (W := IZR (Zpos m2) * pw e2) in *.
  assert (HW : Rabs (W - X) <= X * pw (-23)).
  { apply abs_le. change (- (24))%Z with (-24)%Z in He2. change (- (53))%Z with (-53)%Z in He. nra. }
  apply abs_le in HW.
  destruct (round_near 53 1024 ltac:(done) s m2 e2) as (m3 & e3 & -> & Hm3 & _ & Hex3).
  { fold W. apply (mid_wide X); [done|]. nra. }
  fold W in Hex3. assert (E3 : IZR (Zpos m3) * pw e3 = W).
  { apply (Hex3 (Zpos m2) e2); [done|]. pose proof (digits2_bounds m2) as [_ H]. rewrite Hm2, pw_Z in H by done.
    apply lt_IZR in H. assert (2 ^ 24 < 2 ^ 53)%Z by done. lia. }
  exists W. split; [by exists m3, e3|]. split; [by apply abs_le|].
  intros n e0 En Hn. assert (EV : V = X) by (apply (Hex n e0); [done|]; assert (2 ^ 24 < 2 ^ 53)%Z by done; lia).
  rewrite <-EV. apply (Hex2 n e0); [by rewrite EV|done].
Qed.

Lemma fmul_near s1 s2 A B a b : is_val s1 A a -> is_val s2 B b -> mid (A * B) ->
  fnear (xorb s1 s2) (A * B) (fmul a b).
Proof.
  intros (m1 & e1 & -> & H1 & ->) (m2 & e2 & -> & H2 & ->) HX. apply round32_near; [done|].
  replace (IZR (Zpos m1) * pw e1 * (IZR (Zpos m2) * pw e2))
    with (IZR (Zpos (m1 * m2)) * pw (e1 + e2)) in * by (rewrite Pos2Z.inj_mul, mult_IZR, pw_add; ring).
  apply (aux_near 53 1024 ltac:(done)); [done| |].
  - rewrite digits2_log2 in H1 |- *. rewrite Pos2Z.inj_mul.
    pose proof (Z.log2_le_mono (Zpos m1) (Zpos m1 * Zpos m2) ltac:(nia)) as Hl. revert H1 Hl.
    generalize (Z.log2 (Zpos m1)), (Z.log2 (Zpos m1 * Zpos m2)). lia.
  - apply (mid_wide _ _ HX). destruct HX as [H _]. pose proof (pw_pos (-100)). lra.
Qed.

Lemma location_inb q r n : (0 <= r < n)%Z ->
  inb (shr_record_of_loc q (new_location n r)) (IZR q + IZR r * / IZR n).
Proof.
  intros Hr. assert (Hn : 0 < IZR n) by (apply IZR_lt; lia).
  assert (Hlt : IZR r * / IZR n < 1).
  { apply (Rmult_lt_reg_r (IZR n)); [done|]. rewrite Rmult_assoc, Rinv_l, Rmult_1_r, Rmult_1_l by lra.
    apply IZR_lt. lia. }
  assert (Hhalf : forall c, Z.compare (2 * r) n = c -> match c with
    | Eq => IZR r * / IZR n = / 2 | Lt => IZR r * / IZR n < / 2 | Gt => / 2 < IZR r * / IZR n end).
  { intros c Hc. assert (E : IZR r * / IZR n = IZR (2 * r) * / IZR n * / 2) by (rewrite mult_IZR; lra).
    pose proof (Rinv_l (IZR n) ltac:(lra)) as Hi. pose proof (Rinv_0_lt_compat _ Hn) as Hi2. rewrite E.
    destruct c; [apply Z.compare_eq_iff in Hc; rewrite Hc; lra| |];
      [apply Z.compare_lt_iff, IZR_lt in Hc|apply Z.compare_gt_iff, IZR_lt in Hc]; nra. }
  destruct (Z.eqb_spec r 0) as [->|Hr0].
  { unfold new_location, new_location_even, new_location_odd. destruct (Z.even n);
      unfold inb; cbn; lra. }
  assert (Hpos : 0 < IZR r * / IZR n).
  { apply Rmult_lt_0_compat; [apply IZR_lt; lia|by apply Rinv_0_lt_compat]. }
  assert (Hloc : new_location n r = loc_Inexact (Z.compare (2 * r) n)).
  { apply Z.eqb_neq in Hr0. unfold new_location, new_location_even, new_location_odd.
    destruct (Z.even n) eqn:Ev; cbv beta; rewrite Hr0; [done|]. f_equal.
    assert (n <> 2 * r)%Z by (intros ->; by rewrite Z.even_mul in Ev).
    destruct (Z.compare_spec (2 * r + 1) n), (Z.compare_spec (2 * r) n); lia || done. }
  rewrite Hloc. specialize (Hhalf _ eq_refl). destruct (Z.compare (2 * r) n); unfold inb; cbn; lra.
Qed.

Lemma val_mantissa m : Zpos (digits2_pos m) = 53%Z -> (2 ^ 52 <= Zpos m < 2 ^ 53)%Z.
Proof.
  intros H. pose proof (digits2_bounds m) as [H1 H2]. rewrite H, pw_Z in H1, H2 by done.
  split; [by apply le_IZR|by apply lt_IZR].
Qed.

Lemma fdiv_near s1 s2 A B a b : is_val s1 A a -> is_val s2 B b -> mid (A * / B) ->
  fnear (xorb s1 s2) (A * / B) (fdiv a b).
Proof.
  intros (m1 & e1 & -> & H1 & ->) (m2 & e2 & -> & H2 & ->) HX. apply round32_near; [done|].
  pose proof (val_mantissa m1 H1) as Hm1. pose proof (val_mantissa m2 H2) as Hm2.
  set (X := IZR (Zpos m1) * pw e1 * / (IZR (Zpos m2) * pw e2)) in *.
  assert (P2 : 0 < IZR (Zpos m2)) by (apply IZR_lt; lia). pose proof (pw_pos e2) as Pe2.
  assert (EX : X = IZR (Zpos m1) * / IZR (Zpos m2) * pw (e1 - e2)).
  { unfold X, Z.sub. rewrite pw_add. replace (pw (- e2)) with (/ pw e2); [field; lra|].
    apply (Rmult_eq_reg_r (pw e2)); [|lra]. rewrite pw_opp. field. lra. }
  assert (Hq : / 2 <= IZR (Zpos m1) * / IZR (Zpos m2) <= 2).
  { pose proof (Rinv_l (IZR (Zpos m2)) ltac:(lra)). pose proof (Rinv_0_lt_compat _ P2).
    assert (IZR (Zpos m2) <= IZR (2 * Zpos m1)) by (apply IZR_le; lia).
    assert (IZR (Zpos m1) <= IZR (2 * Zpos m2)) by (apply IZR_le; lia). rewrite !mult_IZR in *. nra. }
  assert (He : (-102 < e1 - e2)%Z).
  { apply pw_lt_inv. destruct HX as [HX _]. rewrite EX in HX. pose proof (pw_pos (e1 - e2)).
    replace (-102)%Z with (-100 + -1 + -1)%Z by lia. rewrite !pw_add, pw_m1. pose proof (pw_pos (-100)). nra. }
  unfold ddiv, SFdiv. destruct (SFdiv_core_binary 53 1024 (Zpos m1) e1 (Zpos m2) e2) as [[q E] l] eqn:Ec.
  unfold SFdiv_core_binary in Ec. cbn [Zdigits2] in Ec. rewrite H1, H2 in Ec.
  replace (Z.min (fexp 53 1024 (Z.sub (Z.add 53 e1) (Z.add 53 e2))) (Z.sub e1 e2)) with (e1 - e2 - 53)%Z in Ec
    by (unfold fexp, emin; lia).
  replace (Z.sub (Z.sub e1 e2) (e1 - e2 - 53)) with 53%Z in Ec by lia.
  pose proof (Z_div_mod (Z.shiftl (Zpos m1) 53) (Zpos m2) eq_refl) as Hdm.
  change (Z.div_eucl (Z.shiftl (Zpos m1) 53) (Zpos m2)) with (Z.div_eucl (Z.shiftl (Zpos m1) 53) (Zpos m2)) in Ec.
  destruct (Z.div_eucl (Z.shiftl (Zpos m1) 53) (Zpos m2)) as [q' r]. injection Ec as -> <- <-.
  destruct Hdm as [Hdm Hr]. rewrite Z.shiftl_mul_pow2 in Hdm by lia.
  assert (Hq52 : (2 ^ 52 <= q)%Z).
  { enough (2 ^ 52 < q + 1)%Z by lia. apply (Z.mul_lt_mono_pos_l (Zpos m2)); [done|].
    change (2 ^ 53)%Z with (2 * 2 ^ 52)%Z in *. nia. }
  destruct q as [|q|]; [lia| |lia].
  assert (Ex : X = (IZR (Zpos q) + IZR r * / IZR (Zpos m2)) * pw (e1 - e2 - 53)).
  { apply (f_equal IZR) in Hdm. rewrite plus_IZR, !mult_IZR, <-pw_Z in Hdm by done.
    rewrite EX. replace (IZR (Zpos q) + IZR r * / IZR (Zpos m2))
      with ((IZR (Zpos m2) * IZR (Zpos q) + IZR r) * / IZR (Zpos m2)) by (field; lra).
    rewrite <-Hdm. replace (e1 - e2)%Z with (53 + (e1 - e2 - 53))%Z at 1 by lia. rewrite pw_add. ring. }
  rewrite Ex. apply (aux_near 53 1024 ltac:(done)); [by apply location_inb| |].
  - rewrite digits2_log2. enough (52 <= Z.log2 (Zpos q))%Z by lia. apply Z.log2_le_pow2; lia.
  - rewrite <-Ex. apply (mid_wide _ _ HX). destruct HX as [H _]. pose proof (pw_pos (-100)). lra.
Qed.

(** Sums and differences, whose exact value is a multiple of a power of two. *)
Lemma normalize_near s n e : (0 < n)%Z -> mid (IZR n * pw e) ->
  fnear s (IZR n * pw e) (d_round32 (binary_normalize 53 1024 (if s then - n else n) e false)).
Proof.
  intros Hn HX. apply round32_near; [done|]. destruct n as [|n|]; [lia| |lia].
  replace (binary_normalize 53 1024 (if s then - Zpos n else Zpos n) e false)
    with (binary_round 53 1024 s n e) by by destruct s.
  apply round_near; [done|]. apply (mid_wide _ _ HX). destruct HX as [H _]. pose proof (pw_pos (-100)). lra.
Qed.

Lemma align m e E : (E <= e)%Z ->
  exists k, (shl_align m e E).1 = k /\ IZR (Zpos k) * pw E = IZR (Zpos m) * pw e.
Proof.
  intros H. unfold shl_align. destruct (E - e)%Z as [|p|p] eqn:Ed; cbn [fst].
  - exists m. split; [done|]. do 2 f_equal. lia.
  - lia.
  - eexists. split; [done|]. rewrite iter_xO, mult_IZR, <-pw_Z, Rmult_assoc, <-pw_add by lia. do 2 f_equal. lia.
Qed.

Lemma fadd_near A B a b : is_val false A a -> is_val false B b -> mid (A + B) ->
  fnear false (A + B) (fadd a b).
Proof.
  intros (m1 & e1 & -> & H1 & ->) (m2 & e2 & -> & H2 & ->) HX.
  unfold fadd, dadd, SFadd. cbn [cond_Zopp]. cbv zeta.
  destruct (align m1 e1 (Z.min e1 e2) ltac:(lia)) as (k1 & -> & E1).
  destruct (align m2 e2 (Z.min e1 e2) ltac:(lia)) as (k2 & -> & E2).
  replace (IZR (Zpos m1) * pw e1 + IZR (Zpos m2) * pw e2)
    with (IZR (Zpos k1 + Zpos k2) * pw (Z.min e1 e2)) in * by (rewrite plus_IZR, <-E1, <-E2; ring).
  by apply (normalize_near false).
Qed.

Lemma fsub_near A B a b : is_val false A a -> is_val false B b -> mid (A - B) ->
  fnear false (A - B) (fsub a b).
Proof.
  intros (m1 & e1 & -> & H1 & ->) (m2 & e2 & -> & H2 & ->) HX.
  unfold fsub, dsub, SFsub. cbn [cond_Zopp]. cbv zeta.
  destruct (align m1 e1 (Z.min e1 e2) ltac:(lia)) as (k1 & -> & E1).
  destruct (align m2 e2 (Z.min e1 e2) ltac:(lia)) as (k2 & -> & E2).
  replace (IZR (Zpos m1) * pw e1 - IZR (Zpos m2) * pw e2)
    with (IZR (Zpos k1 - Zpos k2) * pw (Z.min e1 e2)) in * by (rewrite minus_IZR, <-E1, <-E2; ring).
  apply (normalize_near false); [|done]. apply lt_IZR. destruct HX as [HX _].
  pose proof (pw_pos (-100)). pose proof (pw_pos (Z.min e1 e2)). nra.
Qed.

Lemma f_of_Z_near n : (0 < n < 2 ^ 24)%Z -> is_val false (IZR n) (f_of_Z n).
Proof.
  intros Hn. assert (HX : mid (IZR n * pw 0)).
  { rewrite pw_0, Rmult_1_r. pose proof (pw_le (-100) 0 ltac:(lia)). pose proof (pw_le 24 100 ltac:(lia)).
    rewrite pw_0, (pw_Z 24) in * by done. split.
    - assert (1 <= IZR n) by (apply IZR_le; lia). lra.
    - assert (IZR n <= IZR (2 ^ 24)) by (apply IZR_le; lia). lra. }
  destruct (normalize_near false n 0 ltac:(lia) HX) as (Y & HY & _ & He).
  rewrite (He n 0%Z), pw_0, Rmult_1_r in HY; done.
Qed.

Lemma val_compare A B a b : is_val false A a -> is_val false B b ->
  (dlt a b = true <-> A < B) /\ (dle a b = true <-> A <= B).
Proof.
  assert (Hlt : forall m1 e1 m2 e2, Zpos (digits2_pos m1) = 53%Z -> Zpos (digits2_pos m2) = 53%Z ->
    (e1 < e2)%Z -> IZR (Zpos m1) * pw e1 < IZR (Zpos m2) * pw e2).
  { intros m1 e1 m2 e2 H1 H2 He. apply val_mantissa in H1 as [_ H1], H2 as [H2 _].
    pose proof (pw_le (e1 + 1) e2 ltac:(lia)) as Hp. rewrite pw_add, pw_1 in Hp. pose proof (pw_pos e1).
    apply IZR_lt in H1. apply IZR_le in H2. change (2 ^ 53)%Z with (2 * 2 ^ 52)%Z in H1.
    rewrite mult_IZR in H1. assert (0 < IZR (2 ^ 52)) by (by apply IZR_lt). nra. }
  intros (m1 & e1 & -> & H1 & ->) (m2 & e2 & -> & H2 & ->).
  unfold dlt, dle, SFltb, SFleb, SFcompare. change (Z.compare e1 e2) with (e1 ?= e2)%Z.
  destruct (Z.compare_spec e1 e2) as [->|He|He].
  - change (Pos.compare_cont Eq m1 m2) with (m1 ?= m2)%positive. pose proof (pw_pos e2).
    destruct (Pos.compare_spec m1 m2) as [->|Hm|Hm]; [|apply Pos2Z.pos_lt_pos, IZR_lt in Hm..];
      (split; split; [intros Hc; try done|intros Hc..]); nra || done.
  - pose proof (Hlt m1 e1 m2 e2 H1 H2 He). split; split; intros Hc; lra || done.
  - pose proof (Hlt m2 e2 m1 e1 H2 H1 He). split; split; intros Hc; lra || done.
Qed.

(** ** Integers *)

Lemma d_to_int_val lo hi n y : is_val false (IZR n) y -> (0 < n < 2 ^ 52)%Z -> (lo <= n < hi)%Z ->
  d_to_int lo hi y = Some n.
Proof.
  intros (m & e & -> & Hm & Hv) Hn Hr. apply val_mantissa in Hm. cbn [d_to_int].
  assert (He : (e < 0)%Z).
  { apply pw_lt_inv. rewrite pw_0. pose proof (pw_pos e). destruct Hm as [Hm _]. apply IZR_le in Hm.
    assert (IZR n < IZR (2 ^ 52)) by (apply IZR_lt; lia). nra. }
  destruct (Z.leb_spec 0 e); [lia|].
  assert (Em : Zpos m = (n * 2 ^ (- e))%Z).
  { apply eq_IZR. rewrite mult_IZR, <-pw_Z, Hv, Rmult_assoc, <-pw_add by lia.
    rewrite Z.add_opp_diag_r, pw_0. lra. }
  rewrite Em, Z.shiftr_div_pow2 by lia.
  rewrite Z.div_mul by (apply Z.pow_nonzero; lia).
  by rewrite (proj2 (Z.leb_le lo n)), (proj2 (Z.ltb_lt n hi)) by lia.
Qed.

(** The integer that is next to a number. *)
Lemma d_round_val lo hi X x : is_val false X x -> X < IZR (2 ^ 30) -> (lo <= 0)%Z -> (2 ^ 30 < hi)%Z ->
  exists n, d_to_int lo hi (d_round x) = Some n /\ (0 <= n)%Z /\ IZR n - / 2 <= X < IZR n + / 2.
Proof.
  intros (m & e & -> & Hm & ->) HX Hlo Hhi. apply val_mantissa in Hm. cbn [d_round].
  assert (He : (e < 0)%Z).
  { apply pw_lt_inv. rewrite pw_0. pose proof (pw_pos e). destruct Hm as [Hm _]. apply IZR_le in Hm.
    assert (IZR (2 ^ 30) < IZR (2 ^ 52)) by (by apply IZR_lt). nra. }
  destruct (Z.leb_spec 0 e); [lia|]. set (k := (- e)%Z) in *. assert (Hk : (0 < k)%Z) by lia.
  rewrite Z.shiftr_div_pow2 by lia. set (n := ((Zpos m + 2 ^ (k - 1)) / 2 ^ k)%Z).
  assert (Hp : (2 ^ k = 2 * 2 ^ (k - 1))%Z) by (rewrite <-Z.pow_succ_r by lia; f_equal; lia).
  assert (Hp1 : (0 < 2 ^ (k - 1))%Z) by (apply Z.pow_pos_nonneg; lia).
  assert (Hn : (n * 2 ^ k <= Zpos m + 2 ^ (k - 1) < (n + 1) * 2 ^ k)%Z).
  { pose proof (Z.div_mod (Zpos m + 2 ^ (k - 1)) (2 ^ k) ltac:(lia)).
    pose proof (Z.mod_pos_bound (Zpos m + 2 ^ (k - 1)) (2 ^ k) ltac:(lia)). fold n in H0. nia. }
  assert (Hn0 : (0 <= n)%Z) by (apply Z.div_pos; lia).
  assert (Hv : IZR n - / 2 <= IZR (Zpos m) * pw e < IZR n + / 2).
  { assert (Ek : IZR (2 ^ (k - 1)) * pw e = / 2).
    { rewrite <-pw_Z, <-pw_add by lia. rewrite <-pw_m1. f_equal. lia. }
    destruct Hn as [H1 H2]. rewrite Hp in H1, H2. apply IZR_le in H1. apply IZR_lt in H2.
    rewrite !plus_IZR, !mult_IZR, ?plus_IZR in *. pose proof (pw_pos e). nra. }
  exists n. split; [|done]. clearbody n. destruct (decide (n = 0)%Z) as [->|Hn1].
  { done. }
  assert (Hn2 : (n <= 2 ^ 30)%Z).
  { enough (n < 2 ^ 30 + 1)%Z by lia. apply lt_IZR. rewrite plus_IZR. lra. }
  apply d_to_int_val; [|split; [lia|]; assert (2 ^ 30 < 2 ^ 52)%Z by done; lia|lia].
  destruct n as [|n|]; [done| |lia].
  destruct (round_near 53 1024 ltac:(done) false n 0) as (m2 & e2 & E2 & Hm2 & _ & Hex).
  { rewrite pw_0, Rmult_1_r. apply (mid_wide (IZR (Zpos n))); [|pose proof (IZR_lt 0 (Zpos n) eq_refl); lra].
    split.
    - pose proof (pw_le (-100) 0 ltac:(lia)). rewrite pw_0 in *. pose proof (IZR_le 1 (Zpos n) ltac:(lia)). lra.
    - pose proof (pw_le 30 100 ltac:(lia)). rewrite (pw_Z 30) in * by done.
      apply IZR_le in Hn2. lra. }
  exists m2, e2. split; [exact E2|]. split; [done|]. rewrite (Hex (Zpos n) 0%Z); [|done|].
  - by rewrite pw_0, Rmult_1_r.
  - split; [done|]. assert (2 ^ 30 < 2 ^ 53)%Z by done. lia.
Qed.
