(* ===== verification/Lapjv.v ===== *)
(** * Assignment of rows to columns ([yolov8_infer/lapjv.cpp])

    The algorithm of Jonker and Volgenant on a dense matrix of costs: column reduction,
    augmenting row reduction and shortest augmenting paths.  The code is generic in the type
    of the costs; the program uses [double]. *)

From S2P Require Import Prelude Arrays CFloat.
From stdpp Require Import list_numbers.
Local Open Scope list_scope.
Local Open Scope Z_scope.

(** ** Costs *)

(** [cost_t] and its operators; [c_half] is the division by [2.0] and
    [c_inc] the addition of 1, with the result in a [float]. *)
Class Cost (K : Type) := {
  c_lt : K -> K -> bool; c_le : K -> K -> bool; c_eq : K -> K -> bool;
  c_add : K -> K -> K; c_sub : K -> K -> K; c_half : K -> K; c_inc : K -> K;
  c_of_Z : Z -> K
}.

#[export] Instance double_cost : Cost double := {|
  c_lt := dlt; c_le := dle; c_eq := SFeqb; c_add := dadd; c_sub := dsub;
  c_half x := d_round32 (ddiv x (d_of_Z 2)); c_inc x := fadd x (f_of_Z 1); c_of_Z := d_of_Z
|}.

Definition LARGE {K} `{!Cost K} : K := c_of_Z 1000000.

(** ** The code *)

(** The arrays the functions allocate; what [NEW] gives is [None] if it fails, otherwise an
    array with any contents. [A_cols] and [A_d] belong to the search from a row, [A_x] and
    [A_y] to the caller. *)
Inductive int_array := A_free_rows | A_pred | A_cols (start_i : Z) | A_x | A_y.
Inductive cost_array := A_v | A_d (start_i : Z).

Record allocator K := {
  new_int : int_array -> option (list Z);
  new_cost : cost_array -> option (list K);
  new_unique : bool
}.
Arguments new_int {_}.
Arguments new_cost {_}.
Arguments new_unique {_}.

Section code.
Context {K : Type} {HK : Cost K}.
Implicit Types cost : list (list K).
Implicit Types free_rows x y pred cols : list Z.
Implicit Types v d : list K.

(** [cost[i][j]] *)
Definition cost_at cost (i j : Z) : option K := row ← aget cost i; aget row j.

(** The smallest cost of each column and its row. *)
Definition ccrrt_columns n cost (y : list Z) (v : list K) : option (list Z * list K) :=
  for_each (range 0 n) (λ i yv, for_each (range 0 n) (λ j '(y, v),
    c ← cost_at cost i j;
    vj ← aget v j;
    if c_lt c vj then v ← aset v j c; y ← aset y j i; Some (y, v) else Some (y, v)) yv) (y, v).

(** [do { j--; ... } while (j > 0)] *)
Fixpoint ccrrt_assign (fuel : nat) (j : Z) (x y : list Z) (unique : list bool)
  : option (list Z * list Z * list bool) :=
  match fuel with
  | O => None
  | S fuel' =>
      let j := j - 1 in
      i ← aget y j;
      xi ← aget x i;
      '(x, y, unique) ← if xi <? 0 then x ← aset x i j; Some (x, y, unique)
                        else unique ← aset unique i false; y ← aset y j (-1); Some (x, y, unique);
      if 0 <? j then ccrrt_assign fuel' j x y unique else Some (x, y, unique)
  end.

(** The smallest reduced cost of row [i] outside column [j]. *)
Definition ccrrt_min n cost v (i j : Z) : option K :=
  for_each (range 0 n) (λ j2 min,
    if j2 =? j then Some min else
    c ← cost_at cost i j2;
    vj2 ← aget v j2;
    let c := c_sub c vj2 in
    Some (if c_lt c min then c else min)) LARGE.

Definition ccrrt_transfer n cost x (unique : list bool) free_rows v
  : option (Z * list Z * list K) :=
  for_each (range 0 n) (λ i '(n_free_rows, free_rows, v),
    xi ← aget x i;
    if xi <? 0 then
      free_rows ← aset free_rows n_free_rows i;
      Some (n_free_rows + 1, free_rows, v)
    else
      u ← aget unique i;
      if u : bool then
        min ← ccrrt_min n cost v i xi;
        vj ← aget v xi;
        v ← aset v xi (c_sub vj min);
        Some (n_free_rows, free_rows, v)
      else Some (n_free_rows, free_rows, v)) (0, free_rows, v).

(** The result and the arrays [free_rows], [x], [y] and [v]. *)
Definition _ccrrt_dense (new : allocator K) n cost free_rows x y v
  : option (Z * list Z * list Z * list Z * list K) :=
  '(x, v, y) ← for_each (range 0 n) (λ i '(x, v, y),
    x ← aset x i (-1); v ← aset v i LARGE; y ← aset y i 0; Some (x, v, y)) (x, v, y);
  '(y, v) ← ccrrt_columns n cost y v;
  if negb (new_unique new) then Some (-1, free_rows, x, y, v) else
  let unique := replicate (Z.to_nat n) true in
  '(x, y, unique) ← ccrrt_assign (Z.to_nat n + 1) n x y unique;
  '(n_free_rows, free_rows, v) ← ccrrt_transfer n cost x unique free_rows v;
  Some (n_free_rows, free_rows, x, y, v).

(** The smallest and the second smallest reduced cost of a row. *)
Definition carr_two n cost v (free_i : Z) : option (Z * K * Z * K) :=
  c0 ← cost_at cost free_i 0;
  v0 ← aget v 0;
  for_each (range 1 n) (λ j '(j1, v1, j2, v2),
    c ← cost_at cost free_i j;
    vj ← aget v j;
    let c := c_sub c vj in
    Some (if c_lt c v2 then
            if c_le v1 c then (j1, v1, j, c) else (j, c, j1, v1)
          else (j1, v1, j2, v2))) (0, c_sub c0 v0, -1, LARGE).

Record carr_state := {
  ca_current : Z; ca_new_free : Z; ca_rr_cnt : Z;
  ca_free_rows : list Z; ca_x : list Z; ca_y : list Z; ca_v : list K
}.

(** A pass of the loop. *)
Definition carr_pass n cost (s : carr_state) : option carr_state :=
  let rr_cnt := u32 (ca_rr_cnt s + 1) in
  free_i ← aget (ca_free_rows s) (ca_current s);
  let current := u32 (ca_current s + 1) in
  '(j1, v1, j2, v2) ← carr_two n cost (ca_v s) free_i;
  i0 ← aget (ca_y s) j1;
  vj1 ← aget (ca_v s) j1;
  let v1_new := c_sub vj1 (c_sub v2 v1) in
  let v1_lowers := c_lt v1_new vj1 in
  '(j1, current, new_free_rows, free_rows, v) ←
    if rr_cnt <? u32 (current * n) then
      '(j1, i0, v) ←
        if v1_lowers then v ← aset (ca_v s) j1 v1_new; Some (j1, i0, v)
        else if (0 <=? i0) && (0 <=? j2) then i0 ← aget (ca_y s) j2; Some (j2, i0, ca_v s)
        else Some (j1, i0, ca_v s);
      if 0 <=? i0 then
        if v1_lowers then
          let current := u32 (current - 1) in
          free_rows ← aset (ca_free_rows s) current i0;
          Some (j1, current, ca_new_free s, free_rows, v)
        else
          free_rows ← aset (ca_free_rows s) (ca_new_free s) i0;
          Some (j1, current, ca_new_free s + 1, free_rows, v)
      else Some (j1, current, ca_new_free s, ca_free_rows s, v)
    else if 0 <=? i0 then
      free_rows ← aset (ca_free_rows s) (ca_new_free s) i0;
      Some (j1, current, ca_new_free s + 1, free_rows, ca_v s)
    else Some (j1, current, ca_new_free s, ca_free_rows s, ca_v s);
  x ← aset (ca_x s) free_i j1;
  y ← aset (ca_y s) j1 free_i;
  Some {| ca_current := current; ca_new_free := new_free_rows; ca_rr_cnt := rr_cnt;
          ca_free_rows := free_rows; ca_x := x; ca_y := y; ca_v := v |}.

Fixpoint carr_loop (fuel : nat) n cost n_free_rows (s : carr_state) : option carr_state :=
  if ca_current s <? n_free_rows then
    match fuel with
    | O => None
    | S fuel' => s ← carr_pass n cost s; carr_loop fuel' n cost n_free_rows s
    end
  else Some s.

Definition _carr_dense n cost n_free_rows free_rows x y v
  : option (Z * list Z * list Z * list Z * list K) :=
  s ← carr_loop (Z.to_nat (n * n + n)) n cost n_free_rows
        {| ca_current := 0; ca_new_free := 0; ca_rr_cnt := 0;
           ca_free_rows := free_rows; ca_x := x; ca_y := y; ca_v := v |};
  Some (ca_new_free s, ca_free_rows s, ca_x s, ca_y s, ca_v s).

Definition _find_dense n (lo : Z) d cols : option (Z * list Z) :=
  j0 ← aget cols lo;
  mind ← aget d j0;
  '(hi, _, cols) ← for_each (range (lo + 1) n) (λ k '(hi, mind, cols),
    j ← aget cols k;
    dj ← aget d j;
    if c_le dj mind then
      let '(hi, mind) := if c_lt dj mind then (lo, dj) else (hi, mind) in
      t ← aget cols hi;
      cols ← aset cols k t;
      cols ← aset cols hi j;
      Some (hi + 1, mind, cols)
    else Some (hi, mind, cols)) (lo + 1, mind, cols);
  Some (hi, cols).

Record scan_state := {
  sc_hi : Z; sc_d : list K; sc_cols : list Z; sc_pred : list Z
}.

(** The columns to do, from the column [j0] of row [i]; [inl]: a free column. *)
Definition scan_row n cost y v (i : Z) (mind h : K) (s : scan_state)
  : option ((Z * scan_state) + scan_state) :=
  for_return (range (sc_hi s) n) (λ k s,
    j ← aget (sc_cols s) k;
    c ← cost_at cost i j;
    vj ← aget v j;
    let cred_ij := c_sub (c_sub c vj) h in
    dj ← aget (sc_d s) j;
    if c_lt cred_ij dj then
      d ← aset (sc_d s) j cred_ij;
      pred ← aset (sc_pred s) j i;
      if c_eq cred_ij mind then
        yj ← aget y j;
        if yj <? 0 then
          Some (inl (j, {| sc_hi := sc_hi s; sc_d := d; sc_cols := sc_cols s; sc_pred := pred |}))
        else
          t ← aget (sc_cols s) (sc_hi s);
          cols ← aset (sc_cols s) k t;
          cols ← aset cols (sc_hi s) j;
          Some (inr {| sc_hi := sc_hi s + 1; sc_d := d; sc_cols := cols; sc_pred := pred |})
      else Some (inr {| sc_hi := sc_hi s; sc_d := d; sc_cols := sc_cols s; sc_pred := pred |})
    else Some (inr s)) s.

(** [while (lo != hi)]: the free column, or [-1] and the new [lo]. *)
Fixpoint scan_loop (fuel : nat) n cost y v (lo : Z) (s : scan_state)
  : option ((Z * scan_state) + (Z * scan_state)) :=
  if lo =? sc_hi s then Some (inr (lo, s)) else
  match fuel with
  | O => None
  | S fuel' =>
      j ← aget (sc_cols s) lo;
      i ← aget y j;
      mind ← aget (sc_d s) j;
      c ← cost_at cost i j;
      vj ← aget v j;
      let h := c_sub (c_sub c vj) mind in
      r ← scan_row n cost y v i mind h s;
      match r with
      | inl js => Some (inl js)
      | inr s => scan_loop fuel' n cost y v (lo + 1) s
      end
  end.

(** The column that is returned, [*plo], and the arrays with [*phi]; a return from inside the
    loops leaves [*plo] and [*phi] as they were. *)
Definition _scan_dense n cost lo (s : scan_state) y v : option (Z * Z * scan_state) :=
  r ← scan_loop (Z.to_nat n) n cost y v lo s;
  Some (match r with
        | inl (j, s') => (j, lo, {| sc_hi := sc_hi s; sc_d := sc_d s'; sc_cols := sc_cols s';
                                    sc_pred := sc_pred s' |})
        | inr (lo, s) => (-1, lo, s)
        end).

Record path_state := { pt_lo : Z; pt_ready : Z; pt_final : Z; pt_scan : scan_state }.

(** [while (final_j == -1)] *)
Fixpoint path_loop (fuel : nat) n cost y v (p : path_state) : option path_state :=
  if negb (pt_final p =? -1) then Some p else
  match fuel with
  | O => None
  | S fuel' =>
      let lo := pt_lo p in let s := pt_scan p in
      '(n_ready, final_j, s) ←
        if lo =? sc_hi s then
          '(hi, cols) ← _find_dense n lo (sc_d s) (sc_cols s);
          final_j ← for_each (range lo hi) (λ k final_j,
            j ← aget cols k; yj ← aget y j; Some (if yj <? 0 then j else final_j)) (-1);
          Some (lo, final_j, {| sc_hi := hi; sc_d := sc_d s; sc_cols := cols; sc_pred := sc_pred s |})
        else Some (pt_ready p, -1, s);
      '(final_j, lo, s) ← if final_j =? -1 then _scan_dense n cost lo s y v
                          else Some (final_j, lo, s);
      path_loop fuel' n cost y v {| pt_lo := lo; pt_ready := n_ready; pt_final := final_j; pt_scan := s |}
  end.

(** The column that is found, [pred] and [v]. *)
Definition find_path_dense (new : allocator K) n cost start_i y v pred
  : option (Z * list Z * list K) :=
  match new_int new (A_cols start_i), new_cost new (A_d start_i) with
  | Some cols, Some d =>
      s ← for_each (range 0 n) (λ i s,
        cols ← aset (sc_cols s) i i;
        pred ← aset (sc_pred s) i start_i;
        c ← cost_at cost start_i i;
        vi ← aget v i;
        d ← aset (sc_d s) i (c_sub c vi);
        Some {| sc_hi := 0; sc_d := d; sc_cols := cols; sc_pred := pred |})
        {| sc_hi := 0; sc_d := d; sc_cols := cols; sc_pred := pred |};
      p ← path_loop (Z.to_nat n + 1) n cost y v
            {| pt_lo := 0; pt_ready := 0; pt_final := -1; pt_scan := s |};
      let s := pt_scan p in
      jlo ← aget (sc_cols s) (pt_lo p);
      mind ← aget (sc_d s) jlo;
      v ← for_each (range 0 (pt_ready p)) (λ k v,
        j ← aget (sc_cols s) k;
        dj ← aget (sc_d s) j;
        vj ← aget v j;
        aset v j (c_add vj (c_sub dj mind))) v;
      Some (pt_final p, sc_pred s, v)
  | _, _ => Some (-1, pred, v)
  end.

(** [while (i != *pfree_i)]; the count [k] has no effect. *)
Fixpoint augment (fuel : nat) (free_i i j : Z) pred x y : option (list Z * list Z) :=
  if i =? free_i then Some (x, y) else
  match fuel with
  | O => None
  | S fuel' =>
      i ← aget pred j;
      y ← aset y j i;
      xi ← aget x i;
      x ← aset x i j;
      augment fuel' free_i i xi pred x y
  end.

Definition _ca_dense (new : allocator K) n cost n_free_rows free_rows x y v
  : option (Z * list Z * list Z) :=
  match new_int new A_pred with
  | None => Some (-1, x, y)
  | Some pred =>
      '(x, y, _, _) ← for_each (range 0 n_free_rows) (λ k '(x, y, v, pred),
        free_i ← aget free_rows k;
        '(j, pred, v) ← find_path_dense new n cost free_i y v pred;
        '(x, y) ← augment (Z.to_nat n) free_i (-1) j pred x y;
        Some (x, y, v, pred)) (x, y, v, pred);
      Some (0, x, y)
  end.

(** The result, [x] and [y]. *)
Definition lapjv_internal (new : allocator K) n cost x y : option (Z * list Z * list Z) :=
  match new_int new A_free_rows, new_cost new A_v with
  | Some free_rows, Some v =>
      '(ret, free_rows, x, y, v) ← _ccrrt_dense new n cost free_rows x y v;
      '(ret, free_rows, x, y, v) ←
        if 0 <? ret then _carr_dense n cost ret free_rows x y v
        else Some (ret, free_rows, x, y, v);
      '(ret, free_rows, x, y, v) ←
        if 0 <? ret then _carr_dense n cost ret free_rows x y v
        else Some (ret, free_rows, x, y, v);
      if 0 <? ret then _ca_dense new n cost ret free_rows x y v else Some (ret, x, y)
  | _, _ => Some (-1, x, y)
  end.
End code.

(** ** Assignments

    During the algorithm [x] and [y] are inverse to each other on the rows that are not free;
    a free row may have an outdated entry in [x]. *)

#[export] Instance cost_inhabited {K} `{!Cost K} : Inhabited K := populate (c_of_Z 0).

Lemma length_filter_not {A} (P : A -> Prop) `{!forall a, Decision (P a)} (l : list A) :
  (length (filter P l) + length (filter (λ a, ~ P a) l) = length l)%nat.
Proof.
  induction l as [|a l IH]; [done|]. rewrite !filter_cons. cbn [length].
  repeat case_decide; cbn [length]; first [lia|done].
Qed.

Section matching.
Context (n : Z).
Implicit Types F x y : list Z.

Record matching F x y : Prop := {
  mt_x_len : n <= Zlen x;
  mt_y_len : n <= Zlen y;
  mt_nodup : NoDup F;
  mt_rows : forall i, i ∈ F -> 0 <= i < n;
  mt_y : forall j, 0 <= j < n ->
    y⟦j⟧ < 0 \/ (0 <= y⟦j⟧ < n /\ y⟦j⟧ ∉ F /\ x⟦y⟦j⟧⟧ = j);
  mt_x : forall i, 0 <= i < n -> i ∉ F -> 0 <= x⟦i⟧ < n /\ y⟦x⟦i⟧⟧ = i
}.

Lemma matching_perm F F' x y : F ≡ₚ F' -> matching F x y -> matching F' x y.
Proof.
  intros HF [? ? Hd Hr Hy Hx]. split; try done.
  - by rewrite <-HF.
  - intros i. rewrite <-HF. apply Hr.
  - intros j. rewrite <-HF. apply Hy.
  - intros i. rewrite <-HF. apply Hx.
Qed.

(** A free row takes a column; the row that had it becomes free. *)
Lemma matching_assign F i j x y : matching (i :: F) x y -> 0 <= j < n ->
  matching (if 0 <=? y⟦j⟧ then y⟦j⟧ :: F else F) (updZ x i j) (updZ y j i).
Proof.
  intros [Hlx Hly Hd Hr Hy Hx] Hj.
  assert (Hi : 0 <= i < n) by (apply Hr; left).
  apply NoDup_cons in Hd as [Hi' Hd].
  assert (Hsub : forall k, k ∈ (if 0 <=? y⟦j⟧ then y⟦j⟧ :: F else F) ->
            k ∈ F \/ (k = y⟦j⟧ /\ 0 <= k)).
  { intros k. destruct (Z.leb_spec 0 (y⟦j⟧)); [|by left].
    intros [->|Hk]%elem_of_cons; [by right|by left]. }
  assert (HyjF : 0 <= y⟦j⟧ -> y⟦j⟧ ∉ i :: F /\ x⟦y⟦j⟧⟧ = j /\ y⟦j⟧ < n).
  { intros H0. destruct (Hy j Hj) as [?|(? & ? & ?)]; [lia|]. split; [done|]. split; [done|lia]. }
  split; rewrite ?Zlen_updZ; try done.
  - destruct (Z.leb_spec 0 (y⟦j⟧)) as [H0|]; [|done].
    apply HyjF in H0 as (H1 & _). apply NoDup_cons. set_solver.
  - intros k [Hk|[-> Hk]]%Hsub; [apply Hr; set_solver|]. split; [done|by apply HyjF].
  - intros j' Hj'. rewrite (nthZ_updZ y) by lia. destruct (Z.eqb_spec j' j) as [->|Hne].
    + right. split; [done|]. split; [|by rewrite nthZ_updZ_eq by lia].
      intros [?|[-> ?]]%Hsub; [done|]. apply HyjF in H as (H & _). set_solver.
    + destruct (Hy j' Hj') as [?|(H1 & H2 & H3)]; [by left|]. right. split; [done|]. split.
      * intros [?|[E ?]]%Hsub; [set_solver|]. rewrite E in *. apply HyjF in H as (_ & H & _). congruence.
      * rewrite nthZ_updZ_ne; [done|lia|lia|set_solver].
  - intros i' Hi'' Hn. rewrite (nthZ_updZ x) by lia. destruct (Z.eqb_spec i' i) as [->|Hne].
    + split; [done|]. by rewrite nthZ_updZ_eq by lia.
    + assert (Hf : i' ∉ i :: F).
      { destruct (0 <=? y⟦j⟧); set_solver. }
      destruct (Hx i' Hi'' Hf) as [H1 H2]. split; [done|].
      rewrite nthZ_updZ_ne; [done|lia|lia|]. intros E. rewrite <-E in H2. rewrite H2 in Hn.
      destruct (Z.leb_spec 0 i'); [set_solver|lia].
Qed.

(** The columns without a row. *)
Definition free_columns y : list Z := filter (λ j, y⟦j⟧ < 0) (range 0 n).

Lemma elem_free_columns y j : j ∈ free_columns y <-> y⟦j⟧ < 0 /\ 0 <= j < n.
Proof. unfold free_columns. by rewrite list_elem_of_filter, elem_range. Qed.

Lemma matching_free F x y : matching F x y -> (length F <= length (free_columns y))%nat.
Proof.
  intros [Hlx Hly Hd Hr Hy Hx].
  set (as_ := filter (λ j, ~ y⟦j⟧ < 0) (range 0 n)).
  assert (Hlen : (length (F ++ (nthZ y <$> as_)) <= length (range 0 n))%nat).
  { apply submseteq_length, NoDup_submseteq.
    - apply NoDup_app. split; [done|]. split.
      + intros i Hi (j & -> & Hj)%list_elem_of_fmap.
        apply list_elem_of_filter in Hj as [Hj Hj']. apply elem_range in Hj'.
        destruct (Hy j Hj') as [?|(_ & ? & _)]; [lia|done].
      + apply NoDup_fmap_2_strong; [|apply NoDup_filter, NoDup_range].
        intros j j' [Hj Hj1]%list_elem_of_filter [Hj' Hj2]%list_elem_of_filter E.
        apply elem_range in Hj1. apply elem_range in Hj2.
        destruct (Hy j) as [?|(_ & _ & Ej)]; [lia|lia|].
        destruct (Hy j') as [?|(_ & _ & Ej')]; [lia|lia|]. congruence.
    - intros i [Hi|(j & -> & Hj)%list_elem_of_fmap]%elem_of_app; apply elem_range; [by apply Hr|].
      apply list_elem_of_filter in Hj as [Hj Hj']. apply elem_range in Hj'.
      destruct (Hy j Hj') as [?|(? & _)]; [lia|done]. }
  rewrite length_app, length_fmap in Hlen.
  pose proof (length_filter_not (λ j, y⟦j⟧ < 0) (range 0 n)). unfold free_columns, as_ in *. lia.
Qed.

Lemma free_some F x y : matching F x y -> F <> [] -> exists j, 0 <= j < n /\ y⟦j⟧ < 0.
Proof.
  intros Hm HF. apply matching_free in Hm.
  destruct (free_columns y) as [|j js] eqn:E; [destruct F; [done|cbn in Hm; lia]|].
  exists j. assert (Hj : j ∈ free_columns y) by (rewrite E; left). apply elem_free_columns in Hj. tauto.
Qed.

Lemma matching_nil x y : matching [] x y ->
  (nthZ x <$> range 0 n) ≡ₚ range 0 n /\ (nthZ y <$> range 0 n) ≡ₚ range 0 n
  /\ forall i j, 0 <= i < n -> 0 <= j < n -> x⟦i⟧ = j <-> y⟦j⟧ = i.
Proof.
  intros H. pose proof (matching_free _ _ _ H) as _. destruct H as [Hlx Hly _ _ Hy Hx].
  assert (Hxi : forall i, 0 <= i < n -> 0 <= x⟦i⟧ < n /\ y⟦x⟦i⟧⟧ = i).
  { intros. apply Hx; [done|set_solver]. }
  assert (Hinj : NoDup (nthZ x <$> range 0 n)).
  { apply NoDup_fmap_2_strong; [|apply NoDup_range]. intros i i' Hi%elem_range Hi'%elem_range E.
    destruct (Hxi i Hi) as [_ <-]. destruct (Hxi i' Hi') as [_ <-]. congruence. }
  assert (Hp : (nthZ x <$> range 0 n) ≡ₚ range 0 n).
  { apply submseteq_length_Permutation; [|by rewrite length_fmap].
    apply NoDup_submseteq; [done|]. intros j (i & -> & Hi%elem_range)%list_elem_of_fmap.
    apply elem_range. by apply Hxi. }
  assert (Hsur : forall j, 0 <= j < n -> exists i, 0 <= i < n /\ x⟦i⟧ = j).
  { intros j Hj. assert (Hin : j ∈ nthZ x <$> range 0 n) by (rewrite Hp; by apply elem_range).
    apply list_elem_of_fmap in Hin as (i & -> & Hi%elem_range). by exists i. }
  assert (Hiff : forall i j, 0 <= i < n -> 0 <= j < n -> x⟦i⟧ = j <-> y⟦j⟧ = i).
  { intros i j Hi Hj. split; [intros <-; by apply Hxi|]. intros <-.
    destruct (Hsur j Hj) as (i' & Hi' & <-). f_equal. by apply Hxi. }
  split; [done|]. split; [|done].
  apply submseteq_length_Permutation; [|by rewrite length_fmap]. apply NoDup_submseteq.
  - apply NoDup_fmap_2_strong; [|apply NoDup_range]. intros j j' Hj%elem_range Hj'%elem_range E.
    destruct (Hsur j Hj) as (i & Hi & <-). destruct (Hsur j' Hj') as (i' & Hi' & <-).
    rewrite (proj2 (Hxi i Hi)), (proj2 (Hxi i' Hi')) in E. congruence.
  - intros i (j & -> & Hj%elem_range)%list_elem_of_fmap. apply elem_range.
    destruct (Hsur j Hj) as (i & Hi & <-). by rewrite (proj2 (Hxi i Hi)).
Qed.
End matching.

(** ** Costs that are computed exactly

    The structure of the result does not depend on the costs; that it is an optimum needs
    that the arithmetic on the costs is exact.  Both are proved together: [exact] is what the
    second part of each statement supposes. *)

Class Exact {K} `{!Cost K} (val : K -> Z) : Prop := {
  val_lt a b : c_lt a b = (val a <? val b);
  val_le a b : c_le a b = (val a <=? val b);
  val_eq a b : c_eq a b = (val a =? val b);
  val_add a b : val (c_add a b) = val a + val b;
  val_sub a b : val (c_sub a b) = val a - val b;
  val_zero : val (c_of_Z 0) = 0
}.

Section costs.
Context {K : Type} {HK : Cost K} (val : K -> Z) (exact : Prop) (n C : Z) (cost : list (list K)).
Implicit Types F x y free_rows pred cols : list Z.
Implicit Types v d : list K.

Definition w (i j : Z) : Z := val (cost⟦i⟧⟦j⟧).
Definition red v (i j : Z) : Z := w i j - val (v⟦j⟧).

(** [j] is a cheapest column of row [i]. *)
Definition tight v (i j : Z) : Prop := forall k, 0 <= k < n -> red v i j <= red v i k.
Definition all_tight F x v : Prop := forall i, 0 <= i < n -> i ∉ F -> tight v i (x⟦i⟧).

Record dense : Prop := {
  dn_n : 0 < n < 65536;
  dn_rows : n <= Zlen cost;
  dn_cols : forall i, 0 <= i < n -> n <= Zlen (cost⟦i⟧)
}.

Record exact_costs : Prop := {
  ex_val :: Exact val;
  ex_bound : forall i j, 0 <= i < n -> 0 <= j < n -> 0 <= w i j <= C;
  ex_large : 2 * C < val LARGE
}.

Hypothesis Hd : dense.
Hypothesis Hex : exact -> exact_costs.

Lemma cost_at_in i j : 0 <= i < n -> 0 <= j < n -> cost_at cost i j = Some (cost⟦i⟧⟦j⟧).
Proof using Hd.
  intros Hi Hj. destruct Hd as [_ Hr Hc]. unfold cost_at. rewrite (aget_nthZ cost) by lia.
  cbn [mbind option_bind]. specialize (Hc i Hi). by rewrite aget_nthZ by lia.
Qed.

(** *** Column reduction *)

(** Column [j] after [i] rows. *)
Definition column_min (i : Z) y v (j : Z) : Prop :=
  0 <= y⟦j⟧ < n /\ (i = 0 -> v⟦j⟧ = LARGE)
  /\ (exact -> (0 < i -> y⟦j⟧ < i /\ val (v⟦j⟧) = w (y⟦j⟧) j)
               /\ forall i', 0 <= i' < i -> val (v⟦j⟧) <= w i' j).

Lemma ccrrt_columns_spec y v : n <= Zlen y -> n <= Zlen v ->
  (forall j, 0 <= j < n -> y⟦j⟧ = 0 /\ v⟦j⟧ = LARGE) ->
  exists y' v', ccrrt_columns n cost y v = Some (y', v') /\ Zlen y' = Zlen y /\ Zlen v' = Zlen v
    /\ forall j, 0 <= j < n -> column_min n y' v' j.
Proof using Hd Hex.
  intros Hy Hv H0. pose proof (dn_n Hd) as Hn. unfold ccrrt_columns.
  destruct (for_range_inv (λ i yv, Zlen yv.1 = Zlen y /\ Zlen yv.2 = Zlen v
      /\ forall j, 0 <= j < n -> column_min i yv.1 yv.2 j)
    (λ i yv, for_each (range 0 n) (λ j '(y, v),
      c ← cost_at cost i j; vj ← aget v j;
      if c_lt c vj then v ← aset v j c; y ← aset y j i; Some (y, v) else Some (y, v)) yv)
    0 n (y, v)) as ([y' v'] & E & H1 & H2 & H3); [lia| | |].
  - split; [done|]. split; [done|]. intros j Hj. destruct (H0 j Hj) as [Hyj Hvj]. cbn [fst snd].
    unfold column_min. rewrite Hyj. split; [lia|]. split; [done|]. split; lia.
  - intros i [y1 v1] Hi (Hy1 & Hv1 & Hc). cbn [fst snd] in *.
    destruct (for_range_inv (λ j yv, Zlen yv.1 = Zlen y /\ Zlen yv.2 = Zlen v
        /\ (forall j', 0 <= j' < j -> column_min (i + 1) yv.1 yv.2 j')
        /\ forall j', j <= j' < n -> column_min i yv.1 yv.2 j')
      (λ j '(y, v), c ← cost_at cost i j; vj ← aget v j;
        if c_lt c vj then v ← aset v j c; y ← aset y j i; Some (y, v) else Some (y, v))
      0 n (y1, v1)) as ([y2 v2] & E & H1 & H2 & H3 & _); [lia| | |].
    + split; [done|]. split; [done|]. split; [lia|]. intros. apply Hc. lia.
    + intros j [y2 v2] Hj (Hy2 & Hv2 & Hdone & Htodo). cbn [fst snd] in *.
      rewrite cost_at_in by lia. cbn [mbind option_bind]. arr.
      destruct (Htodo j) as (Hyj & Hl & Hmin); [lia|].
      destruct (c_lt (cost⟦i⟧⟦j⟧) (v2⟦j⟧)) eqn:Elt.
      * arr. eexists. split; [reflexivity|]. cbn [fst snd]. rewrite !Zlen_updZ.
        split; [done|]. split; [done|]. split; intros j' Hj'.
        -- unfold column_min. rewrite !nthZ_updZ by lia. destruct (Z.eqb_spec j' j) as [->|].
           ++ split; [lia|]. split; [lia|]. intros e. destruct (Hex e) as [He Hb HL].
              rewrite val_lt in Elt. destruct (Hmin e) as [_ Hm]. split; [intros _; split; [lia|done]|].
              intros i' Hi'. fold (w i j) in *. destruct (Z.eq_dec i' i) as [->|]; [lia|].
              specialize (Hm i'). lia.
           ++ apply Hdone. lia.
        -- unfold column_min. rewrite !nthZ_updZ_ne by lia. apply Htodo. lia.
      * eexists. split; [reflexivity|]. cbn [fst snd]. split; [done|]. split; [done|].
        split; intros j' Hj'; [|apply Htodo; lia].
        destruct (Z.eq_dec j' j) as [->|]; [|apply Hdone; lia].
        split; [done|]. split; [lia|]. intros e. destruct (Hex e) as [He Hb HL].
        rewrite val_lt in Elt. fold (w i j) in *. destruct (Hmin e) as [Hm0 Hm].
        destruct (Z.eq_dec i 0) as [->|].
        { rewrite Hl in Elt by done. specialize (Hb 0 j). lia. }
        split; [intros _; destruct Hm0; lia|]. intros i' Hi'.
        destruct (Z.eq_dec i' i) as [->|]; [lia|apply Hm; lia].
    + exists (y2, v2). split; [exact E|]. split; [done|]. split; [done|]. intros. apply H3. lia.
  - exists y', v'. split; [exact E|]. split; [done|]. split; [done|exact H3].
Qed.

(** The state of [x] and [y] when the columns from [j] on are done. *)
Record assigned (y0 : list Z) (j : Z) x y (unique : list bool) : Prop := {
  as_x_len : n <= Zlen x; as_y_len : n <= Zlen y; as_u_len : n <= Zlen unique;
  as_todo : forall j', 0 <= j' < j -> y⟦j'⟧ = y0⟦j'⟧;
  as_done : forall j', j <= j' < n ->
    y⟦j'⟧ = -1 \/ (y⟦j'⟧ = y0⟦j'⟧ /\ x⟦y⟦j'⟧⟧ = j');
  as_x : forall i, 0 <= i < n -> x⟦i⟧ = -1 \/ (j <= x⟦i⟧ < n /\ y⟦x⟦i⟧⟧ = i)
}.

Lemma ccrrt_assign_spec y0 fuel j x y unique : (forall j, 0 <= j < n -> 0 <= y0⟦j⟧ < n) ->
  0 < j <= n -> (Z.to_nat j <= fuel)%nat -> assigned y0 j x y unique ->
  exists x' y' u', ccrrt_assign fuel j x y unique = Some (x', y', u') /\ assigned y0 0 x' y' u'.
Proof using Hd.
  intros Hy0. revert j x y unique. induction fuel as [|fuel IH]; intros j x y unique Hj Hf Ha; [lia|].
  destruct Ha as [Hx Hy Hu Ht Hdo Hxi]. cbn [ccrrt_assign]. arr.
  assert (Hi : 0 <= y⟦j - 1⟧ < n) by (rewrite Ht by lia; apply Hy0; lia).
  set (i := y⟦j - 1⟧) in *. arr.
  assert (Hstep : exists x1 y1 u1,
    (if x⟦i⟧ <? 0 then Some (updZ x i (j - 1), y, unique)
     else Some (x, updZ y (j - 1) (-1), updZ unique i false))
    = Some (x1, y1, u1) /\ assigned y0 (j - 1) x1 y1 u1).
  { destruct (Z.ltb_spec (x⟦i⟧) 0) as [Hneg|Hpos].
    - exists (updZ x i (j - 1)), y, unique. split; [done|].
      assert (Hxi' : x⟦i⟧ = -1) by (destruct (Hxi i Hi); lia).
      split; rewrite ?Zlen_updZ; try done.
      + intros. apply Ht. lia.
      + intros j' Hj'. destruct (Z.eq_dec j' (j - 1)) as [->|].
        * right. fold i. rewrite nthZ_updZ_eq by lia. split; [apply Ht; lia|done].
        * destruct (Hdo j') as [?|[E1 E2]]; [lia|by left|]. right. split; [done|].
          rewrite nthZ_updZ_ne; [done|lia| |intros Ei; rewrite <-Ei in E2; lia].
          rewrite E1. apply Hy0. lia.
      + intros i' Hi'. rewrite nthZ_updZ by lia. destruct (Z.eqb_spec i' i) as [->|].
        * right. split; [lia|done].
        * destruct (Hxi i' Hi') as [?|[? ?]]; [by left|right]. split; [lia|done].
    - exists x, (updZ y (j - 1) (-1)), (updZ unique i false). split; [done|].
      assert (Hxi' : j <= x⟦i⟧ < n /\ y⟦x⟦i⟧⟧ = i) by (destruct (Hxi i Hi); [lia|done]).
      split; rewrite ?Zlen_updZ; try done.
      + intros. rewrite nthZ_updZ_ne by lia. apply Ht. lia.
      + intros j' Hj'. rewrite nthZ_updZ by lia. destruct (Z.eqb_spec j' (j - 1)) as [->|]; [by left|].
        apply Hdo. lia.
      + intros i' Hi'. destruct (Hxi i' Hi') as [?|[? ?]]; [by left|right]. split; [lia|].
        by rewrite nthZ_updZ_ne by lia. }
  destruct Hstep as (x1 & y1 & u1 & -> & Ha1). cbn [mbind option_bind].
  destruct (Z.ltb_spec 0 (j - 1)).
  - apply IH; [lia|lia|done].
  - replace (j - 1) with 0 in Ha1 by lia. exists x1, y1, u1. by split.
Qed.

(** *** Reduction transfer *)

Lemma ccrrt_min_spec v i j : n <= Zlen v -> 0 <= i < n ->
  exists m, ccrrt_min n cost v i j = Some m
    /\ (exact -> forall k, 0 <= k < n -> k <> j -> val m <= red v i k)
    /\ (exact -> (forall k, 0 <= k < n -> 0 <= red v i k) -> 0 <= val m).
Proof using Hd Hex.
  intros Hv Hi. pose proof (dn_n Hd) as Hn. unfold ccrrt_min.
  destruct (for_range_inv (λ k m,
      (exact -> forall k', 0 <= k' < k -> k' <> j -> val m <= red v i k')
      /\ (exact -> (forall k, 0 <= k < n -> 0 <= red v i k) -> 0 <= val m))
    (λ j2 min, if j2 =? j then Some min else
       c ← cost_at cost i j2; vj2 ← aget v j2;
       let c := c_sub c vj2 in Some (if c_lt c min then c else min)) 0 n LARGE)
    as (m & E & H1 & H2); [lia| | |].
  - split; [lia|]. intros e _. destruct (Hex e) as [He Hb HL]. specialize (Hb 0 0). lia.
  - intros k m Hk [Hm H0]. destruct (Z.eqb_spec k j) as [->|Hkj].
    { exists m. split; [done|]. split; [|done]. intros e k' Hk' Hne. apply Hm; [done|lia|done]. }
    rewrite cost_at_in by lia. cbn [mbind option_bind]. arr. eexists. split; [reflexivity|].
    destruct (c_lt (c_sub (cost⟦i⟧⟦k⟧) (v⟦k⟧)) m) eqn:Elt; split.
    + intros e k' Hk' Hne. destruct (Hex e) as [He _ _]. rewrite val_lt, val_sub in Elt. rewrite val_sub.
      fold (w i k) (red v i k) in *. destruct (Z.eq_dec k' k) as [->|]; [lia|].
      specialize (Hm e k'). lia.
    + intros e Hr. destruct (Hex e) as [He _ _]. rewrite val_sub. apply Hr. lia.
    + intros e k' Hk' Hne. destruct (Hex e) as [He _ _]. rewrite val_lt, val_sub in Elt.
      fold (w i k) (red v i k) in *. destruct (Z.eq_dec k' k) as [->|]; [lia|].
      specialize (Hm e k'). lia.
    + done.
  - exists m. split; [exact E|]. split; [|done]. intros. by apply H1.
Qed.

(** The prices of the columns: not negative on free ones, not too small as long as a row is
    free, so that [LARGE] exceeds every reduced cost. *)
Definition prices F y v : Prop :=
  (forall j, 0 <= j < n -> y⟦j⟧ < 0 -> 0 <= val (v⟦j⟧))
  /\ (F <> [] -> forall j, 0 <= j < n -> - C <= val (v⟦j⟧)).

Record partial F x y v : Prop := {
  pa_matching : matching n F x y;
  pa_v_len : n <= Zlen v;
  pa_tight : exact -> all_tight F x v
}.

(** Before row [i]. *)
Record transfer_inv x y (i : Z) v : Prop := {
  tr_pos : forall i j, 0 <= i < n -> 0 <= j < n -> 0 <= red v i j;
  tr_tight : forall i, 0 <= i < n -> 0 <= x⟦i⟧ -> tight v i (x⟦i⟧);
  tr_free : forall j, 0 <= j < n -> y⟦j⟧ < 0 -> 0 <= val (v⟦j⟧);
  tr_low : free_columns n y <> [] -> forall j, 0 <= j < n -> - C <= val (v⟦j⟧);
  tr_todo : forall i', i <= i' < n -> 0 <= x⟦i'⟧ -> red v i' (x⟦i'⟧) = 0
}.

Lemma transfer_skip x y i v : transfer_inv x y i v -> transfer_inv x y (i + 1) v.
Proof. intros [? ? ? ? Ht]. split; try done. intros. apply Ht; [lia|done]. Qed.

Lemma red_updZ v j m i k : Exact val -> 0 <= j < Zlen v -> 0 <= k ->
  red (updZ v j (c_sub (v⟦j⟧) m)) i k = if k =? j then red v i k + val m else red v i k.
Proof.
  intros He Hj Hk. unfold red. rewrite nthZ_updZ by lia. destruct (Z.eqb_spec k j) as [->|]; [|done].
  rewrite val_sub. lia.
Qed.

Lemma transfer_row x y i v m : exact -> n <= Zlen v -> 0 <= i < n ->
  (forall i, 0 <= i < n -> 0 <= x⟦i⟧ -> x⟦i⟧ < n /\ y⟦x⟦i⟧⟧ = i) ->
  0 <= x⟦i⟧ -> (forall k, 0 <= k < n -> k <> x⟦i⟧ -> val m <= red v i k) -> 0 <= val m ->
  transfer_inv x y i v -> transfer_inv x y (i + 1) (updZ v (x⟦i⟧) (c_sub (v⟦x⟦i⟧⟧) m)).
Proof using Hex.
  intros e Hv Hi Hxy Hxi Hm Hm0 [Hpos Hti Hfr Hlow Htodo]. destruct (Hex e) as [He Hb _].
  destruct (Hxy i Hi Hxi) as [Hxn Hyi].
  assert (Hinj : forall i', 0 <= i' < n -> 0 <= x⟦i'⟧ -> x⟦i'⟧ = x⟦i⟧ -> i' = i).
  { intros i' Hi' Hx' E. destruct (Hxy i' Hi' Hx') as [_ <-]. by rewrite E. }
  assert (Hr0 : red v i (x⟦i⟧) = 0) by (apply Htodo; [lia|done]).
  split.
  - intros i' j Hi' Hj. rewrite red_updZ by (done || lia). specialize (Hpos i' j Hi' Hj).
    destruct (j =? x⟦i⟧); lia.
  - intros i' Hi' Hx' k Hk. rewrite !red_updZ by (done || lia). specialize (Hti i' Hi' Hx' k Hk).
    destruct (Z.eqb_spec (x⟦i'⟧) (x⟦i⟧)) as [E|E].
    + apply Hinj in E as ->; [|done|done]. rewrite Hr0. destruct (Z.eqb_spec k (x⟦i⟧)) as [->|]; [lia|].
      specialize (Hm k Hk). lia.
    + destruct (k =? x⟦i⟧); lia.
  - intros j Hj Hyj. rewrite nthZ_updZ_ne; [by apply Hfr|lia|lia|]. intros <-. lia.
  - intros Hne j Hj. rewrite nthZ_updZ by lia. destruct (Z.eqb_spec j (x⟦i⟧)) as [->|]; [|by apply Hlow].
    destruct (free_columns n y) as [|j0 js] eqn:Efc; [done|].
    assert (Hj0 : j0 ∈ free_columns n y) by (rewrite Efc; left). apply elem_free_columns in Hj0 as [Hy0 Hj0].
    specialize (Hfr j0 Hj0 Hy0). specialize (Hm j0 Hj0).
    pose proof (Hb i j0 Hi Hj0). pose proof (Hb i (x⟦i⟧) Hi). rewrite val_sub. unfold red in *.
    assert (j0 <> x⟦i⟧) by (intros ->; lia). lia.
  - intros i' Hi' Hx'. rewrite red_updZ by (done || lia).
    destruct (Z.eqb_spec (x⟦i'⟧) (x⟦i⟧)) as [E|E]; [apply Hinj in E; [lia|lia|done]|].
    apply Htodo; [lia|done].
Qed.

(** The first [nf] entries are the free rows. *)
Definition front (nf : Z) free_rows : list Z := take (Z.to_nat nf) free_rows.

Lemma front_snoc nf free_rows i : 0 <= nf < Zlen free_rows ->
  front (nf + 1) (updZ free_rows nf i) = front nf free_rows ++ [i].
Proof.
  intros H. unfold front, updZ, Zlen in *. replace (Z.to_nat (nf + 1)) with (S (Z.to_nat nf)) by lia.
  rewrite (take_S_r _ _ i) by (apply list_lookup_insert_eq; lia). by rewrite take_insert_ge by lia.
Qed.

Lemma front_len nf free_rows : 0 <= nf <= Zlen free_rows -> Zlen (front nf free_rows) = nf.
Proof. intros H. unfold Zlen, front in *. rewrite length_take. lia. Qed.

Definition unassigned x (i : Z) : list Z := filter (λ k, x⟦k⟧ < 0) (range 0 i).

Lemma unassigned_succ x i : 0 <= i ->
  unassigned x (i + 1) = unassigned x i ++ (if x⟦i⟧ <? 0 then [i] else []).
Proof.
  intros Hi. unfold unassigned.
  rewrite range_snoc by lia.
  rewrite filter_app. f_equal. rewrite filter_cons, filter_nil.
  destruct (Z.ltb_spec (x⟦i⟧) 0); case_decide; (done || lia).
Qed.

Lemma length_unassigned x i : 0 <= i -> Zlen (unassigned x i) <= i.
Proof.
  intros. unfold unassigned, Zlen.
  pose proof (length_filter (λ k, x⟦k⟧ < 0) (range 0 i)). rewrite length_range in H0. lia.
Qed.

Lemma ccrrt_transfer_spec x y unique free_rows v :
  n <= Zlen x -> n <= Zlen unique -> n <= Zlen free_rows -> n <= Zlen v ->
  (forall i, 0 <= i < n -> 0 <= x⟦i⟧ -> x⟦i⟧ < n /\ y⟦x⟦i⟧⟧ = i) ->
  (exact -> transfer_inv x y 0 v) ->
  exists nf fr v', ccrrt_transfer n cost x unique free_rows v = Some (nf, fr, v')
    /\ Zlen fr = Zlen free_rows /\ Zlen v' = Zlen v /\ 0 <= nf <= n
    /\ front nf fr = unassigned x n /\ (exact -> transfer_inv x y n v').
Proof using Hd Hex.
  intros Hx Hu Hfr Hv Hxy H0. pose proof (dn_n Hd) as Hn. unfold ccrrt_transfer.
  edestruct (for_range_inv (λ i '(nf, fr, v'), Zlen fr = Zlen free_rows /\ Zlen v' = Zlen v
      /\ 0 <= nf <= i /\ front nf fr = unassigned x i /\ (exact -> transfer_inv x y i v')))
    as ([[nf fr] v'] & E & H); [| | |exists nf, fr, v'; split; [exact E|exact H]]; [lia| |].
  { split; [done|]. split; [done|]. split; [lia|]. split; [done|done]. }
  intros i [[nf fr] v'] Hi (H1 & H2 & H3 & H4 & H5). arr.
  rewrite unassigned_succ by lia. destruct (Z.ltb_spec (x⟦i⟧) 0) as [Hneg|Hpos].
  { arr. eexists. split; [reflexivity|]. cbv beta iota. rewrite Zlen_updZ, front_snoc, H4 by lia.
    split; [done|]. split; [done|]. split; [lia|]. split; [done|]. intros. by apply transfer_skip, H5. }
  rewrite app_nil_r. arr. destruct (unique⟦i⟧).
  2: { eexists. split; [reflexivity|]. split; [done|]. split; [done|]. split; [lia|]. split; [done|].
       intros. by apply transfer_skip, H5. }
  destruct (ccrrt_min_spec v' i (x⟦i⟧)) as (m & -> & Hm & Hm0); [lia|done|]. cbn [mbind option_bind].
  destruct (Hxy i Hi Hpos) as [Hxn _]. arr. eexists. split; [reflexivity|]. cbv beta iota. rewrite Zlen_updZ.
  split; [done|]. split; [done|]. split; [lia|]. split; [done|]. intros e.
  apply transfer_row; try done; [lia|by apply Hm| |by apply H5].
  apply Hm0; [done|]. intros. apply (tr_pos _ _ _ _ (H5 e)); lia.
Qed.

Lemma ccrrt_dense_spec (new : allocator K) free_rows x y v :
  n <= Zlen free_rows -> n <= Zlen x -> n <= Zlen y -> n <= Zlen v -> new_unique new = true ->
  exists nf fr x' y' v', _ccrrt_dense new n cost free_rows x y v = Some (nf, fr, x', y', v')
    /\ 0 <= nf <= n /\ n <= Zlen fr /\ partial (front nf fr) x' y' v'
    /\ (exact -> prices (front nf fr) y' v').
Proof using Hd Hex.
  intros Hfr Hx Hy Hv Hnew. pose proof (dn_n Hd) as Hn. unfold _ccrrt_dense.
  edestruct (for_range_inv (λ i '(x', v', y'), Zlen x' = Zlen x /\ Zlen v' = Zlen v /\ Zlen y' = Zlen y
      /\ forall j, 0 <= j < i -> x'⟦j⟧ = -1 /\ v'⟦j⟧ = LARGE /\ y'⟦j⟧ = 0))
    as ([[x1 v1] y1] & -> & Hx1 & Hv1 & Hy1 & H1); [| | |]; [lia| | |].
  { split; [done|]. split; [done|]. split; [done|]. lia. }
  { intros i [[x' v'] y'] Hi (H1 & H2 & H3 & H4). arr. eexists. split; [reflexivity|].
    cbv beta iota. rewrite !Zlen_updZ. split; [done|]. split; [done|]. split; [done|].
    intros j Hj. rewrite !nthZ_updZ by lia. destruct (Z.eqb_spec j i); [done|]. apply H4. lia. }
  cbn [mbind option_bind].
  destruct (ccrrt_columns_spec y1 v1) as (y2 & v2 & -> & Hy2 & Hv2 & H2); [lia|lia| |].
  { intros j Hj. destruct (H1 j Hj) as (_ & ? & ?). done. }
  cbn [mbind option_bind]. rewrite Hnew. cbn [negb].
  destruct (ccrrt_assign_spec y2 (Z.to_nat n + 1) n x1 y2 (replicate (Z.to_nat n) true))
    as (x3 & y3 & u3 & -> & Ha); [intros; by apply H2|lia|lia| |].
  { split; [lia|lia|unfold Zlen; rewrite length_replicate; lia|done|lia|].
    intros i Hi. left. by apply H1. }
  cbn [mbind option_bind]. destruct Ha as [Hx3 Hy3 Hu3 _ Hdo Hxi].
  assert (Hxy : forall i, 0 <= i < n -> 0 <= x3⟦i⟧ -> x3⟦i⟧ < n /\ y3⟦x3⟦i⟧⟧ = i).
  { intros i Hi H. destruct (Hxi i Hi) as [?|[? ?]]; [lia|]. split; [lia|done]. }
  destruct (ccrrt_transfer_spec x3 y3 u3 free_rows v2) as (nf & fr & v4 & -> & Hlf & Hlv & Hnf & HF & Htr);
    [lia..|done| |].
  { intros e. pose proof (Hex e) as He. destruct (Hex e) as [Hva Hb HL].
    assert (Hmin : forall i j, 0 <= i < n -> 0 <= j < n -> 0 <= red v2 i j /\ 0 <= val (v2⟦j⟧)).
    { intros i j Hi Hj. destruct (H2 j Hj) as (Hr & _ & H). destruct (H e) as [Ha Hm].
      specialize (Hm i Hi). destruct Ha as [Ha Ev]; [lia|]. unfold red.
      specialize (Hb (y2⟦j⟧) j Hr Hj). lia. }
    assert (Hx0 : forall i, 0 <= i < n -> 0 <= x3⟦i⟧ -> red v2 i (x3⟦i⟧) = 0).
    { intros i Hi H. destruct (Hxy i Hi H) as [Hxn Hyi].
      destruct (Hdo (x3⟦i⟧)) as [E|[E _]]; [lia|lia|].
      destruct (H2 (x3⟦i⟧)) as (_ & _ & Hc); [lia|]. destruct (Hc e) as [[_ Hv'] _]; [lia|].
      unfold red. rewrite Hv', <-E, Hyi. lia. }
    split.
    - intros. by apply Hmin.
    - intros i Hi H k Hk. rewrite Hx0 by done. by apply Hmin.
    - intros j Hj _. by apply (Hmin 0 j); [lia|].
    - intros _ j Hj. destruct (Hmin 0 j) as [_ ?]; [lia|done|]. specialize (Hb 0 0). lia.
    - intros. apply Hx0; [lia|done]. }
  cbn [mbind option_bind]. exists nf, fr, x3, y3, v4. split; [done|]. split; [done|]. split; [lia|].
  assert (HFi : forall i, i ∈ unassigned x3 n <-> x3⟦i⟧ < 0 /\ 0 <= i < n).
  { intros i. unfold unassigned. by rewrite list_elem_of_filter, elem_range. }
  rewrite HF.
  assert (Hmt : matching n (unassigned x3 n) x3 y3).
  { split; [done|done|apply NoDup_filter, NoDup_range|intros i; rewrite HFi; tauto| |].
    - intros j Hj. destruct (Hdo j) as [->|[E1 E2]]; [done|by left|right].
      destruct (H2 j Hj) as (Hr & _). rewrite <-E1 in Hr. split; [done|]. split; [|done].
      rewrite HFi, E2. lia.
    - intros i Hi Hn'. rewrite HFi in Hn'. destruct (Hxi i Hi); [lia|done]. }
  split; [split; [done|lia|]|].
  - intros e i Hi Hn'. apply (tr_tight _ _ _ _ (Htr e)); [done|]. rewrite HFi in Hn'. lia.
  - intros e. split; [apply (tr_free _ _ _ _ (Htr e))|]. intros Hne. apply (tr_low _ _ _ _ (Htr e)).
    intros E. apply matching_free in Hmt. rewrite E in Hmt. by destruct (unassigned x3 n); [|cbn in Hmt; lia].
Qed.

(** *** Augmenting row reduction *)

(** A free row takes a column whose price may fall. *)
Lemma partial_assign i rest x y v v' j : partial (i :: rest) x y v -> 0 <= j < n -> n <= Zlen v' ->
  (exact -> tight v' i j /\ (forall i' k, 0 <= i' < n -> 0 <= k < n -> red v i' k <= red v' i' k)
            /\ forall i' k, 0 <= i' < n -> 0 <= k < n -> k <> j -> red v' i' k = red v i' k) ->
  partial (if 0 <=? y⟦j⟧ then y⟦j⟧ :: rest else rest) (updZ x i j) (updZ y j i) v'.
Proof.
  intros [Hmt Hlv Hti] Hj Hlv' H. split; [by apply matching_assign|done|].
  intros e i' Hi' Hn'. destruct (H e) as (Ht & Hle & Heq). destruct Hmt as [Hlx Hly Hnd Hr Hy Hx].
  assert (Hi : 0 <= i < n) by (apply Hr; left).
  rewrite nthZ_updZ by lia. destruct (Z.eqb_spec i' i) as [->|Hne]; [done|].
  assert (Hf : i' ∉ i :: rest) by (destruct (0 <=? y⟦j⟧); set_solver).
  destruct (Hx i' Hi' Hf) as [Hx1 Hx2].
  assert (Hxj : x⟦i'⟧ <> j).
  { intros E. rewrite E in Hx2. rewrite Hx2 in Hn'. destruct (Z.leb_spec 0 i'); [set_solver|lia]. }
  intros k Hk. rewrite Heq by done. etrans; [by apply Hti|]. by apply Hle.
Qed.

Lemma free_other F x y j : matching n F x y ->
  (2 <= length F)%nat \/ (0 <= y⟦j⟧ /\ F <> []) -> exists jf, 0 <= jf < n /\ y⟦jf⟧ < 0 /\ jf <> j.
Proof.
  intros Hm Hc. pose proof (matching_free _ _ _ _ Hm) as Hl.
  assert (Hnd : NoDup (free_columns n y)) by apply NoDup_filter, NoDup_range.
  assert (Hel : forall k, k ∈ free_columns n y -> y⟦k⟧ < 0 /\ 0 <= k < n).
  { intros k. by rewrite elem_free_columns. }
  destruct (free_columns n y) as [|a [|b l]]; cbn [length] in Hl.
  - destruct Hc as [|[_ Hc]]; [lia|]. destruct F; [done|cbn in *; lia].
  - destruct (Hel a) as [Ha Ha']; [left|]. exists a. split; [done|]. split; [done|].
    intros ->. destruct Hc as [|[? _]]; lia.
  - destruct (Hel a) as [Ha Ha']; [left|]. destruct (Hel b) as [Hb Hb']; [right; left|].
    apply NoDup_cons in Hnd as [Hab _]. destruct (decide (a = j)) as [->|]; [|by exists a].
    exists b. split; [done|]. split; [done|]. intros ->. set_solver.
Qed.

(** What the search of a row finds among the first [m] columns. *)
Record two_smallest v (i m j1 : Z) (v1 : K) (j2 : Z) (v2 : K) : Prop := {
  tw_j1 : red v i j1 = val v1;
  tw_v1 : forall k, 0 <= k < m -> val v1 <= red v i k;
  tw_v2 : forall k, 0 <= k < m -> k <> j1 -> val v2 <= red v i k;
  tw_le : val v1 <= val v2;
  tw_j2 : 0 <= j2 -> red v i j2 = val v2
}.

Lemma carr_two_spec v i : n <= Zlen v -> 0 <= i < n ->
  exists j1 (v1 : K) j2 (v2 : K), carr_two n cost v i = Some (j1, v1, j2, v2)
    /\ 0 <= j1 < n /\ (j2 = -1 \/ 0 <= j2 < n)
    /\ (exact -> (forall k, 0 <= k < n -> red v i k < val LARGE) -> two_smallest v i n j1 v1 j2 v2).
Proof using Hd Hex.
  intros Hv Hi. pose proof (dn_n Hd) as Hn. unfold carr_two. rewrite cost_at_in by lia.
  cbn [mbind option_bind]. arr.
  edestruct (for_range_inv (λ m (s : Z * K * Z * K), let '(j1, v1, j2, v2) := s in 0 <= j1 < m /\ (j2 = -1 \/ 0 <= j2 < m)
      /\ (exact -> (forall k, 0 <= k < n -> red v i k < val LARGE) -> two_smallest v i m j1 v1 j2 v2)))
    as ([[[j1 v1] j2] v2] & -> & H); [| | |exists j1, v1, j2, v2; split; [done|exact H]]; [lia| |].
  - split; [lia|]. split; [by left|]. intros e Hr. destruct (Hex e) as [He _ _].
    assert (E : val (c_sub (cost⟦i⟧⟦0⟧) (v⟦0⟧)) = red v i 0) by (by rewrite val_sub).
    split; [done| | |rewrite E; specialize (Hr 0); lia|lia]; intros k Hk; [|lia].
    replace k with 0 by lia. lia.
  - intros k [[[j1 v1] j2] v2] Hk (H1 & H2 & H3). rewrite cost_at_in by lia.
    cbn [mbind option_bind]. arr. eexists. split; [reflexivity|].
    destruct (c_lt (c_sub (cost⟦i⟧⟦k⟧) (v⟦k⟧)) v2) eqn:El;
      [destruct (c_le v1 (c_sub (cost⟦i⟧⟦k⟧) (v⟦k⟧))) eqn:Ele|].
    all: split; [lia|]; split; [lia|]; intros e Hr; destruct (H3 e Hr) as [T1 T2 T3 T4 T5];
      destruct (Hex e) as [He _ _]; rewrite ?val_lt, ?val_le, ?val_sub in *;
      fold (w i k) (red v i k) in *; split; rewrite ?val_sub; fold (w i k) (red v i k);
      try lia; try done; intros k' Hk'; destruct (Z.eq_dec k' k) as [->|Hne]; try lia;
      try (specialize (T2 k'); lia); try (specialize (T3 k'); lia).
    all: intros Hj1; specialize (T3 k'); destruct (Z.eq_dec k' j1) as [->|]; lia.
Qed.

(** The rows that were free from entry [c] to entry [m]. *)
Definition back (c m : Z) free_rows : list Z :=
  take (Z.to_nat (m - c)) (drop (Z.to_nat c) free_rows).

Lemma back_cons c m l : 0 <= c < m -> m <= Zlen l -> back c m l = l⟦c⟧ :: back (c + 1) m l.
Proof.
  intros Hc Hm. unfold back. rewrite (drop_S l (l⟦c⟧) (Z.to_nat c)) by (apply nthZ_lookup; lia).
  replace (Z.to_nat (m - c)) with (S (Z.to_nat (m - (c + 1)))) by lia. cbn [take].
  by replace (Z.to_nat (c + 1)) with (S (Z.to_nat c)) by lia.
Qed.

Lemma back_upd c m l k a : 0 <= k < c -> back c m (updZ l k a) = back c m l.
Proof. intros H. unfold back, updZ. by rewrite drop_insert_lt by lia. Qed.

Lemma front_upd nf l k a : nf <= k -> front nf (updZ l k a) = front nf l.
Proof. intros H. unfold front, updZ. by rewrite take_insert_ge by lia. Qed.

(** All free rows: the ones to do and the ones put off. *)
Definition carr_free (m : Z) (s : @carr_state K) : list Z :=
  front (ca_new_free s) (ca_free_rows s) ++ back (ca_current s) m (ca_free_rows s).

Record carr_inv (m : Z) (s : @carr_state K) : Prop := {
  ci_index : 0 <= ca_new_free s <= ca_current s /\ ca_current s <= m <= n;
  ci_len : n <= Zlen (ca_free_rows s);
  ci_partial : partial (carr_free m s) (ca_x s) (ca_y s) (ca_v s);
  ci_prices : exact -> prices (carr_free m s) (ca_y s) (ca_v s)
}.

(** Taking the cheapest column at the price of the second cheapest. *)
Lemma lower_price i rest x y v j1 (v1 : K) j2 (v2 : K) : exact -> partial (i :: rest) x y v ->
  prices (i :: rest) y v -> 0 <= i < n -> 0 <= j1 < n -> two_smallest v i n j1 v1 j2 v2 ->
  let v' := updZ v j1 (c_sub (v⟦j1⟧) (c_sub v2 v1)) in
  (tight v' i j1 /\ (forall i' k, 0 <= i' < n -> 0 <= k < n -> red v i' k <= red v' i' k)
   /\ forall i' k, 0 <= i' < n -> 0 <= k < n -> k <> j1 -> red v' i' k = red v i' k)
  /\ prices (if 0 <=? y⟦j1⟧ then y⟦j1⟧ :: rest else rest) (updZ y j1 i) v'.
Proof using Hd Hex.
  intros e [Hmt Hlv Hti] [Hp0 Hpl] Hi Hj [T1 T2 T3 T4 T5] v'. destruct (Hex e) as [He Hb HL].
  assert (Hr : forall i' k, 0 <= k < n ->
            red v' i' k = if k =? j1 then red v i' k + (val v2 - val v1) else red v i' k).
  { intros i' k Hk. unfold v'. rewrite red_updZ by (done || lia). by rewrite val_sub. }
  split; [split|].
  - intros k Hk. rewrite !Hr by done. rewrite Z.eqb_refl. destruct (Z.eqb_spec k j1) as [->|Hne]; [lia|].
    specialize (T3 k Hk Hne). lia.
  - split; intros i' k Hi' Hk; rewrite Hr by done; destruct (Z.eqb_spec k j1); (done || lia).
  - pose proof (mt_y_len _ _ _ _ Hmt) as Hly. split.
    + intros j Hj'. rewrite (nthZ_updZ y) by lia. destruct (Z.eqb_spec j j1); [lia|].
      intros Hyj. unfold v'. rewrite nthZ_updZ_ne by lia. by apply Hp0.
    + intros Hne j Hj'. unfold v'. rewrite nthZ_updZ by lia. destruct (Z.eqb_spec j j1) as [->|]; [|by apply Hpl].
      destruct (free_other _ _ _ j1 Hmt) as (jf & Hjf & Hyf & Hnf).
      { destruct (Z.leb_spec 0 (y⟦j1⟧)); [by right|left]. destruct rest; [done|cbn; lia]. }
      specialize (T3 jf Hjf Hnf). specialize (Hp0 jf Hjf Hyf).
      pose proof (Hb i jf Hi Hjf). pose proof (Hb i j1 Hi Hj). rewrite !val_sub. unfold red in *. lia.
Qed.

(** Taking a cheapest column at its price. *)
Lemma keep_price i rest y v j : prices (i :: rest) y v -> n <= Zlen y -> 0 <= j < n -> 0 <= i ->
  prices (if 0 <=? y⟦j⟧ then y⟦j⟧ :: rest else rest) (updZ y j i) v.
Proof.
  intros [Hp0 Hpl] Hly Hj Hi. split.
  - intros k Hk. rewrite (nthZ_updZ y) by lia. destruct (Z.eqb_spec k j); [lia|]. by apply Hp0.
  - intros _. by apply Hpl.
Qed.

Lemma partial_perm F F' x y v : F ≡ₚ F' -> partial F x y v -> partial F' x y v.
Proof.
  intros HF [Hm Hl Ht]. split; [by eapply matching_perm|done|].
  intros e i Hi. rewrite <-HF. by apply Ht.
Qed.

Lemma prices_perm F F' y v : F ≡ₚ F' -> prices F y v -> prices F' y v.
Proof.
  intros HF [H1 H2]. split; [done|]. intros Hn. apply H2. intros ->. by apply Permutation_nil_l in HF.
Qed.

(** The row [i] has taken column [j]; the row that lost it is the first of the free rows. *)
Definition taken i rest x y j v' : Prop :=
  partial (if 0 <=? y⟦j⟧ then y⟦j⟧ :: rest else rest) (updZ x i j) (updZ y j i) v'
  /\ (exact -> prices (if 0 <=? y⟦j⟧ then y⟦j⟧ :: rest else rest) (updZ y j i) v').

Lemma taken_low i rest x y v j1 (v1 : K) j2 (v2 : K) : partial (i :: rest) x y v ->
  (exact -> prices (i :: rest) y v) -> 0 <= i < n -> 0 <= j1 < n ->
  (exact -> two_smallest v i n j1 v1 j2 v2) ->
  taken i rest x y j1 (updZ v j1 (c_sub (v⟦j1⟧) (c_sub v2 v1))).
Proof using Hd Hex.
  intros Hp Hpr Hi Hj Ht. split.
  - apply (partial_assign i rest x y v); [done|done|rewrite Zlen_updZ; apply Hp|]. intros e.
    by apply (lower_price i rest x y v j1 v1 j2 v2 e Hp (Hpr e) Hi Hj (Ht e)).
  - intros e. by apply (lower_price i rest x y v j1 v1 j2 v2 e Hp (Hpr e) Hi Hj (Ht e)).
Qed.

Lemma taken_same i rest x y v j : partial (i :: rest) x y v -> (exact -> prices (i :: rest) y v) ->
  0 <= i < n -> 0 <= j < n -> (exact -> tight v i j) -> taken i rest x y j v.
Proof.
  intros Hp Hpr Hi Hj Ht. split.
  - apply (partial_assign i rest x y v); [done|done|apply Hp|]. intros e. split; [by apply Ht|].
    split; [|done]. intros. lia.
  - intros e. apply keep_price; [by apply Hpr|apply Hp|done|lia].
Qed.

(** The three ways a pass ends. *)
Lemma inv_no_row m s i rest x y j v' nf c rr fr :
  s = {| ca_current := c; ca_new_free := nf; ca_rr_cnt := rr; ca_free_rows := fr;
         ca_x := updZ x i j; ca_y := updZ y j i; ca_v := v' |} ->  taken i rest x y j v' -> y⟦j⟧ < 0 ->
  0 <= nf <= c /\ c <= m <= n -> n <= Zlen fr -> front nf fr ++ back c m fr ≡ₚ rest ->
  carr_inv m s.
Proof.
  intros -> [Hp Hpr] Hyj Hc Hl HF. destruct (Z.leb_spec 0 (y⟦j⟧)); [lia|].
  split; cbn; [done|done| |]; unfold carr_free; cbn.
  - eapply partial_perm; [symmetry; exact HF|done].
  - intros e. eapply prices_perm; [symmetry; exact HF|by apply Hpr].
Qed.

Lemma inv_row m s i rest x y j v' nf c rr fr :
  s = {| ca_current := c; ca_new_free := nf; ca_rr_cnt := rr; ca_free_rows := fr;
         ca_x := updZ x i j; ca_y := updZ y j i; ca_v := v' |} ->  taken i rest x y j v' -> 0 <= y⟦j⟧ ->
  0 <= nf <= c /\ c <= m <= n -> n <= Zlen fr -> front nf fr ++ back c m fr ≡ₚ y⟦j⟧ :: rest ->
  carr_inv m s.
Proof.
  intros -> [Hp Hpr] Hyj Hc Hl HF. destruct (Z.leb_spec 0 (y⟦j⟧)); [|lia].
  split; cbn; [done|done| |]; unfold carr_free; cbn.
  - eapply partial_perm; [symmetry; exact HF|done].
  - intros e. eapply prices_perm; [symmetry; exact HF|by apply Hpr].
Qed.

(** The row that lost column [j], if there is one, is put off. *)
Ltac put_off j Htk Hpush :=
  arr; match goal with |- context [0 <=? nthZ ?l j] => destruct (Z.leb_spec 0 (nthZ l j)) end;
  arr; eexists; (split; [reflexivity|]); (split; [|cbn; split; [done|by left]]);
  [eapply inv_row; [reflexivity|exact Htk|done|lia|arr_lia|apply Hpush]
  |eapply inv_no_row; [reflexivity|exact Htk|done|lia|done|done]].

Lemma red_small i rest x y v : exact -> prices (i :: rest) y v -> 0 <= i < n ->
  partial (i :: rest) x y v -> forall k, 0 <= k < n -> red v i k < val LARGE.
Proof using Hd Hex.
  intros e [_ Hl] Hi _ k Hk. destruct (Hex e) as [_ Hb HL]. specialize (Hl ltac:(done) k Hk).
  specialize (Hb i k Hi Hk). unfold red. lia.
Qed.

Lemma carr_pass_spec m s : carr_inv m s -> ca_current s < m ->
  0 <= ca_rr_cnt s -> ca_rr_cnt s + 1 < 4294967296 ->
  exists s', carr_pass n cost s = Some s' /\ carr_inv m s' /\ ca_rr_cnt s' = ca_rr_cnt s + 1
    /\ (ca_current s' = ca_current s + 1
        \/ (ca_current s' = ca_current s /\ ca_rr_cnt s + 1 < m * n)).
Proof using Hd Hex.
  destruct s as [c nf rr fr x y v]. cbn. intros [Hix Hlf Hp Hpr] Hcm Hr0 Hr1.
  unfold carr_free in Hp, Hpr. cbn in *. pose proof (dn_n Hd) as Hn.
  rewrite (back_cons c m fr) in Hp, Hpr by lia. unfold carr_pass. cbn.
  rewrite (u32_id (rr + 1)), (u32_id (c + 1)), (u32_id ((c + 1) * n)) by nia. arr.
  set (i := fr⟦c⟧) in *. set (rest := front nf fr ++ back (c + 1) m fr).
  assert (HF : front nf fr ++ i :: back (c + 1) m fr ≡ₚ i :: rest) by (symmetry; apply Permutation_middle).
  apply (partial_perm _ _ _ _ _ HF) in Hp.
  assert (Hpr' : exact -> prices (i :: rest) y v) by (intros e; eapply prices_perm; [exact HF|by apply Hpr]).
  clear Hpr. destruct (Hp) as [Hmt Hlv _]. pose proof (mt_x_len _ _ _ _ Hmt). pose proof (mt_y_len _ _ _ _ Hmt).
  assert (Hi : 0 <= i < n) by (apply (mt_rows _ _ _ _ Hmt); left).
  destruct (carr_two_spec v i Hlv Hi) as (j1 & v1 & j2 & v2 & -> & Hj1 & Hj2 & Htw). cbn [mbind option_bind].
  assert (Htw' : exact -> two_smallest v i n j1 v1 j2 v2).
  { intros e. apply Htw; [done|]. by eapply red_small; eauto. }
  clear Htw. arr.
  assert (Hpush : front (nf + 1) (updZ fr nf (y⟦j1⟧)) ++ back (c + 1) m (updZ fr nf (y⟦j1⟧))
                  ≡ₚ y⟦j1⟧ :: rest /\
                  front (nf + 1) (updZ fr nf (y⟦j2⟧)) ++ back (c + 1) m (updZ fr nf (y⟦j2⟧))
                  ≡ₚ y⟦j2⟧ :: rest).
  { split; rewrite front_snoc, back_upd by lia; rewrite <-(assoc_L (++)); symmetry; apply Permutation_middle. }
  assert (Hkeep : exact -> tight v i j1).
  { intros e k Hk. rewrite (tw_j1 _ _ _ _ _ _ _ (Htw' e)). by apply (tw_v1 _ _ _ _ _ _ _ (Htw' e)). }
  destruct (Z.ltb_spec (rr + 1) ((c + 1) * n)) as [Hrr|Hrr].
  2: { pose proof (taken_same i rest x y v j1 Hp Hpr' Hi Hj1 Hkeep) as Htk. put_off j1 Htk Hpush. }
  destruct (c_lt (c_sub (v⟦j1⟧) (c_sub v2 v1)) (v⟦j1⟧)) eqn:Elow.
  - pose proof (taken_low i rest x y v j1 v1 j2 v2 Hp Hpr' Hi Hj1 Htw') as Htk. arr.
    destruct (Z.leb_spec 0 (y⟦j1⟧)).
    + rewrite u32_id by lia. replace (c + 1 - 1) with c by lia. arr. eexists. split; [reflexivity|].
      split; [|cbn; split; [done|right; nia]].
      eapply inv_row; [reflexivity|exact Htk|done|lia|arr_lia|].
      rewrite front_upd, back_cons, back_upd by arr_lia. rewrite nthZ_updZ_eq by lia.
      symmetry. apply Permutation_middle.
    + arr. eexists. split; [reflexivity|]. split; [|cbn; split; [done|by left]].
      eapply inv_no_row; [reflexivity|exact Htk|done|lia|done|done].
  - destruct ((0 <=? y⟦j1⟧) && (0 <=? j2)) eqn:Ej2.
    + apply andb_true_iff in Ej2 as [Hy1 Hj2']. apply Z.leb_le in Hy1, Hj2'. arr.
      assert (Htk : taken i rest x y j2 v).
      { apply taken_same; [done|done|done|lia|]. intros e k Hk. destruct (Hex e) as [He _ _].
        rewrite val_lt, !val_sub in Elow. destruct (Htw' e) as [T1 T2 _ T4 T5]. specialize (T2 k Hk). lia. }
      put_off j2 Htk Hpush.
    + pose proof (taken_same i rest x y v j1 Hp Hpr' Hi Hj1 Hkeep) as Htk. put_off j1 Htk Hpush.
Qed.

(** Rows to do, and passes that may still put one back. *)
Definition carr_measure (m : Z) (s : @carr_state K) : Z :=
  (m - ca_current s) + Z.max 0 (m * n - ca_rr_cnt s).

Lemma carr_loop_spec m fuel s : carr_inv m s -> 0 <= ca_rr_cnt s ->
  (Z.to_nat (carr_measure m s) <= fuel)%nat -> ca_rr_cnt s + carr_measure m s < 4294967296 ->
  exists s', carr_loop fuel n cost m s = Some s' /\ carr_inv m s' /\ ca_current s' = m.
Proof using Hd Hex.
  revert s. induction fuel as [|fuel IH]; intros s Hi Hr Hf Hb; cbn [carr_loop];
    destruct (Z.ltb_spec (ca_current s) m) as [Hlt|Hge].
  1: { unfold carr_measure in Hf. lia. }
  1,3: exists s; split; [done|]; split; [done|]; pose proof (ci_index _ _ Hi); lia.
  unfold carr_measure in *. destruct (carr_pass_spec m s) as (s' & -> & Hi' & Hr' & Hc); [done|done|done|lia|].
  cbn [mbind option_bind]. apply IH; [done|lia|lia|lia].
Qed.

Lemma carr_dense_spec nf fr x y v : 0 <= nf <= n -> n <= Zlen fr -> partial (front nf fr) x y v ->
  (exact -> prices (front nf fr) y v) ->
  exists nf' fr' x' y' v', _carr_dense n cost nf fr x y v = Some (nf', fr', x', y', v')
    /\ 0 <= nf' <= nf /\ n <= Zlen fr' /\ partial (front nf' fr') x' y' v'
    /\ (exact -> prices (front nf' fr') y' v').
Proof using Hd Hex.
  intros Hnf Hfr Hp Hpr. pose proof (dn_n Hd) as Hn. unfold _carr_dense.
  assert (EF : front 0 fr ++ back 0 nf fr = front nf fr).
  { unfold front, back. cbn. by replace (nf - 0) with nf by lia. }
  destruct (carr_loop_spec nf (Z.to_nat (n * n + n))
    {| ca_current := 0; ca_new_free := 0; ca_rr_cnt := 0;
       ca_free_rows := fr; ca_x := x; ca_y := y; ca_v := v |}) as (s & -> & Hi & Hc).
  - split; unfold carr_free; cbn; [lia|done|by rewrite EF|by rewrite EF].
  - done.
  - unfold carr_measure. cbn. nia.
  - unfold carr_measure. cbn. nia.
  - destruct Hi as [Hix Hlf Hp' Hpr']. cbn [mbind option_bind].
    do 5 eexists. split; [reflexivity|]. split; [lia|]. split; [done|].
    assert (EF' : carr_free nf s = front (ca_new_free s) (ca_free_rows s)).
    { unfold carr_free, back. rewrite Hc, Z.sub_diag. cbn. apply app_nil_r. }
    rewrite EF' in *. by split.
Qed.
End costs.
