(* ===== verification/LapjvPath.v ===== *)
(** * Augmenting paths and the whole assignment ([yolov8_infer/lapjv.cpp])

    The search of the cheapest path from a free row to a free column, the change of the
    assignment along it, and what the algorithm returns. *)

From S2P Require Import Prelude Arrays CFloat Lapjv.
From stdpp Require Import list_numbers.
Local Open Scope list_scope.
Local Open Scope Z_scope.

Section paths.
Context {K : Type} {HK : Cost K} (val : K -> Z) (exact : Prop) (n C : Z) (cost : list (list K)).
Implicit Types F x y free_rows pred cols : list Z.
Implicit Types v d : list K.
Hypothesis Hd : dense n cost.
Hypothesis Hex : exact -> exact_costs val n C cost.

Local Abbreviation red := (red val cost).
Local Abbreviation tight := (tight val n cost).
Local Abbreviation all_tight := (all_tight val n cost).
Local Abbreviation partial := (partial val exact n cost).

(** ** The order of the columns *)

Record col_perm cols : Prop := {
  cp_len : n <= Zlen cols;
  cp_range : forall k, 0 <= k < n -> 0 <= cols⟦k⟧ < n;
  cp_inj : forall k m, 0 <= k < n -> 0 <= m < n -> cols⟦k⟧ = cols⟦m⟧ -> k = m;
  cp_surj : forall j, 0 <= j < n -> exists k, 0 <= k < n /\ cols⟦k⟧ = j
}.

Definition swap cols (k m : Z) : list Z := updZ (updZ cols k (cols⟦m⟧)) m (cols⟦k⟧).

Lemma swap_at cols k m i : n <= Zlen cols -> 0 <= k < n -> 0 <= m < n -> 0 <= i ->
  (swap cols k m)⟦i⟧ = if i =? m then cols⟦k⟧ else if i =? k then cols⟦m⟧ else cols⟦i⟧.
Proof. intros. unfold swap. rewrite !nthZ_updZ by arr_lia. done. Qed.

Lemma col_perm_swap cols k m : col_perm cols -> 0 <= k < n -> 0 <= m < n -> col_perm (swap cols k m).
Proof.
  intros [Hl Hr Hi Hs] Hk Hm.
  pose proof (fun i => swap_at cols k m i Hl Hk Hm) as E.
  split.
  - unfold swap. by rewrite !Zlen_updZ.
  - intros i Hi'. rewrite E by lia. repeat case_match; by apply Hr.
  - intros i i' H1 H2. rewrite !E by lia.
    destruct (Z.eqb_spec i m), (Z.eqb_spec i' m), (Z.eqb_spec i k), (Z.eqb_spec i' k); subst; try done;
      intros Ec; apply Hi in Ec; lia.
  - intros j Hj. destruct (Hs j Hj) as (i & Hi' & <-).
    exists (if i =? m then k else if i =? k then m else i).
    destruct (Z.eqb_spec i m); [|destruct (Z.eqb_spec i k)]; subst; rewrite E by lia;
      (split; [lia|]); repeat match goal with |- context [?a =? ?b] => destruct (Z.eqb_spec a b) end;
      subst; done.
Qed.

(** Two orders that agree below [lo] have the same columns above it. *)
Lemma perm_suffix cols cols' lo k : col_perm cols -> col_perm cols' ->
  (forall m, 0 <= m < lo -> cols'⟦m⟧ = cols⟦m⟧) -> 0 <= lo <= k -> k < n ->
  exists k0, lo <= k0 < n /\ cols'⟦k⟧ = cols⟦k0⟧.
Proof.
  intros [_ _ _ Hs] [_ Hr Hi _] Hag Hk Hkn. destruct (Hs (cols'⟦k⟧)) as (k0 & Hk0 & E); [apply Hr; lia|].
  exists k0. split; [|done]. destruct (Z.lt_ge_cases k0 lo); [|lia].
  rewrite <-Hag in E by lia. apply Hi in E; lia.
Qed.

(** ** The next columns *)

Definition dist (d : list K) (j : Z) : Z := val (d⟦j⟧).

Lemma find_dense_spec d cols lo : col_perm cols -> n <= Zlen d -> 0 <= lo < n ->
  exists hi cols', _find_dense n lo d cols = Some (hi, cols') /\ lo < hi <= n /\ col_perm cols'
    /\ (forall k, 0 <= k < lo -> cols'⟦k⟧ = cols⟦k⟧)
    /\ (exact -> forall k m, lo <= k < hi -> lo <= m < n -> dist d (cols'⟦k⟧) <= dist d (cols'⟦m⟧)).
Proof using Hex.
  intros Hcp Hld Hlo. pose proof (cp_len _ Hcp) as Hlc. pose proof (cp_range _ Hcp lo Hlo) as Hj0.
  unfold _find_dense. arr.
  edestruct (for_range_inv (λ k (s : Z * K * list Z), let '(hi, mind, cs) := s in
      lo < hi <= k /\ col_perm cs /\ (forall m, 0 <= m < lo -> cs⟦m⟧ = cols⟦m⟧)
      /\ (exact -> (forall m, lo <= m < hi -> dist d (cs⟦m⟧) = val mind)
                   /\ forall m, lo <= m < k -> val mind <= dist d (cs⟦m⟧))))
    as ([[hi mind] cs] & -> & Hhi & Hp & Hag & He); [| | |]; [lia| | |].
  - split; [lia|]. split; [done|]. split; [done|]. intros e.
    split; intros m Hm; replace m with lo by lia; unfold dist; lia.
  - intros k [[hi mind] cs] Hk (Hhi & Hp & Hag & He). pose proof (cp_len _ Hp). arr.
    pose proof (cp_range _ Hp k ltac:(lia)). arr.
    assert (Hsw : forall hi', lo <= hi' < hi + 1 -> forall m, 0 <= m < lo -> (swap cs k hi')⟦m⟧ = cols⟦m⟧).
    { intros hi' Hhi' m Hm. rewrite swap_at by lia.
      destruct (Z.eqb_spec m hi'), (Z.eqb_spec m k); [lia..|by apply Hag]. }
    destruct (c_le (d⟦cs⟦k⟧⟧) mind) eqn:Ele.
    2: { eexists. split; [reflexivity|]. split; [lia|]. split; [done|]. split; [done|].
         intros e. destruct (He e) as [E1 E2]. destruct (Hex e) as [Hv _ _]. rewrite val_le in Ele.
         split; [done|]. intros m Hm. destruct (Z.eq_dec m k) as [->|]; [unfold dist; lia|apply E2; lia]. }
    destruct (c_lt (d⟦cs⟦k⟧⟧) mind) eqn:Elt; arr; fold (swap cs k lo) (swap cs k hi);
      eexists; (split; [reflexivity|]); (split; [lia|]); (split; [apply col_perm_swap; [done|lia|lia]|]);
      (split; [apply Hsw; lia|]); intros e; destruct (He e) as [E1 E2]; destruct (Hex e) as [Hv _ _];
      rewrite val_le, val_lt in *; unfold dist in *; split; intros m Hm; rewrite swap_at by lia;
      repeat match goal with |- context [?a =? ?b] => destruct (Z.eqb_spec a b) end; subst; try lia.
    all: try (pose proof (E1 lo ltac:(lia)); pose proof (E2 lo ltac:(lia))).
    all: try (pose proof (E1 hi ltac:(lia))); try (pose proof (E2 hi ltac:(lia))); try lia.
    all: try (specialize (E2 m ltac:(lia))); try (specialize (E1 m ltac:(lia))); try lia.
  - cbn [mbind option_bind]. exists hi, cs. split; [done|]. split; [lia|]. split; [done|]. split; [done|].
    intros e k m Hk Hm. destruct (He e) as [E1 E2]. rewrite E1 by lia. by apply E2.
Qed.

(** ** The search *)

Section search.
Context (start : Z) (R x y : list Z) (v : list K).
Hypothesis Hp : partial (start :: R) x y v.

Lemma start_range : 0 <= start < n.
Proof using Hp. apply (mt_rows _ _ _ _ (pa_matching _ _ _ _ _ _ _ _ Hp)). left. Qed.

Lemma y_len : n <= Zlen y.
Proof using Hp. apply (mt_y_len _ _ _ _ (pa_matching _ _ _ _ _ _ _ _ Hp)). Qed.

(** A column with a row is the cheapest one of its row. *)
Lemma assigned_column j : 0 <= j < n -> 0 <= y⟦j⟧ ->
  0 <= y⟦j⟧ < n /\ y⟦j⟧ ∉ start :: R /\ x⟦y⟦j⟧⟧ = j /\ (exact -> tight v (y⟦j⟧) j).
Proof using Hp.
  intros Hj Hy. destruct (mt_y _ _ _ _ (pa_matching _ _ _ _ _ _ _ _ Hp) j Hj) as [?|(H1 & H2 & H3)]; [lia|].
  split; [done|]. split; [done|]. split; [done|]. intros e. rewrite <-H3 at 2.
  by apply (pa_tight _ _ _ _ _ _ _ _ Hp e).
Qed.

(** The column at position [k] is reached from the first row or from the row of a column
    before it, one of the first [p]; its distance is the length of this path. *)
Definition reached (p : Z) (s : @scan_state K) (k : Z) : Prop :=
  let j := (sc_cols s)⟦k⟧ in
  (sc_pred s)⟦j⟧ = start /\ (exact -> dist (sc_d s) j = red v start j)
  \/ exists m, 0 <= m < p /\ m < k /\
       let j' := (sc_cols s)⟦m⟧ in
       (sc_pred s)⟦j⟧ = y⟦j'⟧
       /\ (exact -> dist (sc_d s) j = dist (sc_d s) j' + red v (y⟦j'⟧) j - red v (y⟦j'⟧) j').

(** No row that has been scanned gives a shorter path to [j]. *)
Definition relaxed (s : @scan_state K) (m j : Z) : Prop :=
  let j' := (sc_cols s)⟦m⟧ in
  dist (sc_d s) j <= dist (sc_d s) j' + red v (y⟦j'⟧) j - red v (y⟦j'⟧) j'.

Record shortest (ready q : Z) (s : @scan_state K) : Prop := {
  sh_start : forall j, 0 <= j < n -> dist (sc_d s) j <= red v start j;
  sh_row : forall m j, 0 <= m < q -> 0 <= j < n -> relaxed s m j;
  sh_sorted : forall k m, 0 <= k < sc_hi s -> k <= m < n ->
    dist (sc_d s) ((sc_cols s)⟦k⟧) <= dist (sc_d s) ((sc_cols s)⟦m⟧);
  sh_level : forall k m, ready <= k < sc_hi s -> ready <= m < sc_hi s ->
    dist (sc_d s) ((sc_cols s)⟦m⟧) <= dist (sc_d s) ((sc_cols s)⟦k⟧)
}.

(** The columns before [sc_hi] are in order, the rows of the first [p] have been scanned, [q]
    of them to the end. *)
Record search (ready p q : Z) (s : @scan_state K) : Prop := {
  se_perm : col_perm (sc_cols s);
  se_d_len : n <= Zlen (sc_d s);
  se_pred_len : n <= Zlen (sc_pred s);
  se_index : 0 <= ready <= p /\ p <= sc_hi s <= n;
  se_assigned : forall k, 0 <= k < sc_hi s -> 0 <= y⟦(sc_cols s)⟦k⟧⟧;
  se_reached : forall k, 0 <= k < n -> reached p s k;
  se_exact : exact -> shortest ready q s
}.

(** A free column [j] has been found. *)
Record found (ready p : Z) (j : Z) (s : @scan_state K) : Prop := {
  fo_perm : col_perm (sc_cols s);
  fo_pred_len : n <= Zlen (sc_pred s);
  fo_d_len : n <= Zlen (sc_d s);
  fo_index : 0 <= ready <= p /\ p <= n;
  fo_assigned : forall k, 0 <= k < p -> 0 <= y⟦(sc_cols s)⟦k⟧⟧;
  fo_free : 0 <= j < n /\ y⟦j⟧ < 0;
  fo_pos : exists k, ready <= k < n /\ (sc_cols s)⟦k⟧ = j;
  fo_reached : forall k, 0 <= k < n -> reached p s k;
  fo_start : exact -> forall j, 0 <= j < n -> dist (sc_d s) j <= red v start j;
  fo_row : exact -> forall m j, 0 <= m < ready -> 0 <= j < n -> relaxed s m j;
  fo_ready : exact -> forall k, 0 <= k < ready -> dist (sc_d s) ((sc_cols s)⟦k⟧) <= dist (sc_d s) j;
  fo_rest : exact -> forall k, ready <= k < n -> dist (sc_d s) j <= dist (sc_d s) ((sc_cols s)⟦k⟧);
  fo_level : exact -> forall k, ready <= k < p -> dist (sc_d s) ((sc_cols s)⟦k⟧) = dist (sc_d s) j
}.

Lemma reached_mono p p' s k : p <= p' -> reached p s k -> reached p' s k.
Proof. intros Hle [?|(m & ? & H)]; [by left|]. right. exists m. split; [lia|done]. Qed.

(** A shorter path to a column behind [sc_hi]. *)
Definition relax (s : @scan_state K) (j i : Z) (c : K) : scan_state :=
  {| sc_hi := sc_hi s; sc_d := updZ (sc_d s) j c; sc_cols := sc_cols s;
     sc_pred := updZ (sc_pred s) j i |}.

Lemma dist_relax s j i c j' : n <= Zlen (sc_d s) -> 0 <= j < n -> 0 <= j' ->
  dist (sc_d (relax s j i c)) j' = if j' =? j then val c else dist (sc_d s) j'.
Proof. intros. unfold dist. cbn. rewrite nthZ_updZ by lia. by destruct (j' =? j). Qed.

Lemma search_relax ready lo s k c : search ready (lo + 1) lo s -> ready <= lo < sc_hi s ->
  sc_hi s <= k < n ->
  let j := (sc_cols s)⟦k⟧ in let j0 := (sc_cols s)⟦lo⟧ in let i := y⟦j0⟧ in
  (exact -> val c = dist (sc_d s) j0 + red v i j - red v i j0
            /\ dist (sc_d s) j0 <= val c <= dist (sc_d s) j) ->
  search ready (lo + 1) lo (relax s j i c).
Proof.
  intros [Hcp Hdl Hpl Hix Has Hre He] Hlo Hk j j0 i Hc.
  assert (Hj : 0 <= j < n) by (apply Hcp; lia).
  assert (Hne : forall m, 0 <= m < n -> m <> k -> (sc_cols s)⟦m⟧ <> j).
  { intros m Hm Hmk E. apply Hmk. apply (cp_inj _ Hcp); [done|lia|done]. }
  assert (Hcol : forall m, 0 <= m < n -> 0 <= (sc_cols s)⟦m⟧) by (intros; by apply Hcp).
  assert (Hdi : forall m, 0 <= m < n -> m <> k ->
            dist (sc_d (relax s j i c)) ((sc_cols s)⟦m⟧) = dist (sc_d s) ((sc_cols s)⟦m⟧)).
  { intros m Hm Hmk. rewrite dist_relax by first [done|by apply Hcol].
    destruct (Z.eqb_spec ((sc_cols s)⟦m⟧) j); [|done]. by destruct (Hne m Hm Hmk). }
  assert (Hdj : dist (sc_d (relax s j i c)) j = val c) by (rewrite dist_relax, Z.eqb_refl by (done || lia); done).
  split; cbn; rewrite ?Zlen_updZ; try done.
  - intros k' Hk'. unfold reached. cbn. destruct (Z.eq_dec k' k) as [->|Hkk].
    + right. exists lo. split; [lia|]. split; [lia|]. fold j. rewrite nthZ_updZ_eq by lia. split; [done|].
      intros e. destruct (Hc e) as [Ec _]. pose proof (Hdi lo) as El. cbn in El, Hdj.
      rewrite El, Hdj by lia. done.
    + rewrite (nthZ_updZ_ne (sc_pred s)) by first [lia|by apply Hcol|intros E; by apply (Hne k')].
      destruct (Hre k' Hk') as [[H1 H2]|(m & Hm & Hmk & H1 & H2)].
      * left. split; [done|]. intros e. rewrite <-H2 by done. by apply (Hdi k').
      * right. exists m. split; [done|]. split; [done|]. split; [done|]. intros e.
        pose proof (Hdi k' Hk' Hkk) as E1. pose proof (Hdi m) as E2. cbn in E1, E2.
        rewrite E1, E2 by lia. by apply H2.
  - intros e. destruct (He e) as [Hst Hrow Hso Hle]. destruct (Hc e) as [Ec Hcb].
    assert (Hdle : forall j', 0 <= j' < n -> dist (sc_d (relax s j i c)) j' <= dist (sc_d s) j').
    { intros j' Hj'. rewrite dist_relax by lia. destruct (Z.eqb_spec j' j) as [->|]; lia. }
    split.
    + intros j' Hj'. etrans; [by apply Hdle|by apply Hst].
    + intros m j' Hm Hj'. unfold relaxed. cbn [relax sc_cols]. rewrite Hdi by lia.
      etrans; [by apply Hdle|by apply Hrow].
    + cbn [relax sc_cols sc_hi]. intros k' m Hk' Hm. rewrite (Hdi k') by lia.
      destruct (Z.eq_dec m k) as [->|]; [|rewrite Hdi by lia; apply Hso; lia].
      fold j. rewrite Hdj. transitivity (dist (sc_d s) j0); [|lia].
      destruct (Z.le_gt_cases k' lo); [apply Hso; lia|apply Hle; lia].
    + cbn [relax sc_cols sc_hi]. intros k' m Hk' Hm. rewrite !Hdi by lia. by apply Hle.
Qed.

(** A column at the shortest distance joins those in order. *)
Definition advance (s : @scan_state K) (k : Z) : scan_state :=
  {| sc_hi := sc_hi s + 1; sc_d := sc_d s; sc_cols := swap (sc_cols s) k (sc_hi s);
     sc_pred := sc_pred s |}.

Lemma advance_at s k m : col_perm (sc_cols s) -> 0 <= sc_hi s < n -> 0 <= k < n -> 0 <= m ->
  (sc_cols (advance s k))⟦m⟧
  = (sc_cols s)⟦if m =? sc_hi s then k else if m =? k then sc_hi s else m⟧.
Proof.
  intros Hcp Hh Hk Hm. cbn. rewrite swap_at by (done || apply Hcp).
  destruct (m =? sc_hi s), (m =? k); done.
Qed.

Lemma search_advance ready lo s k : search ready (lo + 1) lo s -> ready <= lo < sc_hi s ->
  sc_hi s <= k < n -> 0 <= y⟦(sc_cols s)⟦k⟧⟧ ->
  (exact -> dist (sc_d s) ((sc_cols s)⟦k⟧) <= dist (sc_d s) ((sc_cols s)⟦lo⟧)) ->
  search ready (lo + 1) lo (advance s k).
Proof.
  intros [Hcp Hdl Hpl Hix Has Hre He] Hlo Hk Hy Hdk.
  pose proof (fun m => advance_at s k m Hcp ltac:(lia) ltac:(lia)) as Eat.
  assert (Elow : forall m, 0 <= m < sc_hi s -> (sc_cols (advance s k))⟦m⟧ = (sc_cols s)⟦m⟧).
  { intros m Hm. rewrite Eat by lia. destruct (Z.eqb_spec m (sc_hi s)), (Z.eqb_spec m k); (lia || done). }
  assert (Epos : forall m, sc_hi s <= m < n -> exists m', sc_hi s <= m' < n
            /\ (sc_cols (advance s k))⟦m⟧ = (sc_cols s)⟦m'⟧ /\ (m = sc_hi s -> m' = k)).
  { intros m Hm. rewrite Eat by lia. eexists. split; [|split; [reflexivity|]].
    - destruct (m =? sc_hi s), (m =? k); lia.
    - intros ->. by rewrite Z.eqb_refl. }
  split; try done.
  - cbn. apply col_perm_swap; [done|lia|lia].
  - cbn. lia.
  - cbn [sc_hi advance]. intros m Hm. destruct (Z.eq_dec m (sc_hi s)) as [->|].
    + destruct (Epos (sc_hi s)) as (m' & _ & -> & Em); [lia|]. by rewrite Em by done.
    + rewrite Elow by lia. apply Has. lia.
  - intros m Hm. assert (Hr : exists m', (sc_cols (advance s k))⟦m⟧ = (sc_cols s)⟦m'⟧ /\ 0 <= m' < n
              /\ (m' = m \/ (sc_hi s <= m /\ sc_hi s <= m'))).
    { destruct (Z.lt_ge_cases m (sc_hi s)).
      - exists m. rewrite Elow by lia. split; [done|]. split; [done|by left].
      - destruct (Epos m) as (m' & ? & ? & _); [lia|]. exists m'. split; [done|]. split; [lia|right; lia]. }
    destruct Hr as (m' & E & Hm' & Hor). unfold reached. rewrite E.
    destruct (Hre m' Hm') as [?|(q & Hq & Hqm & H)]; [by left|]. right. exists q.
    split; [done|]. split; [lia|]. rewrite Elow by lia. exact H.
  - intros e. destruct (He e) as [Hst Hrow Hso Hle]. specialize (Hdk e).
    assert (Hmin : forall k', 0 <= k' < sc_hi s -> forall m, sc_hi s <= m < n ->
              dist (sc_d s) ((sc_cols s)⟦k'⟧) <= dist (sc_d s) ((sc_cols s)⟦m⟧)).
    { intros k' Hk' m Hm. apply Hso; lia. }
    split; cbn [sc_hi sc_d advance].
    + done.
    + intros m j Hm Hj. unfold relaxed. rewrite Elow by lia. by apply Hrow.
    + intros k' m Hk' Hm. destruct (Z.lt_ge_cases k' (sc_hi s)) as [Hlt|Hge].
      * rewrite Elow by lia. destruct (Z.lt_ge_cases m (sc_hi s)); [rewrite Elow by lia; apply Hso; lia|].
        destruct (Epos m) as (m' & ? & -> & _); [lia|]. apply Hmin; lia.
      * destruct (Epos k') as (k1 & ? & -> & Ek); [lia|]. destruct (Epos m) as (m' & ? & -> & _); [lia|].
        rewrite Ek by lia. etrans; [exact Hdk|]. apply Hmin; lia.
    + intros k' m Hk' Hm.
      assert (Hd0 : forall m, ready <= m < sc_hi s + 1 ->
                dist (sc_d s) ((sc_cols (advance s k))⟦m⟧) = dist (sc_d s) ((sc_cols s)⟦lo⟧)).
      { intros q Hq. destruct (Z.eq_dec q (sc_hi s)) as [->|].
        - destruct (Epos (sc_hi s)) as (q' & ? & -> & Ek); [lia|]. rewrite Ek by done.
          apply Z.le_antisymm; [done|]. apply Hmin; lia.
        - rewrite Elow by lia. apply Z.le_antisymm; apply Hle; lia. }
      rewrite !Hd0 by lia. done.
Qed.

(** The part of row [lo] that has been scanned before column [k]. *)
Definition scanned (s : @scan_state K) (lo k : Z) : Prop :=
  forall m, 0 <= m < k -> relaxed s lo ((sc_cols s)⟦m⟧).

Lemma found_here ready lo s k : search ready (lo + 1) lo s -> ready <= lo < sc_hi s ->
  sc_hi s <= k < n -> y⟦(sc_cols s)⟦k⟧⟧ < 0 ->
  (exact -> dist (sc_d s) ((sc_cols s)⟦k⟧) <= dist (sc_d s) ((sc_cols s)⟦lo⟧)) ->
  found ready (lo + 1) ((sc_cols s)⟦k⟧) s.
Proof.
  intros [Hcp Hdl Hpl Hix Has Hre He] Hlo Hk Hy Hdk.
  assert (Hdeq : exact -> dist (sc_d s) ((sc_cols s)⟦k⟧) = dist (sc_d s) ((sc_cols s)⟦lo⟧)).
  { intros e. apply Z.le_antisymm; [by apply Hdk|]. apply (sh_sorted _ _ _ (He e)); lia. }
  split; try done; try lia.
  - intros m Hm. apply Has. lia.
  - split; [apply Hcp; lia|done].
  - exists k. split; [lia|done].
  - intros e. apply (sh_start _ _ _ (He e)).
  - intros e m j Hm Hj. apply (sh_row _ _ _ (He e)); [lia|done].
  - intros e m Hm. apply (sh_sorted _ _ _ (He e)); lia.
  - intros e m Hm. rewrite Hdeq by done. destruct (Z.le_gt_cases (sc_hi s) m).
    + apply (sh_sorted _ _ _ (He e)); lia.
    + apply (sh_level _ _ _ (He e)); lia.
  - intros e m Hm. rewrite Hdeq by done. apply Z.le_antisymm; apply (sh_level _ _ _ (He e)); lia.
Qed.

Lemma scanned_advance s lo k : col_perm (sc_cols s) -> 0 <= lo < sc_hi s -> sc_hi s <= k < n ->
  scanned s lo (k + 1) -> scanned (advance s k) lo (k + 1).
Proof.
  intros Hcp Hlo Hk Hs m Hm. pose proof (fun m => advance_at s k m Hcp ltac:(lia) ltac:(lia)) as Eat.
  unfold relaxed. rewrite !Eat by lia. cbn [sc_d advance].
  replace (if lo =? sc_hi s then k else if lo =? k then sc_hi s else lo) with lo
    by (destruct (Z.eqb_spec lo (sc_hi s)), (Z.eqb_spec lo k); lia).
  apply Hs. destruct (m =? sc_hi s), (m =? k); lia.
Qed.

Lemma scanned_relax s lo k c : col_perm (sc_cols s) -> n <= Zlen (sc_d s) -> 0 <= lo < k -> k < n ->
  let j := (sc_cols s)⟦k⟧ in let j0 := (sc_cols s)⟦lo⟧ in let i := y⟦j0⟧ in
  val c = dist (sc_d s) j0 + red v i j - red v i j0 ->
  scanned s lo k -> scanned (relax s j i c) lo (k + 1).
Proof.
  intros Hcp Hdl Hlo Hk j j0 i Hc Hs m Hm. unfold relaxed. cbn [relax sc_cols]. fold j0 i.
  assert (Hcol : forall m, 0 <= m < n -> 0 <= (sc_cols s)⟦m⟧ < n) by (intros; by apply Hcp).
  assert (Hne : forall m, 0 <= m < k -> (sc_cols s)⟦m⟧ <> j).
  { intros q Hq E. apply (cp_inj _ Hcp) in E; lia. }
  rewrite !dist_relax by first [done|apply Hcol; lia].
  destruct (Z.eqb_spec j0 j) as [E|_]; [by apply (Hne lo) in E; [|lia]|].
  destruct (Z.eq_dec m k) as [->|]; [fold j; rewrite Z.eqb_refl; lia|].
  destruct (Z.eqb_spec ((sc_cols s)⟦m⟧) j) as [E|_]; [apply (Hne m) in E; [done|lia]|].
  apply Hs. lia.
Qed.

(** The rest of the row, from column [k] on. *)
Record scan_inv (ready lo j0 D k : Z) (s : @scan_state K) : Prop := {
  si_search : search ready (lo + 1) lo s;
  si_hi : ready <= lo < sc_hi s /\ sc_hi s <= k;
  si_col : (sc_cols s)⟦lo⟧ = j0;
  si_dist : dist (sc_d s) j0 = D;
  si_scanned : exact -> scanned s lo k
}.

Lemma scan_inv_skip ready lo j0 D k s c : scan_inv ready lo j0 D k s -> 0 <= k < n ->
  (exact -> let j := (sc_cols s)⟦k⟧ in
     dist (sc_d s) j <= val c /\ val c = D + red v (y⟦j0⟧) j - red v (y⟦j0⟧) j0) ->
  scan_inv ready lo j0 D (k + 1) s.
Proof.
  intros [Hs Hh Hcol Hdi Hsc] Hk Hc. split; try done; [lia|].
  intros e m Hm. destruct (Z.eq_dec m k) as [->|]; [|apply Hsc; [done|lia]].
  destruct (Hc e) as [H1 H2]. unfold relaxed. rewrite Hcol, Hdi. lia.
Qed.

Lemma scan_inv_relax ready lo j0 D k s c : scan_inv ready lo j0 D k s -> 0 <= k < n ->
  (exact -> let j := (sc_cols s)⟦k⟧ in
     D <= val c <= dist (sc_d s) j /\ val c = D + red v (y⟦j0⟧) j - red v (y⟦j0⟧) j0) ->
  scan_inv ready lo j0 D (k + 1) (relax s ((sc_cols s)⟦k⟧) (y⟦j0⟧) c).
Proof.
  intros [Hs Hh Hcol Hdi Hsc] Hk Hc. pose proof (se_perm _ _ _ _ Hs) as Hcp.
  pose proof (se_index _ _ _ _ Hs). rewrite <-Hcol, <-Hdi in *.
  split; cbn [relax sc_hi sc_cols]; [|lia|done| |].
  - apply search_relax; [done|lia|lia|]. intros e. destruct (Hc e). rewrite Hcol in *. lia.
  - rewrite Hcol in *. rewrite dist_relax; [|apply Hs|apply Hcp; lia|rewrite <-Hcol; apply Hcp; lia].
    destruct (Z.eqb_spec j0 ((sc_cols s)⟦k⟧)) as [E|]; [|done].
    rewrite <-Hcol in E. apply (cp_inj _ Hcp) in E; lia.
  - intros e. destruct (Hc e) as [_ H2]. apply scanned_relax; [done|apply Hs|lia|lia|exact H2|by apply Hsc].
Qed.

Lemma scan_row_spec ready lo s mind h : search ready (lo + 1) lo s -> ready <= lo < sc_hi s ->
  let j0 := (sc_cols s)⟦lo⟧ in let i := y⟦j0⟧ in
  (exact -> val mind = dist (sc_d s) j0 /\ val h = red v i j0 - dist (sc_d s) j0) ->
  exists r, scan_row n cost y v i mind h s = Some r /\
    match r with
    | inl (j, s') => found ready (lo + 1) j s'
    | inr s' => search ready (lo + 1) (lo + 1) s' /\ lo < sc_hi s'
    end.
Proof using Hd Hex Hp.
  intros Hs Hlo j0 i Hmh. pose proof (se_perm _ _ _ _ Hs) as Hcp0. pose proof (se_index _ _ _ _ Hs) as Hix.
  assert (Hj0 : 0 <= j0 < n) by (apply Hcp0; lia).
  destruct (assigned_column j0 Hj0) as (Hi & _ & _ & Hti); [apply Hs; lia|]. fold i in Hi, Hti.
  set (D := dist (sc_d s) j0) in *. pose proof y_len as Hyl.
  pose proof (pa_v_len _ _ _ _ _ _ _ _ Hp) as Hvl. unfold scan_row.
  edestruct (for_return_inv (scan_inv ready lo j0 D) (λ js : Z * scan_state, found ready (lo + 1) js.1 js.2))
    as (r & -> & Hr); [| | |exists r; split; [reflexivity|]]; [lia| | |].
  - split; try done. intros e m Hm. unfold relaxed. fold j0 i D.
    assert (dist (sc_d s) ((sc_cols s)⟦m⟧) <= D).
    { destruct (Z.le_gt_cases m lo); [apply (sh_sorted _ _ _ (se_exact _ _ _ _ Hs e)); lia|].
      apply (sh_level _ _ _ (se_exact _ _ _ _ Hs e)); lia. }
    specialize (Hti e ((sc_cols s)⟦m⟧) ltac:(apply Hcp0; lia)). lia.
  - intros k s1 Hk Hsi. pose proof (si_search _ _ _ _ _ _ Hsi) as Hs1.
    pose proof (se_perm _ _ _ _ Hs1) as Hcp. pose proof (cp_len _ Hcp) as Hcl.
    pose proof (se_d_len _ _ _ _ Hs1). pose proof (se_pred_len _ _ _ _ Hs1).
    pose proof (si_hi _ _ _ _ _ _ Hsi) as Hh. assert (Hk' : 0 <= k < n) by lia. arr.
    pose proof (cp_range _ Hcp k Hk') as Hj. rewrite (cost_at_in n cost Hd) by lia. arr.
    set (j := (sc_cols s1)⟦k⟧) in *. set (c := c_sub (c_sub (cost⟦i⟧⟦j⟧) (v⟦j⟧)) h).
    assert (Hc : exact -> val c = D + red v i j - red v i j0).
    { intros e. destruct (Hex e) as [Hv _ _]. unfold c. rewrite !val_sub. fold (w val cost i j) (red v i j).
      destruct (Hmh e). lia. }
    assert (HDle : exact -> D <= val c).
    { intros e. rewrite Hc by done. specialize (Hti e j Hj). lia. }
    destruct (c_lt c ((sc_d s1)⟦j⟧)) eqn:Elt.
    2: { eexists. split; [reflexivity|]. apply (scan_inv_skip _ _ _ _ _ _ c Hsi Hk').
         intros e. destruct (Hex e) as [Hv _ _]. rewrite val_lt in Elt. fold i j. unfold dist.
         split; [lia|by apply Hc]. }
    assert (Hrel : scan_inv ready lo j0 D (k + 1) (relax s1 j i c)).
    { apply (scan_inv_relax _ _ _ _ _ _ c Hsi Hk'). intros e. destruct (Hex e) as [Hv _ _].
      rewrite val_lt in Elt. fold i j. unfold dist. specialize (Hc e). specialize (HDle e). lia. }
    arr. destruct (c_eq c mind) eqn:Eeq; [|eexists; split; [reflexivity|exact Hrel]].
    assert (HkD : exact -> dist (sc_d (relax s1 j i c)) j <= dist (sc_d (relax s1 j i c)) ((sc_cols s1)⟦lo⟧)).
    { intros e. rewrite (si_col _ _ _ _ _ _ Hsi), (si_dist _ _ _ _ _ _ Hrel).
      rewrite dist_relax, Z.eqb_refl by lia. destruct (Hex e) as [Hv _ _]. rewrite val_eq in Eeq.
      destruct (Hmh e). lia. }
    pose proof (si_search _ _ _ _ _ _ Hrel) as Hs2. destruct (Z.ltb_spec (y⟦j⟧) 0).
    + eexists. split; [reflexivity|]. apply (found_here ready lo (relax s1 j i c) k Hs2); cbn; (lia || done).
    + arr. eexists. split; [reflexivity|]. fold (swap (sc_cols s1) k (sc_hi s1)).
      fold j. change (scan_inv ready lo j0 D (k + 1) (advance (relax s1 j i c) k)).
      assert (Hadv : search ready (lo + 1) lo (advance (relax s1 j i c) k)).
      { apply search_advance; cbn; (lia || done). }
      assert (Ecol : (sc_cols (advance (relax s1 j i c) k))⟦lo⟧ = j0).
      { rewrite advance_at by first [done|cbn; lia]. cbn [relax sc_hi sc_cols].
        destruct (Z.eqb_spec lo (sc_hi s1)); [lia|]. destruct (Z.eqb_spec lo k); [lia|]. exact (si_col _ _ _ _ _ _ Hsi). }
      split; [done|cbn; lia|done|apply (si_dist _ _ _ _ _ _ Hrel)|].
      intros e. apply scanned_advance; [done|cbn; lia|cbn; lia|by apply (si_scanned _ _ _ _ _ _ Hrel)].
  - destruct r as [[j s']|s']; [exact Hr|]. destruct Hr as [Hs' Hh' Hcol' Hdi' Hsc'].
    split; [|lia]. destruct Hs' as [A1 A2 A3 A4 A5 A6 A7]. split; try done.
    intros e. destruct (A7 e) as [B1 B2 B3 B4]. split; try done.
    intros m j Hm Hj. destruct (Z.eq_dec m lo) as [->|]; [|apply B2; [lia|done]].
    destruct (cp_surj _ A1 j Hj) as (k & Hk & <-). by apply Hsc'.
Qed.

Lemma search_begin ready lo s : search ready lo lo s -> lo < sc_hi s -> search ready (lo + 1) lo s.
Proof.
  intros [? ? ? ? ? Hre ?] Hlt. split; try done; [lia|]. intros k Hk.
  apply (reached_mono lo); [lia|by apply Hre].
Qed.

Lemma scan_loop_spec ready fuel lo s : search ready lo lo s -> (Z.to_nat (n - lo) <= fuel)%nat ->
  exists r, scan_loop fuel n cost y v lo s = Some r /\
    match r with
    | inl (j, s') => exists p, lo < p /\ found ready p j s'
    | inr (lo', s') => search ready lo' lo' s' /\ sc_hi s' = lo' /\ lo <= lo' /\ (lo < sc_hi s -> lo < lo')
    end.
Proof using Hd Hex Hp.
  revert lo s. induction fuel as [|fuel IH]; intros lo s Hs Hf;
    pose proof (se_index _ _ _ _ Hs) as Hix; cbn [scan_loop];
    (destruct (Z.eqb_spec lo (sc_hi s)) as [E|Hne]; [exists (inr (lo, s)); split; [done|]; split; [done|lia]|]);
    [lia|].
  pose proof (se_perm _ _ _ _ Hs) as Hcp. pose proof (cp_len _ Hcp). pose proof y_len.
  pose proof (se_d_len _ _ _ _ Hs). pose proof (pa_v_len _ _ _ _ _ _ _ _ Hp).
  pose proof (cp_range _ Hcp lo ltac:(lia)) as Hj.
  destruct (assigned_column _ Hj) as (Hi & _); [apply Hs; lia|]. arr.
  rewrite (cost_at_in n cost Hd) by lia. arr.
  destruct (scan_row_spec ready lo s ((sc_d s)⟦(sc_cols s)⟦lo⟧⟧)
    (c_sub (c_sub (cost⟦y⟦(sc_cols s)⟦lo⟧⟧⟧⟦(sc_cols s)⟦lo⟧⟧) (v⟦(sc_cols s)⟦lo⟧⟧))
           ((sc_d s)⟦(sc_cols s)⟦lo⟧⟧))) as (r & -> & Hr).
  - apply search_begin; [done|lia].
  - lia.
  - intros e. destruct (Hex e) as [Hv _ _]. split; [done|]. by rewrite !val_sub.
  - cbn [mbind option_bind]. destruct r as [[j s']|s'].
    + exists (inl (j, s')). split; [done|]. exists (lo + 1). split; [lia|done].
    + destruct Hr as [Hs' Hh']. destruct (IH (lo + 1) s' Hs') as (r & -> & Hr'); [lia|].
      exists r. split; [done|]. destruct r as [[j s2]|[lo' s2]].
      * destruct Hr' as (p & ? & ?). exists p. split; [lia|done].
      * destruct Hr' as (? & ? & ? & _). split; [done|]. split; [done|lia].
Qed.

(** After the next columns have been put in order; one of them may be free. *)
Record next_columns (lo : Z) (s : @scan_state K) : Prop := {
  nc_perm : col_perm (sc_cols s);
  nc_d_len : n <= Zlen (sc_d s);
  nc_pred_len : n <= Zlen (sc_pred s);
  nc_index : 0 <= lo < sc_hi s /\ sc_hi s <= n;
  nc_assigned : forall k, 0 <= k < lo -> 0 <= y⟦(sc_cols s)⟦k⟧⟧;
  nc_reached : forall k, 0 <= k < n -> reached lo s k;
  nc_exact : exact -> shortest lo lo s
}.

Lemma find_next ready lo s : search ready lo lo s -> sc_hi s = lo -> lo < n ->
  exists hi cols, _find_dense n lo (sc_d s) (sc_cols s) = Some (hi, cols)
    /\ next_columns lo {| sc_hi := hi; sc_d := sc_d s; sc_cols := cols; sc_pred := sc_pred s |}.
Proof using Hex.
  intros [Hcp Hdl Hpl Hix Has Hre He] Hh Hlo.
  destruct (find_dense_spec (sc_d s) (sc_cols s) lo Hcp Hdl) as (hi & cols & -> & Hhi & Hcp' & Hag & Hmin); [lia|].
  exists hi, cols. split; [done|]. pose proof (fun k => perm_suffix _ _ lo k Hcp Hcp' Hag) as Hsuf.
  split; cbn; try done; [lia| | |].
  - intros k Hk. rewrite Hag by done. apply Has. lia.
  - intros k Hk. assert (Hk0 : exists k0, 0 <= k0 < n /\ cols⟦k⟧ = (sc_cols s)⟦k0⟧ /\ (k0 <= k \/ lo <= k)).
    { destruct (Z.lt_ge_cases k lo); [exists k; split; [done|]; split; [apply Hag; lia|lia]|].
      destruct (Hsuf k) as (k0 & ? & ?); [lia|lia|]. exists k0. split; [lia|]. split; [done|lia]. }
    destruct Hk0 as (k0 & Hk0 & E & Hor). unfold reached. cbn. rewrite E.
    destruct (Hre k0 Hk0) as [?|(m & Hm & Hmk & H)]; [by left|]. right. exists m. split; [done|].
    split; [lia|]. rewrite Hag by lia. exact H.
  - intros e. destruct (He e) as [B1 B2 B3 B4]. split; cbn; [done| | |].
    + intros m j Hm Hj. unfold relaxed. cbn. rewrite Hag by lia. by apply B2.
    + intros k m Hk Hm. destruct (Z.lt_ge_cases k lo) as [Hk'|]; [|apply Hmin; [done|lia|lia]].
      rewrite (Hag k) by lia. destruct (Z.lt_ge_cases m lo); [rewrite Hag by lia; apply B3; lia|].
      destruct (Hsuf m) as (m0 & ? & ->); [lia|lia|]. apply B3; lia.
    + intros k m Hk Hm. apply Hmin; [done|lia|lia].
Qed.

(** The column the loop over the next columns leaves in [final_j]. *)
Lemma final_column lo s : next_columns lo s ->
  exists j, for_each (range lo (sc_hi s)) (λ k final_j,
      j ← aget (sc_cols s) k; yj ← aget y j; Some (if yj <? 0 then j else final_j)) (-1) = Some j
    /\ ((j = -1 /\ search lo lo lo s)
        \/ (j <> -1 /\ found lo lo j s /\ (exact -> dist (sc_d s) ((sc_cols s)⟦lo⟧) = dist (sc_d s) j))).
Proof using Hp.
  intros [Hcp Hdl Hpl Hix Has Hre He]. pose proof (cp_len _ Hcp). pose proof y_len.
  edestruct (for_range_inv (λ k j, (j = -1 /\ forall m, lo <= m < k -> 0 <= y⟦(sc_cols s)⟦m⟧⟧)
      \/ exists m, lo <= m < k /\ j = (sc_cols s)⟦m⟧ /\ y⟦j⟧ < 0)) as (j & -> & Hj); [| | |exists j; split; [done|]];
    [lia| | |].
  - left. split; [done|lia].
  - intros k j Hk Hj. pose proof (cp_range _ Hcp k ltac:(lia)). arr. eexists. split; [reflexivity|].
    destruct (Z.ltb_spec (y⟦(sc_cols s)⟦k⟧⟧) 0) as [Hy|Hy].
    + right. exists k. split; [lia|done].
    + destruct Hj as [[-> Hj]|(m & Hm & Hj)]; [left|right; exists m; split; [lia|done]].
      split; [done|]. intros m Hm. destruct (Z.eq_dec m k) as [->|]; [done|apply Hj; lia].
  - destruct Hj as [[-> Hj]|(m & Hm & -> & Hy)].
    + left. split; [done|]. split; try done; [lia|]. intros k Hk.
      destruct (Z.lt_ge_cases k lo); [apply Has; lia|apply Hj; lia].
    + right. pose proof (cp_range _ Hcp m ltac:(lia)) as Hjr. split; [lia|].
      assert (Heq : exact -> forall k, lo <= k < sc_hi s ->
                dist (sc_d s) ((sc_cols s)⟦k⟧) = dist (sc_d s) ((sc_cols s)⟦m⟧)).
      { intros e k Hk. apply Z.le_antisymm; apply (sh_level _ _ _ (He e)); lia. }
      split; [|intros e; apply Heq; [done|lia]]. split; try done; try lia.
      * exists m. split; [lia|done].
      * intros e. apply (sh_start _ _ _ (He e)).
      * intros e. apply (sh_row _ _ _ (He e)).
      * intros e k Hk. apply (sh_sorted _ _ _ (He e)); lia.
      * intros e k Hk.
        destruct (Z.lt_ge_cases k (sc_hi s)); [rewrite (Heq e k) by lia; done|].
        apply (sh_sorted _ _ _ (He e)); lia.
Qed.

(** The loop ends with a free column. *)
Lemma path_loop_spec fuel ready lo s : search ready lo lo s -> (Z.to_nat (n - lo) < fuel)%nat ->
  exists p q, path_loop fuel n cost y v
      {| pt_lo := lo; pt_ready := ready; pt_final := -1; pt_scan := s |} = Some p
    /\ found (pt_ready p) q (pt_final p) (pt_scan p) /\ pt_ready p <= pt_lo p < n
    /\ (exact -> dist (sc_d (pt_scan p)) ((sc_cols (pt_scan p))⟦pt_lo p⟧)
                 = dist (sc_d (pt_scan p)) (pt_final p)).
Proof using Hd Hex Hp.
  revert ready lo s. induction fuel as [|fuel IH]; intros ready lo s Hs Hf; [lia|].
  cbn [path_loop pt_final pt_lo pt_scan pt_ready]. cbn [negb].
  assert (Hpre : exists ready1 j1 s1,
    (if lo =? sc_hi s then
       '(hi, cols) ← _find_dense n lo (sc_d s) (sc_cols s);
       final_j ← for_each (range lo hi) (λ k final_j,
         j ← aget cols k; yj ← aget y j; Some (if yj <? 0 then j else final_j)) (-1);
       Some (lo, final_j, {| sc_hi := hi; sc_d := sc_d s; sc_cols := cols; sc_pred := sc_pred s |})
     else Some (ready, -1, s)) = Some (ready1, j1, s1)
    /\ ((j1 = -1 /\ search ready1 lo lo s1 /\ lo < sc_hi s1)
        \/ (j1 <> -1 /\ ready1 = lo /\ lo < n /\ found lo lo j1 s1
            /\ (exact -> dist (sc_d s1) ((sc_cols s1)⟦lo⟧) = dist (sc_d s1) j1)))).
  { pose proof (se_index _ _ _ _ Hs) as Hix. destruct (Z.eqb_spec lo (sc_hi s)) as [E|Hne].
    2: { exists ready, (-1), s. split; [done|]. left. split; [done|]. split; [done|lia]. }
    assert (Hlo : lo < n).
    { destruct (free_some n _ _ _ (pa_matching _ _ _ _ _ _ _ _ Hp)) as (jf & Hjf & Hyf); [done|].
      destruct (cp_surj _ (se_perm _ _ _ _ Hs) jf Hjf) as (k & Hk & Ek).
      destruct (Z.lt_ge_cases k lo); [|lia]. pose proof (se_assigned _ _ _ _ Hs k ltac:(lia)) as H1.
      rewrite Ek in H1. lia. }
    destruct (find_next ready lo s Hs (eq_sym E) Hlo) as (hi & cols & -> & Hnc). cbn [mbind option_bind].
    destruct (final_column lo _ Hnc) as (j & E' & Hj). cbn [sc_hi sc_cols] in E'. rewrite E'.
    cbn [mbind option_bind]. do 3 eexists. split; [reflexivity|].
    pose proof (nc_index _ _ Hnc). destruct Hj as [[-> ?]|(? & ? & ?)]; [left|right]; tauto. }
  destruct Hpre as (ready1 & j1 & s1 & -> & Hcase). cbn [mbind option_bind].
  destruct Hcase as [(-> & Hs1 & Hlt)|(Hj1 & -> & Hlo & Hfo & Hdl)].
  - cbn. unfold _scan_dense. pose proof (se_index _ _ _ _ Hs1).
    destruct (scan_loop_spec ready1 (Z.to_nat n) lo s1 Hs1) as (r & -> & Hr); [lia|]. cbn [mbind option_bind].
    destruct r as [[j s2]|[lo2 s2]].
    + destruct Hr as (q & Hq & Hfo). pose proof (fo_free _ _ _ _ Hfo). pose proof (fo_index _ _ _ _ Hfo).
      set (s3 := {| sc_hi := sc_hi s1; sc_d := sc_d s2; sc_cols := sc_cols s2; sc_pred := sc_pred s2 |}).
      exists {| pt_lo := lo; pt_ready := ready1; pt_final := j; pt_scan := s3 |}, q.
      split; [destruct fuel; cbn; destruct (Z.eqb_spec j (-1)); (lia || done)|].
      split; [destruct Hfo; by split|]. cbn. split; [lia|]. intros e. apply (fo_level _ _ _ _ Hfo e). lia.
    + destruct Hr as (Hs2 & _ & _ & Hlo2). apply IH; [done|lia].
  - replace (j1 =? -1) with false by (symmetry; by apply Z.eqb_neq). cbn [mbind option_bind].
    exists {| pt_lo := lo; pt_ready := lo; pt_final := j1; pt_scan := s1 |}, lo.
    split; [destruct fuel; cbn; destruct (Z.eqb_spec j1 (-1)); done|]. cbn. split; [done|]. split; [lia|done].
Qed.

(** ** The change of the prices *)

(** What the search leaves: [j] is free, every column leads back to [start], and with the
    prices [v'] every column of the way is a cheapest one of the row it is reached from. *)
Record path (cols : list Z) (p : Z) (j : Z) (pred : list Z) (v' : list K) : Prop := {
  ph_perm : col_perm cols;
  ph_pred_len : n <= Zlen pred;
  ph_v_len : n <= Zlen v';
  ph_index : 0 <= p <= n;
  ph_assigned : forall k, 0 <= k < p -> 0 <= y⟦cols⟦k⟧⟧;
  ph_free : 0 <= j < n /\ y⟦j⟧ < 0;
  ph_back : forall k, 0 <= k < n ->
    pred⟦cols⟦k⟧⟧ = start \/ exists m, 0 <= m < p /\ m < k /\ pred⟦cols⟦k⟧⟧ = y⟦cols⟦m⟧⟧;
  ph_tight : exact -> all_tight (start :: R) x v';
  ph_way : exact -> forall k, 0 <= k < n -> k < p \/ cols⟦k⟧ = j -> tight v' (pred⟦cols⟦k⟧⟧) (cols⟦k⟧)
}.

(** The prices after the search. *)
Definition lowered (ready D : Z) (s : @scan_state K) (v' : list K) : Prop :=
  forall i k, 0 <= k < n ->
    red v' i ((sc_cols s)⟦k⟧)
    = red v i ((sc_cols s)⟦k⟧) + (if k <? ready then D - dist (sc_d s) ((sc_cols s)⟦k⟧) else 0).

Lemma lower_prices ready s mind : col_perm (sc_cols s) -> n <= Zlen (sc_d s) -> 0 <= ready <= n ->
  exists v', for_each (range 0 ready) (λ k v,
      j ← aget (sc_cols s) k; dj ← aget (sc_d s) j; vj ← aget v j;
      aset v j (c_add vj (c_sub dj mind))) v = Some v'
    /\ n <= Zlen v' /\ (exact -> lowered ready (val mind) s v').
Proof using Hd Hex Hp.
  intros Hcp Hdl Hre. pose proof (pa_v_len _ _ _ _ _ _ _ _ Hp) as Hvl. pose proof (cp_len _ Hcp).
  edestruct (for_range_inv (λ q v', Zlen v' = Zlen v /\ (exact -> lowered q (val mind) s v')))
    as (v' & E & Hl & Hlo); [| | |exists v'; split; [exact E|split; [lia|done]]]; [lia| |].
  - split; [done|]. intros e i k Hk. destruct (Z.ltb_spec k 0); lia.
  - intros q v1 Hq (Hl & Hlo). pose proof (cp_range _ Hcp q ltac:(lia)). arr.
    eexists. split; [reflexivity|]. rewrite Zlen_updZ. split; [done|].
    intros e i k Hk. specialize (Hlo e i k Hk). destruct (Hex e) as [Hv _ _].
    pose proof (cp_range _ Hcp k Hk). unfold Lapjv.red in *. rewrite nthZ_updZ by lia.
    destruct (Z.eqb_spec ((sc_cols s)⟦k⟧) ((sc_cols s)⟦q⟧)) as [Ek|Hne].
    + apply (cp_inj _ Hcp) in Ek as ->; [|lia|lia]. rewrite val_add, val_sub. unfold dist in *.
      destruct (Z.ltb_spec q q), (Z.ltb_spec q (q + 1)); lia.
    + assert (k <> q) by (intros ->; done). rewrite Hlo.
      destruct (Z.ltb_spec k q), (Z.ltb_spec k (q + 1)); lia.
Qed.

Lemma found_path ready p j s v' : found ready p j s -> n <= Zlen v' ->
  (exact -> lowered ready (dist (sc_d s) j) s v') -> path (sc_cols s) p j (sc_pred s) v'.
Proof using Hp.
  intros [Hcp Hpl Hdl Hix Has Hfr (kf & Hkf & Ekf) Hre Hst Hrow Hrd Hrs Hlv] Hvl Hlo.
  assert (Hge : exact -> forall i k, 0 <= k < n -> red v i ((sc_cols s)⟦k⟧) <= red v' i ((sc_cols s)⟦k⟧)).
  { intros e i k Hk. rewrite (Hlo e) by done. destruct (Z.ltb_spec k ready); [|lia].
    specialize (Hrd e k). lia. }
  (* the row of a column, with any new column as cheap as its old one *)
  assert (Hrowt : exact -> forall m, 0 <= m < n -> 0 <= y⟦(sc_cols s)⟦m⟧⟧ ->
    forall k, 0 <= k < n -> red v' (y⟦(sc_cols s)⟦m⟧⟧) ((sc_cols s)⟦m⟧) <= red v' (y⟦(sc_cols s)⟦m⟧⟧) ((sc_cols s)⟦k⟧)).
  { intros e m Hm Hy k Hk. pose proof (cp_range _ Hcp m Hm). pose proof (cp_range _ Hcp k Hk).
    destruct (assigned_column ((sc_cols s)⟦m⟧)) as (_ & _ & _ & Hti); [done|done|].
    specialize (Hti e ((sc_cols s)⟦k⟧)). rewrite (Hlo e _ m Hm).
    destruct (Z.ltb_spec m ready); [|rewrite Z.add_0_r; etrans; [by apply Hti|by apply Hge]].
    pose proof (Hrow e m ((sc_cols s)⟦k⟧) ltac:(lia) ltac:(done)) as Hr. unfold relaxed in Hr.
    rewrite (Hlo e _ k Hk). destruct (Z.ltb_spec k ready); [lia|]. specialize (Hrs e k ltac:(lia)). lia. }
  split; try done; try lia.
  - intros k Hk. destruct (Hre k Hk) as [[Hs0 _]|(m & Hm & Hmk & Em & Hx)]; [by left|right; by exists m].
  - intros e i Hi Hn k Hk. destruct (mt_x _ _ _ _ (pa_matching _ _ _ _ _ _ _ _ Hp) i Hi Hn) as [Hx1 Hx2].
    destruct (cp_surj _ Hcp (x⟦i⟧) Hx1) as (m & Hm & Em). destruct (cp_surj _ Hcp k Hk) as (k' & Hk' & <-).
    specialize (Hrowt e m Hm). rewrite Em, Hx2 in Hrowt. apply Hrowt; [lia|done].
  - intros e k Hk Hway. set (D := dist (sc_d s) j) in *.
    assert (Hlk : k < ready \/ dist (sc_d s) ((sc_cols s)⟦k⟧) = D).
    { destruct (Z.lt_ge_cases k ready); [by left|right]. destruct Hway as [? | ->]; [apply Hlv; [done|lia]|done]. }
    assert (Hrk : forall i, red v' i ((sc_cols s)⟦k⟧) = red v i ((sc_cols s)⟦k⟧) + D - dist (sc_d s) ((sc_cols s)⟦k⟧)).
    { intros i. rewrite (Hlo e _ k Hk). destruct (Z.ltb_spec k ready); lia. }
    intros j' Hj'. destruct (cp_surj _ Hcp j' Hj') as (m & Hm & <-).
    destruct (Hre k Hk) as [[-> Hdk]|(q & Hq & Hqk & -> & Hdk)].
    + rewrite Hrk, <-Hdk by done. specialize (Hst e ((sc_cols s)⟦m⟧) Hj').
      rewrite (Hlo e _ m Hm). destruct (Z.ltb_spec m ready); [lia|]. specialize (Hrs e m ltac:(lia)). lia.
    + etrans; [|apply Hrowt; [done|lia|apply Has; lia|done]].
      rewrite Hrk, (Hdk e), (Hlo e _ q) by lia.
      destruct (Z.ltb_spec q ready); [lia|]. rewrite (Hlv e q) by lia. lia.
Qed.

Lemma find_path_dense_spec (new : allocator K) cols0 d0 pred :
  new_int new (A_cols start) = Some cols0 -> new_cost new (A_d start) = Some d0 ->
  n <= Zlen cols0 -> n <= Zlen d0 -> n <= Zlen pred ->
  exists cols p j pred' v', find_path_dense new n cost start y v pred = Some (j, pred', v')
    /\ path cols p j pred' v'.
Proof using Hd Hex Hp.
  intros Ec Ed Hcl Hdl Hpl. pose proof start_range as Hst. pose proof (pa_v_len _ _ _ _ _ _ _ _ Hp) as Hvl.
  unfold find_path_dense. rewrite Ec, Ed.
  edestruct (for_range_inv (λ i s, Zlen (sc_cols s) = Zlen cols0 /\ Zlen (sc_d s) = Zlen d0
      /\ Zlen (sc_pred s) = Zlen pred /\ sc_hi s = 0
      /\ forall k, 0 <= k < i -> (sc_cols s)⟦k⟧ = k /\ (sc_pred s)⟦k⟧ = start
                    /\ (sc_d s)⟦k⟧ = c_sub (cost⟦start⟧⟦k⟧) (v⟦k⟧)))
    as (s & -> & Hsc & Hsd & Hsp & Hsh & Hs); [| | |]; [pose proof (dn_n _ _ Hd); lia| | |].
  { split; [done|]. split; [done|]. split; [done|]. split; [done|]. cbn. lia. }
  { intros i s Hi (H1 & H2 & H3 & H4 & H5). rewrite (cost_at_in n cost Hd) by lia. arr.
    eexists. split; [reflexivity|]. cbn. rewrite !Zlen_updZ. split; [done|]. split; [done|].
    split; [done|]. split; [done|]. intros k Hk. rewrite !nthZ_updZ by lia.
    destruct (Z.eqb_spec k i) as [->|]; [done|]. apply H5. lia. }
  cbn [mbind option_bind].
  assert (Hser : search 0 0 0 s).
  { split; try lia.
    - split; [lia|intros k Hk; by rewrite (proj1 (Hs k Hk))| |].
      + intros k m Hk Hm. by rewrite (proj1 (Hs k Hk)), (proj1 (Hs m Hm)).
      + intros j Hj. exists j. split; [done|]. by apply Hs.
    - intros k Hk. left. destruct (Hs k Hk) as (-> & -> & E). split; [done|]. intros e.
      unfold dist. rewrite E. destruct (Hex e) as [Hv _ _]. by rewrite val_sub.
    - intros e. split; try lia. intros j Hj. destruct (Hs j Hj) as (_ & _ & E). unfold dist. rewrite E.
      destruct (Hex e) as [Hv _ _]. rewrite val_sub. unfold Lapjv.red, w. lia. }
  destruct (path_loop_spec (Z.to_nat n + 1) 0 0 s Hser) as (p & q & -> & Hfo & Hlo & Hdl'); [lia|].
  cbn [mbind option_bind]. destruct p as [lo ready j s1]. cbn [pt_scan pt_lo pt_ready pt_final] in *.
  pose proof (fo_perm _ _ _ _ Hfo) as Hcp. pose proof (cp_len _ Hcp). pose proof (fo_d_len _ _ _ _ Hfo).
  pose proof (fo_index _ _ _ _ Hfo). pose proof (cp_range _ Hcp lo ltac:(lia)). arr.
  destruct (lower_prices ready s1 ((sc_d s1)⟦(sc_cols s1)⟦lo⟧⟧)) as (v' & -> & Hvl' & Hlow); [done|done|lia|].
  cbn [mbind option_bind]. exists (sc_cols s1), q, j, (sc_pred s1), v'. split; [done|].
  apply (found_path ready); [done|done|]. intros e. rewrite <-(Hdl' e). by apply Hlow.
Qed.

(** ** The change of the assignment *)

Lemma matching_hole F x1 y1 j : matching n F x1 y1 -> 0 <= j < n -> y1⟦j⟧ < 0 ->
  matching n F x1 (updZ y1 j (-1)).
Proof.
  intros [Hlx Hly Hnd Hr Hy Hx] Hj Hyj. split; rewrite ?Zlen_updZ; try done.
  - intros j' Hj'. rewrite nthZ_updZ by lia. destruct (Z.eqb_spec j' j); [by left|by apply Hy].
  - intros i Hi Hn. destruct (Hx i Hi Hn) as [H1 H2]. split; [done|].
    rewrite nthZ_updZ_ne; [done|lia|lia|]. intros E. rewrite <-E in H2. lia.
Qed.

(** A row moves from column [j'] to the free column [j]. *)
Lemma matching_shift F x1 y1 j j' : matching n F x1 y1 -> 0 <= j < n -> y1⟦j⟧ < 0 ->
  0 <= j' < n -> 0 <= y1⟦j'⟧ ->
  matching n F (updZ x1 (y1⟦j'⟧) j) (updZ (updZ y1 j (y1⟦j'⟧)) j' (-1)).
Proof.
  intros [Hlx Hly Hnd Hr Hy Hx] Hj Hyj Hj' Hyj'. set (i := y1⟦j'⟧) in *.
  destruct (Hy j' Hj') as [?|(Hi & HiF & Hxi)]; [lia|]. fold i in Hi, HiF, Hxi.
  assert (Hne : j <> j') by (intros ->; lia).
  split; rewrite ?Zlen_updZ; try done.
  - intros k Hk. rewrite (nthZ_updZ (updZ y1 j i)) by arr_lia.
    destruct (Z.eqb_spec k j') as [->|Hkj']; [by left|]. rewrite (nthZ_updZ y1) by lia.
    destruct (Z.eqb_spec k j) as [->|Hkj]; [right; rewrite nthZ_updZ_eq by lia; done|].
    destruct (Hy k Hk) as [?|(H1 & H2 & H3)]; [by left|right]. split; [done|]. split; [done|].
    rewrite nthZ_updZ_ne; [done|lia|lia|]. intros E. rewrite <-E, Hxi in H3. lia.
  - intros i' Hi' Hn. rewrite (nthZ_updZ x1) by lia. destruct (Z.eqb_spec i' i) as [->|Hii].
    + split; [done|]. rewrite nthZ_updZ_ne by lia. by rewrite nthZ_updZ_eq by lia.
    + destruct (Hx i' Hi' Hn) as [H1 H2]. split; [done|].
      rewrite nthZ_updZ_ne; [|lia|lia|intros E; rewrite <-E in H2; by destruct Hii].
      rewrite nthZ_updZ_ne; [done|lia|lia|]. intros E. rewrite <-E in H2. lia.
Qed.

Lemma updZ_updZ {A} (l : list A) j a b : updZ (updZ l j a) j b = updZ l j b.
Proof. unfold updZ. apply list_insert_insert_eq. Qed.

Lemma all_tight_upd F F' x1 v' i j : n <= Zlen x1 -> 0 <= i < n -> (forall i, i ∉ F' -> i ∉ F \/ i = start) ->
  i = start \/ start ∈ F' -> all_tight F x1 v' -> tight v' i j -> all_tight F' (updZ x1 i j) v'.
Proof.
  intros Hlx Hi HF Hst Ht Hij i' Hi' Hn. rewrite nthZ_updZ by lia.
  destruct (Z.eqb_spec i' i) as [->|]; [done|]. apply Ht; [done|].
  destruct (HF i' Hn) as [?| ->]; [done|]. destruct Hst; [done|by destruct Hn].
Qed.

Lemma augment_spec cols p j0 pred v' : path cols p j0 pred v' -> forall fuel k x1 y1 i0,
  0 <= k < n -> k < p \/ cols⟦k⟧ = j0 -> (Z.to_nat k < fuel)%nat -> i0 <> start ->
  n <= Zlen y1 -> matching n (start :: R) x1 (updZ y1 (cols⟦k⟧) (-1)) ->
  (forall m, 0 <= m < p -> m < k -> y1⟦cols⟦m⟧⟧ = y⟦cols⟦m⟧⟧) ->
  (exact -> all_tight (start :: R) x1 v') ->
  exists x2 y2, augment fuel start i0 (cols⟦k⟧) pred x1 y1 = Some (x2, y2) /\ partial R x2 y2 v'.
Proof using Hd Hex Hp.
  intros [Hcp Hpl Hvl Hix Has Hfr Hback _ Hway] fuel. induction fuel as [|fuel IH];
    intros k x1 y1 i0 Hk Hkw Hf Hi0 Hly Hmt Hy1 Hti; [lia|].
  cbn [augment]. replace (i0 =? start) with false by (symmetry; by apply Z.eqb_neq).
  pose proof (cp_range _ Hcp k Hk) as Hj. set (j := cols⟦k⟧) in *. arr.
  pose proof start_range as Hst. pose proof (mt_x_len _ _ _ _ Hmt) as Hlx.
  assert (Hhole : (updZ y1 j (-1))⟦j⟧ < 0) by (rewrite nthZ_updZ_eq by lia; done).
  destruct (Hback k Hk) as [E|(m & Hm & Hmk & E)]; fold j in E; rewrite E.
  - arr. assert (Haug : augment fuel start start (x1⟦start⟧) pred (updZ x1 start j) (updZ y1 j start)
                 = Some (updZ x1 start j, updZ y1 j start)).
    { destruct fuel; cbn; by rewrite Z.eqb_refl. }
    rewrite Haug. do 2 eexists. split; [reflexivity|]. split; [|done|].
    + pose proof (matching_assign n R start j _ _ Hmt Hj) as Hm'. rewrite updZ_updZ in Hm'.
      destruct (Z.leb_spec 0 ((updZ y1 j (-1))⟦j⟧)); [lia|done].
    + intros e. eapply (all_tight_upd (start :: R)); [done|done| |by left|by apply Hti|].
      * intros i Hi. destruct (decide (i = start)); [by right|left; set_solver].
      * rewrite <-E. by apply Hway.
  - pose proof (cp_range _ Hcp m ltac:(lia)) as Hjm. rewrite <-Hy1 in E |- * by lia.
    assert (Hne : cols⟦m⟧ <> j) by (intros Ec; apply (cp_inj _ Hcp) in Ec; lia).
    assert (Eh : (updZ y1 j (-1))⟦cols⟦m⟧⟧ = y1⟦cols⟦m⟧⟧) by (rewrite nthZ_updZ_ne by lia; done).
    assert (H0 : 0 <= y1⟦cols⟦m⟧⟧) by (rewrite Hy1 by lia; by apply Has).
    destruct (mt_y _ _ _ _ Hmt (cols⟦m⟧) Hjm) as [?|(H1 & H2 & H3)]; [lia|]. rewrite Eh in H1, H2, H3.
    arr. rewrite H3. apply IH; [lia|by left; lia|lia|set_solver|arr_lia| | |].
    + pose proof (matching_shift _ _ _ j (cols⟦m⟧) Hmt Hj Hhole Hjm) as Hsh.
      rewrite Eh, updZ_updZ in Hsh. by apply Hsh.
    + intros q Hq Hqm. rewrite nthZ_updZ_ne; [apply Hy1; lia|lia|apply Hcp; lia|].
      intros Ec. apply (cp_inj _ Hcp) in Ec; lia.
    + intros e. eapply (all_tight_upd (start :: R)); [done|done|by left|right; set_solver|by apply Hti|].
      rewrite <-E. by apply Hway.
Qed.

(** A free row gets a column. *)
Lemma augment_path cols p j pred v' : path cols p j pred v' ->
  exists x2 y2, augment (Z.to_nat n) start (-1) j pred x y = Some (x2, y2) /\ partial R x2 y2 v'.
Proof using Hd Hex Hp.
  intros Hpa. pose proof Hpa as [Hcp Hpl Hvl Hix Has [Hj Hyj] Hback Hti Hway].
  destruct (cp_surj _ Hcp j Hj) as (k & Hk & Ek). pose proof start_range. pose proof y_len.
  rewrite <-Ek. apply (augment_spec _ _ _ _ _ Hpa); [done|by right|lia|lia|done| |done|done].
  rewrite Ek. apply matching_hole; [apply Hp|done|done].
Qed.
End search.

(** ** The whole algorithm *)

(** All allocations succeed; the arrays have any contents. *)
Record allocates (new : allocator K) : Prop := {
  al_unique : new_unique new = true;
  al_int : forall a, exists l, new_int new a = Some l /\ n <= Zlen l;
  al_cost : forall a, exists l, new_cost new a = Some l /\ n <= Zlen l
}.

Lemma ca_dense_spec (new : allocator K) nf fr x y v : allocates new -> 0 <= nf <= n ->
  n <= Zlen fr -> partial (front nf fr) x y v ->
  exists x' y', _ca_dense new n cost nf fr x y v = Some (0, x', y')
    /\ exists v', partial [] x' y' v'.
Proof using Hd Hex.
  intros [_ Hai Hac] Hnf Hfr Hp. unfold _ca_dense. destruct (Hai A_pred) as (pred & -> & Hpl).
  edestruct (for_range_inv (λ k (s : list Z * list Z * list K * list Z), let '(x, y, v, pred) := s in
      n <= Zlen pred /\ partial (back k nf fr) x y v))
    as ([[[x' y'] v'] pred'] & -> & _ & Hp'); [| | |]; [lia| | |].
  - split; [done|]. replace (back 0 nf fr) with (front nf fr); [done|].
    unfold front, back. cbn. by rewrite Z.sub_0_r.
  - intros k [[[x1 y1] v1] pred1] Hk (Hpl1 & Hp1). rewrite back_cons in Hp1 by lia. arr.
    destruct (Hai (A_cols (fr⟦k⟧))) as (cols0 & Ec & Hcl). destruct (Hac (A_d (fr⟦k⟧))) as (d0 & Ed & Hdl).
    destruct (find_path_dense_spec _ _ _ _ _ Hp1 new cols0 d0 pred1 Ec Ed Hcl Hdl Hpl1)
      as (cols & p & j & pred2 & v2 & -> & Hpa). cbn [mbind option_bind].
    destruct (augment_path _ _ _ _ _ Hp1 _ _ _ _ _ Hpa) as (x2 & y2 & -> & Hp2). cbn [mbind option_bind].
    eexists. split; [reflexivity|]. split; [apply Hpa|exact Hp2].
  - cbn [mbind option_bind]. exists x', y'. split; [done|]. exists v'.
    unfold back in Hp'. by rewrite Z.sub_diag in Hp'.
Qed.

Lemma lapjv_internal_spec (new : allocator K) x y : allocates new -> n <= Zlen x -> n <= Zlen y ->
  exists x' y', lapjv_internal new n cost x y = Some (0, x', y') /\ exists v, partial [] x' y' v.
Proof using Hd Hex.
  intros Ha Hx Hy. pose proof Ha as [Hu Hai Hac]. unfold lapjv_internal.
  destruct (Hai A_free_rows) as (fr & -> & Hfr). destruct (Hac A_v) as (v & -> & Hv).
  destruct (ccrrt_dense_spec val exact n C cost Hd Hex new fr x y v Hfr Hx Hy Hv Hu)
    as (nf1 & fr1 & x1 & y1 & v1 & -> & Hn1 & Hf1 & Hp1 & Hr1). cbn [mbind option_bind].
  assert (Hcarr : forall nf fr x y v, 0 <= nf <= n -> n <= Zlen fr -> partial (front nf fr) x y v ->
    (exact -> prices val n C (front nf fr) y v) ->
    exists nf' fr' x' y' v', (if 0 <? nf then _carr_dense n cost nf fr x y v else Some (nf, fr, x, y, v))
        = Some (nf', fr', x', y', v')
      /\ 0 <= nf' <= n /\ n <= Zlen fr' /\ partial (front nf' fr') x' y' v'
      /\ (exact -> prices val n C (front nf' fr') y' v')).
  { intros nf' fr' x' y' v' H1 H2 H3 H4. destruct (Z.ltb_spec 0 nf').
    - destruct (carr_dense_spec val exact n C cost Hd Hex nf' fr' x' y' v' H1 H2 H3 H4)
        as (nf2 & fr2 & x2 & y2 & v2 & -> & ? & ? & ? & ?).
      exists nf2, fr2, x2, y2, v2. split; [done|]. split; [lia|done].
    - exists nf', fr', x', y', v'. done. }
  destruct (Hcarr nf1 fr1 x1 y1 v1 Hn1 Hf1 Hp1 Hr1) as (nf2 & fr2 & x2 & y2 & v2 & -> & Hn2 & Hf2 & Hp2 & Hr2).
  cbn [mbind option_bind].
  destruct (Hcarr nf2 fr2 x2 y2 v2 Hn2 Hf2 Hp2 Hr2) as (nf3 & fr3 & x3 & y3 & v3 & -> & Hn3 & Hf3 & Hp3 & _).
  cbn [mbind option_bind]. destruct (Z.ltb_spec 0 nf3).
  - by apply ca_dense_spec with (fr := fr3).
  - assert (nf3 = 0) as -> by lia. exists x3, y3. split; [done|]. by exists v3.
Qed.
End paths.

(** ** The optimum *)

(** The cost of giving each row [i] the column [p[i]]. *)
Definition total_cost {K} `{!Cost K} (val : K -> Z) (cost : list (list K)) (n : Z) (p : list Z) : Z :=
  zsum ((λ i, w val cost i (p⟦i⟧)) <$> range 0 n).

Lemma zsum_perm l k : l ≡ₚ k -> zsum l = zsum k.
Proof. unfold zsum. induction 1; cbn [foldr]; lia. Qed.

Lemma zsum_le {A} (f g : A -> Z) l : (forall a, a ∈ l -> f a <= g a) -> zsum (f <$> l) <= zsum (g <$> l).
Proof.
  induction l as [|a l IH]; intros H; [done|]. unfold zsum in *. cbn [fmap list_fmap foldr].
  pose proof (H a ltac:(left)). specialize (IH ltac:(intros; apply H; by right)). lia.
Qed.

Lemma zsum_sub {A} (f g : A -> Z) l : zsum ((λ a, f a - g a) <$> l) = zsum (f <$> l) - zsum (g <$> l).
Proof. unfold zsum. induction l as [|a l IH]; cbn [fmap list_fmap foldr]; lia. Qed.

Lemma tight_optimal {K} `{!Cost K} (val : K -> Z) cost n x v p :
  all_tight val n cost [] x v -> (nthZ x <$> range 0 n) ≡ₚ range 0 n ->
  (nthZ p <$> range 0 n) ≡ₚ range 0 n -> total_cost val cost n x <= total_cost val cost n p.
Proof.
  intros Ht Hx Hp. set (pv j := val (nthZ v j)).
  assert (Hsum : forall q, (nthZ q <$> range 0 n) ≡ₚ range 0 n ->
    zsum ((λ i, w val cost i (q⟦i⟧) - pv (q⟦i⟧)) <$> range 0 n) = total_cost val cost n q - zsum (pv <$> range 0 n)).
  { intros q Hq. rewrite zsum_sub. unfold total_cost. f_equal. apply zsum_perm.
    rewrite <-Hq at 2. by rewrite <-list_fmap_compose. }
  apply (Z.sub_le_mono_r _ _ (zsum (pv <$> range 0 n))). rewrite <-!Hsum by done.
  apply zsum_le. intros i Hi%elem_range.
  apply (Ht i Hi); [set_solver|]. apply elem_range. rewrite <-Hp. apply list_elem_of_fmap.
  exists i. split; [done|by apply elem_range].
Qed.

(** C7: the assignment is solved. For every square matrix of costs, with whatever [double]s
    or other numbers in it, and with any contents of the arrays that are allocated, the
    algorithm ends, stays inside its arrays and returns 0 with [x] and [y] inverse
    permutations. Where the costs are computed exactly and [LARGE] exceeds twice the greatest
    of them, no other assignment of rows to columns costs less. *)
Theorem lapjv_solves {K} `{!Cost K} (new : allocator K) n cost x y :
  dense n cost -> allocates n new -> n <= Zlen x -> n <= Zlen y ->
  exists x' y', lapjv_internal new n cost x y = Some (0, x', y')
    /\ (nthZ x' <$> range 0 n) ≡ₚ range 0 n
    /\ (forall i j, 0 <= i < n -> 0 <= j < n -> x'⟦i⟧ = j <-> y'⟦j⟧ = i)
    /\ forall val C, exact_costs val n C cost ->
         forall p, (nthZ p <$> range 0 n) ≡ₚ range 0 n -> total_cost val cost n x' <= total_cost val cost n p.
Proof.
  intros Hd Ha Hx Hy.
  destruct (lapjv_internal_spec (λ _, 0) False n 0 cost Hd ltac:(done) new x y Ha Hx Hy)
    as (x' & y' & E & v & Hp).
  destruct (matching_nil n x' y') as (Hpx & _ & Hiff); [apply Hp|].
  exists x', y'. split; [done|]. split; [done|]. split; [done|]. intros val C He p Hpp.
  destruct (lapjv_internal_spec val True n C cost Hd ltac:(done) new x y Ha Hx Hy)
    as (x2 & y2 & E2 & v2 & Hp2).
  rewrite E in E2. injection E2 as <- <-. eapply tight_optimal; [by apply Hp2|done|done].
Qed.

(** Integers as costs. *)
Definition z_cost : Cost Z := {|
  c_lt := Z.ltb; c_le := Z.leb; c_eq := Z.eqb; c_add := Z.add; c_sub := Z.sub;
  c_half x := x / 2; c_inc x := x + 1; c_of_Z n := n
|}.

Lemma z_exact : @Exact Z z_cost id.
Proof. by split. Qed.

Definition demo_costs : list (list Z) := [[4; 1; 3; 2]; [2; 0; 5; 3]; [3; 2; 2; 3]; [1; 1; 9; 9]].

Definition demo_new {K} (c : K) (n : nat) : allocator K :=
  {| new_int _ := Some (replicate n 7); new_cost _ := Some (replicate n c); new_unique := true |}.

Lemma demo_allocates {K} (c : K) (n : nat) : allocates (Z.of_nat n) (demo_new c n).
Proof.
  split; [done|intros a; exists (replicate n 7)|intros a; exists (replicate n c)];
    (split; [done|]); unfold Zlen; rewrite length_replicate; lia.
Qed.

Lemma range_forall (P : Z -> Prop) `{!forall i, Decision (P i)} n :
  bool_decide (Forall P (range 0 n)) = true -> forall i, 0 <= i < n -> P i.
Proof.
  intros Hb i Hi. apply bool_decide_eq_true_1 in Hb. rewrite Forall_forall in Hb. apply Hb.
  by apply elem_range.
Qed.

Lemma lapjv_solves_witness :
  @lapjv_internal Z z_cost (demo_new 7 4) 4 demo_costs [9; 9; 9; 9] [9; 9; 9; 9]
    = Some (0, [3; 1; 2; 0], [3; 1; 2; 0])
  /\ exists x' y', @lapjv_internal Z z_cost (demo_new 7 4) 4 demo_costs [9; 9; 9; 9] [9; 9; 9; 9]
      = Some (0, x', y')
    /\ (nthZ x' <$> range 0 4) ≡ₚ range 0 4
    /\ (forall i j, 0 <= i < 4 -> 0 <= j < 4 -> x'⟦i⟧ = j <-> y'⟦j⟧ = i)
    /\ forall val C, @exact_costs Z z_cost val 4 C demo_costs ->
         forall p, (nthZ p <$> range 0 4) ≡ₚ range 0 4 ->
         @total_cost Z z_cost val demo_costs 4 x' <= @total_cost Z z_cost val demo_costs 4 p.
Proof.
  split; [vm_compute; reflexivity|].
  apply (@lapjv_solves Z z_cost (demo_new 7 4) 4 demo_costs [9; 9; 9; 9] [9; 9; 9; 9]).
  - split; [lia|by_eval|]. apply (range_forall (λ i, 4 <= Zlen (nthZ demo_costs i)) 4). vm_compute. reflexivity.
  - exact (demo_allocates 7 4).
  - by_eval.
  - by_eval.
Defined.

(** The optimum is one: the integers are computed exactly. *)
Lemma demo_exact : @exact_costs Z z_cost id 4 9 demo_costs.
Proof.
  split; [exact z_exact| |by_eval].
  intros i j Hi Hj. revert j Hj. apply (range_forall (λ j, 0 <= @w Z z_cost id demo_costs i j <= 9) 4).
  revert i Hi. apply (range_forall (λ i, bool_decide (Forall (λ j, 0 <= @w Z z_cost id demo_costs i j <= 9) (range 0 4)) = true) 4).
  vm_compute. reflexivity.
Qed.

(** Without memory for a search the result of the search is used as an index. *)
Lemma ca_dense_no_memory {K} `{!Cost K} (new : allocator K) n cost nf fr x y v pred :
  new_int new A_pred = Some pred -> 0 < nf -> nf <= Zlen fr -> fr⟦0⟧ <> -1 ->
  new_int new (A_cols (fr⟦0⟧)) = None -> _ca_dense new n cost nf fr x y v = None.
Proof.
  intros Hp Hnf Hl Hfr Hn. unfold _ca_dense. rewrite Hp, range_cons by lia. cbn [for_each]. arr.
  unfold find_path_dense. rewrite Hn. cbn [mbind option_bind].
  assert (Ha : augment (Z.to_nat n) (fr⟦0⟧) (-1) (-1) pred x y = None); [|by rewrite Ha].
  destruct (Z.to_nat n); cbn [augment]; destruct (Z.eqb_spec (-1) (fr⟦0⟧)); congruence || done.
Qed.
