(* ===== verification/Association.v ===== *)
(** * Association of tracks and boxes ([yolov8_infer/utils.cpp])

    [lapjv] makes the matrix of the costs square, so that a row or a column may stay alone at
    half the limit, and runs the assignment; [linear_assignment] reads the pairs and the rest
    from its result. *)

From stdpp Require Import list_numbers.
From S2P Require Import Prelude Arrays CFloat Lapjv LapjvPath.
Local Open Scope list_scope.
Local Open Scope Z_scope.

(** ** The code *)

(** [exit] ends the program. *)
Inductive outcome (A : Type) := Exit | Done (a : A).
Arguments Exit {_}.
Arguments Done {_}.

Section code.
Context {K : Type} {HK : Cost K}.

(** What an allocation gives depends on the size of the problem. *)
Context (mem : Z -> allocator K).

Definition LONG_MAX : K := c_of_Z (2 ^ 63 - 1).

Definition cost_max (cost : list (list K)) : K :=
  foldl (λ m c, if c_lt m c then c else m) (c_of_Z (-1)) (concat cost).

(** The extended matrix: the costs, nothing between an added row and an added column, and
    otherwise half the limit. *)
Definition cost_c_extended (cost : list (list K)) (n_rows n_cols : Z) (cost_limit : K)
  : option (list (list K)) :=
  let fill := if c_lt cost_limit LONG_MAX then c_half cost_limit
              else c_inc (cost_max cost) in
  mapM (λ i, mapM (λ j,
    if (i <? n_rows) && (j <? n_cols) then cost_at cost i j
    else if (n_rows <=? i) && (n_cols <=? j) then Some (c_of_Z 0)
    else Some fill) (range 0 (n_rows + n_cols))) (range 0 (n_rows + n_cols)).

(** [rowsol], [colsol] and the cost. *)
Definition lapjv (cost : list (list K)) (extend_cost : bool) (cost_limit : K) (return_cost : bool)
  : option (outcome (list Z * list Z * K)) :=
  row0 ← aget cost 0;
  let n_rows := Zlen cost in let n_cols := Zlen row0 in
  if negb (n_rows =? n_cols) && negb extend_cost then Some Exit else
  '(n, cost_c) ←
    if extend_cost || c_lt cost_limit LONG_MAX then
      cost_c ← cost_c_extended cost n_rows n_cols cost_limit; Some (n_rows + n_cols, cost_c)
    else Some (n_rows, cost);
  cost_ptr ← mapM (λ i, mapM (λ j, cost_at cost_c i j) (range 0 n)) (range 0 n);
  match new_int (mem n) A_x, new_int (mem n) A_y with
  | Some x_c, Some y_c =>
      '(ret, x_c, y_c) ← lapjv_internal (mem n) n cost_ptr x_c y_c;
      if negb (ret =? 0) then Some Exit else
      if negb (n =? n_rows) then
        '(x_c, y_c) ← for_each (range 0 n) (λ i '(x_c, y_c),
          xi ← aget x_c i;
          x_c ← if n_cols <=? xi then aset x_c i (-1) else Some x_c;
          yi ← aget y_c i;
          y_c ← if n_rows <=? yi then aset y_c i (-1) else Some y_c;
          Some (x_c, y_c)) (x_c, y_c);
        rowsol ← mapM (aget x_c) (range 0 n_rows);
        colsol ← mapM (aget y_c) (range 0 n_cols);
        opt ← if return_cost then
                for_each (range 0 n_rows) (λ i opt,
                  r ← aget rowsol i;
                  if negb (r =? -1) then c ← cost_at cost_ptr i r; Some (c_add opt c) else Some opt)
                  (c_of_Z 0)
              else Some (c_of_Z 0);
        Some (Done (rowsol, colsol, opt))
      else
        let rowsol := replicate (Z.to_nat n_rows) 0 in
        let colsol := replicate (Z.to_nat n_cols) 0 in
        opt ← if return_cost then
                for_each (range 0 n_rows) (λ i opt,
                  r ← aget rowsol i; c ← cost_at cost_ptr i r; Some (c_add opt c)) (c_of_Z 0)
              else Some (c_of_Z 0);
        Some (Done (rowsol, colsol, opt))
  | _, _ => Some Exit
  end.

Record assignment := {
  matches : list (Z * Z); unmatched_a : list Z; unmatched_b : list Z
}.

Definition linear_assignment (cost_matrix : list (list K)) (cost_matrix_size cost_matrix_size_size : Z)
    (thresh : K) : option (outcome assignment) :=
  if Zlen cost_matrix =? 0 then
    Some (Done {| matches := []; unmatched_a := range 0 cost_matrix_size;
                  unmatched_b := range 0 cost_matrix_size_size |})
  else
    r ← lapjv cost_matrix true thresh true;
    match r with
    | Exit => Some Exit
    | Done (rowsol, colsol, _) =>
        '(ms, ua) ← for_each (range 0 (Zlen rowsol)) (λ i '(ms, ua),
          r ← aget rowsol i;
          Some (if 0 <=? r then (ms ++ [(i, r)], ua) else (ms, ua ++ [i]))) ([], []);
        ub ← for_each (range 0 (Zlen colsol)) (λ i ub,
          c ← aget colsol i; Some (if c <? 0 then ub ++ [i] else ub)) [];
        Some (Done {| matches := ms; unmatched_a := ua; unmatched_b := ub |})
    end.
End code.

(** ** The matrix *)

(** A rectangular matrix and its costs. *)
Definition rectangular {K} (m k : Z) (cost : list (list K)) : Prop :=
  Zlen cost = m /\ Forall (λ row, Zlen row = k) cost.

Section matrix.
Context {A : Type} `{!Inhabited A}.

Lemma mapM_range (f : Z -> option A) (g : Z -> A) lo hi :
  (forall i, lo <= i < hi -> f i = Some (g i)) -> mapM f (range lo hi) = Some (g <$> range lo hi).
Proof.
  intros H. apply mapM_Some_2. apply Forall2_fmap_r, Forall_Forall2_diag.
  apply Forall_forall. intros i Hi%elem_range. by apply H.
Qed.

Lemma Zlen_range_map (g : Z -> A) n : 0 <= n -> Zlen (g <$> range 0 n) = n.
Proof. intros. unfold Zlen. rewrite length_fmap, length_range. lia. Qed.

Lemma nthZ_range_map (g : Z -> A) n i : 0 <= i < n -> (g <$> range 0 n)⟦i⟧ = g i.
Proof.
  intros H. apply nth_lookup_Some. rewrite list_lookup_fmap. unfold range.
  rewrite lookup_seqZ_lt by lia. cbn. f_equal. f_equal. lia.
Qed.
End matrix.

(** ** What is assigned *)

Section spec.
Context {K : Type} {HK : Cost K} (mem : Z -> allocator K).
Context (cost : list (list K)) (m k : Z) (limit : K).
Hypothesis Hcost : rectangular m k cost.
Hypothesis Hm : 0 < m.
Hypothesis Hk : 0 < k.
Hypothesis Hmk : m + k < 65536.
Hypothesis Hmem : allocates (m + k) (mem (m + k)).

Definition fill : K :=
  if c_lt limit LONG_MAX then c_half limit else c_inc (cost_max cost).
Definition entry (i j : Z) : K :=
  if (i <? m) && (j <? k) then cost⟦i⟧⟦j⟧
  else if (m <=? i) && (k <=? j) then c_of_Z 0 else fill.
Definition extended : list (list K) :=
  (λ i, (λ j, entry i j) <$> range 0 (m + k)) <$> range 0 (m + k).

Lemma rectangular_row i : 0 <= i < m -> Zlen (cost⟦i⟧) = k.
Proof using Hcost.
  intros Hi. destruct Hcost as [Hl Hf]. rewrite Forall_forall in Hf. apply Hf.
  apply nthZ_elem. lia.
Qed.

Lemma cost_c_extended_eq : cost_c_extended cost m k limit = Some extended.
Proof using Hcost Hm Hk.
  unfold cost_c_extended. apply mapM_range. intros i Hi. apply mapM_range. intros j Hj.
  unfold entry. fold fill. destruct (Z.ltb_spec i m), (Z.ltb_spec j k); cbn [andb];
    try (by destruct ((m <=? i) && (k <=? j))).
  unfold cost_at. destruct Hcost as [Hl _]. arr. pose proof (rectangular_row i ltac:(lia)). by arr.
Qed.

Lemma extended_at i j : 0 <= i < m + k -> 0 <= j < m + k -> extended⟦i⟧⟦j⟧ = entry i j.
Proof. intros Hi Hj. unfold extended. rewrite !nthZ_range_map by lia. done. Qed.

Lemma extended_dense : dense (m + k) extended.
Proof using Hm Hk Hmk.
  split; [lia|unfold extended; rewrite Zlen_range_map; lia|]. intros i Hi. unfold extended.
  rewrite nthZ_range_map, Zlen_range_map; lia.
Qed.

Definition solution (p q : list Z) : Prop :=
  (nthZ p <$> range 0 (m + k)) ≡ₚ range 0 (m + k)
  /\ (forall i j, 0 <= i < m + k -> 0 <= j < m + k -> p⟦i⟧ = j <-> q⟦j⟧ = i)
  /\ forall val C, exact_costs val (m + k) C extended -> forall p',
       (nthZ p' <$> range 0 (m + k)) ≡ₚ range 0 (m + k) ->
       total_cost val extended (m + k) p <= total_cost val extended (m + k) p'.

Lemma internal_solution x y : m + k <= Zlen x -> m + k <= Zlen y ->
  exists p q, lapjv_internal (mem (m + k)) (m + k) extended x y = Some (0, p, q)
    /\ m + k <= Zlen p /\ m + k <= Zlen q /\ solution p q.
Proof using Hm Hk Hmk Hmem.
  intros Hx Hy.
  destruct (lapjv_internal_spec (λ _, 0) False (m + k) 0 extended extended_dense ltac:(done) _ x y Hmem Hx Hy)
    as (p & q & E & v & Hp).
  destruct (matching_nil (m + k) p q) as (Hpp & _ & Hiff); [apply Hp|].
  exists p, q. split; [done|]. split; [apply Hp|]. split; [apply Hp|]. split; [done|]. split; [done|].
  intros val C He p' Hp'.
  destruct (lapjv_internal_spec val True (m + k) C extended extended_dense ltac:(done) _ x y Hmem Hx Hy)
    as (p2 & q2 & E2 & v2 & Hp2).
  rewrite E in E2. injection E2 as <- <-. eapply tight_optimal; [by apply Hp2|done|done].
Qed.

(** An index beyond [b] stands for none. *)
Definition within (b j : Z) : Z := if b <=? j then -1 else j.

Lemma lapjv_spec : exists p q rowsol colsol opt,
  lapjv mem cost true limit true = Some (Done (rowsol, colsol, opt)) /\ solution p q
  /\ rowsol = (λ i, within k (p⟦i⟧)) <$> range 0 m /\ colsol = (λ j, within m (q⟦j⟧)) <$> range 0 k.
Proof using Hcost Hm Hk Hmk Hmem.
  unfold lapjv. pose proof Hcost as [Hl _]. pose proof (rectangular_row 0 ltac:(lia)) as Hr0. arr.
  rewrite Hl, Hr0. rewrite andb_false_r. cbn [orb]. rewrite cost_c_extended_eq. cbn [mbind option_bind].
  assert (E : mapM (λ i, mapM (λ j, cost_at extended i j) (range 0 (m + k))) (range 0 (m + k)) = Some extended).
  { apply mapM_range. intros i Hi. apply mapM_range. intros j Hj.
    rewrite (cost_at_in (m + k) extended extended_dense) by lia. by rewrite extended_at. }
  rewrite E. cbn [mbind option_bind]. pose proof Hmem as [_ Hint _].
  destruct (Hint A_x) as (x & -> & Hx). destruct (Hint A_y) as (y & -> & Hy).
  destruct (internal_solution x y Hx Hy) as (p & q & -> & Hlp & Hlq & Hsol). cbn [mbind option_bind negb Z.eqb].
  replace (m + k =? m) with false by (symmetry; apply Z.eqb_neq; lia). cbn [negb].
  edestruct (for_range_inv (λ i (s : list Z * list Z), Zlen s.1 = Zlen p /\ Zlen s.2 = Zlen q
      /\ forall j, 0 <= j < m + k -> s.1⟦j⟧ = (if j <? i then within k (p⟦j⟧) else p⟦j⟧)
                    /\ s.2⟦j⟧ = (if j <? i then within m (q⟦j⟧) else q⟦j⟧)))
    as ([p' q'] & -> & Hlp' & Hlq' & Hpq); [| | |]; [lia| | |].
  { split; [done|]. split; [done|]. intros j Hj. destruct (Z.ltb_spec j 0); [lia|done]. }
  { intros i [p1 q1] Hi (H1 & H2 & H3). cbn [fst snd] in *. arr.
    destruct (H3 i Hi) as [Ep Eq]. rewrite Z.ltb_irrefl in Ep, Eq.
    exists ((if k <=? p1⟦i⟧ then updZ p1 i (-1) else p1), (if m <=? q1⟦i⟧ then updZ q1 i (-1) else q1)).
    split.
    { destruct (k <=? p1⟦i⟧); arr; by destruct (m <=? q1⟦i⟧); arr. }
    cbn [fst snd]. split; [by destruct (k <=? p1⟦i⟧); rewrite ?Zlen_updZ|].
    split; [by destruct (m <=? q1⟦i⟧); rewrite ?Zlen_updZ|].
    intros j Hj. specialize (H3 j Hj) as [E1 E2]. destruct (Z.eq_dec j i) as [->|Hne].
    - destruct (Z.ltb_spec i (i + 1)); [|lia]. unfold within. rewrite <-Ep, <-Eq.
      destruct (k <=? p1⟦i⟧), (m <=? q1⟦i⟧); by rewrite ?nthZ_updZ_eq by lia.
    - replace (j <? i + 1) with (j <? i) by (destruct (Z.ltb_spec j i), (Z.ltb_spec j (i + 1)); lia || done).
      destruct (k <=? p1⟦i⟧), (m <=? q1⟦i⟧); by rewrite ?nthZ_updZ_ne by lia. }
  cbn [mbind option_bind fst snd] in *.
  rewrite (mapM_range (aget p') (λ i, within k (p⟦i⟧))).
  2: { intros i Hi. arr. destruct (Hpq i) as [-> _]; [lia|]. destruct (Z.ltb_spec i (m + k)); [done|lia]. }
  cbn [mbind option_bind]. rewrite (mapM_range (aget q') (λ j, within m (q⟦j⟧))).
  2: { intros j Hj. arr. destruct (Hpq j) as [_ ->]; [lia|]. destruct (Z.ltb_spec j (m + k)); [done|lia]. }
  cbn [mbind option_bind].
  edestruct (for_range_inv (λ (_ : Z) (_ : K), True)) as (opt & -> & _); [| | |]; [lia|done| |].
  { intros i opt Hi _. pose proof (Zlen_range_map (λ i, within k (p⟦i⟧)) m ltac:(lia)) as Hrl. arr.
    rewrite nthZ_range_map by lia. destruct (Z.eqb_spec (within k (p⟦i⟧)) (-1)) as [|Hw]; [by eexists|].
    cbn [negb]. rewrite (cost_at_in (m + k) extended extended_dense); [by eexists|lia|].
    assert (Hin : p⟦i⟧ ∈ range 0 (m + k)).
    { destruct Hsol as [Hp _]. rewrite <-Hp. apply list_elem_of_fmap. exists i. split; [done|].
      apply elem_range. lia. }
    apply elem_range in Hin. unfold within in *. destruct (Z.leb_spec k (p⟦i⟧)); [done|lia]. }
  cbn [mbind option_bind]. exists p, q. do 3 eexists. split; [reflexivity|]. done.
Qed.
End spec.

(** ** Pairs *)

(** The pairs of an assignment of the extended matrix. *)
Definition pairs (m k : Z) (p : list Z) : list (Z * Z) :=
  (λ i, (i, p⟦i⟧)) <$> filter (λ i, p⟦i⟧ < k) (range 0 m).

(** No row and no column is in two pairs. *)
Definition pairing (m k : Z) (M : list (Z * Z)) : Prop :=
  NoDup M.*1 /\ NoDup M.*2 /\ Forall (λ ij, 0 <= ij.1 < m /\ 0 <= ij.2 < k) M.

Lemma filter_all {A} (P : A -> Prop) `{!forall a, Decision (P a)} l : Forall P l -> filter P l = l.
Proof. induction 1 as [|a l Ha _ IH]; [done|]. rewrite filter_cons, decide_True by done. by rewrite IH. Qed.

Lemma filter_none {A} (P : A -> Prop) `{!forall a, Decision (P a)} l :
  Forall (λ a, ~ P a) l -> filter P l = [].
Proof. induction 1 as [|a l Ha _ IH]; [done|]. by rewrite filter_cons, decide_False by done. Qed.

Section pairs.
Context (m k : Z).
Hypothesis Hm : 0 < m.
Hypothesis Hk : 0 < k.

Lemma elem_pairs p i j : (i, j) ∈ pairs m k p <-> 0 <= i < m /\ p⟦i⟧ = j /\ j < k.
Proof.
  unfold pairs. rewrite list_elem_of_fmap. split.
  - intros (i' & [= -> ->] & [H1 H2%elem_range]%list_elem_of_filter). done.
  - intros (H1 & <- & H2). exists i. split; [done|]. apply list_elem_of_filter. by rewrite elem_range.
Qed.

Lemma pairs_fst p : (pairs m k p).*1 = filter (λ i, p⟦i⟧ < k) (range 0 m).
Proof. unfold pairs. rewrite <-list_fmap_compose. apply list_fmap_id. Qed.

Section perm.
Context (p q : list Z).
Hypothesis Hp : (nthZ p <$> range 0 (m + k)) ≡ₚ range 0 (m + k).
Hypothesis Hpq : forall i j, 0 <= i < m + k -> 0 <= j < m + k -> p⟦i⟧ = j <-> q⟦j⟧ = i.

Lemma perm_range i : 0 <= i < m + k -> 0 <= p⟦i⟧ < m + k.
Proof using Hp.
  intros Hi. apply elem_range. rewrite <-Hp. apply list_elem_of_fmap. exists i. split; [done|].
  by apply elem_range.
Qed.

Lemma perm_surj j : 0 <= j < m + k -> exists i, 0 <= i < m + k /\ p⟦i⟧ = j.
Proof using Hp.
  intros Hj%elem_range. rewrite <-Hp in Hj. apply list_elem_of_fmap in Hj as (i & -> & Hi%elem_range).
  by exists i.
Qed.

Lemma pairs_pairing : pairing m k (pairs m k p).
Proof using Hm Hk Hp Hpq.
  split; [rewrite pairs_fst; apply NoDup_filter, NoDup_range|]. split.
  - unfold pairs. rewrite <-list_fmap_compose.
    apply NoDup_fmap_2_strong; [|apply NoDup_filter, NoDup_range]. cbn.
    intros i i' [_ Hi%elem_range]%list_elem_of_filter [_ Hi'%elem_range]%list_elem_of_filter E.
    pose proof (perm_range i' ltac:(lia)) as Hr.
    rewrite <-(proj1 (Hpq i (p⟦i'⟧) ltac:(lia) Hr) E). by apply Hpq; [lia|done|].
  - apply Forall_forall. intros [i j] (Hi & <- & Hj)%elem_pairs. cbn.
    pose proof (perm_range i ltac:(lia)). lia.
Qed.

(** Every row is in a pair or left over, and so is every column. *)
Lemma pairs_rows : (pairs m k p).*1 ++ filter (λ i, ~ p⟦i⟧ < k) (range 0 m) ≡ₚ range 0 m.
Proof. rewrite pairs_fst. apply filter_app_complement. Qed.

Lemma pairs_columns : (pairs m k p).*2 ++ filter (λ j, ~ q⟦j⟧ < m) (range 0 k) ≡ₚ range 0 k.
Proof using Hm Hk Hp Hpq.
  rewrite <-(filter_app_complement (λ j, q⟦j⟧ < m) (range 0 k)) at 2. f_equiv.
  apply NoDup_Permutation; [apply pairs_pairing|apply NoDup_filter, NoDup_range|].
  intros j. rewrite list_elem_of_filter, elem_range, list_elem_of_fmap. split.
  - intros ([i j'] & -> & (Hi & <- & Hj)%elem_pairs). cbn. pose proof (perm_range i ltac:(lia)).
    assert (E : q⟦p⟦i⟧⟧ = i) by (apply Hpq; [lia|done|done]). lia.
  - intros [Hq Hj]. destruct (perm_surj j ltac:(lia)) as (i & Hi & E). exists (i, j). split; [done|].
    apply elem_pairs. assert (Eq : q⟦j⟧ = i) by (apply Hpq; [done|lia|done]). split; [lia|]. split; [done|lia].
Qed.

Lemma filter_map {A B} (f : A -> B) (P : B -> Prop) `{!forall b, Decision (P b)} (l : list A) :
  filter P (f <$> l) = f <$> filter (λ a, P (f a)) l.
Proof.
  induction l as [|a l IH]; [done|]. cbn [fmap list_fmap]. rewrite !filter_cons.
  case_decide; cbn [fmap list_fmap]; by rewrite IH.
Qed.

(** [k] rows take a proper column. *)
Lemma proper_columns : length (filter (λ i, p⟦i⟧ < k) (range 0 (m + k))) = Z.to_nat k.
Proof using Hm Hk Hp.
  assert (E : length (filter (λ j, j < k) (nthZ p <$> range 0 (m + k)))
              = length (filter (λ j, j < k) (range 0 (m + k)))) by (by rewrite Hp).
  rewrite filter_map, length_fmap in E. rewrite E.
  rewrite (range_app 0 k (m + k)), filter_app, length_app by lia.
  rewrite filter_all, filter_none, length_range; [cbn; lia| |];
    apply Forall_forall; intros j Hj%elem_range; lia.
Qed.
End perm.
End pairs.

(** ** The cost of pairs *)

Lemma zsum_filter {A} (P : A -> Prop) `{!forall a, Decision (P a)} (g : A -> Z) l :
  zsum ((λ a, if decide (P a) then g a else 0) <$> l) = zsum (g <$> filter P l).
Proof.
  unfold zsum. induction l as [|a l IH]; [done|]. rewrite filter_cons. cbn [fmap list_fmap foldr].
  rewrite IH. case_decide; cbn [fmap list_fmap foldr]; lia.
Qed.

Lemma zsum_const {A} (h : Z) (l : list A) : zsum ((λ _, h) <$> l) = h * Z.of_nat (length l).
Proof. unfold zsum. induction l as [|a l IH]; cbn [fmap list_fmap foldr length]; lia. Qed.

Lemma zsum_add {A} (f g : A -> Z) l : zsum ((λ a, f a + g a) <$> l) = zsum (f <$> l) + zsum (g <$> l).
Proof. unfold zsum. induction l as [|a l IH]; cbn [fmap list_fmap foldr]; lia. Qed.

Lemma zsum_ext {A} (f g : A -> Z) l : (forall a, a ∈ l -> f a = g a) -> zsum (f <$> l) = zsum (g <$> l).
Proof. intros H. apply Z.le_antisymm; apply zsum_le; intros a Ha; rewrite H by done; lia. Qed.

Section cost.
Context {K : Type} {HK : Cost K} (val : K -> Z) (cost : list (list K)) (m k : Z) (limit : K).
Hypothesis Hm : 0 < m.
Hypothesis Hk : 0 < k.

(** What a pairing costs more than leaving everything alone. *)
Definition gain (M : list (Z * Z)) : Z := zsum ((λ ij, w val cost ij.1 ij.2 - val limit) <$> M).

(** The arithmetic is exact: the limit is twice its half, and no cost is too great. *)
Record exact_problem (C : Z) : Prop := {
  xp_val :: Exact val;
  xp_limit : c_lt limit LONG_MAX = true;
  xp_half : 2 * val (c_half limit) = val limit;
  xp_half_bound : 0 <= val (c_half limit) <= C;
  xp_bound : forall i j, 0 <= i < m -> 0 <= j < k -> 0 <= w val cost i j <= C;
  xp_large : 2 * C < val LARGE
}.

Local Abbreviation ext := (extended cost m k limit).

Lemma exact_extended C : exact_problem C -> exact_costs val (m + k) C ext.
Proof.
  intros [Hv Hl Hh Hhb Hb HL]. split; [done| |done]. intros i j Hi Hj. unfold w at 1 2.
  rewrite !extended_at by lia. unfold entry, fill. rewrite Hl.
  destruct (Z.ltb_spec i m), (Z.ltb_spec j k); cbn [andb]; try (apply Hb; lia);
    destruct ((m <=? i) && (k <=? j)); rewrite ?val_zero; lia.
Qed.

Lemma total_gain C p : exact_problem C -> (nthZ p <$> range 0 (m + k)) ≡ₚ range 0 (m + k) ->
  total_cost val ext (m + k) p = gain (pairs m k p) + val (c_half limit) * (m + k).
Proof using Hm Hk.
  intros [Hv Hl Hh _ _ _] Hp. set (h := val (c_half limit)) in *. unfold total_cost.
  rewrite (range_app 0 m (m + k)) by lia. rewrite fmap_app, zsum_app.
  pose proof (fun i => perm_range m k p Hp i) as Hr.
  rewrite (zsum_ext _ (λ i, h + (if decide (p⟦i⟧ < k) then w val cost i (p⟦i⟧) - h else 0)) (range 0 m)).
  2: { intros i Hi%elem_range. unfold w at 1. rewrite extended_at by (lia || (apply Hr; lia)).
       unfold entry, fill. rewrite Hl. destruct (Z.ltb_spec i m); [|lia].
       destruct (Z.ltb_spec (p⟦i⟧) k); cbn [andb]; case_decide; try lia; [unfold w; lia|].
       destruct (Z.leb_spec m i); [lia|]. cbn [andb]. fold h. lia. }
  rewrite (zsum_ext _ (λ i, if decide (p⟦i⟧ < k) then h else 0) (range m (m + k))).
  2: { intros i Hi%elem_range. unfold w at 1. rewrite extended_at by (lia || (apply Hr; lia)).
       unfold entry, fill. rewrite Hl. destruct (Z.ltb_spec i m); [lia|]. cbn [andb].
       destruct (Z.leb_spec m i); [|lia]. destruct (Z.leb_spec k (p⟦i⟧)); cbn [andb]; case_decide; try lia.
       apply val_zero. }
  rewrite zsum_add, !zsum_filter, !zsum_const, length_range.
  pose proof (proper_columns m k Hm Hk p Hp) as Hc.
  rewrite (range_app 0 m (m + k)), filter_app, length_app in Hc by lia.
  assert (Eg : gain (pairs m k p)
    = zsum ((λ i, w val cost i (p⟦i⟧) - h) <$> filter (λ i, p⟦i⟧ < k) (range 0 m))
      - h * Z.of_nat (length (filter (λ i, p⟦i⟧ < k) (range 0 m)))).
  { unfold gain, pairs. rewrite <-list_fmap_compose, <-zsum_const, <-zsum_sub. cbn.
    apply zsum_ext. intros i _. cbn. lia. }
  rewrite Eg. nia.
Qed.

(** *** Every pairing is one of a permutation *)

Section build.
Context (M : list (Z * Z)).
Hypothesis HM : pairing m k M.

Definition row_map : gmap Z Z := list_to_map M.
Definition col_map : gmap Z Z := list_to_map ((λ ij, (ij.2, ij.1)) <$> M).

Lemma row_map_spec i j : row_map !! i = Some j <-> (i, j) ∈ M.
Proof using HM. destruct HM as (H1 & _ & _). symmetry. by apply elem_of_list_to_map. Qed.

Lemma col_map_spec i j : col_map !! j = Some i <-> (i, j) ∈ M.
Proof using HM.
  destruct HM as (_ & H2 & _). unfold col_map. rewrite <-elem_of_list_to_map.
  - rewrite list_elem_of_fmap. split; [intros ([i' j'] & [= -> ->] & ?); done|intros; by exists (i, j)].
  - by rewrite <-list_fmap_compose.
Qed.

Lemma pairing_range i j : (i, j) ∈ M -> 0 <= i < m /\ 0 <= j < k.
Proof using HM. destruct HM as (_ & _ & Hf). rewrite Forall_forall in Hf. apply Hf. Qed.

Definition build_at (i : Z) : Z :=
  if i <? m then match row_map !! i with Some j => j | None => k + i end
  else match col_map !! (i - m) with Some i0 => k + i0 | None => i - m end.

Definition build : list Z := build_at <$> range 0 (m + k).

Lemma build_nth i : 0 <= i < m + k -> build⟦i⟧ = build_at i.
Proof. apply nthZ_range_map. Qed.

Lemma build_at_cases i : 0 <= i < m + k ->
  (i < m /\ exists j, (i, j) ∈ M /\ build_at i = j) \/
  (i < m /\ (forall j, (i, j) ∉ M) /\ build_at i = k + i) \/
  (m <= i /\ exists i0, (i0, i - m) ∈ M /\ build_at i = k + i0) \/
  (m <= i /\ (forall i0, (i0, i - m) ∉ M) /\ build_at i = i - m).
Proof using HM.
  intros Hi. unfold build_at. destruct (Z.ltb_spec i m).
  - destruct (row_map !! i) as [j|] eqn:E; [left|right; left].
    + split; [done|]. exists j. by rewrite <-row_map_spec.
    + split; [done|]. split; [|done]. intros j. rewrite <-row_map_spec. congruence.
  - right. right. destruct (col_map !! (i - m)) as [i0|] eqn:E; [left|right].
    + split; [done|]. exists i0. by rewrite <-col_map_spec.
    + split; [done|]. split; [|done]. intros i0. rewrite <-col_map_spec. congruence.
Qed.

Lemma pairing_fun i j j' : (i, j) ∈ M -> (i, j') ∈ M -> j = j'.
Proof using HM. rewrite <-!row_map_spec. congruence. Qed.

Lemma pairing_inj i i' j : (i, j) ∈ M -> (i', j) ∈ M -> i = i'.
Proof using HM. rewrite <-!col_map_spec. congruence. Qed.

Lemma build_perm : (nthZ build <$> range 0 (m + k)) ≡ₚ range 0 (m + k).
Proof using HM Hm Hk.
  assert (E : nthZ build <$> range 0 (m + k) = build).
  { unfold build at 2. apply list_fmap_ext. intros x i Hi%list_elem_of_lookup_2%elem_range.
    by apply build_nth. }
  rewrite E. apply submseteq_length_Permutation; [|unfold build; by rewrite length_fmap].
  apply NoDup_submseteq.
  - apply NoDup_fmap_2_strong; [|apply NoDup_range]. intros i i' Hi%elem_range Hi'%elem_range Eb.
    destruct (build_at_cases i Hi) as [(H1 & j & Hj & Ej)|[(H1 & Hj & Ej)|[(H1 & j & Hj & Ej)|(H1 & Hj & Ej)]]];
    destruct (build_at_cases i' Hi') as [(H2 & j' & Hj' & Ej')|[(H2 & Hj' & Ej')|[(H2 & j' & Hj' & Ej')|(H2 & Hj' & Ej')]]];
    rewrite Ej, Ej' in Eb; try (apply pairing_range in Hj as Hr); try (apply pairing_range in Hj' as Hr'); try lia.
    + subst. by eapply pairing_inj.
    + subst. by destruct (Hj' i).
    + assert (i = j') as -> by lia. by destruct (Hj (i' - m)).
    + assert (i' = j) as -> by lia. by destruct (Hj' (i - m)).
    + assert (j = j') as -> by lia. pose proof (pairing_fun _ _ _ Hj Hj'). lia.
    + rewrite <-Eb in Hj'. by destruct (Hj i').
  - intros j (i & -> & Hi%elem_range)%list_elem_of_fmap. apply elem_range.
    destruct (build_at_cases i Hi) as [(H1 & j & Hj & ->)|[(H1 & Hj & ->)|[(H1 & j & Hj & ->)|(H1 & Hj & ->)]]];
      try (apply pairing_range in Hj as Hr); lia.
Qed.

Lemma build_pairs : pairs m k build ≡ₚ M.
Proof using HM Hm Hk.
  apply NoDup_Permutation.
  - apply (NoDup_fmap_1 fst). rewrite pairs_fst. apply NoDup_filter, NoDup_range.
  - apply (NoDup_fmap_1 fst). apply HM.
  - intros [i j]. rewrite elem_pairs. split.
    + intros (Hi & <- & Hj). rewrite build_nth in * by lia.
      destruct (build_at_cases i ltac:(lia)) as [(_ & j & ? & E)|[(_ & _ & E)|[(? & _)|(? & _)]]]; try lia.
      by rewrite E.
    + intros Hij. pose proof (pairing_range _ _ Hij). split; [lia|]. rewrite build_nth by lia.
      destruct (build_at_cases i ltac:(lia)) as [(_ & j' & Hj' & E)|[(_ & Hn & _)|[(? & _)|(? & _)]]]; try lia.
      * rewrite E. split; [by eapply pairing_fun|lia].
      * by destruct (Hn j).
Qed.
End build.

Lemma gain_perm M M' : M ≡ₚ M' -> gain M = gain M'.
Proof. intros H. unfold gain. apply zsum_perm. by rewrite H. Qed.

(** No pairing costs less than that of the solution. *)
Lemma solution_optimal C p q M : exact_problem C -> solution cost m k limit p q -> pairing m k M ->
  gain (pairs m k p) <= gain M.
Proof using Hm Hk.
  intros Hx (Hp & _ & Hopt) HM. pose proof (exact_extended C Hx) as He.
  specialize (Hopt val C He (build M) (build_perm M HM)).
  rewrite !(total_gain C) in Hopt by (done || by apply build_perm).
  rewrite (gain_perm _ _ (build_pairs M HM)) in Hopt. lia.
Qed.

(** A pair costs no more than the limit. *)
Lemma solution_limit C p q i j : exact_problem C -> solution cost m k limit p q ->
  (i, j) ∈ pairs m k p -> w val cost i j <= val limit.
Proof using Hm Hk.
  intros Hx Hs Hij. pose proof Hs as (Hp & Hpq & _).
  pose proof (pairs_pairing m k Hm Hk p q Hp Hpq) as (H1 & H2 & H3).
  apply elem_of_Permutation in Hij as (M & HM). rewrite HM in H1, H2, H3.
  apply NoDup_cons in H1 as [_ H1]. apply NoDup_cons in H2 as [_ H2]. apply Forall_cons in H3 as [_ H3].
  pose proof (solution_optimal C p q M Hx Hs (conj H1 (conj H2 H3))) as Ho.
  rewrite (gain_perm _ _ HM) in Ho. unfold gain, zsum in Ho. cbn in Ho. lia.
Qed.
End cost.

(** ** Reading the result *)

Lemma linear_assignment_spec {K} `{!Cost K} (mem : Z -> allocator K) cost m k limit :
  rectangular m k cost -> 0 < m -> 0 < k -> m + k < 65536 -> allocates (m + k) (mem (m + k)) ->
  exists p q, linear_assignment mem cost m k limit
      = Some (Done {| matches := pairs m k p; unmatched_a := filter (λ i, ~ p⟦i⟧ < k) (range 0 m);
                      unmatched_b := filter (λ j, ~ q⟦j⟧ < m) (range 0 k) |})
    /\ solution cost m k limit p q.
Proof.
  intros Hc Hm Hk Hmk Hmem. destruct (lapjv_spec mem cost m k limit Hc Hm Hk Hmk Hmem)
    as (p & q & rowsol & colsol & opt & E & Hsol & Hrow & Hcol).
  exists p, q. split; [|done]. unfold linear_assignment. rewrite E. destruct Hc as [Hl _]. rewrite Hl.
  replace (m =? 0) with false by (symmetry; apply Z.eqb_neq; lia). cbn [mbind option_bind].
  assert (Hw : forall b j, 0 <= b -> within b j < 0 \/ (within b j = j /\ j < b)).
  { intros b j Hb. unfold within. destruct (Z.leb_spec b j); [left; lia|right; lia]. }
  assert (Hpr : forall i, 0 <= i < m -> 0 <= p⟦i⟧) by (intros; apply (perm_range m k p); [apply Hsol|lia]).
  assert (Hqr : forall j, 0 <= j < k -> 0 <= q⟦j⟧).
  { intros j Hj. destruct (perm_surj m k p (proj1 Hsol) j) as (i & Hi & Ei); [lia|].
    destruct Hsol as (_ & Hpq & _). assert (q⟦j⟧ = i) by (apply Hpq; [done|lia|done]). lia. }
  assert (Hlr : Zlen rowsol = m) by (rewrite Hrow; apply Zlen_range_map; lia).
  assert (Hlc : Zlen colsol = k) by (rewrite Hcol; apply Zlen_range_map; lia).
  rewrite Hlr, Hlc.
  edestruct (for_range_inv (λ i '(ms, ua), ms = pairs i k p /\ ua = filter (λ i, ~ p⟦i⟧ < k) (range 0 i)))
    as ([ms ua] & -> & -> & ->); [| | |]; [lia|done| |].
  { intros i [ms ua] Hi (-> & ->). arr. eexists. split; [reflexivity|].
    unfold pairs. rewrite range_snoc, !filter_app, fmap_app, !filter_cons, !filter_nil by lia.
    rewrite Hrow, nthZ_range_map by lia. specialize (Hpr i Hi).
    unfold within. destruct (Z.leb_spec k (p⟦i⟧)); cbn.
    - rewrite decide_False, decide_True by lia. by rewrite app_nil_r.
    - replace (0 <=? p⟦i⟧) with true by (symmetry; by apply Z.leb_le).
      rewrite decide_True, decide_False by lia. by rewrite app_nil_r. }
  cbn [mbind option_bind].
  edestruct (for_range_inv (λ j ub, ub = filter (λ j, ~ q⟦j⟧ < m) (range 0 j)))
    as (ub & -> & ->); [| | |done]; [lia|done|].
  intros j ub Hj ->. arr. eexists. split; [reflexivity|].
  rewrite range_snoc, filter_app, filter_cons, filter_nil by lia. rewrite Hcol, nthZ_range_map by lia.
  specialize (Hqr j Hj). unfold within. destruct (Z.leb_spec m (q⟦j⟧)); cbn.
  - by rewrite decide_True by lia.
  - replace (q⟦j⟧ <? 0) with false by (symmetry; apply Z.ltb_ge; lia).
    rewrite decide_False by lia. by rewrite app_nil_r.
Qed.


(** Distances in hundredths: two tracks and three boxes, one of which is far from both. *)
Definition demo_dists : list (list Z) := [[30; 90; 95]; [20; 40; 99]].

