(* ===== verification/Kalman.v ===== *)
(** * The filter of a track ([yolov8_infer/kalmanFilter.cpp])

    A Kalman filter over the centre, the aspect ratio and the height of a box with their
    velocities.  Matrices are lists of rows of [float]s; element-wise arithmetic is written
    out, and the products and the solution of linear equations are Eigen's. *)

From S2P Require Import Prelude CFloat.
Local Open Scope list_scope.
Local Open Scope Z_scope.

(** ** Matrices *)

(** The sizes are fixed by the types of the source, every index is a constant within them. *)
Abbreviation vector := (list double).
Abbreviation matrix := (list (list double)).

#[export] Instance double_inhabited : Inhabited double := populate (S754_zero false).

Definition at_ (v : vector) (i : nat) : double := nth i v inhabitant.

Definition identity (r c : nat) : matrix :=
  (λ i, (λ j, if bool_decide (i = j) then f_of_Z 1 else f_of_Z 0) <$> seq 0 c) <$> seq 0 r.
Definition as_diagonal (v : vector) : matrix :=
  imap (λ i x, (λ j, if bool_decide (i = j) then x else f_of_Z 0) <$> seq 0 (length v)) v.
Definition square (v : vector) : vector := (λ x, fmul x x) <$> v.
Definition vadd : vector -> vector -> vector := zip_with fadd.
Definition vsub : vector -> vector -> vector := zip_with fsub.
Definition madd : matrix -> matrix -> matrix := zip_with vadd.
Definition msub : matrix -> matrix -> matrix := zip_with vsub.
Definition transpose (c : nat) (m : matrix) : matrix := (λ j, (λ row, at_ row j) <$> m) <$> seq 0 c.

(** What the program uses of Eigen: the product, and [A.llt().solve(B)]. *)
Record eigen := { e_mul : matrix -> matrix -> matrix; e_llt_solve : matrix -> matrix -> matrix }.

Section filter.
Context (E : eigen).

(** A product with a vector. *)
Definition mul_vec (m : matrix) (v : vector) : vector := concat (e_mul E m ((λ x, [x]) <$> v)).

(** ** The code *)

(** The members are the same in every filter; the constructor sets them. *)
Definition _motion_mat : matrix :=
  imap (λ i row, if bool_decide (i < 4)%nat then <[(4 + i)%nat := f_of_Z 1]> row else row) (identity 8 8).
Definition _update_mat : matrix := identity 4 8.
Definition _std_weight_position : double := d_round32 (d_lit 1 20).
Definition _std_weight_velocity : double := d_round32 (d_lit 1 160).

Definition initiate (measurement : vector) : vector * matrix :=
  let mean := measurement ++ replicate 4 (f_of_Z 0) in
  let m3 := at_ measurement 3 in
  let p := fmul (fmul (f_of_Z 2) _std_weight_position) m3 in
  let s := fmul (fmul (f_of_Z 10) _std_weight_velocity) m3 in
  let std := [p; p; d_round32 (d_lit 1 100); p; s; s; d_round32 (d_lit 1 100000); s] in
  (mean, as_diagonal (square std)).

Definition predict (mean : vector) (covariance : matrix) : vector * matrix :=
  let p := fmul _std_weight_position (at_ mean 3) in
  let s := fmul _std_weight_velocity (at_ mean 3) in
  let std_pos := [p; p; d_round32 (d_lit 1 100); p] in
  let std_vel := [s; s; d_round32 (d_lit 1 100000); s] in
  let motion_cov := as_diagonal (square (std_pos ++ std_vel)) in
  let mean1 := mul_vec _motion_mat mean in
  let covariance1 := e_mul E (e_mul E _motion_mat covariance) (transpose 8 _motion_mat) in
  (mean1, madd covariance1 motion_cov).

Definition project (mean : vector) (covariance : matrix) : vector * matrix :=
  let p := fmul _std_weight_position (at_ mean 3) in
  let std := [p; p; d_round32 (d_lit 1 10); p] in
  let mean1 := mul_vec _update_mat mean in
  let covariance1 := e_mul E (e_mul E _update_mat covariance) (transpose 8 _update_mat) in
  let diag := square <$> as_diagonal std in
  (mean1, madd covariance1 diag).

Definition update (mean : vector) (covariance : matrix) (measurement : vector) : vector * matrix :=
  let '(projected_mean, projected_cov) := project mean covariance in
  let B := transpose 4 (e_mul E covariance (transpose 8 _update_mat)) in
  let kalman_gain := transpose 8 (e_llt_solve E projected_cov B) in
  let innovation := vsub measurement projected_mean in
  let tmp := concat (e_mul E [innovation] (transpose 4 kalman_gain)) in
  let new_mean := vadd mean tmp in
  let new_covariance :=
    msub covariance (e_mul E (e_mul E kalman_gain projected_cov) (transpose 4 kalman_gain)) in
  (new_mean, new_covariance).
End filter.

(** ** The shape of the matrices *)

(** [r] rows of [c] numbers. *)
Definition shaped (r c : nat) (m : matrix) : Prop := length m = r /\ Forall (λ row, length row = c) m.

#[export] Instance shaped_dec r c m : Decision (shaped r c m).
Proof. unfold shaped. apply _. Defined.

(** What Eigen's types say of its product and of its solver. *)
Class Shapes (E : eigen) := {
  mul_shaped r k c a b : (0 < k)%nat -> shaped r k a -> shaped k c b -> shaped r c (e_mul E a b);
  solve_shaped n c a b : shaped n n a -> shaped n c b -> shaped n c (e_llt_solve E a b)
}.

Lemma length_zip_with_eq {A B C} (f : A -> B -> C) l k n : length l = n -> length k = n ->
  length (zip_with f l k) = n.
Proof. intros H1 H2. rewrite length_zip_with, H1, H2. lia. Qed.

Lemma zip_shaped (f : vector -> vector -> vector) r c a b :
  (forall u v, length u = c -> length v = c -> length (f u v) = c) ->
  shaped r c a -> shaped r c b -> shaped r c (zip_with f a b).
Proof.
  intros Hf [Ha Fa] [Hb Fb]. split; [by apply length_zip_with_eq|].
  apply Forall_forall. intros row Hrow. apply list_elem_of_lookup in Hrow as [i Hi].
  apply lookup_zip_with_Some in Hi as (u & v & -> & Hu & Hv).
  rewrite Forall_lookup in Fa, Fb. apply Hf; [by eapply Fa|by eapply Fb].
Qed.

Lemma madd_shaped r c a b : shaped r c a -> shaped r c b -> shaped r c (madd a b).
Proof. apply zip_shaped. intros u v. apply length_zip_with_eq. Qed.
Lemma msub_shaped r c a b : shaped r c a -> shaped r c b -> shaped r c (msub a b).
Proof. apply zip_shaped. intros u v. apply length_zip_with_eq. Qed.

Lemma transpose_shaped r c m : length m = r -> shaped c r (transpose c m).
Proof.
  intros Hm. unfold transpose. split; [by rewrite length_fmap, length_seq|].
  apply Forall_fmap, Forall_true. intros j. cbn. by rewrite length_fmap.
Qed.

Lemma as_diagonal_shaped n v : length v = n -> shaped n n (as_diagonal v).
Proof.
  intros Hv. unfold as_diagonal. split; [by rewrite length_imap|].
  apply Forall_forall. intros row (i & x & -> & _)%elem_of_lookup_imap.
  by rewrite length_fmap, length_seq.
Qed.

Lemma square_rows_shaped r c m : shaped r c m -> shaped r c (square <$> m).
Proof.
  intros [H F]. split; [by rewrite length_fmap|]. apply Forall_fmap. eapply Forall_impl; [exact F|].
  intros row. cbn. unfold square. by rewrite length_fmap.
Qed.

Lemma motion_shaped : shaped 8 8 _motion_mat.
Proof. by_eval. Qed.
Lemma update_mat_shaped : shaped 4 8 _update_mat.
Proof. by_eval. Qed.

Lemma concat_columns n (m : matrix) : shaped n 1 m -> length (concat m) = n.
Proof.
  intros [<- F]. induction F as [|row m Hr _ IH]; [done|]. cbn. by rewrite length_app, Hr, IH.
Qed.

Lemma concat_row c (m : matrix) : shaped 1 c m -> length (concat m) = c.
Proof.
  intros [H F]. destruct m as [|row [|]]; try done. inversion F. cbn. by rewrite app_nil_r.
Qed.

Section shape.
Context (E : eigen) {HE : Shapes E}.

Lemma mul_vec_length r k m v : (0 < k)%nat -> shaped r k m -> length v = k -> length (mul_vec E m v) = r.
Proof using HE.
  intros Hk Hm Hv. apply concat_columns. eapply mul_shaped; [exact Hk|exact Hm|]. split; [by rewrite length_fmap|].
  by apply Forall_fmap, Forall_true.
Qed.

(** The state of a filter: eight numbers and their covariance. *)
Definition filter_shape (mc : vector * matrix) : Prop := length mc.1 = 8%nat /\ shaped 8 8 mc.2.

Lemma project_shape mean covariance : filter_shape (mean, covariance) ->
  length (project E mean covariance).1 = 4%nat /\ shaped 4 4 (project E mean covariance).2.
Proof using HE.
  intros [Hm Hc]. cbn in Hm, Hc. unfold project. cbn [fst snd]. split; [by eapply (mul_vec_length _ 8); [lia|apply update_mat_shaped|]|].
  apply madd_shaped; [|by apply square_rows_shaped, as_diagonal_shaped].
  eapply (mul_shaped _ 8); [lia|by eapply (mul_shaped _ 8); [lia|apply update_mat_shaped|]|]. apply transpose_shaped, update_mat_shaped.
Qed.

(** The filter of a track always has eight numbers and an eight by eight covariance: a new
    filter, the prediction and the correction keep the sizes Eigen's types state, so every
    constant index into them is within bounds. *)
Lemma filter_keeps_shape :
  (forall m, length m = 4%nat -> filter_shape (initiate m))
  /\ (forall mean covariance, filter_shape (mean, covariance) -> filter_shape (predict E mean covariance))
  /\ (forall mean covariance m, filter_shape (mean, covariance) -> length m = 4%nat ->
       filter_shape (update E mean covariance m)).
Proof using HE.
  split; [|split].
  - intros m Hm. unfold initiate. split; cbn [fst snd]; [by rewrite length_app, Hm|].
    by apply as_diagonal_shaped.
  - intros mean covariance [Hm Hc]. cbn in Hm, Hc. unfold predict. split; cbn [fst snd].
    + by eapply (mul_vec_length _ 8); [lia|apply motion_shaped|].
    + apply madd_shaped; [|by apply as_diagonal_shaped]. eapply (mul_shaped _ 8); [lia|by eapply (mul_shaped _ 8); [lia|apply motion_shaped|]|].
      apply transpose_shaped, motion_shaped.
  - intros mean covariance m Hs Hm. unfold update. pose proof (project_shape _ _ Hs) as [Hp Hq].
    destruct Hs as [Hmean Hc]. destruct (project E mean covariance) as [pm pc]. cbn in Hmean, Hc, Hp, Hq.
    assert (HB : shaped 4 8 (transpose 4 (e_mul E covariance (transpose 8 _update_mat)))).
    { apply transpose_shaped. eapply (mul_shaped _ 8); [lia|exact Hc|]. apply transpose_shaped, update_mat_shaped. }
    assert (HG : shaped 8 4 (transpose 8 (e_llt_solve E pc (transpose 4 (e_mul E covariance (transpose 8 _update_mat)))))).
    { apply transpose_shaped. by eapply solve_shaped. }
    set (G := transpose 8 (e_llt_solve _ _ _)) in *. assert (HT : shaped 4 8 (transpose 4 G)) by apply transpose_shaped, HG.
    split; cbn [fst snd].
    + apply length_zip_with_eq; [done|]. apply concat_row. eapply (mul_shaped _ 4); [lia| |exact HT].
      split; [done|]. constructor; [by apply length_zip_with_eq|constructor].
    + apply msub_shaped; [done|]. eapply (mul_shaped _ 4); [lia| |exact HT].
      by eapply (mul_shaped _ 4); [lia|exact HG|].
Qed.
End shape.

(** The product of matrices, with zeros for what a row has not; as a solution the right side. *)
Definition demo_eigen : eigen :=
  {| e_mul := λ a b, (λ row, (λ j, foldr fadd (f_of_Z 0) (zip_with (λ x r, fmul x (at_ r j)) row b))
                              <$> seq 0 (length (nth 0 b []))) <$> a;
     e_llt_solve := λ _ b, b |}.

#[export] Instance demo_shapes : Shapes demo_eigen.
Proof.
  split; cbn; [|done]. intros r k c a b Hk [Ha Fa] [Hb Fb]. split; [by rewrite length_fmap|].
  apply Forall_fmap, Forall_true. intros row. cbn. rewrite length_fmap, length_seq.
  destruct b as [|row0 b]; [cbn in Hb; lia|]. by inversion Fb.
Qed.

Lemma filter_keeps_shape_witness :
  filter_shape (initiate [f_of_Z 1; f_of_Z 2; f_of_Z 3; f_of_Z 4])
  /\ filter_shape (predict demo_eigen (replicate 8 (f_of_Z 1)) (identity 8 8))
  /\ filter_shape (update demo_eigen (replicate 8 (f_of_Z 1)) (identity 8 8) (replicate 4 (f_of_Z 1))).
Proof.
  destruct (filter_keeps_shape demo_eigen) as (H1 & H2 & H3). split; [by apply H1|].
  split; [apply H2; split; by_eval|]. apply H3; [split; by_eval|done].
Defined.
