(* ===== verification/Tracker.v ===== *)
(** * Tracking objects over the pictures ([yolov8_infer/BYTETracker.cpp], [STrack.cpp], [utils.cpp])

    The tracker joins the boxes of a picture to the tracks of the pictures before: first the
    boxes the network is sure of, then the others, and what is left begins new tracks.  A
    track that finds no box is lost, and forgotten after a while. *)

From stdpp Require Import list_numbers.
From S2P Require Import Prelude Arrays CFloat Lapjv LapjvPath Association Kalman.
Local Open Scope list_scope.
Local Open Scope Z_scope.

(** ** Data *)

(** A [vector<float>] of four elements. *)
Record vec4 := Vec4 { v4_0 : double; v4_1 : double; v4_2 : double; v4_3 : double }.

(** [rect] is the corner, the width and the height. *)
Record Object := { rect : vec4; label : Z; prob : double }.

Inductive TrackState := New | Tracked | Lost | Removed.

#[export] Instance TrackState_eq_dec : EqDecision TrackState.
Proof. solve_decision. Defined.

Record STrack := {
  is_activated : bool; track_id : Z; state : TrackState;
  _tlwh : vec4; tlwh : vec4; tlbr : vec4;
  st_frame_id : Z; tracklet_len : Z; start_frame : Z;
  mean : vector; covariance : matrix; score : double
}.

Definition Vec4_zero : vec4 := Vec4 (f_of_Z 0) (f_of_Z 0) (f_of_Z 0) (f_of_Z 0).
#[export] Instance STrack_inhabited : Inhabited STrack := populate
  {| is_activated := false; track_id := 0; state := New; _tlwh := Vec4_zero; tlwh := Vec4_zero;
     tlbr := Vec4_zero; st_frame_id := 0; tracklet_len := 0; start_frame := 0; mean := [];
     covariance := []; score := f_of_Z 0 |}.

Record BYTETracker := {
  frame_id : Z; max_time_lost : Z;
  tracked_stracks : list STrack; lost_stracks : list STrack; removed_stracks : list STrack;
  _count : Z   (* the static counter of [STrack::next_id] *)
}.

(** A pointer to a track of the tracker: the list and the index. *)
Inductive strack_ptr := P_tracked (i : nat) | P_lost (i : nat).

Definition set_lists (tracked lost removed : list STrack) (s : BYTETracker) : BYTETracker :=
  {| frame_id := frame_id s; max_time_lost := max_time_lost s; tracked_stracks := tracked;
     lost_stracks := lost; removed_stracks := removed; _count := _count s |}.
Definition set_count (c : Z) (s : BYTETracker) : BYTETracker :=
  {| frame_id := frame_id s; max_time_lost := max_time_lost s; tracked_stracks := tracked_stracks s;
     lost_stracks := lost_stracks s; removed_stracks := removed_stracks s; _count := c |}.
Definition set_frame (f : Z) (s : BYTETracker) : BYTETracker :=
  {| frame_id := f; max_time_lost := max_time_lost s; tracked_stracks := tracked_stracks s;
     lost_stracks := lost_stracks s; removed_stracks := removed_stracks s; _count := _count s |}.

Definition deref (s : BYTETracker) (p : strack_ptr) : option STrack :=
  match p with P_tracked i => tracked_stracks s !! i | P_lost i => lost_stracks s !! i end.

Definition store (s : BYTETracker) (p : strack_ptr) (t : STrack) : BYTETracker :=
  match p with
  | P_tracked i => set_lists (<[i := t]> (tracked_stracks s)) (lost_stracks s) (removed_stracks s) s
  | P_lost i => set_lists (tracked_stracks s) (<[i := t]> (lost_stracks s)) (removed_stracks s) s
  end.

(** The result of an operation on [int]; overflow is undefined. *)
Definition int_of (n : Z) : option Z :=
  if (- 2 ^ 31 <=? n) && (n <? 2 ^ 31) then Some n else None.

(** ** The code: a track *)

Definition fmin (a b : double) : double := if dlt b a then b else a.
Definition fmax (a b : double) : double := if dlt a b then b else a.

Definition tlbr_to_tlwh (tlbr : vec4) : vec4 :=
  Vec4 (v4_0 tlbr) (v4_1 tlbr) (fsub (v4_2 tlbr) (v4_0 tlbr)) (fsub (v4_3 tlbr) (v4_1 tlbr)).

Definition tlwh_to_xyah (t : vec4) : vec4 :=
  Vec4 (fadd (v4_0 t) (fdiv (v4_2 t) (f_of_Z 2))) (fadd (v4_1 t) (fdiv (v4_3 t) (f_of_Z 2)))
       (fdiv (v4_2 t) (v4_3 t)) (v4_3 t).

(** The box a track says it is. *)
Definition static_tlwh (state : TrackState) (_tlwh : vec4) (mean : vector) : vec4 :=
  match state with
  | New => _tlwh
  | _ =>
      let w := fmul (at_ mean 2) (at_ mean 3) in
      Vec4 (fsub (at_ mean 0) (fdiv w (f_of_Z 2))) (fsub (at_ mean 1) (fdiv (at_ mean 3) (f_of_Z 2)))
           w (at_ mean 3)
  end.

Definition static_tlbr (t : vec4) : vec4 :=
  Vec4 (v4_0 t) (v4_1 t) (fadd (v4_2 t) (v4_0 t)) (fadd (v4_3 t) (v4_1 t)).

(** With a new filter state, both boxes are computed again. *)
Definition set_mean (mc : vector * matrix) (t : STrack) : STrack :=
  let b := static_tlwh (state t) (_tlwh t) mc.1 in
  {| is_activated := is_activated t; track_id := track_id t; state := state t; _tlwh := _tlwh t;
     tlwh := b; tlbr := static_tlbr b; st_frame_id := st_frame_id t; tracklet_len := tracklet_len t;
     start_frame := start_frame t; mean := mc.1; covariance := mc.2; score := score t |}.

Definition set_state (st : TrackState) (t : STrack) : STrack :=
  {| is_activated := is_activated t; track_id := track_id t; state := st; _tlwh := _tlwh t;
     tlwh := tlwh t; tlbr := tlbr t; st_frame_id := st_frame_id t; tracklet_len := tracklet_len t;
     start_frame := start_frame t; mean := mean t; covariance := covariance t; score := score t |}.

Definition mark_lost : STrack -> STrack := set_state Lost.
Definition mark_removed : STrack -> STrack := set_state Removed.
Definition end_frame (t : STrack) : Z := st_frame_id t.

(** [new STrack]; the filter state is not initialised. *)
Definition STrack_new (garbage : vector * matrix) (tlwh_ : vec4) (score : double) : STrack :=
  let b := static_tlwh New tlwh_ garbage.1 in
  {| is_activated := false; track_id := 0; state := New; _tlwh := tlwh_; tlwh := b;
     tlbr := static_tlbr b; st_frame_id := 0; tracklet_len := 0; start_frame := 0;
     mean := garbage.1; covariance := garbage.2; score := score |}.

Definition xyah_box (t : vec4) : vector :=
  let b := tlwh_to_xyah t in [v4_0 b; v4_1 b; v4_2 b; v4_3 b].

(** The fields [activate], [re_activate] and [update] set last. *)
Definition set_fields (activated : bool) (id frame len start : Z) (sc : double) (t : STrack) : STrack :=
  {| is_activated := activated; track_id := id; state := Tracked; _tlwh := _tlwh t;
     tlwh := tlwh t; tlbr := tlbr t; st_frame_id := frame; tracklet_len := len;
     start_frame := start; mean := mean t; covariance := covariance t; score := sc |}.

(** The new counter and the track. *)
Definition activate (frame : Z) (t : STrack) (count : Z) : option (Z * STrack) :=
  id ← int_of (count + 1);
  let t1 := set_mean (initiate (xyah_box (_tlwh t))) t in
  Some (id, set_fields (if frame =? 1 then true else is_activated t) id frame 0 frame (score t) t1).

Section filter.
Context (E : eigen).

(** With [new_id] false, as it is called. *)
Definition re_activate (new_track : STrack) (frame : Z) (t : STrack) : STrack :=
  let t1 := set_mean (Kalman.update E (mean t) (covariance t) (xyah_box (tlwh new_track))) t in
  set_fields true (track_id t) frame 0 (start_frame t) (score new_track) t1.

Definition STrack_update (new_track : STrack) (frame : Z) (t : STrack) : option STrack :=
  len ← int_of (tracklet_len t + 1);
  let t1 := set_mean (Kalman.update E (mean t) (covariance t) (xyah_box (tlwh new_track))) t in
  Some (set_fields true (track_id t) frame len (start_frame t) (score new_track) t1).

(** One track of [multi_predict]. *)
Definition predict_track (t : STrack) : STrack :=
  let mean := match state t with Tracked => mean t | _ => <[7%nat := f_of_Z 0]> (mean t) end in
  set_mean (predict E mean (covariance t)) t.

Fixpoint multi_predict (stracks : list strack_ptr) (s : BYTETracker) : option BYTETracker :=
  match stracks with
  | [] => Some s
  | p :: stracks => t ← deref s p; multi_predict stracks (store s p (predict_track t))
  end.

(** ** The code: lists of tracks *)

(** Appends the tracks of [tlistb] whose number is not there yet. *)
Fixpoint joint_rest (seen : gset Z) (tlistb : list (Z * strack_ptr)) : list strack_ptr :=
  match tlistb with
  | [] => []
  | (tid, p) :: tlistb =>
      if decide (tid ∈ seen) then joint_rest seen tlistb
      else p :: joint_rest ({[tid]} ∪ seen) tlistb
  end.

(** The overload for pointers; [tlistb] is the list of the lost tracks. *)
Definition joint_stracks_ptr (s : BYTETracker) (tlista : list strack_ptr) : option (list strack_ptr) :=
  ids ← mapM (λ p, track_id <$> deref s p) tlista;
  Some (tlista ++ joint_rest (list_to_set ids) (imap (λ i t, (track_id t, P_lost i)) (lost_stracks s))).

Fixpoint joint_new (seen : gset Z) (tlistb : list STrack) : list STrack :=
  match tlistb with
  | [] => []
  | t :: tlistb =>
      if decide (track_id t ∈ seen) then joint_new seen tlistb
      else t :: joint_new ({[track_id t]} ∪ seen) tlistb
  end.

Definition joint_stracks (tlista tlistb : list STrack) : list STrack :=
  tlista ++ joint_new (list_to_set (track_id <$> tlista)) tlistb.

(** [map::insert] keeps what is there; the map is read in the order of the numbers. *)
Fixpoint strack_insert (t : STrack) (l : list STrack) : list STrack :=
  match l with
  | [] => [t]
  | u :: l => if track_id t <? track_id u then t :: u :: l
              else if track_id t =? track_id u then u :: l
              else u :: strack_insert t l
  end.

Definition sub_stracks (tlista tlistb : list STrack) : list STrack :=
  let stracks := foldl (λ m t, strack_insert t m) [] tlista in
  foldl (λ m t, filter (λ u, track_id u <> track_id t) m) stracks tlistb.

(** ** The code: distances *)

Definition area (b : vec4) : double :=
  fmul (fadd (fsub (v4_2 b) (v4_0 b)) (f_of_Z 1)) (fadd (fsub (v4_3 b) (v4_1 b)) (f_of_Z 1)).

(** The overlap of two boxes as a part of what they cover together. *)
Definition iou (a b : vec4) : double :=
  let box_area := area b in
  let iw := fadd (fsub (fmin (v4_2 a) (v4_2 b)) (fmax (v4_0 a) (v4_0 b))) (f_of_Z 1) in
  if dlt (f_of_Z 0) iw then
    let ih := fadd (fsub (fmin (v4_3 a) (v4_3 b)) (fmax (v4_1 a) (v4_1 b))) (f_of_Z 1) in
    if dlt (f_of_Z 0) ih then
      let ua := fsub (fadd (area a) box_area) (fmul iw ih) in
      fdiv (fmul iw ih) ua
    else f_of_Z 0
  else f_of_Z 0.

Definition ious (atlbrs btlbrs : list vec4) : list (list double) :=
  if Z.of_nat (length atlbrs) * Z.of_nat (length btlbrs) =? 0 then []
  else (λ a : vec4, (λ b : vec4, iou a b) <$> btlbrs) <$> atlbrs.

Definition iou_distance (atracks btracks : list STrack) : list (list double) :=
  (λ row : list double, fsub (f_of_Z 1) <$> row) <$> ious (tlbr <$> atracks) (tlbr <$> btracks).

Fixpoint close_pairs_in (i j : nat) (row : list double) : list (nat * nat) :=
  match row with
  | [] => []
  | d :: row => (if dlt d (d_lit 15 100) then [(i, j)] else []) ++ close_pairs_in i (S j) row
  end.

Definition close_pairs (pdist : list (list double)) : list (nat * nat) :=
  concat (imap (λ i row, close_pairs_in i 0 row) pdist).

(** The older track of a close pair stays; of two of the same age, that of [stracksb]. *)
Definition remove_duplicate_stracks (stracksa stracksb : list STrack)
  : option (list STrack * list STrack) :=
  dup ← mapM (λ '(i, j),
    a ← stracksa !! i; b ← stracksb !! j;
    Some (if st_frame_id b - start_frame b <? st_frame_id a - start_frame a
          then ([], [j]) else ([i], []))) (close_pairs (iou_distance stracksa stracksb));
  let dupa := concat dup.*1 in let dupb := concat dup.*2 in
  let keep (dup : list nat) l := omap id (imap (λ i t, if bool_decide (i ∈ dup) then None else Some t) l) in
  Some (keep dupa stracksa, keep dupb stracksb).

(** ** The code: a picture *)

Definition track_thresh : double := d_lit 5 10.
Definition high_thresh : double := d_round32 (d_lit 6 10).
Definition match_thresh : double := d_round32 (d_lit 8 10).

(** [frame_rate / 30.0 * track_buffer], cut off. *)
Definition BYTETracker_new (frame_rate track_buffer : Z) : option BYTETracker :=
  m ← d_to_i32 (dmul (ddiv (d_of_Z frame_rate) (d_of_Z 30)) (d_of_Z track_buffer));
  Some {| frame_id := 0; max_time_lost := m; tracked_stracks := []; lost_stracks := [];
          removed_stracks := []; _count := 0 |}.

(** What an allocation of the assignment gives, and the contents of a new filter state. *)
Context (mem : Z -> allocator double) (garbage : vector * matrix).

Definition detection (o : Object) : STrack :=
  let r := rect o in
  let tlbr_ := Vec4 (v4_0 r) (v4_1 r) (fadd (v4_0 r) (v4_2 r)) (fadd (v4_1 r) (v4_3 r)) in
  STrack_new garbage (tlbr_to_tlwh tlbr_) (prob o).

(** The boxes the network is sure of, and the others. *)
Definition detections (objects : list Object) : list STrack * list STrack :=
  (filter (λ t, dle track_thresh (score t) = true) (detection <$> objects),
   filter (λ t, dle track_thresh (score t) <> true) (detection <$> objects)).

(** The tracks so far and the copies in [activated_stracks] and [refind_stracks]. *)
Record progress := {
  pr_tracker : BYTETracker; activated_stracks : list STrack; refind_stracks : list STrack
}.

(** A pair of a track and a box. *)
Definition join_pair (ptrs : list strack_ptr) (dets : list STrack) (ij : Z * Z) (g : progress)
  : option progress :=
  let s := pr_tracker g in
  p ← aget ptrs ij.1;
  det ← aget dets ij.2;
  t ← deref s p;
  match state t with
  | Tracked =>
      t' ← STrack_update det (frame_id s) t;
      Some {| pr_tracker := store s p t'; activated_stracks := activated_stracks g ++ [t'];
              refind_stracks := refind_stracks g |}
  | _ =>
      let t' := re_activate det (frame_id s) t in
      Some {| pr_tracker := store s p t'; activated_stracks := activated_stracks g;
              refind_stracks := refind_stracks g ++ [t'] |}
  end.

(** The same for the tracks with only one box so far. *)
Definition confirm_pair (ptrs : list strack_ptr) (dets : list STrack) (ij : Z * Z) (g : progress)
  : option progress :=
  let s := pr_tracker g in
  p ← aget ptrs ij.1;
  det ← aget dets ij.2;
  t ← deref s p;
  t' ← STrack_update det (frame_id s) t;
  Some {| pr_tracker := store s p t'; activated_stracks := activated_stracks g ++ [t'];
          refind_stracks := refind_stracks g |}.

(** Distances, assignment, and what is done with the pairs. *)
Definition associate (pair : Z * Z -> progress -> option progress) (ptrs : list strack_ptr)
    (dets : list STrack) (thresh : double) (g : progress) : option (outcome (assignment * progress)) :=
  tracks ← mapM (deref (pr_tracker g)) ptrs;
  r ← linear_assignment mem (iou_distance tracks dets) (Zlen ptrs) (Zlen dets) thresh;
  match r with
  | Exit => Some Exit
  | Done a => g ← for_each (matches a) pair g; Some (Done (a, g))
  end.

(** Tracks that found no box; the copies in the local [lost_stracks]. *)
Fixpoint lose (ptrs : list strack_ptr) (s : BYTETracker) : option (BYTETracker * list STrack) :=
  match ptrs with
  | [] => Some (s, [])
  | p :: ptrs =>
      t ← deref s p;
      match state t with
      | Lost => lose ptrs s
      | _ => '(s', l) ← lose ptrs (store s p (mark_lost t)); Some (s', mark_lost t :: l)
      end
  end.

Fixpoint drop_unconfirmed (ptrs : list strack_ptr) (s : BYTETracker)
  : option (BYTETracker * list STrack) :=
  match ptrs with
  | [] => Some (s, [])
  | p :: ptrs =>
      t ← deref s p;
      '(s', l) ← drop_unconfirmed ptrs (store s p (mark_removed t)); Some (s', mark_removed t :: l)
  end.

(** New tracks for the boxes left over. *)
Fixpoint begin_tracks (dets : list STrack) (s : BYTETracker) : option (BYTETracker * list STrack) :=
  match dets with
  | [] => Some (s, [])
  | t :: dets =>
      if dlt (score t) high_thresh then begin_tracks dets s else
      '(c, t') ← activate (frame_id s) t (_count s);
      '(s', l) ← begin_tracks dets (set_count c s); Some (s', t' :: l)
  end.

Definition pick {A} (l : list A) (is_ : list Z) : option (list A) := mapM (aget l) is_.

(** The lost tracks whose time is over are marked; the copies in the local list. *)
Definition expired (s : BYTETracker) (t : STrack) : bool :=
  max_time_lost s <? frame_id s - end_frame t.
Definition expire (s : BYTETracker) : list STrack * list STrack :=
  ((λ t, if expired s t then mark_removed t else t) <$> lost_stracks s,
   mark_removed <$> filter (λ t, expired s t = true) (lost_stracks s)).

(** The last step: the new lists and the result. *)
Definition update_state (g : progress) (lost removed : list STrack)
  : option (BYTETracker * list STrack) :=
  let s := pr_tracker g in
  let '(lost_marked, expired_) := expire s in
  let removed := removed ++ expired_ in
  let tracked := filter (λ t, state t = Tracked) (tracked_stracks s) in
  let tracked := joint_stracks tracked (activated_stracks g) in
  let tracked := joint_stracks tracked (refind_stracks g) in
  let lost_all := sub_stracks lost_marked tracked ++ lost in
  let lost_all := sub_stracks lost_all (removed_stracks s) in
  let removed_all := removed_stracks s ++ removed in
  '(resa, resb) ← remove_duplicate_stracks tracked lost_all;
  let s' := set_lists resa resb removed_all s in
  Some (s', filter (λ t, is_activated t = true) resa).

Definition update (objects : list Object) (s : BYTETracker)
  : option (outcome (BYTETracker * list STrack)) :=
  f ← int_of (frame_id s + 1);
  let s := set_frame f s in
  let '(dets, dets_low) := detections objects in
  let ptrs := imap (λ i t, (P_tracked i, t)) (tracked_stracks s) in
  let unconfirmed := (filter (λ pt, is_activated pt.2 <> true) ptrs).*1 in
  let tracked_ptrs := (filter (λ pt, is_activated pt.2 = true) ptrs).*1 in
  (* first association *)
  strack_pool ← joint_stracks_ptr s tracked_ptrs;
  s ← multi_predict strack_pool s;
  let g := {| pr_tracker := s; activated_stracks := []; refind_stracks := [] |} in
  r ← associate (join_pair strack_pool dets) strack_pool dets match_thresh g;
  match r with Exit => Some Exit | Done (a, g) =>
  (* second association *)
  detections_cp ← pick dets (unmatched_b a);
  left_over ← pick strack_pool (unmatched_a a);
  states ← mapM (deref (pr_tracker g)) left_over;
  let r_tracked_stracks := (filter (λ pt, state pt.2 = Tracked) (zip left_over states)).*1 in
  r ← associate (join_pair r_tracked_stracks dets_low) r_tracked_stracks dets_low (d_lit 5 10) g;
  match r with Exit => Some Exit | Done (a, g) =>
  unmatched ← pick r_tracked_stracks (unmatched_a a);
  '(s, lost) ← lose unmatched (pr_tracker g);
  let g := {| pr_tracker := s; activated_stracks := activated_stracks g;
              refind_stracks := refind_stracks g |} in
  (* tracks with only one box *)
  r ← associate (confirm_pair unconfirmed detections_cp) unconfirmed detections_cp
        (d_round32 (d_lit 7 10)) g;
  match r with Exit => Some Exit | Done (a, g) =>
  u_unconfirmed ← pick unconfirmed (unmatched_a a);
  '(s, removed) ← drop_unconfirmed u_unconfirmed (pr_tracker g);
  (* new tracks *)
  u_detection ← pick detections_cp (unmatched_b a);
  '(s, begun) ← begin_tracks u_detection s;
  let g := {| pr_tracker := s; activated_stracks := activated_stracks g ++ begun;
              refind_stracks := refind_stracks g |} in
  r ← update_state g lost removed;
  Some (Done r)
  end end end.
End filter.

(** ** Lists of tracks *)

Abbreviation ids l := (track_id <$> l).

Lemma joint_new_spec seen l :
  NoDup (ids (joint_new seen l))
  /\ forall t, t ∈ joint_new seen l -> t ∈ l /\ track_id t ∉ seen.
Proof.
  revert seen. induction l as [|t l IH]; intros seen; cbn [joint_new]; [split; [constructor|set_solver]|].
  case_decide as Hd.
  - destruct (IH seen) as [H1 H2]. split; [done|]. intros u Hu. destruct (H2 u Hu). set_solver.
  - destruct (IH ({[track_id t]} ∪ seen)) as [H1 H2]. split.
    + cbn. apply NoDup_cons. split; [|done]. intros (u & E & Hu)%list_elem_of_fmap.
      destruct (H2 u Hu). set_solver.
    + intros u [->|Hu]%elem_of_cons; [set_solver|]. destruct (H2 u Hu). set_solver.
Qed.

Lemma joint_stracks_spec a b : NoDup (ids a) ->
  NoDup (ids (joint_stracks a b)) /\ forall t, t ∈ joint_stracks a b -> t ∈ a \/ t ∈ b.
Proof.
  intros Ha. unfold joint_stracks. destruct (joint_new_spec (list_to_set (ids a)) b) as [H1 H2]. split.
  - rewrite fmap_app. apply NoDup_app. split; [done|]. split; [|done].
    intros i Hi (t & -> & Ht)%list_elem_of_fmap. destruct (H2 t Ht) as [_ Hn]. apply Hn.
    by apply elem_of_list_to_set.
  - intros t [Ht|Ht]%elem_of_app; [by left|right]. by destruct (H2 t Ht).
Qed.

Lemma strack_insert_elem t u l : u ∈ strack_insert t l -> u = t \/ u ∈ l.
Proof.
  induction l as [|x l IH]; cbn [strack_insert]; [set_solver|].
  destruct (track_id t <? track_id x); [set_solver|]. destruct (track_id t =? track_id x); [set_solver|].
  intros [->|Hu]%elem_of_cons; [set_solver|]. destruct (IH Hu); set_solver.
Qed.

(** Numbers in increasing order. *)
Inductive increasing : Z -> list STrack -> Prop :=
| inc_nil lo : increasing lo []
| inc_cons lo t l : lo < track_id t -> increasing (track_id t) l -> increasing lo (t :: l).

Lemma increasing_weaken lo lo' l : lo' <= lo -> increasing lo l -> increasing lo' l.
Proof. intros Hlo. destruct 1; constructor; [lia|done]. Qed.

Lemma increasing_insert lo t l : lo < track_id t -> increasing lo l -> increasing lo (strack_insert t l).
Proof.
  intros Ht H. revert Ht. induction H as [lo|lo u l Hu Hl IH]; intros Ht; cbn [strack_insert].
  - repeat constructor. done.
  - destruct (Z.ltb_spec (track_id t) (track_id u)); [by repeat constructor|].
    destruct (Z.eqb_spec (track_id t) (track_id u)); [by constructor|]. constructor; [done|apply IH; lia].
Qed.

Lemma increasing_above lo l t : increasing lo l -> t ∈ l -> lo < track_id t.
Proof.
  induction 1 as [lo|lo u l Hu Hl IH]; [set_solver|]. intros [->|Ht]%elem_of_cons; [done|].
  specialize (IH Ht). lia.
Qed.

Lemma increasing_NoDup lo l : increasing lo l -> NoDup (ids l).
Proof.
  induction 1 as [lo|lo u l Hu Hl IH]; cbn; constructor; [|done].
  intros (t & E & Ht)%list_elem_of_fmap. apply (increasing_above _ _ _ Hl) in Ht. lia.
Qed.

Lemma increasing_filter lo (P : STrack -> Prop) `{!forall t, Decision (P t)} l :
  increasing lo l -> increasing lo (filter P l).
Proof.
  induction 1 as [lo|lo u l Hu Hl IH]; [constructor|]. rewrite filter_cons. case_decide; [by constructor|].
  eapply increasing_weaken; [|exact IH]. lia.
Qed.

Lemma insert_all a acc lo : increasing lo acc ->
  (exists lo, increasing lo (foldl (λ m t, strack_insert t m) acc a))
  /\ forall t, t ∈ foldl (λ m t, strack_insert t m) acc a -> t ∈ a \/ t ∈ acc.
Proof.
  revert acc lo. induction a as [|x a IH]; intros acc lo Hacc; cbn [foldl].
  - split; [by exists lo|by right].
  - destruct (IH (strack_insert x acc) (Z.min lo (track_id x - 1))) as [H1 H2].
    { apply increasing_insert; [lia|]. eapply increasing_weaken; [|exact Hacc]. lia. }
    split; [done|]. intros t Ht. destruct (H2 t Ht) as [|[-> |]%strack_insert_elem]; set_solver.
Qed.

Lemma erase_elem (b m : list STrack) t :
  t ∈ foldl (λ m t, filter (λ u, track_id u <> track_id t) m) m b -> t ∈ m /\ track_id t ∉ ids b.
Proof.
  revert m. induction b as [|x b IH]; intros m; cbn [foldl]; [set_solver|].
  intros [[Hne Hm]%list_elem_of_filter Hb]%IH. split; [done|]. cbn. set_solver.
Qed.

Lemma increasing_erase (b : list STrack) lo m : increasing lo m ->
  increasing lo (foldl (λ m t, filter (λ u, track_id u <> track_id t) m) m b).
Proof.
  revert m. induction b as [|x b IH]; intros m Hm; cbn [foldl]; [done|]. by apply IH, increasing_filter.
Qed.

Lemma sub_stracks_spec a b : NoDup (ids (sub_stracks a b))
  /\ forall t, t ∈ sub_stracks a b -> t ∈ a /\ track_id t ∉ ids b.
Proof.
  unfold sub_stracks. destruct (insert_all a [] 0 (inc_nil 0)) as [[lo Hinc] Hel]. split.
  - by eapply increasing_NoDup, increasing_erase.
  - intros t [Ht Hb]%erase_elem. split; [|done]. destruct (Hel t Ht); [done|set_solver].
Qed.

(** [remove_duplicate_stracks] never fails and only leaves tracks out. *)
Lemma close_pairs_in_range i j k l row : (k, l) ∈ close_pairs_in i j row ->
  k = i /\ (j <= l < j + length row)%nat.
Proof.
  revert j. induction row as [|d row IH]; intros j; cbn [close_pairs_in length]; [set_solver|].
  intros [Hin|Hin]%elem_of_app.
  - destruct (dlt d _); [|set_solver]. apply list_elem_of_singleton in Hin as [= -> ->]. lia.
  - apply IH in Hin. lia.
Qed.

Lemma omap_imap_sublist {A} (f : nat -> A -> bool) l :
  omap id (imap (λ i t, if f i t then None else Some t) l) `sublist_of` l.
Proof.
  revert f. induction l as [|a l IH]; intros f; cbn; [done|].
  destruct (f 0%nat a); cbn; [apply sublist_cons|apply sublist_skip]; apply (IH (λ i t, f (S i) t)).
Qed.

Lemma iou_distance_rectangular a b : a <> [] -> b <> [] ->
  rectangular (Zlen a) (Zlen b) (iou_distance a b).
Proof.
  intros Ha Hb. unfold iou_distance, ious. rewrite !length_fmap.
  destruct (Z.eqb_spec (Z.of_nat (length a) * Z.of_nat (length b)) 0) as [E|_].
  { destruct a, b; [done..|]. cbn in E. lia. }
  split; [unfold Zlen; by rewrite !length_fmap|].
  apply Forall_forall. intros row (r & -> & (t & -> & _)%list_elem_of_fmap)%list_elem_of_fmap.
  unfold Zlen. by rewrite !length_fmap.
Qed.

Lemma iou_distance_empty a b : a = [] \/ b = [] -> iou_distance a b = [].
Proof.
  intros H. unfold iou_distance, ious. rewrite !length_fmap.
  replace (Z.of_nat (length a) * Z.of_nat (length b) =? 0) with true; [done|].
  symmetry. apply Z.eqb_eq. destruct H as [-> | ->]; cbn; lia.
Qed.

Lemma close_pairs_valid a b i j : (i, j) ∈ close_pairs (iou_distance a b) ->
  (i < length a)%nat /\ (j < length b)%nat.
Proof.
  unfold close_pairs. intros Hc. apply list_elem_of_In, in_concat in Hc as (r & Hr & Hij).
  apply list_elem_of_In in Hr. apply list_elem_of_In in Hij.
  apply elem_of_lookup_imap in Hr as (k & row & -> & Hrow).
  apply close_pairs_in_range in Hij as [-> Hj].
  destruct (decide (a = [])) as [->|Ha]; [by rewrite iou_distance_empty in Hrow by (by left)|].
  destruct (decide (b = [])) as [->|Hb]; [by rewrite iou_distance_empty in Hrow by (by right)|].
  destruct (iou_distance_rectangular a b Ha Hb) as [Hl Hf].
  pose proof (lookup_lt_Some _ _ _ Hrow). rewrite Forall_forall in Hf.
  specialize (Hf row (list_elem_of_lookup_2 _ _ _ Hrow)). unfold Zlen in *. lia.
Qed.

Lemma remove_duplicate_spec a b : exists a' b', remove_duplicate_stracks a b = Some (a', b')
  /\ a' `sublist_of` a /\ b' `sublist_of` b.
Proof.
  unfold remove_duplicate_stracks.
  assert (Hd : exists dup, mapM (λ '(i, j), a0 ← a !! i; b0 ← b !! j;
      Some (if st_frame_id b0 - start_frame b0 <? st_frame_id a0 - start_frame a0
            then ([], [j]) else ([i], []))) (close_pairs (iou_distance a b)) = Some dup).
  { apply mapM_is_Some_2. apply Forall_forall. intros [i j] [Hi Hj]%close_pairs_valid.
    destruct (lookup_lt_is_Some_2 a i Hi) as [t Et]. destruct (lookup_lt_is_Some_2 b j Hj) as [u Eu].
    unfold compose. cbv beta iota. rewrite Et. cbn [mbind option_bind]. rewrite Eu. cbn [mbind option_bind]. eauto. }
  destruct Hd as [dup ->]. cbn [mbind option_bind]. do 2 eexists. split; [reflexivity|].
  split; apply (omap_imap_sublist (λ i _, bool_decide (i ∈ _))).
Qed.
