(* ===== verification/TrackerSteps.v ===== *)
(** * The steps of a picture ([BYTETracker.cpp])

    Pointers to tracks, what each step of [update] does to the tracks it is given, and the
    composition of the steps up to the new lists. *)

From stdpp Require Import list_numbers.
From S2P Require Import Prelude Arrays CFloat Lapjv LapjvPath Association Kalman Tracker.
Local Open Scope list_scope.
Local Open Scope Z_scope.

(** ** Pointers to tracks *)

#[export] Instance strack_ptr_eq_dec : EqDecision strack_ptr.
Proof. solve_decision. Defined.

Lemma deref_store s p t q : is_Some (deref s p) ->
  deref (store s p t) q = if decide (q = p) then Some t else deref s q.
Proof.
  intros H. destruct p as [i|i], q as [j|j]; cbn in *; apply lookup_lt_is_Some_1 in H;
    try (by rewrite decide_False by congruence).
  all: case_decide as E; [injection E as ->; by apply list_lookup_insert_eq|].
  all: apply list_lookup_insert_ne; congruence.
Qed.

(** What pointers do not reach. *)
Definition fields (s : BYTETracker) :=
  (frame_id s, max_time_lost s, removed_stracks s, _count s,
   length (tracked_stracks s), length (lost_stracks s)).

Lemma fields_store s p t : fields (store s p t) = fields s.
Proof. unfold fields. destruct p; cbn; by rewrite length_insert. Qed.

(** The tracks at [R] have changed as [rel] says, the others not at all. *)
Record changed (rel : STrack -> STrack -> Prop) (R : list strack_ptr) (s s' : BYTETracker) : Prop := {
  ch_fields : fields s' = fields s;
  ch_other : forall q, q ∉ R -> deref s' q = deref s q;
  ch_in : forall q, q ∈ R -> exists t t', deref s q = Some t /\ deref s' q = Some t' /\ rel t t'
}.

Lemma changed_nil rel s : changed rel [] s s.
Proof. split; [done|done|set_solver]. Qed.

Lemma changed_store rel R s s' p t t' : changed rel R s s' -> p ∉ R -> deref s p = Some t -> rel t t' ->
  changed rel (p :: R) s (store s' p t').
Proof.
  intros [Hf Ho Hi] Hp Ht Hr.
  assert (Hsome : is_Some (deref s' p)) by (rewrite Ho by done; eauto).
  split.
  - by rewrite fields_store.
  - intros q Hq. rewrite deref_store, decide_False by (done || set_solver). apply Ho. set_solver.
  - intros q Hq. rewrite deref_store by done. case_decide as E; [subst; eauto|]. apply Hi. set_solver.
Qed.

Lemma changed_perm rel R R' s s' : (forall q, q ∈ R <-> q ∈ R') -> changed rel R s s' -> changed rel R' s s'.
Proof.
  intros HR [? Ho Hi]. split; [done| |]; intros q Hq; [apply Ho|apply Hi]; by rewrite HR.
Qed.

(** A track keeps its number when it is changed. *)
Definition keeps_id (t t' : STrack) : Prop := track_id t' = track_id t.

Section pictures.
Context (E : eigen) (mem : Z -> allocator double) (garbage : vector * matrix).
Hypothesis Hmem : forall n, 0 < n < 65536 -> allocates n (mem n).

Lemma assign_any ptrs dets thresh (a b : list STrack) : Zlen a = ptrs -> Zlen b = dets ->
  ptrs + dets < 65536 ->
  exists r, linear_assignment mem (iou_distance a b) ptrs dets thresh = Some (Done r)
    /\ (matches r).*1 ++ unmatched_a r ≡ₚ range 0 ptrs
    /\ (matches r).*2 ++ unmatched_b r ≡ₚ range 0 dets.
Proof using Hmem.
  intros <- <- Hs. destruct (decide (a = [] \/ b = [])) as [He|He].
  - rewrite iou_distance_empty by done. eexists. split; [reflexivity|]. done.
  - apply Decidable.not_or in He as [Ha Hb].
    assert (0 < Zlen a) by (destruct a; [done|rewrite Zlen_cons; unfold Zlen; lia]).
    assert (0 < Zlen b) by (destruct b; [done|rewrite Zlen_cons; unfold Zlen; lia]).
    destruct (linear_assignment_spec mem (iou_distance a b) (Zlen a) (Zlen b) thresh
      (iou_distance_rectangular a b Ha Hb)) as (p & q & Eq & Hp & Hpq & _); [done|done|done| |].
    { apply Hmem. lia. }
    eexists. split; [exact Eq|]. cbn. split; [apply pairs_rows|by apply pairs_columns].
Qed.

(** *** Pairs *)

(** A track that has found a box in this picture. *)
Record joined (frame : Z) (t t' : STrack) : Prop := {
  jo_id : track_id t' = track_id t;
  jo_state : state t' = Tracked;
  jo_frame : st_frame_id t' = frame;
  jo_active : is_activated t' = true;
  jo_len : 0 <= tracklet_len t' <= tracklet_len t + 1
}.

Definition len_ok (t : STrack) : Prop := 0 <= tracklet_len t < 2 ^ 31 - 1.

Lemma int_of_ok n : - 2 ^ 31 <= n < 2 ^ 31 -> int_of n = Some n.
Proof.
  intros H. unfold int_of. destruct (Z.leb_spec (- 2 ^ 31) n); [|lia].
  by destruct (Z.ltb_spec n (2 ^ 31)); [|lia].
Qed.

Lemma STrack_update_joined det frame t : len_ok t ->
  exists t', STrack_update E det frame t = Some t' /\ joined frame t t'.
Proof.
  intros Hl. unfold len_ok in Hl. unfold STrack_update. rewrite int_of_ok by lia.
  cbn [mbind option_bind]. eexists. split; [reflexivity|]. split; cbn; try done. lia.
Qed.

Lemma re_activate_joined det frame t : len_ok t -> joined frame t (re_activate E det frame t).
Proof. intros Hl. unfold len_ok in Hl. split; cbn; try done. lia. Qed.

(** What [join_pair] and [confirm_pair] do with a pair. *)
Definition pair_step (ptrs : list strack_ptr) (dets : list STrack)
    (f : Z * Z -> progress -> option progress) : Prop :=
  forall ij g p det t, aget ptrs ij.1 = Some p -> aget dets ij.2 = Some det ->
    deref (pr_tracker g) p = Some t -> len_ok t ->
    exists t' act ref, f ij g = Some {| pr_tracker := store (pr_tracker g) p t';
        activated_stracks := activated_stracks g ++ act; refind_stracks := refind_stracks g ++ ref |}
      /\ joined (frame_id (pr_tracker g)) t t' /\ act ++ ref = [t'].

Lemma join_pair_step ptrs dets : pair_step ptrs dets (join_pair E ptrs dets).
Proof.
  intros [i j] g p det t Hp Hdet Ht Hl. unfold join_pair. rewrite Hp. cbn [mbind option_bind].
  rewrite Hdet. cbn [mbind option_bind]. rewrite Ht. cbn [mbind option_bind].
  destruct (state t).
  2: { destruct (STrack_update_joined det (frame_id (pr_tracker g)) t Hl) as (t' & -> & Hj).
       exists t', [t'], []. cbn [mbind option_bind]. by rewrite app_nil_r. }
  all: exists (re_activate E det (frame_id (pr_tracker g)) t), [],
         [re_activate E det (frame_id (pr_tracker g)) t];
       rewrite app_nil_r; split; [done|split; [by apply re_activate_joined|done]].
Qed.

Lemma confirm_pair_step ptrs dets : pair_step ptrs dets (confirm_pair E ptrs dets).
Proof.
  intros [i j] g p det t Hp Hdet Ht Hl. unfold confirm_pair. rewrite Hp. cbn [mbind option_bind].
  rewrite Hdet. cbn [mbind option_bind]. rewrite Ht. cbn [mbind option_bind].
  destruct (STrack_update_joined det (frame_id (pr_tracker g)) t Hl) as (t' & -> & Hj).
  exists t', [t'], []. cbn [mbind option_bind]. by rewrite app_nil_r.
Qed.

(** The pointers at some indices. *)
Definition at_indices (ptrs : list strack_ptr) (l : list Z) : list strack_ptr :=
  omap (λ i, aget ptrs i) l.

Lemma elem_at_indices (ptrs : list strack_ptr) l q : q ∈ at_indices ptrs l <-> exists i, i ∈ l /\ aget ptrs i = Some q.
Proof. unfold at_indices. by rewrite list_elem_of_omap. Qed.

Lemma aget_inj (ptrs : list strack_ptr) i j q : NoDup ptrs -> aget ptrs i = Some q -> aget ptrs j = Some q -> i = j.
Proof.
  intros Hn. unfold aget. destruct (Z.leb_spec 0 i), (Z.leb_spec 0 j); try done. intros H1 H2.
  pose proof (NoDup_lookup _ _ _ _ Hn H1 H2). lia.
Qed.

(** Joining the tracks at [R]: they have changed, and their copies are in one of the lists. *)
Record joining (R : list strack_ptr) (g g' : progress) : Prop := {
  jn_changed : changed (joined (frame_id (pr_tracker g))) R (pr_tracker g) (pr_tracker g');
  jn_copies : exists act ref, activated_stracks g' = activated_stracks g ++ act
    /\ refind_stracks g' = refind_stracks g ++ ref
    /\ (forall t, t ∈ act ++ ref -> exists q, q ∈ R /\ deref (pr_tracker g') q = Some t)
    /\ (forall q, q ∈ R -> exists t, t ∈ act ++ ref /\ deref (pr_tracker g') q = Some t)
    /\ (length (act ++ ref) <= length R)%nat
}.

Lemma joining_cons p t t' act ref R g g' :
  deref (pr_tracker g) p = Some t -> joined (frame_id (pr_tracker g)) t t' -> act ++ ref = [t'] -> p ∉ R ->
  joining R {| pr_tracker := store (pr_tracker g) p t'; activated_stracks := activated_stracks g ++ act;
               refind_stracks := refind_stracks g ++ ref |} g' ->
  joining (p :: R) g g'.
Proof.
  intros Et Hj Hact Hp [[Hf Ho Hi] (act2 & ref2 & Ha & Hr & Hc & Hc' & Hl)]. cbn in *.
  assert (Efr : frame_id (store (pr_tracker g) p t') = frame_id (pr_tracker g)).
  { pose proof (fields_store (pr_tracker g) p t') as Ef. by injection Ef. }
  rewrite Efr, fields_store in *. assert (Hsome : is_Some (deref (pr_tracker g) p)) by eauto.
  assert (Hp' : deref (pr_tracker g') p = Some t').
  { rewrite Ho by done. by rewrite deref_store, decide_True by done. }
  split; [split; [done| |]|].
  - intros q Hq. rewrite Ho, deref_store by (done || set_solver). rewrite decide_False by set_solver. done.
  - intros q [->|Hq]%elem_of_cons; [by exists t, t'|].
    destruct (Hi q Hq) as (u & u' & Eu & Eu' & Hu). rewrite deref_store, decide_False in Eu by set_solver.
    by exists u, u'.
  - exists (act ++ act2), (ref ++ ref2). rewrite Ha, Hr.
    split; [by rewrite app_assoc|]. split; [by rewrite app_assoc|].
    assert (Eperm : (act ++ act2) ++ ref ++ ref2 ≡ₚ t' :: act2 ++ ref2).
    { change (t' :: act2 ++ ref2) with ([t'] ++ act2 ++ ref2). rewrite <-Hact. solve_Permutation. }
    split; [|split].
    + intros u Hu. rewrite Eperm in Hu. apply elem_of_cons in Hu as [->|Hu]; [exists p; split; [left|done]|].
      destruct (Hc u Hu) as (q & Hq & Eq). exists q. split; [by right|done].
    + intros q [->|Hq]%elem_of_cons; [exists t'; rewrite Eperm; split; [left|done]|].
      destruct (Hc' q Hq) as (u & Hu & Eu). exists u. rewrite Eperm. split; [by right|done].
    + rewrite Eperm. cbn. lia.
Qed.

Lemma pairs_joined ptrs dets f ms g : pair_step ptrs dets f -> NoDup ptrs -> NoDup ms.*1 ->
  (forall ij, ij ∈ ms -> 0 <= ij.2 < Zlen dets
     /\ exists p t, aget ptrs ij.1 = Some p /\ deref (pr_tracker g) p = Some t /\ len_ok t) ->
  exists g', for_each ms f g = Some g' /\ joining (at_indices ptrs ms.*1) g g'.
Proof.
  intros Hf Hnd. revert g. induction ms as [|ij ms IH]; intros g Hms Hr.
  { exists g. split; [done|]. split; [apply changed_nil|]. exists [], [].
    rewrite !app_nil_r. split; [done|]. split; [done|]. split; [set_solver|]. split; [set_solver|done]. }
  cbn [for_each fmap list_fmap]. apply NoDup_cons in Hms as [Hij Hms].
  destruct (Hr ij) as (H2 & p & t & Ep & Et & Hl); [left|]. destruct (proj2 (aget_is_Some dets ij.2) H2) as [det Edet].
  destruct (Hf ij g p det t Ep Edet Et Hl) as (t' & act & ref & -> & Hj & Hact). cbn [mbind option_bind].
  assert (Eat : at_indices ptrs (ij.1 :: ms.*1) = p :: at_indices ptrs ms.*1).
  { unfold at_indices. cbn. by rewrite Ep. }
  rewrite Eat.
  assert (Hpn : p ∉ at_indices ptrs ms.*1).
  { intros (i & Hi & Ei)%elem_at_indices. by rewrite (aget_inj _ _ _ _ Hnd Ei Ep) in Hi. }
  edestruct (IH {| pr_tracker := store (pr_tracker g) p t'; activated_stracks := activated_stracks g ++ act;
                   refind_stracks := refind_stracks g ++ ref |}) as (g2 & -> & Hg2); [done| |].
  - intros kl Hkl. destruct (Hr kl) as (H3 & q & u & Eq & Eu & Hlu); [by right|]. split; [done|].
    exists q, u. split; [done|]. split; [|done]. cbn. rewrite deref_store, decide_False; [done| |eauto].
    intros ->. apply Hpn, elem_at_indices. exists kl.1. split; [|done]. apply list_elem_of_fmap. by exists kl.
  - exists g2. split; [done|]. by eapply joining_cons.
Qed.

(** *** A step of association *)

Record association_done (ptrs : list strack_ptr) (dets : list STrack) (a : assignment) (g g' : progress)
  : Prop := {
  ad_rows : (matches a).*1 ++ unmatched_a a ≡ₚ range 0 (Zlen ptrs);
  ad_columns : (matches a).*2 ++ unmatched_b a ≡ₚ range 0 (Zlen dets);
  ad_joining : joining (at_indices ptrs (matches a).*1) g g'
}.

Lemma associate_spec ptrs dets f thresh g : pair_step ptrs dets f -> NoDup ptrs ->
  Zlen ptrs + Zlen dets < 65536 ->
  (forall p, p ∈ ptrs -> exists t, deref (pr_tracker g) p = Some t /\ len_ok t) ->
  exists a g', associate mem f ptrs dets thresh g = Some (Done (a, g'))
    /\ association_done ptrs dets a g g'.
Proof using Hmem.
  intros Hf Hnd Hs Hp. unfold associate.
  assert (Hm : exists tracks, mapM (deref (pr_tracker g)) ptrs = Some tracks).
  { apply mapM_is_Some_2, Forall_forall. intros p Hpin. destruct (Hp p Hpin) as (t & Et & _).
    unfold compose. eauto. }
  destruct Hm as [tracks Em]. rewrite Em. cbn [mbind option_bind].
  pose proof (Forall2_length _ _ _ (mapM_Some_1 _ _ _ Em)) as Hlen.
  destruct (assign_any (Zlen ptrs) (Zlen dets) thresh tracks dets) as (a & -> & Hrows & Hcols);
    [unfold Zlen; lia|done|done|]. cbn [mbind option_bind].
  assert (Hr1 : NoDup (matches a).*1 /\ forall i, i ∈ (matches a).*1 -> 0 <= i < Zlen ptrs).
  { pose proof (NoDup_range 0 (Zlen ptrs)) as Hn. rewrite <-Hrows in Hn. apply NoDup_app in Hn as (Hn & _).
    split; [done|]. intros i Hi. apply elem_range. rewrite <-Hrows. apply elem_of_app. by left. }
  assert (Hr2 : forall j, j ∈ (matches a).*2 -> 0 <= j < Zlen dets).
  { intros j Hj. apply elem_range. rewrite <-Hcols. apply elem_of_app. by left. }
  destruct Hr1 as [Hn1 Hr1].
  destruct (pairs_joined ptrs dets f (matches a) g Hf Hnd Hn1) as (g' & -> & Hg').
  { intros ij Hij. split; [apply Hr2, list_elem_of_fmap; by exists ij|].
    destruct (proj2 (aget_is_Some ptrs ij.1)) as [p Ep]; [apply Hr1, list_elem_of_fmap; by exists ij|].
    assert (Hpin : p ∈ ptrs).
    { unfold aget in Ep. destruct (0 <=? ij.1); [|done]. by eapply list_elem_of_lookup_2. }
    destruct (Hp p Hpin) as (t & Et & Hl). by exists p, t. }
  cbn [mbind option_bind]. exists a, g'. split; [done|]. by split.
Qed.

(** The pointers that are joined and those that are not are all of them, once each. *)
Lemma pick_omap {A} (l : list A) l' : (forall i, i ∈ l' -> 0 <= i < Zlen l) ->
  pick l l' = Some (omap (λ i, aget l i) l').
Proof.
  unfold pick. induction l' as [|i l' IH]; intros Hin; [done|]. cbn.
  destruct (proj2 (aget_is_Some l i)) as [q Eq]; [apply Hin; left|]. rewrite Eq. cbn [mbind option_bind].
  rewrite IH by (intros; apply Hin; by right). done.
Qed.

Lemma omap_range {A} (l : list A) : omap (λ i, aget l i) (range 0 (Zlen l)) = l.
Proof.
  assert (H : forall k, omap (λ i, aget l i) (range (Z.of_nat k) (Zlen l)) = drop k l).
  { intros k. remember (length l - k)%nat as n eqn:En. revert k En.
    induction n as [|n IH]; intros k En.
    - rewrite range_nil by (unfold Zlen; lia). by rewrite drop_ge by lia.
    - destruct (lookup_lt_is_Some_2 l k) as [x Hx]; [lia|]. rewrite (drop_S _ _ _ Hx).
      rewrite range_cons by (unfold Zlen; lia). cbn [omap list_omap]. unfold aget at 1.
      destruct (Z.leb_spec 0 (Z.of_nat k)); [|lia]. rewrite Nat2Z.id, Hx. f_equal.
      replace (Z.of_nat k + 1) with (Z.of_nat (S k)) by lia. apply IH. lia. }
  apply (H 0%nat).
Qed.

Lemma omap_perm {A B} (f : A -> option B) l l' : l ≡ₚ l' -> omap f l ≡ₚ omap f l'.
Proof.
  induction 1 as [|x l l' _ IH|x y l|l1 l2 l3 _ IH1 _ IH2]; cbn; [done| | |by etrans].
  - destruct (f x); by rewrite IH.
  - destruct (f x), (f y); try done. apply perm_swap.
Qed.

Lemma pick_rest {A} (l : list A) m u : m ++ u ≡ₚ range 0 (Zlen l) ->
  pick l u = Some (omap (λ i, aget l i) u)
  /\ omap (λ i, aget l i) m ++ omap (λ i, aget l i) u ≡ₚ l.
Proof.
  intros Hr. split.
  - apply pick_omap. intros i Hi. apply elem_range. rewrite <-Hr. apply elem_of_app. by right.
  - rewrite <-omap_app, <-(omap_range l) at 1. by apply omap_perm.
Qed.

End pictures.

(** *** The other steps *)


Record kept (t t' : STrack) : Prop := {
  kp_id : track_id t' = track_id t;
  kp_state : state t' = state t;
  kp_frame : st_frame_id t' = st_frame_id t;
  kp_len : tracklet_len t' = tracklet_len t
}.

Lemma kept_refl t : kept t t.
Proof. done. Qed.

Lemma multi_predict_spec E ptrs s : NoDup ptrs -> (forall p, p ∈ ptrs -> is_Some (deref s p)) ->
  exists s', multi_predict E ptrs s = Some s' /\ changed kept ptrs s s'.
Proof.
  revert s. induction ptrs as [|p ptrs IH]; intros s Hn Hp; cbn [multi_predict].
  { exists s. split; [done|]. apply changed_nil. }
  apply NoDup_cons in Hn as [Hpn Hn]. destruct (Hp p) as [t Et]; [left|]. rewrite Et. cbn [mbind option_bind].
  assert (Hsome : is_Some (deref s p)) by eauto.
  destruct (IH (store s p (predict_track E t)) Hn) as (s' & -> & [Hf Ho Hi]).
  { intros q Hq. rewrite deref_store by done. case_decide; [eauto|]. apply Hp. by right. }
  exists s'. split; [done|]. split.
  - by rewrite Hf, fields_store.
  - intros q Hq. rewrite Ho, deref_store, decide_False by (done || set_solver). done.
  - intros q [->|Hq]%elem_of_cons.
    + exists t, (predict_track E t). split; [done|]. split; [|done].
      by rewrite Ho, deref_store, decide_True by done.
    + destruct (Hi q Hq) as (u & u' & Eu & Eu' & Hu). exists u, u'. split; [|done].
      rewrite deref_store, decide_False in Eu by (done || set_solver). done.
Qed.

(** A list of pointers whose tracks get another state; the copies of the tracks. *)
Record marked (st : TrackState) (ptrs : list strack_ptr) (s s' : BYTETracker) (l : list STrack) : Prop := {
  mk_changed : changed (λ t t', t' = set_state st t) ptrs s s';
  mk_copies : forall t, t ∈ l -> exists q, q ∈ ptrs /\ deref s' q = Some t
}.

Lemma marked_cons st p t ptrs s s' l : deref s p = Some t -> p ∉ ptrs ->
  marked st ptrs (store s p (set_state st t)) s' l -> marked st (p :: ptrs) s s' (set_state st t :: l).
Proof.
  intros Et Hpn [[Hf Ho Hi] Hc]. assert (Hsome : is_Some (deref s p)) by eauto.
  assert (Ep : deref s' p = Some (set_state st t)) by (by rewrite Ho, deref_store, decide_True by done).
  split; [split|].
  - by rewrite Hf, fields_store.
  - intros q Hq. rewrite Ho, deref_store, decide_False by (done || set_solver). done.
  - intros q [->|Hq]%elem_of_cons; [by exists t, (set_state st t)|].
    destruct (Hi q Hq) as (u & u' & Eu & Eu' & Hu). exists u, u'. split; [|done].
    rewrite deref_store, decide_False in Eu by (done || set_solver). done.
  - intros u [->|Hu]%elem_of_cons; [exists p; split; [left|done]|].
    destruct (Hc u Hu) as (q & Hq & Eq). exists q. split; [by right|done].
Qed.

Lemma lose_spec ptrs s : NoDup ptrs ->
  (forall p, p ∈ ptrs -> exists t, deref s p = Some t /\ state t <> Lost) ->
  exists s' l, lose ptrs s = Some (s', l) /\ marked Lost ptrs s s' l.
Proof.
  revert s. induction ptrs as [|p ptrs IH]; intros s Hn Hp; cbn [lose].
  { exists s, []. split; [done|]. split; [apply changed_nil|set_solver]. }
  apply NoDup_cons in Hn as [Hpn Hn]. destruct (Hp p) as (t & Et & Hst); [left|]. rewrite Et.
  cbn [mbind option_bind].
  destruct (IH (store s p (mark_lost t)) Hn) as (s' & l & E' & Hm).
  { intros q Hq. rewrite deref_store, decide_False by (eauto || set_solver). apply Hp. by right. }
  exists s', (mark_lost t :: l). split; [destruct (state t); (done || by rewrite E')|].
  by apply marked_cons.
Qed.

Lemma drop_unconfirmed_spec ptrs s : NoDup ptrs -> (forall p, p ∈ ptrs -> is_Some (deref s p)) ->
  exists s' l, drop_unconfirmed ptrs s = Some (s', l) /\ marked Removed ptrs s s' l.
Proof.
  revert s. induction ptrs as [|p ptrs IH]; intros s Hn Hp; cbn [drop_unconfirmed].
  { exists s, []. split; [done|]. split; [apply changed_nil|set_solver]. }
  apply NoDup_cons in Hn as [Hpn Hn]. destruct (Hp p) as [t Et]; [left|]. rewrite Et.
  cbn [mbind option_bind].
  destruct (IH (store s p (mark_removed t)) Hn) as (s' & l & -> & Hm).
  { intros q Hq. rewrite deref_store, decide_False by (eauto || set_solver). apply Hp. by right. }
  exists s', (mark_removed t :: l). split; [done|]. by apply marked_cons.
Qed.

(** A track that has just begun. *)
Record begun (frame lo hi : Z) (t : STrack) : Prop := {
  bg_id : lo < track_id t <= hi;
  bg_state : state t = Tracked;
  bg_frame : st_frame_id t = frame;
  bg_len : tracklet_len t = 0
}.

Lemma begin_tracks_spec dets s : 0 <= _count s -> _count s + Zlen dets < 2 ^ 31 ->
  exists c l, begin_tracks dets s = Some (set_count c s, l)
    /\ _count s <= c <= _count s + Zlen dets /\ (length l <= length dets)%nat
    /\ forall t, t ∈ l -> begun (frame_id s) (_count s) c t.
Proof.
  revert s. induction dets as [|t dets IH]; intros s H0 Hc; cbn [begin_tracks].
  { exists (_count s), []. split; [by destruct s|]. split; [unfold Zlen; cbn; lia|]. split; [done|set_solver]. }
  rewrite Zlen_cons in *. pose proof (Zlen_nonneg dets).
  destruct (dlt (score t) high_thresh).
  { destruct (IH s) as (c & l & -> & Hcb & Hl & Hb); [done|lia|]. exists c, l. split; [done|].
    split; [lia|]. split; [cbn; lia|done]. }
  unfold activate. rewrite int_of_ok by lia. cbn [mbind option_bind].
  destruct (IH (set_count (_count s + 1) s)) as (c & l & -> & Hcb & Hl & Hb); [cbn; lia|cbn; lia|].
  cbn [mbind option_bind]. cbn in Hcb. do 2 eexists. split; [reflexivity|]. split; [lia|].
  split; [cbn; lia|]. intros u [->|Hu]%elem_of_cons.
  - split; cbn; [lia|done|done|done].
  - destruct (Hb u Hu) as [B1 B2 B3 B4]. cbn in *. split; [lia|done|done|done].
Qed.

(** ** The invariant *)

(** A lost track stays at least for one picture. *)
Definition lost_time (s : BYTETracker) : Z := Z.max 1 (max_time_lost s).

Definition lost_ok (s : BYTETracker) (t : STrack) : Prop :=
  (state t = Lost /\ frame_id s - st_frame_id t <= lost_time s)
  \/ (state t = Removed /\ track_id t ∈ ids (removed_stracks s)
      /\ frame_id s - st_frame_id t <= lost_time s + 1).

Record tracker_ok (s : BYTETracker) : Prop := {
  ok_ids : NoDup (ids (tracked_stracks s ++ lost_stracks s));
  ok_tracks : forall t, t ∈ tracked_stracks s ++ lost_stracks s ->
    0 < track_id t <= _count s /\ 0 <= tracklet_len t <= frame_id s /\ st_frame_id t <= frame_id s;
  ok_tracked : forall t, t ∈ tracked_stracks s -> state t = Tracked /\ st_frame_id t = frame_id s;
  ok_lost : forall t, t ∈ lost_stracks s -> lost_ok s t;
  ok_counters : 0 <= frame_id s /\ 0 <= _count s
}.

(** ** All pointers of a tracker *)

Definition tracked_all (s : BYTETracker) : list strack_ptr := imap (λ i _, P_tracked i) (tracked_stracks s).
Definition lost_all (s : BYTETracker) : list strack_ptr := imap (λ i _, P_lost i) (lost_stracks s).

Lemma elem_tracked_all s q : q ∈ tracked_all s <-> exists i, q = P_tracked i /\ is_Some (deref s q).
Proof.
  unfold tracked_all. rewrite elem_of_lookup_imap. split.
  - intros (i & t & -> & Ht). exists i. split; [done|]. cbn. eauto.
  - intros (i & -> & [t Ht]). exists i, t. done.
Qed.

Lemma elem_lost_all s q : q ∈ lost_all s <-> exists i, q = P_lost i /\ is_Some (deref s q).
Proof.
  unfold lost_all. rewrite elem_of_lookup_imap. split.
  - intros (i & t & -> & Ht). exists i. split; [done|]. cbn. eauto.
  - intros (i & -> & [t Ht]). exists i, t. done.
Qed.

Lemma NoDup_imap {A} (f : nat -> strack_ptr) (l : list A) : Inj (=) (=) f -> NoDup (imap (λ i _, f i) l).
Proof.
  intros Hf. revert f Hf. induction l as [|a l IH]; intros f Hf; [constructor|]. rewrite imap_cons.
  apply NoDup_cons. split; [|apply (IH (f ∘ S)); intros i j E; apply Hf in E; lia].
  intros (i & b & E & _)%elem_of_lookup_imap. cbn in E. apply Hf in E. lia.
Qed.

Lemma NoDup_all s : NoDup (tracked_all s ++ lost_all s).
Proof.
  apply NoDup_app. split; [apply NoDup_imap; by intros ?? [= ->]|].
  split; [|apply NoDup_imap; by intros ?? [= ->]].
  intros q (i & -> & _)%elem_tracked_all (j & E & _)%elem_lost_all. done.
Qed.

Lemma elem_all s q : q ∈ tracked_all s ++ lost_all s <-> is_Some (deref s q).
Proof.
  rewrite elem_of_app, elem_tracked_all, elem_lost_all. split; [naive_solver|].
  intros H. destruct q as [i|i]; [left|right]; by exists i.
Qed.

Lemma deref_elem s q t : deref s q = Some t -> t ∈ tracked_stracks s ++ lost_stracks s.
Proof. destruct q; cbn; intros H%list_elem_of_lookup_2; apply elem_of_app; [by left|by right]. Qed.

Lemma deref_id_inj s q q' t t' : NoDup (ids (tracked_stracks s ++ lost_stracks s)) ->
  deref s q = Some t -> deref s q' = Some t' -> track_id t = track_id t' -> q = q'.
Proof.
  intros Hn Hq Hq' E.
  assert (Hpos : forall q t, deref s q = Some t -> (tracked_stracks s ++ lost_stracks s)
            !! (match q with P_tracked i => i | P_lost i => length (tracked_stracks s) + i end)%nat = Some t).
  { intros [i|i] u Hu; cbn in Hu; [by apply lookup_app_l_Some|].
    rewrite lookup_app_r by lia. by replace (length (tracked_stracks s) + i - length (tracked_stracks s))%nat with i by lia. }
  pose proof (Hpos _ _ Hq) as H1. pose proof (Hpos _ _ Hq') as H2.
  assert (E' : (match q with P_tracked i => i | P_lost i => length (tracked_stracks s) + i end
          = match q' with P_tracked i => i | P_lost i => length (tracked_stracks s) + i end)%nat).
  { eapply NoDup_lookup; [exact Hn| |]; rewrite list_lookup_fmap.
    - rewrite H1. reflexivity.
    - rewrite H2. cbn. by rewrite E. }
  destruct q as [i|i], q' as [j|j]; cbn in Hq, Hq'; apply lookup_lt_Some in Hq, Hq'; (f_equal; lia) || lia.
Qed.

(** The pointers to tracks with more than one box, and to those with one. *)
Definition split_ptrs (s : BYTETracker) (b : bool) : list strack_ptr :=
  (filter (λ pt, is_activated pt.2 = b) (imap (λ i t, (P_tracked i, t)) (tracked_stracks s))).*1.

Lemma split_all s : split_ptrs s false ++ split_ptrs s true ≡ₚ tracked_all s.
Proof.
  unfold split_ptrs. rewrite <-fmap_app.
  assert (E : filter (λ pt : strack_ptr * STrack, is_activated pt.2 = false)
                (imap (λ i t, (P_tracked i, t)) (tracked_stracks s))
              = filter (λ pt, ~ is_activated pt.2 = true) (imap (λ i t, (P_tracked i, t)) (tracked_stracks s))).
  { apply list_filter_iff. intros [p t]. cbn. destruct (is_activated t); naive_solver. }
  rewrite E, (comm (++)), filter_app_complement. unfold tracked_all. by rewrite fmap_imap.
Qed.

Lemma joint_rest_all l seen : NoDup l.*1 -> (forall x, x ∈ l.*1 -> x ∉ seen) -> joint_rest seen l = l.*2.
Proof.
  revert seen. induction l as [|[x p] l IH]; intros seen Hn Hs; [done|]. cbn in *.
  apply NoDup_cons in Hn as [Hx Hn]. rewrite decide_False by set_solver.
  rewrite IH; [done|done|]. intros y Hy. specialize (Hs y ltac:(by right)). set_solver.
Qed.

Lemma imap_fst (f : nat -> strack_ptr) (l : list STrack) :
  (imap (λ i t, (track_id t, f i)) l).*1 = ids l.
Proof. rewrite fmap_imap. unfold compose. cbn. revert f. induction l as [|t l IH]; intros f; [done|]. cbn. by rewrite <-(IH (f ∘ S)). Qed.

Lemma joint_stracks_ptr_spec s : NoDup (ids (tracked_stracks s ++ lost_stracks s)) ->
  joint_stracks_ptr s (split_ptrs s true) = Some (split_ptrs s true ++ lost_all s).
Proof.
  intros Hn. unfold joint_stracks_ptr.
  assert (Hids : exists l, mapM (λ p, track_id <$> deref s p) (split_ptrs s true) = Some l
            /\ forall x, x ∈ l -> x ∈ ids (tracked_stracks s)).
  { assert (Hv : forall p, p ∈ split_ptrs s true -> exists t, deref s p = Some t /\ t ∈ tracked_stracks s).
    { intros p Hp. assert (Hin : p ∈ tracked_all s) by (rewrite <-split_all; apply elem_of_app; by right).
      apply elem_tracked_all in Hin as (i & -> & [t Ht]). exists t. split; [done|].
      by eapply list_elem_of_lookup_2. }
    induction (split_ptrs s true) as [|p l IH]; [exists []; split; [done|set_solver]|].
    destruct IH as (l' & El & Hl); [intros; apply Hv; by right|].
    destruct (Hv p) as (t & Et & Ht); [left|]. exists (track_id t :: l'). cbn. rewrite Et. cbn.
    rewrite El. split; [done|]. intros x [->|Hx]%elem_of_cons; [by apply list_elem_of_fmap_2|by apply Hl]. }
  destruct Hids as (l & -> & Hl). cbn [mbind option_bind]. do 2 f_equal.
  rewrite fmap_app in Hn. apply NoDup_app in Hn as (_ & Hdis & Hn).
  rewrite joint_rest_all; [|by rewrite imap_fst|].
  - unfold lost_all. by rewrite fmap_imap.
  - rewrite imap_fst. intros x Hx Hs. apply elem_of_list_to_set, Hl in Hs. by eapply Hdis.
Qed.

(** ** A picture, step by step *)

Lemma length_omap_le {A B} (f : A -> option B) l : (length (omap f l) <= length l)%nat.
Proof. induction l as [|a l IH]; cbn; [done|]. destruct (f a); cbn; lia. Qed.

Section steps.
Context (E : eigen) (mem : Z -> allocator double) (garbage : vector * matrix).
Hypothesis Hmem : forall n, 0 < n < 65536 -> allocates n (mem n).

(** An association as its user sees it: who is joined, and who is left over. *)
Lemma association ptrs dets f thresh g : pair_step ptrs dets f -> NoDup ptrs ->
  Zlen ptrs + Zlen dets < 65536 ->
  (forall p, p ∈ ptrs -> exists t, deref (pr_tracker g) p = Some t /\ len_ok t) ->
  exists a g' J N rest, associate mem f ptrs dets thresh g = Some (Done (a, g'))
    /\ pick ptrs (unmatched_a a) = Some N /\ pick dets (unmatched_b a) = Some rest
    /\ J ++ N ≡ₚ ptrs /\ joining J g g' /\ (length J + length rest = length dets)%nat.
Proof using Hmem.
  intros Hf Hn Hs Hp.
  destruct (associate_spec mem Hmem ptrs dets f thresh g Hf Hn Hs Hp) as (a & g' & -> & [Hr Hc Hj]).
  destruct (pick_rest ptrs _ _ Hr) as [Ea Pa]. destruct (pick_rest dets _ _ Hc) as [Eb Pb].
  do 5 eexists. split; [reflexivity|]. split; [exact Ea|]. split; [exact Eb|]. split; [exact Pa|].
  split; [exact Hj|]. apply Permutation_length in Pa, Pb, Hr, Hc.
  rewrite !length_app, ?length_fmap, ?length_range in *.
  assert (length (omap (λ i, aget dets i) (matches a).*2) = length (matches a)).
  { unfold at_indices in *. pose proof (length_omap_le (λ i, aget dets i) (unmatched_b a)).
    pose proof (length_omap_le (λ i, aget dets i) (matches a).*2). rewrite length_fmap in *. unfold Zlen in *. lia. }
  assert (length (at_indices ptrs (matches a).*1) = length (matches a)).
  { unfold at_indices in *. pose proof (length_omap_le (λ i, aget ptrs i) (unmatched_a a)).
    pose proof (length_omap_le (λ i, aget ptrs i) (matches a).*1). rewrite length_fmap in *. unfold Zlen in *. lia. }
  unfold at_indices in *. lia.
Qed.

End steps.

(** The tracks that are not joined and still tracked. *)
Lemma still_tracked N s : (forall q, q ∈ N -> is_Some (deref s q)) ->
  exists states, mapM (deref s) N = Some states
    /\ let r := (filter (λ pt, state pt.2 = Tracked) (zip N states)).*1 in
       exists K, r ++ K ≡ₚ N
         /\ (forall q, q ∈ r -> exists t, deref s q = Some t /\ state t = Tracked)
         /\ (forall q, q ∈ K -> exists t, deref s q = Some t /\ state t <> Tracked).
Proof.
  induction N as [|p N IH]; intros Hv.
  { exists []. split; [done|]. exists []. split; [done|]. split; intros q Hq; by apply elem_of_nil in Hq. }
  destruct IH as (states & Em & K & Hp & Hr & Hk); [intros; apply Hv; by right|].
  destruct (Hv p) as [t Et]; [left|]. exists (t :: states). split; [cbn; by rewrite Et, Em|].
  cbn [zip zip_with]. rewrite filter_cons. case_decide as Hst; cbn in Hst |- *.
  - exists K. split; [by apply Permutation_skip|]. split; [|done]. intros q [->|Hq]%elem_of_cons; [by exists t|by apply Hr].
  - exists (p :: K). split; [by rewrite <-Permutation_middle; apply Permutation_skip|]. split; [done|].
    intros q [->|Hq]%elem_of_cons; [by exists t|by apply Hk].
Qed.

Lemma deref_frame f s q : deref (set_frame f s) q = deref s q.
Proof. by destruct q. Qed.
Lemma deref_count c s q : deref (set_count c s) q = deref s q.
Proof. by destruct q. Qed.

(** *** The picture so far *)

(** Some pointers, and the copies of their tracks. *)
Definition copied (R : list strack_ptr) (s : BYTETracker) (l : list STrack) : Prop :=
  (forall t, t ∈ l -> exists q, q ∈ R /\ deref s q = Some t)
  /\ (forall q, q ∈ R -> exists t, t ∈ l /\ deref s q = Some t).

Lemma copied_changed rel R R' s s' l : copied R s l -> changed rel R' s s' ->
  (forall q, q ∈ R -> q ∉ R') -> copied R s' l.
Proof.
  intros [H1 H2] [_ Ho _] Hd. split.
  - intros t Ht. destruct (H1 t Ht) as (q & Hq & Eq). exists q. split; [done|]. rewrite Ho by auto. done.
  - intros q Hq. destruct (H2 q Hq) as (t & Ht & Eq). exists t. split; [done|]. rewrite Ho by auto. done.
Qed.

Lemma copied_app R R' s l l' : copied R s l -> copied R' s l' -> copied (R ++ R') s (l ++ l').
Proof.
  intros [H1 H2] [H3 H4]. split; intros x [Hx|Hx]%elem_of_app.
  - destruct (H1 x Hx) as (q & ? & ?). exists q. rewrite elem_of_app. auto.
  - destruct (H3 x Hx) as (q & ? & ?). exists q. rewrite elem_of_app. auto.
  - destruct (H2 x Hx) as (q & ? & ?). exists q. rewrite elem_of_app. auto.
  - destruct (H4 x Hx) as (q & ? & ?). exists q. rewrite elem_of_app. auto.
Qed.

Lemma copied_perm R s l l' : l ≡ₚ l' -> copied R s l -> copied R s l'.
Proof. unfold copied. intros Hl. by setoid_rewrite Hl. Qed.

(** The pointers at [R] lead to tracks that are related to those of [s]. *)
Definition moved (rel : STrack -> STrack -> Prop) (R : list strack_ptr) (s s' : BYTETracker) : Prop :=
  forall q, q ∈ R -> exists t t', deref s q = Some t /\ deref s' q = Some t' /\ rel t t'.

Lemma moved_other rel rel' R R' s s1 s2 : moved rel R s s1 -> changed rel' R' s1 s2 ->
  (forall q, q ∈ R -> q ∉ R') -> moved rel R s s2.
Proof.
  intros Hm [_ Ho _] Hd q Hq. destruct (Hm q Hq) as (t & t' & Et & Et' & Hr).
  exists t, t'. split; [done|]. split; [rewrite Ho by auto; done|done].
Qed.

Lemma moved_in rel rel' (rel2 : STrack -> STrack -> Prop) R R' s s1 s2 : moved rel R s s1 ->
  changed rel' R' s1 s2 -> (forall q, q ∈ R' -> q ∈ R) ->
  (forall t t1 t2, rel t t1 -> rel' t1 t2 -> rel2 t t2) -> moved rel2 R' s s2.
Proof.
  intros Hm [_ _ Hi] Hsub Hc q Hq. destruct (Hm q) as (t & t1 & Et & Et1 & Hr); [by apply Hsub|].
  destruct (Hi q Hq) as (u & t2 & Eu & Et2 & Hr'). rewrite Et1 in Eu. injection Eu as <-.
  exists t, t2. eauto.
Qed.

Lemma moved_app rel R R' s s' : moved rel R s s' -> moved rel R' s s' -> moved rel (R ++ R') s s'.
Proof. intros H1 H2 q [Hq|Hq]%elem_of_app; auto. Qed.

(** A track in another state. *)
Definition put (st : TrackState) (t t' : STrack) : Prop :=
  track_id t' = track_id t /\ state t' = st /\ st_frame_id t' = st_frame_id t
  /\ tracklet_len t' = tracklet_len t.

(** Since the picture began at [s], the tracks at [J] are joined to a box, those at [N] are
    lost and those at [U] dropped; the others, at [K], are as they were. *)
Record so_far (s : BYTETracker) (g : progress) (J N U K : list strack_ptr) (lost : list STrack)
  : Prop := {
  sf_all : (J ++ N ++ U) ++ K ≡ₚ tracked_all s ++ lost_all s;
  sf_fields : fields (pr_tracker g) = fields s;
  sf_J : moved (joined (frame_id s)) J s (pr_tracker g);
  sf_N : moved (put Lost) N s (pr_tracker g);
  sf_U : moved (put Removed) U s (pr_tracker g);
  sf_K : moved kept K s (pr_tracker g);
  sf_copies : copied J (pr_tracker g) (activated_stracks g ++ refind_stracks g);
  sf_number : (length (activated_stracks g ++ refind_stracks g) <= length J)%nat;
  sf_lost : forall t, t ∈ lost -> exists q, q ∈ N /\ deref (pr_tracker g) q = Some t
}.

Lemma so_far_disjoint s g J N U K l q : so_far s g J N U K l -> q ∈ K -> q ∉ J /\ q ∉ N /\ q ∉ U.
Proof.
  intros H Hq. pose proof (NoDup_all s) as Hn. rewrite <-(sf_all _ _ _ _ _ _ _ H) in Hn.
  apply NoDup_app in Hn as (_ & Hd & _).
  repeat split; intros Hq'; apply (Hd q); (done || rewrite !elem_of_app; auto).
Qed.

Lemma so_far_NoDup s g J N U K l : so_far s g J N U K l -> NoDup K.
Proof.
  intros H. pose proof (NoDup_all s) as Hn. rewrite <-(sf_all _ _ _ _ _ _ _ H) in Hn.
  by apply NoDup_app in Hn as (_ & _ & ?).
Qed.

Lemma so_far_perm s g J N U K K' l : K ≡ₚ K' -> so_far s g J N U K l -> so_far s g J N U K' l.
Proof.
  intros Hp [H1 H2 H3 H4 H5 H6 H7 H8 H9]. split; try done; [by rewrite <-Hp|].
  intros q Hq. rewrite <-Hp in Hq. by apply H6.
Qed.

Definition at_tracker (s : BYTETracker) (g : progress) : progress :=
  {| pr_tracker := s; activated_stracks := activated_stracks g; refind_stracks := refind_stracks g |}.

Lemma so_far_start s : so_far s {| pr_tracker := s; activated_stracks := []; refind_stracks := [] |}
  [] [] [] (tracked_all s ++ lost_all s) [].
Proof.
  split; cbn; try done; try (intros q Hq; set_solver).
  - intros q Hq. apply elem_all in Hq as [t Et]. exists t, t. auto using kept_refl.
  - split; set_solver.
Qed.

Lemma lost_other rel (R R' : list strack_ptr) s s' (l : list STrack) :
  (forall t, t ∈ l -> exists q, q ∈ R /\ deref s q = Some t) -> changed rel R' s s' ->
  (forall q, q ∈ R -> q ∉ R') -> forall t, t ∈ l -> exists q, q ∈ R /\ deref s' q = Some t.
Proof.
  intros Hl [_ Ho _] Hd t Ht. destruct (Hl t Ht) as (q & Hq & Eq). exists q. split; [done|].
  rewrite Ho by auto. done.
Qed.

(** A change of tracks that are as they were. *)
Lemma so_far_kept s g J N U K l R s' : so_far s g J N U K l -> (forall q, q ∈ R -> q ∈ K) ->
  changed kept R (pr_tracker g) s' -> so_far s (at_tracker s' g) J N U K l.
Proof.
  intros H HR Hc. pose proof (so_far_disjoint s g J N U K l) as Hd. destruct H as [Ha Hf HJ HN HU HK Hcp Hn Hl].
  assert (Hdis : forall q, (q ∈ J \/ q ∈ N \/ q ∈ U) -> q ∉ R).
  { intros q Hq Hr. destruct (Hd q) as (? & ? & ?); [by split|by apply HR|]. naive_solver. }
  split; cbn; [done| | | | | | |done|].
  - by rewrite (ch_fields _ _ _ _ Hc).
  - eapply moved_other; [exact HJ|exact Hc|auto].
  - eapply moved_other; [exact HN|exact Hc|auto].
  - eapply moved_other; [exact HU|exact Hc|auto].
  - intros q Hq. destruct (decide (q ∈ R)) as [Hin|Hin].
    + eapply (moved_in kept kept kept); [exact HK|exact Hc|exact HR| |exact Hin].
      intros t t1 t2 [] []. split; congruence.
    + destruct (HK q Hq) as (t & t' & Et & Et' & Hk). exists t, t'. split; [done|]. split; [|done].
      by rewrite (ch_other _ _ _ _ Hc).
  - eapply copied_changed; [exact Hcp|exact Hc|auto].
  - eapply lost_other; [exact Hl|exact Hc|auto].
Qed.

(** [R] leaves [K]: the other tracks are as before. *)
Lemma so_far_leave s g J N U R K l rel s' : so_far s g J N U (R ++ K) l -> changed rel R (pr_tracker g) s' ->
  fields s' = fields s
  /\ moved (joined (frame_id s)) J s s' /\ moved (put Lost) N s s' /\ moved (put Removed) U s s'
  /\ moved kept K s s' /\ copied J s' (activated_stracks g ++ refind_stracks g)
  /\ (forall t, t ∈ l -> exists q, q ∈ N /\ deref s' q = Some t)
  /\ (forall rel2 : STrack -> STrack -> Prop,
        (forall t t1 t2, kept t t1 -> rel t1 t2 -> rel2 t t2) -> moved rel2 R s s').
Proof.
  intros H Hc. pose proof (so_far_disjoint s g J N U (R ++ K) l) as Hd.
  pose proof (so_far_NoDup _ _ _ _ _ _ _ H) as Hn. apply NoDup_app in Hn as (_ & Hnd & _).
  pose proof H as [Ha Hf HJ HN HU HK Hcp Hl Hlost].
  assert (Hdis : forall q, (q ∈ J \/ q ∈ N \/ q ∈ U) -> q ∉ R).
  { intros q Hq Hr. destruct (Hd q) as (? & ? & ?); [done|apply elem_of_app; by left|]. naive_solver. }
  split; [by rewrite (ch_fields _ _ _ _ Hc)|].
  split; [eapply moved_other; [exact HJ|exact Hc|auto]|].
  split; [eapply moved_other; [exact HN|exact Hc|auto]|].
  split; [eapply moved_other; [exact HU|exact Hc|auto]|].
  split; [|split; [eapply copied_changed; [exact Hcp|exact Hc|auto]|split]].
  - eapply moved_other; [|exact Hc|].
    + intros q Hq. apply HK, elem_of_app. by right.
    + intros q Hq Hr. by apply (Hnd q).
  - eapply lost_other; [exact Hlost|exact Hc|auto].
  - intros rel2 Hr. eapply moved_in; [exact HK|exact Hc| |exact Hr].
    intros q Hq. apply elem_of_app. by left.
Qed.

Lemma so_far_joining s g g' J N U R K l : so_far s g J N U (R ++ K) l -> joining R g g' ->
  so_far s g' (J ++ R) N U K l.
Proof.
  intros H [Hc (act & ref & Ea & Er & C1 & C2 & Hl)].
  destruct (so_far_leave _ _ _ _ _ _ _ _ _ _ H Hc) as (F & HJ & HN & HU & HK & Hcp & Hlost & HR).
  assert (Ef : frame_id (pr_tracker g) = frame_id s) by (pose proof (sf_fields _ _ _ _ _ _ _ H) as F'; by injection F').
  assert (Ep : (activated_stracks g ++ refind_stracks g) ++ act ++ ref
               ≡ₚ activated_stracks g' ++ refind_stracks g') by (rewrite Ea, Er; solve_Permutation).
  split; [|done| |done|done|done| | |done].
  - rewrite <-(sf_all _ _ _ _ _ _ _ H). solve_Permutation.
  - apply moved_app; [done|]. apply HR. intros t t1 t2 [] []. split; try congruence; lia.
  - eapply copied_perm; [exact Ep|]. apply copied_app; [done|by split].
  - rewrite <-Ep, length_app, (length_app J). pose proof (sf_number _ _ _ _ _ _ _ H). lia.
Qed.

Lemma so_far_lost s g J N U R K l0 s' l : so_far s g J N U (R ++ K) l0 ->
  marked Lost R (pr_tracker g) s' l -> so_far s (at_tracker s' g) J (N ++ R) U K (l0 ++ l).
Proof.
  intros H [Hc Hl]. destruct (so_far_leave _ _ _ _ _ _ _ _ _ _ H Hc) as (F & HJ & HN & HU & HK & Hcp & Hlost & HR).
  split; cbn; try done.
  - rewrite <-(sf_all _ _ _ _ _ _ _ H). solve_Permutation.
  - apply moved_app; [done|]. apply HR. intros t t1 t2 [] ->. repeat split; cbn; congruence.
  - apply (sf_number _ _ _ _ _ _ _ H).
  - intros t [Ht|Ht]%elem_of_app.
    + destruct (Hlost t Ht) as (q & ? & ?). exists q. rewrite elem_of_app. auto.
    + destruct (Hl t Ht) as (q & ? & ?). exists q. rewrite elem_of_app. auto.
Qed.

Lemma so_far_dropped s g J N U R K l0 s' l : so_far s g J N U (R ++ K) l0 ->
  marked Removed R (pr_tracker g) s' l -> so_far s (at_tracker s' g) J N (U ++ R) K l0.
Proof.
  intros H [Hc _]. destruct (so_far_leave _ _ _ _ _ _ _ _ _ _ H Hc) as (F & HJ & HN & HU & HK & Hcp & Hlost & HR).
  split; cbn; try done.
  - rewrite <-(sf_all _ _ _ _ _ _ _ H). solve_Permutation.
  - apply moved_app; [done|]. apply HR. intros t t1 t2 [] ->. repeat split; cbn; congruence.
  - apply (sf_number _ _ _ _ _ _ _ H).
Qed.

Section picture.
Context (E : eigen) (mem : Z -> allocator double) (garbage : vector * matrix).
Hypothesis Hmem : forall n, 0 < n < 65536 -> allocates n (mem n).

(** An association of tracks that are as they were. *)
Lemma so_far_associate s g J N U ptrs K l dets f thresh :
  so_far s g J N U (ptrs ++ K) l -> pair_step ptrs dets f -> Zlen ptrs + Zlen dets < 65536 ->
  (forall q t, deref s q = Some t -> len_ok t) ->
  exists a g' R left_over rest, associate mem f ptrs dets thresh g = Some (Done (a, g'))
    /\ pick ptrs (unmatched_a a) = Some left_over /\ pick dets (unmatched_b a) = Some rest
    /\ R ++ left_over ≡ₚ ptrs /\ (length R + length rest = length dets)%nat
    /\ so_far s g' (J ++ R) N U (left_over ++ K) l.
Proof using Hmem.
  intros H Hf Hs Hlen. pose proof (so_far_NoDup _ _ _ _ _ _ _ H) as Hn. apply NoDup_app in Hn as (Hn & _).
  destruct (association mem Hmem ptrs dets f thresh g Hf Hn Hs) as
    (a & g' & R & left_over & rest & E1 & E2 & E3 & Hp & Hj & Hl).
  { intros p Hp. destruct (sf_K _ _ _ _ _ _ _ H p) as (t & t' & Et & Et' & [K1 K2 K3 K4]);
      [apply elem_of_app; by left|]. exists t'. split; [done|]. specialize (Hlen p t Et).
    unfold len_ok in *. lia. }
  exists a, g', R, left_over, rest. do 5 (split; [done|]). eapply so_far_joining; [|exact Hj].
  eapply so_far_perm; [|exact H]. by rewrite <-Hp, <-app_assoc.
Qed.
End picture.

Section whole_picture.
Context (E : eigen) (mem : Z -> allocator double) (garbage : vector * matrix).

(** What has become of the tracks of [s] when the lists are made again: besides [so_far] for all
    of them, the tracks that have begun and what is known of the tracks left alone. *)
Record picture_done (s s' : BYTETracker) (act ref lost : list STrack) (J N U K : list strack_ptr)
    (boxes : nat) : Prop := {
  pd_all : J ++ N ++ U ++ K ≡ₚ tracked_all s ++ lost_all s;
  pd_fields : frame_id s' = frame_id s /\ max_time_lost s' = max_time_lost s
    /\ removed_stracks s' = removed_stracks s /\ _count s <= _count s' <= _count s + Z.of_nat boxes;
  pd_lengths : length (tracked_stracks s') = length (tracked_stracks s)
    /\ length (lost_stracks s') = length (lost_stracks s);
  pd_J : moved (joined (frame_id s)) J s s';
  pd_N : moved (put Lost) N s s';
  pd_U : moved (put Removed) U s s';
  pd_K : moved kept K s s';
  pd_tracked : forall q, q ∈ N ++ U -> exists i, q = P_tracked i;
  pd_lost : forall q, q ∈ K -> exists i, q = P_lost i;
  pd_copies : forall t, t ∈ act ++ ref ->
    (exists q, q ∈ J /\ deref s' q = Some t) \/ begun (frame_id s) (_count s) (_count s') t;
  pd_copied : forall q, q ∈ J -> exists t, t ∈ act ++ ref /\ deref s' q = Some t;
  pd_lost_copies : forall t, t ∈ lost -> exists q, q ∈ N /\ deref s' q = Some t;
  pd_number : (length (act ++ ref) <= boxes)%nat
}.

(** Before a picture: numbers are distinct, only the first list has tracked tracks. *)
Record before_picture (s : BYTETracker) (boxes : nat) : Prop := {
  bp_ids : NoDup (ids (tracked_stracks s ++ lost_stracks s));
  bp_len : forall q t, deref s q = Some t -> len_ok t;
  bp_tracked : forall i t, deref s (P_tracked i) = Some t -> state t = Tracked;
  bp_lost : forall i t, deref s (P_lost i) = Some t -> state t <> Tracked;
  bp_count : 0 <= _count s /\ _count s + Z.of_nat boxes < 2 ^ 31;
  bp_size : Z.of_nat (length (tracked_all s ++ lost_all s)) + Z.of_nat boxes < 65536
}.

Lemma detections_number objects :
  (length (detections garbage objects).1 + length (detections garbage objects).2)%nat = length objects.
Proof.
  unfold detections. cbn. rewrite <-length_app, filter_app_complement. by rewrite length_fmap.
Qed.

(** Tracks left over by the first association. *)
Lemma first_left_over s g J N U N1 K l boxes : before_picture s boxes -> so_far s g J N U (N1 ++ K) l ->
  exists states, mapM (deref (pr_tracker g)) N1 = Some states
    /\ let r := (filter (λ pt, state pt.2 = Tracked) (zip N1 states)).*1 in
       exists K1, N1 ++ K ≡ₚ r ++ K1 ++ K
         /\ (forall q, q ∈ r -> exists i, q = P_tracked i) /\ (forall q, q ∈ K1 -> exists i, q = P_lost i).
Proof.
  intros Hb H.
  assert (Hk : forall q, q ∈ N1 -> exists t t', deref s q = Some t /\ deref (pr_tracker g) q = Some t' /\ kept t t').
  { intros q Hq. apply (sf_K _ _ _ _ _ _ _ H), elem_of_app. by left. }
  destruct (still_tracked N1 (pr_tracker g)) as (states & Em & K1 & Hp & Hr & HK1).
  { intros q Hq. destruct (Hk q Hq) as (t & t' & _ & Et & _). eauto. }
  exists states. split; [done|]. intros r. cbv zeta in Hp, Hr. fold r in Hp, Hr. clearbody r. exists K1. split; [by rewrite <-Hp, <-app_assoc|].
  split; intros q Hq.
  - destruct (Hr q Hq) as (t & Et & Hst). assert (Hq1 : q ∈ N1) by (rewrite <-Hp; apply elem_of_app; by left).
    destruct (Hk q Hq1) as (t0 & t1 & E0 & E1 & [_ Ks _ _]). rewrite Et in E1. injection E1 as <-.
    destruct q as [i|i]; [by exists i|]. exfalso. apply (bp_lost _ _ Hb i t0 E0). congruence.
  - destruct (HK1 q Hq) as (t & Et & Hst). assert (Hq1 : q ∈ N1) by (rewrite <-Hp; apply elem_of_app; by right).
    destruct (Hk q Hq1) as (t0 & t1 & E0 & E1 & [_ Ks _ _]). rewrite Et in E1. injection E1 as <-.
    destruct q as [i|i]; [|by exists i]. exfalso. apply Hst. rewrite Ks. by apply (bp_tracked _ _ Hb i).
Qed.

(** A tracked track that is as it was is not lost. *)
Lemma tracked_not_lost s g J N U K l boxes q i : before_picture s boxes -> so_far s g J N U K l -> q ∈ K ->
  q = P_tracked i -> exists t, deref (pr_tracker g) q = Some t /\ state t <> Lost.
Proof.
  intros Hb H Hq ->. destruct (sf_K _ _ _ _ _ _ _ H _ Hq) as (t & t' & Et & Et' & [_ Ks _ _]).
  exists t'. split; [done|]. rewrite Ks, (bp_tracked _ _ Hb i t Et). done.
Qed.

Lemma so_far_is_Some s g J N U K l q : so_far s g J N U K l -> q ∈ K -> is_Some (deref (pr_tracker g) q).
Proof. intros H Hq. destruct (sf_K _ _ _ _ _ _ _ H q Hq) as (t & t' & _ & Et & _). eauto. Qed.

Lemma so_far_done s g J N U K lost c begun_ boxes : before_picture s boxes ->
  so_far s g J N U K lost ->
  (forall q, q ∈ N ++ U -> exists i, q = P_tracked i) -> (forall q, q ∈ K -> exists i, q = P_lost i) ->
  _count s <= c <= _count s + Z.of_nat boxes ->
  (forall t, t ∈ begun_ -> begun (frame_id s) (_count s) c t) ->
  (length J + length begun_ <= boxes)%nat ->
  picture_done s (set_count c (pr_tracker g)) (activated_stracks g ++ begun_) (refind_stracks g) lost
    J N U K boxes.
Proof.
  intros Hb [Ha Hf HJ HN HU HK [Hc1 Hc2] Hn Hl] HNU HKl Hc Hbeg Hnum. unfold fields in Hf. injection Hf as F1 F2 F3 F4 F5 F6.
  assert (Ep : (activated_stracks g ++ begun_) ++ refind_stracks g
               ≡ₚ (activated_stracks g ++ refind_stracks g) ++ begun_) by solve_Permutation.
  assert (Hm : forall rel R, moved rel R s (pr_tracker g) -> moved rel R s (set_count c (pr_tracker g))).
  { intros rel R HR q Hq. setoid_rewrite deref_count. by apply HR. }
  split; try (by apply Hm); try done.
  - by rewrite <-Ha, <-!app_assoc.
  - intros t. rewrite Ep, elem_of_app. setoid_rewrite deref_count. intros [Ht|Ht]; [left; by apply Hc1|right; by apply Hbeg].
  - intros q Hq. setoid_rewrite Ep. setoid_rewrite deref_count. destruct (Hc2 q Hq) as (t & Ht & Et).
    exists t. rewrite elem_of_app. auto.
  - rewrite Ep, length_app. lia.
Qed.

Hypothesis Hmem : forall n, 0 < n < 65536 -> allocates n (mem n).

Lemma unconfirmed_ptrs s :
  (filter (λ pt : strack_ptr * STrack, is_activated pt.2 <> true)
     (imap (λ i t, (P_tracked i, t)) (tracked_stracks s))).*1 = split_ptrs s false.
Proof using.
  unfold split_ptrs. f_equal. apply list_filter_iff. intros [p t]. cbn. destruct (is_activated t); naive_solver.
Qed.

Lemma split_tracked s b q : q ∈ split_ptrs s b -> exists i, q = P_tracked i.
Proof using.
  unfold split_ptrs. intros ([p t] & -> & [_ Hp]%list_elem_of_filter)%list_elem_of_fmap.
  apply elem_of_lookup_imap in Hp as (i & u & [= -> ->] & _). by exists i.
Qed.

Lemma pool_perm s : tracked_all s ++ lost_all s
  ≡ₚ (split_ptrs s true ++ lost_all s) ++ split_ptrs s false.
Proof using. rewrite <-split_all. solve_Permutation. Qed.

Local Ltac run H := rewrite H; cbn [mbind option_bind].

(** A picture up to the new lists: it gets there, and what has become of the tracks is known. *)
Lemma picture objects s : before_picture (set_frame (frame_id s + 1) s) (length objects) ->
  int_of (frame_id s + 1) = Some (frame_id s + 1) ->
  exists s' act ref lost removed J N U K,
    update E mem garbage objects s
    = (r ← update_state {| pr_tracker := s'; activated_stracks := act; refind_stracks := ref |} lost removed;
       Some (Done r))
    /\ picture_done (set_frame (frame_id s + 1) s) s' act ref lost J N U K (length objects).
Proof using Hmem.
  intros Hb Ei. unfold update. rewrite Ei. cbn [mbind option_bind].
  set (s0 := set_frame (frame_id s + 1) s) in *. clearbody s0. clear s Ei.
  pose proof (detections_number objects) as Hnum. destruct (detections garbage objects) as [dets low]. cbn in Hnum.
  rewrite unconfirmed_ptrs. fold (split_ptrs s0 true). rewrite joint_stracks_ptr_spec by apply Hb.
  cbn [mbind option_bind].
  pose proof (bp_size _ _ Hb) as Hsize. pose proof (NoDup_all s0) as Hnd.
  pose proof (so_far_start s0) as H. eapply so_far_perm in H; [|apply pool_perm].
  rewrite pool_perm in Hsize, Hnd. set (pool := split_ptrs s0 true ++ lost_all s0) in *.
  assert (HU0 : forall q, q ∈ split_ptrs s0 false -> exists i, q = P_tracked i) by apply split_tracked.
  set (U0 := split_ptrs s0 false) in *. clearbody pool U0. rewrite length_app in Hsize.
  destruct (multi_predict_spec E pool s0) as (s1 & -> & Hc1).
  { by apply NoDup_app in Hnd as (? & _). }
  { intros p Hp. eapply (so_far_is_Some s0 {| pr_tracker := s0 |}); [exact H|]. apply elem_of_app. by left. }
  cbn [mbind option_bind].
  apply (so_far_kept _ {| pr_tracker := s0 |} _ _ _ _ _ _ _ H) in Hc1;
    [|intros q Hq; apply elem_of_app; by left].
  unfold at_tracker in Hc1. cbn [activated_stracks refind_stracks] in Hc1. clear H Hnd.
  destruct (so_far_associate mem Hmem _ _ _ _ _ _ _ _ dets (join_pair E pool dets) match_thresh Hc1)
    as (a1 & g1 & J1 & N1 & rest1 & Ea & Ep & Ed & Hp1 & Hl1 & H1);
    [apply join_pair_step|unfold Zlen; lia|apply Hb|]. clear Hc1.
  run Ea. run Ed. run Ep. clear Ea Ep Ed. cbn [app] in H1.
  destruct (first_left_over _ _ _ _ _ _ _ _ _ Hb H1) as (states & Ea & K1 & HpK & Hr & HK1).
  run Ea. clear Ea. revert HpK Hr. generalize (filter (λ pt : strack_ptr * STrack, state pt.2 = Tracked) (zip N1 states)).*1.
  intros r HpK Hr. eapply so_far_perm in H1; [|exact HpK].
  destruct (so_far_associate mem Hmem _ _ _ _ _ _ _ _ low (join_pair E r low) (d_lit 5 10) H1)
    as (a2 & g2 & J2 & N2 & rest2 & Ea & Ep & _ & Hp2 & Hl2 & H2); [apply join_pair_step| |apply Hb|].
  { apply Permutation_length in Hp1, HpK. rewrite !length_app in *. unfold Zlen. lia. }
  run Ea. run Ep. clear Ea Ep.
  assert (HN2 : forall q, q ∈ N2 -> exists i, q = P_tracked i).
  { intros q Hq. apply Hr. rewrite <-Hp2. apply elem_of_app. by right. }
  destruct (lose_spec N2 (pr_tracker g2)) as (s4 & lost & El & Hm).
  { pose proof (so_far_NoDup _ _ _ _ _ _ _ H2) as Hn. by apply NoDup_app in Hn as (? & _). }
  { intros q Hq. destruct (HN2 q Hq) as [i Ei]. eapply tracked_not_lost; [exact Hb|exact H2| |exact Ei].
    apply elem_of_app. by left. }
  run El. apply (so_far_lost _ _ _ _ _ _ _ _ _ _ H2) in Hm. cbn [app] in Hm.
  eapply so_far_perm in Hm; [|apply Permutation_app_comm].
  destruct (so_far_associate mem Hmem _ _ _ _ _ _ _ _ rest1 (confirm_pair E U0 rest1) (d_round32 (d_lit 7 10)) Hm)
    as (a3 & g3 & J3 & N3 & rest3 & Ea & Ep & Ed & Hp3 & Hl3 & H3);
    [apply confirm_pair_step|unfold Zlen; lia|apply Hb|].
  unfold at_tracker in Ea. run Ea. run Ep.
  destruct (drop_unconfirmed_spec N3 (pr_tracker g3)) as (s6 & removed & Eu & Hu).
  { pose proof (so_far_NoDup _ _ _ _ _ _ _ H3) as Hn. by apply NoDup_app in Hn as (? & _). }
  { intros q Hq. eapply so_far_is_Some; [exact H3|]. apply elem_of_app. by left. }
  run Eu. run Ed. apply (so_far_dropped _ _ _ _ _ _ _ _ _ _ H3) in Hu. cbn [app] in Hu.
  pose proof (sf_fields _ _ _ _ _ _ _ Hu) as F. unfold fields in F. cbn in F. injection F as F1 _ _ F4 _ _.
  pose proof (bp_count _ _ Hb) as [Hc0 Hc1].
  destruct (begin_tracks_spec rest3 s6) as (c & begun_ & Eg & Hc & Hlb & Hbeg);
    [lia|unfold Zlen; lia|]. run Eg. unfold Zlen in Hc. rewrite F1, F4 in *.
  do 9 eexists. split; [reflexivity|].
  eapply (so_far_done s0 (at_tracker s6 g3)); [exact Hb|exact Hu| |exact HK1|lia|exact Hbeg|].
  - intros q [Hq|Hq]%elem_of_app; [by apply HN2|]. apply HU0. rewrite <-Hp3. apply elem_of_app. by right.
  - rewrite !length_app. lia.
Qed.
End whole_picture.
