(* ===== verification/TrackerFilm.v ===== *)
(** * The tracker over the pictures of a film ([BYTETracker.cpp])

    The new lists at the end of a picture, the contract of [update], the invariant of the
    tracker, and that tracks without boxes end. *)

From stdpp Require Import list_numbers.
From S2P Require Import Prelude Arrays CFloat Lapjv LapjvPath Association Kalman Tracker TrackerSteps.
Local Open Scope list_scope.
Local Open Scope Z_scope.

(** ** The new lists *)

Lemma joint_new_covers seen l t : t ∈ l -> track_id t ∈ seen \/ track_id t ∈ ids (joint_new seen l).
Proof.
  revert seen. induction l as [|u l IH]; intros seen; [set_solver|]. cbn [joint_new].
  intros [->|Ht]%elem_of_cons; case_decide as Hd; [by left|right; cbn; left| |].
  - by apply IH.
  - destruct (IH ({[track_id u]} ∪ seen) Ht) as [Hs|]; [|right; cbn; by right].
    apply elem_of_union in Hs as [Hs%elem_of_singleton|]; [right; cbn; rewrite Hs; left|by left].
Qed.

Lemma joint_stracks_covers a b t : t ∈ a \/ t ∈ b -> track_id t ∈ ids (joint_stracks a b).
Proof.
  unfold joint_stracks. rewrite fmap_app, elem_of_app. intros [Ht|Ht]; [left; by apply list_elem_of_fmap_2|].
  destruct (joint_new_covers (list_to_set (ids a)) b t Ht) as [Hs|]; [left|by right].
  by apply elem_of_list_to_set in Hs.
Qed.

Lemma ids_NoDup l : NoDup (ids l) -> NoDup l.
Proof. apply NoDup_fmap_1. Qed.

Section new_lists.
Context (s s' : BYTETracker) (act ref lost : list STrack) (J N U K : list strack_ptr) (boxes : nat).
Hypothesis Hok : tracker_ok s.
Notation s0 := (set_frame (frame_id s + 1) s).
Hypothesis H : picture_done s0 s' act ref lost J N U K boxes.

Lemma done_is_Some q : is_Some (deref s' q) -> is_Some (deref s0 q).
Proof using H.
  destruct (pd_lengths _ _ _ _ _ _ _ _ _ _ H) as [H1 H2].
  destruct q; cbn; rewrite !lookup_lt_is_Some; cbn in H1, H2; lia.
Qed.

(** Every track is one of those of [s]. *)
Lemma done_from q t : deref s' q = Some t -> exists t0, deref s q = Some t0 /\ track_id t = track_id t0
  /\ (q ∈ J /\ joined (frame_id s + 1) t0 t \/ q ∈ N /\ put Lost t0 t \/ q ∈ U /\ put Removed t0 t
      \/ q ∈ K /\ kept t0 t).
Proof using H.
  intros Et. assert (Hall : q ∈ J ++ N ++ U ++ K).
  { rewrite (pd_all _ _ _ _ _ _ _ _ _ _ H). apply elem_all, done_is_Some. eauto. }
  assert (Hm : forall rel R, moved rel R s0 s' -> q ∈ R -> exists t0, deref s q = Some t0 /\ rel t0 t).
  { intros rel R Hm Hq. destruct (Hm q Hq) as (t0 & t1 & E0 & E1 & Hr). rewrite Et in E1. injection E1 as <-.
    exists t0. split; [by destruct q|done]. }
  rewrite !elem_of_app in Hall. destruct Hall as [Hq|[Hq|[Hq|Hq]]].
  - destruct (Hm _ _ (pd_J _ _ _ _ _ _ _ _ _ _ H) Hq) as (t0 & E0 & Hr). exists t0. pose proof (jo_id _ _ _ Hr). auto 10.
  - destruct (Hm _ _ (pd_N _ _ _ _ _ _ _ _ _ _ H) Hq) as (t0 & E0 & Hr). exists t0. pose proof (proj1 Hr). auto 10.
  - destruct (Hm _ _ (pd_U _ _ _ _ _ _ _ _ _ _ H) Hq) as (t0 & E0 & Hr). exists t0. pose proof (proj1 Hr). auto 10.
  - destruct (Hm _ _ (pd_K _ _ _ _ _ _ _ _ _ _ H) Hq) as (t0 & E0 & Hr). exists t0. pose proof (kp_id _ _ Hr). auto 10.
Qed.

Lemma done_ok q t : deref s q = Some t -> 0 < track_id t <= _count s /\ 0 <= tracklet_len t <= frame_id s
  /\ st_frame_id t <= frame_id s.
Proof using Hok. intros Et. by apply (ok_tracks _ Hok), (deref_elem _ q). Qed.

(** A track with a box of this picture. *)
Definition current (t : STrack) : Prop :=
  0 < track_id t <= _count s' /\ 0 <= tracklet_len t <= frame_id s' /\ st_frame_id t = frame_id s'
  /\ state t = Tracked.

Lemma copies_current t : t ∈ act ++ ref -> current t.
Proof using Hok H.
  destruct (pd_fields _ _ _ _ _ _ _ _ _ _ H) as (F1 & _ & _ & F4). cbn in F1, F4.
  pose proof (ok_counters _ Hok). intros Ht. unfold current. rewrite F1.
  destruct (pd_copies _ _ _ _ _ _ _ _ _ _ H t Ht) as [(q & Hq & Et)|[B1 B2 B3 B4]]; cbn in *; [|naive_solver lia].
  destruct (pd_J _ _ _ _ _ _ _ _ _ _ H q Hq) as (t0 & t1 & E0 & E1 & [J1 J2 J3 J4 J5]).
  rewrite Et in E1. injection E1 as <-. rewrite deref_frame in E0. pose proof (done_ok q t0 E0).
  cbn in *. rewrite J1. naive_solver lia.
Qed.

Definition now_tracked : list STrack :=
  joint_stracks (joint_stracks (filter (λ t, state t = Tracked) (tracked_stracks s')) act) ref.

Lemma ids_tracked : NoDup (ids (filter (λ t, state t = Tracked) (tracked_stracks s'))).
Proof using Hok H.
  eapply sublist_NoDup; [|apply fmap_sublist, sublist_filter]. apply NoDup_alt. intros i j x Hi Hj.
  rewrite list_lookup_fmap, fmap_Some in Hi, Hj. destruct Hi as (t & Et & ->), Hj as (u & Eu & E).
  destruct (done_from (P_tracked i) t Et) as (t0 & Et0 & It & _).
  destruct (done_from (P_tracked j) u Eu) as (u0 & Eu0 & Iu & _).
  assert (Epq : P_tracked i = P_tracked j); [|by injection Epq].
  eapply deref_id_inj; [apply Hok|exact Et0|exact Eu0|congruence].
Qed.

(** A track that is still tracked has a copy. *)
Lemma still_copied t : t ∈ tracked_stracks s' -> state t = Tracked -> t ∈ act ++ ref.
Proof using Hok H.
  intros [i Et]%list_elem_of_lookup Hst.
  destruct (done_from (P_tracked i) t Et) as (t0 & Et0 & _ & [[Hq _]|[[_ Hp]|[[_ Hp]|[Hq _]]]]).
  - destruct (pd_copied _ _ _ _ _ _ _ _ _ _ H _ Hq) as (u & Hu & Eu).
    change (deref s' (P_tracked i) = Some t) in Et. rewrite Et in Eu. by injection Eu as ->.
  - destruct Hp as (_ & Hp & _). congruence.
  - destruct Hp as (_ & Hp & _). congruence.
  - by destruct (pd_lost _ _ _ _ _ _ _ _ _ _ H _ Hq).
Qed.

Lemma now_tracked_spec : NoDup (ids now_tracked) /\ (forall t, t ∈ now_tracked -> t ∈ act ++ ref)
  /\ (forall t, t ∈ act ++ ref -> track_id t ∈ ids now_tracked) /\ (length now_tracked <= boxes)%nat.
Proof using Hok H.
  destruct (joint_stracks_spec _ act ids_tracked) as [N1 E1]. destruct (joint_stracks_spec _ ref N1) as [N2 E2].
  assert (Hin : forall t, t ∈ now_tracked -> t ∈ act ++ ref).
  { intros t [[[Hst Ht]%list_elem_of_filter|Ht]%E1|Ht]%E2; [by apply still_copied| |]; apply elem_of_app; auto. }
  split; [done|]. split; [done|]. split.
  - intros t [Ht|Ht]%elem_of_app; [|by apply joint_stracks_covers; right].
    pose proof (joint_stracks_covers (filter (λ t, state t = Tracked) (tracked_stracks s')) act t (or_intror Ht)) as Hc.
    apply list_elem_of_fmap in Hc as (u & -> & Hu). apply joint_stracks_covers. by left.
  - etrans; [|apply (pd_number _ _ _ _ _ _ _ _ _ _ H)].
    apply submseteq_length, NoDup_submseteq; [by apply ids_NoDup|done].
Qed.

(** *** The lost tracks *)

Definition now_lost : list STrack :=
  sub_stracks (sub_stracks (expire s').1 now_tracked ++ lost) (removed_stracks s').

Lemma lost_copy_from t : t ∈ lost -> exists q t0, q ∈ N /\ deref s q = Some t0 /\ deref s' q = Some t
  /\ put Lost t0 t /\ t0 ∈ tracked_stracks s.
Proof using H.
  intros Ht. destruct (pd_lost_copies _ _ _ _ _ _ _ _ _ _ H t Ht) as (q & Hq & Et).
  destruct (pd_N _ _ _ _ _ _ _ _ _ _ H q Hq) as (t0 & t1 & E0 & E1 & Hp). rewrite Et in E1. injection E1 as <-.
  rewrite deref_frame in E0. exists q, t0. do 4 (split; [done|]).
  destruct (pd_tracked _ _ _ _ _ _ _ _ _ _ H q) as [i ->]; [apply elem_of_app; by left|].
  by eapply list_elem_of_lookup_2.
Qed.

(** A lost track that found no box. *)
Lemma still_lost u : u ∈ lost_stracks s' -> track_id u ∉ ids now_tracked -> exists q u0, deref s q = Some u0
  /\ q ∈ K /\ u0 ∈ lost_stracks s /\ deref s' q = Some u /\ kept u0 u.
Proof using Hok H.
  intros [i Eu]%list_elem_of_lookup Hn.
  destruct (done_from (P_lost i) u Eu) as (u0 & Eu0 & _ & [[Hq _]|[[Hq _]|[[Hq _]|[Hq Hk]]]]).
  - destruct (pd_copied _ _ _ _ _ _ _ _ _ _ H _ Hq) as (v & Hv & Ev).
    change (deref s' (P_lost i) = Some u) in Eu. rewrite Eu in Ev. injection Ev as ->.
    by apply now_tracked_spec in Hv.
  - destruct (pd_tracked _ _ _ _ _ _ _ _ _ _ H (P_lost i)); [apply elem_of_app; by left|done].
  - destruct (pd_tracked _ _ _ _ _ _ _ _ _ _ H (P_lost i)); [apply elem_of_app; by right|done].
  - exists (P_lost i), u0. do 2 (split; [done|]). split; [by eapply list_elem_of_lookup_2|done].
Qed.

(** What is lost now is one of the tracks before. *)
Definition from_before (t : STrack) : Prop := exists q t0, q ∈ N ++ K /\ deref s q = Some t0
  /\ track_id t = track_id t0 /\ st_frame_id t = st_frame_id t0 /\ tracklet_len t = tracklet_len t0.

Definition lost_now (t : STrack) : Prop :=
  (state t = Lost /\ frame_id s' - st_frame_id t <= lost_time s)
  \/ (state t = Removed /\ track_id t ∈ ids (expire s').2 /\ frame_id s' - st_frame_id t <= lost_time s + 1).

Lemma lost_copy_spec t : t ∈ lost -> from_before t /\ lost_now t.
Proof using Hok H.
  destruct (pd_fields _ _ _ _ _ _ _ _ _ _ H) as (F1 & _). cbn in F1.
  intros (q & t0 & Hq & E0 & E1 & (P1 & P2 & P3 & P4) & Hin)%lost_copy_from. split.
  - exists q, t0. rewrite elem_of_app. auto.
  - left. split; [done|]. destruct (ok_tracked _ Hok t0 Hin) as [_ Hf]. rewrite F1, P3, Hf. unfold lost_time. lia.
Qed.

Lemma still_lost_spec t : t ∈ (expire s').1 -> track_id t ∉ ids now_tracked ->
  track_id t ∉ ids (removed_stracks s') -> from_before t /\ lost_now t.
Proof using Hok H.
  destruct (pd_fields _ _ _ _ _ _ _ _ _ _ H) as (F1 & F2 & F3 & _). cbn in F1, F2, F3.
  unfold expire. cbn [fst snd]. intros (u & -> & Hu)%list_elem_of_fmap Hn Hr.
  assert (Ht : forall st, track_id (set_state st u) = track_id u) by done.
  destruct (still_lost u Hu) as (q & u0 & E0 & Hq & Hin & E1 & [K1 K2 K3 K4]); [by destruct (expired s' u)|].
  assert (Hl : state u0 = Lost /\ frame_id s - st_frame_id u0 <= lost_time s).
  { destruct (ok_lost _ Hok u0 Hin) as [|(_ & Hid & _)]; [done|]. exfalso. apply Hr. rewrite F3.
    destruct (expired s' u); cbn; by rewrite K1. }
  destruct Hl as [Hst Hage]. split.
  - exists q, u0. rewrite elem_of_app. destruct (expired s' u); cbn; auto 6.
  - unfold lost_now, lost_time in *. destruct (expired s' u) eqn:Ex; cbn.
    + right. split; [done|]. split; [|rewrite F1, K3; lia]. unfold expire. cbn [snd].
      apply list_elem_of_fmap. exists (mark_removed u). split; [done|]. apply list_elem_of_fmap_2.
      by apply list_elem_of_filter.
    + left. split; [congruence|]. unfold expired, end_frame in Ex. apply Z.ltb_ge in Ex. lia.
Qed.

Lemma now_lost_spec t : t ∈ now_lost -> from_before t /\ lost_now t
  /\ track_id t ∉ ids now_tracked.
Proof using Hok H.
  intros [Ht Hr]%sub_stracks_spec. apply elem_of_app in Ht as [[Ht Hn]%sub_stracks_spec|Ht].
  - destruct (still_lost_spec t Ht Hn Hr). auto.
  - destruct (lost_copy_spec t Ht) as [Hb Hl]. split; [done|]. split; [done|].
    destruct (lost_copy_from t Ht) as (q & t0 & Hq & E0 & E1 & (P1 & _) & _).
    intros (u & Eid & Hu)%list_elem_of_fmap. apply now_tracked_spec in Hu.
    destruct (pd_copies _ _ _ _ _ _ _ _ _ _ H u Hu) as [(p & Hp & Eu)|[[B1 _] _ _ _]].
    + destruct (done_from p u Eu) as (u0 & Eu0 & Iu & _).
      assert (p = q) as -> by (eapply deref_id_inj; [apply Hok|exact Eu0|exact E0|congruence]).
      pose proof (NoDup_all s0) as Hd. rewrite <-(pd_all _ _ _ _ _ _ _ _ _ _ H) in Hd.
      apply NoDup_app in Hd as (_ & Hd & _). apply (Hd q Hp), elem_of_app. by left.
    + pose proof (done_ok q t0 E0). cbn in B1. lia.
Qed.

Lemma from_before_ok t : from_before t -> 0 < track_id t <= _count s' /\ 0 <= tracklet_len t <= frame_id s'
  /\ st_frame_id t <= frame_id s'.
Proof using Hok H.
  destruct (pd_fields _ _ _ _ _ _ _ _ _ _ H) as (F1 & _ & _ & F4). cbn in F1, F4.
  intros (q & t0 & _ & E0 & I1 & I2 & I3). pose proof (done_ok q t0 E0). rewrite F1, I1, I2, I3. lia.
Qed.

(** The tracker at the end of the picture. *)
Lemma new_state_ok resa resb removed : resa `sublist_of` now_tracked -> resb `sublist_of` now_lost ->
  tracker_ok (set_lists resa resb (removed_stracks s' ++ removed ++ (expire s').2) s').
Proof using Hok H.
  intros Ha Hb. pose proof now_tracked_spec as (Hn & Hin & _ & _).
  destruct (pd_fields _ _ _ _ _ _ _ _ _ _ H) as (F1 & F2 & F3 & F4). cbn in F1, F2, F3, F4.
  assert (Ha' : forall t, t ∈ resa -> current t).
  { intros t Ht. eapply copies_current, Hin. by eapply elem_of_submseteq, sublist_submseteq. }
  assert (Hb' : forall t, t ∈ resb -> from_before t /\ lost_now t /\ track_id t ∉ ids now_tracked).
  { intros t Ht. eapply now_lost_spec. by eapply elem_of_submseteq, sublist_submseteq. }
  split; cbn.
  - rewrite fmap_app. apply NoDup_app. split; [|split].
    + eapply sublist_NoDup; [exact Hn|by apply fmap_sublist].
    + intros i Hi (t & -> & Ht)%list_elem_of_fmap. apply (Hb' t Ht).
      eapply elem_of_submseteq; [exact Hi|]. by apply sublist_submseteq, fmap_sublist.
    + eapply sublist_NoDup; [|by apply fmap_sublist]. apply sub_stracks_spec.
  - intros t [Ht|Ht]%elem_of_app; [destruct (Ha' t Ht) as (?&?&?&?); naive_solver lia|].
    by apply from_before_ok, Hb'.
  - intros t Ht. destruct (Ha' t Ht) as (?&?&?&?). done.
  - intros t Ht. destruct (Hb' t Ht) as (_ & [[Hs Hl]|(Hs & Hi & Hl)] & _); [left|right].
    + split; [done|]. unfold lost_time in *. cbn in *. lia.
    + split; [done|]. split; [cbn; rewrite !fmap_app, !elem_of_app; auto|].
      unfold lost_time in *. cbn in *. lia.
  - pose proof (ok_counters _ Hok). lia.
Qed.
End new_lists.

(** ** A whole picture *)

(** What a picture with [boxes] boxes promises. *)
Record picture_spec (boxes : nat) (s s' : BYTETracker) (out : list STrack) : Prop := {
  ps_ok : tracker_ok s';
  ps_frame : frame_id s' = frame_id s + 1;
  ps_max : max_time_lost s' = max_time_lost s;
  ps_count : _count s <= _count s' <= _count s + Z.of_nat boxes;
  ps_out : out = filter (λ t, is_activated t = true) (tracked_stracks s');
  ps_number : (length (tracked_stracks s') <= boxes)%nat;
  ps_lost : forall t, t ∈ lost_stracks s' -> exists t0, t0 ∈ tracked_stracks s ++ lost_stracks s
    /\ track_id t = track_id t0 /\ st_frame_id t = st_frame_id t0
}.

(** Room for a picture with [boxes] boxes. *)
Record room (boxes : nat) (s : BYTETracker) : Prop := {
  rm_frame : frame_id s + 1 < 2 ^ 31;
  rm_count : _count s + Z.of_nat boxes < 2 ^ 31;
  rm_size : Z.of_nat (length (tracked_stracks s ++ lost_stracks s)) + Z.of_nat boxes < 65536
}.

Lemma tracker_before_picture s boxes : tracker_ok s -> room boxes s ->
  before_picture (set_frame (frame_id s + 1) s) boxes.
Proof.
  intros Hok [H1 H2 H3]. pose proof (ok_counters _ Hok). split; cbn.
  - apply Hok.
  - intros q t Et. rewrite deref_frame in Et. pose proof (ok_tracks _ Hok t (deref_elem _ _ _ Et)).
    unfold len_ok. lia.
  - intros i t Et. apply (ok_tracked _ Hok). by eapply list_elem_of_lookup_2.
  - intros i t Et. apply list_elem_of_lookup_2 in Et. destruct (ok_lost _ Hok t Et) as [[-> _]|[-> _]]; done.
  - lia.
  - unfold tracked_all, lost_all. rewrite length_app, !length_imap. cbn. rewrite length_app in H3. lia.
Qed.

(** The pictures of a film, one after the other. *)
Section film.
Context (E : eigen) (mem : Z -> allocator double) (garbage : vector * matrix).

Fixpoint updates (film : list (list Object)) (s : BYTETracker)
  : option (outcome (BYTETracker * list (list STrack))) :=
  match film with
  | [] => Some (Done (s, []))
  | objects :: film =>
      r ← update E mem garbage objects s;
      match r with
      | Exit => Some Exit
      | Done (s, out) =>
          r ← updates film s;
          match r with Exit => Some Exit | Done (s, outs) => Some (Done (s, out :: outs)) end
      end
  end.
End film.

Section pictures.
Context (E : eigen) (mem : Z -> allocator double) (garbage : vector * matrix).
Hypothesis Hmem : forall n, 0 < n < 65536 -> allocates n (mem n).

Lemma update_spec objects s : tracker_ok s -> room (length objects) s ->
  exists s' out, update E mem garbage objects s = Some (Done (s', out))
    /\ picture_spec (length objects) s s' out.
Proof using Hmem.
  intros Hok Hroom. pose proof (ok_counters _ Hok) as [Hf _]. pose proof (rm_frame _ _ Hroom).
  destruct (picture E mem garbage Hmem objects s) as (s' & act & ref & lost & removed & J & N & U & K & -> & Hd).
  { by apply tracker_before_picture. }
  { apply int_of_ok. lia. }
  unfold update_state. cbn [pr_tracker activated_stracks refind_stracks].
  rewrite (surjective_pairing (expire s')). cbn [mbind option_bind].
  fold (now_tracked s' act ref). fold (now_lost s' act ref lost).
  destruct (remove_duplicate_spec (now_tracked s' act ref) (now_lost s' act ref lost))
    as (resa & resb & -> & Ha & Hb). cbn [mbind option_bind].
  do 2 eexists. split; [reflexivity|]. destruct (pd_fields _ _ _ _ _ _ _ _ _ _ Hd) as (F1 & F2 & F3 & F4). cbn in F1, F2, F4.
  split; cbn; try done.
  - by eapply new_state_ok.
  - etrans; [by apply submseteq_length, sublist_submseteq|]. by eapply now_tracked_spec.
  - intros t Ht. assert (Ht' : t ∈ now_lost s' act ref lost) by (by eapply elem_of_submseteq, sublist_submseteq).
    eapply now_lost_spec in Ht' as [(q & t0 & _ & E0 & I1 & I2 & _) _]; [|done|done].
    exists t0. split; [by eapply deref_elem|done].
Qed.

(** After a picture without boxes no track is new, and there are not more tracks. *)
Lemma no_boxes s s' out : tracker_ok s -> picture_spec 0 s s' out ->
  tracked_stracks s' = [] /\ out = []
  /\ (length (lost_stracks s') <= length (tracked_stracks s ++ lost_stracks s))%nat.
Proof using.
  intros Hok [Ho Hf Hm Hc -> Hn Hl]. assert (Et : tracked_stracks s' = []) by (destruct (tracked_stracks s'); [done|cbn in Hn; lia]).
  split; [done|]. split; [by rewrite Et|].
  pose proof (ok_ids _ Ho) as Hid. rewrite Et in Hid. cbn [app] in Hid.
  rewrite <-(length_fmap track_id), <-(length_fmap track_id (tracked_stracks s ++ _)).
  apply submseteq_length, NoDup_submseteq; [done|]. intros i (t & -> & Ht)%list_elem_of_fmap.
  destruct (Hl t Ht) as (t0 & Hin & -> & _). by apply list_elem_of_fmap_2.
Qed.

(** [n] pictures without boxes: every track is from before, [f] at the latest. *)
Lemma no_boxes_film n f s : tracker_ok s -> frame_id s + Z.of_nat n < 2 ^ 31 -> _count s < 2 ^ 31 ->
  Z.of_nat (length (tracked_stracks s ++ lost_stracks s)) < 65536 ->
  (forall t, t ∈ tracked_stracks s ++ lost_stracks s -> st_frame_id t <= f) ->
  exists s' outs, updates E mem garbage (replicate n []) s = Some (Done (s', outs))
    /\ tracker_ok s' /\ frame_id s' = frame_id s + Z.of_nat n /\ max_time_lost s' = max_time_lost s
    /\ outs = replicate n [] /\ ((0 < n)%nat \/ tracked_stracks s = [] -> tracked_stracks s' = [])
    /\ (forall t, t ∈ tracked_stracks s' ++ lost_stracks s' -> st_frame_id t <= f).
Proof using Hmem.
  revert s. induction n as [|n IH]; intros s Hok Hf Hc Hs Ho; cbn [replicate updates].
  { exists s, []. do 2 (split; [done|]). split; [cbn; lia|]. do 2 (split; [done|]). split; [|done]. intros [|]; [lia|done]. }
  destruct (update_spec [] s Hok) as (s1 & out & -> & Hp); [by split; cbn; lia|]. cbn [mbind option_bind length] in *.
  destruct (no_boxes s s1 out Hok Hp) as (Et & -> & Hlen). destruct Hp as [Ho1 Hf1 Hm1 Hc1 _ _ Hl1].
  destruct (IH s1 Ho1) as (s' & outs & -> & Ho' & Hf' & Hm' & -> & Ht' & Ha'); [lia|lia| | |].
  { rewrite Et. cbn. lia. }
  { rewrite Et. intros t Ht. destruct (Hl1 t Ht) as (t0 & Hin & _ & ->). by apply Ho. }
  cbn [mbind option_bind]. do 2 eexists. split; [reflexivity|]. split; [done|]. split; [lia|]. split; [congruence|].
  split; [done|]. split; [|done]. intros _. apply Ht'. by right.
Qed.
(** Nothing is tracked after the first of them, nothing is lost after enough. *)
Lemma tracks_gone n s : tracker_ok s -> frame_id s + Z.of_nat n < 2 ^ 31 -> _count s < 2 ^ 31 ->
  Z.of_nat (length (tracked_stracks s ++ lost_stracks s)) < 65536 ->
  exists s', updates E mem garbage (replicate n []) s = Some (Done (s', replicate n []))
    /\ tracker_ok s'
    /\ ((0 < n)%nat -> tracked_stracks s' = [])
    /\ (lost_time s + 2 <= Z.of_nat n -> lost_stracks s' = []).
Proof using Hmem.
  intros Hok Hf Hc Hs.
  destruct (no_boxes_film n (frame_id s) s Hok Hf Hc Hs) as (s' & outs & -> & Ho & Hf' & Hm & -> & Ht & Ha).
  { intros t Hin. by apply (ok_tracks _ Hok). }
  exists s'. do 2 (split; [done|]). split; [auto|]. intros Hn.
  destruct (lost_stracks s') as [|t l] eqn:El; [done|]. exfalso.
  assert (Hin : t ∈ lost_stracks s') by (rewrite El; left).
  specialize (Ha t). rewrite elem_of_app in Ha. specialize (Ha (or_intror (list_elem_of_here t l))).
  unfold lost_time in *. destruct (ok_lost _ Ho t Hin) as [(_ & Hage)|(_ & _ & Hage)];
    unfold lost_time in Hage; rewrite Hm, Hf' in Hage; lia.
Qed.
End pictures.

(** ** Properties *)

Section properties.
Context (E : eigen) (mem : Z -> allocator double) (garbage : vector * matrix).
Hypothesis Hmem : forall n, 0 < n < 65536 -> allocates n (mem n).

(** C9: the state of a tracker is sound, and stays so with every picture whatever the boxes
    are: numbers are never shared between tracks of the two lists, a tracked track has a box
    of the last picture, a lost one is not older than the time it may be lost and one picture.
    A picture always ends, without undefined steps, leaving the loops of the assignment or
    [exit]; it gives back confirmed tracks of this picture with distinct numbers, not more than
    it had boxes. *)
Theorem tracker_invariant :
  (forall frame_rate track_buffer s, BYTETracker_new frame_rate track_buffer = Some s -> tracker_ok s)
  /\ forall objects s, tracker_ok s -> room (length objects) s ->
     exists s' out, update E mem garbage objects s = Some (Done (s', out))
       /\ tracker_ok s' /\ frame_id s' = frame_id s + 1
       /\ NoDup (ids out) /\ (length out <= length objects)%nat
       /\ forall t, t ∈ out -> is_activated t = true /\ state t = Tracked /\ st_frame_id t = frame_id s'.
Proof using Hmem.
  split.
  - intros fr tb s. unfold BYTETracker_new. destruct (d_to_i32 _); [|done]. intros [= <-].
    split; cbn; [constructor|set_solver|set_solver|set_solver|lia].
  - intros objects s Hok Hroom. destruct (update_spec E mem garbage Hmem objects s Hok Hroom) as (s' & out & -> & Hp).
    exists s', out. destruct Hp as [Ho Hf _ _ -> Hn _]. do 3 (split; [done|]). split; [|split].
    + pose proof (ok_ids _ Ho) as Hid. rewrite fmap_app in Hid. apply NoDup_app in Hid as (Hid & _).
      eapply sublist_NoDup; [exact Hid|apply fmap_sublist, sublist_filter].
    + etrans; [apply submseteq_length, sublist_submseteq, sublist_filter|done].
    + intros t [Ha Ht]%list_elem_of_filter. destruct (ok_tracked _ Ho t Ht). done.
Qed.

(** C26: a track that gets no boxes ends.  After the first picture without boxes nothing is
    tracked; after as many as a track may be lost and two more nothing is lost any longer, and
    no picture of them gives a track. *)
Theorem tracks_end n s : tracker_ok s -> frame_id s + Z.of_nat n < 2 ^ 31 -> _count s < 2 ^ 31 ->
  Z.of_nat (length (tracked_stracks s ++ lost_stracks s)) < 65536 ->
  exists s', updates E mem garbage (replicate n []) s = Some (Done (s', replicate n []))
    /\ tracker_ok s'
    /\ ((0 < n)%nat -> tracked_stracks s' = [])
    /\ (lost_time s + 2 <= Z.of_nat n -> lost_stracks s' = []).
Proof using Hmem. by apply (tracks_gone E mem garbage Hmem). Qed.
End properties.

Definition demo_box : Object :=
  {| rect := Vec4 (f_of_Z 10) (f_of_Z 20) (f_of_Z 30) (f_of_Z 40); label := 0; prob := d_lit 9 10 |}.
Definition demo_mem (n : Z) : allocator double := demo_new (f_of_Z 0) (Z.to_nat n).

Lemma demo_mem_allocates n : 0 < n < 65536 -> allocates n (demo_mem n).
Proof. intros Hn. rewrite <-(Z2Nat.id n) at 1 by lia. apply demo_allocates. Qed.

(** A tracker for thirty pictures a second with one box so far. *)
Definition demo_tracker : BYTETracker :=
  match BYTETracker_new 30 30 with
  | Some s => match update demo_eigen demo_mem ([], []) [demo_box] s with
              | Some (Done (s, _)) => s | _ => s end
  | None => {| frame_id := 0; max_time_lost := 0; tracked_stracks := []; lost_stracks := [];
               removed_stracks := []; _count := 0 |}
  end.

Example demo_tracker_tracks :
  (track_id <$> tracked_stracks demo_tracker, frame_id demo_tracker, max_time_lost demo_tracker) = ([1], 1, 30).
Proof. vm_compute. reflexivity. Qed.

Definition demo_start : BYTETracker :=
  {| frame_id := 0; max_time_lost := 30; tracked_stracks := []; lost_stracks := [];
     removed_stracks := []; _count := 0 |}.

Lemma demo_start_ok : tracker_ok demo_start.
Proof. split; cbn; [constructor|set_solver|set_solver|set_solver|lia]. Qed.

Lemma demo_tracker_ok : tracker_ok demo_tracker.
Proof.
  unfold demo_tracker. assert (En : BYTETracker_new 30 30 = Some demo_start) by (vm_compute; reflexivity). rewrite En.
  destruct (update_spec demo_eigen demo_mem ([], []) demo_mem_allocates [demo_box] demo_start demo_start_ok)
    as (s' & out & -> & Hp); [by split; cbn; lia|]. apply Hp.
Qed.

Lemma tracker_invariant_witness :
  (forall n, 0 < n < 65536 -> allocates n (demo_mem n))
  /\ tracker_ok demo_start /\ room 1 demo_start
  /\ exists s' out, update demo_eigen demo_mem ([], []) [demo_box] demo_start = Some (Done (s', out))
       /\ tracker_ok s' /\ frame_id s' = frame_id demo_start + 1
       /\ NoDup (ids out) /\ (length out <= 1)%nat
       /\ forall t, t ∈ out -> is_activated t = true /\ state t = Tracked /\ st_frame_id t = frame_id s'.
Proof.
  split; [exact demo_mem_allocates|]. split; [exact demo_start_ok|]. split; [by split; cbn; lia|].
  apply (proj2 (tracker_invariant demo_eigen demo_mem ([], []) demo_mem_allocates) [demo_box] demo_start
           demo_start_ok). split; cbn; lia.
Defined.

Lemma tracks_end_witness :
  tracker_ok demo_tracker /\ tracked_stracks demo_tracker <> []
  /\ exists s', updates demo_eigen demo_mem ([], []) (replicate 32 []) demo_tracker
                = Some (Done (s', replicate 32 []))
      /\ tracker_ok s' /\ ((0 < 32)%nat -> tracked_stracks s' = [])
      /\ (lost_time demo_tracker + 2 <= Z.of_nat 32 -> lost_stracks s' = []).
Proof.
  split; [exact demo_tracker_ok|]. split; [vm_compute; discriminate|].
  apply (tracks_end demo_eigen demo_mem ([], []) demo_mem_allocates 32 demo_tracker demo_tracker_ok);
    vm_compute; reflexivity.
Defined.

Example demo_lost_time : lost_time demo_tracker + 2 <= Z.of_nat 32.
Proof. vm_compute. discriminate. Qed.
