(* ===== verification/Yolo.v ===== *)
(** * Finding boxes in a picture ([yolov8_infer/yolov8.cpp])

    The picture is scaled to the input of the network and framed with grey, the network runs
    on the graphics processor, and its boxes are mapped back to the picture.  The network
    (TensorRT) and OpenCV are interfaces; a buffer is the list of its bytes. *)

From stdpp Require Import list_numbers.
From S2P Require Import Prelude Arrays CFloat Association Tracker.
Local Open Scope list_scope.
Local Open Scope Z_scope.

(** ** Interfaces *)

(** [resize] takes the width and the height, [copyMakeBorder] what it adds above, below, left
    and right; [blobFromImage] gives the bytes of three planes of [float]s. *)
Class OpenCV (Mat : Type) := {
  rows : Mat -> Z;
  cols : Mat -> Z;
  resize : Mat -> Z -> Z -> Mat;
  copyMakeBorder : Mat -> Z -> Z -> Z -> Z -> Mat;
  blobFromImage : Mat -> list Z
}.

Class OpenCVLaws (Mat : Type) `{!OpenCV Mat} : Prop := {
  resize_size m w h : 0 < w -> 0 < h -> cols (resize m w h) = w /\ rows (resize m w h) = h;
  border_size m t b l r : 0 <= t -> 0 <= b -> 0 <= l -> 0 <= r ->
    cols (copyMakeBorder m t b l r) = cols m + l + r /\ rows (copyMakeBorder m t b l r) = rows m + t + b;
  blob_size m : Zlen (blobFromImage m) = 3 * rows m * cols m * 4
}.

(** [nvinfer1::DataType]; the values of newer versions are [kOTHER]. *)
Inductive DataType := kFLOAT | kHALF | kINT8 | kINT32 | kBOOL | kOTHER.

(** An engine with its context: [getBindingDimensions] and [enqueueV2] depend on the
    dimensions that were set, and [enqueueV2] gives the device's buffers after the network has
    run on them. *)
Record ICudaEngine := {
  getNbBindings : Z;
  getBindingDataType : Z -> DataType;
  getBindingName : Z -> list Z;
  bindingIsInput : Z -> bool;
  getProfileDimensions : Z -> list Z;   (* of the first profile, the greatest *)
  getBindingDimensions : list (Z * list Z) -> Z -> list Z;
  enqueueV2 : list (Z * list Z) -> list (list Z) -> list (list Z)
}.

Class EngineLaws (E : ICudaEngine) : Prop := {
  enqueue_sizes set devs : length <$> enqueueV2 E set devs = length <$> devs
}.

(** ** Data *)

Record Binding := { b_size : Z; b_dsize : Z; b_dims : list Z; b_name : list Z }.

(** [size * dsize] *)
Definition binding_bytes (b : Binding) : Z := u64 (b_size b * b_dsize b).

Record PreParam := {
  ratio : double; pp_dw : double; pp_dh : double; pp_height : double; pp_width : double
}.

(** [set_dims] are the calls of [setBindingDimensions], in order. *)
Record YOLOv8 := {
  num_bindings : Z; num_inputs : Z; num_outputs : Z;
  input_bindings : list Binding; output_bindings : list Binding;
  host_ptrs : list (list Z); device_ptrs : list (list Z);
  pparam : PreParam; set_dims : list (Z * list Z)
}.

Definition set_pparam (p : PreParam) (y : YOLOv8) : YOLOv8 :=
  {| num_bindings := num_bindings y; num_inputs := num_inputs y; num_outputs := num_outputs y;
     input_bindings := input_bindings y; output_bindings := output_bindings y;
     host_ptrs := host_ptrs y; device_ptrs := device_ptrs y; pparam := p; set_dims := set_dims y |}.
Definition set_ptrs (host device : list (list Z)) (y : YOLOv8) : YOLOv8 :=
  {| num_bindings := num_bindings y; num_inputs := num_inputs y; num_outputs := num_outputs y;
     input_bindings := input_bindings y; output_bindings := output_bindings y;
     host_ptrs := host; device_ptrs := device; pparam := pparam y; set_dims := set_dims y |}.
Definition setBindingDimensions (i : Z) (dims : list Z) (y : YOLOv8) : YOLOv8 :=
  {| num_bindings := num_bindings y; num_inputs := num_inputs y; num_outputs := num_outputs y;
     input_bindings := input_bindings y; output_bindings := output_bindings y;
     host_ptrs := host_ptrs y; device_ptrs := device_ptrs y; pparam := pparam y;
     set_dims := set_dims y ++ [(i, dims)] |}.

(** ** Numbers *)

Definition get_size_by_dims (dims : list Z) : option Z :=
  foldl (λ size d, s ← size; int_of (s * d)) (Some 1) dims.

Definition type_to_size (t : DataType) : Z :=
  match t with
  | kFLOAT => 4 | kHALF => 2 | kINT32 => 4 | kINT8 => 1 | kBOOL => 1 | kOTHER => 4
  end.

Definition clamp (val min max : double) : double :=
  if dlt min val then (if dlt val max then val else max) else min.

(** The [float] with these 32 bits, and the numbers at an address. *)
Definition f_of_bits (b : Z) : double :=
  let s := Z.testbit b 31 in
  let e := Z.land (Z.shiftr b 23) 255 in
  let m := Z.land b (2 ^ 23 - 1) in
  if e =? 255 then (if m =? 0 then S754_infinity s else S754_nan) else
  match (if e =? 0 then m else m + 2 ^ 23) with
  | Zpos p => binary_round 53 1024 s p (Z.max e 1 - 150)
  | _ => S754_zero s
  end.
Definition ld_f32 (m : list Z) (p : Z) : option double := f_of_bits <$> ld_le 4 m p.
Definition ld_i32 (m : list Z) (p : Z) : option Z := i32 <$> ld_le 4 m p.

(** ** The object *)

Definition new_YOLOv8 (n : Z) : YOLOv8 :=
  {| num_bindings := n; num_inputs := 0; num_outputs := 0; input_bindings := [];
     output_bindings := []; host_ptrs := []; device_ptrs := [];
     pparam := {| ratio := f_of_Z 1; pp_dw := f_of_Z 0; pp_dh := f_of_Z 0;
                  pp_height := f_of_Z 0; pp_width := f_of_Z 0 |};
     set_dims := [] |}.

(** A turn of the loop over the bindings. *)
Definition add_binding (E : ICudaEngine) (i : Z) (y : YOLOv8) : option YOLOv8 :=
  let dsize := type_to_size (getBindingDataType E i) in
  let name := getBindingName E i in
  if bindingIsInput E i then
    let dims := getProfileDimensions E i in
    size ← get_size_by_dims dims;
    let b := {| b_size := u64 size; b_dsize := dsize; b_dims := dims; b_name := name |} in
    Some (setBindingDimensions i dims
      {| num_bindings := num_bindings y; num_inputs := num_inputs y + 1;
         num_outputs := num_outputs y; input_bindings := input_bindings y ++ [b];
         output_bindings := output_bindings y; host_ptrs := host_ptrs y;
         device_ptrs := device_ptrs y; pparam := pparam y; set_dims := set_dims y |})
  else
    let dims := getBindingDimensions E (set_dims y) i in
    size ← get_size_by_dims dims;
    let b := {| b_size := u64 size; b_dsize := dsize; b_dims := dims; b_name := name |} in
    Some {| num_bindings := num_bindings y; num_inputs := num_inputs y;
            num_outputs := num_outputs y + 1; input_bindings := input_bindings y;
            output_bindings := output_bindings y ++ [b]; host_ptrs := host_ptrs y;
            device_ptrs := device_ptrs y; pparam := pparam y; set_dims := set_dims y |}.

(** The constructor, behind the assertions that the file, the runtime, the engine and the
    context are there. *)
Definition create_YOLOv8 (E : ICudaEngine) : option YOLOv8 :=
  for_each (range 0 (getNbBindings E)) (add_binding E) (new_YOLOv8 (getNbBindings E)).

(** *** Running the network *)

Definition fetch (y : YOLOv8) (devs : list (list Z)) (i : Z) (hosts : list (list Z))
  : option (list (list Z)) :=
  b ← aget (output_bindings y) i;
  h ← aget hosts i;
  d ← aget devs (i + num_inputs y);
  bs ← ld_bytes d 0 (binding_bytes b);
  h ← st_bytes h 0 bs;
  aset hosts i h.

Definition infer (E : ICudaEngine) (y : YOLOv8) : option YOLOv8 :=
  let devs := enqueueV2 E (set_dims y) (device_ptrs y) in
  hosts ← for_each (range 0 (num_outputs y)) (fetch y devs) (host_ptrs y);
  Some (set_ptrs hosts devs y).

(** A copy to the device's buffer of the input. *)
Definition upload (bs : list Z) (y : YOLOv8) : option YOLOv8 :=
  d ← aget (device_ptrs y) 0;
  d ← st_bytes d 0 bs;
  devs ← aset (device_ptrs y) 0 d;
  Some (set_ptrs (host_ptrs y) devs y).

Definition warm_turn (E : ICudaEngine) (y : YOLOv8) : option YOLOv8 :=
  y ← for_each (input_bindings y) (λ b, upload (replicate (Z.to_nat (binding_bytes b)) 0)) y;
  infer E y.

(** What [CHECK] finds wrong ends the program; the allocators give the bytes they find. *)
Definition alloc_input (cudaMallocAsync : Z -> option (list Z)) (y : outcome YOLOv8) (b : Binding)
  : outcome YOLOv8 :=
  match y with
  | Exit => Exit
  | Done y =>
      match cudaMallocAsync (binding_bytes b) with
      | None => Exit
      | Some d => Done (set_ptrs (host_ptrs y) (device_ptrs y ++ [d]) y)
      end
  end.
Definition alloc_output (cudaMallocAsync cudaHostAlloc : Z -> option (list Z)) (y : outcome YOLOv8)
    (b : Binding) : outcome YOLOv8 :=
  match y with
  | Exit => Exit
  | Done y =>
      let size := binding_bytes b in
      match cudaMallocAsync size, cudaHostAlloc size with
      | Some d, Some h => Done (set_ptrs (host_ptrs y ++ [h]) (device_ptrs y ++ [d]) y)
      | _, _ => Exit
      end
  end.

Definition make_pipe (E : ICudaEngine) (cudaMallocAsync cudaHostAlloc : Z -> option (list Z))
    (warmup : bool) (y : YOLOv8) : option (outcome YOLOv8) :=
  match foldl (alloc_output cudaMallocAsync cudaHostAlloc)
          (foldl (alloc_input cudaMallocAsync) (Done y) (input_bindings y)) (output_bindings y) with
  | Exit => Some Exit
  | Done y => if warmup then Done <$> Nat.iter 10 (λ y, y ← y; warm_turn E y) (Some y)
              else Some (Done y)
  end.

(** *** The picture *)

Section picture.
Context {Mat : Type} `{!OpenCV Mat}.
Implicit Types image : Mat.

(** [0.1f] *)
Definition f_tenth : double := d_round32 (d_lit 1 10).

(** OpenCV throws when the size is empty or a border negative. *)
Definition cv_resize image (w h : Z) : option Mat :=
  if (0 <? w) && (0 <? h) && (0 <? cols image) && (0 <? rows image) then Some (resize image w h)
  else None.
Definition cv_border image (top bottom left right : Z) : option Mat :=
  if (0 <=? top) && (0 <=? bottom) && (0 <=? left) && (0 <=? right)
  then Some (copyMakeBorder image top bottom left right) else None.

(** The scaled picture, and the frame above, below, on the left and on the right. *)
Record layout := { padw : Z; padh : Z; bd_top : Z; bd_bottom : Z; bd_left : Z; bd_right : Z }.

Definition letterbox_layout (width height inp_w inp_h : double) : option (layout * PreParam) :=
  let r := fmin (fdiv inp_h height) (fdiv inp_w width) in
  padw ← d_to_i32 (d_round (fmul width r));
  padh ← d_to_i32 (d_round (fmul height r));
  let dw := fdiv (fsub inp_w (f_of_Z padw)) (f_of_Z 2) in
  let dh := fdiv (fsub inp_h (f_of_Z padh)) (f_of_Z 2) in
  top ← d_to_i32 (d_round (fsub dh f_tenth));
  bottom ← d_to_i32 (d_round (fadd dh f_tenth));
  left ← d_to_i32 (d_round (fsub dw f_tenth));
  right ← d_to_i32 (d_round (fadd dw f_tenth));
  Some ({| padw := padw; padh := padh; bd_top := top; bd_bottom := bottom; bd_left := left;
           bd_right := right |},
        {| ratio := fdiv (f_of_Z 1) r; pp_dw := dw; pp_dh := dh; pp_height := height;
           pp_width := width |}).

(** The bytes of the input, and the parameters that map the boxes back. *)
Definition letterbox image (size_w size_h : Z) : option (list Z * PreParam) :=
  let height := f_of_Z (rows image) in
  let width := f_of_Z (cols image) in
  '(l, p) ← letterbox_layout width height (f_of_Z size_w) (f_of_Z size_h);
  w ← d_to_i32 width;
  h ← d_to_i32 height;
  tmp ← if negb (w =? padw l) || negb (h =? padh l) then cv_resize image (padw l) (padh l)
        else Some image;
  tmp ← cv_border tmp (bd_top l) (bd_bottom l) (bd_left l) (bd_right l);
  Some (blobFromImage tmp, p).

(** With the given size, and with that of the network's input. *)
Definition copy_from_Mat image (size_w size_h : Z) (y : YOLOv8) : option YOLOv8 :=
  '(nchw, p) ← letterbox image size_w size_h;
  upload nchw (setBindingDimensions 0 [1; 3; size_h; size_w] (set_pparam p y)).
Definition copy_from_Mat_default image (y : YOLOv8) : option YOLOv8 :=
  b ← aget (input_bindings y) 0;
  width ← aget (b_dims b) 3;
  height ← aget (b_dims b) 2;
  '(nchw, p) ← letterbox image width height;
  upload nchw (setBindingDimensions 0 [1] (set_pparam p y)).

(** *** The boxes *)

(** A coordinate, mapped back. *)
Definition back (p : PreParam) (v d size : double) : double :=
  clamp (fmul (fsub v d) (ratio p)) (f_of_Z 0) size.

Definition box_object (p : PreParam) (boxes scores labels : list Z) (i : Z) : option Object :=
  x0 ← ld_f32 boxes (16 * i);
  y0 ← ld_f32 boxes (16 * i + 4);
  x1 ← ld_f32 boxes (16 * i + 8);
  y1 ← ld_f32 boxes (16 * i + 12);
  let x0 := back p x0 (pp_dw p) (pp_width p) in
  let y0 := back p y0 (pp_dh p) (pp_height p) in
  let x1 := back p x1 (pp_dw p) (pp_width p) in
  let y1 := back p y1 (pp_dh p) (pp_height p) in
  prob ← ld_f32 scores (4 * i);
  label ← ld_i32 labels (4 * i);
  Some {| rect := Vec4 x0 y0 (fsub x1 x0) (fsub y1 y0); label := label; prob := prob |}.

Definition postprocess (y : YOLOv8) : option (list Object) :=
  num_dets ← aget (host_ptrs y) 0;
  boxes ← aget (host_ptrs y) 1;
  scores ← aget (host_ptrs y) 2;
  labels ← aget (host_ptrs y) 3;
  n ← ld_i32 num_dets 0;
  mapM (box_object (pparam y) boxes scores labels) (range 0 n).

(** What the guidance does with a picture. *)
Definition detect (E : ICudaEngine) image (y : YOLOv8) : option (list Object * YOLOv8) :=
  y ← copy_from_Mat image 1280 1280 y;
  y ← infer E y;
  objs ← postprocess y;
  Some (objs, y).
End picture.

Example half_frame : fst <$> letterbox_layout (f_of_Z 1920) (f_of_Z 1080) (f_of_Z 1280) (f_of_Z 1280)
  = Some {| padw := 1280; padh := 720; bd_top := 280; bd_bottom := 280; bd_left := 0; bd_right := 0 |}.
Proof. vm_compute. reflexivity. Qed.
