(* ===== verification/YoloBox.v ===== *)
(** * Mapping pictures to the network and boxes back ([yolov8_infer/yolov8.cpp])

    The scaled picture and its frame fill the input of the network exactly, despite the
    rounding of [float]s, and the mapping of the boxes inverts the scaling. *)

From Stdlib Require Import Reals Lra.
From stdpp Require Import list_numbers.
From S2P Require Import Prelude Arrays CFloat FloatError Tracker Yolo.
Local Open Scope R_scope.

(** ** Sizes *)

Definition size_ok (n : Z) : Prop := (1 <= n <= 65536)%Z.

Lemma size_R n : size_ok n -> 1 <= IZR n <= 65536.
Proof. intros [H1 H2]. split; by apply IZR_le. Qed.

Lemma size_val n : size_ok n -> is_val false (IZR n) (f_of_Z n).
Proof. intros H. apply f_of_Z_near. change (2 ^ 24)%Z with 16777216%Z. unfold size_ok in H. lia. Qed.

Lemma mid_small X : / 1000000 <= X <= 1000000 -> mid X.
Proof.
  intros H. unfold mid. pose proof (pw_le (-100) (-20) ltac:(lia)). pose proof (pw_le 20 100 ltac:(lia)).
  pose proof (pw_opp 20) as E. change (- (20))%Z with (-20)%Z in E. rewrite (pw_Z 20) in * by done.
  change (2 ^ 20)%Z with 1048576%Z in *. lra.
Qed.

Lemma near_bounds s X x : fnear s X x -> 0 < X ->
  exists Y, is_val s Y x /\ X * (1 - / 8000000) <= Y <= X * (1 + / 8000000).
Proof.
  intros (Y & HY & He & _) HX. exists Y. split; [done|]. apply abs_le in He.
  destruct pw_ulp as (_ & _ & _ & Hu). nra.
Qed.

Lemma quotient_bounds a b : size_ok a -> size_ok b ->
  0 < IZR a * / IZR b /\ IZR a * / IZR b * IZR b = IZR a /\ / 65536 <= IZR a * / IZR b <= 65536.
Proof.
  intros Ha%size_R Hb%size_R. pose proof (Rinv_l (IZR b) ltac:(lra)) as E.
  pose proof (Rinv_0_lt_compat (IZR b) ltac:(lra)). split; [nra|]. split; [nra|].
  assert (/ 65536 <= / IZR b <= 1) by (split; nra). nra.
Qed.

(** The quotient of two sizes. *)
Lemma size_quotient a b : size_ok a -> size_ok b ->
  exists Y, is_val false Y (fdiv (f_of_Z a) (f_of_Z b))
    /\ IZR a * (1 - / 8000000) <= Y * IZR b <= IZR a * (1 + / 8000000) /\ / 70000 <= Y <= 70000.
Proof.
  intros Ha Hb. pose proof (quotient_bounds a b Ha Hb) as (H1 & H2 & H3).
  destruct (near_bounds false (IZR a * / IZR b) (fdiv (f_of_Z a) (f_of_Z b))) as (Y & HY & HB); [|done|].
  { apply (fdiv_near false false); [by apply size_val..|]. apply mid_small. lra. }
  exists Y. split; [done|]. apply size_R in Hb. split; [nra|lra].
Qed.

(** ** The scaled picture *)

(** One side of it: at least a pixel, not more than the input, and all of it when the other
    side leaves room for that. *)
Lemma scaled_side w W r R1 : size_ok w -> size_ok W -> is_val false R1 r -> / 70000 <= R1 <= 70000 ->
  1 - / 1000000 <= IZR w * R1 <= IZR W * (1 + / 8000000) ->
  exists n, d_to_i32 (d_round (fmul (f_of_Z w) r)) = Some n /\ (1 <= n <= W)%Z
    /\ (IZR W * (1 - / 8000000) <= IZR w * R1 -> n = W)
    /\ IZR n - 1 <= IZR w * R1 <= IZR n + 1.
Proof.
  intros Hw HW Hr HR1 HB. pose proof (size_R _ Hw) as Hw'. pose proof (size_R _ HW) as HW'.
  destruct (near_bounds false (IZR w * R1) (fmul (f_of_Z w) r)) as (Y & HY & HYB); [|lra|].
  { apply (fmul_near false false); [by apply size_val|done|]. apply mid_small. lra. }
  destruct (d_round_val (- 2 ^ 31) (2 ^ 31) Y _ HY) as (n & Hn & Hn0 & HnY); [|done|done|].
  { change (2 ^ 30)%Z with 1073741824%Z. lra. }
  exists n. split; [done|]. split; [split|].
  - enough (0 < n)%Z by lia. apply lt_IZR. lra.
  - enough (n < W + 1)%Z by lia. apply lt_IZR. rewrite plus_IZR. lra.
  - split; [|lra]. intros HF. enough (W < n + 1 /\ n < W + 1)%Z by lia.
    split; apply lt_IZR; rewrite plus_IZR; lra.
Qed.

Lemma min_val A B a b : is_val false A a -> is_val false B b ->
  is_val false (Rmin A B) (fmin a b).
Proof.
  intros Ha Hb. unfold fmin. destruct (val_compare B A b a Hb Ha) as [Hc _].
  destruct (dlt b a).
  - assert (B < A) by tauto. by rewrite Rmin_right by lra.
  - assert (~ B < A) by (intros H%Hc; done). by rewrite Rmin_left by lra.
Qed.

(** ** The frame *)

Lemma tenth_val : exists T, is_val false T f_tenth /\ / 10 - / 1000 <= T <= / 10 + / 1000.
Proof.
  assert (E : f_tenth = S754_finite false 7205759511166976 (-56)) by by vm_compute.
  rewrite E. eexists. split; [eexists _, _; split; [reflexivity|]; split; [by vm_compute|reflexivity]|].
  pose proof (pw_opp 56) as Ep. change (- (56))%Z with (-56)%Z in Ep. rewrite (pw_Z 56) in Ep by done.
  change (2 ^ 56)%Z with 72057594037927936%Z in Ep. lra.
Qed.

Lemma fsub_same x X : is_val false X x -> fsub x x = S754_zero false.
Proof.
  intros (m & e & -> & _). unfold fsub, dsub, SFsub. cbn [cond_Zopp]. cbv zeta. by rewrite Z.sub_diag.
Qed.

(** The difference of two sizes and its half are exact. *)
Lemma half_exact W P : size_ok W -> size_ok P -> (P < W)%Z ->
  is_val false (IZR (W - P) * / 2) (fdiv (fsub (f_of_Z W) (f_of_Z P)) (f_of_Z 2)).
Proof.
  intros HW HP Hlt. assert (HD : size_ok (W - P)) by (unfold size_ok in *; lia). pose proof (size_R _ HD) as HD'.
  assert (Hn : (0 < W - P < 2 ^ 24)%Z) by (change (2 ^ 24)%Z with 16777216%Z; unfold size_ok in HD; lia).
  destruct (fsub_near (IZR W) (IZR P) (f_of_Z W) (f_of_Z P)) as (Y & HY & _ & He); [by apply size_val..| |].
  { apply mid_small. rewrite <-minus_IZR. lra. }
  rewrite (He (W - P)%Z 0%Z) in HY; [|by rewrite pw_0, Rmult_1_r, minus_IZR|done].
  rewrite <-minus_IZR in HY.
  destruct (fdiv_near false false _ _ _ (f_of_Z 2) HY (size_val 2 ltac:(done))) as (Z & HZ & _ & He2).
  { apply mid_small. lra. }
  rewrite (He2 (W - P)%Z (-1)%Z) in HZ; [done|by rewrite pw_m1|done].
Qed.

Lemma frame_side W P : size_ok W -> size_ok P -> (P <= W)%Z ->
  let d := fdiv (fsub (f_of_Z W) (f_of_Z P)) (f_of_Z 2) in
  exists l r, d_to_i32 (d_round (fsub d f_tenth)) = Some l /\ d_to_i32 (d_round (fadd d f_tenth)) = Some r
    /\ (l + r = W - P)%Z /\ (0 <= l <= r)%Z /\ (r <= l + 1)%Z.
Proof.
  intros HW HP Hle d. destruct (decide (P = W)) as [->|Hne].
  { exists 0%Z, 0%Z. unfold d. rewrite (fsub_same _ _ (size_val W HW)). rewrite Z.sub_diag.
    split; [by vm_compute|split; [by vm_compute|lia]]. }
  assert (Hd : is_val false (IZR (W - P) * / 2) d) by (apply half_exact; [done|done|lia]).
  assert (HD : size_ok (W - P)) by (unfold size_ok in *; lia). pose proof (size_R _ HD) as HD'.
  destruct tenth_val as (T & HT & HTB).
  destruct (near_bounds false (IZR (W - P) * / 2 - T) (fsub d f_tenth)) as (L & HL & HLB); [|lra|].
  { apply fsub_near; [done|done|]. apply mid_small. lra. }
  destruct (near_bounds false (IZR (W - P) * / 2 + T) (fadd d f_tenth)) as (U & HU & HUB); [|lra|].
  { apply fadd_near; [done|done|]. apply mid_small. lra. }
  destruct (d_round_val (- 2 ^ 31) (2 ^ 31) L _ HL) as (l & El & Hl0 & Hl); [|done|done|].
  { change (2 ^ 30)%Z with 1073741824%Z. lra. }
  destruct (d_round_val (- 2 ^ 31) (2 ^ 31) U _ HU) as (r & Er & Hr0 & Hr); [|done|done|].
  { change (2 ^ 30)%Z with 1073741824%Z. lra. }
  exists l, r. split; [done|]. split; [done|].
  set (D := (W - P)%Z) in *.
  assert (H1 : (2 * l <= D < 2 * l + 2)%Z).
  { split; [enough (2 * l < D + 1)%Z by lia|]; apply lt_IZR; rewrite ?plus_IZR, ?mult_IZR; lra. }
  assert (H2 : (2 * r - 1 <= D < 2 * r + 1)%Z).
  { split; [enough (2 * r - 2 < D)%Z by lia|]; apply lt_IZR; rewrite ?minus_IZR, ?plus_IZR, ?mult_IZR; lra. }
  lia.
Qed.

(** ** The layout *)

(** The picture is not so long and thin that its short side vanishes. *)
Record sizes_ok (w h W H : Z) : Prop := {
  so_w : size_ok w; so_h : size_ok h; so_W : size_ok W; so_H : size_ok H;
  so_tall : (h <= w * H)%Z; so_wide : (w <= h * W)%Z
}.

(** The frame and the scaled picture fill [W] times [H]; the picture touches two opposite
    sides and is in the middle, to a pixel. *)
Record fills (W H : Z) (l : layout) : Prop := {
  fl_w : (1 <= padw l <= W)%Z; fl_h : (1 <= padh l <= H)%Z;
  fl_across : (bd_left l + padw l + bd_right l = W)%Z;
  fl_down : (bd_top l + padh l + bd_bottom l = H)%Z;
  fl_left : (0 <= bd_left l <= bd_right l)%Z; fl_right : (bd_right l <= bd_left l + 1)%Z;
  fl_top : (0 <= bd_top l <= bd_bottom l)%Z; fl_bottom : (bd_bottom l <= bd_top l + 1)%Z;
  fl_touch : padw l = W \/ padh l = H
}.

Lemma side_lower (w h W H : Z) R2 : size_ok w -> size_ok h -> size_ok H -> (h <= w * H)%Z ->
  IZR H * (1 - / 8000000) <= R2 * IZR h -> 1 - / 1000000 <= IZR w * R2.
Proof.
  intros Hw%size_R Hh%size_R HH%size_R Hle%IZR_le HR. rewrite mult_IZR in Hle.
  assert (IZR h * (1 - / 8000000) <= IZR h * (IZR w * R2)) by nra. nra.
Qed.

Lemma letterbox_layout_spec w h W H : sizes_ok w h W H ->
  exists l p r, letterbox_layout (f_of_Z w) (f_of_Z h) (f_of_Z W) (f_of_Z H) = Some (l, p)
    /\ fills W H l
    /\ is_val false r (fmin (fdiv (f_of_Z H) (f_of_Z h)) (fdiv (f_of_Z W) (f_of_Z w)))
    /\ / 70000 <= r <= 70000
    /\ (IZR (padw l) - 1 <= IZR w * r <= IZR (padw l) + 1)
    /\ (IZR (padh l) - 1 <= IZR h * r <= IZR (padh l) + 1)
    /\ p = {| ratio := fdiv (f_of_Z 1) (fmin (fdiv (f_of_Z H) (f_of_Z h)) (fdiv (f_of_Z W) (f_of_Z w)));
              pp_dw := fdiv (fsub (f_of_Z W) (f_of_Z (padw l))) (f_of_Z 2);
              pp_dh := fdiv (fsub (f_of_Z H) (f_of_Z (padh l))) (f_of_Z 2);
              pp_height := f_of_Z h; pp_width := f_of_Z w |}.
Proof.
  intros [Hw Hh HW HH Htall Hwide].
  destruct (size_quotient H h HH Hh) as (A & HA & HAB & HA1).
  destruct (size_quotient W w HW Hw) as (B & HB & HBB & HB1).
  pose proof (min_val _ _ _ _ HA HB) as Hr. set (r := Rmin A B) in *.
  pose proof (side_lower w h W H A Hw Hh HH Htall ltac:(lra)) as L1.
  pose proof (side_lower h w H W B Hh Hw HW Hwide ltac:(lra)) as L2.
  pose proof (size_R _ Hw) as Hw'. pose proof (size_R _ Hh) as Hh'. pose proof (size_R _ HW) as HW'.
  pose proof (size_R _ HH) as HH'.
  assert (Hr1 : r <= A /\ r <= B /\ (r = A \/ r = B)).
  { unfold r, Rmin. destruct (Rle_dec A B); lra. }
  assert (Hr2 : / 70000 <= r <= 70000) by (destruct Hr1 as (? & ? & [-> | ->]); lra).
  set (rr := fmin (fdiv (f_of_Z H) (f_of_Z h)) (fdiv (f_of_Z W) (f_of_Z w))) in *.
  destruct (scaled_side w W rr r Hw HW Hr Hr2) as (pw & Epw & Hpw & Hpw1 & Hpw2).
  { split; [|nra]. destruct Hr1 as (? & ? & [-> | ->]); [done|]. lra. }
  destruct (scaled_side h H rr r Hh HH Hr Hr2) as (ph & Eph & Hph & Hph1 & Hph2).
  { split; [|nra]. destruct Hr1 as (? & ? & [-> | ->]); [|done]. lra. }
  destruct (frame_side W pw HW ltac:(unfold size_ok in *; lia) ltac:(lia)) as (lf & rg & El & Er & F1 & F2 & F3).
  destruct (frame_side H ph HH ltac:(unfold size_ok in *; lia) ltac:(lia)) as (tp & bt & Et & Eb & F4 & F5 & F6).
  unfold letterbox_layout. fold rr. cbv zeta. rewrite Epw. cbn [mbind option_bind]. rewrite Eph.
  cbn [mbind option_bind]. rewrite Et. cbn [mbind option_bind]. rewrite Eb. cbn [mbind option_bind].
  rewrite El. cbn [mbind option_bind]. rewrite Er. cbn [mbind option_bind].
  eexists _, _, r. split; [reflexivity|]. split; [|exact (conj Hr (conj Hr2 (conj Hpw2 (conj Hph2 eq_refl))))].
  split; cbn [padw padh bd_left bd_right bd_top bd_bottom]; [lia..|].
  destruct Hr1 as (_ & _ & [E|E]); rewrite E in *; [right; apply Hph1|left; apply Hpw1]; lra.
Qed.

(** ** Boxes *)

(** The offset of the frame, which is zero or a half of an integer. *)
Lemma offset_val W P : size_ok W -> size_ok P -> (P <= W)%Z ->
  let d := fdiv (fsub (f_of_Z W) (f_of_Z P)) (f_of_Z 2) in
  (P = W /\ d = S754_zero false) \/ is_val false (IZR (W - P) * / 2) d.
Proof.
  intros HW HP Hle d. destruct (decide (P = W)) as [->|Hne].
  - left. split; [done|]. unfold d. rewrite (fsub_same _ _ (size_val W HW)). by vm_compute.
  - right. apply half_exact; [done|done|lia].
Qed.

(** A [float]. *)
Definition is_f32 (X : R) (x : double) : Prop :=
  is_val false X x /\ exists n e, X = IZR n * pw e /\ (0 < n < 2 ^ 24)%Z.

Lemma fsub_offset W P c C : size_ok W -> size_ok P -> (P <= W)%Z -> is_f32 C c ->
  / 1000000 <= C - IZR (W - P) * / 2 <= 1000000 ->
  fnear false (C - IZR (W - P) * / 2) (fsub c (fdiv (fsub (f_of_Z W) (f_of_Z P)) (f_of_Z 2))).
Proof.
  intros HW HP Hle [Hc (n & e & En & Hn)] HB.
  destruct (offset_val W P HW HP Hle) as [[-> ->]|Hd]; [|by apply fsub_near; [..|apply mid_small]].
  rewrite Z.sub_diag, Rmult_0_l, Rminus_0_r in *. destruct Hc as (m & e1 & -> & Hm & EC).
  apply round32_near; [by apply mid_small|]. exists m, e1. split; [done|]. split; [done|].
  rewrite <-EC. split; [|done]. rewrite Rminus_diag, Rabs_R0.
  apply Rmult_le_pos; [lra|left; apply pw_pos].
Qed.

Lemma clamp_val X x W w : is_val false X x -> is_val false W w ->
  is_val false (Rmin X W) (clamp x (f_of_Z 0) w).
Proof.
  intros Hx Hw. destruct (val_compare X W x w Hx Hw) as [Hc _]. unfold clamp.
  assert (E0 : dlt (f_of_Z 0) x = true) by (by destruct Hx as (m & e & -> & _)).
  rewrite E0. destruct (dlt x w).
  - assert (X < W) by tauto. by rewrite Rmin_left by lra.
  - assert (~ X < W) by (intros H%Hc; done). by rewrite Rmin_right by lra.
Qed.

Lemma Rmin_close X Y W d : Rabs (X - Y) <= d -> Rabs (Rmin X W - Rmin Y W) <= d.
Proof. intros H%abs_le. apply abs_le. unfold Rmin. destruct (Rle_dec X W), (Rle_dec Y W); lra. Qed.

(** The coordinate [x * r + (W - P) / 2] of the network is mapped back to [x]. *)
Lemma back_spec p w W P r rr x c : size_ok w -> size_ok W -> size_ok P -> (P <= W)%Z ->
  is_val false r rr -> / 70000 <= r <= 70000 -> ratio p = fdiv (f_of_Z 1) rr ->
  is_f32 (x * r + IZR (W - P) * / 2) c -> / 10 <= x * r <= 1000000 -> x <= 500000 ->
  exists X, is_val false X (back p c (fdiv (fsub (f_of_Z W) (f_of_Z P)) (f_of_Z 2)) (f_of_Z w))
    /\ Rabs (X - Rmin x (IZR w)) <= x * / 2000000.
Proof.
  intros Hw HW HP Hle Hr Hr1 Hp Hc HB Hx. assert (Hx0 : / 700000 <= x) by nra.
  pose proof (fsub_offset W P c _ HW HP Hle Hc) as Hs.
  replace (x * r + IZR (W - P) * / 2 - IZR (W - P) * / 2) with (x * r) in Hs by ring.
  destruct (near_bounds _ _ _ (Hs ltac:(lra))) as (S & HS & HSB); [lra|].
  pose proof (Rinv_l r ltac:(lra)) as Ei. pose proof (Rinv_0_lt_compat r ltac:(lra)) as Hi0.
  assert (Hi : / 70000 <= / r <= 70000) by (split; nra).
  destruct (near_bounds false (1 * / r) (fdiv (f_of_Z 1) rr)) as (Q & HQ & HQB); [|lra|].
  { apply (fdiv_near false false); [by apply (size_val 1)|done|]. apply mid_small. lra. }
  assert (HSQ : x * (1 - / 3900000) <= S * Q <= x * (1 + / 3900000)).
  { assert (x * r * / r = x) by (rewrite Rmult_assoc, (Rmult_comm r), Ei; ring).
    pose proof (Rmult_le_compat_r (/ r) _ _ ltac:(lra) (proj1 HSB)) as H1.
    pose proof (Rmult_le_compat_r (/ r) _ _ ltac:(lra) (proj2 HSB)) as H2.
    assert (0 < S) by nra. rewrite Rmult_1_l in HQB.
    pose proof (Rmult_le_compat_l S _ _ ltac:(lra) (proj1 HQB)) as H3.
    pose proof (Rmult_le_compat_l S _ _ ltac:(lra) (proj2 HQB)) as H4.
    split; nra. }
  destruct (near_bounds false (S * Q) (fmul (fsub c (fdiv (fsub (f_of_Z W) (f_of_Z P)) (f_of_Z 2))) (ratio p)))
    as (X & HX & HXB); [|nra|].
  { rewrite Hp. apply (fmul_near false false); [done|done|]. apply mid_small. nra. }
  exists (Rmin X (IZR w)). split; [by apply clamp_val; [|apply size_val]|].
  apply Rmin_close, abs_le. nra.
Qed.
