(* ===== verification/YoloRun.v ===== *)
(** * A picture through the network ([yolov8_infer/yolov8.cpp])

    The sizes of the buffers and that every operation keeps them, the copy of a picture to the
    device, and the boxes that come back. *)

From stdpp Require Import list_numbers.
From Stdlib Require Import Reals.
From S2P Require Import Prelude Arrays CFloat FloatError Association Tracker Yolo YoloBox.
Local Open Scope list_scope.
Local Open Scope Z_scope.

(** ** The buffers *)

(** Each binding has a buffer of its size on the device, each output one on the host too. *)
Record yolo_ok (y : YOLOv8) : Prop := {
  yo_in : num_inputs y = Zlen (input_bindings y);
  yo_out : num_outputs y = Zlen (output_bindings y);
  yo_device : Zlen <$> device_ptrs y = binding_bytes <$> (input_bindings y ++ output_bindings y);
  yo_host : Zlen <$> host_ptrs y = binding_bytes <$> output_bindings y
}.

Lemma st_bytes_whole (h d : list Z) : Zlen d = Zlen h -> st_bytes h 0 d = Some d.
Proof.
  intros E. unfold st_bytes. rewrite bool_decide_true by lia. cbn. f_equal.
  rewrite drop_ge; [by rewrite app_nil_r|]. unfold Zlen in E. lia.
Qed.

(** A copy of an output makes the buffer of the host that of the device. *)
Lemma fetch_spec y devs hosts i b h d :
  output_bindings y !! i = Some b -> hosts !! i = Some h ->
  devs !! (i + Z.to_nat (num_inputs y))%nat = Some d -> 0 <= num_inputs y ->
  Zlen d = binding_bytes b -> Zlen h = binding_bytes b ->
  fetch y devs (Z.of_nat i) hosts = Some (<[i := d]> hosts).
Proof.
  intros Hb Hh Hd Hni Ed Eh. unfold fetch.
  assert (E1 : aget (output_bindings y) (Z.of_nat i) = Some b) by (apply aget_Some; rewrite Nat2Z.id; auto with lia).
  assert (E2 : aget hosts (Z.of_nat i) = Some h) by (apply aget_Some; rewrite Nat2Z.id; auto with lia).
  assert (E3 : aget devs (Z.of_nat i + num_inputs y) = Some d).
  { apply aget_Some. split; [lia|]. by rewrite Z2Nat.inj_add, Nat2Z.id by lia. }
  rewrite E1. cbn [mbind option_bind]. rewrite E2. cbn [mbind option_bind]. rewrite E3. cbn [mbind option_bind].
  rewrite <-Ed, ld_bytes_all. cbn [mbind option_bind]. rewrite st_bytes_whole by lia. cbn [mbind option_bind].
  unfold aset. rewrite Nat2Z.id. destruct (Z.leb_spec 0 (Z.of_nat i)); [|lia].
  destruct (Z.ltb_spec (Z.of_nat i) (Zlen hosts)); [done|]. apply lookup_lt_Some in Hh. unfold Zlen in *. lia.
Qed.

Lemma Zlen_fmap_length {A} (l1 l2 : list (list A)) : Zlen <$> l1 = Zlen <$> l2 <-> length <$> l1 = length <$> l2.
Proof.
  split; intros E.
  - apply (f_equal (fmap Z.to_nat)) in E. rewrite <-!list_fmap_compose in E.
    erewrite !(list_fmap_ext (Z.to_nat ∘ Zlen) length) in E; [done|..]; intros ? x ?; unfold Zlen; cbn; lia.
  - apply (f_equal (fmap Z.of_nat)) in E. by rewrite <-!list_fmap_compose in E.
Qed.

(** After a run the buffers of the host are those the network has written. *)
Lemma infer_spec E `{!EngineLaws E} y : yolo_ok y ->
  exists y', infer E y = Some y' /\ yolo_ok y' /\ pparam y' = pparam y
    /\ output_bindings y' = output_bindings y
    /\ host_ptrs y' = drop (length (input_bindings y)) (enqueueV2 E (set_dims y) (device_ptrs y)).
Proof.
  intros Hy. unfold infer. set (devs := enqueueV2 E (set_dims y) (device_ptrs y)).
  assert (Hdevs : Zlen <$> devs = binding_bytes <$> (input_bindings y ++ output_bindings y)).
  { rewrite <-(yo_device _ Hy). apply Zlen_fmap_length, enqueue_sizes. }
  set (outs := drop (length (input_bindings y)) devs).
  assert (Houts : Zlen <$> outs = binding_bytes <$> output_bindings y).
  { unfold outs. by rewrite fmap_drop, Hdevs, fmap_app, drop_app_length' by by rewrite length_fmap. }
  assert (Hlen : length outs = length (output_bindings y)).
  { apply (f_equal length) in Houts. by rewrite !length_fmap in Houts. }
  assert (Hhl : length (host_ptrs y) = length (output_bindings y)).
  { pose proof (f_equal length (yo_host _ Hy)) as H. by rewrite !length_fmap in H. }
  rewrite (yo_out _ Hy).
  destruct (for_range_inv (λ k hosts, hosts = take (Z.to_nat k) outs ++ drop (Z.to_nat k) (host_ptrs y))
    (fetch y devs) 0 (Zlen (output_bindings y)) (host_ptrs y)) as (hosts & -> & ->); [apply Zlen_nonneg|done| |].
  - intros i hosts [Hi0 Hi] ->. unfold Zlen in Hi. rewrite <-(Z2Nat.id i), Nat2Z.id by lia.
    set (k := Z.to_nat i). assert (Hk : (k < length (output_bindings y))%nat) by lia.
    destruct (lookup_lt_is_Some_2 (output_bindings y) k) as [b Hb]; [lia|].
    destruct (lookup_lt_is_Some_2 outs k) as [d Hd]; [lia|].
    destruct (lookup_lt_is_Some_2 (host_ptrs y) k) as [h Hh]; [lia|].
    assert (Hlk : length (take k outs) = k) by (rewrite length_take; lia).
    eexists. split; [apply (fetch_spec y devs _ k b h d); [done|..]|].
    + by rewrite lookup_app_r, Hlk, Nat.sub_diag, lookup_drop, Nat.add_0_r by lia.
    + rewrite (yo_in _ Hy). unfold outs in Hd. rewrite lookup_drop in Hd. unfold Zlen. rewrite Nat2Z.id.
      by rewrite Nat.add_comm.
    + rewrite (yo_in _ Hy). apply Zlen_nonneg.
    + assert (H : (Zlen <$> outs) !! k = Some (Zlen d)) by by rewrite list_lookup_fmap, Hd.
      rewrite Houts, list_lookup_fmap, Hb in H. by injection H.
    + assert (H : (Zlen <$> host_ptrs y) !! k = Some (Zlen h)) by by rewrite list_lookup_fmap, Hh.
      rewrite (yo_host _ Hy), list_lookup_fmap, Hb in H. by injection H.
    + cbn beta. rewrite Z2Nat.inj_add, Nat2Z.id, Nat.add_1_r by lia.
      rewrite (take_S_r _ _ d), <-app_assoc by done. rewrite insert_app_r_alt, Hlk, Nat.sub_diag by lia.
      by rewrite (drop_S _ h) by done.
  - cbn [mbind option_bind]. rewrite Zlen_to_nat, take_ge, drop_ge, app_nil_r by lia.
    eexists. split; [done|]. split; [|done]. split; cbn; [apply Hy..|done|done].
Qed.

(** A copy to the device needs room in the first buffer. *)
Lemma upload_spec bs y b : yolo_ok y -> input_bindings y !! 0%nat = Some b -> Zlen bs <= binding_bytes b ->
  exists y', upload bs y = Some y' /\ yolo_ok y' /\ pparam y' = pparam y
    /\ input_bindings y' = input_bindings y /\ output_bindings y' = output_bindings y.
Proof.
  intros Hy Hb Hle. pose proof (yo_device _ Hy) as Hd.
  destruct (input_bindings y) as [|b' bs'] eqn:Ei; [done|]. injection Hb as ->.
  destruct (device_ptrs y) as [|d ds] eqn:Ed; [done|]. cbn in Hd. injection Hd as Hd1 Hd2.
  unfold upload. rewrite Ed. cbn [aget lookup list_lookup Z.to_nat mbind option_bind].
  change (aget (d :: ds) 0) with (Some d). cbn [mbind option_bind].
  destruct (proj2 (st_bytes_Some d 0 bs)) as [d' Hd']; [lia|]. rewrite Hd'. cbn [mbind option_bind].
  assert (E : aset (d :: ds) 0 d' = Some (d' :: ds)).
  { unfold aset. cbn. by destruct (Z.ltb_spec 0 (Zlen (d :: ds))); [|unfold Zlen in *; cbn in *; lia]. }
  rewrite E. cbn [mbind option_bind]. eexists. split; [done|]. split; [|done]. split; cbn; rewrite ?Ei; try apply Hy.
  - by rewrite (yo_in _ Hy), Ei.
  - apply st_bytes_len in Hd'. cbn. rewrite Hd', Hd1. by f_equal.
Qed.

Lemma upload_short bs y b : yolo_ok y -> input_bindings y !! 0%nat = Some b -> binding_bytes b < Zlen bs ->
  upload bs y = None.
Proof.
  intros Hy Hb Hlt. pose proof (yo_device _ Hy) as Hd.
  destruct (input_bindings y) as [|b' bs']; [done|]. injection Hb as ->.
  unfold upload. destruct (device_ptrs y) as [|d ds]; [done|]. cbn in Hd. injection Hd as Hd1 _.
  change (aget (d :: ds) 0) with (Some d). cbn [mbind option_bind].
  destruct (st_bytes d 0 bs) as [d'|] eqn:E; [|done].
  assert (H : is_Some (st_bytes d 0 bs)) by by rewrite E. apply st_bytes_Some in H. lia.
Qed.

Lemma upload_dims bs y y' : upload bs y = Some y' -> set_dims y' = set_dims y.
Proof.
  unfold upload. destruct (aget _ _) as [d|]; [|done]. cbn [mbind option_bind].
  destruct (st_bytes _ _ _) as [d'|]; [|done]. cbn [mbind option_bind].
  destruct (aset _ _ _); [|done]. by intros [= <-].
Qed.

Lemma setBindingDimensions_ok i dims y : yolo_ok y -> yolo_ok (setBindingDimensions i dims y).
Proof. intros Hy. split; apply Hy. Qed.
Lemma set_pparam_ok p y : yolo_ok y -> yolo_ok (set_pparam p y).
Proof. intros Hy. split; apply Hy. Qed.

(** ** Start *)

Record created (y : YOLOv8) : Prop := {
  cr_in : num_inputs y = Zlen (input_bindings y);
  cr_out : num_outputs y = Zlen (output_bindings y);
  cr_ptrs : device_ptrs y = [] /\ host_ptrs y = []
}.

Lemma add_binding_created E i y y' : created y -> add_binding E i y = Some y' -> created y'.
Proof.
  intros [H1 H2 H3]. unfold add_binding. destruct (bindingIsInput E i).
  - destruct (get_size_by_dims _); [|done]. intros [= <-]. split; cbn; rewrite ?Zlen_snoc; lia || done.
  - destruct (get_size_by_dims _); [|done]. intros [= <-]. split; cbn; rewrite ?Zlen_snoc; lia || done.
Qed.

Lemma for_each_inv {I A} (P : A -> Prop) (f : I -> A -> option A) ks a a' :
  (forall i a a', P a -> f i a = Some a' -> P a') -> P a -> for_each ks f a = Some a' -> P a'.
Proof.
  intros Hf. revert a. induction ks as [|i ks IH]; intros a Ha; cbn [for_each]; [by intros [= <-]|].
  destruct (f i a) as [a1|] eqn:E; [|done]. cbn [mbind option_bind]. apply IH. by eapply Hf.
Qed.

Lemma create_YOLOv8_ok E y : create_YOLOv8 E = Some y -> created y.
Proof. apply for_each_inv; [intros i a a'; apply add_binding_created|done]. Qed.

(** What the allocators promise. *)
Definition gives_size (alloc : Z -> option (list Z)) : Prop :=
  forall n bs, alloc n = Some bs -> Zlen bs = n.

Section pipe.
Context (dev host : Z -> option (list Z)) (Hdev : gives_size dev) (Hhost : gives_size host).

Lemma alloc_inputs_spec bs y y' : foldl (alloc_input dev) (Done y) bs = Done y' ->
  exists ds, y' = set_ptrs (host_ptrs y) (device_ptrs y ++ ds) y /\ Zlen <$> ds = binding_bytes <$> bs.
Proof using Hdev.
  revert y. induction bs as [|b bs IH]; intros y; cbn [foldl].
  { intros [= <-]. exists []. rewrite app_nil_r. by destruct y. }
  cbn [alloc_input]. destruct (dev (binding_bytes b)) as [d|] eqn:Ed.
  - intros (ds & -> & Hds)%IH. exists (d :: ds). cbn. rewrite <-app_assoc. split; [done|].
    cbn in Hds. by rewrite Hds, (Hdev _ _ Ed).
  - assert (Hx : foldl (alloc_input dev) Exit bs = Exit) by (clear; by induction bs). by rewrite Hx.
Qed.

Lemma alloc_outputs_spec bs y y' : foldl (alloc_output dev host) (Done y) bs = Done y' ->
  exists hs ds, y' = set_ptrs (host_ptrs y ++ hs) (device_ptrs y ++ ds) y
    /\ Zlen <$> ds = binding_bytes <$> bs /\ Zlen <$> hs = binding_bytes <$> bs.
Proof using Hdev Hhost.
  revert y. induction bs as [|b bs IH]; intros y; cbn [foldl].
  { intros [= <-]. exists [], []. rewrite !app_nil_r. by destruct y. }
  cbn [alloc_output]. cbv zeta. destruct (dev (binding_bytes b)) as [d|] eqn:Ed.
  - destruct (host (binding_bytes b)) as [h|] eqn:Eh.
    + intros (hs & ds & -> & Hds & Hhs)%IH. exists (h :: hs), (d :: ds). cbn. rewrite <-!app_assoc. split; [done|].
      cbn in Hds, Hhs. by rewrite Hds, Hhs, (Hdev _ _ Ed), (Hhost _ _ Eh).
    + assert (Hx : foldl (alloc_output dev host) Exit bs = Exit) by (clear; by induction bs). by rewrite Hx.
  - assert (Hx : foldl (alloc_output dev host) Exit bs = Exit) by (clear; by induction bs). by rewrite Hx.
Qed.

Lemma warm_turn_ok E `{!EngineLaws E} y b : yolo_ok y -> input_bindings y = [b] ->
  exists y', warm_turn E y = Some y' /\ yolo_ok y' /\ input_bindings y' = [b].
Proof.
  intros Hy Hb. unfold warm_turn. rewrite Hb. cbn [for_each].
  destruct (upload_spec (replicate (Z.to_nat (binding_bytes b)) 0) y b Hy) as (y1 & -> & Hy1 & _ & Hb1 & _).
  { by rewrite Hb. }
  { unfold Zlen. rewrite length_replicate, Z2Nat.id; [lia|]. unfold binding_bytes, u64. apply Z.mod_pos_bound. lia. }
  cbn [mbind option_bind]. destruct (infer_spec E y1 Hy1) as (y2 & Ey & Hy2 & _). exists y2. split; [done|].
  split; [done|]. unfold infer in Ey. destruct (for_each _ _ _) as [hs|]; [|done]. injection Ey as <-. cbn. by rewrite Hb1.
Qed.

(** With one input, [make_pipe] either ends the program or leaves everything allocated. *)
Lemma make_pipe_ok E `{!EngineLaws E} warmup y b : created y -> input_bindings y = [b] ->
  make_pipe E dev host warmup y = Some Exit
  \/ exists y', make_pipe E dev host warmup y = Some (Done y') /\ yolo_ok y' /\ input_bindings y' = [b].
Proof using Hdev Hhost.
  intros [Hi Ho [Hd Hh]] Hb. unfold make_pipe.
  destruct (foldl (alloc_output dev host) _ _) as [|y'] eqn:Ea; [by left|right].
  destruct (foldl (alloc_input dev) (Done y) (input_bindings y)) as [|y1] eqn:Ei.
  { assert (Hx : forall bs, foldl (alloc_output dev host) Exit bs = Exit) by (clear; by induction bs).
    by rewrite Hx in Ea. }
  apply alloc_inputs_spec in Ei as (ds & -> & Hds).
  apply alloc_outputs_spec in Ea as (hs & ds2 & -> & Hds2 & Hhs).
  set (y' := set_ptrs _ _ _). assert (Hy : yolo_ok y' /\ input_bindings y' = [b]).
  { split; [|done]. split; cbn; rewrite ?Hd, ?Hh; [done..| |done]. cbn. by rewrite !fmap_app, Hds, Hds2. }
  clearbody y'. destruct warmup; [|exists y'; by destruct Hy].
  assert (H : forall k, exists y'', Nat.iter k (λ y, y ← y; warm_turn E y) (Some y') = Some y''
    /\ yolo_ok y'' /\ input_bindings y'' = [b]).
  { induction k as [|k (y2 & IH1 & IH2 & IH3)]; [exists y'; by destruct Hy|].
    cbn [Nat.iter nat_rect]. unfold Nat.iter in IH1. rewrite IH1. cbn [mbind option_bind]. by apply warm_turn_ok. }
  destruct (H 10%nat) as (y'' & -> & H'). by exists y''.
Qed.
End pipe.

(** ** Boxes in the picture *)

Definition within (x size : double) : Prop := dle (f_of_Z 0) x = true /\ dle x size = true.

(** Both corners of a box are in the picture; it stores the first and the differences. *)
Definition in_picture (p : PreParam) (o : Object) : Prop :=
  exists x0 y0 x1 y1, rect o = Vec4 x0 y0 (fsub x1 x0) (fsub y1 y0)
    /\ within x0 (pp_width p) /\ within x1 (pp_width p)
    /\ within y0 (pp_height p) /\ within y1 (pp_height p).

Lemma clamp_within x n : size_ok n -> within (clamp x (f_of_Z 0) (f_of_Z n)) (f_of_Z n).
Proof.
  intros Hn. pose proof (size_val n Hn) as Hv. destruct (val_compare _ _ _ _ Hv Hv) as [_ Hr].
  assert (H0 : dle (f_of_Z 0) (f_of_Z n) = true) by (by destruct Hv as (m & e & -> & _)).
  unfold clamp, within. destruct (dlt (f_of_Z 0) x) eqn:E1; [|done].
  assert (Hle : forall a b, dlt a b = true -> dle a b = true).
  { intros a b. unfold dlt, dle, SFltb, SFleb. by destruct (SFcompare a b) as [[]|]. }
  destruct (dlt x (f_of_Z n)) eqn:E2; [split; by apply Hle|]. split; [done|]. apply Hr. apply RIneq.Rle_refl.
Qed.

Lemma ld_le_is_Some n m p : is_Some (ld_le n m p) <-> 0 <= p /\ p + Z.of_nat n <= Zlen m.
Proof. unfold ld_le. rewrite fmap_is_Some, ld_bytes_Some. split; intros; split_and?; lia. Qed.

(** An object is read exactly when its index is below the size of the buffers. *)
Lemma box_object_spec p w h boxes scores labels cap i :
  pp_width p = f_of_Z w -> pp_height p = f_of_Z h -> size_ok w -> size_ok h -> 0 <= i ->
  Zlen boxes = 16 * cap -> Zlen scores = 4 * cap -> Zlen labels = 4 * cap ->
  match box_object p boxes scores labels i with
  | None => cap <= i
  | Some o => i < cap /\ in_picture p o
  end.
Proof.
  intros Hpw Hph Hw Hh Hi Hb Hs Hl. unfold box_object, ld_f32, ld_i32.
  assert (Hall : forall m k, Zlen m = k * cap -> 0 < k -> forall d, 0 <= d -> d + 4 <= k ->
    match ld_le 4 m (k * i + d) with None => cap <= i | Some _ => i < cap end).
  { intros m k Hm Hk d Hd Hdk. pose proof (ld_le_is_Some 4 m (k * i + d)) as H.
    destruct (ld_le 4 m (k * i + d)).
    - destruct H as [H _]. specialize (H (mk_is_Some _ _ eq_refl)). nia.
    - destruct (Z.le_gt_cases cap i); [done|]. destruct H as [_ H].
      destruct H as [? H]; [|done]. change (Z.of_nat 4) with 4. nia. }
  pose proof (Hall boxes 16 Hb ltac:(lia)) as Hbox. pose proof (Hall scores 4 Hs ltac:(lia) 0) as Hsc.
  pose proof (Hall labels 4 Hl ltac:(lia) 0) as Hla. rewrite Z.add_0_r in Hsc, Hla.
  pose proof (Hbox 0 ltac:(lia) ltac:(lia)) as B0. rewrite Z.add_0_r in B0.
  destruct (ld_le 4 boxes (16 * i)); [|done]. cbn [fmap option_fmap option_map mbind option_bind].
  pose proof (Hbox 4 ltac:(lia) ltac:(lia)) as B1.
  destruct (ld_le 4 boxes (16 * i + 4)); [|done]. cbn [fmap option_fmap option_map mbind option_bind].
  pose proof (Hbox 8 ltac:(lia) ltac:(lia)) as B2.
  destruct (ld_le 4 boxes (16 * i + 8)); [|done]. cbn [fmap option_fmap option_map mbind option_bind].
  pose proof (Hbox 12 ltac:(lia) ltac:(lia)) as B3.
  destruct (ld_le 4 boxes (16 * i + 12)); [|done]. cbn [fmap option_fmap option_map mbind option_bind].
  specialize (Hsc ltac:(lia) ltac:(lia)). specialize (Hla ltac:(lia) ltac:(lia)).
  destruct (ld_le 4 scores (4 * i)); [|done]. cbn [fmap option_fmap option_map mbind option_bind].
  destruct (ld_le 4 labels (4 * i)); [|done]. cbn [fmap option_fmap option_map mbind option_bind].
  split; [done|]. eexists _, _, _, _. split; [reflexivity|]. unfold back. rewrite Hpw, Hph.
  split_and!; by apply clamp_within.
Qed.

(** The buffers of the outputs: the number of boxes, and room for [cap] of them. *)
Definition outputs_for (cap : Z) (y : YOLOv8) : Prop :=
  binding_bytes <$> output_bindings y = [4; 16 * cap; 4 * cap; 4 * cap].

Lemma postprocess_spec y cap w h : yolo_ok y -> outputs_for cap y -> 0 <= cap ->
  pp_width (pparam y) = f_of_Z w -> pp_height (pparam y) = f_of_Z h -> size_ok w -> size_ok h ->
  exists num n, aget (host_ptrs y) 0 = Some num /\ ld_i32 num 0 = Some n
    /\ match postprocess y with
       | None => cap < n
       | Some objs => n <= cap /\ Zlen objs = Z.max 0 n /\ Forall (in_picture (pparam y)) objs
       end.
Proof.
  intros Hy Ho Hcap Hw Hh Hsw Hsh. pose proof (yo_host _ Hy) as Hl. rewrite Ho in Hl.
  destruct (host_ptrs y) as [|num [|boxes [|scores [|labels [|]]]]] eqn:Eh; try done.
  injection Hl as Hn Hb Hs Hlb. unfold postprocess. rewrite Eh.
  change (aget [num; boxes; scores; labels] 0) with (Some num).
  change (aget [num; boxes; scores; labels] 1) with (Some boxes).
  change (aget [num; boxes; scores; labels] 2) with (Some scores).
  change (aget [num; boxes; scores; labels] 3) with (Some labels). cbn [mbind option_bind].
  destruct (proj2 (ld_le_is_Some 4 num 0)) as [nv Env]; [change (Z.of_nat 4) with 4; lia|].
  exists num, (i32 nv). split; [done|]. unfold ld_i32. rewrite Env. split; [done|].
  cbn [fmap option_fmap option_map mbind option_bind]. set (n := i32 nv).
  pose proof (λ i Hi, box_object_spec (pparam y) w h boxes scores labels cap i Hw Hh Hsw Hsh Hi Hb Hs Hlb) as Hbox.
  destruct (mapM (box_object (pparam y) boxes scores labels) (range 0 n)) as [objs|] eqn:Em.
  - apply mapM_Some in Em. split; [|split].
    + destruct (Z.le_gt_cases n cap) as [|Hgt]; [done|].
      assert (Hin : cap ∈ range 0 n) by (apply elem_range; lia).
      apply list_elem_of_lookup in Hin as [j Hj]. destruct (Forall2_lookup_l _ _ _ _ _ Em Hj) as (o & _ & Ho2).
      specialize (Hbox cap Hcap). rewrite Ho2 in Hbox. lia.
    + unfold Zlen. rewrite <-(Forall2_length _ _ _ Em), length_range. lia.
    + apply Forall_forall. intros o Ho2. apply list_elem_of_lookup in Ho2 as [j Hj].
      destruct (Forall2_lookup_r _ _ _ _ _ Em Hj) as (i & Hi & Hio).
      apply list_elem_of_lookup_2, elem_range in Hi. specialize (Hbox i ltac:(lia)). rewrite Hio in Hbox. tauto.
  - destruct (Z.le_gt_cases n cap) as [Hle|]; [|done]. exfalso. apply eq_None_not_Some in Em. apply Em.
    apply mapM_is_Some_2, Forall_forall. intros i Hi%elem_range. specialize (Hbox i ltac:(lia)).
    cbn. destruct (box_object _ _ _ _ i); [done|lia].
Qed.

(** ** Pictures *)

Section pictures.
Context {Mat : Type} `{!OpenCV Mat, !OpenCVLaws Mat}.
Implicit Types image : Mat.

Lemma size_to_int n : size_ok n -> d_to_i32 (f_of_Z n) = Some n.
Proof.
  intros Hn. apply d_to_int_val; [by apply size_val|..]; unfold size_ok in Hn.
  - assert (65536 < 2 ^ 52) by done. lia.
  - assert (65536 < 2 ^ 31) by done. lia.
Qed.

Lemma cv_border_ok image l W H : fills W H l -> cols image = padw l -> rows image = padh l ->
  exists m, cv_border image (bd_top l) (bd_bottom l) (bd_left l) (bd_right l) = Some m
    /\ Zlen (blobFromImage m) = 3 * H * W * 4.
Proof.
  intros Hf Hw Hh. destruct Hf as [F1 F2 F3 F4 F5 F6 F7 F8 _].
  exists (copyMakeBorder image (bd_top l) (bd_bottom l) (bd_left l) (bd_right l)). split.
  - unfold cv_border. by rewrite !(proj2 (Z.leb_le _ _)) by lia.
  - destruct (border_size image (bd_top l) (bd_bottom l) (bd_left l) (bd_right l)) as [E1 E2]; [lia..|].
    rewrite blob_size, E1, E2, Hw, Hh. f_equal. f_equal; [f_equal|]; lia.
Qed.

Lemma letterbox_spec image W H : sizes_ok (cols image) (rows image) W H ->
  exists nchw l p, letterbox image W H = Some (nchw, p) /\ Zlen nchw = 3 * H * W * 4
    /\ letterbox_layout (f_of_Z (cols image)) (f_of_Z (rows image)) (f_of_Z W) (f_of_Z H) = Some (l, p)
    /\ fills W H l /\ pp_width p = f_of_Z (cols image) /\ pp_height p = f_of_Z (rows image).
Proof.
  intros Hs. destruct (letterbox_layout_spec _ _ _ _ Hs) as (l & p & r & El & Hf & _ & _ & _ & _ & Ep).
  unfold letterbox. rewrite El. cbn [mbind option_bind].
  rewrite (size_to_int _ (so_w _ _ _ _ Hs)), (size_to_int _ (so_h _ _ _ _ Hs)). cbn [mbind option_bind].
  assert (Ht : exists tmp, (if negb (cols image =? padw l) || negb (rows image =? padh l)
      then cv_resize image (padw l) (padh l) else Some image) = Some tmp
      /\ cols tmp = padw l /\ rows tmp = padh l).
  { destruct (Z.eqb_spec (cols image) (padw l)), (Z.eqb_spec (rows image) (padh l)); cbn [negb orb];
      [by exists image|..]; (eexists; split; [|apply resize_size; destruct Hf; lia]);
      unfold cv_resize; destruct Hf, Hs as [[? _] [? _] _ _ _ _]; by rewrite !(proj2 (Z.ltb_lt 0 _)) by lia. }
  destruct Ht as (tmp & -> & Hw & Hh). cbn [mbind option_bind].
  destruct (cv_border_ok tmp l W H Hf Hw Hh) as (m & -> & Hm). cbn [mbind option_bind].
  exists (blobFromImage m), l, p. rewrite Ep. by split_and!.
Qed.

(** C10: the input of the network.  For every picture and every size of the input (up to
    65536 pixels a side, and a picture that is not so long and thin that its short side
    vanishes), in spite of the rounding of [float]s: the scaled picture has at least a pixel,
    it touches two opposite sides of the input, the frame of grey completes it to exactly the
    input and differs by at most a pixel between opposite sides; so the bytes that
    [copy_from_Mat] sends are exactly those of the input, and the copy stays inside the
    device's buffer exactly when this size is not greater than what the engine was built for. *)
Theorem letterbox_fills image W H y b : sizes_ok (cols image) (rows image) W H ->
  yolo_ok y -> input_bindings y !! 0%nat = Some b ->
  (exists l p, letterbox_layout (f_of_Z (cols image)) (f_of_Z (rows image)) (f_of_Z W) (f_of_Z H) = Some (l, p)
    /\ fills W H l)
  /\ (exists nchw p, letterbox image W H = Some (nchw, p) /\ Zlen nchw = 3 * H * W * 4)
  /\ match copy_from_Mat image W H y with
     | None => binding_bytes b < 3 * H * W * 4
     | Some y' => 3 * H * W * 4 <= binding_bytes b /\ yolo_ok y'
                  /\ set_dims y' = set_dims y ++ [(0, [1; 3; H; W])]
     end.
Proof.
  intros Hs Hy Hb. destruct (letterbox_spec image W H Hs) as (nchw & l & p & E & Hz & El & Hf & _).
  split; [by eauto|]. split; [by eauto|]. unfold copy_from_Mat. rewrite E. cbn [mbind option_bind].
  assert (Hy1 : yolo_ok (setBindingDimensions 0 [1; 3; H; W] (set_pparam p y))).
  { by apply setBindingDimensions_ok, set_pparam_ok. }
  destruct (Z.le_gt_cases (Zlen nchw) (binding_bytes b)) as [Hle|Hgt].
  - destruct (upload_spec nchw _ b Hy1 Hb Hle) as (y' & Eu & Hy' & _). rewrite Eu. split; [lia|]. split; [done|].
    by apply upload_dims in Eu as ->.
  - assert (Eu : upload nchw (setBindingDimensions 0 [1; 3; H; W] (set_pparam p y)) = None).
    { eapply upload_short; [exact Hy1|exact Hb|lia]. }
    rewrite Eu. lia.
Qed.


(** C11: the boxes of a picture.  The engine has one output with the number of the boxes and
    three with room for [cap] of them, and its input is large enough for 1280 times 1280
    pixels.  Then the picture is copied, the network runs, and what the detection does is
    decided by the number [n] that the network writes: the boxes are read in order when [n]
    is at most [cap], and behind the end of a buffer otherwise, which nothing checks.  Every
    box has both corners in the picture, whatever numbers the network writes, infinities and
    what is not a number included; the buffers keep their sizes for the next picture. *)
Theorem detect_in_picture E `{!EngineLaws E} image y b cap :
  sizes_ok (cols image) (rows image) 1280 1280 -> yolo_ok y ->
  input_bindings y !! 0%nat = Some b -> 3 * 1280 * 1280 * 4 <= binding_bytes b ->
  outputs_for cap y -> 0 <= cap ->
  exists y' num n, (y ← copy_from_Mat image 1280 1280 y; infer E y) = Some y' /\ yolo_ok y'
    /\ aget (host_ptrs y') 0 = Some num /\ ld_i32 num 0 = Some n
    /\ match detect E image y with
       | None => cap < n
       | Some (objs, y2) => n <= cap /\ y2 = y' /\ Zlen objs = Z.max 0 n
                            /\ Forall (in_picture (pparam y')) objs
                            /\ pp_width (pparam y') = f_of_Z (cols image)
                            /\ pp_height (pparam y') = f_of_Z (rows image)
       end.
Proof using OpenCVLaws0.
  intros Hs Hy Hb Hbig Ho Hcap.
  destruct (letterbox_spec image 1280 1280 Hs) as (nchw & l & p & El & Hz & _ & _ & Hpw & Hph).
  unfold detect, copy_from_Mat. rewrite El. cbn [mbind option_bind].
  destruct (upload_spec nchw (setBindingDimensions 0 [1; 3; 1280; 1280] (set_pparam p y)) b) as
    (y1 & -> & Hy1 & Hp1 & Hb1 & Ho1); [by apply setBindingDimensions_ok, set_pparam_ok|done|lia|].
  cbn [mbind option_bind]. destruct (infer_spec E y1 Hy1) as (y2 & -> & Hy2 & Hp2 & Ho2 & _).
  cbn [mbind option_bind]. assert (Ep : pparam y2 = p) by (by rewrite Hp2, Hp1).
  destruct (postprocess_spec y2 cap (cols image) (rows image)) as (num & n & Hnum & Hn & Hpost); try done.
  { unfold outputs_for. rewrite Ho2, Ho1. exact Ho. }
  { by rewrite Ep. } { by rewrite Ep. } { apply Hs. } { apply Hs. }
  exists y2, num, n. do 4 (split; [done|]). destruct (postprocess y2) as [objs|]; cbn [mbind option_bind]; [|done].
  destruct Hpost as (? & ? & ?). rewrite Ep in *. by split_and!.
Qed.
End pictures.

(** ** Witnesses *)

(** Pictures as their sizes. *)
#[export] Instance demo_cv : OpenCV (N * N) := {|
  cols := λ m, Z.of_N m.1; rows := λ m, Z.of_N m.2;
  resize := λ _ w h, (Z.to_N w, Z.to_N h);
  copyMakeBorder := λ m t b l r, (Z.to_N (Z.of_N m.1 + l + r), Z.to_N (Z.of_N m.2 + t + b));
  blobFromImage := λ m, replicate (Z.to_nat (3 * Z.of_N m.2 * Z.of_N m.1 * 4)) 0
|}.

Lemma Zlen_replicate {A} n (x : A) : 0 <= n -> Zlen (replicate (Z.to_nat n) x) = n.
Proof. intros H. unfold Zlen. rewrite length_replicate. lia. Qed.

#[export] Instance demo_cv_laws : OpenCVLaws (N * N).
Proof.
  split; [intros m w h; cbn; lia|intros m t b l r; cbn; lia|].
  intros m. apply Zlen_replicate. cbn. lia.
Qed.

(** A network that always finds one box. *)
Definition demo_engine : ICudaEngine := {|
  getNbBindings := 5; getBindingDataType := λ i, if i =? 1 then kINT32 else kFLOAT;
  getBindingName := λ _, []; bindingIsInput := λ i, i =? 0;
  getProfileDimensions := λ _, [1; 3; 1280; 1280];
  getBindingDimensions := λ _ i, if i =? 1 then [1; 1] else if i =? 2 then [1; 100; 4] else [1; 100];
  enqueueV2 := λ _ devs, match devs with
                         | d :: [_; _; _; _] :: rest => d :: [1; 0; 0; 0] :: rest
                         | _ => devs
                         end
|}.

#[export] Instance demo_engine_laws : EngineLaws demo_engine.
Proof. split. intros set [|d [|[|? [|? [|? [|? [|]]]]] rest]]; done. Qed.

Definition demo_alloc (n : Z) : option (list Z) := Some (replicate (Z.to_nat n) 0).
Definition demo_yolo : YOLOv8 :=
  default (new_YOLOv8 0) (create_YOLOv8 demo_engine).

(** The object as [make_pipe] leaves it without a warming up. *)
Definition demo_ready : YOLOv8 :=
  let sizes bs := (λ b, replicate (Z.to_nat (binding_bytes b)) 0) <$> bs in
  set_ptrs (sizes (output_bindings demo_yolo))
    (sizes (input_bindings demo_yolo ++ output_bindings demo_yolo)) demo_yolo.

Lemma demo_created : create_YOLOv8 demo_engine = Some demo_yolo.
Proof. by vm_compute. Qed.

Lemma demo_piped : make_pipe demo_engine demo_alloc demo_alloc false demo_yolo = Some (Done demo_ready).
Proof. reflexivity. Qed.

Lemma demo_ready_ok : yolo_ok demo_ready.
Proof.
  pose proof (create_YOLOv8_ok _ _ demo_created) as [H1 H2 _].
  assert (Hs : forall bs : list Binding, Zlen <$> ((λ b, replicate (Z.to_nat (binding_bytes b)) 0) <$> bs) = binding_bytes <$> bs).
  { intros bs. rewrite <-list_fmap_compose. apply list_fmap_ext. intros i b _. cbn. apply Zlen_replicate.
    apply Z.mod_pos_bound. lia. }
  split; [exact H1|exact H2|apply Hs..].
Qed.

Lemma demo_sizes : sizes_ok (cols (1920%N, 1080%N)) (rows (1920%N, 1080%N)) 1280 1280.
Proof. split; unfold size_ok; cbn; lia. Qed.

Definition demo_input : Binding :=
  {| b_size := 4915200; b_dsize := 4; b_dims := [1; 3; 1280; 1280]; b_name := [] |}.

Lemma demo_input_at : input_bindings demo_ready !! 0%nat = Some demo_input.
Proof. change (input_bindings demo_yolo !! 0%nat = Some demo_input). by vm_compute. Qed.

Lemma demo_outputs : outputs_for 100 demo_ready.
Proof. unfold outputs_for. change (output_bindings demo_ready) with (output_bindings demo_yolo). by vm_compute. Qed.

Lemma letterbox_fills_witness :
  match copy_from_Mat (1920%N, 1080%N) 1280 1280 demo_ready with
  | None => binding_bytes demo_input < 3 * 1280 * 1280 * 4
  | Some y' => 3 * 1280 * 1280 * 4 <= binding_bytes demo_input /\ yolo_ok y'
               /\ set_dims y' = set_dims demo_ready ++ [(0, [1; 3; 1280; 1280])]
  end.
Proof.
  pose proof (letterbox_fills (1920%N, 1080%N) 1280 1280 demo_ready demo_input demo_sizes demo_ready_ok
    demo_input_at) as H.
  destruct H as (_ & _ & H). exact H.
Defined.


Lemma detect_in_picture_witness : exists y' num n,
  yolo_ok y' /\ aget (host_ptrs y') 0 = Some num /\ ld_i32 num 0 = Some n
  /\ match detect demo_engine (1920%N, 1080%N) demo_ready with
     | None => 100 < n
     | Some (objs, y2) => n <= 100 /\ y2 = y' /\ Zlen objs = Z.max 0 n
     end.
Proof.
  destruct (detect_in_picture demo_engine (1920%N, 1080%N) demo_ready demo_input 100 demo_sizes demo_ready_ok
    demo_input_at) as (y' & num & n & _ & H1 & H2 & H3 & H4); [by vm_compute|exact demo_outputs|lia|].
  exists y', num, n. split; [exact H1|]. split; [exact H2|]. split; [exact H3|].
  destruct (detect _ _ _) as [[objs y2]|]; [|exact H4]. destruct H4 as (? & ? & ? & _). auto.
Defined.
