(* ===== verification/Bytetrack.v ===== *)
(** * Boxes from anchors ([yolov8_infer/bytetrack.cpp])

    The demonstration of the tracker decodes the raw output of a network itself: an anchor of
    a grid gives a box when its probability is large enough, the boxes are sorted, and of
    boxes that overlap the most probable one is kept.  OpenCV's rectangles and [expf] are
    parameters. *)

From stdpp Require Import list_numbers.
From S2P Require Import Prelude Arrays CFloat Tracker.
Local Open Scope list_scope.
Local Open Scope Z_scope.

Definition INPUT_W : Z := 1088.
Definition INPUT_H : Z := 608.
Definition NMS_THRESH : double := d_round32 (d_lit 7 10).
Definition BBOX_CONF_THRESH : double := d_round32 (d_lit 1 10).

(** ** The code: anchors *)

Record GridAndStride := { grid0 : Z; grid1 : Z; stride : Z }.

Definition generate_grids_and_stride (target_w target_h : Z) (strides : list Z) : list GridAndStride :=
  strides ≫= λ stride,
    let num_grid_w := Z.quot target_w stride in
    let num_grid_h := Z.quot target_h stride in
    range 0 num_grid_h ≫= λ g1,
      (λ g0, {| grid0 := g0; grid1 := g1; stride := stride |}) <$> range 0 num_grid_w.

Section decode.
Context (expf : double -> double).

(** An anchor with the box it gives; there is one class. *)
Definition anchor_box (feat_blob : list double) (prob_threshold : double) (anchor_idx : Z)
    (g : GridAndStride) : option (list Object) :=
  let basic_pos := anchor_idx * 6 in
  f0 ← aget feat_blob basic_pos;
  f1 ← aget feat_blob (basic_pos + 1);
  f2 ← aget feat_blob (basic_pos + 2);
  f3 ← aget feat_blob (basic_pos + 3);
  box_objectness ← aget feat_blob (basic_pos + 4);
  box_cls_score ← aget feat_blob (basic_pos + 5);
  let x_center := fmul (fadd f0 (f_of_Z (grid0 g))) (f_of_Z (stride g)) in
  let y_center := fmul (fadd f1 (f_of_Z (grid1 g))) (f_of_Z (stride g)) in
  let w := fmul (expf f2) (f_of_Z (stride g)) in
  let h := fmul (expf f3) (f_of_Z (stride g)) in
  let half := d_lit 1 2 in
  let x0 := fsub x_center (fmul w half) in
  let y0 := fsub y_center (fmul h half) in
  let box_prob := fmul box_objectness box_cls_score in
  Some (if dlt prob_threshold box_prob
        then [{| rect := Vec4 x0 y0 w h; label := 0; prob := box_prob |}] else []).

Definition generate_yolox_proposals (grid_strides : list GridAndStride) (feat_blob : list double)
    (prob_threshold : double) : option (list Object) :=
  objects ← mapM (λ '(i, g), anchor_box feat_blob prob_threshold i g)
              (zip (range 0 (Zlen grid_strides)) grid_strides);
  Some (concat objects).
End decode.

(** ** The code: sorting *)

(** [while (faceobjects[i].prob > p) i++;] and [while (faceobjects[j].prob < p) j--;] *)
Fixpoint scan_up (fuel : nat) (l : list Object) (p : double) (i : Z) : option Z :=
  match fuel with
  | O => None
  | S fuel => o ← aget l i; if dlt p (prob o) then scan_up fuel l p (i + 1) else Some i
  end.
Fixpoint scan_down (fuel : nat) (l : list Object) (p : double) (j : Z) : option Z :=
  match fuel with
  | O => None
  | S fuel => o ← aget l j; if dlt (prob o) p then scan_down fuel l p (j - 1) else Some j
  end.

Definition swap (l : list Object) (i j : Z) : option (list Object) :=
  a ← aget l i; b ← aget l j; l ← aset l i b; aset l j a.

(** [while (i <= j)] *)
Fixpoint partition_loop (fuel : nat) (l : list Object) (p : double) (i j : Z)
  : option (list Object * Z * Z) :=
  match fuel with
  | O => None
  | S fuel =>
      if i <=? j then
        i ← scan_up (S (length l)) l p i;
        j ← scan_down (S (length l)) l p j;
        if i <=? j then
          l ← swap l i j;
          partition_loop fuel l p (i + 1) (j - 1)
        else partition_loop fuel l p i j
      else Some (l, i, j)
  end.

(** The two parts are disjoint, so the sections that sort them in parallel are written one
    after the other. *)
Fixpoint qsort_range (fuel : nat) (l : list Object) (left right : Z) : option (list Object) :=
  match fuel with
  | O => None
  | S fuel =>
      sum ← int_of (left + right);
      pivot ← aget l (Z.quot sum 2);
      '(l, i, j) ← partition_loop (S (S (length l))) l (prob pivot) left right;
      l ← (if left <? j then qsort_range fuel l left j else Some l);
      if i <? right then qsort_range fuel l i right else Some l
  end.

Definition qsort_descent_inplace (objects : list Object) : option (list Object) :=
  match objects with
  | [] => Some []
  | _ => qsort_range (length objects) objects 0 (Zlen objects - 1)
  end.

(** ** The code: suppressing boxes *)

(** [cv::Rect_<float>]: the intersection and the area. *)
Class Rects := { rect_and : vec4 -> vec4 -> vec4; rect_area : vec4 -> double }.

Section suppression.
Context {rects : Rects}.

Definition intersection_area (a b : Object) : double := rect_area (rect_and (rect a) (rect b)).

(** Whether a box suppresses another one. *)
Definition overlaps (nms_threshold : double) (a b : Object) : bool :=
  let inter_area := intersection_area a b in
  let union_area := fsub (fadd (rect_area (rect a)) (rect_area (rect b))) inter_area in
  dlt nms_threshold (fdiv inter_area union_area).

(** A turn of the loop: [keep] is cleared by any of the picked boxes. *)
Definition nms_turn (faceobjects : list Object) (nms_threshold : double) (i : Z) (picked : list Z)
  : option (list Z) :=
  a ← aget faceobjects i;
  keep ← for_each picked (λ j keep, b ← aget faceobjects j;
                          Some (if overlaps nms_threshold a b then false else keep)) true;
  Some (if keep : bool then picked ++ [i] else picked).

Definition nms_sorted_bboxes (faceobjects : list Object) (nms_threshold : double) : option (list Z) :=
  for_each (range 0 (Zlen faceobjects)) (nms_turn faceobjects nms_threshold) [].

(** ** The code: all together *)

Definition scale_back (scale : double) (o : Object) : Object :=
  let x0 := fdiv (v4_0 (rect o)) scale in
  let y0 := fdiv (v4_1 (rect o)) scale in
  let x1 := fdiv (fadd (v4_0 (rect o)) (v4_2 (rect o))) scale in
  let y1 := fdiv (fadd (v4_1 (rect o)) (v4_3 (rect o))) scale in
  {| rect := Vec4 x0 y0 (fsub x1 x0) (fsub y1 y0); label := label o; prob := prob o |}.

Definition decode_outputs (expf : double -> double) (blob : list double) (scale : double)
  : option (list Object) :=
  let grid_strides := generate_grids_and_stride INPUT_W INPUT_H [8; 16; 32] in
  proposals ← generate_yolox_proposals expf grid_strides blob BBOX_CONF_THRESH;
  proposals ← qsort_descent_inplace proposals;
  picked ← nms_sorted_bboxes proposals NMS_THRESH;
  objects ← mapM (aget proposals) picked;
  Some (scale_back scale <$> objects).
End suppression.

Example grid_size : length (generate_grids_and_stride INPUT_W INPUT_H [8; 16; 32]) = 13566%nat.
Proof. by vm_compute. Qed.
