(* ===== verification/BytetrackSort.v ===== *)
(** * The sort of the boxes ([yolov8_infer/bytetrack.cpp])

    [qsort_descent_inplace] is a quicksort in place: it never leaves the vector, it ends, the
    result is a permutation, and it is sorted when no probability is a NaN. *)

From stdpp Require Import list_numbers sorting.
From S2P Require Import Prelude Arrays CFloat Tracker Bytetrack.
Local Open Scope list_scope.
Local Open Scope Z_scope.

(** ** The order of probabilities *)

Lemma dlt_irrefl x : dlt x x = false.
Proof.
  unfold dlt, SFltb, SFcompare. destruct x as [| [] | |[] m e]; try done;
    change (Z.compare e e) with (e ?= e); rewrite Z.compare_refl;
    change (Pos.compare_cont Eq m m) with (m ?= m)%positive; by rewrite Pos.compare_refl.
Qed.

Lemma dlt_asym x y : dlt x y = true -> dlt y x = false.
Proof.
  unfold dlt, SFltb, SFcompare. destruct x as [| [] | |[] m e], y as [| [] | |[] m' e']; try done;
    change (Z.compare ?a ?b) with (a ?= b)%Z; change (Pos.compare_cont Eq ?a ?b) with (a ?= b)%positive;
    rewrite (Z.compare_antisym e e'); destruct (Z.compare_spec e e') as [->|H|H]; cbn; try done;
    rewrite (Pos.compare_antisym m m'); by destruct (m ?= m')%positive.
Qed.

Lemma dlt_split x p y : p <> S754_nan -> dlt x y = true -> dlt x p = true \/ dlt p y = true.
Proof.
  unfold dlt, SFltb, SFcompare. intros Hp.
  destruct x as [| [] | |[] m e], y as [| [] | |[] m' e'], p as [| [] | |[] n k]; try done; auto;
    change (Z.compare ?a ?b) with (a ?= b)%Z; change (Pos.compare_cont Eq ?a ?b) with (a ?= b)%positive;
    destruct (Z.compare_spec e e'), (Z.compare_spec e k), (Z.compare_spec k e'); subst; try done; auto; try lia;
    destruct (Pos.compare_spec m m'), (Pos.compare_spec m n), (Pos.compare_spec n m'); subst; try done; auto; lia.
Qed.

(** ** Parts of a vector *)

(** The vectors differ only between [l] and [r], and by a permutation. *)
Definition seg (l r : Z) (os os' : list Object) : Prop :=
  os ≡ₚ os' /\ forall k, ~ (l <= k <= r) -> aget os' k = aget os k.

Definition on_range (P : Object -> Prop) (l r : Z) (os : list Object) : Prop :=
  forall k o, l <= k <= r -> aget os k = Some o -> P o.

Lemma seg_refl l r os : seg l r os os.
Proof. by split. Qed.
Lemma seg_trans l r os1 os2 os3 : seg l r os1 os2 -> seg l r os2 os3 -> seg l r os1 os3.
Proof. intros [H1 H2] [H3 H4]. split; [by rewrite H1|]. intros k Hk. by rewrite H4, H2. Qed.
Lemma seg_wide l r l' r' os os' : l' <= l -> r <= r' -> seg l r os os' -> seg l' r' os os'.
Proof. intros Hl Hr [H1 H2]. split; [done|]. intros k Hk. apply H2. lia. Qed.
Lemma seg_length l r os os' : seg l r os os' -> Zlen os' = Zlen os.
Proof. intros [H _]. unfold Zlen. by rewrite H. Qed.

Lemma seg_on_range P l r os os' : 0 <= l -> l <= r + 1 -> seg l r os os' ->
  on_range P l r os -> on_range P l r os'.
Proof.
  intros Hl Hr [Hp Ho] HP k o Hk Hko.
  set (a := Z.to_nat l). set (b := Z.to_nat (r + 1)).
  assert (Hlook : forall i, (i < a \/ b <= i)%nat -> os' !! i = os !! i).
  { intros i Hi. specialize (Ho (Z.of_nat i)). unfold aget in Ho. rewrite Nat2Z.id in Ho.
    destruct (Z.leb_spec 0 (Z.of_nat i)); [|lia]. apply Ho. lia. }
  assert (Ha : take a os' = take a os).
  { apply list_eq. intros i. destruct (decide (i < a)%nat).
    - rewrite !lookup_take_lt by done. apply Hlook. by left.
    - by rewrite !lookup_take_ge by lia. }
  assert (Hb : drop b os' = drop b os).
  { apply list_eq. intros i. rewrite !lookup_drop. apply Hlook. right. lia. }
  assert (Hsplit : forall l0 : list Object, l0 = take a l0 ++ drop a (take b l0) ++ drop b l0).
  { intros l0. rewrite app_assoc. rewrite <-(take_drop b l0) at 1. f_equal.
    rewrite <-(take_drop a (take b l0)) at 1. f_equal. rewrite take_take. f_equal. lia. }
  assert (Hm : drop a (take b os) ≡ₚ drop a (take b os')).
  { pose proof (Hsplit os) as E1. pose proof (Hsplit os') as E2. rewrite Ha, Hb in E2.
    apply (Permutation_app_inv_r (drop b os)), (Permutation_app_inv_l (take a os)).
    by rewrite <-E1, <-E2. }
  apply aget_Some in Hko as [Hk0 Hko].
  assert (Hin : o ∈ drop a (take b os')).
  { apply (list_elem_of_lookup_2 _ (Z.to_nat k - a)%nat). rewrite lookup_drop, lookup_take_lt by lia.
    by replace (a + (Z.to_nat k - a))%nat with (Z.to_nat k) by lia. }
  rewrite <-Hm in Hin. apply list_elem_of_lookup_1 in Hin as [i Hi]. rewrite lookup_drop in Hi.
  assert (Hib : (a + i < b)%nat).
  { destruct (decide (a + i < b)%nat); [done|]. by rewrite lookup_take_ge in Hi by lia. }
  rewrite lookup_take_lt in Hi by done.
  apply (HP (Z.of_nat (a + i)) o); [lia|]. apply aget_Some. rewrite Nat2Z.id. split; [lia|done].
Qed.

Lemma insert_permutation (os : list Object) i a b : os !! i = Some a -> <[i := b]> os ≡ₚ b :: delete i os.
Proof.
  intros H. assert (Hl : (i < length os)%nat) by (by apply lookup_lt_Some in H).
  rewrite (delete_Permutation (<[i := b]> os) i b) by (by apply list_lookup_insert_eq).
  by rewrite !delete_take_drop, take_insert_ge, drop_insert_lt by lia.
Qed.

Lemma swap_spec os i j a b : aget os i = Some a -> aget os j = Some b ->
  exists os', swap os i j = Some os' /\ seg (Z.min i j) (Z.max i j) os os'
    /\ aget os' i = Some b /\ aget os' j = Some a /\ (forall k, k <> i -> k <> j -> aget os' k = aget os k).
Proof.
  intros Ha Hb. unfold swap. rewrite Ha, Hb. cbn [mbind option_bind].
  assert (Hi : 0 <= i < Zlen os) by (apply aget_is_Some; by rewrite Ha).
  assert (Hj : 0 <= j < Zlen os) by (apply aget_is_Some; by rewrite Hb).
  unfold aset. destruct (Z.leb_spec 0 i), (Z.ltb_spec i (Zlen os)); [|lia..]. cbn [andb mbind option_bind].
  unfold Zlen. rewrite length_insert. fold (Zlen os).
  destruct (Z.leb_spec 0 j), (Z.ltb_spec j (Zlen os)); [|lia..]. cbn [andb].
  apply aget_Some in Ha as [_ Ha], Hb as [_ Hb]. unfold Zlen in Hi, Hj.
  set (os1 := <[Z.to_nat i := b]> os).
  assert (H1j : os1 !! Z.to_nat j = Some b).
  { unfold os1. destruct (decide (i = j)) as [->|]; [apply list_lookup_insert_eq; lia|].
    rewrite list_lookup_insert_ne by lia. done. }
  assert (Hlook : forall k, 0 <= k -> <[Z.to_nat j := a]> os1 !! Z.to_nat k
      = if decide (k = j) then Some a else if decide (k = i) then Some b else os !! Z.to_nat k).
  { intros k Hk. destruct (decide (k = j)) as [->|Hkj].
    - apply list_lookup_insert_eq. unfold os1. rewrite length_insert. lia.
    - rewrite list_lookup_insert_ne by lia. unfold os1. destruct (decide (k = i)) as [->|Hki].
      + apply list_lookup_insert_eq. lia.
      + by rewrite list_lookup_insert_ne by lia. }
  assert (Hother : forall k, k <> i -> k <> j -> aget (<[Z.to_nat j := a]> os1) k = aget os k).
  { intros k Hki Hkj. unfold aget. destruct (Z.leb_spec 0 k); [|done]. rewrite Hlook by lia.
    by rewrite !decide_False by done. }
  eexists. split; [done|]. split; [split|split; [|split]].
  - pose proof (insert_permutation os _ a b Ha) as P1. pose proof (delete_Permutation os _ a Ha) as P2.
    pose proof (insert_permutation os1 _ b a H1j) as P3. pose proof (delete_Permutation os1 _ b H1j) as P4.
    fold os1 in P1. assert (P5 : delete (Z.to_nat i) os ≡ₚ delete (Z.to_nat j) os1).
    { apply (Permutation_cons_inv (a := b)). by rewrite <-P1, <-P4. }
    by rewrite P3, <-P5, <-P2.
  - intros k Hk. apply Hother; lia.
  - apply aget_Some. split; [lia|]. rewrite Hlook by lia. destruct (decide (i = j)) as [->|].
    + congruence.
    + by rewrite decide_True by done.
  - apply aget_Some. split; [lia|]. rewrite Hlook by lia. by rewrite decide_True by done.
  - exact Hother.
Qed.

(** ** The partition *)

Definition not_below (p : double) (o : Object) : Prop := dlt (prob o) p = false.
Definition not_above (p : double) (o : Object) : Prop := dlt p (prob o) = false.

(** A scan stops at the latest at [k]. *)
Lemma scan_up_spec fuel os p i k ok : 0 <= i <= k -> aget os k = Some ok -> not_above p ok ->
  (Z.to_nat (k - i) < fuel)%nat ->
  exists i' o', scan_up fuel os p i = Some i' /\ i <= i' <= k /\ aget os i' = Some o' /\ not_above p o'
    /\ on_range (not_below p) i (i' - 1) os.
Proof.
  revert i. induction fuel as [|fuel IH]; intros i Hi Hk Hp Hf; [lia|].
  cbn [scan_up]. assert (Hr : 0 <= k < Zlen os) by (apply aget_is_Some; by rewrite Hk).
  destruct (proj2 (aget_is_Some os i) ltac:(lia)) as [o Ho]. rewrite Ho. cbn [mbind option_bind].
  destruct (dlt p (prob o)) eqn:E.
  - destruct (decide (i = k)) as [->|]; [unfold not_above in Hp; congruence|].
    destruct (IH (i + 1) ltac:(lia) Hk Hp ltac:(lia)) as (i' & o' & E1 & H1 & H2 & H3 & H4).
    exists i', o'. split; [done|]. split; [lia|]. split; [done|]. split; [done|].
    intros k' o2 Hk' Ho2. destruct (decide (k' = i)) as [->|]; [|apply (H4 k' o2); [lia|done]].
    rewrite Ho in Ho2. injection Ho2 as <-. by apply dlt_asym.
  - exists i, o. split; [done|]. split; [lia|]. split; [done|]. split; [done|]. intros k' o2 Hk'. lia.
Qed.

Lemma scan_down_spec fuel os p j k ok : 0 <= k <= j -> j < Zlen os -> aget os k = Some ok -> not_below p ok ->
  (Z.to_nat (j - k) < fuel)%nat ->
  exists j' o', scan_down fuel os p j = Some j' /\ k <= j' <= j /\ aget os j' = Some o' /\ not_below p o'
    /\ on_range (not_above p) (j' + 1) j os.
Proof.
  revert j. induction fuel as [|fuel IH]; intros j Hj Hjl Hk Hp Hf; [lia|].
  cbn [scan_down]. destruct (proj2 (aget_is_Some os j) ltac:(lia)) as [o Ho]. rewrite Ho. cbn [mbind option_bind].
  destruct (dlt (prob o) p) eqn:E.
  - destruct (decide (j = k)) as [->|]; [unfold not_below in Hp; congruence|].
    destruct (IH (j - 1) ltac:(lia) ltac:(lia) Hk Hp ltac:(lia)) as (j' & o' & E1 & H1 & H2 & H3 & H4).
    exists j', o'. split; [done|]. split; [lia|]. split; [done|]. split; [done|].
    intros k' o2 Hk' Ho2. destruct (decide (k' = j)) as [->|]; [|apply (H4 k' o2); [lia|done]].
    rewrite Ho in Ho2. injection Ho2 as <-. by apply dlt_asym.
  - exists j, o. split; [done|]. split; [lia|]. split; [done|]. split; [done|]. intros k' o2 Hk'. lia.
Qed.

(** Left of [i] nothing is below the pivot, right of [j] nothing above it; until the first
    swap the pivot itself stops the scans, afterwards what was swapped does. *)
Record parting (l r : Z) (p : double) (os0 os : list Object) (i j : Z) : Prop := {
  pt_seg : seg l r os0 os;
  pt_bounds : l <= i <= r + 1 /\ l - 1 <= j <= r;
  pt_left : on_range (not_below p) l (i - 1) os;
  pt_right : on_range (not_above p) (j + 1) r os
}.

Definition stops (l r : Z) (p : double) (os : list Object) (i j : Z) : Prop :=
  (l < i /\ j < r) \/ (i = l /\ j = r /\ exists k o, l <= k <= r /\ aget os k = Some o /\ prob o = p).

Lemma on_range_join P l m r os : on_range P l m os -> on_range P (m + 1) r os -> on_range P l r os.
Proof. intros H1 H2 k o Hk. destruct (decide (k <= m)); [apply H1; lia|apply H2; lia]. Qed.
Lemma on_range_ext P l r os os' : (forall k, l <= k <= r -> aget os' k = aget os k) ->
  on_range P l r os -> on_range P l r os'.
Proof. intros H HP k o Hk. rewrite H by done. by apply HP. Qed.

(** Both scans. *)
Lemma scans l r p os0 os i j : 0 <= l -> r < Zlen os -> parting l r p os0 os i j -> stops l r p os i j -> i <= j ->
  exists i1 a j1 b, scan_up (S (length os)) os p i = Some i1 /\ scan_down (S (length os)) os p j = Some j1
    /\ i <= i1 /\ j1 <= j /\ i1 <= j + 1 /\ i - 1 <= j1 /\ (i = l -> j = r -> i1 <= j1) /\ l <= j1 /\ i1 <= r
    /\ aget os i1 = Some a /\ not_above p a /\ aget os j1 = Some b /\ not_below p b
    /\ on_range (not_below p) l (i1 - 1) os /\ on_range (not_above p) (j1 + 1) r os.
Proof.
  intros Hl Hr [_ Hb HL HR] Hst Hij.
  assert (Hku : exists ku ou, i <= ku <= j + 1 /\ ku <= r /\ aget os ku = Some ou /\ not_above p ou
      /\ exists kd od, i - 1 <= kd <= j /\ l <= kd /\ aget os kd = Some od /\ not_below p od
      /\ (i = l -> j = r -> ku = kd)).
  { destruct Hst as [[H1 H2]|(-> & -> & k & o & Hk & Ho & <-)].
    - destruct (proj2 (aget_is_Some os (j + 1)) ltac:(lia)) as [ou Hu].
      destruct (proj2 (aget_is_Some os (i - 1)) ltac:(lia)) as [od Hd].
      exists (j + 1), ou. split; [lia|]. split; [lia|]. split; [done|]. split; [apply (HR (j + 1)); [lia|done]|].
      exists (i - 1), od. split; [lia|]. split; [lia|]. split; [done|]. split; [apply (HL (i - 1)); [lia|done]|]. lia.
    - exists k, o. split; [lia|]. split; [lia|]. split; [done|]. split; [apply dlt_irrefl|].
      exists k, o. split; [lia|]. split; [lia|]. split; [done|]. split; [apply dlt_irrefl|done]. }
  destruct Hku as (ku & ou & U1 & U2 & U3 & U4 & kd & od & D1 & D2 & D3 & D4 & Heq).
  unfold Zlen in Hr.
  destruct (scan_up_spec (S (length os)) os p i ku ou) as (i1 & a & E1 & A1 & A2 & A3 & A4); [lia|done|done|lia|].
  destruct (decide (kd <= j)) as [Hkd|]; [|lia].
  destruct (scan_down_spec (S (length os)) os p j kd od) as (j1 & b & E2 & B1 & B2 & B3 & B4);
    [lia|unfold Zlen; lia|done|done|lia|].
  exists i1, a, j1, b. do 2 (split; [done|]). do 4 (split; [lia|]).
  split; [intros H1 H2; specialize (Heq H1 H2); lia|]. do 2 (split; [lia|]). do 4 (split; [done|]). split.
  - apply (on_range_join _ _ (i - 1)); [done|]. by replace (i - 1 + 1) with i by lia.
  - by apply (on_range_join _ _ j).
Qed.

Lemma partition_loop_spec fuel l r p os0 os i j : 0 <= l -> r < Zlen os ->
  parting l r p os0 os i j -> stops l r p os i j -> (Z.to_nat (j - i + 2) < fuel)%nat ->
  (l < i /\ j < r \/ i <= j) ->
  exists os' i' j', partition_loop fuel os p i j = Some (os', i', j') /\ parting l r p os0 os' i' j'
    /\ l < i' /\ j' < r /\ j' < i'.
Proof.
  revert os i j. induction fuel as [|fuel IH]; intros os i j Hl Hr Hpt Hst Hf Hc; [lia|].
  cbn [partition_loop]. destruct (Z.leb_spec i j) as [Hij|Hij].
  2: { exists os, i, j. split; [done|]. split; [done|]. lia. }
  destruct (scans l r p os0 os i j Hl Hr Hpt Hst Hij)
    as (i1 & a & j1 & b & -> & -> & I1 & J1 & I2 & J2 & Hfirst & J3 & I3 & Ha & Hna & Hb & Hnb & HL & HR).
  cbn [mbind option_bind]. destruct Hpt as [Hseg Hbd _ _]. destruct (Z.leb_spec i1 j1) as [Hsw|Hno].
  - destruct (swap_spec os i1 j1 a b Ha Hb) as (os' & -> & Hs & Hi' & Hj' & Hk'). cbn [mbind option_bind].
    assert (Hsl : seg l r os os') by (eapply seg_wide; [..|exact Hs]; lia).
    apply IH; [done|by rewrite (seg_length _ _ _ _ Hsl)| | |lia|lia].
    + split; [by eapply seg_trans|lia| |].
      * intros k o Hk Ho. destruct (decide (k = i1)) as [->|]; [rewrite Hi' in Ho; by injection Ho as <-|].
        rewrite Hk' in Ho by lia. apply (HL k); [lia|done].
      * intros k o Hk Ho. destruct (decide (k = j1)) as [->|]; [rewrite Hj' in Ho; by injection Ho as <-|].
        rewrite Hk' in Ho by lia. apply (HR k); [lia|done].
    + left. lia.
  - assert (Hlr : l < i /\ j < r).
    { destruct Hst as [|(-> & -> & _)]; [done|]. specialize (Hfirst eq_refl eq_refl). lia. }
    destruct fuel as [|fuel']; [lia|]. cbn [partition_loop]. destruct (Z.leb_spec i1 j1); [lia|].
    exists os, i1, j1. split; [done|]. split; [split; [done|lia|done|done]|]. lia.
Qed.

(** ** The sort *)

Definition sorted_range (l r : Z) (os : list Object) : Prop :=
  forall x y a b, l <= x -> x < y -> y <= r -> aget os x = Some a -> aget os y = Some b ->
    dlt (prob a) (prob b) = false.

Definition no_nan (os : list Object) : Prop := Forall (λ o, prob o <> S754_nan) os.

Lemma sorted_short l r os : r <= l -> sorted_range l r os.
Proof. intros H x y a b. lia. Qed.

Lemma sorted_ext l r os os' : (forall k, l <= k <= r -> aget os' k = aget os k) ->
  sorted_range l r os -> sorted_range l r os'.
Proof. intros H Hs x y a b Hx Hxy Hy. rewrite !H by lia. by apply Hs. Qed.

(** Two sorted parts on the two sides of a pivot. *)
Lemma sorted_parts l r i j p os : p <> S754_nan -> l < i -> j < r -> j < i ->
  on_range (not_below p) l (i - 1) os -> on_range (not_above p) (j + 1) r os ->
  sorted_range l j os -> sorted_range i r os -> sorted_range l r os.
Proof.
  intros Hp Hi Hj Hji HL HR H1 H2 x y a b Hx Hxy Hy Ha Hb.
  destruct (decide (y <= j)); [by apply (H1 x y)|]. destruct (decide (i <= x)); [by apply (H2 x y)|].
  destruct (dlt (prob a) (prob b)) eqn:E; [|done]. destruct (dlt_split _ p _ Hp E) as [E1|E1].
  - pose proof (HL x a ltac:(lia) Ha) as H. unfold not_below in H. congruence.
  - pose proof (HR y b ltac:(lia) Hb) as H. unfold not_above in H. congruence.
Qed.

Lemma seg_no_nan l r os os' : seg l r os os' -> no_nan os -> no_nan os'.
Proof. intros [H _]. unfold no_nan. by rewrite H. Qed.

(** A part that is sorted by itself, and only when it has two elements. *)
Definition sorts (l r : Z) (os os' : list Object) : Prop :=
  seg l r os os' /\ (no_nan os -> sorted_range l r os').

Lemma qsort_range_spec fuel os l r : 0 <= l <= r -> r < Zlen os -> Zlen os < 2 ^ 30 ->
  (Z.to_nat (r - l) < fuel)%nat -> exists os', qsort_range fuel os l r = Some os' /\ sorts l r os os'.
Proof.
  revert os l r. induction fuel as [|fuel IH]; intros os l r Hl Hr Hsz Hf; [lia|].
  cbn [qsort_range]. change (2 ^ 30) with 1073741824 in Hsz. unfold int_of.
  destruct (Z.leb_spec (- 2 ^ 31) (l + r)); [|lia]. destruct (Z.ltb_spec (l + r) (2 ^ 31)); [|lia].
  cbn [andb mbind option_bind]. rewrite Z.quot_div_nonneg by lia.
  assert (Hm : l <= (l + r) / 2 <= r) by (split; [apply Z.div_le_lower_bound|apply Z.div_le_upper_bound]; lia).
  destruct (proj2 (aget_is_Some os ((l + r) / 2)) ltac:(lia)) as [o Ho]. rewrite Ho. cbn [mbind option_bind].
  destruct (partition_loop_spec (S (S (length os))) l r (prob o) os os l r) as (os1 & i & j & -> & Hpt & Hi & Hj & Hji).
  { lia. } { done. }
  { split; [apply seg_refl|lia|intros k ?; lia|intros k ?; lia]. }
  { right. split; [done|]. split; [done|]. by exists ((l + r) / 2), o. }
  { unfold Zlen in Hr. lia. } { lia. }
  cbn [mbind option_bind]. destruct Hpt as [Hs1 Hb1 HL1 HR1]. pose proof (seg_length _ _ _ _ Hs1) as Hl1.
  assert (Hleft : exists os2, (if l <? j then qsort_range fuel os1 l j else Some os1) = Some os2 /\ sorts l j os1 os2).
  { destruct (Z.ltb_spec l j).
    - apply IH; lia.
    - exists os1. split; [done|]. split; [apply seg_refl|]. intros _. by apply sorted_short. }
  destruct Hleft as (os2 & -> & Hs2 & Ho2). cbn [mbind option_bind].
  pose proof (seg_length _ _ _ _ Hs2) as Hl2.
  assert (Hright : exists os3, (if i <? r then qsort_range fuel os2 i r else Some os2) = Some os3 /\ sorts i r os2 os3).
  { destruct (Z.ltb_spec i r).
    - apply IH; lia.
    - exists os2. split; [done|]. split; [apply seg_refl|]. intros _. by apply sorted_short. }
  destruct Hright as (os3 & -> & Hs3 & Ho3). exists os3. split; [done|]. split.
  { eapply seg_trans; [done|]. eapply seg_trans; eapply seg_wide; [..|exact Hs2| | |exact Hs3]; lia. }
  intros Hn. apply (seg_no_nan _ _ _ _ Hs1) in Hn as Hn1. apply (seg_no_nan _ _ _ _ Hs2) in Hn1 as Hn2.
  assert (Hp : prob o <> S754_nan).
  { apply aget_Some in Ho as [_ Ho]. by apply (Forall_lookup_1 _ _ _ _ Hn Ho). }
  apply (sorted_parts l r i j (prob o)); [done|done|done|done| | | |by apply Ho3].
  - eapply on_range_ext; [intros k Hk; apply Hs3; lia|].
    apply (on_range_join _ _ j); [apply (seg_on_range _ _ _ os1); [lia|lia|done|intros k ? ?; apply HL1; lia]|].
    eapply on_range_ext; [intros k Hk; apply Hs2; lia|]. intros k ? ?. apply HL1. lia.
  - assert (Hmid : on_range (not_above (prob o)) (j + 1) r os2).
    { eapply on_range_ext; [intros k Hk; apply Hs2; lia|]. done. }
    apply (on_range_join _ _ (i - 1)).
    + eapply on_range_ext; [intros k Hk; apply Hs3; lia|]. intros k ? ?. apply Hmid. lia.
    + replace (i - 1 + 1) with i by lia. apply (seg_on_range _ _ _ os2); [lia|lia|done|]. intros k ? ?. apply Hmid. lia.
  - eapply sorted_ext; [intros k Hk; apply Hs3; lia|]. by apply Ho2.
Qed.

(** [StronglySorted] by probability, the greatest first. *)
Definition descending (os : list Object) : Prop := StronglySorted (λ a b, dlt (prob a) (prob b) = false) os.

Lemma sorted_descending os : sorted_range 0 (Zlen os - 1) os -> descending os.
Proof.
  induction os as [|o os IH]; intros Hs; [constructor|]. rewrite Zlen_cons in Hs. constructor.
  - apply IH. intros x y a b Hx Hxy Hy Ha Hb.
    apply (Hs (x + 1) (y + 1)); [lia..| |]; apply aget_Some.
    + apply aget_Some in Ha as [_ Ha]. split; [lia|]. by rewrite Z2Nat.inj_add, Nat.add_1_r by lia.
    + apply aget_Some in Hb as [_ Hb]. split; [lia|]. by rewrite Z2Nat.inj_add, Nat.add_1_r by lia.
  - apply Forall_lookup. intros i b Hb. apply (Hs 0 (Z.of_nat (S i)) o b).
    + lia. + lia. + apply lookup_lt_Some in Hb. unfold Zlen. lia. + done.
    + apply aget_Some. split; [lia|]. by rewrite Nat2Z.id.
Qed.

Lemma qsort_spec os : Zlen os < 2 ^ 30 ->
  exists os', qsort_descent_inplace os = Some os' /\ os' ≡ₚ os /\ (no_nan os -> descending os').
Proof.
  intros Hsz. destruct os as [|o os]; [exists []; split; [done|]; split; [done|constructor]|].
  unfold qsort_descent_inplace. pose proof (Zlen_cons o os). pose proof (Zlen_nonneg os).
  destruct (qsort_range_spec (length (o :: os)) (o :: os) 0 (Zlen (o :: os) - 1)) as (os' & E & Hs & Ho);
    [lia|lia|done|unfold Zlen; cbn; lia|].
  exists os'. split; [done|]. split; [symmetry; apply Hs|]. intros Hn. apply sorted_descending.
  rewrite (seg_length _ _ _ _ Hs). by apply Ho.
Qed.

(** C12: the sort of the boxes.  For every vector the quicksort ends without reading outside
    of it and gives a permutation; when no probability is a NaN, the most probable box comes
    first and so on. *)
Theorem qsort_sorts os : Zlen os < 2 ^ 30 ->
  exists os', qsort_descent_inplace os = Some os' /\ os' ≡ₚ os /\ (no_nan os -> descending os').
Proof. exact (qsort_spec os). Qed.

Definition box_of (p : Z) : Object := {| rect := Vec4 (f_of_Z p) (f_of_Z 0) (f_of_Z 10) (f_of_Z 20); label := 0; prob := d_lit p 10 |}.
Definition five_boxes : list Object := box_of <$> [3; 9; 1; 9; 5].

Lemma qsort_sorts_witness : exists os', qsort_descent_inplace five_boxes = Some os' /\ os' ≡ₚ five_boxes
  /\ descending os' /\ os' = box_of <$> [9; 9; 5; 3; 1].
Proof.
  assert (H : no_nan five_boxes) by (unfold no_nan, five_boxes; rewrite Forall_fmap; by repeat constructor).
  destruct (qsort_sorts five_boxes eq_refl) as (os' & E & P & S).
  exists os'. split; [exact E|]. split; [exact P|]. split; [exact (S H)|].
  enough (Some os' = Some (box_of <$> [9; 9; 5; 3; 1])) by congruence. rewrite <-E. by vm_compute.
Defined.
