(* ===== verification/BytetrackNms.v ===== *)
(** * The boxes that are left ([yolov8_infer/bytetrack.cpp])

    [nms_sorted_bboxes] is the greedy suppression: of boxes that overlap the most probable one
    stays.  [decode_outputs] reads the output of the network inside its [13566 * 6] numbers, and
    never less. *)

From stdpp Require Import list_numbers sorting.
From S2P Require Import Prelude Arrays CFloat Tracker Bytetrack BytetrackSort.
Local Open Scope list_scope.
Local Open Scope Z_scope.

(** ** Suppression *)

Section suppression.
Context {rects : Rects} (thr : double).

(** What is to be left of [os]: boxes in their order of which none overlaps an earlier one, and
    every other box overlaps a box that is left and not less probable. *)
Record survivors (os kept : list Object) : Prop := {
  sv_sub : kept `sublist_of` os;
  sv_apart : StronglySorted (λ k o, overlaps thr o k = false) kept;
  sv_covered o : o ∈ os -> o ∈ kept \/ exists k, k ∈ kept /\ overlaps thr o k = true
                                          /\ dlt (prob k) (prob o) = false
}.

(** The inner loop. *)
Lemma keep_loop os a picked kept keep : Forall2 (λ j b, aget os j = Some b) picked kept ->
  for_each picked (λ j (keep : bool), b ← aget os j;
                   Some (if overlaps thr a b then false else keep)) keep
  = Some (keep && forallb (λ b, negb (overlaps thr a b)) kept).
Proof.
  intros H. revert keep. induction H as [|j b picked kept Hj _ IH]; intros keep; cbn.
  { by rewrite andb_true_r. }
  rewrite Hj. cbn. rewrite IH. by destruct (overlaps thr a b), keep.
Qed.

Lemma nms_turn_spec os i a picked kept : aget os i = Some a ->
  Forall2 (λ j b, aget os j = Some b) picked kept ->
  nms_turn os thr i picked
  = Some (if forallb (λ b, negb (overlaps thr a b)) kept then picked ++ [i] else picked).
Proof. intros Ha H. unfold nms_turn. rewrite Ha. cbn. by rewrite (keep_loop os a picked kept) by done. Qed.

Lemma descending_app os a o : descending (os ++ [a]) -> o ∈ os -> dlt (prob o) (prob a) = false.
Proof. intros H Ho. apply StronglySorted_app in H as (H & _ & _). apply H; [done|by left]. Qed.

Lemma survivors_snoc os kept a : descending (os ++ [a]) -> survivors os kept ->
  survivors (os ++ [a]) (if forallb (λ b, negb (overlaps thr a b)) kept then kept ++ [a] else kept).
Proof.
  intros Hd [Hs Ha Hc]. destruct (forallb _ kept) eqn:E.
  - rewrite forallb_forall in E. split.
    + by apply sublist_app.
    + apply StronglySorted_app. split; [|split; [done|by repeat constructor]].
      intros k o Hk Ho. apply list_elem_of_singleton in Ho as ->.
      specialize (E k). rewrite <-list_elem_of_In in E. apply negb_true_iff. by apply E.
    + intros o [Ho| ->%list_elem_of_singleton]%elem_of_app; [|left; set_solver].
      destruct (Hc o Ho) as [|(k & ? & ? & ?)]; [left; set_solver|right; exists k; set_solver].
  - apply not_true_iff_false in E. rewrite forallb_forall in E.
    assert (Hk : Exists (λ b, overlaps thr a b = true) kept).
    { destruct (decide (Exists (λ b, overlaps thr a b = true) kept)) as [|Hn]; [done|]. destruct E.
      intros b Hb. apply negb_true_iff, not_true_iff_false. intros Hab. apply Hn.
      apply Exists_exists. exists b. by rewrite list_elem_of_In. }
    apply Exists_exists in Hk as (k & Hk & Hov). split.
    + by apply sublist_inserts_r.
    + done.
    + intros o [Ho| ->%list_elem_of_singleton]%elem_of_app; [by apply Hc|]. right. exists k.
      split; [done|]. split; [done|]. apply (descending_app os); [done|]. by eapply elem_of_sublist.
Qed.

Lemma nms_sorted_bboxes_spec os : descending os ->
  exists picked kept, nms_sorted_bboxes os thr = Some picked /\ mapM (aget os) picked = Some kept
    /\ survivors os kept.
Proof.
  intros Hd. unfold nms_sorted_bboxes.
  destruct (for_range_inv (λ i picked, exists kept, Forall2 (λ j b, aget os j = Some b) picked kept
      /\ survivors (take (Z.to_nat i) os) kept) (nms_turn os thr) 0 (Zlen os) [])
    as (picked & E & kept & H & Hs).
  - apply Zlen_nonneg.
  - exists []. split; [constructor|]. split; [done|constructor|]. intros o Ho. by apply elem_of_nil in Ho.
  - intros i picked Hi (kept & H & Hs). destruct (proj2 (aget_is_Some os i) Hi) as [a Ha].
    rewrite (nms_turn_spec os i a picked kept) by done. eexists. split; [done|].
    exists (if forallb (λ b, negb (overlaps thr a b)) kept then kept ++ [a] else kept). split.
    + destruct (forallb _ kept); [|done]. apply Forall2_app; [done|by repeat constructor].
    + apply aget_Some in Ha as [_ Ha]. rewrite Z2Nat.inj_add, Nat.add_1_r by lia.
      rewrite (take_S_r _ _ a) by done. apply survivors_snoc; [|done].
      rewrite <-(take_S_r _ _ a) by done. rewrite <-(take_drop (S (Z.to_nat i)) os) in Hd.
      by apply StronglySorted_app in Hd as (_ & Hd & _).
  - exists picked, kept. split; [done|]. split; [by apply mapM_Some_2|].
    unfold Zlen in Hs. by rewrite Nat2Z.id, take_ge in Hs.
Qed.
End suppression.

(** ** The anchors *)

Definition anchors : list GridAndStride := generate_grids_and_stride INPUT_W INPUT_H [8; 16; 32].

(** The cell of an anchor: the levels one after the other, each row by row. *)
Definition level_cell (columns stride i : Z) : GridAndStride :=
  {| grid0 := i mod columns; grid1 := i / columns; stride := stride |}.
Definition anchor_cell (i : Z) : GridAndStride :=
  if i <? 136 * 76 then level_cell 136 8 i
  else if i <? 136 * 76 + 68 * 38 then level_cell 68 16 (i - 136 * 76)
  else level_cell 34 32 (i - (136 * 76 + 68 * 38)).

Lemma anchors_cells : anchors = anchor_cell <$> range 0 13566.
Proof. by vm_compute. Qed.

Lemma Zlen_anchors : Zlen anchors = 13566.
Proof. rewrite anchors_cells. unfold Zlen. by rewrite length_fmap, length_range. Qed.

Section proposals.
Context (expf : double -> double).

Ltac read_number H :=
  match type of H with mbind _ (aget ?l ?k) = _ => destruct (aget l k); [cbn [mbind option_bind] in H|discriminate H] end.

(** The box of an anchor when all its numbers are there. *)
Lemma anchor_box_is_Some blob thr i g : 0 <= i ->
  is_Some (anchor_box expf blob thr i g) <-> 6 * i + 5 < Zlen blob.
Proof.
  intros Hi. unfold anchor_box. split.
  - intros [os H]. cbv zeta in H.
    do 5 read_number H. destruct (aget blob (i * 6 + 5)) eqn:E; [|done].
    assert (0 <= i * 6 + 5 < Zlen blob) by (apply aget_is_Some; by rewrite E). lia.
  - intros H.
    destruct (proj2 (aget_is_Some blob (i * 6)) ltac:(lia)) as [f0 ->].
    destruct (proj2 (aget_is_Some blob (i * 6 + 1)) ltac:(lia)) as [f1 ->].
    destruct (proj2 (aget_is_Some blob (i * 6 + 2)) ltac:(lia)) as [f2 ->].
    destruct (proj2 (aget_is_Some blob (i * 6 + 3)) ltac:(lia)) as [f3 ->].
    destruct (proj2 (aget_is_Some blob (i * 6 + 4)) ltac:(lia)) as [f4 ->].
    destruct (proj2 (aget_is_Some blob (i * 6 + 5)) ltac:(lia)) as [f5 ->]. by eexists.
Qed.

(** There is at most one, and its probability is above the threshold. *)
Lemma anchor_box_cases blob thr i g os : anchor_box expf blob thr i g = Some os ->
  os = [] \/ exists o, os = [o] /\ dlt thr (prob o) = true.
Proof.
  unfold anchor_box. intros H. cbv zeta in H. do 6 read_number H.
  destruct (dlt thr _) eqn:E; injection H as <-; [right|by left]. eexists. by split; [done|].
Qed.

Definition anchor_boxes (blob : list double) (thr : double) (i : Z) : option (list Object) :=
  anchor_box expf blob thr i (anchor_cell i).

Lemma zip_fmap_r {A B} (f : A -> B) (l : list A) : zip l (f <$> l) = (λ i, (i, f i)) <$> l.
Proof. induction l as [|a l IH]; [done|]. cbn. by rewrite <-IH. Qed.

Lemma mapM_map {A B C} (f : B -> option C) (g : A -> B) (l : list A) : mapM f (g <$> l) = mapM (λ x, f (g x)) l.
Proof. induction l as [|a l IH]; [done|]. rewrite fmap_cons. cbn [mapM]. by rewrite IH. Qed.

Lemma proposals_anchors blob thr : generate_yolox_proposals expf anchors blob thr
  = objects ← mapM (anchor_boxes blob thr) (range 0 13566); Some (concat objects).
Proof.
  unfold generate_yolox_proposals. rewrite Zlen_anchors, anchors_cells, zip_fmap_r.
  by rewrite mapM_map.
Qed.

Lemma elem_concat {A} (x : A) ls : x ∈ concat ls <-> exists l, l ∈ ls /\ x ∈ l.
Proof. rewrite list_elem_of_In, in_concat. by setoid_rewrite list_elem_of_In. Qed.

(** The boxes above the threshold: there when the last number is, and none of the
    probabilities is a NaN. *)
Lemma proposals_spec blob thr :
  match generate_yolox_proposals expf anchors blob thr with
  | Some os => 6 * 13566 <= Zlen blob /\ Zlen os <= 13566 /\ no_nan os
               /\ forall o, o ∈ os <-> exists i, 0 <= i < 13566 /\ anchor_boxes blob thr i = Some [o]
  | None => Zlen blob < 6 * 13566
  end.
Proof.
  rewrite proposals_anchors. destruct (mapM _ _) as [oss|] eqn:E; cbn [mbind option_bind].
  - apply mapM_Some_1 in E. split; [|split; [|split]].
    + assert (H : is_Some (anchor_boxes blob thr 13565)).
      { eapply Forall2_lookup_l with (i := 13565%nat) in E as (os & _ & H).
        - rewrite H. by eexists.
        - unfold range. by apply lookup_seqZ_lt. }
      apply anchor_box_is_Some in H; lia.
    + assert (Hl : (length (concat oss) <= length (range 0 13566))%nat).
      { clear -E. induction E as [|i os l oss Hi _ IH]; [done|]. cbn [concat length]. rewrite length_app.
        destruct (anchor_box_cases _ _ _ _ _ Hi) as [->|(o & -> & _)]; cbn [length]; lia. }
      rewrite length_range in Hl. unfold Zlen. lia.
    + clear -E. unfold no_nan. induction E as [|i os l oss Hi _ IH]; [constructor|]. cbn [concat].
      apply Forall_app. split; [|done].
      destruct (anchor_box_cases _ _ _ _ _ Hi) as [->|(o & -> & H)]; repeat constructor.
      intros Hn. rewrite Hn in H. unfold dlt, SFltb in H. by destruct thr as [| [] | |[]].
    + intros o. rewrite elem_concat. setoid_rewrite <-elem_range. split.
      * intros (os & (k & Hk)%list_elem_of_lookup_1 & Ho).
        destruct (Forall2_lookup_r _ _ _ _ _ E Hk) as (i & Hi & H). apply list_elem_of_lookup_2 in Hi.
        exists i. split; [done|].
        destruct (anchor_box_cases _ _ _ _ _ H) as [->|(o' & -> & _)]; [by apply elem_of_nil in Ho|].
        by apply list_elem_of_singleton in Ho as ->.
      * intros (i & (k & Hk)%list_elem_of_lookup_1 & H).
        destruct (Forall2_lookup_l _ _ _ _ _ E Hk) as (os & Hos & H'). apply list_elem_of_lookup_2 in Hos.
        exists os. split; [done|]. rewrite H in H'. injection H' as <-. by left.
  - apply mapM_None in E. apply Exists_exists in E as (i & Hi%elem_range & E).
    destruct (decide (6 * i + 5 < Zlen blob)) as [Hl|]; [|lia].
    apply (anchor_box_is_Some blob thr i (anchor_cell i)) in Hl as [os Hl]; [|lia].
    unfold anchor_boxes in E. congruence.
Qed.
End proposals.

(** ** All together *)

(** C13: the boxes of a picture from the output of the network.  The decoder reads numbers
    that are not there exactly when the output is shorter than six numbers for each of the 13566
    anchors; otherwise it gives the boxes whose probability is above the threshold, the most
    probable first, without those that overlap one that is left and is not less probable; of
    those that are left none overlaps an earlier one. *)
Theorem decode_outputs_spec `{!Rects} (expf : double -> double) (blob : list double) (scale : double) :
  match decode_outputs expf blob scale with
  | Some objects => 6 * 13566 <= Zlen blob /\ exists os kept,
      (forall o, o ∈ os <-> exists i, 0 <= i < 13566 /\
         anchor_box expf blob BBOX_CONF_THRESH i (anchor_cell i) = Some [o])
      /\ descending os /\ survivors NMS_THRESH os kept /\ objects = scale_back scale <$> kept
  | None => Zlen blob < 6 * 13566
  end.
Proof.
  unfold decode_outputs. fold anchors. pose proof (proposals_spec expf blob BBOX_CONF_THRESH) as Hp.
  destruct (generate_yolox_proposals _ _ _ _) as [os|]; [|done]. cbn [mbind option_bind].
  destruct Hp as (Hb & Hl & Hn & Hos). destruct (qsort_spec os ltac:(lia)) as (os' & -> & Hperm & Hd).
  specialize (Hd Hn). cbn [mbind option_bind].
  destruct (nms_sorted_bboxes_spec NMS_THRESH os' Hd) as (picked & kept & -> & Hk & Hs).
  cbn [mbind option_bind]. rewrite Hk. split; [done|]. exists os', kept.
  split; [|done]. intros o. by rewrite Hperm.
Qed.

(** ** An example *)

Definition example_rects : Rects := {|
  rect_and a b :=
    let x0 := if dlt (v4_0 a) (v4_0 b) then v4_0 b else v4_0 a in
    let y0 := if dlt (v4_1 a) (v4_1 b) then v4_1 b else v4_1 a in
    let ax := fadd (v4_0 a) (v4_2 a) in let bx := fadd (v4_0 b) (v4_2 b) in
    let ay := fadd (v4_1 a) (v4_3 a) in let by_ := fadd (v4_1 b) (v4_3 b) in
    let w := fsub (if dlt ax bx then ax else bx) x0 in
    let h := fsub (if dlt ay by_ then ay else by_) y0 in
    if dlt w (f_of_Z 0) || dlt h (f_of_Z 0) then Vec4 (f_of_Z 0) (f_of_Z 0) (f_of_Z 0) (f_of_Z 0)
    else Vec4 x0 y0 w h;
  rect_area r := fmul (v4_2 r) (v4_3 r) |}.

Definition at_x (x : Z) : Object :=
  {| rect := Vec4 (f_of_Z x) (f_of_Z 0) (f_of_Z 10) (f_of_Z 10); label := 0; prob := d_lit 1 2 |}.

Example nms_example : nms_sorted_bboxes (rects := example_rects) (at_x <$> [0; 1; 50]) NMS_THRESH = Some [0; 2].
Proof. by vm_compute. Qed.
