(* ===== verification/CString.v ===== *)
(** * C strings

    The string functions of the C library that the program calls on bytes it received.  A
    pointer to characters is the list of the bytes from there to the end of the object: a
    function that runs off the object is undefined, which is [None]. *)

From S2P Require Import Prelude.

(** The characters before the terminator. *)
Fixpoint cstr (l : list Z) : list Z :=
  match l with
  | [] => []
  | b :: l' => if b =? 0 then [] else b :: cstr l'
  end.

(** [strlen( l )] *)
Fixpoint strlen (l : list Z) : option Z :=
  match l with
  | [] => None
  | b :: l' => if b =? 0 then Some 0 else n ← strlen l'; Some (n + 1)
  end.

(** [0 == strncmp( a, b, n )] *)
Fixpoint strncmp_eq (n : nat) (a b : list Z) : option bool :=
  match n with
  | O => Some true
  | S n' =>
      match a, b with
      | x :: a', y :: b' =>
          if x =? y then if x =? 0 then Some true else strncmp_eq n' a' b' else Some false
      | _, _ => None
      end
  end.

(** [0 == memcmp( a, b, n )] *)
Definition memcmp_eq (n : Z) (a b : list Z) : option bool :=
  x ← ld_bytes a 0 n; y ← ld_bytes b 0 n; Some (bool_decide (x = y)).

Lemma cstr_app a b : 0 ∉ a -> cstr (a ++ b) = a ++ cstr b.
Proof.
  induction a as [|x a IH]; intros H; [done|]. apply not_elem_of_cons in H as [Hx H].
  cbn [app cstr]. destruct (Z.eqb_spec x 0); [congruence|]. by rewrite IH.
Qed.

Lemma cstr_no_zero l : 0 ∉ cstr l.
Proof.
  induction l as [|x l IH]; cbn [cstr]; [apply not_elem_of_nil|].
  destruct (Z.eqb_spec x 0); [apply not_elem_of_nil|]. apply not_elem_of_cons. by split.
Qed.

Lemma cstr_split l : 0 ∈ l -> exists r, l = cstr l ++ 0 :: r.
Proof.
  induction l as [|x l IH]; intros H; [by apply not_elem_of_nil in H|]. cbn [cstr].
  destruct (Z.eqb_spec x 0) as [->|Hx]; [by exists l|].
  apply elem_of_cons in H as [H|H]; [congruence|]. destruct (IH H) as [r E].
  exists r. cbn [app]. by rewrite <-E.
Qed.

Lemma strlen_spec l : strlen l = if decide (0 ∈ l) then Some (Zlen (cstr l)) else None.
Proof.
  induction l as [|x l IH]; [done|]. cbn [strlen cstr]. rewrite IH.
  destruct (Z.eqb_spec x 0) as [->|Hx].
  - rewrite decide_True by by left. done.
  - destruct (decide (0 ∈ l)) as [H|H]; cbn [mbind option_bind].
    + rewrite decide_True by by right. f_equal. unfold Zlen. cbn. lia.
    + rewrite decide_False; [done|]. intros [?|?]%elem_of_cons; congruence.
Qed.

Lemma strncmp_eq_spec n a b :
  (n <= length a)%nat -> (n <= length b)%nat ->
  strncmp_eq n a b = Some (bool_decide (cstr (take n a) = cstr (take n b))).
Proof.
  revert a b. induction n as [|n IH]; intros a b Ha Hb; [by rewrite bool_decide_eq_true_2|].
  destruct a as [|x a], b as [|y b]; cbn in Ha, Hb; try lia. cbn [strncmp_eq take cstr].
  destruct (Z.eqb_spec x y) as [<-|Hne].
  - destruct (Z.eqb_spec x 0) as [->|Hx]; [by rewrite bool_decide_eq_true_2|].
    rewrite IH by lia. f_equal. apply bool_decide_ext. split; congruence.
  - rewrite bool_decide_eq_false_2; [done|].
    destruct (Z.eqb_spec x 0), (Z.eqb_spec y 0); congruence.
Qed.

(** A string that ends inside the compared bytes decides the comparison. *)
Lemma strncmp_eq_cstr n a b :
  length a = n -> length b = n -> strncmp_eq n a b = Some (bool_decide (cstr a = cstr b)).
Proof. intros. rewrite strncmp_eq_spec by lia. by rewrite !take_ge by lia. Qed.

(** [strncpy( dst, src, n )] writes [n] bytes: the string, cut or filled up with zeros. *)
Fixpoint strncpy_bytes (n : nat) (src : list Z) : option (list Z) :=
  match n with
  | O => Some []
  | S n' =>
      match src with
      | [] => None
      | b :: src' => if b =? 0 then Some (replicate n 0) else bs ← strncpy_bytes n' src'; Some (b :: bs)
      end
  end.

Lemma strncpy_bytes_spec n src :
  0 ∈ src -> (length (cstr src) <= n)%nat ->
  strncpy_bytes n src = Some (cstr src ++ replicate (n - length (cstr src)) 0).
Proof.
  revert src. induction n as [|n IH]; intros src H0 Hl.
  { cbn [strncpy_bytes]. by destruct (cstr src) as [|? ?]; [|cbn in Hl; lia]. }
  destruct src as [|b src]; [by apply not_elem_of_nil in H0|]. cbn [strncpy_bytes cstr] in *.
  destruct (Z.eqb_spec b 0) as [->|Hb]; [done|].
  apply elem_of_cons in H0 as [?|H0]; [congruence|]. rewrite IH; [done|done|cbn in Hl; lia].
Qed.
