(* ===== verification/AlgInterface.v ===== *)
(** * The door to the algorithms ([src/srv/algs/alg_interface.c])

    The handlers of the protocols post the packages they receive to the task of the
    algorithms, which runs the one handler the algorithms registered.  [X] is the state of
    the algorithms; [AlgApp] instantiates it with the list of waiting targets. *)

From S2P Require Import Prelude SysportTask.

Section alg.
Context {X : Type}.

(** [mtargets_handle( pack, &size )] *)
Definition multiple_targets_algs_handle : Type := list Z -> Z -> X -> option X.

Record alg_world := {
  mtargets_handle : option multiple_targets_algs_handle; alg_user : X
}.

(** [pvalgtask] is the pointer to the task; once the thread has ended it still points to
    the freed module, which is a task state without a module. *)
Record alg_ctrl := {
  pvalgtask : option (task_state alg_world); alg_idle : alg_world; alg_live : Z
}.

Definition alg_thread_handler : task_fun (W := alg_world) :=
  λ _ pvInfo uSize w,
    match mtargets_handle w with
    | Some h =>
        x ← h pvInfo uSize (alg_user w);
        Some {| mtargets_handle := mtargets_handle w; alg_user := x |}
    | None => Some w
    end.

Definition load_alg_task (o : alg_ctrl) (cbk : option multiple_targets_algs_handle)
    (malloc_ok mq_ok pthread_ok : bool) : alg_ctrl * Z :=
  let w := {| mtargets_handle := cbk; alg_user := alg_user (alg_idle o) |} in
  match sysport_task_create [47; 97; 108; 103; 95; 116; 97; 115; 107] 0 w (alg_live o)
          malloc_ok mq_ok pthread_ok with
  | Some t => ({| pvalgtask := Some t; alg_idle := w; alg_live := alg_live o |}, 0)
  | None => ({| pvalgtask := None; alg_idle := w; alg_live := alg_live o |}, -1)
  end.

Definition load_multiple_targets_algs := load_alg_task.

Definition alg_set_task (t : task_state alg_world) (o : alg_ctrl) : alg_ctrl :=
  {| pvalgtask := Some t; alg_idle := alg_idle o; alg_live := alg_live o |}.

Definition unload_multiple_targets_algs (o : alg_ctrl) (malloc_ok mq_ok : bool)
  : option (alg_ctrl * Z) :=
  match pvalgtask o with
  | Some t => '(_, t) ← sysport_task_delete t malloc_ok mq_ok; Some (alg_set_task t o, 0)
  | None => Some (o, 0)
  end.

(** The result of the send is ignored: a message that the queue refuses is reported as
    sent. *)
Definition msg_send_to_alg (o : alg_ctrl) (pack : list Z) (pack_len : Z)
    (malloc_ok mq_ok : bool) : option (alg_ctrl * Z) :=
  match pvalgtask o with
  | None => Some (o, -1)
  | Some t =>
      match sysport_task_malloc t pack_len malloc_ok with
      | (t, None) => Some (alg_set_task t o, -1)
      | (t, Some msg) =>
          info ← ld_bytes pack 0 pack_len;
          let msg := {| pv_func := pv_func msg; uSize := uSize msg; acInfo := info |} in
          '(_, t) ← sysport_task_func t (Some alg_thread_handler) msg mq_ok;
          Some (alg_set_task t o, 0)
      end
  end.
End alg.

Arguments multiple_targets_algs_handle : clear implicits.
Arguments alg_world : clear implicits.
Arguments alg_ctrl : clear implicits.

(** ** What has been posted and not yet handled *)

Definition alg_queue {X} (o : alg_ctrl X) : list (list Z) :=
  match pvalgtask o with
  | Some t => match ts_module t with Some m => acInfo <$> mq m | None => [] end
  | None => []
  end.

(** The algorithms are loaded and have room for one more package. *)
Definition alg_ready {X} (o : alg_ctrl X) : Prop :=
  exists t m, pvalgtask o = Some t /\ ts_module t = Some m
    /\ (length (mq m) < SYSPORT_TASK_MSG_SIZE)%nat.

Lemma msg_send_ready {X} (o : alg_ctrl X) pack n :
  alg_ready o -> 0 <= n <= Zlen pack ->
  exists o' info, ld_bytes pack 0 n = Some info
    /\ msg_send_to_alg o pack n true true = Some (o', 0)
    /\ alg_queue o' = alg_queue o ++ [info]
    /\ option_map (@ts_world _) (pvalgtask o') = option_map (@ts_world _) (pvalgtask o).
Proof.
  intros (t & m & Ho & Ht & Hq) Hn.
  destruct (proj2 (ld_bytes_Some pack 0 n)) as [info Hi]; [lia|].
  unfold msg_send_to_alg. rewrite Ho. unfold sysport_task_malloc. rewrite Hi.
  cbn [mbind option_bind]. unfold sysport_task_func. cbn [task_set ts_module]. rewrite Ht.
  cbn [mbind option_bind negb]. rewrite decide_False by lia. cbn [mbind option_bind].
  do 2 eexists. split; [done|]. split; [done|]. unfold alg_queue. rewrite Ho. cbn.
  by rewrite Ht, fmap_app.
Qed.
