(* ===== verification/AlinkWorld.v ===== *)
(** * What the command handlers share

    The handlers of the three command files change static objects: the upload component
    (its device id), the radar package under construction and the queue of the
    algorithms.  This record is the world [S] of the order component's tasks. *)

From S2P Require Import Prelude AlinkRecv AlinkOrder AlinkUpload SysportTask AlgInterface.

Record dev_world (X : Type) := {
  dw_upload : alink_upload;
  dw_pack : list Z;               (* [pack] of alink_track.c *)
  dw_alg : alg_ctrl X;
  dw_malloc_ok : bool; dw_mq_ok : bool
}.
Arguments dw_upload {X}.
Arguments dw_pack {X}.
Arguments dw_alg {X}.
Arguments dw_malloc_ok {X}.
Arguments dw_mq_ok {X}.

Definition set_dw_upload {X} (u : alink_upload) (w : dev_world X) : dev_world X :=
  {| dw_upload := u; dw_pack := dw_pack w; dw_alg := dw_alg w;
     dw_malloc_ok := dw_malloc_ok w; dw_mq_ok := dw_mq_ok w |}.
Definition set_dw_pack {X} (p : list Z) (w : dev_world X) : dev_world X :=
  {| dw_upload := dw_upload w; dw_pack := p; dw_alg := dw_alg w;
     dw_malloc_ok := dw_malloc_ok w; dw_mq_ok := dw_mq_ok w |}.
Definition set_dw_alg {X} (a : alg_ctrl X) (w : dev_world X) : dev_world X :=
  {| dw_upload := dw_upload w; dw_pack := dw_pack w; dw_alg := a;
     dw_malloc_ok := dw_malloc_ok w; dw_mq_ok := dw_mq_ok w |}.

(** [msg_send_to_alg( pack, pack_len )] as a handler calls it. *)
Definition dw_send {X} (w : dev_world X) (pack : list Z) (pack_len : Z)
  : option (dev_world X * Z) :=
  '(a, ret) ← msg_send_to_alg (dw_alg w) pack pack_len (dw_malloc_ok w) (dw_mq_ok w);
  Some (set_dw_alg a w, ret).

(** [alink_set_upload_dev_id] of alink.c. *)
Definition ALINK_DEV_ID_RADAR : Z := 3.
Definition alink_set_upload_dev_id {X} (w : dev_world X) (DevId : Z) : dev_world X * Z :=
  let DevId := u8 DevId in
  if ALINK_DEV_ID_RADAR =? Z.land 15 DevId then
    (set_dw_upload (upload_set_byDevId DevId (dw_upload w)) w, 0)
  else (w, -1).

(** Ready to take packages: allocation and queue work, the queue has room. *)
Definition dw_ready {X} (w : dev_world X) : Prop :=
  dw_malloc_ok w = true /\ dw_mq_ok w = true /\ alg_ready (dw_alg w).

Lemma dw_send_ready {X} (w : dev_world X) pack n :
  dw_ready w -> 0 <= n <= Zlen pack ->
  exists a info, ld_bytes pack 0 n = Some info /\ dw_send w pack n = Some (set_dw_alg a w, 0)
    /\ alg_queue a = alg_queue (dw_alg w) ++ [info].
Proof.
  intros (Hm & Hq & Hr) Hn.
  destruct (msg_send_ready (dw_alg w) pack n Hr Hn) as (a & info & Hi & He & Ha & _).
  exists a, info. unfold dw_send. rewrite Hm, Hq, He. done.
Qed.

(** Reading the payload of a command. *)
Definition payload_ld8 (mem : memory) (psPayload : alink_payload) (k : Z) : option Z :=
  at_ptr mem (pl_pbyData psPayload) (λ m p, ld8 m (p + k)).
Definition payload_bytes (mem : memory) (psPayload : alink_payload) (n : Z)
  : option (list Z) :=
  at_ptr mem (pl_pbyData psPayload) (λ m p, ld_bytes m p n).

(** Writing the reply of a command at offset [k]. *)
Definition resp_put (psResp : alink_resp) (k : Z) (bs : list Z) : option alink_resp :=
  b ← st_bytes (rs_pbyBuffer psResp) (rs_off psResp + k) bs;
  Some (resp_set_buffer b psResp).
