(* ===== verification/AlinkSystem.v ===== *)
(** * System commands ([src/srv/alink/command/system/alink_system.c])

    Four commands of the C2 side and the heartbeat package. *)

From S2P Require Import Prelude AlinkRecv AlinkOrder AlinkBuild AlinkUpload SysportTask.
From S2P Require Import AlgInterface AlinkWorld Layout.
Local Open Scope string_scope.
Local Open Scope list_scope.
Local Open Scope Z_scope.

(** ** Data ([alink_system.h]) *)

Definition alink_sys_set_status : struct := [("type", 1); ("param1", 1); ("param2", 1)].
Definition alink_sys_set_status_ack : struct := [("status", 1)].
Definition alink_sys_get_info : struct := [("type", 1)].
Definition alink_sys_get_info_ack : struct := [("type", 1); ("value", 16)].
Definition alink_sys_heartbeat_ext : struct := [("sum", 1)].
Definition alink_sys_set_sn : struct := [("sn", 15)].
Definition alink_sys_set_sn_ack : struct := [("status", 1)].
Definition alink_sys_heartbeat : struct :=
  [("electricity", 1); ("status", 1); ("faultnum", 1); ("faultCode", 4 * 64)].

(** "RADAR_12345678" with its terminator. *)
Definition radar_name : list Z := [82; 65; 68; 65; 82; 95; 49; 50; 51; 52; 53; 54; 55; 56; 0].

(** ** The code *)

Section system.
Context {X : Type}.

Definition system_set_status : cmd_task (dev_world X) :=
  λ mem psPayload psResp w,
    let answer status psResp := 
      psResp ← resp_put psResp (offsetof alink_sys_set_status_ack "status") [status];
      Some (resp_set_wCount (sizeof alink_sys_set_status_ack) psResp) in
    type ← payload_ld8 mem psPayload (offsetof alink_sys_set_status "type");
    if (type =? 0) || (type =? 1) || (type =? 2) || (type =? 3) then
      psResp ← answer 0 psResp; Some (psResp, w)
    else if type =? 4 then
      param1 ← payload_ld8 mem psPayload (offsetof alink_sys_set_status "param1");
      let '(w, ret) := alink_set_upload_dev_id w param1 in
      psResp ← (if ret =? 0 then answer 0 psResp else answer 1 psResp);
      Some (psResp, w)
    else Some (psResp, w).

Definition system_get_info : cmd_task (dev_world X) :=
  λ mem psPayload psResp w,
    let off_type := offsetof alink_sys_get_info_ack "type" in
    let off_value := offsetof alink_sys_get_info_ack "value" in
    let finish psResp := Some (resp_set_wCount (sizeof alink_sys_get_info_ack) psResp, w) in
    type ← payload_ld8 mem psPayload (offsetof alink_sys_get_info "type");
    if type =? 0 then
      psResp ← resp_put psResp off_type [0];
      psResp ← resp_put psResp off_value [0];
      finish psResp
    else if type =? 1 then
      psResp ← resp_put psResp off_type [1];
      psResp ← resp_put psResp off_value [0];
      psResp ← resp_put psResp (off_value + 1) (replicate (16 - 1) 0);
      psResp ← resp_put psResp (off_value + 1) radar_name;
      finish psResp
    else if type =? 2 then
      psResp ← resp_put psResp off_type [2];
      psResp ← resp_put psResp off_value (le_bytes 4 3);
      finish psResp
    else Some (psResp, w).

Definition system_heartbeat_ext : cmd_task (dev_world X) :=
  λ _ _ psResp w, Some (psResp, w).

(** Storing the number is commented out: [eRet] is always -1. *)
Definition system_set_sn : cmd_task (dev_world X) :=
  λ _ _ psResp w,
    let eRet := -1 in
    let status := if eRet <? 0 then 0 else 1 in
    psResp ← resp_put psResp (offsetof alink_sys_set_sn_ack "status") [status];
    Some (resp_set_wCount (sizeof alink_sys_set_sn_ack) psResp, w).
End system.

Fixpoint heartbeat_faults (n : nat) (b : list Z) (p i : Z) : option (list Z * Z) :=
  match n with
  | O => Some (b, i)
  | S n' => b ← st_le 4 b (p + 4 * i) 0; heartbeat_faults n' b p (i + 1)
  end.

Definition system_pkg_heartbeat : package_task :=
  λ b p wSize _,
    b ← st8 b (p + offsetof alink_sys_heartbeat "electricity") 100;
    b ← st8 b (p + offsetof alink_sys_heartbeat "status") 0;
    b ← st8 b (p + offsetof alink_sys_heartbeat "faultnum") 0;
    faultnum ← ld8 b (p + offsetof alink_sys_heartbeat "faultnum");
    '(b, i) ← heartbeat_faults (Z.to_nat faultnum) b
                (p + offsetof alink_sys_heartbeat "faultCode") 0;
    Some (u16 (3 + i * 4), b).

(** ** The heartbeat writes its three bytes *)

Lemma st_bytes_triple a x y z b p u v w :
  Zlen a = p ->
  (m ← st8 (a ++ x :: y :: z :: b) (p + 0) u; m ← st8 m (p + 1) v; st8 m (p + 2) w)
  = Some (a ++ u8 u :: u8 v :: u8 w :: b).
Proof.
  intros <-. rewrite Z.add_0_r, st8_middle by done. cbn [mbind option_bind].
  rewrite (cons_middle (u8 u)), app_assoc, st8_middle by by rewrite Zlen_snoc.
  cbn [mbind option_bind].
  rewrite (cons_middle (u8 v)), app_assoc, st8_middle by (rewrite !Zlen_snoc; lia).
  by rewrite <-!app_assoc.
Qed.

#[export] Instance heartbeat_task : PackageTask system_pkg_heartbeat (λ _ _, Some [100; 0; 0]).
Proof.
  intros b off size imp payload _ [= <-] Ho Hfit _. change (Zlen [100; 0; 0]) with 3 in *.
  split; [by_eval|]. split; [lia|].
  destruct (proj2 (ld_bytes_Some b off 3)) as [old Hold]; [lia|].
  pose proof (ld_bytes_split _ _ _ _ Hold) as (a & c & -> & Ha & Hl).
  destruct old as [|x [|y [|z [|? ?]]]]; try (unfold Zlen in Hl; cbn in Hl; lia).
  rewrite (st_bytes_app a [x; y; z] c [100; 0; 0]) by done. cbn [mbind option_bind].
  unfold system_pkg_heartbeat.
  change (offsetof alink_sys_heartbeat "electricity") with 0.
  change (offsetof alink_sys_heartbeat "status") with 1.
  change (offsetof alink_sys_heartbeat "faultnum") with 2.
  pose proof (st_bytes_triple a x y z c off 100 0 0 Ha) as H.
  apply bind_Some in H as (m1 & H1 & H). apply bind_Some in H as (m2 & H2 & H3).
  cbn [app]. rewrite H1. cbn [mbind option_bind]. rewrite H2. cbn [mbind option_bind].
  rewrite H3. cbn [mbind option_bind]. rewrite <-Ha, ld8_app by lia. done.
Qed.

(** ** Replies *)

(** The byte of a one-byte reply and the length the handler announces. *)
Definition status_reply (psResp : alink_resp) (status : Z) : alink_resp :=
  resp_set_wCount 1
    (resp_set_buffer (<[Z.to_nat (rs_off psResp) := status]> (rs_pbyBuffer psResp)) psResp).

Lemma resp_put_status psResp v :
  0 <= rs_off psResp < Zlen (rs_pbyBuffer psResp) -> is_byte v ->
  resp_put psResp 0 [v]
  = Some (resp_set_buffer (<[Z.to_nat (rs_off psResp) := v]> (rs_pbyBuffer psResp)) psResp).
Proof.
  intros Ho Hv. unfold resp_put. rewrite Z.add_0_r.
  pose proof (st8_at (rs_pbyBuffer psResp) (rs_off psResp) v Ho) as H.
  unfold st8 in H. rewrite u8_id in H by done. by rewrite H.
Qed.

Lemma resp_put_app r k a c b bs :
  rs_pbyBuffer r = a ++ c ++ b -> Zlen a = rs_off r + k -> Zlen c = Zlen bs ->
  resp_put r k bs = Some (resp_set_buffer (a ++ bs ++ b) r).
Proof. intros E Ha Hc. unfold resp_put. by rewrite E, (st_bytes_app a c b bs). Qed.

(** The side conditions of [resp_put_app]. *)
Ltac resp_side :=
  first [ cbn [rs_pbyBuffer resp_set_buffer]; rewrite <-!app_assoc; reflexivity
        | cbn [rs_off resp_set_buffer]; rewrite Zlen_app; unfold Zlen in *; cbn [length] in *; lia
        | reflexivity | assumption ].

Ltac zlen :=
  unfold Zlen in *; cbn [app length] in *; rewrite ?length_app; cbn [app length];
  rewrite ?length_app; cbn [length radar_name le_bytes] in *; lia.

(** The first two stores of a [get_info] reply. *)
Lemma info_head r a x y b t v :
  rs_pbyBuffer r = a ++ [x; y] ++ b -> Zlen a = rs_off r ->
  (r ← resp_put r 0 [t]; resp_put r 1 [v]) = Some (resp_set_buffer (a ++ [t; v] ++ b) r).
Proof.
  intros E Ha. rewrite (resp_put_app r 0 a [x] (y :: b) [t]) by (done || lia).
  cbn [mbind option_bind].
  rewrite (resp_put_app _ 1 (a ++ [t]) [y] b [v]).
  - unfold resp_set_buffer. cbn. by rewrite <-app_assoc.
  - cbn. by rewrite <-app_assoc.
  - rewrite Zlen_snoc. cbn. lia.
  - done.
Qed.

(** ** Properties *)

(** The set-status command. Types 0 to 3 are acknowledged and change nothing; type 4
    changes the device id of the uploads exactly when the new id is a radar id (low nibble
    3) and says so in its status byte; any other type leaves the default reply. The
    handler is total on every payload of the registered minimum length. *)
Lemma system_set_status_effect {X} mem psPayload psResp (w : dev_world X) type param1 :
  payload_ld8 mem psPayload 0 = Some type -> payload_ld8 mem psPayload 1 = Some param1 ->
  is_byte param1 -> 0 <= rs_off psResp < Zlen (rs_pbyBuffer psResp) ->
  let radar := bool_decide (param1 mod 16 = 3) in
  system_set_status mem psPayload psResp w
  = Some (if decide (0 <= type <= 3) then (status_reply psResp 0, w)
          else if decide (type = 4) then
            if radar then
              (status_reply psResp 0,
               set_dw_upload (upload_set_byDevId param1 (dw_upload w)) w)
            else (status_reply psResp 1, w)
          else (psResp, w)).
Proof.
  intros Ht Hp Hb Ho radar. unfold system_set_status.
  change (offsetof alink_sys_set_status "type") with 0.
  change (offsetof alink_sys_set_status "param1") with 1.
  change (offsetof alink_sys_set_status_ack "status") with 0.
  change (sizeof alink_sys_set_status_ack) with 1.
  rewrite Ht. cbn [mbind option_bind].
  destruct (decide (0 <= type <= 3)) as [Hr|Hr].
  - assert ((type =? 0) || (type =? 1) || (type =? 2) || (type =? 3) = true) as -> by lia.
    by rewrite resp_put_status.
  - assert ((type =? 0) || (type =? 1) || (type =? 2) || (type =? 3) = false) as -> by lia.
    destruct (decide (type = 4)) as [->|Hne]; [|by rewrite (proj2 (Z.eqb_neq type 4))].
    cbn [Z.eqb Pos.eqb]. rewrite Hp. cbn [mbind option_bind]. unfold alink_set_upload_dev_id.
    rewrite u8_id by done. unfold ALINK_DEV_ID_RADAR.
    assert (Z.land 15 param1 = param1 mod 16) as ->
      by (rewrite Z.land_comm; by apply (Z.land_ones param1 4)).
    unfold radar. destruct (Z.eqb_spec 3 (param1 mod 16)) as [E|E].
    + rewrite bool_decide_eq_true_2 by done. cbn [Z.eqb]. by rewrite resp_put_status.
    + rewrite bool_decide_eq_false_2 by congruence. cbn [Z.eqb]. by rewrite resp_put_status.
Qed.

(** The get-info command never writes outside its 17-byte reply: for every type the
    handler is total on a reply buffer with 17 bytes to spare, answers types 0, 1 and 2 with
    17 bytes that start with the type, the serial number answer being the terminated name,
    and leaves the world alone. *)
Lemma system_get_info_reply {X} mem psPayload psResp (w : dev_world X) type :
  payload_ld8 mem psPayload 0 = Some type ->
  0 <= rs_off psResp -> rs_off psResp + 17 <= Zlen (rs_pbyBuffer psResp) ->
  exists psResp', system_get_info mem psPayload psResp w = Some (psResp', w)
  /\ Zlen (rs_pbyBuffer psResp') = Zlen (rs_pbyBuffer psResp)
  /\ (0 <= type <= 2 -> rs_wCount psResp' = 17
        /\ ld8 (rs_pbyBuffer psResp') (rs_off psResp) = Some type)
  /\ (type = 1 -> ld_bytes (rs_pbyBuffer psResp') (rs_off psResp) 17 = Some ([1; 0] ++ radar_name))
  /\ (~ 0 <= type <= 2 -> psResp' = psResp).
Proof.
  intros Ht Ho Hl.
  destruct (proj2 (ld_bytes_Some (rs_pbyBuffer psResp) (rs_off psResp) 17)) as [old Hold]; [lia|].
  apply ld_bytes_split in Hold as (a & b & Eb & Ha & Hlen).
  destruct old as [|x [|y old]]; [unfold Zlen in Hlen; cbn in Hlen; lia..|].
  assert (Zlen old = 15) as Ho15 by (rewrite !Zlen_cons in Hlen; lia).
  change ((x :: y :: old) ++ b) with ([x; y] ++ old ++ b) in Eb.
  unfold system_get_info. change (offsetof alink_sys_get_info "type") with 0.
  change (offsetof alink_sys_get_info_ack "type") with 0.
  change (offsetof alink_sys_get_info_ack "value") with 1.
  change (sizeof alink_sys_get_info_ack) with 17.
  rewrite Ht. cbn [mbind option_bind].
  destruct (Z.eqb_spec type 0) as [->|H0]; [|destruct (Z.eqb_spec type 1) as [->|H1];
    [|destruct (Z.eqb_spec type 2) as [->|H2]]].
  - pose proof (info_head psResp a x y _ 0 0 Eb Ha) as Hh.
    apply bind_Some in Hh as (r1 & -> & Hh). cbn [mbind option_bind]. rewrite Hh.
    eexists. split; [done|]. cbn. rewrite Eb, <-Ha. split; [zlen|].
    repeat split; first [done|lia|apply ld8_middle].
  - pose proof (info_head psResp a x y _ 1 0 Eb Ha) as Hh.
    apply bind_Some in Hh as (r1 & -> & Hh). cbn [mbind option_bind]. rewrite Hh.
    change (1 + 1) with 2. cbn [mbind option_bind].
    rewrite (resp_put_app _ 2 (a ++ [1; 0]) old b (replicate (16 - 1) 0)) by resp_side.
    cbn [mbind option_bind].
    rewrite (resp_put_app _ 2 (a ++ [1; 0]) (replicate (16 - 1) 0) b radar_name) by resp_side.
    eexists. split; [done|]. cbn -[radar_name]. rewrite Eb, <-Ha, <-app_assoc.
    split; [zlen|].
    repeat split; first [done|lia|apply ld8_middle|idtac].
    intros _. by apply (ld_bytes_app a ([1; 0] ++ radar_name) b).
  - pose proof (info_head psResp a x y _ 2 y Eb Ha) as Hh.
    destruct old as [|o1 [|o2 [|o3 old]]]; try (unfold Zlen in Ho15; cbn in Ho15; lia).
    apply bind_Some in Hh as (r1 & Hr1 & _). rewrite Hr1.
    rewrite (resp_put_app psResp 0 a [x] (y :: o1 :: o2 :: o3 :: old ++ b)) in Hr1 by (done || lia).
    injection Hr1 as <-. cbn [mbind option_bind].
    rewrite (resp_put_app _ 1 (a ++ [2]) [y; o1; o2; o3] (old ++ b) (le_bytes 4 3)) by resp_side.
    eexists. split; [done|]. cbn -[le_bytes]. rewrite Eb, <-Ha, <-app_assoc.
    split; [zlen|]. repeat split; first [done|lia|apply ld8_middle].
  - eexists. split; [done|]. split; [done|]. repeat split; try done; lia.
Qed.

(** ** Witnesses *)

Definition demo_sys_world : dev_world unit :=
  {| dw_upload := {| byDevId := 8; byReq := 0; up_wBufferSize := 6144; up_mutex := false;
                     up_pbyBuffer := []; psPackageList := None |};
     dw_pack := [];
     dw_alg := {| pvalgtask := None;
                  alg_idle := {| mtargets_handle := None; alg_user := () |}; alg_live := 0 |};
     dw_malloc_ok := true; dw_mq_ok := true |}.
Definition demo_sys_payload : alink_payload :=
  {| pl_ePortId := 1; pl_eRemoteId := 6; pl_wLength := 3; pl_pbyData := Ptr 4 0 |}.
Definition demo_sys_resp : alink_resp :=
  {| rs_wCount := 1; rs_wSize := 21; rs_pbyBuffer := replicate 32 255; rs_off := 9;
     rs_psArg := {| oi_ePortId := 1; oi_pbyMsg := Ptr 4 0; oi_handle := 0; oi_pe_send := 0 |} |}.

Lemma system_set_status_effect_witness :
  (exists r w, system_set_status {[ 4%nat := [4; 19; 0] ]} demo_sys_payload demo_sys_resp
     demo_sys_world = Some (r, w) /\ byDevId (dw_upload w) = 19).
Proof.
  do 2 eexists. split.
  - rewrite (system_set_status_effect _ _ _ _ 4 19); [reflexivity..|by_eval|by_eval].
  - reflexivity.
Defined.

Lemma system_get_info_reply_witness :
  (exists r, system_get_info {[ 4%nat := [1; 0; 0] ]} demo_sys_payload demo_sys_resp
     demo_sys_world = Some (r, demo_sys_world) /\ rs_wCount r = 17).
Proof.
  destruct (system_get_info_reply {[ 4%nat := [1; 0; 0] ]} demo_sys_payload demo_sys_resp
    demo_sys_world 1) as (r & H & _ & H1 & _); [reflexivity|by_eval|by_eval|].
  exists r. split; [exact H|]. apply H1. lia.
Defined.
