(* ===== verification/AlinkTrack.v ===== *)
(** * Tracks from the sensors ([src/srv/alink/command/track])

    Radar tracks and attitude, and the drone-id and remote-id lists of the tracer: each
    command copies its payload into a package and posts the package to the algorithms.
    The copies take the length from the message and not from the destination. *)

From S2P Require Import Prelude AlinkRecv AlinkOrder AlinkUpload SysportTask AlgInterface.
From S2P Require Import AlinkWorld Layout.
Local Open Scope string_scope.
Local Open Scope list_scope.
Local Open Scope Z_scope.

(** ** Data ([alink_track.h], [alink.h]) *)

Definition ALINK_TARGET_MAX : Z := 128.

Definition TRACK_INFO_RADAR : Z := 0.
Definition TRACK_INFO_TRACER_P_REMOTE_ID : Z := 1.
Definition TRACK_INFO_TRACER_P_DRONE_ID : Z := 2.
Definition TRACK_INFO_FROM_USER : Z := 3.

Definition alink_track_get_config_info : struct := [("reserved", 1)].

Definition alink_track_tracked_item : struct :=
  [("id", 1); ("classification", 1); ("classfyProb", 1); ("existingProb", 1);
   ("ambiguous", 1); ("twsTasFlag", 1); ("stateType", 1); ("motionType", 1);
   ("azimuth", 2); ("range", 4); ("elevation", 2); ("velocity", 2); ("dopplerChn", 2);
   ("mag", 2); ("absVel", 2); ("orientationAngle", 2); ("alive", 2); ("x", 4); ("y", 4);
   ("z", 4); ("vx", 2); ("vy", 2); ("vz", 2); ("ax", 2); ("ay", 2); ("az", 2);
   ("x_variance", 2); ("y_variance", 2); ("z_variance", 2); ("vx_variance", 2);
   ("vy_variance", 2); ("vz_variance", 2); ("ax_variance", 2); ("ay_variance", 2);
   ("az_variance", 2); ("forcastFrameNum", 2); ("associationNum", 2); ("assocBit0", 4);
   ("assocBit1", 4); ("threatLevel", 2); ("reserve", 2 * 3)].

Definition alink_track_tracked : struct :=
  [("reserved", 1); ("trackObjNum", 1); ("trackTwsNum", 1); ("trackTasNum", 1);
   ("trackObjByte", 1); ("trackPoint", ALINK_TARGET_MAX * sizeof alink_track_tracked_item)].

Definition alink_track_attitude : struct :=
  [("reserved", 1); ("heading", 4); ("pitching", 4); ("rolling", 4); ("longitude", 4);
   ("latitude", 4); ("altitude", 4); ("velocityNavi", 4); ("targetTimeMark", 2 * 6);
   ("sigProcRelativeTime", 4)].

Definition alink_drone_id_items : struct :=
  [("productType", 1); ("droneName", 25); ("serialNum", 32); ("droneLongitude", 4);
   ("droneLatitude", 4); ("droneHeight", 2); ("droneDirection", 2); ("droneSpeed", 2);
   ("Speedderection", 1); ("droneVerticalSpeed", 2); ("droneSailLongitude", 4);
   ("droneSailLatitude", 4); ("uFreq", 4); ("uDistance", 2); ("uDangerLevels", 2)].

Definition alink_drone_id_track : struct :=
  [("sn_name", 25); ("uDroneNum", 1); ("items", ALINK_TARGET_MAX * sizeof alink_drone_id_items)].

Definition alink_remote_id_items : struct :=
  [("productType", 1); ("droneName", 25); ("serialNum", 32); ("droneLongitude", 4);
   ("droneLatitude", 4); ("droneHeight", 2); ("droneDirection", 2); ("droneSpeed", 2);
   ("Speedderection", 1); ("droneVerticalSpeed", 2); ("droneSailLongitude", 4);
   ("droneSailLatitude", 4); ("uFreq", 4); ("uDistance", 2); ("uDangerLevels", 2)].

Definition alink_remote_id_track : struct :=
  [("sn_name", 25); ("uDroneNum", 1);
   ("items", ALINK_TARGET_MAX * sizeof alink_remote_id_items)].

(** Packed. *)
Definition radar_track_info_packages : struct :=
  [("track_pack_type", 4); ("track_tracked", sizeof alink_track_tracked);
   ("track_attitude", sizeof alink_track_attitude)].

(** Not packed: rounded up to the alignment of [int]. *)
Definition remoteid_track_info_packages : struct :=
  [("track_pack_type", 4); ("remote_id", sizeof alink_remote_id_track)].
Definition droneid_track_info_packages : struct :=
  [("track_pack_type", 4); ("drone_id", sizeof alink_drone_id_track)].

Definition sizeof_radar_track : Z := sizeof radar_track_info_packages.
Definition sizeof_remoteid : Z := round_up (sizeof remoteid_track_info_packages) 4.
Definition sizeof_droneid : Z := round_up (sizeof droneid_track_info_packages) 4.

(** ** The code *)

Section track.
Context {X : Type}.

Definition track_pkg_tracked : cmd_task (dev_world X) :=
  λ mem psPayload psResp w,
    src ← payload_bytes mem psPayload (pl_wLength psPayload);
    pack ← st_bytes (dw_pack w) (offsetof radar_track_info_packages "track_tracked") src;
    pack ← st_le 4 pack (offsetof radar_track_info_packages "track_pack_type") TRACK_INFO_RADAR;
    let w := set_dw_pack pack w in
    '(w, _) ← dw_send w pack sizeof_radar_track;
    Some (psResp, w).

Definition track_pkg_attitude : cmd_task (dev_world X) :=
  λ mem psPayload psResp w,
    src ← payload_bytes mem psPayload (pl_wLength psPayload);
    pack ← st_bytes (dw_pack w) (offsetof radar_track_info_packages "track_attitude") src;
    Some (psResp, set_dw_pack pack w).

Definition track_pkg_drone_id : cmd_task (dev_world X) :=
  λ mem psPayload psResp w,
    let droneid_pack := replicate (Z.to_nat sizeof_droneid) 0 in
    droneid_pack ← st_le 4 droneid_pack
      (offsetof droneid_track_info_packages "track_pack_type") TRACK_INFO_TRACER_P_DRONE_ID;
    src ← payload_bytes mem psPayload (pl_wLength psPayload);
    droneid_pack ← st_bytes droneid_pack (offsetof droneid_track_info_packages "drone_id") src;
    '(w, _) ← dw_send w droneid_pack sizeof_droneid;
    Some (psResp, w).

Definition track_pkg_remote_id : cmd_task (dev_world X) :=
  λ mem psPayload psResp w,
    let remoteid_pack := replicate (Z.to_nat sizeof_remoteid) 0 in
    remoteid_pack ← st_le 4 remoteid_pack
      (offsetof remoteid_track_info_packages "track_pack_type") TRACK_INFO_TRACER_P_REMOTE_ID;
    src ← payload_bytes mem psPayload (pl_wLength psPayload);
    remoteid_pack ← st_bytes remoteid_pack
      (offsetof remoteid_track_info_packages "remote_id") src;
    '(w, _) ← dw_send w remoteid_pack (4 + pl_wLength psPayload);
    Some (psResp, w).
End track.

(** ** What the handlers post *)

Lemma track_offsets :
  offsetof radar_track_info_packages "track_tracked" = 4
  /\ offsetof radar_track_info_packages "track_attitude" = 11529
  /\ offsetof radar_track_info_packages "track_pack_type" = 0
  /\ sizeof_radar_track = 11574 /\ sizeof_droneid = 11680 /\ sizeof_remoteid = 11680.
Proof. by_eval. Qed.

(** A payload in memory, as the order component passes it. *)
Definition payload_at (mem : memory) (psPayload : alink_payload) (payload : list Z) : Prop :=
  pl_wLength psPayload = Zlen payload
  /\ payload_bytes mem psPayload (Zlen payload) = Some payload.

Section posts.
Context {X : Type} (mem : memory) (psPayload : alink_payload) (payload : list Z).
Context (psResp : alink_resp) (w : dev_world X).
Hypothesis Hp : payload_at mem psPayload payload.
Hypothesis Hw : dw_ready w.

(** A package made of a type, the payload and what was behind it. *)
Lemma pack_build (old : list Z) (type : Z) :
  4 + Zlen payload <= Zlen old ->
  (p ← st_bytes old 4 payload; st_le 4 p 0 type)
  = Some (le_bytes 4 type ++ payload ++ drop (4 + length payload) old).
Proof.
  intros Hl. destruct (proj2 (ld_bytes_Some old 4 (Zlen payload))) as [c Hc];
    [pose proof (Zlen_nonneg payload); lia|].
  apply ld_bytes_split in Hc as (a & b & -> & Ha & Hc).
  rewrite (st_bytes_app a c b payload) by done. cbn [mbind option_bind].
  unfold st_le. rewrite st_bytes_prefix by (rewrite Zlen_le_bytes; lia). do 3 f_equal. rewrite <-drop_drop, drop_app_length' by (unfold Zlen in Ha; lia).
  by rewrite drop_app_length' by (unfold Zlen in Hc; lia).
Qed.

Lemma track_pkg_tracked_build :
  Zlen payload <= 11570 -> Zlen (dw_pack w) = 11574 ->
  let pack := le_bytes 4 TRACK_INFO_RADAR ++ payload ++ drop (4 + length payload) (dw_pack w) in
  Zlen pack = 11574
  /\ track_pkg_tracked mem psPayload psResp w
     = ('(w, _) ← dw_send (set_dw_pack pack w) pack 11574; Some (psResp, w)).
Proof.
  intros Hl Hpk pack. destruct Hp as [Hn Hb]. destruct track_offsets as (_ & _ & E0 & Es & _).
  split.
  { unfold pack. rewrite !Zlen_app, Zlen_le_bytes. unfold Zlen in *. rewrite length_drop. lia. }
  unfold track_pkg_tracked. rewrite Hn, Hb. cbn [mbind option_bind].
  destruct track_offsets as (-> & _). rewrite E0, Es.
  pose proof (pack_build (dw_pack w) TRACK_INFO_RADAR ltac:(lia)) as Hbuild.
  destruct (st_bytes (dw_pack w) 4 payload) as [p|]; [|done]. cbn [mbind option_bind] in *.
  rewrite Hbuild. done.
Qed.

Lemma track_pkg_tracked_post :
  Zlen payload <= 11570 -> Zlen (dw_pack w) = 11574 ->
  let pack := le_bytes 4 TRACK_INFO_RADAR ++ payload ++ drop (4 + length payload) (dw_pack w) in
  exists a, track_pkg_tracked mem psPayload psResp w
            = Some (psResp, set_dw_alg a (set_dw_pack pack w))
    /\ alg_queue a = alg_queue (dw_alg w) ++ [pack].
Proof.
  intros Hl Hpk pack. destruct (track_pkg_tracked_build Hl Hpk) as [Hlen ->]. fold pack in Hlen |- *.
  destruct (dw_send_ready (set_dw_pack pack w) pack 11574) as (a & info & Hi & -> & Ha);
    [done|lia|]. rewrite <-Hlen, ld_bytes_all in Hi. injection Hi as <-. by exists a.
Qed.

Lemma track_pkg_tracked_safe :
  Zlen (dw_pack w) = 11574 ->
  is_Some (track_pkg_tracked mem psPayload psResp w) <-> Zlen payload <= 11570.
Proof.
  intros Hpk. split; [|intros Hl; by destruct (track_pkg_tracked_post Hl Hpk) as (a & -> & _)].
  destruct Hp as [Hn Hb]. unfold track_pkg_tracked. rewrite Hn, Hb. cbn [mbind option_bind].
  intros [x Hx]. apply bind_Some in Hx as (p & Hst & _).
  apply (mk_is_Some _ _), st_bytes_Some in Hst. destruct track_offsets as (E & _).
  rewrite E in Hst. lia.
Qed.

Lemma track_pkg_attitude_safe :
  Zlen (dw_pack w) = 11574 ->
  is_Some (track_pkg_attitude mem psPayload psResp w) <-> Zlen payload <= 45.
Proof.
  intros Hpk. destruct Hp as [Hn Hb]. destruct track_offsets as (_ & E & _).
  unfold track_pkg_attitude. rewrite Hn, Hb, E. cbn [mbind option_bind]. split.
  - intros [x Hx]. apply bind_Some in Hx as (p & Hst & _).
    apply (mk_is_Some _ _), st_bytes_Some in Hst. lia.
  - intros Hl. destruct (proj2 (st_bytes_Some (dw_pack w) 11529 payload)) as [p ->]; [lia|].
    by eexists.
Qed.

(** A package built on the stack from a type and the payload. *)
Lemma stack_pack (n type : Z) :
  8 <= n -> 4 + Zlen payload <= n ->
  (p ← st_le 4 (replicate (Z.to_nat n) 0) 0 type; st_bytes p 4 payload)
  = Some (le_bytes 4 type ++ payload ++ replicate (Z.to_nat (n - 4 - Zlen payload)) 0).
Proof.
  intros H8 Hl. unfold st_le. pose proof (Zlen_nonneg payload).
  replace (Z.to_nat n) with (4 + (length payload + Z.to_nat (n - 4 - Zlen payload)))%nat at 1
    by (unfold Zlen in *; lia).
  rewrite !replicate_add, st_bytes_prefix by done. cbn [mbind option_bind].
  apply st_bytes_app; [done|]. unfold Zlen. by rewrite length_replicate.
Qed.

Lemma stack_pack_len (n type : Z) :
  8 <= n -> 4 + Zlen payload <= n ->
  Zlen (le_bytes 4 type ++ payload ++ replicate (Z.to_nat (n - 4 - Zlen payload)) 0) = n.
Proof.
  intros. rewrite !Zlen_app, Zlen_le_bytes. unfold Zlen in *. rewrite length_replicate. lia.
Qed.

Lemma track_pkg_drone_id_post :
  Zlen payload <= 11676 ->
  let pack := le_bytes 4 TRACK_INFO_TRACER_P_DRONE_ID ++ payload
              ++ replicate (Z.to_nat (11680 - 4 - Zlen payload)) 0 in
  exists a, track_pkg_drone_id mem psPayload psResp w = Some (psResp, set_dw_alg a w)
    /\ alg_queue a = alg_queue (dw_alg w) ++ [pack].
Proof.
  intros Hl pack. destruct Hp as [Hn Hb].
  pose proof (stack_pack 11680 TRACK_INFO_TRACER_P_DRONE_ID ltac:(lia) ltac:(lia)) as H.
  pose proof (stack_pack_len 11680 TRACK_INFO_TRACER_P_DRONE_ID ltac:(lia) ltac:(lia)) as Hlen.
  fold pack in H, Hlen.
  unfold track_pkg_drone_id. destruct track_offsets as (_ & _ & _ & _ & -> & _).
  change (offsetof droneid_track_info_packages "track_pack_type") with 0.
  change (offsetof droneid_track_info_packages "drone_id") with 4.
  apply bind_Some in H as (p & -> & Hst). cbn [mbind option_bind].
  rewrite Hn, Hb. cbn [mbind option_bind]. rewrite Hst. cbn [mbind option_bind].
  destruct (dw_send_ready w pack 11680) as (a & info & Hi & -> & Ha); [done|lia|].
  rewrite <-Hlen, ld_bytes_all in Hi. injection Hi as <-. by exists a.
Qed.

Lemma track_pkg_drone_id_safe :
  is_Some (track_pkg_drone_id mem psPayload psResp w) <-> Zlen payload <= 11676.
Proof.
  split; [|intros Hl; by destruct (track_pkg_drone_id_post Hl) as (a & -> & _)].
  destruct Hp as [Hn Hb]. unfold track_pkg_drone_id. rewrite Hn, Hb.
  destruct track_offsets as (_ & _ & _ & _ & -> & _).
  intros [x Hx]. apply bind_Some in Hx as (p & Hp1 & Hx). cbn [mbind option_bind] in Hx.
  apply bind_Some in Hx as (q & Hq & _). apply st_bytes_len in Hp1.
  apply (mk_is_Some _ _), st_bytes_Some in Hq.
  change (offsetof droneid_track_info_packages "drone_id") with 4 in Hq.
  unfold Zlen in Hp1 at 2. rewrite length_replicate in Hp1. lia.
Qed.

Lemma track_pkg_remote_id_post :
  Zlen payload <= 11676 ->
  exists a, track_pkg_remote_id mem psPayload psResp w = Some (psResp, set_dw_alg a w)
    /\ alg_queue a = alg_queue (dw_alg w) ++ [le_bytes 4 TRACK_INFO_TRACER_P_REMOTE_ID ++ payload].
Proof.
  intros Hl. destruct Hp as [Hn Hb].
  pose proof (stack_pack 11680 TRACK_INFO_TRACER_P_REMOTE_ID ltac:(lia) ltac:(lia)) as H.
  pose proof (stack_pack_len 11680 TRACK_INFO_TRACER_P_REMOTE_ID ltac:(lia) ltac:(lia)) as Hlen.
  set (pack := le_bytes 4 _ ++ payload ++ _) in *.
  unfold track_pkg_remote_id. destruct track_offsets as (_ & _ & _ & _ & _ & ->).
  change (offsetof remoteid_track_info_packages "track_pack_type") with 0.
  change (offsetof remoteid_track_info_packages "remote_id") with 4.
  apply bind_Some in H as (p & -> & Hst). cbn [mbind option_bind].
  rewrite Hn, Hb. cbn [mbind option_bind]. rewrite Hst. cbn [mbind option_bind].
  pose proof (Zlen_nonneg payload).
  destruct (dw_send_ready w pack (4 + Zlen payload)) as (a & info & Hi & -> & Ha); [done|lia|].
  assert (ld_bytes pack 0 (4 + Zlen payload) = Some (le_bytes 4 1 ++ payload)) as E.
  { unfold pack. rewrite app_assoc. apply ld_bytes_prefix.
    rewrite Zlen_app, Zlen_le_bytes. done. }
  rewrite E in Hi. injection Hi as <-. by exists a.
Qed.

Lemma track_pkg_remote_id_safe :
  is_Some (track_pkg_remote_id mem psPayload psResp w) <-> Zlen payload <= 11676.
Proof.
  split; [|intros Hl; by destruct (track_pkg_remote_id_post Hl) as (a & -> & _)].
  destruct Hp as [Hn Hb]. unfold track_pkg_remote_id. rewrite Hn, Hb.
  destruct track_offsets as (_ & _ & _ & _ & _ & ->).
  intros [x Hx]. apply bind_Some in Hx as (p & Hp1 & Hx). cbn [mbind option_bind] in Hx.
  apply bind_Some in Hx as (q & Hq & _). apply st_bytes_len in Hp1.
  apply (mk_is_Some _ _), st_bytes_Some in Hq.
  change (offsetof remoteid_track_info_packages "remote_id") with 4 in Hq.
  unfold Zlen in Hp1 at 2. rewrite length_replicate in Hp1. lia.
Qed.
End posts.

(** ** Properties *)

(** The radar package. When a tracker of the expected size reports its attitude and
    then its tracks, the algorithms get one package: the radar tag, the tracks, and the
    attitude at its own offset, whatever the package held before. *)
Lemma radar_package_delivered {X} mem1 mem2 pl1 pl2 att trk r1 r2 (w : dev_world X) :
  payload_at mem1 pl1 att -> payload_at mem2 pl2 trk ->
  Zlen att = 45 -> Zlen trk <= 11525 -> Zlen (dw_pack w) = 11574 -> dw_ready w ->
  exists w1 w2 pack, track_pkg_attitude mem1 pl1 r1 w = Some (r1, w1)
    /\ track_pkg_tracked mem2 pl2 r2 w1 = Some (r2, w2)
    /\ alg_queue (dw_alg w2) = alg_queue (dw_alg w) ++ [pack]
    /\ Zlen pack = 11574 /\ ld_le 4 pack 0 = Some TRACK_INFO_RADAR
    /\ ld_bytes pack 4 (Zlen trk) = Some trk /\ ld_bytes pack 11529 45 = Some att.
Proof.
  intros H1 H2 Ha Ht Hpk Hw. destruct track_offsets as (_ & E & _).
  unfold track_pkg_attitude. destruct H1 as [Hn1 Hb1]. rewrite Hn1, Hb1, E.
  destruct (proj2 (st_bytes_Some (dw_pack w) 11529 att)) as [p Hp]; [lia|].
  cbn [mbind option_bind]. rewrite Hp. cbn [mbind option_bind].
  pose proof (st_bytes_len _ _ _ _ Hp) as Hlp.
  apply st_bytes_split in Hp as (a & c & b & E1 & -> & Hla & Hlc).
  destruct (track_pkg_tracked_post mem2 pl2 trk r2 (set_dw_pack (a ++ att ++ b) w) H2 Hw)
    as (al & Ht2 & Hq); [lia|cbn; lia|]. cbn [dw_pack set_dw_pack] in *.
  do 3 eexists. split; [done|]. split; [exact Ht2|]. split; [exact Hq|].
  pose proof (Zlen_nonneg trk). rewrite !Zlen_app in Hlp.
  rewrite drop_app_le by (unfold Zlen in *; lia).
  split; [|split; [|split]].
  - rewrite !Zlen_app, Zlen_le_bytes. unfold Zlen in *. rewrite length_drop. lia.
  - unfold ld_le. by rewrite ld_bytes_prefix.
  - by apply ld_bytes_app.
  - rewrite app_assoc. rewrite (app_assoc _ _ (att ++ b)).
    apply ld_bytes_app; [|done]. rewrite !Zlen_app, Zlen_le_bytes.
    unfold Zlen in *. rewrite length_drop. lia.
Qed.

(** C37: how long a payload the track handlers take. Each handler is memory safe exactly
    when the payload fits the rest of its package; none compares the length of the message
    with it, and the order component lets every length from 1 to 65535 through. *)
Theorem track_handlers_safe_iff {X} mem psPayload payload psResp (w : dev_world X) :
  payload_at mem psPayload payload -> dw_ready w -> Zlen (dw_pack w) = 11574 ->
  (is_Some (track_pkg_tracked mem psPayload psResp w) <-> Zlen payload <= 11570)
  /\ (is_Some (track_pkg_attitude mem psPayload psResp w) <-> Zlen payload <= 45)
  /\ (is_Some (track_pkg_drone_id mem psPayload psResp w) <-> Zlen payload <= 11676)
  /\ (is_Some (track_pkg_remote_id mem psPayload psResp w) <-> Zlen payload <= 11676).
Proof.
  intros Hp Hw Hk. repeat split_and.
  - by apply track_pkg_tracked_safe.
  - by eapply track_pkg_attitude_safe.
  - by apply track_pkg_drone_id_safe.
  - by apply track_pkg_remote_id_safe.
Qed.

(** ** Witnesses *)

Definition demo_payload (n : Z) : alink_payload :=
  {| pl_ePortId := 1; pl_eRemoteId := 3; pl_wLength := n; pl_pbyData := Ptr 4 0 |}.
Definition demo_resp : alink_resp :=
  {| rs_wCount := 1; rs_wSize := 0; rs_pbyBuffer := []; rs_off := 9;
     rs_psArg := {| oi_ePortId := 1; oi_pbyMsg := Ptr 4 0; oi_handle := 0; oi_pe_send := 0 |} |}.
Definition demo_world : dev_world unit :=
  {| dw_upload := {| byDevId := 8; byReq := 0; up_wBufferSize := 6144; up_mutex := false;
                     up_pbyBuffer := []; psPackageList := None |};
     dw_pack := replicate (Z.to_nat 11574) 0;
     dw_alg := {| pvalgtask := Some {| ts_module := Some {| strName := []; tm_pvArg := 0; mq := [] |};
                    ts_live := 1; ts_world := {| mtargets_handle := None; alg_user := () |} |};
                  alg_idle := {| mtargets_handle := None; alg_user := () |}; alg_live := 0 |};
     dw_malloc_ok := true; dw_mq_ok := true |}.

Lemma demo_world_ready : dw_ready demo_world.
Proof. repeat split. do 2 eexists. split; [done|]. split; [done|]. cbn. unfold SYSPORT_TASK_MSG_SIZE. lia. Qed.

Lemma demo_payload_at l : payload_at {[ 4%nat := l ]} (demo_payload (Zlen l)) l.
Proof.
  split; [done|]. unfold payload_bytes, at_ptr, demo_payload. cbn [pl_pbyData pblk poff].
  rewrite lookup_singleton_eq. apply ld_bytes_all.
Qed.

Lemma radar_package_delivered_witness :
  (exists w2, track_pkg_tracked {[ 4%nat := [0; 1; 1; 0; 90] ]} (demo_payload 5) demo_resp
     (set_dw_pack (replicate (Z.to_nat 11529) 0 ++ replicate 45 7) demo_world)
     = Some (demo_resp, w2)).
Proof.
  destruct (radar_package_delivered {[ 4%nat := replicate 45 7 ]}
    {[ 4%nat := [0; 1; 1; 0; 90] ]} (demo_payload 45) (demo_payload 5) (replicate 45 7)
    [0; 1; 1; 0; 90] demo_resp demo_resp demo_world (demo_payload_at _) (demo_payload_at _)
    eq_refl ltac:(by_eval) ltac:(by_eval) demo_world_ready)
    as (w1 & w2 & pack & H1 & H2 & _).
  exists w2. rewrite <-H2. f_equal.
  vm_compute in H1. injection H1 as <-. vm_compute. reflexivity.
Defined.

Lemma track_handlers_safe_iff_witness :
  track_pkg_attitude {[ 4%nat := replicate 46 7 ]} (demo_payload 46) demo_resp demo_world = None.
Proof.
  destruct (track_handlers_safe_iff {[ 4%nat := replicate 46 7 ]} (demo_payload 46)
    (replicate 46 7) demo_resp demo_world (demo_payload_at _) demo_world_ready
    ltac:(by_eval)) as (_ & H & _).
  apply eq_None_not_Some. rewrite H. change (Zlen (replicate 46 7)) with 46. lia.
Defined.
