(* ===== verification/AlinkTarget.v ===== *)
(** * Targets ([src/srv/alink/command/target])

    The package that reports the tracked targets to C2, and the command with which a user
    designates a target. *)

From S2P Require Import Prelude AlinkRecv AlinkOrder AlinkUpload SysportTask AlgInterface.
From S2P Require Import AlinkWorld Layout AlinkTrack.
Local Open Scope string_scope.
Local Open Scope list_scope.
Local Open Scope Z_scope.

(** ** Data ([alink_target.h]) *)

Definition alink_targets_item : struct :=
  [("id", 2); ("classification", 1); ("rectX", 2); ("rectY", 2); ("rectW", 2); ("rectH", 2);
   ("rectXV", 2); ("rectYV", 2); ("classfyProb", 1); ("reserve", 2 * 4)].

Definition alink_taget_info : struct :=
  [("timestamp", 4); ("objNum", 1); ("targets", ALINK_TARGET_MAX * sizeof alink_targets_item)].

Definition user_track_target : struct :=
  [("type", 1); ("objid", 1); ("x", 4); ("y", 4); ("z", 4); ("sn", 25); ("latitude", 4);
   ("longitde", 4)].

(** Not packed. *)
Definition user_track_target_packages : struct :=
  [("track_pack_type", 4); ("utt", sizeof user_track_target)].
Definition sizeof_user_track : Z := round_up (sizeof user_track_target_packages) 4.

(** ** The code *)

(** The fields that [track_pkg_target_info] copies, with their offsets: all but
    [reserve]. *)
Definition copied_fields : list (Z * Z) :=
  (λ f, (offsetof alink_targets_item f, sizeof (filter (λ x, x.1 = f) alink_targets_item)))
  <$> ["id"; "classification"; "rectX"; "rectY"; "rectW"; "rectH"; "rectXV"; "rectYV";
       "classfyProb"].

Fixpoint copy_fields (fields : list (Z * Z)) (dst : list Z) (d : Z) (src : list Z) (s : Z)
  : option (list Z) :=
  match fields with
  | [] => Some dst
  | (off, n) :: fields' =>
      dst ← memcpy dst (d + off) src (s + off) n;
      copy_fields fields' dst d src s
  end.

(** Items [i .. i + n - 1]. *)
Fixpoint copy_items (n : nat) (i : Z) (dst : list Z) (d : Z) (src : list Z) (s : Z)
  : option (list Z) :=
  match n with
  | O => Some dst
  | S n' =>
      let k := i * sizeof alink_targets_item in
      dst ← copy_fields copied_fields dst (d + k) src (s + k);
      copy_items n' (i + 1) dst d src s
  end.

Definition track_pkg_target_info : package_task :=
  λ b p wSize pvObjTarget,
    src ← pvObjTarget;
    b ← memcpy b (p + offsetof alink_taget_info "timestamp") src
          (offsetof alink_taget_info "timestamp") 4;
    b ← memcpy b (p + offsetof alink_taget_info "objNum") src
          (offsetof alink_taget_info "objNum") 1;
    objNum ← ld8 src (offsetof alink_taget_info "objNum");
    b ← copy_items (Z.to_nat objNum) 0 b (p + offsetof alink_taget_info "targets") src
          (offsetof alink_taget_info "targets");
    Some (u16 (5 + objNum * 24), b).

Definition user_custom_track_target {X} : cmd_task (dev_world X) :=
  λ mem psPayload psResp w,
    let utt_pack := replicate (Z.to_nat sizeof_user_track) 0 in
    utt_pack ← st_le 4 utt_pack (offsetof user_track_target_packages "track_pack_type")
                 TRACK_INFO_FROM_USER;
    src ← payload_bytes mem psPayload (pl_wLength psPayload);
    utt_pack ← st_bytes utt_pack (offsetof user_track_target_packages "utt") src;
    '(w, _) ← dw_send w utt_pack sizeof_user_track;
    Some (psResp, w).

(** ** The payload that is written *)

(** Per item, sixteen bytes of the source and eight that the buffer already held. *)
Fixpoint merge_items (n : nat) (old src : list Z) : list Z :=
  match n with
  | O => []
  | S n' =>
      take 16 src ++ take 8 (drop 16 old) ++ merge_items n' (drop 24 old) (drop 24 src)
  end.

(** What the task writes for the object [src] over a buffer that holds [old]. *)
Definition target_payload (old : list Z) (pvObjTarget : void_ptr) : option (list Z) :=
  src ← pvObjTarget;
  objNum ← ld8 src 4;
  if bool_decide (bytes_ok src /\ 5 + 24 * objNum <= Zlen src /\ 5 + 24 * objNum <= Zlen old)
  then Some (take 5 src ++ merge_items (Z.to_nat objNum) (drop 5 old) (drop 5 src))
  else None.

Lemma copied_fields_eq :
  copied_fields = [(0, 2); (2, 1); (3, 2); (5, 2); (7, 2); (9, 2); (11, 2); (13, 2); (15, 1)].
Proof. by_eval. Qed.

(** Fields that follow one another are one copy. *)
Fixpoint contiguous (k : Z) (fields : list (Z * Z)) : option Z :=
  match fields with
  | [] => Some k
  | (off, n) :: fields' =>
      if decide (off = k /\ 0 <= n) then contiguous (k + n) fields' else None
  end.

Lemma memcpy_join dst d src s n k :
  0 <= n -> 0 <= k ->
  (m ← memcpy dst d src s n; memcpy m (d + n) src (s + n) k) = memcpy dst d src s (n + k).
Proof.
  intros Hn Hk. destruct (memcpy dst d src s (n + k)) as [r|] eqn:E.
  - unfold memcpy in E. apply bind_Some in E as (bs & Hb & Hst).
    apply ld_bytes_split in Hb as (x & y & -> & <- & Hl).
    apply st_bytes_split in Hst as (a & c & b & -> & -> & <- & Hc).
    rewrite <-(take_drop (Z.to_nat n) bs) in *. rewrite <-(take_drop (Z.to_nat n) c) in *.
    set (b1 := take (Z.to_nat n) bs) in *. set (b2 := drop (Z.to_nat n) bs) in *.
    set (c1 := take (Z.to_nat n) c) in *. set (c2 := drop (Z.to_nat n) c) in *.
    assert (Zlen b1 = n /\ Zlen c1 = n /\ Zlen b2 = k /\ Zlen c2 = k) as (L1 & L2 & L3 & L4).
    { unfold b1, b2, c1, c2, Zlen in *.
      rewrite !length_app, !length_take, !length_drop in *. lia. }
    rewrite <-!app_assoc. rewrite (memcpy_app a c1 (c2 ++ b) x b1 (b2 ++ y)) by done.
    cbn [mbind option_bind]. rewrite !(app_assoc a), !(app_assoc x).
    apply memcpy_app; rewrite ?Zlen_app; lia.
  - apply eq_None_not_Some in E. apply eq_None_not_Some. intros [r Hr]. apply E.
    apply bind_Some in Hr as (m & H1 & H2). apply memcpy_Some.
    pose proof (mk_is_Some _ _ H1) as H3%memcpy_Some.
    pose proof (mk_is_Some _ _ H2) as H4%memcpy_Some.
    unfold memcpy in H1. apply bind_Some in H1 as (bs & _ & H1).
    apply st_bytes_len in H1. lia.
Qed.

Lemma contiguous_le k fields n : contiguous k fields = Some n -> k <= n.
Proof.
  revert k. induction fields as [|[off m] fields IH]; intros k H; cbn in H; [injection H; lia|].
  destruct (decide _) as [[-> ?]|]; [|done]. apply IH in H. lia.
Qed.

Lemma copy_fields_join fields dst d src s k n :
  0 <= k -> contiguous k fields = Some n ->
  (m ← memcpy dst d src s k; copy_fields fields m d src s) = memcpy dst d src s n.
Proof.
  revert dst k. induction fields as [|[off m] fields IH]; intros dst k Hk H; cbn in H.
  - injection H as <-. cbn. by destruct (memcpy dst d src s k).
  - destruct (decide _) as [[-> Hm]|]; [|done]. cbn [copy_fields].
    rewrite <-(IH dst (k + m)) by (done || lia).
    rewrite <-memcpy_join by lia. by destruct (memcpy dst d src s k).
Qed.

Lemma copy_item dst d src s :
  copy_fields copied_fields dst d src s = memcpy dst d src s 16.
Proof.
  rewrite copied_fields_eq.
  pose proof (copy_fields_join [(2, 1); (3, 2); (5, 2); (7, 2); (9, 2); (11, 2); (13, 2); (15, 1)]
                dst d src s 2 16 ltac:(lia) eq_refl) as H.
  cbn [copy_fields] in *. by rewrite !Z.add_0_r.
Qed.

Lemma merge_items_len n old src :
  24 * Z.of_nat n <= Zlen old -> 24 * Z.of_nat n <= Zlen src ->
  Zlen (merge_items n old src) = 24 * Z.of_nat n.
Proof.
  revert old src. induction n as [|n IH]; intros old src Ho Hs; [done|]. cbn [merge_items].
  rewrite !Zlen_app, IH by (unfold Zlen in *; rewrite length_drop; lia).
  unfold Zlen in *. rewrite !length_take, length_drop. lia.
Qed.

Lemma merge_items_ok n old src :
  bytes_ok old -> bytes_ok src -> bytes_ok (merge_items n old src).
Proof.
  revert old src. induction n as [|n IH]; intros old src Ho Hs; [constructor|]. cbn [merge_items].
  rewrite !bytes_ok_app. auto 6 with bytes.
Qed.

Lemma take_drop_16_24 (l : list Z) :
  24 <= Zlen l -> l = take 16 l ++ take 8 (drop 16 l) ++ drop 24 l.
Proof.
  intros _. rewrite <-(take_drop 16 l) at 1. f_equal.
  rewrite <-(take_drop 8 (drop 16 l)) at 1. by rewrite drop_drop.
Qed.

Lemma copy_items_spec n i a old b d x its y s :
  Zlen a = d + 24 * i -> Zlen x = s + 24 * i ->
  Zlen old = 24 * Z.of_nat n -> Zlen its = 24 * Z.of_nat n ->
  copy_items n i (a ++ old ++ b) d (x ++ its ++ y) s = Some (a ++ merge_items n old its ++ b).
Proof.
  revert i a old x its. induction n as [|n IH]; intros i a old x its Ha Hx Ho Hi.
  - destruct old; [done|unfold Zlen in Ho; cbn in Ho; lia].
  - cbn [copy_items merge_items]. change (sizeof alink_targets_item) with 24.
    rewrite copy_item.
    rewrite (take_drop_16_24 old), (take_drop_16_24 its) at 1 by lia.
    rewrite <-!app_assoc, memcpy_app by (unfold Zlen in *; rewrite ?length_take; lia).
    cbn [mbind option_bind].
    specialize (IH (i + 1) (a ++ take 16 its ++ take 8 (drop 16 old)) (drop 24 old)
                  (x ++ take 16 its ++ take 8 (drop 16 its)) (drop 24 its)).
    rewrite <-!app_assoc in IH. rewrite <-?app_assoc.
    assert (its ++ y = take 16 its ++ take 8 (drop 16 its) ++ drop 24 its ++ y) as ->
      by (rewrite (take_drop_16_24 its) at 1 by lia; by rewrite <-!app_assoc).
    apply IH;
      rewrite ?Zlen_app; unfold Zlen in *; rewrite ?length_take, ?length_drop; lia.
Qed.

(** A buffer region of known length, split off. *)
Lemma split_at (b : list Z) off n :
  0 <= off -> 0 <= n -> off + n <= Zlen b ->
  exists a old c, b = a ++ old ++ c /\ Zlen a = off /\ Zlen old = n.
Proof.
  intros. destruct (proj2 (ld_bytes_Some b off n)) as [old Ho]; [lia|].
  apply ld_bytes_split in Ho as (a & c & ? & ? & ?). by exists a, old, c.
Qed.

Lemma merge_items_app n old old' src src' :
  24 * Z.of_nat n <= Zlen old -> 24 * Z.of_nat n <= Zlen src ->
  merge_items n (old ++ old') (src ++ src') = merge_items n old src.
Proof.
  revert old src. induction n as [|n IH]; intros old src Ho Hs; [done|]. cbn [merge_items].
  unfold Zlen in *. rewrite !drop_app_le, !take_app_le by (rewrite ?length_drop; lia).
  by rewrite IH by (rewrite length_drop; lia).
Qed.

(** The two header fields and the items, on buffers that are split at the payload. *)
Lemma target_info_split a oh ob c sh sb y size num :
  Zlen oh = 5 -> Zlen sh = 5 -> ld8 (sh ++ sb ++ y) 4 = Some num -> 0 <= num < 256 ->
  Zlen ob = 24 * num -> Zlen sb = 24 * num ->
  track_pkg_target_info (a ++ oh ++ ob ++ c) (Zlen a) size (Some (sh ++ sb ++ y))
  = Some (5 + 24 * num, a ++ sh ++ merge_items (Z.to_nat num) ob sb ++ c).
Proof.
  intros Hoh Hsh En Hnum Hob Hsb. unfold track_pkg_target_info. cbn [mbind option_bind].
  change (offsetof alink_taget_info "timestamp") with 0.
  change (offsetof alink_taget_info "objNum") with 4.
  change (offsetof alink_taget_info "targets") with 5.
  pose proof (memcpy_join (a ++ oh ++ ob ++ c) (Zlen a) (sh ++ sb ++ y) 0 4 1
                ltac:(lia) ltac:(lia)) as Hj.
  assert (memcpy (a ++ oh ++ ob ++ c) (Zlen a) (sh ++ sb ++ y) 0 (4 + 1)
          = Some (a ++ sh ++ ob ++ c)) as Hcopy by by apply (memcpy_app a oh _ [] sh).
  rewrite Hcopy in Hj.
  rewrite Z.add_0_r. apply bind_Some in Hj as (b1 & -> & Hj). cbn [mbind option_bind].
  change (0 + 4) with 4 in Hj. rewrite Hj. cbn [mbind option_bind]. rewrite En. cbn [mbind option_bind].
  rewrite (app_assoc a sh), (copy_items_spec _ 0 (a ++ sh) ob c (Zlen a + 5) sh sb y 5)
    by (rewrite ?Zlen_app; lia).
  cbn [mbind option_bind]. rewrite <-app_assoc. repeat f_equal. wrap_lia.
Qed.

#[export] Instance target_info_task : PackageTask track_pkg_target_info target_payload.
Proof.
  intros b off size imp payload Hb He Ho Hfit Hs. unfold target_payload in He.
  destruct imp as [src|]; [|done]. cbn [mbind option_bind] in He.
  destruct (ld8 src 4) as [num|] eqn:En; [|done]. cbn [mbind option_bind] in He.
  case_bool_decide as Hc; [|done]. destruct Hc as (Hok & Hls & Hlo). injection He as <-.
  pose proof (ld8_byte _ _ _ Hok En) as Hnum. unfold is_byte in Hnum. clear Hs Hfit.
  destruct (split_at b off 5) as (a & oh & b' & -> & <- & Hoh);
    [lia|lia|unfold Zlen in *; rewrite length_drop in Hlo; lia|].
  rewrite Zlen_to_nat, drop_app_length in Hlo |- *. rewrite Zlen_app in Hlo.
  destruct (split_at b' 0 (24 * num)) as (x & ob & c & -> & Hx & Hob); [lia..|].
  destruct x; [|unfold Zlen in Hx; cbn in Hx; lia]. cbn [app] in *. clear Hx.
  destruct (split_at src 0 5) as (x & sh & s' & -> & Hx & Hsh); [lia..|].
  destruct x; [|unfold Zlen in Hx; cbn in Hx; lia]. cbn [app] in *. clear Hx.
  rewrite Zlen_app in Hls.
  destruct (split_at s' 0 (24 * num)) as (x & sb & y & -> & Hx & Hsb); [lia..|].
  destruct x; [|unfold Zlen in Hx; cbn in Hx; lia]. cbn [app] in *. clear Hx.
  rewrite (target_info_split a oh ob c sh sb y size num) by done.
  rewrite take_app_length', !drop_app_length' by (unfold Zlen in *; lia).
  rewrite merge_items_app by lia.
  assert (Zlen (sh ++ merge_items (Z.to_nat num) ob sb) = 5 + 24 * num) as Hl
    by (rewrite Zlen_app, merge_items_len by lia; lia).
  rewrite Hl. rewrite !bytes_ok_app in *. split; [|split; [lia|]].
  - split; [tauto|]. apply merge_items_ok; tauto.
  - rewrite (app_assoc oh), (st_bytes_app a (oh ++ ob)) by (rewrite ?Zlen_app in *; lia).
    cbn [mbind option_bind]. by rewrite <-app_assoc.
Qed.

(** ** Properties *)

Lemma memcpy_len dst doff src soff n m :
  memcpy dst doff src soff n = Some m -> Zlen m = Zlen dst.
Proof. unfold memcpy. intros (bs & _ & H)%bind_Some. by apply st_bytes_len in H. Qed.

(** Every item the loop reaches was read inside the source object. *)
Lemma copy_items_bound n i dst d src s m :
  copy_items n i dst d src s = Some m -> (0 < n)%nat ->
  s + 24 * (i + Z.of_nat n) - 8 <= Zlen src.
Proof.
  revert i dst. induction n as [|n IH]; intros i dst H Hn; [lia|]. cbn [copy_items] in H.
  change (sizeof alink_targets_item) with 24 in H. rewrite copy_item in H.
  apply bind_Some in H as (dst' & Hc & H).
  destruct n as [|n]; [|apply IH in H; lia].
  apply (mk_is_Some _ _), memcpy_Some in Hc. lia.
Qed.

Lemma target_payload_Some (old src : list Z) num :
  bytes_ok src -> ld8 src 4 = Some num -> 5 + 24 * num <= Zlen src ->
  5 + 24 * num <= Zlen old ->
  exists payload, target_payload old (Some src) = Some payload /\ Zlen payload = 5 + 24 * num.
Proof.
  intros Hs Hnum Hl Ho. pose proof (ld8_byte _ _ _ Hs Hnum) as Hr. unfold is_byte in Hr.
  unfold target_payload. cbn [mbind option_bind]. rewrite Hnum. cbn [mbind option_bind].
  rewrite bool_decide_eq_true_2 by done. eexists. split; [done|].
  rewrite Zlen_app, merge_items_len by (unfold Zlen in *; rewrite !length_drop; lia).
  unfold Zlen in *. rewrite length_take. lia.
Qed.

(** The target report. For an [alink_taget_info_t] object and the 6 KB upload buffer,
    building the report is memory safe exactly when the object announces at most 128
    targets (nothing clamps [objNum]); then the report is the timestamp, the count and, per
    target, the sixteen bytes of its fields followed by eight bytes of [reserve] that the
    buffer already held, it has 5 + 24 * objNum bytes, fits with its frame, and nothing else
    in the buffer changes. *)
Lemma track_pkg_target_info_report (b src : list Z) num size :
  bytes_ok b -> bytes_ok src -> Zlen b = 6144 -> Zlen src = sizeof alink_taget_info ->
  ld8 src 4 = Some num ->
  (is_Some (track_pkg_target_info b 9 size (Some src)) <-> num <= ALINK_TARGET_MAX)
  /\ (num <= ALINK_TARGET_MAX ->
      exists payload b', target_payload (drop 9 b) (Some src) = Some payload
      /\ Zlen payload = 5 + 24 * num /\ Zlen payload + 11 <= 6144
      /\ st_bytes b 9 payload = Some b'
      /\ track_pkg_target_info b 9 size (Some src) = Some (Zlen payload, b')).
Proof.
  intros Hb Hs Hlb Hls Hnum. change (sizeof alink_taget_info) with 3077 in Hls.
  pose proof (ld8_byte _ _ _ Hs Hnum) as Hr. unfold is_byte, ALINK_TARGET_MAX in *.
  assert (num <= 128 -> exists payload b', target_payload (drop 9 b) (Some src) = Some payload
      /\ Zlen payload = 5 + 24 * num /\ Zlen payload + 11 <= 6144
      /\ st_bytes b 9 payload = Some b'
      /\ track_pkg_target_info b 9 size (Some src) = Some (Zlen payload, b')) as Hok.
  { intros Hle.
    destruct (target_payload_Some (drop 9 b) src num Hs Hnum) as (p & Hp & Hl);
      [lia|unfold Zlen in *; rewrite length_drop; lia|].
    destruct (proj2 (st_bytes_Some b 9 p)) as [b' Hst]; [lia|]. exists p, b'.
    split; [done|]. split; [done|]. split; [lia|]. split; [done|].
    destruct (target_info_task b 9 (Zlen b) (Some src) p Hb Hp) as (_ & _ & E); [lia..|].
    rewrite Hst in E. exact (eq_sym E). }
  split; [|exact Hok]. split.
  - intros [[l b'] H]. unfold track_pkg_target_info in H. cbn [mbind option_bind] in H.
    apply bind_Some in H as (b1 & _ & H). apply bind_Some in H as (b2 & _ & H).
    change (offsetof alink_taget_info "objNum") with 4 in H. rewrite Hnum in H.
    cbn [mbind option_bind] in H. apply bind_Some in H as (b3 & H & _).
    destruct (decide (num = 0)); [lia|]. apply copy_items_bound in H; [|lia].
    change (offsetof alink_taget_info "targets") with 5 in H. lia.
  - intros Hle. by destruct (Hok Hle) as (p & b' & _ & _ & _ & _ & ->).
Qed.

(** The user's target. The command is memory safe exactly for payloads of at most 48
    bytes (the 47 of [user_track_target_t] and one of padding), although the order
    component lets up to 65535 through; then the algorithms get one 52-byte package: the
    user tag, the payload, zeros. *)
Lemma user_custom_track_target_post {X} mem psPayload payload psResp (w : dev_world X) :
  payload_at mem psPayload payload -> dw_ready w ->
  (is_Some (user_custom_track_target mem psPayload psResp w) <-> Zlen payload <= 48)
  /\ (Zlen payload <= 48 ->
      exists a, user_custom_track_target mem psPayload psResp w = Some (psResp, set_dw_alg a w)
      /\ alg_queue a = alg_queue (dw_alg w)
           ++ [le_bytes 4 TRACK_INFO_FROM_USER ++ payload ++ replicate (Z.to_nat (48 - Zlen payload)) 0]).
Proof.
  intros [Hn Hb] Hw.
  assert (Zlen payload <= 48 ->
      exists a, user_custom_track_target mem psPayload psResp w = Some (psResp, set_dw_alg a w)
      /\ alg_queue a = alg_queue (dw_alg w)
           ++ [le_bytes 4 TRACK_INFO_FROM_USER ++ payload ++ replicate (Z.to_nat (48 - Zlen payload)) 0])
    as Hok.
  { intros Hl. pose proof (stack_pack payload 52 TRACK_INFO_FROM_USER ltac:(lia) ltac:(lia)) as H.
    pose proof (stack_pack_len payload 52 TRACK_INFO_FROM_USER ltac:(lia) ltac:(lia)) as Hlen.
    change (52 - 4) with 48 in *. unfold user_custom_track_target.
    change sizeof_user_track with 52.
    change (offsetof user_track_target_packages "track_pack_type") with 0.
    change (offsetof user_track_target_packages "utt") with 4.
    apply bind_Some in H as (p & -> & Hst). cbn [mbind option_bind].
    rewrite Hn, Hb. cbn [mbind option_bind]. rewrite Hst. cbn [mbind option_bind].
    set (pack := le_bytes 4 TRACK_INFO_FROM_USER ++ _) in *.
    destruct (dw_send_ready w pack 52) as (a & info & Hi & -> & Ha); [done|lia|].
    rewrite <-Hlen, ld_bytes_all in Hi. injection Hi as <-. by exists a. }
  split; [|exact Hok]. split; [|intros Hl; by destruct (Hok Hl) as (a & -> & _)].
  unfold user_custom_track_target. change sizeof_user_track with 52. rewrite Hn, Hb.
  intros [x Hx]. apply bind_Some in Hx as (p & Hp1 & Hx). cbn [mbind option_bind] in Hx.
  apply bind_Some in Hx as (q & Hq & _). apply st_bytes_len in Hp1.
  apply (mk_is_Some _ _), st_bytes_Some in Hq.
  change (offsetof user_track_target_packages "utt") with 4 in Hq.
  unfold Zlen in Hp1 at 2. rewrite length_replicate in Hp1. lia.
Qed.

(** ** Witnesses *)

Definition demo_targets : list Z :=
  [1; 0; 0; 0; 2] ++ replicate 24 5 ++ replicate 24 6 ++ replicate (126 * 24) 0.

Lemma track_pkg_target_info_report_witness :
  (exists b', track_pkg_target_info (replicate (Z.to_nat 6144) 9) 9 6133 (Some demo_targets)
             = Some (53, b')).
Proof.
  destruct (track_pkg_target_info_report (replicate (Z.to_nat 6144) 9) demo_targets 2 6133)
    as (_ & p & b' & _ & Hl & _ & _ & E); [by_eval..|unfold ALINK_TARGET_MAX; lia|].
  exists b'. rewrite E. do 2 f_equal. exact Hl.
Defined.

Lemma user_custom_track_target_post_witness :
  (exists a, user_custom_track_target {[ 4%nat := replicate 47 7 ]} (demo_payload 47) demo_resp
     demo_world = Some (demo_resp, set_dw_alg a demo_world)).
Proof.
  destruct (user_custom_track_target_post {[ 4%nat := replicate 47 7 ]} (demo_payload 47)
    (replicate 47 7) demo_resp demo_world (demo_payload_at _) demo_world_ready)
    as (_ & a & H & _); [change (Zlen (replicate 47 7)) with 47; lia|].
  by exists a.
Defined.
