(* ===== verification/NetconProtocol.v ===== *)
(** * Network discovery messages ([src/srv/eth_link/eth_protocol/netcon_protocol.c])

    The discovery protocol has its own copy of the framing code: a builder that writes
    the header in front of a payload in place, and a parser that returns where the payload
    starts.  Both are proved against the frame format of the alink protocol. *)

From S2P Require Import Prelude Checksum AlinkFrame AlinkCheck AlinkBuild Layout.
Local Open Scope string_scope.
Local Open Scope list_scope.
Local Open Scope Z_scope.
Local Open Scope c_scope.

(** ** Data ([netcon_protocol.h]) *)

Definition DEV_ID_AGX : Z := 7.
Definition PROTOCOL_ID : Z := 4.
Definition NETPROTOCAL_CRC_LEN : Z := 2.
Definition NETPROTOCAL_MSG_ID_LOOKUP : Z := 186.
Definition NETPROTOCAL_MSG_ID_LOOKUP_RESP : Z := 187.
Definition NETPROTOCAL_MSG_ID_REQUEST_CONNECT : Z := 188.
Definition NETPROTOCAL_MSG_ID_CONFIG_RESP : Z := 189.
Definition RADAR_DEVICE_SN_LEN : Z := 32.

Definition eth_protocol_head : struct :=
  [("magic", 1); ("len_lo", 1); ("len_hi", 1); ("seq", 1); ("destid", 1); ("sourceid", 1);
   ("msgid", 1); ("ans", 1); ("checksum", 1)].
Definition eth_protocol_devinfo : struct :=
  [("head", sizeof eth_protocol_head); ("protocol", 4); ("sn", 64); ("type", 2);
   ("status", 2); ("version", 64); ("crc", 2)].
Definition eth_protocol_devinfo_body : struct :=
  [("protocol", 4); ("sn", 32); ("type", 2); ("status", 2); ("version", 64)].
Definition eth_protocol_search : struct := [("protocol", 4); ("sn", 32)].
Definition eth_protocol_cntinfo : struct := [("sn", 32); ("ip", 4); ("port", 2); ("type", 2)].
Definition eth_protocol_lookup : struct :=
  [("head", sizeof eth_protocol_head); ("protocol", 4); ("sn", 32); ("crc", 2)].
Definition eth_protocol_request : struct :=
  [("head", sizeof eth_protocol_head); ("cntinfo", sizeof eth_protocol_cntinfo); ("crc", 2)].

(** ** The code *)

(** "AGX-12345678" with its terminator. *)
Definition eth_protocol_get_agx_sn : list Z := [65; 71; 88; 45; 49; 50; 51; 52; 53; 54; 55; 56; 0].

(** The body of the two CRC loops. *)
Definition eth_crc_step (crc data : Z) : Z :=
  let tmp := u8 (Z.lxor data (u8 (Z.land crc 255))) in
  let tmp := u8 (Z.lxor tmp (Z.shiftl tmp 4)) in
  u16 (Z.lxor (Z.lxor (Z.lxor (Z.shiftr crc 8) (Z.shiftl tmp 8)) (Z.shiftl tmp 3))
              (Z.shiftr tmp 4)).

(** [checksum += ((uint8_t* )psHead)[i]] for the first eight bytes. *)
Definition eth_head_checksum (m : list Z) (psHead : Z) : option Z :=
  fold_bytes (λ checksum b, u8 (checksum + b)) 8 m psHead 0.

(** [msg] points at the object [m]; the result is the length of the message. *)
Definition eth_protocol_package (msgid : Z) (m : list Z) (len : Z) : option (Z * list Z) :=
  let len := u32 len in
  m ← st8 m off_magic 253;
  m ← st8 m off_len_lo (Z.land 255 (Z.shiftr len 0));
  m ← st8 m off_len_hi (Z.land 255 (Z.shiftr len 8));
  m ← st8 m off_seq 0;
  m ← st8 m off_destid 255;
  m ← st8 m off_sourceid DEV_ID_AGX;
  m ← st8 m off_msgid msgid;
  m ← st8 m off_ans 0;
  checksum ← eth_head_checksum m 0;
  m ← st8 m off_checksum checksum;
  let count := u32 (len + 11 - 3) in
  crc ← fold_bytes eth_crc_step (Z.to_nat count) m (0 + 1) 65535;
  let data := count in
  m ← st8 m (data + 1) (Z.land 255 (Z.shiftr crc 0));
  m ← st8 m (data + 2) (Z.land 255 (Z.shiftr crc 8));
  Some (u32 (len + 11), m).

(** [Some None] is [NULL]; [Some (Some q)] a pointer to offset [q]. *)
Definition eth_protocol_analysis (m : list Z) (msg len : Z) : option (option Z) :=
  magic ← m⟨msg + off_magic⟩;
  if negb (magic =? 253) then Some None else
  len_hi ← m⟨msg + off_len_hi⟩;
  let size := u32 (Z.shiftl len_hi 8) in
  len_lo ← m⟨msg + off_len_lo⟩;
  let size := u32 (Z.lor size len_lo) in
  if negb (u32 (size + 11) =? len) then Some None else
  checksum ← eth_head_checksum m msg;
  stored ← m⟨msg + off_checksum⟩;
  if negb (stored =? checksum) then Some None else
  let count := u32 (len - 3) in
  crc ← fold_bytes eth_crc_step (Z.to_nat count) m (msg + 1) 65535;
  let data := msg + 1 + count in
  d1 ← m⟨data + 1⟩;
  d0 ← m⟨data + 0⟩;
  let check := u16 (Z.lor (Z.shiftl d1 8) (Z.shiftl d0 0)) in
  if negb (crc =? check) then Some None else
  Some (Some (msg + sizeof eth_protocol_head)).

Definition eth_protocol_get_detect_package (msg : list Z) (len : Z) : option (Z * list Z) :=
  let n := sizeof eth_protocol_lookup in
  let ep_lookup_package := replicate (Z.to_nat n) 0 in
  ep ← st_le 4 ep_lookup_package (offsetof eth_protocol_lookup "protocol") PROTOCOL_ID;
  ep ← memset ep (offsetof eth_protocol_lookup "sn") 0 RADAR_DEVICE_SN_LEN;
  '(_, ep) ← eth_protocol_package NETPROTOCAL_MSG_ID_LOOKUP ep
               (n - sizeof eth_protocol_head - NETPROTOCAL_CRC_LEN);
  msg ← memcpy msg 0 ep 0 n;
  Some (n, msg).

Definition eth_protocol_get_request_package (msg ep_ctlinfo : list Z) : option (Z * list Z) :=
  let n := sizeof eth_protocol_request in
  let ep_req_package := replicate (Z.to_nat n) 0 in
  ep ← memcpy ep_req_package (offsetof eth_protocol_request "cntinfo") ep_ctlinfo 0
         (sizeof eth_protocol_cntinfo);
  '(_, ep) ← eth_protocol_package NETPROTOCAL_MSG_ID_REQUEST_CONNECT ep
               (n - sizeof eth_protocol_head - NETPROTOCAL_CRC_LEN);
  msg ← memcpy msg 0 ep 0 n;
  Some (n, msg).

(** ** The two checksums are those of the alink protocol *)

#[local] Transparent crc_accumulate.
Lemma eth_crc_step_eq crc data : eth_crc_step crc data = crc_accumulate data crc.
Proof. reflexivity. Qed.
Lemma eth_crc_fold n m p c :
  fold_bytes eth_crc_step n m p c = fold_bytes (λ crc b, crc_accumulate b crc) n m p c.
Proof. reflexivity. Qed.
#[local] Opaque crc_accumulate.

Lemma eth_crc_spec m p n bs :
  ld_bytes m p n = Some bs ->
  fold_bytes eth_crc_step (Z.to_nat n) m p 65535 = Some (crc_bytes bs).
Proof. intros H. by rewrite (fold_bytes_foldl _ _ _ _ _ _ H). Qed.

Lemma eth_head_checksum_eq m p : eth_head_checksum m p = alink_get_header_checksum m p.
Proof. reflexivity. Qed.

(** The end of [eth_protocol_package] is the sealing of the alink builders. *)
Lemma eth_seal m len :
  0 <= len -> len + 11 < 65536 ->
  (checksum ← eth_head_checksum m 0;
   m ← st8 m off_checksum checksum;
   let count := u32 (len + 11 - 3) in
   crc ← fold_bytes eth_crc_step (Z.to_nat count) m (0 + 1) 65535;
   let data := count in
   m ← st8 m (data + 1) (Z.land 255 (Z.shiftr crc 0));
   m ← st8 m (data + 2) (Z.land 255 (Z.shiftr crc 8));
   Some (u32 (len + 11), m))
  = (m ← alink_seal m 0 (len + 11); Some (len + 11, m)).
Proof.
  intros H0 Hl. unfold alink_seal. rewrite eth_head_checksum_eq.
  destruct (alink_get_header_checksum m 0) as [c|]; [|done]. cbn [mbind option_bind].
  change (0 + off_checksum) with off_checksum.
  destruct (st8 m off_checksum c) as [m1|]; [|done]. cbn [mbind option_bind].
  unfold alink_get_package_crc, crc_calculate. rewrite eth_crc_fold, !u16_id, !u32_id by (rewrite ?u16_id; lia).
  change alink_crc_init with 65535.
  destruct (fold_bytes _ _ _ _ _) as [crc|]; [|done]. cbn [mbind option_bind].
  replace (len + 11 - 3 + 1) with (0 + (len + 11 - 2)) by lia.
  replace (len + 11 - 3 + 2) with (0 + (len + 11 - 1)) by lia.
  destruct (st8 m1 _ _) as [m2|]; [|done]. cbn [mbind option_bind].
  by destruct (st8 m2 _ _).
Qed.

(** The frame this device sends for a payload. *)
Definition agx_frame (msgid : Z) (payload : list Z) : alink_frame :=
  Frame 0 255 DEV_ID_AGX msgid 0 payload.

Lemma eth_protocol_package_spec msgid h payload y0 y1 rest :
  is_byte msgid -> Zlen h = 9 -> bytes_ok payload -> Zlen payload + 11 < 65536 ->
  eth_protocol_package msgid (h ++ payload ++ y0 :: y1 :: rest) (Zlen payload)
  = Some (Zlen payload + 11, encode (agx_frame msgid payload) ++ rest).
Proof.
  intros Hid Hh Hp Hl. pose proof (Zlen_nonneg payload) as H0.
  unfold eth_protocol_package. rewrite (u32_id (Zlen payload)) by lia.
  do 9 (destruct h as [|? h]; [unfold Zlen in Hh; cbn in Hh; lia|]).
  destruct h as [|? h]; [|unfold Zlen in Hh; cbn in Hh; lia].
  unfold off_magic, off_len_lo, off_len_hi, off_seq, off_destid, off_sourceid, off_msgid,
    off_ans. cbn [app]. do 8 st8_step. rewrite mask_lo, mask_hi, (u8_id msgid) by (done || lia).
  set (f := agx_frame msgid payload).
  assert (frame_ok f) as Hf.
  { split; [|split; [done|cbn; lia]]. unfold is_byte in *.
    repeat constructor; cbn; unfold DEV_ID_AGX; lia. }
  etransitivity; [apply (eth_seal _ (Zlen payload) H0 Hl)|].
  pose proof (seal_spec f z7 y0 y1 rest Hf Hl) as Hs.
  by apply (f_equal (λ x, m ← x; Some (Zlen payload + 11, m))) in Hs.
Qed.

(** ** The parser on a message given by its parts *)

Lemma eth_two_bytes hi lo :
  is_byte hi -> is_byte lo ->
  u32 (Z.lor (u32 (Z.shiftl hi 8)) lo) = 256 * hi + lo.
Proof.
  intros Hh Hl. unfold is_byte in *.
  rewrite (u32_id (Z.shiftl hi 8)) by (rewrite Z.shiftl_mul_pow2; lia).
  rewrite lor_shift8 by done. wrap_lia.
Qed.

Section analysis.
Context (m : list Z) (p : Z) (a rest : list Z).
Context (x0 x1 x2 x3 x4 x5 x6 x7 x8 : Z) (body : list Z) (c0 c1 : Z).
Let pkg := [x0; x1; x2; x3; x4; x5; x6; x7; x8] ++ body ++ [c0; c1].
Hypothesis Hm : m = a ++ pkg ++ rest.
Hypothesis Hp : Zlen a = p.
Hypothesis Hok : bytes_ok pkg.
Hypothesis Hl : Zlen body < 65536.

Lemma analysis_ld8 k x : pkg⟨k⟩ = Some x -> m⟨p + k⟩ = Some x.
Proof.
  intros H. pose proof (ld8_range _ _ _ H) as Hk. rewrite Hm, <-Hp, ld8_app by lia.
  rewrite ld8_app_l by lia. done.
Qed.

Lemma analysis_parts :
  eth_protocol_analysis m p (Zlen pkg)
  = Some (if bool_decide (x0 = 253 /\ x8 = u8 (zsum [x0; x1; x2; x3; x4; x5; x6; x7])
              /\ 256 * x2 + x1 = Zlen body
              /\ 256 * c1 + c0 = crc_bytes ([x1; x2; x3; x4; x5; x6; x7; x8] ++ body))
          then Some (p + 9) else None).
Proof.
  pose proof (Zlen_nonneg body) as H0. assert (Zlen pkg = Zlen body + 11) as El by apply shape_len.
  assert (is_byte x2 /\ is_byte x1 /\ is_byte c0 /\ is_byte c1) as (B2 & B1 & C0 & C1).
  { pose proof Hok as H. unfold pkg in H. rewrite !bytes_ok_app in H. destruct H as (H9 & _ & H2).
    forall_inv H9. forall_inv H2. done. }
  unfold eth_protocol_analysis. rewrite (analysis_ld8 off_magic x0) by done.
  cbn [mbind option_bind]. destruct (Z.eqb_spec x0 253) as [E0|E0]; cbn [negb].
  2:{ by rewrite bool_decide_eq_false_2 by tauto. }
  rewrite (analysis_ld8 off_len_hi x2), (analysis_ld8 off_len_lo x1) by done.
  cbn [mbind option_bind]. rewrite eth_two_bytes, u32_id, El by (unfold is_byte in *; done || lia).
  destruct (Z.eqb_spec (256 * x2 + x1 + 11) (Zlen body + 11)) as [E1|E1]; cbn [negb].
  2:{ by rewrite bool_decide_eq_false_2 by lia. }
  rewrite eth_head_checksum_eq, (header_checksum_spec m p [x0; x1; x2; x3; x4; x5; x6; x7]).
  2:{ rewrite Hm. unfold pkg. rewrite <-!app_assoc.
      by apply (ld_bytes_app a [x0; x1; x2; x3; x4; x5; x6; x7] ([x8] ++ body ++ [c0; c1] ++ rest)). }
  cbn [mbind option_bind]. rewrite (analysis_ld8 off_checksum x8) by done.
  cbn [mbind option_bind]. destruct (Z.eqb_spec x8 (u8 (zsum [x0; x1; x2; x3; x4; x5; x6; x7])))
    as [E8|E8]; cbn [negb].
  2:{ by rewrite bool_decide_eq_false_2 by tauto. }
  rewrite u32_id by lia.
  rewrite (eth_crc_spec m (p + 1) _ ([x1; x2; x3; x4; x5; x6; x7; x8] ++ body)).
  2:{ rewrite Hm. unfold pkg.
      replace (a ++ (_ ++ body ++ [c0; c1]) ++ rest)
        with ((a ++ [x0]) ++ ([x1; x2; x3; x4; x5; x6; x7; x8] ++ body) ++ [c0; c1] ++ rest)
        by by rewrite <-!app_assoc.
      apply ld_bytes_app; [rewrite Zlen_snoc; lia|]. rewrite Zlen_app.
      change (Zlen [_; _; _; _; _; _; _; _]) with 8. lia. }
  cbn [mbind option_bind].
  assert (forall k x, [c0; c1]⟨k⟩ = Some x -> pkg⟨Zlen body + 9 + k⟩ = Some x) as Hc.
  { intros k x Hk. pose proof (ld8_range _ _ _ Hk). unfold pkg.
    replace (Zlen body + 9 + k)
      with (Zlen ([x0; x1; x2; x3; x4; x5; x6; x7; x8] ++ body) + k) by (rewrite Zlen_app; 
        change (Zlen [_; _; _; _; _; _; _; _; _]) with 9; lia).
    rewrite app_assoc, ld8_app by lia. done. }
  replace (p + 1 + (Zlen body + 11 - 3) + 1) with (p + (Zlen body + 9 + 1)) by lia.
  replace (p + 1 + (Zlen body + 11 - 3) + 0) with (p + (Zlen body + 9 + 0)) by lia.
  rewrite (analysis_ld8 _ _ (Hc 1 c1 eq_refl)), (analysis_ld8 _ _ (Hc 0 c0 eq_refl)).
  cbn [mbind option_bind].
  rewrite Z.shiftl_0_r, lor_shift8, u16_id by (unfold is_byte in *; done || lia).
  destruct (Z.eqb_spec (crc_bytes ([x1; x2; x3; x4; x5; x6; x7; x8] ++ body)) (256 * c1 + c0))
    as [Ec|Ec]; cbn [negb].
  - rewrite bool_decide_eq_true_2 by (repeat split; try done; lia). done.
  - rewrite bool_decide_eq_false_2; [done|]. intros (_ & _ & _ & ?). by apply Ec.
Qed.
End analysis.

(** A frame at the start of a buffer is accepted. *)
Lemma analysis_encode f rest :
  frame_ok f -> eth_protocol_analysis (encode f ++ rest) 0 (Zlen (encode f)) = Some (Some 9).
Proof.
  intros Hf. pose proof (encode_ok _ Hf) as Hok. pose proof Hf as (_ & _ & Hl).
  rewrite encode_shape in *.
  rewrite (analysis_parts _ 0 [] rest _ _ _ _ _ _ _ _ _ (fr_payload f)) by done.
  rewrite bool_decide_eq_true_2; [done|]. split; [done|].
  apply shape_encode_iff; [done|]. exists f. split; [done|]. by rewrite encode_shape.
Qed.

(** ** Properties *)

(** C31: the parser accepts exactly frames. For any bytes in a buffer, parsing a message of
    at least 11 bytes reads only inside it and returns the address of its payload when the
    message is the encoding of a frame, and [NULL] otherwise. *)
Theorem eth_protocol_analysis_iff m p n pkg :
  bytes_ok m -> ld_bytes m p n = Some pkg -> 11 <= n < 65547 ->
  exists r, eth_protocol_analysis m p n = Some r
  /\ (r = None \/ r = Some (p + 9))
  /\ (is_Some r <-> exists f, frame_ok f /\ pkg = encode f).
Proof.
  intros Hm H Hn. pose proof (ld_bytes_ok _ _ _ _ Hm H) as Hok.
  apply ld_bytes_split in H as (a & rest & -> & <- & <-).
  destruct (pkg_shape pkg) as (x0&x1&x2&x3&x4&x5&x6&x7&x8&body&c0&c1&->); [lia|].
  pose proof (shape_len x0 x1 x2 x3 x4 x5 x6 x7 x8 body c0 c1) as El.
  rewrite (analysis_parts _ _ a rest x0 x1 x2 x3 x4 x5 x6 x7 x8 body c0 c1) by (done || lia).
  eexists. split; [done|]. case_bool_decide as Hd.
  - split; [by right|]. split; [intros _|by eexists].
    destruct Hd as (-> & E8 & Es & Ec). by apply shape_encode_iff.
  - split; [by left|]. split; [by intros [? ?]|]. intros (f & Hf & E). destruct Hd.
    assert (x0 = 253) as -> by (rewrite encode_shape in E; by injection E).
    split; [done|]. apply shape_encode_iff; [done|]. by exists f.
Qed.

(** Round trip. What the builder leaves in the buffer is the frame of this device with
    the payload that was there, its result is the frame's length, and the parser gives the
    payload back. *)
Lemma eth_protocol_roundtrip msgid h payload y0 y1 rest :
  is_byte msgid -> Zlen h = 9 -> bytes_ok payload -> Zlen payload + 11 < 65536 ->
  exists m, eth_protocol_package msgid (h ++ payload ++ y0 :: y1 :: rest) (Zlen payload)
      = Some (Zlen payload + 11, m)
  /\ m = encode (agx_frame msgid payload) ++ rest
  /\ eth_protocol_analysis m 0 (Zlen payload + 11) = Some (Some 9)
  /\ ld_bytes m 9 (Zlen payload) = Some payload.
Proof.
  intros Hid Hh Hp Hl. pose proof (Zlen_nonneg payload) as H0.
  exists (encode (agx_frame msgid payload) ++ rest).
  split; [by apply eth_protocol_package_spec|]. split; [done|].
  assert (frame_ok (agx_frame msgid payload)) as Hf.
  { split; [|split; [done|cbn; lia]]. unfold is_byte in *.
    repeat constructor; cbn; unfold DEV_ID_AGX; lia. }
  pose proof (encode_ok _ Hf) as Hok. pose proof (Zlen_encode (agx_frame msgid payload)) as El.
  rewrite encode_shape in *. cbn [fr_payload agx_frame fr_seq fr_dest fr_src fr_id fr_ans] in *.
  split.
  - replace (Zlen payload + 11) with (11 + Zlen payload) by lia. rewrite <-El.
    rewrite (analysis_parts _ 0 [] rest _ _ _ _ _ _ _ _ _ payload) by (done || lia).
    rewrite bool_decide_eq_true_2; [done|]. split; [done|].
    apply shape_encode_iff; [done|]. exists (agx_frame msgid payload).
    split; [done|]. by rewrite encode_shape.
  - rewrite <-!app_assoc. by apply ld_bytes_app.
Qed.

Lemma copy_out msg src n :
  n <= Zlen msg -> Zlen src = n ->
  (msg ← memcpy msg 0 src 0 n; Some (n, msg)) = Some (n, src ++ drop (Z.to_nat n) msg).
Proof.
  intros Hn <-. rewrite <-(take_drop (length src) msg) at 1. unfold Zlen in Hn.
  pose proof (memcpy_whole [] (take (length src) msg) (drop (length src) msg) src 0 (Zlen src)
    eq_refl eq_refl) as E. cbn [app] in E. rewrite Zlen_to_nat, E; [done|].
  unfold Zlen. rewrite length_take. lia.
Qed.

Lemma request_package_spec (msg ep_ctlinfo : list Z) :
  bytes_ok ep_ctlinfo -> Zlen ep_ctlinfo = sizeof eth_protocol_cntinfo -> Zlen msg >= 51 ->
  eth_protocol_get_request_package msg ep_ctlinfo
  = Some (51, encode (agx_frame NETPROTOCAL_MSG_ID_REQUEST_CONNECT ep_ctlinfo) ++ drop 51 msg).
Proof.
  intros Hok Hc Hl. change (sizeof eth_protocol_cntinfo) with 40 in Hc.
  unfold eth_protocol_get_request_package.
  change (sizeof eth_protocol_request - sizeof eth_protocol_head - NETPROTOCAL_CRC_LEN) with 40.
  change (sizeof eth_protocol_request) with 51. change (sizeof eth_protocol_cntinfo) with 40.
  change (replicate (Z.to_nat 51) 0) with (replicate 9 0 ++ replicate 40 0 ++ [0; 0]).
  rewrite (memcpy_whole (replicate 9 0) (replicate 40 0)) by done.
  cbn [mbind option_bind]. rewrite <-Hc.
  rewrite (eth_protocol_package_spec NETPROTOCAL_MSG_ID_REQUEST_CONNECT (replicate 9 0) _ 0 0 [])
    by (done || by_eval || lia).
  cbn [mbind option_bind]. rewrite app_nil_r.
  apply (copy_out msg (encode (agx_frame NETPROTOCAL_MSG_ID_REQUEST_CONNECT ep_ctlinfo)) 51); [lia|]. rewrite Zlen_encode. cbn. lia.
Qed.

(** The two messages of the discovery server. The lookup message is the frame with the
    protocol number and an empty serial number, the connect request the frame with the
    given connection record; each is written at the start of the caller's buffer, and its
    length is returned. *)
Lemma eth_protocol_messages (msg ep_ctlinfo : list Z) len :
  bytes_ok ep_ctlinfo -> Zlen ep_ctlinfo = sizeof eth_protocol_cntinfo ->
  Zlen msg >= 51 ->
  let lookup := agx_frame NETPROTOCAL_MSG_ID_LOOKUP (le_bytes 4 PROTOCOL_ID ++ replicate 32 0) in
  let request := agx_frame NETPROTOCAL_MSG_ID_REQUEST_CONNECT ep_ctlinfo in
  eth_protocol_get_detect_package msg len = Some (47, encode lookup ++ drop 47 msg)
  /\ eth_protocol_get_request_package msg ep_ctlinfo = Some (51, encode request ++ drop 51 msg).
Proof.
  intros Hok Hc Hl lookup request. change (sizeof eth_protocol_cntinfo) with 40 in Hc. split.
  - unfold eth_protocol_get_detect_package.
    change (sizeof eth_protocol_lookup - sizeof eth_protocol_head - NETPROTOCAL_CRC_LEN)
      with (Zlen (le_bytes 4 PROTOCOL_ID ++ replicate 32 0)).
    change (sizeof eth_protocol_lookup) with 47.
    change (replicate (Z.to_nat 47) 0) with (replicate 9 0 ++ replicate 4 0 ++ replicate 34 0).
    unfold st_le. rewrite (st_bytes_app (replicate 9 0) (replicate 4 0)) by done.
    cbn [mbind option_bind]. unfold memset.
    change (replicate 9 0 ++ le_bytes 4 PROTOCOL_ID ++ replicate 34 0)
      with ((replicate 9 0 ++ le_bytes 4 PROTOCOL_ID) ++ replicate 32 0 ++ [0; 0]).
    rewrite (st_bytes_app (replicate 9 0 ++ _) (replicate 32 0)) by done.
    cbn [mbind option_bind].
    change (replicate (Z.to_nat RADAR_DEVICE_SN_LEN) (u8 0)) with (replicate 32 0).
    rewrite <-app_assoc, (app_assoc (le_bytes 4 PROTOCOL_ID)).
    rewrite (eth_protocol_package_spec NETPROTOCAL_MSG_ID_LOOKUP (replicate 9 0) _ 0 0 []) by by_eval.
    fold lookup. cbn [mbind option_bind]. rewrite app_nil_r.
    apply (copy_out msg (encode lookup) 47); [lia|by rewrite Zlen_encode].
  - by apply request_package_spec.
Qed.

(** ** Witnesses *)

Lemma eth_protocol_analysis_iff_witness :
  (exists r, eth_protocol_analysis (7 :: encode (agx_frame 187 [1; 2])) 1 13 = Some r
   /\ (is_Some r <-> exists f, frame_ok f /\ encode (agx_frame 187 [1; 2]) = encode f)).
Proof.
  destruct (eth_protocol_analysis_iff (7 :: encode (agx_frame 187 [1; 2])) 1 13
    (encode (agx_frame 187 [1; 2]))) as (r & H & _ & H'); [by_eval|by_eval|lia|].
  exists r. split; [exact H|exact H'].
Defined.

Lemma eth_protocol_roundtrip_witness :
  (exists m, eth_protocol_package 189 (replicate 9 0 ++ [1; 2; 3] ++ [0; 0]) 3 = Some (14, m)
   /\ eth_protocol_analysis m 0 14 = Some (Some 9)).
Proof.
  destruct (eth_protocol_roundtrip 189 (replicate 9 0) [1; 2; 3] 0 0 [])
    as (m & H & _ & H' & _); [by_eval..|].
  exists m. split; [exact H|exact H'].
Defined.

Lemma eth_protocol_messages_witness :
  (exists m, eth_protocol_get_request_package (replicate 64 0) (replicate 40 3) = Some (51, m)).
Proof.
  destruct (eth_protocol_messages (replicate 64 0) (replicate 40 3) 64) as [_ H];
    [by_eval|by_eval|by_eval|].
  eexists. exact H.
Defined.
