(* ===== verification/PtzProtocol.v ===== *)
(** * Messages of the PTZ head ([src/srv/eth_link/ptz_protocol/ptz_control_protocol.c])

    A message is: magic, version, length, command, time stamp, payload, sequence number,
    byte-sum checksum, stop word; all little endian. *)

From S2P Require Import Prelude Layout.
Local Open Scope string_scope.
Local Open Scope list_scope.
Local Open Scope Z_scope.
Local Open Scope c_scope.

(** ** Constants and data ([ptz_control_protocol.h]) *)

Definition PTZ_PACKAGE_HEAD : Z := 0x8A808988.
Definition PTZ_PACKAGE_PROTOCOL_VERSION : Z := 9002.
Definition PTZ_PACKAGE_STOPBIT : Z := 0x8B8A8089.
Definition PTZ_PACKAGE_HEAD_LEN : Z := 4.
Definition PTZ_PACKAGE_PROTOCOL_LEN : Z := 4.
Definition PTZ_PACKAGE_LENGTH_LEN : Z := 4.
Definition PTZ_PACKAGE_COMMAND_LEN : Z := 4.
Definition PTZ_PACKAGE_TIMESMAP_LEN : Z := 8.
Definition PTZ_PACKAGE_SEQ_MSG_LEN : Z := 4.
Definition PTZ_PACKAGE_CRC_LEN : Z := 4.
Definition PTZ_PACKAGE_STOPBIT_LEN : Z := 4.
Definition PTZ_PACKAGE_MINI_LEN : Z :=
  PTZ_PACKAGE_HEAD_LEN + PTZ_PACKAGE_PROTOCOL_LEN + PTZ_PACKAGE_LENGTH_LEN
  + PTZ_PACKAGE_COMMAND_LEN + PTZ_PACKAGE_TIMESMAP_LEN + PTZ_PACKAGE_SEQ_MSG_LEN
  + PTZ_PACKAGE_SEQ_MSG_LEN + PTZ_PACKAGE_STOPBIT_LEN.
Definition PTZ_PACKAGE_MAX_LEN : Z := 2048.

(** Only the offsets of the fields before [msg] are used. *)
Definition ptz_protocol_pac : struct :=
  [("head", 4); ("protocol_VER", 4); ("len", 4); ("command", 4); ("timesmap", 8); ("msg", 8);
   ("msg_seq_no", 8); ("crc", 4); ("stopbit", 4)].

Record ptz_protocol_msg := { command : Z; msglen : Z; msg : option (list Z) }.

(** The result of [gettimeofday]. *)
Record timeval := { tv_sec : Z; tv_usec : Z }.

(** ** The code *)

Definition ptz_protocol_crc_cal (pac : list Z) (len : Z) : option Z :=
  let i := PTZ_PACKAGE_PROTOCOL_LEN + PTZ_PACKAGE_HEAD_LEN in
  fold_bytes (λ verify b, i32 (verify + b)) (Z.to_nat (u32 len - i)) pac i 0.

Definition seq_no : Z := 0.

Definition ptz_protocol_package (msgid : Z) (msg : list Z) (len : Z) (pac : list Z)
    (tv : timeval) : option (Z * list Z) :=
  let off := offsetof ptz_protocol_pac in
  let len := u32 len in
  pac ← st_le 4 pac (off "head") PTZ_PACKAGE_HEAD;
  pac ← st_le 4 pac (off "protocol_VER") PTZ_PACKAGE_PROTOCOL_VERSION;
  pac ← st_le 4 pac (off "len")
          (u32 (len + (PTZ_PACKAGE_COMMAND_LEN + PTZ_PACKAGE_TIMESMAP_LEN
                       + PTZ_PACKAGE_SEQ_MSG_LEN + PTZ_PACKAGE_CRC_LEN)));
  pac ← st_le 4 pac (off "command") (u32 msgid);
  pac ← st_le 8 pac (off "timesmap") (u64 (tv_sec tv * 1000 + tv_usec tv / 1000));
  let data := PTZ_PACKAGE_HEAD_LEN + PTZ_PACKAGE_PROTOCOL_LEN + PTZ_PACKAGE_LENGTH_LEN
              + PTZ_PACKAGE_COMMAND_LEN + PTZ_PACKAGE_TIMESMAP_LEN in
  pac ← memcpy pac data msg 0 len;
  let total_len := i32 (data + len) in
  let data := data + len in
  pac ← st_le 4 pac (data + 4 * 0) seq_no;
  let total_len := i32 (total_len + PTZ_PACKAGE_SEQ_MSG_LEN) in
  crc ← ptz_protocol_crc_cal pac total_len;
  pac ← st_le 4 pac (data + 4 * 1) (u32 crc);
  let total_len := i32 (total_len + PTZ_PACKAGE_CRC_LEN) in
  pac ← st_le 4 pac (data + 4 * 2) PTZ_PACKAGE_STOPBIT;
  let total_len := i32 (total_len + PTZ_PACKAGE_STOPBIT_LEN) in
  Some (total_len, pac).

(** [len] is only compared with the minimum to log an error. *)
Definition ptz_protocol_network_data_analysis (pac : list Z) (len : Z)
    (lmsg : ptz_protocol_msg) (malloc_ok : bool) : option (Z * ptz_protocol_msg) :=
  let off := offsetof ptz_protocol_pac in
  head ← ld_le 4 pac (off "head");
  if negb (PTZ_PACKAGE_HEAD =? head) then Some (0, lmsg) else
  plen ← ld_le 4 pac (off "len");
  let msglen := i32 (plen - (PTZ_PACKAGE_TIMESMAP_LEN + PTZ_PACKAGE_COMMAND_LEN
                             + PTZ_PACKAGE_SEQ_MSG_LEN + PTZ_PACKAGE_CRC_LEN)) in
  cmd ← ld_le 4 pac (off "command");
  let lmsg := {| command := cmd; msglen := msglen; msg := msg lmsg |} in
  let offset := PTZ_PACKAGE_HEAD_LEN + PTZ_PACKAGE_PROTOCOL_LEN + PTZ_PACKAGE_LENGTH_LEN
                + PTZ_PACKAGE_COMMAND_LEN + PTZ_PACKAGE_TIMESMAP_LEN in
  if (0 <? msglen) && negb malloc_ok then
    Some (-1, {| command := cmd; msglen := msglen; msg := None |})
  else
  lmsg ← (if 0 <? msglen then
            bs ← ld_bytes pac offset msglen;
            Some {| command := cmd; msglen := msglen; msg := Some bs |}
          else Some lmsg);
  cal_verify ← ptz_protocol_crc_cal pac (u32 (offset + msglen + PTZ_PACKAGE_SEQ_MSG_LEN));
  let pData := offset + msglen + PTZ_PACKAGE_SEQ_MSG_LEN in
  verify ← ld_le 4 pac pData;
  if negb (i32 verify =? cal_verify) then
    Some (-1, {| command := cmd; msglen := msglen; msg := None |})
  else
    _ ← ld_le 4 pac (pData + 4);
    Some (0, lmsg).

Definition ptz_protocol_msg_destory (lmsg : ptz_protocol_msg) : ptz_protocol_msg :=
  {| command := command lmsg; msglen := msglen lmsg; msg := None |}.

(** ** The message format *)

Definition ptz_body (cmd time : Z) (payload : list Z) : list Z :=
  le_bytes 4 (Zlen payload + 20) ++ le_bytes 4 cmd ++ le_bytes 8 time ++ payload
  ++ le_bytes 4 seq_no.

Definition ptz_message (cmd time : Z) (payload : list Z) : list Z :=
  le_bytes 4 PTZ_PACKAGE_HEAD ++ le_bytes 4 PTZ_PACKAGE_PROTOCOL_VERSION
  ++ ptz_body cmd time payload
  ++ le_bytes 4 (zsum (ptz_body cmd time payload)) ++ le_bytes 4 PTZ_PACKAGE_STOPBIT.

Lemma Zlen_ptz_body cmd time payload : Zlen (ptz_body cmd time payload) = Zlen payload + 20.
Proof. unfold ptz_body. rewrite !Zlen_app, !Zlen_le_bytes. lia. Qed.

Lemma Zlen_ptz_message cmd time payload :
  Zlen (ptz_message cmd time payload) = Zlen payload + 36.
Proof. unfold ptz_message. rewrite !Zlen_app, !Zlen_le_bytes, Zlen_ptz_body. lia. Qed.

Lemma ptz_body_ok cmd time payload : bytes_ok payload -> bytes_ok (ptz_body cmd time payload).
Proof. intros. unfold ptz_body. rewrite !bytes_ok_app. auto 10 with bytes. Qed.

(** The checksum of a range is its byte sum, as long as the sum fits. *)
Lemma i32_id x : -2147483648 <= x < 2147483648 -> i32 x = x.
Proof. intros. unfold i32. rewrite Z.mod_small by lia. lia. Qed.

Lemma foldl_i32_sum bs a :
  bytes_ok bs -> 0 <= a -> a + 255 * Zlen bs < 2147483648 ->
  foldl (λ v b, i32 (v + b)) a bs = a + zsum bs.
Proof.
  intros Hb. revert a. induction Hb as [|b bs Hb _ IH]; intros a Ha Hs.
  - unfold zsum. cbn. lia.
  - rewrite Zlen_cons in Hs. pose proof (Zlen_nonneg bs). unfold is_byte in Hb.
    cbn [foldl]. rewrite i32_id, IH by lia. unfold zsum. cbn [foldr]. lia.
Qed.

Lemma crc_cal_spec pac n bs :
  ld_bytes pac 8 (n - 8) = Some bs -> bytes_ok bs -> 8 <= n < 8000000 ->
  ptz_protocol_crc_cal pac n = Some (zsum bs).
Proof.
  intros H Hb Hn. unfold ptz_protocol_crc_cal. change (_ + PTZ_PACKAGE_HEAD_LEN) with 8.
  pose proof (ld_bytes_len _ _ _ _ H). rewrite u32_id by lia.
  rewrite (fold_bytes_foldl _ _ _ _ _ _ H), foldl_i32_sum by (done || lia). done.
Qed.

Lemma i32_u32 x : i32 (u32 x) = i32 x.
Proof. unfold i32, u32. f_equal. by rewrite Z.add_mod_idemp_l. Qed.

(** One left-to-right store of a builder. *)
Lemma st_le_extend n a m p v :
  Zlen a = p -> Z.of_nat n <= Zlen m ->
  st_le n (a ++ m) p v = Some ((a ++ le_bytes n v) ++ drop n m).
Proof.
  intros. unfold st_le. rewrite st_bytes_extend by (done || by rewrite Zlen_le_bytes).
  by rewrite le_bytes_length.
Qed.

Ltac extend_side :=
  rewrite ?Zlen_app, ?Zlen_le_bytes; unfold Zlen in *; rewrite ?length_drop, ?length_app, ?le_bytes_length; cbn [length] in *; lia.

Lemma ptz_protocol_package_spec cmd payload tail pac tv :
  0 <= cmd < 4294967296 -> bytes_ok payload -> Zlen payload + 36 <= Zlen pac ->
  Zlen pac <= 1000000 ->
  ptz_protocol_package cmd (payload ++ tail) (Zlen payload) pac tv
  = Some (Zlen payload + 36,
          ptz_message cmd (u64 (tv_sec tv * 1000 + tv_usec tv / 1000)) payload
          ++ drop (length payload + 36) pac).
Proof.
  intros Hc Hp Hl Hb. pose proof (Zlen_nonneg payload) as H0.
  set (t := u64 _). unfold ptz_protocol_package. fold t. rewrite (u32_id (Zlen payload)) by lia.
  change (offsetof ptz_protocol_pac "head") with 0.
  change (offsetof ptz_protocol_pac "protocol_VER") with 4.
  change (offsetof ptz_protocol_pac "len") with 8.
  change (offsetof ptz_protocol_pac "command") with 12.
  change (offsetof ptz_protocol_pac "timesmap") with 16.
  change (PTZ_PACKAGE_COMMAND_LEN + _ + _ + _) with 20.
  change (PTZ_PACKAGE_HEAD_LEN + _ + _ + _ + _) with 24.
  rewrite (u32_id cmd), (u32_id (Zlen payload + 20)) by lia.
  rewrite <-(app_nil_l pac) at 1.
  do 5 (rewrite st_le_extend by extend_side; cbn [mbind option_bind]).
  unfold memcpy. rewrite ld_bytes_prefix by done. cbn [mbind option_bind].
  rewrite st_bytes_extend by extend_side. cbn [mbind option_bind].
  rewrite st_le_extend by extend_side. cbn [mbind option_bind].
  unfold PTZ_PACKAGE_SEQ_MSG_LEN, PTZ_PACKAGE_CRC_LEN, PTZ_PACKAGE_STOPBIT_LEN.
  rewrite (i32_id (24 + Zlen payload)), (i32_id (24 + Zlen payload + 4)),
    (i32_id (24 + Zlen payload + 4 + 4)), (i32_id (24 + Zlen payload + 4 + 4 + 4)) by lia.
  set (hd := le_bytes 4 PTZ_PACKAGE_HEAD ++ le_bytes 4 PTZ_PACKAGE_PROTOCOL_VERSION).
  assert ((((((([] ++ le_bytes 4 PTZ_PACKAGE_HEAD) ++ le_bytes 4 PTZ_PACKAGE_PROTOCOL_VERSION)
    ++ le_bytes 4 (Zlen payload + 20)) ++ le_bytes 4 cmd) ++ le_bytes 8 t) ++ payload)
    ++ le_bytes 4 seq_no = hd ++ ptz_body cmd t payload) as ->
    by (unfold hd, ptz_body; by rewrite <-!app_assoc).
  pose proof (ptz_body_ok cmd t payload Hp) as Hok. pose proof (Zlen_ptz_body cmd t payload) as Hbl.
  pose proof (zsum_bound _ Hok) as Hz. rewrite Hbl in Hz.
  rewrite (crc_cal_spec _ _ (ptz_body cmd t payload)); [|..|done|lia].
  2:{ rewrite <-app_assoc. apply ld_bytes_app; [done|lia]. }
  cbn [mbind option_bind]. rewrite (u32_id (zsum _)) by lia.
  assert (Zlen (hd ++ ptz_body cmd t payload) = 28 + Zlen payload) as Hh
    by (rewrite Zlen_app, Hbl; change (Zlen hd) with 8; lia).
  rewrite st_le_extend; [|lia|extend_side]. cbn [mbind option_bind].
  rewrite st_le_extend; [|rewrite Zlen_app, Zlen_le_bytes; lia|extend_side].
  cbn [mbind option_bind]. do 2 f_equal; [lia|].
  unfold ptz_message, hd. rewrite <-!app_assoc, !drop_drop. do 6 f_equal. lia.
Qed.

(** ** The parser on a message given by its parts *)

Section analysis.
Context (ver lenb cmdb ts payload seqb crcb stop rest : list Z) (lmsg0 : ptz_protocol_msg).
Hypothesis Hlen : Zlen ver = 4 /\ Zlen lenb = 4 /\ Zlen cmdb = 4 /\ Zlen ts = 8 /\ Zlen seqb = 4
  /\ Zlen crcb = 4 /\ Zlen stop = 4.
Let body := lenb ++ cmdb ++ ts ++ payload ++ seqb.
Let pac := le_bytes 4 PTZ_PACKAGE_HEAD ++ ver ++ body ++ crcb ++ stop ++ rest.
Hypothesis Hbody : bytes_ok body.
Hypothesis Hcrc : bytes_ok crcb.
Hypothesis Hfield : le_val lenb = Zlen payload + 20.
Hypothesis Hsize : Zlen payload <= 1000000.

Definition parsed (ok : bool) : Z * ptz_protocol_msg :=
  if ok then (0, {| command := le_val cmdb; msglen := Zlen payload;
                    msg := if 0 <? Zlen payload then Some payload else msg lmsg0 |})
  else (-1, {| command := le_val cmdb; msglen := Zlen payload; msg := None |}).

Lemma analysis_le n a b c p :
  pac = a ++ b ++ c -> Zlen a = p -> Zlen b = Z.of_nat n -> ld_le n pac p = Some (le_val b).
Proof. intros E Ha Hb. unfold ld_le. rewrite E, (ld_bytes_app a b c) by done. done. Qed.

Lemma Zlen_body : Zlen body = Zlen payload + 20.
Proof. unfold body. rewrite !Zlen_app. lia. Qed.

Lemma analysis_message len :
  ptz_protocol_network_data_analysis pac len lmsg0 true
  = Some (parsed (le_val crcb =? zsum body)).
Proof.
  destruct Hlen as (Hv & Hl & Hc & Ht & Hs & Hk & Hst). pose proof (Zlen_nonneg payload) as H0.
  pose proof Zlen_body as Hbl. pose proof (zsum_bound _ Hbody) as Hz.
  assert (Zlen (le_bytes 4 PTZ_PACKAGE_HEAD) = 4) as Hh by apply Zlen_le_bytes.
  unfold ptz_protocol_network_data_analysis.
  change (offsetof ptz_protocol_pac "head") with 0.
  change (offsetof ptz_protocol_pac "len") with 8.
  change (offsetof ptz_protocol_pac "command") with 12.
  change (PTZ_PACKAGE_TIMESMAP_LEN + _ + _ + _) with 20.
  change (PTZ_PACKAGE_HEAD_LEN + _ + _ + _ + _) with 24. change PTZ_PACKAGE_SEQ_MSG_LEN with 4.
  rewrite (analysis_le 4 [] _ _ 0 eq_refl eq_refl Hh). cbn [mbind option_bind].
  rewrite le_val_small by (unfold PTZ_PACKAGE_HEAD; lia). rewrite Z.eqb_refl. cbn [negb].
  rewrite (analysis_le 4 (le_bytes 4 PTZ_PACKAGE_HEAD ++ ver) lenb
             (cmdb ++ ts ++ payload ++ seqb ++ crcb ++ stop ++ rest) 8)
    by (rewrite ?Zlen_app; try lia; unfold pac, body; by rewrite <-!app_assoc).
  cbn [mbind option_bind]. rewrite Hfield.
  replace (Zlen payload + 20 - 20) with (Zlen payload) by lia. rewrite i32_id by lia.
  rewrite (analysis_le 4 (le_bytes 4 PTZ_PACKAGE_HEAD ++ ver ++ lenb) cmdb
             (ts ++ payload ++ seqb ++ crcb ++ stop ++ rest) 12)
    by (rewrite ?Zlen_app; try lia; unfold pac, body; by rewrite <-!app_assoc).
  cbn [mbind option_bind]. rewrite andb_false_r.
  assert (ld_bytes pac 24 (Zlen payload) = Some payload) as Hp.
  { replace pac with ((le_bytes 4 PTZ_PACKAGE_HEAD ++ ver ++ lenb ++ cmdb ++ ts) ++ payload
      ++ (seqb ++ crcb ++ stop ++ rest)) by (unfold pac, body; by rewrite <-!app_assoc).
    apply ld_bytes_app; [rewrite !Zlen_app; lia|done]. }
  rewrite Hp. cbn [mbind option_bind].
  assert (ptz_protocol_crc_cal pac (u32 (24 + Zlen payload + 4)) = Some (zsum body)) as Hcal.
  { rewrite u32_id by lia. apply crc_cal_spec; [|done|lia]. unfold pac. rewrite app_assoc.
    apply ld_bytes_app; [rewrite Zlen_app|]; lia. }
  assert (ld_le 4 pac (24 + Zlen payload + 4) = Some (le_val crcb)) as Hv1.
  { apply (analysis_le 4 (le_bytes 4 PTZ_PACKAGE_HEAD ++ ver ++ body) crcb (stop ++ rest));
      [unfold pac; by rewrite <-!app_assoc|rewrite !Zlen_app|]; lia. }
  assert (is_Some (ld_le 4 pac (24 + Zlen payload + 4 + 4))) as [v2 Hv2].
  { eexists. apply (analysis_le 4 (le_bytes 4 PTZ_PACKAGE_HEAD ++ ver ++ body ++ crcb) stop rest);
      [unfold pac; by rewrite <-!app_assoc|rewrite !Zlen_app|]; lia. }
  pose proof (le_val_range crcb Hcrc) as Hcr. rewrite Hk in Hcr. change (256 ^ 4) with 4294967296 in Hcr.
  assert ((i32 (le_val crcb) =? zsum body) = (le_val crcb =? zsum body)) as Ei.
  { rewrite Hbl in Hz. clear -Hz Hcr Hsize. unfold i32.
    destruct (Z.eqb_spec (le_val crcb) (zsum body)), (Z.eqb_spec
      ((le_val crcb + 2147483648) mod 4294967296 - 2147483648) (zsum body)); try done;
      Z.div_mod_to_equations; lia. }
  unfold parsed. destruct (Z.ltb_spec 0 (Zlen payload)) as [Hpos|Hpos];
    cbn [mbind option_bind]; rewrite Hcal; cbn [mbind option_bind]; rewrite Hv1;
    cbn [mbind option_bind]; rewrite Ei; destruct (le_val crcb =? zsum body); cbn [negb];
    try done; by rewrite Hv2.
Qed.
End analysis.

(** ** Properties *)

(** C34: round trip. In a buffer with room for it, the builder leaves the message of the
    command, the time and the payload and returns its length; the parser, given those
    bytes, accepts them and gives back the command, the length and the payload. *)
Theorem ptz_protocol_roundtrip cmd payload pac tv lmsg0 :
  0 <= cmd < 4294967296 -> bytes_ok payload -> 0 < Zlen payload ->
  Zlen payload + 36 <= Zlen pac <= 1000000 ->
  let time := u64 (tv_sec tv * 1000 + tv_usec tv / 1000) in
  exists pac', ptz_protocol_package cmd payload (Zlen payload) pac tv
      = Some (Zlen payload + 36, pac')
  /\ pac' = ptz_message cmd time payload ++ drop (length payload + 36) pac
  /\ ptz_protocol_network_data_analysis pac' (Zlen payload + 36) lmsg0 true
     = Some (0, {| command := cmd; msglen := Zlen payload; msg := Some payload |}).
Proof.
  intros Hc Hp Hpos Hl time.
  eexists. split; [rewrite <-(app_nil_r payload) at 1; apply ptz_protocol_package_spec; (done || lia)|].
  split; [done|]. fold time. unfold ptz_message. rewrite <-!app_assoc.
  pose proof (ptz_body_ok cmd time payload Hp) as Hok.
  pose proof (zsum_bound _ Hok) as Hz. rewrite Zlen_ptz_body in Hz.
  unfold ptz_body at 1. rewrite (analysis_message (le_bytes 4 PTZ_PACKAGE_PROTOCOL_VERSION)
    (le_bytes 4 (Zlen payload + 20)) (le_bytes 4 cmd) (le_bytes 8 time) payload
    (le_bytes 4 seq_no)); [|by rewrite !Zlen_le_bytes|exact Hok|apply le_bytes_ok
    |rewrite le_val_small; lia|lia].
  unfold parsed. rewrite !le_val_small by lia. fold (ptz_body cmd time payload).
  rewrite Z.eqb_refl. by destruct (Z.ltb_spec 0 (Zlen payload)); [|lia].
Qed.

(** One byte of a list replaced by another changes its sum. *)
Lemma zsum_insert (l : list Z) k x y :
  l !! k = Some x -> zsum (<[k := y]> l) = zsum l - x + y.
Proof.
  revert k. induction l as [|a l IH]; intros [|k] H; try done.
  - injection H as ->. unfold zsum. cbn. lia.
  - change (a + zsum (<[k := y]> l) = a + zsum l - x + y). specialize (IH k H). lia.
Qed.

(** A message whose payload was replaced on the way. *)
Definition ptz_tampered (cmd time : Z) (payload payload' : list Z) : list Z :=
  le_bytes 4 PTZ_PACKAGE_HEAD ++ le_bytes 4 PTZ_PACKAGE_PROTOCOL_VERSION
  ++ ptz_body cmd time payload'
  ++ le_bytes 4 (zsum (ptz_body cmd time payload)) ++ le_bytes 4 PTZ_PACKAGE_STOPBIT.

Lemma ptz_tampered_analysis cmd time payload payload' rest lmsg0 len :
  0 <= cmd < 4294967296 -> bytes_ok payload -> bytes_ok payload' ->
  Zlen payload' = Zlen payload -> 0 < Zlen payload <= 1000000 ->
  ptz_protocol_network_data_analysis (ptz_tampered cmd time payload payload' ++ rest) len lmsg0 true
  = Some (if zsum payload' =? zsum payload
          then (0, {| command := cmd; msglen := Zlen payload; msg := Some payload' |})
          else (-1, {| command := cmd; msglen := Zlen payload; msg := None |})).
Proof.
  intros Hc Hp Hp' El Hl. unfold ptz_tampered. rewrite <-!app_assoc.
  pose proof (ptz_body_ok cmd time payload' Hp') as Hok'.
  pose proof (ptz_body_ok cmd time payload Hp) as Hok.
  pose proof (zsum_bound _ Hok) as Hz. rewrite Zlen_ptz_body in Hz.
  unfold ptz_body at 1. rewrite (analysis_message (le_bytes 4 PTZ_PACKAGE_PROTOCOL_VERSION)
    (le_bytes 4 (Zlen payload' + 20)) (le_bytes 4 cmd) (le_bytes 8 time) payload'
    (le_bytes 4 seq_no)); [|by rewrite !Zlen_le_bytes|exact Hok'|apply le_bytes_ok
    |rewrite le_val_small; lia|lia].
  unfold parsed. rewrite !le_val_small by lia.
  assert ((zsum (ptz_body cmd time payload)
           =? zsum (le_bytes 4 (Zlen payload' + 20) ++ le_bytes 4 cmd ++ le_bytes 8 time
                    ++ payload' ++ le_bytes 4 seq_no)) = (zsum payload' =? zsum payload)) as ->.
  { unfold ptz_body. rewrite !zsum_app, El. destruct (Z.eqb_spec (zsum payload') (zsum payload)); lia. }
  rewrite El. destruct (Z.ltb_spec 0 (Zlen payload)); [|lia].
  by destruct (zsum payload' =? zsum payload).
Qed.

(** A payload that does not fit the buffer is copied over its end. *)
Lemma ptz_protocol_package_overflow cmd payload tail pac tv :
  Zlen payload <= 1000000 -> Zlen pac < Zlen payload + 36 ->
  ptz_protocol_package cmd (payload ++ tail) (Zlen payload) pac tv = None.
Proof.
  intros Hl Hs. pose proof (Zlen_nonneg payload) as H0. apply eq_None_not_Some. intros [r H].
  unfold ptz_protocol_package in H. rewrite (u32_id (Zlen payload)) in H by lia.
  change (PTZ_PACKAGE_HEAD_LEN + _ + _ + _ + _) with 24 in H.
  do 5 (apply bind_Some in H as (? & ?%st_bytes_len & H)).
  apply bind_Some in H as (? & Hm & H). unfold memcpy in Hm.
  apply bind_Some in Hm as (? & _ & Hm%st_bytes_len).
  apply bind_Some in H as (? & ?%st_bytes_len & H). apply bind_Some in H as (? & _ & H).
  apply bind_Some in H as (? & ?%st_bytes_len & H). apply bind_Some in H as (? & Hst & H).
  apply (mk_is_Some _ _), st_bytes_Some in Hst. rewrite Zlen_le_bytes in Hst. lia.
Qed.

(** Corruption. A message whose payload was replaced by one of the same length is
    accepted exactly when the byte sums agree, and then the replaced payload is handed out;
    otherwise the result is -1 and no payload is handed out. In particular every change of a
    single byte is detected. *)
Lemma ptz_analysis_corruption cmd time payload payload' rest lmsg0 len :
  0 <= cmd < 4294967296 -> bytes_ok payload -> bytes_ok payload' ->
  Zlen payload' = Zlen payload -> 0 < Zlen payload <= 1000000 ->
  ptz_protocol_network_data_analysis (ptz_tampered cmd time payload payload' ++ rest) len lmsg0 true
  = Some (if zsum payload' =? zsum payload
          then (0, {| command := cmd; msglen := Zlen payload; msg := Some payload' |})
          else (-1, {| command := cmd; msglen := Zlen payload; msg := None |}))
  /\ (forall k x y, payload !! k = Some x -> payload' = <[k := y]> payload -> x <> y ->
       zsum payload' <> zsum payload).
Proof.
  intros Hc Hp Hp' El Hl. split; [by apply ptz_tampered_analysis|].
  intros k x y Hk -> Hne. rewrite (zsum_insert _ _ x) by done. lia.
Qed.

(** What the parser does not check. A message with a wrong magic is reported as a
    success and leaves the result untouched; and the length field is trusted, whatever the
    number of bytes received: when it claims more bytes than the buffer holds, the copy
    reads outside the buffer. *)
Lemma ptz_analysis_unchecked pac len lmsg0 head plen cmd :
  ld_le 4 pac 0 = Some head -> ld_le 4 pac 8 = Some plen -> ld_le 4 pac 12 = Some cmd ->
  (head <> PTZ_PACKAGE_HEAD ->
     ptz_protocol_network_data_analysis pac len lmsg0 true = Some (0, lmsg0))
  /\ (head = PTZ_PACKAGE_HEAD -> Zlen pac + 16 < plen + 20 -> 20 < plen < 2147483648 ->
     ptz_protocol_network_data_analysis pac len lmsg0 true = None).
Proof.
  intros Hh Hpl Hc. unfold ptz_protocol_network_data_analysis.
  change (offsetof ptz_protocol_pac "head") with 0.
  change (offsetof ptz_protocol_pac "len") with 8.
  change (offsetof ptz_protocol_pac "command") with 12. rewrite Hh. cbn [mbind option_bind]. split.
  - intros Hne. destruct (Z.eqb_spec PTZ_PACKAGE_HEAD head); [congruence|done].
  - intros -> Hbig Hr. rewrite Z.eqb_refl. cbn [negb]. rewrite Hpl. cbn [mbind option_bind].
    rewrite Hc. cbn [mbind option_bind]. change (PTZ_PACKAGE_TIMESMAP_LEN + _ + _ + _) with 20.
    change (PTZ_PACKAGE_HEAD_LEN + _ + _ + _ + _) with 24.
    rewrite i32_id by lia. rewrite andb_false_r. destruct (Z.ltb_spec 0 (plen - 20)); [|lia].
    assert (ld_bytes pac 24 (plen - 20) = None) as ->; [|done].
    apply eq_None_not_Some. rewrite ld_bytes_Some. lia.
Qed.

(** ** Witnesses *)

Definition no_msg : ptz_protocol_msg := {| command := 0; msglen := 0; msg := None |}.

Lemma ptz_protocol_roundtrip_witness :
  (exists pac', ptz_protocol_package 3 [1; 2; 3] 3 (replicate 100 0)
      {| tv_sec := 17; tv_usec := 2500 |} = Some (39, pac')
   /\ ptz_protocol_network_data_analysis pac' 39 no_msg true
      = Some (0, {| command := 3; msglen := 3; msg := Some [1; 2; 3] |})).
Proof.
  destruct (ptz_protocol_roundtrip 3 [1; 2; 3] (replicate 100 0)
    {| tv_sec := 17; tv_usec := 2500 |} no_msg) as (pac' & H & _ & H'); [by_eval..|].
  exists pac'. split; [exact H|exact H'].
Defined.

Lemma ptz_analysis_corruption_witness :
  ptz_protocol_network_data_analysis (ptz_tampered 3 0 [1; 2] [1; 3] ++ []) 38 no_msg true
  = Some (-1, {| command := 3; msglen := 2; msg := None |}).
Proof.
  destruct (ptz_analysis_corruption 3 0 [1; 2] [1; 3] [] no_msg 38) as [H _]; [by_eval..|].
  exact H.
Defined.

Lemma ptz_analysis_unchecked_witness :
  ptz_protocol_network_data_analysis
    (le_bytes 4 PTZ_PACKAGE_HEAD ++ replicate 4 0 ++ le_bytes 4 5000 ++ replicate 500 0) 512
    no_msg true = None.
Proof.
  destruct (ptz_analysis_unchecked
    (le_bytes 4 PTZ_PACKAGE_HEAD ++ replicate 4 0 ++ le_bytes 4 5000 ++ replicate 500 0) 512
    no_msg PTZ_PACKAGE_HEAD 5000 0) as [_ H]; [reflexivity..|].
  apply H; by_eval.
Defined.
