(* ===== verification/EthLinkPtz.v ===== *)
(** * The link to the PTZ head ([src/srv/eth_link/eth_link_ptz.c])

    Messages go out as UDP datagrams; each datagram that comes in is parsed and given to
    the handler registered for its command.  The handlers are nodes that the registration
    allocates; [S] is the world the handlers and the socket change. *)

From S2P Require Import Prelude Layout Linked PtzProtocol.
Local Open Scope list_scope.
Local Open Scope Z_scope.
Local Open Scope c_scope.

Section link.
Context {S : Type}.

(** A handler gets the parsed message and returns an [int32_t], which is ignored. *)
Definition ptz_comand_handle : Type := ptz_protocol_msg -> S -> option (Z * S).

(** ** Data *)

(** [msg_handle_info_t] inside [eth_link_ptz_list_t]. *)
Record eth_link_ptz_list := {
  msg_id : Z; cbk : option ptz_comand_handle; pz_next : option nat
}.

Definition ptz_set_next (p : option nat) (n : eth_link_ptz_list) : eth_link_ptz_list :=
  {| msg_id := msg_id n; cbk := cbk n; pz_next := p |}.

#[export] Instance ptz_linked : Linked eth_link_ptz_list :=
  {| ln_next := pz_next; ln_set_next := ptz_set_next; ln_next_set _ _ := eq_refl |}.

(** The static objects of the file. [uSendIp] is the destination of [sUdpCfg]. *)
Record ptz_link := {
  ptz_list_obj : option nat; ptz_nodes : gmap nat eth_link_ptz_list; uSendIp : Z
}.

Definition link_set_ip (ip : Z) (k : ptz_link) : ptz_link :=
  {| ptz_list_obj := ptz_list_obj k; ptz_nodes := ptz_nodes k; uSendIp := ip |}.

(** ** The code *)

(** [while(pos->next != NULL) pos = pos->next;] *)
Fixpoint ptz_last (fuel : nat) (h : gmap nat eth_link_ptz_list) (pos : nat) : option nat :=
  n ← h !! pos;
  match pz_next n with
  | None => Some pos
  | Some next => match fuel with O => None | Datatypes.S fuel' => ptz_last fuel' h next end
  end.

(** [addr] is what [skyfend_malloc] returns. *)
Definition eth_ptz_command_register (k : ptz_link) (msgid : Z) (cb : option ptz_comand_handle)
    (addr : option nat) : option (Z * ptz_link) :=
  let node := {| msg_id := u32 msgid; cbk := cb; pz_next := None |} in
  match ptz_list_obj k with
  | None =>
      match addr with
      | None => Some (-1, k)
      | Some a =>
          Some (0, {| ptz_list_obj := Some a; ptz_nodes := <[a := node]> (ptz_nodes k);
                      uSendIp := uSendIp k |})
      end
  | Some pos =>
      pos ← ptz_last (size (ptz_nodes k)) (ptz_nodes k) pos;
      last ← ptz_nodes k !! pos;
      let h := <[pos := ptz_set_next addr last]> (ptz_nodes k) in
      match addr with
      | None => Some (-1, {| ptz_list_obj := ptz_list_obj k; ptz_nodes := h; uSendIp := uSendIp k |})
      | Some a =>
          Some (0, {| ptz_list_obj := ptz_list_obj k; ptz_nodes := <[a := node]> h;
                      uSendIp := uSendIp k |})
      end
  end.

(** The nodes are freed one by one. *)
Fixpoint ptz_free_all (fuel : nat) (h : gmap nat eth_link_ptz_list) (pos : option nat)
  : option (gmap nat eth_link_ptz_list) :=
  match pos with
  | None => Some h
  | Some a =>
      match fuel with
      | O => None
      | Datatypes.S fuel' => n ← h !! a; ptz_free_all fuel' (delete a h) (pz_next n)
      end
  end.

Definition eth_link_ptz_uninit (k : ptz_link) : option (Z * ptz_link) :=
  h ← ptz_free_all (size (ptz_nodes k)) (ptz_nodes k) (ptz_list_obj k);
  Some (0, {| ptz_list_obj := None; ptz_nodes := h; uSendIp := uSendIp k |}).

(** The loop over the handlers. A node without a callback is passed over. *)
Fixpoint ptz_dispatch (fuel : nat) (h : gmap nat eth_link_ptz_list) (pos : option nat)
    (lmsg : ptz_protocol_msg) (s : S) : option S :=
  match pos with
  | None => Some s
  | Some a =>
      match fuel with
      | O => None
      | Datatypes.S fuel' =>
          n ← h !! a;
          if msg_id n =? command lmsg then
            match cbk n with
            | Some cb => '(_, s) ← cb lmsg s; Some s
            | None => ptz_dispatch fuel' h (pz_next n) lmsg s
            end
          else ptz_dispatch fuel' h (pz_next n) lmsg s
      end
  end.

Definition eth_protocol_handler (k : ptz_link) (m : list Z) (len : Z) (malloc_ok : bool) (s : S)
  : option S :=
  let lmsg := {| command := 0; msglen := 0; msg := None |} in
  '(ret, lmsg) ← ptz_protocol_network_data_analysis m (u32 len) lmsg malloc_ok;
  if negb (ret =? 0) then Some s
  else ptz_dispatch (size (ptz_nodes k)) (ptz_nodes k) (ptz_list_obj k) lmsg s.

(** [pi_recv] gives the length and the bytes of a datagram and the sender's address. *)
Definition eth_link_udp_cbk_data (k : ptz_link) (data : list Z) (iLength uIp : Z)
    (malloc_ok : bool) (s : S) : option (ptz_link * S) :=
  abyBuffer ← st_bytes (replicate 512 0) 0 data;
  let k := link_set_ip (Z.lor (u32 uIp) 255) k in
  s ← eth_protocol_handler k abyBuffer iLength malloc_ok s;
  Some (link_set_ip 4294967295 k, s).

(** [udp_socket_send] is the parameter [send]; its result is ignored. *)
Definition send_ptz_package (send : list Z -> S -> option S) (msginfo : ptz_protocol_msg)
    (tv : timeval) (s : S) : option (Z * S) :=
  let pac := replicate (Z.to_nat PTZ_PACKAGE_MAX_LEN) 0 in
  data ← msg msginfo;
  '(retlen, pac) ← ptz_protocol_package (command msginfo) data (msglen msginfo) pac tv;
  bs ← ld_bytes pac 0 retlen;
  s ← send bs s;
  Some (0, s).

(** ** The handlers as a list *)

(** What the heap holds, in the order of registration. *)
Definition ptz_handlers (k : ptz_link) (hs : list (Z * option ptz_comand_handle)) : Prop :=
  exists l, is_list (ptz_nodes k) (ptz_list_obj k) l
  /\ Forall2 (λ a h, exists n, ptz_nodes k !! a = Some n /\ (msg_id n, cbk n) = h) l hs.

(** The handler a command goes to. *)
Fixpoint handler_for (hs : list (Z * option ptz_comand_handle)) (cmd : Z)
  : option ptz_comand_handle :=
  match hs with
  | [] => None
  | (id, cb) :: hs' =>
      if id =? cmd then match cb with Some f => Some f | None => handler_for hs' cmd end
      else handler_for hs' cmd
  end.

Definition run_handler (h : option ptz_comand_handle) (lmsg : ptz_protocol_msg) (s : S)
  : option S :=
  match h with Some f => '(_, s) ← f lmsg s; Some s | None => Some s end.

Lemma ptz_dispatch_spec fuel h p l hs lmsg s :
  is_list h p l ->
  Forall2 (λ a x, exists n, h !! a = Some n /\ (msg_id n, cbk n) = x) l hs ->
  (length l <= fuel)%nat ->
  ptz_dispatch fuel h p lmsg s = run_handler (handler_for hs (command lmsg)) lmsg s.
Proof.
  intros El Hs. revert fuel p El. induction Hs as [|a x l hs (n & Hn & <-) _ IH];
    intros fuel p El Hf.
  - cbn in El. subst p. by destruct fuel.
  - destruct El as (-> & n' & Hn' & El). rewrite Hn in Hn'. injection Hn' as <-.
    destruct fuel as [|fuel]; [cbn in Hf; lia|]. cbn [ptz_dispatch handler_for].
    rewrite Hn. cbn [mbind option_bind].
    destruct (msg_id n =? command lmsg); [destruct (cbk n); [done|]|]; apply IH; try done;
      cbn in Hf; lia.
Qed.

Lemma ptz_last_spec fuel h a l :
  is_list h (Some a) l -> (length l <= Datatypes.S fuel)%nat ->
  exists l0 z n, l = l0 ++ [z] /\ ptz_last fuel h a = Some z /\ h !! z = Some n
    /\ pz_next n = None.
Proof.
  revert a l. induction fuel as [|fuel IH]; intros a l El Hf;
    (destruct l as [|b l]; [discriminate El|]); destruct El as ([= <-] & n & Hn & El);
    cbn [ptz_last]; rewrite Hn; cbn [mbind option_bind ln_next ptz_linked] in *;
    destruct (pz_next n) as [c|] eqn:Ec.
  - destruct l as [|? ?]; [discriminate El|cbn in Hf; lia].
  - destruct l as [|? ?]; [|by destruct El]. exists [], a, n. done.
  - destruct (IH c l El) as (l0 & z & nz & -> & Hw & Hz & Hnz); [cbn in Hf; lia|].
    exists (a :: l0), z, nz. done.
  - destruct l as [|? ?]; [|by destruct El]. exists [], a, n. done.
Qed.
End link.

Arguments ptz_comand_handle : clear implicits.
Arguments eth_link_ptz_list : clear implicits.
Arguments ptz_link : clear implicits.

Lemma ptz_free_all_spec {S} fuel (h : gmap nat (eth_link_ptz_list S)) p l :
  is_list h p l -> (length l <= fuel)%nat ->
  exists h', ptz_free_all fuel h p = Some h' /\ (forall a, a ∈ l -> h' !! a = None)
    /\ (forall a, a ∉ l -> h' !! a = h !! a).
Proof.
  revert fuel h p. induction l as [|a l IH]; intros fuel h p El Hf.
  - cbn in El. subst p. exists h. split; [by destruct fuel|]. split; [set_solver|done].
  - pose proof (is_list_NoDup _ _ _ El) as [Ha Hd]%NoDup_cons.
    destruct El as (-> & n & Hn & El). destruct fuel as [|fuel]; [cbn in Hf; lia|].
    cbn [ptz_free_all]. rewrite Hn. cbn [mbind option_bind].
    destruct (IH fuel (delete a h) (pz_next n)) as (h' & -> & Hin & Hout);
      [|cbn in Hf; lia|].
    + eapply lseg_ext; [|exact El]. intros b Hb. rewrite lookup_delete_ne; [done|].
      by intros ->.
    + exists h'. split; [done|]. split.
      * intros b [->|Hb]%elem_of_cons; [rewrite Hout, lookup_delete_eq; done|by apply Hin].
      * intros b [Hne Hb]%not_elem_of_cons. rewrite Hout, lookup_delete_ne; done.
Qed.

Lemma send_package_spec {S} send cmd payload tail tv (s : S) :
  0 <= cmd < 4294967296 -> bytes_ok payload -> Zlen payload <= 1000000 ->
  send_ptz_package send {| command := cmd; msglen := Zlen payload; msg := Some (payload ++ tail) |} tv s
  = if decide (Zlen payload + 36 <= PTZ_PACKAGE_MAX_LEN) then
      s ← send (ptz_message cmd (u64 (tv_sec tv * 1000 + tv_usec tv / 1000)) payload) s; Some (0, s)
    else None.
Proof.
  intros Hc Hp Hl. unfold send_ptz_package. cbn [msg command msglen mbind option_bind].
  assert (Zlen (replicate (Z.to_nat PTZ_PACKAGE_MAX_LEN) 0) = PTZ_PACKAGE_MAX_LEN) as Hpac
    by by_eval.
  destruct (decide _) as [Hfit|Hfit].
  - rewrite ptz_protocol_package_spec by (rewrite ?Hpac; unfold PTZ_PACKAGE_MAX_LEN in *; done || lia).
    cbn [mbind option_bind]. by rewrite ld_bytes_prefix by apply Zlen_ptz_message.
  - rewrite ptz_protocol_package_overflow by (rewrite ?Hpac; done || lia). done.
Qed.

(** ** Properties *)

(** The handler table. Registering a handler in a node that [malloc] returned appends
    it to the table, whatever the table holds; when [malloc] fails the result is -1 and the
    table is as before; taking the link down frees every node and leaves an empty table. *)
Lemma eth_ptz_command_register_spec {S} (k : ptz_link S) hs msgid cb :
  ptz_handlers k hs -> 0 <= msgid < 4294967296 ->
  (forall a, ptz_nodes k !! a = None ->
     exists k', eth_ptz_command_register k msgid cb (Some a) = Some (0, k')
     /\ ptz_handlers k' (hs ++ [(msgid, cb)]))
  /\ (exists k', eth_ptz_command_register k msgid cb None = Some (-1, k') /\ ptz_handlers k' hs)
  /\ (exists k' l, is_list (ptz_nodes k) (ptz_list_obj k) l
      /\ eth_link_ptz_uninit k = Some (0, k') /\ ptz_handlers k' []
      /\ (forall a, a ∈ l -> ptz_nodes k' !! a = None)).
Proof.
  intros (l & Hl & Hs) Hid. rewrite (assoc (∧)). split.
  2:{ pose proof (is_list_size _ _ _ Hl) as Hsz. unfold eth_link_ptz_uninit.
      destruct (ptz_free_all_spec _ _ _ _ Hl Hsz) as (h' & -> & Hin & _).
      eexists _, l. split; [done|]. split; [done|]. split; [by exists []|done]. }
  unfold eth_ptz_command_register. rewrite u32_id by done.
  destruct (ptz_list_obj k) as [p|] eqn:Ep.
  - pose proof (is_list_size _ _ _ Hl) as Hsz.
    destruct (ptz_last_spec (size (ptz_nodes k)) (ptz_nodes k) p l Hl)
      as (l0 & z & nz & -> & -> & Hz & Hnz); [lia|].
    cbn [mbind option_bind]. rewrite Hz. cbn [mbind option_bind]. split.
    + intros a Ha. eexists. split; [done|]. exists ((l0 ++ [z]) ++ [a]).
      cbn [ptz_nodes ptz_list_obj]. split; [by apply (is_list_snoc _ _ l0 z nz a _ Hl Hz Ha)|].
      apply Forall2_app; [|constructor; [by eexists; rewrite lookup_insert_eq|constructor]].
      eapply Forall2_impl; [exact Hs|]. intros b x (n & Hn & Hx).
      destruct (decide (b = a)) as [->|Hba]; [congruence|].
      rewrite lookup_insert_ne by done. destruct (decide (b = z)) as [->|Hbz].
      * rewrite Hz in Hn. injection Hn as ->. eexists. by rewrite lookup_insert_eq.
      * exists n. by rewrite lookup_insert_ne.
    + eexists. split; [done|]. exists (l0 ++ [z]). cbn [ptz_nodes ptz_list_obj].
      rewrite insert_id; [done|]. rewrite Hz. f_equal. destruct nz; cbn in *. by rewrite Hnz.
  - destruct l as [|? ?]; [|by destruct Hl]. inversion Hs; subst. split.
    + intros a _. eexists. split; [done|]. exists [a]. cbn [ptz_nodes ptz_list_obj app].
      split; [split; [done|]; by eexists; rewrite lookup_insert_eq|].
      constructor; [|constructor]. by eexists; rewrite lookup_insert_eq.
    + exists k. split; [done|]. exists []. split; [by rewrite Ep|done].
Qed.

Lemma eth_protocol_handler_run {S} (k : ptz_link S) hs cmd time payload payload' rest len s :
  ptz_handlers k hs -> 0 <= cmd < 4294967296 -> bytes_ok payload -> bytes_ok payload' ->
  Zlen payload' = Zlen payload -> 0 < Zlen payload <= 1000000 ->
  eth_protocol_handler k (ptz_tampered cmd time payload payload' ++ rest) len true s
  = if zsum payload' =? zsum payload then
      run_handler (handler_for hs cmd)
        {| command := cmd; msglen := Zlen payload; msg := Some payload' |} s
    else Some s.
Proof.
  intros (l & Hl & Hs) Hc Hp Hp' El Hlen. unfold eth_protocol_handler.
  rewrite ptz_tampered_analysis by done.
  destruct (zsum payload' =? zsum payload); cbn [mbind option_bind Z.eqb negb]; [|done].
  by rewrite (ptz_dispatch_spec _ _ _ l hs) by (done || by eapply is_list_size).
Qed.

(** Dispatch. A datagram that holds a message is given, once, to the first handler
    registered for its command, with the command and payload that were sent; a message
    nobody registered for, or whose payload was damaged on the way, reaches no handler. *)
Lemma eth_protocol_handler_dispatch {S} (k : ptz_link S) hs cmd time payload payload' rest len s :
  ptz_handlers k hs -> 0 <= cmd < 4294967296 -> bytes_ok payload -> bytes_ok payload' ->
  Zlen payload' = Zlen payload -> 0 < Zlen payload <= 1000000 ->
  eth_protocol_handler k (ptz_tampered cmd time payload payload' ++ rest) len true s
  = if zsum payload' =? zsum payload then
      run_handler (handler_for hs cmd)
        {| command := cmd; msglen := Zlen payload; msg := Some payload' |} s
    else Some s.
Proof. apply eth_protocol_handler_run. Qed.

(** Sending. A message whose payload leaves room for the 36 bytes of framing in the
    2 KB buffer goes out as one datagram that is exactly the message; a longer payload
    overruns the buffer on the stack. Only the announced length of the data is sent. *)
Lemma send_ptz_package_datagram {S} send cmd payload tail tv (s : S) :
  0 <= cmd < 4294967296 -> bytes_ok payload -> Zlen payload <= 1000000 ->
  let time := u64 (tv_sec tv * 1000 + tv_usec tv / 1000) in
  send_ptz_package send {| command := cmd; msglen := Zlen payload; msg := Some (payload ++ tail) |} tv s
  = if decide (Zlen payload + 36 <= PTZ_PACKAGE_MAX_LEN) then
      s ← send (ptz_message cmd time payload) s; Some (0, s)
    else None.
Proof. intros Hc Hp Hl time. by apply send_package_spec. Qed.

(** ** Witnesses *)

Definition log_handler (tag : Z) : ptz_comand_handle (list (Z * Z)) :=
  λ m s, Some (0, s ++ [(tag, command m)]).
Definition demo_link : ptz_link (list (Z * Z)) :=
  {| ptz_list_obj := Some 4%nat;
     ptz_nodes := <[4%nat := {| msg_id := 2; cbk := Some (log_handler 1); pz_next := Some 5%nat |}]>
       {[5%nat := {| msg_id := 11; cbk := Some (log_handler 2); pz_next := None |}]};
     uSendIp := 4294967295 |}.
Definition demo_handlers : list (Z * option (ptz_comand_handle (list (Z * Z)))) :=
  [(2, Some (log_handler 1)); (11, Some (log_handler 2))].

Lemma demo_link_handlers : ptz_handlers demo_link demo_handlers.
Proof.
  exists [4%nat; 5%nat]. split.
  - split; [done|]. eexists. split; [reflexivity|]. split; [done|]. eexists.
    split; [reflexivity|done].
  - repeat constructor; eexists; (split; [reflexivity|done]).
Qed.

Lemma eth_ptz_command_register_spec_witness :
  (exists k', eth_ptz_command_register demo_link 8 (Some (log_handler 3)) (Some 9%nat) = Some (0, k')
   /\ ptz_handlers k' (demo_handlers ++ [(8, Some (log_handler 3))])).
Proof.
  destruct (eth_ptz_command_register_spec demo_link demo_handlers 8 (Some (log_handler 3))
    demo_link_handlers ltac:(lia)) as [H _].
  exact (H 9%nat eq_refl).
Defined.

Lemma eth_protocol_handler_dispatch_witness :
  eth_protocol_handler demo_link (ptz_tampered 11 77 [5; 6] [5; 6] ++ replicate 20 0) 38 true []
  = Some [(2, 11)].
Proof.
  etransitivity;
    [apply (eth_protocol_handler_dispatch demo_link demo_handlers 11 77 [5; 6] [5; 6]);
      [exact demo_link_handlers|lia|by_eval|by_eval|done|by_eval]|].
  reflexivity.
Defined.

Lemma send_ptz_package_datagram_witness :
  send_ptz_package (λ bs s, Some (s ++ [bs]))
    {| command := 13; msglen := 3; msg := Some [1; 2; 3] |} {| tv_sec := 1; tv_usec := 0 |} []
  = Some (0, [ptz_message 13 1000 [1; 2; 3]]).
Proof.
  etransitivity; [apply (send_ptz_package_datagram (λ bs s, Some (s ++ [bs])) 13 [1; 2; 3] []
    {| tv_sec := 1; tv_usec := 0 |} []); [lia|by_eval|by_eval]|].
  vm_compute. reflexivity.
Defined.
