(* ===== verification/PtzControl.v ===== *)
(** * Commands to the PTZ head ([src/srv/eth_link/ptz_protocol/ptz_control.c])

    Each function stamps some fields of the caller's command object, copies the object into
    a zeroed buffer and sends it as the payload of a message. *)

From S2P Require Import Prelude Layout PtzProtocol EthLinkPtz.
Local Open Scope string_scope.
Local Open Scope list_scope.
Local Open Scope Z_scope.

(** ** Data ([ptz_control.h]) *)

Definition PTZ_USER_ID : Z := 0xff11.
Definition PTZ_PHOTOELECTRICITY_NO : Z := 1.
Definition PTZ_SYS_NO : Z := 1.

Definition PTZ_COMMAND_ADDR : Z := 3.
Definition PTZ_COMMAND_SERACH_TRACK : Z := 4.
Definition PTZ_COMMAND_CONTROL_PACKAGE : Z := 9.
Definition PTZ_COMMAND_SCAN_EXT : Z := 10.
Definition PTZ_COMMAND_DIRECTION_CONTROL : Z := 13.
Definition PTZ_COMMAND_LOCK_TARGET_MANUAL : Z := 16.
Definition PTZ_COMMAND_PERIPHERAL_CTRL : Z := 17.
Definition PTZ_COMMAND_AI_CTRL : Z := 18.
Definition PTZ_COMMAND_CONFIG_FOCAL_MODE : Z := 19.
Definition PTZ_COMMAND_CONFIG_TRACK_PARAM : Z := 20.
Definition PTZ_COMMAND_ADDR_EXT : Z := 22.

Definition ptz_msgid_0x03_addr : struct :=
  [("photoelectricity_no", 4); ("sys_no", 4); ("sys_timesmap", 8); ("target_longitude", 8);
   ("target_latitude", 8); ("target_altitude", 8); ("distance", 8); ("horizatal_angle", 8);
   ("pitch_angle", 8); ("user_id", 2); ("guidance_mode", 1); ("target_motion_direction", 1)].
Definition ptz_msg_direction_ctrl : struct :=
  [("photoelectricity_no", 4); ("sys_timesmap", 8); ("control_cmd", 4); ("motion_level", 4);
   ("motion_way", 4); ("reserver", 4)].
Definition ptz_msg_addr_external : struct :=
  [("photoelectricity_no", 4); ("sys_no", 4); ("sys_timesmap", 8); ("target_longitude", 8);
   ("target_altitude", 8); ("target_height", 8); ("distance", 8); ("horizatal_angle", 8);
   ("pitch_angle", 8); ("user_id", 2); ("guidance_mode", 1); ("target_motion_direction", 1);
   ("search_mode", 4); ("right_left_search_eara", 4); ("up_down_search_eara", 4);
   ("reserver", 4)].
Definition ptz_msg_ctrl_pack : struct :=
  [("photoelectricity_no", 4); ("sys_no", 4); ("sys_timesmap", 8); ("ctrl_cmd", 4);
   ("focal", 4); ("zoom", 4); ("focus", 4); ("reserver", 4)].
Definition ptz_msg_track : struct :=
  [("photoelectricity_no", 4); ("sys_timesmap", 8); ("ctrl_cmd", 4);
   ("horizatal_search_begin", 4); ("horizatal_search_end", 4); ("pitching_search_begin", 4);
   ("pitching_search_end", 4); ("reserver", 4)].
Definition ptz_msg_manual_lock_target : struct :=
  [("photoelectricity_no", 4); ("sys_timesmap", 8); ("track_vedio_source", 4);
   ("target_cor_x", 4); ("targegt_cor_y", 4); ("reserver", 4)].
Definition ptz_msg_scan_ext : struct :=
  [("photoelectricity_no", 4); ("sys_timesmap", 8); ("ctrl_cmd", 4);
   ("horizatal_search_begin", 4); ("horizatal_search_end", 4); ("pitching_search_begin", 4);
   ("pitching_search_end", 4); ("scan_speed", 4); ("reserver", 4)].
Definition ptz_msg_peripheral_ctrl : struct :=
  [("photoelectricity_no", 4); ("sys_timesmap", 8); ("ctrl_cmd", 4); ("ctrl_param", 4);
   ("reserver", 4)].
Definition ptz_msg_ai_ctrl : struct :=
  [("photoelectricity_no", 4); ("sys_timesmap", 8); ("config_cmd", 4); ("param_len", 4);
   ("param", 8)].
Definition ptz_msg_config_focal_mode : struct :=
  [("photoelectricity_no", 4); ("sys_timesmap", 8); ("focal_mode", 4); ("channel", 1);
   ("reserver", 3)].
Definition ptz_msg_config_track_param : struct :=
  [("photoelectricity_no", 4); ("sys_timesmap", 8); ("enable_focal_auto", 4);
   ("focal_magnifying_limit", 4); ("focal_reduce_limit", 4); ("reserver", 32)].

(** ** The code *)

Definition tv_ms (tv : timeval) : Z := u64 (tv_sec tv * 1000 + tv_usec tv / 1000).

Section control.
Context {S : Type} (send : list Z -> S -> option S).

(** [send_ptz_...( obj )]: the result, the object afterwards and the world. [tv] is the
    time of the stamp, [tv2] the time of the message. *)
Definition ptz_call : Type := option (list Z) -> timeval -> timeval -> S ->
  option (Z * option (list Z) * S).

(** The lines that all functions end with. *)
Definition send_ptz_dat (s : struct) (cmd : Z) (obj : list Z) (tv2 : timeval) (w : S)
  : option (Z * option (list Z) * S) :=
  dat ← memcpy (replicate 128 0) 0 obj 0 (sizeof s);
  let msginfo := {| command := cmd; msglen := sizeof s; msg := Some dat |} in
  '(ret, w) ← send_ptz_package send msginfo tv2 w;
  Some (ret, Some obj, w).

Definition send_ptz_control_addr : ptz_call := λ addr_t tv tv2 w,
  match addr_t with
  | None => Some (-1, None, w)
  | Some b =>
      let off := offsetof ptz_msgid_0x03_addr in
      b ← st_le 4 b (off "photoelectricity_no") PTZ_PHOTOELECTRICITY_NO;
      b ← st_le 2 b (off "user_id") PTZ_USER_ID;
      b ← st_le 4 b (off "sys_no") PTZ_SYS_NO;
      b ← st_le 8 b (off "sys_timesmap") (tv_ms tv);
      send_ptz_dat ptz_msgid_0x03_addr PTZ_COMMAND_ADDR b tv2 w
  end.

Definition send_ptz_control_direction : ptz_call := λ dir_ctrl _ tv2 w,
  match dir_ctrl with
  | None => Some (-1, None, w)
  | Some b => send_ptz_dat ptz_msg_direction_ctrl PTZ_COMMAND_DIRECTION_CONTROL b tv2 w
  end.

Definition send_ptz_control_add_ext : ptz_call := λ addr_ext _ tv2 w,
  match addr_ext with
  | None => Some (-1, None, w)
  | Some b => send_ptz_dat ptz_msg_addr_external PTZ_COMMAND_ADDR_EXT b tv2 w
  end.

Definition send_ptz_control_pack : ptz_call := λ ctrl_p tv tv2 w,
  match ctrl_p with
  | None => Some (-1, None, w)
  | Some b =>
      let off := offsetof ptz_msg_ctrl_pack in
      b ← st_le 4 b (off "photoelectricity_no") PTZ_PHOTOELECTRICITY_NO;
      b ← st_le 4 b (off "sys_no") PTZ_SYS_NO;
      b ← st_le 8 b (off "sys_timesmap") (tv_ms tv);
      send_ptz_dat ptz_msg_ctrl_pack PTZ_COMMAND_CONTROL_PACKAGE b tv2 w
  end.

(** The two stamps of the other commands. *)
Definition ptz_stamp (s : struct) (b : list Z) (tv : timeval) : option (list Z) :=
  b ← st_le 4 b (offsetof s "photoelectricity_no") PTZ_PHOTOELECTRICITY_NO;
  st_le 8 b (offsetof s "sys_timesmap") (tv_ms tv).

Definition send_ptz_stamped (s : struct) (cmd : Z) : ptz_call := λ obj tv tv2 w,
  match obj with
  | None => Some (-1, None, w)
  | Some b => b ← ptz_stamp s b tv; send_ptz_dat s cmd b tv2 w
  end.

Definition send_ptz_control_track : ptz_call :=
  send_ptz_stamped ptz_msg_track PTZ_COMMAND_SERACH_TRACK.
Definition send_ptz_control_manual_lock_target : ptz_call :=
  send_ptz_stamped ptz_msg_manual_lock_target PTZ_COMMAND_LOCK_TARGET_MANUAL.
Definition send_ptz_control_scan_ext : ptz_call :=
  send_ptz_stamped ptz_msg_scan_ext PTZ_COMMAND_SCAN_EXT.
Definition send_ptz_peripheral_ctrl : ptz_call :=
  send_ptz_stamped ptz_msg_peripheral_ctrl PTZ_COMMAND_PERIPHERAL_CTRL.
Definition send_ptz_config_focal_mode : ptz_call :=
  send_ptz_stamped ptz_msg_config_focal_mode PTZ_COMMAND_CONFIG_FOCAL_MODE.
Definition send_ptz_config_track_param : ptz_call :=
  send_ptz_stamped ptz_msg_config_track_param PTZ_COMMAND_CONFIG_TRACK_PARAM.

(** [param] is what the field of that name points to. *)
Definition send_ptz_ai_ctrl (actrl param : option (list Z)) (tv tv2 : timeval)
    (malloc_ok : bool) (w : S) : option (Z * option (list Z) * S) :=
  match actrl with
  | None => Some (-1, None, w)
  | Some b =>
      param_len ← ld_le 4 b (offsetof ptz_msg_ai_ctrl "param_len");
      if (0 <? param_len) && bool_decide (param = None) then Some (-1, Some b, w) else
      b ← ptz_stamp ptz_msg_ai_ctrl b tv;
      if negb malloc_ok then Some (-1, Some b, w) else
      let dat := replicate (Z.to_nat (sizeof ptz_msg_ai_ctrl + param_len)) 0 in
      dat ← memcpy dat 0 b 0 (sizeof ptz_msg_peripheral_ctrl);
      dat ← memcpy dat (sizeof ptz_msg_peripheral_ctrl - 8) (default [] param) 0 param_len;
      let msginfo := {| command := PTZ_COMMAND_AI_CTRL;
                        msglen := i32 (sizeof ptz_msg_peripheral_ctrl - 8 + param_len);
                        msg := Some dat |} in
      '(ret, w) ← send_ptz_package send msginfo tv2 w;
      Some (ret, Some b, w)
  end.
End control.

(** ** What goes out *)

Definition stamp_none (_ : Z) (obj : list Z) : list Z := obj.
Definition stamp_12 (t : Z) (obj : list Z) : list Z :=
  le_bytes 4 PTZ_PHOTOELECTRICITY_NO ++ le_bytes 8 t ++ drop 12 obj.
Definition stamp_16 (t : Z) (obj : list Z) : list Z :=
  le_bytes 4 PTZ_PHOTOELECTRICITY_NO ++ le_bytes 4 PTZ_SYS_NO ++ le_bytes 8 t ++ drop 16 obj.
Definition stamp_addr (t : Z) (obj : list Z) : list Z :=
  le_bytes 4 PTZ_PHOTOELECTRICITY_NO ++ le_bytes 4 PTZ_SYS_NO ++ le_bytes 8 t
  ++ take 48 (drop 16 obj) ++ le_bytes 2 PTZ_USER_ID ++ drop 66 obj.

(** [f] refuses [NULL], and sends one message with the stamped object otherwise. *)
Definition sends_struct (f : forall S, (list Z -> S -> option S) -> @ptz_call S)
    (s : struct) (cmd : Z) (stamp : Z -> list Z -> list Z) : Prop :=
  forall S send tv tv2 (w : S),
    f S send None tv tv2 w = Some (-1, None, w)
    /\ forall obj, bytes_ok obj -> Zlen obj = sizeof s ->
       f S send (Some obj) tv tv2 w
       = (w' ← send (ptz_message cmd (tv_ms tv2) (stamp (tv_ms tv) obj)) w;
          Some (0, Some (stamp (tv_ms tv) obj), w')).

Lemma send_dat_spec {S} send s cmd b tv2 (w : S) :
  bytes_ok b -> Zlen b = sizeof s -> sizeof s <= 128 -> 0 <= cmd < 4294967296 ->
  send_ptz_dat send s cmd b tv2 w
  = (w' ← send (ptz_message cmd (tv_ms tv2) b) w; Some (0, Some b, w')).
Proof.
  intros Hb Hs Hl Hc. unfold send_ptz_dat. pose proof (Zlen_nonneg b) as H0.
  assert (replicate 128 0 = replicate (length b) 0 ++ replicate (128 - length b) 0) as ->.
  { rewrite <-replicate_add. f_equal. unfold Zlen in *. lia. }
  pose proof (memcpy_whole [] (replicate (length b) 0) (replicate (128 - length b) 0) b 0 (sizeof s)
    eq_refl Hs) as E. cbn [app] in E. rewrite E
    by (unfold Zlen in *; by rewrite length_replicate).
  cbn [mbind option_bind]. rewrite <-Hs. rewrite send_package_spec by (done || lia).
  unfold PTZ_PACKAGE_MAX_LEN. rewrite decide_True by lia. fold (tv_ms tv2).
  by destruct (send (ptz_message cmd (tv_ms tv2) b) w).
Qed.

Lemma stamp_12_spec s obj tv :
  offsetof s "photoelectricity_no" = 0 -> offsetof s "sys_timesmap" = 4 -> 12 <= Zlen obj ->
  ptz_stamp s obj tv = Some (stamp_12 (tv_ms tv) obj).
Proof.
  intros E1 E2 Hl. unfold ptz_stamp, stamp_12. rewrite E1, E2. change (st_le 4 obj) with (st_le 4 ([] ++ obj)).
  rewrite st_le_extend by (done || lia). cbn [mbind option_bind].
  rewrite st_le_extend by extend_side. by rewrite drop_drop, <-!app_assoc.
Qed.

Lemma stamp_12_ok t obj : bytes_ok obj -> bytes_ok (stamp_12 t obj).
Proof. intros. unfold stamp_12. rewrite !bytes_ok_app. auto with bytes. Qed.

Lemma Zlen_stamp_12 t obj : 12 <= Zlen obj -> Zlen (stamp_12 t obj) = Zlen obj.
Proof. intros. unfold stamp_12. extend_side. Qed.

Lemma stamped_sends s cmd :
  offsetof s "photoelectricity_no" = 0 -> offsetof s "sys_timesmap" = 4 ->
  12 <= sizeof s <= 128 -> 0 <= cmd < 4294967296 ->
  sends_struct (λ S send, send_ptz_stamped send s cmd) s cmd stamp_12.
Proof.
  intros E1 E2 Hs Hc S send tv tv2 w. split; [done|]. intros obj Hb Hl.
  unfold send_ptz_stamped. rewrite stamp_12_spec by (done || lia). cbn [mbind option_bind].
  apply send_dat_spec; [by apply stamp_12_ok|rewrite Zlen_stamp_12; lia|lia|done].
Qed.

Lemma pack_sends :
  sends_struct (λ S send, send_ptz_control_pack send) ptz_msg_ctrl_pack
    PTZ_COMMAND_CONTROL_PACKAGE stamp_16.
Proof.
  intros S send tv tv2 w. split; [done|]. intros obj Hb Hl.
  change (sizeof ptz_msg_ctrl_pack) with 36 in Hl. unfold send_ptz_control_pack.
  change (offsetof ptz_msg_ctrl_pack "photoelectricity_no") with 0.
  change (offsetof ptz_msg_ctrl_pack "sys_no") with 4.
  change (offsetof ptz_msg_ctrl_pack "sys_timesmap") with 8.
  change (st_le 4 obj) with (st_le 4 ([] ++ obj)). rewrite st_le_extend by (done || lia). cbn [mbind option_bind].
  do 2 (rewrite st_le_extend by extend_side; cbn [mbind option_bind]).
  rewrite !drop_drop, <-!app_assoc. cbn [Nat.add]. fold (stamp_16 (tv_ms tv) obj).
  apply send_dat_spec; [| |by_eval|by_eval].
  - unfold stamp_16. rewrite !bytes_ok_app. auto with bytes.
  - unfold stamp_16. change (sizeof ptz_msg_ctrl_pack) with 36. extend_side.
Qed.

Lemma addr_sends :
  sends_struct (λ S send, send_ptz_control_addr send) ptz_msgid_0x03_addr
    PTZ_COMMAND_ADDR stamp_addr.
Proof.
  intros S send tv tv2 w. split; [done|]. intros obj Hb Hl.
  change (sizeof ptz_msgid_0x03_addr) with 68 in Hl. unfold send_ptz_control_addr.
  change (offsetof ptz_msgid_0x03_addr "photoelectricity_no") with 0.
  change (offsetof ptz_msgid_0x03_addr "user_id") with 64.
  change (offsetof ptz_msgid_0x03_addr "sys_no") with 4.
  change (offsetof ptz_msgid_0x03_addr "sys_timesmap") with 8.
  change (st_le 4 obj) with (st_le 4 ([] ++ obj)). rewrite st_le_extend by (done || lia). cbn [mbind option_bind app].
  set (tl := drop 66 obj). set (md := take 48 (drop 16 obj)).
  assert (exists x y u, drop 4 obj = x ++ y ++ md ++ u ++ tl /\ Zlen x = 4 /\ Zlen y = 8
    /\ Zlen md = 48 /\ Zlen u = 2) as (x & y & u & -> & Hx & Hy & Hm & Hu).
  { exists (take 4 (drop 4 obj)), (take 8 (drop 8 obj)), (take 2 (drop 64 obj)).
    unfold md, tl, Zlen in *. rewrite !length_take, !length_drop. split; [|lia].
    rewrite <-(take_drop 4 (drop 4 obj)) at 1. f_equal. rewrite drop_drop.
    rewrite <-(take_drop 8 (drop (4 + 4) obj)) at 1. f_equal. rewrite drop_drop.
    rewrite <-(take_drop 48 (drop (4 + 4 + 8) obj)) at 1. f_equal. rewrite drop_drop.
    rewrite <-(take_drop 2 (drop (4 + 4 + 8 + 48) obj)) at 1. f_equal. by rewrite drop_drop. }
  assert (st_le 2 (le_bytes 4 PTZ_PHOTOELECTRICITY_NO ++ x ++ y ++ md ++ u ++ tl) 64 PTZ_USER_ID
    = Some (le_bytes 4 PTZ_PHOTOELECTRICITY_NO ++ x ++ y ++ md ++ le_bytes 2 PTZ_USER_ID ++ tl)) as ->.
  { unfold st_le. pose proof (st_bytes_app (le_bytes 4 PTZ_PHOTOELECTRICITY_NO ++ x ++ y ++ md) u tl
      (le_bytes 2 PTZ_USER_ID) 64) as E. rewrite <-!app_assoc in E. apply E; [extend_side|].
    by rewrite Zlen_le_bytes. }
  cbn [mbind option_bind].
  do 2 (rewrite st_le_extend by extend_side; cbn [mbind option_bind]).
  rewrite drop_app_length' by (unfold Zlen in Hx; lia).
  rewrite drop_app_length' by (unfold Zlen in Hy; lia). rewrite <-!app_assoc.
  fold (stamp_addr (tv_ms tv) obj).
  apply send_dat_spec; [| |by_eval|by_eval].
  - unfold stamp_addr. rewrite !bytes_ok_app. auto 10 with bytes.
  - unfold stamp_addr. change (sizeof ptz_msgid_0x03_addr) with 68.
    fold md. fold tl. rewrite !Zlen_app, !Zlen_le_bytes, Hm. unfold tl, Zlen in *.
    rewrite length_drop. lia.
Qed.

Lemma split_16_8 (l : list Z) :
  24 <= Zlen l -> exists x y z, l = x ++ y ++ z /\ Zlen x = 16 /\ Zlen y = 8.
Proof.
  intros H. exists (take 16 l), (take 8 (drop 16 l)), (drop 8 (drop 16 l)).
  rewrite !take_drop. split; [done|]. unfold Zlen in *.
  rewrite !length_take, length_drop. lia.
Qed.

(** ** Properties *)

(** The PTZ commands. Each of the ten fixed-size commands refuses [NULL] with -1, sends
    nothing then, and otherwise sends exactly one datagram: the message with the command's
    number and the caller's object, in which only the stamped fields (device number, system
    number, time, user) differ from what the caller wrote. *)
Lemma ptz_control_sends :
  sends_struct (λ S send, send_ptz_control_addr send) ptz_msgid_0x03_addr 3 stamp_addr
  /\ sends_struct (λ S send, send_ptz_control_track send) ptz_msg_track 4 stamp_12
  /\ sends_struct (λ S send, send_ptz_control_pack send) ptz_msg_ctrl_pack 9 stamp_16
  /\ sends_struct (λ S send, send_ptz_control_scan_ext send) ptz_msg_scan_ext 10 stamp_12
  /\ sends_struct (λ S send, send_ptz_control_direction send) ptz_msg_direction_ctrl 13 stamp_none
  /\ sends_struct (λ S send, send_ptz_control_manual_lock_target send)
       ptz_msg_manual_lock_target 16 stamp_12
  /\ sends_struct (λ S send, send_ptz_peripheral_ctrl send) ptz_msg_peripheral_ctrl 17 stamp_12
  /\ sends_struct (λ S send, send_ptz_config_focal_mode send) ptz_msg_config_focal_mode 19 stamp_12
  /\ sends_struct (λ S send, send_ptz_config_track_param send)
       ptz_msg_config_track_param 20 stamp_12
  /\ sends_struct (λ S send, send_ptz_control_add_ext send) ptz_msg_addr_external 22 stamp_none.
Proof.
  repeat match goal with |- _ /\ _ => split end;
    try (apply stamped_sends; by_eval); [exact addr_sends|exact pack_sends|..];
    intros S send tv tv2 w; (split; [done|]); intros obj Hb Hl;
    apply send_dat_spec; done || by_eval.
Qed.

(** The AI command. The function uses the size of another structure (24 instead of
    28 bytes): what is sent is the first sixteen bytes of the stamped object followed by the
    parameter, so the parameter takes the place of [param_len], which the receiver never
    sees; and a parameter longer than 1996 bytes overruns the send buffer. *)
Lemma send_ptz_ai_ctrl_message {S} send obj p tv tv2 (w : S) :
  bytes_ok obj -> bytes_ok p -> Zlen obj = sizeof ptz_msg_ai_ctrl -> 0 < Zlen p <= 100000 ->
  ld_le 4 obj (offsetof ptz_msg_ai_ctrl "param_len") = Some (Zlen p) ->
  send_ptz_ai_ctrl send (Some obj) None tv tv2 true w = Some (-1, Some obj, w)
  /\ send_ptz_ai_ctrl send (Some obj) (Some p) tv tv2 true w
     = if decide (Zlen p <= 1996) then
         w' ← send (ptz_message PTZ_COMMAND_AI_CTRL (tv_ms tv2)
                      (take 16 (stamp_12 (tv_ms tv) obj) ++ p)) w;
         Some (0, Some (stamp_12 (tv_ms tv) obj), w')
       else None.
Proof.
  intros Hb Hp Hl Hn Hlen. unfold send_ptz_ai_ctrl. rewrite Hlen. cbn [mbind option_bind].
  assert ((0 <? Zlen p) = true) as -> by lia. split; [done|].
  rewrite (bool_decide_eq_false_2 (Some p = None)) by done. cbn [andb].
  change (sizeof ptz_msg_ai_ctrl) with 28 in *. change (sizeof ptz_msg_peripheral_ctrl) with 24.
  rewrite stamp_12_spec by (done || lia). cbn [mbind option_bind negb default].
  pose proof (stamp_12_ok (tv_ms tv) obj Hb) as Hok.
  pose proof (Zlen_stamp_12 (tv_ms tv) obj ltac:(lia)) as Hsl.
  set (ob := stamp_12 (tv_ms tv) obj) in *. rewrite Hl in Hsl.
  destruct (split_16_8 ob ltac:(lia)) as (x & y & z & E & Hx & Hy).
  assert (replicate (Z.to_nat (28 + Zlen p)) 0
    = replicate 24 0 ++ replicate (4 + length p) 0) as ->
    by (rewrite <-replicate_add; f_equal; unfold Zlen; lia).
  assert (memcpy (replicate 24 0 ++ replicate (4 + length p) 0) 0 ob 0 24
          = Some (x ++ y ++ replicate (4 + length p) 0)) as ->.
  { rewrite E, !app_assoc. apply (memcpy_app [] (replicate 24 0) _ [] (x ++ y) z); try done.
    rewrite Zlen_app. lia. }
  cbn [mbind option_bind].
  assert (exists c r, y ++ replicate (4 + length p) 0 = c ++ r /\ Zlen c = Zlen p) as (c & r & -> & Hc).
  { exists (take (length p) (y ++ replicate (4 + length p) 0)),
      (drop (length p) (y ++ replicate (4 + length p) 0)). rewrite take_drop. split; [done|].
    unfold Zlen in *. rewrite length_take, length_app, length_replicate. lia. }
  change (24 - 8) with 16. change (id p) with p.
  rewrite (memcpy_whole x c r p 16 (Zlen p)) by done. cbn [mbind option_bind].
  rewrite i32_id, app_assoc by lia.
  assert (16 + Zlen p = Zlen (x ++ p)) as -> by (rewrite Zlen_app; lia).
  assert (bytes_ok (x ++ p)) as Hxp
    by (apply bytes_ok_app; split; [rewrite E in Hok; by apply bytes_ok_app in Hok as [? _]|done]).
  rewrite send_package_spec by (done || unfold PTZ_COMMAND_AI_CTRL; rewrite ?Zlen_app; lia).
  rewrite E, take_app_length' by (unfold Zlen in Hx; lia). rewrite <-E, Zlen_app, Hx.
  unfold PTZ_PACKAGE_MAX_LEN. fold (tv_ms tv2).
  destruct (decide (16 + Zlen p + 36 <= 2048)), (decide (Zlen p <= 1996)); try lia; [|done].
  by destruct (send _ w).
Qed.

(** ** Witness *)

Lemma send_ptz_ai_ctrl_message_witness :
  send_ptz_ai_ctrl (λ bs s, Some (s ++ [bs]))
    (Some (replicate 12 0 ++ [2; 0; 0; 0] ++ [3; 0; 0; 0] ++ replicate 8 0)) (Some [7; 8; 9])
    {| tv_sec := 1; tv_usec := 0 |} {| tv_sec := 2; tv_usec := 0 |} true []
  = Some (0, Some (stamp_12 1000 (replicate 12 0 ++ [2; 0; 0; 0] ++ [3; 0; 0; 0] ++ replicate 8 0)),
      [ptz_message 18 2000 (le_bytes 4 1 ++ le_bytes 8 1000 ++ [2; 0; 0; 0] ++ [7; 8; 9])]).
Proof.
  destruct (send_ptz_ai_ctrl_message (λ bs s, Some (s ++ [bs]))
    (replicate 12 0 ++ [2; 0; 0; 0] ++ [3; 0; 0; 0] ++ replicate 8 0) [7; 8; 9]
    {| tv_sec := 1; tv_usec := 0 |} {| tv_sec := 2; tv_usec := 0 |} []) as [_ H]; [by_eval..|].
  etransitivity; [exact H|]. vm_compute. reflexivity.
Defined.
