(* ===== verification/Guide.v ===== *)
(** * Choosing a target ([src/srv/algs/ai_alg/guide.cpp], [tf.cpp])

    The track lists of the radar and of the tracer are read out of the packages the
    protocol handlers posted, and one target is chosen for the head to look at: the most
    dangerous of the tracks that are alive and useful.  [std::sort] is any function that
    sorts; the functions of [math.h] that are not arithmetic are parameters. *)

From stdpp Require Import sorting.
From S2P Require Import Prelude CFloat Layout CString AlinkTrack.
Local Open Scope string_scope.
Local Open Scope list_scope.
Local Open Scope Z_scope.
Local Open Scope c_scope.

(** The conversion to [int16_t]. *)
Definition i16 (x : Z) : Z := (x + 32768) mod 65536 - 32768.

(** ** Data ([guide.h]) *)

Record RadarObj := {
  ro_id : Z; ro_alive : Z; ro_stateType : Z; ro_threatLevel : Z;
  ro_azimuth : double; ro_elevation : double; ro_range : Z;
  ro_x : double; ro_y : double; ro_z : double
}.

Record TracerObj := {
  to_uDroneNum : Z; to_droneName : list Z; to_droneLongitude : double;
  to_droneLatitude : double; to_droneHeight : double; to_droneSpeed : double;
  to_droneVerticalSpeed : double; to_uDistance : double; to_uDangerLevels : Z
}.

(** Objects without arguments to the constructor. *)
Definition no_radar_obj : RadarObj :=
  {| ro_id := 0; ro_alive := 0; ro_stateType := 0; ro_threatLevel := 0;
     ro_azimuth := d_of_Z 0; ro_elevation := d_of_Z 0; ro_range := 0;
     ro_x := d_of_Z 0; ro_y := d_of_Z 0; ro_z := d_of_Z 0 |}.
Definition no_tracer_obj : TracerObj :=
  {| to_uDroneNum := 0; to_droneName := []; to_droneLongitude := d_of_Z 0;
     to_droneLatitude := d_of_Z 0; to_droneHeight := d_of_Z 0; to_droneSpeed := d_of_Z 0;
     to_droneVerticalSpeed := d_of_Z 0; to_uDistance := d_of_Z 0; to_uDangerLevels := 0 |}.

(** ** The code: radar tracks *)

Definition g_dScale : double := d_lit 1 64.

(** Track [i] of the package at the offset [p] of [trackPoint].  Scaling by a power of two
    is exact, so the range, which is converted back to an integer, is the quotient. *)
Definition radar_point (pack : list Z) (p i : Z) : option RadarObj :=
  let off name := p + i * sizeof alink_track_tracked_item + offsetof alink_track_tracked_item name in
  id ← ld_le 1 pack (off "id");
  alive ← ld_le 2 pack (off "alive");
  stateType ← ld_le 1 pack (off "stateType");
  threatLevel ← ld_le 2 pack (off "threatLevel");
  azimuth ← ld_le 2 pack (off "azimuth");
  elevation ← ld_le 2 pack (off "elevation");
  x ← ld_le 4 pack (off "x");
  y ← ld_le 4 pack (off "y");
  range ← ld_le 4 pack (off "range");
  Some {| ro_id := id; ro_alive := alive; ro_stateType := stateType; ro_threatLevel := threatLevel;
          ro_azimuth := dmul (d_of_Z (i16 azimuth)) g_dScale;
          ro_elevation := dmul (d_of_Z (i16 elevation)) g_dScale;
          ro_range := range / 64;
          ro_x := dmul (d_of_Z (i32 x)) g_dScale;
          ro_y := dmul (d_of_Z (i32 y)) g_dScale;
          ro_z := dmul (d_of_Z (i32 y)) g_dScale |}.

Definition radar_track_at (name : string) : Z :=
  offsetof radar_track_info_packages "track_tracked" + offsetof alink_track_tracked name.

Definition radar_read (radar_targets : list Z) (obj_list : list RadarObj)
  : option (Z * list RadarObj) :=
  trackObjNum ← ld_le 1 radar_targets (radar_track_at "trackObjNum");
  objs ← mapM (radar_point radar_targets (radar_track_at "trackPoint"))
           (seqZ 0 trackObjNum);
  Some (0, obj_list ++ objs).

(** [std::sort] with [radar_compare]. *)
Definition radar_compare (a b : RadarObj) : bool := ro_threatLevel a <? ro_threatLevel b.

Section choose.
Context (sort : list RadarObj -> list RadarObj).

(** [g] is [g_nID], and [obj_to_ptz] what the caller's object holds. *)
Definition radar_2ptz (objs : list RadarObj) (obj_to_ptz : RadarObj) (ptz_id g : Z)
  : Z * RadarObj * Z :=
  let useful_obj := filter (λ o, ro_stateType o = 1 /\ 10 <= ro_alive o) objs in
  match useful_obj with
  | [] => (0, obj_to_ptz, -1)
  | [o] => (1, o, if negb (ro_id o =? ptz_id) then -1 else g)
  | _ =>
      let useful_obj := sort useful_obj in
      let obj_to_ptz :=
        if -1 <? ptz_id then
          foldl (λ r o, if ptz_id =? ro_id o then o else r) obj_to_ptz useful_obj
        else default obj_to_ptz (head useful_obj) in
      (2, obj_to_ptz, if negb (ro_id obj_to_ptz =? ptz_id) then -1 else g)
  end.
End choose.

(** ** The code: drones that the tracer hears *)

(** Entry [i] of the list at [p]; [char] is unsigned on the target, and the name is copied
    up to its terminator. *)
Definition tracer_item (s : struct) (pack : list Z) (p num : Z) (angle : Z -> double) (i : Z)
  : option TracerObj :=
  let off name := p + i * sizeof s + offsetof s name in
  danger ← ld_le 2 pack (off "uDangerLevels");
  len ← strlen (drop (Z.to_nat (off "droneName")) pack);
  name ← ld_bytes pack (off "droneName") len;
  distance ← ld_le 2 pack (off "uDistance");
  lon ← ld_le 4 pack (off "droneLongitude");
  lat ← ld_le 4 pack (off "droneLatitude");
  height ← ld_le 2 pack (off "droneHeight");
  speed ← ld_le 2 pack (off "droneSpeed");
  vspeed ← ld_le 2 pack (off "droneVerticalSpeed");
  Some {| to_uDroneNum := num; to_droneName := name;
          to_droneLongitude := angle (i32 lon); to_droneLatitude := angle (i32 lat);
          to_droneHeight := dmul (d_of_Z (i16 height)) (d_lit 1 10);
          to_droneSpeed := dmul (d_of_Z (i16 speed)) (d_lit 1 100);
          to_droneVerticalSpeed := dmul (d_of_Z (i16 vspeed)) (d_lit 1 100);
          to_uDistance := d_of_Z (i16 distance); to_uDangerLevels := i16 danger |}.

Definition tracerR_angle (n : Z) : double := ddiv (d_of_Z n) (d_of_Z 10000000).
Definition tracerD_angle (n : Z) : double :=
  dmul (ddiv (d_of_Z n) (dmul (d_of_Z 10000000) d_pi)) (d_of_Z 180).

Definition tracerR_read (tracer_targets : list Z) (obj_list : list TracerObj)
  : option (Z * list TracerObj) :=
  let p := offsetof remoteid_track_info_packages "remote_id" in
  num ← ld_le 1 tracer_targets (p + offsetof alink_remote_id_track "uDroneNum");
  objs ← mapM (tracer_item alink_remote_id_items tracer_targets
                 (p + offsetof alink_remote_id_track "items") num tracerR_angle) (seqZ 0 num);
  Some (0, obj_list ++ objs).

Definition tracerD_read (tracer_targets : list Z) (obj_list : list TracerObj)
  : option (Z * list TracerObj) :=
  let p := offsetof droneid_track_info_packages "drone_id" in
  num ← ld_le 1 tracer_targets (p + offsetof alink_drone_id_track "uDroneNum");
  objs ← mapM (tracer_item alink_drone_id_items tracer_targets
                 (p + offsetof alink_drone_id_track "items") num tracerD_angle) (seqZ 0 num);
  Some (0, obj_list ++ objs).

Definition tracer_2ptz (objs : list TracerObj) (obj_to_ptz : TracerObj) : Z * TracerObj :=
  match objs with
  | [] => (0, obj_to_ptz)
  | [o] => (1, o)
  | o :: _ => (2, o)
  end.

(** ** The code: coordinates ([tf.cpp])

    Which [abs] the call means depends on the headers. *)

Section tf.
Context (sin cos abs : double -> double) (atan2 pow : double -> double -> double).

Definition degree2radian (degree : double) : double := ddiv (dmul degree d_pi) (d_of_Z 180).
Definition radian2degree (radian : double) : double := ddiv (dmul radian (d_of_Z 180)) d_pi.

Definition distanceBetween (startLatitude startLongitude endLatitude endLongitude : double)
  : double :=
  let EARTH_RADIUS := d_of_Z 6378137 in
  let dLat := degree2radian (dsub endLatitude startLatitude) in
  let dLon := degree2radian (dsub endLongitude startLongitude) in
  let half x := ddiv x (d_of_Z 2) in
  let a := dadd (pow (sin (half dLat)) (d_of_Z 2))
             (dmul (dmul (pow (sin (half dLon)) (d_of_Z 2)) (cos (degree2radian startLatitude)))
                (cos (degree2radian endLatitude))) in
  let c := dmul (d_of_Z 2) (atan2 (dsqrt a) (dsqrt (dsub (d_of_Z 1) a))) in
  dmul EARTH_RADIUS c.

Definition bearingBetween (startLatitude startLongitude endLatitude endLongitude : double)
  : double :=
  let startLongitudeRadian := degree2radian startLongitude in
  let endLongitudeRadian := degree2radian endLongitude in
  let startLatitudeRadian := degree2radian startLatitude in
  let endLatitudeRadian := degree2radian endLatitude in
  let dLon := dsub endLongitudeRadian startLongitudeRadian in
  let y := dmul (sin dLon) (cos endLatitudeRadian) in
  let x := dsub (dmul (cos startLatitudeRadian) (sin endLatitudeRadian))
             (dmul (dmul (sin startLatitudeRadian) (cos endLatitudeRadian)) (cos dLon)) in
  radian2degree (atan2 y x).

(** The three coordinates and the two angles. *)
Definition calculateCoordinate (startLatLng endLatLng : double * double) (high : double)
  : (double * double * double) * (double * double) :=
  let distance := distanceBetween startLatLng.1 startLatLng.2 endLatLng.1 endLatLng.2 in
  let bearing := bearingBetween startLatLng.1 startLatLng.2 endLatLng.1 endLatLng.2 in
  let x := dmul distance (cos (degree2radian bearing)) in
  let y := dmul distance (sin (degree2radian bearing)) in
  let small v := if dlt (abs v) (d_lit 1 100) then d_of_Z 0 else v in
  let x := small x in let y := small y in
  ((x, y, high), (radian2degree (atan2 y x),
                  radian2degree (atan2 high (dsqrt (dadd (dmul x x) (dmul y y)))))).

(** [res]: x, y, z, azimuth, elevation, range. *)
Definition calibPTZ (startLat startLng endLat endLng high : double) : list double :=
  let '((x, y, z), (a, e)) := calculateCoordinate (startLat, startLng) (endLat, endLng) high in
  [x; y; z; a; e; dsqrt (dadd (dadd (dmul x x) (dmul y y)) (dmul high high))].
End tf.

(** ** What [std::sort] promises *)

Class SortsBy {A} (lt : A -> A -> bool) (sort : list A -> list A) : Prop := {
  sort_perm l : sort l ≡ₚ l;
  sort_sorted l : StronglySorted (λ a b, lt b a = false) (sort l)
}.

(** ** Choosing *)

Abbreviation useful := (λ o, ro_stateType o = 1 /\ 10 <= ro_alive o).

(** No other useful target is more dangerous (the highest level is 1). *)
Definition most_dangerous (objs : list RadarObj) (o : RadarObj) : Prop :=
  o ∈ filter useful objs
  /\ forall o', o' ∈ filter useful objs -> ro_threatLevel o <= ro_threatLevel o'.

Section chosen.
Context (sort : list RadarObj -> list RadarObj) `{!SortsBy radar_compare sort}.

Lemma sort_head l o : head (sort l) = Some o ->
  o ∈ l /\ forall o', o' ∈ l -> ro_threatLevel o <= ro_threatLevel o'.
Proof.
  intros Hh. pose proof (sort_perm l) as Hp. pose proof (sort_sorted l) as Hs.
  destruct (sort l) as [|a r]; [done|]. injection Hh as ->.
  apply StronglySorted_inv in Hs as [_ Hs]. split; [rewrite <-Hp; by left|].
  intros o' Ho. rewrite <-Hp in Ho. apply elem_of_cons in Ho as [->|Ho]; [lia|].
  rewrite Forall_forall in Hs. specialize (Hs _ Ho). unfold radar_compare in Hs. lia.
Qed.

Lemma sort_head_Some l : l <> [] -> is_Some (head (sort l)).
Proof.
  intros Hl. pose proof (sort_perm l) as Hp. destruct (sort l); [|by eexists].
  by apply Permutation_nil in Hp.
Qed.

(** The last target with the id that is asked for. *)
Lemma pick_id l d id :
  (exists o, o ∈ l /\ ro_id o = id
     /\ foldl (λ r o, if id =? ro_id o then o else r) d l = o)
  \/ (forall o, o ∈ l -> ro_id o <> id)
     /\ foldl (λ r o, if id =? ro_id o then o else r) d l = d.
Proof.
  revert d. induction l as [|a l IH]; intros d; cbn [foldl].
  { right. split; [|done]. by intros o ?%not_elem_of_nil. }
  destruct (IH (if id =? ro_id a then a else d)) as [(o & Ho & Hid & E)|[Hno E]].
  - left. exists o. split; [by right|done].
  - rewrite E. destruct (Z.eqb_spec id (ro_id a)) as [->|Hne].
    + left. exists a. by split; [left|].
    + right. split; [|done]. intros o [->|Ho]%elem_of_cons; [congruence|auto].
Qed.
End chosen.

(** ** Reading *)

Lemma ld_le_Some n m p : is_Some (ld_le n m p) <-> 0 <= p /\ p + Z.of_nat n <= Zlen m.
Proof.
  unfold ld_le. destruct (ld_bytes m p (Z.of_nat n)) as [bs|] eqn:E; cbn [mbind option_bind].
  - apply (mk_is_Some _ _), ld_bytes_Some in E. split; [lia|by eexists].
  - split; [by intros [? ?]|]. intros H.
    destruct (proj2 (ld_bytes_Some m p (Z.of_nat n))) as [? ?]; [lia|congruence].
Qed.

(** The last byte of a track that is read is the second of its threat level. *)
Lemma radar_point_Some pack p i : 0 <= p + i * 90 ->
  is_Some (radar_point pack p i) <-> p + i * 90 + 84 <= Zlen pack.
Proof.
  intros Hp. unfold radar_point.
  assert (sizeof alink_track_tracked_item = 90) as -> by reflexivity.
  repeat match goal with
  | |- context [offsetof alink_track_tracked_item ?n] =>
      let v := eval vm_compute in (offsetof alink_track_tracked_item n) in
      change (offsetof alink_track_tracked_item n) with v
  end.
  split.
  - intros [o Ho]. repeat (let H := fresh in
      apply bind_Some in Ho as (? & H & Ho); apply (mk_is_Some _ _), ld_le_Some in H).
    lia.
  - intros Hl.
    repeat match goal with
    | |- context [ld_le ?n pack ?q] =>
        let v := fresh "v" in let E := fresh "E" in
        destruct (ld_le n pack q) as [v|] eqn:E;
          [clear E; cbn [mbind option_bind]
          |exfalso; destruct (proj2 (ld_le_Some n pack q)); [lia|congruence]]
    end.
    by eexists.
Qed.

Lemma radar_read_Some pack l n :
  ld_le 1 pack (radar_track_at "trackObjNum") = Some n -> 0 <= n ->
  is_Some (radar_read pack l) <-> n <= 0 \/ 9 + (n - 1) * 90 + 84 <= Zlen pack.
Proof.
  intros Hn H0. unfold radar_read. rewrite Hn. cbn [mbind option_bind].
  assert (Hm : is_Some (mapM (radar_point pack (radar_track_at "trackPoint")) (seqZ 0 n))
               <-> n <= 0 \/ 9 + (n - 1) * 90 + 84 <= Zlen pack).
  { rewrite mapM_is_Some, Forall_forall.
    assert (Hi : forall i, i ∈ seqZ 0 n <-> 0 <= i < n) by (intros i; rewrite elem_of_seqZ; lia).
    change (radar_track_at "trackPoint") with 9. split.
    - intros Ha. destruct (decide (n <= 0)); [by left|right].
      apply radar_point_Some; [lia|]. apply Ha, Hi. lia.
    - intros Hl i Hr%Hi. apply radar_point_Some; lia. }
  rewrite <-Hm. destruct (mapM _ _); cbn [mbind option_bind].
  - split; intros _; by eexists.
  - by split; intros [? ?].
Qed.

(** Without an id to keep. *)
Lemma radar_2ptz_danger sort `{!SortsBy radar_compare sort} objs d ptz_id g r o g' :
  ptz_id < 0 -> radar_2ptz sort objs d ptz_id g = (r, o, g') ->
  r = 0 /\ filter useful objs = [] \/ 0 < r /\ most_dangerous objs o.
Proof.
  intros Hid H. unfold radar_2ptz, most_dangerous in *. cbv zeta in H.
  remember (filter useful objs) as l eqn:El. clear El objs.
  destruct l as [|a [|b t]].
  - injection H as <- <- <-. by left.
  - injection H as <- <- <-. right. split; [lia|]. split; [by left|].
    intros o' ->%list_elem_of_singleton. lia.
  - remember (a :: b :: t) as l eqn:El. injection H as <- <- <-. right. split; [lia|].
    destruct (Z.ltb_spec (-1) ptz_id); [lia|].
    destruct (sort_head_Some sort l) as [h Hh]; [by rewrite El|].
    rewrite Hh. cbn [default]. exact (sort_head sort l h Hh).
Qed.

(** The designated track is followed, if exactly one useful track has its number. *)
Lemma radar_2ptz_id sort `{!SortsBy radar_compare sort} objs d g o :
  0 <= ro_id o -> o ∈ filter useful objs ->
  (forall o', o' ∈ filter useful objs -> ro_id o' = ro_id o -> o' = o) ->
  exists r, 0 < r /\ radar_2ptz sort objs d (ro_id o) g = (r, o, g).
Proof.
  intros H0 Ho Hu. unfold radar_2ptz. cbv zeta.
  remember (filter useful objs) as l eqn:El. clear El objs.
  destruct l as [|a [|b t]]; [by apply elem_of_nil in Ho| |].
  - apply list_elem_of_singleton in Ho as ->. exists 1. split; [lia|]. by rewrite Z.eqb_refl.
  - remember (a :: b :: t) as l eqn:El. exists 2. split; [lia|].
    destruct (Z.ltb_spec (-1) (ro_id o)) as [_|]; [|lia].
    destruct (pick_id (sort l) d (ro_id o)) as [(c & Hc & Hi & ->)|[Hno _]].
    + rewrite (sort_perm l) in Hc. rewrite (Hu c Hc Hi). by rewrite Z.eqb_refl.
    + exfalso. apply (Hno o); [by rewrite (sort_perm l)|done].
Qed.

Lemma radar_read_ok pack l n :
  Zlen pack = sizeof_radar_track -> ld_le 1 pack (radar_track_at "trackObjNum") = Some n ->
  0 <= n <= ALINK_TARGET_MAX -> exists objs, radar_read pack l = Some (0, objs).
Proof.
  intros Hl Hn Hm. change sizeof_radar_track with 11574 in Hl. unfold ALINK_TARGET_MAX in Hm.
  destruct (proj2 (radar_read_Some pack l n Hn ltac:(lia))) as [[r objs] E]; [lia|].
  exists objs. rewrite E. unfold radar_read in E. repeat (apply bind_Some in E as (? & _ & E)).
  congruence.
Qed.

(** ** Properties *)

(** Reading the tracks of a radar package. Of the 256 values the count of a received
    package can have, exactly those up to 128, the size of the array, are read inside the
    package; the code does not look. Then every track is appended, in the order of the
    package. *)
Lemma radar_read_safe_iff pack l n :
  Zlen pack = sizeof_radar_track -> bytes_ok pack ->
  ld_le 1 pack (radar_track_at "trackObjNum") = Some n ->
  (is_Some (radar_read pack l) <-> n <= ALINK_TARGET_MAX)
  /\ forall r l', radar_read pack l = Some (r, l') ->
       exists objs, r = 0 /\ l' = l ++ objs /\ Zlen objs = n
         /\ forall i : nat, Z.of_nat i < n ->
              objs !! i = radar_point pack (radar_track_at "trackPoint") (Z.of_nat i).
Proof.
  intros Hl Hb Hn. assert (H0 : 0 <= n).
  { unfold ld_le in Hn. apply bind_Some in Hn as (bs & Hbs & [= <-]).
    apply ld_bytes_ok in Hbs; [|done]. apply le_val_range in Hbs. lia. }
  split.
  - rewrite (radar_read_Some _ _ n) by done.
    change sizeof_radar_track with 11574 in Hl. unfold ALINK_TARGET_MAX. lia.
  - intros r l' Hr. unfold radar_read in Hr. rewrite Hn in Hr. cbn [mbind option_bind] in Hr.
    apply bind_Some in Hr as (objs & Ho & [= <- <-]). exists objs. repeat split.
    + apply length_mapM in Ho. unfold Zlen. rewrite <-Ho, length_seqZ. lia.
    + intros i Hi. apply mapM_Some in Ho.
      destruct (Forall2_lookup_l _ _ _ i (0 + Z.of_nat i) Ho) as (o & Ho1 & Ho2).
      { apply lookup_seqZ. lia. }
      by rewrite Ho1, <-Ho2.
Qed.

(** C24: choosing the track to follow. The answer is 0, 1 or 2 for no, one or more useful
    tracks (of the state 1 and seen at least ten times). Without an id to keep
    (a negative one), the track that is chosen is among the most dangerous of them. With
    an id, and with two tracks or more, it is the one of that id; when there is none of
    that id the answer is still 2, and the caller's object is left as it was. The id being
    followed is forgotten unless the chosen track has the id that was asked for. *)
Theorem radar_2ptz_chooses sort `{!SortsBy radar_compare sort} objs d ptz_id g r o g' :
  radar_2ptz sort objs d ptz_id g = (r, o, g') ->
  let l := filter useful objs in
  r = Z.min 2 (Zlen l)
  /\ (r = 0 -> o = d /\ g' = -1)
  /\ (0 < r -> g' = if ro_id o =? ptz_id then g else -1)
  /\ (0 < r -> ptz_id < 0 -> most_dangerous objs o)
  /\ (r = 1 -> l = [o])
  /\ (r = 2 -> 0 <= ptz_id ->
        o ∈ l /\ ro_id o = ptz_id \/ (forall o', o' ∈ l -> ro_id o' <> ptz_id) /\ o = d).
Proof.
  intros H. pose proof (λ Hid, radar_2ptz_danger sort _ _ _ _ _ _ _ Hid H) as Hd.
  assert (Hdanger : 0 < r -> ptz_id < 0 -> most_dangerous objs o).
  { intros Hr Hid. by destruct (Hd Hid) as [[-> _]|[_ ?]]. }
  revert H Hdanger. clear Hd. generalize (most_dangerous objs o) as D. unfold radar_2ptz. cbv zeta.
  remember (filter useful objs) as l eqn:El. clear El objs. intros D H Hdanger.
  destruct l as [|a [|b t]]; [| |remember (a :: b :: t) as l eqn:El]; injection H as <- <- <-.
  - by repeat split; try lia.
  - repeat split; try done; try lia. intros _. by destruct (ro_id a =? ptz_id).
  - assert (Hlen : 2 <= Zlen l) by (rewrite El; unfold Zlen; cbn [length]; lia).
    repeat split_and; try lia; try done; [intros _; by destruct (_ =? ptz_id)|].
    intros _ Hid. destruct (Z.ltb_spec (-1) ptz_id); [|lia].
    destruct (pick_id (sort l) d ptz_id) as [(c & Hc & Hi & ->)|[Hno ->]].
    + left. split; [|done]. by rewrite <-(sort_perm l).
    + right. split; [|done]. intros o' Ho. apply Hno. by rewrite (sort_perm l).
Qed.

(** ** Witnesses *)

Definition threat_le (a b : RadarObj) : Prop := ro_threatLevel a <= ro_threatLevel b.

#[export] Instance threat_le_dec : RelDecision threat_le.
Proof. intros a b. unfold threat_le. apply _. Defined.
#[export] Instance threat_le_trans : Transitive threat_le.
Proof. unfold threat_le. intros a b c. lia. Qed.
#[export] Instance threat_le_total : Total threat_le.
Proof. unfold threat_le. intros a b. lia. Qed.

#[export] Instance merge_sort_sorts : SortsBy radar_compare (merge_sort threat_le).
Proof.
  split; intros l; [apply merge_sort_Permutation|].
  induction (StronglySorted_merge_sort threat_le l) as [|a r _ IH Hall]; constructor; [done|].
  eapply Forall_impl; [exact Hall|]. unfold threat_le, radar_compare. intros b. lia.
Qed.

Definition demo_obj (id alive threat : Z) : RadarObj :=
  {| ro_id := id; ro_alive := alive; ro_stateType := 1; ro_threatLevel := threat;
     ro_azimuth := d_of_Z (-10); ro_elevation := d_of_Z 5; ro_range := 250;
     ro_x := d_of_Z 30; ro_y := d_of_Z 40; ro_z := d_of_Z 40 |}.
Definition demo_objs : list RadarObj := [demo_obj 3 20 5; demo_obj 5 9 1; demo_obj 7 12 2].

Lemma radar_2ptz_chooses_witness :
  radar_2ptz (merge_sort threat_le) demo_objs no_radar_obj (-1) 4
    = (2, demo_obj 7 12 2, -1)
  /\ most_dangerous demo_objs (demo_obj 7 12 2).
Proof.
  assert (E : radar_2ptz (merge_sort threat_le) demo_objs no_radar_obj (-1) 4
    = (2, demo_obj 7 12 2, -1)) by (vm_compute; reflexivity).
  split; [exact E|].
  destruct (radar_2ptz_chooses (merge_sort threat_le) demo_objs no_radar_obj (-1) 4 2
    (demo_obj 7 12 2) (-1) E) as (_ & _ & _ & H & _).
  apply H; lia.
Defined.

Definition demo_radar_pack (n : Z) : list Z := [0; 0; 0; 0; 0; n] ++ replicate (Z.to_nat 11568) 0.

Lemma demo_radar_pack_ok n : is_byte n -> bytes_ok (demo_radar_pack n).
Proof.
  intros Hn. unfold demo_radar_pack. apply Forall_app. split; [|by apply Forall_replicate].
  repeat constructor; unfold is_byte in *; lia.
Qed.

Lemma radar_read_safe_iff_witness :
  is_Some (radar_read (demo_radar_pack 128) []) /\ ~ is_Some (radar_read (demo_radar_pack 129) []).
Proof.
  split.
  - apply (radar_read_safe_iff (demo_radar_pack 128) [] 128);
      [vm_compute; reflexivity|apply demo_radar_pack_ok; unfold is_byte; lia
      |vm_compute; reflexivity|unfold ALINK_TARGET_MAX; lia].
  - intros H. apply (radar_read_safe_iff (demo_radar_pack 129) [] 129) in H;
      [unfold ALINK_TARGET_MAX in H; lia|vm_compute; reflexivity
      |apply demo_radar_pack_ok; unfold is_byte; lia|vm_compute; reflexivity].
Defined.
