(* ===== verification/TargetList.v ===== *)
(** * The targets that wait for the algorithms ([src/app/alg_app/alg_app.cpp])

    The task of the algorithms puts a copy of every package into a list of at most four
    nodes, of which the oldest is dropped, and the user's target into a place of its own;
    the thread that runs the algorithm takes one target at a time, the user's first.  The
    nodes and the packages are blocks of the heap; an access to a block that is not live is
    [None]. *)

From S2P Require Import Prelude Linked Layout AlinkTrack.
Local Open Scope list_scope.
Local Open Scope Z_scope.

Definition TARGET_NODE_MAX_NUMBER : Z := 3.

Definition RET_VALUE_PARAMETER_NULL : Z := -1.
Definition RET_VALUE_FUNCTION_CALL_FAIL : Z := -2.
Definition RET_VALUE_INVALID_PARM : Z := -4.

(** ** Data *)

Record target_pack_info := {
  ti_data_dev_type : Z; ti_target_pack : list Z; ti_pack_len : Z
}.

(** A node of the list; the package is a block of its own. *)
Record targets := {
  tg_data_dev_type : Z; tg_target_pack : option nat; tg_pack_len : Z; tg_next : option nat
}.

Definition tg_set_next (p : option nat) (n : targets) : targets :=
  {| tg_data_dev_type := tg_data_dev_type n; tg_target_pack := tg_target_pack n;
     tg_pack_len := tg_pack_len n; tg_next := p |}.

#[export] Instance targets_linked : Linked targets.
Proof. by refine {| ln_next := tg_next; ln_set_next := tg_set_next |}. Defined.

(** [alg_t], with the blocks of the heap it owns. *)
Record alg_app_res := {
  aa_head : option nat; aa_user_target : option nat; aa_targets_num : Z;
  aa_nodes : gmap nat targets; aa_packs : gmap nat (list Z)
}.

Definition aa_set_head (p : option nat) (n : Z) (s : alg_app_res) : alg_app_res :=
  {| aa_head := p; aa_user_target := aa_user_target s; aa_targets_num := n;
     aa_nodes := aa_nodes s; aa_packs := aa_packs s |}.
Definition aa_set_user (p : option nat) (s : alg_app_res) : alg_app_res :=
  {| aa_head := aa_head s; aa_user_target := p; aa_targets_num := aa_targets_num s;
     aa_nodes := aa_nodes s; aa_packs := aa_packs s |}.
Definition aa_set_heap (N : gmap nat targets) (P : gmap nat (list Z)) (s : alg_app_res)
  : alg_app_res :=
  {| aa_head := aa_head s; aa_user_target := aa_user_target s;
     aa_targets_num := aa_targets_num s; aa_nodes := N; aa_packs := P |}.

(** As [alg_init] leaves it. *)
Definition alg_t_init : alg_app_res :=
  {| aa_head := None; aa_user_target := None; aa_targets_num := 0; aa_nodes := ∅; aa_packs := ∅ |}.

(** What the two calls of [malloc] return. *)
Record target_alloc := { ta_node : option nat; ta_pack : option nat }.

(** ** The code *)

(** [skyfend_free( node )]: freeing a block that is not live is undefined. *)
Definition free_node (a : nat) (s : alg_app_res) : option alg_app_res :=
  _ ← aa_nodes s !! a; Some (aa_set_heap (delete a (aa_nodes s)) (aa_packs s) s).

Definition free_pack (p : nat) (s : alg_app_res) : option alg_app_res :=
  _ ← aa_packs s !! p; Some (aa_set_heap (aa_nodes s) (delete p (aa_packs s)) s).

(** A node with its package. *)
Definition target_node_destory (s : alg_app_res) (node : option nat) : option (Z * alg_app_res) :=
  match node with
  | Some a =>
      n ← aa_nodes s !! a;
      s ← match tg_target_pack n with Some p => free_pack p s | None => Some s end;
      s ← free_node a s;
      Some (0, s)
  | None => Some (0, s)
  end.

(** [while(tmp->next) tmp = tmp->next;] *)
Fixpoint tail_walk (fuel : nat) (h : gmap nat targets) (tmp : nat) : option nat :=
  match fuel with
  | O => None
  | S fuel' =>
      n ← h !! tmp;
      match tg_next n with
      | None => Some tmp
      | Some next => tail_walk fuel' h next
      end
  end.

(** The devices' part of the insertion. *)
Definition insert_device (s : alg_app_res) (node : nat) : option (Z * alg_app_res) :=
  match aa_head s with
  | None => Some (0, aa_set_head (Some node) (aa_targets_num s + 1) s)
  | Some tmp =>
      s ← if TARGET_NODE_MAX_NUMBER <? aa_targets_num s then
            n ← aa_nodes s !! tmp;
            let s := aa_set_head (tg_next n) (aa_targets_num s) s in
            '(_, s) ← target_node_destory s (Some tmp);
            Some (aa_set_head (aa_head s) (aa_targets_num s - 1) s)
          else Some s;
      tmp ← aa_head s;
      tmp ← tail_walk (size (aa_nodes s)) (aa_nodes s) tmp;
      n ← aa_nodes s !! tmp;
      let s := aa_set_heap (<[tmp := tg_set_next (Some node) n]> (aa_nodes s)) (aa_packs s) s in
      Some (0, aa_set_head (aa_head s) (aa_targets_num s + 1) s)
  end.

(** [lock] is what [pthread_mutex_lock] returns. *)
Definition insert_target_to_head (s : alg_app_res) (pack : option target_pack_info) (lock : Z)
    (al : target_alloc) : option (Z * alg_app_res) :=
  if negb (lock =? 0) then Some (RET_VALUE_FUNCTION_CALL_FAIL, s) else
  match pack with
  | None => Some (RET_VALUE_INVALID_PARM, s)
  | Some pack =>
      if ti_pack_len pack <=? 0 then Some (RET_VALUE_INVALID_PARM, s) else
      match ta_node al, ta_pack al with
      | None, _ => Some (RET_VALUE_PARAMETER_NULL, s)
      | Some _, None => Some (RET_VALUE_PARAMETER_NULL, s)
      | Some node, Some p =>
          bs ← ld_bytes (ti_target_pack pack) 0 (ti_pack_len pack);
          let n := {| tg_data_dev_type := ti_data_dev_type pack; tg_target_pack := Some p;
                      tg_pack_len := ti_pack_len pack; tg_next := None |} in
          let s := aa_set_heap (<[node := n]> (aa_nodes s)) (<[p := bs]> (aa_packs s)) s in
          if ti_data_dev_type pack =? TRACK_INFO_FROM_USER then
            s ← match aa_user_target s with Some u => free_node u s | None => Some s end;
            Some (0, aa_set_user (Some node) s)
          else insert_device s node
      end
  end.

(** The node is off the list and still live. *)
Definition get_and_rm_one_target (s : alg_app_res) (lock : Z)
  : option (option nat * alg_app_res) :=
  if negb (lock =? 0) then Some (None, s) else
  match aa_user_target s with
  | Some node => Some (Some node, aa_set_user None s)
  | None =>
      match aa_head s with
      | None => Some (None, s)
      | Some node =>
          n ← aa_nodes s !! node;
          let s := aa_set_head (tg_next n) (aa_targets_num s - 1) s in
          Some (Some node,
                aa_set_heap (<[node := tg_set_next None n]> (aa_nodes s)) (aa_packs s) s)
      end
  end.

Fixpoint free_all (fuel : nat) (s : alg_app_res) (node : option nat) : option alg_app_res :=
  match node with
  | None => Some s
  | Some a =>
      match fuel with
      | O => None
      | S fuel' =>
          n ← aa_nodes s !! a;
          '(_, s) ← target_node_destory s (Some a);
          free_all fuel' s (tg_next n)
      end
  end.

Definition remove_all_targets (s : alg_app_res) : option (Z * alg_app_res) :=
  match aa_head s with
  | None => Some (0, s)
  | Some _ =>
      s ← free_all (size (aa_nodes s)) s (aa_head s);
      Some (0, aa_set_head None 0 s)
  end.

(** [arg] points to the size; the package starts with the kind of its sender. *)
Definition algs_handle_multiple_targets (s : alg_app_res) (pack : list Z) (arg : Z) (lock : Z)
    (al : target_alloc) : option (Z * alg_app_res) :=
  let pack_size := i32 arg in
  if pack_size <=? 0 then Some (-1, s) else
  data_dev_type ← ld_le 4 pack 0;
  insert_target_to_head s (Some {| ti_data_dev_type := i32 data_dev_type;
    ti_target_pack := pack; ti_pack_len := pack_size |}) lock al.

(** ** What is promised: a bounded queue behind the user's target *)

(** A target: its kind and the bytes of its package. *)
Abbreviation tgt := (Z * list Z)%type.

Record target_queue := {
  tq_user : option tgt; tq_devs : list tgt;
  tq_held : option tgt;     (* what the algorithm's thread works on *)
  tq_leaked : nat           (* packages that nothing points to any more *)
}.

Definition tq_init : target_queue :=
  {| tq_user := None; tq_devs := []; tq_held := None; tq_leaked := 0 |}.

(** A user's target replaces the one before; a fifth device target pushes the first out. *)
Definition tq_insert (t : tgt) (q : target_queue) : target_queue :=
  if t.1 =? TRACK_INFO_FROM_USER then
    {| tq_user := Some t; tq_devs := tq_devs q; tq_held := tq_held q;
       tq_leaked := tq_leaked q + length (option_list (tq_user q)) |}
  else
    {| tq_user := tq_user q;
       tq_devs := drop (length (tq_devs q) - Z.to_nat TARGET_NODE_MAX_NUMBER) (tq_devs q) ++ [t];
       tq_held := tq_held q; tq_leaked := tq_leaked q |}.

Definition tq_take (q : target_queue) : target_queue :=
  match tq_user q, tq_devs q with
  | Some t, v =>
      {| tq_user := None; tq_devs := v; tq_held := Some t; tq_leaked := tq_leaked q |}
  | None, t :: v =>
      {| tq_user := None; tq_devs := v; tq_held := Some t; tq_leaked := tq_leaked q |}
  | None, [] => q
  end.

Definition tq_release (q : target_queue) : target_queue :=
  {| tq_user := tq_user q; tq_devs := tq_devs q; tq_held := None; tq_leaked := tq_leaked q |}.

Definition tq_clear (q : target_queue) : target_queue :=
  {| tq_user := tq_user q; tq_devs := []; tq_held := tq_held q; tq_leaked := tq_leaked q |}.

(** ** The heap

    A live node is its address, the address of its package and the target it holds. *)

Abbreviation entry := (nat * nat * tgt)%type.
Abbreviation e_node := (λ e : entry, e.1.1).
Abbreviation e_pack := (λ e : entry, e.1.2).

Definition entry_ok (N : gmap nat targets) (P : gmap nat (list Z)) (e : entry) : Prop :=
  exists n, N !! e_node e = Some n /\ tg_target_pack n = Some (e_pack e)
    /\ tg_data_dev_type n = e.2.1 /\ tg_pack_len n = Zlen e.2.2
    /\ P !! e_pack e = Some e.2.2.

(** The heap holds the nodes [E] and nothing else, and [k] packages without a node. *)
Record live (N : gmap nat targets) (P : gmap nat (list Z)) (E : list entry) (k : nat) : Prop := {
  lv_ok : Forall (entry_ok N P) E;
  lv_nodes : NoDup (e_node <$> E); lv_packs : NoDup (e_pack <$> E);
  lv_size : size N = length E; lv_psize : size P = (length E + k)%nat
}.

#[export] Instance live_perm N P : Proper ((≡ₚ) ==> (=) ==> iff) (live N P).
Proof.
  intros E E' HE k _ <-. split; intros [H1 H2 H3 H4 H5]; split;
    first [by rewrite HE in *|by rewrite <-HE in *|by rewrite HE|by rewrite <-HE].
Qed.

Lemma live_eq N P E E' k : E ≡ₚ E' -> live N P E k -> live N P E' k.
Proof. by intros ->. Qed.

Lemma live_fresh N P E k a : live N P E k -> N !! a = None -> a ∉ (e_node <$> E).
Proof.
  intros H Ha (e & -> & He)%list_elem_of_fmap. pose proof (lv_ok _ _ _ _ H) as Hok.
  rewrite Forall_forall in Hok. destruct (Hok _ He) as (n & Hn & _). congruence.
Qed.

Lemma live_fresh_pack N P E k p : live N P E k -> P !! p = None -> p ∉ (e_pack <$> E).
Proof.
  intros H Hp (e & -> & He)%list_elem_of_fmap. pose proof (lv_ok _ _ _ _ H) as Hok.
  rewrite Forall_forall in Hok. destruct (Hok _ He) as (n & _ & _ & _ & _ & Hn). congruence.
Qed.

Lemma entry_ok_ext N N' P P' e :
  N' !! e_node e = N !! e_node e -> P' !! e_pack e = P !! e_pack e ->
  entry_ok N P e -> entry_ok N' P' e.
Proof. intros HN HP (n & H). exists n. by rewrite HN, HP. Qed.

Lemma live_alloc N P E k a p n t :
  live N P E k -> N !! a = None -> P !! p = None ->
  tg_target_pack n = Some p -> tg_data_dev_type n = t.1 -> tg_pack_len n = Zlen t.2 ->
  live (<[a := n]> N) (<[p := t.2]> P) ((a, p, t) :: E) k.
Proof.
  intros H Ha Hp H1 H2 H3. pose proof (live_fresh _ _ _ _ _ H Ha) as Hna.
  pose proof (live_fresh_pack _ _ _ _ _ H Hp) as Hnp. destruct H as [Hok Hn Hq Hs Hz].
  split; cbn [length].
  - constructor.
    + exists n. cbn. by rewrite !lookup_insert_eq.
    + rewrite Forall_forall in *. intros e He.
      apply (entry_ok_ext N _ P); [| |by apply Hok]; rewrite lookup_insert_ne; try done;
        intros ->; [apply Hna|apply Hnp]; apply list_elem_of_fmap; by exists e.
  - rewrite fmap_cons. by constructor.
  - rewrite fmap_cons. by constructor.
  - rewrite map_size_insert_None by done. lia.
  - rewrite map_size_insert_None by done. lia.
Qed.

(** Freeing a node, and perhaps its package. *)
Lemma live_free N P E k a p t (b : bool) :
  live N P ((a, p, t) :: E) k ->
  live (delete a N) (if b then delete p P else P) E (if b then k else S k).
Proof.
  intros [Hok Hn Hq Hs Hz]. rewrite fmap_cons in Hn, Hq. cbn [length] in *.
  apply NoDup_cons in Hn as [Hna Hn], Hq as [Hnp Hq]. apply Forall_cons in Hok as [He Hok].
  destruct He as (n & Hn0 & _ & _ & _ & Hp0). cbn in *.
  split; [|done|done| |].
  - rewrite Forall_forall in *. intros e He.
    apply (entry_ok_ext N _ P); [| |by apply Hok].
    + rewrite lookup_delete_ne; [done|]. intros ->. apply Hna, list_elem_of_fmap. by exists e.
    + destruct b; [|done]. rewrite lookup_delete_ne; [done|].
      intros ->. apply Hnp, list_elem_of_fmap. by exists e.
  - rewrite map_size_delete, Hn0, Hs. cbn. lia.
  - destruct b; [|lia]. rewrite map_size_delete, Hp0, Hz. cbn. lia.
Qed.

(** Changing a link. *)
Lemma live_link N P E k a n q :
  N !! a = Some n -> live N P E k -> live (<[a := tg_set_next q n]> N) P E k.
Proof.
  intros Ha [Hok Hn Hq Hs Hz]. split; try done.
  - rewrite Forall_forall in *. intros e He. destruct (Hok _ He) as (m & Hm & H).
    destruct (decide (e_node e = a)) as [Ea|Ea].
    + exists (tg_set_next q n). rewrite Ea, lookup_insert_eq. split; [done|].
      rewrite Ea, Ha in Hm. injection Hm as ->. exact H.
    + exists m. by rewrite lookup_insert_ne.
  - by rewrite map_size_insert_Some by (by eexists).
Qed.

(** ** The operations do what is promised *)

(** The state [s] and the target the thread works on represent [q]; the nodes [X] are
    allocated and not linked yet. *)
Record rep_at (s : alg_app_res) (held : option nat) (q : target_queue)
    (dl ul hl X : list entry) : Prop := {
  ra_list : is_list (aa_nodes s) (aa_head s) (e_node <$> dl);
  ra_live : live (aa_nodes s) (aa_packs s) (dl ++ ul ++ hl ++ X) (tq_leaked q);
  ra_num : aa_targets_num s = Zlen dl; ra_len : (length dl <= 4)%nat;
  ra_devs : dl.*2 = tq_devs q;
  ra_user : e_node <$> ul = option_list (aa_user_target s);
  ra_user2 : ul.*2 = option_list (tq_user q);
  ra_held : e_node <$> hl = option_list held; ra_held2 : hl.*2 = option_list (tq_held q)
}.

Definition target_rep (s : alg_app_res) (held : option nat) (q : target_queue) : Prop :=
  exists dl ul hl, rep_at s held q dl ul hl [].

Definition tq_set_devs (v : list tgt) (q : target_queue) : target_queue :=
  {| tq_user := tq_user q; tq_devs := v; tq_held := tq_held q; tq_leaked := tq_leaked q |}.

Lemma destory_live s a p t E k :
  live (aa_nodes s) (aa_packs s) ((a, p, t) :: E) k ->
  target_node_destory s (Some a)
  = Some (0, aa_set_heap (delete a (aa_nodes s)) (delete p (aa_packs s)) s).
Proof.
  intros [Hok _ _ _ _]. apply Forall_cons in Hok as [(n & Hn & Hp & _ & _ & Hb) _]. cbn in *.
  unfold target_node_destory. rewrite Hn. cbn [mbind option_bind]. rewrite Hp.
  unfold free_pack, free_node. rewrite Hb. cbn. rewrite Hn. done.
Qed.

Lemma tail_walk_last fuel h a l :
  is_list h (Some a) l -> (length l <= fuel)%nat -> tail_walk fuel h a = last l.
Proof.
  revert fuel a. induction l as [|b l IH]; intros fuel a Hl Hf; [done|].
  destruct Hl as ([= <-] & n & Hn & Hl). destruct fuel as [|fuel]; [cbn in Hf; lia|].
  cbn [tail_walk]. rewrite Hn. cbn [mbind option_bind ln_next targets_linked] in *.
  destruct (tg_next n) as [c|] eqn:Ec.
  - rewrite (IH fuel c); [|done|cbn in Hf; lia]. destruct l; [|done].
    discriminate Hl.
  - destruct l; [done|]. by destruct Hl.
Qed.

(** Appending the node that was just allocated. *)
Lemma append_device s dl rest k a p t n :
  live (aa_nodes s) (aa_packs s) ((a, p, t) :: dl ++ rest) k ->
  is_list (aa_nodes s) (aa_head s) (e_node <$> dl) -> dl <> [] ->
  aa_nodes s !! a = Some n -> tg_next n = None ->
  exists h tmp m, aa_head s = Some h
    /\ tail_walk (size (aa_nodes s)) (aa_nodes s) h = Some tmp /\ aa_nodes s !! tmp = Some m
    /\ live (<[tmp := tg_set_next (Some a) m]> (aa_nodes s)) (aa_packs s)
         ((dl ++ [(a, p, t)]) ++ rest) k
    /\ is_list (<[tmp := tg_set_next (Some a) m]> (aa_nodes s)) (aa_head s)
         (e_node <$> dl ++ [(a, p, t)]).
Proof.
  intros Hlive Hl Hne Ha Hn. pose proof (lv_nodes _ _ _ _ Hlive) as Hnd.
  rewrite fmap_cons in Hnd. apply NoDup_cons in Hnd as [Hna _].
  assert (Hal : a ∉ (e_node <$> dl)) by (rewrite fmap_app in Hna; set_solver).
  destruct dl as [|e dl _] using rev_ind; [done|]. rewrite fmap_app in *. cbn [fmap list_fmap] in *.
  destruct (aa_head s) as [h|] eqn:Eh.
  2:{ exfalso. destruct (e_node <$> dl); by destruct Hl. }
  pose proof (is_list_size _ _ _ Hl) as Hsz.
  assert (is_Some (aa_nodes s !! e_node e)) as [m Hm].
  { eapply lseg_dom; [exact Hl|]. set_solver. }
  exists h, (e_node e), m. split; [done|]. split.
  { rewrite (tail_walk_last _ _ _ _ Hl Hsz). by rewrite last_snoc. }
  split; [done|]. split.
  - apply live_link; [done|]. rewrite <-(app_assoc _ [_] rest). cbn [app].
    by rewrite <-Permutation_middle.
  - rewrite !fmap_app. cbn [fmap list_fmap].
    pose proof (is_list_NoDup _ _ _ Hl) as (_ & Hd & _)%NoDup_app.
    assert (He : e_node e ∉ (e_node <$> dl)) by (intros H; apply (Hd _ H); by left).
    unfold is_list in *. apply lseg_app in Hl as (r & H1 & H2). destruct H2 as (-> & _).
    rewrite <-app_assoc. apply lseg_app. exists (Some (e_node e)). split.
    + by apply lseg_insert_ne.
    + cbn [app lseg ln_next targets_linked]. split; [done|]. eexists. rewrite lookup_insert_eq.
      split; [done|]. split; [done|]. exists n. rewrite lookup_insert_ne by set_solver. done.
Qed.

(** Taking the first node off the list and freeing it. *)
Lemma drop_front N P head e dl rest k :
  live N P ((e :: dl) ++ rest) k -> is_list N head (e_node <$> e :: dl) ->
  head = Some (e_node e) /\ exists n, N !! e_node e = Some n
    /\ is_list (delete (e_node e) N) (tg_next n) (e_node <$> dl)
    /\ live (delete (e_node e) N) (delete (e_pack e) P) (dl ++ rest) k.
Proof.
  intros Hlive Hl. pose proof (is_list_NoDup _ _ _ Hl) as Hnd.
  rewrite fmap_cons in Hl, Hnd. apply NoDup_cons in Hnd as [Hne _].
  destruct Hl as (-> & n & Hn & Hl). split; [done|]. exists n. split; [done|]. split.
  - by apply is_list_delete.
  - destruct e as [[a p] t]. exact (live_free _ _ _ _ _ _ _ true Hlive).
Qed.

Lemma drop_rep s held q e dl ul hl X :
  rep_at s held q (e :: dl) ul hl X ->
  aa_head s = Some (e_node e) /\ exists n s',
    aa_nodes s !! e_node e = Some n
    /\ target_node_destory (aa_set_head (tg_next n) (aa_targets_num s) s) (Some (e_node e))
       = Some (0, s')
    /\ aa_nodes s' = delete (e_node e) (aa_nodes s)
    /\ rep_at (aa_set_head (aa_head s') (aa_targets_num s' - 1) s') held
         (tq_set_devs (tail (tq_devs q)) q) dl ul hl X.
Proof.
  intros [Hl Hlive Hnum Hlen Hd]. destruct (drop_front _ _ _ _ _ _ _ Hlive Hl) as (Hh & n & Hn & Hl' & Hlive').
  split; [done|]. exists n. destruct e as [[a p] t].
  eexists. split; [done|]. split; [by eapply destory_live|]. split; [done|].
  rewrite <-Hd. split; cbn in *; try done; [|lia].
  rewrite Hnum. unfold Zlen. cbn [length]. lia.
Qed.

Lemma append_rep s held q dl ul hl a p t n :
  rep_at s held q dl ul hl [(a, p, t)] -> dl <> [] -> (length dl <= 3)%nat ->
  aa_nodes s !! a = Some n -> tg_next n = None ->
  exists h tmp m, aa_head s = Some h
    /\ tail_walk (size (aa_nodes s)) (aa_nodes s) h = Some tmp /\ aa_nodes s !! tmp = Some m
    /\ target_rep (aa_set_head (aa_head s) (aa_targets_num s + 1)
         (aa_set_heap (<[tmp := tg_set_next (Some a) m]> (aa_nodes s)) (aa_packs s) s))
         held (tq_set_devs (tq_devs q ++ [t]) q).
Proof.
  intros [Hl Hlive Hnum Hlen Hd] Hne H3 Ha Hn.
  destruct (append_device s dl (ul ++ hl) (tq_leaked q) a p t n) as (h & tmp & m & H1 & H2 & Hm & Hv & Hl');
    try done.
  { eapply live_eq; [|exact Hlive]. solve_Permutation. }
  exists h, tmp, m. repeat split_and; try done. exists (dl ++ [(a, p, t)]), ul, hl.
  split; cbn; try done.
  - by rewrite app_nil_r.
  - rewrite Hnum, Zlen_app. done.
  - rewrite length_app. cbn. lia.
  - by rewrite fmap_app, Hd.
Qed.

Section insert.
Context (s : alg_app_res) (held : option nat) (q : target_queue) (dl ul hl : list entry).
Context (a p : nat) (t : tgt) (n : targets).
Hypothesis (Hrep : rep_at s held q dl ul hl [(a, p, t)]).
Hypothesis (Ha : aa_nodes s !! a = Some n) (Hn : tg_next n = None).

Lemma insert_user_rep : (t.1 =? TRACK_INFO_FROM_USER) = true ->
  exists s', match aa_user_target s with Some u => free_node u s | None => Some s end = Some s'
    /\ target_rep (aa_set_user (Some a) s') held (tq_insert t q).
Proof.
  intros Ht. destruct Hrep as [Hl Hlive Hnum Hlen Hd Hu1 Hu2].
  unfold tq_insert. rewrite Ht, <-Hu2.
  destruct (aa_user_target s) as [u|] eqn:Eu; cbn [option_list] in Hu1.
  - destruct ul as [|[[u' pu] tu] [|]]; try discriminate Hu1. injection Hu1 as ->.
    assert (Hlive' : live (aa_nodes s) (aa_packs s) ((u, pu, tu) :: dl ++ [(a, p, t)] ++ hl)
      (tq_leaked q)).
    { eapply live_eq; [|exact Hlive]. solve_Permutation. }
    pose proof (lv_ok _ _ _ _ Hlive') as [(m & Hm & _) _]%Forall_cons. cbn in Hm.
    pose proof (live_free _ _ _ _ _ _ _ false Hlive') as Hlive2.
    unfold free_node. rewrite Hm. cbn [mbind option_bind]. eexists. split; [done|].
    exists dl, [(a, p, t)], hl. split; cbn; try done.
    + apply is_list_delete; [|done]. pose proof (lv_nodes _ _ _ _ Hlive') as Hnd.
      rewrite fmap_cons, fmap_app in Hnd. apply NoDup_cons in Hnd as [Hnd _]. set_solver.
    + rewrite app_nil_r, Nat.add_1_r. exact Hlive2.
  - destruct ul; [|done]. eexists. split; [done|].
    exists dl, [(a, p, t)], hl. split; cbn; try done.
    rewrite Nat.add_0_r. eapply live_eq; [|exact Hlive]. solve_Permutation.
Qed.

Lemma insert_device_rep : (t.1 =? TRACK_INFO_FROM_USER) = false ->
  exists s', insert_device s a = Some (0, s') /\ target_rep s' held (tq_insert t q).
Proof.
  intros Ht. unfold tq_insert, insert_device. rewrite Ht.
  pose proof Hrep as [Hl Hlive Hnum Hlen Hd]. destruct dl as [|e0 dl'] eqn:Edl.
  - cbn in Hl. rewrite Hl, <-Hd. eexists. split; [done|]. exists [(a, p, t)], ul, hl.
    split; cbn; try done; [by split; [|exists n]| | |lia].
    + eapply live_eq; [|exact Hlive]. solve_Permutation.
    + by rewrite Hnum.
  - destruct (drop_rep _ _ _ _ _ _ _ _ Hrep) as (Hh & m & s2 & Hm & Hs2 & Hn2 & Hrep2).
    rewrite Hh. unfold TARGET_NODE_MAX_NUMBER. rewrite Hnum in *.
    assert (Hlq : length (tq_devs q) = S (length dl')) by (rewrite <-Hd; cbn; by rewrite length_fmap).
    unfold Zlen at 1. cbn [length] in *.
    destruct (Z.ltb_spec 3 (Z.of_nat (S (length dl')))) as [Hfull|Hroom].
    + rewrite Hm. cbn [mbind option_bind]. rewrite Hs2. cbn [mbind option_bind].
      destruct dl' as [|e1 dl']; [cbn in Hfull; lia|].
      destruct (append_rep _ _ _ _ _ _ a p t n Hrep2) as (h & tmp & m' & E1 & E2 & E3 & E4);
        [done|cbn in *; lia| |done|].
      { cbn. rewrite Hn2, lookup_delete_ne; [done|]. intros Ea.
        pose proof (lv_nodes _ _ _ _ Hlive) as Hnd. cbn [app] in Hnd. rewrite fmap_cons in Hnd.
        apply NoDup_cons in Hnd as [Hnd _]. apply Hnd. rewrite Ea.
        apply list_elem_of_fmap. exists (a, p, t). split; [done|].
        right. rewrite !elem_of_app. do 3 right. by left. }
      cbn [aa_head aa_nodes aa_packs aa_set_head aa_targets_num] in *. rewrite E1.
      cbn [mbind option_bind]. rewrite E2. cbn [mbind option_bind]. rewrite E3.
      eexists. split; [done|]. rewrite E1 in E4. rewrite Hlq. cbn [length] in *.
      replace (S (S (length dl')) - Z.to_nat 3)%nat with 1%nat by lia.
      destruct (tq_devs q); [done|exact E4].
    + cbn [mbind option_bind]. rewrite Hh. cbn [mbind option_bind].
      destruct (append_rep _ _ _ _ _ _ a p t n Hrep) as (h & tmp & m' & E1 & E2 & E3 & E4);
        [done|cbn; lia|done..|].
      rewrite Hh in E1. injection E1 as <-. rewrite E2. cbn [mbind option_bind]. rewrite E3.
      eexists. split; [done|]. rewrite Hlq.
      replace (S (length dl') - Z.to_nat 3)%nat with 0%nat by lia. exact E4.
Qed.
End insert.

Lemma insert_rep s held q a p ty bs :
  target_rep s held q -> aa_nodes s !! a = None -> aa_packs s !! p = None -> bs <> [] ->
  exists s', insert_target_to_head s
      (Some {| ti_data_dev_type := ty; ti_target_pack := bs; ti_pack_len := Zlen bs |}) 0
      {| ta_node := Some a; ta_pack := Some p |} = Some (0, s')
    /\ target_rep s' held (tq_insert (ty, bs) q).
Proof.
  intros (dl & ul & hl & [Hl Hlive Hnum Hlen Hd Hu1 Hu2 Hh1 Hh2]) Ha Hp Hbs.
  unfold insert_target_to_head. cbn [negb Z.eqb ti_pack_len ta_node ta_pack ti_target_pack
    ti_data_dev_type].
  assert (0 < Zlen bs) by (destruct bs; [done|unfold Zlen; cbn [length]; lia]).
  destruct (Z.leb_spec (Zlen bs) 0); [lia|]. rewrite ld_bytes_all. cbn [mbind option_bind].
  set (n := {| tg_data_dev_type := ty |}). set (s1 := aa_set_heap _ _ s).
  assert (Hrep : rep_at s1 held q dl ul hl [(a, p, (ty, bs))]).
  { split; cbn; try done.
    - apply lseg_insert_ne; [|done]. intros Hin. destruct (lseg_dom _ _ _ _ _ Hl Hin). congruence.
    - eapply live_eq; [|by apply (live_alloc _ _ _ _ a p n (ty, bs) Hlive)]. solve_Permutation. }
  assert (Hn : aa_nodes s1 !! a = Some n) by (cbn; by rewrite lookup_insert_eq).
  destruct (ty =? TRACK_INFO_FROM_USER) eqn:Et.
  - destruct (insert_user_rep s1 held q dl ul hl a p (ty, bs) n Hrep Hn eq_refl Et) as (s' & E & Hr).
    change (aa_user_target s) with (aa_user_target s1). rewrite E. by eexists.
  - exact (insert_device_rep s1 held q dl ul hl a p (ty, bs) n Hrep Hn eq_refl Et).
Qed.

(** The content of a node that is live. *)
Definition target_of (s : alg_app_res) (a : nat) : option tgt :=
  n ← aa_nodes s !! a;
  p ← tg_target_pack n;
  bs ← aa_packs s !! p;
  Some (tg_data_dev_type n, bs).

Lemma entry_target s e : entry_ok (aa_nodes s) (aa_packs s) e -> target_of s (e_node e) = Some e.2.
Proof.
  intros (n & Hn & Hp & Ht & _ & Hb). unfold target_of. rewrite Hn. cbn [mbind option_bind].
  rewrite Hp. cbn [mbind option_bind]. rewrite Hb. cbn [mbind option_bind]. rewrite Ht.
  by destruct e as [? []].
Qed.

Lemma take_rep s q : target_rep s None q ->
  exists held s', get_and_rm_one_target s 0 = Some (held, s') /\ target_rep s' held (tq_take q)
    /\ match held with
       | Some a => exists t, target_of s' a = Some t /\ tq_held (tq_take q) = Some t
       | None => tq_held (tq_take q) = None
       end.
Proof.
  intros (dl & ul & hl & [Hl Hlive Hnum Hlen Hd Hu1 Hu2 Hh1 Hh2]).
  destruct hl; [|done]. cbn in Hh2. rewrite app_nil_r in Hlive. clear Hh1.
  unfold get_and_rm_one_target, tq_take. cbn [negb Z.eqb]. rewrite <-Hd.
  destruct (aa_user_target s) as [u|] eqn:Eu.
  - destruct ul as [|e [|]]; try discriminate Hu1. injection Hu1 as <-.
    destruct (tq_user q) as [t|] eqn:Et; [|done]. injection Hu2 as <-.
    eexists _, _. split; [done|]. split.
    + exists dl, [], [e]. by split; cbn.
    + exists e.2. split; [|done]. apply (entry_target (aa_set_user None s)).
      apply lv_ok in Hlive. rewrite Forall_forall in Hlive. apply Hlive. set_solver.
  - destruct ul; [|done]. destruct (tq_user q) as [t|] eqn:Et; [done|].
    destruct dl as [|e dl]; cbn [fmap list_fmap] in *.
    + cbn in Hl. rewrite Hl. eexists _, _. split; [done|]. split; [|by destruct (tq_held q)].
      exists [], [], []. split; cbn; rewrite ?Hl, ?Eu, ?Et; done.
    + destruct Hl as (Hh & n & Hn & Hl). rewrite Hh, Hn. cbn [mbind option_bind].
      rewrite !app_nil_r in Hlive. pose proof (live_link _ _ _ _ _ _ None Hn Hlive) as Hlive2.
      eexists _, _. split; [done|]. split.
      * exists dl, [], [e]. split; cbn [aa_nodes aa_head aa_set_heap aa_set_head aa_packs
          aa_targets_num tq_leaked tq_devs tq_held tq_user aa_user_target option_list]; try done.
        -- apply lseg_insert_ne; [|done]. pose proof (lv_nodes _ _ _ _ Hlive) as Hnd.
           rewrite fmap_cons in Hnd. by apply NoDup_cons in Hnd as [? _].
        -- eapply live_eq; [|exact Hlive2]. solve_Permutation.
        -- rewrite Hnum. unfold Zlen. cbn [length]. lia.
        -- cbn in Hlen. lia.
        -- by rewrite Eu.
      * exists e.2. split; [|done]. apply lv_ok, Forall_cons in Hlive2 as [He _].
        by apply (entry_target (aa_set_heap _ _ (aa_set_head _ _ s))).
Qed.

Lemma release_rep s held q : target_rep s held q ->
  exists s', target_node_destory s held = Some (0, s') /\ target_rep s' None (tq_release q).
Proof.
  intros (dl & ul & hl & [Hl Hlive Hnum Hlen Hd Hu1 Hu2 Hh1 Hh2]).
  destruct held as [a|].
  - destruct hl as [|[[a' p] t] [|]]; try discriminate Hh1. injection Hh1 as ->.
    assert (Hlive2 : live (aa_nodes s) (aa_packs s) ((a, p, t) :: dl ++ ul) (tq_leaked q)).
    { eapply live_eq; [|exact Hlive]. solve_Permutation. }
    rewrite (destory_live _ _ _ _ _ _ Hlive2). eexists. split; [done|].
    exists dl, ul, []. split; cbn; try done.
    + apply is_list_delete; [|done]. pose proof (lv_nodes _ _ _ _ Hlive2) as Hnd.
      rewrite fmap_cons, fmap_app in Hnd. apply NoDup_cons in Hnd as [Hnd _]. set_solver.
    + rewrite app_nil_r. exact (live_free _ _ _ _ _ _ _ true Hlive2).
  - destruct hl; [|done]. eexists. split; [done|]. by exists dl, ul, [].
Qed.

Lemma free_all_live fuel s p dl rest k :
  live (aa_nodes s) (aa_packs s) (dl ++ rest) k -> is_list (aa_nodes s) p (e_node <$> dl) ->
  (length dl <= fuel)%nat ->
  exists N P, free_all fuel s p = Some (aa_set_heap N P s) /\ live N P rest k.
Proof.
  revert fuel s p. induction dl as [|e dl IH]; intros fuel s p Hlive Hl Hf.
  - cbn in Hl. subst p. exists (aa_nodes s), (aa_packs s). split; [by destruct s, fuel|done].
  - destruct fuel as [|fuel]; [cbn in Hf; lia|].
    destruct (drop_front _ _ _ _ _ _ _ Hlive Hl) as (-> & n & Hn & Hl' & Hlive').
    cbn [free_all]. rewrite Hn. cbn [mbind option_bind].
    destruct e as [[a x] t]. cbn [fst snd] in *. rewrite (destory_live _ _ _ _ _ _ Hlive).
    cbn [mbind option_bind].
    destruct (IH fuel (aa_set_heap (delete a (aa_nodes s)) (delete x (aa_packs s)) s) (tg_next n))
      as (N & P & E & HNP); [done|done|cbn in Hf; lia|]. by exists N, P.
Qed.

Lemma clear_rep s held q : target_rep s held q ->
  exists s', remove_all_targets s = Some (0, s') /\ target_rep s' held (tq_clear q).
Proof.
  intros (dl & ul & hl & [Hl Hlive Hnum Hlen Hd Hu1 Hu2 Hh1 Hh2]).
  unfold remove_all_targets. destruct (aa_head s) as [h|] eqn:Eh.
  - assert (Hsz : (length dl <= size (aa_nodes s))%nat).
    { apply is_list_size in Hl. by rewrite length_fmap in Hl. }
    destruct (free_all_live _ s _ dl (ul ++ hl ++ []) _ Hlive Hl Hsz) as (N & P & -> & HNP).
    cbn [mbind option_bind]. eexists. split; [done|]. exists [], ul, hl.
    split; cbn; try done. lia.
  - destruct dl as [|e dl]; [|by destruct Hl]. eexists. split; [done|]. exists [], ul, hl.
    split; cbn; rewrite ?Eh; try done.
Qed.

(** ** Runs *)

(** What the task of the algorithms and the algorithm's thread do.  A package comes with
    what the lock and the two allocations answer; the thread takes a target, or frees the
    one it has worked on. *)
Inductive target_op :=
  | op_handle (pack : list Z) (lock : Z) (node_ok pack_ok : bool)
  | op_thread (lock : Z)
  | op_clear.

Inductive target_out :=
  | out_ret (ret : Z)
  | out_target (t : option tgt).

(** An allocator returns an address that is not in use. *)
Class Malloc (malloc : gset nat -> nat) : Prop := malloc_fresh X : malloc X ∉ X.

Section run.
Context (malloc : gset nat -> nat) `{!Malloc malloc}.

Definition target_do (op : target_op) (st : alg_app_res * option nat)
  : option (target_out * (alg_app_res * option nat)) :=
  let '(s, held) := st in
  match op with
  | op_handle pack lock node_ok pack_ok =>
      let al := {| ta_node := if node_ok then Some (malloc (dom (aa_nodes s))) else None;
                   ta_pack := if pack_ok then Some (malloc (dom (aa_packs s))) else None |} in
      '(ret, s) ← algs_handle_multiple_targets s pack (Zlen pack) lock al;
      Some (out_ret ret, (s, held))
  | op_thread lock =>
      match held with
      | None =>
          '(node, s) ← get_and_rm_one_target s lock;
          match node with
          | Some a => t ← target_of s a; Some (out_target (Some t), (s, Some a))
          | None => Some (out_target None, (s, None))
          end
      | Some a => '(ret, s) ← target_node_destory s (Some a); Some (out_ret ret, (s, None))
      end
  | op_clear => '(ret, s) ← remove_all_targets s; Some (out_ret ret, (s, held))
  end.

Fixpoint target_run (ops : list target_op) (st : alg_app_res * option nat)
  : option (list target_out * (alg_app_res * option nat)) :=
  match ops with
  | [] => Some ([], st)
  | op :: ops => '(o, st) ← target_do op st; '(os, st) ← target_run ops st; Some (o :: os, st)
  end.

(** What is promised. *)
Definition tq_do (op : target_op) (q : target_queue) : target_out * target_queue :=
  match op with
  | op_handle pack lock node_ok pack_ok =>
      if bool_decide (pack = []) then (out_ret (-1), q)
      else if negb (lock =? 0) then (out_ret RET_VALUE_FUNCTION_CALL_FAIL, q)
      else if node_ok && pack_ok then
        (out_ret 0, tq_insert (i32 (le_val (take 4 pack)), pack) q)
      else (out_ret RET_VALUE_PARAMETER_NULL, q)
  | op_thread lock =>
      match tq_held q with
      | Some _ => (out_ret 0, tq_release q)
      | None =>
          if lock =? 0 then (out_target (tq_held (tq_take q)), tq_take q)
          else (out_target None, q)
      end
  | op_clear => (out_ret 0, tq_clear q)
  end.

Fixpoint tq_run (ops : list target_op) (q : target_queue) : list target_out * target_queue :=
  match ops with
  | [] => ([], q)
  | op :: ops => let '(o, q) := tq_do op q in let '(os, q) := tq_run ops q in (o :: os, q)
  end.

(** The message of a package is empty or holds the kind of its sender, and its size is an
    [int]. *)
Definition op_ok (op : target_op) : Prop :=
  match op with
  | op_handle pack _ _ _ => Zlen pack = 0 \/ 4 <= Zlen pack < 2 ^ 31
  | _ => True
  end.

Lemma handle_rep s held q pack lock node_ok pack_ok :
  op_ok (op_handle pack lock node_ok pack_ok) -> target_rep s held q ->
  exists s', target_do (op_handle pack lock node_ok pack_ok) (s, held)
      = Some ((tq_do (op_handle pack lock node_ok pack_ok) q).1, (s', held))
    /\ target_rep s' held (tq_do (op_handle pack lock node_ok pack_ok) q).2.
Proof.
  intros Hok Hrep. unfold target_do, algs_handle_multiple_targets, tq_do.
  case_bool_decide as Hp; [subst pack; by exists s|].
  assert (H4 : 4 <= Zlen pack < 2 ^ 31).
  { destruct Hok as [H0|]; [|done]. destruct pack; [done|unfold Zlen in H0; cbn in H0; lia]. }
  replace (i32 (Zlen pack)) with (Zlen pack) by (unfold i32; rewrite Z.mod_small; lia).
  destruct (Z.leb_spec (Zlen pack) 0); [lia|].
  unfold ld_le. unfold ld_bytes at 1. rewrite bool_decide_eq_true_2 by lia.
  cbv zeta. cbn [mbind option_bind fmap option_fmap option_map]. rewrite drop_0. change (Z.to_nat (Z.of_nat 4)) with 4%nat.
  destruct (lock =? 0) eqn:El; cbn [negb].
  2:{ unfold insert_target_to_head. rewrite El. cbn. by exists s. }
  apply Z.eqb_eq in El as ->.
  destruct node_ok, pack_ok; cbn [andb];
    try (unfold insert_target_to_head; cbn [negb Z.eqb ti_pack_len ta_node ta_pack];
         destruct (Z.leb_spec (Zlen pack) 0); [lia|]; cbn; by exists s).
  destruct (insert_rep s held q (malloc (dom (aa_nodes s))) (malloc (dom (aa_packs s)))
    (i32 (le_val (take 4 pack))) pack Hrep) as (s' & E & Hr).
  - apply not_elem_of_dom, malloc_fresh.
  - apply not_elem_of_dom, malloc_fresh.
  - done.
  - rewrite E. by exists s'.
Qed.

Lemma do_rep s held q op : op_ok op -> target_rep s held q ->
  exists s' held', target_do op (s, held) = Some ((tq_do op q).1, (s', held'))
    /\ target_rep s' held' (tq_do op q).2.
Proof.
  intros Hok Hrep. destruct op as [pack lock n p|lock|].
  - destruct (handle_rep s held q pack lock n p Hok Hrep) as (s' & E & Hr). by exists s', held.
  - cbn [target_do tq_do]. assert (Hh : is_Some held <-> is_Some (tq_held q)).
    { destruct Hrep as (dl & ul & hl & [? ? ? ? ? ? ? Hh1 Hh2]).
      destruct hl, held, (tq_held q); try done; split; by intros [? ?]. }
    destruct held as [a|], (tq_held q) as [t|] eqn:Et;
      [|by destruct (proj1 Hh) as [? ?]; [eexists|]|by destruct (proj2 Hh) as [? ?]; [eexists|]|].
    + destruct (release_rep s (Some a) q Hrep) as (s' & E & Hr). rewrite E. by exists s', None.
    + destruct (Z.eqb_spec lock 0) as [->|Hl].
      * destruct (take_rep s q Hrep) as ([a|] & s' & E & Hr & Ho); rewrite E; cbn [mbind option_bind].
        -- destruct Ho as (t & Ht & ->). rewrite Ht. by exists s', (Some a).
        -- rewrite Ho. by exists s', None.
      * unfold get_and_rm_one_target. destruct (Z.eqb_spec lock 0); [done|]. by exists s, None.
  - destruct (clear_rep s held q Hrep) as (s' & E & Hr). cbn. rewrite E. by exists s', held.
Qed.
End run.

Lemma init_rep : target_rep alg_t_init None tq_init.
Proof. exists [], [], []. split; cbn; try done; [|lia]. split; by try constructor. Qed.

Lemma run_rep malloc `{!Malloc malloc} ops s held q :
  Forall op_ok ops -> target_rep s held q ->
  exists s' held', target_run malloc ops (s, held) = Some ((tq_run ops q).1, (s', held'))
    /\ target_rep s' held' (tq_run ops q).2.
Proof.
  intros Hok. revert s held q. induction Hok as [|op ops H1 _ IH]; intros s held q Hrep.
  { by exists s, held. }
  cbn [target_run tq_run]. destruct (do_rep malloc s held q op H1 Hrep) as (s1 & h1 & -> & Hr).
  destruct (tq_do op q) as [o q1]. cbn [mbind option_bind fst snd] in *.
  destruct (IH s1 h1 q1 Hr) as (s2 & h2 & -> & Hr2).
  destruct (tq_run ops q1) as [os q2]. cbn in *. by exists s2, h2.
Qed.

Lemma rep_sizes s held q : target_rep s held q ->
  aa_targets_num s = Zlen (tq_devs q) /\ Zlen (tq_devs q) <= 4
  /\ size (aa_nodes s)
     = (length (tq_devs q) + length (option_list (tq_user q)) + length (option_list (tq_held q)))%nat
  /\ size (aa_packs s) = (size (aa_nodes s) + tq_leaked q)%nat.
Proof.
  intros (dl & ul & hl & [Hl [_ _ _ Hs Hp] Hnum Hlen Hd Hu1 Hu2 Hh1 Hh2]).
  rewrite <-Hd, <-Hu2, <-Hh2, !length_fmap. unfold Zlen in *. rewrite length_fmap.
  rewrite !length_app in Hs. rewrite Hp, Hs, !length_app. cbn [length] in *.
  repeat split; lia.
Qed.

(** ** Properties *)

(** C6: the targets between the two threads of the algorithms. Whatever packages come,
    whenever a lock or an allocation fails and however the turns of the two threads fall,
    no call touches a block that is not live; what every call returns and every target the
    algorithm gets is what a queue of at most four device targets behind one user's target
    gives: the user's target first, then the devices' in the order of their arrival, the
    oldest dropped when a fifth comes. The counter is the number of nodes on the list, and
    every node is on it, in the user's place or in the hands of the thread; of the packages
    exactly those of the user's targets that were replaced are lost. *)
Theorem target_list_refines malloc `{!Malloc malloc} ops os q :
  Forall op_ok ops -> tq_run ops tq_init = (os, q) ->
  exists s held, target_run malloc ops (alg_t_init, None) = Some (os, (s, held))
    /\ aa_targets_num s = Zlen (tq_devs q) /\ Zlen (tq_devs q) <= 4
    /\ size (aa_nodes s)
       = (length (tq_devs q) + length (option_list (tq_user q))
          + length (option_list (tq_held q)))%nat
    /\ size (aa_packs s) = (size (aa_nodes s) + tq_leaked q)%nat.
Proof.
  intros Hok Hq. destruct (run_rep malloc ops _ _ _ Hok init_rep) as (s & held & E & Hr).
  rewrite Hq in E, Hr. exists s, held. split; [exact E|]. exact (rep_sizes _ _ _ Hr).
Qed.

(** ** Witnesses *)

#[export] Instance fresh_malloc : Malloc fresh.
Proof. intros X. apply is_fresh. Qed.

Definition demo_radar (i : Z) : target_op := op_handle (le_bytes 4 TRACK_INFO_RADAR ++ [i]) 0 true true.
Definition demo_user (i : Z) : target_op :=
  op_handle (le_bytes 4 TRACK_INFO_FROM_USER ++ [i]) 0 true true.
Definition demo_ops : list target_op :=
  [demo_radar 1; demo_radar 2; demo_user 3; demo_radar 4; demo_user 5; demo_radar 6;
   demo_radar 7; op_thread 0; op_handle [] 0 true true; op_handle [0; 0; 0; 0] 0 true false;
   op_thread 0; op_thread 0].

Lemma target_list_refines_witness :
  (exists s held, target_run fresh demo_ops (alg_t_init, None)
     = Some ([out_ret 0; out_ret 0; out_ret 0; out_ret 0; out_ret 0; out_ret 0; out_ret 0;
              out_target (Some (3, [3; 0; 0; 0; 5])); out_ret (-1); out_ret (-1); out_ret 0;
              out_target (Some (0, [0; 0; 0; 0; 2]))], (s, held))
     /\ aa_targets_num s = 3 /\ size (aa_nodes s) = 4%nat /\ size (aa_packs s) = 5%nat).
Proof.
  assert (Hok : Forall op_ok demo_ops).
  { unfold demo_ops. repeat apply Forall_cons_2; try apply Forall_nil_2;
      first [exact I|left; reflexivity|right; vm_compute; split; [discriminate|reflexivity]]. }
  destruct (target_list_refines fresh demo_ops (tq_run demo_ops tq_init).1
    (tq_run demo_ops tq_init).2 Hok (surjective_pairing _)) as (s & held & E & Hn & _ & H1 & H2).
  exists s, held. split; [exact E|]. split; [exact Hn|]. split; [exact H1|].
  rewrite H2, H1. reflexivity.
Defined.
