(* ===== verification/AiMain.v ===== *)
(** * Guiding the head ([src/srv/algs/ai_alg/ai_main.cpp])

    The handlers of the head's reports keep the latest of each in a static object.  Once per
    picture [ai_alg_run7] looks at them and at the target that was taken off the list, if
    any, and sends commands to the head.  The picture is not used.  The clock, the network,
    [sleep], [std::sort] and the functions of [math.h] are parameters. *)

From S2P Require Import Prelude CFloat Layout CString AlinkTrack PtzProtocol EthLinkPtz PtzControl Guide.
Local Open Scope string_scope.
Local Open Scope list_scope.
Local Open Scope Z_scope.

(** ** Data ([ptz_control.h]) *)

Definition ptz_msg_status : struct :=
  [("photoelectricity_no", 4); ("photoelectricity_status_timesmap", 8); ("work_status", 4);
   ("work_mode", 4); ("bitcode", 8); ("reserver", 4)].
Definition ptz_msg_target_info : struct :=
  [("target_no", 4); ("target_type", 4); ("similarty", 4); ("width", 4); ("height", 4);
   ("phy_width", 4); ("phy_height", 4); ("motion_drirection", 1); ("ai_mode", 1);
   ("reserver", 2); ("horizatal_speed", 2); ("vertical_speed", 2); ("target_position_x", 2);
   ("target_position_y", 2); ("target_azimuth", 8); ("target_pitching", 8);
   ("target_distance", 4)].
Definition ptz_msg_target_pac : struct :=
  [("last_time", 4); ("target_num", 4); ("data_len", 4); ("targets", 8)].
Definition ptz_msg_pitch_azimuth : struct :=
  [("photoelectricity_no", 4); ("photoelectricity_status_timesmap", 8);
   ("horizatal_angle", 8); ("pitching_angle", 8); ("distance", 8);
   ("horizatal_angle_speed", 8); ("pitch_angle_speed", 8); ("target_height", 2);
   ("lens_magnification", 1); ("reserver", 1)].
Definition ptz_msg_dev_target_info : struct :=
  [("targt_no", 4); ("target_type", 4); ("similarity", 4); ("target_width", 4);
   ("target_height", 4); ("target_azimuth", 8); ("target_pitching_angle", 8)].
Definition ptz_msg_dev_status_search : struct :=
  [("time", 4); ("target_num", 4); ("data_len", 4)].
Definition ptz_msg_dev_status_track : struct :=
  [("time", 4); ("user_id", 2); ("target_status", 2); ("target", 36)].
Definition ptz_msg_dev_ext_info : struct :=
  [("photoelectricity_no", 4); ("sys_timesmap", 8); ("work_status", 4); ("data_len", 4)].

Definition zeros (s : struct) : list Z := replicate (Z.to_nat (sizeof s)) 0.

(** The static objects of the file. *)
Record ai_state := {
  realtime_pa_t : list Z; realtime_status : list Z; realtime_dev_ext : list Z;
  realtime_sserach : list Z; realtime_target : list Z; realtime_strack : list Z;
  realtime_targets : list Z;
  g_nID : Z; firstGuide : bool; img_cnt : Z; prev_cnt : Z; track_cnt : Z; prev_mode : Z
}.

Definition ai_init : ai_state :=
  {| realtime_pa_t := zeros ptz_msg_pitch_azimuth; realtime_status := zeros ptz_msg_status;
     realtime_dev_ext := zeros ptz_msg_dev_ext_info;
     realtime_sserach := zeros ptz_msg_dev_status_search;
     realtime_target := zeros ptz_msg_dev_target_info;
     realtime_strack := zeros ptz_msg_dev_status_track;
     realtime_targets := zeros ptz_msg_target_pac;
     g_nID := -1; firstGuide := true; img_cnt := 0; prev_cnt := 0; track_cnt := 0;
     prev_mode := -1 |}.

Definition set_reports (pa status ext ssearch target strack targets : list Z) (s : ai_state)
  : ai_state :=
  {| realtime_pa_t := pa; realtime_status := status; realtime_dev_ext := ext;
     realtime_sserach := ssearch; realtime_target := target; realtime_strack := strack;
     realtime_targets := targets;
     g_nID := g_nID s; firstGuide := firstGuide s; img_cnt := img_cnt s;
     prev_cnt := prev_cnt s; track_cnt := track_cnt s; prev_mode := prev_mode s |}.

Definition set_counters (id : Z) (first : bool) (img prev track mode : Z) (s : ai_state)
  : ai_state :=
  {| realtime_pa_t := realtime_pa_t s; realtime_status := realtime_status s;
     realtime_dev_ext := realtime_dev_ext s; realtime_sserach := realtime_sserach s;
     realtime_target := realtime_target s; realtime_strack := realtime_strack s;
     realtime_targets := realtime_targets s;
     g_nID := id; firstGuide := first; img_cnt := img; prev_cnt := prev; track_cnt := track;
     prev_mode := mode |}.

(** ** The code: reports of the head *)

(** [memcpy( &realtime, &msg->msg[off], sizeof(realtime) )]; nothing can be read through
    [NULL]. *)
Definition copy_report (s : struct) (m : list Z) (off : Z) : option (list Z) :=
  ld_bytes m off (sizeof s).

Definition ptz_pitch_azimuth (m : ptz_protocol_msg) (s : ai_state) : option (Z * ai_state) :=
  let b := default [] (msg m) in
  pa ← copy_report ptz_msg_pitch_azimuth b 0;
  Some (0, set_reports pa (realtime_status s) (realtime_dev_ext s) (realtime_sserach s)
             (realtime_target s) (realtime_strack s) (realtime_targets s) s).

(** The message is printed; the size is compared as an unsigned number. *)
Definition ptz_dev_status (m : ptz_protocol_msg) (s : ai_state) : option (Z * ai_state) :=
  let b := default [] (msg m) in
  _ ← ld_bytes b 0 (Z.max 0 (msglen m));
  if u32 (msglen m) <=? sizeof ptz_msg_status then
    status ← copy_report ptz_msg_status b 0;
    Some (0, set_reports (realtime_pa_t s) status (realtime_dev_ext s) (realtime_sserach s)
               (realtime_target s) (realtime_strack s) (realtime_targets s) s)
  else Some (0, s).

(** Every field that is logged is read. *)
Definition ptz_dev_ext_info_0x08 (m : ptz_protocol_msg) (s : ai_state) : option (Z * ai_state) :=
  let b := default [] (msg m) in
  ext ← copy_report ptz_msg_dev_ext_info b 0;
  let s := set_reports (realtime_pa_t s) (realtime_status s) ext (realtime_sserach s)
             (realtime_target s) (realtime_strack s) (realtime_targets s) s in
  work_status ← ld_le 4 b (offsetof ptz_msg_dev_ext_info "work_status");
  data_len ← ld_le 4 b (offsetof ptz_msg_dev_ext_info "data_len");
  let p := sizeof ptz_msg_dev_ext_info in
  if work_status =? 0 then
    if 4 <=? data_len then _ ← ld_le 4 b p; Some (0, s) else Some (0, s)
  else if work_status =? 1 then
    sserach ← copy_report ptz_msg_dev_status_search b p;
    let s := set_reports (realtime_pa_t s) (realtime_status s) (realtime_dev_ext s) sserach
               (realtime_target s) (realtime_strack s) (realtime_targets s) s in
    len ← ld_le 4 b (p + offsetof ptz_msg_dev_status_search "data_len");
    if sizeof ptz_msg_dev_target_info <=? len then
      let num := len / sizeof ptz_msg_dev_target_info in
      let q := p + sizeof ptz_msg_dev_status_search in
      _ ← ld_bytes b q (num * sizeof ptz_msg_dev_target_info);
      target ← copy_report ptz_msg_dev_target_info b q;
      Some (0, set_reports (realtime_pa_t s) (realtime_status s) (realtime_dev_ext s)
                 (realtime_sserach s) target (realtime_strack s) (realtime_targets s) s)
    else Some (0, s)
  else if work_status =? 2 then
    strack ← copy_report ptz_msg_dev_status_track b p;
    Some (0, set_reports (realtime_pa_t s) (realtime_status s) (realtime_dev_ext s)
               (realtime_sserach s) (realtime_target s) strack (realtime_targets s) s)
  else Some (0, s).

Definition ptz_target_info (m : ptz_protocol_msg) (s : ai_state) : option (Z * ai_state) :=
  let b := default [] (msg m) in
  targets ← copy_report ptz_msg_target_pac b 0;
  num ← ld_le 4 b (offsetof ptz_msg_target_pac "target_num");
  _ ← ld_bytes b 12 (num * sizeof ptz_msg_target_info);
  Some (0, set_reports (realtime_pa_t s) (realtime_status s) (realtime_dev_ext s)
             (realtime_sserach s) (realtime_target s) (realtime_strack s) targets s).

(** ** The code: commands to the head *)

Section ai.
Context {S : Type} (send : list Z -> S -> option S).
Context (gettimeofday : S -> timeval * S) (sleep : Z -> S -> S).
Context (sort : list RadarObj -> list RadarObj).
Context (sin cos abs : double -> double) (atan2 pow : double -> double -> double).

(** A command function takes the time for its stamp, and then for the message. *)
Definition command_send (f : ptz_call (S := S)) (obj : list Z) (w : S) : option S :=
  let '(tv, w) := gettimeofday w in
  let '(tv2, w) := gettimeofday w in
  '(_, _, w) ← f (Some obj) tv tv2 w;
  Some w.

Definition setPTZ0 (ablHor ablVer verticalHeight horizontalDistance : double) (w : S) : option S :=
  let off := offsetof ptz_msgid_0x03_addr in
  b ← st8 (zeros ptz_msgid_0x03_addr) (off "guidance_mode") 0;
  b ← st_bytes b (off "horizatal_angle") (d_bytes (d_round32 ablHor));
  b ← st_bytes b (off "pitch_angle") (d_bytes (d_round32 ablVer));
  b ← st8 b (off "target_motion_direction") 0;
  b ← st_bytes b (off "target_altitude") (d_bytes (d_round32 verticalHeight));
  b ← st_bytes b (off "distance") (d_bytes (d_round32 horizontalDistance));
  command_send (send_ptz_control_addr send) b w.

Definition setPTZ1 (longitude latitude altitude horizontalDistance : double) (w : S) : option S :=
  let off := offsetof ptz_msgid_0x03_addr in
  b ← st8 (zeros ptz_msgid_0x03_addr) (off "guidance_mode") 1;
  b ← st_bytes b (off "target_longitude") (d_bytes (d_round32 longitude));
  b ← st_bytes b (off "target_latitude") (d_bytes (d_round32 latitude));
  b ← st_bytes b (off "target_altitude") (d_bytes (d_round32 altitude));
  b ← st8 b (off "target_motion_direction") 0;
  b ← st_bytes b (off "distance") (d_bytes (d_round32 horizontalDistance));
  command_send (send_ptz_control_addr send) b w.

(** The magnification goes out as an integer. *)
Definition SetCameraZoom (cameraBS : double) (w : S) : option S :=
  let off := offsetof ptz_msg_ctrl_pack in
  b ← st_le 4 (zeros ptz_msg_ctrl_pack) (off "ctrl_cmd") 2;
  focal ← d_to_u32 (d_round32 cameraBS);
  b ← st_le 4 b (off "focal") focal;
  command_send (send_ptz_control_pack send) b w.

Definition setPTZ (ablHor ablVer cameraBS : double) (w : S) : option S :=
  let off := offsetof ptz_msgid_0x03_addr in
  b ← st8 (zeros ptz_msgid_0x03_addr) (off "guidance_mode") 0;
  b ← st_bytes b (off "horizatal_angle") (d_bytes (d_round32 ablHor));
  b ← st_bytes b (off "pitch_angle") (d_bytes (d_round32 ablVer));
  b ← st8 b (off "target_motion_direction") 0;
  w ← command_send (send_ptz_control_addr send) b w;
  SetCameraZoom cameraBS w.

(** The objects of [ptz_msg_track] and of the scan differ in their command only. *)
Definition track_command (ctrl_cmd : Z) (w : S) : option S :=
  b ← st_le 4 (zeros ptz_msg_track) (offsetof ptz_msg_track "ctrl_cmd") ctrl_cmd;
  command_send (send_ptz_control_track send) b w.

Definition StoppingTracking : S -> option S := track_command 3.
Definition StopSDT : S -> option S := track_command 3.
Definition StartSDT (horizatal_begin horizatal_end pitching_begin pitching_end : Z)
  : S -> option S := track_command 1.
Definition SearchAndTracking : S -> option S := track_command 1.

Definition StartScanRegion (horizatal_begin horizatal_end pitching_begin pitching_end
    scan_speed : Z) (w : S) : option S :=
  let off := offsetof ptz_msg_scan_ext in
  b ← st_le 4 (zeros ptz_msg_scan_ext) (off "ctrl_cmd") 1;
  b ← st_le 4 b (off "horizatal_search_begin") horizatal_begin;
  b ← st_le 4 b (off "horizatal_search_end") horizatal_end;
  b ← st_le 4 b (off "pitching_search_begin") pitching_begin;
  b ← st_le 4 b (off "pitching_search_end") pitching_end;
  b ← st_le 4 b (off "scan_speed") scan_speed;
  command_send (send_ptz_control_scan_ext send) b w.

Definition StopScanRegion (w : S) : option S :=
  b ← st_le 4 (zeros ptz_msg_scan_ext) (offsetof ptz_msg_scan_ext "ctrl_cmd") 0;
  command_send (send_ptz_control_scan_ext send) b w.

(** ** The code: guidance *)

Definition GetBSFromDistance (distance : double) : double :=
  let dRatio := d_lit 6 10 in
  let lt n := dlt distance (d_of_Z n) in
  let ge n := dle (d_of_Z n) distance in
  if lt 100 then dmul (d_of_Z 14) dRatio
  else if lt 200 && ge 100 then dmul (d_of_Z 17) dRatio
  else if lt 300 && ge 200 then dmul (d_of_Z 24) dRatio
  else if lt 400 && ge 300 then dmul (d_of_Z 34) dRatio
  else if lt 500 && ge 400 then dmul (d_of_Z 40) dRatio
  else if lt 600 && ge 500 then dmul (d_of_Z 44) dRatio
  else if lt 800 && ge 600 then dmul (d_of_Z 46) dRatio
  else dmul (d_of_Z 47) dRatio.

(** The state of the file that changes is [g_nID]; the magnification is not used. *)
Definition radarGuide (radar_targets : list Z) (ptz_id g : Z) (w : S) : option (Z * S) :=
  '(ret, obj_list) ← radar_read radar_targets [];
  if ret <? 0 then Some (g, w) else
  let '(ret, o, g) := radar_2ptz sort obj_list no_radar_obj ptz_id g in
  if 0 <? ret then
    w ← StoppingTracking w;
    let BS := GetBSFromDistance (d_of_Z (ro_range o)) in
    let horAngle :=
      if dlt (ro_azimuth o) (d_of_Z 0) then dadd (d_of_Z 360) (ro_azimuth o) else d_of_Z 0 in
    w ← setPTZ0 horAngle (ro_elevation o)
          (dsqrt (dadd (dmul (ro_x o) (ro_x o)) (dmul (ro_y o) (ro_y o)))) (ro_z o) w;
    Some (g, sleep 5 w)
  else Some (g, w).

(** Where the two guides by the tracer turn the head. *)
Definition tracer_turn (o : TracerObj) (dp dt : double) (w : S) : option S :=
  let startLat := d_lit 22596960 1000000 in
  let startLng := d_lit 113998050 1000000 in
  let res := calibPTZ sin cos abs atan2 pow startLat startLng
               (to_droneLatitude o) (to_droneLongitude o) (to_droneHeight o) in
  a ← res !! 3%nat;
  e ← res !! 4%nat;
  range ← res !! 5%nat;
  let p := d_round32 (dadd a dp) in
  let t := d_round32 (dsub e dt) in
  setPTZ0 p t (to_droneHeight o) range w.

Definition tracerGuideR (tracer_targets : list Z) (w : S) : option S :=
  '(ret, obj_list) ← tracerR_read tracer_targets [];
  if ret <? 0 then Some w else
  let '(ret, o) := tracer_2ptz obj_list no_tracer_obj in
  if 0 <? ret then tracer_turn o (d_lit 9786 100) (dneg (d_lit 16 100)) w else Some w.

Definition tracerGuideD (tracer_targets : list Z) (w : S) : option S :=
  '(ret, obj_list) ← tracerD_read tracer_targets [];
  if ret <? 0 then Some w else
  let '(ret, o) := tracer_2ptz obj_list no_tracer_obj in
  if 0 <? ret then tracer_turn o (d_lit 9786 100) (d_lit 16 100) w else Some w.

(** The two [switch] statements; the second one falls from the drone-id package through to
    the user's, which does nothing. *)
Definition guide_switch (targets : list Z) (s : ai_state) (w : S) : option (ai_state * S) :=
  data_dev_type ← ld_le 4 targets 0;
  if i32 data_dev_type =? TRACK_INFO_RADAR then
    '(g, w) ← radarGuide targets (-1) (g_nID s) w;
    Some (set_counters g (firstGuide s) (img_cnt s) (prev_cnt s) (track_cnt s) (prev_mode s) s, w)
  else if i32 data_dev_type =? TRACK_INFO_TRACER_P_REMOTE_ID then
    w ← tracerGuideR targets w; Some (s, w)
  else if i32 data_dev_type =? TRACK_INFO_TRACER_P_DRONE_ID then
    w ← tracerGuideD targets w; Some (s, w)
  else Some (s, w).

(** [++x] on an [int]: overflow is undefined. *)
Definition incr (x : Z) : option Z := if x =? 2 ^ 31 - 1 then None else Some (x + 1).

(** The block for a head that is idle, and the block for one that tracks. *)
Definition guide_idle (work_mode : Z) (pack : list Z) (s : ai_state) (w : S)
  : option (ai_state * S) :=
  if (work_mode =? 0) && (firstGuide s || (6 <=? img_cnt s - prev_cnt s)) then
    '(s, w) ← guide_switch pack s w;
    let s := set_counters (g_nID s) (firstGuide s) (img_cnt s) (img_cnt s) (track_cnt s)
               (prev_mode s) s in
    target_num ← ld_le 4 (realtime_targets s) (offsetof ptz_msg_target_pac "target_num");
    w ← if negb (target_num =? 0) then SearchAndTracking w else Some w;
    Some (s, w)
  else Some (s, w).

Definition guide_tracking (work_mode : Z) (pack : list Z) (s : ai_state) (w : S)
  : option (ai_state * S) :=
  if (work_mode =? 2) && negb (track_cnt s =? 0) && (Z.rem (track_cnt s) 30 =? 0) then
    guide_switch pack s w
  else Some (s, w).

Definition ai_alg_run7 (s : ai_state) (targets : option (list Z)) (w : S)
  : option (Z * ai_state * S) :=
  img ← incr (img_cnt s);
  work_mode ← ld_le 4 (realtime_status s) (offsetof ptz_msg_status "work_mode");
  w ← if work_mode =? 1 then StoppingTracking w else Some w;
  (* [prev_mode = 2 && work_mode == 0] assigns *)
  let mode := if negb (2 =? 0) && (work_mode =? 0) then 1 else 0 in
  let first := if negb (mode =? 0) then true else firstGuide s in
  let mode := i32 work_mode in
  track ← if work_mode =? 2 then incr (track_cnt s) else Some 0;
  let s := set_counters (g_nID s) first img (prev_cnt s) track mode s in
  match targets with
  | None => Some (0, s, w)
  | Some pack =>
      '(s, w) ← guide_idle work_mode pack s w;
      '(s, w) ← guide_tracking work_mode pack s w;
      Some (0, s, w)
  end.
End ai.

(** ** What the head is told *)

Inductive head_action :=
  | act_stop                                   (* leave the tracking *)
  | act_search                                 (* search and track *)
  | act_angle (hor ver alt dist : double)      (* turn to these angles *)
  | act_sleep (n : Z).

(** The two payloads with the time [t] of their stamp. *)
Definition track_payload (cmd t : Z) : list Z :=
  le_bytes 4 PTZ_PHOTOELECTRICITY_NO ++ le_bytes 8 t ++ le_bytes 4 cmd ++ replicate 20 0.
Definition angle_payload (hor ver alt dist : double) (t : Z) : list Z :=
  le_bytes 4 PTZ_PHOTOELECTRICITY_NO ++ le_bytes 4 PTZ_SYS_NO ++ le_bytes 8 t ++ replicate 16 0
  ++ d_bytes (d_round32 alt) ++ d_bytes (d_round32 dist)
  ++ d_bytes (d_round32 hor) ++ d_bytes (d_round32 ver) ++ le_bytes 2 PTZ_USER_ID ++ [0; 0].

Section actions.
Context {S : Type} (send : list Z -> S -> option S).
Context (gettimeofday : S -> timeval * S) (sleep : Z -> S -> S).

Definition head_message (cmd : Z) (payload : Z -> list Z) (w : S) : option S :=
  let '(tv, w) := gettimeofday w in
  let '(tv2, w) := gettimeofday w in
  send (ptz_message cmd (tv_ms tv2) (payload (tv_ms tv))) w.

Definition act (a : head_action) (w : S) : option S :=
  match a with
  | act_stop => head_message PTZ_COMMAND_SERACH_TRACK (track_payload 3) w
  | act_search => head_message PTZ_COMMAND_SERACH_TRACK (track_payload 1) w
  | act_angle h v a d => head_message PTZ_COMMAND_ADDR (angle_payload h v a d) w
  | act_sleep n => Some (sleep n w)
  end.

Fixpoint acts (l : list head_action) (w : S) : option S :=
  match l with
  | [] => Some w
  | a :: l => w ← act a w; acts l w
  end.

Lemma acts_app l1 l2 w : acts (l1 ++ l2) w = acts l1 w ≫= acts l2.
Proof.
  revert w. induction l1 as [|a l1 IH]; intros w; [done|]. cbn [acts app].
  destruct (act a w); [apply IH|done].
Qed.

Lemma command_send_spec f s cmd stamp obj payload w :
  sends_struct f s cmd stamp -> bytes_ok obj -> Zlen obj = sizeof s ->
  (forall t, stamp t obj = payload t) ->
  command_send gettimeofday (f S send) obj w = head_message cmd payload w.
Proof.
  intros Hf Hb Hl Hp. unfold command_send, head_message.
  destruct (gettimeofday w) as [tv w1]. destruct (gettimeofday w1) as [tv2 w2].
  destruct (Hf S send tv tv2 w2) as [_ E]. rewrite E, Hp by done.
  by destruct (send _ w2).
Qed.

Lemma track_command_spec c w : 0 <= c < 256 ->
  track_command send gettimeofday c w
  = head_message PTZ_COMMAND_SERACH_TRACK (track_payload c) w.
Proof.
  intros Hc. unfold track_command, st_le.
  change (offsetof ptz_msg_track "ctrl_cmd") with 12.
  change (zeros ptz_msg_track) with (replicate 12 0 ++ replicate 4 0 ++ replicate 20 0).
  rewrite (st_bytes_app (replicate 12 0) (replicate 4 0)) by done. cbn [mbind option_bind].
  apply (command_send_spec (λ S send, send_ptz_control_track send) ptz_msg_track _ stamp_12).
  - apply stamped_sends; by_eval.
  - rewrite !bytes_ok_app. split; [by_eval|]. split; [apply le_bytes_ok|by_eval].
  - done.
  - intros t. unfold stamp_12, track_payload. by rewrite drop_app_length' by done.
Qed.

Lemma Zlen_d_bytes x : Zlen (d_bytes x) = 8.
Proof. apply Zlen_le_bytes. Qed.

(** Six stores into an object of zeros. *)
Lemma addr_fill A D H V : Zlen A = 8 -> Zlen D = 8 -> Zlen H = 8 -> Zlen V = 8 ->
  (b ← st_bytes (replicate 68 0) 66 [0]; b ← st_bytes b 48 H; b ← st_bytes b 56 V;
   b ← st_bytes b 67 [0]; b ← st_bytes b 32 A; st_bytes b 40 D)
  = Some (replicate 32 0 ++ A ++ D ++ H ++ V ++ replicate 4 0).
Proof.
  intros HA HD HH HV.
  change (replicate 68 0) with (replicate 66 0 ++ [0] ++ [0]).
  rewrite st_bytes_app by done. cbn [mbind option_bind].
  change (replicate 66 0 ++ [0] ++ [0])
    with (replicate 48 0 ++ replicate 8 0 ++ (replicate 8 0 ++ replicate 4 0)).
  rewrite st_bytes_app by done. cbn [mbind option_bind]. rewrite (app_assoc _ H).
  rewrite st_bytes_app by (rewrite ?Zlen_app, ?HH; done). cbn [mbind option_bind].
  change (replicate 4 0) with (replicate 3 0 ++ [0] ++ []).
  rewrite (app_assoc V), (app_assoc _ (V ++ _)).
  rewrite st_bytes_app by (rewrite ?Zlen_app, ?HH, ?HV; done). cbn [mbind option_bind].
  rewrite <-!app_assoc.
  change (replicate 48 0) with (replicate 32 0 ++ replicate 8 0 ++ replicate 8 0).
  rewrite <-!app_assoc, st_bytes_app by done. cbn [mbind option_bind].
  rewrite (app_assoc _ A). rewrite st_bytes_app by (rewrite ?Zlen_app, ?HA; done).
  by rewrite <-!app_assoc.
Qed.

Lemma stamp_filled t A D H V : Zlen A = 8 -> Zlen D = 8 -> Zlen H = 8 -> Zlen V = 8 ->
  stamp_addr t (replicate 32 0 ++ A ++ D ++ H ++ V ++ replicate 4 0)
  = le_bytes 4 PTZ_PHOTOELECTRICITY_NO ++ le_bytes 4 PTZ_SYS_NO ++ le_bytes 8 t
    ++ replicate 16 0 ++ A ++ D ++ H ++ V ++ le_bytes 2 PTZ_USER_ID ++ [0; 0].
Proof.
  intros HA HD HH HV. unfold stamp_addr.
  assert (replicate 32 0 ++ A ++ D ++ H ++ V ++ replicate 4 0
          = replicate 16 0 ++ (replicate 16 0 ++ A ++ D ++ H ++ V) ++ replicate 2 0 ++ [0; 0]) as ->.
  { by rewrite <-!app_assoc. }
  rewrite drop_app_length' by done. unfold Zlen in *.
  rewrite take_app_length' by (rewrite !length_app, length_replicate; lia).
  rewrite (app_assoc _ _ (replicate 2 0 ++ _)), (app_assoc _ (replicate 2 0)).
  rewrite drop_app_length' by (rewrite !length_app, !length_replicate; lia).
  by rewrite <-!app_assoc.
Qed.

Lemma d_bytes_ok x : bytes_ok (d_bytes x).
Proof. apply le_bytes_ok. Qed.

Lemma setPTZ0_spec h v a d w :
  setPTZ0 send gettimeofday h v a d w
  = head_message PTZ_COMMAND_ADDR (angle_payload h v a d) w.
Proof.
  pose proof (addr_fill (d_bytes (d_round32 a)) (d_bytes (d_round32 d)) (d_bytes (d_round32 h))
    (d_bytes (d_round32 v)) (Zlen_d_bytes _) (Zlen_d_bytes _) (Zlen_d_bytes _) (Zlen_d_bytes _)) as E.
  unfold setPTZ0, st8. cbv zeta.
  change (zeros ptz_msgid_0x03_addr) with (replicate 68 0). change (u8 0) with 0.
  repeat match goal with
  | |- context [offsetof ptz_msgid_0x03_addr ?n] =>
      let x := eval vm_compute in (offsetof ptz_msgid_0x03_addr n) in
      change (offsetof ptz_msgid_0x03_addr n) with x
  end.
  repeat (apply bind_Some in E as (? & E1 & E); rewrite E1; cbn [mbind option_bind]; clear E1).
  rewrite E. cbn [mbind option_bind].
  apply (command_send_spec (λ S send, send_ptz_control_addr send) ptz_msgid_0x03_addr _ stamp_addr).
  - exact addr_sends.
  - rewrite !bytes_ok_app. repeat split_and; first [apply d_bytes_ok|by_eval].
  - rewrite !Zlen_app, !Zlen_d_bytes. by_eval.
  - intros t. unfold angle_payload.
    by rewrite stamp_filled by apply Zlen_d_bytes.
Qed.
End actions.

(** ** What one turn does *)

Section turn.
Context {S : Type} (send : list Z -> S -> option S).
Context (gettimeofday : S -> timeval * S) (sleep : Z -> S -> S).
Context (sort : list RadarObj -> list RadarObj).
Context (sin cos abs : double -> double) (atan2 pow : double -> double -> double).

Local Abbreviation run7 := (ai_alg_run7 send gettimeofday sleep sort sin cos abs atan2 pow).
Local Abbreviation switch := (guide_switch send gettimeofday sleep sort sin cos abs atan2 pow).
Local Abbreviation do := (acts send gettimeofday sleep).

(** To guide by the radar is to leave the tracking, turn to the track and wait. *)
Definition radar_actions (o : RadarObj) : list head_action :=
  [act_stop;
   act_angle (if dlt (ro_azimuth o) (d_of_Z 0) then dadd (d_of_Z 360) (ro_azimuth o) else d_of_Z 0)
     (ro_elevation o) (dsqrt (dadd (dmul (ro_x o) (ro_x o)) (dmul (ro_y o) (ro_y o)))) (ro_z o);
   act_sleep 5].

Definition tracer_actions (o : TracerObj) (dp dt : double) : list head_action :=
  let '((x, y, z), (a, e)) :=
    calculateCoordinate sin cos abs atan2 pow (d_lit 22596960 1000000, d_lit 113998050 1000000)
      (to_droneLatitude o, to_droneLongitude o) (to_droneHeight o) in
  let h := to_droneHeight o in
  [act_angle (d_round32 (dadd a dp)) (d_round32 (dsub e dt)) h
     (dsqrt (dadd (dadd (dmul x x) (dmul y y)) (dmul h h)))].

Definition radar_choice (pack : list Z) (g : Z) : option (option RadarObj * Z) :=
  '(_, objs) ← radar_read pack [];
  let '(r, o, g) := radar_2ptz sort objs no_radar_obj (-1) g in
  Some (if 0 <? r then Some o else None, g).

Definition tracer_choice (read : list Z -> list TracerObj -> option (Z * list TracerObj))
    (pack : list Z) : option (option TracerObj) :=
  '(_, objs) ← read pack [];
  let '(r, o) := tracer_2ptz objs no_tracer_obj in
  Some (if 0 <? r then Some o else None).

Definition guide_actions (pack : list Z) : option (list head_action) :=
  kind ← ld_le 4 pack 0;
  if i32 kind =? TRACK_INFO_RADAR then
    '(o, _) ← radar_choice pack (-1); Some (from_option radar_actions [] o)
  else if i32 kind =? TRACK_INFO_TRACER_P_REMOTE_ID then
    o ← tracer_choice tracerR_read pack;
    Some (from_option (λ o, tracer_actions o (d_lit 9786 100) (dneg (d_lit 16 100))) [] o)
  else if i32 kind =? TRACK_INFO_TRACER_P_DRONE_ID then
    o ← tracer_choice tracerD_read pack;
    Some (from_option (λ o, tracer_actions o (d_lit 9786 100) (d_lit 16 100)) [] o)
  else Some [].

Definition same_reports (s s' : ai_state) : Prop :=
  realtime_pa_t s' = realtime_pa_t s /\ realtime_status s' = realtime_status s
  /\ realtime_dev_ext s' = realtime_dev_ext s /\ realtime_sserach s' = realtime_sserach s
  /\ realtime_target s' = realtime_target s /\ realtime_strack s' = realtime_strack s
  /\ realtime_targets s' = realtime_targets s.

(** Guiding by the radar, for any designated track. *)
Lemma radarGuide_run pack ptz_id g w :
  radarGuide send gettimeofday sleep sort pack ptz_id g w
  = '(_, objs) ← radar_read pack [];
    let '(r, o, g) := radar_2ptz sort objs no_radar_obj ptz_id g in
    w ← do (if 0 <? r then radar_actions o else []) w; Some (g, w).
Proof.
  unfold radarGuide. destruct (radar_read pack []) as [[r l]|] eqn:Er; [|done].
  assert (r = 0) as -> by (unfold radar_read in Er; repeat (apply bind_Some in Er as (? & _ & Er)); congruence).
  cbn [mbind option_bind Z.ltb Z.compare].
  destruct (radar_2ptz sort l no_radar_obj ptz_id g) as [[r o] g'].
  destruct (0 <? r); [|done].
  unfold StoppingTracking. rewrite track_command_spec by lia. cbn [radar_actions acts act].
  destruct (head_message send gettimeofday PTZ_COMMAND_SERACH_TRACK (track_payload 3) w); [|done].
  cbn [mbind option_bind]. rewrite setPTZ0_spec.
  by destruct (head_message send gettimeofday PTZ_COMMAND_ADDR _ _).
Qed.

Lemma radarGuide_spec pack g w :
  radarGuide send gettimeofday sleep sort pack (-1) g w
  = '(o, g) ← radar_choice pack g;
    w ← do (from_option radar_actions [] o) w; Some (g, w).
Proof.
  rewrite radarGuide_run. unfold radar_choice. destruct (radar_read pack []) as [[r l]|]; [|done].
  cbn [mbind option_bind]. destruct (radar_2ptz sort l no_radar_obj (-1) g) as [[r' o] g'].
  by destruct (0 <? r').
Qed.

Lemma tracer_turn_spec o dp dt w :
  tracer_turn send gettimeofday sin cos abs atan2 pow o dp dt w = do (tracer_actions o dp dt) w.
Proof.
  unfold tracer_turn, calibPTZ, tracer_actions.
  destruct (calculateCoordinate _ _ _ _ _ _ _ _) as [[[x y] z] [a e]].
  cbn [lookup list_lookup mbind option_bind]. rewrite setPTZ0_spec. cbn [acts act].
  by destruct (head_message _ _ _ _ _).
Qed.

Lemma tracer_guide_spec read pack dp dt w :
  (forall l r l', read pack l = Some (r, l') -> r = 0) ->
  ('(ret, obj_list) ← read pack [];
   if ret <? 0 then Some w else
   let '(ret, o) := tracer_2ptz obj_list no_tracer_obj in
   if 0 <? ret then tracer_turn send gettimeofday sin cos abs atan2 pow o dp dt w else Some w)
  = (o ← tracer_choice read pack; do (from_option (λ o, tracer_actions o dp dt) [] o) w).
Proof.
  intros Hr. unfold tracer_choice. destruct (read pack []) as [[r l]|] eqn:Er; [|done].
  apply Hr in Er as ->. cbn [mbind option_bind Z.ltb Z.compare].
  destruct (tracer_2ptz l no_tracer_obj) as [r o]. destruct (0 <? r); [|done].
  cbn [mbind option_bind from_option]. apply tracer_turn_spec.
Qed.

Lemma radar_choice_id pack g : fst <$> radar_choice pack g = fst <$> radar_choice pack (-1).
Proof.
  unfold radar_choice. destruct (radar_read pack []) as [[r l]|]; [|done].
  cbn [mbind option_bind]. unfold radar_2ptz. cbv zeta.
  by destruct (filter _ l) as [|? [|? ?]].
Qed.

Lemma read_zero_R pack l r l' : tracerR_read pack l = Some (r, l') -> r = 0.
Proof. unfold tracerR_read. intros H. repeat (apply bind_Some in H as (? & _ & H)). congruence. Qed.
Lemma read_zero_D pack l r l' : tracerD_read pack l = Some (r, l') -> r = 0.
Proof. unfold tracerD_read. intros H. repeat (apply bind_Some in H as (? & _ & H)). congruence. Qed.

Definition set_id (g : Z) (s : ai_state) : ai_state :=
  set_counters g (firstGuide s) (img_cnt s) (prev_cnt s) (track_cnt s) (prev_mode s) s.

Lemma guide_switch_spec pack s : exists g, forall w,
  switch pack s w = (l ← guide_actions pack; w ← do l w; Some (set_id g s, w)).
Proof.
  unfold guide_switch, guide_actions.
  assert (Eid : set_id (g_nID s) s = s) by by destruct s.
  destruct (ld_le 4 pack 0) as [kind|]; [|by exists 0]. cbn [mbind option_bind].
  destruct (i32 kind =? TRACK_INFO_RADAR).
  { pose proof (radar_choice_id pack (g_nID s)) as E.
    destruct (radar_choice pack (g_nID s)) as [[o g]|] eqn:E1,
      (radar_choice pack (-1)) as [[o' g']|]; try discriminate E.
    - injection E as <-. exists g. intros w. rewrite radarGuide_spec, E1. cbn [mbind option_bind].
      by destruct (do _ w).
    - exists 0. intros w. by rewrite radarGuide_spec, E1. }
  exists (g_nID s). intros w. rewrite Eid. destruct (i32 kind =? TRACK_INFO_TRACER_P_REMOTE_ID).
  { unfold tracerGuideR. rewrite (tracer_guide_spec _ _ _ _ _ (read_zero_R pack)).
    by destruct (tracer_choice tracerR_read pack). }
  destruct (i32 kind =? TRACK_INFO_TRACER_P_DRONE_ID); [|done].
  unfold tracerGuideD. rewrite (tracer_guide_spec _ _ _ _ _ (read_zero_D pack)).
  by destruct (tracer_choice tracerD_read pack).
Qed.

(** The reports have the sizes of their structures. *)
Record ai_ok (s : ai_state) : Prop := {
  ok_pa : Zlen (realtime_pa_t s) = sizeof ptz_msg_pitch_azimuth;
  ok_status : Zlen (realtime_status s) = sizeof ptz_msg_status;
  ok_ext : Zlen (realtime_dev_ext s) = sizeof ptz_msg_dev_ext_info;
  ok_sserach : Zlen (realtime_sserach s) = sizeof ptz_msg_dev_status_search;
  ok_target : Zlen (realtime_target s) = sizeof ptz_msg_dev_target_info;
  ok_strack : Zlen (realtime_strack s) = sizeof ptz_msg_dev_status_track;
  ok_targets : Zlen (realtime_targets s) = sizeof ptz_msg_target_pac
}.

(** The two numbers that decide: the head's mode and how many targets it sees. *)
Definition head_mode (s : ai_state) : Z := le_val (take 4 (drop 16 (realtime_status s))).
Definition head_targets (s : ai_state) : Z := le_val (take 4 (drop 4 (realtime_targets s))).

(** What one turn tells the head. *)
Definition turn_actions (mode cnt num : Z) (targets : option (list Z)) : option (list head_action) :=
  let release := if mode =? 1 then [act_stop] else [] in
  match targets with
  | None => Some release
  | Some pack =>
      if mode =? 0 then l ← guide_actions pack; Some (l ++ if num =? 0 then [] else [act_search])
      else if (mode =? 2) && (cnt mod 30 =? 0) then guide_actions pack
      else Some release
  end.

Lemma mode_read s : ai_ok s ->
  ld_le 4 (realtime_status s) (offsetof ptz_msg_status "work_mode") = Some (head_mode s)
  /\ ld_le 4 (realtime_targets s) (offsetof ptz_msg_target_pac "target_num") = Some (head_targets s).
Proof.
  intros [_ H1 _ _ _ _ H2]. unfold ld_le, ld_bytes, head_mode, head_targets.
  change (sizeof ptz_msg_status) with 32 in H1. change (sizeof ptz_msg_target_pac) with 20 in H2.
  change (offsetof ptz_msg_status "work_mode") with 16.
  change (offsetof ptz_msg_target_pac "target_num") with 4.
  by rewrite !bool_decide_eq_true_2 by lia.
Qed.

Lemma incr_Some x : x < 2 ^ 31 - 1 -> incr x = Some (x + 1).
Proof. intros. unfold incr. by destruct (Z.eqb_spec x (2 ^ 31 - 1)); [lia|]. Qed.

Lemma guide_idle_spec pack s : firstGuide s = true -> ai_ok s ->
  exists s', same_reports s s' /\ img_cnt s' = img_cnt s /\ track_cnt s' = track_cnt s
    /\ forall w, guide_idle send gettimeofday sleep sort sin cos abs atan2 pow 0 pack s w
       = (l ← guide_actions pack;
          w ← do (l ++ if head_targets s =? 0 then [] else [act_search]) w; Some (s', w)).
Proof.
  intros Hf Hok. destruct (mode_read s Hok) as [_ Hn]. destruct (guide_switch_spec pack s) as [g Hg].
  set (s' := set_counters g (firstGuide s) (img_cnt s) (img_cnt s) (track_cnt s) (prev_mode s) s).
  exists s'. split; [done|]. split; [done|]. split; [done|]. intros w. unfold guide_idle.
  rewrite Hf, Hg. cbn [Z.eqb andb orb].
  destruct (guide_actions pack) as [l|]; [|done]. cbn [mbind option_bind]. rewrite acts_app.
  destruct (do l w) as [w1|]; [|done]. cbn [mbind option_bind].
  change (set_counters _ _ _ _ _ _ (set_id g s)) with s'.
  change (realtime_targets s') with (realtime_targets s). rewrite Hn. cbn [mbind option_bind].
  destruct (head_targets s =? 0); [done|]. cbn [negb].
  unfold SearchAndTracking. rewrite track_command_spec by lia. cbn [acts act].
  by destruct (head_message _ _ _ _ _).
Qed.

Lemma guide_tracking_spec mode pack s : exists s',
  same_reports s s' /\ img_cnt s' = img_cnt s /\ track_cnt s' = track_cnt s
  /\ forall w, guide_tracking send gettimeofday sleep sort sin cos abs atan2 pow mode pack s w
     = (l ← if (mode =? 2) && negb (track_cnt s =? 0) && (Z.rem (track_cnt s) 30 =? 0)
            then guide_actions pack else Some [];
        w ← do l w; Some (s', w)).
Proof.
  unfold guide_tracking. destruct (_ && _).
  - destruct (guide_switch_spec pack s) as [g Hg]. by exists (set_id g s).
  - by exists s.
Qed.

(** One turn of the guidance. With the head's reports in place and counters that do not
    overflow, a turn sends what [turn_actions] says and nothing else: to leave the tracking
    when the head searches; with a target, the guidance of its kind when the head is idle,
    followed by the order to search when the head sees a target, and when it has tracked for
    a multiple of thirty turns without a break.  The wait of six pictures between two
    guidances and the mode before have no effect.  The reports do not change. *)
Lemma run7_actions s targets :
  ai_ok s -> img_cnt s < 2 ^ 31 - 1 -> 0 <= track_cnt s < 2 ^ 31 - 1 ->
  exists s', same_reports s s' /\ img_cnt s' = img_cnt s + 1
    /\ track_cnt s' = (if head_mode s =? 2 then track_cnt s + 1 else 0)
    /\ forall w, run7 s targets w
       = (l ← turn_actions (head_mode s) (track_cnt s') (head_targets s) targets;
          w ← do l w; Some (0, s', w)).
Proof.
  intros Hok Hi Ht. destruct (mode_read s Hok) as [Hm Hn].
  unfold ai_alg_run7. rewrite (incr_Some _ Hi), Hm. cbn [mbind option_bind].
  rewrite (incr_Some (track_cnt s)) by lia.
  set (mode := head_mode s) in *. set (track := if mode =? 2 then track_cnt s + 1 else 0).
  assert (Etr : (if mode =? 2 then Some (track_cnt s + 1) else Some 0) = Some track)
    by by destruct (mode =? 2).
  rewrite Etr. cbn [mbind option_bind].
  assert (Hstop : forall w, (if mode =? 1 then StoppingTracking send gettimeofday w else Some w)
    = do (if mode =? 1 then [act_stop] else []) w).
  { intros w. destruct (mode =? 1); [|done]. unfold StoppingTracking.
    rewrite track_command_spec by lia. cbn [acts act]. by destruct (head_message _ _ _ _ _). }
  setoid_rewrite Hstop. clear Hstop.
  set (s1 := set_counters _ _ _ _ _ _ s).
  destruct targets as [pack|].
  2:{ exists s1. repeat split. }
  destruct (Z.eqb_spec mode 0) as [E0|E0].
  - destruct (guide_idle_spec pack s1) as (s2 & Hs & Hi2 & Ht2 & Hg).
    { unfold s1. by rewrite E0. }
    { by destruct Hok. }
    exists s2. split; [exact Hs|]. split; [by rewrite Hi2|]. split; [by rewrite Ht2|]. intros w.
    rewrite E0. cbn [Z.eqb acts mbind option_bind]. rewrite Hg. unfold turn_actions. cbn [Z.eqb].
    change (head_targets s1) with (head_targets s).
    destruct (guide_actions pack) as [l|]; [|done]. cbn [mbind option_bind].
    by destruct (do _ w).
  - destruct (guide_tracking_spec mode pack s1) as (s2 & Hs & Hi2 & Ht2 & Hg).
    exists s2. split; [exact Hs|]. split; [by rewrite Hi2|]. split; [by rewrite Ht2|]. intros w.
    unfold guide_idle. destruct (Z.eqb_spec mode 0) as [|_]; [done|]. cbn [andb mbind option_bind].
    unfold turn_actions. rewrite Ht2.
    destruct (Z.eqb_spec mode 0) as [|_]; [done|]. change (track_cnt s1) with track in *.
    assert (Hc : (mode =? 2) && negb (track =? 0) && (Z.rem track 30 =? 0)
                 = (mode =? 2) && (track mod 30 =? 0)).
    { unfold track. destruct (mode =? 2); [|done]. rewrite Z.rem_mod_nonneg by lia.
      by destruct (Z.eqb_spec (track_cnt s + 1) 0); [lia|]. }
    assert (H1 : mode = 2 -> (if mode =? 1 then [act_stop] else []) = []) by by intros ->.
    destruct (do (if mode =? 1 then [act_stop] else []) w) as [w1|] eqn:Ew; cbn [mbind option_bind].
    + rewrite Hg, Hc. destruct (Z.eqb_spec mode 2) as [E2|E2]; cbn [andb].
      * rewrite H1 in * by done. injection Ew as <-. destruct (track mod 30 =? 0); [|done].
        destruct (guide_actions pack) as [l|]; [|done]. cbn [mbind option_bind].
        by destruct (do l w).
      * cbn [mbind option_bind acts]. by rewrite Ew.
    + destruct (Z.eqb_spec mode 2) as [E2|E2]; [by rewrite H1 in Ew|]. cbn [andb mbind option_bind].
      by rewrite Ew.
Qed.
End turn.

(** ** What the handlers read *)

Section reports.
Context (c l : Z) (b : list Z) (s : ai_state).
Let m : ptz_protocol_msg := {| command := c; msglen := l; msg := Some b |}.

Lemma copy_report_Some st off : 0 <= off -> 0 <= sizeof st ->
  is_Some (copy_report st b off) <-> off + sizeof st <= Zlen b.
Proof. intros. unfold copy_report. rewrite ld_bytes_Some. lia. Qed.

Lemma pitch_azimuth_safe : is_Some (ptz_pitch_azimuth m s) <-> 56 <= Zlen b.
Proof.
  unfold ptz_pitch_azimuth. cbn [msg m default]. cbv zeta. unfold id.
  rewrite <-(copy_report_Some ptz_msg_pitch_azimuth 0) by by_eval.
  destruct (copy_report _ _ _); cbn [mbind option_bind]; split; intros [? ?]; done || by eexists.
Qed.

Lemma dev_status_safe : l = Zlen b -> l < 2 ^ 31 -> is_Some (ptz_dev_status m s) <-> 32 <= Zlen b.
Proof.
  intros Hl Hb. pose proof (Zlen_nonneg b). unfold ptz_dev_status. cbn [msg msglen m default]. cbv zeta. unfold id.
  rewrite Z.max_r, Hl, ld_bytes_all, u32_id by lia. cbn [mbind option_bind].
  change (sizeof ptz_msg_status) with 32. destruct (Z.leb_spec (Zlen b) 32) as [Hle|Hgt].
  - rewrite <-(copy_report_Some ptz_msg_status 0) by by_eval.
    destruct (copy_report _ _ _); cbn [mbind option_bind]; split; intros [? ?]; done || by eexists.
  - split; [lia|]. intros _. by eexists.
Qed.

Lemma target_info_safe num : ld_le 4 b 4 = Some num -> 0 <= num ->
  is_Some (ptz_target_info m s) <-> 20 <= Zlen b /\ 12 + 60 * num <= Zlen b.
Proof.
  intros Hn H0. unfold ptz_target_info. cbn [msg m default]. cbv zeta. unfold id.
  change (offsetof ptz_msg_target_pac "target_num") with 4. rewrite Hn.
  pose proof (copy_report_Some ptz_msg_target_pac 0 ltac:(by_eval) ltac:(by_eval)) as H1.
  pose proof (ld_bytes_Some b 12 (num * sizeof ptz_msg_target_info)) as H2.
  change (sizeof ptz_msg_target_pac) with 20 in H1.
  change (sizeof ptz_msg_target_info) with 60 in *.
  destruct (copy_report _ _ _); cbn [mbind option_bind].
  - destruct (ld_bytes b 12 _); cbn [mbind option_bind].
    + split; [|by eexists]. intros _. split; [|destruct H2 as [[? ?] _]; [by eexists|lia]].
      destruct H1 as [H1 _]. by apply H1; eexists.
    + split; [by intros [? ?]|]. intros [_ H]. destruct H2 as [_ [? ?]]; [lia|done].
  - split; [by intros [? ?]|]. intros [H _]. destruct H1 as [_ [? ?]]; [lia|done].
Qed.
End reports.

Lemma copy_report_len st b off r : copy_report st b off = Some r -> Zlen r = sizeof st.
Proof. apply ld_bytes_len. Qed.

(** Splits the run of a handler that returned. *)
Ltac handler_cases :=
  repeat match goal with
  | H : (_ ≫= _) = Some _ |- _ => apply bind_Some in H as (? & ? & H)
  | H : (if ?c then _ else _) = Some _ |- _ => destruct c
  | H : Some _ = Some _ |- _ => injection H as <- <-
  end.

Lemma handlers_typed m s r s' :
  ai_ok s ->
  ptz_pitch_azimuth m s = Some (r, s') \/ ptz_dev_status m s = Some (r, s')
  \/ ptz_dev_ext_info_0x08 m s = Some (r, s') \/ ptz_target_info m s = Some (r, s') ->
  ai_ok s'.
Proof.
  intros [H1 H2 H3 H4 H5 H6 H7] [H|[H|[H|H]]];
    [unfold ptz_pitch_azimuth in H|unfold ptz_dev_status in H
    |unfold ptz_dev_ext_info_0x08 in H|unfold ptz_target_info in H];
    cbv zeta in H; handler_cases; split;
    first [assumption|eapply copy_report_len; eassumption].
Qed.

(** An idle head and a package of the radar. *)
Lemma radar_turn_actions sort `{!SortsBy radar_compare sort} sin cos abs atan2 pow pack n cnt num :
  Zlen pack = sizeof_radar_track -> ld_le 4 pack 0 = Some TRACK_INFO_RADAR ->
  ld_le 1 pack (radar_track_at "trackObjNum") = Some n -> 0 <= n <= ALINK_TARGET_MAX ->
  exists objs l, radar_read pack [] = Some (0, objs)
    /\ (filter useful objs = [] /\ l = []
        \/ exists o, most_dangerous objs o /\ l = radar_actions o)
    /\ turn_actions sort sin cos abs atan2 pow 0 cnt num (Some pack)
       = Some (l ++ if num =? 0 then [] else [act_search]).
Proof.
  intros Hl Hk Hn Hr. destruct (radar_read_ok pack [] n Hl Hn Hr) as [objs Hobjs]. exists objs.
  unfold turn_actions, guide_actions, radar_choice. rewrite Hk, Hobjs.
  cbn [Z.eqb mbind option_bind]. change (i32 TRACK_INFO_RADAR =? TRACK_INFO_RADAR) with true.
  cbn match. destruct (radar_2ptz sort objs no_radar_obj (-1) (-1)) as [[r o] g] eqn:E.
  destruct (radar_2ptz_danger sort objs no_radar_obj (-1) (-1) r o g eq_refl E)
    as [[-> Hu]|[Hr0 Hd]].
  - exists []. split; [done|]. split; [by left|done].
  - exists (radar_actions o). split; [done|]. split; [by right; exists o|].
    destruct (Z.ltb_spec 0 r); [done|lia].
Qed.

(** ** Properties *)


(** ** Witnesses *)

(** A world that counts seconds and keeps what was sent. *)
Definition demo_net : Type := Z * list (list Z).
Definition demo_send (bs : list Z) (w : demo_net) : option demo_net := Some (w.1, w.2 ++ [bs]).
Definition demo_clock (w : demo_net) : timeval * demo_net :=
  ({| tv_sec := w.1; tv_usec := 0 |}, (w.1 + 1, w.2)).
Definition demo_sleep (n : Z) (w : demo_net) : demo_net := (w.1 + n, w.2).

(** A track at -10 degrees and an elevation of 5, at (30, 40). *)
Definition demo_item (id alive threat : Z) : list Z :=
  [id] ++ replicate 5 0 ++ [1; 0] ++ le_bytes 2 (-640) ++ replicate 4 0 ++ le_bytes 2 320
  ++ replicate 10 0 ++ le_bytes 2 alive ++ le_bytes 4 1920 ++ le_bytes 4 2560
  ++ replicate 46 0 ++ le_bytes 2 threat ++ replicate 6 0.
Definition demo_tracks : list Z := [0; 2; 0; 0; 0] ++ demo_item 3 20 2 ++ demo_item 7 12 1.

