(* ===== verification/AiVision.v ===== *)
(** * Guiding by the picture ([src/srv/algs/ai_alg/ai_main.cpp])

    The variants of the guidance that look at the picture: a network finds the objects in it,
    a tracker joins them to tracks, and the head is told to lock on a track; when the tracks
    are lost for a while, the head is guided by the radar or the tracer again.  The user may
    designate a radar track by its number.  [detect] stands for what finds the
    tracks in a picture; [Vision] puts the tracker of the vision library in its place. *)

From stdpp Require Import sorting.
From S2P Require Import Prelude Arrays CFloat Kalman Tracker Layout CString AlinkTrack AlinkTarget PtzProtocol EthLinkPtz PtzControl Guide AiMain.
Local Open Scope string_scope.
Local Open Scope list_scope.
Local Open Scope Z_scope.

(** ** Data *)

(** The static objects of these variants; [g_nID] is shared with [ai_alg_run7]. *)
Record run_state := {
  rs_nID : Z; img_count : Z; no_obj_count : Z; g_bInit : bool; isGuide : bool;
  g_bFirst : bool; g_count : Z
}.

Definition run_init : run_state :=
  {| rs_nID := -1; img_count := 0; no_obj_count := 0; g_bInit := false; isGuide := false;
     g_bFirst := true; g_count := 0 |}.

Definition set_nID (x : Z) (s : run_state) : run_state :=
  {| rs_nID := x; img_count := img_count s; no_obj_count := no_obj_count s;
     g_bInit := g_bInit s; isGuide := isGuide s; g_bFirst := g_bFirst s; g_count := g_count s |}.
Definition set_img_count (x : Z) (s : run_state) : run_state :=
  {| rs_nID := rs_nID s; img_count := x; no_obj_count := no_obj_count s;
     g_bInit := g_bInit s; isGuide := isGuide s; g_bFirst := g_bFirst s; g_count := g_count s |}.
Definition set_no_obj (x : Z) (s : run_state) : run_state :=
  {| rs_nID := rs_nID s; img_count := img_count s; no_obj_count := x;
     g_bInit := g_bInit s; isGuide := isGuide s; g_bFirst := g_bFirst s; g_count := g_count s |}.
Definition set_bInit (s : run_state) : run_state :=
  {| rs_nID := rs_nID s; img_count := img_count s; no_obj_count := no_obj_count s;
     g_bInit := true; isGuide := isGuide s; g_bFirst := g_bFirst s; g_count := g_count s |}.
Definition set_isGuide (x : bool) (s : run_state) : run_state :=
  {| rs_nID := rs_nID s; img_count := img_count s; no_obj_count := no_obj_count s;
     g_bInit := g_bInit s; isGuide := x; g_bFirst := g_bFirst s; g_count := g_count s |}.
Definition set_bFirst (s : run_state) : run_state :=
  {| rs_nID := rs_nID s; img_count := img_count s; no_obj_count := no_obj_count s;
     g_bInit := g_bInit s; isGuide := isGuide s; g_bFirst := false; g_count := g_count s |}.
Definition set_g_count (x : Z) (s : run_state) : run_state :=
  {| rs_nID := rs_nID s; img_count := img_count s; no_obj_count := no_obj_count s;
     g_bInit := g_bInit s; isGuide := isGuide s; g_bFirst := g_bFirst s; g_count := x |}.

(** ** The code: points of a scan *)

Fixpoint scan_points (n : nat) (i step_gap region_size : Z) (start_point : double * double)
  : option (list (double * double)) :=
  match n with
  | O => Some []
  | S n' =>
      k ← int_of (i * step_gap);
      let x := fadd start_point.1 (f_of_Z k) in
      let y1 := start_point.2 in
      let y2 := fadd start_point.2 (f_of_Z region_size) in
      points ← scan_points n' (i + 1) step_gap region_size start_point;
      Some ((if Z.rem i 2 =? 0 then [(x, y1); (x, y2)] else [(x, y2); (x, y1)]) ++ points)
  end.

Definition ScanRegionPoints (region_size step_gap : Z) (start_point : double * double)
  : option (list (double * double)) :=
  if step_gap =? 0 then None else
  steps ← int_of (Z.quot region_size step_gap);
  steps1 ← int_of (steps + 1);
  scan_points (Z.to_nat steps1) 0 step_gap region_size start_point.

(** ** The code: the first two variants, which read the kind of the target only *)

Definition target_kind (kinds : list Z) (targets : option (list Z)) : option Z :=
  match targets with
  | None => Some (-1)
  | Some pack =>
      data_dev_type ← ld_le 4 pack 0;
      Some (if bool_decide (i32 data_dev_type ∈ kinds) then 0 else -1)
  end.

Definition ai_alg_run0 : option (list Z) -> option Z :=
  target_kind [TRACK_INFO_RADAR; TRACK_INFO_TRACER_P_REMOTE_ID; TRACK_INFO_TRACER_P_DRONE_ID].
Definition ai_alg_run : option (list Z) -> option Z :=
  target_kind [TRACK_INFO_RADAR; TRACK_INFO_TRACER_P_REMOTE_ID; TRACK_INFO_TRACER_P_DRONE_ID].

(** The number of the track that the user designates. *)
Definition user_objid (pack : list Z) : option Z :=
  ld8 pack (offsetof user_track_target_packages "utt" + offsetof user_track_target "objid").

Section vision.
Context {S Img : Type} (send : list Z -> S -> option S).
Context (gettimeofday : S -> timeval * S) (sleep : Z -> S -> S).
Context (sort : list RadarObj -> list RadarObj).
Context (sin cos abs : double -> double) (atan2 pow : double -> double -> double).
Context (make_pipe : S -> S) (rows cols : Img -> Z).
Context (detect : Img -> S -> option (list Object * list STrack * S)).

Local Abbreviation stop := (StoppingTracking send gettimeofday).
Local Abbreviation radar := (radarGuide send gettimeofday sleep sort).
Local Abbreviation tracerR := (tracerGuideR send gettimeofday sin cos abs atan2 pow).
Local Abbreviation tracerD := (tracerGuideD send gettimeofday sin cos abs atan2 pow).

(** ** The code: locking on a track *)

Definition fRationX : double := fdiv (f_of_Z 704) (f_of_Z 640).
Definition fRationY : double := fdiv (f_of_Z 576) (f_of_Z 480).

Definition PTZTracking (left right top bottom : Z) (w : S) : option S :=
  let off := offsetof ptz_msg_manual_lock_target in
  b ← st_le 4 (zeros ptz_msg_manual_lock_target) (off "track_vedio_source") 0;
  v ← int_of (top + bottom);
  y ← d_to_u32 (fmul (f_of_Z (Z.quot v 2)) fRationY);
  b ← st_le 4 b (off "targegt_cor_y") y;
  h ← int_of (left + right);
  x ← d_to_u32 (fmul (f_of_Z (Z.quot h 2)) fRationX);
  b ← st_le 4 b (off "target_cor_x") x;
  command_send gettimeofday (send_ptz_control_manual_lock_target send) b w.

(** The box of a track, scaled from the size of the picture to 640 x 480. *)
Definition lock_track (img : Img) (t : STrack) (w : S) : option S :=
  let scale_w := ddiv (d_of_Z 640) (d_of_Z (cols img)) in
  let scale_h := ddiv (d_of_Z 480) (d_of_Z (rows img)) in
  let b := tlwh t in
  x1 ← d_to_i32 (dmul (v4_0 b) scale_w);
  x2 ← d_to_i32 (dmul (fadd (v4_0 b) (v4_2 b)) scale_w);
  y1 ← d_to_i32 (dmul (v4_1 b) scale_h);
  y2 ← d_to_i32 (dmul (fadd (v4_1 b) (v4_3 b)) scale_h);
  PTZTracking x1 x2 y1 y2 w.

(** Whether the box of a track is more than four pixels. *)
Definition big_track (t : STrack) : bool :=
  dlt (d_of_Z 4) (fmul (v4_2 (tlwh t)) (v4_3 (tlwh t))).

(** Track [i] and those behind it; the object with the number of the track is read. *)
Fixpoint guide_tracks (img : Img) (objs : list Object) (count : Z) (i : nat)
    (output_stracks : list STrack) (guide : bool) (w : S) : option (bool * S) :=
  match output_stracks with
  | [] => Some (guide, w)
  | t :: rest =>
      if big_track t then
        o ← objs !! i;
        let frameGuide := (Z.rem count 16 =? 0) && (label o =? 0) in
        w ← if frameGuide then w ← stop w; lock_track img t w else Some w;
        if guide && negb frameGuide then
          w ← stop w; w ← lock_track img t w; guide_tracks img objs count (Datatypes.S i) rest false w
        else guide_tracks img objs count (Datatypes.S i) rest guide w
      else guide_tracks img objs count (Datatypes.S i) rest guide w
  end.

(** ** The code: the variants *)

(** [g_nID] is the state that changes; a user's target is left to the caller. *)
Definition guide_kind (pack : list Z) (ptz_id g : Z) (w : S) : option (Z * S) :=
  kind ← ld_le 4 pack 0;
  if i32 kind =? TRACK_INFO_RADAR then radar pack ptz_id g w
  else if i32 kind =? TRACK_INFO_TRACER_P_REMOTE_ID then w ← tracerR pack w; Some (g, w)
  else if i32 kind =? TRACK_INFO_TRACER_P_DRONE_ID then w ← tracerD pack w; Some (g, w)
  else Some (g, w).

(** The count of pictures without a track. *)
Definition count_lost (output_stracks : list STrack) (s : run_state) : option run_state :=
  n ← if bool_decide (output_stracks = []) then incr (no_obj_count s) else Some 0;
  Some (set_no_obj n s).

Definition track_turn (img : Img) (objs : list Object) (output_stracks : list STrack)
    (s : run_state) (w : S) : option (run_state * S) :=
  '(g, w) ← guide_tracks img objs (img_count s) 0 output_stracks (isGuide s) w;
  n ← incr (img_count s);
  Some (set_img_count n (set_isGuide g s), w).

Definition run1_guide (targets : option (list Z)) (s : run_state) (w : S)
  : option (run_state * S) :=
  match targets with
  | Some pack => '(g, w) ← guide_kind pack (-1) (rs_nID s) w; Some (set_nID g s, w)
  | None => Some (s, w)
  end.

Definition ai_alg_run1 (s : run_state) (img : Img) (targets : option (list Z)) (w : S)
  : option (Z * run_state * S) :=
  '(s, w) ← if g_bInit s then Some (s, w) else run1_guide targets (set_bInit s) (make_pipe w);
  '(objs, output_stracks, w) ← detect img w;
  s ← count_lost output_stracks s;
  '(s, w) ← if 16 <? no_obj_count s then
              run1_guide targets (set_isGuide true (set_no_obj 0 s)) w
            else Some (s, w);
  '(s, w) ← track_turn img objs output_stracks s w;
  Some (0, s, w).

(** With the user's choice: the result tells whether the target is a user's. *)
Definition run2_guide (targets : option (list Z)) (s : run_state) (w : S)
  : option (bool * run_state * S) :=
  match targets with
  | Some pack =>
      kind ← ld_le 4 pack 0;
      if i32 kind =? TRACK_INFO_FROM_USER then
        id ← user_objid pack; w ← stop w; Some (true, set_nID id s, w)
      else '(g, w) ← guide_kind pack (rs_nID s) (rs_nID s) w; Some (false, set_nID g s, w)
  | None => Some (false, s, w)
  end.

Definition run2_user (targets : option (list Z)) (s : run_state) (w : S)
  : option (run_state * S) :=
  match targets with
  | Some pack =>
      kind ← ld_le 4 pack 0;
      if i32 kind =? TRACK_INFO_FROM_USER then
        id ← user_objid pack; w ← stop w; Some (set_nID id s, w)
      else Some (s, w)
  | None => Some (s, w)
  end.

(** The two variants differ in the number of pictures only. *)
Definition run2 (limit : Z) (s : run_state) (img : Img) (targets : option (list Z)) (w : S)
  : option (Z * run_state * S) :=
  '(user, s, w) ← if g_bInit s then '(s, w) ← run2_user targets s w; Some (false, s, w)
                  else run2_guide targets (set_bInit s) (make_pipe w);
  if user : bool then Some (1, s, w) else
  '(objs, output_stracks, w) ← detect img w;
  s ← count_lost output_stracks s;
  '(user, s, w) ← if limit <? no_obj_count s then
                    run2_guide targets (set_isGuide true (set_no_obj 0 s)) w
                  else Some (false, s, w);
  if user : bool then Some (2, s, w) else
  '(s, w) ← track_turn img objs output_stracks s w;
  Some (0, s, w).

Definition ai_alg_run2 : run_state -> Img -> option (list Z) -> S -> option (Z * run_state * S) :=
  run2 16.
Definition ai_alg_run2_id
  : run_state -> Img -> option (list Z) -> S -> option (Z * run_state * S) := run2 2.

(** A drone-id package falls through to the user's case. *)
Definition run3_first (pack : list Z) (s : run_state) (w : S) : option (bool * run_state * S) :=
  kind ← ld_le 4 pack 0;
  '(g, w) ← guide_kind pack (rs_nID s) (rs_nID s) w;
  let s := set_nID g s in
  if bool_decide (i32 kind ∈ [TRACK_INFO_TRACER_P_DRONE_ID; TRACK_INFO_FROM_USER]) then
    id ← user_objid pack; Some (true, set_nID id s, w)
  else Some (false, s, w).

Fixpoint run3_tracks (img : Img) (objs : list Object) (i : nat) (output_stracks : list STrack)
    (count : Z) (w : S) : option (Z * S) :=
  match output_stracks with
  | [] => Some (count, w)
  | t :: rest =>
      count ← incr count;
      w ← if big_track t then
            _ ← objs !! i;
            if count =? 1 then lock_track img t w else Some w
          else Some w;
      run3_tracks img objs (Datatypes.S i) rest count w
  end.

Definition ai_alg_run3 (s : run_state) (img : Img) (targets : option (list Z)) (w : S)
  : option (Z * run_state * S) :=
  '(s, w) ← if g_bInit s then
              match targets with
              | Some pack =>
                  kind ← ld_le 4 pack 0;
                  if i32 kind =? TRACK_INFO_FROM_USER then
                    id ← user_objid pack; Some (set_nID id s, w)
                  else Some (s, w)
              | None => Some (s, w)
              end
            else Some (set_bInit s, make_pipe w);
  '(user, s, w) ← match targets with
                  | Some pack =>
                      if g_bFirst s then run3_first pack (set_bFirst s) w else Some (false, s, w)
                  | None => Some (false, s, w)
                  end;
  if user : bool then Some (1, s, w) else
  '(objs, output_stracks, w) ← detect img w;
  '(n, w) ← run3_tracks img objs 0 output_stracks (img_count s) w;
  Some (0, set_img_count n s, w).

Definition tracerGuideD_N (tracer_targets : list Z) (w : S) : option S :=
  '(ret, obj_list) ← tracerD_read tracer_targets [];
  if ret <? 0 then Some w else
  let '(ret, o) := tracer_2ptz obj_list no_tracer_obj in
  if 0 <? ret then
    w ← stop w;
    let res := calibPTZ sin cos abs atan2 pow (d_lit 22596927 1000000) (d_lit 113998072 1000000)
                 (to_droneLatitude o) (to_droneLongitude o) (to_droneHeight o) in
    a ← res !! 3%nat;
    e ← res !! 4%nat;
    range ← res !! 5%nat;
    let p := d_round32 (dadd a (d_lit 12683 100)) in
    let t := d_round32 (dsub e (d_lit 64 100)) in
    setPTZ0 send gettimeofday p t (to_droneHeight o) range w
  else Some w.

(** The picture is not used; [sleep( 1.5 )] waits for one second. *)
Definition ai_alg_run3_nj (s : run_state) (targets : option (list Z)) (w : S)
  : option (Z * run_state * S) :=
  w ← if g_count s =? 0 then StopSDT send gettimeofday w else Some w;
  match targets with
  | Some pack =>
      w ← StartSDT send gettimeofday 100 200 0 10 w;
      n ← incr (g_count s);
      let s := set_g_count n s in
      kind ← ld_le 4 pack 0;
      if i32 kind =? TRACK_INFO_FROM_USER then
        id ← user_objid pack; w ← stop w; Some (1, set_nID id s, w)
      else
        '(g, w) ← if i32 kind =? TRACK_INFO_TRACER_P_DRONE_ID then
                    w ← tracerGuideD_N pack w; Some (rs_nID s, w)
                  else guide_kind pack (rs_nID s) (rs_nID s) w;
        Some (0, set_nID g s, sleep 1 w)
  | None => Some (0, s, w)
  end.
End vision.

(** ** Locking on a box *)

(** The position is sent in the coordinates of a picture of 704 x 576 pixels: exactly the
    scaled centre, rounded down, when the centre lies in the picture; a centre that is left
    of it or above it has no representation. *)
Lemma scale_x c : 0 <= c <= 640 -> d_to_u32 (fmul (f_of_Z c) fRationX) = Some (11 * c / 10).
Proof.
  assert (Forall (λ c, d_to_u32 (fmul (f_of_Z c) fRationX) = Some (11 * c / 10)) (seqZ 0 641)) as H
    by (by_eval).
  intros Hc. rewrite Forall_forall in H. apply H, elem_of_seqZ. lia.
Qed.

Lemma scale_y c : 0 <= c <= 480 -> d_to_u32 (fmul (f_of_Z c) fRationY) = Some (6 * c / 5).
Proof.
  assert (Forall (λ c, d_to_u32 (fmul (f_of_Z c) fRationY) = Some (6 * c / 5)) (seqZ 0 481)) as H
    by (by_eval).
  intros Hc. rewrite Forall_forall in H. apply H, elem_of_seqZ. lia.
Qed.

Lemma scale_negative c : -640 <= c < 0 ->
  d_to_u32 (fmul (f_of_Z c) fRationX) = None /\ d_to_u32 (fmul (f_of_Z c) fRationY) = None.
Proof.
  assert (Forall (λ c, d_to_u32 (fmul (f_of_Z c) fRationX) = None
    /\ d_to_u32 (fmul (f_of_Z c) fRationY) = None) (seqZ (-640) 640)) as H
    by (by_eval).
  intros Hc. rewrite Forall_forall in H. apply H, elem_of_seqZ. lia.
Qed.

Definition lock_payload (x y t : Z) : list Z :=
  le_bytes 4 PTZ_PHOTOELECTRICITY_NO ++ le_bytes 8 t ++ replicate 4 0
  ++ le_bytes 4 x ++ le_bytes 4 y ++ replicate 4 0.

Lemma int_of_Some n : - 2 ^ 31 <= n < 2 ^ 31 -> int_of n = Some n.
Proof.
  intros. unfold int_of. destruct (Z.leb_spec (- 2 ^ 31) n), (Z.ltb_spec n (2 ^ 31)); done || lia.
Qed.

Section locking.
Context {S : Type} (send : list Z -> S -> option S) (gettimeofday : S -> timeval * S).

Lemma lock_send x y w :
  (b ← st_le 4 (zeros ptz_msg_manual_lock_target) 12 0; b ← st_le 4 b 20 y;
   b ← st_le 4 b 16 x;
   command_send gettimeofday (send_ptz_control_manual_lock_target send) b w)
  = head_message send gettimeofday PTZ_COMMAND_LOCK_TARGET_MANUAL (lock_payload x y) w.
Proof.
  change (zeros ptz_msg_manual_lock_target)
    with (replicate 12 0 ++ replicate 4 0 ++ replicate 12 0).
  unfold st_le. rewrite st_bytes_app by done. cbn [mbind option_bind].
  change (replicate 12 0 ++ le_bytes 4 0 ++ replicate 12 0)
    with (replicate 20 0 ++ replicate 4 0 ++ replicate 4 0).
  rewrite st_bytes_app by done. cbn [mbind option_bind].
  change (replicate 20 0 ++ le_bytes 4 y ++ replicate 4 0)
    with (replicate 16 0 ++ replicate 4 0 ++ (le_bytes 4 y ++ replicate 4 0)).
  rewrite st_bytes_app by done. cbn [mbind option_bind].
  apply (command_send_spec send gettimeofday
    (λ S send, send_ptz_control_manual_lock_target send) ptz_msg_manual_lock_target _ stamp_12).
  - apply stamped_sends; by_eval.
  - rewrite !bytes_ok_app. split; [by_eval|]. auto using le_bytes_ok with bytes.
    split; [apply le_bytes_ok|]. split; [apply le_bytes_ok|by_eval].
  - done.
  - intros t. unfold stamp_12, lock_payload. done.
Qed.
End locking.

(** ** Which tracks are locked on *)

Section turns.
Context {S Img : Type} (send : list Z -> S -> option S).
Context (gettimeofday : S -> timeval * S) (sleep : Z -> S -> S).
Context (sort : list RadarObj -> list RadarObj).
Context (sin cos abs : double -> double) (atan2 pow : double -> double -> double).
Context (make_pipe : S -> S) (rows cols : Img -> Z).
Context (detect : Img -> S -> option (list Object * list STrack * S)).

Local Abbreviation run2_turn := (run2 send gettimeofday sleep sort sin cos abs atan2 pow
  make_pipe rows cols detect).
Local Abbreviation do := (acts send gettimeofday sleep).

(** The tracking is left and the head locks on the track. *)
Definition lock_on (img : Img) (t : STrack) (w : S) : option S :=
  w ← do [act_stop] w; lock_track send gettimeofday rows cols img t w.

Fixpoint lock_all (img : Img) (ts : list STrack) (w : S) : option S :=
  match ts with
  | [] => Some w
  | t :: ts => w ← lock_on img t w; lock_all img ts w
  end.

Lemma stop_spec w : StoppingTracking send gettimeofday w = do [act_stop] w.
Proof.
  unfold StoppingTracking. rewrite track_command_spec by lia. cbn [acts act].
  by destruct (head_message _ _ _ _ _).
Qed.

Lemma lock_on_run img t w :
  (w ← StoppingTracking send gettimeofday w; lock_track send gettimeofday rows cols img t w)
  = lock_on img t w.
Proof. by rewrite stop_spec. Qed.

(** Every track that is big has an object of its number. *)
Definition objects_for (objs : list Object) (i : nat) (ts : list STrack) : Prop :=
  forall j t, ts !! j = Some t -> big_track t = true -> (i + j < length objs)%nat.

Lemma objects_for_cons objs i t ts :
  objects_for objs i (t :: ts) ->
  (big_track t = true -> is_Some (objs !! i)) /\ objects_for objs (Datatypes.S i) ts.
Proof.
  intros H. split.
  - intros Hb. apply lookup_lt_is_Some. specialize (H 0%nat t eq_refl Hb). lia.
  - intros j t' Hj Hb. specialize (H (Datatypes.S j) t' Hj Hb). lia.
Qed.

Lemma guide_tracks_between img objs count i ts g w :
  objects_for objs i ts -> Z.rem count 16 <> 0 ->
  guide_tracks send gettimeofday rows cols img objs count i ts g w
  = match filter big_track ts with
    | t :: _ => if g : bool then w ← lock_on img t w; Some (false, w) else Some (g, w)
    | [] => Some (g, w)
    end.
Proof.
  intros Ho Hc. revert i g w Ho. induction ts as [|t ts IH]; intros i g w Ho; [done|].
  apply objects_for_cons in Ho as [Hi Ho]. cbn [guide_tracks]. destruct (big_track t) eqn:Eb.
  - rewrite filter_cons_True by (by rewrite Eb). destruct (Hi eq_refl) as [o ->].
    cbn [mbind option_bind]. destruct (Z.eqb_spec (Z.rem count 16) 0) as [|_]; [done|].
    cbn [andb negb mbind option_bind]. rewrite andb_true_r. destruct g.
    + rewrite <-lock_on_run. destruct (StoppingTracking send gettimeofday w) as [w1|]; [|done].
      cbn [mbind option_bind]. destruct (lock_track _ _ _ _ _ _ _) as [w2|]; [|done].
      cbn [mbind option_bind]. rewrite IH by done. by destruct (filter big_track ts).
    + rewrite IH by done. by destruct (filter big_track ts).
  - rewrite filter_cons_False by (rewrite Eb; intros []). by apply IH.
Qed.

Lemma guide_tracks_frame img objs count i ts w :
  objects_for objs i ts -> Z.rem count 16 = 0 ->
  guide_tracks send gettimeofday rows cols img objs count i ts false w
  = (w ← lock_all img
           (filter (λ p, big_track p.1 = true /\ label p.2 = 0) (zip ts (drop i objs))).*1 w;
     Some (false, w)).
Proof.
  intros Ho Hc. revert i w Ho. induction ts as [|t ts IH]; intros i w Ho; [done|].
  apply objects_for_cons in Ho as [Hi Ho]. cbn [guide_tracks andb]. destruct (big_track t) eqn:Eb.
  - destruct (Hi eq_refl) as [o Eo]. rewrite Eo. cbn [mbind option_bind].
    rewrite (drop_S _ o i Eo). cbn [zip zip_with]. rewrite Hc. cbn [Z.eqb andb].
    destruct (Z.eqb_spec (label o) 0) as [El|El].
    + rewrite filter_cons_True by done. rewrite lock_on_run. cbn [fmap list_fmap fst lock_all].
      destruct (lock_on img t w) as [w1|]; [|done]. cbn [mbind option_bind]. by apply IH.
    + rewrite filter_cons_False by (by intros [_ ?]). cbn [mbind option_bind]. by apply IH.
  - rewrite IH by done. destruct (drop i objs) as [|o r] eqn:Ed.
    + assert (drop (Datatypes.S i) objs = []) as ->; [|by destruct ts].
      apply drop_ge. assert (length (drop i objs) = 0%nat) as E by by rewrite Ed.
      rewrite length_drop in E. lia.
    + cbn [zip zip_with]. rewrite filter_cons_False by (intros [E _]; cbn [fst] in E; congruence).
      assert (drop (Datatypes.S i) objs = r) as ->; [|done].
      by rewrite <-(Nat.add_1_r i), <-drop_drop, Ed.
Qed.

(** A big track whose number no object has is read behind the vector. *)
Lemma guide_tracks_unsafe img objs count i ts g w :
  (exists j t, ts !! j = Some t /\ big_track t = true /\ (length objs <= i + j)%nat) ->
  guide_tracks send gettimeofday rows cols img objs count i ts g w = None.
Proof.
  revert i g w. induction ts as [|t ts IH]; intros i g w (j & t' & Hj & Hb & Hl);
    [by rewrite lookup_nil in Hj|].
  cbn [guide_tracks]. destruct j as [|j].
  - injection Hj as ->. rewrite Hb. by rewrite lookup_ge_None_2 by lia.
  - assert (IH' : forall g w, guide_tracks send gettimeofday rows cols img objs count
      (Datatypes.S i) ts g w = None) by (intros g' w'; apply IH; exists j, t'; repeat split; done || lia).
    destruct (big_track t); [|by apply IH'].
    destruct (objs !! i) as [o|]; [|done]. cbn [mbind option_bind].
    destruct ((Z.rem count 16 =? 0) && (label o =? 0)).
    + destruct (StoppingTracking send gettimeofday w) as [w1|]; [|done]. cbn [mbind option_bind].
      destruct (lock_track _ _ _ _ _ _ _) as [w2|]; [|done]. cbn [mbind option_bind].
      rewrite andb_false_r. apply IH'.
    + cbn [mbind option_bind]. destruct (g && _); [|apply IH'].
      destruct (StoppingTracking send gettimeofday w) as [w1|]; [|done]. cbn [mbind option_bind].
      destruct (lock_track _ _ _ _ _ _ _) as [w2|]; [|done]. cbn [mbind option_bind]. apply IH'.
Qed.
End turns.

(** ** The user's choice, and pictures without a track *)

Section choice.
Context {S Img : Type} (send : list Z -> S -> option S).
Context (gettimeofday : S -> timeval * S) (sleep : Z -> S -> S).
Context (sort : list RadarObj -> list RadarObj) `{!SortsBy radar_compare sort}.
Context (sin cos abs : double -> double) (atan2 pow : double -> double -> double).
Context (make_pipe : S -> S) (rows cols : Img -> Z).
Context (detect : Img -> S -> option (list Object * list STrack * S)) (limit : Z).

Local Abbreviation run2_turn := (run2 send gettimeofday sleep sort sin cos abs atan2 pow
  make_pipe rows cols detect limit).
Local Abbreviation do := (acts send gettimeofday sleep).

(** Turns of the guidance, whatever each of them returns. *)
Fixpoint run2_turns (pics : list (Img * option (list Z))) (s : run_state) (w : S)
  : option (run_state * S) :=
  match pics with
  | [] => Some (s, w)
  | p :: pics => '(_, s, w) ← run2_turn s p.1 p.2 w; run2_turns pics s w
  end.

Lemma run2_turns_app l1 l2 s w :
  run2_turns (l1 ++ l2) s w = '(s, w) ← run2_turns l1 s w; run2_turns l2 s w.
Proof.
  revert s w. induction l1 as [|p l1 IH]; intros s w; [done|]. cbn [app run2_turns].
  destruct (run2_turn s p.1 p.2 w) as [[[r s'] w']|]; [apply IH|done].
Qed.

(** Not a target of the user. *)
Definition no_choice (targets : option (list Z)) : Prop :=
  forall pack, targets = Some pack ->
  exists kind, ld_le 4 pack 0 = Some kind /\ i32 kind <> TRACK_INFO_FROM_USER.

(** What the network and the tracker do with pictures in which they find no track. *)
Fixpoint look (imgs : list Img) (w : S) : option S :=
  match imgs with
  | [] => Some w
  | img :: imgs =>
      '(_, output_stracks, w) ← detect img w;
      match output_stracks with [] => look imgs w | _ => None end
  end.

Lemma look_cons img imgs w w' : look (img :: imgs) w = Some w' ->
  exists objs w1, detect img w = Some (objs, [], w1) /\ look imgs w1 = Some w'.
Proof.
  cbn [look]. destruct (detect img w) as [[[objs ts] w1]|]; [|done]. cbn [mbind option_bind].
  destruct ts; [|done]. intros H. by exists objs, w1.
Qed.

Lemma look_app imgs imgs' w : look (imgs ++ imgs') w = w ← look imgs w; look imgs' w.
Proof.
  revert w. induction imgs as [|img imgs IH]; intros w; [done|]. cbn [app look].
  destruct (detect img w) as [[[objs ts] w1]|]; [|done]. cbn [mbind option_bind].
  destruct ts; [apply IH|done].
Qed.

Definition more_lost (n : Z) (s : run_state) : run_state :=
  set_img_count (img_count s + n) (set_no_obj (no_obj_count s + n) s).

Lemma no_choice_user targets s w : no_choice targets ->
  run2_user send gettimeofday targets s w = Some (s, w).
Proof.
  intros Hn. unfold run2_user. destruct targets as [pack|]; [|done].
  destruct (Hn pack eq_refl) as (kind & -> & Hk). cbn [mbind option_bind].
  by destruct (Z.eqb_spec (i32 kind) TRACK_INFO_FROM_USER).
Qed.

Lemma lost_turn img targets objs s w w' :
  g_bInit s = true -> no_choice targets -> detect img w = Some (objs, [], w') ->
  0 <= no_obj_count s < limit -> limit < 2 ^ 31 -> img_count s < 2 ^ 31 - 1 ->
  run2_turn s img targets w = Some (0, more_lost 1 s, w').
Proof.
  intros Hi Hn Ht Hl Hb Hc. unfold run2. rewrite Hi, no_choice_user by done.
  cbn [mbind option_bind]. rewrite Ht. cbn [mbind option_bind]. unfold count_lost. rewrite bool_decide_eq_true_2 by done.
  rewrite incr_Some by lia. cbn [mbind option_bind].
  cbn [no_obj_count set_no_obj]. destruct (Z.ltb_spec limit (no_obj_count s + 1)); [lia|].
  cbn [mbind option_bind]. unfold track_turn. cbn [guide_tracks mbind option_bind].
  cbn [img_count set_no_obj]. by rewrite incr_Some by lia.
Qed.

Lemma lost_turns pics s w w' :
  g_bInit s = true -> Forall (λ p, no_choice p.2) pics -> look pics.*1 w = Some w' ->
  0 <= no_obj_count s -> no_obj_count s + Zlen pics <= limit -> limit < 2 ^ 31 ->
  img_count s + Zlen pics < 2 ^ 31 ->
  run2_turns pics s w = Some (more_lost (Zlen pics) s, w').
Proof.
  intros Hi Hp. revert s w Hi. induction Hp as [|[img tg] pics Hn _ IH];
    intros s w Hi Hlook H0 Hl Hb Hc.
  - injection Hlook as <-. unfold more_lost. cbn [Zlen length Z.of_nat]. rewrite !Z.add_0_r. by destruct s.
  - rewrite Zlen_cons in *. pose proof (Zlen_nonneg pics). cbn [run2_turns fst snd].
    apply look_cons in Hlook as (objs & w1 & Hd & Hlook).
    rewrite (lost_turn _ _ objs _ _ w1) by (done || lia). cbn [mbind option_bind].
    rewrite (IH _ w1) by (cbn [more_lost set_img_count set_no_obj g_bInit no_obj_count img_count]; done || lia).
    unfold more_lost. cbn [set_img_count set_no_obj img_count no_obj_count rs_nID g_bInit isGuide
      g_bFirst g_count fmap list_fmap fst]. do 2 f_equal. rewrite <-!Z.add_assoc. done.
Qed.

(** The picture after which the guidance begins again. *)
Lemma guided_turn img pack objs o objs' s w w' :
  g_bInit s = true -> detect img w = Some (objs', [], w') -> no_obj_count s = limit -> 0 <= limit ->
  limit < 2 ^ 31 - 1 -> img_count s < 2 ^ 31 - 1 -> rs_nID s = ro_id o -> 0 <= ro_id o ->
  ld_le 4 pack 0 = Some TRACK_INFO_RADAR -> radar_read pack [] = Some (0, objs) ->
  o ∈ filter useful objs ->
  (forall o', o' ∈ filter useful objs -> ro_id o' = ro_id o -> o' = o) ->
  run2_turn s img (Some pack) w
  = w ← do (radar_actions o) w';
    Some (0, set_img_count (img_count s + 1) (set_isGuide true (set_no_obj 0 s)), w).
Proof.
  intros Hi Ht Hl H0 Hb Hc Hid Ho0 Hk Hr Ho Hu.
  destruct (radar_2ptz_id sort objs no_radar_obj (ro_id o) o Ho0 Ho Hu) as (r & Hr0 & E).
  unfold run2. rewrite Hi. unfold run2_user. rewrite Hk.
  cbn [mbind option_bind]. change (i32 TRACK_INFO_RADAR) with TRACK_INFO_RADAR.
  change (TRACK_INFO_RADAR =? TRACK_INFO_FROM_USER) with false. cbn [mbind option_bind].
  rewrite Ht. cbn [mbind option_bind]. unfold count_lost. rewrite bool_decide_eq_true_2 by done.
  rewrite incr_Some by lia. cbn [mbind option_bind no_obj_count set_no_obj].
  destruct (Z.ltb_spec limit (no_obj_count s + 1)); [|lia].
  unfold run2_guide. rewrite Hk. cbn [mbind option_bind].
  change (i32 TRACK_INFO_RADAR) with TRACK_INFO_RADAR.
  change (TRACK_INFO_RADAR =? TRACK_INFO_FROM_USER) with false. cbn match.
  unfold guide_kind. rewrite Hk. cbn [mbind option_bind].
  change (i32 TRACK_INFO_RADAR) with TRACK_INFO_RADAR. rewrite Z.eqb_refl.
  cbn [rs_nID set_isGuide set_no_obj]. rewrite Hid, radarGuide_run, Hr. cbn [mbind option_bind].
  rewrite E. destruct (Z.ltb_spec 0 r); [|lia]. destruct (do (radar_actions o) w') as [w2|]; [|done]. cbn [mbind option_bind].
  unfold track_turn. cbn [guide_tracks mbind option_bind img_count set_nID set_isGuide set_no_obj].
  rewrite incr_Some by lia. cbn [mbind option_bind]. do 2 f_equal. f_equal. destruct s. cbn in Hid.
  by subst.
Qed.

(** The user's first target. *)
Lemma chosen_turn img pack id s w :
  g_bInit s = false -> ld_le 4 pack 0 = Some TRACK_INFO_FROM_USER -> user_objid pack = Some id ->
  run2_turn s img (Some pack) w
  = w ← do [act_stop] (make_pipe w); Some (1, set_nID id (set_bInit s), w).
Proof.
  intros Hi Hk Hid. unfold run2. rewrite Hi. unfold run2_guide. rewrite Hk.
  cbn [mbind option_bind]. change (i32 TRACK_INFO_FROM_USER =? TRACK_INFO_FROM_USER) with true.
  cbn match. rewrite Hid. cbn [mbind option_bind]. rewrite (stop_spec _ _ sleep).
  by destruct (do [act_stop] (make_pipe w)).
Qed.

Lemma choice_followed img0 upack lost img1 pack objs o s w w1 w2 :
  g_bInit s = false -> no_obj_count s = 0 -> 0 <= limit < 2 ^ 31 - 1 ->
  img_count s + limit < 2 ^ 31 - 1 ->
  ld_le 4 upack 0 = Some TRACK_INFO_FROM_USER -> user_objid upack = Some (ro_id o) ->
  0 <= ro_id o ->
  Forall (λ p, no_choice p.2) lost -> Zlen lost = limit ->
  do [act_stop] (make_pipe w) = Some w1 -> look (lost.*1 ++ [img1]) w1 = Some w2 ->
  ld_le 4 pack 0 = Some TRACK_INFO_RADAR -> radar_read pack [] = Some (0, objs) ->
  o ∈ filter useful objs ->
  (forall o', o' ∈ filter useful objs -> ro_id o' = ro_id o -> o' = o) ->
  exists s', rs_nID s' = ro_id o /\ no_obj_count s' = 0 /\ isGuide s' = true /\ g_bInit s' = true
    /\ run2_turns ((img0, Some upack) :: lost ++ [(img1, Some pack)]) s w
       = (w ← do (radar_actions o) w2; Some (s', w)).
Proof.
  intros Hi H0 Hl Hc Hku Hid Ho0 Hlost Hlen Hw1 Hlook Hk Hr Ho Hu.
  set (s1 := set_nID (ro_id o) (set_bInit s)).
  set (s2 := more_lost limit s1).
  exists (set_img_count (img_count s2 + 1) (set_isGuide true (set_no_obj 0 s2))).
  split; [done|]. split; [done|]. split; [done|]. split; [done|].
  cbn [run2_turns fst snd]. rewrite (chosen_turn _ _ _ _ _ Hi Hku Hid).
  rewrite Hw1. cbn [mbind option_bind]. fold s1. rewrite look_app in Hlook.
  apply bind_Some in Hlook as (w3 & Hw3 & (objs' & w4 & Hd & [= ->])%look_cons).
  rewrite run2_turns_app.
  rewrite (lost_turns _ _ _ w3) by (cbn [s1 set_nID set_bInit g_bInit no_obj_count img_count]; done || lia).
  rewrite Hlen. cbn [mbind option_bind run2_turns fst snd]. fold s2.
  rewrite (guided_turn img1 pack objs o objs' _ _ w2) by
    (cbn [s2 more_lost set_img_count set_no_obj s1 set_nID set_bInit g_bInit no_obj_count
          img_count rs_nID]; done || lia).
  by destruct (do (radar_actions o) _).
Qed.
End choice.

(** ** The points of a scan *)

(** Row [i] of the plan, which goes up and down in turn. *)
Definition scan_row (step_gap region_size : Z) (start_point : double * double) (i : Z)
  : list (double * double) :=
  let x := fadd start_point.1 (f_of_Z (i * step_gap)) in
  let y1 := start_point.2 in
  let y2 := fadd start_point.2 (f_of_Z region_size) in
  if i mod 2 =? 0 then [(x, y1); (x, y2)] else [(x, y2); (x, y1)].

Lemma scan_points_spec n i step_gap region_size start_point :
  0 <= i -> 0 < step_gap -> (i + Z.of_nat n - 1) * step_gap < 2 ^ 31 ->
  scan_points n i step_gap region_size start_point
  = Some (concat (scan_row step_gap region_size start_point <$> seqZ i (Z.of_nat n))).
Proof.
  intros Hi Hs. revert i Hi. induction n as [|n IH]; intros i Hi Hb; [done|].
  rewrite Nat2Z.inj_succ, seqZ_cons, Z.pred_succ by lia. cbn [scan_points fmap list_fmap concat].
  rewrite int_of_Some by nia. cbn [mbind option_bind]. rewrite IH by (nia || lia).
  cbn [mbind option_bind]. unfold scan_row at 2. by rewrite Z.rem_mod_nonneg by lia.
Qed.

(** The plan of a region has a row at every multiple of the gap up to its size, two points
    per row, and never overflows. *)
Lemma ScanRegionPoints_spec region_size step_gap start_point :
  0 <= region_size < 2 ^ 31 - 1 -> 0 < step_gap < 2 ^ 31 ->
  ScanRegionPoints region_size step_gap start_point
  = Some (concat (scan_row step_gap region_size start_point
                  <$> seqZ 0 (region_size / step_gap + 1))).
Proof.
  intros Hr Hs. unfold ScanRegionPoints. destruct (Z.eqb_spec step_gap 0); [lia|].
  rewrite Z.quot_div_nonneg by lia.
  assert (0 <= region_size / step_gap <= region_size)
    by (split; [apply Z.div_pos; lia|apply Z.div_le_upper_bound; nia]).
  rewrite !int_of_Some by lia. cbn [mbind option_bind].
  rewrite int_of_Some by lia. cbn [mbind option_bind].
  pose proof (Z.mul_div_le region_size step_gap ltac:(lia)).
  rewrite scan_points_spec by (lia || nia). by rewrite Z2Nat.id by lia.
Qed.

(** ** Properties *)

(** The position to lock on. For a box whose centre lies in the picture of 640 x 480,
    exactly one message goes out and it has the centre scaled to 704 x 576, each coordinate
    rounded down although the code computes with [float]s; a centre left of the picture or
    above it is converted to an unsigned number, which is undefined. *)
Lemma ptz_tracking_maps {S} (send : list Z -> S -> option S) gettimeofday left right top bottom w :
  - 2 ^ 31 <= left + right < 2 ^ 31 -> - 2 ^ 31 <= top + bottom < 2 ^ 31 ->
  let x := Z.quot (left + right) 2 in
  let y := Z.quot (top + bottom) 2 in
  -640 <= x <= 640 -> -480 <= y <= 480 ->
  (0 <= x -> 0 <= y ->
    PTZTracking send gettimeofday left right top bottom w
    = head_message send gettimeofday PTZ_COMMAND_LOCK_TARGET_MANUAL
        (lock_payload (11 * x / 10) (6 * y / 5)) w
    /\ 0 <= 11 * x / 10 <= 704 /\ 0 <= 6 * y / 5 <= 576)
  /\ (x < 0 \/ y < 0 -> PTZTracking send gettimeofday left right top bottom w = None).
Proof.
  intros Hh Hv x y Hx Hy. unfold PTZTracking. cbv zeta.
  change (offsetof ptz_msg_manual_lock_target "track_vedio_source") with 12.
  change (offsetof ptz_msg_manual_lock_target "targegt_cor_y") with 20.
  change (offsetof ptz_msg_manual_lock_target "target_cor_x") with 16.
  rewrite !int_of_Some by done. cbn [mbind option_bind]. fold x y. split.
  - intros Hx0 Hy0. rewrite scale_x, scale_y by lia.
    split; [|split; split; first [apply Z.div_pos; lia|apply Z.div_le_upper_bound; lia]].
    rewrite <-lock_send. cbn [mbind option_bind].
    destruct (st_le 4 _ 12 0) as [b|]; [|done]. cbn [mbind option_bind].
    by destruct (st_le 4 b 20 _).
  - intros [Hn|Hn].
    + rewrite (proj1 (scale_negative x ltac:(lia))).
      destruct (st_le 4 _ 12 0) as [b|]; [|done]. cbn [mbind option_bind].
      destruct (d_to_u32 _); [|done]. cbn [mbind option_bind]. by destruct (st_le 4 b 20 _).
    + rewrite (proj2 (scale_negative y ltac:(lia))). by destruct (st_le 4 _ 12 0).
Qed.

(** Which tracks the head locks on. Every sixteenth picture it is told to lock, one
    after the other, on each big track whose object is a drone; on the other pictures it
    locks on the first big track, of whatever kind, if the guidance has just begun, and on
    nothing otherwise. The object of a track is looked up by the track's number: when a big
    track has a number no object has, the code reads behind the vector. *)
Lemma guide_tracks_locks {S Img} (send : list Z -> S -> option S) gettimeofday
    (sleep : Z -> S -> S) (rows cols : Img -> Z) img objs count ts guide w :
  let run := guide_tracks send gettimeofday rows cols img objs count 0 ts guide w in
  let lock := lock_on send gettimeofday sleep rows cols in
  (objects_for objs 0 ts ->
    (Z.rem count 16 <> 0 ->
      run = match filter big_track ts with
            | t :: _ => if guide : bool then w ← lock img t w; Some (false, w) else Some (guide, w)
            | [] => Some (guide, w)
            end)
    /\ (Z.rem count 16 = 0 -> guide = false ->
        run = (w ← lock_all send gettimeofday sleep rows cols img
                     (filter (λ p, big_track p.1 = true /\ label p.2 = 0) (zip ts objs)).*1 w;
               Some (false, w))))
  /\ (~ objects_for objs 0 ts -> run = None).
Proof.
  intros run lock. unfold run. split.
  - intros Ho. split; intros Hc.
    + by apply guide_tracks_between.
    + intros ->. rewrite (guide_tracks_frame _ _ sleep) by done. by rewrite drop_0.
  - intros Hno. apply guide_tracks_unsafe.
    destruct (decide (Exists (λ t, big_track t = true) (drop (length objs) ts))) as [He|He].
    + apply Exists_exists in He as (t & Ht & Hb). apply list_elem_of_lookup in Ht as [j Hj].
      rewrite lookup_drop in Hj. exists (length objs + j)%nat, t. split; [done|]. split; [done|lia].
    + exfalso. apply Hno. intros j t Hj Hb. destruct (decide (j < length objs)%nat); [lia|].
      exfalso. apply He, Exists_exists. exists t. split; [|done]. apply list_elem_of_lookup.
      exists (j - length objs)%nat. rewrite lookup_drop. by replace (length objs + (j - length objs))%nat with j by lia.
Qed.

(** The user's choice is followed. The first target of a program is the track that the
    user designates: the head leaves its tracking. After that, for as many pictures without
    a track as the variant waits for, nothing is sent, whatever targets of the radar and the
    tracers come with them; with the next such picture and the radar's tracks, the head turns
    to the designated track, even if others are more dangerous, waits, and the number stays
    designated. [limit] is 16 and 2 in the two variants. *)
Lemma run2_follows_choice {S Img} (send : list Z -> S -> option S) gettimeofday sleep sort
    `{!SortsBy radar_compare sort} sin cos abs atan2 pow make_pipe (rows cols : Img -> Z) detect
    limit img0 upack lost img1 pack objs o s w w1 w2 :
  g_bInit s = false -> no_obj_count s = 0 -> 0 <= limit < 2 ^ 31 - 1 ->
  img_count s + limit < 2 ^ 31 - 1 ->
  ld_le 4 upack 0 = Some TRACK_INFO_FROM_USER -> user_objid upack = Some (ro_id o) ->
  0 <= ro_id o ->
  Forall (λ p, no_choice p.2) lost -> Zlen lost = limit ->
  acts send gettimeofday sleep [act_stop] (make_pipe w) = Some w1 ->
  look detect (lost.*1 ++ [img1]) w1 = Some w2 ->
  ld_le 4 pack 0 = Some TRACK_INFO_RADAR -> radar_read pack [] = Some (0, objs) ->
  o ∈ filter useful objs ->
  (forall o', o' ∈ filter useful objs -> ro_id o' = ro_id o -> o' = o) ->
  exists s', rs_nID s' = ro_id o /\ no_obj_count s' = 0 /\ isGuide s' = true /\ g_bInit s' = true
    /\ run2_turns send gettimeofday sleep sort sin cos abs atan2 pow make_pipe rows cols detect
         limit ((img0, Some upack) :: lost ++ [(img1, Some pack)]) s w
       = (w ← acts send gettimeofday sleep (radar_actions o) w2; Some (s', w)).
Proof. apply choice_followed. done. Qed.

(** ** Witnesses *)

Lemma ptz_tracking_maps_witness :
  PTZTracking demo_send demo_clock 100 301 (-40) 20 (0, []) = None
  /\ PTZTracking demo_send demo_clock 100 301 40 21 (0, [])
     = head_message demo_send demo_clock PTZ_COMMAND_LOCK_TARGET_MANUAL (lock_payload 220 36) (0, []).
Proof.
  destruct (ptz_tracking_maps demo_send demo_clock 100 301 (-40) 20 (0, []))
    as [_ H]; [by_eval..|].
  destruct (ptz_tracking_maps demo_send demo_clock 100 301 40 21 (0, []))
    as [H' _]; [by_eval..|].
  split; [apply H; right; by_eval|]. exact (proj1 (H' ltac:(by_eval) ltac:(by_eval))).
Defined.

Definition set_box (b : vec4) (t : STrack) : STrack :=
  {| is_activated := is_activated t; track_id := track_id t; state := state t; _tlwh := _tlwh t;
     tlwh := b; tlbr := tlbr t; st_frame_id := st_frame_id t; tracklet_len := tracklet_len t;
     start_frame := start_frame t; mean := mean t; covariance := covariance t; score := score t |}.
Definition demo_box (x w : Z) : STrack :=
  set_box (Vec4 (d_of_Z x) (d_of_Z 20) (d_of_Z w) (d_of_Z 10)) inhabitant.
Definition demo_object (l : Z) : Object := {| rect := Vec4_zero; label := l; prob := d_lit 9 10 |}.

(** Three tracks, of which the first is too small. *)
Lemma guide_tracks_locks_witness :
  guide_tracks demo_send demo_clock (λ _, 480) (λ _, 640) tt
    [demo_object 0; demo_object 1; demo_object 0] 17 0 [demo_box 5 0; demo_box 30 40; demo_box 9 9]
    true (0, [])
  = (w ← lock_on demo_send demo_clock demo_sleep (λ _, 480) (λ _, 640) tt (demo_box 30 40) (0, []);
     Some (false, w))
  /\ guide_tracks demo_send demo_clock (λ _, 480) (λ _, 640) tt [demo_object 0] 17 0
       [demo_box 5 0; demo_box 30 40] true (0, []) = None.
Proof.
  pose proof (guide_tracks_locks demo_send demo_clock demo_sleep (λ _, 480) (λ _, 640) tt
    [demo_object 0; demo_object 1; demo_object 0] 17 [demo_box 5 0; demo_box 30 40; demo_box 9 9]
    true (0, [])) as [H _].
  pose proof (guide_tracks_locks demo_send demo_clock demo_sleep (λ _, 480) (λ _, 640) tt
    [demo_object 0] 17 [demo_box 5 0; demo_box 30 40] true (0, [])) as [_ H'].
  split.
  - destruct H as [H _].
    + intros j t Hj _. apply lookup_lt_Some in Hj. exact Hj.
    + rewrite H by discriminate. vm_compute; reflexivity.
  - apply H'. intros Ho. specialize (Ho 1%nat (demo_box 30 40) eq_refl ltac:(by_eval)).
    cbn in Ho. lia.
Defined.

Definition demo_track (id alive threat : Z) : RadarObj :=
  {| ro_id := id; ro_alive := alive; ro_stateType := 1; ro_threatLevel := threat;
     ro_azimuth := d_of_Z (-10); ro_elevation := d_of_Z 5; ro_range := 0;
     ro_x := d_of_Z 30; ro_y := d_of_Z 40; ro_z := d_of_Z 40 |}.
Definition demo_radar : list Z :=
  le_bytes 4 TRACK_INFO_RADAR ++ demo_tracks ++ replicate (11570 - length demo_tracks) 0.
Definition demo_choice : list Z := le_bytes 4 TRACK_INFO_FROM_USER ++ [1; 3] ++ replicate 46 0.

(** The user designates the less dangerous of two tracks. *)
Lemma run2_follows_choice_witness :
  (exists s', rs_nID s' = 3 /\ isGuide s' = true
    /\ run2_turns demo_send demo_clock demo_sleep (merge_sort threat_le) id id id dadd dmul id
         (λ _, 480) (λ _, 640) (λ _ w, Some ([], [], w)) 2
         [(tt, Some demo_choice); (tt, None); (tt, Some demo_radar); (tt, Some demo_radar)]
         run_init (0, [])
       = (w ← acts demo_send demo_clock demo_sleep [act_stop] (0, []);
          w ← acts demo_send demo_clock demo_sleep (radar_actions (demo_track 3 20 2)) w;
          Some (s', w))).
Proof.
  destruct (acts demo_send demo_clock demo_sleep [act_stop] (0, [])) as [w1|] eqn:Ew;
    [|by vm_compute in Ew].
  destruct (run2_follows_choice demo_send demo_clock demo_sleep (merge_sort threat_le) id id id
    dadd dmul id (λ _, 480) (λ _, 640) (λ (_ : unit) w, Some ([], [], w)) 2 tt demo_choice
    [(tt, None); (tt, Some demo_radar)] tt demo_radar
    [demo_track 3 20 2; demo_track 7 12 1] (demo_track 3 20 2) run_init (0, []) w1 w1)
    as (s' & H1 & _ & H3 & _ & H);
    [reflexivity|reflexivity|by_eval|by_eval|by_eval|by_eval|by_eval| |reflexivity|exact Ew|reflexivity
    |vm_compute; reflexivity|vm_compute; reflexivity| | |].
  - repeat constructor; try done. cbn [snd]. intros pack [= <-]. exists TRACK_INFO_RADAR.
    split; [vm_compute; reflexivity|by_eval].
  - apply list_elem_of_filter. split; [by_eval|left].
  - intros o' [_ Ho]%list_elem_of_filter Hid. apply elem_of_cons in Ho as [->|Ho]; [done|].
    apply list_elem_of_singleton in Ho as ->. discriminate Hid.
  - exists s'. split; [exact H1|]. split; [exact H3|exact H].
Defined.
