(* ===== verification/Vision.v ===== *)
(** * The guidance with the tracker ([src/srv/algs/ai_alg/ai_main.cpp], [yolov8_infer])

    [AiVision] leaves open what finds the tracks in a picture; here it is the tracker of
    [Tracker], and only the network that finds the boxes is a parameter.  The world of the
    guidance is a world of the head with the tracker, a static object of the file. *)

From stdpp Require Import sorting.
From S2P Require Import Prelude Arrays CFloat Lapjv LapjvPath Association Kalman Tracker TrackerSteps TrackerFilm.
From S2P Require Import Layout CString AlinkTrack AlinkTarget PtzProtocol EthLinkPtz PtzControl Guide AiMain AiVision.
Local Open Scope list_scope.
Local Open Scope Z_scope.

Section vision.
Context {S Img : Type} (send : list Z -> S -> option S).
Context (gettimeofday : S -> timeval * S) (sleep : Z -> S -> S) (make_pipe : S -> S).
Context (rows cols : Img -> Z).

(** The boxes of a picture. *)
Context (infer : Img -> S -> list Object * S).
Context (E : eigen) (mem : Z -> allocator double) (garbage : vector * matrix).

(** ** The code *)

Definition world : Type := S * BYTETracker.

(** The calls of the head do not touch the tracker. *)
Definition send_w (bs : list Z) (w : world) : option world :=
  s ← send bs w.1; Some (s, w.2).
Definition gettimeofday_w (w : world) : timeval * world :=
  let '(t, s) := gettimeofday w.1 in (t, (s, w.2)).
Definition sleep_w (n : Z) (w : world) : world := (sleep n w.1, w.2).
Definition make_pipe_w (w : world) : world := (make_pipe w.1, w.2).

(** The objects and the tracks of a picture; after [exit] the caller does not go on. *)
Definition watch (img : Img) (w : world) : option (list Object * list STrack * world) :=
  let '(objs, s) := infer img w.1 in
  r ← Tracker.update E mem garbage objs w.2;
  match r with
  | Exit => None
  | Done (tr, output_stracks) => Some (objs, output_stracks, (s, tr))
  end.

(** ** The head *)

Lemma head_message_w cmd payload s tr :
  head_message send_w gettimeofday_w cmd payload (s, tr)
  = (s ← head_message send gettimeofday cmd payload s; Some (s, tr)).
Proof.
  unfold head_message, gettimeofday_w, send_w. cbn [fst snd].
  destruct (gettimeofday s) as [tv s1]. cbn [fst snd]. by destruct (gettimeofday s1) as [tv2 s2].
Qed.

Lemma acts_w l s tr : acts send_w gettimeofday_w sleep_w l (s, tr)
  = (s ← acts send gettimeofday sleep l s; Some (s, tr)).
Proof.
  revert s. induction l as [|a l IH]; intros s; [done|]. cbn [acts].
  assert (Ea : act send_w gettimeofday_w sleep_w a (s, tr)
               = (s ← act send gettimeofday sleep a s; Some (s, tr))).
  { destruct a; cbn [act]; by rewrite ?head_message_w. }
  rewrite Ea. destruct (act send gettimeofday sleep a s) as [s1|]; [|done]. apply IH.
Qed.

(** ** Pictures without boxes *)

Fixpoint sees_nothing (imgs : list Img) (s : S) : option S :=
  match imgs with
  | [] => Some s
  | img :: imgs => let '(objs, s) := infer img s in
      match objs with [] => sees_nothing imgs s | _ => None end
  end.

Lemma look_watch imgs s s' tr tr' : sees_nothing imgs s = Some s' ->
  updates E mem garbage (replicate (length imgs) []) tr = Some (Done (tr', replicate (length imgs) [])) ->
  look watch imgs (s, tr) = Some (s', tr').
Proof.
  revert s tr. induction imgs as [|img imgs IH]; intros s tr Hs Hu.
  { injection Hs as <-. by injection Hu as <-. }
  cbn [length replicate updates sees_nothing] in Hu, Hs.
  destruct (infer img s) as [objs s1] eqn:Ei. destruct objs; [|done].
  destruct (Tracker.update E mem garbage [] tr) as [[|[tr1 out]]|] eqn:Et; [done| |done].
  cbn [mbind option_bind] in Hu.
  destruct (updates E mem garbage (replicate (length imgs) []) tr1) as [[|[tr2 outs]]|] eqn:Eu;
    [done| |done]. cbn [mbind option_bind] in Hu. injection Hu as -> -> ->.
  assert (Ew : watch img (s, tr) = Some ([], [], (s1, tr1))).
  { unfold watch. cbn [fst snd]. by rewrite Ei, Et. }
  cbn [look]. rewrite Ew. cbn [mbind option_bind]. by apply IH.
Qed.
End vision.

(** ** Properties *)

Section properties.
Context {S Img : Type} (send : list Z -> S -> option S).
Context (gettimeofday : S -> timeval * S) (sleep : Z -> S -> S) (make_pipe : S -> S).
Context (sort : list RadarObj -> list RadarObj) `{!SortsBy radar_compare sort}.
Context (sin cos abs : double -> double) (atan2 pow : double -> double -> double).
Context (rows cols : Img -> Z) (infer : Img -> S -> list Object * S).
Context (E : eigen) (mem : Z -> allocator double) (garbage : vector * matrix).
Hypothesis Hmem : forall n, 0 < n < 65536 -> allocates n (mem n).


End properties.

(** ** Witnesses *)


