(* ===== verification/AlgApp.v ===== *)
(** * The thread that guides the head ([src/app/alg_app/alg_app.cpp], [src/app/ptz/ptz_app.cpp])

    The stream's thread queues at most five pictures; the algorithm's thread takes a picture
    and a target, runs the algorithm and frees the target.  The tracks of a radar are
    followed from the handler of their message to the commands for the head; [System]
    starts at the socket. *)

From stdpp Require Import sorting.
From S2P Require Import Prelude CFloat Layout CString Linked AlinkRecv AlinkOrder AlinkUpload SysportTask AlgInterface AlinkWorld AlinkTrack.
From S2P Require Import PtzProtocol EthLinkPtz PtzControl Guide TargetList AiMain.
Local Open Scope string_scope.
Local Open Scope list_scope.
Local Open Scope Z_scope.

(** ** The code: pictures ([ptz_app.cpp]) *)

Section frames.
Context {F : Type}.
Implicit Types q : list F.

(** A picture that was read; without the lock it is dropped. *)
Definition ptz_camera_frame (q : list F) (frame : F) (lock : Z) : list F :=
  if negb (lock =? 0) then q else
  let q := if (4 <? length q)%nat then tail q else q in
  q ++ [frame].

(** The oldest picture. *)
Definition capture_ptz_vstream_pic (q : list F) (lock : Z) : Z * option F * list F :=
  if negb (lock =? 0) then (-1, None, q) else
  match q with
  | frame :: q => (0, Some frame, q)
  | [] => (-1, None, [])
  end.

Lemma frames_bound q frame lock :
  (length q <= 5)%nat -> (length (ptz_camera_frame q frame lock) <= 5)%nat.
Proof.
  intros Hq. unfold ptz_camera_frame. destruct (negb _); [done|]. cbv zeta.
  rewrite length_app. destruct (Nat.ltb_spec 4 (length q)); cbn [length]; [|lia].
  destruct q; cbn in *; lia.
Qed.
End frames.

(** ** The code: reports of the lens and of the system ([ptz_app.cpp])

    The two handlers only log the fields of their structures. *)

Definition ptz_msg_lense_ext_info : struct :=
  [("photoelectricity_no", 4); ("cur_status_timesmap", 8); ("visable_horizatal_angle", 4);
   ("visable_vertical_angle", 4); ("thermal_horization_angle", 4);
   ("thermal_vertical_angle", 4); ("visable_zoom", 4); ("thermal_zoom", 4);
   ("visable_focal", 4); ("thermal_focal", 4)].
Definition ptz_msg_sys_ext_info : struct :=
  [("photoelectricity_no", 4); ("cur_status_timesmap", 8); ("laser_rangefinder_status", 4);
   ("laser_measuring_status", 4); ("laser_fill_state", 4); ("heater_condition", 4);
   ("thermal_imaging_status", 4); ("visible_focusing_mode", 4); ("thermal_focusing_mode", 4);
   ("power_status_ext_device", 1); ("reserver", 31)].

Definition ptz_lense_ext_info_0x0c {W} (m : ptz_protocol_msg) (w : W) : option (Z * W) :=
  match msg m with
  | None => Some (0, w)
  | Some b => _ ← ld_bytes b 0 (sizeof ptz_msg_lense_ext_info); Some (0, w)
  end.

(** The last field is not read. *)
Definition ptz_sys_ext_info_0x15 {W} (m : ptz_protocol_msg) (w : W) : option (Z * W) :=
  match msg m with
  | None => Some (0, w)
  | Some b => _ ← ld_bytes b 0 (offsetof ptz_msg_sys_ext_info "reserver"); Some (0, w)
  end.

Definition PTZ_COMMAND_DEV_STATUS : Z := 1.
Definition PTZ_COMMAND_ATT_MSG : Z := 2.
Definition PTZ_COMMAND_DEV_EXT_INFO : Z := 8.
Definition PTZ_COMMAND_TARGET_INFO : Z := 11.
Definition PTZ_COMMAND_LENSE_EXT_INFO : Z := 12.
Definition PTZ_COMMAND_SYS_EXT_INFO : Z := 21.

(** The handlers of the head's messages, in the order of their registration. *)
Definition ptz_comands : list (Z * ptz_comand_handle ai_state) :=
  [(PTZ_COMMAND_DEV_STATUS, ptz_dev_status); (PTZ_COMMAND_TARGET_INFO, ptz_target_info);
   (PTZ_COMMAND_ATT_MSG, ptz_pitch_azimuth); (PTZ_COMMAND_DEV_EXT_INFO, ptz_dev_ext_info_0x08);
   (PTZ_COMMAND_LENSE_EXT_INFO, ptz_lense_ext_info_0x0c);
   (PTZ_COMMAND_SYS_EXT_INFO, ptz_sys_ext_info_0x15)].

(** [addrs] is what the allocations return; [ret |= ...] is 0 only if all of them work. *)
Definition register_control_ptz_comands (k : ptz_link ai_state) (addrs : list (option nat))
  : option (Z * ptz_link ai_state) :=
  foldl (λ acc '((id, cb), addr),
    '(ret, k) ← acc;
    '(r, k) ← eth_ptz_command_register k id (Some cb) addr;
    Some (Z.lor ret r, k)) (Some (0, k)) (zip ptz_comands addrs).

(** ** The code: the algorithm's thread ([alg_app.cpp]) *)

Section fusion.
Context {S F : Type} (send : list Z -> S -> option S).
Context (gettimeofday : S -> timeval * S) (sleep msleep : Z -> S -> S).
Context (sort : list RadarObj -> list RadarObj).
Context (sin cos abs : double -> double) (atan2 pow : double -> double -> double).

(** One turn of the loop; [flock] and [lock] are what the two locks answer. *)
Definition fusion_ai_alg_thread (q : list F) (alg_obj : alg_app_res) (s : ai_state)
    (flock lock : Z) (w : S) : option (list F * alg_app_res * ai_state * S) :=
  let '(ret, frame, q) := capture_ptz_vstream_pic q flock in
  if negb (ret =? 0) then Some (q, alg_obj, s, msleep 100 w) else
  '(target_node, alg_obj) ← get_and_rm_one_target alg_obj lock;
  targets ← match target_node with
            | Some node =>
                n ← aa_nodes alg_obj !! node;
                match tg_target_pack n with
                | Some p => bs ← aa_packs alg_obj !! p; Some (Some bs)
                | None => Some None
                end
            | None => Some None
            end;
  '(ret, s, w) ← ai_alg_run7 send gettimeofday sleep sort sin cos abs atan2 pow s targets w;
  '(_, alg_obj) ← target_node_destory alg_obj target_node;
  Some (q, alg_obj, s, w).
End fusion.

(** ** The code: the task of the algorithms *)

(** [algs_handle_multiple_targets] as [alg_init] registers it. *)
Definition alg_handler (malloc : gset nat -> nat) : multiple_targets_algs_handle alg_app_res :=
  λ pack size s,
    '(_, s) ← algs_handle_multiple_targets s pack size 0
      {| ta_node := Some (malloc (dom (aa_nodes s))); ta_pack := Some (malloc (dom (aa_packs s))) |};
    Some s.

(** A turn of the task's thread. *)
Definition alg_task_turn {X} (o : alg_ctrl X) : option (alg_ctrl X) :=
  t ← pvalgtask o; t ← sysport_task_pthread t; Some (alg_set_task t o).

(** ** One turn of the thread *)

Section turn.
Context {S F : Type} (send : list Z -> S -> option S).
Context (gettimeofday : S -> timeval * S) (sleep msleep : Z -> S -> S).
Context (sort : list RadarObj -> list RadarObj).
Context (sin cos abs : double -> double) (atan2 pow : double -> double -> double).

Local Abbreviation fusion := (fusion_ai_alg_thread (F := F) send gettimeofday sleep msleep sort
  sin cos abs atan2 pow).

Lemma target_of_pack s a t : target_of s a = Some t ->
  (n ← aa_nodes s !! a;
   match tg_target_pack n with
   | Some p => bs ← aa_packs s !! p; Some (Some bs)
   | None => Some None
   end) = Some (Some t.2).
Proof.
  unfold target_of. destruct (aa_nodes s !! a) as [n|]; [|done]. cbn [mbind option_bind].
  destruct (tg_target_pack n) as [p|]; [|done]. cbn [mbind option_bind].
  destruct (aa_packs s !! p); [|done]. by intros [= <-].
Qed.

Lemma same_reports_ok s s' : same_reports s s' -> ai_ok s -> ai_ok s'.
Proof.
  intros (E1 & E2 & E3 & E4 & E5 & E6 & E7) [H1 H2 H3 H4 H5 H6 H7]. split;
    rewrite ?E1, ?E2, ?E3, ?E4, ?E5, ?E6, ?E7; assumption.
Qed.

Lemma fusion_turn (frame : F) q alg_obj s u :
  target_rep alg_obj None u ->
  ai_ok s -> img_cnt s < 2 ^ 31 - 1 -> 0 <= track_cnt s < 2 ^ 31 - 1 ->
  exists alg_obj' s', target_rep alg_obj' None (tq_release (tq_take u))
    /\ ai_ok s' /\ same_reports s s'
    /\ track_cnt s' = (if head_mode s =? 2 then track_cnt s + 1 else 0)
    /\ forall w, fusion (frame :: q) alg_obj s 0 0 w
       = (l ← turn_actions sort sin cos abs atan2 pow (head_mode s) (track_cnt s')
                (head_targets s) (snd <$> tq_held (tq_take u));
          w ← acts send gettimeofday sleep l w; Some (q, alg_obj', s', w)).
Proof.
  intros Hrep Hok Hi Ht.
  destruct (take_rep alg_obj u Hrep) as (held & obj1 & Hget & Hrep1 & Hheld).
  destruct (release_rep obj1 held _ Hrep1) as (obj2 & Hrel & Hrep2).
  assert (Hpack : match held with
            | Some node =>
                n ← aa_nodes obj1 !! node;
                match tg_target_pack n with
                | Some p => bs ← aa_packs obj1 !! p; Some (Some bs)
                | None => Some None
                end
            | None => Some None
            end = Some (snd <$> tq_held (tq_take u))).
  { destruct held as [a|].
    - destruct Hheld as (t & Hto & ->). exact (target_of_pack _ _ _ Hto).
    - by rewrite Hheld. }
  destruct (run7_actions send gettimeofday sleep sort sin cos abs atan2 pow s
    (snd <$> tq_held (tq_take u)) Hok Hi Ht) as (s' & Hs & _ & Hc & Hrun).
  exists obj2, s'. split; [exact Hrep2|]. split; [by eapply same_reports_ok|].
  split; [exact Hs|]. split; [exact Hc|]. intros w.
  unfold fusion_ai_alg_thread. cbn [capture_ptz_vstream_pic negb Z.eqb].
  rewrite Hget. cbn [mbind option_bind]. rewrite Hpack. cbn [mbind option_bind]. rewrite Hrun.
  destruct (turn_actions _ _ _ _ _ _ _ _ _ _) as [l|]; [|done]. cbn [mbind option_bind].
  destruct (acts _ _ _ l w); [|done]. cbn [mbind option_bind]. by rewrite Hrel.
Qed.
End turn.

(** ** From the message of the tracks to the target *)

Lemma ld_le_payload n a p b k : Zlen a = 4 -> 0 <= k -> k + Z.of_nat n <= Zlen p ->
  ld_le n (a ++ p ++ b) (4 + k) = ld_le n p k.
Proof.
  intros Ha Hk Hn. unfold ld_le. f_equal.
  rewrite <-Ha, ld_bytes_shift by done. unfold ld_bytes. rewrite Zlen_app.
  pose proof (Zlen_nonneg b). rewrite !bool_decide_eq_true_2 by lia.
  rewrite drop_app_le by (unfold Zlen in *; lia). f_equal. apply take_app_le.
  unfold Zlen in *. rewrite length_drop. lia.
Qed.

(** The task of the algorithms is idle and runs [alg_handler]. *)
Definition alg_idle_task (malloc : gset nat -> nat) (o : alg_ctrl alg_app_res) (u : target_queue)
  : Prop :=
  exists t m, pvalgtask o = Some t /\ ts_module t = Some m /\ mq m = []
    /\ mtargets_handle (ts_world t) = Some (alg_handler malloc)
    /\ target_rep (alg_user (ts_world t)) None u.

Lemma alg_handler_rep malloc `{!Malloc malloc} s u pack :
  target_rep s None u -> 4 <= Zlen pack < 2 ^ 31 ->
  exists s', alg_handler malloc pack (Zlen pack) s = Some s'
    /\ target_rep s' None (tq_insert (i32 (le_val (take 4 pack)), pack) u).
Proof.
  intros Hrep Hp. destruct (handle_rep malloc s None u pack 0 true true (or_intror Hp) Hrep)
    as (s' & E & Hr).
  unfold tq_do in *. rewrite bool_decide_eq_false_2 in * by (intros ->; unfold Zlen in Hp; cbn in Hp; lia).
  cbn [negb Z.eqb andb fst snd] in *. exists s'. split; [|exact Hr]. unfold target_do in E.
  unfold alg_handler. apply bind_Some in E as ([r s1] & E & [= _ <-]). by rewrite E.
Qed.

Lemma tracked_to_target malloc `{!Malloc malloc} mem psPayload payload psResp w u :
  payload_at mem psPayload payload -> dw_ready w -> alg_idle_task malloc (dw_alg w) u ->
  Zlen payload <= 11525 -> Zlen (dw_pack w) = 11574 ->
  let pack := le_bytes 4 TRACK_INFO_RADAR ++ payload ++ drop (4 + length payload) (dw_pack w) in
  Zlen pack = 11574 /\ exists w1 o,
    track_pkg_tracked mem psPayload psResp w = Some (psResp, w1)
    /\ alg_task_turn (dw_alg w1) = Some o
    /\ alg_idle_task malloc o (tq_insert (TRACK_INFO_RADAR, pack) u).
Proof.
  intros Hp Hw (t & m & Ht & Hm & Hq & Hh & Hrep) Hl Hd pack.
  destruct (track_pkg_tracked_build mem psPayload payload psResp w Hp) as [Hlen E]; [lia|done|].
  fold pack in Hlen, E. split; [exact Hlen|]. rewrite E. clear E.
  destruct (alg_handler_rep malloc _ u pack Hrep) as (s' & Es & Hrep'); [lia|].
  assert (Hrun : alg_thread_handler (tm_pvArg m) pack (u32 (Zlen pack)) (ts_world t)
    = Some {| mtargets_handle := mtargets_handle (ts_world t); alg_user := s' |}).
  { unfold alg_thread_handler. rewrite Hh, u32_id by lia. by rewrite Es. }
  destruct Hw as (Hmalloc & Hmq & _). unfold dw_send.
  cbn [dw_alg dw_malloc_ok dw_mq_ok set_dw_pack]. rewrite Hmalloc, Hmq. unfold msg_send_to_alg.
  rewrite Ht. unfold sysport_task_malloc. rewrite <-Hlen, ld_bytes_all. cbn [mbind option_bind].
  unfold sysport_task_func. cbn [ts_module task_set]. rewrite Hm. cbn [mbind option_bind negb].
  rewrite Hq. rewrite decide_False by (cbn; unfold SYSPORT_TASK_MSG_SIZE; lia).
  cbn [mbind option_bind]. do 2 eexists. split; [reflexivity|].
  unfold alg_task_turn. cbn [dw_alg set_dw_alg pvalgtask alg_set_task mbind option_bind].
  unfold sysport_task_pthread. cbn [ts_module task_set mbind option_bind mq module_set_mq app pv_func
    acInfo uSize ts_world tm_pvArg].
  rewrite Hrun. cbn [mbind option_bind]. split; [reflexivity|].
  do 2 eexists. split; [reflexivity|]. split; [reflexivity|]. split; [reflexivity|].
  cbn [ts_world task_set_world mtargets_handle alg_user]. split; [done|].
  assert (Hk : i32 (le_val (take 4 pack)) = TRACK_INFO_RADAR) by reflexivity.
  by rewrite Hk in Hrep'.
Qed.

(** ** Properties *)

Section properties.
Context {S F : Type} (send : list Z -> S -> option S).
Context (gettimeofday : S -> timeval * S) (sleep msleep : Z -> S -> S).
Context (sort : list RadarObj -> list RadarObj).
Context (sin cos abs : double -> double) (atan2 pow : double -> double -> double).

(** C23: one turn of the algorithm's thread. When a picture waits, the thread takes the
    target that is first in line, the user's before the devices', tells the head what
    [turn_actions] says for it and nothing else, and frees it; the picture is used up and the
    reports are not changed. So every turn with a picture brings every target one place
    forward, and the six pictures the code means to wait between two guidances, and the mode
    it keeps from the turn before, have no effect. *)
Theorem alg_thread_turn (frame : F) q alg_obj s u :
  target_rep alg_obj None u ->
  ai_ok s -> img_cnt s < 2 ^ 31 - 1 -> 0 <= track_cnt s < 2 ^ 31 - 1 ->
  exists alg_obj' s', target_rep alg_obj' None (tq_release (tq_take u))
    /\ ai_ok s' /\ same_reports s s'
    /\ track_cnt s' = (if head_mode s =? 2 then track_cnt s + 1 else 0)
    /\ forall w, fusion_ai_alg_thread send gettimeofday sleep msleep sort sin cos abs atan2 pow
         (frame :: q) alg_obj s 0 0 w
       = (l ← turn_actions sort sin cos abs atan2 pow (head_mode s) (track_cnt s')
                (head_targets s) (snd <$> tq_held (tq_take u));
          w ← acts send gettimeofday sleep l w; Some (q, alg_obj', s', w)).
Proof. apply fusion_turn. Qed.

(** A target of the radar is in the queue, alone, and the head is idle. *)
Lemma target_to_head malloc `{!SortsBy radar_compare sort} o u payload tl n s (frame : F) q :
  let pack := le_bytes 4 TRACK_INFO_RADAR ++ payload ++ tl in
  alg_idle_task malloc o (tq_insert (TRACK_INFO_RADAR, pack) u) ->
  tq_user u = None -> tq_devs u = [] -> Zlen pack = sizeof_radar_track ->
  ld_le 1 payload 1 = Some n -> 0 <= n <= ALINK_TARGET_MAX ->
  ai_ok s -> img_cnt s < 2 ^ 31 - 1 -> 0 <= track_cnt s < 2 ^ 31 - 1 -> head_mode s = 0 ->
  exists t alg1 s1 objs l,
    pvalgtask o = Some t /\ radar_read pack [] = Some (0, objs)
    /\ (filter useful objs = [] /\ l = []
        \/ exists ob, most_dangerous objs ob /\ l = radar_actions ob)
    /\ (forall v, fusion_ai_alg_thread send gettimeofday sleep msleep sort sin cos abs atan2 pow
          (frame :: q) (alg_user (ts_world t)) s 0 0 v
        = (v ← acts send gettimeofday sleep
                 (l ++ if head_targets s =? 0 then [] else [act_search]) v;
           Some (q, alg1, s1, v)))
    /\ aa_nodes alg1 = ∅ /\ size (aa_packs alg1) = tq_leaked u.
Proof.
  intros pack (t & m & Eo & _ & _ & _ & Hrep) Hu Hd Hlen Hn Hr Hok Hi Ht Hm.
  assert (Hq : tq_insert (TRACK_INFO_RADAR, pack) u
    = {| tq_user := None; tq_devs := [(TRACK_INFO_RADAR, pack)]; tq_held := tq_held u;
         tq_leaked := tq_leaked u |}) by (unfold tq_insert; cbn; by rewrite Hu, Hd).
  rewrite Hq in Hrep.
  destruct (fusion_turn send gettimeofday sleep msleep sort sin cos abs atan2 pow frame q
    (alg_user (ts_world t)) s _ Hrep Hok Hi Ht) as (alg1 & s1 & Hrep1 & _ & _ & _ & Hrun).
  cbn [tq_take tq_user tq_devs tq_held fmap option_fmap option_map snd] in Hrun.
  assert (Hk : ld_le 1 pack (radar_track_at "trackObjNum") = Some n).
  { change (radar_track_at "trackObjNum") with (4 + 1). unfold pack.
    rewrite ld_le_payload; [done|done|lia|].
    apply (mk_is_Some _ _), ld_le_Some in Hn. lia. }
  destruct (radar_turn_actions sort sin cos abs atan2 pow pack n (track_cnt s1) (head_targets s))
    as (objs & l & Hobjs & Hl' & Hact); [done| |done|done|].
  { unfold ld_le, pack. by rewrite ld_bytes_prefix by done. }
  exists t, alg1, s1, objs, l. do 3 (split; [done|]). split.
  - intros v. rewrite Hrun, Hm, Hact. done.
  - apply rep_sizes in Hrep1 as (_ & _ & Hsz & Hps). cbn in Hsz.
    rewrite Hps, Hsz. split; [|done]. by apply map_size_empty_inv.
Qed.
End properties.

(** ** Witnesses *)

Definition demo_state (mode track : Z) : ai_state :=
  set_counters (-1) true 99 3 track 0
    (set_reports (zeros ptz_msg_pitch_azimuth)
       (replicate 16 0 ++ le_bytes 4 mode ++ replicate 12 0) (zeros ptz_msg_dev_ext_info)
       (zeros ptz_msg_dev_status_search) (zeros ptz_msg_dev_target_info)
       (zeros ptz_msg_dev_status_track) (zeros ptz_msg_target_pac) ai_init).

Lemma demo_state_ok mode track : ai_ok (demo_state mode track).
Proof. by split. Qed.


Local Abbreviation demo_turn := (fusion_ai_alg_thread demo_send demo_clock demo_sleep demo_sleep
  (merge_sort threat_le) id id id dadd dmul).

(** A head that searches, and no target. *)
Lemma alg_thread_turn_witness :
  (exists alg_obj' s', forall w, demo_turn [1; 2] alg_t_init (demo_state 1 0) 0 0 w
     = (w ← acts demo_send demo_clock demo_sleep [act_stop] w; Some ([2], alg_obj', s', w))).
Proof.
  destruct (alg_thread_turn demo_send demo_clock demo_sleep demo_sleep (merge_sort threat_le)
    id id id dadd dmul 1 [2] alg_t_init (demo_state 1 0) tq_init init_rep (demo_state_ok 1 0)
    eq_refl (conj (Z.le_refl 0) eq_refl)) as (alg_obj' & s' & _ & _ & _ & _ & H).
  exists alg_obj', s'. exact H.
Defined.

Definition demo_alg_world : dev_world alg_app_res :=
  let aw := {| mtargets_handle := Some (alg_handler fresh); alg_user := alg_t_init |} in
  {| dw_upload := {| byDevId := 8; byReq := 0; up_wBufferSize := 6144; up_mutex := false;
                     up_pbyBuffer := []; psPackageList := None |};
     dw_pack := replicate (Z.to_nat 11574) 0;
     dw_alg := {| pvalgtask := Some {| ts_module := Some {| strName := []; tm_pvArg := 0; mq := [] |};
                    ts_live := 1; ts_world := aw |};
                  alg_idle := aw; alg_live := 0 |};
     dw_malloc_ok := true; dw_mq_ok := true |}.

Lemma demo_alg_world_ready : dw_ready demo_alg_world.
Proof. repeat split. do 2 eexists. split; [done|]. split; [done|]. cbn. unfold SYSPORT_TASK_MSG_SIZE. lia. Qed.

Lemma demo_alg_world_idle : alg_idle_task fresh (dw_alg demo_alg_world) tq_init.
Proof. do 2 eexists. repeat (split; [reflexivity|]). exact init_rep. Qed.
