(* ===== verification/Alink.v ===== *)
(** * The alink module ([src/srv/alink/alink.c], [src/srv/alink/analysis/alink_socket.c])

    [alink_init] sets up the two order components (commands of the C2 station, commands of
    the devices) and the upload component, and the three command files register their
    handlers and packages.  A socket is a receiver whose callback is the order component
    its port was connected to.  The theorems put the receiver, the dispatcher and the
    handlers together. *)

From S2P Require Import Prelude Checksum AlinkFrame AlinkCheck AlinkRecv AlinkBuild Linked.
From S2P Require Import AlinkOrder AlinkUpload Layout SysportTask AlgInterface AlinkWorld.
From S2P Require Import AlinkSystem AlinkTrack AlinkTarget.
Local Open Scope c_scope.
Local Open Scope list_scope.
Local Open Scope Z_scope.

Definition ALINK_USER_TYPE_C2 : Z := 0.
Definition ALINK_USER_TYPE_DEVICE : Z := 1.
Definition ALINK_SEND_BUFFER_SIZE : Z := 16 * 1024.
Definition ALINK_UPLOAD_BUFFER_SIZE : Z := 6 * 1024.
Definition ALINK_DEV_ID_AGX : Z := 8.
Definition RET_VALUE_INVALID_PARM : Z := -4.

(** The static objects that are linked into lists, by address. *)
Definition sAlinkCmd_SystemSetStatus : nat := 0.
Definition sAlinkCmd_SystemGetInfo : nat := 1.
Definition sAlinkCmd_SystemHeartBeatExt : nat := 2.
Definition sAlinkCmd_SystemSetSn : nat := 3.
Definition sAlinkPackage_Tracked : nat := 4.
Definition sAlinkPackage_Attitude : nat := 5.
Definition sAlinkPackage_remoteid : nat := 6.
Definition sAlinkPackage_droneid : nat := 7.
Definition sAlinkPackage_user_target : nat := 8.
Definition sAlinkPackage_HeartBeat : nat := 0.
Definition sAlinkPackage_TargetInfo : nat := 1.
(** [&sOrder] and [&sOrder_server]. *)
Definition sOrder : nat := 0.
Definition sOrder_server : nat := 1.

Section alink.
Context {X T : Type}.

(** The static state of the module and of the files that register with it; [sUpload] is
    in the world of the handlers, because a handler changes it. *)
Record alink_world := {
  aw_sOrder : alink_order; aw_sOrder_server : alink_order;
  aw_cmds : gmap nat (alink_cmd_list (dev_world X));
  aw_packages : gmap nat alink_package_list;
  aw_sends : gmap nat (alink_send_list T);
  aw_dev : dev_world X
}.

Definition order_at (h : nat) (aw : alink_world) : option alink_order :=
  if (h =? sOrder)%nat then Some (aw_sOrder aw)
  else if (h =? sOrder_server)%nat then Some (aw_sOrder_server aw) else None.

Definition set_order (h : nat) (o : alink_order) (aw : alink_world) : alink_world :=
  {| aw_sOrder := if (h =? sOrder)%nat then o else aw_sOrder aw;
     aw_sOrder_server := if (h =? sOrder_server)%nat then o else aw_sOrder_server aw;
     aw_cmds := aw_cmds aw; aw_packages := aw_packages aw; aw_sends := aw_sends aw;
     aw_dev := aw_dev aw |}.
Definition set_cmds (c : gmap nat (alink_cmd_list (dev_world X))) (aw : alink_world)
  : alink_world :=
  {| aw_sOrder := aw_sOrder aw; aw_sOrder_server := aw_sOrder_server aw; aw_cmds := c;
     aw_packages := aw_packages aw; aw_sends := aw_sends aw; aw_dev := aw_dev aw |}.
Definition set_dev (d : dev_world X) (aw : alink_world) : alink_world :=
  {| aw_sOrder := aw_sOrder aw; aw_sOrder_server := aw_sOrder_server aw;
     aw_cmds := aw_cmds aw; aw_packages := aw_packages aw; aw_sends := aw_sends aw;
     aw_dev := d |}.
Definition set_lists (p : gmap nat alink_package_list) (s : gmap nat (alink_send_list T))
    (aw : alink_world) : alink_world :=
  {| aw_sOrder := aw_sOrder aw; aw_sOrder_server := aw_sOrder_server aw;
     aw_cmds := aw_cmds aw; aw_packages := p; aw_sends := s; aw_dev := aw_dev aw |}.

(** [alink_order_task] as the callback of a receiver: the handle is the order component. *)
Definition order_cbk (h : nat) (mem : memory) (psImport : alink_order_import)
    (aw : alink_world) : option alink_world :=
  o ← order_at h aw;
  '(o, d) ← alink_order_task o mem (aw_cmds aw) psImport (aw_dev aw);
  Some (set_order h o (set_dev d aw)).

(** ** The code: [alink_socket.c] *)

Record alink_socket := {
  so_abyBuffer : ptr; so_sRecv : alink_recv alink_world;
  so_sImport : alink_recv_import; so_psOrder : option nat
}.

Definition alink_socket_init (psSocket : alink_socket) (psOrder : nat) : Z * alink_socket :=
  let r := alink_recv_init (so_sRecv psSocket) (so_abyBuffer psSocket) 0 in
  let r := alink_recv_register_cbk r psOrder (Some order_cbk) in
  (0, {| so_abyBuffer := so_abyBuffer psSocket; so_sRecv := r;
         so_sImport := so_sImport psSocket; so_psOrder := Some psOrder |}).

Definition alink_socket_task (mem : memory) (psSocket : alink_socket)
    (psImport : alink_recv_import) (aw : alink_world) : option (alink_socket * alink_world) :=
  '(r, aw) ← alink_recv_task mem (so_sRecv psSocket) psImport aw;
  Some ({| so_abyBuffer := so_abyBuffer psSocket; so_sRecv := r; so_sImport := psImport;
           so_psOrder := so_psOrder psSocket |}, aw).

Definition alink_socket_recv (mem : memory) (psSocket : alink_socket) (pbyData : ptr)
    (uLen : Z) (aw : alink_world) : option (alink_socket * alink_world) :=
  alink_socket_task mem psSocket (with_data (so_sImport psSocket) pbyData (u32 uLen)) aw.

(** [po_register] tells whether the port has a function to register callbacks with. *)
Record alink_port := {
  byPortId : Z; po_handle : nat; po_pe_send : nat; po_register : bool
}.

(** The last result is the callback that is registered with the port. *)
Definition alink_socket_connect (psSocket : alink_socket) (psPort : alink_port)
  : Z * alink_socket
    * option (memory -> alink_socket -> ptr -> Z -> alink_world -> option (alink_socket * alink_world)) :=
  let i := so_sImport psSocket in
  (0, {| so_abyBuffer := so_abyBuffer psSocket; so_sRecv := so_sRecv psSocket;
         so_sImport := {| ri_ePortId := byPortId psPort; ri_pbyData := ri_pbyData i;
                          ri_uLength := ri_uLength i; ri_handle := po_handle psPort;
                          ri_pe_send := po_pe_send psPort |};
         so_psOrder := so_psOrder psSocket |},
   if po_register psPort then Some alink_socket_recv else None).

Definition alink_get_header_index (m : list Z) (adat datlen : Z) : option Z :=
  alink_get_package_head_index m adat datlen.
Definition alink_package_integrity_check (m : list Z) (adat datlen : Z) : option Z :=
  alink_package_valid_length m adat datlen.

(** A frame that arrives at a connected port is answered through that port: what the callback
    does is what a receiver's turn does with the port's handle. *)
Lemma alink_socket_connect_recv psSocket psPort mem p n aw :
  po_register psPort = true ->
  exists s cbk, alink_socket_connect psSocket psPort = (0, s, Some cbk)
    /\ cbk mem s p n aw = alink_socket_task mem psSocket
         {| ri_ePortId := byPortId psPort; ri_pbyData := p; ri_uLength := u32 n;
            ri_handle := po_handle psPort; ri_pe_send := po_pe_send psPort |} aw.
Proof. intros H. unfold alink_socket_connect. rewrite H. by eexists _, _. Qed.

(** ** The code: [alink.c] *)

Definition alink_connect_port (psSocket : alink_socket) (type : Z) : Z * alink_socket :=
  if ALINK_USER_TYPE_C2 =? u8 type then alink_socket_init psSocket sOrder
  else if ALINK_USER_TYPE_DEVICE =? u8 type then alink_socket_init psSocket sOrder_server
  else (RET_VALUE_INVALID_PARM, psSocket).

Definition alink_register_cmd (psCmdList : nat) (byOrder wPayload : Z)
    (task : cmd_task (dev_world X)) (aw : alink_world) : option (Z * alink_world) :=
  c ← aw_cmds aw !! psCmdList;
  let aw := set_cmds (<[psCmdList := {| byCmd := u8 byOrder; wPayloadLen := u16 wPayload;
    pv_cmd_task := Some task; cl_psNext := None; cmd_type := cmd_type c |}]> (aw_cmds aw)) aw in
  let register h :=
    o ← order_at h aw;
    '(o, cmds) ← alink_order_register_cmd o (aw_cmds aw) psCmdList;
    Some (0, set_order h o (set_cmds cmds aw)) in
  if ALINK_USER_TYPE_C2 =? cmd_type c then register sOrder
  else if ALINK_USER_TYPE_DEVICE =? cmd_type c then register sOrder_server
  else Some (RET_VALUE_INVALID_PARM, aw).

Definition alink_register_package (psPackage : nat) (MsgId Ans : Z) (task : package_task)
    (aw : alink_world) : option (Z * alink_world) :=
  p ← aw_packages aw !! psPackage;
  let packages := <[psPackage := alink_package_init p MsgId Ans (Some task)]> (aw_packages aw) in
  '(u, packages, eRet) ← alink_upload_register_package (dw_upload (aw_dev aw)) packages psPackage;
  Some (eRet, set_dev (set_dw_upload u (aw_dev aw)) (set_lists packages (aw_sends aw) aw)).

Definition alink_upload_package (psPackage : nat) (psImport : void_ptr) (aw : alink_world)
    (t : T) : option (Z * alink_world * T) :=
  p ← aw_packages aw !! psPackage;
  '(u, eRet, t) ← alink_upload_send_package (dw_upload (aw_dev aw)) (aw_sends aw) p psImport t;
  Some (eRet, set_dev (set_dw_upload u (aw_dev aw)) aw, t).

Definition alink_connect_send (psSendList : nat) (MsgId RemoteId : Z) (handle : nat)
    (send : option (send_fun T)) (aw : alink_world) : option (Z * alink_world) :=
  n ← aw_sends aw !! psSendList;
  let sends := <[psSendList := {| byRemoteId := u8 RemoteId; sl_handle := handle;
    sl_pe_send := send; sl_psNext := sl_psNext n |}]> (aw_sends aw) in
  '(u, packages, sends, eRet) ←
    alink_upload_connect_send (dw_upload (aw_dev aw)) (aw_packages aw) sends (u8 MsgId) psSendList;
  Some (eRet, set_dev (set_dw_upload u (aw_dev aw)) (set_lists packages sends aw)).

Definition alink_disconnect_send (psSendList : nat) (MsgId : Z) (aw : alink_world)
  : option (Z * alink_world) :=
  '(u, packages, sends, eRet) ←
    alink_upload_disconnect_send (dw_upload (aw_dev aw)) (aw_packages aw) (aw_sends aw)
      (u8 MsgId) psSendList;
  Some (eRet, set_dev (set_dw_upload u (aw_dev aw)) (set_lists packages sends aw)).

(** ** The code: the registrations *)

Definition set_cmd_type (psCmdList : nat) (t : Z) (aw : alink_world) : option alink_world :=
  c ← aw_cmds aw !! psCmdList;
  Some (set_cmds (<[psCmdList := {| byCmd := byCmd c; wPayloadLen := wPayloadLen c;
    pv_cmd_task := pv_cmd_task c; cl_psNext := cl_psNext c; cmd_type := t |}]> (aw_cmds aw)) aw).

Definition alink_track_init (aw : alink_world) : option alink_world :=
  aw ← set_cmd_type sAlinkPackage_Tracked ALINK_USER_TYPE_DEVICE aw;
  aw ← set_cmd_type sAlinkPackage_Attitude ALINK_USER_TYPE_DEVICE aw;
  aw ← set_cmd_type sAlinkPackage_remoteid ALINK_USER_TYPE_DEVICE aw;
  aw ← set_cmd_type sAlinkPackage_droneid ALINK_USER_TYPE_DEVICE aw;
  let len := sizeof alink_track_get_config_info in
  '(_, aw) ← alink_register_cmd sAlinkPackage_Tracked 0x12 len track_pkg_tracked aw;
  '(_, aw) ← alink_register_cmd sAlinkPackage_Attitude 0x13 len track_pkg_attitude aw;
  '(_, aw) ← alink_register_cmd sAlinkPackage_droneid 0xE0 len track_pkg_drone_id aw;
  '(_, aw) ← alink_register_cmd sAlinkPackage_remoteid 0xE1 len track_pkg_remote_id aw;
  Some aw.

Definition alink_target_init (aw : alink_world) : option alink_world :=
  aw ← set_cmd_type sAlinkPackage_user_target ALINK_USER_TYPE_C2 aw;
  '(_, aw) ← alink_register_package sAlinkPackage_TargetInfo 0x80 0 track_pkg_target_info aw;
  '(_, aw) ← alink_register_cmd sAlinkPackage_user_target 0x81 4 user_custom_track_target aw;
  Some aw.

Definition alink_system_init (aw : alink_world) : option alink_world :=
  aw ← set_cmd_type sAlinkCmd_SystemSetStatus ALINK_USER_TYPE_C2 aw;
  aw ← set_cmd_type sAlinkCmd_SystemGetInfo ALINK_USER_TYPE_C2 aw;
  aw ← set_cmd_type sAlinkCmd_SystemHeartBeatExt ALINK_USER_TYPE_C2 aw;
  aw ← set_cmd_type sAlinkCmd_SystemSetSn ALINK_USER_TYPE_C2 aw;
  '(_, aw) ← alink_register_cmd sAlinkCmd_SystemSetStatus 0xD1
               (sizeof alink_sys_set_status) system_set_status aw;
  '(_, aw) ← alink_register_cmd sAlinkCmd_SystemGetInfo 0xD2
               (sizeof alink_sys_get_info) system_get_info aw;
  '(_, aw) ← alink_register_cmd sAlinkCmd_SystemHeartBeatExt 0xD3
               (sizeof alink_sys_heartbeat_ext) system_heartbeat_ext aw;
  '(_, aw) ← alink_register_cmd sAlinkCmd_SystemSetSn 0xD4
               (sizeof alink_sys_set_sn) system_set_sn aw;
  '(_, aw) ← alink_register_package sAlinkPackage_HeartBeat 0xD0 0 system_pkg_heartbeat aw;
  Some aw.

(** [r1], [r2] and [r3] are the results of the three [pthread_mutex_init]; the buffers are
    the static ones. *)
Definition alink_init (r1 r2 r3 : Z) (aw : alink_world) : option (Z * alink_world) :=
  let '(o, _) := alink_order_init (aw_sOrder aw) (or_pbyBuffer (aw_sOrder aw))
                   ALINK_SEND_BUFFER_SIZE r1 in
  let aw := set_order sOrder o aw in
  let '(o, _) := alink_order_init (aw_sOrder_server aw) (or_pbyBuffer (aw_sOrder_server aw))
                   ALINK_SEND_BUFFER_SIZE r2 in
  let aw := set_order sOrder_server o aw in
  let '(u, _) := alink_upload_init (dw_upload (aw_dev aw)) ALINK_DEV_ID_AGX
                   (up_pbyBuffer (dw_upload (aw_dev aw))) ALINK_UPLOAD_BUFFER_SIZE r3 in
  let aw := set_dev (set_dw_upload u (aw_dev aw)) aw in
  aw ← alink_track_init aw;
  aw ← alink_target_init aw;
  aw ← alink_system_init aw;
  Some (0, aw).
End alink.

Arguments alink_world : clear implicits.
Arguments alink_socket : clear implicits.

(** ** The command tables *)

(** Message id, least payload length, handler. *)
Definition command (X : Type) : Type := Z * Z * cmd_task (dev_world X).

Definition c2_commands {X} : list (command X) :=
  [(0x81, 4, user_custom_track_target); (0xD1, 3, system_set_status);
   (0xD2, 1, system_get_info); (0xD3, 1, system_heartbeat_ext); (0xD4, 15, system_set_sn)].
Definition device_commands {X} : list (command X) :=
  [(0x12, 1, track_pkg_tracked); (0x13, 1, track_pkg_attitude);
   (0xE0, 1, track_pkg_drone_id); (0xE1, 1, track_pkg_remote_id)].

Definition command_at {X} (cmds : gmap nat (alink_cmd_list (dev_world X))) (a : nat)
    (c : command X) : Prop :=
  exists n, cmds !! a = Some n /\ (byCmd n, wPayloadLen n, pv_cmd_task n) = (c.1.1, c.1.2, Some c.2).

(** An order component that holds exactly the commands of a table, in its order. *)
Definition order_holds {X} (o : alink_order) (cmds : gmap nat (alink_cmd_list (dev_world X)))
    (tab : list (command X)) : Prop :=
  Zlen (or_pbyBuffer o) = ALINK_SEND_BUFFER_SIZE
  /\ exists l, order_ok o cmds l /\ Forall2 (command_at cmds) l tab.

Definition alink_ready {X T} (aw : alink_world X T) : Prop :=
  order_holds (aw_sOrder aw) (aw_cmds aw) c2_commands
  /\ order_holds (aw_sOrder_server aw) (aw_cmds aw) device_commands.

(** The static objects before [main]: zero, with buffers of the declared sizes. *)
Definition zero_order (buf : list Z) : alink_order :=
  {| or_wBufferSize := 0; or_mutex := false; or_pbyBuffer := buf; psCmdList := None |}.
Definition zero_upload (buf : list Z) : alink_upload :=
  {| byDevId := 0; byReq := 0; up_wBufferSize := 0; up_mutex := false; up_pbyBuffer := buf;
     psPackageList := None |}.
Definition zero_cmd {S} : alink_cmd_list S :=
  {| byCmd := 0; wPayloadLen := 0; pv_cmd_task := None; cl_psNext := None; cmd_type := 0 |}.
Definition zero_package : alink_package_list :=
  {| byMsgId := 0; byAns := 0; pw_package_task := None; psSendList := None; pk_psNext := None |}.

Definition alink_statics {X T} (b1 b2 b3 : list Z) (sends : gmap nat (alink_send_list T))
    (d : dev_world X) : alink_world X T :=
  {| aw_sOrder := zero_order b1; aw_sOrder_server := zero_order b2;
     aw_cmds := list_to_map (map (λ a, (a, zero_cmd)) (seq 0 9));
     aw_packages := list_to_map (map (λ a, (a, zero_package)) (seq 0 2));
     aw_sends := sends; aw_dev := set_dw_upload (zero_upload b3) d |}.

(** Makes the handlers opaque, so that the registrations can be computed. *)
Ltac abstract_handlers X :=
  generalize (@system_set_status X) (@system_get_info X) (@system_heartbeat_ext X)
    (@system_set_sn X) (@track_pkg_tracked X) (@track_pkg_attitude X) (@track_pkg_drone_id X)
    (@track_pkg_remote_id X) (@user_custom_track_target X) system_pkg_heartbeat
    track_pkg_target_info; intros.

(** The nodes of a computed heap are the given list and hold the given commands. *)
Ltac by_table :=
  split;
    [split; [done|split; [done|]];
     repeat (split; [reflexivity|eexists; split; [vm_compute; reflexivity|]]); done
    |repeat constructor; eexists; split; vm_compute; reflexivity].

Lemma alink_init_ready {X T} b1 b2 b3 sends (d : dev_world X) :
  Zlen b1 = ALINK_SEND_BUFFER_SIZE -> Zlen b2 = ALINK_SEND_BUFFER_SIZE ->
  exists aw : alink_world X T, alink_init 0 0 0 (alink_statics b1 b2 b3 sends d) = Some (0, aw)
    /\ alink_ready aw
    /\ or_pbyBuffer (aw_sOrder_server aw) = b2 /\ dw_pack (aw_dev aw) = dw_pack d
    /\ first_package (aw_packages aw) [1; 0]%nat 0x80 = Some sAlinkPackage_TargetInfo.
Proof.
  intros H1 H2. unfold alink_init, alink_track_init, alink_target_init, alink_system_init,
    alink_ready, c2_commands, device_commands, order_holds. abstract_handlers X.
  eexists. split; [vm_compute; reflexivity|]. unfold order_ok. cbn -[Zlen lookup].
  rewrite H1, H2. repeat split.
  - exists [8; 0; 1; 2; 3]%nat. by_table.
  - exists [4; 5; 7; 6]%nat. by_table.
Qed.

(** ** Handlers and their replies *)

(** Room for the longest reply (17 bytes). *)
Definition roomy (r : alink_resp) : Prop :=
  0 <= rs_off r /\ rs_off r + 17 <= Zlen (rs_pbyBuffer r).

(** What a handler does to the program does not depend on the reply it is given, and it
    keeps the size of the reply buffer. *)
Class CmdTask {X} (task : cmd_task (dev_world X)) : Prop :=
  cmd_task_uniform mem pl r r0 d : roomy r -> roomy r0 ->
    option_Forall2 (λ x y, x.2 = y.2 /\ Zlen (rs_pbyBuffer x.1) = Zlen (rs_pbyBuffer r))
      (task mem pl r d) (task mem pl r0 d).

Lemma resp_put_roomy r k bs :
  roomy r -> 0 <= k -> k + Zlen bs <= 17 ->
  exists r', resp_put r k bs = Some r' /\ roomy r'
    /\ Zlen (rs_pbyBuffer r') = Zlen (rs_pbyBuffer r).
Proof.
  intros [Ho Hr] Hk Hl. unfold resp_put.
  destruct (proj2 (st_bytes_Some (rs_pbyBuffer r) (rs_off r + k) bs)) as [b Hb]; [lia|].
  rewrite Hb. cbn [mbind option_bind]. eexists. split; [done|]. unfold roomy. cbn.
  pose proof (st_bytes_len _ _ _ _ Hb). lia.
Qed.

(** Performs the [resp_put]s of both sides. *)
Ltac put_both :=
  repeat match goal with
  | H : roomy ?r |- context [resp_put ?r ?k ?bs] =>
      let r' := fresh "r'" in let E := fresh "E" in let R := fresh "R" in let L := fresh "L" in
      destruct (resp_put_roomy r k bs H) as (r' & E & R & L);
        [by vm_compute|by vm_compute|rewrite E; cbn [mbind option_bind]]
  end;
  try done; try (constructor; cbn; split; [done|congruence]).

(** A handler that leaves the reply alone. *)
Ltac no_reply :=
  repeat match goal with
  | |- option_Forall2 _ (?x ≫= _) _ => destruct x as [?|]; cbn [mbind option_bind]; [|constructor]
  | |- option_Forall2 _ (let '(_, _) := ?p in _) _ => destruct p as [? ?]
  end; by constructor.

#[export] Instance set_status_task {X} : CmdTask (@system_set_status X).
Proof.
  intros mem pl r r0 d Hr Hr0. unfold system_set_status.
  destruct (payload_ld8 mem pl (offsetof alink_sys_set_status "type")) as [type|]; cbn [mbind option_bind]; [|constructor].
  destruct (_ || _ || _ || _); [put_both|]. destruct (type =? 4); [|by constructor].
  destruct (payload_ld8 mem pl _) as [param1|]; cbn [mbind option_bind]; [|constructor].
  destruct (alink_set_upload_dev_id d param1) as [d' ret]. destruct (ret =? 0); put_both.
Qed.

#[export] Instance get_info_task {X} : CmdTask (@system_get_info X).
Proof.
  intros mem pl r r0 d Hr Hr0. unfold system_get_info. cbv zeta.
  destruct (payload_ld8 mem pl _) as [type|]; cbn [mbind option_bind]; [|constructor].
  destruct (type =? 0); [put_both|]. destruct (type =? 1); [put_both|].
  destruct (type =? 2); [put_both|]. by constructor.
Qed.

#[export] Instance heartbeat_ext_task {X} : CmdTask (@system_heartbeat_ext X).
Proof. intros mem pl r r0 d Hr Hr0. by constructor. Qed.
#[export] Instance set_sn_task {X} : CmdTask (@system_set_sn X).
Proof. intros mem pl r r0 d Hr Hr0. unfold system_set_sn. cbv zeta. put_both. Qed.
#[export] Instance tracked_task {X} : CmdTask (@track_pkg_tracked X).
Proof. intros mem pl r r0 d _ _. unfold track_pkg_tracked. no_reply. Qed.
#[export] Instance attitude_task {X} : CmdTask (@track_pkg_attitude X).
Proof. intros mem pl r r0 d _ _. unfold track_pkg_attitude. no_reply. Qed.
#[export] Instance drone_id_task {X} : CmdTask (@track_pkg_drone_id X).
Proof. intros mem pl r r0 d _ _. unfold track_pkg_drone_id. no_reply. Qed.
#[export] Instance remote_id_task {X} : CmdTask (@track_pkg_remote_id X).
Proof. intros mem pl r r0 d _ _. unfold track_pkg_remote_id. no_reply. Qed.
#[export] Instance user_target_task {X} : CmdTask (@user_custom_track_target X).
Proof. intros mem pl r r0 d _ _. unfold user_custom_track_target. no_reply. Qed.

(** ** What a stream of frames does to the devices *)

(** The effect of a handler, taken from a run with an empty reply. *)
Definition blank_resp (i : alink_order_import) : alink_resp :=
  {| rs_wCount := 1; rs_wSize := 17; rs_pbyBuffer := replicate 26 0; rs_off := 9; rs_psArg := i |}.
Definition cmd_effect {X} (task : cmd_task (dev_world X)) mem pl i d : option (dev_world X) :=
  '(_, d) ← task mem pl (blank_resp i) d; Some d.

(** The commands a port serves. *)
Definition port_commands {X} (h : nat) : list (command X) :=
  if (h =? sOrder)%nat then c2_commands else device_commands.

(** The order component's import for a message at [p]. *)
Definition order_import (imp : alink_recv_import) (p : ptr) : alink_order_import :=
  {| oi_ePortId := ri_ePortId imp; oi_pbyMsg := p; oi_handle := ri_handle imp;
     oi_pe_send := ri_pe_send imp |}.

(** The frame [f] at [p]: the command with its id, if the payload is long enough. *)
Definition serve_frame {X} (tab : list (command X)) (mem : memory) (imp : alink_recv_import)
    (p : ptr) (f : alink_frame) (d : dev_world X) : option (dev_world X) :=
  match head (filter (λ c, c.1.1 = fr_id f) tab) with
  | Some (_, len, task) =>
      if len <=? Zlen (fr_payload f) then
        cmd_effect task mem
          {| pl_ePortId := ri_ePortId imp; pl_eRemoteId := fr_src f;
             pl_wLength := Zlen (fr_payload f); pl_pbyData := ptr_add p 9 |}
          (order_import imp p) d
      else Some d
  | None => Some d
  end.

Fixpoint serve {X} (tab : list (command X)) (mem : memory) (imp : alink_recv_import)
    (blk : nat) (pos : Z) (items : list (list Z * alink_frame)) (d : dev_world X)
  : option (dev_world X) :=
  match items with
  | [] => Some d
  | (noise, f) :: items' =>
      d ← serve_frame tab mem imp (Ptr blk (pos + Zlen noise)) f d;
      serve tab mem imp blk (pos + Zlen noise + Zlen (encode f)) items' d
  end.

Lemma first_cmd_table {X} (cmds : gmap nat (alink_cmd_list (dev_world X))) l tab id :
  Forall2 (command_at cmds) l tab ->
  match head (filter (λ c, c.1.1 = id) tab) with
  | Some (_, len, task) => exists n, first_cmd cmds l id = Some n
      /\ wPayloadLen n = len /\ pv_cmd_task n = Some task
  | None => first_cmd cmds l id = None
  end.
Proof.
  intros H. induction H as [|a [[x len] task] l tab (n & Hn & [= Hx Hl Ht]) _ IH]; [done|].
  unfold first_cmd in *. cbn [fst snd] in *. destruct (decide (x = id)) as [E|E].
  - rewrite filter_cons_True by (cbn; done).
    rewrite filter_cons_True by (rewrite Hn; cbn; lia).
    cbn [head mbind option_bind]. by exists n.
  - rewrite filter_cons_False by (cbn; done).
    by rewrite filter_cons_False by (rewrite Hn; cbn; lia).
Qed.

Lemma effect_run {X} (task : cmd_task (dev_world X)) `{!CmdTask task} mem pl r i d :
  roomy r ->
  match cmd_effect task mem pl i d with
  | None => task mem pl r d = None
  | Some d' => exists r', task mem pl r d = Some (r', d')
      /\ Zlen (rs_pbyBuffer r') = Zlen (rs_pbyBuffer r)
  end.
Proof.
  intros Hr. unfold cmd_effect.
  assert (roomy (blank_resp i)) as Hb by by vm_compute.
  destruct (cmd_task_uniform mem pl r (blank_resp i) d Hr Hb) as [[r' d'] [r0 d0] [E L]|]; [|done].
  cbn in *. subst. eauto.
Qed.

Lemma port_tasks {X} h : Forall (λ c : command X, CmdTask c.2) (port_commands h).
Proof. unfold port_commands. case_match; repeat constructor; apply _. Qed.

Lemma ready_port {X T} (aw : alink_world X T) h o :
  alink_ready aw -> order_at h aw = Some o -> order_holds o (aw_cmds aw) (port_commands h).
Proof.
  intros [H1 H2]. unfold order_at, port_commands.
  destruct (h =? sOrder)%nat; [by intros [= <-]|].
  destruct (h =? sOrder_server)%nat; [by intros [= <-]|done].
Qed.

(** A component that only has another buffer of the same size. *)
Lemma ready_set_order {X T} (aw : alink_world X T) h o d b :
  alink_ready aw -> order_at h aw = Some o -> Zlen b = Zlen (or_pbyBuffer o) ->
  alink_ready (set_order h (order_set_buffer b o) (set_dev d aw)).
Proof.
  intros [H1 H2] Ho Hb. unfold alink_ready, set_order, order_at in *. cbn.
  assert (forall tab, order_holds o (aw_cmds aw) tab ->
    order_holds (order_set_buffer b o) (aw_cmds aw) tab) as Hk.
  { intros tab (Hz & l & (Hm & Hl & Hi) & Ht). split; [cbn; lia|]. exists l.
    split; [|done]. repeat split; [done|cbn; lia|done]. }
  destruct (h =? sOrder)%nat eqn:E; [injection Ho as <-|].
  - apply Nat.eqb_eq in E as ->. split; [by apply Hk|done].
  - destruct (h =? sOrder_server)%nat; [injection Ho as <-|done]. by auto.
Qed.

(** One frame through the callback of the receiver. *)
Lemma order_cbk_serve {X T} (aw : alink_world X T) h o mem imp p f :
  alink_ready aw -> order_at h aw = Some o -> frame_at mem p f ->
  match serve_frame (port_commands h) mem imp p f (aw_dev aw) with
  | None => order_cbk h mem (order_import imp p) aw = None
  | Some d => exists aw', order_cbk h mem (order_import imp p) aw = Some aw'
      /\ alink_ready aw' /\ aw_dev aw' = d
  end.
Proof.
  intros Hr Ho Hf. destruct (ready_port _ _ _ Hr Ho) as (Hz & l & Hok & Ht).
  unfold order_cbk. rewrite Ho. cbn [mbind option_bind].
  rewrite (order_task_spec o mem _ l (order_import imp p) f _ Hok Hf). unfold serve_frame.
  pose proof (first_cmd_table _ _ _ (fr_id f) Ht) as Hfirst.
  pose proof (port_tasks (X := X) h) as Htasks.
  set (resp := {| rs_wCount := 1 |}).
  assert (roomy resp /\ Zlen (rs_pbyBuffer resp) = Zlen (or_pbyBuffer o)) as [Hroom Hrz].
  { unfold roomy, Zlen in *. cbn. rewrite length_insert, Hz.
    split; [split; [lia|by vm_compute]|lia]. }
  assert (forall r' d, Zlen (rs_pbyBuffer r') = Zlen (or_pbyBuffer o) -> exists aw',
    Some (set_order h (order_set_buffer (rs_pbyBuffer r') o) (set_dev d aw)) = Some aw'
    /\ alink_ready aw' /\ aw_dev aw' = d) as Hdone
    by (intros r' d ?; eexists; split; [done|]; split; [by apply ready_set_order|done]).
  destruct (head _) as [[[x len] task]|] eqn:Eh.
  - destruct Hfirst as (n & -> & El & Et). unfold run_cmd. rewrite Et, El.
    destruct (len <=? _); [|by apply Hdone].
    apply head_Some_elem_of, list_elem_of_filter in Eh as [_ Eh].
    rewrite Forall_forall in Htasks. specialize (Htasks _ Eh). cbn in Htasks.
    match goal with |- context [cmd_effect task mem ?pl ?i ?d] =>
      pose proof (effect_run task mem pl resp i d Hroom) as He end.
    destruct (cmd_effect _ _ _ _ _) as [d|]; cbn [oi_ePortId oi_pbyMsg order_import];
      [|by rewrite He]. destruct He as (r' & -> & Hl). apply Hdone. lia.
  - rewrite Hfirst. by apply Hdone.
Qed.

(** ** Sockets *)

(** A socket that is connected to a port and waits for a message. *)
Definition socket_idle {X T} (s : alink_socket X T) (h : nat) : Prop :=
  idle (so_sRecv s) /\ sRecvCbk (so_sRecv s) = {| psHandle := h; pe_cbk := Some order_cbk |}.

Lemma frame_in_block mem blk m a f b p :
  mem !! blk = Some m -> m = a ++ encode f ++ b -> frame_ok f -> p = Zlen a ->
  frame_at mem (Ptr blk p) f.
Proof.
  intros Hm -> Hf ->. split; [done|]. unfold at_ptr. cbn [pblk poff]. rewrite Hm.
  cbn [mbind option_bind]. by apply ld_bytes_app.
Qed.

Lemma deliver_serve {X T} mem imp blk m (r : alink_recv (alink_world X T)) h items a b aw :
  sRecvCbk r = {| psHandle := h; pe_cbk := Some order_cbk |} ->
  mem !! blk = Some m -> m = a ++ stream items ++ b -> Forall item_ok items ->
  alink_ready aw -> is_Some (order_at h aw) ->
  match serve (port_commands h) mem imp blk (Zlen a) items (aw_dev aw) with
  | None => deliver_all mem imp blk r (Zlen a) items aw = None
  | Some d => exists aw', deliver_all mem imp blk r (Zlen a) items aw = Some aw'
      /\ alink_ready aw' /\ aw_dev aw' = d
  end.
Proof.
  intros Hc Hm Em Hi. revert a aw Em.
  induction Hi as [|[nz f] items (Hnz & Hf & _) _ IH]; intros a aw Em Hr [o Ho]; [by exists aw|].
  cbn [serve deliver_all]. unfold stream in Em. cbn [map concat fst snd] in Em.
  fold (stream items) in Em. rewrite <-!app_assoc, (app_assoc a) in Em. cbn [snd] in Hf.
  pose proof (order_cbk_serve aw h o mem imp (Ptr blk (Zlen a + Zlen nz)) f Hr Ho
    (frame_in_block _ _ _ _ _ _ _ Hm Em Hf (eq_sym (Zlen_app a nz)))) as Hs.
  unfold deliver at 1 2. rewrite Hc. cbn [pe_cbk psHandle]. fold (order_import imp (Ptr blk (Zlen a + Zlen nz))).
  destruct (serve_frame _ _ _ _ _ _) as [d|]; cbn [mbind option_bind].
  - destruct Hs as (aw' & -> & Hr' & <-). cbn [mbind option_bind].
    specialize (IH ((a ++ nz) ++ encode f) aw'). rewrite !Zlen_app in IH.
    rewrite <-app_assoc in IH. rewrite <-!app_assoc in *. apply IH; [done..|].
    unfold order_at. destruct (order_at h aw') eqn:E; [by eexists|]. revert Ho E. unfold order_at.
    by repeat case_match.
  - by rewrite Hs.
Qed.

Lemma socket_stream {X T} (aw : alink_world X T) s h mem imp blk m items :
  alink_ready aw -> is_Some (order_at h aw) -> socket_idle s h ->
  mem !! blk = Some m -> m = stream items -> Forall item_ok items -> Zlen m < RECV_MAX ->
  match serve (port_commands h) mem imp blk 0 items (aw_dev aw) with
  | None => alink_socket_task mem s (with_data imp (Ptr blk 0) (Zlen m)) aw = None
  | Some d => exists s' aw', alink_socket_task mem s (with_data imp (Ptr blk 0) (Zlen m)) aw
        = Some (s', aw')
      /\ aw_dev aw' = d /\ alink_ready aw' /\ socket_idle s' h
  end.
Proof.
  intros Hr Ho [Hs Hc] Hm Em Hi Hl. assert (m = [] ++ stream items ++ []) as Em'
    by by rewrite app_nil_r.
  pose proof (deliver_serve mem imp blk m (so_sRecv s) h items [] [] aw Hc Hm Em' Hi Hr Ho) as Hd.
  change (Zlen []) with 0 in Hd. unfold alink_socket_task. rewrite Em in Hl |- *.
  destruct (run_stream mem imp blk m Hm (so_sRecv s) aw [] [] items Em' Hi Hl Hs)
    as [[E1 E2]|(r' & w' & Hr' & Hc' & E1 & E2)].
  - change (Zlen []) with 0 in *. rewrite E1. destruct (serve _ _ _ _ _ _ _); [|done]. destruct Hd as (aw' & Hd & _).
    congruence.
  - change (Zlen []) with 0 in *. rewrite E1. cbn [mbind option_bind]. destruct (serve _ _ _ _ _ _ _) as [d|]; [|congruence].
    destruct Hd as (aw' & Hd & Hr2 & Hdev). rewrite E2 in Hd. injection Hd as ->.
    do 2 eexists. split; [done|]. split; [done|]. split; [done|]. split; [done|]. cbn. congruence.
Qed.

(** ** Properties *)

(** C32: initialisation. From zero static objects, [alink_init] succeeds and leaves the
    order component of the C2 station with exactly its five commands and that of the
    devices with exactly its four, each with its id, least length and handler, in the
    order of registration. *)
Theorem alink_init_commands {X T} b1 b2 b3 sends (d : dev_world X) :
  Zlen b1 = ALINK_SEND_BUFFER_SIZE -> Zlen b2 = ALINK_SEND_BUFFER_SIZE ->
  exists aw : alink_world X T, alink_init 0 0 0 (alink_statics b1 b2 b3 sends d) = Some (0, aw)
    /\ order_holds (aw_sOrder aw) (aw_cmds aw) c2_commands
    /\ order_holds (aw_sOrder_server aw) (aw_cmds aw) device_commands.
Proof.
  intros H1 H2. destruct (alink_init_ready b1 b2 b3 sends d H1 H2) as (aw & E & Hr & _).
  exists aw. split; [exact E|exact Hr].
Qed.

(** C3: from the socket to the handlers. A socket connected to a port, given a buffer of
    frames and noise, runs for every frame, in order, the handler that the port's table has
    for its id if the payload is long enough, on the frame's payload; nothing else changes
    the devices, and the socket and the module are ready for the next buffer. *)
Theorem alink_socket_stream {X T} (aw : alink_world X T) s h mem imp blk m items :
  alink_ready aw -> is_Some (order_at h aw) -> socket_idle s h ->
  mem !! blk = Some m -> m = stream items -> Forall item_ok items -> Zlen m < RECV_MAX ->
  match serve (port_commands h) mem imp blk 0 items (aw_dev aw) with
  | None => alink_socket_task mem s (with_data imp (Ptr blk 0) (Zlen m)) aw = None
  | Some d => exists s' aw', alink_socket_task mem s (with_data imp (Ptr blk 0) (Zlen m)) aw
        = Some (s', aw')
      /\ aw_dev aw' = d /\ alink_ready aw' /\ socket_idle s' h
  end.
Proof. exact (socket_stream aw s h mem imp blk m items). Qed.

(** ** Witnesses *)

Definition demo_buffer : list Z := replicate (Z.to_nat ALINK_SEND_BUFFER_SIZE) 0.
Definition demo_statics : alink_world unit unit :=
  alink_statics demo_buffer demo_buffer [] ∅ demo_world.
Definition zero_import : alink_recv_import :=
  {| ri_ePortId := 0; ri_pbyData := Ptr 0 0; ri_uLength := 0; ri_handle := 0; ri_pe_send := 0 |}.
Definition zero_socket {X T} : alink_socket X T :=
  {| so_abyBuffer := Ptr 0 0;
     so_sRecv := {| wPkgSize := 0; wCount := 0; rv_wBufferSize := 0;
                    sRecvCbk := {| psHandle := 0; pe_cbk := None |};
                    pbyBuffer := Ptr 0 0; state := st_check_magic |};
     so_sImport := zero_import; so_psOrder := None |}.

Lemma alink_init_commands_witness :
  (exists aw, alink_init 0 0 0 demo_statics = Some (0, aw)
    /\ order_holds (aw_sOrder aw) (aw_cmds aw) c2_commands
    /\ order_holds (aw_sOrder_server aw) (aw_cmds aw) device_commands).
Proof. apply (alink_init_commands (X := unit)); by vm_compute. Defined.

(** An attitude frame after two bytes of noise, on a device port after [alink_init]. *)
Definition demo_items : list (list Z * alink_frame) := [([1; 2], Frame 0 8 3 0x13 0 [7; 8; 9])].
Definition demo_mem : memory := {[ 5%nat := stream demo_items ]}.

Lemma alink_socket_stream_witness :
  (exists aw s' aw', alink_init 0 0 0 demo_statics = Some (0, aw)
    /\ alink_socket_task demo_mem (alink_connect_port zero_socket ALINK_USER_TYPE_DEVICE).2
         (with_data zero_import (Ptr 5 0) (Zlen (stream demo_items))) aw = Some (s', aw')
    /\ take 3 (drop 11529 (dw_pack (aw_dev aw'))) = [7; 8; 9]).
Proof.
  destruct (alink_init_ready (X := unit) (T := unit) demo_buffer demo_buffer [] ∅ demo_world)
    as (aw & E & Hr & _ & Hp & _); [by vm_compute..|].
  pose proof (alink_socket_stream (X := unit) (T := unit) aw
    (alink_connect_port zero_socket ALINK_USER_TYPE_DEVICE).2 sOrder_server demo_mem zero_import 5
    (stream demo_items) demo_items) as H.
  destruct aw as [o os cmds pk sn [u pack alg mo qo]]. cbn [aw_dev dw_pack] in Hp.
  rewrite Hp in *. exists (Build_alink_world o os cmds pk sn
    {| dw_upload := u; dw_pack := dw_pack demo_world; dw_alg := alg; dw_malloc_ok := mo;
       dw_mq_ok := qo |}).
  assert (Forall item_ok demo_items) as Hi by (repeat constructor; by vm_compute).
  specialize (H Hr ltac:(eexists; reflexivity) (conj eq_refl eq_refl) eq_refl eq_refl Hi eq_refl).
  match type of H with match ?q with _ => _ end =>
    assert (match q with Some d => take 3 (drop 11529 (dw_pack d)) = [7; 8; 9] | None => False end)
      as P by (vm_compute; reflexivity) end.
  destruct (serve _ _ _ _ _ _ _) as [d|]; [|destruct P].
  destruct H as (s' & aw' & H & Hd & _). subst d.
  exists s', aw'. split; [exact E|]. split; [exact H|exact P].
Defined.
