(* ===== verification/RadarNetwork.v ===== *)
(** * Connections ([src/app/radars_network/radar_network.c],
    [src/app/c2_network/c2_network.c])

    What the two kinds of TCP connections do with the bytes that arrive.  A radar
    connection collects one whole package in an allocated buffer before it hands it to its
    alink socket; a C2 connection hands over whatever one read returns.  Reading is the
    callback [pi_recv]: it is given a size and returns the bytes it read, none when the
    peer is gone or nothing arrives in time. *)

From S2P Require Import Prelude Checksum AlinkFrame AlinkCheck AlinkRecv AlinkBuild Linked.
From S2P Require Import AlinkOrder AlinkUpload Layout SysportTask AlgInterface AlinkWorld.
From S2P Require Import AlinkSystem AlinkTrack AlinkTarget Alink.
Local Open Scope c_scope.
Local Open Scope list_scope.
Local Open Scope Z_scope.

(** The part of [eth_link_user_t] that the connections pass on. *)
Record eth_link_user := { eu_psSocket : nat; eu_pi_send : nat }.

Section network.
Context {X T R : Type} (pi_recv : Z -> R -> list Z * R).

(** ** The code: [radar_network.c] *)

Record radar_network := { rn_sAlinkSocket : alink_socket X T; rn_psUser : eth_link_user }.

(** A fresh connection; [None] when there is no memory. *)
Definition radar_network_create (psUser : eth_link_user) (malloc_ok : bool)
  : option radar_network :=
  if malloc_ok then
    let '(_, s) := alink_connect_port zero_socket ALINK_USER_TYPE_DEVICE in
    Some {| rn_sAlinkSocket := s; rn_psUser := psUser |}
  else None.

(** The reads after the first one: [None] inside is "peer gone". *)
Fixpoint radar_recv_rest (fuel : nat) (pabybuf : list Z) (offset pkg_len : Z) (r : R)
  : option (option (list Z) * R) :=
  if offset <? pkg_len then
    match fuel with
    | O => None
    | S fuel' =>
        let '(bs, r) := pi_recv (pkg_len - offset) r in
        match bs with
        | [] => Some (None, r)
        | _ =>
            pabybuf ← st_bytes pabybuf offset bs;
            radar_recv_rest fuel' pabybuf (offset + Zlen bs) pkg_len r
        end
    end
  else Some (Some pabybuf, r).

(** The import that a connection builds for the buffer [blk]. *)
Definition network_import (u : eth_link_user) (blk : nat) (len : Z) : alink_recv_import :=
  {| ri_ePortId := 1; ri_pbyData := Ptr blk 0; ri_uLength := u32 len;
     ri_handle := eu_psSocket u; ri_pe_send := eu_pi_send u |}.

(** [malloc] returns the (arbitrary) contents of a new buffer, which is called [blk] while
    it lives. *)
Definition radar_network_cbk_data (malloc : Z -> option (list Z)) (blk : nat)
    (mem : memory) (psNetwork : radar_network) (aw : alink_world X T) (r : R)
  : option (radar_network * alink_world X T * R) :=
  let abyBuffer := replicate (Z.to_nat ALINK_HEADER_CHECKSUM_LEN) 0 in
  let '(bs, r) := pi_recv (Zlen abyBuffer) r in
  match bs with
  | [] => Some (psNetwork, aw, r)
  | _ =>
      abyBuffer ← st_bytes abyBuffer 0 bs;
      integrity_pkg_len ← alink_package_integrity_check abyBuffer 0 (Zlen bs);
      if 0 <? integrity_pkg_len then
        match malloc integrity_pkg_len with
        | None => Some (psNetwork, aw, r)
        | Some pabybuf =>
            offset ← alink_get_header_index abyBuffer 0 (Zlen bs);
            src ← ld_bytes abyBuffer offset (Zlen bs - offset);
            pabybuf ← st_bytes pabybuf 0 src;
            '(whole, r) ← radar_recv_rest (Z.to_nat integrity_pkg_len) pabybuf
                            (Zlen bs - offset) integrity_pkg_len r;
            match whole with
            | None => Some (psNetwork, aw, r)
            | Some pabybuf =>
                '(s, aw) ← alink_socket_task (<[blk := pabybuf]> mem)
                  (rn_sAlinkSocket psNetwork)
                  (network_import (rn_psUser psNetwork) blk integrity_pkg_len) aw;
                Some ({| rn_sAlinkSocket := s; rn_psUser := rn_psUser psNetwork |}, aw, r)
            end
        end
      else Some (psNetwork, aw, r)
  end.

(** ** The code: [c2_network.c] *)

Record c2_network := {
  cn_sSendAlinkHeartBeat : nat; cn_sSendAlinkTargetInfo : nat;   (* nodes of [aw_sends] *)
  cn_sAlinkSocket : alink_socket X T; cn_psUser : eth_link_user
}.

Definition ALINK_DEV_ID_C2 : Z := 6.

(** [hb] and [ti] are the addresses of the two list nodes inside the new object and
    [send] is [c2_network_send] with the user as handle. *)
Definition c2_network_create (send : send_fun T) (hb ti user : nat) (psUser : eth_link_user)
    (malloc_ok : bool) (aw : alink_world X T) : option (option c2_network * alink_world X T) :=
  if malloc_ok then
    let zero := {| byRemoteId := 0; sl_handle := 0; sl_pe_send := None; sl_psNext := None |} in
    let aw := set_lists (aw_packages aw) (<[ti := zero]> (<[hb := zero]> (aw_sends aw))) aw in
    '(_, aw) ← alink_connect_send hb 0xD0 ALINK_DEV_ID_C2 user (Some send) aw;
    '(_, aw) ← alink_connect_send ti 0x80 ALINK_DEV_ID_C2 user (Some send) aw;
    let '(_, s) := alink_connect_port zero_socket ALINK_USER_TYPE_C2 in
    Some (Some {| cn_sSendAlinkHeartBeat := hb; cn_sSendAlinkTargetInfo := ti;
                  cn_sAlinkSocket := s; cn_psUser := psUser |}, aw)
  else Some (None, aw).

Definition c2_network_cbk_delete (psNetwork : c2_network) (aw : alink_world X T)
  : option (alink_world X T) :=
  '(_, aw) ← alink_disconnect_send (cn_sSendAlinkHeartBeat psNetwork) 0xD0 aw;
  '(_, aw) ← alink_disconnect_send (cn_sSendAlinkTargetInfo psNetwork) 0x80 aw;
  Some (set_lists (aw_packages aw)
          (delete (cn_sSendAlinkTargetInfo psNetwork)
             (delete (cn_sSendAlinkHeartBeat psNetwork) (aw_sends aw))) aw).

(** [blk] is the local buffer of the call and [junk] what it holds behind the bytes read. *)
Definition c2_network_cbk_data (junk : list Z) (blk : nat) (mem : memory)
    (psNetwork : c2_network) (aw : alink_world X T) (r : R)
  : option (c2_network * alink_world X T * R) :=
  let '(bs, r) := pi_recv (1024 * 1024 * 1) r in
  '(s, aw) ← alink_socket_task (<[blk := bs ++ junk]> mem) (cn_sAlinkSocket psNetwork)
    (network_import (cn_psUser psNetwork) blk (Zlen bs)) aw;
  Some ({| cn_sSendAlinkHeartBeat := cn_sSendAlinkHeartBeat psNetwork;
           cn_sSendAlinkTargetInfo := cn_sSendAlinkTargetInfo psNetwork;
           cn_sAlinkSocket := s; cn_psUser := cn_psUser psNetwork |}, aw, r).
End network.

Arguments radar_network : clear implicits.
Arguments c2_network : clear implicits.

(** ** What a TCP stream promises *)

(** [pending] is what the peer has sent and has not been read; a read returns a prefix of
    it, and at least one byte when there is one. *)
Class RecvStream {R} (pi_recv : Z -> R -> list Z * R) (pending : R -> list Z) : Prop :=
  recv_prefix n r : 0 < n ->
    pending r = (pi_recv n r).1 ++ pending (pi_recv n r).2
    /\ Zlen (pi_recv n r).1 <= n
    /\ (pending r <> [] -> (pi_recv n r).1 <> []).

(** A peer that sends segments: a read returns at most one of them. *)
Definition recv_segments (n : Z) (segs : list (list Z)) : list Z * list (list Z) :=
  match filter (λ s, s <> []) segs with
  | [] => ([], [])
  | s :: segs => (take (Z.to_nat n) s, drop (Z.to_nat n) s :: segs)
  end.

Lemma concat_filter (segs : list (list Z)) : concat (filter (λ s, s <> []) segs) = concat segs.
Proof.
  induction segs as [|s segs IH]; [done|]. destruct (decide (s <> [])) as [E|E].
  - rewrite filter_cons_True by done. cbn. by rewrite IH.
  - rewrite filter_cons_False by done. destruct s; [done|]. by destruct E.
Qed.

#[export] Instance segments_stream : RecvStream recv_segments (@concat Z).
Proof.
  intros n segs Hn. unfold recv_segments. rewrite <-(concat_filter segs).
  destruct (filter _ segs) as [|s l] eqn:E; cbn [fst snd concat]; [split; [done|split; [unfold Zlen; cbn; lia|done]]|].
  assert (s <> []) as Hs.
  { assert (s ∈ filter (λ s, s <> []) segs) as [? _]%list_elem_of_filter; [|done].
    rewrite E. by left. }
  rewrite app_assoc, take_drop. split; [done|]. split.
  - unfold Zlen. rewrite length_take. lia.
  - intros _ H. apply (f_equal length) in H. rewrite length_take in H.
    destruct s; [done|]. cbn in H. lia.
Qed.

(** [r'] is what reads that find something lead to from [r]: every property that such reads
    keep carries over. *)
Definition read_on {R} (pi_recv : Z -> R -> list Z * R) (r r' : R) : Prop :=
  forall Q : R -> Prop,
    (forall n r, Q r -> (pi_recv n r).1 <> [] -> Q (pi_recv n r).2) -> Q r -> Q r'.

Lemma read_on_step {R} (pi_recv : Z -> R -> list Z * R) n r r' :
  (pi_recv n r).1 <> [] -> read_on pi_recv (pi_recv n r).2 r' -> read_on pi_recv r r'.
Proof. intros Hne Hr Q HQ H. apply Hr; auto. Qed.

(** ** Collecting a package *)

Section collect.
Context {R : Type} (pi_recv : Z -> R -> list Z * R) (pending : R -> list Z).
Context `{!RecvStream pi_recv pending}.

(** [done] has been stored, [todo] is still to come; [slack] is the unused buffer. *)
Lemma radar_recv_rest_spec fuel stored todo slack r rest :
  pending r = todo ++ rest -> Zlen slack = Zlen todo -> (length todo <= fuel)%nat ->
  exists r', radar_recv_rest pi_recv fuel (stored ++ slack) (Zlen stored)
      (Zlen stored + Zlen todo) r = Some (Some (stored ++ todo), r')
    /\ pending r' = rest /\ read_on pi_recv r r'.
Proof.
  revert stored todo slack r. induction fuel as [|fuel IH]; intros stored todo slack r Hp Hs Hf;
    cbn [radar_recv_rest].
  { destruct todo; [|cbn in Hf; lia]. destruct slack; [|by unfold Zlen in Hs].
    rewrite Z.add_0_r, Z.ltb_irrefl. exists r. split; [done|]. by split; [|intros Q _ HQ]. }
  destruct (Z.ltb_spec (Zlen stored) (Zlen stored + Zlen todo)) as [Hlt|Hge]; cycle 1.
  { assert (todo = []) as -> by (destruct todo; unfold Zlen in *; cbn in *; [done|lia]).
    destruct slack; [|by unfold Zlen in Hs]. exists r. split; [done|].
    by split; [|intros Q _ HQ]. }
  replace (Zlen stored + Zlen todo - Zlen stored) with (Zlen todo) by lia.
  destruct (recv_prefix (Zlen todo) r ltac:(lia)) as (E & Hl & Hne).
  pose proof (read_on_step pi_recv (Zlen todo) r) as Hon.
  destruct (pi_recv (Zlen todo) r) as [bs r1]. cbn [fst snd] in *.
  destruct bs as [|b bs]; [exfalso; apply Hne; [|done]|].
  { rewrite Hp. destruct todo; [unfold Zlen in Hlt; cbn in Hlt; lia|done]. }
  set (bs' := b :: bs) in *. rewrite Hp in E.
  assert (exists todo', todo = bs' ++ todo' /\ pending r1 = todo' ++ rest) as (todo' & -> & Hp').
  { exists (drop (length bs') todo).
    assert (length bs' <= length todo)%nat by (unfold Zlen in Hl; lia).
    apply (f_equal (take (length todo))) in E as E1. apply (f_equal (drop (length bs'))) in E.
    rewrite take_app_length in E1. rewrite take_app_ge in E1 by lia.
    rewrite drop_app_length, drop_app_le in E by lia. split; [|done].
    rewrite E1 at 2. rewrite drop_app_length. exact E1. }
  rewrite Zlen_app in *. assert (exists s1 s2, slack = s1 ++ s2 /\ Zlen s1 = Zlen bs'
    /\ Zlen s2 = Zlen todo') as (s1 & s2 & -> & Hs1 & Hs2).
  { exists (take (length bs') slack), (drop (length bs') slack). rewrite take_drop.
    split; [done|]. unfold Zlen in *. rewrite length_take, length_drop. lia. }
  rewrite (st_bytes_app stored s1 s2 bs') by done. cbn [mbind option_bind].
  destruct (IH (stored ++ bs') todo' s2 r1 Hp' Hs2) as (r' & Hr & Hrest & Hro).
  { rewrite length_app in Hf. unfold bs' in Hf. cbn in Hf. lia. }
  exists r'. rewrite Zlen_app, <-!app_assoc, <-Z.add_assoc in Hr. rewrite Hr.
  split; [done|]. split; [done|]. by apply Hon.
Qed.
End collect.

(** ** The first read *)

Lemma frame_prefix f bs todo :
  frame_ok f -> encode f = bs ++ todo -> 3 <= Zlen bs ->
  exists bs', bs = 253 :: Zlen (fr_payload f) mod 256 :: Zlen (fr_payload f) / 256 :: bs'.
Proof.
  intros Hf E Hl. rewrite encode_shape in E.
  destruct bs as [|x [|y [|z bs]]]; try (unfold Zlen in Hl; cbn in Hl; lia).
  injection E as <- <- <- _. by exists bs.
Qed.

Lemma first_read f bs todo z :
  frame_ok f -> Zlen (fr_payload f) + 8 < 65536 -> encode f = bs ++ todo -> 3 <= Zlen bs ->
  Forall is_byte z ->
  alink_package_integrity_check (bs ++ z) 0 (Zlen bs) = Some (Zlen (encode f))
  /\ alink_get_header_index (bs ++ z) 0 (Zlen bs) = Some 0.
Proof.
  intros Hf Hl E Hb Hz. destruct (frame_prefix _ _ _ Hf E Hb) as [bs' ->].
  assert (bytes_ok (encode f)) as Hok by by apply encode_ok.
  rewrite E in Hok. apply bytes_ok_app in Hok as [Hok _].
  assert (Z.to_nat (Zlen (253 :: Zlen (fr_payload f) mod 256 :: Zlen (fr_payload f) / 256 :: bs'))
    = S (S (S (length bs')))) as En by (unfold Zlen; cbn; lia).
  unfold alink_package_integrity_check, alink_get_header_index, alink_package_valid_length, alink_get_package_head_index. rewrite En.
  cbn [find_magic app]. assert (forall l, (253 :: l)⟨0 + 0⟩ = Some 253) as Hm by done. rewrite !Hm.
  cbn [mbind option_bind]. change (alink_check_magic 253) with true. cbn [mbind option_bind].
  split; [|done]. pose proof (proj2 (bytes_ok_app _ z) (conj Hok Hz)) as Hbz. cbn [app] in Hbz.
  cbn [mbind option_bind]. rewrite (package_size_spec _ (0 + 0) Hbz
    (Zlen (fr_payload f) mod 256) (Zlen (fr_payload f) / 256)) by done.
  rewrite Zlen_encode. f_equal. wrap_lia.
Qed.

(** The callback up to the alink socket. *)
Lemma collects {X T R} (pi_recv : Z -> R -> list Z * R) pending
    `{!RecvStream pi_recv pending} malloc f rest r junk :
  frame_ok f -> Zlen (fr_payload f) + 8 < 65536 ->
  pending r = encode f ++ rest -> 3 <= Zlen (pi_recv 8 r).1 ->
  malloc (Zlen (encode f)) = Some junk -> Zlen junk = Zlen (encode f) ->
  exists r', pending r' = rest /\ read_on pi_recv r r' /\ forall blk mem (n : radar_network X T) aw,
    radar_network_cbk_data pi_recv malloc blk mem n aw r
    = '(s, aw) ← alink_socket_task (<[blk := encode f]> mem) (rn_sAlinkSocket n)
                   (network_import (rn_psUser n) blk (Zlen (encode f))) aw;
      Some ({| rn_sAlinkSocket := s; rn_psUser := rn_psUser n |}, aw, r').
Proof.
  intros Hf Hl Hp H3 Hmal Hjunk. pose proof (Zlen_nonneg (fr_payload f)) as Hp0.
  pose proof (Zlen_encode f) as He.
  destruct (recv_prefix 8 r ltac:(lia)) as (E & H8 & _).
  pose proof (read_on_step pi_recv 8 r) as Hon.
  destruct (pi_recv 8 r) as [bs r1] eqn:Er. cbn [fst snd] in *.
  assert (exists todo, encode f = bs ++ todo /\ pending r1 = todo ++ rest) as (todo & Ef & Hp1).
  { rewrite Hp in E. apply app_eq_app in E as (l & [[-> ->]|[-> El]]); [by exists l|].
    destruct l; [|unfold Zlen in *; rewrite length_app in H8; cbn in H8; lia].
    exists []. rewrite !app_nil_r in *. cbn in El. done. }
  set (z := replicate (8 - length bs) 0).
  assert (st_bytes (replicate 8 0) 0 bs = Some (bs ++ z)) as Hst.
  { assert (replicate 8 0 = replicate (length bs) 0 ++ z) as ->
      by (unfold z; rewrite <-replicate_add; f_equal; unfold Zlen in H8; lia).
    apply (st_bytes_app [] _ z bs); [done|]. unfold Zlen. by rewrite length_replicate. }
  destruct (first_read f bs todo z Hf Hl Ef H3 ltac:(unfold z; apply Forall_replicate; by vm_compute))
    as [Hlen Hidx].
  destruct (radar_recv_rest_spec pi_recv pending (Z.to_nat (Zlen (encode f))) bs todo
    (drop (length bs) junk) r1 rest Hp1) as (r' & Hrest & Hp' & Hro).
  { rewrite Ef in Hjunk. unfold Zlen in *. rewrite length_drop, length_app in *. lia. }
  { rewrite Ef. unfold Zlen. rewrite length_app. lia. }
  rewrite <-Zlen_app, <-Ef in Hrest. exists r'. split; [done|]. split.
  { apply Hon; [|done]. intros ->. unfold Zlen in H3. cbn in H3. lia. }
  intros blk mem n aw.
  unfold radar_network_cbk_data. unfold ALINK_HEADER_CHECKSUM_LEN.
  change (Z.to_nat 8) with 8%nat. change (Zlen (replicate 8 0)) with 8. rewrite Er.
  destruct bs as [|b bs]; [unfold Zlen in H3; cbn in H3; lia|]. set (bs' := b :: bs) in *.
  rewrite Hst. cbn [mbind option_bind]. rewrite Hlen. cbn [mbind option_bind].
  assert ((0 <? Zlen (encode f)) = true) as -> by lia. rewrite Hmal, Hidx.
  cbn [mbind option_bind]. rewrite Z.sub_0_r.
  rewrite (ld_bytes_app [] bs' z) by done. cbn [mbind option_bind].
  assert (st_bytes junk 0 bs' = Some (bs' ++ drop (length bs') junk)) as ->.
  { rewrite <-(take_drop (length bs') junk) at 1. apply (st_bytes_app []); [done|].
    rewrite Ef in Hjunk. unfold Zlen in *. rewrite length_take, length_app in *. lia. }
  cbn [mbind option_bind]. rewrite Hrest. reflexivity.
Qed.

(** ** A frame that arrives *)

Lemma radar_data_frame {X T R} (pi_recv : Z -> R -> list Z * R) pending
    `{!RecvStream pi_recv pending} malloc blk mem (n : radar_network X T) aw r f rest junk :
  alink_ready aw -> socket_idle (rn_sAlinkSocket n) sOrder_server ->
  frame_ok f -> Zlen (fr_payload f) + 8 < 65536 ->
  pending r = encode f ++ rest -> 3 <= Zlen (pi_recv 8 r).1 ->
  malloc (Zlen (encode f)) = Some junk -> Zlen junk = Zlen (encode f) ->
  match serve_frame device_commands (<[blk := encode f]> mem)
          (network_import (rn_psUser n) blk (Zlen (encode f))) (Ptr blk 0) f (aw_dev aw) with
  | None => radar_network_cbk_data pi_recv malloc blk mem n aw r = None
  | Some d => exists n' aw' r',
      radar_network_cbk_data pi_recv malloc blk mem n aw r = Some (n', aw', r')
      /\ aw_dev aw' = d /\ pending r' = rest /\ read_on pi_recv r r'
      /\ alink_ready aw' /\ socket_idle (rn_sAlinkSocket n') sOrder_server /\ rn_psUser n' = rn_psUser n
  end.
Proof.
  intros Hr Hs Hf Hl Hp H3 Hmal Hjunk. pose proof (Zlen_nonneg (fr_payload f)) as Hp0.
  destruct (collects (X := X) (T := T) pi_recv pending malloc f rest r junk Hf Hl Hp H3 Hmal Hjunk)
    as (r' & Hp' & Hro & Hcol).
  pose proof (socket_stream aw (rn_sAlinkSocket n) sOrder_server (<[blk := encode f]> mem)
    (network_import (rn_psUser n) blk (Zlen (encode f))) blk (encode f) [([], f)] Hr
    ltac:(by eexists) Hs (lookup_insert_eq mem blk (encode f))) as Hsock.
  unfold stream in Hsock. cbn [map concat fst snd app] in Hsock. rewrite app_nil_r in Hsock.
  assert (Forall item_ok [([], f)]) as Hit
    by (apply Forall_singleton; split; [by apply Forall_nil_2|done]).
  specialize (Hsock eq_refl Hit ltac:(rewrite Zlen_encode; unfold RECV_MAX; lia)).
  rewrite Hcol. cbn [serve] in Hsock. change (0 + Zlen []) with 0 in Hsock.
  change (port_commands sOrder_server) with (@device_commands X) in Hsock.
  assert (forall i, ri_uLength i = Zlen (encode f) -> ri_pbyData i = Ptr blk 0 ->
    with_data i (Ptr blk 0) (Zlen (encode f)) = i) as Hi
    by (intros [] ? ?; cbn in *; by subst).
  rewrite Hi in Hsock by
    (done || (cbn [network_import ri_uLength]; apply u32_id; rewrite Zlen_encode; lia)).
  destruct (serve_frame _ _ _ _ _ _) as [d|]; cbn [mbind option_bind] in Hsock.
  - destruct Hsock as (s' & aw' & -> & Hd & Hr' & Hs'). cbn [mbind option_bind].
    do 3 eexists. split; [done|]. done.
  - by rewrite Hsock.
Qed.

(** ** Properties *)

(** A radar package in pieces. When the peer has sent a frame followed by anything, in
    any segments such that the first read returns at least the three bytes that hold the
    length, one call of the data callback collects exactly the frame, runs the command that
    the device port has for it, and leaves the bytes after the frame unread. *)
Lemma radar_network_cbk_data_frame {X T R} (pi_recv : Z -> R -> list Z * R) pending
    `{!RecvStream pi_recv pending} malloc blk mem (n : radar_network X T) aw r f rest junk :
  alink_ready aw -> socket_idle (rn_sAlinkSocket n) sOrder_server ->
  frame_ok f -> Zlen (fr_payload f) + 8 < 65536 ->
  pending r = encode f ++ rest -> 3 <= Zlen (pi_recv 8 r).1 ->
  malloc (Zlen (encode f)) = Some junk -> Zlen junk = Zlen (encode f) ->
  match serve_frame device_commands (<[blk := encode f]> mem)
          (network_import (rn_psUser n) blk (Zlen (encode f))) (Ptr blk 0) f (aw_dev aw) with
  | None => radar_network_cbk_data pi_recv malloc blk mem n aw r = None
  | Some d => exists n' aw' r',
      radar_network_cbk_data pi_recv malloc blk mem n aw r = Some (n', aw', r')
      /\ aw_dev aw' = d /\ pending r' = rest
      /\ alink_ready aw' /\ socket_idle (rn_sAlinkSocket n') sOrder_server
  end.
Proof.
  intros Hr Hs Hf Hl Hp H3 Hmal Hjunk.
  pose proof (radar_data_frame pi_recv pending malloc blk mem n aw r f rest junk Hr Hs Hf Hl Hp
    H3 Hmal Hjunk) as H.
  destruct (serve_frame _ _ _ _ _ _) as [d|]; [|done].
  destruct H as (n' & aw' & r' & E & Hd & Hp' & _ & Hr' & Hs' & _). by exists n', aw', r'.
Qed.

(** ** Witness *)

(** The attitude frame of eleven and three bytes in segments of five, two and the rest,
    followed by a byte of the next frame. *)
Definition demo_frame : alink_frame := Frame 0 8 3 0x13 0 [7; 8; 9].
Definition demo_segments : list (list Z) :=
  [take 5 (encode demo_frame); []; take 2 (drop 5 (encode demo_frame));
   drop 7 (encode demo_frame) ++ [253]].
Definition demo_network : radar_network unit unit :=
  {| rn_sAlinkSocket := (alink_connect_port zero_socket ALINK_USER_TYPE_DEVICE).2;
     rn_psUser := {| eu_psSocket := 3; eu_pi_send := 4 |} |}.

Lemma radar_network_cbk_data_frame_witness :
  (exists aw n' aw' r', alink_init 0 0 0 demo_statics = Some (0, aw)
    /\ radar_network_cbk_data recv_segments (λ n, Some (replicate (Z.to_nat n) 170)) 9 ∅
         demo_network aw demo_segments = Some (n', aw', r')
    /\ take 3 (drop 11529 (dw_pack (aw_dev aw'))) = [7; 8; 9] /\ concat r' = [253]).
Proof.
  destruct (alink_init_ready (X := unit) (T := unit) demo_buffer demo_buffer [] ∅ demo_world)
    as (aw & E & Hr & _ & Hp & _); [by vm_compute..|].
  destruct aw as [o os cmds pk sn [u pack alg mo qo]]. cbn [aw_dev dw_pack] in Hp. subst pack.
  assert (frame_ok demo_frame) as Hf by by_eval.
  assert (Zlen (fr_payload demo_frame) + 8 < 65536) as Hl by by_eval.
  assert (concat demo_segments = encode demo_frame ++ [253]) as Hc by (vm_compute; reflexivity).
  assert (3 <= Zlen (recv_segments 8 demo_segments).1) as H3 by by_eval.
  assert (Zlen (encode demo_frame) = 14) as H14 by (vm_compute; reflexivity).
  pose proof (radar_network_cbk_data_frame recv_segments (@concat Z)
    (λ n, Some (replicate (Z.to_nat n) 170)) 9 ∅ demo_network _ demo_segments demo_frame [253]
    (replicate 14 170) Hr (conj eq_refl eq_refl) Hf Hl Hc H3) as H.
  rewrite H14 in H. specialize (H eq_refl eq_refl).
  match type of H with match ?q with _ => _ end =>
    assert (match q with Some d => take 3 (drop 11529 (dw_pack d)) = [7; 8; 9] | None => False end)
      as P by (vm_compute; reflexivity) end.
  destruct (serve_frame _ _ _ _ _ _) as [d|]; [|destruct P].
  destruct H as (n' & aw' & r' & H & Hd & Hrest & _). subst d.
  eexists _, n', aw', r'. split; [exact E|]. split; [exact H|]. split; [exact P|exact Hrest].
Defined.
