(* ===== verification/C2Network.v ===== *)
(** * The C2 stations ([src/app/c2_network/c2_network.c] with the alink upload)

    A C2 connection subscribes to two packages, the heartbeat and the target information,
    with two nodes inside its own object.  The model of its operations is in
    [RadarNetwork]; here they are proved to keep a list of subscribers, and the upload to
    reach exactly those. *)

From S2P Require Import Prelude Checksum AlinkFrame AlinkCheck AlinkRecv AlinkBuild Linked.
From S2P Require Import AlinkOrder AlinkUpload Layout SysportTask AlgInterface AlinkWorld.
From S2P Require Import AlinkSystem AlinkTrack AlinkTarget Alink RadarNetwork.
Local Open Scope c_scope.
Local Open Scope list_scope.
Local Open Scope Z_scope.

(** ** The code: the heartbeat ([alink_system.c]) and the send function *)

Definition alink_upload_heartbeat {X T} (aw : alink_world X T) (t : T)
  : option (Z * alink_world X T * T) :=
  '(_, aw, t) ← alink_upload_package sAlinkPackage_HeartBeat None aw t; Some (0, aw, t).

(** [pi_send] of the connection's user, which is the socket's send function. *)
Definition c2_network_send {T} (pi_send : nat -> list Z -> T -> option (Z * T)) : send_fun T :=
  λ handle pbyData t, pi_send handle pbyData t.

(** ** Receivers of a package *)

(** What disconnecting leaves of a list of receivers. *)
Definition drop_node {A} `{EqDecision A} (x : A) (l : list A) : list A :=
  match l with
  | [] => []
  | y :: l' => if decide (y = x) then [] else y :: filter (λ z, z <> x) l'
  end.

Lemma drop_node_incl {A} `{EqDecision A} (x y : A) l : y ∈ drop_node x l -> y ∈ l /\ y <> x.
Proof.
  destruct l as [|z l]; cbn [drop_node]; [by intros ?%not_elem_of_nil|].
  destruct (decide (z = x)); [by intros ?%not_elem_of_nil|].
  rewrite elem_of_cons, list_elem_of_filter. intros [->|[? ?]]; split; try done; set_solver.
Qed.

Lemma drop_node_NoDup {A} `{EqDecision A} (x : A) l : NoDup l -> NoDup (drop_node x l).
Proof.
  destruct l as [|z l]; cbn [drop_node]; [done|]. intros [Hz Hl]%NoDup_cons.
  destruct (decide (z = x)); [constructor|]. constructor; [|by apply NoDup_filter].
  by intros [_ ?]%list_elem_of_filter.
Qed.

Lemma drop_node_fmap {A B} `{EqDecision A, EqDecision B} (f : A -> B) x l :
  (forall y, y ∈ l -> f y = f x -> y = x) -> drop_node (f x) (f <$> l) = f <$> drop_node x l.
Proof.
  intros Hf. destruct l as [|z l]; [done|]. cbn [drop_node fmap list_fmap].
  destruct (decide (z = x)) as [->|Hne]; [by rewrite decide_True|].
  rewrite decide_False by (intros E; apply Hne, Hf; [by left|done]). cbn. f_equal.
  assert (forall y, y ∈ l -> f y = f x -> y = x) as Hl by (intros y Hy; apply Hf; by right).
  clear Hf Hne. induction l as [|y l IH]; [done|]. cbn [fmap list_fmap].
  rewrite !filter_cons. destruct (decide (y <> x)) as [Hy|Hy].
  - rewrite decide_True; [|intros E; apply Hy, Hl; [by left|done]]. cbn. f_equal.
    apply IH. intros ? ?. apply Hl. by right.
  - rewrite decide_False; [|intros E; apply Hy; by intros ->]. apply IH. intros ? ?. apply Hl. by right.
Qed.

Section ops.
Context {T : Type}.
Implicit Types (p : alink_package_list) (sends : gmap nat (alink_send_list T)) (l : list nat).

(** A change of links on the nodes of [l] only. *)
Definition relinked sends sends' l : Prop :=
  (forall b, b ∉ l -> sends' !! b = sends !! b)
  /\ (forall b n, sends !! b = Some n -> exists q, sends' !! b = Some (send_set_next q n)).

Lemma relinked_refl sends l : relinked sends sends l.
Proof. split; [done|]. intros b n Hn. exists (sl_psNext n). rewrite Hn. by destruct n. Qed.

Lemma relinked_insert sends l y ny q :
  sends !! y = Some ny -> y ∈ l -> relinked sends (<[y := send_set_next q ny]> sends) l.
Proof.
  intros Hy Hl. split.
  - intros b Hb. rewrite lookup_insert_ne; [done|]. by intros ->.
  - intros b n Hn. destruct (decide (b = y)) as [->|Hne].
    + rewrite lookup_insert_eq. rewrite Hy in Hn. injection Hn as <-. by exists q.
    + rewrite lookup_insert_ne by done. exists (sl_psNext n). rewrite Hn. by destruct n.
Qed.

Lemma set_sends_id p : package_set_sends (psSendList p) p = p.
Proof. by destruct p. Qed.

Lemma connect_op p sends node n0 l :
  is_list sends (psSendList p) l -> node ∉ l -> sends !! node = Some n0 -> sl_psNext n0 = None ->
  exists q sends', alink_package_connect_send p sends node = Some (package_set_sends q p, sends', 0)
    /\ is_list sends' q (l ++ [node]) /\ relinked sends sends' l.
Proof.
  intros Hl Hn H0 Hnext. unfold alink_package_connect_send.
  destruct (psSendList p) as [b|] eqn:Eb.
  - destruct (append_walk_spec (size sends) sends (Some b) l b node n0 Hl
                (is_list_size _ _ _ Hl) eq_refl H0 (λ _, Hnext)) as (h' & -> & _ & Hout).
    destruct (Hout Hn) as (El & z & nz & Hz & Hhz & ->). cbn [mbind option_bind].
    exists (Some b), (<[z := ln_set_next (Some node) nz]> sends).
    split; [by rewrite <-Eb, set_sends_id|]. split; [done|].
    apply relinked_insert; [done|]. by apply last_Some_elem_of.
  - assert (l = []) as -> by (destruct l; [done|by destruct Hl]).
    exists (Some node), sends. split; [done|]. split; [|apply relinked_refl].
    split; [done|]. by exists n0.
Qed.

Lemma filter_ne_notin node l : node ∉ l -> filter (λ y, y <> node) l = l.
Proof.
  induction l as [|x l IH]; intros H; [done|]. apply not_elem_of_cons in H as [Hx H].
  rewrite filter_cons_True by congruence. by rewrite IH.
Qed.

Lemma disconnect_op p sends node l :
  is_list sends (psSendList p) l ->
  exists q sends', alink_package_disconnect_send p sends node = Some (package_set_sends q p, sends', 0)
    /\ is_list sends' q (drop_node node l) /\ relinked sends sends' l.
Proof.
  intros Hl. unfold alink_package_disconnect_send. pose proof (is_list_size _ _ _ Hl) as Hsz.
  pose proof (is_list_NoDup _ _ _ Hl) as Hnd.
  destruct (decide (node ∈ l)) as [(l1 & l2 & ->)%list_elem_of_split|Hn].
  2:{ rewrite (unlink_walk_absent _ _ _ _ l) by done. cbn [mbind option_bind].
      exists (psSendList p), sends. rewrite set_sends_id. split; [done|].
      split; [|apply relinked_refl]. destruct l as [|x l]; [done|].
      apply not_elem_of_cons in Hn as [Hx Hn]. cbn [drop_node].
      rewrite decide_False by congruence. by rewrite filter_ne_notin. }
  destruct l1 as [|x l1].
  - pose proof Hl as [Ep (n & Hn & _)]. rewrite Ep.
    destruct (size sends) as [|k]; [cbn in Hsz; lia|].
    cbn [list_unlink_walk]. rewrite Hn. cbn [mbind option_bind].
    rewrite decide_True by done. cbn [mbind option_bind].
    exists None, sends. split; [done|]. split; [|apply relinked_refl]. cbn [app drop_node].
    by rewrite decide_True.
  - destruct (unlink_walk_inner (size sends) sends _ x l1 node l2 Hl Hsz) as (h' & E & Hl').
    rewrite E. cbn [mbind option_bind]. exists (psSendList p), h'. rewrite set_sends_id.
    apply NoDup_cons in Hnd as [Hx Hnd]. apply NoDup_app in Hnd as (_ & Hd & [Hn2 _]%NoDup_cons).
    split; [done|]. split.
    + cbn [app drop_node]. rewrite decide_False by set_solver.
      rewrite filter_app, filter_cons_False by tauto.
      rewrite !filter_ne_notin; [done|done|]. intros Hi. apply (Hd _ Hi). by left.
    + apply (unlink_walk_frame _ _ _ _ (x :: l1 ++ node :: l2)) in E; [|done].
      destruct E as (y & ny & q & Hy & -> & [?|Hin]); [done|]. by apply relinked_insert.
Qed.

(** A list whose nodes are not touched. *)
Lemma relinked_list sends sends' l l' q :
  relinked sends sends' l -> (forall b, b ∈ l' -> b ∉ l) -> is_list sends q l' -> is_list sends' q l'.
Proof.
  intros [Hs _] Hd. apply lseg_ext. intros b Hb. by rewrite Hs by auto.
Qed.
End ops.

(** ** The subscribers *)

(** A C2 connection: the nodes of its heartbeat and target packages, and its user. *)
Record subscriber := { su_hb : nat; su_ti : nat; su_user : nat }.

#[export] Instance subscriber_eq_dec : EqDecision subscriber.
Proof. solve_decision. Defined.

Definition su_nodes (s : subscriber) : list nat := [su_hb s; su_ti s].

(** The package types as [alink_init] leaves them, whatever receivers they have. *)
Definition c2_static (packages : gmap nat alink_package_list) : Prop :=
  exists p0 p1, packages !! sAlinkPackage_HeartBeat = Some p0
    /\ packages !! sAlinkPackage_TargetInfo = Some p1
    /\ (byMsgId p0, byAns p0, pw_package_task p0, pk_psNext p0)
       = (0xD0, 0, Some system_pkg_heartbeat, None)
    /\ (byMsgId p1, byAns p1, pw_package_task p1, pk_psNext p1)
       = (0x80, 0, Some track_pkg_target_info, Some sAlinkPackage_HeartBeat).

Lemma c2_static_set packages a p q :
  c2_static packages -> packages !! a = Some p ->
  c2_static (<[a := package_set_sends q p]> packages).
Proof.
  intros (p0 & p1 & H0 & H1 & E0 & E1) Ha. unfold c2_static.
  destruct (decide (a = sAlinkPackage_HeartBeat)) as [->|N0].
  - rewrite H0 in Ha. injection Ha as <-. exists (package_set_sends q p0), p1.
    by rewrite lookup_insert_eq, lookup_insert_ne.
  - destruct (decide (a = sAlinkPackage_TargetInfo)) as [->|N1].
    + rewrite H1 in Ha. injection Ha as <-. exists p0, (package_set_sends q p1).
      by rewrite lookup_insert_eq, lookup_insert_ne.
    + exists p0, p1. by rewrite !lookup_insert_ne.
Qed.

Lemma c2_packages_list packages :
  c2_static packages ->
  is_list packages (Some sAlinkPackage_TargetInfo) [sAlinkPackage_TargetInfo; sAlinkPackage_HeartBeat]
  /\ first_package packages [sAlinkPackage_TargetInfo; sAlinkPackage_HeartBeat] 0xD0
     = Some sAlinkPackage_HeartBeat
  /\ first_package packages [sAlinkPackage_TargetInfo; sAlinkPackage_HeartBeat] 0x80
     = Some sAlinkPackage_TargetInfo.
Proof.
  intros (p0 & p1 & H0 & H1 & E0 & E1). injection E0 as E0 _ _ N0. injection E1 as E1 _ _ N1.
  unfold first_package. rewrite !filter_cons, filter_nil, H0, H1. cbn [from_option].
  rewrite E0, E1. split; [|by split].
  split; [done|]. exists p1. split; [done|]. cbn [ln_next package_linked]. rewrite N1.
  split; [done|]. by exists p0.
Qed.

(** The receivers of the package at [a]. *)
Definition receivers {T} (packages : gmap nat alink_package_list)
    (sends : gmap nat (alink_send_list T)) (a : nat) (l : list nat) : Prop :=
  exists p, packages !! a = Some p /\ is_list sends (psSendList p) l.

Lemma receivers_relinked {T} packages (sends sends' : gmap nat (alink_send_list T)) a b p l l' :
  relinked sends sends' l -> (forall x, x ∈ l' -> x ∉ l) -> a <> b ->
  receivers packages sends b l' -> receivers (<[a := p]> packages) sends' b l'.
Proof.
  intros Hr Hd Hab (p' & Hp & Hl). exists p'. rewrite lookup_insert_ne by done.
  split; [done|]. by eapply relinked_list.
Qed.

(** ** Connecting and disconnecting a node *)

Section node.
Context {X T : Type} (aw : alink_world X T) (a b : nat) (id : Z) (l l' : list nat) (node : nat).
Implicit Types (packages : gmap nat alink_package_list) (sends : gmap nat (alink_send_list T)).
Hypothesis (Hmu : up_mutex (dw_upload (aw_dev aw)) = false).
Hypothesis (Hpl : psPackageList (dw_upload (aw_dev aw)) = Some sAlinkPackage_TargetInfo).
Hypothesis (Hst : c2_static (aw_packages aw)).
Hypothesis (Hid : u8 id = id) (Hab : a <> b).
Hypothesis (Hfirst : first_package (aw_packages aw)
  [sAlinkPackage_TargetInfo; sAlinkPackage_HeartBeat] id = Some a).
Hypothesis (Hd : forall x, x ∈ l' -> x ∉ l).

Lemma set_lists_dev packages sends :
  set_dev (set_dw_upload (dw_upload (aw_dev aw)) (aw_dev aw)) (set_lists packages sends aw)
  = set_lists packages sends aw.
Proof. by destruct aw as [? ? ? ? ? []]. Qed.

(** A node as [alink_connect_send] sets it up. *)
Definition send_node (user : nat) (send : send_fun T) (next : option nat) : alink_send_list T :=
  {| byRemoteId := ALINK_DEV_ID_C2; sl_handle := user; sl_pe_send := Some send;
     sl_psNext := next |}.

Lemma c2_connect user send n0 :
  receivers (aw_packages aw) (aw_sends aw) a l -> receivers (aw_packages aw) (aw_sends aw) b l' ->
  node ∉ l -> node ∉ l' -> aw_sends aw !! node = Some n0 -> sl_psNext n0 = None ->
  exists packages sends,
    alink_connect_send node id ALINK_DEV_ID_C2 user (Some send) aw
      = Some (0, set_lists packages sends aw)
    /\ c2_static packages /\ receivers packages sends a (l ++ [node])
    /\ receivers packages sends b l'
    /\ relinked (<[node := send_node user send None]> (aw_sends aw)) sends l.
Proof.
  intros (p & Hp & Hl) Hb Hn Hn' H0 Hnext. unfold alink_connect_send. rewrite H0.
  cbn [mbind option_bind]. rewrite Hnext, Hid. unfold alink_upload_connect_send.
  destruct (c2_packages_list _ Hst) as [Hpk _]. rewrite <-Hpl in Hpk.
  rewrite (on_package_spec _ _ _ _ _ id node Hmu Hpk), Hfirst, Hp. cbn [mbind option_bind].
  change {| byRemoteId := u8 ALINK_DEV_ID_C2; sl_handle := user; sl_pe_send := Some send;
            sl_psNext := None |} with (send_node user send None).
  set (sends0 := <[node := send_node user send None]> (aw_sends aw)).
  destruct (connect_op p sends0 node (send_node user send None) l) as (q & sends' & -> & Hl' & Hr).
  { unfold is_list in *. by apply lseg_insert_ne. }
  { done. } { apply lookup_insert_eq. } { done. }
  cbn [mbind option_bind]. rewrite set_lists_dev. do 2 eexists. split; [done|].
  split; [by apply c2_static_set|]. split; [|split; [|done]].
  - exists (package_set_sends q p). by rewrite lookup_insert_eq.
  - eapply receivers_relinked; [done..|]. destruct Hb as (pb & Hpb & Hlb). exists pb.
    split; [done|]. unfold is_list in *. by apply lseg_insert_ne.
Qed.

Lemma c2_disconnect :
  receivers (aw_packages aw) (aw_sends aw) a l -> receivers (aw_packages aw) (aw_sends aw) b l' ->
  exists packages sends,
    alink_disconnect_send node id aw = Some (0, set_lists packages sends aw)
    /\ c2_static packages /\ receivers packages sends a (drop_node node l)
    /\ receivers packages sends b l' /\ relinked (aw_sends aw) sends l.
Proof.
  intros (p & Hp & Hl) Hb. unfold alink_disconnect_send, alink_upload_disconnect_send.
  rewrite Hid. destruct (c2_packages_list _ Hst) as [Hpk _]. rewrite <-Hpl in Hpk.
  rewrite (on_package_spec _ _ _ _ _ id node Hmu Hpk), Hfirst, Hp. cbn [mbind option_bind].
  destruct (disconnect_op p (aw_sends aw) node l Hl) as (q & sends' & -> & Hl' & Hr).
  cbn [mbind option_bind]. rewrite set_lists_dev. do 2 eexists. split; [done|].
  split; [by apply c2_static_set|]. split; [|split; [|done]].
  - exists (package_set_sends q p). by rewrite lookup_insert_eq.
  - by eapply receivers_relinked.
Qed.
End node.

(** ** Connections come and go *)

(** What the C2 side of the link does with the upload, and the specification: a list of
    subscribers and a request counter. *)
Inductive c2_op := C2_create (s : subscriber) | C2_delete (s : subscriber) | C2_tick.

Section ops_run.
Context {X T : Type} (pi_send : nat -> list Z -> T -> option (Z * T)) (psu : eth_link_user).
Local Abbreviation send := (c2_network_send pi_send).

(** A connection by its subscriber. *)
Definition c2_at (s : subscriber) : c2_network X T :=
  {| cn_sSendAlinkHeartBeat := su_hb s; cn_sSendAlinkTargetInfo := su_ti s;
     cn_sAlinkSocket := (alink_connect_port zero_socket ALINK_USER_TYPE_C2).2;
     cn_psUser := psu |}.

Definition c2_do (op : c2_op) (st : alink_world X T * T) : option (alink_world X T * T) :=
  let '(aw, t) := st in
  match op with
  | C2_create s =>
      '(c, aw) ← c2_network_create send (su_hb s) (su_ti s) (su_user s) psu true aw; Some (aw, t)
  | C2_delete s => aw ← c2_network_cbk_delete (c2_at s) aw; Some (aw, t)
  | C2_tick => '(_, aw, t) ← alink_upload_heartbeat aw t; Some (aw, t)
  end.

Fixpoint c2_run (ops : list c2_op) st :=
  match ops with [] => Some st | op :: ops => st ← c2_do op st; c2_run ops st end.

(** The heartbeat with the request counter [req], and its delivery to each user. *)
Definition heartbeat_frame (req : Z) : alink_frame :=
  Frame req ALINK_DEV_ID_C2 ALINK_DEV_ID_AGX 0xD0 0 [100; 0; 0].

Fixpoint send_each (bs : list Z) (users : list nat) (eRet : Z) (t : T) : option (Z * T) :=
  match users with
  | [] => Some (eRet, t)
  | u :: users => '(eRet, t) ← pi_send u bs t; send_each bs users eRet t
  end.

Definition spec_do (op : c2_op) (st : list subscriber * Z * T) : option (list subscriber * Z * T) :=
  let '(subs, req, t) := st in
  match op with
  | C2_create s => Some (subs ++ [s], req, t)
  | C2_delete s => Some (drop_node s subs, req, t)
  | C2_tick =>
      '(_, t) ← send_each (encode (heartbeat_frame req)) (su_user <$> subs) 0 t;
      Some (subs, if decide (subs = []) then req else u8 (req + 1), t)
  end.

Fixpoint spec_run (ops : list c2_op) st :=
  match ops with [] => Some st | op :: ops => st ← spec_do op st; spec_run ops st end.

(** A new connection has nodes of its own; a connection is deleted once. *)
Definition op_ok (live : list subscriber) (op : c2_op) : Prop :=
  match op with
  | C2_create s => su_hb s <> su_ti s /\ (forall s', s' ∈ live -> su_nodes s ## su_nodes s')
  | C2_delete s => s ∈ live
  | C2_tick => True
  end.

Definition live_after (live : list subscriber) (op : c2_op) : list subscriber :=
  match op with
  | C2_create s => live ++ [s]
  | C2_delete s => filter (λ s', s' <> s) live
  | C2_tick => live
  end.

Fixpoint ops_ok (live : list subscriber) (ops : list c2_op) : Prop :=
  match ops with [] => True | op :: ops => op_ok live op /\ ops_ok (live_after live op) ops end.

(** ** The simulation *)

Implicit Types (live subs : list subscriber) (sends : gmap nat (alink_send_list T)).

Definition node_at (sends : gmap nat (alink_send_list T)) (b user : nat) : Prop :=
  exists next, sends !! b = Some (send_node user send next).

Definition live_ok (sends : gmap nat (alink_send_list T)) (live : list subscriber) : Prop :=
  (forall s, s ∈ live -> su_hb s <> su_ti s /\ node_at sends (su_hb s) (su_user s)
     /\ node_at sends (su_ti s) (su_user s))
  /\ (forall s s' x, s ∈ live -> s' ∈ live -> x ∈ su_nodes s -> x ∈ su_nodes s' -> s = s').

Definition c2_up (aw : alink_world X T) (req : Z) : Prop :=
  let u := dw_upload (aw_dev aw) in
  upload_ok u /\ byDevId u = ALINK_DEV_ID_AGX /\ byReq u = req
  /\ up_wBufferSize u = ALINK_UPLOAD_BUFFER_SIZE
  /\ psPackageList u = Some sAlinkPackage_TargetInfo.

Definition c2_inv (live subs : list subscriber) (req : Z) (aw : alink_world X T) : Prop :=
  c2_up aw req /\ c2_static (aw_packages aw)
  /\ receivers (aw_packages aw) (aw_sends aw) sAlinkPackage_HeartBeat (su_hb <$> subs)
  /\ receivers (aw_packages aw) (aw_sends aw) sAlinkPackage_TargetInfo (su_ti <$> subs)
  /\ (forall s, s ∈ subs -> s ∈ live) /\ live_ok (aw_sends aw) live.

Lemma node_at_relinked sends sends' l b user :
  relinked sends sends' l -> node_at sends b user -> node_at sends' b user.
Proof. intros [_ H] (next & Hb). destruct (H _ _ Hb) as [q Hq]. by exists q. Qed.

Lemma live_disjoint sends live subs :
  (forall s, s ∈ subs -> s ∈ live) -> live_ok sends live ->
  forall x, x ∈ su_ti <$> subs -> x ∉ su_hb <$> subs.
Proof.
  intros Hs [Hl Hd] x (s & -> & Hi)%list_elem_of_fmap (s' & E & Hi')%list_elem_of_fmap.
  assert (s = s') as <-.
  { apply (Hd s s' (su_ti s)); auto; rewrite ?E; unfold su_nodes; set_solver. }
  by destruct (Hl s (Hs _ Hi)).
Qed.

(** *** Ticks *)

Lemma send_all_users sends subs sel frame bs eRet t :
  (forall s, s ∈ subs -> node_at sends (sel s) (su_user s)) ->
  encode (frame ALINK_DEV_ID_C2) = bs ->
  send_all sends (sel <$> subs) frame eRet t = send_each bs (su_user <$> subs) eRet t.
Proof.
  intros Hs <-. revert eRet t. induction subs as [|s subs IH]; intros eRet t; [done|].
  destruct (Hs s) as [next Hn]; [by left|]. cbn [send_all send_each fmap list_fmap].
  rewrite Hn. cbn [mbind option_bind send_node sl_pe_send sl_handle byRemoteId].
  unfold c2_network_send. destruct (pi_send _ _ t) as [[e t']|]; [|done].
  apply IH. intros ? ?. apply Hs. by right.
Qed.

Lemma set_same_upload (aw : alink_world X T) :
  set_dev (set_dw_upload (dw_upload (aw_dev aw)) (aw_dev aw)) aw = aw.
Proof. by destruct aw as [? ? ? ? ? []]. Qed.

(** A package of a C2 connection, whichever of the two: every subscriber gets its frame. *)
Lemma upload_sim a sel id task enc imp payload live subs req aw t p `{!PackageTask task enc} :
  c2_inv live subs req aw -> aw_packages aw !! a = Some p ->
  (byMsgId p, byAns p, pw_package_task p) = (id, 0, Some task) -> is_byte id ->
  receivers (aw_packages aw) (aw_sends aw) a (sel <$> subs) ->
  (forall s, s ∈ live -> node_at (aw_sends aw) (sel s) (su_user s)) ->
  enc (drop 9 (up_pbyBuffer (dw_upload (aw_dev aw)))) imp = Some payload ->
  Zlen payload + 11 <= ALINK_UPLOAD_BUFFER_SIZE ->
  match send_each (encode (Frame req ALINK_DEV_ID_C2 ALINK_DEV_ID_AGX id 0 payload))
          (su_user <$> subs) 0 t with
  | None => alink_upload_package a imp aw t = None
  | Some (_, t') => exists eRet aw', alink_upload_package a imp aw t = Some (eRet, aw', t')
      /\ c2_inv live subs (if decide (subs = []) then req else u8 (req + 1)) aw'
  end.
Proof.
  intros ((Hu & Hdev & Hreq & Hsz & Hpl) & Hst & Hh & Ht & Hs & Hl) Hp Ep Hid Hr Hn He Hfit.
  injection Ep as Em Ea Et. destruct Hr as (p' & Hp' & Hlist). rewrite Hp in Hp'.
  injection Hp' as <-. unfold alink_upload_package. rewrite Hp. cbn [mbind option_bind].
  destruct (decide (subs = [])) as [->|Hne].
  { cbn in Hlist. unfold alink_upload_send_package. rewrite Hlist. cbn [send_each fmap list_fmap].
    cbn [mbind option_bind]. rewrite set_same_upload. do 2 eexists. split; [done|].
    split; [by unfold c2_up|]. split; [done|]. by repeat (split; [done|]). }
  pose proof (upload_send_frames (dw_upload (aw_dev aw)) (aw_sends aw) p (sel <$> subs)
    task enc imp payload t Hu) as H.
  rewrite Em, Ea, Et, Hsz, Hdev, Hreq in H.
  specialize (H ltac:(constructor; [exact Hid|by_eval]) eq_refl He Hfit Hlist ltac:(by destruct subs)).
  rewrite (send_all_users _ subs sel _
    (encode (Frame req ALINK_DEV_ID_C2 ALINK_DEV_ID_AGX id 0 payload))) in H;
    [|intros s Hi; by apply Hn, Hs|done].
  assert (receivers_ok (aw_sends aw) (sel <$> subs)) as Hrec.
  { apply Forall_fmap, Forall_forall. intros s Hi.
    destruct (Hn s (Hs _ Hi)) as [next E]. eexists. split; [exact E|by_eval]. }
  specialize (H Hrec). destruct (send_each _ _ _ _) as [[e t']|]; cbn [mbind option_bind].
  - destruct H as (u' & -> & Hu' & Hq' & Hd' & Hp' & Hz'). cbn [mbind option_bind].
    do 2 eexists. split; [done|]. rewrite Hpl in Hp'.
    split; [by unfold c2_up|]. split; [done|]. by repeat (split; [done|]).
  - by rewrite H.
Qed.

Lemma tick_sim live subs req aw t :
  c2_inv live subs req aw ->
  option_Forall2 (λ '(aw', t1) '(subs', req', t2), t1 = t2 /\ c2_inv live subs' req' aw')
    (c2_do C2_tick (aw, t)) (spec_do C2_tick (subs, req, t)).
Proof.
  intros Hi. pose proof Hi as (_ & Hst & Hh & _ & _ & Hl).
  destruct Hst as (p0 & p1 & H0 & _ & E0 & _). injection E0 as Em Ea Et _.
  pose proof (upload_sim sAlinkPackage_HeartBeat su_hb 0xD0 system_pkg_heartbeat
    (λ _ _, Some [100; 0; 0]) None [100; 0; 0] live subs req aw t p0 Hi H0) as H.
  rewrite Em, Ea, Et in H. specialize (H eq_refl ltac:(by_eval) Hh).
  specialize (H ltac:(intros s Hs; by apply (proj1 Hl s Hs)) eq_refl ltac:(by_eval)).
  cbn [c2_do spec_do]. unfold alink_upload_heartbeat. unfold heartbeat_frame.
  destruct (send_each _ _ _ _) as [[e t']|]; cbn [mbind option_bind].
  - destruct H as (eRet & aw' & -> & Hi'). cbn [mbind option_bind]. by constructor.
  - rewrite H. constructor.
Qed.

(** *** New connections *)

Lemma up_set_lists packages sends aw req : c2_up aw req -> c2_up (set_lists packages sends aw) req.
Proof. done. Qed.

Lemma node_set sends b user : node_at (<[b := send_node user send None]> sends) b user.
Proof. exists None. apply lookup_insert_eq. Qed.

Lemma node_at_insert_ne sends b b' user n :
  b <> b' -> node_at sends b user -> node_at (<[b' := n]> sends) b user.
Proof. intros Hne [next Hn]. exists next. by rewrite lookup_insert_ne. Qed.

Lemma live_create sends sends' live s :
  live_ok sends live -> op_ok live (C2_create s) ->
  (forall b u, b ∉ su_nodes s -> node_at sends b u -> node_at sends' b u) ->
  node_at sends' (su_hb s) (su_user s) -> node_at sends' (su_ti s) (su_user s) ->
  live_ok sends' (live ++ [s]).
Proof.
  intros [Hl Hd] [Hne Hdis] Hkeep Hh Ht. split.
  - intros s' [Hs|Hs]%elem_of_app; [|by apply list_elem_of_singleton in Hs as ->].
    destruct (Hl _ Hs) as (? & ? & ?). specialize (Hdis _ Hs). unfold su_nodes in *.
    split; [done|]. split; apply Hkeep; set_solver.
  - intros s1 s2 x [H1|H1]%elem_of_app [H2|H2]%elem_of_app Hx1 Hx2;
      try apply list_elem_of_singleton in H1 as ->; try apply list_elem_of_singleton in H2 as ->.
    + by eapply Hd.
    + by destruct (Hdis _ H1 _ Hx2 Hx1).
    + by destruct (Hdis _ H2 _ Hx1 Hx2).
    + done.
Qed.

Lemma fresh_nodes live subs s :
  (forall s', s' ∈ subs -> s' ∈ live) -> op_ok live (C2_create s) ->
  forall x, x ∈ su_nodes s -> (x ∉ (su_hb <$> subs)) /\ (x ∉ (su_ti <$> subs)).
Proof.
  intros Hs [_ Hd] x Hx. split; intros (s' & -> & Hi)%list_elem_of_fmap;
    eapply (Hd s'); eauto; unfold su_nodes; set_solver.
Qed.

Lemma receivers_insert packages sends a l b n :
  b ∉ l -> receivers packages sends a l -> receivers packages (<[b := n]> sends) a l.
Proof.
  intros Hb (p & Hp & Hl). exists p. split; [done|]. unfold is_list in *.
  by apply lseg_insert_ne.
Qed.

Lemma create_sim live subs req aw t s :
  c2_inv live subs req aw -> op_ok live (C2_create s) ->
  exists aw', c2_do (C2_create s) (aw, t) = Some (aw', t)
    /\ c2_inv (live ++ [s]) (subs ++ [s]) req aw'.
Proof.
  intros (Hup & Hst & Hh & Ht & Hs & Hl) Hok. pose proof Hup as ((Hmu & _) & _ & _ & _ & Hpl).
  pose proof Hok as [Hne _]. pose proof (live_disjoint _ _ _ Hs Hl) as Hdis.
  pose proof (fresh_nodes _ _ _ Hs Hok) as Hfr.
  destruct (Hfr (su_hb s)) as [F1 F2]; [unfold su_nodes; set_solver|].
  destruct (Hfr (su_ti s)) as [F3 F4]; [unfold su_nodes; set_solver|].
  cbn [c2_do]. unfold c2_network_create.
  set (zero := {| byRemoteId := 0; sl_handle := 0; sl_pe_send := None; sl_psNext := None |}).
  set (sends0 := <[su_ti s := zero]> (<[su_hb s := zero]> (aw_sends aw))).
  destruct (c2_packages_list _ Hst) as (_ & Hf0 & _).
  destruct (c2_connect (set_lists (aw_packages aw) sends0 aw) sAlinkPackage_HeartBeat
    sAlinkPackage_TargetInfo 0xD0 (su_hb <$> subs) (su_ti <$> subs) (su_hb s)
    Hmu Hpl Hst eq_refl ltac:(done) Hf0 Hdis (su_user s) send zero)
    as (pk1 & sends1 & E1 & Hst1 & Hh1 & Ht1 & Hr1); try done.
  { by repeat apply receivers_insert. } { by repeat apply receivers_insert. }
  { cbn. unfold sends0. by rewrite lookup_insert_ne, lookup_insert_eq. }
  cbn zeta. rewrite E1. cbn [mbind option_bind].
  destruct (c2_packages_list _ Hst1) as (_ & _ & Hf1).
  assert (sends1 !! su_ti s = Some zero) as Hz.
  { rewrite (proj1 Hr1) by done. cbn. unfold sends0.
    by rewrite lookup_insert_ne, lookup_insert_eq. }
  destruct (c2_connect (set_lists pk1 sends1 aw) sAlinkPackage_TargetInfo
    sAlinkPackage_HeartBeat 0x80 (su_ti <$> subs) ((su_hb <$> subs) ++ [su_hb s]) (su_ti s)
    Hmu Hpl Hst1 eq_refl ltac:(done) Hf1 ltac:(set_solver) (su_user s) send zero)
    as (pk2 & sends2 & E2 & Hst2 & Ht2 & Hh2 & Hr2); try done; [set_solver|].
  change (set_lists pk1 sends1 (set_lists (aw_packages aw) sends0 aw))
    with (set_lists pk1 sends1 aw). rewrite E2. cbn [mbind option_bind].
  eexists. split; [done|]. split; [done|]. split; [done|]. rewrite !fmap_app.
  split; [done|]. split; [done|]. split; [set_solver|].
  cbn [aw_sends set_lists] in Hr1, Hr2 |- *. eapply live_create; [exact Hl|done|..].
  - intros b u Hb Hn. unfold su_nodes in Hb. eapply node_at_relinked; [exact Hr2|].
    apply node_at_insert_ne; [set_solver|]. eapply node_at_relinked; [exact Hr1|].
    repeat (apply node_at_insert_ne; [set_solver|]). done.
  - eapply node_at_relinked; [exact Hr2|]. apply node_at_insert_ne; [done|].
    eapply node_at_relinked; [exact Hr1|]. apply node_set.
  - eapply node_at_relinked; [exact Hr2|]. apply node_set.
Qed.
(** *** Connections that end *)

Lemma live_delete sends sends' live s :
  live_ok sends live -> s ∈ live ->
  (forall b u, b ∉ su_nodes s -> node_at sends b u -> node_at sends' b u) ->
  live_ok sends' (live_after live (C2_delete s)).
Proof.
  intros [Hl Hd] Hs Hkeep. cbn [live_after]. split.
  - intros s' [Hne Hi]%list_elem_of_filter. destruct (Hl _ Hi) as (? & ? & ?).
    split; [done|]. split; (apply Hkeep; [intros Hx; apply Hne; eapply Hd; [done..| |exact Hx]|done]);
      unfold su_nodes; set_solver.
  - intros s1 s2 x [_ H1]%list_elem_of_filter [_ H2]%list_elem_of_filter. by apply Hd.
Qed.

Lemma drop_subs sends live subs s (f : subscriber -> nat) :
  (forall s', s' ∈ subs -> s' ∈ live) -> live_ok sends live -> s ∈ live ->
  (forall s', f s' ∈ su_nodes s') ->
  drop_node (f s) (f <$> subs) = f <$> drop_node s subs
  /\ (forall x, x ∈ su_nodes s -> x ∉ f <$> drop_node s subs).
Proof.
  intros Hs [_ Hd] Hi Hf. split.
  - apply drop_node_fmap. intros y Hy E. eapply Hd; [auto|done|apply Hf|]. by rewrite E.
  - intros x Hx (s' & -> & [Hi' Hne]%drop_node_incl)%list_elem_of_fmap. apply Hne.
    eapply Hd; [auto|done|apply Hf|done].
Qed.

Lemma receivers_free packages sends a l b :
  b ∉ l -> receivers packages sends a l -> receivers packages (delete b sends) a l.
Proof.
  intros Hb (p & Hp & Hl). exists p. split; [done|]. by apply is_list_delete.
Qed.

Lemma node_at_free sends b b' u :
  b <> b' -> node_at sends b u -> node_at (delete b' sends) b u.
Proof. intros Hne [next Hn]. exists next. by rewrite lookup_delete_ne. Qed.

Lemma delete_sim live subs req aw t s :
  c2_inv live subs req aw -> s ∈ live ->
  exists aw', c2_do (C2_delete s) (aw, t) = Some (aw', t)
    /\ c2_inv (live_after live (C2_delete s)) (drop_node s subs) req aw'.
Proof.
  intros (Hup & Hst & Hh & Ht & Hs & Hl) Hi. pose proof Hup as ((Hmu & _) & _ & _ & _ & Hpl).
  pose proof (live_disjoint _ _ _ Hs Hl) as Hdis.
  destruct (drop_subs _ _ _ _ su_hb Hs Hl Hi) as [Eh Nh]; [unfold su_nodes; set_solver|].
  destruct (drop_subs _ _ _ _ su_ti Hs Hl Hi) as [Et Nt]; [unfold su_nodes; set_solver|].
  destruct (c2_packages_list _ Hst) as (_ & Hf0 & _).
  destruct (c2_disconnect aw sAlinkPackage_HeartBeat sAlinkPackage_TargetInfo 0xD0
    (su_hb <$> subs) (su_ti <$> subs) (su_hb s) Hmu Hpl Hst eq_refl ltac:(done) Hf0 Hdis Hh Ht)
    as (pk1 & sends1 & E1 & Hst1 & Hh1 & Ht1 & Hr1).
  destruct (c2_packages_list _ Hst1) as (_ & _ & Hf1). rewrite Eh in Hh1.
  assert (forall x, x ∈ su_hb <$> drop_node s subs -> x ∉ su_ti <$> subs) as Hdis1.
  { intros x (y & -> & [Hy _]%drop_node_incl)%list_elem_of_fmap Hx. apply (Hdis _ Hx).
    apply list_elem_of_fmap. by exists y. }
  destruct (c2_disconnect (set_lists pk1 sends1 aw) sAlinkPackage_TargetInfo
    sAlinkPackage_HeartBeat 0x80 (su_ti <$> subs) (su_hb <$> drop_node s subs) (su_ti s)
    Hmu Hpl Hst1 eq_refl ltac:(done) Hf1 Hdis1 Ht1 Hh1)
    as (pk2 & sends2 & E2 & Hst2 & Ht2 & Hh2 & Hr2). rewrite Et in Ht2.
  cbn [c2_do]. unfold c2_network_cbk_delete. cbn [c2_at cn_sSendAlinkHeartBeat
    cn_sSendAlinkTargetInfo]. rewrite E1. cbn [mbind option_bind]. rewrite E2.
  cbn [mbind option_bind]. eexists. split; [done|]. split; [done|]. split; [done|].
  cbn [aw_sends aw_packages set_lists] in *. unfold su_nodes in *.
  split; [|split; [|split]].
  - do 2 (apply receivers_free; [apply Nh; set_solver|]). done.
  - do 2 (apply receivers_free; [apply Nt; set_solver|]). done.
  - intros s' [Hi' Hne]%drop_node_incl. apply list_elem_of_filter. auto.
  - eapply live_delete; [exact Hl|done|]. intros b u Hb Hn. unfold su_nodes in Hb.
    do 2 (apply node_at_free; [set_solver|]). eapply node_at_relinked; [exact Hr2|].
    by eapply node_at_relinked.
Qed.

(** *** Any sequence *)

Lemma run_sim ops live subs req aw t :
  c2_inv live subs req aw -> ops_ok live ops ->
  option_Forall2 (λ '(aw', t1) '(subs', req', t2), t1 = t2 /\ exists live', c2_inv live' subs' req' aw')
    (c2_run ops (aw, t)) (spec_run ops (subs, req, t)).
Proof.
  revert live subs req aw t. induction ops as [|op ops IH]; intros live subs req aw t Hi Hok.
  { constructor. split; [done|]. by exists live. }
  destruct Hok as [Hop Hok]. cbn [c2_run spec_run]. destruct op as [s|s|].
  - destruct (create_sim live subs req aw t s Hi Hop) as (aw' & -> & Hi').
    by apply (IH (live ++ [s])).
  - destruct (delete_sim live subs req aw t s Hi Hop) as (aw' & -> & Hi').
    by apply (IH (live_after live (C2_delete s))).
  - pose proof (tick_sim live subs req aw t Hi) as H.
    destruct (c2_do C2_tick (aw, t)) as [[aw1 t1]|], (spec_do C2_tick (subs, req, t)) as [[[subs' req'] t2]|];
      inversion H as [? ? Hq|]; cbn [mbind option_bind]; [|constructor].
    destruct Hq as [-> Hi']. by apply (IH live).
Qed.
End ops_run.

(** The world that [alink_init] leaves has no subscribers. *)
Lemma init_inv {X T} pi_send b1 b2 b3 sends (d : dev_world X) r (aw : alink_world X T) :
  Zlen b3 = ALINK_UPLOAD_BUFFER_SIZE -> bytes_ok b3 ->
  alink_init 0 0 0 (alink_statics b1 b2 b3 sends d) = Some (r, aw) ->
  c2_inv pi_send [] [] 0 aw.
Proof.
  intros H3 Hok E. unfold c2_inv, c2_up, c2_static, receivers, live_ok.
  unfold alink_init, alink_track_init, alink_target_init, alink_system_init in E.
  revert E. abstract_handlers X. vm_compute in E. injection E as _ <-.
  unfold upload_ok. cbn -[Zlen lookup ALINK_UPLOAD_BUFFER_SIZE]. rewrite H3.
  split; [repeat split; try done; by_eval|].
  split; [do 2 eexists; repeat split; reflexivity|].
  split; [eexists; split; reflexivity|]. split; [eexists; split; reflexivity|].
  split; [done|]. split; intros ? *; by intros ?%not_elem_of_nil.
Qed.

(** ** Properties *)

(** C22: the heartbeat reaches exactly the subscribers. Whatever C2 connections come, end
    and tick after [alink_init], the code refines the list of subscribers: a new connection
    is appended, each tick sends one encoded heartbeat with the current request counter to
    every subscriber in order, and a connection that ends is taken off the list; when it is
    the first, all others are lost with it. *)
Theorem c2_heartbeat_subscribers {X T} (pi_send : nat -> list Z -> T -> option (Z * T)) psu
    b1 b2 b3 sends (d : dev_world X) r (aw : alink_world X T) ops t :
  Zlen b3 = ALINK_UPLOAD_BUFFER_SIZE -> bytes_ok b3 ->
  alink_init 0 0 0 (alink_statics b1 b2 b3 sends d) = Some (r, aw) -> ops_ok [] ops ->
  option_Forall2 (λ '(aw', t1) '(subs, req, t2),
      t1 = t2 /\ byReq (dw_upload (aw_dev aw')) = req
      /\ receivers (aw_packages aw') (aw_sends aw') sAlinkPackage_HeartBeat (su_hb <$> subs)
      /\ receivers (aw_packages aw') (aw_sends aw') sAlinkPackage_TargetInfo (su_ti <$> subs))
    (c2_run pi_send psu ops (aw, t)) (spec_run pi_send ops ([], 0, t)).
Proof.
  intros H3 Hok E Hops.
  pose proof (run_sim pi_send psu ops [] [] 0 aw t (init_inv pi_send _ _ _ _ _ _ _ H3 Hok E) Hops) as H.
  destruct (c2_run _ _ _ _) as [[aw' t1]|], (spec_run _ _ _) as [[[subs req] t2]|];
    inversion H as [? ? Hq|]; constructor.
  destruct Hq as (-> & live & (_ & _ & Hreq & _) & _ & Hh & Ht & _).
  split; [reflexivity|]. exact (conj Hreq (conj Hh Ht)).
Qed.

(** ** Witness *)

(** Three stations; the second one leaves, then the first. *)
Definition demo_sub (n : nat) : subscriber :=
  {| su_hb := 2 * n; su_ti := 2 * n + 1; su_user := 10 + n |}.
Definition demo_ops : list c2_op :=
  [C2_tick; C2_create (demo_sub 1); C2_create (demo_sub 2); C2_create (demo_sub 3); C2_tick;
   C2_delete (demo_sub 2); C2_tick; C2_delete (demo_sub 1); C2_tick].

Lemma demo_ops_ok : ops_ok [] demo_ops.
Proof.
  cbn -[demo_sub]. repeat split; try (intros s Hs); cbn in *; try discriminate;
    rewrite ?elem_of_cons in *; unfold su_nodes in *; set_solver.
Qed.

Lemma c2_heartbeat_subscribers_witness :
  (exists aw aw' : alink_world unit trace,
     alink_init 0 0 0 (alink_statics demo_buffer demo_buffer
       (replicate (Z.to_nat ALINK_UPLOAD_BUFFER_SIZE) 0) ∅ demo_world) = Some (0, aw)
     /\ c2_run log_send {| eu_psSocket := 0; eu_pi_send := 0 |} demo_ops (aw, [])
        = Some (aw', map (λ p, (p.1, encode (heartbeat_frame p.2)))
                   [(11%nat, 0); (12%nat, 0); (13%nat, 0); (11%nat, 1); (13%nat, 1)])).
Proof.
  assert (exists aw, alink_init 0 0 0 (alink_statics (X := unit) (T := trace) demo_buffer demo_buffer
    (replicate (Z.to_nat ALINK_UPLOAD_BUFFER_SIZE) 0) ∅ demo_world) = Some (0, aw)) as (aw & E).
  { destruct (alink_init_ready (X := unit) (T := trace) demo_buffer demo_buffer
      (replicate (Z.to_nat ALINK_UPLOAD_BUFFER_SIZE) 0) ∅ demo_world) as (aw & E & _); [by vm_compute..|].
    by exists aw. }
  pose proof (c2_heartbeat_subscribers log_send {| eu_psSocket := 0; eu_pi_send := 0 |} demo_buffer
    demo_buffer (replicate (Z.to_nat ALINK_UPLOAD_BUFFER_SIZE) 0) ∅ demo_world 0 aw demo_ops []
    ltac:(vm_compute; reflexivity) ltac:(apply Forall_replicate; split; vm_compute; congruence)
    E demo_ops_ok) as H.
  match type of H with option_Forall2 _ _ ?q =>
    assert (q = Some ([], 2, map (λ p, (p.1, encode (heartbeat_frame p.2)))
      [(11%nat, 0); (12%nat, 0); (13%nat, 0); (11%nat, 1); (13%nat, 1)])) as Es
      by (vm_compute; reflexivity) end.
  rewrite Es in H. clear Es. exists aw.
  destruct (c2_run _ _ _ _) as [[aw' t1]|]; inversion H as [? ? Hq|].
  destruct Hq as (-> & _). exists aw'. split; [exact E|reflexivity].
Defined.
