(* ===== verification/AiReport.v ===== *)
(** * Reporting what the picture shows ([upload_target_info] in [ai_main.cpp])

    The boxes that the network found are put into the object of the target report, which the
    upload sends to every C2 station. *)

From S2P Require Import Prelude CFloat AlinkFrame AlinkCheck Layout AlinkOrder AlinkUpload SysportTask AlgInterface AlinkWorld.
From S2P Require Import AlinkSystem AlinkTrack AlinkTarget Alink RadarNetwork C2Network PtzProtocol.
Local Open Scope string_scope.
Local Open Scope list_scope.
Local Open Scope Z_scope.

(** ** The code *)

Definition alink_upload_target_info {X T} (psObjTargetInfo : void_ptr) (aw : alink_world X T) (t : T)
  : option (Z * alink_world X T * T) :=
  alink_upload_package sAlinkPackage_TargetInfo psObjTargetInfo aw t.

(** Element [i] of an array. *)
Definition elem {A} (l : list A) (i : Z) : option A := if 0 <=? i then l !! Z.to_nat i else None.

(** Target [i]; [b] is the object [tagetInfo]. *)
Definition report_target (classIndexs boxes : list Z) (conf : list double) (b : list Z) (i : Z)
  : option (list Z) :=
  let at_ name := offsetof alink_taget_info "targets" + i * sizeof alink_targets_item
                  + offsetof alink_targets_item name in
  b ← st_le 2 b (at_ "id") 1;
  cls ← elem classIndexs i;
  b ← st_le 1 b (at_ "classification") cls;
  x ← elem boxes (4 * i);
  b ← st_le 2 b (at_ "rectX") x;
  y ← elem boxes (4 * i + 1);
  b ← st_le 2 b (at_ "rectY") y;
  w ← elem boxes (4 * i + 2);
  b ← st_le 2 b (at_ "rectW") w;
  h ← elem boxes (4 * i + 3);
  b ← st_le 2 b (at_ "rectH") h;
  b ← st_le 2 b (at_ "rectXV") 0x77;
  b ← st_le 2 b (at_ "rectYV") 0x88;
  c ← elem conf i;
  p ← d_to_i8 (fmul c (f_of_Z 100));
  st_le 1 b (at_ "classfyProb") p.

Fixpoint report_targets (n : nat) (i : Z) (classIndexs boxes : list Z) (conf : list double)
    (b : list Z) : option (list Z) :=
  match n with
  | O => Some b
  | S n' =>
      b ← report_target classIndexs boxes conf b i;
      report_targets n' (i + 1) classIndexs boxes conf b
  end.

(** [junk] is what the stack holds where [tagetInfo] is.  The counter has 16 bits, but the
    stores leave the object long before it could overflow. *)
Definition upload_target_info {X T} (boxNum : Z) (classIndexs boxes : list Z) (conf : list double)
    (timestamp : Z) (junk : list Z) (aw : alink_world X T) (t : T) : option (alink_world X T * T) :=
  if boxNum <=? 0 then Some (aw, t) else
  b ← st_le 4 junk (offsetof alink_taget_info "timestamp") timestamp;
  b ← st_le 1 b (offsetof alink_taget_info "objNum") boxNum;
  b ← report_targets (Z.to_nat boxNum) 0 classIndexs boxes conf b;
  '(_, aw, t) ← alink_upload_target_info (Some b) aw t;
  Some (aw, t).

(** The stores of the test overlap: three apart, but four for a box. *)
Fixpoint test_boxes (n : nat) (i : Z) (Boxes : list Z) : list Z :=
  match n with
  | O => Boxes
  | S n' =>
      let k := Z.to_nat (3 * i) in
      test_boxes n' (i + 1)
        (<[(k + 3)%nat := i * 10 + 3]> (<[(k + 2)%nat := i * 10 + 2]>
           (<[(k + 1)%nat := i * 10 + 1]> (<[k := i * 10]> Boxes))))
  end.

Definition test_upload_target_info {X T} (junk : list Z) (aw : alink_world X T) (t : T)
  : option (alink_world X T * T) :=
  let ClassIndexs := [1; 2; 3] ++ replicate 7 0 in
  let Boxes := test_boxes 3 0 (replicate 40 0) in
  let Conf := (d_round32 <$> [d_lit 4 10; d_lit 8 10; d_lit 9 10]) ++ replicate 7 (d_of_Z 0) in
  upload_target_info 3 ClassIndexs Boxes Conf 0 junk aw t.

(** ** The report of a list of boxes *)

Record box := { bx_class : Z; bx_x : Z; bx_y : Z; bx_w : Z; bx_h : Z; bx_conf : double }.

Definition bx_rect (x : box) : list Z := [bx_x x; bx_y x; bx_w x; bx_h x].
Definition bx_percent (x : box) : option Z := d_to_i8 (fmul (bx_conf x) (f_of_Z 100)).

(** The sixteen bytes of a target that the code fills. *)
Definition box_bytes (x : box) : list Z :=
  le_bytes 2 1 ++ le_bytes 1 (bx_class x) ++ le_bytes 2 (bx_x x) ++ le_bytes 2 (bx_y x)
  ++ le_bytes 2 (bx_w x) ++ le_bytes 2 (bx_h x) ++ le_bytes 2 0x77 ++ le_bytes 2 0x88
  ++ le_bytes 1 (default 0 (bx_percent x)).

Lemma Zlen_box_bytes x : Zlen (box_bytes x) = 16.
Proof. unfold box_bytes. by autorewrite with mem. Qed.

Lemma box_bytes_ok x : bytes_ok (box_bytes x).
Proof. unfold box_bytes. rewrite !bytes_ok_app. repeat split_and; apply le_bytes_ok. Qed.

Lemma elem_skip {A} (l r : list A) i j : i = Zlen l + j -> 0 <= j -> elem (l ++ r) i = elem r j.
Proof.
  intros -> Hj. unfold elem. pose proof (Zlen_nonneg l).
  destruct (Z.leb_spec 0 (Zlen l + j)), (Z.leb_spec 0 j); [|lia..].
  rewrite lookup_app_r by (unfold Zlen; lia). f_equal. unfold Zlen. lia.
Qed.

Section items.
Context (classIndexs boxes : list Z) (conf : list double).

(** The arrays hold the box [x] at [i]. *)
Record box_at (i : Z) (x : box) : Prop := {
  at_class : elem classIndexs i = Some (bx_class x);
  at_x : elem boxes (4 * i) = Some (bx_x x);
  at_y : elem boxes (4 * i + 1) = Some (bx_y x);
  at_w : elem boxes (4 * i + 2) = Some (bx_w x);
  at_h : elem boxes (4 * i + 3) = Some (bx_h x);
  at_conf : elem conf i = Some (bx_conf x)
}.

Lemma report_target_spec a m i x :
  box_at i x -> is_Some (bx_percent x) -> Zlen a = 5 + i * 24 -> 16 <= Zlen m ->
  report_target classIndexs boxes conf (a ++ m) i = Some ((a ++ box_bytes x) ++ drop 16 m).
Proof.
  intros [E1 E2 E3 E4 E5 E6] [p Hp] Ha Hm. unfold report_target. cbv zeta.
  change (offsetof alink_taget_info "targets") with 5.
  change (sizeof alink_targets_item) with 24.
  repeat match goal with
  | |- context [offsetof alink_targets_item ?n] =>
      let v := eval vm_compute in (offsetof alink_targets_item n) in
      change (offsetof alink_targets_item n) with v
  end.
  unfold bx_percent in Hp. rewrite E1, E2, E3, E4, E5, E6.
  unfold Zlen in Ha, Hm. cbn [mbind option_bind].
  do 8 (rewrite st_le_extend by extend_side; cbn [mbind option_bind]).
  rewrite Hp. cbn [mbind option_bind]. rewrite st_le_extend by extend_side.
  unfold box_bytes, bx_percent. rewrite Hp. cbn [default].
  by rewrite !drop_drop, <-!app_assoc.
Qed.

(** Eight bytes behind every target are left as they are. *)
Definition with_stale (l : list box) (stale : list (list Z)) : list Z :=
  concat (zip_with (λ x s, box_bytes x ++ s) l stale).

Lemma report_targets_spec l i a m :
  (forall k x, l !! k = Some x -> box_at (i + Z.of_nat k) x) ->
  Forall (λ x, is_Some (bx_percent x)) l -> Zlen a = 5 + i * 24 -> 24 * Zlen l <= Zlen m ->
  exists stale, length stale = length l /\ Forall (λ s, length s = 8%nat) stale
    /\ (bytes_ok m -> Forall bytes_ok stale)
    /\ report_targets (length l) i classIndexs boxes conf (a ++ m)
       = Some (a ++ with_stale l stale ++ drop (24 * length l) m).
Proof.
  revert i a m. induction l as [|x l IH]; intros i a m Hat Hp Ha Hm.
  { exists []. cbn [length report_targets with_stale zip_with concat app Nat.mul].
    by repeat constructor. }
  apply Forall_cons in Hp as [Hx Hp]. rewrite Zlen_cons in Hm. pose proof (Zlen_nonneg l).
  cbn [length report_targets].
  rewrite (report_target_spec _ _ _ x) by
    (done || lia || (rewrite <-(Z.add_0_r i); by apply (Hat 0%nat))).
  cbn [mbind option_bind].
  assert (drop 16 m = take 8 (drop 16 m) ++ drop 24 m) as Ed
    by (by rewrite <-(take_drop 8 (drop 16 m)) at 1; rewrite drop_drop).
  rewrite Ed, app_assoc.
  assert (Z.of_nat (length (take 8 (drop 16 m))) = 8) as H8
    by (rewrite length_take, length_drop; unfold Zlen in Hm; lia).
  destruct (IH (i + 1) ((a ++ box_bytes x) ++ take 8 (drop 16 m)) (drop 24 m))
    as (stale & Hl & Hall & Hby & ->).
  - intros k y Hk. replace (i + 1 + Z.of_nat k) with (i + Z.of_nat (Datatypes.S k)) by lia.
    by apply Hat.
  - done.
  - rewrite !Zlen_app, Zlen_box_bytes, Ha. unfold Zlen. lia.
  - unfold Zlen in *. rewrite length_drop. lia.
  - exists (take 8 (drop 16 m) :: stale). split; [cbn; lia|].
    split; [constructor; [lia|done]|].
    split; [intros Hm'; constructor; auto with bytes|].
    f_equal. unfold with_stale. cbn [zip_with concat]. rewrite drop_drop, <-!app_assoc.
    do 5 f_equal. lia.
Qed.

Lemma Zlen_with_stale l stale : length stale = length l -> Forall (λ s, length s = 8%nat) stale ->
  Zlen (with_stale l stale) = 24 * Zlen l.
Proof.
  revert stale. induction l as [|x l IH]; intros [|s stale] Hl Hs; try discriminate; [done|].
  apply Forall_cons in Hs as [H8 Hs]. unfold with_stale. cbn [zip_with concat].
  rewrite !Zlen_app, Zlen_box_bytes, Zlen_cons. fold (with_stale l stale).
  rewrite IH by (cbn in Hl; done || lia). unfold Zlen. lia.
Qed.

Lemma with_stale_ok l stale : Forall bytes_ok stale -> bytes_ok (with_stale l stale).
Proof.
  intros H. revert stale H. induction l as [|x l IH]; intros stale H; [by constructor|].
  destruct H as [|s stale Hs H]; [by constructor|]. unfold with_stale. cbn [zip_with concat].
  rewrite !bytes_ok_app. split; [split; [apply box_bytes_ok|done]|by apply IH].
Qed.

(** The task puts the eight bytes of the send buffer there instead. *)
Lemma merge_with_stale l stale old y :
  length stale = length l -> Forall (λ s, length s = 8%nat) stale -> 24 * Zlen l <= Zlen old ->
  exists stale', length stale' = length l /\ Forall (λ s, length s = 8%nat) stale'
    /\ merge_items (length l) old (with_stale l stale ++ y) = with_stale l stale'.
Proof.
  revert stale old. induction l as [|x l IH]; intros [|s stale] old Hl Hs Ho; try discriminate.
  { by exists []. }
  apply Forall_cons in Hs as [H8 Hs]. rewrite Zlen_cons in Ho. pose proof (Zlen_nonneg l).
  destruct (IH stale (drop 24 old)) as (stale' & Hl' & Hs' & E); [cbn in Hl; lia|done| |].
  { unfold Zlen in *. rewrite length_drop. lia. }
  exists (take 8 (drop 16 old) :: stale'). split; [cbn; lia|].
  split; [constructor; [rewrite length_take, length_drop; unfold Zlen in Ho; lia|done]|].
  unfold with_stale. cbn [length merge_items zip_with concat]. fold (with_stale l stale).
  assert (length (box_bytes x) = 16%nat) as H16
    by (pose proof (Zlen_box_bytes x) as E16; unfold Zlen in E16; lia).
  assert (length (box_bytes x ++ s) = 24%nat) as H24 by (rewrite length_app; lia).
  rewrite <-(app_assoc (box_bytes x ++ s)), (drop_app_length' (box_bytes x ++ s)) by done.
  rewrite <-app_assoc, take_app_length' by done. rewrite E. by rewrite <-!app_assoc.
Qed.
End items.


(** ** The object *)

Section object.
Context (l : list box) (more1 more2 : list Z) (more3 : list double).
Let classIndexs := (bx_class <$> l) ++ more1.
Let boxes := concat (bx_rect <$> l) ++ more2.
Let conf := (bx_conf <$> l) ++ more3.

Lemma boxes_at k x : l !! k = Some x -> box_at classIndexs boxes conf (Z.of_nat k) x.
Proof.
  intros Hk. apply list_elem_of_split_length in Hk as (l1 & l2 & El & Hk).
  subst classIndexs boxes conf. rewrite El.
  assert (Zlen (concat (bx_rect <$> l1)) = 4 * Z.of_nat k) as Hr.
  { rewrite Hk. clear. induction l1 as [|y l1 IH]; [done|]. cbn [fmap list_fmap concat length].
    rewrite Zlen_app, IH, Nat2Z.inj_succ. change (Zlen (bx_rect y)) with 4. lia. }
  assert (Zlen (bx_class <$> l1) = Z.of_nat k /\ Zlen (bx_conf <$> l1) = Z.of_nat k) as [Hc Hf]
    by (unfold Zlen; rewrite !length_fmap; lia).
  rewrite !fmap_app, concat_app. cbn [fmap list_fmap concat]. rewrite <-!app_assoc.
  split; [by rewrite (elem_skip _ _ _ 0) by lia|by rewrite (elem_skip _ _ _ 0) by lia
    |by rewrite (elem_skip _ _ _ 1) by lia|by rewrite (elem_skip _ _ _ 2) by lia
    |by rewrite (elem_skip _ _ _ 3) by lia|by rewrite (elem_skip _ _ _ 0) by lia].
Qed.

(** The object that is handed to the upload. *)
Lemma object_filled timestamp junk :
  Forall (λ x, is_Some (bx_percent x)) l -> Zlen junk = sizeof alink_taget_info ->
  bytes_ok junk -> Zlen l <= ALINK_TARGET_MAX ->
  exists stale y, length stale = length l /\ Forall (λ s, length s = 8%nat) stale
    /\ Forall bytes_ok stale /\ bytes_ok y
    /\ (b ← st_le 4 junk (offsetof alink_taget_info "timestamp") timestamp;
        b ← st_le 1 b (offsetof alink_taget_info "objNum") (Zlen l);
        report_targets (Z.to_nat (Zlen l)) 0 classIndexs boxes conf b)
       = Some ((le_bytes 4 timestamp ++ le_bytes 1 (Zlen l)) ++ with_stale l stale ++ y).
Proof.
  intros Hp Hj Hok Hl. change (sizeof alink_taget_info) with 3077 in Hj.
  unfold ALINK_TARGET_MAX in Hl.
  change (offsetof alink_taget_info "timestamp") with 0.
  change (offsetof alink_taget_info "objNum") with 4.
  change (st_le 4 junk) with (st_le 4 ([] ++ junk)). rewrite st_le_extend by (done || lia).
  cbn [mbind option_bind app]. rewrite st_le_extend by extend_side. cbn [mbind option_bind].
  rewrite Zlen_to_nat, drop_drop.
  destruct (report_targets_spec classIndexs boxes conf l 0
    (le_bytes 4 timestamp ++ le_bytes 1 (Zlen l)) (drop (4 + 1) junk))
    as (stale & H1 & H2 & H3 & E); [|done|by autorewrite with mem| |].
  - intros k x Hk. rewrite Z.add_0_l. by apply boxes_at.
  - unfold Zlen in *. rewrite length_drop. lia.
  - exists stale, (drop (24 * length l) (drop (4 + 1) junk)). split; [done|]. split; [done|].
    split; [apply H3; auto with bytes|]. split; [auto with bytes|]. exact E.
Qed.
End object.

Lemma Zlen_pos {A} (l : list A) : l <> [] -> 0 < Zlen l.
Proof. destruct l as [|x l]; [done|]. rewrite Zlen_cons. pose proof (Zlen_nonneg l). lia. Qed.

(** What the report has on the wire. *)
Definition report_payload (timestamp : Z) (l : list box) (stale : list (list Z)) : list Z :=
  le_bytes 4 timestamp ++ le_bytes 1 (Zlen l) ++ with_stale l stale.

Lemma object_payload timestamp l stale y old :
  length stale = length l -> Forall (λ s, length s = 8%nat) stale -> Forall bytes_ok stale ->
  bytes_ok y -> Zlen l <= ALINK_TARGET_MAX -> 3077 <= Zlen old ->
  exists stale', length stale' = length l /\ Forall (λ s, length s = 8%nat) stale'
    /\ target_payload old (Some ((le_bytes 4 timestamp ++ le_bytes 1 (Zlen l))
                                  ++ with_stale l stale ++ y))
       = Some (report_payload timestamp l stale').
Proof.
  intros H1 H2 H3 Hy Hl Ho. unfold ALINK_TARGET_MAX in Hl. pose proof (Zlen_nonneg l).
  set (h := le_bytes 4 timestamp ++ le_bytes 1 (Zlen l)).
  assert (Zlen h = 5) as Hh by (unfold h; by autorewrite with mem).
  assert (bytes_ok h) as Hhok
    by (unfold h; rewrite bytes_ok_app; split; apply le_bytes_ok).
  assert (ld8 (h ++ with_stale l stale ++ y) 4 = Some (Zlen l)) as En.
  { unfold h. rewrite <-app_assoc. cbn [le_bytes app]. rewrite (Z.mod_small (Zlen l)) by lia. done. }
  destruct (merge_with_stale l stale (drop 5 old) y H1 H2) as (stale' & H1' & H2' & E).
  { unfold Zlen in *. rewrite length_drop. lia. }
  exists stale'. split; [done|]. split; [done|]. unfold target_payload. cbn [mbind option_bind].
  rewrite En. cbn [mbind option_bind]. pose proof (Zlen_with_stale l stale H1 H2) as Hw.
  rewrite bool_decide_eq_true_2.
  - rewrite take_app_length', drop_app_length' by (unfold Zlen in Hh; lia).
    rewrite Zlen_to_nat, E. unfold report_payload, h. by rewrite <-app_assoc.
  - split; [|rewrite !Zlen_app, Hw; pose proof (Zlen_nonneg y); lia].
    rewrite !bytes_ok_app. split; [done|]. split; [by apply with_stale_ok|done].
Qed.

(** More targets than the object has room for. *)
Lemma st_le_bound n m p v m' : st_le n m p v = Some m' -> p + Z.of_nat n <= Zlen m /\ Zlen m' = Zlen m.
Proof.
  unfold st_le. intros H. pose proof (st_bytes_len _ _ _ _ H) as Hl.
  apply (mk_is_Some _ _), st_bytes_Some in H. rewrite Zlen_le_bytes in H. lia.
Qed.

Lemma report_target_bound classIndexs boxes conf b i b' :
  report_target classIndexs boxes conf b i = Some b' -> 5 + i * 24 + 2 <= Zlen b /\ Zlen b' = Zlen b.
Proof.
  unfold report_target. cbv zeta. intros H. apply bind_Some in H as (b1 & Hf & H).
  apply st_le_bound in Hf as [Hb Hl].
  change (offsetof alink_taget_info "targets") with 5 in Hb.
  change (sizeof alink_targets_item) with 24 in Hb.
  change (offsetof alink_targets_item "id") with 0 in Hb.
  split; [lia|]. rewrite <-Hl. clear Hb Hl b.
  repeat (apply bind_Some in H as (? & Hs & H); first [apply st_le_bound in Hs as [_ <-]|clear Hs]).
  by apply st_le_bound in H as [_ <-].
Qed.

Lemma report_targets_bound n i classIndexs boxes conf b b' :
  report_targets n i classIndexs boxes conf b = Some b' -> (0 < n)%nat ->
  5 + (i + Z.of_nat n - 1) * 24 + 2 <= Zlen b.
Proof.
  revert i b. induction n as [|n IH]; intros i b H Hn; [lia|]. cbn [report_targets] in H.
  apply bind_Some in H as (b1 & Hf & H). apply report_target_bound in Hf as [Hb Hl].
  destruct n as [|n]; [lia|]. apply IH in H; lia.
Qed.

(** ** The report in a state of the C2 stations *)

Section report.
Context {X T : Type} (pi_send : nat -> list Z -> T -> option (Z * T)).
Context (l : list box) (more1 more2 : list Z) (more3 : list double) (timestamp : Z) (junk : list Z).
Hypothesis (Hne : l <> []) (Hp : Forall (λ x, is_Some (bx_percent x)) l).
Hypothesis (Hj : Zlen junk = sizeof alink_taget_info) (Hjok : bytes_ok junk).

Local Abbreviation report := (upload_target_info (X := X) (T := T) (Zlen l)
  ((bx_class <$> l) ++ more1) (concat (bx_rect <$> l) ++ more2) ((bx_conf <$> l) ++ more3)
  timestamp junk).

Lemma report_sim live subs req aw t :
  c2_inv pi_send live subs req aw -> Zlen l <= ALINK_TARGET_MAX ->
  exists stale, length stale = length l /\ Forall (λ s, length s = 8%nat) stale
  /\ match send_each pi_send (encode (Frame req ALINK_DEV_ID_C2 ALINK_DEV_ID_AGX 0x80 0
              (report_payload timestamp l stale))) (su_user <$> subs) 0 t with
    | None => report aw t = None
    | Some (_, t') => exists aw', report aw t = Some (aw', t')
        /\ c2_inv pi_send live subs (if decide (subs = []) then req else u8 (req + 1)) aw'
    end.
Proof using Hne Hp Hj Hjok.
  intros Hi Hl. pose proof (Zlen_pos l Hne) as Hpos. unfold upload_target_info.
  destruct (Z.leb_spec (Zlen l) 0); [lia|].
  destruct (object_filled l more1 more2 more3 timestamp junk Hp Hj Hjok Hl)
    as (stale & y & H1 & H2 & Hs & Hy & Eo).
  pose proof Hi as ((Hu & _ & _ & Hsz & _) & (p0 & p1 & _ & Hp1 & _ & Ep) & _ & Ht & _ & Hlive).
  destruct Hu as (_ & _ & _ & Hz & _).
  destruct (object_payload timestamp l stale y (drop 9 (up_pbyBuffer (dw_upload (aw_dev aw)))))
    as (stale' & H1' & H2' & Et); [done..| |].
  { rewrite Hsz in Hz. change ALINK_UPLOAD_BUFFER_SIZE with 6144 in Hz.
    unfold Zlen in *. rewrite length_drop. lia. }
  exists stale'. split; [done|]. split; [done|]. injection Ep as Em Ea Etk _.
  assert (Zlen (report_payload timestamp l stale') = 5 + 24 * Zlen l) as Hlen.
  { unfold report_payload. rewrite !Zlen_app, !Zlen_le_bytes, Zlen_with_stale by done. lia. }
  pose proof (upload_sim pi_send sAlinkPackage_TargetInfo su_ti 0x80 track_pkg_target_info
    target_payload (Some ((le_bytes 4 timestamp ++ le_bytes 1 (Zlen l)) ++ with_stale l stale ++ y))
    (report_payload timestamp l stale') live subs req aw t p1 Hi Hp1) as Hup.
  rewrite Em, Ea, Etk in Hup.
  specialize (Hup eq_refl ltac:(by_eval) Ht (λ s Hs', proj2 (proj2 (proj1 Hlive s Hs'))) Et).
  rewrite Hlen in Hup. unfold ALINK_TARGET_MAX in Hl.
  change ALINK_UPLOAD_BUFFER_SIZE with 6144 in Hup. specialize (Hup ltac:(lia)).
  apply bind_Some in Eo as (o1 & Eo1 & Eo). rewrite Eo1. cbn [mbind option_bind].
  apply bind_Some in Eo as (o2 & Eo2 & Eo). rewrite Eo2. cbn [mbind option_bind].
  rewrite Eo. cbn [mbind option_bind]. unfold alink_upload_target_info.
  destruct (send_each _ _ _ _ _) as [[e t']|]; [|by rewrite Hup].
  destruct Hup as (eRet & aw' & -> & Hi'). by exists aw'.
Qed.

Lemma report_overrun aw t : ALINK_TARGET_MAX < Zlen l -> report aw t = None.
Proof using Hj.
  unfold ALINK_TARGET_MAX. intros Hl. unfold upload_target_info.
  destruct (Z.leb_spec (Zlen l) 0); [lia|].
  destruct (st_le 4 junk _ _) as [o1|] eqn:E1; [|done]. cbn [mbind option_bind].
  destruct (st_le 1 o1 _ _) as [o2|] eqn:E2; [|done]. cbn [mbind option_bind].
  destruct (report_targets _ _ _ _ _ o2) as [o3|] eqn:E3; [|done]. exfalso.
  apply report_targets_bound in E3; [|lia]. apply st_le_bound in E1 as [_ E1], E2 as [_ E2].
  change (sizeof alink_taget_info) with 3077 in Hj. lia.
Qed.
End report.

(** ** Properties *)

(** C16: what the picture shows reaches every C2 station. Whatever C2 connections came, ended
    and ticked after [alink_init], reporting up to 128 boxes sends one frame to each station
    that is subscribed, in order, with the current request counter: the timestamp, the number
    of boxes and for each box its sixteen bytes (number 1, class, position, size, the two
    constants and the percentage) followed by eight bytes that are whatever the send buffer
    held.  The stations stay subscribed.  With more than 128 boxes the object on the stack is
    overrun. *)
Theorem boxes_reach_c2 {X T} (pi_send : nat -> list Z -> T -> option (Z * T)) psu b1 b2 b3 sends
    (d : dev_world X) r (aw aw1 : alink_world X T) ops t t1 t2 subs req
    l more1 more2 more3 timestamp junk :
  Zlen b3 = ALINK_UPLOAD_BUFFER_SIZE -> bytes_ok b3 ->
  alink_init 0 0 0 (alink_statics b1 b2 b3 sends d) = Some (r, aw) -> ops_ok [] ops ->
  c2_run pi_send psu ops (aw, t) = Some (aw1, t1) ->
  spec_run pi_send ops ([], 0, t) = Some (subs, req, t2) ->
  l <> [] -> Forall (λ x, is_Some (bx_percent x)) l ->
  Zlen junk = sizeof alink_taget_info -> bytes_ok junk ->
  let report := upload_target_info (Zlen l) ((bx_class <$> l) ++ more1)
    (concat (bx_rect <$> l) ++ more2) ((bx_conf <$> l) ++ more3) timestamp junk aw1 t1 in
  (Zlen l <= ALINK_TARGET_MAX ->
   exists stale, length stale = length l /\ Forall (λ s, length s = 8%nat) stale
   /\ match send_each pi_send (encode (Frame req ALINK_DEV_ID_C2 ALINK_DEV_ID_AGX 0x80 0
               (report_payload timestamp l stale))) (su_user <$> subs) 0 t1 with
     | None => report = None
     | Some (_, t') => exists aw', report = Some (aw', t')
         /\ byReq (dw_upload (aw_dev aw')) = (if decide (subs = []) then req else u8 (req + 1))
         /\ receivers (aw_packages aw') (aw_sends aw') sAlinkPackage_TargetInfo (su_ti <$> subs)
     end)
  /\ (ALINK_TARGET_MAX < Zlen l -> report = None).
Proof.
  intros H3 Hok E Hops Ec Es Hne Hp Hj Hjok report.
  pose proof (run_sim pi_send psu ops [] [] 0 aw t (init_inv pi_send _ _ _ _ _ _ _ H3 Hok E) Hops) as H.
  rewrite Ec, Es in H. inversion H as [? ? Hq E1 E2|]. clear E1 E2. destruct Hq as [_ (live & Hi)].
  split; [intros Hl|exact (report_overrun l more1 more2 more3 timestamp junk Hj aw1 t1)].
  destruct (report_sim pi_send l more1 more2 more3 timestamp junk Hne Hp Hj Hjok live subs req
    aw1 t1 Hi Hl) as (stale & Hs1 & Hs2 & Hr).
  exists stale. split; [exact Hs1|]. split; [exact Hs2|].
  destruct (send_each _ _ _ _ _) as [[e t']|]; [|exact Hr].
  destruct Hr as (aw' & Er & (_ & _ & Hreq & _) & _ & _ & Ht' & _). exists aw'.
  split; [exact Er|]. by split.
Qed.

(** The test writes the boxes three numbers apart, so its own report mixes them: the second
    box begins with the last two numbers of the first. *)
Lemma test_boxes_overlap :
  take 12 (test_boxes 3 0 (replicate 40 0)) = [0; 1; 2; 10; 11; 12; 20; 21; 22; 23; 0; 0].
Proof. reflexivity. Qed.

(** ** Witness *)

Definition demo_boxes : list box :=
  [{| bx_class := 0; bx_x := 300; bx_y := 20; bx_w := 40; bx_h := 30; bx_conf := d_lit 1 2 |};
   {| bx_class := 1; bx_x := 5; bx_y := 6; bx_w := 7; bx_h := 8; bx_conf := d_lit 3 4 |}].

(** Two stations are left after the operations of [demo_sub_ops]; both get the report. *)
Definition demo_sub_ops : list c2_op := [C2_create (demo_sub 1); C2_create (demo_sub 2); C2_tick].

Lemma demo_sub_ops_ok : ops_ok [] demo_sub_ops.
Proof.
  cbn -[demo_sub]. repeat split; try (intros s Hs); cbn in *; try discriminate;
    rewrite ?elem_of_cons in *; unfold su_nodes in *; set_solver.
Qed.

Lemma boxes_reach_c2_witness :
  (exists aw aw1 aw2 : alink_world unit trace, exists stale t1,
     alink_init 0 0 0 (alink_statics demo_buffer demo_buffer
       (replicate (Z.to_nat ALINK_UPLOAD_BUFFER_SIZE) 0) ∅ demo_world) = Some (0, aw)
     /\ c2_run log_send {| eu_psSocket := 0; eu_pi_send := 0 |} demo_sub_ops (aw, []) = Some (aw1, t1)
     /\ upload_target_info 2 ([0; 1] ++ []) (concat (bx_rect <$> demo_boxes) ++ [])
          ([d_lit 1 2; d_lit 3 4] ++ []) 99 (replicate 3077 0) aw1 t1
        = Some (aw2, t1 ++ map (λ u, (u, encode (Frame 1 6 8 0x80 0
                                  (report_payload 99 demo_boxes stale)))) [11; 12]%nat)).
Proof.
  assert (exists aw, alink_init 0 0 0 (alink_statics (X := unit) (T := trace) demo_buffer demo_buffer
    (replicate (Z.to_nat ALINK_UPLOAD_BUFFER_SIZE) 0) ∅ demo_world) = Some (0, aw)) as (aw & E).
  { destruct (alink_init_ready (X := unit) (T := trace) demo_buffer demo_buffer
      (replicate (Z.to_nat ALINK_UPLOAD_BUFFER_SIZE) 0) ∅ demo_world) as (aw & E & _); [by vm_compute..|].
    by exists aw. }
  assert (Hb3 : Zlen (replicate (Z.to_nat ALINK_UPLOAD_BUFFER_SIZE) 0) = ALINK_UPLOAD_BUFFER_SIZE)
    by (vm_compute; reflexivity).
  assert (Hok3 : bytes_ok (replicate (Z.to_nat ALINK_UPLOAD_BUFFER_SIZE) 0))
    by (apply Forall_replicate; split; vm_compute; congruence).
  assert (Es : exists t1 : trace, spec_run log_send demo_sub_ops ([], 0, [] : trace) = Some ([demo_sub 1; demo_sub 2], 1, t1))
    by (eexists; vm_compute; reflexivity).
  destruct Es as (t1 & Es).
  pose proof (run_sim log_send {| eu_psSocket := 0; eu_pi_send := 0 |} demo_sub_ops [] [] 0 aw ([] : trace)
    (init_inv log_send _ _ _ _ _ _ _ Hb3 Hok3 E) demo_sub_ops_ok) as H.
  rewrite Es in H.
  destruct (c2_run log_send {| eu_psSocket := 0; eu_pi_send := 0 |} demo_sub_ops (aw, [] : trace))
    as [[aw1 t1']|] eqn:Ec; inversion H as [? ? Hq E1 E2|]. clear E1 E2 H. destruct Hq as [-> _].
  destruct (boxes_reach_c2 log_send {| eu_psSocket := 0; eu_pi_send := 0 |} demo_buffer demo_buffer
    (replicate (Z.to_nat ALINK_UPLOAD_BUFFER_SIZE) 0) ∅ demo_world 0 aw aw1 demo_sub_ops ([] : trace) t1 t1
    [demo_sub 1; demo_sub 2] 1 demo_boxes [] [] [] 99 (replicate 3077 0) Hb3 Hok3 E
    demo_sub_ops_ok Ec Es) as [Hr _];
    [discriminate|repeat constructor; eexists; vm_compute; reflexivity|vm_compute; reflexivity
    |apply Forall_replicate; split; vm_compute; congruence|].
  destruct Hr as (stale & _ & _ & Hr); [vm_compute; discriminate|].
  cbn [send_each su_user demo_sub fmap list_fmap log_send mbind option_bind] in Hr.
  destruct Hr as (aw2 & Hr & _). exists aw, aw1, aw2, stale, t1. split; [exact E|].
  split; [exact Ec|]. rewrite <-(app_assoc t1) in Hr. exact Hr.
Defined.
