(* ===== verification/EthLinkServer.v ===== *)
(** * The server side of the network ([src/srv/eth_link/eth_link_server.c])

    The AGX looks for radars by broadcast; a radar that answers gets a TCP server of its own,
    on a port that no other server has, and is told to connect there.  The servers of the
    program are nodes of a list, allocated when a radar is found and freed by the server's
    thread when it ends. *)

From S2P Require Import Prelude Linked Layout CString Checksum AlinkFrame AlinkCheck NetconProtocol.
Local Open Scope c_scope.
Local Open Scope list_scope.
Local Open Scope Z_scope.

Definition SERVER_TCP_TIMEOUT : Z := 5.
Definition AGX_DEFAULT_PORT_HEAD : Z := 8070.
Definition AGX_MAX_DEFAULT_NUM : Z := 10.
Definition RTH_LINK_NET_TCP_CLIENT : Z := 1.
Definition RTH_LINK_NET_UDP : Z := 2.
(** "sn_init" without its terminator. *)
Definition NETPOTOCAL_INITILA_SN : list Z := [115; 110; 95; 105; 110; 105; 116].

(** ** Data *)

Record eth_link_tcp_server_list := {
  sv_wConnectTime : Z; sv_wlocalPort : Z; sv_ulocalIp : Z;   (* [sCfg] *)
  sv_radar_sn : list Z;                                      (* in [sserver], 32 bytes *)
  sv_psUserCbk : option nat;
  sv_psNext : option nat
}.

Definition sv_set_next (p : option nat) (n : eth_link_tcp_server_list)
  : eth_link_tcp_server_list :=
  {| sv_wConnectTime := sv_wConnectTime n; sv_wlocalPort := sv_wlocalPort n;
     sv_ulocalIp := sv_ulocalIp n; sv_radar_sn := sv_radar_sn n;
     sv_psUserCbk := sv_psUserCbk n; sv_psNext := p |}.
Definition sv_set_sn (sn : list Z) (n : eth_link_tcp_server_list) : eth_link_tcp_server_list :=
  {| sv_wConnectTime := sv_wConnectTime n; sv_wlocalPort := sv_wlocalPort n;
     sv_ulocalIp := sv_ulocalIp n; sv_radar_sn := sn;
     sv_psUserCbk := sv_psUserCbk n; sv_psNext := sv_psNext n |}.

#[export] Instance sv_linked : Linked eth_link_tcp_server_list :=
  {| ln_next := sv_psNext; ln_set_next := sv_set_next; ln_next_set _ _ := eq_refl |}.

(** The root object; the callback [ps_init] gives the user's callbacks for a server. *)
Record eth_link_list := {
  el_net : Z; el_max : Z; el_cur_con : Z; el_type : Z; el_server_basical_port : Z;
  el_server_ip : Z; el_mutex : bool; el_ps_init : nat -> option nat; el_list : option nat
}.

Definition el_set_list (p : option nat) (r : eth_link_list) : eth_link_list :=
  {| el_net := el_net r; el_max := el_max r; el_cur_con := el_cur_con r; el_type := el_type r;
     el_server_basical_port := el_server_basical_port r; el_server_ip := el_server_ip r;
     el_mutex := el_mutex r; el_ps_init := el_ps_init r; el_list := p |}.
Definition el_set_cur_con (c : Z) (r : eth_link_list) : eth_link_list :=
  {| el_net := el_net r; el_max := el_max r; el_cur_con := u16 c; el_type := el_type r;
     el_server_basical_port := el_server_basical_port r; el_server_ip := el_server_ip r;
     el_mutex := el_mutex r; el_ps_init := el_ps_init r; el_list := el_list r |}.
Definition el_set_mutex (b : bool) (r : eth_link_list) : eth_link_list :=
  {| el_net := el_net r; el_max := el_max r; el_cur_con := el_cur_con r; el_type := el_type r;
     el_server_basical_port := el_server_basical_port r; el_server_ip := el_server_ip r;
     el_mutex := b; el_ps_init := el_ps_init r; el_list := el_list r |}.

Definition el_lock (r : eth_link_list) : option eth_link_list :=
  if el_mutex r then None else Some (el_set_mutex true r).

Abbreviation servers := (gmap nat eth_link_tcp_server_list).
Implicit Types (h : servers).

(** ** The code: the list of servers *)

Definition eth_link_del_tcp_server_list (root : eth_link_list) h (psList : nat)
  : option (eth_link_list * servers) :=
  '(root, h) ← match el_list root with
    | None => Some (root, h)
    | Some psIndex =>
        if decide (psList = psIndex) then
          n ← h !! psIndex; Some (el_set_list (sv_psNext n) root, h)
        else
          h ← list_unlink_head_walk (size h) h psIndex (Some psIndex) psList; Some (root, h)
    end;
  Some (root, delete psList h).

(** The callback that a server's thread makes when it ends; [user] is the effect of
    [pv_cbk_delete] of the connection. *)
Definition eth_link_socket_cbk_delete {W} (user : nat -> W -> option W) (root : eth_link_list) h
    (psHandle : nat) (w : W) : option (eth_link_list * servers * W) :=
  n ← h !! psHandle;
  w ← match sv_psUserCbk n with Some c => user c w | None => Some w end;
  root ← el_lock root;
  '(root, h) ← eth_link_del_tcp_server_list root h psHandle;
  Some (el_set_mutex false root, h, w).

(** [addr] is what [malloc] returns: a null pointer is handed to [memset]. [create_ok] is
    whether the server's mutex and thread could be made. *)
Definition eth_link_create_tcp_server_list h (addr : option nat) (wConnectTime uIp wPort : Z)
    (ps_init : nat -> option nat) (create_ok : bool) : option (option nat * servers) :=
  a ← addr;
  if create_ok then
    Some (Some a, <[a := {| sv_wConnectTime := u16 wConnectTime; sv_wlocalPort := u16 wPort;
                            sv_ulocalIp := u32 uIp; sv_radar_sn := replicate 32 0;
                            sv_psUserCbk := ps_init a; sv_psNext := None |}]> h)
  else Some (None, h).

Fixpoint unused_port_loop (n : nat) h (psList : option nat) (port_sel : Z) : option Z :=
  match n with
  | O => Some port_sel
  | S n' =>
      server_p ← list_find_node (size h) h (λ s, sv_wlocalPort s =? port_sel) psList;
      match server_p with
      | None => Some port_sel
      | Some _ => unused_port_loop n' h psList (u16 (port_sel + 1))
      end
  end.

Definition get_unused_port h (psList : option nat) (basical_port : Z) : option Z :=
  unused_port_loop 100 h psList (u16 basical_port).

(** The do-loop: [None] inside when a server has the serial number, otherwise the last
    server and the count. *)
Fixpoint server_sn_walk (fuel : nat) h (psList : nat) (sn : list Z) (uCount : Z)
  : option (option (nat * Z)) :=
  match fuel with
  | O => None
  | S fuel' =>
      n ← h !! psList;
      same ← strncmp_eq 32 (sv_radar_sn n) sn;
      if same : bool then Some None else
      match sv_psNext n with
      | Some next => server_sn_walk fuel' h next sn (u32 (uCount + 1))
      | None => Some (Some (psList, uCount))
      end
  end.

Definition set_radar_sn h (a : nat) (sn : list Z) : option servers :=
  n ← h !! a;
  sn32 ← memcpy (sv_radar_sn n) 0 sn 0 RADAR_DEVICE_SN_LEN;
  Some (<[a := sv_set_sn sn32 n]> h).

Definition eth_link_add_tcp_server_list (psEthList : eth_link_list) h (sn : list Z)
    (wConnectTime : Z) (addr : option nat) (create_ok : bool)
  : option (Z * eth_link_list * servers) :=
  match el_list psEthList with
  | Some psList =>
      found ← server_sn_walk (size h) h psList sn 1;
      match found with
      | None => Some (-1, psEthList, h)
      | Some (psList, uCount) =>
          n ← h !! psList;
          init ← (if uCount =? 1 then
                    strncmp_eq (length NETPOTOCAL_INITILA_SN) (sv_radar_sn n) NETPOTOCAL_INITILA_SN
                  else Some false);
          if init : bool then
            h ← set_radar_sn h psList sn; Some (0, psEthList, h)
          else if uCount <? el_max psEthList then
            port ← get_unused_port h (el_list psEthList) (el_server_basical_port psEthList);
            let psEthList := el_set_cur_con port psEthList in
            '(new, h) ← eth_link_create_tcp_server_list h addr wConnectTime
                          (el_server_ip psEthList) (el_cur_con psEthList)
                          (el_ps_init psEthList) create_ok;
            n ← h !! psList;
            let h := <[psList := sv_set_next new n]> h in
            match new with
            | Some a => h ← set_radar_sn h a sn; Some (0, psEthList, h)
            | None => Some (-1, psEthList, h)
            end
          else Some (-1, psEthList, h)
      end
  | None =>
      '(new, h) ← eth_link_create_tcp_server_list h addr wConnectTime (el_server_ip psEthList)
                    (el_server_basical_port psEthList) (el_ps_init psEthList) create_ok;
      let psEthList := el_set_list new psEthList in
      match new with
      | Some a =>
          h ← set_radar_sn h a sn;
          Some (0, el_set_cur_con (el_server_basical_port psEthList) psEthList, h)
      | None => Some (-1, psEthList, h)
      end
  end.

(** [literal] is the string "sn_init" with whatever the program has in memory behind it. *)
Definition eth_server_register (psEthList : option eth_link_list) h (net ip : Z)
    (ps_init : nat -> option nat) (literal : list Z) (addr : option nat) (create_ok : bool)
  : option (Z * eth_link_list * servers) :=
  let root := match psEthList with
    | Some root => root
    | None => {| el_net := u8 net; el_max := AGX_MAX_DEFAULT_NUM; el_cur_con := 0; el_type := 1;
                 el_server_basical_port := AGX_DEFAULT_PORT_HEAD; el_server_ip := u32 ip;
                 el_mutex := false; el_ps_init := ps_init; el_list := None |}
    end in
  '(_, root, h) ← eth_link_add_tcp_server_list root h literal SERVER_TCP_TIMEOUT addr create_ok;
  Some (0, root, h).

(** The list of roots has the one object that [eth_server_register] made. *)
Definition eth_link_create_server (root : eth_link_list) h (sn : list Z) (addr : option nat)
    (create_ok : bool) : option (Z * eth_link_list * servers) :=
  if el_net root =? RTH_LINK_NET_TCP_CLIENT then
    root ← el_lock root;
    '(eRet, root, h) ← eth_link_add_tcp_server_list root h sn SERVER_TCP_TIMEOUT addr create_ok;
    Some (eRet, el_set_mutex false root, h)
  else Some (-1, root, h).

(** ** The code: the answers of the radars *)

Section handlers.
Context {W : Type} (send : list Z -> W -> option W) (htonl : Z -> Z).

(** [m] holds the datagram and [psdev] is the offset of the body. *)
Definition eth_protocol_search_handler (root : eth_link_list) h (m : list Z) (psdev uIp : Z)
    (addr : option nat) (create_ok : bool) (w : W) : option (eth_link_list * servers * W) :=
  let sn := drop (Z.to_nat (psdev + offsetof eth_protocol_devinfo_body "sn")) m in
  if htonl uIp =? el_server_ip root then Some (root, h, w) else
  '(ret, root, h) ← eth_link_create_server root h sn addr create_ok;
  if negb (ret =? 0) then Some (root, h, w) else
  let ep_ctlinfo := replicate (Z.to_nat (sizeof eth_protocol_cntinfo)) 0 in
  ep ← st_le 4 ep_ctlinfo (offsetof eth_protocol_cntinfo "ip") (el_server_ip root);
  ep ← st_le 2 ep (offsetof eth_protocol_cntinfo "port") (el_cur_con root);
  n ← strlen sn;
  ep ← memcpy ep (offsetof eth_protocol_cntinfo "sn") sn 0 n;
  ep ← st_le 2 ep (offsetof eth_protocol_cntinfo "type") 1;
  let ep_req_package := replicate (Z.to_nat (sizeof eth_protocol_request)) 0 in
  '(ret, pkg) ← eth_protocol_get_request_package ep_req_package ep;
  bs ← ld_bytes pkg 0 ret;
  w ← send bs w;
  Some (root, h, w).

Definition eth_protocol_handler (root : eth_link_list) h (m : list Z) (len uIp : Z)
    (addr : option nat) (create_ok : bool) (w : W) : option (eth_link_list * servers * W) :=
  pbyData ← eth_protocol_analysis m 0 len;
  match pbyData with
  | Some psdev =>
      msgid ← ld8 m (offsetof eth_protocol_head "msgid");
      if msgid =? NETPROTOCAL_MSG_ID_LOOKUP_RESP then
        eth_protocol_search_handler root h m psdev uIp addr create_ok w
      else Some (root, h, w)
  | None => Some (root, h, w)
  end.
End handlers.

(** ** What the list of servers stands for *)

(** A server by its serial number (32 bytes) and its port. *)
Abbreviation server := (list Z * Z)%type.

Definition srv_at h (a : nat) (s : server) : Prop :=
  exists n, h !! a = Some n /\ sv_radar_sn n = s.1 /\ sv_wlocalPort n = s.2 /\ length s.1 = 32%nat.

Definition srv_ok (root : eth_link_list) h (l : list nat) (v : list server) : Prop :=
  is_list h (el_list root) l /\ Forall2 (srv_at h) l v.

(** The smallest port from [sel] on that is not in use, looked for [n] times. *)
Fixpoint first_free (n : nat) (ports : list Z) (sel : Z) : Z :=
  match n with
  | O => sel
  | S n' => if decide (sel ∈ ports) then first_free n' ports (u16 (sel + 1)) else sel
  end.

(** The servers after a radar with the serial number [sn] has answered. *)
Definition radar_add (max base : Z) (v : list server) (sn : list Z) (create_ok : bool)
  : Z * list server :=
  if decide (Exists (λ s, cstr s.1 = cstr sn) v) then (-1, v) else
  match v with
  | [] => if create_ok then (0, [(sn, base)]) else (-1, [])
  | s :: v' =>
      if decide (v' = [] /\ cstr (take 7 s.1) = NETPOTOCAL_INITILA_SN) then (0, [(sn, s.2)])
      else if Zlen v <? max then
        if create_ok then (0, v ++ [(sn, first_free 100 v.*2 base)]) else (-1, v)
      else (-1, v)
  end.

(** *** Ports *)

Lemma find_port h p l v port :
  is_list h p l -> Forall2 (srv_at h) l v ->
  exists found, list_find_node (size h) h (λ s, sv_wlocalPort s =? port) p = Some found
    /\ (found = None <-> port ∉ v.*2).
Proof.
  intros Hl Hv. eexists. split; [apply (find_node_spec _ _ _ _ l Hl); by eapply is_list_size|].
  clear Hl. induction Hv as [|a [sn q] l v (n & Hn & _ & Hp & _) _ IH]; [split; [set_solver|done]|].
  cbn [fmap list_fmap snd] in *. destruct (decide (q = port)) as [->|Hne].
  - rewrite filter_cons_True by (rewrite Hn; cbn; lia). split; [done|]. intros []. by left.
  - rewrite filter_cons_False by (rewrite Hn; cbn; lia). rewrite IH, not_elem_of_cons.
    split; [|tauto]. intros. split; [congruence|done].
Qed.

Lemma unused_port_loop_spec n h p l v sel :
  is_list h p l -> Forall2 (srv_at h) l v ->
  unused_port_loop n h p sel = Some (first_free n v.*2 sel).
Proof.
  intros Hl Hv. revert sel. induction n as [|n IH]; intros sel; [done|].
  cbn [unused_port_loop first_free]. destruct (find_port h p l v sel Hl Hv) as (found & -> & Hf).
  cbn [mbind option_bind]. destruct found as [a|].
  - rewrite decide_True; [apply IH|]. destruct (decide (sel ∈ v.*2)); [done|].
    by apply Hf in n0.
  - rewrite decide_False by by apply Hf. done.
Qed.

Lemma first_free_spec n ports sel :
  0 <= sel -> sel + Z.of_nat n < 65536 -> (length ports < n)%nat ->
  let p := first_free n ports sel in
  p ∉ ports /\ sel <= p < sel + Z.of_nat n /\ (forall q, sel <= q < p -> q ∈ ports).
Proof.
  intros H0 Hs Hn.
  assert (forall m s, s + Z.of_nat m = sel + Z.of_nat n -> sel <= s ->
    (forall q, sel <= q < s -> q ∈ ports) ->
    let p := first_free m ports s in
    (p ∉ ports /\ s <= p < s + Z.of_nat m /\ (forall q, sel <= q < p -> q ∈ ports))
    \/ (forall q, sel <= q < sel + Z.of_nat n -> q ∈ ports)) as Hgen.
  { induction m as [|m IH]; intros s E Hs' Hq; cbn [first_free]; [right; intros; apply Hq; lia|].
    destruct (decide (s ∈ ports)) as [Hi|Hi]; [|left; split; [done|]; split; [lia|done]].
    rewrite u16_id by lia.
    destruct (IH (s + 1)) as [(? & ? & ?)|?]; [lia|lia| |left; split; [done|]; split; [lia|done]|by right].
    intros q Hq'. destruct (decide (q = s)) as [->|]; [done|]. apply Hq. lia. }
  destruct (Hgen n sel eq_refl) as [?|Hall]; [lia|lia|done|].
  exfalso. assert (length (seqZ sel (Z.of_nat n)) <= length ports)%nat as Hlen.
  { apply submseteq_length, NoDup_submseteq; [apply NoDup_seqZ|]. intros q Hq%elem_of_seqZ. auto. }
  rewrite length_seqZ in Hlen. lia.
Qed.

(** *** Serial numbers *)

Lemma server_sn_walk_spec fuel h a l v sn c :
  is_list h (Some a) l -> Forall2 (srv_at h) l v -> (length l <= fuel)%nat ->
  (32 <= length sn)%nat -> 0 <= c -> c + Zlen l < 2 ^ 32 ->
  server_sn_walk fuel h a sn c
  = Some (if decide (Exists (λ s, cstr s.1 = cstr (take 32 sn)) v) then None
          else (z ← last l; Some (z, c + Zlen l - 1))).
Proof.
  intros Hl Hv. revert fuel a c Hl.
  induction Hv as [|b [s q] l v (n & Hn & Hs & _ & H32) Hv IH];
    intros fuel a c Hl Hf Hsn Hc Hmax; [discriminate Hl|].
  destruct Hl as ([= <-] & n' & Hn' & Hl). rewrite Hn in Hn'. injection Hn' as <-.
  destruct fuel as [|fuel]; [cbn in Hf; lia|]. cbn [server_sn_walk]. rewrite Hn.
  cbn [mbind option_bind fst] in *. rewrite strncmp_eq_spec by (rewrite ?Hs; lia).
  cbn [mbind option_bind]. rewrite Hs, take_ge by lia.
  destruct (decide (cstr s = cstr (take 32 sn))) as [E|E].
  { rewrite bool_decide_eq_true_2, decide_True by (done || by left). done. }
  rewrite bool_decide_eq_false_2 by done.
  assert (Zlen (a :: l) = Zlen l + 1) as Hz by (unfold Zlen; cbn; lia). rewrite Hz in *.
  pose proof (Zlen_nonneg l).
  destruct (sv_psNext n) as [b|] eqn:En; cbn [ln_next sv_linked] in Hl; rewrite En in Hl.
  - rewrite u32_id by lia. rewrite (IH fuel b (c + 1)); [|done|cbn in Hf; lia|done|lia|lia].
    destruct l as [|x l]; [discriminate Hl|].
    f_equal. destruct (decide (Exists _ v)) as [Hx|Hx].
    + rewrite decide_True by by right. done.
    + rewrite decide_False by (intros [?|?]%Exists_cons; done).
      change (last (a :: x :: l)) with (last (x :: l)). destruct (last (x :: l)); [|done].
      cbn [mbind option_bind]. do 2 f_equal. lia.
  - destruct l as [|x l]; [|by destruct Hl]. rewrite decide_False.
    + cbn. do 3 f_equal. unfold Zlen. cbn. lia.
    + apply Forall2_nil_inv_l in Hv as ->. by intros [?|?%Exists_nil]%Exists_cons.
Qed.

(** *** Changing a node *)

Lemma srv_at_insert_ne h l v a n :
  a ∉ l -> Forall2 (srv_at h) l v -> Forall2 (srv_at (<[a := n]> h)) l v.
Proof.
  intros Ha Hv. induction Hv as [|b s l v (m & Hm & ?) Hv IH]; [done|].
  apply not_elem_of_cons in Ha as [Hb Ha]. constructor; [|by apply IH].
  exists m. by rewrite lookup_insert_ne.
Qed.

(** A new link does not change a server. *)
Lemma srv_at_set_next h l v z n p :
  h !! z = Some n -> Forall2 (srv_at h) l v ->
  Forall2 (srv_at (<[z := sv_set_next p n]> h)) l v.
Proof.
  intros Hz Hv. eapply Forall2_impl; [exact Hv|]. intros b s (m & Hm & Hs & Hp & Hl).
  destruct (decide (b = z)) as [->|Hne].
  - rewrite Hz in Hm. injection Hm as <-. exists (sv_set_next p n). by rewrite lookup_insert_eq.
  - exists m. by rewrite lookup_insert_ne.
Qed.

Lemma set_radar_sn_spec h a n sn :
  h !! a = Some n -> length (sv_radar_sn n) = 32%nat -> (32 <= length sn)%nat ->
  set_radar_sn h a sn = Some (<[a := sv_set_sn (take 32 sn) n]> h).
Proof.
  intros Ha Hl Hs. unfold set_radar_sn. rewrite Ha. cbn [mbind option_bind].
  unfold RADAR_DEVICE_SN_LEN.
  pose proof (memcpy_app [] (sv_radar_sn n) [] [] (take 32 sn) (drop 32 sn) 0 0 32 eq_refl eq_refl)
    as E. cbn [app] in E. rewrite take_drop, !app_nil_r in E. rewrite E; [done|..];
    unfold Zlen; rewrite ?length_take; lia.
Qed.

Lemma first_free_range n ports sel : 0 <= sel < 65536 -> 0 <= first_free n ports sel < 65536.
Proof.
  revert sel. induction n as [|n IH]; intros sel H; [done|]. cbn [first_free].
  case_decide; [|done]. apply IH. wrap_lia.
Qed.

(** *** The three ways to take a radar in *)

Definition root_config (r : eth_link_list) : Z * Z * Z * Z * bool :=
  (el_net r, el_max r, el_server_basical_port r, el_server_ip r, el_mutex r).

Section add.
Context (root : eth_link_list) (h : servers) (sn : list Z) (a : nat) (time : Z).
Hypothesis (Hsn : (32 <= length sn)%nat) (Ha : h !! a = None).
Hypothesis (Hbase : 0 <= el_server_basical_port root < 65536).

Lemma fresh_not_listed l v : Forall2 (srv_at h) l v -> a ∉ l.
Proof.
  intros Hv Hi. induction Hv as [|b s l v (n & Hn & _) _ IH]; [by apply not_elem_of_nil in Hi|].
  apply elem_of_cons in Hi as [<-|?]; [congruence|auto].
Qed.

(** The node that is made for a radar. *)
Lemma create_server_spec h0 ip port init :
  0 <= port < 65536 ->
  exists n, eth_link_create_tcp_server_list h0 (Some a) time ip port init true
      = Some (Some a, <[a := n]> h0)
    /\ sv_wlocalPort n = port /\ length (sv_radar_sn n) = 32%nat /\ sv_psNext n = None.
Proof.
  intros Hp. eexists. split; [done|]. cbn. by rewrite u16_id.
Qed.

Lemma server_add_first :
  el_list root = None ->
  exists root' h', eth_link_add_tcp_server_list root h sn time (Some a) true = Some (0, root', h')
    /\ srv_ok root' h' [a] [(take 32 sn, el_server_basical_port root)]
    /\ root_config root' = root_config root
    /\ el_cur_con root' = el_server_basical_port root.
Proof.
  intros Hl. unfold eth_link_add_tcp_server_list. rewrite Hl.
  destruct (create_server_spec h (el_server_ip root) (el_server_basical_port root)
    (el_ps_init root) Hbase) as (n & -> & Hp & Hs & Hn). cbn [mbind option_bind].
  rewrite (set_radar_sn_spec _ a n sn) by (done || apply lookup_insert_eq).
  cbn [mbind option_bind]. do 2 eexists. split; [done|]. rewrite insert_insert_eq.
  split; [|split; [done|cbn; by apply u16_id]]. split.
  - split; [done|]. eexists. rewrite lookup_insert_eq. by split.
  - constructor; [|done]. eexists. rewrite lookup_insert_eq. split; [done|].
    split; [done|]. split; [done|]. cbn [fst]. rewrite length_take. lia.
Qed.

Lemma add_claim z s :
  srv_ok root h [z] [s] -> cstr s.1 <> cstr (take 32 sn) ->
  cstr (take 7 s.1) = NETPOTOCAL_INITILA_SN ->
  exists h', (forall n, h !! z = Some n -> set_radar_sn h z sn = Some h')
    /\ srv_ok root h' [z] [(take 32 sn, s.2)].
Proof.
  intros [Hl Hv] Hne Hi. inversion_clear Hv as [|? ? ? ? (n & Hn & Hs & Hp & H32) _].
  eexists. split.
  - intros n' Hn'. rewrite Hn in Hn'. injection Hn' as <-.
    apply (set_radar_sn_spec h z n sn Hn); [by rewrite Hs|done].
  - split.
    + unfold is_list in *. apply (lseg_ext h); [|done]. intros b ->%list_elem_of_singleton.
      rewrite lookup_insert_eq, Hn. done.
    + constructor; [|done]. eexists. rewrite lookup_insert_eq. split; [done|].
      split; [done|]. split; [done|]. cbn [fst]. rewrite length_take. lia.
Qed.

(** Behind the last server [z]; the list is not empty. *)
Lemma add_last l z v :
  srv_ok root h (l ++ [z]) v ->
  exists n, h !! z = Some n /\ sv_psNext n = None
    /\ sv_set_next None n = n /\ forall port init, 0 <= port < 65536 -> exists h0 h1,
      eth_link_create_tcp_server_list h (Some a) time (el_server_ip root) port init true
        = Some (Some a, h0)
      /\ h0 !! z = Some n
      /\ set_radar_sn (<[z := sv_set_next (Some a) n]> h0) a sn = Some h1
      /\ is_list h1 (el_list root) ((l ++ [z]) ++ [a])
      /\ Forall2 (srv_at h1) ((l ++ [z]) ++ [a]) (v ++ [(take 32 sn, port)]).
Proof.
  intros [Hl Hv]. pose proof (fresh_not_listed _ _ Hv) as Hal.
  assert (exists n, h !! z = Some n /\ sv_psNext n = None) as (n & Hn & Hnext).
  { pose proof Hl as Hl'. unfold is_list in Hl'. apply lseg_app in Hl' as (r & _ & -> & n & Hn & E).
    exists n. by split. }
  exists n. split; [done|]. split; [done|]. split; [by destruct n; cbn in *; subst|].
  intros port init Hp. assert (z <> a) as Hne by congruence.
  destruct (create_server_spec h (el_server_ip root) port init Hp) as (m & -> & Hmp & Hms & Hmn).
  do 2 eexists. split; [done|]. split; [by rewrite lookup_insert_ne|].
  rewrite (set_radar_sn_spec _ a m sn); [|by rewrite lookup_insert_ne, lookup_insert_eq|done|done].
  split; [done|]. rewrite (insert_insert_ne _ z a) by done. rewrite insert_insert_eq.
  rewrite (insert_insert_ne _ a z) at 1 by done.
  split.
  - rewrite (insert_insert_ne _ z a) by done.
    exact (is_list_snoc h (el_list root) l z n a (sv_set_sn (take 32 sn) m) Hl Hn Ha Hmn).
  - apply Forall2_app.
    + apply srv_at_insert_ne; [done|]. by apply srv_at_set_next.
    + constructor; [|done]. eexists. rewrite lookup_insert_eq. split; [done|].
      split; [done|]. split; [done|]. cbn [fst]. rewrite length_take. lia.
Qed.
End add.

Lemma radar_add_last max base v z sn ok :
  (forall s, s ∈ v ++ [z] -> cstr s.1 <> cstr sn) ->
  ~ (v = [] /\ cstr (take 7 z.1) = NETPOTOCAL_INITILA_SN) ->
  radar_add max base (v ++ [z]) sn ok
  = if Zlen (v ++ [z]) <? max then
      if ok then (0, (v ++ [z]) ++ [(sn, first_free 100 (v ++ [z]).*2 base)]) else (-1, v ++ [z])
    else (-1, v ++ [z]).
Proof.
  intros Hd Hn. unfold radar_add. rewrite decide_False.
  2:{ intros (s & Hs & E)%Exists_exists. by apply (Hd s). }
  destruct v as [|y v]; cbn [app].
  - rewrite decide_False; [done|]. intros [_ E]. by apply Hn.
  - rewrite decide_False; [done|]. intros [E _]. by destruct v.
Qed.

(** [add_servers]: taking a radar in does to the list of servers what [radar_add] says. *)
Lemma add_servers root h l v sn a time ok :
  srv_ok root h l v -> (32 <= length sn)%nat -> h !! a = None ->
  0 <= el_server_basical_port root < 65536 -> Zlen v < 2 ^ 31 ->
  let r := radar_add (el_max root) (el_server_basical_port root) v (take 32 sn) ok in
  exists root' h' l',
    eth_link_add_tcp_server_list root h sn time (Some a) ok = Some (r.1, root', h')
    /\ srv_ok root' h' l' r.2 /\ root_config root' = root_config root
    /\ (Zlen v < Zlen r.2 -> exists s, last r.2 = Some s /\ el_cur_con root' = s.2).
Proof.
  intros Hok Hsn Ha Hb Hv r. pose proof Hok as [Hl Hf].
  destruct (el_list root) as [p|] eqn:Ep.
  2:{ assert (l = []) as -> by (destruct l; [done|by destruct Hl]).
      apply Forall2_nil_inv_l in Hf as ->. destruct ok.
      - destruct (server_add_first root h sn a time Hsn Hb Ep) as (root' & h' & E & H1 & H2 & H3).
        exists root', h', [a]. split; [exact E|]. split; [exact H1|]. split; [exact H2|].
        intros _. by eexists.
      - exists (el_set_list None root), h, []. unfold eth_link_add_tcp_server_list. rewrite Ep.
        split; [done|]. split; [done|]. split; [done|]. intros Hlt.
        change (Zlen (@nil server) < Zlen (@nil server)) in Hlt. lia. }
  assert (Zlen l = Zlen v) as Hz by (unfold Zlen; by rewrite (Forall2_length _ _ _ Hf)).
  pose proof (is_list_size _ _ _ Hl) as Hsz. unfold eth_link_add_tcp_server_list. rewrite Ep.
  rewrite (server_sn_walk_spec _ h p l v sn 1) by (done || lia). subst r.
  destruct (decide (Exists _ v)) as [Hx|Hx].
  { cbn [mbind option_bind]. exists root, h, l. unfold radar_add. rewrite decide_True by done.
    split; [done|]. split; [done|]. split; [done|]. intros Hlt. cbn [snd] in Hlt.
      first [lia|unfold Zlen in *; cbn in *; lia]. }
  assert (forall s, s ∈ v -> cstr s.1 <> cstr (take 32 sn)) as Hd
    by (intros s Hs E; apply Hx, Exists_exists; eauto).
  destruct l as [|z l _] using rev_ind; [discriminate Hl|].
  destruct v as [|s v _] using rev_ind; [apply Forall2_nil_inv_r in Hf; by destruct l|].
  rewrite last_snoc. cbn [mbind option_bind]. rewrite <-Hz in Hv |- *.
  destruct (add_last root h sn a time Hsn Ha l z (v ++ [s]) Hok)
    as (n & Hn & Hnext & Hset & Hnew). rewrite Hn. cbn [mbind option_bind].
  assert (sv_radar_sn n = s.1 /\ length s.1 = 32%nat) as [Hns H32].
  { apply Forall2_app_inv in Hf as [_ Hf]; [|by rewrite !Zlen_snoc in Hz; unfold Zlen in Hz; lia].
    inversion_clear Hf as [|? ? ? ? (n' & Hn' & ? & ? & ?) _]. split; congruence. }
  destruct (decide (v = [] /\ cstr (take 7 s.1) = NETPOTOCAL_INITILA_SN)) as [[-> Hi]|Hi].
  - assert (l = []) as -> by (destruct l; [done|rewrite !Zlen_snoc in Hz; unfold Zlen in Hz; cbn in Hz; lia]).
    destruct (add_claim root h sn Hsn z s Hok (Hd s ltac:(by left)) Hi) as (h' & E & H1).
    change (1 + Zlen ([] ++ [z]) - 1 =? 1) with true. rewrite strncmp_eq_spec by (rewrite ?Hns, ?H32; cbn; lia).
    rewrite Hns, bool_decide_eq_true_2 by exact Hi. cbn [mbind option_bind].
    rewrite (E n Hn). cbn [mbind option_bind]. exists root, h', [z]. unfold radar_add.
    cbn [app]. rewrite decide_False by done. rewrite decide_True by done.
    split; [done|]. split; [exact H1|]. split; [done|]. intros Hlt. cbn [snd] in Hlt.
      first [lia|unfold Zlen in *; cbn in *; lia].
  - rewrite (radar_add_last _ _ _ _ _ _ Hd Hi).
    assert ((if 1 + Zlen (l ++ [z]) - 1 =? 1 then
      strncmp_eq (length NETPOTOCAL_INITILA_SN) (sv_radar_sn n) NETPOTOCAL_INITILA_SN
      else Some false) = Some false) as ->.
    { destruct (Z.eqb_spec (1 + Zlen (l ++ [z]) - 1) 1) as [E|]; [|done].
      rewrite strncmp_eq_spec by (rewrite ?Hns, ?H32; cbn; lia). rewrite Hns.
      rewrite bool_decide_eq_false_2; [done|]. intros Hi'. apply Hi. split; [|exact Hi'].
      destruct v; [done|]. rewrite !Zlen_snoc in Hz. unfold Zlen in *. rewrite !length_app in *.
      cbn in *. lia. }
    cbn [mbind option_bind]. rewrite <-Hz. replace (1 + Zlen (l ++ [z]) - 1) with (Zlen (l ++ [z])) by lia.
    destruct (Zlen (l ++ [z]) <? el_max root); cycle 1.
    { exists root, h, (l ++ [z]). split; [done|]. split; [done|]. split; [done|]. intros Hlt. cbn [snd] in Hlt.
      first [lia|unfold Zlen in *; cbn in *; lia]. }
    unfold get_unused_port. rewrite u16_id by lia. rewrite <-Ep in Hl |- *.
    rewrite (unused_port_loop_spec 100 h _ _ (v ++ [s]) _ Hl Hf). cbn [mbind option_bind].
    pose proof (first_free_range 100 (v ++ [s]).*2 (el_server_basical_port root) Hb) as Hp.
    set (port := first_free _ _ _) in *. cbn [el_set_cur_con el_server_ip el_cur_con el_ps_init].
    rewrite (u16_id port) by lia. destruct ok.
    + destruct (Hnew port (el_ps_init root) Hp) as (h0 & h1 & -> & Hn0 & Hset1 & Hl1 & Hf1).
      cbn [mbind option_bind]. rewrite Hn0. cbn [mbind option_bind]. rewrite Hset1.
      cbn [mbind option_bind]. do 3 eexists. split; [done|]. split; [by split|]. split; [done|].
      intros _. cbn [snd]. rewrite last_snoc. cbn [el_set_cur_con el_cur_con]. eexists. split; [done|].
      cbn [snd]. apply u16_id. exact Hp.
    + cbn. rewrite Hn. cbn. rewrite Hset, insert_id by done.
      do 3 eexists. split; [done|]. split; [by split|]. split; [done|]. intros Hlt. cbn [snd] in Hlt.
      first [lia|unfold Zlen in *; cbn in *; lia].
Qed.

(** *** The end of a server *)

Lemma srv_ok_delete root h l v a :
  a ∉ l -> srv_ok root h l v -> srv_ok root (delete a h) l v.
Proof.
  intros Ha [Hl Hv]. split.
  - unfold is_list in *. apply (lseg_ext h); [|done]. intros b Hb.
    rewrite lookup_delete_ne; [done|]. by intros ->.
  - clear Hl. induction Hv as [|b s l v (m & Hm & ?) Hv IH]; [done|].
    apply not_elem_of_cons in Ha as [Hb Ha]. constructor; [|by apply IH].
    exists m. by rewrite lookup_delete_ne.
Qed.

(** A server behind the head [p]: the head is linked to what follows the server. *)
Lemma server_del_inner root h p n l1 node m l2 v :
  el_list root = Some p -> srv_ok root h (p :: l1 ++ node :: l2) v ->
  h !! p = Some n -> h !! node = Some m -> NoDup (p :: l1 ++ node :: l2) ->
  forall sx v1 s v2, v = sx :: v1 ++ s :: v2 -> length v1 = length l1 ->
  srv_ok root (delete node (<[p := sv_set_next (sv_psNext m) n]> h)) (p :: l2) (sx :: v2).
Proof.
  intros Ep [Hl Hv] Hn Hm [Hp Hnd]%NoDup_cons sx v1 s v2 -> Hlen.
  assert (p ∉ l2 /\ node <> p) as [Hpl2 Hne] by set_solver.
  apply srv_ok_delete.
  { apply NoDup_app in Hnd as (_ & _ & [? _]%NoDup_cons). set_solver. }
  inversion_clear Hv as [|? ? ? ? (n' & Hn' & Hs) Hv'].
  rewrite Hn in Hn'. injection Hn' as <-.
  apply Forall2_app_inv in Hv' as [_ Hv2]; [|done]. inversion_clear Hv2 as [|? ? ? ? _ Hv3].
  split.
  - unfold is_list in *. rewrite Ep. cbn [lseg]. split; [done|]. eexists.
    rewrite lookup_insert_eq. split; [done|]. apply lseg_insert_ne; [done|]. cbn.
    destruct Hl as (_ & n' & Hn' & Hrest).
    apply lseg_app in Hrest as (r & _ & -> & m' & Hm' & Hr2). rewrite Hm in Hm'.
    by injection Hm' as <-.
  - constructor; [eexists; rewrite lookup_insert_eq; by split|by apply srv_at_insert_ne].
Qed.

(** The removal on each position: a node that is not listed, the head, and a later node,
    behind which the list goes on after the head. *)
Lemma del_servers root h l v node :
  srv_ok root h l v ->
  exists root' h', eth_link_del_tcp_server_list root h node = Some (root', h')
    /\ root_config root' = root_config root /\ el_cur_con root' = el_cur_con root
    /\ (forall a, a <> node -> is_Some (h' !! a) <-> is_Some (h !! a))
    /\ (node ∉ l -> srv_ok root' h' l v)
    /\ (forall l2 s v2, l = node :: l2 -> v = s :: v2 -> srv_ok root' h' l2 v2)
    /\ (forall x l1 l2 sx v1 s v2, l = x :: l1 ++ node :: l2 -> v = sx :: v1 ++ s :: v2 ->
        length v1 = length l1 -> srv_ok root' h' (x :: l2) (sx :: v2)).
Proof.
  intros Hok. pose proof Hok as [Hl Hv]. pose proof (is_list_NoDup _ _ _ Hl) as Hnd.
  pose proof (is_list_size _ _ _ Hl) as Hsz. unfold eth_link_del_tcp_server_list.
  assert (forall a (g : servers), a <> node -> is_Some (delete node g !! a) <-> is_Some (g !! a))
    as Hdel by (intros a g Hne; by rewrite lookup_delete_ne).
  destruct (el_list root) as [p|] eqn:Ep.
  2:{ assert (l = []) as -> by (destruct l; [done|by destruct Hl]).
      exists root, (delete node h). split; [done|]. do 2 (split; [done|]).
      split; [intros; by apply Hdel|]. split; [intros _; apply srv_ok_delete; [set_solver|done]|].
      split; [done|]. by intros ? []. }
  destruct l as [|a l]; [discriminate Hl|]. pose proof Hl as ([= <-] & n & Hn & Hrest).
  destruct (decide (node = p)) as [->|Hne].
  - rewrite Hn. cbn [mbind option_bind]. do 2 eexists. split; [done|]. do 2 (split; [done|]).
    split; [intros; by apply Hdel|]. split; [intros []; by left|]. split.
    + intros l2 s v2 [= <-] ->. apply NoDup_cons in Hnd as [Hp _].
      inversion_clear Hv as [|? ? ? ? _ Hv2]. by apply srv_ok_delete.
    + intros x l1 l2 ???? [= <- ->]. apply NoDup_cons in Hnd as [Hp _].
      destruct Hp. set_solver.
  - destruct (decide (node ∈ l)) as [Hi|Hi].
    + apply list_elem_of_split in Hi as (l1 & l2 & ->). pose proof Hnd as [Hp Hnd2]%NoDup_cons.
      assert (node ∉ l1) as H1
        by (apply NoDup_app in Hnd2 as (_ & Hd & _); intros H; apply (Hd _ H); by left).
      destruct (lseg_dom _ _ _ _ node Hl ltac:(set_solver)) as [m Hm].
      rewrite (unlink_head_found (size h) h p n (Some p) (p :: l1) node m l2)
        by (done || set_solver).
      cbn [mbind option_bind]. do 2 eexists. split; [done|]. do 2 (split; [done|]).
      split.
      { intros b Hb. rewrite Hdel by done. destruct (decide (b = p)) as [->|].
        - rewrite lookup_insert_eq, Hn. split; eauto.
        - by rewrite lookup_insert_ne. }
      split; [set_solver|]. split; [intros ??? [= -> ?]; done|].
      intros x k1 k2 sx v1 s v2 [= <- E] Ev Hlen.
      apply NoDup_middle_unique in E as [<- <-]; [|done].
      exact (server_del_inner root h p n l1 node m l2 v Ep Hok Hn Hm Hnd sx v1 s v2 Ev Hlen).
    + rewrite (unlink_head_absent (size h) h p (Some p) (p :: l) node) by (done || set_solver).
      cbn [mbind option_bind]. do 2 eexists. split; [done|]. do 2 (split; [done|]).
      split; [intros; by apply Hdel|]. split; [intros _; apply srv_ok_delete; [set_solver|done]|].
      split; [intros ??? [= -> ?]; done|]. intros x l1 l2 ???? [= <- ->]. set_solver.
Qed.

(** ** The invariant of the servers *)

(** At most [max] servers, with pairwise different ports from the hundred that start at
    [base], for pairwise different radars. *)
Definition servers_inv (max base : Z) (v : list server) : Prop :=
  Zlen v <= max /\ NoDup v.*2 /\ NoDup (cstr ∘ fst <$> v)
  /\ Forall (λ s, base <= s.2 < base + 100) v.

Lemma servers_inv_sublist max base v v' :
  sublist v' v -> servers_inv max base v -> servers_inv max base v'.
Proof.
  intros Hs (Hl & Hp & Hn & Hb). unfold servers_inv. pose proof (sublist_length _ _ Hs).
  split; [unfold Zlen in *; lia|]. split; [|split].
  - apply (sublist_NoDup _ v.*2); [done|by apply fmap_sublist].
  - apply (sublist_NoDup _ (cstr ∘ fst <$> v)); [done|by apply fmap_sublist].
  - apply Forall_forall. intros s Hi. rewrite Forall_forall in Hb. apply Hb.
    by apply (elem_of_sublist v' v).
Qed.

Lemma radar_add_inv max base v sn ok :
  1 <= max < 100 -> 0 <= base < 65436 -> servers_inv max base v ->
  servers_inv max base (radar_add max base v sn ok).2.
Proof.
  intros Hm Hb Hinv. pose proof Hinv as (Hl & Hp & Hn & Hr). unfold radar_add.
  destruct (decide (Exists _ v)) as [?|Hx]; [done|].
  assert (cstr sn ∉ cstr ∘ fst <$> v) as Hsn.
  { intros (s & E & Hs)%list_elem_of_fmap. apply Hx, Exists_exists. exists s. by split. }
  destruct v as [|s v].
  { destruct ok; [|done]. repeat split; try apply NoDup_singleton;
      [unfold Zlen; cbn; lia|apply Forall_singleton; cbn; lia]. }
  destruct (decide _) as [[-> _]|_].
  { repeat split; try apply NoDup_singleton; [unfold Zlen in *; cbn in *; lia|].
    apply Forall_singleton. apply Forall_inv in Hr. exact Hr. }
  destruct (Z.ltb_spec (Zlen (s :: v)) max) as [Hlt|]; [|done]. destruct ok; [|done].
  destruct (first_free_spec 100 (s :: v).*2 base) as (Hfree & Hrange & _); [lia|lia| |].
  { rewrite length_fmap. unfold Zlen in Hlt. lia. }
  cbn [snd]. set (port := first_free _ _ _) in *. set (v' := s :: v) in *.
  split; [rewrite Zlen_snoc; lia|]. rewrite !fmap_app. split; [|split].
  - apply NoDup_app. split; [done|]. split; [|apply NoDup_singleton].
    intros q Hq ->%list_elem_of_singleton. done.
  - apply NoDup_app. split; [done|]. split; [|apply NoDup_singleton].
    intros q Hq ->%list_elem_of_singleton. done.
  - apply Forall_app. split; [done|]. apply Forall_singleton. cbn in *. lia.
Qed.

(** The states of the server side, and what changes them: the answer of a radar, in the
    thread of the discovery socket, and the end of a server, in its own thread. *)
Inductive server_step : eth_link_list * servers -> eth_link_list * servers -> Prop :=
  | step_answer root h sn a create_ok ret root' h' :
      (32 <= length sn)%nat -> h !! a = None ->
      eth_link_create_server root h sn (Some a) create_ok = Some (ret, root', h') ->
      server_step (root, h) (root', h')
  | step_end root h node root' h' :
      is_Some (h !! node) ->
      eth_link_socket_cbk_delete (λ _ w, Some w) root h node tt = Some (root', h', tt) ->
      server_step (root, h) (root', h').

(** Where the program starts: [eth_server_register] with no root object. *)
Definition server_start (st : eth_link_list * servers) : Prop :=
  exists ip ps_init literal a create_ok, (32 <= length literal)%nat
    /\ eth_server_register None ∅ RTH_LINK_NET_TCP_CLIENT ip ps_init literal (Some a) create_ok
       = Some (0, st.1, st.2).

Definition state_ok (st : eth_link_list * servers) : Prop :=
  el_net st.1 = RTH_LINK_NET_TCP_CLIENT /\ el_max st.1 = AGX_MAX_DEFAULT_NUM
  /\ el_server_basical_port st.1 = AGX_DEFAULT_PORT_HEAD /\ el_mutex st.1 = false
  /\ exists l v, srv_ok st.1 st.2 l v
       /\ servers_inv AGX_MAX_DEFAULT_NUM AGX_DEFAULT_PORT_HEAD v.

Lemma servers_inv_short v : servers_inv AGX_MAX_DEFAULT_NUM AGX_DEFAULT_PORT_HEAD v -> Zlen v < 2 ^ 31.
Proof. intros [H _]. unfold AGX_MAX_DEFAULT_NUM in H. lia. Qed.

Lemma start_ok st : server_start st -> state_ok st.
Proof.
  destruct st as [root' h']. intros (ip & init & lit & a & ok & Hlit & H). cbn [fst snd] in H.
  unfold eth_server_register in H. set (root := {| el_net := _ |}) in H.
  destruct (add_servers root ∅ [] [] lit a SERVER_TCP_TIMEOUT ok) as (r & h & l & E & Hok & Hc & _);
    [by split|done|by apply lookup_empty|cbn; unfold AGX_DEFAULT_PORT_HEAD; lia|by vm_compute|].
  rewrite E in H. cbn [mbind option_bind] in H. injection H as <- <-.
  injection Hc as E1 E2 E3 _ E5. unfold state_ok. cbn [fst snd]. repeat split; try done.
  exists l, (radar_add AGX_MAX_DEFAULT_NUM AGX_DEFAULT_PORT_HEAD [] (take 32 lit) ok).2.
  split; [exact Hok|]. apply radar_add_inv; [by vm_compute..|].
  split; [by vm_compute|]. split; [apply NoDup_nil_2|]. split; [apply NoDup_nil_2|done].
Qed.

(** The three positions of a node. *)
Lemma deleted_view (l : list nat) (v : list server) node :
  length l = length v ->
  node ∉ l \/ (exists l2 s v2, l = node :: l2 /\ v = s :: v2)
  \/ (exists x l1 l2 sx v1 s v2, l = x :: l1 ++ node :: l2 /\ v = sx :: v1 ++ s :: v2
       /\ length v1 = length l1).
Proof.
  intros Hlen. destruct (decide (node ∈ l)) as [Hi|?]; [right|by left].
  destruct l as [|x l]; [by apply not_elem_of_nil in Hi|]. destruct v as [|sx v]; [done|].
  injection Hlen as Hlen. destruct (decide (x = node)) as [->|Hne]; [left; by exists l, sx, v|].
  apply elem_of_cons in Hi as [?|Hi]; [congruence|]. apply list_elem_of_split in Hi as (l1 & l2 & ->).
  right. rewrite length_app in Hlen. cbn in Hlen.
  destruct (drop (length l1) v) as [|s v2] eqn:E.
  { apply (f_equal length) in E. rewrite length_drop in E. cbn in E. lia. }
  exists x, l1, l2, sx, (take (length l1) v), s, v2. rewrite <-E, take_drop.
  split; [done|]. split; [done|]. rewrite length_take. lia.
Qed.

Lemma step_ok st st' : state_ok st -> server_step st st' -> state_ok st'.
Proof.
  intros (Hnet & Hmax & Hbase & Hmu & l & v & Hok & Hinv) Hstep.
  destruct Hstep as [root h sn a ok ret root' h' Hsn Ha H|root h node root' h' Hnode H];
    cbn [fst snd] in *.
  - unfold eth_link_create_server, el_lock in H. rewrite Hnet, Z.eqb_refl, Hmu in H.
    cbn [mbind option_bind] in H.
    destruct (add_servers (el_set_mutex true root) h l v sn a SERVER_TCP_TIMEOUT ok)
      as (r & h2 & l' & E & Hok' & Hc & _);
      [done|done|done|cbn; rewrite Hbase; unfold AGX_DEFAULT_PORT_HEAD; lia
      |by apply servers_inv_short|].
    rewrite E in H. cbn [mbind option_bind] in H. injection H as _ <- <-.
    injection Hc as E1 E2 E3 _ _. unfold state_ok. cbn. repeat split; try congruence.
    exists l'. eexists. split; [exact Hok'|]. cbn. rewrite Hmax, Hbase.
    by apply radar_add_inv; [by vm_compute..|].
  - unfold eth_link_socket_cbk_delete, el_lock in H. destruct Hnode as [n Hn]. rewrite Hn, Hmu in H.
    cbn [mbind option_bind] in H.
    assert ((w ← match sv_psUserCbk n with Some _ => Some tt | None => Some tt end; Some w) = Some tt)
      as Hw by by destruct (sv_psUserCbk n).
    destruct (del_servers (el_set_mutex true root) h l v node Hok)
      as (r & h2 & E & Hc & _ & _ & Habs & Hhead & Hin).
    destruct (sv_psUserCbk n); cbn [mbind option_bind] in H; rewrite E in H;
      cbn [mbind option_bind] in H; injection H as <- <-; injection Hc as E1 E2 E3 _ _;
      unfold state_ok; cbn; repeat split; try congruence;
      (destruct (deleted_view l v node (Forall2_length _ _ _ (proj2 Hok))) as
        [Hi|[(l2 & s & v2 & -> & ->)|(x & l1 & l2 & sx & v1 & s & v2 & -> & -> & Hlen)]];
       [exists l, v; split; [by apply Habs|done]
       |exists l2, v2; split; [by eapply Hhead|eapply servers_inv_sublist; [|done]; by apply sublist_cons]
       |exists (x :: l2), (sx :: v2); split; [by eapply Hin|eapply servers_inv_sublist; [|done]];
        apply sublist_skip, sublist_inserts_l; by apply sublist_cons]).
Qed.

(** ** The answer to a radar *)

(** The connection record: the serial number padded with zeros, the address, the port. *)
Definition cntinfo_bytes (sn : list Z) (ip port : Z) : list Z :=
  (cstr sn ++ replicate (32 - length (cstr sn)) 0) ++ le_bytes 4 ip ++ le_bytes 2 port
    ++ le_bytes 2 1.

Lemma cstr_short sn : length sn = 32%nat -> 0 ∈ sn -> (length (cstr sn) < 32)%nat.
Proof.
  intros Hl H0. destruct (cstr_split sn H0) as [r E]. apply (f_equal length) in E.
  rewrite length_app in E. cbn in E. lia.
Qed.

Lemma cntinfo_spec sn more ip port :
  length sn = 32%nat -> 0 ∈ sn ->
  (ep ← st_le 4 (replicate (Z.to_nat (sizeof eth_protocol_cntinfo)) 0)
          (offsetof eth_protocol_cntinfo "ip") ip;
   ep ← st_le 2 ep (offsetof eth_protocol_cntinfo "port") port;
   n ← strlen (sn ++ more);
   ep ← memcpy ep (offsetof eth_protocol_cntinfo "sn") (sn ++ more) 0 n;
   st_le 2 ep (offsetof eth_protocol_cntinfo "type") 1)
  = Some (cntinfo_bytes sn ip port).
Proof.
  intros Hl H0. pose proof (cstr_short sn Hl H0) as Hs. destruct (cstr_split sn H0) as [r E].
  assert (cstr (sn ++ more) = cstr sn) as Ec.
  { rewrite E at 1. rewrite <-app_assoc, cstr_app by apply cstr_no_zero. cbn. apply app_nil_r. }
  change (offsetof eth_protocol_cntinfo "ip") with 32.
  change (offsetof eth_protocol_cntinfo "port") with 36.
  change (offsetof eth_protocol_cntinfo "type") with 38.
  change (offsetof eth_protocol_cntinfo "sn") with 0.
  change (replicate (Z.to_nat (sizeof eth_protocol_cntinfo)) 0)
    with (replicate 32 0 ++ replicate 4 0 ++ replicate 4 0). unfold st_le.
  rewrite (st_bytes_app (replicate 32 0) (replicate 4 0)) by done. cbn [mbind option_bind].
  rewrite app_assoc. change (replicate 4 0) with (replicate 2 0 ++ replicate 2 0).
  rewrite (st_bytes_app (replicate 32 0 ++ le_bytes 4 ip) (replicate 2 0)) by done.
  cbn [mbind option_bind]. rewrite strlen_spec, decide_True by (apply elem_of_app; by left).
  cbn [mbind option_bind]. rewrite Ec. set (k := length (cstr sn)) in *.
  assert (replicate 32 0 = replicate k 0 ++ replicate (32 - k) 0) as ->
    by (rewrite <-replicate_add; f_equal; lia).
  assert (sn ++ more = cstr sn ++ (0 :: r) ++ more) as Esn
    by (rewrite E at 1; by rewrite <-app_assoc).
  rewrite <-!app_assoc, Esn.
  pose proof (memcpy_app [] (replicate k 0) (replicate (32 - k) 0 ++ le_bytes 4 ip
    ++ le_bytes 2 port ++ replicate 2 0) [] (cstr sn) ((0 :: r) ++ more) 0 0 (Zlen (cstr sn))
    eq_refl eq_refl eq_refl ltac:(unfold Zlen; by rewrite length_replicate)) as Hm.
  cbn [app] in Hm |- *. rewrite Hm. cbn [mbind option_bind]. unfold cntinfo_bytes.
  assert (Zlen (cstr sn ++ replicate (32 - k) 0 ++ le_bytes 4 ip ++ le_bytes 2 port) = 38) as H38.
  { unfold Zlen. rewrite !length_app, length_replicate, !le_bytes_length. fold k. lia. }
  pose proof (st_bytes_app (cstr sn ++ replicate (32 - k) 0 ++ le_bytes 4 ip ++ le_bytes 2 port)
    (replicate 2 0) [] (le_bytes 2 1) 38 H38 eq_refl) as Hst.
  rewrite !app_nil_r, <-!app_assoc in Hst. fold k. by rewrite <-!app_assoc.
Qed.

Section answer.
Context {W : Type} (send : list Z -> W -> option W) (htonl : Z -> Z).

(** What the discovery socket sends to a radar that got the port [port]. *)
Definition request_bytes (sn : list Z) (ip port : Z) : list Z :=
  encode (agx_frame NETPROTOCAL_MSG_ID_REQUEST_CONNECT (cntinfo_bytes sn ip port)).

Lemma search_handler_spec root h l v m psdev uIp sn more a ok w :
  el_net root = RTH_LINK_NET_TCP_CLIENT -> el_mutex root = false -> srv_ok root h l v ->
  0 <= el_server_basical_port root < 65536 -> Zlen v < 2 ^ 31 -> h !! a = None ->
  htonl uIp <> el_server_ip root ->
  drop (Z.to_nat (psdev + 4)) m = sn ++ more -> length sn = 32%nat -> 0 ∈ sn -> bytes_ok sn ->
  let r := radar_add (el_max root) (el_server_basical_port root) v sn ok in
  exists root' h' l', srv_ok root' h' l' r.2 /\ root_config root' = root_config root
    /\ (Zlen v < Zlen r.2 -> exists s, last r.2 = Some s /\ el_cur_con root' = s.2)
    /\ eth_protocol_search_handler send htonl root h m psdev uIp (Some a) ok w
       = if r.1 =? 0 then
           w' ← send (request_bytes sn (el_server_ip root') (el_cur_con root')) w;
           Some (root', h', w')
         else Some (root', h', w).
Proof.
  intros Hnet Hmu Hok Hb Hv Ha Hip Hsn H32 H0 Hbytes r.
  destruct (add_servers (el_set_mutex true root) h l v (sn ++ more) a SERVER_TCP_TIMEOUT ok)
    as (root' & h' & l' & E & Hok' & Hc & Hcur);
    [done|rewrite length_app; lia|done|done|done|].
  rewrite take_app_length' in E, Hok', Hcur by done. cbn [el_set_mutex el_max el_server_basical_port]
    in E, Hok', Hcur. fold r in E, Hok', Hcur. injection Hc as E1 E2 E3 E4 E5.
  exists (el_set_mutex false root'), h', l'. split; [exact Hok'|].
  split; [unfold root_config; cbn; congruence|]. split; [exact Hcur|].
  unfold eth_protocol_search_handler. change (offsetof eth_protocol_devinfo_body "sn") with 4.
  rewrite Hsn. destruct (Z.eqb_spec (htonl uIp) (el_server_ip root)) as [?|_]; [done|].
  unfold eth_link_create_server, el_lock. rewrite Hnet, Z.eqb_refl, Hmu. cbn [mbind option_bind].
  rewrite E. cbn [mbind option_bind]. destruct (r.1 =? 0); [|done]. cbn [negb].
  pose proof (cntinfo_spec sn more (el_server_ip root') (el_cur_con root') H32 H0) as Hep.
  cbn [el_set_mutex el_server_ip el_cur_con].
  repeat (apply bind_Some in Hep as (? & -> & Hep); cbn [mbind option_bind]). rewrite Hep.
  cbn [mbind option_bind].
  assert (bytes_ok (cntinfo_bytes sn (el_server_ip root') (el_cur_con root'))) as Hcb.
  { unfold cntinfo_bytes. rewrite !bytes_ok_app. split; [split|auto using le_bytes_ok].
    - destruct (cstr_split sn H0) as [rr Er]. rewrite Er in Hbytes.
      apply bytes_ok_app in Hbytes as [Hcs _]. exact Hcs.
    - by apply Forall_replicate. }
  assert (Zlen (cntinfo_bytes sn (el_server_ip root') (el_cur_con root')) = 40) as Hl40.
  { unfold cntinfo_bytes, Zlen. pose proof (cstr_short sn H32 H0).
    rewrite !length_app, length_replicate, !le_bytes_length. lia. }
  rewrite request_package_spec by (done || by_eval). cbn [mbind option_bind].
  fold (request_bytes sn (el_server_ip root') (el_cur_con root')).
  assert (forall y, ld_bytes (request_bytes sn (el_server_ip root') (el_cur_con root') ++ y) 0 51
    = Some (request_bytes sn (el_server_ip root') (el_cur_con root'))) as ->; [|done].
  intros y. apply (ld_bytes_app [] _ y); [done|]. unfold request_bytes.
  rewrite Zlen_encode. cbn [fr_payload agx_frame]. lia.
Qed.
End answer.

(** ** Properties *)

(** Taking a radar in. For any list of servers, the function does what [radar_add] says
    on every branch: a radar that already has a server is refused; the server made at
    registration is given to the first radar; otherwise a new server is appended on the
    first free port, unless the limit is reached or the server cannot be made, and the root
    object remembers the new port. *)
Lemma eth_link_add_tcp_server_list_spec root h l v sn a time ok :
  srv_ok root h l v -> (32 <= length sn)%nat -> h !! a = None ->
  0 <= el_server_basical_port root < 65536 -> Zlen v < 2 ^ 31 ->
  let r := radar_add (el_max root) (el_server_basical_port root) v (take 32 sn) ok in
  exists root' h' l',
    eth_link_add_tcp_server_list root h sn time (Some a) ok = Some (r.1, root', h')
    /\ srv_ok root' h' l' r.2 /\ root_config root' = root_config root
    /\ (Zlen v < Zlen r.2 -> exists s, last r.2 = Some s /\ el_cur_con root' = s.2).
Proof. exact (add_servers root h l v sn a time ok). Qed.

(** The end of a server. Removing the first server leaves the others; removing a later
    one leaves only the first server and those behind the removed one: the servers between
    them are lost from the list although their objects (and threads) still exist. *)
Lemma eth_link_del_tcp_server_list_spec root h l v node :
  srv_ok root h l v ->
  exists root' h', eth_link_del_tcp_server_list root h node = Some (root', h')
    /\ root_config root' = root_config root /\ el_cur_con root' = el_cur_con root
    /\ (forall a, a <> node -> is_Some (h' !! a) <-> is_Some (h !! a))
    /\ (node ∉ l -> srv_ok root' h' l v)
    /\ (forall l2 s v2, l = node :: l2 -> v = s :: v2 -> srv_ok root' h' l2 v2)
    /\ (forall x l1 l2 sx v1 s v2, l = x :: l1 ++ node :: l2 -> v = sx :: v1 ++ s :: v2 ->
        length v1 = length l1 -> srv_ok root' h' (x :: l2) (sx :: v2)).
Proof. exact (del_servers root h l v node). Qed.


(** The answer to a radar. A datagram that is the look-up response of a radar with the
    serial number [sn] makes the AGX take the radar in and, exactly if that succeeds, send
    the connect request with the serial number, its own address and the port of the server;
    the radar's frame is the only input that decides this. *)
Lemma eth_protocol_handler_answer {W} (send : list Z -> W -> option W) htonl root h l v f
    proto sn more rest uIp a ok w :
  el_net root = RTH_LINK_NET_TCP_CLIENT -> el_mutex root = false -> srv_ok root h l v ->
  0 <= el_server_basical_port root < 65536 -> Zlen v < 2 ^ 31 -> h !! a = None ->
  htonl uIp <> el_server_ip root ->
  frame_ok f -> fr_id f = NETPROTOCAL_MSG_ID_LOOKUP_RESP ->
  fr_payload f = proto ++ sn ++ more -> length proto = 4%nat -> length sn = 32%nat -> 0 ∈ sn ->
  let r := radar_add (el_max root) (el_server_basical_port root) v sn ok in
  exists root' h' l', srv_ok root' h' l' r.2 /\ root_config root' = root_config root
    /\ (Zlen v < Zlen r.2 -> exists s, last r.2 = Some s /\ el_cur_con root' = s.2)
    /\ eth_protocol_handler send htonl root h (encode f ++ rest) (Zlen (encode f)) uIp (Some a)
         ok w
       = if r.1 =? 0 then
           w' ← send (request_bytes sn (el_server_ip root') (el_cur_con root')) w;
           Some (root', h', w')
         else Some (root', h', w).
Proof.
  intros Hnet Hmu Hok Hb Hv Ha Hip Hf Hid Hpay Hp4 H32 H0 r.
  unfold eth_protocol_handler. rewrite (analysis_encode f rest Hf). cbn [mbind option_bind].
  assert (ld8 (encode f ++ rest) (offsetof eth_protocol_head "msgid") = Some (fr_id f)) as ->
    by by rewrite encode_shape.
  cbn [mbind option_bind]. rewrite Hid, Z.eqb_refl.
  apply (search_handler_spec send htonl root h l v _ 9 uIp sn
    (more ++ [frame_crc f mod 256; frame_crc f / 256] ++ rest)); try done.
  - change (Z.to_nat (9 + 4)) with 13%nat. rewrite encode_shape, Hpay.
    do 4 (destruct proto as [|? proto]; [discriminate Hp4|]). destruct proto; [|discriminate Hp4].
    cbn [app drop]. by rewrite <-!app_assoc.
  - destruct Hf as (_ & Hbytes & _). rewrite Hpay, !bytes_ok_app in Hbytes. tauto.
Qed.

(** ** Witnesses *)

Definition demo_root : eth_link_list :=
  {| el_net := 1; el_max := 10; el_cur_con := 8070; el_type := 1; el_server_basical_port := 8070;
     el_server_ip := 161; el_mutex := false; el_ps_init := Some; el_list := Some 0%nat |}.
Definition demo_sn (c : Z) : list Z := [82; c] ++ replicate 30 0.
Definition demo_node (c port : Z) (next : option nat) : eth_link_tcp_server_list :=
  {| sv_wConnectTime := 5; sv_wlocalPort := port; sv_ulocalIp := 161; sv_radar_sn := demo_sn c;
     sv_psUserCbk := None; sv_psNext := next |}.
Definition demo_servers : servers :=
  <[0%nat := demo_node 49 8070 (Some 1%nat)]> (<[1%nat := demo_node 50 8072 (Some 2%nat)]>
    {[2%nat := demo_node 51 8071 None]}).
Definition demo_view : list server := [(demo_sn 49, 8070); (demo_sn 50, 8072); (demo_sn 51, 8071)].

Lemma demo_ok : srv_ok demo_root demo_servers [0; 1; 2]%nat demo_view.
Proof.
  split; [repeat (split; [reflexivity|eexists; split; [reflexivity|]]); reflexivity|].
  repeat constructor; eexists; repeat split; reflexivity.
Qed.

Lemma eth_link_add_tcp_server_list_spec_witness :
  (exists root' h' l', eth_link_add_tcp_server_list demo_root demo_servers (demo_sn 52) 5
      (Some 7%nat) true = Some (0, root', h')
    /\ srv_ok root' h' l' (demo_view ++ [(demo_sn 52, 8073)]) /\ el_cur_con root' = 8073).
Proof.
  destruct (eth_link_add_tcp_server_list_spec demo_root demo_servers [0; 1; 2]%nat demo_view
    (demo_sn 52) 7 5 true demo_ok) as (root' & h' & l' & H & Hok & _ & Hc);
    [by_eval|by_eval|by_eval|by_eval|].
  exists root', h', l'. split; [exact H|]. split; [exact Hok|].
  destruct Hc as (s & Hs & ->); [by_eval|]. vm_compute in Hs. injection Hs as <-. reflexivity.
Defined.

Lemma eth_link_del_tcp_server_list_spec_witness :
  (exists root' h', eth_link_del_tcp_server_list demo_root demo_servers 2 = Some (root', h')
    /\ srv_ok root' h' [0]%nat [(demo_sn 49, 8070)] /\ is_Some (h' !! 1%nat)).
Proof.
  destruct (eth_link_del_tcp_server_list_spec demo_root demo_servers [0; 1; 2]%nat demo_view 2
    demo_ok) as (root' & h' & H & _ & _ & Hd & _ & _ & Hin).
  exists root', h'. split; [exact H|]. split.
  - exact (Hin 0%nat [1]%nat [] (demo_sn 49, 8070) [(demo_sn 50, 8072)] (demo_sn 51, 8071) []
      eq_refl eq_refl eq_refl).
  - apply Hd; [done|]. by eexists.
Defined.


Lemma eth_protocol_handler_answer_witness :
  (exists root' h', eth_protocol_handler (λ bs s, Some (s ++ [bs])) (λ x, x) demo_root demo_servers
      (encode (Frame 0 255 3 187 0 (le_bytes 4 3 ++ demo_sn 52 ++ replicate 68 0)))
      115 5 (Some 7%nat) true [] = Some (root', h', [request_bytes (demo_sn 52) 161 8073])).
Proof.
  destruct (eth_protocol_handler_answer (λ bs s, Some (s ++ [bs])) (λ x, x) demo_root demo_servers
    [0; 1; 2]%nat demo_view (Frame 0 255 3 187 0 (le_bytes 4 3 ++ demo_sn 52 ++ replicate 68 0))
    (le_bytes 4 3) (demo_sn 52) (replicate 68 0) [] 5 7 true [])
    as (root' & h' & l' & _ & Hc & Hcur & H); [by_eval|by_eval|exact demo_ok|by_eval..|].
  destruct Hcur as (s & Hs & Es); [by_eval|]. vm_compute in Hs. injection Hs as <-.
  exists root', h'. rewrite app_nil_r in H. rewrite Es in H.
  assert (el_server_ip root' = 161) as Eip by by injection Hc.
  rewrite Eip in H. exact H.
Defined.
