(* ===== verification/Sockets.v ===== *)
(** * Sockets: the system calls and the callbacks

    What the socket modules ([src/srv/eth_link/socket/]) rely on: the system calls they
    make, as operations of an arbitrary kernel state [K], and the callback tables they are
    given.  [Kernel] lists the calls, [KernelLaws] what the manual pages promise about the
    descriptors that are open and the bytes that are waiting; [replay] is a kernel that
    answers from a script, which the witnesses run on. *)

From S2P Require Import Prelude.
Local Open Scope list_scope.
Local Open Scope Z_scope.

(** ** System calls *)

(** The result of [select] on one descriptor with a timeout: the number of ready
    descriptors (0 for none, -1 for an error), [errno], and whether the descriptor is still
    in the set. *)
Record selected := Selected { sel_ret : Z; sel_errno : Z; sel_isset : bool }.

Definition EINTR : Z := 4.
Definition EBADF : Z := 9.

(** A read that fails or finds the peer gone returns no bytes. *)
Class Kernel (K : Type) := {
  sys_socket : K -> Z * K;
  sys_bind : Z -> Z -> K -> Z * K;
  sys_listen : Z -> K -> Z * K;
  sys_select : Z -> K -> selected * K;
  sys_accept : Z -> K -> Z * K;
  sys_connect : Z -> Z -> Z -> K -> Z * K;
  sys_tcp_state : Z -> K -> Z * K;
  sys_recv : Z -> Z -> K -> list Z * K;
  sys_send : Z -> list Z -> K -> K;
  sys_recvfrom : Z -> Z -> K -> option (list Z * Z) * K;
  sys_sendto : Z -> Z -> Z -> list Z -> K -> Z * K;
  sys_setsockopt : Z -> K -> Z * K;
  sys_close : Z -> K -> K
}.

(** A call that makes a descriptor returns one that was not open, or a negative number. *)
Definition makes_fd {K} (open : K -> gset Z) (k : K) (r : Z * K) : Prop :=
  (r.1 < 0 /\ open r.2 = open k)
  \/ (0 <= r.1 /\ r.1 ∉ open k /\ open r.2 = {[r.1]} ∪ open k).

(** [open] are the open descriptors, [unread] the bytes that wait on a descriptor. *)
Class KernelLaws (K : Type) `{Kernel K} (open : K -> gset Z) (unread : Z -> K -> list Z) : Prop := {
  open_nonneg k fd : fd ∈ open k -> 0 <= fd;
  open_socket k : makes_fd open k (sys_socket k);
  open_accept fd k : makes_fd open k (sys_accept fd k);
  open_close fd k : open (sys_close fd k) = open k ∖ {[fd]};
  open_bind fd p k : open (sys_bind fd p k).2 = open k;
  open_listen fd k : open (sys_listen fd k).2 = open k;
  open_select fd k : open (sys_select fd k).2 = open k;
  open_connect fd ip p k : open (sys_connect fd ip p k).2 = open k;
  open_tcp_state fd k : open (sys_tcp_state fd k).2 = open k;
  open_recv fd n k : open (sys_recv fd n k).2 = open k;
  open_send fd bs k : open (sys_send fd bs k) = open k;
  open_recvfrom fd n k : open (sys_recvfrom fd n k).2 = open k;
  open_sendto fd ip p bs k : open (sys_sendto fd ip p bs k).2 = open k;
  open_setsockopt fd k : open (sys_setsockopt fd k).2 = open k;
  unread_select fd fd' k : unread fd (sys_select fd' k).2 = unread fd k;
  unread_recv fd n k : 0 < n ->
    unread fd k = (sys_recv fd n k).1 ++ unread fd (sys_recv fd n k).2
    /\ Zlen (sys_recv fd n k).1 <= n
    /\ (unread fd k <> [] -> (sys_recv fd n k).1 <> [])
}.

Create Rewrite HintDb kernel.
#[export] Hint Rewrite @open_close @open_bind @open_listen @open_select @open_connect
  @open_tcp_state @open_recv @open_send @open_recvfrom @open_sendto @open_setsockopt
  using typeclasses eauto : kernel.

(** ** Callback tables *)

(** The table a module registers with a TCP socket, a NULL entry being [None].  [S] is the
    socket object with the kernel, which the data callback reads through the function it is
    given; [W] is the module's own state. *)
Record tcp_cbk (S W : Type) := {
  pv_cbk_connect : option (W -> W);
  pv_cbk_data : option ((Z -> S -> list Z * S) -> S -> W -> option (S * W));
  pv_cbk_disconnect : option (W -> W);
  pv_cbk_delete : option (W -> W)
}.
Arguments pv_cbk_connect {_ _} _.
Arguments pv_cbk_data {_ _} _.
Arguments pv_cbk_disconnect {_ _} _.
Arguments pv_cbk_delete {_ _} _.

(** [if( cbk ) cbk( psHandle );] *)
Definition call_cbk {W} (cbk : option (W -> W)) (w : W) : W :=
  match cbk with Some f => f w | None => w end.

(** What a data callback promises the socket: it changes the socket only by reading. *)
Class OnlyReads {S W} (cbk : tcp_cbk S W) : Prop :=
  only_reads f (recv : Z -> S -> list Z * S) (P : S -> Prop) s w s' w' :
    pv_cbk_data cbk = Some f -> (forall n t, P t -> P (recv n t).2) ->
    P s -> f recv s w = Some (s', w') -> P s'.

(** The calls a socket has made so far, oldest first. *)
Inductive tcp_event := EvConnect | EvData | EvDisconnect | EvDelete.

Section events.
Context {S W : Type} (cbk : tcp_cbk S W) (recv : Z -> S -> list Z * S).

Definition event_effect (e : tcp_event) (w w' : W) : Prop :=
  match e with
  | EvConnect => w' = call_cbk (pv_cbk_connect cbk) w
  | EvData => match pv_cbk_data cbk with
              | Some f => exists s s', f recv s w = Some (s', w')
              | None => w' = w
              end
  | EvDisconnect => w' = call_cbk (pv_cbk_disconnect cbk) w
  | EvDelete => w' = call_cbk (pv_cbk_delete cbk) w
  end.

(** The state of the module after the calls of a history. *)
Inductive history (w0 : W) : list tcp_event -> W -> Prop :=
  | history_nil : history w0 [] w0
  | history_snoc es e w w' :
      history w0 es w -> event_effect e w w' -> history w0 (es ++ [e]) w'.
End events.

(** [n] turns of a thread. *)
Fixpoint turns {A} (turn : A -> option A) (n : nat) (st : A) : option A :=
  match n with
  | O => Some st
  | S n' => st ← turn st; turns turn n' st
  end.

Lemma turns_add {A} (turn : A -> option A) n m st :
  turns turn (n + m) st = turns turn n st ≫= turns turn m.
Proof.
  revert st. induction n as [|n IH]; intros st; [done|]. cbn [turns Nat.add].
  destruct (turn st) as [st'|]; [apply IH|done].
Qed.

Lemma turns_rtc {A} (turn : A -> option A) (R : A -> A -> Prop) n st st' :
  (forall st st', turn st = Some st' -> R st st') -> turns turn n st = Some st' -> rtc R st st'.
Proof.
  intros HR. revert st. induction n as [|n IH]; intros st E; [by injection E as <-|].
  cbn [turns] in E. apply bind_Some in E as (st1 & E1 & E2).
  eapply rtc_l; [by apply HR|auto].
Qed.

Lemma open_setsockopts {K} `{KernelLaws K} n fd k :
  open (Nat.iter n (λ k, (sys_setsockopt fd k).2) k) = open k.
Proof.
  induction n as [|n IH]; [done|]. rewrite Nat.iter_succ. by rewrite open_setsockopt.
Qed.

(** ** A scripted kernel *)

(** Calls that return a number take the next answer of the script, -1 when it is used up;
    new descriptors are above those that are open; a descriptor is ready when bytes wait. *)
Record replay := Replay {
  rp_open : gset Z; rp_answers : list Z; rp_input : list Z; rp_sent : list (list Z)
}.

Definition rp_pop (k : replay) : Z * replay :=
  match rp_answers k with
  | [] => (-1, k)
  | a :: l => (a, Replay (rp_open k) l (rp_input k) (rp_sent k))
  end.

Definition rp_make (k : replay) : Z * replay :=
  let '(a, k) := rp_pop k in
  if a <? 0 then (-1, k) else
  let fd := 1 + foldr Z.max 2 (elements (rp_open k)) in
  (fd, Replay ({[fd]} ∪ rp_open k) (rp_answers k) (rp_input k) (rp_sent k)).

#[export] Instance replay_kernel : Kernel replay := {
  sys_socket := rp_make;
  sys_bind _ _ := rp_pop;
  sys_listen _ := rp_pop;
  sys_select _ k :=
    if bool_decide (rp_input k <> []) then (Selected 1 0 true, k)
    else let '(a, k) := rp_pop k in (Selected a 0 (0 <? a), k);
  sys_accept _ := rp_make;
  sys_connect _ _ _ := rp_pop;
  sys_tcp_state _ := rp_pop;
  sys_recv _ n k :=
    (take (Z.to_nat n) (rp_input k),
     Replay (rp_open k) (rp_answers k) (drop (Z.to_nat n) (rp_input k)) (rp_sent k));
  sys_send _ bs k := Replay (rp_open k) (rp_answers k) (rp_input k) (rp_sent k ++ [bs]);
  sys_recvfrom _ n k :=
    (Some (take (Z.to_nat n) (rp_input k), 0),
     Replay (rp_open k) (rp_answers k) [] (rp_sent k));
  sys_sendto _ _ _ bs k :=
    (Zlen bs, Replay (rp_open k) (rp_answers k) (rp_input k) (rp_sent k ++ [bs]));
  sys_setsockopt _ := rp_pop;
  sys_close fd k := Replay (rp_open k ∖ {[fd]}) (rp_answers k) (rp_input k) (rp_sent k)
}.

(** Only descriptors that are not negative are open. *)
Definition rp_visible (k : replay) : gset Z := filter (λ fd, 0 <= fd) (rp_open k).

Lemma foldr_max_le l x : x ∈ l -> x <= foldr Z.max 2 l.
Proof.
  induction 1 as [x l|x y l _ IH]; cbn [foldr]; lia.
Qed.

Lemma rp_pop_open k : rp_open (rp_pop k).2 = rp_open k /\ rp_input (rp_pop k).2 = rp_input k.
Proof. unfold rp_pop. by destruct (rp_answers k). Qed.

Lemma rp_make_fd k : makes_fd rp_visible k (rp_make k).
Proof.
  unfold makes_fd, rp_make, rp_visible. destruct (rp_pop_open k) as [E _].
  destruct (rp_pop k) as [a k1]. cbn [snd] in E. rewrite <-E.
  destruct (a <? 0); [left; cbn; split; [lia|done]|]. right.
  set (fd := 1 + foldr Z.max 2 (elements (rp_open k1))).
  assert (forall l, 2 <= foldr Z.max 2 l) as Hmax
    by (induction l as [|x l IH]; cbn [foldr]; lia).
  assert (0 <= fd) by (specialize (Hmax (elements (rp_open k1))); unfold fd; lia).
  assert (fd ∉ rp_open k1) as Hfd.
  { intros Hin%elem_of_elements%foldr_max_le. unfold fd in Hin. lia. }
  cbn [fst snd rp_open]. set_solver.
Qed.

#[export] Instance replay_laws : KernelLaws replay rp_visible (λ _, rp_input).
Proof.
  split; intros; unfold rp_visible; cbn [sys_socket sys_accept sys_bind sys_listen sys_select
    sys_connect sys_tcp_state sys_recv sys_send sys_recvfrom sys_sendto sys_setsockopt sys_close
    replay_kernel fst snd rp_open rp_input] in *;
    try apply rp_make_fd; try (by rewrite (proj1 (rp_pop_open k))); try done.
  - set_solver.
  - set_solver.
  - case_bool_decide; [done|]. pose proof (rp_pop_open k) as [E _].
    destruct (rp_pop k). cbn in *. by rewrite E.
  - case_bool_decide; [done|]. pose proof (rp_pop_open k) as [_ E].
    destruct (rp_pop k). cbn in *. by rewrite E.
  - rewrite take_drop. split; [done|]. split; [unfold Zlen; rewrite length_take; lia|].
    intros Hne Ht. apply (f_equal length) in Ht. rewrite length_take in Ht.
    destruct (rp_input k); [done|]. cbn in Ht. lia.
Qed.
