(* ===== verification/TcpServer.v ===== *)
(** * TCP server of one radar ([src/srv/eth_link/socket/tcp_server.c])

    A server listens on its port for one client, passes what arrives to the module that
    made it and ends when the client is gone, stays silent or never comes.  Its thread is
    a machine that makes one pass of a loop per turn; closing and sending are steps of
    other threads between turns.  The addresses that the code compares with NULL are those
    of objects here, and the lock around [send] has one user at a time. *)

From S2P Require Import Prelude Sockets.
Local Open Scope list_scope.
Local Open Scope Z_scope.

(** ** The code *)

Record tcp_server_cfg := { wConnectTime : Z; wlocalPort : Z; ulocalIp : Z }.

Record tcp_server := {
  bFlagInit : bool; bFlagConnect : bool; bFlagClose : bool;
  iSocket : Z; client_fd : Z; psCfg : tcp_server_cfg
}.

Definition set_init (b : bool) (s : tcp_server) : tcp_server :=
  {| bFlagInit := b; bFlagConnect := bFlagConnect s; bFlagClose := bFlagClose s;
     iSocket := iSocket s; client_fd := client_fd s; psCfg := psCfg s |}.
Definition set_connect (b : bool) (s : tcp_server) : tcp_server :=
  {| bFlagInit := bFlagInit s; bFlagConnect := b; bFlagClose := bFlagClose s;
     iSocket := iSocket s; client_fd := client_fd s; psCfg := psCfg s |}.
Definition set_close (b : bool) (s : tcp_server) : tcp_server :=
  {| bFlagInit := bFlagInit s; bFlagConnect := bFlagConnect s; bFlagClose := b;
     iSocket := iSocket s; client_fd := client_fd s; psCfg := psCfg s |}.
Definition set_iSocket (fd : Z) (s : tcp_server) : tcp_server :=
  {| bFlagInit := bFlagInit s; bFlagConnect := bFlagConnect s; bFlagClose := bFlagClose s;
     iSocket := fd; client_fd := client_fd s; psCfg := psCfg s |}.
Definition set_client_fd (fd : Z) (s : tcp_server) : tcp_server :=
  {| bFlagInit := bFlagInit s; bFlagConnect := bFlagConnect s; bFlagClose := bFlagClose s;
     iSocket := iSocket s; client_fd := fd; psCfg := psCfg s |}.

(** Where the thread is: before the socket is open, at the accept loop, at the loop of a
    connection, after the loops; it has returned early, or to the end. *)
Inductive server_pc := SP_start | SP_accept | SP_serve | SP_exit | SP_failed | SP_done.

#[export] Instance server_pc_eq_dec : EqDecision server_pc.
Proof. solve_decision. Defined.

Section tcp_server.
Context {K W : Type} `{!Kernel K}.

Definition tcp_server_recv (uSize : Z) (sk : tcp_server * K) : list Z * (tcp_server * K) :=
  let '(s, k) := sk in
  let '(bs, k) := sys_recv (client_fd s) uSize k in
  match bs with
  | [] => ([], (set_connect false s, k))
  | _ => (bs, (s, k))
  end.

(** One pass of the loop in [accept_timeout]; [None] is an interrupted [select], after
    which the loop goes on. *)
Definition accept_timeout (fd wait_seconds : Z) (k : K) : option Z * K :=
  if 0 <? wait_seconds then
    let '(sel, k) := sys_select fd k in
    if (sel_ret sel <? 0) && (sel_errno sel =? EINTR) then (None, k)
    else if sel_ret sel =? -1 then (Some (-1), k)
    else if sel_ret sel =? 0 then (Some (-1), k)
    else let '(ret, k) := sys_accept fd k in (Some ret, k)
  else let '(ret, k) := sys_accept fd k in (Some ret, k).

(** The thread with its local counter, the server, the kernel and the module's state. *)
Record server_state := ServerState {
  ss_pc : server_pc; ss_uConnectCount : Z; ss_server : tcp_server; ss_kernel : K; ss_world : W
}.

Section task.
Context (psCbk : tcp_cbk (tcp_server * K) W).
Implicit Types (s : tcp_server) (k : K) (w : W).

(** From [socket] to [listen]. *)
Definition tcp_server_open (s : tcp_server) (k : K) (w : W) : server_state :=
  let '(fd, k) := sys_socket k in
  let s := set_iSocket fd s in
  if fd <? 0 then ServerState SP_failed 0 s k w else
  let '(_, k) := sys_setsockopt (iSocket s) k in
  let '(iRet, k) := sys_bind (iSocket s) (wlocalPort (psCfg s)) k in
  if iRet <? 0 then ServerState SP_failed 0 s (sys_close (iSocket s) k) w else
  let '(iRet, k) := sys_listen (iSocket s) k in
  if negb (iRet =? 0) then ServerState SP_failed 0 s (sys_close (iSocket s) k) w else
  ServerState SP_accept 0 s k w.

(** One pass of the accept loop; the five options are set on the listening socket. *)
Definition tcp_server_accept (n : Z) s k w : server_state :=
  match accept_timeout (iSocket s) 1 k with
  | (None, k) => ServerState SP_accept n s k w
  | (Some fd, k) =>
      let s := set_client_fd fd s in
      if fd <? 0 then
        let t := wConnectTime (psCfg s) in
        if negb (t =? 0) then
          let n := u32 (n + 1) in
          if t <=? n then ServerState SP_exit n s k w else ServerState SP_accept n s k w
        else ServerState SP_accept n s k w
      else
        let s := set_connect true s in
        let w := call_cbk (pv_cbk_connect psCbk) w in
        let k := Nat.iter 5 (λ k, (sys_setsockopt (iSocket s) k).2) k in
        ServerState SP_serve 0 s k w
  end.

(** The end of a connection. *)
Definition tcp_server_disconnect (n : Z) s k w : server_state :=
  ServerState SP_exit n (set_connect false s) k (call_cbk (pv_cbk_disconnect psCbk) w).

(** One pass of the loop of a connection. *)
Definition tcp_server_serve (n : Z) s k w : option server_state :=
  let next n s k w :=
    if bFlagClose s then tcp_server_disconnect n s k w else ServerState SP_serve n s k w in
  let '(sel, k) := sys_select (client_fd s) k in
  if 0 <? sel_ret sel then
    if sel_isset sel then
      match pv_cbk_data psCbk with
      | Some cbk =>
          '(s, k, w) ← cbk tcp_server_recv (s, k) w;
          if negb (bFlagConnect s) then Some (tcp_server_disconnect 0 s k w)
          else Some (next 0 s k w)
      | None =>
          let '(bs, (s, k)) := tcp_server_recv 128 (s, k) in
          if Zlen bs <=? 0 then Some (tcp_server_disconnect 0 s k w)
          else if negb (bFlagConnect s) then Some (tcp_server_disconnect 0 s k w)
          else Some (next 0 s k w)
      end
    else Some (next 0 s k w)
  else
    let n := u32 (n + 1) in
    if wConnectTime (psCfg s) <=? n then Some (tcp_server_disconnect n s k w) else
    let '(tcpi_state, k) := sys_tcp_state (iSocket s) k in
    if (tcpi_state =? 1) || (tcpi_state =? 10) then Some (next n s k w)
    else Some (tcp_server_disconnect n s k w).

(** After the loops. *)
Definition tcp_server_finish (n : Z) s k w : server_state :=
  let k := sys_close (client_fd s) k in
  let s := set_client_fd (-1) s in
  let k := if 0 <=? iSocket s then sys_close (iSocket s) k else k in
  let s := set_iSocket (-1) s in
  let s := set_close false (set_init false s) in
  ServerState SP_done n s k (call_cbk (pv_cbk_delete psCbk) w).

(** One turn of the thread; a thread that has returned has no turns. *)
Definition tcp_server_task (st : server_state) : option server_state :=
  let '(ServerState pc n s k w) := st in
  match pc with
  | SP_start => Some (tcp_server_open s k w)
  | SP_accept => Some (tcp_server_accept n s k w)
  | SP_serve => tcp_server_serve n s k w
  | SP_exit => Some (tcp_server_finish n s k w)
  | SP_failed | SP_done => None
  end.
End task.

(** What [tcp_server_create] does before the thread runs; the flags say whether the two
    tables are there and whether the mutex and the thread can be made. *)
Definition tcp_server_create (s : tcp_server) (cfg : option tcp_server_cfg) (cbk : bool)
    (mutex_ok thread_ok : bool) (k : K) : Z * bool * tcp_server * K :=
  if bFlagInit s then (0, false, s, k) else
  let s := set_connect false (set_close false (set_init true s)) in
  match cfg with
  | Some c =>
      if cbk then
        let s := {| bFlagInit := bFlagInit s; bFlagConnect := bFlagConnect s;
                    bFlagClose := bFlagClose s; iSocket := iSocket s;
                    client_fd := client_fd s; psCfg := c |} in
        if mutex_ok then
          if thread_ok then (0, true, s, k)
          else (-2, false, set_init false s, k)
        else (-2, false, set_init false s, sys_close (iSocket s) k)
      else (-1, false, set_init false s, k)
  | None => (-1, false, set_init false s, k)
  end.

Definition tcp_server_send (s : tcp_server) (pvData : list Z) (k : K) : Z * K :=
  if bFlagConnect s then (0, sys_send (client_fd s) pvData k) else (-2, k).

Definition tcp_server_close (s : tcp_server) : Z * tcp_server :=
  if bFlagConnect s then (0, set_close true s) else (0, s).
End tcp_server.

Arguments server_state : clear implicits.

(** ** The life of a server *)

(** The calls a server makes, in every place of its thread: one connection at most, data
    only while it lasts, and the removal of the server last. *)
Inductive lifecycle : server_pc -> list tcp_event -> Prop :=
  | lc_start : lifecycle SP_start []
  | lc_accept : lifecycle SP_accept []
  | lc_failed : lifecycle SP_failed []
  | lc_serve n : lifecycle SP_serve (EvConnect :: replicate n EvData)
  | lc_exit_none : lifecycle SP_exit []
  | lc_exit n : lifecycle SP_exit ((EvConnect :: replicate n EvData) ++ [EvDisconnect])
  | lc_done es : lifecycle SP_exit es -> lifecycle SP_done (es ++ [EvDelete]).

(** The descriptors that belong to the server. *)
Definition own_fds (pc : server_pc) (s : tcp_server) : gset Z :=
  match pc with
  | SP_accept => {[iSocket s]}
  | SP_serve => {[iSocket s; client_fd s]}
  | SP_exit => if client_fd s <? 0 then {[iSocket s]} else {[iSocket s; client_fd s]}
  | _ => ∅
  end.

Section life.
Context {K W : Type} `{HK : Kernel K} (open : K -> gset Z) (unread : Z -> K -> list Z).
Context `{HL : !KernelLaws K open unread}.
Context (psCbk : tcp_cbk (tcp_server * K) W) `{HC : !OnlyReads psCbk}.
Implicit Types (s : tcp_server) (k : K) (w : W) (st : server_state K W).

(** A turn of the thread, or a call that another thread makes between turns. *)
Inductive server_step : server_state K W -> server_state K W -> Prop :=
  | step_task st st' : tcp_server_task psCbk st = Some st' -> server_step st st'
  | step_close pc n s k w :
      server_step (ServerState pc n s k w) (ServerState pc n (tcp_server_close s).2 k w)
  | step_send pc n s k w bs :
      server_step (ServerState pc n s k w) (ServerState pc n s (tcp_server_send s bs k).2 w).

Definition fds_ok (k0 : K) (pc : server_pc) s k : Prop :=
  open k = own_fds pc s ∪ open k0 /\ own_fds pc s ## open k0
  /\ (pc = SP_accept \/ pc = SP_serve \/ pc = SP_exit -> 0 <= iSocket s)
  /\ (pc = SP_serve -> 0 <= client_fd s)
  /\ (pc = SP_done -> iSocket s = -1 /\ client_fd s = -1).

Definition server_inv (k0 : K) (w0 : W) (st : server_state K W) : Prop :=
  let '(ServerState pc n s k w) := st in
  (exists es, history psCbk tcp_server_recv w0 es w /\ lifecycle pc es)
  /\ fds_ok k0 pc s k
  /\ bFlagConnect s = bool_decide (pc = SP_serve)
  /\ bFlagInit s = bool_decide (pc <> SP_done).

(** The data callback leaves the descriptors alone; it may find the peer gone. *)
Lemma server_data_preserves f s k w s' k' w' :
  pv_cbk_data psCbk = Some f -> f tcp_server_recv (s, k) w = Some (s', k', w') ->
  exists b, s' = set_connect b s /\ open k' = open k.
Proof.
  intros Hf E.
  apply (only_reads f tcp_server_recv
    (λ sk, exists b, sk.1 = set_connect b s /\ open sk.2 = open k) (s, k) w (s', k') w' Hf); [| |done].
  - intros n [s1 k1] (b & Es & Ek). cbn [fst snd] in *. subst s1. unfold tcp_server_recv.
    pose proof (open_recv (client_fd s) n k1) as Eo. cbn [client_fd set_connect].
    destruct (sys_recv (client_fd s) n k1) as [[|x bs] k2]; cbn [fst snd] in *.
    + exists false. split; [done|congruence].
    + exists b. split; [done|congruence].
  - exists (bFlagConnect s). by destruct s.
Qed.

Lemma server_default_recv_preserves n s k bs s' k' :
  tcp_server_recv n (s, k) = (bs, (s', k')) ->
  (exists b, s' = set_connect b s) /\ open k' = open k.
Proof.
  unfold tcp_server_recv. pose proof (open_recv (client_fd s) n k) as Eo.
  destruct (sys_recv (client_fd s) n k) as [[|x l] k2]; intros [= <- <- <-]; cbn [snd] in Eo.
  - split; [by exists false|done].
  - split; [|done]. exists (bFlagConnect s). by destruct s.
Qed.

(** ** Each place of the thread keeps the invariant *)

Lemma open_inv k0 w0 n s k w :
  server_inv k0 w0 (ServerState SP_start n s k w) -> server_inv k0 w0 (tcp_server_open s k w).
Proof.
  intros ((es & Hh & Hl) & (E0 & _) & Hc & Hi). inversion Hl; subst es. clear Hl.
  change (bFlagConnect s = false) in Hc. change (bFlagInit s = true) in Hi.
  cbn [own_fds] in E0. rewrite union_empty_l_L in E0.
  pose proof (open_socket k) as Hs. unfold tcp_server_open.
  destruct (sys_socket k) as [fd k']. unfold makes_fd in Hs. cbn [fst snd] in Hs.
  rewrite E0 in Hs. clear E0 k. rename k' into k.
  assert (exists es, history psCbk tcp_server_recv w0 es w /\ lifecycle SP_failed es) as Hf
    by (exists []; split; [done|constructor]).
  assert (exists es, history psCbk tcp_server_recv w0 es w /\ lifecycle SP_accept es) as Ha
    by (exists []; split; [done|constructor]).
  destruct (Z.ltb_spec fd 0) as [Hlt|Hge].
  { destruct Hs as [[_ E]|[? _]]; [|lia]. split; [done|]. cbn. unfold fds_ok. cbn. set_solver. }
  destruct Hs as [[? _]|(_ & Hn & E)]; [lia|].
  cbn [iSocket set_iSocket psCfg]. pose proof (open_setsockopt fd k) as Eo.
  destruct (sys_setsockopt fd k) as [r k1]. cbn [snd] in Eo.
  pose proof (open_bind fd (wlocalPort (psCfg s)) k1) as Eb.
  destruct (sys_bind fd (wlocalPort (psCfg s)) k1) as [rb k2]. cbn [snd] in Eb.
  assert (open (sys_close fd k2) = open k0) as Hk2.
  { rewrite open_close, Eb, Eo, E. set_solver. }
  destruct (rb <? 0); [split; [done|]; unfold fds_ok; cbn; set_solver|].
  pose proof (open_listen fd k2) as El. destruct (sys_listen fd k2) as [rl k3]. cbn [snd] in El.
  assert (open (sys_close fd k3) = open k0) as Hk3.
  { rewrite open_close, El, Eb, Eo, E. set_solver. }
  destruct (negb (rl =? 0)); (split; [done|]); unfold fds_ok; cbn; [set_solver|].
  rewrite El, Eb, Eo, E. set_solver.
Qed.

Lemma accept_timeout_spec fd t k r k' :
  accept_timeout fd t k = (r, k') ->
  match r with
  | None => open k' = open k
  | Some a => makes_fd open k (a, k')
  end.
Proof.
  unfold accept_timeout, makes_fd. intros E. destruct (0 <? t).
  - pose proof (open_select fd k) as Es. destruct (sys_select fd k) as [sel k1]. cbn [snd] in Es.
    destruct (_ && _); [by injection E as <- <-|].
    destruct (_ =? -1); [injection E as <- <-; left; cbn; split; [lia|done]|].
    destruct (_ =? 0); [injection E as <- <-; left; cbn; split; [lia|done]|].
    pose proof (open_accept fd k1) as Ha. destruct (sys_accept fd k1) as [a k2].
    injection E as <- <-. unfold makes_fd in Ha. by rewrite Es in Ha.
  - pose proof (open_accept fd k) as Ha. destruct (sys_accept fd k) as [a k2].
    injection E as <- <-. exact Ha.
Qed.

Lemma accept_inv k0 w0 n s k w :
  server_inv k0 w0 (ServerState SP_accept n s k w) ->
  server_inv k0 w0 (tcp_server_accept psCbk n s k w).
Proof.
  intros ((es & Hh & Hl) & (E & Hd & Hi & _) & Hc & Hin). specialize (Hi (or_introl eq_refl)).
  unfold tcp_server_accept. destruct (accept_timeout (iSocket s) 1 k) as [r k'] eqn:Ea.
  apply accept_timeout_spec in Ea. cbn [own_fds] in *. inversion Hl; subst es.
  destruct r as [fd|]; cycle 1.
  { split; [by exists []|]. unfold fds_ok. cbn. rewrite Ea, E. set_solver. }
  unfold makes_fd in Ea. cbn [fst snd] in Ea. destruct (Z.ltb_spec fd 0) as [Hlt|Hge].
  - destruct Ea as [[_ Ek]|[? _]]; [|lia].
    assert (forall n', server_inv k0 w0 (ServerState SP_accept n' (set_client_fd fd s) k' w)) as HA.
    { intros n'. split; [by exists []|]. unfold fds_ok. cbn. rewrite Ek, E. set_solver. }
    assert (forall n', server_inv k0 w0 (ServerState SP_exit n' (set_client_fd fd s) k' w)) as HE.
    { intros n'. split; [exists []; split; [done|constructor]|]. unfold fds_ok. cbn.
      destruct (Z.ltb_spec fd 0); [|lia]. rewrite Ek, E. set_solver. }
    destruct (negb _); [destruct (_ <=? _)|]; auto.
  - destruct Ea as [[? _]|(_ & Hfd & Ek)]; [lia|]. split.
    + exists [EvConnect]. split; [by apply (history_snoc _ _ _ [] EvConnect w)|].
      apply (lc_serve 0).
    + unfold fds_ok. cbn [ss_pc own_fds set_connect set_client_fd iSocket client_fd bFlagConnect
        bFlagInit]. rewrite open_setsockopts, Ek, E in *. split; [|done].
      split; [set_solver|]. split; [set_solver|]. split; [done|]. split; [done|discriminate].
Qed.

(** A connection that goes on, or ends, after [m] calls with data. *)
Lemma server_serve_on k0 w0 n s k w :
  (exists m, history psCbk tcp_server_recv w0 (EvConnect :: replicate m EvData) w) ->
  fds_ok k0 SP_serve s k -> bFlagInit s = true ->
  server_inv k0 w0 (tcp_server_disconnect psCbk n s k w)
  /\ (bFlagConnect s = true -> server_inv k0 w0
        (if bFlagClose s then tcp_server_disconnect psCbk n s k w
         else ServerState SP_serve n s k w)).
Proof.
  intros [m Hh] (E & Hd & Hi & Hcl & _) Hin.
  assert (server_inv k0 w0 (tcp_server_disconnect psCbk n s k w)) as HD.
  { split; [exists ((EvConnect :: replicate m EvData) ++ [EvDisconnect]); split|].
    - by eapply history_snoc.
    - apply lc_exit.
    - specialize (Hcl eq_refl). specialize (Hi (or_intror (or_introl eq_refl))).
      split; [|by cbn]. unfold fds_ok. cbn [own_fds set_connect client_fd iSocket] in *.
      destruct (Z.ltb_spec (client_fd s) 0); [lia|]. done. }
  split; [done|]. intros Hb. destruct (bFlagClose s); [done|].
  split; [by eexists; split; [|constructor]|]. done.
Qed.

Lemma server_serve_inv k0 w0 n s k w st' :
  server_inv k0 w0 (ServerState SP_serve n s k w) ->
  tcp_server_serve psCbk n s k w = Some st' -> server_inv k0 w0 st'.
Proof.
  intros ((es & Hh & Hl) & Hf & Hc & Hin) E. inversion Hl as [| | |m| | |]; subst es. clear Hl.
  change (bFlagConnect s = true) in Hc. change (bFlagInit s = true) in Hin.
  unfold tcp_server_serve in E. pose proof (open_select (client_fd s) k) as Es.
  destruct (sys_select (client_fd s) k) as [sel k1]. cbn [snd] in Es.
  assert (forall b k2, open k2 = open k1 -> fds_ok k0 SP_serve (set_connect b s) k2) as Hk.
  { intros b k2 Ek. unfold fds_ok in *. rewrite Ek, Es. exact Hf. }
  assert (forall w', event_effect psCbk tcp_server_recv EvData w w' ->
    history psCbk tcp_server_recv w0 (EvConnect :: replicate (S m) EvData) w') as Hd.
  { intros w' He. rewrite replicate_S_end, app_comm_cons. by apply (history_snoc _ _ _ _ EvData w). }
  assert (set_connect true s = s) as Est by (destruct s; cbn in *; by subst).
  destruct (0 <? sel_ret sel); [destruct (sel_isset sel)|].
  - destruct (pv_cbk_data psCbk) as [f|] eqn:Ef.
    + apply bind_Some in E as ([[s2 k2] w2] & Ecb & E). pose proof Ecb as Ecb'.
      apply (server_data_preserves f) in Ecb' as (b & -> & Ek); [|done].
      destruct (server_serve_on k0 w0 0 (set_connect b s) k2 w2) as [H1 H2]; [|by apply Hk|done|].
      { exists (S m). apply Hd. cbn. rewrite Ef. by exists (s, k1), (set_connect b s, k2). }
      destruct b; cbn [negb bFlagConnect set_connect] in E; injection E as <-; auto.
    + destruct (tcp_server_recv 128 (s, k1)) as [bs [s2 k2]] eqn:Er.
      apply server_default_recv_preserves in Er as [[b ->] Ek].
      destruct (server_serve_on k0 w0 0 (set_connect b s) k2 w) as [H1 H2]; [by exists m|by apply Hk|done|].
      destruct (Zlen bs <=? 0); [by injection E as <-|].
      destruct b; cbn [negb bFlagConnect set_connect] in E; injection E as <-; auto.
  - injection E as <-. destruct (server_serve_on k0 w0 0 (set_connect true s) k1 w) as [_ H2];
      [by exists m|by apply Hk|done|]. rewrite Est in H2. auto.
  - assert (forall n' k2, open k2 = open k1 ->
      server_inv k0 w0 (tcp_server_disconnect psCbk n' s k2 w)
      /\ server_inv k0 w0 (if bFlagClose s then tcp_server_disconnect psCbk n' s k2 w
                           else ServerState SP_serve n' s k2 w)) as Hx.
    { intros n' k2 Ek. destruct (server_serve_on k0 w0 n' (set_connect true s) k2 w) as [H1 H2];
        [by exists m|by apply Hk|done|]. rewrite Est in H1, H2. auto. }
    destruct (_ <=? _); [by injection E as <-; apply Hx|].
    pose proof (open_tcp_state (iSocket s) k1) as Et.
    destruct (sys_tcp_state (iSocket s) k1) as [t k2]. cbn [snd] in Et.
    destruct (_ || _); injection E as <-; by apply Hx.
Qed.

Lemma server_finish_inv k0 w0 n s k w :
  server_inv k0 w0 (ServerState SP_exit n s k w) ->
  server_inv k0 w0 (tcp_server_finish psCbk n s k w).
Proof.
  intros ((es & Hh & Hl) & (E & Hd & Hi & _) & Hc & Hin). specialize (Hi ltac:(auto)).
  split; [exists (es ++ [EvDelete]); split; [by eapply history_snoc|by constructor]|].
  split; [|by cbn]. unfold fds_ok. cbn -[own_fds]. destruct (Z.leb_spec 0 (iSocket s)); [|lia].
  rewrite !open_close, E. cbn [own_fds] in *.
  assert (client_fd s < 0 -> client_fd s ∉ open k0) as Hneg.
  { intros Hn Ho%open_nonneg. lia. }
  split; [|split; [set_solver|by intuition discriminate]].
  destruct (Z.ltb_spec (client_fd s) 0); set_solver.
Qed.

Lemma server_step_inv k0 w0 st st' :
  server_step st st' -> server_inv k0 w0 st -> server_inv k0 w0 st'.
Proof.
  intros Hs Hinv. destruct Hs as [[pc n s k w] st' E|pc n s k w|pc n s k w bs].
  - destruct pc; cbn [tcp_server_task] in E; try discriminate E.
    + injection E as <-. by eapply open_inv.
    + injection E as <-. by apply accept_inv.
    + by eapply server_serve_inv.
    + injection E as <-. by apply server_finish_inv.
  - unfold tcp_server_close. destruct (bFlagConnect s); [|done].
    exact Hinv.
  - unfold tcp_server_send. destruct (bFlagConnect s); [|done].
    destruct Hinv as (He & (Ho & Hf) & Hc). split; [done|]. split; [|done]. cbn [snd].
    split; [|done]. by rewrite open_send.
Qed.

(** A server that [tcp_server_create] has just started. *)
Definition server_start (k0 : K) (w0 : W) (st : server_state K W) : Prop :=
  exists s0 cfg s, st = ServerState SP_start 0 s k0 w0 /\ bFlagInit s0 = false
    /\ tcp_server_create s0 (Some cfg) true true true k0 = (0, true, s, k0).

Lemma server_reach k0 w0 st0 st :
  server_start k0 w0 st0 -> rtc server_step st0 st -> server_inv k0 w0 st.
Proof.
  intros (s0 & cfg & s & -> & Hi & Hs) Hr. unfold tcp_server_create in Hs. rewrite Hi in Hs.
  injection Hs as <-.
  assert (server_inv k0 w0 (ServerState SP_start 0 (Build_tcp_server true false false
    (iSocket s0) (client_fd s0) cfg) k0 w0)) as H0.
  { split; [exists []; split; constructor|]. unfold fds_ok. cbn. set_solver. }
  revert H0. induction Hr as [|a b c Hab _ IH]; [done|]. intros Ha. apply IH.
  by eapply server_step_inv.
Qed.
End life.

(** ** Waiting *)

Section waiting.
Context {K W : Type} `{HK : Kernel K} (psCbk : tcp_cbk (tcp_server * K) W).
Implicit Types (s : tcp_server) (k : K) (w : W).

(** Nothing happens on a descriptor. *)
Definition silent (fd : Z) : Prop := forall k, sel_ret (sys_select fd k).1 = 0.

Lemma accept_turn n s k w :
  silent (iSocket s) -> 0 <= n < 65535 -> let t := wConnectTime (psCfg s) in
  exists k', tcp_server_task psCbk (ServerState SP_accept n s k w)
    = Some (ServerState (if negb (t =? 0) && (t <=? n + 1) then SP_exit else SP_accept)
              (if t =? 0 then n else n + 1) (set_client_fd (-1) s) k' w).
Proof.
  intros Hs Hn t. exists (sys_select (iSocket s) k).2. cbn [tcp_server_task].
  unfold tcp_server_accept, accept_timeout. change (0 <? 1) with true. specialize (Hs k).
  destruct (sys_select (iSocket s) k) as [sel k']. cbn [fst snd] in *. rewrite Hs.
  cbn [andb Z.ltb Z.compare Z.eqb psCfg set_client_fd]. fold t. rewrite u32_id by lia.
  destruct (t =? 0); [done|]. by destruct (t <=? n + 1).
Qed.

Lemma accept_waits m n s k w :
  silent (iSocket s) -> 0 <= n -> n + Z.of_nat m < 65535 ->
  wConnectTime (psCfg s) = 0 \/ n + Z.of_nat m < wConnectTime (psCfg s) ->
  exists c k', turns (tcp_server_task psCbk) m (ServerState SP_accept n s k w)
    = Some (ServerState SP_accept (if wConnectTime (psCfg s) =? 0 then n else n + Z.of_nat m)
              (set_client_fd c s) k' w).
Proof.
  revert n s k. induction m as [|m IH]; intros n s k Hs H0 Hn Ht.
  { exists (client_fd s), k. rewrite Z.add_0_r. destruct s. cbn. by destruct (_ =? 0). }
  cbn [turns]. destruct (accept_turn n s k w Hs ltac:(lia)) as [k1 ->]. cbn [mbind option_bind].
  set (t := wConnectTime (psCfg s)) in *.
  assert (negb (t =? 0) && (t <=? n + 1) = false) as -> by lia.
  destruct (IH (if t =? 0 then n else n + 1) (set_client_fd (-1) s) k1) as (c & k' & E);
    [done|destruct (t =? 0); lia|destruct (t =? 0); lia|..].
  { cbn [psCfg set_client_fd]. fold t. destruct (Z.eqb_spec t 0); lia. }
  cbn [psCfg set_client_fd] in E. fold t in E. exists c, k'. rewrite E.
  destruct (t =? 0); [done|]. by replace (n + Z.of_nat (S m)) with (n + 1 + Z.of_nat m) by lia.
Qed.

(** The liveness check of the code asks for the state of the listening socket, which is
    always "listen" (10). *)
Lemma serve_turn n s k w :
  silent (client_fd s) -> (forall k, (sys_tcp_state (iSocket s) k).1 = 10) ->
  0 <= n < 65535 -> bFlagClose s = false ->
  exists k', tcp_server_task psCbk (ServerState SP_serve n s k w)
    = Some (if wConnectTime (psCfg s) <=? n + 1
            then tcp_server_disconnect psCbk (n + 1) s k' w
            else ServerState SP_serve (n + 1) s k' w).
Proof.
  intros Hs Ht Hn Hc. cbn [tcp_server_task]. unfold tcp_server_serve. specialize (Hs k).
  destruct (sys_select (client_fd s) k) as [sel k']. cbn [fst] in Hs. rewrite Hs, Hc.
  cbn [Z.ltb Z.compare]. rewrite u32_id by lia. destruct (_ <=? _); [by eexists|].
  specialize (Ht k'). destruct (sys_tcp_state (iSocket s) k') as [st k2]. cbn [fst] in Ht.
  subst st. by eexists.
Qed.

Lemma serve_waits m n s k w :
  silent (client_fd s) -> (forall k, (sys_tcp_state (iSocket s) k).1 = 10) ->
  bFlagClose s = false -> 0 <= n -> n + Z.of_nat m < 65535 ->
  m = 0%nat \/ n + Z.of_nat m < wConnectTime (psCfg s) ->
  exists k', turns (tcp_server_task psCbk) m (ServerState SP_serve n s k w)
    = Some (ServerState SP_serve (n + Z.of_nat m) s k' w).
Proof.
  intros Hs Ht Hc. revert n k. induction m as [|m IH]; intros n k H0 Hn Hm.
  { exists k. by rewrite Z.add_0_r. }
  cbn [turns]. destruct (serve_turn n s k w Hs Ht ltac:(lia) Hc) as [k1 ->].
  cbn [mbind option_bind]. destruct (Z.leb_spec (wConnectTime (psCfg s)) (n + 1)); [lia|].
  destruct (IH (n + 1) k1) as [k' ->]; [lia|lia|lia|]. exists k'. do 2 f_equal. lia.
Qed.
End waiting.

(** ** Properties *)

(** C21: the life of a server. In every state that turns of its thread and calls of other
    threads, in any order, lead to from its creation: the module's callbacks have run in
    the order "connect, data any number of times, disconnect", each only if a client came,
    and the deletion last; the server says it is connected exactly while a client is
    served, on an open descriptor; and a thread that has ended leaves no descriptor open. It
    ends without deleting the server only when its port could not be opened. *)
Theorem tcp_server_lifecycle {K W} `{Kernel K} open unread `{!KernelLaws K open unread}
    (psCbk : tcp_cbk (tcp_server * K) W) `{!OnlyReads psCbk} k0 w0 st0 st :
  server_start k0 w0 st0 -> rtc (server_step psCbk) st0 st ->
  let s := ss_server st in
  (exists es, history psCbk tcp_server_recv w0 es (ss_world st) /\ lifecycle (ss_pc st) es)
  /\ (bFlagConnect s = true <-> ss_pc st = SP_serve)
  /\ (ss_pc st = SP_serve -> client_fd s ∈ open (ss_kernel st))
  /\ (ss_pc st = SP_done \/ ss_pc st = SP_failed -> open (ss_kernel st) = open k0)
  /\ (bFlagInit s = false <-> ss_pc st = SP_done).
Proof.
  intros H0 Hr. pose proof (server_reach open unread psCbk k0 w0 st0 st H0 Hr) as Hi.
  destruct st as [pc n s k w]. destruct Hi as (He & (Ho & _) & Hc & Hi).
  cbn [ss_pc ss_server ss_kernel ss_world]. rewrite Hc, Hi. split; [exact He|].
  rewrite bool_decide_eq_true, bool_decide_eq_false. split; [done|]. split; [|split].
  - intros ->. rewrite Ho. cbn. set_solver.
  - rewrite Ho. intros [-> | ->]; cbn; set_solver.
  - destruct (decide (pc = SP_done)); naive_solver.
Qed.

(** How long a server waits. Without a client, a server with the limit [t] (in seconds)
    waits through [t - 1] turns and the [t]th ends its accept loop; with the limit 0 it
    waits for ever. A client that stays silent is given up after [t] turns too, but there
    the limit 0 means that it is dropped after the first silent second; and the check of the
    connection never ends it sooner, since it looks at the listening socket. *)
Lemma tcp_server_patience {K W} `{Kernel K} (psCbk : tcp_cbk (tcp_server * K) W) s k w (m : nat) :
  let t := wConnectTime (psCfg s) in let turns := turns (tcp_server_task psCbk) in
  0 <= t < 65535 -> Z.of_nat m < 65535 ->
  (silent (iSocket s) -> t = 0 \/ Z.of_nat m < t ->
     exists st, turns m (ServerState SP_accept 0 s k w) = Some st
       /\ ss_pc st = SP_accept /\ ss_world st = w)
  /\ (silent (iSocket s) -> 0 < t -> Z.of_nat m = t ->
     exists st, turns m (ServerState SP_accept 0 s k w) = Some st
       /\ ss_pc st = SP_exit /\ ss_world st = w)
  /\ (silent (client_fd s) -> (forall k, (sys_tcp_state (iSocket s) k).1 = 10) ->
     bFlagClose s = false -> Z.of_nat m < t ->
     exists k', turns m (ServerState SP_serve 0 s k w)
       = Some (ServerState SP_serve (Z.of_nat m) s k' w))
  /\ (silent (client_fd s) -> (forall k, (sys_tcp_state (iSocket s) k).1 = 10) ->
     bFlagClose s = false -> Z.of_nat m = Z.max 1 t ->
     exists k', turns m (ServerState SP_serve 0 s k w)
       = Some (tcp_server_disconnect psCbk (Z.of_nat m) s k' w)).
Proof.
  intros t turn Ht Hm. repeat split.
  - intros Hs Hmt. destruct (accept_waits psCbk m 0 s k w Hs) as (c & k' & E); [lia|lia|lia|].
    by eexists.
  - intros Hs H0 Hmt. destruct m as [|m]; [lia|].
    destruct (accept_waits psCbk m 0 s k w Hs) as (c & k' & E); [lia|lia|fold t; lia|].
    fold t in E. assert ((t =? 0) = false) as Et by lia. rewrite Et, Z.add_0_l in E.
    destruct (accept_turn psCbk (Z.of_nat m) (set_client_fd c s) k' w Hs ltac:(lia)) as [k2 E2].
    cbn [psCfg set_client_fd] in E2. fold t in E2. rewrite Et in E2.
    assert ((t <=? Z.of_nat m + 1) = true) as El by lia. rewrite El in E2. eexists. split.
    + unfold turn. replace (S m) with (m + 1)%nat by lia. rewrite turns_add, E.
      cbn [mbind option_bind turns]. rewrite E2. reflexivity.
    + done.
  - intros Hs Hst Hc Hmt. apply (serve_waits psCbk m 0); by try lia.
  - intros Hs Hst Hc Hmt. destruct m as [|m]; [lia|].
    destruct (serve_waits psCbk m 0 s k w Hs Hst Hc) as [k' E]; [lia|lia| |].
    { fold t. lia. }
    destruct (serve_turn psCbk (Z.of_nat m) s k' w Hs Hst ltac:(lia) Hc) as [k2 E2].
    exists k2. unfold turn. replace (S m) with (m + 1)%nat by lia. rewrite turns_add.
    rewrite Z.add_0_l in E. rewrite E. cbn [mbind option_bind turns]. rewrite E2.
    fold t. destruct (Z.leb_spec t (Z.of_nat m + 1)); [|lia]. cbn [mbind option_bind].
    do 2 f_equal. lia.
Qed.

(** ** Witnesses *)

Definition demo_cfg : tcp_server_cfg := {| wConnectTime := 5; wlocalPort := 8070; ulocalIp := 0 |}.
Definition demo_server : tcp_server :=
  {| bFlagInit := true; bFlagConnect := false; bFlagClose := false; iSocket := 0; client_fd := 0;
     psCfg := demo_cfg |}.

(** A module that counts its calls. *)
Definition demo_cbk {K} : tcp_cbk (tcp_server * K) (list tcp_event) := {|
  pv_cbk_connect := Some (λ w, w ++ [EvConnect]);
  pv_cbk_data := Some (λ recv s w, Some ((recv 4 s).2, w ++ [EvData]));
  pv_cbk_disconnect := Some (λ w, w ++ [EvDisconnect]);
  pv_cbk_delete := Some (λ w, w ++ [EvDelete])
|}.

#[export] Instance demo_only_reads {K} : OnlyReads (@demo_cbk K).
Proof. intros f recv P s w s' w' [= <-] HP Hs [= <- <-]. by apply HP. Qed.

(** A client comes, sends six bytes and stays silent. *)
Definition demo_kernel : replay := Replay ∅ [0; 0; 0; 0; 1; 0; 0; 0; 0; 0] [1; 2; 3; 4; 5; 6] [].

Lemma tcp_server_lifecycle_witness :
  (exists st, rtc (server_step demo_cbk) (ServerState SP_start 0 demo_server demo_kernel []) st
    /\ ss_pc st = SP_done
    /\ ss_world st = [EvConnect; EvData; EvData; EvDisconnect; EvDelete]
    /\ rp_visible (ss_kernel st) = ∅).
Proof.
  destruct (turns (tcp_server_task demo_cbk) 6 (ServerState SP_start 0 demo_server demo_kernel []))
    as [st|] eqn:E; [|by vm_compute in E].
  assert (rtc (server_step demo_cbk) (ServerState SP_start 0 demo_server demo_kernel []) st) as Hr
    by (eapply turns_rtc; [exact (step_task _)|exact E]).
  exists st.
  destruct (tcp_server_lifecycle rp_visible (λ _, rp_input) demo_cbk demo_kernel [] _ st
    ltac:(exists (set_init false demo_server), demo_cfg, demo_server; repeat split) Hr)
    as (_ & _ & _ & Hopen & _).
  assert (ss_pc st = SP_done) as Hpc by (vm_compute in E; injection E as <-; reflexivity).
  split; [exact Hr|]. split; [exact Hpc|]. split.
  - vm_compute in E. injection E as <-. reflexivity.
  - rewrite Hopen by (by left). reflexivity.
Defined.

(** A kernel in which nothing ever happens. *)
#[local] Instance quiet_kernel : Kernel unit := {
  sys_socket k := (3, k); sys_bind _ _ k := (0, k); sys_listen _ k := (0, k);
  sys_select _ k := (Selected 0 0 false, k); sys_accept _ k := (-1, k);
  sys_connect _ _ _ k := (-1, k); sys_tcp_state _ k := (10, k); sys_recv _ _ k := ([], k);
  sys_send _ _ k := k; sys_recvfrom _ _ k := (None, k); sys_sendto _ _ _ _ k := (-1, k);
  sys_setsockopt _ k := (0, k); sys_close _ k := k
}.

Lemma tcp_server_patience_witness :
  (exists st, turns (tcp_server_task demo_cbk) 5 (ServerState SP_accept 0 demo_server tt [])
      = Some st /\ ss_pc st = SP_exit /\ ss_world st = []).
Proof.
  destruct (tcp_server_patience demo_cbk demo_server tt [] 5) as (_ & H & _); [by_eval|by_eval|].
  apply H; [intros k; reflexivity|by_eval|reflexivity].
Defined.
