(* ===== verification/TcpClient.v ===== *)
(** * TCP client ([src/srv/eth_link/socket/tcp_client.c])

    A client connects to its peer again and again, passes what arrives to the module that
    made it, and ends when it is closed or the peer refuses it too often.  Its thread is a
    machine that makes one pass of a loop per turn; closing and sending are steps of other
    threads between turns. *)

From S2P Require Import Prelude Sockets.
Local Open Scope list_scope.
Local Open Scope Z_scope.

(** ** The code *)

Record tcp_client_cfg := { wConnectTime : Z; wRemotePort : Z; uRemoteIp : Z }.

Record tcp_client := {
  bFlagInit : bool; bFlagConnect : bool; bFlagClose : bool; iSocket : Z; psCfg : tcp_client_cfg
}.

Definition set_flags (init connect close : bool) (c : tcp_client) : tcp_client :=
  {| bFlagInit := init; bFlagConnect := connect; bFlagClose := close;
     iSocket := iSocket c; psCfg := psCfg c |}.
Definition set_connect (b : bool) (c : tcp_client) : tcp_client :=
  set_flags (bFlagInit c) b (bFlagClose c) c.
Definition set_iSocket (fd : Z) (c : tcp_client) : tcp_client :=
  {| bFlagInit := bFlagInit c; bFlagConnect := bFlagConnect c; bFlagClose := bFlagClose c;
     iSocket := fd; psCfg := psCfg c |}.

(** Where the thread is: at the outer loop, at the loop of a connection, after the loops,
    returned. *)
Inductive client_pc := CP_try | CP_serve | CP_exit | CP_done.

#[export] Instance client_pc_eq_dec : EqDecision client_pc.
Proof. solve_decision. Defined.

Section tcp_client.
Context {K W : Type} `{!Kernel K}.

Definition tcp_client_recv (uSize : Z) (ck : tcp_client * K) : list Z * (tcp_client * K) :=
  let '(c, k) := ck in
  let '(bs, k) := sys_recv (iSocket c) uSize k in
  match bs with
  | [] => ([], (set_connect false c, k))
  | _ => (bs, (c, k))
  end.

Record client_state := ClientState {
  cs_pc : client_pc; cs_uConnectCount : Z; cs_client : tcp_client; cs_kernel : K; cs_world : W
}.

Section task.
Context (psCbk : tcp_cbk (tcp_client * K) W).
Implicit Types (c : tcp_client) (k : K) (w : W).

(** One pass of the outer loop, up to the loop of the connection. *)
Definition tcp_client_try (n : Z) c k w : client_state :=
  if bFlagClose c then ClientState CP_exit n c k w else
  let '(_, k) := sys_setsockopt (iSocket c) k in
  let '(iRet, k) := sys_connect (iSocket c) (uRemoteIp (psCfg c)) (wRemotePort (psCfg c)) k in
  if iRet <? 0 then
    let again n :=
      let k := sys_close (iSocket c) k in
      let '(fd, k) := sys_socket k in
      ClientState CP_try n (set_iSocket fd c) k w in
    let t := wConnectTime (psCfg c) in
    if negb (t =? 0) then
      let n := u32 (n + 1) in
      if t <=? n then ClientState CP_exit n c k w else again n
    else again n
  else
    ClientState CP_serve 0 (set_connect true c) k (call_cbk (pv_cbk_connect psCbk) w).

(** The end of a connection. *)
Definition tcp_client_disconnect (n : Z) c k w : client_state :=
  ClientState CP_try n (set_connect false c) k (call_cbk (pv_cbk_disconnect psCbk) w).

(** One pass of the loop of a connection. *)
Definition tcp_client_serve (n : Z) c k w : option client_state :=
  let next c k w :=
    if bFlagClose c then tcp_client_disconnect n c k w else ClientState CP_serve n c k w in
  let '(sel, k) := sys_select (iSocket c) k in
  if 0 <? sel_ret sel then
    if sel_isset sel then
      match pv_cbk_data psCbk with
      | Some cbk =>
          '(c, k, w) ← cbk tcp_client_recv (c, k) w;
          if negb (bFlagConnect c) then Some (tcp_client_disconnect n c k w)
          else Some (next c k w)
      | None =>
          let '(bs, (c, k)) := tcp_client_recv 128 (c, k) in
          if Zlen bs <=? 0 then Some (tcp_client_disconnect n c k w)
          else if negb (bFlagConnect c) then Some (tcp_client_disconnect n c k w)
          else Some (next c k w)
      end
    else Some (next c k w)
  else if (sel_ret sel <? 0) && ((sel_errno sel =? EBADF) && sel_isset sel)
  then Some (tcp_client_disconnect n c k w)
  else Some (next c k w).

(** After the loops. *)
Definition tcp_client_finish (n : Z) c k w : client_state :=
  let k := if 0 <=? iSocket c then sys_close (iSocket c) k else k in
  let c := set_flags false (bFlagConnect c) false (set_iSocket (-1) c) in
  ClientState CP_done n c k (call_cbk (pv_cbk_delete psCbk) w).

(** One turn of the thread. *)
Definition tcp_client_task (st : client_state) : option client_state :=
  let '(ClientState pc n c k w) := st in
  match pc with
  | CP_try => Some (tcp_client_try n c k w)
  | CP_serve => tcp_client_serve n c k w
  | CP_exit => Some (tcp_client_finish n c k w)
  | CP_done => None
  end.
End task.

(** The result, whether the thread runs, the object and the kernel; the flags say whether
    the callback table is there and whether the mutex and the thread can be made. *)
Definition tcp_client_create (c : tcp_client) (cfg : option tcp_client_cfg) (cbk : bool)
    (mutex_ok thread_ok : bool) (k : K) : Z * bool * tcp_client * K :=
  if bFlagInit c then (0, false, c, k) else
  let c := set_flags true false false c in
  let fail c := set_flags false false false c in
  match cfg with
  | Some cfg =>
      if cbk then
        let c := {| bFlagInit := bFlagInit c; bFlagConnect := bFlagConnect c;
                    bFlagClose := bFlagClose c; iSocket := iSocket c; psCfg := cfg |} in
        let '(fd, k) := sys_socket k in
        let c := set_iSocket fd c in
        if 0 <=? fd then
          let k := Nat.iter 5 (λ k, (sys_setsockopt (iSocket c) k).2) k in
          if mutex_ok then
            if thread_ok then (0, true, c, k)
            else (-2, false, fail c, sys_close (iSocket c) k)
          else (-2, false, fail c, sys_close (iSocket c) k)
        else (-2, false, fail c, k)
      else (-1, false, fail c, k)
  | None => (-1, false, fail c, k)
  end.

Definition tcp_client_send (c : tcp_client) (pvData : list Z) (k : K) : Z * K :=
  if bFlagConnect c then (0, sys_send (iSocket c) pvData k) else (-2, k).

Definition tcp_client_close (c : tcp_client) : Z * tcp_client :=
  if bFlagConnect c then (0, set_flags (bFlagInit c) (bFlagConnect c) true c) else (0, c).
End tcp_client.

Arguments client_state : clear implicits.

(** ** The life of a client *)

(** The calls of [ns] connections that are over, the [i]th with [ns !! i] calls with data. *)
Definition sessions (ns : list nat) : list tcp_event :=
  concat ((λ n, (EvConnect :: replicate n EvData) ++ [EvDisconnect]) <$> ns).

Inductive lifecycle : client_pc -> list tcp_event -> Prop :=
  | lc_try ns : lifecycle CP_try (sessions ns)
  | lc_serve ns n : lifecycle CP_serve (sessions ns ++ EvConnect :: replicate n EvData)
  | lc_exit ns : lifecycle CP_exit (sessions ns)
  | lc_done ns : lifecycle CP_done (sessions ns ++ [EvDelete]).

Lemma sessions_snoc ns n :
  sessions (ns ++ [n]) = (sessions ns ++ EvConnect :: replicate n EvData) ++ [EvDisconnect].
Proof. unfold sessions. rewrite fmap_app, concat_app. cbn. by rewrite app_nil_r, <-!app_assoc. Qed.

(** The descriptors that belong to the client. *)
Definition own_fds (pc : client_pc) (c : tcp_client) : gset Z :=
  match pc with
  | CP_done => ∅
  | _ => if iSocket c <? 0 then ∅ else {[iSocket c]}
  end.

Section life.
Context {K W : Type} `{HK : Kernel K} (open : K -> gset Z) (unread : Z -> K -> list Z).
Context `{HL : !KernelLaws K open unread}.
Context (psCbk : tcp_cbk (tcp_client * K) W) `{HC : !OnlyReads psCbk}.
Implicit Types (c : tcp_client) (k : K) (w : W) (st : client_state K W).

(** A turn of the thread, or a call that another thread makes between turns. *)
Inductive client_step : client_state K W -> client_state K W -> Prop :=
  | step_task st st' : tcp_client_task psCbk st = Some st' -> client_step st st'
  | step_close pc n c k w :
      client_step (ClientState pc n c k w) (ClientState pc n (tcp_client_close c).2 k w)
  | step_send pc n c k w bs :
      client_step (ClientState pc n c k w) (ClientState pc n c (tcp_client_send c bs k).2 w).

Definition fds_ok (o0 : gset Z) (pc : client_pc) c k : Prop :=
  open k = own_fds pc c ∪ o0 /\ own_fds pc c ## o0.

Definition client_inv (o0 : gset Z) (w0 : W) (st : client_state K W) : Prop :=
  let '(ClientState pc n c k w) := st in
  (exists es, history psCbk tcp_client_recv w0 es w /\ lifecycle pc es)
  /\ fds_ok o0 pc c k
  /\ bFlagConnect c = bool_decide (pc = CP_serve)
  /\ bFlagInit c = bool_decide (pc <> CP_done).

(** The data callback leaves the descriptors alone; it may find the peer gone. *)
Lemma client_data_preserves f c k w c' k' w' :
  pv_cbk_data psCbk = Some f -> f tcp_client_recv (c, k) w = Some (c', k', w') ->
  exists b, c' = set_connect b c /\ open k' = open k.
Proof.
  intros Hf E.
  apply (only_reads f tcp_client_recv
    (λ ck, exists b, ck.1 = set_connect b c /\ open ck.2 = open k) (c, k) w (c', k') w' Hf); [| |done].
  - intros n [c1 k1] (b & Es & Ek). cbn [fst snd] in *. subst c1. unfold tcp_client_recv.
    pose proof (open_recv (iSocket c) n k1) as Eo. cbn [iSocket set_connect set_flags].
    destruct (sys_recv (iSocket c) n k1) as [[|x bs] k2]; cbn [fst snd] in *.
    + exists false. split; [done|congruence].
    + exists b. split; [done|congruence].
  - exists (bFlagConnect c). by destruct c.
Qed.

Lemma client_default_recv_preserves n c k bs c' k' :
  tcp_client_recv n (c, k) = (bs, (c', k')) ->
  (exists b, c' = set_connect b c) /\ open k' = open k.
Proof.
  unfold tcp_client_recv. pose proof (open_recv (iSocket c) n k) as Eo.
  destruct (sys_recv (iSocket c) n k) as [[|x l] k2]; intros [= <- <- <-]; cbn [snd] in Eo.
  - split; [by exists false|done].
  - split; [|done]. exists (bFlagConnect c). by destruct c.
Qed.

(** ** Each place of the thread keeps the invariant *)

Lemma fds_same o0 pc pc' c c' k k' :
  fds_ok o0 pc c k -> pc <> CP_done -> pc' <> CP_done -> iSocket c' = iSocket c ->
  open k' = open k -> fds_ok o0 pc' c' k'.
Proof.
  unfold fds_ok, own_fds. intros H H1 H2 -> ->. destruct pc; try done; by destruct pc'.
Qed.

(** After a refusal the descriptor is replaced. *)
Lemma fds_again o0 pc c k :
  fds_ok o0 pc c k -> pc <> CP_done -> set_Forall (λ fd, 0 <= fd) o0 ->
  let r := sys_socket (sys_close (iSocket c) k) in
  fds_ok o0 CP_try (set_iSocket r.1 c) r.2.
Proof.
  intros [E Hd] Hpc H0. pose proof (open_socket (sys_close (iSocket c) k)) as Hs.
  cbn zeta. destruct (sys_socket _) as [fd k']. unfold makes_fd in Hs. cbn [fst snd] in *.
  rewrite open_close in Hs. unfold fds_ok. cbn [own_fds iSocket set_iSocket].
  assert (open k ∖ {[iSocket c]} = o0) as Eo.
  { rewrite E. unfold own_fds in *. assert (iSocket c < 0 -> iSocket c ∉ o0) as Hn
      by (intros Hlt Hin; specialize (H0 _ Hin); cbn in H0; lia).
    destruct pc; try done; destruct (Z.ltb_spec (iSocket c) 0); set_solver. }
  rewrite Eo in Hs. destruct (Z.ltb_spec fd 0).
  - destruct Hs as [[_ ->]|[? _]]; [set_solver|lia].
  - destruct Hs as [[? _]|(_ & Hn & ->)]; [lia|set_solver].
Qed.

Lemma try_inv o0 w0 n c k w :
  set_Forall (λ fd, 0 <= fd) o0 ->
  client_inv o0 w0 (ClientState CP_try n c k w) -> client_inv o0 w0 (tcp_client_try psCbk n c k w).
Proof.
  intros H0 ((es & Hh & Hl) & Hf & Hc & Hi). inversion Hl as [ns| | |]; subst es.
  change (bFlagConnect c = false) in Hc. change (bFlagInit c = true) in Hi.
  unfold tcp_client_try. destruct (bFlagClose c).
  { split; [eexists; split; [done|constructor]|]. by split. }
  pose proof (open_setsockopt (iSocket c) k) as E1. destruct (sys_setsockopt _ k) as [r1 k1].
  cbn [snd] in E1.
  pose proof (open_connect (iSocket c) (uRemoteIp (psCfg c)) (wRemotePort (psCfg c)) k1) as E2.
  destruct (sys_connect _ _ _ k1) as [r2 k2]. cbn [snd] in E2.
  assert (fds_ok o0 CP_try c k2) as Hf2 by (eapply fds_same; [exact Hf|done|done|done|congruence]).
  destruct (r2 <? 0).
  - assert (forall m, client_inv o0 w0 (let '(fd, k) := sys_socket (sys_close (iSocket c) k2) in
      ClientState CP_try m (set_iSocket fd c) k w)) as Hag.
    { intros m. pose proof (fds_again o0 CP_try c k2 Hf2 ltac:(done) H0) as Ha. cbn zeta in Ha.
      destruct (sys_socket _) as [fd k3]. split; [by eexists|]. by split. }
    destruct (negb _); [|apply Hag]. destruct (_ <=? _); [|apply Hag].
    split; [eexists; split; [done|constructor]|]. split; [|done].
    by eapply fds_same.
  - split.
    + exists (sessions ns ++ [EvConnect]). split; [by apply (history_snoc _ _ _ _ EvConnect w)|].
      apply (lc_serve ns 0).
    + split; [|by split]. by eapply fds_same.
Qed.

(** A connection that goes on, or ends. *)
Lemma client_serve_on o0 w0 n c k w :
  (exists ns m, history psCbk tcp_client_recv w0 (sessions ns ++ EvConnect :: replicate m EvData) w) ->
  fds_ok o0 CP_serve c k -> bFlagInit c = true ->
  client_inv o0 w0 (tcp_client_disconnect psCbk n c k w)
  /\ (bFlagConnect c = true -> client_inv o0 w0
        (if bFlagClose c then tcp_client_disconnect psCbk n c k w
         else ClientState CP_serve n c k w)).
Proof.
  intros (ns & m & Hh) Hf Hin.
  assert (client_inv o0 w0 (tcp_client_disconnect psCbk n c k w)) as HD.
  { split; [exists (sessions (ns ++ [m])); split; [|constructor]|].
    - rewrite sessions_snoc. by eapply history_snoc.
    - split; [|by split]. by eapply fds_same. }
  split; [done|]. intros Hb. destruct (bFlagClose c); [done|].
  split; [by eexists; split; [|constructor]|]. by split.
Qed.

Lemma client_serve_inv o0 w0 n c k w st' :
  client_inv o0 w0 (ClientState CP_serve n c k w) ->
  tcp_client_serve psCbk n c k w = Some st' -> client_inv o0 w0 st'.
Proof.
  intros ((es & Hh & Hl) & Hf & Hc & Hin) E. inversion Hl as [|ns m| |]; subst es. clear Hl.
  change (bFlagConnect c = true) in Hc. change (bFlagInit c = true) in Hin.
  unfold tcp_client_serve in E. pose proof (open_select (iSocket c) k) as Es.
  destruct (sys_select (iSocket c) k) as [sel k1]. cbn [snd] in Es.
  assert (forall b k2, open k2 = open k1 -> fds_ok o0 CP_serve (set_connect b c) k2) as Hk.
  { intros b k2 Ek. eapply fds_same; [exact Hf|done|done|done|congruence]. }
  assert (forall w', event_effect psCbk tcp_client_recv EvData w w' ->
    exists ns m, history psCbk tcp_client_recv w0 (sessions ns ++ EvConnect :: replicate m EvData) w')
    as Hd.
  { intros w' He. exists ns, (S m). rewrite replicate_S_end, app_comm_cons, app_assoc.
    by apply (history_snoc _ _ _ _ EvData w). }
  assert (set_connect true c = c) as Est by (destruct c; cbn in *; by subst).
  assert (client_inv o0 w0 (tcp_client_disconnect psCbk n c k1 w)
    /\ client_inv o0 w0 (if bFlagClose c then tcp_client_disconnect psCbk n c k1 w
                         else ClientState CP_serve n c k1 w)) as [Hx Hy].
  { destruct (client_serve_on o0 w0 n (set_connect true c) k1 w) as [H1 H2];
      [by exists ns, m|by apply Hk|done|]. rewrite Est in H1, H2. auto. }
  destruct (0 <? sel_ret sel); [destruct (sel_isset sel)|].
  - destruct (pv_cbk_data psCbk) as [f|] eqn:Ef.
    + apply bind_Some in E as ([[c2 k2] w2] & Ecb & E). pose proof Ecb as Ecb'.
      apply (client_data_preserves f) in Ecb' as (b & -> & Ek); [|done].
      destruct (client_serve_on o0 w0 n (set_connect b c) k2 w2) as [H1 H2]; [|by apply Hk|done|].
      { apply Hd. cbn. rewrite Ef. by exists (c, k1), (set_connect b c, k2). }
      destruct b; cbn [negb bFlagConnect set_connect set_flags] in E; injection E as <-; auto.
    + destruct (tcp_client_recv 128 (c, k1)) as [bs [c2 k2]] eqn:Er.
      apply client_default_recv_preserves in Er as [[b ->] Ek].
      destruct (client_serve_on o0 w0 n (set_connect b c) k2 w) as [H1 H2];
        [by exists ns, m|by apply Hk|done|].
      destruct (Zlen bs <=? 0); [by injection E as <-|].
      destruct b; cbn [negb bFlagConnect set_connect set_flags] in E; injection E as <-; auto.
  - by injection E as <-.
  - destruct (_ && _); by injection E as <-.
Qed.

Lemma client_finish_inv o0 w0 n c k w :
  client_inv o0 w0 (ClientState CP_exit n c k w) ->
  client_inv o0 w0 (tcp_client_finish psCbk n c k w).
Proof.
  intros ((es & Hh & Hl) & (E & Hd) & Hc & Hin). inversion Hl as [| |ns|]; subst es.
  split; [exists (sessions ns ++ [EvDelete]); split; [by eapply history_snoc|constructor]|].
  split; [|by split]. unfold fds_ok in *. cbn [own_fds] in *.
  destruct (Z.leb_spec 0 (iSocket c)) as [H1|H1]; destruct (Z.ltb_spec (iSocket c) 0) as [H2|H2];
    try lia; rewrite ?open_close, E; set_solver.
Qed.

Lemma client_step_inv o0 w0 st st' :
  set_Forall (λ fd, 0 <= fd) o0 ->
  client_step st st' -> client_inv o0 w0 st -> client_inv o0 w0 st'.
Proof.
  intros H0 Hs Hinv. destruct Hs as [[pc n c k w] st' E|pc n c k w|pc n c k w bs].
  - destruct pc; cbn [tcp_client_task] in E; try discriminate E.
    + injection E as <-. by apply try_inv.
    + by eapply client_serve_inv.
    + injection E as <-. by apply client_finish_inv.
  - unfold tcp_client_close. destruct (bFlagConnect c) eqn:Eb; [|done].
    destruct Hinv as (He & Hf & Hc & Hi). rewrite Eb in Hc. split; [exact He|].
    split; [by destruct pc|]. by split.
  - unfold tcp_client_send. destruct (bFlagConnect c); [|done].
    destruct Hinv as (He & (Ho & Hd) & Hc). split; [done|]. split; [|done]. cbn [snd].
    split; [|done]. by rewrite open_send.
Qed.

(** ** Creation *)

Lemma client_create_spec c cfg cbk mutex_ok thread_ok k :
  bFlagInit c = false ->
  let '(ret, started, c', k') := tcp_client_create c cfg cbk mutex_ok thread_ok k in
  (started = true <-> ret = 0)
  /\ (ret = 0 -> exists g, cfg = Some g /\ cbk = true /\ 0 <= iSocket c' /\ psCfg c' = g
       /\ iSocket c' ∉ open k /\ open k' = {[iSocket c']} ∪ open k
       /\ bFlagInit c' = true /\ bFlagConnect c' = false /\ bFlagClose c' = false)
  /\ (ret <> 0 -> bFlagInit c' = false /\ open k' = open k
       /\ (ret = -1 <-> cfg = None \/ cbk = false)).
Proof.
  intros Hi. unfold tcp_client_create. rewrite Hi.
  destruct cfg as [g|]; [|cbn; intuition done].
  destruct cbk; [|cbn; intuition done].
  pose proof (open_socket k) as Hs. destruct (sys_socket k) as [fd k1]. unfold makes_fd in Hs.
  cbn [fst snd] in Hs. destruct (Z.leb_spec 0 fd) as [H0|H0].
  - destruct Hs as [[? _]|(_ & Hn & E)]; [lia|].
    cbn [iSocket set_iSocket].
    assert (open (sys_close fd (Nat.iter 5 (λ k, (sys_setsockopt fd k).2) k1)) = open k) as Hcl.
    { rewrite open_close, open_setsockopts, E. set_solver. }
    destruct mutex_ok; [destruct thread_ok|].
    + split; [done|]. split; [|done]. intros _. exists g. rewrite open_setsockopts. done.
    + split; [done|]. split; [done|]. intros _. split; [done|]. split; [done|]. naive_solver.
    + split; [done|]. split; [done|]. intros _. split; [done|]. split; [done|]. naive_solver.
  - destruct Hs as [[_ E]|[? _]]; [|lia]. split; [done|]. split; [done|]. intros _.
    split; [done|]. split; [done|]. naive_solver.
Qed.

(** A client whose creation succeeded, before the first turn of its thread. *)
Definition client_start (o0 : gset Z) (w0 : W) (st : client_state K W) : Prop :=
  exists c0 cfg mutex_ok thread_ok k0 c k, st = ClientState CP_try 0 c k w0
    /\ open k0 = o0 /\ bFlagInit c0 = false
    /\ tcp_client_create c0 cfg true mutex_ok thread_ok k0 = (0, true, c, k).

Lemma client_reach o0 w0 st0 st :
  client_start o0 w0 st0 -> rtc client_step st0 st -> client_inv o0 w0 st.
Proof.
  intros (c0 & cfg & mo & tho & k0 & c & k & -> & <- & Hi & Hs) Hr.
  pose proof (client_create_spec c0 cfg true mo tho k0 Hi) as HC0. rewrite Hs in HC0.
  destruct HC0 as (_ & H & _). destruct (H eq_refl) as (g & _ & _ & H0 & _ & Hn & Ho & H1 & H2 & _).
  assert (client_inv (open k0) w0 (ClientState CP_try 0 c k w0)) as Hinv.
  { split; [exists []; split; [constructor|apply (lc_try [])]|]. split; [|by rewrite H1, H2].
    unfold fds_ok. cbn [own_fds]. destruct (Z.ltb_spec (iSocket c) 0); [lia|]. set_solver. }
  assert (set_Forall (λ fd, 0 <= fd) (open k0)) as Hpos by (intros fd; apply open_nonneg).
  revert Hinv. clear -Hr Hpos HL HC. induction Hr as [|s1 s2 s3 Hab _ IH]; [done|].
  intros Ha. apply IH. by eapply client_step_inv.
Qed.
End life.

(** ** Refusals *)

Section refused.
Context {K W : Type} `{HK : Kernel K} (psCbk : tcp_cbk (tcp_client * K) W).
Context (Hno : forall fd ip port k, (sys_connect fd ip port k).1 < 0).
Implicit Types (c : tcp_client) (k : K) (w : W).

Lemma refused_turn n c k w :
  bFlagClose c = false -> 0 <= n < 65535 -> let t := wConnectTime (psCfg c) in
  exists c' k', psCfg c' = psCfg c /\ bFlagClose c' = false
    /\ tcp_client_task psCbk (ClientState CP_try n c k w)
       = Some (ClientState (if negb (t =? 0) && (t <=? n + 1) then CP_exit else CP_try)
                 (if t =? 0 then n else n + 1) c' k' w).
Proof.
  intros Hc Hn t. cbn [tcp_client_task]. unfold tcp_client_try. rewrite Hc.
  destruct (sys_setsockopt (iSocket c) k) as [r k1].
  specialize (Hno (iSocket c) (uRemoteIp (psCfg c)) (wRemotePort (psCfg c)) k1).
  destruct (sys_connect _ _ _ k1) as [r2 k2]. cbn [fst] in Hno. fold t. rewrite u32_id by lia.
  destruct (Z.ltb_spec r2 0); [|lia]. destruct (sys_socket (sys_close (iSocket c) k2)) as [fd k3].
  destruct (t =? 0); [|destruct (t <=? n + 1)]; cbn [negb andb].
  - exists (set_iSocket fd c), k3. done.
  - exists c, k2. done.
  - exists (set_iSocket fd c), k3. done.
Qed.

Lemma refused_waits m n c k w :
  bFlagClose c = false -> 0 <= n -> n + Z.of_nat m < 65535 ->
  wConnectTime (psCfg c) = 0 \/ n + Z.of_nat m < wConnectTime (psCfg c) ->
  exists c' k', psCfg c' = psCfg c /\ bFlagClose c' = false
    /\ turns (tcp_client_task psCbk) m (ClientState CP_try n c k w)
       = Some (ClientState CP_try (if wConnectTime (psCfg c) =? 0 then n else n + Z.of_nat m)
                 c' k' w).
Proof.
  revert n c k. induction m as [|m IH]; intros n c k Hc H0 Hn Ht.
  { exists c, k. rewrite Z.add_0_r. split; [done|]. split; [done|]. cbn. by destruct (_ =? 0). }
  cbn [turns]. destruct (refused_turn n c k w Hc ltac:(lia)) as (c1 & k1 & E1 & Hc1 & ->).
  cbn [mbind option_bind]. set (t := wConnectTime (psCfg c)) in *.
  assert (negb (t =? 0) && (t <=? n + 1) = false) as -> by lia.
  destruct (IH (if t =? 0 then n else n + 1) c1 k1) as (c' & k' & E & Hc' & Et); rewrite ?E1 in *;
    [done|destruct (t =? 0); lia|destruct (t =? 0); lia|fold t; destruct (Z.eqb_spec t 0); lia|].
  exists c', k'. split; [done|]. split; [done|]. rewrite Et. fold t. destruct (t =? 0); [done|].
  by replace (n + Z.of_nat (S m)) with (n + 1 + Z.of_nat m) by lia.
Qed.
End refused.

(** ** Properties *)

(** C30: the life of a client. In every state that turns of its thread and calls of other
    threads, in any order, lead to from a successful creation: the module's callbacks have
    run as a sequence of connections, each "connect, data any number of times, disconnect",
    and the deletion last; the client says it is connected exactly while it serves a
    connection; and when its thread has returned, the descriptors are those that were open
    before its creation, however often it reconnected. *)
Theorem tcp_client_lifecycle {K W} `{Kernel K} open unread `{!KernelLaws K open unread}
    (psCbk : tcp_cbk (tcp_client * K) W) `{!OnlyReads psCbk} o0 w0 st0 st :
  client_start open o0 w0 st0 -> rtc (client_step psCbk) st0 st ->
  let c := cs_client st in
  (exists es, history psCbk tcp_client_recv w0 es (cs_world st) /\ lifecycle (cs_pc st) es)
  /\ (bFlagConnect c = true <-> cs_pc st = CP_serve)
  /\ (bFlagInit c = false <-> cs_pc st = CP_done)
  /\ (exists own, open (cs_kernel st) = own ∪ o0 /\ own ## o0 /\ (size own <= 1)%nat
        /\ (cs_pc st = CP_done -> own = ∅)).
Proof.
  intros H0 Hr. pose proof (client_reach open unread psCbk o0 w0 st0 st H0 Hr) as Hi.
  destruct st as [pc n c k w]. destruct Hi as (He & (Ho & Hd) & Hc & Hi).
  cbn [cs_pc cs_client cs_kernel cs_world]. rewrite Hc, Hi.
  rewrite bool_decide_eq_true, bool_decide_eq_false. split; [exact He|]. split; [done|]. split.
  { destruct (decide (pc = CP_done)); naive_solver. }
  exists (own_fds pc c). split; [done|]. split; [done|]. split; [|by intros ->].
  unfold own_fds. destruct pc; rewrite ?size_empty; try lia;
    destruct (_ <? 0); rewrite ?size_empty, ?size_singleton; lia.
Qed.

(** How often a client tries. When the peer refuses every attempt, a client with the
    limit [t] is still trying after [t - 1] attempts and leaves its loop with the [t]th;
    with the limit 0 it never gives up. No callback runs meanwhile. *)
Lemma tcp_client_retries {K W} `{Kernel K} (psCbk : tcp_cbk (tcp_client * K) W) c k w (m : nat) :
  let t := wConnectTime (psCfg c) in let turns := turns (tcp_client_task psCbk) in
  (forall fd ip port k, (sys_connect fd ip port k).1 < 0) ->
  bFlagClose c = false -> 0 <= t < 65535 -> Z.of_nat m < 65535 ->
  (t = 0 \/ Z.of_nat m < t ->
     exists st, turns m (ClientState CP_try 0 c k w) = Some st
       /\ cs_pc st = CP_try /\ cs_world st = w)
  /\ (0 < t -> Z.of_nat m = t ->
     exists st, turns m (ClientState CP_try 0 c k w) = Some st
       /\ cs_pc st = CP_exit /\ cs_world st = w).
Proof.
  intros t turn Hno Hc Ht Hm. split.
  - intros Hmt. destruct (refused_waits psCbk Hno m 0 c k w Hc) as (c' & k' & _ & _ & E);
      [lia|lia|fold t; lia|]. by eexists.
  - intros H0 Hmt. destruct m as [|m]; [lia|].
    destruct (refused_waits psCbk Hno m 0 c k w Hc) as (c1 & k1 & Ec & Hc1 & E);
      [lia|lia|fold t; lia|].
    fold t in E. assert ((t =? 0) = false) as Et by lia. rewrite Et, Z.add_0_l in E.
    destruct (refused_turn psCbk Hno (Z.of_nat m) c1 k1 w Hc1 ltac:(lia)) as (c2 & k2 & _ & _ & E2).
    rewrite Ec in E2. fold t in E2.
    assert ((t <=? Z.of_nat m + 1) = true) as El by lia. rewrite Et, El in E2. eexists. split.
    + unfold turn. replace (S m) with (m + 1)%nat by lia. rewrite turns_add, E.
      cbn [mbind option_bind turns]. rewrite E2. reflexivity.
    + done.
Qed.

(** ** Witnesses *)

Definition demo_cfg : tcp_client_cfg := {| wConnectTime := 3; wRemotePort := 9001; uRemoteIp := 162 |}.
Definition demo_client : tcp_client :=
  {| bFlagInit := false; bFlagConnect := false; bFlagClose := false; iSocket := 0;
     psCfg := demo_cfg |}.
Definition demo_cbk {K} : tcp_cbk (tcp_client * K) (list tcp_event) := {|
  pv_cbk_connect := Some (λ w, w ++ [EvConnect]);
  pv_cbk_data := Some (λ recv s w, Some ((recv 4 s).2, w ++ [EvData]));
  pv_cbk_disconnect := Some (λ w, w ++ [EvDisconnect]);
  pv_cbk_delete := Some (λ w, w ++ [EvDelete])
|}.

#[export] Instance demo_only_reads {K} : OnlyReads (@demo_cbk K).
Proof. intros f recv P s w s' w' [= <-] HP Hs [= <- <-]. by apply HP. Qed.

(** The peer refuses once, accepts, sends six bytes, closes, and refuses for good. *)
Definition demo_kernel : replay :=
  Replay {[7]} [0; 0; 0; 0; 0; 0; 0; -1; 0; 0; 0; 1] [1; 2; 3; 4; 5; 6] [].

Lemma tcp_client_lifecycle_witness :
  (exists c k st, tcp_client_create demo_client (Some demo_cfg) true true true demo_kernel
      = (0, true, c, k)
    /\ rtc (client_step demo_cbk) (ClientState CP_try 0 c k []) st /\ cs_pc st = CP_done
    /\ cs_world st = [EvConnect; EvData; EvData; EvData; EvDisconnect; EvDelete]
    /\ rp_visible (cs_kernel st) = {[7]}).
Proof.
  destruct (tcp_client_create demo_client (Some demo_cfg) true true true demo_kernel)
    as [[[r b] c] k] eqn:Ec.
  assert (r = 0 /\ b = true) as [-> ->] by (vm_compute in Ec; injection Ec as <- <- _ _; done).
  destruct (turns (tcp_client_task demo_cbk) 9 (ClientState CP_try 0 c k []))
    as [st|] eqn:E; [|vm_compute in Ec; injection Ec as <- <-; by vm_compute in E].
  exists c, k, st. split; [reflexivity|].
  assert (rtc (client_step demo_cbk) (ClientState CP_try 0 c k []) st) as Hr
    by (eapply turns_rtc; [exact (step_task _)|exact E]).
  destruct (tcp_client_lifecycle rp_visible (λ _, rp_input) demo_cbk {[7]} [] _ st
    ltac:(exists demo_client, (Some demo_cfg), true, true, demo_kernel, c, k; repeat split; exact Ec) Hr)
    as (_ & _ & _ & own & Hopen & _ & _ & Hown).
  vm_compute in Ec. injection Ec as <- <-. vm_compute in E. injection E as <-.
  split; [exact Hr|]. split; [reflexivity|]. split; [reflexivity|].
  rewrite Hopen, Hown by reflexivity. reflexivity.
Defined.

(** A kernel whose network is down. *)
#[local] Instance refusing_kernel : Kernel unit := {
  sys_socket k := (3, k); sys_bind _ _ k := (0, k); sys_listen _ k := (0, k);
  sys_select _ k := (Selected 0 0 false, k); sys_accept _ k := (-1, k);
  sys_connect _ _ _ k := (-1, k); sys_tcp_state _ k := (10, k); sys_recv _ _ k := ([], k);
  sys_send _ _ k := k; sys_recvfrom _ _ k := (None, k); sys_sendto _ _ _ _ k := (-1, k);
  sys_setsockopt _ k := (0, k); sys_close _ k := k
}.

Lemma tcp_client_retries_witness :
  (exists st, turns (tcp_client_task demo_cbk) 3 (ClientState CP_try 0 demo_client tt [])
      = Some st /\ cs_pc st = CP_exit /\ cs_world st = []).
Proof.
  destruct (tcp_client_retries demo_cbk demo_client tt [] 3) as (_ & H);
    [intros; reflexivity|reflexivity|by_eval|by_eval|].
  apply H; [by_eval|reflexivity].
Defined.
