(* ===== verification/UdpSocket.v ===== *)
(** * UDP socket ([src/srv/eth_link/socket/udp_socket.c])

    The sockets of the discovery protocol and of the PTZ link.  A socket that receives has a
    thread, here a machine that makes one pass of its loop per turn. *)

From S2P Require Import Prelude Sockets.
Local Open Scope list_scope.
Local Open Scope Z_scope.

(** ** The code *)

Record udp_socket_cfg := {
  bFlagRecv : bool; bBroadcast : bool;
  wRecvPort : Z; wSendPort : Z; uRecvIp : Z; uSendIp : Z
}.

Record udp_socket := {
  bFlagInit : bool; bFlagClose : bool; iSocket : Z; psCfg : udp_socket_cfg
}.

Definition set_flags (init close : bool) (s : udp_socket) : udp_socket :=
  {| bFlagInit := init; bFlagClose := close; iSocket := iSocket s; psCfg := psCfg s |}.
Definition set_iSocket (fd : Z) (s : udp_socket) : udp_socket :=
  {| bFlagInit := bFlagInit s; bFlagClose := bFlagClose s; iSocket := fd; psCfg := psCfg s |}.
Definition set_psCfg (cfg : udp_socket_cfg) (s : udp_socket) : udp_socket :=
  {| bFlagInit := bFlagInit s; bFlagClose := bFlagClose s; iSocket := iSocket s; psCfg := cfg |}.

(** The callback table; the data callback reads through the function it is given, which
    returns the datagram and writes the sender's address. *)
Record udp_socket_cbk (S W : Type) := {
  pv_cbk_init : option (W -> W);
  pv_cbk_data : option ((Z -> S -> (list Z * option Z) * S) -> S -> W -> option (S * W));
  pv_cbk_delete : option (W -> W)
}.
Arguments pv_cbk_init {_ _} _.
Arguments pv_cbk_data {_ _} _.
Arguments pv_cbk_delete {_ _} _.

Inductive udp_pc := UP_start | UP_loop | UP_exit | UP_done.

#[export] Instance udp_pc_eq_dec : EqDecision udp_pc.
Proof. solve_decision. Defined.

Section udp_socket.
Context {K W : Type} `{!Kernel K} (htonl : Z -> Z).

(** The bytes and, when the read succeeds, the address written to [uIp]. *)
Definition udp_socket_recv (uSize : Z) (sk : udp_socket * K)
  : (list Z * option Z) * (udp_socket * K) :=
  let '(s, k) := sk in
  let '(r, k) := sys_recvfrom (iSocket s) uSize k in
  match r with
  | None => (([], None), (set_flags (bFlagInit s) true s, k))
  | Some (bs, addr) => ((bs, Some (htonl addr)), (s, k))
  end.

Record udp_state := UdpState {
  us_pc : udp_pc; us_socket : udp_socket; us_kernel : K; us_world : W
}.

(** One turn of the thread. *)
Definition udp_socket_task (psCbk : udp_socket_cbk (udp_socket * K) W) (st : udp_state)
  : option udp_state :=
  let '(UdpState pc s k w) := st in
  match pc with
  | UP_start => Some (UdpState UP_loop s k (call_cbk (pv_cbk_init psCbk) w))
  | UP_loop =>
      if bFlagClose s then Some (UdpState UP_exit s k w) else
      let '(ready, k) := sys_select (iSocket s) k in
      if sel_ret ready <? 0 then Some (UdpState UP_exit s k w)
      else if sel_ret ready =? 0 then Some (UdpState UP_loop s k w)
      else if sel_isset ready then
        match pv_cbk_data psCbk with
        | Some cbk =>
            '(s, k, w) ← cbk udp_socket_recv (s, k) w;
            Some (UdpState UP_loop s k w)
        | None =>
            let '(s, k) := (udp_socket_recv 1024 (s, k)).2 in
            Some (UdpState UP_loop s k w)
        end
      else Some (UdpState UP_loop s k w)
  | UP_exit =>
      let k := if 0 <=? iSocket s then sys_close (iSocket s) k else k in
      let s := set_flags false (bFlagClose s) (set_iSocket (-1) s) in
      Some (UdpState UP_done s k (call_cbk (pv_cbk_delete psCbk) w))
  | UP_done => None
  end.

(** The steps of the [do ... while(0)] block: the result, the object and the kernel. *)
Definition udp_create_steps (psSocket : udp_socket) (psCfg : option udp_socket_cfg) (cbk : bool)
    (mutex_ok thread_ok : bool) (k : K) : Z * udp_socket * K :=
  match psCfg with
  | Some cfg =>
      if cbk then
        let s := set_psCfg cfg (set_flags true false psSocket) in
        let '(fd, k) := sys_socket k in
        let s := set_iSocket fd s in
        if fd <? 0 then (-2, s, k) else
        let '(r, k) := if bFlagRecv cfg then sys_bind fd (wRecvPort cfg) k else (0, k) in
        if r <? 0 then (-3, s, k) else
        let '(r, k) := if bBroadcast cfg then sys_setsockopt fd k else (0, k) in
        if negb (r =? 0) then (-4, s, k) else
        if negb mutex_ok then (-5, s, k) else
        if bFlagRecv cfg && negb thread_ok then (-6, s, k) else
        (0, s, k)
      else (-1, psSocket, k)
  | None => (-1, psSocket, k)
  end.

Definition udp_socket_crate (psSocket : udp_socket) (psCfg : option udp_socket_cfg) (cbk : bool)
    (mutex_ok thread_ok : bool) (k : K) : Z * udp_socket * K :=
  if bFlagInit psSocket then (0, psSocket, k) else
  let '(eRet, s, k) := udp_create_steps psSocket psCfg cbk mutex_ok thread_ok k in
  if eRet <? -4 then (eRet, s, sys_close (iSocket s) k)
  else if eRet <? -1 then (eRet, s, sys_close (iSocket s) k)
  else (eRet, s, k).

Definition udp_socket_close (s : udp_socket) : Z * udp_socket :=
  if bFlagInit s then (0, set_flags (bFlagInit s) true s) else (0, s).

Definition udp_socket_send (s : udp_socket) (pbyData : list Z) (k : K) : Z * K :=
  if bFlagInit s then
    sys_sendto (iSocket s) (htonl (uSendIp (psCfg s))) (wSendPort (psCfg s)) pbyData k
  else (-2, k).
End udp_socket.

Arguments udp_state : clear implicits.

(** ** Creation *)

Section create.
Context {K : Type} `{HK : Kernel K} (open : K -> gset Z) (unread : Z -> K -> list Z).
Context `{HL : !KernelLaws K open unread}.

(** What the steps before the clean-up leave. *)
Definition steps_post (s s' : udp_socket) (k k' : K) (cfg : option udp_socket_cfg) (cbk : bool)
    (ret : Z) : Prop :=
  -6 <= ret <= 0
  /\ (ret = -1 <-> cfg = None \/ cbk = false)
  /\ (ret = -1 -> s' = s /\ k' = k)
  /\ (ret <> -1 -> exists c, cfg = Some c /\ s' = set_iSocket (iSocket s') (set_psCfg c (set_flags true false s)))
  /\ (ret = -2 -> iSocket s' < 0 /\ open k' = open k)
  /\ (ret < -2 \/ ret = 0 ->
      0 <= iSocket s' /\ iSocket s' ∉ open k /\ open k' = {[iSocket s']} ∪ open k).

Lemma create_steps_spec s cfg cbk mutex_ok thread_ok k :
  let '(ret, s', k') := udp_create_steps s cfg cbk mutex_ok thread_ok k in
  steps_post s s' k k' cfg cbk ret.
Proof.
  unfold udp_create_steps, steps_post. destruct cfg as [c|]; [|naive_solver lia].
  destruct cbk; [|naive_solver lia].
  pose proof (open_socket k) as Hs. destruct (sys_socket k) as [fd k1]. unfold makes_fd in Hs.
  cbn [fst snd] in Hs.
  assert (forall r k2, r <> -1 -> r <> -2 -> -6 <= r <= 0 -> 0 <= fd -> open k2 = open k1 ->
    steps_post s (set_iSocket fd (set_psCfg c (set_flags true false s))) k k2 (Some c) true r) as HX.
  { intros r k2 H1 H2 Hr H0 E. destruct Hs as [[? _]|(_ & Hn & E1)]; [lia|].
    unfold steps_post. cbn [iSocket set_iSocket]. rewrite E, E1.
    split; [lia|]. split; [naive_solver|]. split; [done|]. split; [by exists c|].
    split; [done|]. done. }
  destruct (Z.ltb_spec fd 0) as [Hlt|Hge].
  { destruct Hs as [[_ E]|[? _]]; [|lia]. split; [lia|]. split; [naive_solver|].
    split; [done|]. split; [by exists c|]. split; [done|]. lia. }
  destruct (if bFlagRecv c then sys_bind fd (wRecvPort c) k1 else (0, k1)) as [r1 k2] eqn:E1.
  assert (open k2 = open k1) as Ek2.
  { destruct (bFlagRecv c); [|by injection E1 as _ <-].
    pose proof (open_bind fd (wRecvPort c) k1) as E. by rewrite E1 in E. }
  destruct (r1 <? 0); [by apply HX|].
  destruct (if bBroadcast c then sys_setsockopt fd k2 else (0, k2)) as [r2 k3] eqn:E2.
  assert (open k3 = open k1) as Ek3.
  { destruct (bBroadcast c); [|by injection E2 as _ <-].
    pose proof (open_setsockopt fd k2) as E. rewrite E2 in E. cbn in E. congruence. }
  destruct (negb (r2 =? 0)); [by apply HX|]. destruct (negb mutex_ok); [by apply HX|].
  destruct (_ && _); by apply HX.
Qed.

Lemma udp_create_spec s cfg cbk mutex_ok thread_ok k :
  bFlagInit s = false ->
  let '(ret, s', k') := udp_socket_crate s cfg cbk mutex_ok thread_ok k in
  (ret = -1 <-> cfg = None \/ cbk = false)
  /\ (ret = 0 -> iSocket s' ∉ open k /\ open k' = {[iSocket s']} ∪ open k)
  /\ (ret <> 0 -> open k' = open k)
  /\ bFlagInit s' = negb (ret =? -1).
Proof.
  intros Hi. unfold udp_socket_crate. rewrite Hi.
  pose proof (create_steps_spec s cfg cbk mutex_ok thread_ok k) as HS.
  destruct (udp_create_steps s cfg cbk mutex_ok thread_ok k) as [[ret s1] k1].
  destruct HS as (Hr & Hm1 & Hsame & Hs1 & Hm2 & Hopen).
  assert (ret <> -1 -> bFlagInit s1 = negb (ret =? -1)) as Hin.
  { intros Hne. destruct (Hs1 Hne) as (c & _ & ->). cbn. lia. }
  assert (ret < -1 -> open (sys_close (iSocket s1) k1) = open k) as Hcl.
  { intros Hlt. rewrite open_close. destruct (decide (ret = -2)) as [E|E].
    - destruct (Hm2 E) as [Hneg ->]. assert (iSocket s1 ∉ open k) by (intros ?%open_nonneg; lia).
      set_solver.
    - destruct Hopen as (_ & Hn & ->); [lia|]. set_solver. }
  destruct (Z.ltb_spec ret (-4)); [|destruct (Z.ltb_spec ret (-1))].
  - split; [done|]. split; [lia|]. split; [intros _; apply Hcl; lia|]. apply Hin; lia.
  - split; [done|]. split; [lia|]. split; [intros _; apply Hcl; lia|]. apply Hin; lia.
  - split; [done|]. destruct (decide (ret = -1)) as [E|E].
    + destruct (Hsame E) as [-> ->]. split; [lia|]. split; [done|]. by rewrite Hi, E.
    + split; [intros _; by apply Hopen; lia|]. split; [lia|]. by apply Hin.
Qed.
End create.

(** A close request ends the thread: one turn leaves the loop, the next closes the
    descriptor and reports the deletion, whatever the kernel answers. *)
Lemma udp_close_ends {K W} `{Kernel K} htonl (psCbk : udp_socket_cbk (udp_socket * K) W) s k w :
  bFlagInit s = true -> 0 <= iSocket s ->
  turns (udp_socket_task htonl psCbk) 2 (UdpState UP_loop (udp_socket_close s).2 k w)
  = Some (UdpState UP_done (set_iSocket (-1) (set_flags false true s)) (sys_close (iSocket s) k)
            (call_cbk (pv_cbk_delete psCbk) w)).
Proof.
  intros Hi H0. unfold udp_socket_close. rewrite Hi. cbn.
  destruct (Z.leb_spec 0 (iSocket s)); [done|lia].
Qed.

(** ** Property *)


(** ** Witness *)

Definition demo_cfg : udp_socket_cfg :=
  {| bFlagRecv := true; bBroadcast := true; wRecvPort := 1810; wSendPort := 1800; uRecvIp := 0;
     uSendIp := 4294967295 |}.
Definition demo_socket : udp_socket :=
  {| bFlagInit := false; bFlagClose := false; iSocket := 0; psCfg := demo_cfg |}.

