(* ===== verification/Discovery.v ===== *)
(** * The discovery service ([eth_link_server.c])

    Two threads share the socket of the discovery: one answers the datagrams of the radars,
    the other broadcasts a look-up every two seconds.  The main thread starts both and, at the
    end, stops one after the other and closes the servers.  The threads are machines that make
    one turn at a time; a schedule says whose turn it is. *)

From S2P Require Import Prelude Checksum Linked Layout CString AlinkFrame AlinkCheck NetconProtocol EthLinkServer Sockets UdpSocket.
Local Open Scope list_scope.
Local Open Scope Z_scope.

Definition DETECT_RADAR_DEVICE_TIME : Z := 2.

(** ** Data *)

(** The configuration the socket points to; its destination changes. *)
Definition sUdpCfg : udp_socket_cfg :=
  {| bFlagRecv := true; bBroadcast := true; wRecvPort := 1810; wSendPort := 1800;
     uRecvIp := 0; uSendIp := 0xFFFFFFFF |}.

Definition set_uSendIp (ip : Z) (s : udp_socket) : udp_socket :=
  set_psCfg {| bFlagRecv := bFlagRecv (psCfg s); bBroadcast := bBroadcast (psCfg s);
               wRecvPort := wRecvPort (psCfg s); wSendPort := wSendPort (psCfg s);
               uRecvIp := uRecvIp (psCfg s); uSendIp := ip |} s.

Inductive detect_pc := DT_start | DT_loop | DT_done.

(** [sever_socket] points to the socket of the discovery. *)
Record detect_task_res := {
  detect_pc_of : detect_pc; exit_relase : bool; detect_frequence : Z; ep_lookup : list Z
}.

Definition detect_goto (pc : detect_pc) (exit : bool) (ep : list Z) (d : detect_task_res)
  : detect_task_res :=
  {| detect_pc_of := pc; exit_relase := exit; detect_frequence := detect_frequence d;
     ep_lookup := ep |}.

Section discovery.
Context {K : Type} `{!Kernel K} (htonl : Z -> Z) (sleep : Z -> K -> K).
(** What [malloc] and the creation of a server give in a state. *)
Context (malloc : servers -> option nat) (creates : servers -> bool).

(** ** The code: answering *)

(** [udp_socket_send( &sUdpSocket, ... )], its result unused. *)
Definition discovery_send (bs : list Z) (sk : udp_socket * K) : option (udp_socket * K) :=
  Some (sk.1, (udp_socket_send htonl sk.1 bs sk.2).2).

Definition eth_link_udp_cbk_data (pi_recv : Z -> udp_socket * K -> (list Z * option Z) * (udp_socket * K))
    (sk : udp_socket * K) (w : eth_link_list * servers)
  : option ((udp_socket * K) * (eth_link_list * servers)) :=
  let '((bs, ip), sk) := pi_recv 512 sk in
  let abyBuffer := bs ++ replicate (512 - length bs) 0 in
  let uIp := default 0xFFFFFFFF ip in
  let sk := (set_uSendIp (Z.lor uIp 0xFF) sk.1, sk.2) in
  '(root, h, sk) ← eth_protocol_handler discovery_send htonl w.1 w.2 abyBuffer (Zlen bs) uIp
                     (malloc w.2) (creates w.2) sk;
  Some ((set_uSendIp 0xFFFFFFFF sk.1, sk.2), (root, h)).

(** The two others print only. *)
Definition sUdpCbk : udp_socket_cbk (udp_socket * K) (eth_link_list * servers) := {|
  pv_cbk_init := Some (λ w, w);
  pv_cbk_data := Some eth_link_udp_cbk_data;
  pv_cbk_delete := Some (λ w, w)
|}.

(** ** The code: looking for radars *)

(** One turn of the thread: what is before the loop, or one pass of it. *)
Definition find_online_detect_task (d : detect_task_res) (s : udp_socket) (k : K)
  : option (detect_task_res * K) :=
  match detect_pc_of d with
  | DT_start =>
      let n := sizeof eth_protocol_lookup in
      '(plen, ep) ← eth_protocol_get_detect_package (replicate (Z.to_nat n) 0) n;
      bs ← ld_bytes ep 0 plen;
      Some (detect_goto DT_loop false bs d, k)
  | DT_loop =>
      if exit_relase d then Some (detect_goto DT_done true (ep_lookup d) d, k)
      else Some (d, sleep (detect_frequence d) (udp_socket_send htonl s (ep_lookup d) k).2)
  | DT_done => None
  end.

(** ** The code: starting and stopping *)

(** The program's state: the thread of the socket, the detecting thread and the main thread,
    which is where it has come to in [eth_link_server_uninit]. *)
Inductive uninit_pc := UN_running | UN_join_udp | UN_release | UN_join_detect | UN_close | UN_done.

Record discovery := {
  dv_udp : udp_state K (eth_link_list * servers);
  dv_detect : detect_task_res;
  dv_main : uninit_pc;
  dv_closed : list nat     (* the servers that [tcp_server_close] was called on *)
}.

(** [mutex_ok], [thread_ok] and [detect_ret] are the results of the calls that create the mutex
    and the two threads, the last one an error number or 0. A thread that could not be created
    is done. *)
Definition eth_link_server_init (mutex_ok thread_ok : bool) (detect_ret : Z) (s : udp_socket) (k : K)
    (w : eth_link_list * servers) : Z * discovery :=
  let '(eRet, s, k) := udp_socket_crate s (Some sUdpCfg) true mutex_ok thread_ok k in
  let udp := UdpState (if eRet =? 0 then UP_start else UP_done) s k w in
  if negb (eRet =? 0) then
    (eRet, {| dv_udp := udp; dv_main := UN_running; dv_closed := [];
              dv_detect := {| detect_pc_of := DT_done; exit_relase := false;
                              detect_frequence := 0; ep_lookup := [] |} |})
  else
    (detect_ret, {| dv_udp := udp; dv_main := UN_running; dv_closed := [];
              dv_detect := {| detect_pc_of := if detect_ret =? 0 then DT_start else DT_done;
                              exit_relase := false;
                              detect_frequence := DETECT_RADAR_DEVICE_TIME; ep_lookup := [] |} |}).

Definition dv_set_socket (s : udp_socket) (st : discovery) : discovery :=
  {| dv_udp := UdpState (us_pc (dv_udp st)) s (us_kernel (dv_udp st)) (us_world (dv_udp st));
     dv_detect := dv_detect st; dv_main := dv_main st; dv_closed := dv_closed st |}.
Definition dv_goto (pc : uninit_pc) (st : discovery) : discovery :=
  {| dv_udp := dv_udp st; dv_detect := dv_detect st; dv_main := pc; dv_closed := dv_closed st |}.

(** The loop over the servers. *)
Fixpoint close_servers (fuel : nat) (h : servers) (ts_list : option nat) : option (list nat) :=
  match ts_list with
  | None => Some []
  | Some a =>
      match fuel with
      | O => None
      | S fuel' => n ← h !! a; l ← close_servers fuel' h (sv_psNext n); Some (a :: l)
      end
  end.

(** One step of the main thread in [eth_link_server_uninit]; a join waits. *)
Definition eth_link_server_uninit (st : discovery) : option discovery :=
  match dv_main st with
  | UN_running =>
      Some (dv_goto UN_join_udp (dv_set_socket (udp_socket_close (us_socket (dv_udp st))).2 st))
  | UN_join_udp =>
      Some (if bool_decide (us_pc (dv_udp st) = UP_done) then dv_goto UN_release st else st)
  | UN_release =>
      let d := dv_detect st in
      Some {| dv_udp := dv_udp st; dv_closed := dv_closed st; dv_main := UN_join_detect;
              dv_detect := detect_goto (detect_pc_of d) true (ep_lookup d) d |}
  | UN_join_detect =>
      Some (match detect_pc_of (dv_detect st) with DT_done => dv_goto UN_close st | _ => st end)
  | UN_close =>
      let '(root, h) := us_world (dv_udp st) in
      l ← close_servers (size h) h (el_list root);
      Some {| dv_udp := dv_udp st; dv_detect := dv_detect st; dv_main := UN_done;
              dv_closed := dv_closed st ++ l |}
  | UN_done => Some st
  end.

(** ** Schedules *)

Inductive thread := T_udp | T_detect | T_main.

(** A turn of a thread; one that is done stays so. *)
Definition discovery_turn (t : thread) (st : discovery) : option discovery :=
  match t with
  | T_udp =>
      match us_pc (dv_udp st) with
      | UP_done => Some st
      | _ => u ← udp_socket_task htonl sUdpCbk (dv_udp st);
             Some {| dv_udp := u; dv_detect := dv_detect st; dv_main := dv_main st;
                     dv_closed := dv_closed st |}
      end
  | T_detect =>
      match detect_pc_of (dv_detect st) with
      | DT_done => Some st
      | _ => '(d, k) ← find_online_detect_task (dv_detect st) (us_socket (dv_udp st))
                         (us_kernel (dv_udp st));
             Some {| dv_udp := UdpState (us_pc (dv_udp st)) (us_socket (dv_udp st)) k
                                 (us_world (dv_udp st));
                     dv_detect := d; dv_main := dv_main st; dv_closed := dv_closed st |}
      end
  | T_main => eth_link_server_uninit st
  end.

Fixpoint discovery_run (sched : list thread) (st : discovery) : option discovery :=
  match sched with
  | [] => Some st
  | t :: sched => st ← discovery_turn t st; discovery_run sched st
  end.
End discovery.

Arguments discovery : clear implicits.

(** ** Looking for radars *)

(** The look-up as it is sent. *)
Definition lookup_bytes : list Z :=
  encode (agx_frame NETPROTOCAL_MSG_ID_LOOKUP (le_bytes 4 PROTOCOL_ID ++ replicate 32 0)).

Section lookups.
Context {K : Type} `{!Kernel K} (htonl : Z -> Z) (sleep : Z -> K -> K).

Lemma detect_start d s k : detect_pc_of d = DT_start ->
  find_online_detect_task htonl sleep d s k = Some (detect_goto DT_loop false lookup_bytes d, k).
Proof.
  intros Hd. unfold find_online_detect_task. rewrite Hd.
  assert (E : ('(plen, ep) ← eth_protocol_get_detect_package
    (replicate (Z.to_nat (sizeof eth_protocol_lookup)) 0) (sizeof eth_protocol_lookup);
    ld_bytes ep 0 plen) = Some lookup_bytes) by (vm_compute; reflexivity).
  cbv zeta. destruct (eth_protocol_get_detect_package _ _) as [[plen ep]|]; [|done].
  cbn [mbind option_bind] in *. by rewrite E.
Qed.

(** A pass of the loop. *)
Definition lookup_pass (d : detect_task_res) (s : udp_socket) (k : K) : K :=
  sleep (detect_frequence d) (udp_socket_send htonl s (ep_lookup d) k).2.

Lemma detect_loop d s k : detect_pc_of d = DT_loop -> exit_relase d = false ->
  find_online_detect_task htonl sleep d s k = Some (d, lookup_pass d s k).
Proof. intros Hd He. unfold find_online_detect_task. by rewrite Hd, He. Qed.

(** A look-up goes out in every pass, to everyone while no answer is being served. *)
Lemma lookups_repeat d s k n : detect_pc_of d = DT_start ->
  let d' := detect_goto DT_loop false lookup_bytes d in
  turns (λ st, find_online_detect_task htonl sleep st.1 s st.2) (S n) (d, k)
  = Some (d', Nat.iter n (lookup_pass d' s) k).
Proof.
  intros Hd d'. cbn [turns fst snd]. rewrite detect_start by done. cbn [mbind option_bind].
  revert k. induction n as [|n IH]; intros k; [done|]. cbn [turns fst snd].
  rewrite detect_loop by done. cbn [mbind option_bind]. fold d'. rewrite IH.
  by rewrite <-Nat.iter_succ_r.
Qed.
End lookups.

(** ** Stopping *)

Lemma close_servers_spec h p l fuel : is_list h p l -> (length l <= fuel)%nat ->
  close_servers fuel h p = Some l.
Proof.
  revert p fuel. induction l as [|a l IH]; intros p fuel Hl Hf.
  - cbn in Hl. subst p. by destruct fuel.
  - destruct Hl as [-> (n & Hn & Hl)]. destruct fuel as [|fuel]; [cbn in Hf; lia|].
    cbn [close_servers]. rewrite Hn. cbn [mbind option_bind].
    change (sv_psNext n) with (ln_next n). by rewrite (IH _ fuel Hl) by (cbn in Hf; lia).
Qed.

Section stopping.
Context {K : Type} `{HK : !Kernel K} (open : K -> gset Z) (unread : Z -> K -> list Z).
Context `{HL : !KernelLaws K open unread} (htonl : Z -> Z) (sleep : Z -> K -> K).
Context (malloc : servers -> option nat) (creates : servers -> bool).
Hypothesis open_sleep : forall n k, open (sleep n k) = open k.

Local Abbreviation turn := (discovery_turn htonl sleep malloc creates).
Local Abbreviation run := (discovery_run htonl sleep malloc creates).

Lemma open_lookup d s k : open (lookup_pass htonl sleep d s k) = open k.
Proof.
  unfold lookup_pass, udp_socket_send. rewrite open_sleep.
  destruct (bFlagInit s); [by rewrite open_sendto|done].
Qed.

Lemma discovery_run_app s1 s2 st : run (s1 ++ s2) st = st ← run s1 st; run s2 st.
Proof.
  revert st. induction s1 as [|t s1 IH]; intros st; [done|]. cbn [app discovery_run].
  destruct (turn t st) as [st1|]; [apply IH|done].
Qed.

(** *** The end is reached *)

Section ends.
Context (fd : Z) (O : gset Z) (w : eth_link_list * servers) (l closed : list nat).
Hypothesis Hfd : 0 <= fd.
Hypothesis Hl : is_list w.2 (el_list w.1) l.

(** A state in which the socket has been told to close. *)
Record closing (st : discovery K) : Prop := {
  cl_world : us_world (dv_udp st) = w;
  cl_begun : detect_pc_of (dv_detect st) <> DT_start;
  cl_udp : match us_pc (dv_udp st) with
           | UP_done => open (us_kernel (dv_udp st)) = O ∖ {[fd]}
           | _ => bFlagClose (us_socket (dv_udp st)) = true
                  /\ iSocket (us_socket (dv_udp st)) = fd /\ open (us_kernel (dv_udp st)) = O
           end;
  cl_main : match dv_main st with
            | UN_running => False
            | UN_join_udp => True
            | UN_release => us_pc (dv_udp st) = UP_done
            | UN_join_detect => us_pc (dv_udp st) = UP_done
                /\ (exit_relase (dv_detect st) = true \/ detect_pc_of (dv_detect st) = DT_done)
            | _ => us_pc (dv_udp st) = UP_done /\ detect_pc_of (dv_detect st) = DT_done
            end;
  cl_closed : dv_closed st
    = closed ++ match dv_main st with UN_done => l | _ => [] end
}.

(** How many turns of the right threads are missing. *)
Definition missing (st : discovery K) : nat :=
  match dv_main st with
  | UN_running => 9
  | UN_join_udp => match us_pc (dv_udp st) with
                   | UP_start => 8 | UP_loop => 7 | UP_exit => 6 | UP_done => 5
                   end
  | UN_release => 4
  | UN_join_detect => match detect_pc_of (dv_detect st) with DT_done => 2 | _ => 3 end
  | UN_close => 1
  | UN_done => 0
  end.

(** Whose turn brings the state nearer to the end. *)
Definition needed (st : discovery K) : thread :=
  match dv_main st with
  | UN_join_udp => match us_pc (dv_udp st) with UP_done => T_main | _ => T_udp end
  | UN_join_detect => match detect_pc_of (dv_detect st) with DT_done => T_main | _ => T_detect end
  | _ => T_main
  end.

Definition nearer (t : thread) (st st' : discovery K) : Prop :=
  closing st' /\ (missing st' <= missing st)%nat
  /\ (t = needed st -> missing st = 0%nat \/ (missing st' < missing st)%nat)
  /\ (missing st' = missing st -> needed st' = needed st).

Lemma udp_nearer st : closing st -> exists st', turn T_udp st = Some st' /\ nearer T_udp st st'.
Proof using Hfd HL.
  intros [Hw Hb Hu Hm Hc]. destruct st as [[pc s k w0] d m c].
  cbn [dv_udp dv_detect dv_main dv_closed us_pc us_socket us_kernel us_world] in *. subst w0.
  cbn [discovery_turn dv_udp us_pc].
  destruct pc.
  - destruct Hu as (Hf & Hs & Ho). eexists. split; [reflexivity|].
    destruct m; try (exfalso; naive_solver; fail). split; [split; cbn; try done; by rewrite ?Hc|].
    cbn. split; [lia|]. split; [right; lia|lia].
  - destruct Hu as (Hf & Hs & Ho). cbn [udp_socket_task]. rewrite Hf. eexists.
    split; [reflexivity|]. destruct m; try (exfalso; naive_solver; fail).
    split; [split; cbn; done|]. cbn. split; [lia|]. split; [right; lia|lia].
  - destruct Hu as (Hf & Hs & Ho). eexists. split; [reflexivity|].
    destruct m; try (exfalso; naive_solver; fail).
    split; [split; cbn; try done|cbn; split; [lia|]; split; [right; lia|lia]].
    rewrite Hs. destruct (Z.leb_spec 0 fd); [|lia]. by rewrite open_close, Ho.
  - eexists. split; [reflexivity|]. split; [done|]. split; [done|]. split; [|done].
    intros Hn. unfold needed in Hn. cbn in Hn. destruct m; try done. by destruct (detect_pc_of d).
Qed.

Lemma detect_nearer st :
  closing st -> exists st', turn T_detect st = Some st' /\ nearer T_detect st st'.
Proof using open_sleep HL.
  intros [Hw Hb Hu Hm Hc]. destruct st as [[pc s k w0] d m c].
  cbn [dv_udp dv_detect dv_main dv_closed us_pc us_socket us_kernel us_world] in *.
  cbn [discovery_turn dv_udp dv_detect us_pc us_socket us_kernel us_world].
  destruct (detect_pc_of d) eqn:Ed; [done| |].
  - destruct (exit_relase d) eqn:Ee.
    + unfold find_online_detect_task. rewrite Ed, Ee. cbn [mbind option_bind]. eexists.
      split; [reflexivity|]. split.
      { split; cbn; try done. destruct m; try done; naive_solver. }
      unfold missing, needed. cbn. rewrite Ed. destruct m; cbn; try done.
      * split; [lia|]. split; [by destruct pc|done].
      * split; [lia|]. split; [right; lia|lia].
    + rewrite detect_loop by done. cbn [mbind option_bind]. eexists. split; [reflexivity|]. split.
      { split; cbn; try done; [congruence|by rewrite !open_lookup|destruct m; by rewrite ?Ed, ?Ee]. }
      unfold missing, needed. cbn. split; [done|]. split; [|done]. rewrite Ed.
      destruct m; try done; [by destruct pc|by destruct Hm as [_ [?|?]]].
  - eexists. split; [reflexivity|]. split; [by split; cbn; rewrite ?Ed|]. split; [done|].
    split; [|done]. unfold needed. cbn. rewrite Ed. destruct m; try done. by destruct pc.
Qed.

Lemma main_nearer st : closing st -> exists st', turn T_main st = Some st' /\ nearer T_main st st'.
Proof using Hl.
  intros [Hw Hb Hu Hm Hc]. destruct st as [[pc s k w0] d m c].
  cbn [dv_udp dv_detect dv_main dv_closed us_pc us_socket us_kernel us_world] in *.
  cbn [discovery_turn]. unfold eth_link_server_uninit.
  cbn [dv_udp dv_detect dv_main dv_closed us_pc us_socket us_kernel us_world].
  destruct m.
  - done.
  - case_bool_decide as Hpc.
    + subst pc. eexists. split; [reflexivity|].
      split; [by split|]. cbn. split; [lia|]. split; [right; lia|lia].
    + eexists. split; [reflexivity|]. split; [by split|]. split; [done|]. split; [|done].
      unfold needed. cbn. by destruct pc.
  - eexists. split; [reflexivity|]. subst pc. split; [split; cbn; try done; by split; [|left]|].
    unfold missing. cbn. split; [by destruct (detect_pc_of d); lia|].
    split; [right; destruct (detect_pc_of d); lia|destruct (detect_pc_of d); lia].
  - destruct Hm as [-> Hm]. destruct (detect_pc_of d) eqn:Ed; [done| |].
    + eexists. split; [reflexivity|]. split; [split; cbn; rewrite ?Ed; naive_solver|].
      split; [done|]. split; [|done]. unfold needed. cbn. by rewrite Ed.
    + eexists. split; [reflexivity|]. split; [by split; cbn; rewrite ?Ed|].
      unfold missing. cbn. rewrite Ed. split; [lia|]. split; [right; lia|lia].
  - destruct Hm as [-> Hd]. subst w0. destruct w as [root h] eqn:Ew. cbn [fst snd] in Hl.
    rewrite (close_servers_spec h _ l) by (done || by eapply is_list_size).
    cbn [mbind option_bind]. eexists. split; [reflexivity|].
    split; [split; cbn; first [by rewrite Hc, <-app_assoc|by rewrite Ew|done]|]. cbn.
    split; [lia|]. split; [right; lia|lia].
  - eexists. split; [reflexivity|]. split; [by split|]. split; [done|]. split; [by left|done].
Qed.
Lemma turn_nearer t st : closing st -> exists st', turn t st = Some st' /\ nearer t st st'.
Proof using Hfd HL Hl open_sleep.
  destruct t; [apply udp_nearer|apply detect_nearer|apply main_nearer].
Qed.

Lemma run_closing sched st : closing st ->
  exists st', run sched st = Some st' /\ closing st' /\ (missing st' <= missing st)%nat
    /\ (needed st ∈ sched -> missing st = 0%nat \/ (missing st' < missing st)%nat).
Proof using Hfd HL Hl open_sleep.
  revert st. induction sched as [|t sched IH]; intros st Hc.
  { exists st. split; [done|]. split; [done|]. split; [done|]. by intros ?%not_elem_of_nil. }
  destruct (turn_nearer t st Hc) as (st1 & E & Hc1 & Hm1 & Ht & Hn).
  destruct (IH st1 Hc1) as (st' & E' & Hc' & Hm' & Hs).
  exists st'. cbn [discovery_run]. rewrite E. split; [done|]. split; [done|]. split; [lia|].
  intros [Hd|Hd]%elem_of_cons; [destruct (Ht (eq_sym Hd)); lia|].
  destruct (decide (missing st1 = missing st)) as [Em|]; [|lia].
  rewrite Hn in Hs by done. specialize (Hs Hd). lia.
Qed.

Lemma rounds_end rounds st : closing st -> Forall (λ r, forall t, t ∈ r) rounds ->
  (missing st <= length rounds)%nat ->
  exists st', run (concat rounds) st = Some st' /\ closing st' /\ missing st' = 0%nat.
Proof using Hfd HL Hl open_sleep.
  intros Hc Hr. revert st Hc. induction Hr as [|r rounds Hr _ IH]; intros st Hc Hm.
  { exists st. cbn in Hm. split; [done|]. split; [done|lia]. }
  destruct (run_closing r st Hc) as (st1 & E & Hc1 & Hm1 & Hs).
  destruct (IH st1 Hc1) as (st' & E' & ?); [specialize (Hs (Hr _)); cbn in Hm; lia|].
  exists st'. cbn [concat]. rewrite discovery_run_app, E. done.
Qed.
End ends.

(** *** The race *)

(** The release is asked for before the detecting thread has begun: it sets the flag back and
    runs for ever, and so does the join. *)
Definition stuck (st : discovery K) : Prop :=
  dv_main st = UN_join_detect
  /\ (detect_pc_of (dv_detect st) = DT_start
      \/ detect_pc_of (dv_detect st) = DT_loop /\ exit_relase (dv_detect st) = false).

Lemma stuck_turn t st st' : stuck st -> turn t st = Some st' -> stuck st'.
Proof.
  intros [Hm Hd] H. unfold stuck. destruct t; cbn [discovery_turn] in H.
  - destruct (us_pc (dv_udp st)); [..|by injection H as <-];
      apply bind_Some in H as (u & _ & H); injection H as <-; done.
  - destruct Hd as [Hd|[Hd He]]; rewrite Hd in H.
    + rewrite detect_start in H by done. cbn [mbind option_bind] in H. injection H as <-.
      split; [done|]. by right.
    + rewrite detect_loop in H by done. cbn [mbind option_bind] in H. injection H as <-.
      split; [done|]. by right.
  - unfold eth_link_server_uninit in H. rewrite Hm in H.
    destruct Hd as [Hd|[Hd He]]; rewrite Hd in H; injection H as <-;
      (split; [done|]); [by left|by right].
Qed.

Lemma stuck_run sched st st' : stuck st -> run sched st = Some st' -> stuck st'.
Proof.
  revert st. induction sched as [|t sched IH]; intros st Hs H; [by injection H as <-|].
  cbn [discovery_run] in H. apply bind_Some in H as (st1 & E & H).
  eapply IH; [|exact H]. by eapply stuck_turn.
Qed.
End stopping.

(** ** Properties *)

(** C19: a radar is answered. When the look-up response of a radar waits on the socket of the
    discovery, one turn of its thread takes the radar in as [radar_add] says, and exactly if
    that succeeds it sends one connect request, with the serial number and the address and
    port of the radar's server, to port 1800 of the broadcast address of the radar's network;
    after that the socket sends to everyone again. *)
Theorem radar_answered {K} `{!Kernel K} htonl malloc creates root h l v f proto sn more a addr
    (s : udp_socket) (k k1 k2 : K) sel :
  el_net root = RTH_LINK_NET_TCP_CLIENT -> el_mutex root = false -> srv_ok root h l v ->
  0 <= el_server_basical_port root < 65536 -> Zlen v < 2 ^ 31 ->
  malloc h = Some a -> h !! a = None -> htonl (htonl addr) <> el_server_ip root ->
  frame_ok f -> fr_id f = NETPROTOCAL_MSG_ID_LOOKUP_RESP ->
  fr_payload f = proto ++ sn ++ more -> length proto = 4%nat -> length sn = 32%nat -> 0 ∈ sn ->
  bFlagInit s = true -> bFlagClose s = false -> wSendPort (psCfg s) = 1800 ->
  sys_select (iSocket s) k = (sel, k1) -> 0 < sel_ret sel -> sel_isset sel = true ->
  sys_recvfrom (iSocket s) 512 k1 = (Some (encode f, addr), k2) ->
  let r := radar_add (el_max root) (el_server_basical_port root) v sn (creates h) in
  exists root' h' l' k', srv_ok root' h' l' r.2 /\ root_config root' = root_config root
    /\ (Zlen v < Zlen r.2 -> exists p, last r.2 = Some p /\ el_cur_con root' = p.2)
    /\ udp_socket_task htonl (sUdpCbk htonl malloc creates) (UdpState UP_loop s k (root, h))
       = Some (UdpState UP_loop (set_uSendIp 0xFFFFFFFF s) k' (root', h'))
    /\ k' = (if r.1 =? 0 then
               (sys_sendto (iSocket s) (htonl (Z.lor (htonl addr) 0xFF)) 1800
                  (request_bytes sn (el_server_ip root') (el_cur_con root')) k2).2
             else k2).
Proof.
  intros Hnet Hmu Hok Hb Hv Hma Ha Hip Hf Hid Hpay Hp4 H32 H0 Hinit Hclose Hport Hsel Hret Hset
    Hrecv r.
  destruct (eth_protocol_handler_answer (discovery_send htonl) htonl root h l v f proto sn more
    (replicate (512 - length (encode f)) 0) (htonl addr) a (creates h)
    (set_uSendIp (Z.lor (htonl addr) 255) s, k2) Hnet Hmu Hok Hb Hv Ha Hip Hf Hid Hpay Hp4 H32 H0)
    as (root' & h' & l' & H1 & H2 & H3 & E).
  fold r in H1, H2, H3, E.
  assert (E' : eth_link_udp_cbk_data htonl malloc creates (udp_socket_recv htonl) (s, k1) (root, h)
    = Some ((set_uSendIp 0xFFFFFFFF s,
        if r.1 =? 0 then
          (sys_sendto (iSocket s) (htonl (Z.lor (htonl addr) 0xFF)) 1800
             (request_bytes sn (el_server_ip root') (el_cur_con root')) k2).2
        else k2), (root', h'))).
  { unfold eth_link_udp_cbk_data, udp_socket_recv. rewrite Hrecv. cbv beta iota zeta.
    cbn [fst snd default]. unfold id. rewrite Hma, E. unfold discovery_send, udp_socket_send.
    destruct (r.1 =? 0); [|done]. cbn [mbind option_bind fst snd set_uSendIp set_psCfg bFlagInit
      iSocket psCfg uSendIp wSendPort]. by rewrite Hinit, Hport. }
  exists root', h', l'. eexists. split; [exact H1|]. split; [exact H2|]. split; [exact H3|].
  split; [|reflexivity]. cbn [udp_socket_task]. rewrite Hclose, Hsel. cbn [fst snd].
  destruct (Z.ltb_spec (sel_ret sel) 0); [lia|]. destruct (Z.eqb_spec (sel_ret sel) 0); [lia|].
  rewrite Hset. cbn [sUdpCbk pv_cbk_data]. by rewrite E'.
Qed.


(** ** Witnesses *)

Definition open_socket_3 : udp_socket :=
  {| bFlagInit := true; bFlagClose := false; iSocket := 3; psCfg := sUdpCfg |}.
Definition demo_answer : list Z :=
  encode (Frame 0 255 3 187 0 (le_bytes 4 3 ++ demo_sn 52 ++ replicate 68 0)).

Lemma radar_answered_witness :
  (exists root' h',
     udp_socket_task (λ x, x) (sUdpCbk (λ x, x) (λ _, Some 7%nat) (λ _, true))
       (UdpState UP_loop open_socket_3 (Replay {[3]} [] demo_answer []) (demo_root, demo_servers))
     = Some (UdpState UP_loop open_socket_3 (Replay {[3]} [] [] [request_bytes (demo_sn 52) 161 8073])
               (root', h'))).
Proof.
  destruct (radar_answered (λ x, x) (λ _, Some 7%nat) (λ _, true) demo_root demo_servers
    [0; 1; 2]%nat demo_view (Frame 0 255 3 187 0 (le_bytes 4 3 ++ demo_sn 52 ++ replicate 68 0))
    (le_bytes 4 3) (demo_sn 52) (replicate 68 0) 7 0 open_socket_3 (Replay {[3]} [] demo_answer [])
    (Replay {[3]} [] demo_answer []) (Replay {[3]} [] [] []) (Selected 1 0 true))
    as (root' & h' & l' & k' & _ & Hc & Hcur & H & Hk);
    [by_eval|by_eval|exact demo_ok|by_eval|by_eval|reflexivity|reflexivity|discriminate
    |by_eval|reflexivity|reflexivity|reflexivity|reflexivity|by_eval|reflexivity|reflexivity
    |reflexivity|vm_compute; reflexivity|by_eval|reflexivity|vm_compute; reflexivity|].
  destruct Hcur as (p & Hp & Ep); [by_eval|]. vm_compute in Hp. injection Hp as <-.
  assert (el_server_ip root' = 161) as Eip by by injection Hc.
  rewrite Ep, Eip in Hk. exists root', h'. rewrite H, Hk. vm_compute. reflexivity.
Defined.

Definition demo_discovery (m : uninit_pc) (d : detect_pc) : discovery replay := {|
  dv_udp := UdpState UP_loop open_socket_3 (Replay {[3]} [] [] []) (demo_root, demo_servers);
  dv_detect := {| detect_pc_of := d; exit_relase := false; detect_frequence := 2;
                  ep_lookup := lookup_bytes |};
  dv_main := m; dv_closed := []
|}.

