(* ===== verification/RadarSession.v ===== *)
(** * A radar's session: TCP server, forwarding callbacks and radar connection

    How the pieces work together for one radar: the thread of its TCP server
    ([TcpServer]) calls the callbacks of the discovery server
    ([src/srv/eth_link/eth_link_server.c], and the same ones in [eth_link.c]), which forward
    to the module's own ([src/app/radars_network/radar_network.c], modelled in
    [RadarNetwork]), which runs commands ([Alink]). *)

From S2P Require Import Prelude Checksum AlinkFrame AlinkCheck AlinkRecv AlinkBuild Linked.
From S2P Require Import AlinkOrder AlinkUpload Layout SysportTask AlgInterface AlinkWorld.
From S2P Require Import AlinkSystem AlinkTrack AlinkTarget Alink RadarNetwork Sockets TcpServer.
Local Open Scope list_scope.
Local Open Scope Z_scope.

(** ** The code: forwarding *)

Section forward.
Context {S W : Type} (psUserCbk : option (tcp_cbk S W)).

Definition eth_link_socket_cbk_connect (w : W) : W :=
  match psUserCbk with Some u => call_cbk (pv_cbk_connect u) w | None => w end.

(** Without a user callback 128 bytes are read and dropped. *)
Definition eth_link_socket_cbk_data (pi_recv : Z -> S -> list Z * S) (s : S) (w : W)
  : option (S * W) :=
  match psUserCbk ≫= pv_cbk_data with
  | Some f => f pi_recv s w
  | None => Some ((pi_recv 128 s).2, w)
  end.

Definition eth_link_socket_cbk_disconnect (w : W) : W :=
  match psUserCbk with Some u => call_cbk (pv_cbk_disconnect u) w | None => w end.

(** The table a list node registers with its socket; [del] takes the node off its list. *)
Definition eth_link_sCbk (del : W -> W) : tcp_cbk S W := {|
  pv_cbk_connect := Some eth_link_socket_cbk_connect;
  pv_cbk_data := Some eth_link_socket_cbk_data;
  pv_cbk_disconnect := Some eth_link_socket_cbk_disconnect;
  pv_cbk_delete := Some (λ w,
    del (match psUserCbk with Some u => call_cbk (pv_cbk_delete u) w | None => w end))
|}.
End forward.

(** Forwarding keeps the promise of the user's callbacks. *)
#[export] Instance eth_link_only_reads {S W} (u : option (tcp_cbk S W)) del :
  (forall c, u = Some c -> OnlyReads c) -> OnlyReads (eth_link_sCbk u del).
Proof.
  intros Hu f recv P s w s' w' [= <-] HP Hs E. unfold eth_link_socket_cbk_data in E.
  destruct u as [c|]; cbn [mbind option_bind] in E.
  - destruct (pv_cbk_data c) as [g|] eqn:Eg; [|injection E as <- <-; by apply HP].
    by apply (Hu c eq_refl g recv P s w s' w').
  - injection E as <- <-. by apply HP.
Qed.

(** ** The code: the table of a radar connection *)

Section radar.
Context {X T S : Type} (malloc : Z -> option (list Z)) (blk : nat) (mem : memory).

(** The connection object, gone after its deletion, and the alink world. *)
Definition radar_world : Type := option (radar_network X T) * alink_world X T.

Definition radar_network_sCbk : tcp_cbk S radar_world := {|
  pv_cbk_connect := Some (λ w, w);
  pv_cbk_data := Some (λ pi_recv s w,
    psNetwork ← w.1;
    '(n, aw, s) ← radar_network_cbk_data pi_recv malloc blk mem psNetwork w.2 s;
    Some (s, (Some n, aw)));
  pv_cbk_disconnect := Some (λ w, w);
  pv_cbk_delete := Some (λ w, (None, w.2))
|}.

Lemma recv_rest_only_reads (recv : Z -> S -> list Z * S) (P : S -> Prop) :
  (forall n t, P t -> P (recv n t).2) -> forall fuel buf off len s res s', P s ->
  radar_recv_rest recv fuel buf off len s = Some (res, s') -> P s'.
Proof.
  intros HP. induction fuel as [|fuel IH]; intros buf off len s res s' Hs E;
    cbn [radar_recv_rest] in E; destruct (off <? len); try discriminate;
    try (by injection E as _ <-).
  specialize (HP (len - off) s Hs). destruct (recv (len - off) s) as [[|b bs] s1];
    [by injection E as _ <-|]. apply bind_Some in E as (buf' & _ & E). by apply IH in E.
Qed.

#[export] Instance radar_only_reads : OnlyReads radar_network_sCbk.
Proof.
  intros f recv P s [n aw] s' w' [= <-] HP Hs E. cbn [fst snd] in E.
  apply bind_Some in E as (n0 & _ & E). apply bind_Some in E as ([[n1 aw1] s1] & E & [= <- <-]).
  unfold radar_network_cbk_data in E. pose proof (HP (Zlen (replicate (Z.to_nat
    ALINK_HEADER_CHECKSUM_LEN) 0)) s Hs) as Hs1.
  destruct (recv _ s) as [[|b bs] s2]; [by injection E as _ _ <-|]. cbn [snd] in Hs1.
  apply bind_Some in E as (buf & _ & E). apply bind_Some in E as (len & _ & E).
  destruct (0 <? len); [|by injection E as _ _ <-].
  destruct (malloc len); [|by injection E as _ _ <-].
  apply bind_Some in E as (off & _ & E). apply bind_Some in E as (src & _ & E).
  apply bind_Some in E as (buf2 & _ & E). apply bind_Some in E as ([whole s3] & Er & E).
  apply (recv_rest_only_reads recv P HP) in Er; [|done].
  destruct whole; [|by injection E as _ _ <-].
  by apply bind_Some in E as ([so aw2] & _ & [= _ _ <-]).
Qed.
End radar.

(** ** The stream of a connection *)

Section stream.
Context {K : Type} `{HK : Kernel K} (open : K -> gset Z) (unread : Z -> K -> list Z).
Context `{HL : !KernelLaws K open unread}.

Definition server_pending (sk : tcp_server * K) : list Z := unread (client_fd sk.1) sk.2.

#[export] Instance server_stream : RecvStream tcp_server_recv server_pending.
Proof.
  intros n [s k] Hn. unfold tcp_server_recv, server_pending. cbn [fst snd].
  destruct (unread_recv (client_fd s) n k Hn) as (E & Hl & Hne).
  destruct (sys_recv (client_fd s) n k) as [[|b bs] k']; cbn [fst snd client_fd set_connect] in *;
    done.
Qed.

(** A read that finds bytes does not change the server. *)
Lemma read_on_server sk sk' : read_on tcp_server_recv sk sk' -> sk'.1 = sk.1.
Proof.
  intros H. apply (H (λ t, t.1 = sk.1)); [|done]. intros n [s k] Hs. unfold tcp_server_recv.
  cbn [fst] in *. by destruct (sys_recv (client_fd s) n k) as [[|b bs] k'].
Qed.
End stream.

(** ** One turn *)

Lemma session_frame {X T K} `{Kernel K} open unread `{!KernelLaws K open unread}
    malloc blk mem del n (s : tcp_server) (k : K) (net : radar_network X T) aw f rest junk :
  let sel := sys_select (client_fd s) k in
  let user := radar_network_sCbk malloc blk mem in
  bFlagConnect s = true -> bFlagClose s = false ->
  0 < sel_ret sel.1 -> sel_isset sel.1 = true ->
  alink_ready aw -> socket_idle (rn_sAlinkSocket net) sOrder_server ->
  frame_ok f -> Zlen (fr_payload f) + 8 < 65536 ->
  unread (client_fd s) k = encode f ++ rest -> 3 <= Zlen (tcp_server_recv 8 (s, sel.2)).1 ->
  malloc (Zlen (encode f)) = Some junk -> Zlen junk = Zlen (encode f) ->
  match serve_frame device_commands (<[blk := encode f]> mem)
          (network_import (rn_psUser net) blk (Zlen (encode f))) (Ptr blk 0) f (aw_dev aw) with
  | None => tcp_server_task (eth_link_sCbk (Some user) del)
              (ServerState SP_serve n s k (Some net, aw)) = None
  | Some d => exists net' aw' k',
      tcp_server_task (eth_link_sCbk (Some user) del) (ServerState SP_serve n s k (Some net, aw))
      = Some (ServerState SP_serve 0 s k' (Some net', aw'))
      /\ aw_dev aw' = d /\ unread (client_fd s) k' = rest
      /\ alink_ready aw' /\ socket_idle (rn_sAlinkSocket net') sOrder_server
      /\ rn_psUser net' = rn_psUser net
  end.
Proof.
  intros sel user Hcon Hclo Hsel Hset Hr Hs Hf Hl Hp H3 Hmal Hjunk.
  pose proof (radar_data_frame tcp_server_recv (server_pending unread) malloc blk mem net aw
    (s, sel.2) f rest junk Hr Hs Hf Hl) as HD.
  unfold server_pending in HD. cbn [fst snd] in HD. unfold sel in HD at 1.
  rewrite (unread_select (open := open)) in HD. specialize (HD Hp H3 Hmal Hjunk).
  cbn [tcp_server_task]. unfold tcp_server_serve. fold sel. destruct sel as [sr k1].
  cbn [fst snd] in *. rewrite Hset. destruct (Z.ltb_spec 0 (sel_ret sr)); [|lia].
  cbn [pv_cbk_data eth_link_sCbk]. unfold eth_link_socket_cbk_data.
  cbn [mbind option_bind user pv_cbk_data radar_network_sCbk fst snd].
  destruct (serve_frame _ _ _ _ _ _) as [d|]; [|by rewrite HD].
  destruct HD as (net' & aw' & [s' k'] & -> & Hd & Hrest & Hon & Hr' & Hs' & Hu).
  apply read_on_server in Hon. cbn [fst snd] in *. subst s'. cbn [mbind option_bind].
  rewrite Hcon, Hclo. cbn [negb]. by exists net', aw', k'.
Qed.

(** ** Properties *)

(** The commands of a sequence of frames, one after the other. *)
Definition serve_frames {X} (mem : memory) (u : eth_link_user) (blk : nat) (fs : list alink_frame)
    (d : dev_world X) : option (dev_world X) :=
  foldl (λ d f, d ≫= serve_frame device_commands (<[blk := encode f]> mem)
                       (network_import u blk (Zlen (encode f))) (Ptr blk 0) f) (Some d) fs.

(** C2: a session. When a connected radar has sent frames (in any segments, as long as a
    read that starts a frame finds the length field), its server's thread needs one turn per
    frame: it runs the command that the device port has for each frame, in the order of
    the frames, and is still connected, with nothing left unread and no silent second
    counted. *)
Theorem radar_session_stream {X T K} `{Kernel K} open unread `{!KernelLaws K open unread}
    malloc blk mem del n (s : tcp_server) (k : K) (net : radar_network X T) aw fs d :
  let user := radar_network_sCbk malloc blk mem in let fd := client_fd s in
  bFlagConnect s = true -> bFlagClose s = false ->
  alink_ready aw -> socket_idle (rn_sAlinkSocket net) sOrder_server ->
  (forall k, unread fd k <> [] ->
     0 < sel_ret (sys_select fd k).1 /\ sel_isset (sys_select fd k).1 = true) ->
  (forall k, 8 <= Zlen (unread fd k) -> 3 <= Zlen (sys_recv fd 8 k).1) ->
  (forall n, exists junk, malloc n = Some junk /\ Zlen junk = Z.max 0 n) ->
  Forall (λ f, frame_ok f /\ Zlen (fr_payload f) + 8 < 65536) fs ->
  fs <> [] -> unread fd k = concat (encode <$> fs) ->
  serve_frames mem (rn_psUser net) blk fs (aw_dev aw) = Some d ->
  exists net' aw' k',
    turns (tcp_server_task (eth_link_sCbk (Some user) del)) (length fs)
      (ServerState SP_serve n s k (Some net, aw))
    = Some (ServerState SP_serve 0 s k' (Some net', aw'))
    /\ aw_dev aw' = d /\ unread fd k' = []
    /\ alink_ready aw' /\ socket_idle (rn_sAlinkSocket net') sOrder_server.
Proof.
  intros user fd Hcon Hclo Hr Hs Hsel H3 Hmal Hfs. revert n k net aw Hr Hs.
  induction Hfs as [|f fs [Hf Hl] Hfs IH]; intros n k net aw Hr Hs Hne Hun Hd; [done|].
  cbn [fmap list_fmap concat] in Hun. pose proof (Zlen_encode f) as He.
  pose proof (Zlen_nonneg (fr_payload f)) as Hp0.
  destruct (Hsel k) as [Hret Hset].
  { rewrite Hun. intros E%(f_equal Zlen). rewrite Zlen_app, Zlen_nil in E.
    pose proof (Zlen_nonneg (concat (encode <$> fs))). lia. }
  destruct (Hmal (Zlen (encode f))) as (junk & Hm & Hj).
  pose proof (session_frame open unread malloc blk mem del n s k net aw f
    (concat (encode <$> fs)) junk Hcon Hclo Hret Hset Hr Hs Hf Hl Hun) as HX.
  unfold serve_frames in Hd. cbn [foldl mbind option_bind] in Hd.
  destruct (serve_frame _ _ _ _ f (aw_dev aw)) as [d1|] eqn:Ed; cycle 1.
  { exfalso. clear -Hd. induction fs; cbn in Hd; [discriminate|auto]. }
  destruct HX as (net1 & aw1 & k1 & Et & Hd1 & Hun1 & Hr1 & Hs1 & Hu1); [|done|lia|].
  { unfold tcp_server_recv. fold fd. specialize (H3 (sys_select fd k).2).
    rewrite (unread_select (open := open)), Hun, Zlen_app in H3.
    pose proof (Zlen_nonneg (concat (encode <$> fs))). specialize (H3 ltac:(lia)).
    by destruct (sys_recv fd 8 _) as [[|b bs] ?]. }
  cbn [turns length]. match goal with |- context [tcp_server_task ?c ?st] =>
    replace (tcp_server_task c st) with (Some (ServerState SP_serve 0 s k1 (Some net1, aw1)))
      by (symmetry; exact Et) end. cbn [mbind option_bind].
  destruct (decide (fs = [])) as [-> |Hfs0].
  { exists net1, aw1, k1. cbn in Hd. injection Hd as <-. done. }
  apply (IH 0 k1 net1 aw1 Hr1 Hs1 Hfs0 Hun1). rewrite Hu1, Hd1. exact Hd.
Qed.

(** ** Witness *)

(** Two attitude frames, the second with other payload. *)
Definition session_frames : list alink_frame :=
  [Frame 0 8 3 0x13 0 [7; 8; 9]; Frame 1 8 3 0x13 0 [4; 5; 6]].
Definition session_kernel : replay := Replay {[3; 4]} [] (concat (encode <$> session_frames)) [].
Definition session_server : tcp_server := set_connect true (set_client_fd 4 demo_server).
Definition session_malloc (n : Z) : option (list Z) := Some (replicate (Z.to_nat n) 170).

Lemma session_input k : 8 <= Zlen (rp_input k) -> 3 <= Zlen (sys_recv 4 8 k).1.
Proof.
  intros H. cbn [sys_recv replay_kernel fst]. unfold Zlen in *. rewrite length_take. lia.
Qed.

Lemma radar_session_stream_witness :
  (exists aw net' aw' k', alink_init 0 0 0 demo_statics = Some (0, aw)
    /\ turns (tcp_server_task (eth_link_sCbk
         (Some (radar_network_sCbk session_malloc 9 ∅)) (λ w, w))) 2
         (ServerState SP_serve 3 session_server session_kernel (Some demo_network, aw))
       = Some (ServerState SP_serve 0 session_server k' (Some net', aw'))
    /\ take 3 (drop 11529 (dw_pack (aw_dev aw'))) = [4; 5; 6] /\ rp_input k' = []).
Proof.
  destruct (alink_init_ready (X := unit) (T := unit) demo_buffer demo_buffer [] ∅ demo_world)
    as (aw & E & Hr & _ & Hp & _); [by vm_compute..|].
  destruct aw as [o os cmds pk sn [u pack alg mo qo]]. cbn [aw_dev dw_pack] in Hp. subst pack.
  pose proof (radar_session_stream rp_visible (λ _, rp_input) session_malloc 9 ∅ (λ w, w) 3
    session_server session_kernel demo_network) as H.
  specialize (fun d => H _ session_frames d eq_refl eq_refl Hr (conj eq_refl eq_refl)).
  cbn [aw_dev] in H.
  match type of H with forall d, _ -> _ -> _ -> _ -> _ -> _ -> ?q = Some d -> _ =>
    assert (match q with Some d => take 3 (drop 11529 (dw_pack d)) = [4; 5; 6] | None => False end)
      as P by (vm_compute; reflexivity); destruct q as [d|]; [|destruct P] end.
  destruct (H d) as (net' & aw' & k' & Ht & Hd & Hun & _); [| |..].
  - intros k Hk. cbn [sys_select replay_kernel]. rewrite bool_decide_eq_true_2 by exact Hk.
    split; [by_eval|reflexivity].
  - exact session_input.
  - intros n. exists (replicate (Z.to_nat n) 170). split; [reflexivity|].
    unfold Zlen. rewrite length_replicate. lia.
  - by_eval.
  - discriminate.
  - reflexivity.
  - reflexivity.
  - subst d. eexists _, net', aw', k'. split; [exact E|]. split; [exact Ht|]. by split.
Defined.
