(* ===== verification/EthLink.v ===== *)
(** * The client side of the network ([src/srv/eth_link/eth_link.c])

    A C2 station looks for the AGX by broadcast and tells it where to connect; the AGX keeps
    a list of the kinds of peers it serves and, for each kind, a list of TCP clients.  A
    node of either list is an address in a finite map; a freed node is gone from it. *)

From S2P Require Import Prelude Linked Layout CString Checksum AlinkFrame AlinkCheck AlinkBuild.
From S2P Require Import NetconProtocol.
Local Open Scope c_scope.
Local Open Scope list_scope.
Local Open Scope Z_scope.

Definition RTH_LINK_NET_TCP_CLIENT : Z := 1.
Definition RTH_LINK_NET_UDP : Z := 2.
Definition DEFAULT_AGX_ACCESS_PORT : Z := 9001.
(** "192.168.1.161" and "192.168.1.162" without their terminators. *)
Definition AGX_DEFAULT_IP : list Z := [49; 57; 50; 46; 49; 54; 56; 46; 49; 46; 49; 54; 49].
Definition DEFAULT_AGX_ACCESS_IP : list Z := [49; 57; 50; 46; 49; 54; 56; 46; 49; 46; 49; 54; 50].

(** ** Data *)

(** A client: the configuration its socket has, the user's callbacks, and the link. *)
Record eth_link_tcp_client_list := {
  cl_uRemoteIp : Z; cl_wRemotePort : Z; cl_wConnectTime : Z;   (* [sCfg] *)
  cl_psUserCbk : option nat; cl_psRoot : option nat; cl_psNext : option nat
}.

Definition cl_set_next (p : option nat) (n : eth_link_tcp_client_list) : eth_link_tcp_client_list :=
  {| cl_uRemoteIp := cl_uRemoteIp n; cl_wRemotePort := cl_wRemotePort n;
     cl_wConnectTime := cl_wConnectTime n; cl_psUserCbk := cl_psUserCbk n;
     cl_psRoot := cl_psRoot n; cl_psNext := p |}.
Definition cl_set_root (r : nat) (n : eth_link_tcp_client_list) : eth_link_tcp_client_list :=
  {| cl_uRemoteIp := cl_uRemoteIp n; cl_wRemotePort := cl_wRemotePort n;
     cl_wConnectTime := cl_wConnectTime n; cl_psUserCbk := cl_psUserCbk n;
     cl_psRoot := Some r; cl_psNext := cl_psNext n |}.

#[export] Instance cl_linked : Linked eth_link_tcp_client_list :=
  {| ln_next := cl_psNext; ln_set_next := cl_set_next; ln_next_set _ _ := eq_refl |}.

(** A kind of peers; [ps_init] gives the user's callbacks for a client. *)
Record eth_link_list := {
  el_net : Z; el_max : Z; el_type : Z; el_ps_init : nat -> option nat;
  el_list : option nat; el_next : option nat
}.

Definition el_set_list (p : option nat) (r : eth_link_list) : eth_link_list :=
  {| el_net := el_net r; el_max := el_max r; el_type := el_type r; el_ps_init := el_ps_init r;
     el_list := p; el_next := el_next r |}.
Definition el_set_next (p : option nat) (r : eth_link_list) : eth_link_list :=
  {| el_net := el_net r; el_max := el_max r; el_type := el_type r; el_ps_init := el_ps_init r;
     el_list := el_list r; el_next := p |}.

#[export] Instance el_linked : Linked eth_link_list :=
  {| ln_next := el_next; ln_set_next := el_set_next; ln_next_set _ _ := eq_refl |}.

(** The static objects of the file, and the nodes. *)
Record eth_link := {
  psEthList : option nat; lk_types : gmap nat eth_link_list;
  lk_clients : gmap nat eth_link_tcp_client_list;
  bFlagTick : bool; uSendIp : Z
}.

Definition set_types (p : option nat) (t : gmap nat eth_link_list) (k : eth_link) : eth_link :=
  {| psEthList := p; lk_types := t; lk_clients := lk_clients k; bFlagTick := bFlagTick k;
     uSendIp := uSendIp k |}.
Definition set_clients (c : gmap nat eth_link_tcp_client_list) (k : eth_link) : eth_link :=
  {| psEthList := psEthList k; lk_types := lk_types k; lk_clients := c; bFlagTick := bFlagTick k;
     uSendIp := uSendIp k |}.
Definition set_tick (b : bool) (k : eth_link) : eth_link :=
  {| psEthList := psEthList k; lk_types := lk_types k; lk_clients := lk_clients k; bFlagTick := b;
     uSendIp := uSendIp k |}.
Definition set_ip (ip : Z) (k : eth_link) : eth_link :=
  {| psEthList := psEthList k; lk_types := lk_types k; lk_clients := lk_clients k;
     bFlagTick := bFlagTick k; uSendIp := ip |}.

(** What the allocator and the socket layer answer while a client is made: the address
    [malloc] returns (a null pointer is handed to [memset]), and whether
    [tcp_client_create] succeeds. *)
Record client_alloc := { ca_addr : option nat; ca_create : bool }.

(** ** The code: TCP clients *)

Definition eth_link_create_tcp_client_list (h : gmap nat eth_link_tcp_client_list)
    (alloc : client_alloc) (wConnectTime uIp wPort : Z) (ps_init : nat -> option nat)
  : option (option nat * gmap nat eth_link_tcp_client_list) :=
  a ← ca_addr alloc;
  if ca_create alloc then
    Some (Some a, <[a := {| cl_uRemoteIp := u32 uIp; cl_wRemotePort := u16 wPort;
                            cl_wConnectTime := u16 wConnectTime; cl_psUserCbk := ps_init a;
                            cl_psRoot := None; cl_psNext := None |}]> h)
  else Some (None, h).

(** The loop over all clients but the last: where it stops, and the count. *)
Fixpoint client_walk (fuel : nat) (h : gmap nat eth_link_tcp_client_list) (psList : nat)
    (uIp wPort uCount : Z) : option (nat * Z) :=
  match fuel with
  | O => None
  | S fuel' =>
      n ← h !! psList;
      match cl_psNext n with
      | None => Some (psList, uCount)
      | Some next =>
          if (cl_uRemoteIp n =? uIp) && (cl_wRemotePort n =? wPort) then Some (psList, uCount)
          else client_walk fuel' h next uIp wPort (u32 (uCount + 1))
      end
  end.

Definition eth_link_add_tcp_client_list (k : eth_link) (r : nat) (uIp wPort wConnectTime : Z)
    (alloc : client_alloc) : option eth_link :=
  let uIp := u32 uIp in let wPort := u16 wPort in
  root ← lk_types k !! r;
  match el_list root with
  | Some psList =>
      '(psList, uCount) ← client_walk (size (lk_clients k)) (lk_clients k) psList uIp wPort 1;
      n ← lk_clients k !! psList;
      if negb (cl_uRemoteIp n =? uIp) && negb (cl_wRemotePort n =? wPort)
         && (uCount <? el_max root) then
        '(new, h) ← eth_link_create_tcp_client_list (lk_clients k) alloc wConnectTime uIp wPort
                      (el_ps_init root);
        n ← h !! psList;
        let h := <[psList := cl_set_next new n]> h in
        match new with
        | Some a =>
            m ← h !! a; Some (set_clients (<[a := cl_set_root r (cl_set_next None m)]> h) k)
        | None => Some (set_clients h k)
        end
      else Some k
  | None =>
      '(new, h) ← eth_link_create_tcp_client_list (lk_clients k) alloc wConnectTime uIp wPort
                    (el_ps_init root);
      let k := set_types (psEthList k) (<[r := el_set_list new root]> (lk_types k)) k in
      match new with
      | Some a =>
          m ← h !! a; Some (set_clients (<[a := cl_set_root r (cl_set_next None m)]> h) k)
      | None => Some (set_clients h k)
      end
  end.

Definition eth_link_del_tcp_client_list (k : eth_link) (psList : nat) : option eth_link :=
  n ← lk_clients k !! psList;
  r ← cl_psRoot n;
  root ← lk_types k !! r;
  k ← match el_list root with
    | None => Some k
    | Some psIndex =>
        if decide (psList = psIndex) then
          Some (set_types (psEthList k)
                  (<[r := el_set_list (cl_psNext n) root]> (lk_types k)) k)
        else
          h ← list_unlink_head_walk (size (lk_clients k)) (lk_clients k) psIndex (Some psIndex)
                psList;
          Some (set_clients h k)
    end;
  Some (set_clients (delete psList (lk_clients k)) k).

(** The callback a client's thread makes when it ends; [user] is the effect of
    [pv_cbk_delete] of the connection. *)
Definition eth_link_socket_cbk_delete {W} (user : nat -> W -> option W) (k : eth_link)
    (psHandle : nat) (w : W) : option (eth_link * W) :=
  n ← lk_clients k !! psHandle;
  w ← match cl_psUserCbk n with Some c => user c w | None => Some w end;
  k ← eth_link_del_tcp_client_list k psHandle;
  Some (k, w).

(** ** The code: kinds of peers *)

(** The loop over all kinds but the last: where it stops, and whether it broke off. *)
Fixpoint type_walk (fuel : nat) (h : gmap nat eth_link_list) (psList : nat) (type : Z)
  : option (nat * bool) :=
  match fuel with
  | O => None
  | S fuel' =>
      n ← h !! psList;
      match el_next n with
      | None => Some (psList, false)
      | Some next =>
          if el_type n =? type then Some (psList, true) else type_walk fuel' h next type
      end
  end.

Section add_type.
Context (inet_addr : list Z -> Z) (htonl : Z -> Z).

(** A new kind at the address [a]; kind 1 gets its default client at once. *)
Definition eth_link_new_type (k : eth_link) (a : nat) (type net max : Z)
    (ps_init : nat -> option nat) (alloc : client_alloc) : option eth_link :=
  let node := {| el_net := u8 net; el_max := u8 max; el_type := u16 type; el_ps_init := ps_init;
                 el_list := None; el_next := None |} in
  let k := set_types (psEthList k) (<[a := node]> (lk_types k)) k in
  if u16 type =? 1 then
    eth_link_add_tcp_client_list k a (htonl (inet_addr DEFAULT_AGX_ACCESS_IP))
      DEFAULT_AGX_ACCESS_PORT 0 alloc
  else Some k.

(** [addr] is what [malloc] returns for the kind: a null pointer is handed to [memset]. *)
Definition eth_link_add_type (k : eth_link) (type net max : Z) (ps_init : nat -> option nat)
    (addr : option nat) (alloc : client_alloc) : option (Z * eth_link) :=
  match psEthList k with
  | Some psList =>
      '(psList, found) ← type_walk (size (lk_types k)) (lk_types k) psList (u16 type);
      let eRet := if found : bool then 1 else 0 in
      n ← lk_types k !! psList;
      if negb (el_type n =? u16 type) then
        a ← addr;
        let k := set_types (psEthList k) (<[psList := el_set_next (Some a) n]> (lk_types k)) k in
        k ← eth_link_new_type k a type net max ps_init alloc;
        Some (eRet, k)
      else Some (eRet, k)
  | None =>
      a ← addr;
      k ← eth_link_new_type (set_types (Some a) (lk_types k) k) a type net max ps_init alloc;
      Some (0, k)
  end.
End add_type.

(** The loop of the removal, with the node before the current one at hand. *)
Fixpoint del_type_walk (fuel : nat) (h : gmap nat eth_link_list) (psLast : nat)
    (psList : option nat) (type : Z) : option (gmap nat eth_link_list) :=
  match psList with
  | None => Some h
  | Some a =>
      match fuel with
      | O => None
      | S fuel' =>
          n ← h !! a;
          if el_type n =? type then
            last ← h !! psLast; Some (delete a (<[psLast := el_set_next (el_next n) last]> h))
          else del_type_walk fuel' h a (el_next n) type
      end
  end.

Definition eth_link_del_type (k : eth_link) (type : Z) : option (Z * eth_link) :=
  match psEthList k with
  | None => Some (0, k)
  | Some psList =>
      h ← del_type_walk (size (lk_types k)) (lk_types k) psList (Some psList) (u16 type);
      Some (0, set_types (psEthList k) h k)
  end.

(** The first kind with the type. *)
Definition eth_link_create_socket (k : eth_link) (type ip port : Z) (alloc : client_alloc)
  : option (Z * eth_link) :=
  found ← list_find_node (size (lk_types k)) (lk_types k) (λ n, el_type n =? u16 type)
            (psEthList k);
  match found with
  | Some r =>
      n ← lk_types k !! r;
      if el_net n =? RTH_LINK_NET_TCP_CLIENT then
        k ← eth_link_add_tcp_client_list k r ip port 5 alloc; Some (0, k)
      else Some (0, k)
  | None => Some (0, k)
  end.

(** ** The code: the discovery protocol *)

(** "RADAR-12345678" and "acur101_app_v00.01.02_dev" with their terminators. *)
Definition default_sn : list Z := [82; 65; 68; 65; 82; 45; 49; 50; 51; 52; 53; 54; 55; 56; 0].
Definition devinfo_version : list Z :=
  [97; 99; 117; 114; 49; 48; 49; 95; 97; 112; 112; 95; 118; 48; 48; 46; 48; 49; 46; 48; 50; 95;
   100; 101; 118; 0].

(** [file] is what reading the file of the serial number returns (at most 63 bytes), and
    [sn] the static buffer; reading the same file again does not change it. *)
Definition eth_protocol_get_sn (file : option (list Z)) (sn : list Z) : list Z :=
  match file with
  | Some ((_ :: _) as bs) => default sn (st_bytes sn 0 bs)
  | _ => default_sn
  end.

Section handlers.
Context {W : Type} (send : Z -> list Z -> W -> option W) (htonl : Z -> Z).

(** Three datagrams to [uSendIp], once per tick. *)
Definition eth_link_broadcast (k : eth_link) (data : list Z) (w : W) : option (eth_link * W) :=
  if bFlagTick k then
    w ← send (uSendIp k) data w;
    w ← send (uSendIp k) data w;
    w ← send (uSendIp k) data w;
    Some (set_tick false k, w)
  else Some (k, w).

(** [own] is the string of the serial number and [junk] what the local object holds. *)
Definition eth_protocol_devinfo_pkg_send (k : eth_link) (own junk : list Z) (w : W)
  : option (eth_link * W) :=
  m ← st_le 4 junk (offsetof eth_protocol_devinfo "protocol") 3;
  sn ← strncpy_bytes 64 own;
  m ← st_bytes m (offsetof eth_protocol_devinfo "sn") sn;
  m ← st_le 2 m (offsetof eth_protocol_devinfo "type") 3;
  m ← st_le 2 m (offsetof eth_protocol_devinfo "status") 1;
  version ← strncpy_bytes 64 devinfo_version;
  m ← st_bytes m (offsetof eth_protocol_devinfo "version") version;
  '(_, m) ← eth_protocol_package 187 m (sizeof eth_protocol_devinfo - 11);
  eth_link_broadcast k m w.

(** Whether the string in the message is the own serial number. *)
Definition sn_is_own (sn own : list Z) : option bool :=
  len ← strlen sn;
  len' ← strlen own;
  if len' =? len then memcmp_eq len sn own else Some false.

(** The first kind with a client at [uIp], as the two loops look for it. *)
Fixpoint connected_walk (fuel : nat) (k : eth_link) (psList : option nat) (uIp : Z)
  : option (option nat) :=
  match psList with
  | None => Some None
  | Some r =>
      match fuel with
      | O => None
      | S fuel' =>
          n ← lk_types k !! r;
          psClient ← (if el_net n =? RTH_LINK_NET_TCP_CLIENT then
                        list_find_node (size (lk_clients k)) (lk_clients k)
                          (λ c, htonl (cl_uRemoteIp c) =? uIp) (el_list n)
                      else Some None);
          match psClient with
          | Some _ => Some (Some r)
          | None => connected_walk fuel' k (el_next n) uIp
          end
      end
  end.

(** [m] holds the datagram and [psSearch] is the offset of the body. *)
Definition eth_protocol_search_handler (k : eth_link) (m own junk : list Z) (psSearch uIp : Z)
    (w : W) : option (eth_link * W) :=
  let sn := drop (Z.to_nat (psSearch + offsetof eth_protocol_search "sn")) m in
  sn0 ← head sn;
  if negb (sn0 =? 0) then
    same ← sn_is_own sn own;
    if same : bool then eth_protocol_devinfo_pkg_send k own junk w else Some (k, w)
  else
    found ← connected_walk (size (lk_types k)) k (psEthList k) uIp;
    match found with
    | None => eth_protocol_devinfo_pkg_send k own junk w
    | Some _ => Some (k, w)
    end.

Definition eth_protocol_cntinfo_handler (k : eth_link) (m own : list Z) (psCntInfo : Z)
    (alloc : client_alloc) : option eth_link :=
  let sn := drop (Z.to_nat (psCntInfo + offsetof eth_protocol_cntinfo "sn")) m in
  sn0 ← head sn;
  same ← (if negb (sn0 =? 0) then sn_is_own sn own else Some true);
  if same : bool then
    type ← ld_le 2 m (psCntInfo + offsetof eth_protocol_cntinfo "type");
    ip ← ld_le 4 m (psCntInfo + offsetof eth_protocol_cntinfo "ip");
    port ← ld_le 2 m (psCntInfo + offsetof eth_protocol_cntinfo "port");
    '(_, k) ← eth_link_create_socket k type (htonl ip) port alloc;
    Some k
  else Some k.

Definition eth_protocol_handler (k : eth_link) (m : list Z) (len uIp : Z) (own junk : list Z)
    (alloc : client_alloc) (w : W) : option (eth_link * W) :=
  pbyData ← eth_protocol_analysis m 0 len;
  match pbyData with
  | Some p =>
      msgid ← ld8 m (offsetof eth_protocol_head "msgid");
      if msgid =? 186 then eth_protocol_search_handler k m own junk p uIp w
      else if msgid =? 188 then k ← eth_protocol_cntinfo_handler k m own p alloc; Some (k, w)
      else Some (k, w)
  | None => Some (k, w)
  end.

(** [addr] is the dotted address the network card reports, if the requests succeed; it is
    copied without a terminator. *)
Definition agx_get_eht0_ip (ip : list Z) (addr : option (list Z)) : option (Z * list Z) :=
  match addr with
  | None => Some (-1, ip)
  | Some cip => n ← strlen cip; ip ← memcpy ip 0 cip 0 n; Some (0, ip)
  end.

(** The local address in the callback below: [strlen( ip )] is taken of the empty buffer. *)
Definition eth_link_local_ip (inet_addr : list Z -> Z) (addr : option (list Z)) : option Z :=
  '(ret, ip) ← agx_get_eht0_ip (replicate 64 0) addr;
  ip ← (if negb (ret =? 0) then n ← strlen ip; memcpy ip 0 (AGX_DEFAULT_IP ++ [0]) 0 n
        else Some ip);
  Some (u32 (inet_addr (cstr ip))).

(** [data] are the bytes read into the 64-byte buffer, which holds [buf] before, and
    [uIp] is the sender's address. *)
Definition eth_link_udp_cbk_data (k : eth_link) (local_ip : Z) (buf data : list Z) (uIp : Z)
    (own junk : list Z) (alloc : client_alloc) (w : W) : option (eth_link * W) :=
  abyBuffer ← st_bytes buf 0 data;
  if htonl uIp =? local_ip then Some (k, w) else
  let k := set_ip (Z.lor (u32 uIp) 255) k in
  '(k, w) ← eth_protocol_handler k abyBuffer (Zlen data) uIp own junk alloc w;
  Some (set_ip 4294967295 k, w).

(** One second of the link's thread. *)
Definition eth_link_task (alink_upload_heartbeat : W -> option W) (k : eth_link) (w : W)
  : option (eth_link * W) :=
  w ← alink_upload_heartbeat w;
  Some (set_tick true k, w).
End handlers.

(** ** What the list of clients stands for *)

(** A client by the address and the port of its peer. *)
Abbreviation peer := (Z * Z)%type.

Definition client_at (r : nat) (h : gmap nat eth_link_tcp_client_list) (a : nat) (p : peer) : Prop :=
  exists n, h !! a = Some n /\ cl_uRemoteIp n = p.1 /\ cl_wRemotePort n = p.2
    /\ cl_psRoot n = Some r.

(** The kind at [r] has the clients [v], whose nodes are [l]. *)
Definition clients_ok (k : eth_link) (r : nat) (l : list nat) (v : list peer) : Prop :=
  exists root, lk_types k !! r = Some root /\ is_list (lk_clients k) (el_list root) l
    /\ Forall2 (client_at r (lk_clients k)) l v.

(** The clients after the kind was asked to connect to [p]. *)
Definition client_add (max : Z) (v : list peer) (p : peer) (create_ok : bool) : list peer :=
  match last v with
  | None => if create_ok then [p] else []
  | Some z =>
      if decide (p ∈ v \/ z.1 = p.1 \/ z.2 = p.2) then v
      else if Zlen v <? max then if create_ok then v ++ [p] else v
      else v
  end.

(** What does not change when clients come and go. *)
Definition kind_config (n : eth_link_list) : Z * Z * Z * option nat :=
  (el_net n, el_max n, el_type n, el_next n).
Definition link_config (k : eth_link) : option nat * gmap nat (Z * Z * Z * option nat) :=
  (psEthList k, kind_config <$> lk_types k).

Lemma link_config_set_list k r root p :
  lk_types k !! r = Some root ->
  link_config (set_types (psEthList k) (<[r := el_set_list p root]> (lk_types k)) k) = link_config k.
Proof.
  intros Hr. unfold link_config. cbn [psEthList lk_types set_types]. f_equal.
  apply map_eq. intros i. rewrite !lookup_fmap. destruct (decide (i = r)) as [->|].
  - by rewrite lookup_insert_eq, Hr.
  - by rewrite lookup_insert_ne.
Qed.

(** *** The walk *)

Lemma client_walk_spec fuel r h a l v ip port c :
  is_list h (Some a) l -> Forall2 (client_at r h) l v -> (length l <= fuel)%nat ->
  0 <= c -> c + Zlen l < 2 ^ 32 ->
  exists b n c', client_walk fuel h a ip port c = Some (b, c') /\ h !! b = Some n
    /\ (last l = Some b /\ c' = c + Zlen l - 1 /\ (ip, port) ∉ removelast v
        /\ cl_psNext n = None /\ last v = Some (cl_uRemoteIp n, cl_wRemotePort n)
        \/ (ip, port) ∈ v /\ cl_uRemoteIp n = ip /\ cl_wRemotePort n = port).
Proof.
  intros Hl Hv. revert fuel a c Hl.
  induction Hv as [|b [ip1 port1] l v (n & Hn & H1 & H2 & Hr) Hv IH];
    intros fuel a c Hl Hf Hc Hmax; [discriminate Hl|].
  destruct Hl as ([= <-] & n' & Hn' & Hl). rewrite Hn in Hn'. injection Hn' as <-.
  cbn [fst snd] in *. destruct fuel as [|fuel]; [cbn in Hf; lia|]. cbn [client_walk].
  rewrite Hn. cbn [mbind option_bind]. rewrite Zlen_cons in *. pose proof (Zlen_nonneg l).
  destruct (cl_psNext n) as [next|] eqn:En; cbn [ln_next cl_linked] in Hl; rewrite En in Hl.
  - destruct ((cl_uRemoteIp n =? ip) && (cl_wRemotePort n =? port)) eqn:E.
    { exists a, n, c. split; [done|]. split; [done|]. right. split; [|lia].
      apply elem_of_cons; left; f_equal; lia. }
    destruct l as [|x l]; [discriminate Hl|]. rewrite u32_id by lia.
    destruct (IH fuel next (c + 1)) as (b & m & c' & Hw & Hb & Hcase); [done|cbn in Hf |- *; lia|lia|lia|].
    exists b, m, c'. split; [done|]. split; [done|].
    destruct Hcase as [(Hlb & -> & Hin & Hnx & Hla)|(Hin & ?)]; [left|right; split; [by right|done]].
    destruct v as [|y v]; [by apply Forall2_nil_inv_r in Hv|].
    split; [done|]. split; [lia|]. split; [|done].
    + change (removelast ((ip1, port1) :: y :: v)) with ((ip1, port1) :: removelast (y :: v)).
      apply not_elem_of_cons. split; [|done]. intros [= -> ->]. lia.
  - destruct l as [|x l]; [|by destruct Hl]. apply Forall2_nil_inv_l in Hv as ->.
    exists a, n, c. split; [done|]. split; [done|]. left. cbn.
    split; [done|]. split; [unfold Zlen; cbn; lia|]. split; [apply not_elem_of_nil|].
    split; [done|]. by rewrite H1, H2.
Qed.

(** *** New clients *)

Lemma client_at_insert_ne r h l v a n :
  a ∉ l -> Forall2 (client_at r h) l v -> Forall2 (client_at r (<[a := n]> h)) l v.
Proof.
  intros Ha Hv. induction Hv as [|b s l v (m & Hm & ?) Hv IH]; [done|].
  apply not_elem_of_cons in Ha as [Hb Ha]. constructor; [|by apply IH].
  exists m. by rewrite lookup_insert_ne.
Qed.

Lemma client_at_set_next r h l v z n p :
  h !! z = Some n -> Forall2 (client_at r h) l v ->
  Forall2 (client_at r (<[z := cl_set_next p n]> h)) l v.
Proof.
  intros Hz Hv. eapply Forall2_impl; [exact Hv|]. intros b s (m & Hm & Hs).
  destruct (decide (b = z)) as [->|Hne].
  - rewrite Hz in Hm. injection Hm as <-. exists (cl_set_next p n). by rewrite lookup_insert_eq.
  - exists m. by rewrite lookup_insert_ne.
Qed.

Lemma client_fresh r h a l v : h !! a = None -> Forall2 (client_at r h) l v -> a ∉ l.
Proof.
  intros Ha Hv Hi. induction Hv as [|b s l v (n & Hn & _) _ IH]; [by apply not_elem_of_nil in Hi|].
  apply elem_of_cons in Hi as [<-|?]; [congruence|auto].
Qed.

Lemma last_removelast {A} (v : list A) z : last v = Some z -> v = removelast v ++ [z].
Proof.
  intros [v' ->]%last_Some. rewrite removelast_app by done. cbn. by rewrite app_nil_r.
Qed.

Section add.
Context (k : eth_link) (r a : nat) (root : eth_link_list) (ip port t : Z).
Hypothesis (Hr : lk_types k !! r = Some root) (Ha : lk_clients k !! a = None).
Hypothesis (Hip : 0 <= ip < 2 ^ 32) (Hport : 0 <= port < 65536).

Definition new_client (next : option nat) (psRoot : option nat) : eth_link_tcp_client_list :=
  {| cl_uRemoteIp := ip; cl_wRemotePort := port; cl_wConnectTime := u16 t;
     cl_psUserCbk := el_ps_init root a; cl_psRoot := psRoot; cl_psNext := next |}.

Lemma create_client_spec h :
  eth_link_create_tcp_client_list h {| ca_addr := Some a; ca_create := true |} t ip port
    (el_ps_init root) = Some (Some a, <[a := new_client None None]> h).
Proof.
  unfold eth_link_create_tcp_client_list. cbn. unfold new_client.
  rewrite (u32_id ip) by lia. by rewrite (u16_id port) by lia.
Qed.

(** The first client. *)
Lemma client_add_first ok :
  el_list root = None ->
  exists k', eth_link_add_tcp_client_list k r ip port t {| ca_addr := Some a; ca_create := ok |}
      = Some k'
    /\ clients_ok k' r (if ok then [a] else []) (if ok then [(ip, port)] else [])
    /\ link_config k' = link_config k /\ bFlagTick k' = bFlagTick k.
Proof.
  intros Hl. unfold eth_link_add_tcp_client_list. rewrite (u32_id ip), (u16_id port), Hr by lia.
  cbn [mbind option_bind]. rewrite Hl. destruct ok.
  - rewrite create_client_spec. cbn [mbind option_bind]. rewrite lookup_insert_eq.
    cbn [mbind option_bind]. eexists. split; [done|]. rewrite insert_insert_eq. split.
    + exists (el_set_list (Some a) root). cbn [lk_types set_clients set_types lk_clients].
      rewrite lookup_insert_eq. split; [done|]. split.
      * split; [done|]. eexists. rewrite lookup_insert_eq. by split.
      * constructor; [|done]. eexists. by rewrite lookup_insert_eq.
    + split; [|done]. exact (link_config_set_list k r root (Some a) Hr).
  - cbn. eexists. split; [done|]. split; [|split; [|done]].
    + exists (el_set_list None root). cbn. rewrite lookup_insert_eq. by repeat split.
    + exact (link_config_set_list k r root None Hr).
Qed.

(** A client behind the last one. *)
Lemma client_add_behind l z n v :
  clients_ok k r (l ++ [z]) v -> lk_clients k !! z = Some n ->
  clients_ok (set_clients (<[a := cl_set_root r (cl_set_next None (new_client None None))]>
    (<[z := cl_set_next (Some a) n]> (<[a := new_client None None]> (lk_clients k)))) k)
    r ((l ++ [z]) ++ [a]) (v ++ [(ip, port)]).
Proof.
  intros (root' & Hr' & Hl & Hv) Hz. rewrite Hr in Hr'. injection Hr' as <-.
  exists root. split; [done|]. cbn [lk_clients set_clients].
  pose proof (client_fresh _ _ _ _ _ Ha Hv) as Hal. assert (z <> a) as Hne by congruence.
  rewrite (insert_insert_ne _ z a) by done. rewrite insert_insert_eq. split.
  - exact (is_list_snoc (lk_clients k) (el_list root) l z n a
      (cl_set_root r (cl_set_next None (new_client None None))) Hl Hz Ha eq_refl).
  - apply Forall2_app.
    + apply client_at_insert_ne; [done|]. by apply client_at_set_next.
    + constructor; [|done]. eexists. by rewrite lookup_insert_eq.
Qed.
End add.

(** Asking a kind to connect does to its clients what [client_add] says. *)
Lemma add_clients k r root l v ip port t a ok :
  lk_types k !! r = Some root -> clients_ok k r l v -> lk_clients k !! a = None ->
  0 <= ip < 2 ^ 32 -> 0 <= port < 65536 -> Zlen v < 2 ^ 31 ->
  exists k' l',
    eth_link_add_tcp_client_list k r ip port t {| ca_addr := Some a; ca_create := ok |} = Some k'
    /\ clients_ok k' r l' (client_add (el_max root) v (ip, port) ok)
    /\ link_config k' = link_config k /\ bFlagTick k' = bFlagTick k.
Proof.
  intros Hr Hok Ha Hip Hport Hv. pose proof Hok as (root' & Hr' & Hl & Hf).
  rewrite Hr in Hr'. injection Hr' as <-.
  destruct (el_list root) as [p|] eqn:Ep.
  2:{ assert (l = []) as -> by (destruct l; [done|by destruct Hl]).
      apply Forall2_nil_inv_l in Hf as ->.
      destruct (client_add_first k r a root ip port t Hr Hip Hport ok Ep) as (k' & E & H1 & H2).
      eexists k', _. split; [exact E|]. by split. }
  pose proof (is_list_size _ _ _ Hl) as Hsz.
  assert (Zlen l = Zlen v) as Hz by (unfold Zlen; by rewrite (Forall2_length _ _ _ Hf)).
  destruct (client_walk_spec (size (lk_clients k)) r (lk_clients k) p l v ip port 1 Hl Hf Hsz)
    as (b & n & c & Hw & Hb & Hcase); [lia|lia|].
  unfold eth_link_add_tcp_client_list. rewrite (u32_id ip), (u16_id port), Hr by lia.
  cbn [mbind option_bind]. rewrite Ep, Hw. cbn [mbind option_bind]. rewrite Hb.
  cbn [mbind option_bind]. unfold client_add.
  destruct Hcase as [(Hlb & -> & Hin & Hnx & Hla)|(Hin & H1 & H2)].
  2:{ rewrite H1, Z.eqb_refl. exists k, l. split; [done|].
      destruct (last v) as [z|] eqn:Ela; [by rewrite decide_True by by left|].
      apply last_None in Ela as ->. by apply not_elem_of_nil in Hin. }
  rewrite Hla. cbn [fst snd]. replace (1 + Zlen l - 1) with (Zlen v) by lia.
  destruct (decide ((ip, port) ∈ v \/ cl_uRemoteIp n = ip \/ cl_wRemotePort n = port)) as [Hd|Hd].
  { exists k, l. split; [|done]. assert (cl_uRemoteIp n = ip \/ cl_wRemotePort n = port) as Hd'.
    { destruct Hd as [Hd|Hd]; [|done]. rewrite (last_removelast v _ Hla) in Hd.
      apply elem_of_app in Hd as [Hd|Hd]; [done|]. apply list_elem_of_singleton in Hd.
      injection Hd as -> ->. by left. }
    destruct (Z.eqb_spec (cl_uRemoteIp n) ip); [done|].
    destruct (Z.eqb_spec (cl_wRemotePort n) port); [done|]. destruct Hd'; congruence. }
  destruct (Z.eqb_spec (cl_uRemoteIp n) ip); [tauto|].
  destruct (Z.eqb_spec (cl_wRemotePort n) port); [tauto|]. cbn [negb andb].
  destruct (Zlen v <? el_max root); [|by exists k, l].
  destruct l as [|z l _] using rev_ind; [discriminate Hl|]. rewrite last_snoc in Hlb. injection Hlb as <-.
  destruct ok.
  - rewrite (create_client_spec a root ip port t Hip Hport). cbn [mbind option_bind].
    assert (z <> a) as Hne by congruence. rewrite lookup_insert_ne, Hb by done.
    cbn [mbind option_bind]. rewrite lookup_insert_ne, lookup_insert_eq by done.
    cbn [mbind option_bind]. eexists _, ((l ++ [z]) ++ [a]). split; [done|].
    split; [|done]. by apply (client_add_behind k r a root).
  - cbn. rewrite Hb. cbn. assert (cl_set_next None n = n) as -> by (destruct n; cbn in *; by subst).
    rewrite insert_id by done. eexists _, (l ++ [z]). split; [done|]. split; [|done].
    exists root. rewrite Ep. by split.
Qed.

(** ** The answer to a search *)

Definition pad (n : nat) (s : list Z) : list Z := s ++ replicate (n - length s) 0.

(** The device information as the answer carries it. *)
Definition devinfo_payload (own : list Z) : list Z :=
  le_bytes 4 3 ++ pad 64 (cstr own) ++ le_bytes 2 3 ++ le_bytes 2 1
  ++ pad 64 (cstr devinfo_version).

Definition devinfo_frame (own : list Z) : list Z := encode (agx_frame 187 (devinfo_payload own)).

Lemma length_pad n s : (length s <= n)%nat -> length (pad n s) = n.
Proof. intros. unfold pad. rewrite length_app, length_replicate. lia. Qed.

Lemma cut_list {A} (n : nat) (l : list A) :
  (n <= length l)%nat -> exists a b, l = a ++ b /\ length a = n /\ length b = (length l - n)%nat.
Proof.
  intros. exists (take n l), (drop n l). rewrite take_drop, length_take, length_drop.
  split; [done|]. lia.
Qed.

(** A field is stored in front of what is still to be written. *)
Lemma store_field a m p bs :
  Zlen a = p -> Zlen bs <= Zlen m -> exists m', st_bytes (a ++ m) p bs = Some ((a ++ bs) ++ m')
    /\ Zlen m' = Zlen m - Zlen bs.
Proof.
  intros Ha Hl. exists (drop (length bs) m). split; [by apply st_bytes_extend|].
  unfold Zlen in *. rewrite length_drop. lia.
Qed.

Lemma devinfo_spec {W} (send : Z -> list Z -> W -> option W) k own junk w :
  0 ∈ own -> bytes_ok own -> (length (cstr own) <= 64)%nat -> Zlen junk = 147 ->
  eth_protocol_devinfo_pkg_send send k own junk w = eth_link_broadcast send k (devinfo_frame own) w.
Proof.
  intros H0 Hown Hl Hj. unfold eth_protocol_devinfo_pkg_send, st_le.
  change (offsetof eth_protocol_devinfo "protocol") with 9.
  change (offsetof eth_protocol_devinfo "sn") with 13.
  change (offsetof eth_protocol_devinfo "type") with 77.
  change (offsetof eth_protocol_devinfo "status") with 79.
  change (offsetof eth_protocol_devinfo "version") with 81.
  change (sizeof eth_protocol_devinfo - 11) with 136.
  destruct (cut_list 9 junk) as (h & m & -> & Hh & Hm); [unfold Zlen in Hj; lia|].
  rewrite Zlen_app in Hj. assert (Zlen h = 9) as Hh9 by (unfold Zlen; lia).
  destruct (store_field h m 9 (le_bytes 4 3) Hh9) as (m1 & -> & Hm1);
    [rewrite Zlen_le_bytes; lia|]. rewrite Zlen_le_bytes in Hm1. cbn [mbind option_bind].
  rewrite (strncpy_bytes_spec 64 own H0 Hl). cbn [mbind option_bind]. fold (pad 64 (cstr own)).
  assert (Zlen (pad 64 (cstr own)) = 64) as Hp1 by (unfold Zlen; rewrite length_pad; lia).
  set (sn := pad 64 (cstr own)) in *.
  destruct (store_field (h ++ le_bytes 4 3) m1 13 sn) as (m2 & -> & Hm2);
    [rewrite Zlen_app, Zlen_le_bytes; lia|lia|]. cbn [mbind option_bind].
  destruct (store_field ((h ++ le_bytes 4 3) ++ sn) m2 77 (le_bytes 2 3)) as (m3 & -> & Hm3);
    [rewrite !Zlen_app, Zlen_le_bytes; lia|rewrite Zlen_le_bytes; lia|].
  rewrite Zlen_le_bytes in Hm3. cbn [mbind option_bind].
  destruct (store_field (((h ++ le_bytes 4 3) ++ sn) ++ le_bytes 2 3) m3 79 (le_bytes 2 1))
    as (m4 & -> & Hm4);
    [rewrite !Zlen_app, !Zlen_le_bytes; lia|rewrite Zlen_le_bytes; lia|].
  rewrite Zlen_le_bytes in Hm4. cbn [mbind option_bind].
  rewrite strncpy_bytes_spec by (by_eval || (vm_compute; lia)). cbn [mbind option_bind].
  fold (pad 64 (cstr devinfo_version)). set (vs := pad 64 (cstr devinfo_version)).
  assert (Zlen vs = 64) as Hvs by reflexivity.
  destruct (store_field ((((h ++ le_bytes 4 3) ++ sn) ++ le_bytes 2 3) ++ le_bytes 2 1) m4 81 vs)
    as (m5 & -> & Hm5);
    [rewrite !Zlen_app, !Zlen_le_bytes; lia|lia|]. cbn [mbind option_bind].
  destruct m5 as [|y0 [|y1 [|? m5]]]; try (unfold Zlen in *; cbn in *; lia).
  assert ((((((h ++ le_bytes 4 3) ++ sn) ++ le_bytes 2 3) ++ le_bytes 2 1) ++ vs) ++ [y0; y1]
    = h ++ devinfo_payload own ++ [y0; y1]) as -> by (unfold devinfo_payload; by rewrite <-!app_assoc).
  assert (bytes_ok (devinfo_payload own)) as Hpok.
  { unfold devinfo_payload. rewrite !bytes_ok_app. split; [apply le_bytes_ok|]. split.
    - apply bytes_ok_app. split; [|by apply Forall_replicate].
      destruct (cstr_split own H0) as [rr Er]. rewrite Er in Hown.
      by apply bytes_ok_app in Hown as [? _].
    - split; [apply le_bytes_ok|]. split; [apply le_bytes_ok|]. by_eval. }
  assert (Zlen (devinfo_payload own) = 136) as Hpl.
  { unfold devinfo_payload. rewrite !Zlen_app, !Zlen_le_bytes. fold sn vs. lia. }
  rewrite <-Hpl, eth_protocol_package_spec by (done || lia || (rewrite Hpl; lia)).
  cbn [mbind option_bind]. by rewrite app_nil_r.
Qed.

Lemma ld_cstr l : 0 ∈ l -> ld_bytes l 0 (Zlen (cstr l)) = Some (cstr l).
Proof.
  intros [r E]%cstr_split. pose proof (ld_bytes_prefix (cstr l) (0 :: r) _ eq_refl) as H.
  by rewrite <-E in H.
Qed.

(** The comparison of the two strings. *)
Lemma sn_is_own_spec sn own :
  0 ∈ sn -> 0 ∈ own -> sn_is_own sn own = Some (bool_decide (cstr sn = cstr own)).
Proof.
  intros Hs Ho. unfold sn_is_own.
  assert (forall l, 0 ∈ l -> strlen l = Some (Zlen (cstr l))) as Hlen
    by (intros l Hi; by rewrite strlen_spec, decide_True).
  rewrite (Hlen sn Hs), (Hlen own Ho).
  cbn [mbind option_bind].
  destruct (Z.eqb_spec (Zlen (cstr own)) (Zlen (cstr sn))) as [E|E].
  - unfold memcmp_eq. rewrite (ld_cstr sn Hs). rewrite <-E, (ld_cstr own Ho). reflexivity.
  - rewrite bool_decide_eq_false_2; [done|]. intros Ec. apply E. by rewrite Ec.
Qed.

(** Whether some TCP kind has a client whose peer is [uIp]. *)
Definition peer_known (htonl : Z -> Z) (v : list peer) (uIp : Z) : Prop :=
  Exists (λ p, htonl p.1 = uIp) v.

#[export] Instance peer_known_dec htonl v uIp : Decision (peer_known htonl v uIp).
Proof. unfold peer_known. apply _. Defined.

(** The program has one kind of peers: the C2 stations. *)
Definition one_kind (k : eth_link) (r : nat) (l : list nat) (v : list peer) : Prop :=
  psEthList k = Some r /\ clients_ok k r l v
  /\ exists root, lk_types k !! r = Some root /\ el_next root = None
       /\ el_net root = RTH_LINK_NET_TCP_CLIENT /\ el_type root = 1 /\ el_max root = 10.

Lemma one_kind_size k r root : lk_types k !! r = Some root -> exists n, size (lk_types k) = S n.
Proof.
  intros H. destruct (size (lk_types k)) as [|n] eqn:E; [|by exists n].
  apply map_size_empty_inv in E. rewrite E in H. by rewrite lookup_empty in H.
Qed.

Lemma connected_spec htonl k r l v uIp :
  one_kind k r l v ->
  connected_walk htonl (size (lk_types k)) k (psEthList k) uIp
  = Some (if decide (peer_known htonl v uIp) then Some r else None).
Proof.
  intros (-> & (root & Hr & Hl & Hv) & root' & Hr' & Hn & Hnet & _).
  rewrite Hr in Hr'. injection Hr' as <-.
  destruct (one_kind_size k r root Hr) as [n ->]. cbn [connected_walk]. rewrite Hr.
  cbn [mbind option_bind]. rewrite Hnet, Z.eqb_refl, Hn.
  rewrite (find_node_spec _ _ _ _ l) by (done || by eapply is_list_size). cbn [mbind option_bind].
  assert (forall u, connected_walk htonl n k None u = Some None) as Hnone by by destruct n.
  assert (head (filter (λ a, from_option (λ c, htonl (cl_uRemoteIp c) =? uIp) false
    (lk_clients k !! a) = true) l) = None <-> ~ peer_known htonl v uIp) as Hh.
  { clear Hl. unfold peer_known.
    induction Hv as [|a p l v (c & Hc & Hip & _) _ IH]; [split; [by intros _ ?%Exists_nil|done]|].
    destruct (decide (htonl (cl_uRemoteIp c) = uIp)) as [E|E].
    - rewrite filter_cons_True by (rewrite Hc; cbn; lia). split; [done|]. intros []. left. congruence.
    - rewrite filter_cons_False by (rewrite Hc; cbn; lia). rewrite IH, Exists_cons. naive_solver congruence. }
  destruct (head _) as [a|]; case_decide as Hd; try done.
  - discriminate (proj2 Hh Hd).
  - by destruct (proj1 Hh eq_refl).
Qed.

Lemma cstr_app_in a b : 0 ∈ a -> cstr (a ++ b) = cstr a.
Proof.
  induction a as [|x a IH]; intros H; [by apply not_elem_of_nil in H|]. cbn [app cstr].
  destruct (Z.eqb_spec x 0); [done|]. apply elem_of_cons in H as [?|H]; [congruence|].
  by rewrite IH.
Qed.

Lemma cstr_nil_head sn : 0 ∈ sn -> exists b, head sn = Some b /\ (b = 0 <-> cstr sn = []).
Proof.
  destruct sn as [|b sn]; intros H; [by apply not_elem_of_nil in H|]. exists b. split; [done|].
  cbn [cstr]. by destruct (Z.eqb_spec b 0).
Qed.

(** One kind stays one kind when its clients change. *)
Lemma one_kind_clients k k' r l l' v v' :
  one_kind k r l v -> clients_ok k' r l' v' -> link_config k' = link_config k ->
  one_kind k' r l' v'.
Proof.
  intros (Hp & _ & root & Hr & Hn & Hnet & Ht & Hm) Hok Hc. unfold link_config in Hc.
  injection Hc as Hp' Hc. split; [by rewrite Hp'|]. split; [done|].
  destruct Hok as (root' & Hr' & _). exists root'. split; [done|].
  apply (f_equal (λ m, m !! r)) in Hc. rewrite !lookup_fmap, Hr, Hr' in Hc. cbn in Hc.
  unfold kind_config in Hc. injection Hc as -> -> -> ->. done.
Qed.

(** Connecting to a peer of the only kind. *)
Lemma create_socket_spec k r l v type ip port a ok :
  one_kind k r l v -> lk_clients k !! a = None -> Zlen v < 2 ^ 31 ->
  0 <= ip < 2 ^ 32 -> 0 <= port < 65536 -> 0 <= type < 65536 ->
  exists k' l', eth_link_create_socket k type ip port {| ca_addr := Some a; ca_create := ok |}
      = Some (0, k')
    /\ one_kind k' r l' (if type =? 1 then client_add 10 v (ip, port) ok else v)
    /\ bFlagTick k' = bFlagTick k.
Proof.
  intros Hk Ha Hv Hip Hport Htype. pose proof Hk as (Hp & Hok & root & Hr & Hn & Hnet & Ht & Hm).
  unfold eth_link_create_socket. rewrite (u16_id type), Hp by lia.
  destruct (one_kind_size k r root Hr) as [n ->]. cbn [list_find_node]. rewrite Hr.
  cbn [mbind option_bind]. rewrite Ht, (Z.eqb_sym 1 type). destruct (type =? 1).
  - cbn [mbind option_bind]. rewrite Hr. cbn [mbind option_bind]. rewrite Hnet, Z.eqb_refl.
    destruct (add_clients k r root l v ip port 5 a ok Hr Hok Ha Hip Hport Hv)
      as (k' & l' & E & H1 & H2 & H3). rewrite E. cbn [mbind option_bind]. rewrite Hm in H1.
    exists k', l'. split; [done|]. split; [by eapply one_kind_clients|done].
  - cbn [ln_next el_linked]. rewrite Hn. exists k, l. by destruct n.
Qed.

(** ** One datagram *)

Section datagram.
Context {W : Type} (send : Z -> list Z -> W -> option W) (htonl : Z -> Z).
Context (k : eth_link) (r : nat) (l : list nat) (v : list peer).
Context (f : alink_frame) (buf own junk : list Z) (uIp local_ip : Z) (w : W).
Hypothesis (Hk : one_kind k r l v) (Hf : frame_ok f) (Hlocal : htonl uIp <> local_ip).
Hypothesis (Hbuf : Zlen (encode f) <= Zlen buf).
Hypothesis (Hown0 : 0 ∈ own) (Hown : bytes_ok own) (Hown64 : (length (cstr own) <= 64)%nat).
Hypothesis (Hjunk : Zlen junk = 147).

(** The destination of the answers, and what a datagram leaves of it. *)
Let dst := Z.lor (u32 uIp) 255.
Let after (k : eth_link) : eth_link := set_ip 4294967295 k.

(** A frame reaches its handler with the payload behind its nine bytes. *)
Lemma cbk_frame alloc :
  eth_link_udp_cbk_data send htonl k local_ip buf (encode f) uIp own junk alloc w
  = let m := encode f ++ drop (length (encode f)) buf in let k := set_ip dst k in
    '(k, w) ←
      (if fr_id f =? 186 then eth_protocol_search_handler send htonl k m own junk 9 uIp w
       else if fr_id f =? 188 then k ← eth_protocol_cntinfo_handler htonl k m own 9 alloc; Some (k, w)
       else Some (k, w));
    Some (after k, w).
Proof.
  clear Hk Hown0 Hown Hown64 Hjunk. unfold eth_link_udp_cbk_data.
  assert (st_bytes buf 0 (encode f) = Some (encode f ++ drop (length (encode f)) buf)) as ->.
  { rewrite <-(take_drop (length (encode f)) buf) at 1. apply st_bytes_prefix.
    unfold Zlen in *. rewrite length_take. lia. }
  cbn [mbind option_bind]. destruct (Z.eqb_spec (htonl uIp) local_ip); [done|].
  unfold eth_protocol_handler. rewrite (analysis_encode f _ Hf). cbn [mbind option_bind].
  assert (ld8 (encode f ++ drop (length (encode f)) buf) (offsetof eth_protocol_head "msgid")
    = Some (fr_id f)) as -> by by rewrite encode_shape.
  cbn [mbind option_bind]. by destruct (fr_id f =? 186).
Qed.

Lemma payload_at n y : (n <= length (fr_payload f))%nat ->
  exists tl, drop (9 + n) (encode f ++ y) = drop n (fr_payload f) ++ tl.
Proof.
  clear Hk Hf Hlocal Hbuf Hown0 Hown Hown64 Hjunk. intros Hn. rewrite encode_shape. exists ([frame_crc f mod 256; frame_crc f / 256] ++ y).
  cbn [app Nat.add drop]. rewrite <-!app_assoc. by rewrite drop_app_le by lia.
Qed.

Lemma payload_field n v0 a b y : fr_payload f = a ++ le_bytes n v0 ++ b ->
  0 <= v0 < 256 ^ Z.of_nat n -> ld_le n (encode f ++ y) (9 + Zlen a) = Some v0.
Proof.
  clear Hk Hf Hlocal Hbuf Hown0 Hown Hown64 Hjunk. intros Hp Hv. unfold ld_le.
  assert (encode f ++ y = (head9 f ++ a) ++ le_bytes n v0 ++ b ++ le_bytes 2 (frame_crc f) ++ y)
    as -> by (unfold encode, frame_body; rewrite Hp; by rewrite <-!app_assoc).
  rewrite (ld_bytes_app (head9 f ++ a) (le_bytes n v0))
    by (rewrite ?Zlen_app, ?Zlen_head9, ?Zlen_le_bytes; lia).
  cbn. f_equal. by apply le_val_small.
Qed.

(** *** A search *)

(** The AGX answers a search for its own serial number, and a search for any AGX unless it
    already has a client of the station that asks. *)
Definition search_wanted (sn : list Z) : bool :=
  if decide (cstr sn = []) then negb (bool_decide (peer_known htonl v uIp))
  else bool_decide (cstr sn = cstr own).

Lemma search_datagram alloc proto sn more :
  fr_id f = 186 -> fr_payload f = proto ++ sn ++ more -> length proto = 4%nat ->
  0 ∈ sn ->
  eth_link_udp_cbk_data send htonl k local_ip buf (encode f) uIp own junk alloc w
  = if search_wanted sn && bFlagTick k then
      w1 ← send dst (devinfo_frame own) w; w2 ← send dst (devinfo_frame own) w1;
      w3 ← send dst (devinfo_frame own) w2; Some (after (set_tick false k), w3)
    else Some (after k, w).
Proof.
  intros Hid Hp Hp4 H0. rewrite cbk_frame. cbn zeta. rewrite Hid. cbn [Z.eqb Pos.eqb].
  unfold eth_protocol_search_handler. change (offsetof eth_protocol_search "sn") with 4.
  change (Z.to_nat (9 + 4)) with (9 + 4)%nat.
  destruct (payload_at 4 (drop (length (encode f)) buf)) as [tl ->];
    [rewrite Hp, length_app; lia|].
  rewrite Hp, <-Hp4, drop_app_length, <-!app_assoc.
  set (sn' := sn ++ more ++ tl).
  assert (0 ∈ sn') as H0' by (unfold sn'; apply elem_of_app; by left).
  assert (cstr sn' = cstr sn) as Ecs by (by apply cstr_app_in).
  destruct (cstr_nil_head sn' H0') as (b & -> & Hb). cbn [mbind option_bind]. rewrite Ecs in Hb.
  pose proof (devinfo_spec send (set_ip dst k) own junk w Hown0 Hown Hown64 Hjunk) as Hdev.
  assert (('(k0, w0) ← eth_link_broadcast send (set_ip dst k) (devinfo_frame own) w;
    Some (after k0, w0))
    = if bFlagTick k then
        w1 ← send dst (devinfo_frame own) w; w2 ← send dst (devinfo_frame own) w1;
        w3 ← send dst (devinfo_frame own) w2; Some (after (set_tick false k), w3)
      else Some (after k, w)) as Hbc.
  { unfold eth_link_broadcast. cbn [bFlagTick uSendIp set_ip]. destruct (bFlagTick k); [|done].
    destruct (send dst _ w) as [w1|]; [|done]. cbn [mbind option_bind].
    destruct (send dst _ w1) as [w2|]; [|done]. cbn [mbind option_bind].
    by destruct (send dst _ w2). }
  unfold search_wanted. destruct (Z.eqb_spec b 0) as [Eb|Eb]; cbn [negb].
  - rewrite (connected_spec htonl (set_ip dst k) r l v uIp) by exact Hk.
    cbn [mbind option_bind]. destruct (decide (cstr sn = [])) as [_|n]; [|by destruct n; apply Hb].
    destruct (decide (peer_known htonl v uIp)) as [Hpk|Hpk].
    + by rewrite bool_decide_eq_true_2.
    + by rewrite bool_decide_eq_false_2, Hdev, Hbc.
  - rewrite sn_is_own_spec by done. rewrite Ecs. cbn [mbind option_bind].
    destruct (decide (cstr sn = [])) as [E|_]; [by destruct Eb; apply Hb|].
    case_bool_decide as Hs; [|done]. by rewrite Hdev, Hbc.
Qed.

(** *** A request to connect *)

Definition connect_wanted (sn : list Z) : bool :=
  bool_decide (cstr sn = [] \/ cstr sn = cstr own).

Lemma connect_datagram a ok sn ip port type more :
  fr_id f = 188 ->
  fr_payload f = sn ++ le_bytes 4 ip ++ le_bytes 2 port ++ le_bytes 2 type ++ more ->
  Zlen sn = 32 -> 0 ∈ sn -> 0 <= ip < 2 ^ 32 -> 0 <= port < 65536 -> 0 <= type < 65536 ->
  0 <= htonl ip < 2 ^ 32 -> lk_clients k !! a = None -> Zlen v < 2 ^ 31 ->
  exists k' l',
    eth_link_udp_cbk_data send htonl k local_ip buf (encode f) uIp own junk
      {| ca_addr := Some a; ca_create := ok |} w = Some (k', w)
    /\ one_kind k' r l' (if connect_wanted sn && (type =? 1)
                         then client_add 10 v (htonl ip, port) ok else v)
    /\ bFlagTick k' = bFlagTick k.
Proof.
  clear Hown Hown64 Hjunk. intros Hid Hp H32 H0 Hip Hport Htype Hh Ha Hv. rewrite cbk_frame. cbn zeta. rewrite Hid.
  cbn [Z.eqb Pos.eqb]. unfold eth_protocol_cntinfo_handler.
  change (offsetof eth_protocol_cntinfo "sn") with 0.
  change (offsetof eth_protocol_cntinfo "type") with 38.
  change (offsetof eth_protocol_cntinfo "ip") with 32.
  change (offsetof eth_protocol_cntinfo "port") with 36.
  change (Z.to_nat (9 + 0)) with (9 + 0)%nat.
  set (y := drop (length (encode f)) buf).
  destruct (payload_at 0 y) as [tl ->]; [lia|]. rewrite drop_0, Hp, <-!app_assoc.
  set (sn' := sn ++ _).
  assert (0 ∈ sn') as H0' by (unfold sn'; apply elem_of_app; by left).
  assert (cstr sn' = cstr sn) as Ecs by (by apply cstr_app_in).
  destruct (cstr_nil_head sn' H0') as (b & -> & Hb). cbn [mbind option_bind]. rewrite Ecs in Hb.
  assert ((if negb (b =? 0) then sn_is_own sn' own else Some true) = Some (connect_wanted sn)) as ->.
  { unfold connect_wanted. destruct (Z.eqb_spec b 0) as [Eb|Eb]; cbn [negb].
    - rewrite bool_decide_eq_true_2; [done|]. left. by apply Hb.
    - rewrite sn_is_own_spec, Ecs by done. f_equal. apply bool_decide_ext. tauto. }
  cbn [mbind option_bind]. destruct (connect_wanted sn); cbn [andb].
  2:{ exists (after k), l. split; [done|]. by split. }
  replace (9 + 38) with (9 + Zlen (sn ++ le_bytes 4 ip ++ le_bytes 2 port))
    by (rewrite !Zlen_app, !Zlen_le_bytes; lia).
  rewrite (payload_field 2 type (sn ++ le_bytes 4 ip ++ le_bytes 2 port) more)
    by (rewrite ?Hp, <-?app_assoc; done || lia).
  cbn [mbind option_bind]. rewrite <-H32.
  rewrite (payload_field 4 ip sn (le_bytes 2 port ++ le_bytes 2 type ++ more)) by (done || lia).
  cbn [mbind option_bind].
  replace (9 + 36) with (9 + Zlen (sn ++ le_bytes 4 ip)) by (rewrite !Zlen_app, !Zlen_le_bytes; lia).
  rewrite (payload_field 2 port (sn ++ le_bytes 4 ip) (le_bytes 2 type ++ more))
    by (rewrite ?Hp, <-?app_assoc; done || lia).
  cbn [mbind option_bind].
  destruct (create_socket_spec (set_ip dst k) r l v type (htonl ip) port a ok Hk Ha Hv Hh Hport Htype)
    as (k1 & l1 & -> & Hk1 & Htick). cbn [mbind option_bind].
  exists (after k1), l1. split; [done|]. by split.
Qed.
End datagram.

(** ** The clients over time *)

(** Every client, on the list or not, belongs to the kind at [r]. *)
Definition rooted (k : eth_link) (r : nat) : Prop :=
  map_Forall (λ _ n, cl_psRoot n = Some r) (lk_clients k).

(** A new client behind [b], or the first one. *)
Lemma rooted_new (h : gmap nat eth_link_tcp_client_list) r a b m m' n p :
  map_Forall (λ _ n, cl_psRoot n = Some r) h -> <[a := m]> h !! b = Some n ->
  cl_psRoot m' = Some r ->
  map_Forall (λ _ n, cl_psRoot n = Some r) (<[a := m']> (<[b := cl_set_next p n]> (<[a := m]> h))).
Proof.
  intros Hh Hb Hm i x Hi. destruct (decide (i = a)) as [->|Ha].
  { rewrite lookup_insert_eq in Hi. by injection Hi as <-. }
  rewrite lookup_insert_ne in Hi by done. destruct (decide (i = b)) as [->|Hib].
  - rewrite lookup_insert_eq in Hi. injection Hi as <-. rewrite lookup_insert_ne in Hb by done.
    exact (Hh _ _ Hb).
  - rewrite !lookup_insert_ne in Hi by done. exact (Hh _ _ Hi).
Qed.

Lemma add_rooted k r ip port t alloc k' :
  rooted k r -> eth_link_add_tcp_client_list k r ip port t alloc = Some k' -> rooted k' r.
Proof.
  intros Hr E. unfold eth_link_add_tcp_client_list in E. apply bind_Some in E as (root & _ & E).
  assert (forall new h, eth_link_create_tcp_client_list (lk_clients k) alloc t (u32 ip) (u16 port)
    (el_ps_init root) = Some (new, h) ->
    new = None /\ h = lk_clients k \/ exists a n, new = Some a /\ h = <[a := n]> (lk_clients k)) as Hc.
  { intros new h Hc. unfold eth_link_create_tcp_client_list in Hc.
    apply bind_Some in Hc as (a & _ & Hc). destruct (ca_create alloc); injection Hc as <- <-;
      [right; by do 2 eexists|by left]. }
  destruct (el_list root) as [p|].
  - apply bind_Some in E as ([b c] & _ & E). apply bind_Some in E as (n & _ & E).
    destruct (_ && _ && _); [|by injection E as <-].
    apply bind_Some in E as ([new h] & E1 & E). apply bind_Some in E as (n2 & Hn2 & E).
    destruct (Hc _ _ E1) as [[-> ->]|(a & m & -> & ->)].
    + injection E as <-. unfold rooted. cbn [lk_clients set_clients].
      apply map_Forall_insert_2; [exact (Hr b n2 Hn2)|done].
    + apply bind_Some in E as (m2 & _ & [= <-]). unfold rooted. cbn [lk_clients set_clients].
      by apply rooted_new.
  - apply bind_Some in E as ([new h] & E1 & E). unfold rooted.
    destruct (Hc _ _ E1) as [[-> ->]|(a & m & -> & ->)]; [by injection E as <-|].
    apply bind_Some in E as (m2 & _ & [= <-]). cbn [lk_clients set_clients set_types].
    rewrite insert_insert_eq. by apply map_Forall_insert_2.
Qed.

(** The end of a client removes it, and with it at most other clients; the rest keep their
    order. *)
Lemma clients_ok_delete k r l v a :
  a ∉ l -> clients_ok k r l v -> clients_ok (set_clients (delete a (lk_clients k)) k) r l v.
Proof.
  intros Ha (root & Hr & Hl & Hv). exists root. split; [done|]. split; [by apply is_list_delete|].
  clear Hl. cbn [lk_clients set_clients].
  induction Hv as [|b s l v (m & Hm & ?) Hv IH]; [done|].
  apply not_elem_of_cons in Ha as [Hb Ha]. constructor; [|by apply IH].
  exists m. by rewrite lookup_delete_ne.
Qed.

Lemma client_del_head k r root a l s v n :
  lk_types k !! r = Some root -> el_list root = Some a -> lk_clients k !! a = Some n ->
  clients_ok k r (a :: l) (s :: v) ->
  clients_ok (set_types (psEthList k) (<[r := el_set_list (cl_psNext n) root]> (lk_types k)) k) r l v.
Proof.
  intros Hr Hp Ha (root' & Hr' & Hl & Hv). rewrite Hr in Hr'. injection Hr' as <-.
  exists (el_set_list (cl_psNext n) root). cbn [lk_types set_types lk_clients].
  rewrite lookup_insert_eq. split; [done|]. rewrite Hp in Hl.
  destruct Hl as (_ & n' & Hn' & Hl). rewrite Ha in Hn'. injection Hn' as <-.
  split; [exact Hl|]. by inversion_clear Hv.
Qed.

(** A client behind the head [p]: the head is linked to what follows it. *)
Lemma client_del_inner k r p n l1 node m l2 s v1 s' v2 :
  clients_ok k r (p :: l1 ++ node :: l2) (s :: v1 ++ s' :: v2) -> length v1 = length l1 ->
  lk_clients k !! p = Some n -> lk_clients k !! node = Some m ->
  NoDup (p :: l1 ++ node :: l2) ->
  clients_ok (set_clients (<[p := cl_set_next (cl_psNext m) n]> (lk_clients k)) k) r
    (p :: l2) (s :: v2).
Proof.
  intros (root & Hr & Hl & Hv) Hlen Hn Hm [Hp Hnd]%NoDup_cons.
  exists root. split; [done|]. cbn [lk_clients set_clients].
  assert (p ∉ l2) as Hp2 by set_solver.
  destruct Hl as (Ep & n' & Hn' & Hrest). rewrite Hn in Hn'. injection Hn' as <-.
  apply lseg_app in Hrest as (q & _ & -> & m' & Hm' & Hl2). rewrite Hm in Hm'. injection Hm' as <-.
  split.
  - rewrite Ep. split; [done|]. eexists. rewrite lookup_insert_eq. split; [done|].
    apply lseg_insert_ne; [done|]. exact Hl2.
  - inversion_clear Hv as [|? ? ? ? (n' & Hn' & Hs) Hv']. rewrite Hn in Hn'. injection Hn' as <-.
    apply Forall2_app_inv in Hv' as [_ Hv2]; [|done]. inversion_clear Hv2 as [|? ? ? ? _ Hv3].
    constructor; [eexists; rewrite lookup_insert_eq; by split|by apply client_at_insert_ne].
Qed.

Lemma del_clients k r l v node :
  one_kind k r l v -> rooted k r -> is_Some (lk_clients k !! node) ->
  exists k' l' v', eth_link_del_tcp_client_list k node = Some k'
    /\ one_kind k' r l' v' /\ rooted k' r /\ sublist v' v /\ bFlagTick k' = bFlagTick k.
Proof.
  intros Hk Hroot [n Hn]. pose proof Hk as (_ & Hok & root & Hr & _).
  pose proof Hok as (root' & Hr' & Hl & Hv). rewrite Hr in Hr'. injection Hr' as <-.
  pose proof (is_list_NoDup _ _ _ Hl) as Hnd. pose proof (is_list_size _ _ _ Hl) as Hsz.
  assert (forall k1, rooted k1 r -> rooted (set_clients (delete node (lk_clients k1)) k1) r) as Hrd
    by (intros k1 H1; by apply map_Forall_delete).
  unfold eth_link_del_tcp_client_list. rewrite Hn. cbn [mbind option_bind].
  rewrite (Hroot node n Hn). cbn [mbind option_bind]. rewrite Hr. cbn [mbind option_bind].
  destruct (el_list root) as [p|] eqn:Ep; cycle 1.
  { assert (l = []) as -> by (destruct l; [done|by destruct Hl]).
    eexists _, [], v. split; [done|]. split.
    - eapply one_kind_clients; [exact Hk|apply clients_ok_delete; [set_solver|done]|done].
    - split; [by apply Hrd|done]. }
  destruct l as [|a l]; [discriminate Hl|]. destruct v as [|s v]; [inversion Hv|].
  assert (a = p) as -> by (destruct Hl as ([= ?] & _); congruence).
  destruct (decide (node = p)) as [->|Hne].
  - cbn [mbind option_bind]. eexists _, l, v. split; [done|]. apply NoDup_cons in Hnd as [Hpl _].
    pose proof (client_del_head k r root p l s v n Hr Ep Hn Hok) as H1.
    split; [|split; [by apply Hrd|split; [by apply sublist_cons|done]]].
    eapply one_kind_clients; [exact Hk|apply clients_ok_delete; [done|exact H1]|].
    exact (link_config_set_list k r root (cl_psNext n) Hr).
  - destruct (decide (node ∈ l)) as [Hi|Hi].
    + apply list_elem_of_split in Hi as (l1 & l2 & ->). pose proof Hnd as [Hp Hnd2]%NoDup_cons.
      assert (node ∉ l1) as H1
        by (apply NoDup_app in Hnd2 as (_ & Hd & _); intros H; apply (Hd _ H); by left).
      destruct (lseg_dom _ _ _ _ p Hl ltac:(by left)) as [np Hnp].
      rewrite (unlink_head_found (size (lk_clients k)) (lk_clients k) p np (Some p) (p :: l1) node n l2)
        by (done || set_solver).
      cbn [mbind option_bind]. pose proof Hv as Hv0. apply Forall2_cons in Hv0 as [_ Hv0].
      apply Forall2_app_inv_l in Hv0 as (v1 & v2' & Hv1 & Hv2 & ->).
      apply Forall2_cons_inv_l in Hv2 as (s' & v2 & _ & Hv2 & ->).
      eexists _, (p :: l2), (s :: v2). split; [done|].
      pose proof (client_del_inner k r p np l1 node n l2 s v1 s' v2 Hok
        (eq_sym (Forall2_length _ _ _ Hv1)) Hnp Hn Hnd) as HX.
      split; [|split; [|split; [|done]]].
      * eapply one_kind_clients; [exact Hk|apply clients_ok_delete; [|exact HX]|done].
        apply not_elem_of_cons. split; [done|]. apply NoDup_app in Hnd2 as (_ & _ & [? _]%NoDup_cons).
        done.
      * apply (Hrd (set_clients _ k)). apply map_Forall_insert_2; [exact (Hroot p np Hnp)|done].
      * apply sublist_skip, sublist_inserts_l, sublist_cons. done.
    + rewrite (unlink_head_absent (size (lk_clients k)) (lk_clients k) p (Some p) (p :: l) node)
        by (done || set_solver).
      cbn [mbind option_bind]. eexists _, (p :: l), (s :: v). split; [done|].
      split; [|split; [by apply Hrd|done]].
      eapply one_kind_clients; [exact Hk|apply clients_ok_delete; [set_solver|]|done].
      exists root. by rewrite Ep.
Qed.

(** The datagrams that have been sent, oldest first. *)
Definition sent_log : Type := list (Z * list Z).
Definition send_log (ip : Z) (bs : list Z) (s : sent_log) : option sent_log := Some (s ++ [(ip, bs)]).

Section reach.
Context (htonl : Z -> Z).
Implicit Types (k : eth_link) (s : sent_log).

(** The link, the datagrams it sent and the seconds that passed; what changes them: a
    datagram of any length and content, the tick of the link's thread, and the end of a
    client. The address that a new client would get is not in use. *)
Inductive link_step : eth_link * sent_log * nat -> eth_link * sent_log * nat -> Prop :=
  | step_datagram k s n local buf data uIp own junk a ok k' s' :
      lk_clients k !! a = None ->
      eth_link_udp_cbk_data send_log htonl k local buf data uIp own junk
        {| ca_addr := Some a; ca_create := ok |} s = Some (k', s') ->
      link_step (k, s, n) (k', s', n)
  | step_tick k s n k' s' :
      eth_link_task (λ w, Some w) k s = Some (k', s') -> link_step (k, s, n) (k', s', S n)
  | step_delete k s n node k' s' :
      eth_link_socket_cbk_delete (λ _ w, Some w) k node s = Some (k', s') ->
      link_step (k, s, n) (k', s', n).

Definition link_inv (r : nat) (st : eth_link * sent_log * nat) : Prop :=
  let '(k, s, n) := st in
  (exists l v, one_kind k r l v /\ NoDup v /\ Zlen v <= 10)
  /\ rooted k r
  /\ (length s + (if bFlagTick k then 3 else 0) <= 3 * (n + 1))%nat.

Lemma devinfo_cases k own junk s k' s' :
  eth_protocol_devinfo_pkg_send send_log k own junk s = Some (k', s') ->
  k' = k /\ s' = s \/ bFlagTick k = true /\ k' = set_tick false k /\ length s' = (length s + 3)%nat.
Proof.
  intros E. unfold eth_protocol_devinfo_pkg_send in E.
  do 7 (apply bind_Some in E as (? & _ & E)). apply bind_Some in E as ([? ?] & _ & E).
  unfold eth_link_broadcast in E. destruct (bFlagTick k) eqn:Et; [|left; by injection E as <- <-].
  right. cbn in E. injection E as <- <-. rewrite !length_app. cbn. split; [done|]. split; [done|]. lia.
Qed.

Lemma handler_cases k m len uIp own junk alloc s k' s' :
  eth_protocol_handler send_log htonl k m len uIp own junk alloc s = Some (k', s') ->
  (k' = k /\ s' = s \/ bFlagTick k = true /\ k' = set_tick false k /\ length s' = (length s + 3)%nat)
  \/ s' = s /\ exists type ip port, eth_link_create_socket k type ip port alloc = Some (0, k').
Proof.
  intros E. unfold eth_protocol_handler in E. apply bind_Some in E as ([p|] & _ & E);
    [|left; left; by injection E as <- <-].
  apply bind_Some in E as (id & _ & E). destruct (id =? 186).
  - left. unfold eth_protocol_search_handler in E. apply bind_Some in E as (b & _ & E).
    destruct (negb _); [apply bind_Some in E as ([] & _ & E)|apply bind_Some in E as ([?|] & _ & E)];
      first [by apply devinfo_cases in E|left; by injection E as <- <-].
  - destruct (id =? 188); [|left; left; by injection E as <- <-].
    apply bind_Some in E as (k1 & E & [= <- <-]). unfold eth_protocol_cntinfo_handler in E.
    apply bind_Some in E as (b & _ & E). apply bind_Some in E as ([] & _ & E);
      [|left; left; by injection E as <-].
    right. split; [done|]. do 3 (apply bind_Some in E as (? & _ & E)).
    apply bind_Some in E as ([ret k2] & E & [= <-]). do 3 eexists.
    unfold eth_link_create_socket in *. apply bind_Some in E as ([r|] & -> & E);
      cbn [mbind option_bind]; [|by injection E as _ <-].
    apply bind_Some in E as (n & -> & E). cbn [mbind option_bind].
    destruct (el_net n =? _); [|by injection E as _ <-].
    apply bind_Some in E as (k3 & -> & [= _ <-]). done.
Qed.

Lemma client_add_inv v p ok :
  NoDup v -> Zlen v <= 10 -> NoDup (client_add 10 v p ok) /\ Zlen (client_add 10 v p ok) <= 10.
Proof.
  intros Hn Hl. unfold client_add. destruct (last v) as [z|] eqn:E.
  - case_decide as Hd; [done|]. destruct (Z.ltb_spec (Zlen v) 10); [|done]. destruct ok; [|done].
    split; [|rewrite Zlen_snoc; lia]. apply NoDup_app. split; [done|].
    split; [|apply NoDup_singleton]. intros x Hx ->%list_elem_of_singleton. tauto.
  - destruct ok; [|split; [apply NoDup_nil_2|unfold Zlen; cbn; lia]].
    split; [apply NoDup_singleton|unfold Zlen; cbn; lia].
Qed.

(** Creating a socket with whatever numbers a message held. *)
Lemma create_socket_inv k r type ip port a ok k' :
  (exists l v, one_kind k r l v /\ NoDup v /\ Zlen v <= 10) -> rooted k r ->
  lk_clients k !! a = None ->
  eth_link_create_socket k type ip port {| ca_addr := Some a; ca_create := ok |} = Some (0, k') ->
  (exists l v, one_kind k' r l v /\ NoDup v /\ Zlen v <= 10) /\ rooted k' r
  /\ bFlagTick k' = bFlagTick k.
Proof.
  intros (l & v & Hk & Hn & Hl) Hroot Ha E.
  assert (forall z, 0 <= u16 z < 65536) as H16 by (intros; apply Z.mod_pos_bound; lia).
  assert (forall z, 0 <= u32 z < 2 ^ 32) as H32 by (intros; apply Z.mod_pos_bound; lia).
  assert (rooted k' r) as Hroot'.
  { unfold eth_link_create_socket in E. apply bind_Some in E as ([r'|] & Ef & E);
      [|by injection E as <-].
    apply bind_Some in E as (n & Hn' & E). destruct (_ =? _); [|by injection E as <-].
    apply bind_Some in E as (k1 & E & [= <-]). pose proof Hk as (Hp & _ & root & Hr & Hnx & _).
    rewrite Hp in Ef. destruct (one_kind_size k r root Hr) as [m Em]. rewrite Em in Ef.
    cbn [list_find_node] in Ef. rewrite Hr in Ef. cbn [mbind option_bind] in Ef.
    destruct (el_type root =? _); [injection Ef as <-; by eapply add_rooted|].
    cbn [ln_next el_linked] in Ef. rewrite Hnx in Ef. by destruct m. }
  destruct (create_socket_spec k r l v (u16 type) (u32 ip) (u16 port) a ok Hk Ha)
    as (k1 & l1 & E1 & Hk1 & Ht); [lia|auto..|].
  assert (eth_link_create_socket k type ip port {| ca_addr := Some a; ca_create := ok |}
    = eth_link_create_socket k (u16 type) (u32 ip) (u16 port) {| ca_addr := Some a; ca_create := ok |})
    as Hw.
  { unfold eth_link_create_socket, eth_link_add_tcp_client_list.
    by rewrite !(u16_id (u16 _)), !(u32_id (u32 _)) by auto. }
  rewrite Hw, E1 in E. injection E as <-. split; [|done]. exists l1. eexists. split; [exact Hk1|].
  destruct (_ =? 1); [by apply client_add_inv|done].
Qed.

Lemma link_step_inv r st st' : link_step st st' -> link_inv r st -> link_inv r st'.
Proof.
  intros Hs. destruct Hs as [k s n local buf data uIp own junk a ok k' s' Ha E|k s n k' s' E
    |k s n node k' s' E]; intros (Hone & Hroot & Hlen).
  - unfold eth_link_udp_cbk_data in E. apply bind_Some in E as (m & _ & E).
    destruct (_ =? local); [injection E as <- <-; by split|].
    apply bind_Some in E as ([k1 s1] & E & [= <- <-]). set (k0 := set_ip _ k) in E.
    apply handler_cases in E as [[[-> ->]|(Ht & -> & Hs)]|(-> & type & ip & port & E)].
    + by split.
    + split; [exact Hone|]. split; [exact Hroot|]. cbn [bFlagTick set_ip set_tick] in *.
      change (bFlagTick k0) with (bFlagTick k) in Ht. rewrite Ht in Hlen. lia.
    + destruct (create_socket_inv k0 r type ip port a ok k1 Hone Hroot Ha E) as (H1 & H2 & H3).
      split; [exact H1|]. split; [exact H2|]. cbn [bFlagTick set_ip]. rewrite H3. exact Hlen.
  - injection E as <- <-. split; [exact Hone|]. split; [exact Hroot|]. cbn [bFlagTick set_tick].
    destruct (bFlagTick k); lia.
  - unfold eth_link_socket_cbk_delete in E. apply bind_Some in E as (c & Hc & E).
    apply bind_Some in E as (s1 & Es & E). apply bind_Some in E as (k1 & E & [= <- <-]).
    assert (s1 = s) as -> by (destruct (cl_psUserCbk c); by injection Es).
    destruct Hone as (l & v & Hk & Hn & Hl).
    destruct (del_clients k r l v node Hk Hroot ltac:(by eexists))
      as (k2 & l2 & v2 & E2 & Hk2 & Hr2 & Hsub & Ht). rewrite E2 in E. injection E as <-.
    split; [exists l2, v2; split; [done|]; split; [by eapply sublist_NoDup|]|].
    + apply sublist_length in Hsub. unfold Zlen in *. lia.
    + split; [done|]. by rewrite Ht.
Qed.
End reach.

(** The start: what [c2_network_init] makes of the empty link. *)
Definition link_start (inet_addr : list Z -> Z) (htonl : Z -> Z) (r : nat)
    (st : eth_link * sent_log * nat) : Prop :=
  exists ps_init a ok tick k,
    eth_link_add_type inet_addr htonl
      {| psEthList := None; lk_types := ∅; lk_clients := ∅; bFlagTick := tick; uSendIp := 4294967295 |}
      1 RTH_LINK_NET_TCP_CLIENT 10 ps_init (Some r) {| ca_addr := Some a; ca_create := ok |}
    = Some (0, k) /\ st = (k, [], 0%nat).

Lemma start_inv inet_addr htonl r st :
  link_start inet_addr htonl r st -> link_inv r st.
Proof.
  intros (ps & a & ok & tick & k & E & ->). unfold eth_link_add_type in E.
  cbn [psEthList mbind option_bind] in E. apply bind_Some in E as (k1 & E & [= ->]).
  unfold eth_link_new_type in E. change (u16 1 =? 1) with true in E. cbn iota in E.
  unfold eth_link_add_tcp_client_list in E. cbn [lk_types set_types] in E.
  rewrite lookup_insert_eq in E. cbn [mbind option_bind el_list] in E.
  destruct ok; cbn in E; rewrite ?lookup_insert_eq in E; cbn in E; injection E as <-.
  - split; [|split; [|cbn; destruct tick; lia]].
    + eexists [a], [(_, _)]. split; [|split; [apply NoDup_singleton|unfold Zlen; cbn; lia]].
      split; [done|]. split.
      * eexists. cbn. rewrite lookup_insert_eq. split; [done|]. split.
        -- split; [done|]. eexists. cbn. rewrite lookup_insert_eq. by split.
        -- constructor; [|done]. eexists. cbn. rewrite lookup_insert_eq.
           split; [done|]. cbn. split; [reflexivity|]. split; [reflexivity|done].
      * eexists. cbn. rewrite lookup_insert_eq. split; [done|]. repeat split; reflexivity.
    + unfold rooted. cbn. rewrite insert_insert_eq. apply map_Forall_insert_2; [done|].
      apply map_Forall_empty.
  - split; [|split; [apply map_Forall_empty|cbn; destruct tick; lia]].
    eexists [], []. split; [|split; [apply NoDup_nil_2|unfold Zlen; cbn; lia]].
    split; [done|]. split.
    + eexists. cbn. rewrite lookup_insert_eq. by repeat split.
    + eexists. cbn. rewrite lookup_insert_eq. split; [done|]. repeat split; reflexivity.
Qed.

(** ** Properties *)

(** A request to connect. A datagram of another host that holds a connect request
    for this AGX (by its serial number, or for any) and for kind 1 does to the list of
    clients what [client_add] says: a first peer is taken; a peer that is listed, or that
    shares its address or its port with the last one, is ignored, and so is any peer once
    there are ten; otherwise it becomes the last client. Any other request changes nothing. *)
Lemma eth_link_connect_request {W} (send : Z -> list Z -> W -> option W) htonl k r l v f buf own
    junk uIp local_ip w a ok sn ip port type more :
  one_kind k r l v -> frame_ok f -> htonl uIp <> local_ip -> Zlen (encode f) <= Zlen buf ->
  0 ∈ own -> fr_id f = 188 ->
  fr_payload f = sn ++ le_bytes 4 ip ++ le_bytes 2 port ++ le_bytes 2 type ++ more ->
  Zlen sn = 32 -> 0 ∈ sn -> 0 <= ip < 2 ^ 32 -> 0 <= port < 65536 -> 0 <= type < 65536 ->
  0 <= htonl ip < 2 ^ 32 -> lk_clients k !! a = None -> Zlen v < 2 ^ 31 ->
  exists k' l',
    eth_link_udp_cbk_data send htonl k local_ip buf (encode f) uIp own junk
      {| ca_addr := Some a; ca_create := ok |} w = Some (k', w)
    /\ one_kind k' r l' (if bool_decide (cstr sn = [] \/ cstr sn = cstr own) && (type =? 1)
                         then client_add 10 v (htonl ip, port) ok else v)
    /\ bFlagTick k' = bFlagTick k.
Proof.
  intros Hk Hf Hlocal Hbuf Hown Hid Hp H32 H0 Hip Hport Htype Hh Ha Hv.
  by apply (connect_datagram send htonl k r l v f buf own junk uIp local_ip w Hk Hf Hlocal Hbuf
    Hown a ok sn ip port type more).
Qed.

(** The answer to a search. A datagram of another host that searches for this AGX by
    its serial number, or for any AGX when no client leads to that host, is answered with
    three copies of the device-information frame to the host's subnet, at most once per tick;
    every other search is ignored. Either way the destination is reset. *)
Lemma eth_link_search_answer {W} (send : Z -> list Z -> W -> option W) htonl k r l v f buf own
    junk uIp local_ip w alloc proto sn more :
  one_kind k r l v -> frame_ok f -> htonl uIp <> local_ip -> Zlen (encode f) <= Zlen buf ->
  0 ∈ own -> bytes_ok own -> (length (cstr own) <= 64)%nat -> Zlen junk = 147 ->
  fr_id f = 186 -> fr_payload f = proto ++ sn ++ more -> length proto = 4%nat -> 0 ∈ sn ->
  let dst := Z.lor (u32 uIp) 255 in
  let wanted := if decide (cstr sn = []) then negb (bool_decide (peer_known htonl v uIp))
                else bool_decide (cstr sn = cstr own) in
  eth_link_udp_cbk_data send htonl k local_ip buf (encode f) uIp own junk alloc w
  = if wanted && bFlagTick k then
      w1 ← send dst (devinfo_frame own) w; w2 ← send dst (devinfo_frame own) w1;
      w3 ← send dst (devinfo_frame own) w2; Some (set_ip 4294967295 (set_tick false k), w3)
    else Some (set_ip 4294967295 k, w).
Proof.
  intros Hk Hf Hlocal Hbuf Hown0 Hown Hown64 Hjunk Hid Hp Hp4 H0.
  exact (search_datagram send htonl k r l v f buf own junk uIp local_ip w Hk Hf Hlocal Hbuf
    Hown0 Hown Hown64 Hjunk alloc proto sn more Hid Hp Hp4 H0).
Qed.


(** ** Witnesses *)

Definition demo_own : list Z := default_sn.
Definition demo_kind : eth_link_list :=
  {| el_net := 1; el_max := 10; el_type := 1; el_ps_init := Some; el_list := Some 5%nat;
     el_next := None |}.
Definition demo_client (ip port : Z) (next : option nat) : eth_link_tcp_client_list :=
  {| cl_uRemoteIp := ip; cl_wRemotePort := port; cl_wConnectTime := 5; cl_psUserCbk := None;
     cl_psRoot := Some 0%nat; cl_psNext := next |}.
Definition demo_link : eth_link :=
  {| psEthList := Some 0%nat; lk_types := {[0%nat := demo_kind]};
     lk_clients := <[5%nat := demo_client 162 9001 (Some 6%nat)]> {[6%nat := demo_client 170 9002 None]};
     bFlagTick := true; uSendIp := 4294967295 |}.
Definition demo_peers : list peer := [(162, 9001); (170, 9002)].

Lemma demo_one_kind : one_kind demo_link 0 [5; 6]%nat demo_peers.
Proof.
  split; [reflexivity|]. split.
  - exists demo_kind. split; [reflexivity|]. split.
    + repeat (split; [reflexivity|eexists; split; [reflexivity|]]). reflexivity.
    + repeat constructor; eexists; repeat split; reflexivity.
  - exists demo_kind. repeat split; reflexivity.
Qed.

Definition demo_buf : list Z := replicate 64 170.
Definition blank_sn : list Z := replicate 32 0.
Definition demo_request : alink_frame :=
  Frame 0 255 9 188 0 (blank_sn ++ le_bytes 4 171 ++ le_bytes 2 9003 ++ le_bytes 2 1 ++ []).
Definition demo_search : alink_frame := Frame 0 255 9 186 0 (le_bytes 4 3 ++ blank_sn ++ []).

Lemma eth_link_connect_request_witness :
  (exists k' l', eth_link_udp_cbk_data send_log (λ x, x) demo_link 161 demo_buf (encode demo_request)
      171 demo_own (replicate 147 0) {| ca_addr := Some 7%nat; ca_create := true |} []
      = Some (k', []) /\ one_kind k' 0 l' [(162, 9001); (170, 9002); (171, 9003)]).
Proof.
  destruct (eth_link_connect_request send_log (λ x, x) demo_link 0 [5; 6]%nat demo_peers demo_request
    demo_buf demo_own (replicate 147 0) 171 161 [] 7%nat true blank_sn 171 9003 1 [])
    as (k' & l' & E & Hk & _); [exact demo_one_kind|by_eval..|].
  match type of Hk with one_kind _ _ _ ?q =>
    assert (q = [(162, 9001); (170, 9002); (171, 9003)]) as Ev by (vm_compute; reflexivity) end.
  rewrite Ev in Hk. exists k', l'. split; [exact E|exact Hk].
Defined.

Lemma eth_link_search_answer_witness :
  (exists k', eth_link_udp_cbk_data send_log (λ x, x) demo_link 161 demo_buf (encode demo_search)
      180 demo_own (replicate 147 0) {| ca_addr := None; ca_create := false |} []
      = Some (k', replicate 3 (255, devinfo_frame demo_own)) /\ bFlagTick k' = false).
Proof.
  pose proof (eth_link_search_answer send_log (λ x, x) demo_link 0 [5; 6]%nat demo_peers demo_search
    demo_buf demo_own (replicate 147 0) 180 161 [] {| ca_addr := None; ca_create := false |}
    (le_bytes 4 3) blank_sn [] demo_one_kind) as H.
  rewrite H by by_eval. clear H.
  eexists. split; [vm_compute; reflexivity|reflexivity].
Defined.

