(* ===== verification/System.v ===== *)
(** * From a radar's socket to the head

    How the parts work together: bytes that wait on the connection of a radar
    ([RadarSession]) become a command ([Alink]), the command a package ([AlinkTrack]), the
    package a target ([TargetList]) and the target a movement of the head ([AiMain]). *)

From stdpp Require Import sorting.
From S2P Require Import Prelude CFloat Layout Linked AlinkFrame AlinkCheck AlinkRecv AlinkOrder AlinkUpload SysportTask AlgInterface AlinkWorld AlinkTrack.
From S2P Require Import PtzProtocol PtzControl Guide TargetList AiMain AlgApp Alink RadarNetwork Sockets TcpServer RadarSession.
Local Open Scope list_scope.
Local Open Scope Z_scope.

(** The payload of a frame that fills a block. *)
Lemma frame_payload_at mem blk f port : 
  payload_at (<[blk := encode f]> mem)
    {| pl_ePortId := port; pl_eRemoteId := fr_src f; pl_wLength := Zlen (fr_payload f);
       pl_pbyData := ptr_add (Ptr blk 0) 9 |} (fr_payload f).
Proof.
  split; [done|]. unfold payload_bytes, at_ptr, ptr_add. cbn [pl_pbyData pblk poff].
  rewrite lookup_insert_eq. cbn [mbind option_bind pl_wLength].
  unfold encode, frame_body. rewrite <-app_assoc. by apply ld_bytes_app.
Qed.

(** The command of a tracks frame on the devices' port, and what it posts. *)
Lemma serve_tracked malloc `{!Malloc malloc} mem imp blk f (d : dev_world alg_app_res) u :
  fr_id f = 0x12 -> 1 <= Zlen (fr_payload f) <= 11525 ->
  dw_ready d -> Zlen (dw_pack d) = 11574 -> alg_idle_task malloc (dw_alg d) u ->
  let pack := le_bytes 4 TRACK_INFO_RADAR ++ fr_payload f
                ++ drop (4 + length (fr_payload f)) (dw_pack d) in
  Zlen pack = 11574 /\ exists d' o,
    serve_frame device_commands (<[blk := encode f]> mem) imp (Ptr blk 0) f d = Some d'
    /\ alg_task_turn (dw_alg d') = Some o
    /\ alg_idle_task malloc o (tq_insert (TRACK_INFO_RADAR, pack) u).
Proof.
  intros Hid Hl Hw Hd Hidle pack.
  destruct (tracked_to_target malloc _ _ _ (blank_resp (order_import imp (Ptr blk 0))) d u
    (frame_payload_at mem blk f (ri_ePortId imp)) Hw Hidle) as (Hlen & d' & o & E1 & E2 & E3);
    [lia|done|].
  split; [exact Hlen|]. exists d', o. split; [|by split].
  unfold serve_frame. rewrite Hid.
  change (head (filter _ device_commands)) with (Some (0x12, 1, @track_pkg_tracked alg_app_res)).
  cbn match. destruct (Z.leb_spec 1 (Zlen (fr_payload f))); [|lia].
  unfold cmd_effect. by rewrite E1.
Qed.

(** ** Properties *)

(** C1: from a radar's socket to the head. A radar's connection holds a frame with its
    tracks, the queues behind it are empty, the head is idle and a picture waits. Then one
    turn of the thread of the radar's TCP server, one of the task of the algorithms and one
    of the algorithm's thread read exactly that frame, tell the head to leave its tracking
    and to turn to the most dangerous useful track of the frame (nothing, when it has none),
    and to search if it sees a target; the connection is ready for the next frame and nothing
    of the target stays on the heap. The frame may have at most 128 tracks. *)
Theorem radar_socket_to_head {T K S F} `{Kernel K} open unread `{!KernelLaws K open unread}
    send gettimeofday sleep msleep sort `{!SortsBy radar_compare sort} sin cos abs atan2 pow
    malloc `{!Malloc malloc} pkg_malloc blk mem del c (s : tcp_server) (k : K)
    (net : radar_network alg_app_res T) aw f rest junk u n ai (frame : F) q :
  let sel := sys_select (client_fd s) k in
  let user := radar_network_sCbk pkg_malloc blk mem in
  bFlagConnect s = true -> bFlagClose s = false ->
  0 < sel_ret sel.1 -> sel_isset sel.1 = true ->
  alink_ready aw -> socket_idle (rn_sAlinkSocket net) sOrder_server ->
  frame_ok f -> fr_id f = 0x12 -> Zlen (fr_payload f) <= 11525 ->
  unread (client_fd s) k = encode f ++ rest -> 3 <= Zlen (tcp_server_recv 8 (s, sel.2)).1 ->
  pkg_malloc (Zlen (encode f)) = Some junk -> Zlen junk = Zlen (encode f) ->
  dw_ready (aw_dev aw) -> Zlen (dw_pack (aw_dev aw)) = 11574 ->
  alg_idle_task malloc (dw_alg (aw_dev aw)) u -> tq_user u = None -> tq_devs u = [] ->
  ld_le 1 (fr_payload f) 1 = Some n -> 0 <= n <= ALINK_TARGET_MAX ->
  ai_ok ai -> img_cnt ai < 2 ^ 31 - 1 -> 0 <= track_cnt ai < 2 ^ 31 - 1 -> head_mode ai = 0 ->
  let pack := le_bytes 4 TRACK_INFO_RADAR ++ fr_payload f
                ++ drop (4 + length (fr_payload f)) (dw_pack (aw_dev aw)) in
  exists net' aw' k' o t alg1 ai' objs l,
    tcp_server_task (eth_link_sCbk (Some user) del) (ServerState SP_serve c s k (Some net, aw))
      = Some (ServerState SP_serve 0 s k' (Some net', aw'))
    /\ unread (client_fd s) k' = rest
    /\ alink_ready aw' /\ socket_idle (rn_sAlinkSocket net') sOrder_server
    /\ alg_task_turn (dw_alg (aw_dev aw')) = Some o /\ pvalgtask o = Some t
    /\ radar_read pack [] = Some (0, objs)
    /\ (filter useful objs = [] /\ l = []
        \/ exists ob, most_dangerous objs ob /\ l = radar_actions ob)
    /\ (forall v : S, fusion_ai_alg_thread send gettimeofday sleep msleep sort sin cos abs atan2 pow
          (frame :: q) (alg_user (ts_world t)) ai 0 0 v
        = (v ← acts send gettimeofday sleep
                 (l ++ if head_targets ai =? 0 then [] else [act_search]) v;
           Some (q, alg1, ai', v)))
    /\ aa_nodes alg1 = ∅ /\ size (aa_packs alg1) = tq_leaked u.
Proof.
  intros sel user Hcon Hclo Hsel Hset Hr Hs Hf Hid Hl Hun H3 Hm Hj Hw Hd Hidle Hu Hdv Hn Hn128
    Hok Hi Ht Hmode pack.
  assert (Hl1 : 1 <= Zlen (fr_payload f)) by (apply (mk_is_Some _ _), ld_le_Some in Hn; lia).
  pose proof (session_frame open unread pkg_malloc blk mem del c s k net aw f rest junk Hcon Hclo
    Hsel Hset Hr Hs Hf ltac:(lia) Hun H3 Hm Hj) as HX.
  destruct (serve_tracked malloc mem (network_import (rn_psUser net) blk (Zlen (encode f))) blk f
    (aw_dev aw) u Hid (conj Hl1 Hl) Hw Hd Hidle) as (Hlen & d' & o & Es & Eo & Hidle').
  rewrite Es in HX. destruct HX as (net' & aw' & k' & Et & <- & Hrest & Hr' & Hs' & _).
  destruct (target_to_head send gettimeofday sleep msleep sort sin cos abs atan2 pow malloc o u
    (fr_payload f) (drop (4 + length (fr_payload f)) (dw_pack (aw_dev aw))) n ai frame q)
    as (t & alg1 & ai' & objs & l & E1 & E2 & E3 & E4 & E5); try done.
  exists net', aw', k', o, t, alg1, ai', objs, l. by repeat (split; [done|]).
Qed.

(** ** Witness *)

(** [alink_init] changes the upload component only. *)
Lemma alink_init_dev {X T} b1 b2 b3 sends (d : dev_world X) (aw : alink_world X T) :
  alink_init 0 0 0 (alink_statics b1 b2 b3 sends d) = Some (0, aw) ->
  dw_alg (aw_dev aw) = dw_alg d /\ dw_malloc_ok (aw_dev aw) = dw_malloc_ok d
  /\ dw_mq_ok (aw_dev aw) = dw_mq_ok d.
Proof.
  unfold alink_init, alink_track_init, alink_target_init, alink_system_init.
  abstract_handlers X. vm_compute in H. injection H as <-. done.
Qed.

Definition track_frame : alink_frame := Frame 0 8 3 0x12 0 demo_tracks.
Definition track_kernel : replay := Replay {[3; 4]} [] (encode track_frame ++ [1; 2; 3]) [].
Definition track_network : radar_network alg_app_res unit :=
  {| rn_sAlinkSocket := (alink_connect_port zero_socket ALINK_USER_TYPE_DEVICE).2;
     rn_psUser := {| eu_psSocket := 3; eu_pi_send := 4 |} |}.

Lemma radar_socket_to_head_witness :
  (exists aw net' aw' k' o t alg1 ai' ob,
     alink_init 0 0 0 (alink_statics demo_buffer demo_buffer [] ∅ demo_alg_world) = Some (0, aw)
     /\ tcp_server_task (eth_link_sCbk (Some (radar_network_sCbk session_malloc 9 ∅)) (λ w, w))
          (ServerState SP_serve 3 session_server track_kernel (Some track_network, aw))
        = Some (ServerState SP_serve 0 session_server k' (Some net', aw'))
     /\ rp_input k' = [1; 2; 3]
     /\ alg_task_turn (dw_alg (aw_dev aw')) = Some o /\ pvalgtask o = Some t
     /\ (forall v, fusion_ai_alg_thread demo_send demo_clock demo_sleep demo_sleep
           (merge_sort threat_le) id id id dadd dmul [1] (alg_user (ts_world t))
           (demo_state 0 0) 0 0 v
         = (v ← acts demo_send demo_clock demo_sleep (radar_actions ob) v;
            Some ([], alg1, ai', v)))
     /\ aa_nodes alg1 = ∅).
Proof.
  destruct (alink_init_ready (X := alg_app_res) (T := unit) demo_buffer demo_buffer [] ∅
    demo_alg_world) as (aw & E & Hr & _ & Hp & _); [by vm_compute..|].
  pose proof (alink_init_dev _ _ _ _ _ _ E) as (Ha & Hm & Hq).
  exists aw.
  assert (Hw : dw_ready (aw_dev aw)).
  { destruct demo_alg_world_ready as (H1 & H2 & H3). unfold dw_ready. rewrite Ha, Hm, Hq.
    split; [exact H1|]. split; [exact H2|exact H3]. }
  assert (Hidle : alg_idle_task fresh (dw_alg (aw_dev aw)) tq_init)
    by (rewrite Ha; exact demo_alg_world_idle).
  assert (Hd : Zlen (dw_pack (aw_dev aw)) = 11574) by (rewrite Hp; vm_compute; reflexivity).
  destruct (radar_socket_to_head rp_visible (λ _, rp_input) demo_send demo_clock demo_sleep
    demo_sleep (merge_sort threat_le) id id id dadd dmul fresh session_malloc 9 ∅ (λ w, w) 3
    session_server track_kernel track_network aw track_frame [1; 2; 3] (replicate 196 170)
    tq_init 2 (demo_state 0 0) 1 [])
    as (net' & aw' & k' & o & t & alg1 & ai' & objs & l & E1 & E2 & _ & _ & E3 & E4 & E5 & E6 & E7 & E8 & _);
    [reflexivity|reflexivity|reflexivity|reflexivity|exact Hr|split; reflexivity|by_eval|reflexivity
    |vm_compute; discriminate|reflexivity|vm_compute; discriminate|vm_compute; reflexivity
    |vm_compute; reflexivity|exact Hw|exact Hd|exact Hidle|reflexivity|reflexivity
    |vm_compute; reflexivity|split; discriminate|apply demo_state_ok|reflexivity
    |split; [discriminate|reflexivity]|reflexivity|].
  destruct E6 as [[Hu _]|(ob & _ & ->)].
  - exfalso. rewrite Hp in E5. match type of E5 with radar_read ?p [] = _ =>
      assert (Ex : option_map (λ x, length (filter useful x.2)) (radar_read p []) = Some 2%nat)
        by (vm_compute; reflexivity) end.
    rewrite E5 in Ex. cbn [option_map snd] in Ex. rewrite Hu in Ex. discriminate Ex.
  - exists net', aw', k', o, t, alg1, ai', ob. split; [exact E|]. split; [exact E1|].
    split; [exact E2|]. split; [exact E3|]. split; [exact E4|]. split; [exact E7|exact E8].
Defined.
