(* ===== verification/Tools.v ===== *)
(** * Tools ([src/common/tools/skyfend_tools.c])

    The functions of the tools that compute something: byte orders, BCD, numbers in
    strings, lower case, the count of allocations, the operations on groups of threads and
    the creation of directories.  The file system and the threads are parameters. *)

From S2P Require Import Prelude AlinkBuild Layout CString.
Local Open Scope c_scope.
Local Open Scope list_scope.
Local Open Scope Z_scope.

Definition MAX_LEN_PATH : Z := 512.

(** ** The code: numbers *)

Definition check_cpu_little_endian : option bool :=
  data ← st_le 4 (replicate 4 0) 0 1;
  ch ← ld8 data 0;
  Some (ch =? 1).

Definition u32_reverse_byte_order (num : Z) : Z :=
  let tmp := u32 num in
  let num := Z.shiftr (u32 (Z.shiftl (Z.land tmp 0xFF000000) 0)) 24 in
  let num := u32 (num + Z.shiftr (u32 (Z.shiftl (Z.land tmp 0xFF0000) 8)) 16) in
  let num := u32 (num + Z.shiftr (u32 (Z.shiftl (Z.land tmp 0xFF00) 16)) 8) in
  u32 (num + Z.shiftr (u32 (Z.shiftl (Z.land tmp 0xFF) 24)) 0).

Definition u16_reverse_byte_order (num : Z) : Z :=
  let tmp := u16 num in
  let num := u16 (Z.shiftr (Z.land tmp 0xFF00) 8) in
  u16 (num + Z.shiftl (Z.land tmp 0xFF) 8).

Definition bcd_to_decimal (data : Z) : Z :=
  let temp := u8 (Z.shiftr (u8 data) 4 * 10) in
  u8 (temp + Z.land (u8 data) 0x0F).

Definition decimal_to_bcd (data : Z) : Z :=
  let temp := u8 (Z.shiftl (u8 data / 10) 4) in
  u8 (temp + u8 data mod 10).

(** ** The code: allocations *)

(** The counter and the live objects; [None] is an object that [free] may not be given. *)
Record malloc_state := { malloc_free_cnt : Z; live : gmap nat (list Z) }.

Definition skyfend_malloc (size : Z) (addr : option nat) (s : malloc_state)
  : option nat * malloc_state :=
  if size =? 0 then (None, s) else
  match addr with
  | Some a => (Some a, {| malloc_free_cnt := malloc_free_cnt s + 1;
                          live := <[a := replicate (Z.to_nat size) 0]> (live s) |})
  | None => (None, s)
  end.

(** The argument is what the caller's pointer holds; so is the first result. *)
Definition skyfend_safefree (ptr : option nat) (s : malloc_state)
  : option (option nat * malloc_state) :=
  match ptr with
  | Some a =>
      _ ← live s !! a;
      Some (None, {| malloc_free_cnt := malloc_free_cnt s - 1; live := delete a (live s) |})
  | None => Some (None, s)
  end.

Definition get_skyfend_malloc_free_cnt (s : malloc_state) : Z := malloc_free_cnt s.

(** ** The code: strings *)

Definition is_digit (c : Z) : bool := (48 <=? c) && (c <=? 57).
Definition is_sign (c : Z) : bool := (c =? 45) || (c =? 43).

Fixpoint atoi_skip (pos : list Z) : option (list Z) :=
  match pos with
  | [] => None
  | c :: pos' =>
      if c =? 0 then Some pos
      else if negb (is_sign c) && negb (is_digit c) then atoi_skip pos'
      else Some pos
  end.

(** [numb] is an [int]: a larger value is undefined. *)
Fixpoint atoi_digits (pos : list Z) (numb : Z) : option Z :=
  match pos with
  | [] => None
  | c :: pos' =>
      if is_digit c then
        let numb := numb * 10 + (c - 48) in
        if numb <=? 2147483647 then atoi_digits pos' numb else None
      else Some numb
  end.

Definition skyfend_atoi (str : option (list Z)) : option Z :=
  match str with
  | None => Some 0
  | Some pos =>
      pos ← atoi_skip pos;
      match pos with
      | [] => None
      | c :: pos' =>
          if c =? 0 then Some 0 else
          let '(sign, pos) :=
            if c =? 45 then (-1, pos') else if c =? 43 then (1, pos') else (1, pos) in
          numb ← atoi_digits pos 0;
          Some (numb * sign)
      end
  end.

Definition FILE_CODE_CHINESE_CHAR_OCCUPY_CHAR : Z := 3.

(** [char_signed] is whether the compiler's [char] is signed. *)
Definition skyfend_strlen (char_signed : bool) (str : list Z) : option Z :=
  len ← strlen str;
  let num := Zlen (filter (λ c, char_signed && (128 <=? c) = true) (cstr str)) in
  Some (if (0 <? len) && negb (2 =? FILE_CODE_CHINESE_CHAR_OCCUPY_CHAR)
        then len - num / FILE_CODE_CHINESE_CHAR_OCCUPY_CHAR else len).

(** [tolower] of the C locale. *)
Definition tolower (c : Z) : Z := if (65 <=? c) && (c <=? 90) then c + 32 else c.

Fixpoint strnlwr_loop (n : nat) (i : Z) (dest src : list Z) : option (list Z) :=
  match n with
  | O => Some dest
  | S n' => c ← ld8 src i; dest ← st8 dest i (tolower c); strnlwr_loop n' (i + 1) dest src
  end.

Definition skyfend_strnlwr (dest src : option (list Z)) (len : Z) : option (Z * option (list Z)) :=
  match dest, src with
  | Some d, Some s => d ← strnlwr_loop (Z.to_nat len) 0 d s; Some (0, Some d)
  | _, _ => Some (-1, dest)
  end.

(** ** The code: groups of threads *)

Inductive thread_event := ev_kill (i : nat) | ev_create (i : nat) | ev_join (i : nat).

Definition TASK_OPT_CREATE : Z := 1.
Definition TASK_OPT_CHECK_ALIVE : Z := 2.
Definition TASK_OPT_WAIT : Z := 3.
Definition ESRCH : Z := 3.

(** [pthread_kill] gives the state of each thread; the result of [pthread_create] is not
    looked at. *)
Fixpoint check_alive_loop (pthread_kill : nat -> Z) (i n : nat) (ret : Z) : Z * list thread_event :=
  match n with
  | O => (ret, [])
  | S n' =>
      let ret := if pthread_kill i =? ESRCH then -1 else 0 in
      let '(ret, evs) := check_alive_loop pthread_kill (S i) n' ret in
      (ret, ev_kill i :: evs)
  end.

Definition opt_thread_task (pthread_kill : nat -> Z) (len : nat) (opt : Z)
  : Z * list thread_event :=
  if opt =? TASK_OPT_CHECK_ALIVE then check_alive_loop pthread_kill 0 len 0
  else if opt =? TASK_OPT_CREATE then (0, ev_create <$> seq 0 len)
  else if opt =? TASK_OPT_WAIT then (0, ev_join <$> rev (seq 0 len))
  else (0, []).

(** ** The code: directories *)

Section directories.
Context {F : Type} (access : list Z -> F -> bool) (mkdir : list Z -> F -> option F).

(** The loop over the buffer, from [i] on, [n] characters. *)
Fixpoint mkdir_loop (n : nat) (i : Z) (tmp : list Z) (fs : F) : option (Z * F) :=
  match n with
  | O => Some (0, fs)
  | S n' =>
      c ← ld8 tmp i;
      if c =? 47 then
        tmp ← st8 tmp i 0;
        _ ← strlen tmp;
        let name := cstr tmp in
        if access name fs then
          tmp ← st8 tmp i 47; mkdir_loop n' (i + 1) tmp fs
        else
          match mkdir name fs with
          | None => Some (-1, fs)
          | Some fs => tmp ← st8 tmp i 47; mkdir_loop n' (i + 1) tmp fs
          end
      else mkdir_loop n' (i + 1) tmp fs
  end.

Definition mkdir_p (path : option (list Z)) (fs : F) : option (Z * F) :=
  match path with
  | None => Some (-1, fs)
  | Some path =>
      len ← strlen path;
      if access (cstr path) fs then Some (0, fs) else
      if MAX_LEN_PATH <=? len then Some (-1, fs) else
      tmp ← memcpy (replicate (Z.to_nat (MAX_LEN_PATH + 1)) 0) 0 path 0
              (if len >? MAX_LEN_PATH + 1 then MAX_LEN_PATH + 1 else len);
      c ← ld8 tmp (len - 1);
      '(tmp, len) ← (if negb (c =? 47) then
                       tmp ← st8 tmp len 47; tmp ← st8 tmp (len + 1) 0; Some (tmp, len + 1)
                     else Some (tmp, len));
      mkdir_loop (Z.to_nat len) 0 tmp fs
  end.
End directories.

(** ** Byte orders and BCD *)

Lemma land_shifted_mask x k :
  0 <= k -> Z.land x (Z.shiftl 255 k) = Z.shiftl (Z.shiftr x k mod 256) k.
Proof.
  intros Hk. change 256 with (2 ^ 8). rewrite <-Z.land_ones by lia. change (Z.ones 8) with 255.
  apply Z.bits_inj'. intros i Hi. rewrite Z.land_spec, !Z.shiftl_spec by lia.
  destruct (Z.ltb_spec i k).
  - rewrite (Z.testbit_neg_r 255), andb_false_r, Z.testbit_neg_r by lia. done.
  - rewrite Z.land_spec, Z.shiftr_spec by lia. by replace (i - k + k) with i by lia.
Qed.

(** A digit of a number to the base 256. *)
Lemma digit_at n lo x hi :
  0 < n -> 0 <= lo < n -> 0 <= x < 256 -> (lo + n * (x + 256 * hi)) / n mod 256 = x.
Proof.
  intros Hn Hl Hx. replace (lo + n * (x + 256 * hi)) with (lo + (x + 256 * hi) * n) by lia.
  rewrite Z.div_add, (Z.div_small lo n) by lia. wrap_lia.
Qed.

(** The bytes of a word in the other order. *)
Lemma u32_reverse_spec a b c d :
  bytes_ok [a; b; c; d] ->
  u32_reverse_byte_order (le_val [a; b; c; d]) = le_val [d; c; b; a].
Proof.
  intros H. forall_inv H. unfold is_byte in *. unfold u32_reverse_byte_order. cbn [le_val].
  change 0xFF000000 with (Z.shiftl 255 24). change 0xFF0000 with (Z.shiftl 255 16).
  change 0xFF00 with (Z.shiftl 255 8). change 0xFF with (Z.shiftl 255 0) at 4.
  rewrite (u32_id (a + _)) by lia. set (x := a + _).
  rewrite !land_shifted_mask, !Z.shiftl_mul_pow2, !Z.shiftr_div_pow2 by lia.
  change (2 ^ 24) with 16777216. change (2 ^ 16) with 65536. change (2 ^ 8) with 256.
  change (2 ^ 0) with 1.
  assert (x / 16777216 mod 256 = d) as ->
    by (rewrite <-(digit_at 16777216 (a + 256 * b + 65536 * c) d 0) by lia; do 2 f_equal; unfold x; lia).
  assert (x / 65536 mod 256 = c) as ->
    by (rewrite <-(digit_at 65536 (a + 256 * b) c d) by lia; do 2 f_equal; unfold x; lia).
  assert (x / 256 mod 256 = b) as ->
    by (rewrite <-(digit_at 256 a b (c + 256 * d)) by lia; do 2 f_equal; unfold x; lia).
  assert (x / 1 mod 256 = a) as ->
    by (rewrite <-(digit_at 1 0 a (b + 256 * (c + 256 * d))) by lia; do 2 f_equal; unfold x; lia). clear x.
  rewrite (u32_id (d * 16777216 * _)), (u32_id (c * 65536 * _)), (u32_id (b * 256 * _)),
    (u32_id (a * 1 * _)) by lia.
  replace (d * 16777216 * 1) with (d * 16777216) by lia.
  replace (c * 65536 * 256) with (256 * c * 65536) by lia.
  replace (b * 256 * 65536) with (65536 * b * 256) by lia.
  replace (a * 1 * 16777216) with (16777216 * a * 1) by lia. rewrite !Z.div_mul by lia.
  rewrite (u32_id (d + _)), (u32_id (d + _ + _)), u32_id by lia. lia.
Qed.

Lemma u16_reverse_spec a b :
  bytes_ok [a; b] -> u16_reverse_byte_order (le_val [a; b]) = le_val [b; a].
Proof.
  intros H. forall_inv H. unfold is_byte in *. unfold u16_reverse_byte_order. cbn [le_val].
  change 0xFF00 with (Z.shiftl 255 8). change 0xFF with (Z.shiftl 255 0).
  rewrite (u16_id (a + _)) by lia. set (x := a + _).
  rewrite !land_shifted_mask, !Z.shiftl_mul_pow2, !Z.shiftr_div_pow2 by lia.
  change (2 ^ 8) with 256. change (2 ^ 0) with 1.
  assert (x / 256 mod 256 = b) as ->
    by (rewrite <-(digit_at 256 a b 0) by lia; do 2 f_equal; unfold x; lia).
  assert (x / 1 mod 256 = a) as ->
    by (rewrite <-(digit_at 1 0 a b) by lia; do 2 f_equal; unfold x; lia). clear x.
  rewrite Z.div_mul by lia. rewrite (u16_id b), u16_id by lia. lia.
Qed.

(** Two decimal digits survive the way to BCD and back; a byte of three digits does not. *)
Lemma bcd_roundtrip x : 0 <= x < 100 -> bcd_to_decimal (decimal_to_bcd x) = x.
Proof.
  intros H. unfold bcd_to_decimal, decimal_to_bcd. change 0x0F with (Z.ones 4).
  rewrite Z.land_ones, Z.shiftl_mul_pow2, Z.shiftr_div_pow2 by lia. wrap_lia.
Qed.

(** ** Numbers in strings *)

(** The value of decimal digits. *)
Definition dec_value (ds : list Z) (n : Z) : Z := foldl (λ n d, n * 10 + (d - 48)) n ds.

Lemma dec_value_mono ds n : Forall (λ d, is_digit d = true) ds -> 0 <= n -> n <= dec_value ds n.
Proof.
  intros H. revert n. induction H as [|d ds Hd _ IH]; intros n Hn; cbn; [lia|].
  unfold is_digit in Hd. specialize (IH (n * 10 + (d - 48)) ltac:(lia)).
  unfold dec_value in IH. lia.
Qed.

Lemma atoi_digits_spec ds c rest n :
  Forall (λ d, is_digit d = true) ds -> is_digit c = false -> 0 <= n <= 2147483647 ->
  atoi_digits (ds ++ c :: rest) n
  = if dec_value ds n <=? 2147483647 then Some (dec_value ds n) else None.
Proof.
  intros H Hc. revert n. induction H as [|d ds Hd Hds IH]; intros n Hn; cbn [app atoi_digits].
  - rewrite Hc. cbn. by destruct (Z.leb_spec n 2147483647); [|lia].
  - rewrite Hd. unfold is_digit in Hd. cbn [dec_value foldl].
    pose proof (dec_value_mono ds (n * 10 + (d - 48)) Hds ltac:(lia)) as Hm. unfold dec_value in *.
    destruct (Z.leb_spec (n * 10 + (d - 48)) 2147483647); [apply IH; lia|].
    destruct (Z.leb_spec (foldl (λ n d, n * 10 + (d - 48)) (n * 10 + (d - 48)) ds) 2147483647);
      [lia|done].
Qed.

(** The first number of a string: what precedes it is skipped, one sign is taken, and the
    value is that of its digits; a string without a sign or a digit gives 0. *)
Lemma skyfend_atoi_spec pre sign ds c rest :
  Forall (λ x, x <> 0 /\ is_sign x = false /\ is_digit x = false) pre ->
  sign = [] \/ sign = [45] \/ sign = [43] ->
  Forall (λ d, is_digit d = true) ds -> is_digit c = false ->
  (sign = [] -> ds = [] -> c = 0) ->
  skyfend_atoi (Some (pre ++ sign ++ ds ++ c :: rest))
  = if dec_value ds 0 <=? 2147483647 then
      Some (if decide (sign = [45]) then - dec_value ds 0 else dec_value ds 0)
    else None.
Proof.
  intros Hpre Hsign Hds Hc Hend. unfold skyfend_atoi.
  assert (forall l, atoi_skip (pre ++ l) = atoi_skip l) as ->.
  { intros l. induction Hpre as [|x pre (H0 & Hs & Hd) _ IH]; [done|].
    cbn [app atoi_skip]. rewrite Hs, Hd. destruct (Z.eqb_spec x 0); [congruence|exact IH]. }
  pose proof (atoi_digits_spec ds c rest 0 Hds Hc ltac:(lia)) as Hdig.
  destruct Hsign as [->|[->| ->]]; cbn [app atoi_skip].
  - destruct ds as [|d ds].
    + rewrite Hend by done. reflexivity.
    + pose proof (Forall_inv Hds) as Hd. unfold is_digit in Hd.
      cbn [app atoi_skip]. unfold is_sign, is_digit in *.
      destruct (Z.eqb_spec d 0); [lia|]. rewrite Hd, andb_false_r. cbn [mbind option_bind].
      destruct (Z.eqb_spec d 0), (Z.eqb_spec d 45), (Z.eqb_spec d 43); try lia.
      cbn [app] in Hdig. rewrite Hdig.
      destruct (dec_value (d :: ds) 0 <=? 2147483647); [|done]. cbn [mbind option_bind].
      rewrite decide_False by done. f_equal. lia.
  - cbn [mbind option_bind]. change (45 =? 0) with false. change (is_sign 45) with true.
    cbn [negb andb mbind option_bind]. change (45 =? 45) with true. cbv iota. rewrite Hdig.
    destruct (dec_value ds 0 <=? 2147483647); [|done]. cbn [mbind option_bind].
    rewrite decide_True by done. f_equal. lia.
  - cbn [mbind option_bind]. change (43 =? 0) with false. change (is_sign 43) with true.
    cbn [negb andb mbind option_bind]. change (43 =? 45) with false. change (43 =? 43) with true.
    cbv iota. rewrite Hdig. destruct (dec_value ds 0 <=? 2147483647); [|done].
    cbn [mbind option_bind]. rewrite decide_False by done. f_equal. lia.
Qed.

(** ** Groups of threads *)

(** Every thread is asked, but only the answer of the last one is reported. *)
Lemma check_alive_spec kill len :
  opt_thread_task kill len TASK_OPT_CHECK_ALIVE
  = (match len with
     | O => 0
     | S n => if kill n =? ESRCH then -1 else 0
     end, ev_kill <$> seq 0 len).
Proof.
  unfold opt_thread_task. change (TASK_OPT_CHECK_ALIVE =? TASK_OPT_CHECK_ALIVE) with true. cbv iota.
  assert (forall n i ret, check_alive_loop kill i n ret
    = (match n with O => ret | S k => if kill (i + k)%nat =? ESRCH then -1 else 0 end,
       ev_kill <$> seq i n)) as ->; [|by destruct len].
  induction n as [|n IH]; intros i ret; [done|]. cbn [check_alive_loop seq fmap list_fmap].
  rewrite IH. destruct n as [|n]; [by rewrite Nat.add_0_r|]. by rewrite Nat.add_succ_r.
Qed.

(** ** Directories *)

(** What the program relies on of the file system: the empty name exists nowhere and cannot
    be made, what was made exists, and making a directory removes nothing. *)
Class FileSystem {F} (access : list Z -> F -> bool) (mkdir : list Z -> F -> option F) : Prop := {
  access_empty fs : access [] fs = false;
  mkdir_empty fs : mkdir [] fs = None;
  mkdir_access p fs fs' : mkdir p fs = Some fs' -> access p fs' = true;
  mkdir_keeps p q fs fs' : mkdir p fs = Some fs' -> access q fs = true -> access q fs' = true
}.

(** The names that end before a slash of [l], which follows [pre]. *)
Fixpoint prefixes (pre l : list Z) : list (list Z) :=
  match l with
  | [] => []
  | c :: l' => if c =? 47 then pre :: prefixes (pre ++ [c]) l' else prefixes (pre ++ [c]) l'
  end.

Definition with_slash (path : list Z) : list Z :=
  if decide (last path = Some 47) then path else path ++ [47].

Section mkdir.
Context {F : Type} (access : list Z -> F -> bool) (mkdir : list Z -> F -> option F).

(** Makes the missing ones of [ps], in order, and stops where that fails. *)
Fixpoint mkdir_all (ps : list (list Z)) (fs : F) : Z * F :=
  match ps with
  | [] => (0, fs)
  | p :: ps' =>
      if access p fs then mkdir_all ps' fs
      else match mkdir p fs with None => (-1, fs) | Some fs' => mkdir_all ps' fs' end
  end.

Lemma mkdir_loop_spec pre l z fs :
  0 ∉ pre ++ l ->
  mkdir_loop access mkdir (length l) (Zlen pre) (pre ++ l ++ 0 :: z) fs
  = Some (mkdir_all (prefixes pre l) fs).
Proof.
  revert pre fs. induction l as [|c l IH]; intros pre fs H0; [done|].
  cbn [length mkdir_loop prefixes app]. rewrite ld8_middle. cbn [mbind option_bind].
  assert (0 ∉ (pre ++ [c]) ++ l) as H0' by by rewrite <-app_assoc.
  pose proof (IH (pre ++ [c])) as IHc. rewrite Zlen_snoc in IHc.
  assert (forall x, (pre ++ [x]) ++ l ++ 0 :: z = pre ++ x :: l ++ 0 :: z) as Ea
    by (intros x; by rewrite <-app_assoc). rewrite Ea in IHc.
  destruct (Z.eqb_spec c 47) as [->|Hne]; [|by apply IHc].
  rewrite st8_middle by done. cbn [mbind option_bind]. change (u8 0) with 0.
  assert (0 ∉ pre) as Hpre by (intros ?; apply H0, elem_of_app; by left).
  rewrite strlen_spec, decide_True by (apply elem_of_app; right; by left).
  cbn [mbind option_bind mkdir_all]. rewrite cstr_app by done. cbn [cstr]. rewrite Z.eqb_refl, app_nil_r.
  rewrite st8_middle by done. change (u8 47) with 47. cbn [mbind option_bind].
  destruct (access pre fs); [by apply IHc|]. destruct (mkdir pre fs); [by apply IHc|done].
Qed.
End mkdir.

Lemma mkdir_all_exists {F} access mkdir `{!FileSystem (F := F) access mkdir} ps fs fs' :
  mkdir_all access mkdir ps fs = (0, fs') ->
  (forall p, p ∈ ps -> access p fs' = true)
  /\ (forall q, access q fs = true -> access q fs' = true).
Proof.
  revert fs. induction ps as [|p ps IH]; intros fs H.
  { injection H as <-. split; [by intros ? ?%elem_of_nil|done]. }
  cbn [mkdir_all] in H. destruct (access p fs) eqn:Ea.
  - apply IH in H as [H1 H2]. split; [|done]. intros q [->|Hq]%elem_of_cons; auto.
  - destruct (mkdir p fs) as [fs1|] eqn:Em; [|discriminate H]. apply IH in H as [H1 H2].
    split; [|eauto using mkdir_keeps]. intros q [->|Hq]%elem_of_cons; eauto using mkdir_access.
Qed.

(** The buffer after the path has been copied and closed with a slash. *)
Lemma mkdir_buffer path more :
  0 ∉ path -> path <> [] -> Zlen path < 512 ->
  exists z, (tmp ← memcpy (replicate (Z.to_nat (MAX_LEN_PATH + 1)) 0) 0 (path ++ 0 :: more) 0 (Zlen path);
    c ← ld8 tmp (Zlen path - 1);
    if negb (c =? 47) then
      tmp ← st8 tmp (Zlen path) 47; tmp ← st8 tmp (Zlen path + 1) 0; Some (tmp, Zlen path + 1)
    else Some (tmp, Zlen path))
  = Some (with_slash path ++ 0 :: z, Zlen (with_slash path)).
Proof.
  intros H0 Hne Hl. pose proof (Zlen_nonneg path) as Hp.
  assert (replicate (Z.to_nat (MAX_LEN_PATH + 1)) 0
    = replicate (length path) 0 ++ 0 :: replicate (512 - length path) 0) as ->.
  { unfold MAX_LEN_PATH. change (0 :: replicate (512 - length path) 0)
      with (replicate (S (512 - length path)) 0). rewrite <-replicate_add. f_equal.
    unfold Zlen in Hl. lia. }
  pose proof (memcpy_app [] (replicate (length path) 0) (0 :: replicate (512 - length path) 0) []
    path (0 :: more) 0 0 (Zlen path) eq_refl eq_refl eq_refl
    ltac:(unfold Zlen; by rewrite length_replicate)) as E.
  cbn [app] in E. rewrite E. cbn [mbind option_bind].
  destruct path as [|x path' _] using rev_ind; [done|]. rewrite Zlen_snoc.
  rewrite <-app_assoc. cbn [app]. replace (Zlen path' + 1 - 1) with (Zlen path') by lia.
  rewrite ld8_middle. cbn [mbind option_bind]. unfold with_slash. rewrite last_snoc.
  destruct (Z.eqb_spec x 47) as [->|Hx]; cbn [negb].
  { rewrite decide_True by done. eexists. by rewrite Zlen_snoc, <-app_assoc. }
  rewrite decide_False by congruence. rewrite length_app. cbn [length].
  rewrite Zlen_snoc in Hl. assert (512 - (length path' + 1) = S (510 - length path'))%nat as ->
    by (unfold Zlen in Hl; lia). cbn [replicate].
  change (path' ++ x :: 0 :: ?z) with (path' ++ [x] ++ 0 :: z).
  rewrite (cons_middle x path'), app_assoc.
  rewrite st8_middle by by rewrite Zlen_snoc. cbn [mbind option_bind]. change (u8 47) with 47.
  rewrite (cons_middle 47), app_assoc. rewrite st8_middle by (rewrite !Zlen_snoc; lia).
  cbn [mbind option_bind]. change (u8 0) with 0. eexists.
  cbn [app]. by rewrite !Zlen_snoc.
Qed.

(** ** Property *)

(** Making directories. An existing path is left alone and a path of 512 characters or
    more is refused; otherwise the missing directories among the prefixes that end before a
    slash are made in order until one fails, and when the result is 0 they all exist. For an
    absolute path the first prefix is the empty name, so the function fails and makes
    nothing. *)
Lemma mkdir_p_spec {F} (access : list Z -> F -> bool) mkdir `{!FileSystem access mkdir}
    path more fs :
  0 ∉ path -> path <> [] ->
  let ps := prefixes [] (with_slash path) in
  let r := if access path fs then (0, fs)
           else if MAX_LEN_PATH <=? Zlen path then (-1, fs)
           else mkdir_all access mkdir ps fs in
  mkdir_p access mkdir (Some (path ++ 0 :: more)) fs = Some r
  /\ (head path = Some 47 -> access path fs = false -> r = (-1, fs))
  /\ (access path fs = false -> r.1 = 0 -> forall p, p ∈ ps -> access p r.2 = true).
Proof.
  intros H0 Hne ps r. split; [|split].
  - unfold mkdir_p. rewrite strlen_spec, decide_True by (apply elem_of_app; right; by left).
    rewrite cstr_app by done. change (cstr (0 :: more)) with (@nil Z). rewrite app_nil_r.
    cbn [mbind option_bind]. subst r. destruct (access path fs); [done|].
    destruct (Z.leb_spec MAX_LEN_PATH (Zlen path)) as [|Hl]; [done|]. unfold MAX_LEN_PATH in Hl.
    destruct (Zlen path >? MAX_LEN_PATH + 1) eqn:E; [unfold MAX_LEN_PATH in E; lia|].
    destruct (mkdir_buffer path more H0 Hne Hl) as (z & Hz).
    apply bind_Some in Hz as (tmp & -> & Hz). cbn [mbind option_bind].
    apply bind_Some in Hz as (c & -> & Hz). cbn [mbind option_bind]. rewrite Hz.
    cbn [mbind option_bind]. rewrite Zlen_to_nat.
    etransitivity; [apply (mkdir_loop_spec access mkdir [] (with_slash path) z fs)|done].
    unfold with_slash. cbn [app]. case_decide; [done|].
    intros [Hi|Hi%list_elem_of_singleton]%elem_of_app; [by apply H0|discriminate Hi].
  - intros Hh Ha. subst r ps. rewrite Ha. destruct (_ <=? _); [done|].
    destruct path as [|c path]; [done|]. injection Hh as ->.
    unfold with_slash. case_decide; cbn [app prefixes mkdir_all]; change (47 =? 47) with true;
      cbn [mkdir_all]; by rewrite access_empty, mkdir_empty.
  - intros Ha Hr p Hp. subst r. rewrite Ha in *. destruct (_ <=? _); [done|].
    destruct (mkdir_all access mkdir ps fs) as [ret fs'] eqn:E. cbn in Hr. subst ret.
    exact (proj1 (mkdir_all_exists access mkdir ps fs fs' E) p Hp).
Qed.

(** ** Witness *)

(** A file system that is the list of its directories. *)
Definition demo_access (p : list Z) (fs : list (list Z)) : bool :=
  negb (bool_decide (p = [])) && bool_decide (p ∈ fs).
Definition demo_mkdir (p : list Z) (fs : list (list Z)) : option (list (list Z)) :=
  if decide (p = []) then None else Some (fs ++ [p]).

#[export] Instance demo_file_system : FileSystem demo_access demo_mkdir.
Proof.
  unfold demo_access, demo_mkdir. split; intros.
  - done.
  - done.
  - destruct (decide (p = [])); simplify_eq. rewrite bool_decide_eq_false_2 by done.
    apply bool_decide_eq_true_2, elem_of_app. right. by left.
  - destruct (decide (p = [])); simplify_eq. destruct (bool_decide (q = [])); [done|].
    cbn [negb andb] in *. apply bool_decide_eq_true in H0. apply bool_decide_eq_true_2, elem_of_app.
    by left.
Qed.

(** "a/b" and "/a" in an empty file system. *)
Lemma mkdir_p_spec_witness :
  mkdir_p demo_access demo_mkdir (Some [97; 47; 98; 0; 7]) [] = Some (0, [[97]; [97; 47; 98]])
  /\ mkdir_p demo_access demo_mkdir (Some [47; 97; 0]) [] = Some (-1, []).
Proof.
  assert (0 ∉ [97; 47; 98] /\ 0 ∉ [47; 97]) as [H1 H2] by (split; by_eval).
  destruct (mkdir_p_spec demo_access demo_mkdir [97; 47; 98] [7] [] H1) as (E1 & _ & _); [done|].
  destruct (mkdir_p_spec demo_access demo_mkdir [47; 97] [] [] H2) as (E2 & _ & _); [done|].
  split; [etransitivity; [exact E1|]|etransitivity; [exact E2|]]; vm_compute; reflexivity.
Defined.
