(* ===== verification/Storage.v ===== *)
(** * Files ([src/common/storage])

    Small files below [./log/], each written as a whole and read back.  The calls of the file
    system are an interface; its laws are those of POSIX for regular files. *)

From S2P Require Import Prelude CString.
Local Open Scope list_scope.
Local Open Scope Z_scope.

(** ** The file system *)

(** [open_new] is [open] with [O_WRONLY | O_CREAT | O_TRUNC], [open_read] with [O_RDONLY]; a
    read gives its result and the bytes it stored. *)
Class Files (F : Type) := {
  access : list Z -> F -> bool;
  mkdir : list Z -> F -> bool * F;
  open_new : list Z -> F -> Z * F;
  open_read : list Z -> F -> Z * F;
  write : Z -> list Z -> F -> Z * F;
  read : Z -> Z -> F -> Z * list Z * F;
  close : Z -> F -> F;
  unlink : list Z -> F -> Z * F;
  mutex_init : F -> Z * F
}.

(** The contents of the regular files, and the file and offset of a descriptor. *)
Class FilesLaws F `{!Files F} := {
  file : F -> list Z -> option (list Z);
  descriptor : F -> Z -> option (list Z * Z);
  open_new_law p f n f' : open_new p f = (n, f') ->
    if 0 <=? n then descriptor f' n = Some (p, 0) /\ file f' p = Some []
                    /\ forall q, q <> p -> file f' q = file f q
    else forall q, file f' q = file f q;
  open_read_law p f n f' : open_read p f = (n, f') ->
    (forall q, file f' q = file f q)
    /\ (0 <= n -> descriptor f' n = Some (p, 0) /\ is_Some (file f p));
  write_law d bs f n f' p : write d bs f = (n, f') -> descriptor f d = Some (p, 0) ->
    file f p = Some [] ->
    if 0 <=? n then n <= Zlen bs /\ file f' p = Some (take (Z.to_nat n) bs)
                    /\ forall q, q <> p -> file f' q = file f q
    else forall q, file f' q = file f q;
  read_law d size f n bs f' p c : read d size f = (n, bs, f') -> descriptor f d = Some (p, 0) ->
    file f p = Some c -> 0 <= size ->
    (forall q, file f' q = file f q)
    /\ if 0 <=? n then n <= size /\ n <= Zlen c /\ bs = take (Z.to_nat n) c
       else n = -1 /\ bs = [];
  close_law d f q : file (close d f) q = file f q;
  unlink_law p f n f' : unlink p f = (n, f') ->
    if 0 <=? n then file f' p = None /\ forall q, q <> p -> file f' q = file f q
    else forall q, file f' q = file f q
}.

(** ** The code *)

Definition STORAGE_FILE_NAME_LEN_MAX : Z := 256.
(** [./storage] *)
Definition strFolder : list Z := [46; 47; 115; 116; 111; 114; 97; 103; 101].
(** [./log/] *)
Definition strFileFolder : list Z := [46; 47; 108; 111; 103; 47].

(** [for( ; '/' == *strName; ++strName );] *)
Fixpoint skip_slashes (strName : list Z) : option (list Z) :=
  match strName with
  | [] => None
  | b :: strName' => if b =? 47 then skip_slashes strName' else Some strName
  end.

Section code.
Context {F : Type} {HF : Files F}.

(** The buffer [strFileName] with its contents before and after. *)
Definition storage_file_calculate_name (strFileName strName : list Z) : option (list Z) :=
  strFileName ← st_bytes strFileName 0 (strFileFolder ++ [0]);
  strName ← skip_slashes strName;
  n ← strlen strName;
  s ← ld_bytes strName 0 (n + 1);
  st_bytes strFileName (Zlen strFileFolder) s.

Definition storage_file_folder_create (f : F) : Z * F :=
  if access strFileFolder f then (0, f)
  else let '(made, f) := mkdir strFileFolder f in (if made : bool then 0 else -1, f).

Definition storage_file_init (f : F) : Z * F :=
  let '(eRet, f) := storage_file_folder_create f in
  if 0 <=? eRet then mutex_init f else (eRet, f).

Definition storage_init (f : F) : Z * F :=
  let '(eRet, f) := if access strFolder f then (0, f)
                    else let '(made, f) := mkdir strFolder f in (if made : bool then 0 else -1, f) in
  if 0 <=? eRet then let '(_, f) := storage_file_init f in (eRet, f) else (eRet, f).

(** [garbage] is what the buffer for the name holds. *)
Context (garbage : list Z).

Definition file_name (strName : list Z) : option (list Z) :=
  b ← storage_file_calculate_name garbage strName; Some (cstr b).

(** The three calls of a write; another thread may come between them. *)
Definition write_data (fd : Z) (pvData : list Z) (uLen : Z) (f : F) : option (Z * F) :=
  bs ← ld_bytes pvData 0 uLen;
  let '(n, f) := write fd bs f in
  Some (if n <? 0 then -1 else 0, f).

Definition storage_file_write (strName pvData : option (list Z)) (uLen : Z) (f : F) : option (Z * F) :=
  match strName, pvData with
  | Some strName, Some pvData =>
      strFileName ← file_name strName;
      let '(fd, f) := open_new strFileName f in
      if fd <? 0 then Some (-1, f) else
      '(ret, f) ← write_data fd pvData uLen f;
      Some (ret, close fd f)
  | _, _ => Some (0, f)
  end.

(** The result, the buffer and the file system. *)
Definition storage_file_read (strName pvBuffer : option (list Z)) (uSize : Z) (f : F)
  : option (Z * option (list Z) * F) :=
  match strName, pvBuffer with
  | Some strName, Some buf =>
      strFileName ← file_name strName;
      let '(fd, f) := open_read strFileName f in
      if fd <? 0 then Some (0, Some buf, f) else
      let '(n, bs, f) := read fd uSize f in
      buf ← st_bytes buf 0 bs;
      let len := i32 n in
      Some (if len <? 0 then 0 else len, Some buf, close fd f)
  | _, _ => Some (0, pvBuffer, f)
  end.

Definition storage_file_del (strName : option (list Z)) (f : F) : option (Z * F) :=
  match strName with
  | Some strName =>
      strFileName ← file_name strName;
      let '(ret, f) := unlink strFileName f in
      Some (if ret <? 0 then -1 else ret, f)
  | None => Some (-1, f)
  end.
End code.

(** ** Names *)

(** The name without the slashes at its front. *)
Definition bare (strName : list Z) : list Z := default [] (cstr <$> skip_slashes strName).

Lemma skip_slashes_spec strName : 0 ∈ strName ->
  exists r, skip_slashes strName = Some r /\ 0 ∈ r.
Proof.
  induction strName as [|b l IH]; intros H; [by apply not_elem_of_nil in H|]. cbn [skip_slashes].
  destruct (Z.eqb_spec b 47) as [->|]; [|by exists (b :: l)].
  apply IH. by apply elem_of_cons in H as [|].
Qed.

(** The name is the folder and the bare name, if that fits; otherwise the buffer on the stack
    is overrun. *)
Lemma file_name_spec garbage strName : Zlen garbage = STORAGE_FILE_NAME_LEN_MAX -> 0 ∈ strName ->
  file_name garbage strName
  = if Zlen (bare strName) <=? 249 then Some (strFileFolder ++ bare strName) else None.
Proof.
  intros Hg H. unfold file_name, storage_file_calculate_name, bare.
  destruct (skip_slashes_spec _ H) as (r & Er & Hr). rewrite Er. change (default [] (cstr <$> Some r)) with (cstr r).
  unfold STORAGE_FILE_NAME_LEN_MAX in Hg.
  rewrite <-(take_drop 7 garbage), (st_bytes_prefix (take 7 garbage)).
  2: { unfold Zlen in *. by rewrite length_take, Nat.min_l by lia. }
  cbn [mbind option_bind]. rewrite strlen_spec, decide_True by done. cbn [mbind option_bind].
  destruct (cstr_split r Hr) as [s Es].
  assert (El : ld_bytes r 0 (Zlen (cstr r) + 1) = Some (cstr r ++ [0])).
  { rewrite Es at 1. rewrite cons_middle, app_assoc. apply ld_bytes_prefix. by rewrite Zlen_app. }
  rewrite El. cbn [mbind option_bind]. destruct (Z.leb_spec (Zlen (cstr r)) 249).
  - rewrite <-app_assoc, (st_bytes_extend strFileFolder).
    + cbn [mbind option_bind]. f_equal. rewrite <-app_assoc, <-!app_assoc.
      rewrite cstr_app by (by_eval). rewrite cstr_app by apply cstr_no_zero. cbn [app cstr Z.eqb].
      by rewrite app_nil_r.
    + done.
    + rewrite !Zlen_app. unfold Zlen in *. rewrite length_drop. cbn. lia.
  - destruct (st_bytes _ _ (cstr r ++ [0])) as [b|] eqn:Eb; [|done]. exfalso.
    pose proof (proj1 (st_bytes_Some _ _ _) (mk_is_Some _ _ Eb)) as [_ Hle].
    rewrite !Zlen_app in Hle. unfold Zlen in *. rewrite length_drop in Hle. cbn in Hle. lia.
Qed.

(** ** Writing and reading *)

Section files.
Context {F : Type} {HF : Files F} {HL : FilesLaws F} (garbage : list Z).
Hypothesis Hg : Zlen garbage = STORAGE_FILE_NAME_LEN_MAX.

(** Transfers are complete unless they fail. *)
Definition transfers_all : Prop :=
  (forall d bs (f : F) n f', write d bs f = (n, f') -> 0 <= n -> n = Zlen bs)
  /\ forall d size (f : F) n bs f' p c, read d size f = (n, bs, f') -> descriptor f d = Some (p, 0) ->
       file f p = Some c -> 0 <= size -> 0 <= n -> n = Z.min size (Zlen c).

(** A name that is terminated and fits into the buffer. *)
Definition name_ok (strName : list Z) : Prop := 0 ∈ strName /\ Zlen (bare strName) <= 249.
Definition path (strName : list Z) : list Z := strFileFolder ++ bare strName.

Lemma file_name_ok strName : name_ok strName -> file_name garbage strName = Some (path strName).
Proof using Hg.
  intros [H0 Hl]. rewrite file_name_spec by done. by destruct (Z.leb_spec (Zlen (bare strName)) 249); [|lia].
Qed.

Lemma write_spec strName data uLen f : name_ok strName -> 0 <= uLen <= Zlen data ->
  exists ret f', storage_file_write garbage (Some strName) (Some data) uLen f = Some (ret, f')
    /\ (forall q, q <> path strName -> file f' q = file f q)
    /\ (ret = -1 \/ ret = 0 /\ exists n, 0 <= n <= uLen /\ file f' (path strName) = Some (take (Z.to_nat n) data)
                             /\ (transfers_all -> n = uLen)).
Proof using Hg HL.
  intros Hn Hu. unfold storage_file_write. rewrite file_name_ok by done. cbn [mbind option_bind].
  destruct (open_new (path strName) f) as [fd f1] eqn:Eo. pose proof (open_new_law _ _ _ _ Eo) as Ho.
  destruct (Z.ltb_spec fd 0) as [Hfd|Hfd].
  { destruct (Z.leb_spec 0 fd); [lia|]. exists (-1), f1. split; [done|]. split; [auto|by left]. }
  destruct (Z.leb_spec 0 fd); [|lia]. destruct Ho as (Hd & He & Hq). unfold write_data.
  destruct (proj2 (ld_bytes_Some data 0 uLen)) as [bs Eb]; [lia|]. rewrite Eb. cbn [mbind option_bind].
  destruct (write fd bs f1) as [n f2] eqn:Ew. pose proof (write_law _ _ _ _ _ _ Ew Hd He) as Hw.
  cbn [mbind option_bind]. pose proof (ld_bytes_len _ _ _ _ Eb) as Hlen.
  do 2 eexists. split; [reflexivity|]. destruct (Z.leb_spec 0 n).
  - destruct Hw as (Hle & Hf & Hq2). split.
    + intros q Hne. rewrite close_law, Hq2, Hq; done.
    + right. destruct (Z.ltb_spec n 0); [lia|]. split; [done|]. exists n. split; [lia|].
      rewrite close_law, Hf. split.
      * unfold ld_bytes in Eb. case_bool_decide; [|done]. injection Eb as <-.
        change (drop (Z.to_nat 0) data) with data. rewrite take_take. do 2 f_equal. lia.
      * intros [Hall _]. specialize (Hall _ _ _ _ _ Ew). lia.
  - split; [|by left; destruct (Z.ltb_spec n 0); [|lia]].
    intros q Hne. rewrite close_law, Hw, Hq; done.
Qed.

Lemma read_spec strName buf uSize f c : name_ok strName -> 0 <= uSize <= Zlen buf -> uSize < 2 ^ 31 ->
  file f (path strName) = Some c ->
  exists len f', storage_file_read garbage (Some strName) (Some buf) uSize f
                 = Some (len, Some (take (Z.to_nat len) c ++ drop (Z.to_nat len) buf), f')
    /\ (forall q, file f' q = file f q) /\ 0 <= len <= Z.min uSize (Zlen c)
    /\ (transfers_all -> 0 < len -> len = Z.min uSize (Zlen c)).
Proof using Hg HL.
  intros Hn Hu Hs Hc. unfold storage_file_read. rewrite file_name_ok by done. cbn [mbind option_bind].
  pose proof (Zlen_nonneg c).
  destruct (open_read (path strName) f) as [fd f1] eqn:Eo. destruct (open_read_law _ _ _ _ Eo) as [Hq Ho].
  destruct (Z.ltb_spec fd 0) as [Hfd|Hfd]; [exists 0, f1; split; [done|]; split; [done|lia]|].
  destruct (Ho Hfd) as [Hd _]. destruct (read fd uSize f1) as [[n bs] f2] eqn:Er.
  rewrite <-Hq in Hc. destruct (read_law _ _ _ _ _ _ _ _ Er Hd Hc) as [Hq2 Hr]; [lia|].
  destruct (Z.leb_spec 0 n) as [H0|H0].
  - destruct Hr as (Hn1 & Hn2 & ->).
    assert (El : length (take (Z.to_nat n) c) = Z.to_nat n) by (unfold Zlen in *; rewrite length_take; lia).
    rewrite (st_bytes_extend [] buf) by (done || (unfold Zlen in *; lia)). rewrite El. cbn [mbind option_bind app].
    assert (Ei : i32 n = n) by (unfold i32; rewrite Z.mod_small; lia). rewrite Ei. destruct (Z.ltb_spec n 0); [lia|]. do 2 eexists. split; [reflexivity|].
    split; [intros q; by rewrite close_law, Hq2, Hq|]. split; [lia|].
    intros [_ Hall] _. eapply Hall; (done || lia).
  - destruct Hr as [-> ->]. rewrite (st_bytes_extend [] buf) by (done || apply Zlen_nonneg).
    cbn [mbind option_bind app]. exists 0, (close fd f2). split; [done|].
    split; [intros q; by rewrite close_law, Hq2, Hq|lia].
Qed.

(** While a file is written it is empty for a reader, who does not wait for the writer: the
    mutex is only taken by writers. *)
Lemma read_while_writing strName buf uSize f fd f1 : name_ok strName -> 0 <= uSize <= Zlen buf ->
  uSize < 2 ^ 31 -> open_new (path strName) f = (fd, f1) -> 0 <= fd ->
  exists f2, storage_file_read garbage (Some strName) (Some buf) uSize f1 = Some (0, Some buf, f2).
Proof using Hg HL.
  intros Hn Hu Hs Eo Hfd. pose proof (open_new_law _ _ _ _ Eo) as Ho. destruct (Z.leb_spec 0 fd); [|lia].
  destruct Ho as (_ & He & _).
  destruct (read_spec strName buf uSize f1 [] Hn Hu Hs He) as (len & f2 & -> & _ & Hl & _).
  change (Zlen []) with 0 in Hl. assert (len = 0) as -> by lia. by exists f2.
Qed.

Lemma del_spec strName f : name_ok strName ->
  exists ret f', storage_file_del garbage (Some strName) f = Some (ret, f')
    /\ (forall q, q <> path strName -> file f' q = file f q)
    /\ (0 <= ret -> file f' (path strName) = None).
Proof using Hg HL.
  intros Hn. unfold storage_file_del. rewrite file_name_ok by done. cbn [mbind option_bind].
  destruct (unlink (path strName) f) as [n f1] eqn:Eu. pose proof (unlink_law _ _ _ _ Eu) as Hl.
  do 2 eexists. split; [reflexivity|]. destruct (Z.leb_spec 0 n).
  - destruct Hl as [Hp Hq]. split; [done|]. by destruct (Z.ltb_spec n 0); [lia|].
  - split; [auto|]. destruct (Z.ltb_spec n 0); lia.
Qed.

Lemma long_name strName : 0 ∈ strName -> 249 < Zlen (bare strName) -> file_name garbage strName = None.
Proof using Hg. intros H0 Hl. rewrite file_name_spec by done. by destruct (Z.leb_spec (Zlen (bare strName)) 249); [lia|]. Qed.

(** What is written under a name is read back.  A write that succeeds leaves every other
    file as it is; a later read under any name that is equal but for slashes at its front,
    with no change of the file in between, gives the beginning of the data and leaves the
    rest of the buffer as it was: the whole, or as much as the buffer takes, when the
    transfers of the file system are complete and the read does not fail.  A name whose part behind the slashes has more than 249
    characters overruns the buffer on the stack, in every function. *)
Lemma storage_roundtrip strName strName' data uLen buf uSize f f1 f2 :
  name_ok strName -> name_ok strName' -> bare strName' = bare strName ->
  0 <= uLen <= Zlen data -> 0 <= uSize <= Zlen buf -> uSize < 2 ^ 31 ->
  storage_file_write garbage (Some strName) (Some data) uLen f = Some (0, f1) ->
  (forall q, file f2 q = file f1 q) ->
  (forall q, q <> path strName -> file f1 q = file f q)
  /\ (exists len f3, storage_file_read garbage (Some strName') (Some buf) uSize f2
        = Some (len, Some (take (Z.to_nat len) data ++ drop (Z.to_nat len) buf), f3)
      /\ 0 <= len <= Z.min uSize uLen
      /\ (transfers_all -> 0 < len -> len = Z.min uSize uLen))
  /\ (forall long, 0 ∈ long -> 249 < Zlen (bare long) ->
       storage_file_write garbage (Some long) (Some data) uLen f = None
       /\ storage_file_read garbage (Some long) (Some buf) uSize f = None
       /\ storage_file_del garbage (Some long) f = None).
Proof using Hg HL.
  intros Hn Hn' Eb Hu Hb Hs Ew E2.
  destruct (write_spec strName data uLen f Hn Hu) as (ret & f' & E & Hq & Hr).
  rewrite Ew in E. injection E as <- <-. destruct Hr as [Hr|(_ & n & Hn1 & Hf & Hall)]; [done|].
  assert (Hp : file f2 (path strName') = Some (take (Z.to_nat n) data)).
  { rewrite E2. unfold path. by rewrite Eb. }
  assert (El : Zlen (take (Z.to_nat n) data) = n) by (unfold Zlen in *; rewrite length_take; lia).
  split; [done|]. split; [|intros long H0 Hl; unfold storage_file_write, storage_file_read, storage_file_del;
                           by rewrite long_name].
  destruct (read_spec strName' buf uSize f2 _ Hn' Hb Hs Hp) as (len & f3 & Er & _ & Hlen & Hlall).
  rewrite El in *. exists len, f3. rewrite Er, take_take, Nat.min_l by lia.
  split; [done|]. split; [lia|]. intros Hc Hpos. rewrite (Hlall Hc Hpos), (Hall Hc). done.
Qed.
End files.

(** ** A file system *)

(** One descriptor at a time, complete transfers. *)
Record demo_fs := { df_files : gmap (list Z) (list Z); df_open : option (list Z) }.

#[export] Instance demo_files : Files demo_fs := {|
  access p f := true;
  mkdir p f := (true, f);
  open_new p f := (3, {| df_files := <[p := []]> (df_files f); df_open := Some p |});
  open_read p f := if df_files f !! p is Some _ then (3, {| df_files := df_files f; df_open := Some p |}) else (-1, f);
  write d bs f := match df_open f with
                  | Some p => (Zlen bs, {| df_files := <[p := bs]> (df_files f); df_open := Some p |})
                  | None => (-1, f) end;
  read d size f := match df_open f ≫= λ p, df_files f !! p with
                   | Some c => let bs := take (Z.to_nat size) c in (Zlen bs, bs, f)
                   | None => (-1, [], f) end;
  close d f := {| df_files := df_files f; df_open := None |};
  unlink p f := if df_files f !! p is Some _ then (0, {| df_files := delete p (df_files f); df_open := df_open f |})
                else (-1, f);
  mutex_init f := (0, f)
|}.

#[export] Program Instance demo_files_laws : FilesLaws demo_fs := {|
  file f p := df_files f !! p;
  descriptor f d := if d =? 3 then (λ p, (p, 0)) <$> df_open f else None
|}.
Next Obligation.
  intros p f n f' [= <- <-]. cbn. split; [done|]. split; [apply lookup_insert_eq|].
  intros q Hq. by apply lookup_insert_ne.
Qed.
Next Obligation.
  intros p f n f'. cbn. destruct (df_files f !! p) eqn:E; intros [= <- <-]; (split; [done|]); [|lia].
  intros _. cbn. split; [done|eauto].
Qed.
Next Obligation.
  intros d bs f n f' p. cbn. destruct (df_open f) as [q|]; intros [= <- <-]; [|done].
  destruct (d =? 3); [|done]. intros [= ->] _. pose proof (Zlen_nonneg bs).
  destruct (Z.leb_spec 0 (Zlen bs)); [|lia]. split; [lia|]. cbn. rewrite lookup_insert_eq. split.
  - by rewrite Zlen_to_nat, take_ge by done.
  - intros r Hr. by apply lookup_insert_ne.
Qed.
Next Obligation.
  intros d size f n bs f' p c. cbn. destruct (df_open f) as [q|]; cbn; [|by destruct (d =? 3)].
  destruct (df_files f !! q) as [c'|] eqn:Ec; intros [= <- <- <-]; destruct (d =? 3); try done;
    intros [= ->]; rewrite Ec; intros [= ->] Hs; (split; [done|]).
  pose proof (Zlen_nonneg (take (Z.to_nat size) c)).
  destruct (Z.leb_spec 0 (Zlen (take (Z.to_nat size) c))); [|lia]. unfold Zlen. rewrite length_take.
  split; [lia|]. split; [lia|]. rewrite Nat2Z.id. rewrite <-take_take, (take_ge _ (length c)) by done. done.
Qed.
Next Obligation. done. Qed.
Next Obligation.
  intros p f n f'. cbn. destruct (df_files f !! p) eqn:E; intros [= <- <-]; [|done].
  cbn. split; [apply lookup_delete_eq|]. intros q Hq. by apply lookup_delete_ne.
Qed.

Lemma demo_transfers : transfers_all (F := demo_fs).
Proof.
  split.
  - intros d bs f n f'. cbn. destruct (df_open f); intros [= <- <-]; [done|lia].
  - intros d size f n bs f' p c. cbn. destruct (df_open f) as [q|]; cbn; [|by destruct (d =? 3)].
    destruct (df_files f !! q) as [c'|] eqn:Ec; intros [= <- <- <-]; destruct (d =? 3); try done;
      intros [= ->]; rewrite Ec; intros [= ->] Hs Hn.
    unfold Zlen. rewrite length_take. lia.
Qed.

(** [/a/b] and [a/b], and more room than data. *)
Lemma storage_roundtrip_witness :
  let garbage := replicate 256 7 in
  let f0 := {| df_files := ∅; df_open := None |} in
  let f1 := {| df_files := {[ strFileFolder ++ [97; 47; 98] := [1; 2; 3] ]}; df_open := None |} in
  storage_file_write garbage (Some [47; 97; 47; 98; 0]) (Some [1; 2; 3; 4]) 3 f0 = Some (0, f1)
  /\ (exists len f3, storage_file_read garbage (Some [97; 47; 98; 0]) (Some [9; 9; 9; 9; 9]) 5 f1
        = Some (len, Some (take (Z.to_nat len) [1; 2; 3; 4] ++ drop (Z.to_nat len) [9; 9; 9; 9; 9]), f3)
      /\ 0 <= len <= 3 /\ (0 < len -> len = 3)).
Proof.
  intros garbage f0 f1.
  assert (Ew : storage_file_write garbage (Some [47; 97; 47; 98; 0]) (Some [1; 2; 3; 4]) 3 f0 = Some (0, f1))
    by (vm_compute; reflexivity).
  split; [exact Ew|].
  destruct (storage_roundtrip garbage eq_refl [47; 97; 47; 98; 0] [97; 47; 98; 0] [1; 2; 3; 4] 3 [9; 9; 9; 9; 9]
    5 f0 f1 f1) as (_ & (len & f3 & Er & Hl & Hall) & _);
    [split; by_eval|split; by_eval|reflexivity|by_eval|by_eval|by_eval|exact Ew|done|].
  exists len, f3. split; [exact Er|]. split; [exact Hl|]. exact (Hall demo_transfers).
Defined.
