(* ===== verification/PtzApp.v ===== *)
(** * The video stream of the head ([src/app/ptz/ptz_app.cpp])

    A thread opens the stream of the camera, reads it and queues the pictures; the thread of
    the algorithm takes them out.  Here are the thread as a machine with one turn per pass of
    its loops, its start and its end; the operations on the queue are those of [AlgApp].  A
    picture is what [cv::Mat] is, a reference to its data. *)

From S2P Require Import Prelude EthLinkPtz AiMain AlgApp.
Local Open Scope list_scope.
Local Open Scope Z_scope.

Definition DEFAULT_PTZ_READ_FRAME_TIME : Z := 20.

(** ** The code *)

(** Where the thread is: before its first line, about to open the stream, about to read a
    picture, at its end. *)
Inductive stream_pc := ST_start | ST_open | ST_read | ST_exit.

#[export] Instance stream_pc_dec : EqDecision stream_pc.
Proof. solve_decision. Defined.

(** The fields of the static object; [count] is local to the thread. *)
Record ptz_ctrl F := {
  st_pc : stream_pc; st_count : Z; stop_capture : bool; stop_stream : bool; st_q : list F
}.
Arguments st_pc {_}.
Arguments st_count {_}.
Arguments stop_capture {_}.
Arguments stop_stream {_}.
Arguments st_q {_}.

Section stream.
Context {F : Type}.
Implicit Types p : ptz_ctrl F.

Definition st_goto (pc : stream_pc) (count : Z) p : ptz_ctrl F :=
  {| st_pc := pc; st_count := count; stop_capture := stop_capture p;
     stop_stream := stop_stream p; st_q := st_q p |}.
Definition st_set_q (q : list F) p : ptz_ctrl F :=
  {| st_pc := st_pc p; st_count := st_count p; stop_capture := stop_capture p;
     stop_stream := stop_stream p; st_q := q |}.
Definition st_set_stop (capture stream : bool) p : ptz_ctrl F :=
  {| st_pc := st_pc p; st_count := st_count p; stop_capture := capture;
     stop_stream := stream; st_q := st_q p |}.

(** [while(!ptz_p->stop_stream)] *)
Definition outer_loop (count : Z) p : ptz_ctrl F :=
  st_goto (if stop_stream p then ST_exit else ST_open) count p.
(** [while(!ptz_p->stop_capture)] *)
Definition inner_loop (count : Z) p : ptz_ctrl F :=
  if stop_capture p then outer_loop count p else st_goto ST_read count p.

(** A turn; [opened], [frame] and [lock] are what the stream and the mutex answer. *)
Definition ptz_camera_stream_thread (opened : bool) (frame : option F) (lock : Z) p : ptz_ctrl F :=
  match st_pc p with
  | ST_start => st_goto ST_open 0 (st_set_stop false false p)
  | ST_open =>
      if opened then inner_loop (st_count p) p
      else
        let count := st_count p + 1 in
        outer_loop (if DEFAULT_PTZ_READ_FRAME_TIME <? count then 0 else count) p
  | ST_read =>
      match frame with
      | None => outer_loop (st_count p) p
      | Some f =>
          let p := st_set_q (ptz_camera_frame (st_q p) f lock) p in
          inner_loop (if lock =? 0 then 0 else st_count p) p
      end
  | ST_exit => p
  end.

(** The result, and the state when the thread was created. *)
Definition ptz_thread_load (create : Z) p : Z * ptz_ctrl F :=
  if negb (create =? 0) then (-1, p) else (0, st_goto ST_start 0 p).

(** [link] is what the creation of the socket answers. *)
Definition load_ptz (link create : Z) (addrs : list (option nat)) (k : ptz_link ai_state) p
  : option (Z * ptz_link ai_state * ptz_ctrl F) :=
  if negb (link =? 0) then Some (link, k, p) else
  '(ret, k) ← register_control_ptz_comands k addrs;
  if negb (ret =? 0) then Some (ret, k, p) else
  let '(ret, p) := ptz_thread_load create (st_set_stop false (stop_stream p) p) in
  Some (ret, k, p).

(** The two assignments of [relase_ptz_resource] before its [pthread_join]; the thread may take
    turns between them. *)
Inductive relase_step := RS_capture | RS_stream.
Definition relase_ptz_resource (i : relase_step) p : ptz_ctrl F :=
  match i with
  | RS_capture => st_set_stop true (stop_stream p) p
  | RS_stream => st_set_stop (stop_capture p) true p
  end.

(** ** The stream and its readers *)

Inductive stream_event :=
| Ev_turn (opened : bool) (frame : option F) (lock : Z)   (* of the thread *)
| Ev_capture (lock : Z)                                   (* by the algorithm *)
| Ev_relase (i : relase_step).

(** With the pictures that were read and those that were taken, in order. *)
Record stream_world := {
  sw_ptz : ptz_ctrl F; sw_read : list F; sw_taken : list F
}.

Definition stream_step (e : stream_event) (w : stream_world) : stream_world :=
  let p := sw_ptz w in
  match e with
  | Ev_turn opened frame lock =>
      {| sw_ptz := ptz_camera_stream_thread opened frame lock p;
         sw_read := sw_read w ++ (if decide (st_pc p = ST_read) then option_list frame else []);
         sw_taken := sw_taken w |}
  | Ev_capture lock =>
      let '(_, frame, q) := capture_ptz_vstream_pic (st_q p) lock in
      {| sw_ptz := st_set_q q p; sw_read := sw_read w; sw_taken := sw_taken w ++ option_list frame |}
  | Ev_relase i => {| sw_ptz := relase_ptz_resource i p; sw_read := sw_read w; sw_taken := sw_taken w |}
  end.

Definition stream_run (l : list stream_event) (w : stream_world) : stream_world :=
  foldl (λ w e, stream_step e w) w l.

(** *** The queue *)

Record stream_ok (w : stream_world) : Prop := {
  so_bound : (length (st_q (sw_ptz w)) <= 5)%nat;
  so_order : sw_taken w ++ st_q (sw_ptz w) `sublist_of` sw_read w
}.

Lemma loops_q count p : st_q (inner_loop count p) = st_q p /\ st_q (outer_loop count p) = st_q p.
Proof. unfold inner_loop, outer_loop. by destruct (stop_capture p). Qed.

Lemma frame_order (t r q : list F) f lock : t ++ q `sublist_of` r ->
  t ++ ptz_camera_frame q f lock `sublist_of` r ++ [f].
Proof.
  intros H. unfold ptz_camera_frame. destruct (negb _); [by apply sublist_inserts_r|]. cbv zeta.
  rewrite app_assoc. apply sublist_app; [|done]. etrans; [|exact H]. apply sublist_app; [done|].
  destruct (4 <? length q)%nat; [|done]. destruct q; [done|]. by apply sublist_cons.
Qed.

Lemma stream_turn_ok opened frame lock w : stream_ok w -> stream_ok (stream_step (Ev_turn opened frame lock) w).
Proof.
  intros [Hb Ho]. unfold stream_step, ptz_camera_stream_thread. cbv zeta.
  destruct (st_pc (sw_ptz w)); cbn [decide sw_ptz sw_read sw_taken].
  - split; cbn; [done|]. rewrite app_nil_r. done.
  - destruct opened; split; cbn [sw_ptz sw_read sw_taken]; rewrite ?app_nil_r;
      try (rewrite (proj1 (loops_q _ _)); done); rewrite (proj2 (loops_q _ _)); done.
  - destruct frame as [f|]; cbn [option_list].
    + split; cbn [sw_ptz sw_read sw_taken]; rewrite (proj1 (loops_q _ _)); cbn [st_set_q st_q].
      * by apply frames_bound.
      * by apply frame_order.
    + split; cbn [sw_ptz sw_read sw_taken]; rewrite ?app_nil_r, (proj2 (loops_q _ _)); done.
  - split; cbn; rewrite ?app_nil_r; done.
Qed.

Lemma stream_step_ok e w : stream_ok w -> stream_ok (stream_step e w).
Proof.
  destruct e as [opened frame lock|lock|i]; [apply stream_turn_ok| |].
  - intros [Hb Ho]. cbn [stream_step]. unfold capture_ptz_vstream_pic.
    destruct (negb _); [split; cbn; rewrite ?app_nil_r; done|].
    destruct (st_q (sw_ptz w)) as [|f q] eqn:Eq.
    + split; cbn; [lia|]. by rewrite app_nil_r.
    + split; cbn in *; [lia|]. by rewrite <-app_assoc.
  - intros [Hb Ho]. by destruct i; split.
Qed.

Lemma stream_run_ok l w : stream_ok w -> stream_ok (stream_run l w).
Proof. revert w. induction l as [|e l IH]; intros w Hw; [done|]. by apply IH, stream_step_ok. Qed.

(** A picture is only lost when four wait already, or without the lock. *)
Lemma turn_keeps opened f w : st_pc (sw_ptz w) = ST_read -> (length (st_q (sw_ptz w)) <= 4)%nat ->
  sw_taken w ++ st_q (sw_ptz w) = sw_read w ->
  let w' := stream_step (Ev_turn opened (Some f) 0) w in
  sw_taken w' ++ st_q (sw_ptz w') = sw_read w' /\ last (st_q (sw_ptz w')) = Some f.
Proof.
  intros Hpc Hl E. unfold stream_step, ptz_camera_stream_thread. rewrite Hpc, decide_True by done.
  cbn [sw_ptz sw_read sw_taken]. rewrite (proj1 (loops_q _ _)). cbn [st_set_q st_q option_list].
  unfold ptz_camera_frame. cbn [Z.eqb negb]. destruct (Nat.ltb_spec 4 (length (st_q (sw_ptz w)))); [lia|].
  cbv zeta. split; [by rewrite app_assoc, E|apply last_snoc].
Qed.

(** *** The end *)

Definition is_turn (e : stream_event) : bool := if e is Ev_turn _ _ _ then true else false.
(** A turn in which the stream fails. *)
Definition is_failure (e : stream_event) : bool :=
  if e is Ev_turn false None _ then true else false.
Definition is_relase (e : stream_event) : bool := if e is Ev_relase _ then true else false.

(** The thread has begun, with these flags. *)
Definition begun (capture stream : bool) (p : ptz_ctrl F) : Prop :=
  st_pc p <> ST_start /\ stop_capture p = capture /\ stop_stream p = stream.
(** It has begun and has not ended. *)
Definition running (p : ptz_ctrl F) : Prop :=
  begun false false p /\ st_pc p <> ST_exit.

Lemma loops_begun capture stream count p : stop_capture p = capture -> stop_stream p = stream ->
  begun capture stream (inner_loop count p) /\ begun capture stream (outer_loop count p).
Proof.
  intros Hc Hs. unfold inner_loop, outer_loop, begun. rewrite Hc, Hs.
  destruct capture, stream; cbn; by rewrite ?Hc, ?Hs.
Qed.

Lemma start_runs opened frame lock p : st_pc p = ST_start ->
  running (ptz_camera_stream_thread opened frame lock p).
Proof. intros Hp. unfold ptz_camera_stream_thread. rewrite Hp. by unfold running, begun. Qed.

Lemma begun_turn capture stream opened frame lock p : begun capture stream p ->
  begun capture stream (ptz_camera_stream_thread opened frame lock p).
Proof.
  intros (Hp & Hc & Hs). unfold ptz_camera_stream_thread.
  destruct (st_pc p) eqn:E; [done| | |unfold begun; by rewrite E].
  - destruct opened; by apply loops_begun.
  - destruct frame; by apply loops_begun.
Qed.

Lemma running_turn opened frame lock p : running p -> running (ptz_camera_stream_thread opened frame lock p).
Proof.
  intros [Hb He]. split; [by apply begun_turn|]. destruct Hb as (Hp & Hc & Hs).
  unfold ptz_camera_stream_thread, inner_loop, outer_loop. destruct (st_pc p); try done.
  - destruct opened; cbn [stop_capture st_set_q]; by rewrite ?Hc, ?Hs.
  - destruct frame; cbn [stop_capture st_set_q]; by rewrite ?Hc, ?Hs.
Qed.

(** With both flags the next turn is the last, with the second one the next failure is. *)
Lemma asked_turn opened frame lock p : begun true true p ->
  st_pc (ptz_camera_stream_thread opened frame lock p) = ST_exit.
Proof.
  intros (Hp & Hc & Hs). unfold ptz_camera_stream_thread, inner_loop, outer_loop.
  destruct (st_pc p) eqn:E; [done| | |done].
  - destruct opened; cbn; by rewrite ?Hc, ?Hs.
  - destruct frame; cbn; by rewrite ?Hc, ?Hs.
Qed.

Lemma failed_turn lock p : begun false true p ->
  st_pc (ptz_camera_stream_thread false None lock p) = ST_exit.
Proof.
  intros (Hp & Hc & Hs). unfold ptz_camera_stream_thread, outer_loop.
  destruct (st_pc p) eqn:E; cbn; by rewrite ?Hs.
Qed.

Lemma running_set_q q p : running p -> running (st_set_q q p).
Proof. done. Qed.

(** Properties of the thread hold through turns and captures. *)
Section runs.
Context (P : ptz_ctrl F -> Prop).
Hypothesis (Pq : forall q p, P p -> P (st_set_q q p)).
Hypothesis (Pturn : forall opened frame lock p, P p -> P (ptz_camera_stream_thread opened frame lock p)).

Lemma step_keeps e w : is_relase e = false -> P (sw_ptz w) -> P (sw_ptz (stream_step e w)).
Proof using Pq Pturn.
  intros He Hw. destruct e as [opened frame lock|lock|i]; [by apply Pturn| |done].
  cbn [stream_step]. destruct (capture_ptz_vstream_pic _ _) as [[? ?] ?]. by apply Pq.
Qed.

Lemma run_keeps l w : Forall (λ e, is_relase e = false) l -> P (sw_ptz w) -> P (sw_ptz (stream_run l w)).
Proof using Pq Pturn.
  intros Hl. revert w. induction Hl as [|e l He _ IH]; intros w Hw; [done|]. by apply IH, step_keeps.
Qed.
End runs.

Lemma exit_keeps l w : Forall (λ e, is_relase e = false) l -> st_pc (sw_ptz w) = ST_exit ->
  st_pc (sw_ptz (stream_run l w)) = ST_exit.
Proof.
  apply (run_keeps (λ p, st_pc p = ST_exit)); [done|]. intros opened frame lock p E.
  unfold ptz_camera_stream_thread. by rewrite E.
Qed.

Lemma run_begun capture stream l w : Forall (λ e, is_relase e = false) l ->
  begun capture stream (sw_ptz w) -> begun capture stream (sw_ptz (stream_run l w)).
Proof. apply run_keeps; [done|]. intros. by apply begun_turn. Qed.

(** The first event that ends the thread. *)
Lemma run_ends capture stream (good : stream_event -> bool) l w :
  (forall e w, good e = true -> begun capture stream (sw_ptz w) ->
     st_pc (sw_ptz (stream_step e w)) = ST_exit) ->
  Forall (λ e, is_relase e = false) l -> begun capture stream (sw_ptz w) -> existsb good l = true ->
  st_pc (sw_ptz (stream_run l w)) = ST_exit.
Proof.
  intros Hg Hl. revert w. induction Hl as [|e l He Hl IH]; intros w Hw; [done|]. cbn [existsb].
  destruct (good e) eqn:E; cbn [orb].
  - intros _. apply (exit_keeps l); [done|]. by apply Hg.
  - apply IH. apply (step_keeps (begun capture stream)); [done| |done|done]. intros. by apply begun_turn.
Qed.

(** Before its first turn the thread is at its start, whatever else happens. *)
Lemma run_start l w : Forall (λ e, is_relase e = false) l -> st_pc (sw_ptz w) = ST_start ->
  if existsb is_turn l then running (sw_ptz (stream_run l w))
  else st_pc (sw_ptz (stream_run l w)) = ST_start.
Proof.
  intros Hl. revert w. induction Hl as [|e l He Hl IH]; intros w Hw; [done|].
  destruct e as [opened frame lock|lock|i]; [| |done]; cbn [existsb is_turn orb].
  - apply (run_keeps running running_set_q running_turn l); [done|]. by apply start_runs.
  - apply IH. cbn [stream_step]. by destruct (capture_ptz_vstream_pic _ _) as [[? ?] ?].
Qed.

Lemma stream_run_split l1 e l2 w :
  stream_run (l1 ++ e :: l2) w = stream_run l2 (stream_step e (stream_run l1 w)).
Proof. unfold stream_run. by rewrite foldl_app. Qed.
End stream.

(** ** Properties *)

(** C40: the end of the stream's thread, which [relase_ptz_resource] waits for.  The two
    assignments that ask for it and the turns of the thread interleave in any way.  When the
    first assignment comes after the first turn of the thread, the thread is at its end with
    the next turn after the second, whatever the stream and the lock answer, and stays there:
    the join returns.  But the thread itself clears both flags in its first turn.  When this
    is between the assignments, it ends with the next failure of the stream; when it is after
    both, the thread runs for ever and the join never returns.  Until then the pictures are
    handed on in the order in which they were read and never more than five wait. *)
Theorem stream_stops {F} (l1 l2 l3 : list (stream_event (F := F))) (w : stream_world (F := F)) :
  st_pc (sw_ptz w) = ST_start -> st_q (sw_ptz w) = [] -> sw_taken w = [] ->
  Forall (λ e, is_relase e = false) l1 -> Forall (λ e, is_relase e = false) l2 ->
  Forall (λ e, is_relase e = false) l3 -> existsb is_turn l3 = true ->
  let w' := stream_run (l1 ++ Ev_relase RS_capture :: l2 ++ Ev_relase RS_stream :: l3) w in
  (if existsb is_turn l1 then st_pc (sw_ptz w') = ST_exit
   else if existsb is_turn l2
        then begun false true (sw_ptz w')
             /\ (existsb is_failure l3 = true -> st_pc (sw_ptz w') = ST_exit)
        else running (sw_ptz w'))
  /\ (length (st_q (sw_ptz w')) <= 5)%nat /\ sw_taken w' ++ st_q (sw_ptz w') `sublist_of` sw_read w'.
Proof.
  intros Hpc Hq Ht Hl1 Hl2 Hl3 Hturn w'. split.
  - unfold w'. rewrite !stream_run_split.
    pose proof (run_start l1 w Hl1 Hpc) as H. destruct (existsb is_turn l1).
    + apply (run_ends true true is_turn); [|done| |done].
      { intros [| |] w0 He Hb; [by apply asked_turn|done|done]. }
      assert (Hb : begun true false (sw_ptz (stream_run l2 (stream_step (Ev_relase RS_capture) (stream_run l1 w))))).
      { apply run_begun; [done|]. destruct H as [(? & ? & ?) _]. by split. }
      destruct Hb as (? & ? & ?). by split.
    + pose proof (run_start l2 (stream_step (Ev_relase RS_capture) (stream_run l1 w)) Hl2 H) as H2.
      destruct (existsb is_turn l2).
      * assert (Hb : begun false true (sw_ptz (stream_step (Ev_relase RS_stream)
            (stream_run l2 (stream_step (Ev_relase RS_capture) (stream_run l1 w)))))).
        { destruct H2 as [(? & ? & ?) _]. by split. }
        split; [by apply run_begun|]. apply (run_ends false true is_failure); [|done|done].
        intros [[] [] ?| |] w0 He Hw; try done. by apply failed_turn.
      * pose proof (run_start l3 (stream_step (Ev_relase RS_stream)
            (stream_run l2 (stream_step (Ev_relase RS_capture) (stream_run l1 w)))) Hl3 H2) as H3.
        by rewrite Hturn in H3.
  - destruct (stream_run_ok (l1 ++ Ev_relase RS_capture :: l2 ++ Ev_relase RS_stream :: l3) w) as [Hb Ho]; [|done].
    split; [rewrite Hq; cbn; lia|]. rewrite Hq, Ht. apply sublist_nil_l.
Qed.

(** ** Witnesses *)

Definition demo_stream : ptz_ctrl Z :=
  {| st_pc := ST_start; st_count := 0; stop_capture := false; stop_stream := false; st_q := [] |}.

(** Two pictures, one of which is taken; the first turn between the assignments; and both
    assignments before the thread has started. *)
Lemma stream_stops_witness :
  let w := {| sw_ptz := demo_stream; sw_read := []; sw_taken := [] |} in
  let turn f := Ev_turn true (Some f) 0 in
  let capture := Ev_relase RS_capture in
  let stream := Ev_relase RS_stream in
  st_pc (sw_ptz (stream_run [turn 1; turn 1; turn 7; turn 8; Ev_capture 0; capture; turn 9; stream; turn 1] w))
    = ST_exit
  /\ begun false true (sw_ptz (stream_run [capture; turn 1; stream; turn 1; turn 2] w))
  /\ running (sw_ptz (stream_run [capture; stream; turn 1; turn 2] w)).
Proof.
  intros w turn capture stream. split; [|split].
  - refine (proj1 (stream_stops [turn 1; turn 1; turn 7; turn 8; Ev_capture 0] [turn 9] [turn 1] w _ _ _ _ _ _ _));
      try reflexivity; repeat constructor.
  - refine (proj1 (proj1 (stream_stops [] [turn 1] [turn 1; turn 2] w _ _ _ _ _ _ _)));
      try reflexivity; repeat constructor.
  - refine (proj1 (stream_stops [] [] [turn 1; turn 2] w _ _ _ _ _ _ _)); try reflexivity; repeat constructor.
Defined.
