(* ===== verification/AlgStart.v ===== *)
(** * Starting and ending the algorithms ([src/app/alg_app/alg_app.cpp])

    [alg_init] loads the handler of the packages and creates the thread of the algorithm;
    [alg_uninit] asks it to end and waits. *)

From S2P Require Import Prelude SysportTask AlgInterface TargetList AlgApp Tools.
Local Open Scope list_scope.
Local Open Scope Z_scope.

Definition RET_VALUE_MALLOC_FAIL : Z := -3.

(** ** The code *)

(** [alg_t] and the task of the packages; [al_tids] are the thread ids in [task_list], and
    [al_threads] the threads that were created and have not been joined. *)
Record alg_life := {
  al_ctrl : alg_ctrl alg_app_res; al_release : bool; al_mutex : bool;
  al_tids : option (list Z); al_threads : list Z
}.

(** The answers of the calls: [malloc], the queue and the thread of the task, the mutex, the
    allocation of the list, and the id of the thread. *)
Record alg_answers := {
  an_malloc : bool; an_mq : bool; an_pthread : bool; an_mutex : Z; an_list : bool; an_tid : Z
}.

(** [alg_t.targets_num = 0; alg_t.head = NULL; alg_t.user_target = NULL;] *)
Definition reset_targets (s : alg_app_res) : alg_app_res :=
  {| aa_head := None; aa_user_target := None; aa_targets_num := 0;
     aa_nodes := aa_nodes s; aa_packs := aa_packs s |}.

Definition reset_world (w : alg_world alg_app_res) : alg_world alg_app_res :=
  {| mtargets_handle := mtargets_handle w; alg_user := reset_targets (alg_user w) |}.
Definition reset_ctrl (o : alg_ctrl alg_app_res) : alg_ctrl alg_app_res :=
  {| pvalgtask := (λ t, {| ts_module := ts_module t; ts_live := ts_live t;
                           ts_world := reset_world (ts_world t) |}) <$> pvalgtask o;
     alg_idle := reset_world (alg_idle o); alg_live := alg_live o |}.

(** What [opt_thread_task] does with the ids of a list; joining an id that no thread has is
    undefined. *)
Definition do_event (tids : list Z) (threads : option (list Z)) (e : thread_event) : option (list Z) :=
  threads ← threads;
  match e with
  | ev_join i => t ← tids !! i;
                 if decide (t ∈ threads) then Some (filter (λ u, u <> t) threads) else None
  | _ => Some threads
  end.

(** The thread's id is written to the local list, after its copy has been made. *)
Definition alg_init (handler : multiple_targets_algs_handle alg_app_res) (a : alg_answers)
    (s : alg_life) : alg_life * Z :=
  let '(o, ret) := load_multiple_targets_algs (al_ctrl s) (Some handler) (an_malloc a) (an_mq a)
                     (an_pthread a) in
  let s := {| al_ctrl := o; al_release := al_release s; al_mutex := al_mutex s;
              al_tids := al_tids s; al_threads := al_threads s |} in
  if negb (ret =? 0) then (s, ret) else
  if negb (an_mutex a =? 0) then (s, an_mutex a) else
  let s := {| al_ctrl := reset_ctrl o; al_release := false; al_mutex := true; al_tids := al_tids s;
              al_threads := al_threads s |} in
  if negb (an_list a) then
    ({| al_ctrl := al_ctrl s; al_release := false; al_mutex := true; al_tids := None;
        al_threads := al_threads s |}, RET_VALUE_MALLOC_FAIL)
  else
    let task_list := [0] in
    let '(ret, evs) := opt_thread_task (λ _, 0) (length task_list) TASK_OPT_CREATE in
    ({| al_ctrl := al_ctrl s; al_release := false; al_mutex := true; al_tids := Some task_list;
        al_threads := al_threads s ++ ((λ _, an_tid a) <$> evs) |}, ret).

Definition alg_uninit (malloc_ok mq_ok : bool) (s : alg_life) : option (alg_life * Z) :=
  threads ← match al_tids s with
            | Some tids =>
                let '(_, evs) := opt_thread_task (λ _, 0) (length tids) TASK_OPT_WAIT in
                foldl (do_event tids) (Some (al_threads s)) evs
            | None => Some (al_threads s)
            end;
  '(o, ret) ← unload_multiple_targets_algs (al_ctrl s) malloc_ok mq_ok;
  Some ({| al_ctrl := o; al_release := true; al_mutex := false; al_tids := None;
           al_threads := threads |}, ret).

(** ** What they do *)

(** On success the handler is loaded, no target waits, and the thread runs. *)
Lemma alg_init_ok handler a s :
  an_malloc a = true -> an_mq a = true -> an_pthread a = true -> an_mutex a = 0 -> an_list a = true ->
  exists t m, alg_init handler a s
    = ({| al_ctrl := {| pvalgtask := Some t; alg_idle := ts_world t; alg_live := alg_live (al_ctrl s) |};
          al_release := false; al_mutex := true; al_tids := Some [0];
          al_threads := al_threads s ++ [an_tid a] |}, 0)
    /\ ts_module t = Some m /\ mq m = [] /\ mtargets_handle (ts_world t) = Some handler
    /\ aa_head (alg_user (ts_world t)) = None /\ aa_user_target (alg_user (ts_world t)) = None
    /\ aa_targets_num (alg_user (ts_world t)) = 0.
Proof.
  intros H1 H2 H3 H4 H5. unfold alg_init, load_multiple_targets_algs, load_alg_task, sysport_task_create.
  rewrite H1, H2, H3. cbn [negb Z.eqb]. rewrite H4. cbn [negb Z.eqb]. rewrite H5. cbn.
  exists {| ts_module := Some {| strName := [47; 97; 108; 103; 95; 116; 97; 115; 107]; tm_pvArg := 0; mq := [] |};
            ts_live := alg_live (al_ctrl s) + 1;
            ts_world := reset_world {| mtargets_handle := Some handler;
                                       alg_user := alg_user (alg_idle (al_ctrl s)) |} |}.
  eexists. split; [reflexivity|]. done.
Qed.

(** After any failure behind the loading the handler stays loaded and its task runs. *)
Lemma alg_init_fails handler a s s' ret : alg_init handler a s = (s', ret) -> ret <> 0 ->
  al_threads s' = al_threads s
  /\ (pvalgtask (al_ctrl s') = None \/ an_mutex a <> 0 \/ an_list a = false).
Proof.
  unfold alg_init, load_multiple_targets_algs, load_alg_task, sysport_task_create.
  destruct (an_malloc a), (an_mq a), (an_pthread a); cbn [negb Z.eqb];
    try (intros [= <- <-] _; split; [done|by left]).
  destruct (Z.eqb_spec (an_mutex a) 0); cbn [negb]; [|intros [= <- <-] _; auto].
  destruct (an_list a); cbn [negb]; intros [= <- <-] Hr; [done|auto].
Qed.

(** The end joins the id 0 of the copy, which is no thread's. *)
Lemma alg_uninit_undefined handler a s s1 m q :
  alg_init handler a s = (s1, 0) -> 0 ∉ al_threads s -> an_tid a <> 0 ->
  alg_uninit m q s1 = None.
Proof.
  intros Hi H0 Ht.
  assert (E : al_tids s1 = Some [0] /\ al_threads s1 = al_threads s ++ [an_tid a]).
  { revert Hi. unfold alg_init. destruct (load_multiple_targets_algs _ _ _ _ _) as [o r].
    destruct (Z.eqb_spec r 0); cbn [negb]; [|by intros [= _ ?]].
    destruct (Z.eqb_spec (an_mutex a) 0); cbn [negb]; [|by intros [= _ ?]].
    destruct (an_list a); cbn; [|by intros [= _ ?]]. by intros [= <-]. }
  destruct E as [E1 E2]. unfold alg_uninit. rewrite E1, E2. cbn. rewrite decide_False; [done|].
  rewrite elem_of_app, list_elem_of_singleton. intros [|]; congruence.
Qed.

(** After a failed start the end is defined: it only unloads the handler. *)
Lemma alg_uninit_unstarted s : al_tids s = None ->
  alg_uninit true true s = '(o, ret) ← unload_multiple_targets_algs (al_ctrl s) true true;
    Some ({| al_ctrl := o; al_release := true; al_mutex := false; al_tids := None;
             al_threads := al_threads s |}, ret).
Proof. intros E. unfold alg_uninit. by rewrite E. Qed.
